(* ===== verification/_CoqProject ===== *)
-Q . S2P
Prelude.v
ByteOps.v
CStr.v
MsgQueue.v
Strtox.v
Validate.v
Version.v
DList.v
DListOps.v
DListSort.v
ListHead.v
Containers.v
Map.v
MemPool.v
MemDetail.v
Sds.v
Md5.v
Process.v
FileSystem.v
FilePut.v
FilePutRun.v
Log.v
FileTransfer.v
FileGet.v
FileGetRun.v
FileGetTransfer.v
Huffman.v
HuffmanTree.v
HuffmanCodes.v
HuffmanRound.v
BTree.v
Encode.v
Layout.v
ReqResp.v
SerializeRaw.v
SerializeTable.v
Xdr.v
XdrProcs.v
XdrFlat.v
XdrTable.v
GenParse.v
GenSource.v
GenRun.v
GenReqResp.v
GenRender.v
GenCorrect.v
GenXdr.v
GenXdrText.v
GenTrans.v
GenConfig.v
NetTrans.v
PutLink.v
RwLock.v
Atomic.v
UpdateLock.v
ThreadPool.v
PoolLife.v
CmdLine.v
Messages.v
Ids.v
Display.v
FileTree.v
FileMisc.v
Config.v
Sessions.v
Server.v
Client.v
Connection.v
Login.v
UserDb.v
LineEdit.v
ClientMain.v
TestRun.v
Lifecycle.v
ShmSpace.v
CommandList.v
CommandFile.v
StartUp.v
Forward.v
ForwardRun.v
