(* ===== verification/Prelude.v ===== *)
(** * sftt: a verification development of the file-transport tool

    sftt is a client and a server that transfer files over TCP.  Files are cut
    into blocks, each block travels in a packet whose content is serialised,
    compressed and enciphered, and the receiver checks an MD5 digest.  This
    library models the parts of the program that carry its own logic and
    proves what makes them correct.

    ** How the parts interact

    <<
      TestRun (test_common.c)
        |  StartUp (client/main.c)   ClientMain (client/main.c, client.c)   LineEdit (cmdline.c)
        |  CommandList, CommandFile, ForwardRun  commands against the server
        |  Client (client.c)   Server (server.c)   Forward (server.c, client.c)
        |      Login, Connection (client.c, server.c)    UserDb (user.c, db.c, server.c)
        |      Messages (req_resp.h)   Sessions (server.c, session.h, user.c)   Ids (utils.c)
        |      CmdLine (client.c, option.c, utils.c)
        |  Lifecycle (server.c, server/main.c)   Config (config.c)   Log (log.c)   MsgQueue (msg_queue.c)
        |  Process, Forward    two or three programs, every interleaving
      FilePut, FileGet (file_send.c, file_recv.c)  programs over a connection
        |  FileSystem, FileTree, FileMisc (file.c, mkdirp.c)  Md5 (md5.c)
      NetTrans (net_trans.c)                   packets over a socket
        |  SerializeTable (serialize_handler.c)
        |    SerializeRaw (serialize_raw.c) <- Gen* (xdr/gen_serialize_raw.c)
        |    Xdr* (serialize.c, req_resp.c) <- GenXdr, GenXdrText (xdr/gen_serialize.c)
        |    Server (trans.c) <- GenTrans (xdr/gen_trans.c)   autoconf.h <- GenConfig (config/gen_config.c)
        |  Encode (encode.c)
        |      Huffman (compress.c, btree.c)   ByteOps (bits.c, encrypt.c)
        |          Containers (stack.c, queue.c), Map (map.c)
        |              DList (dlist.c)
      ThreadPool, PoolLife (thread_pool.c)  RwLock (rwlock.h)  UpdateLock (server.c)  Atomic (atomic.h)
      MemPool, MemDetail (mem_pool.c)  Sds (sds.c, trace.c)  ShmSpace (shm_space.c)  BTree (btree.c)
      ListHead (list.h, priority_list.h)  Strtox (strtox.c)  Validate (validate.c)  Version (version.c)
      Display (debug.c, progress_viewer.c, utils.c)
    >>

    ** Files and what they model

    Data structures and memory:

    - Prelude: integers of fixed width, little-endian storage, byte buffers.
    - ByteOps: [set_bit] and [get_bit] of src/bits.c, the two loops of
      src/encrypt.c.
    - DList: src/dlist.c over an explicit heap of nodes (a [gmap] from
      addresses to nodes; a dangling access is [None]).  DListOps states when a
      heap holds a list and gives the effect of each operation,
      DListSort the selection sort, the merge and the destruction.
    - Containers: src/stack.c and src/queue.c over DList, behind the classes
      [StackOps] and [QueueOps]; Map: src/map.c over DList.
    - ListHead: the circular lists of include/list.h, whose links are part of
      the structures, and include/priority_list.h.
    - BTree: the insertions, removals and the destruction of src/btree.c in a
      heap of nodes.
    - MemPool: src/mem_pool.c, a list of blocks with best-fit reuse and
      statistics, when the system's [malloc] can refuse each of its requests;
      MemDetail its reserved blocks, the table of uses and its end.
    - Sds: growing strings over the pool, and the text of a trace;
      ShmSpace: src/shm_space.c, sections of a segment of shared memory.

    Coding:

    - CStr: C strings, [atoi], [strchr], [strrchr], decimal printing.
    - Strtox, Validate, Version: src/strtox.c, src/validate.c, src/version.c.
    - Md5: src/md5.c with its incremental context and its theory.
    - Huffman: src/compress.c and the functions of src/btree.c it calls, against
      the classes [StackOps], [QueueOps] and [VisitedOps]; HuffmanTree
      and HuffmanCodes prove the three phases, HuffmanRound the whole.  Encode: src/encode.c.
    - Layout: C structures in memory (offsets, sizes, byte order);
      ReqResp: the structures of include/req_resp.h; SerializeRaw: every encoder
      and decoder of src/serialize_raw.c as the list of its in-place steps;
      SerializeTable: the table [serializables_raw] of src/serialize_handler.c.
    - Xdr, XdrProcs, XdrTable: the filters of src/req_resp.c, the functions of
      src/serialize.c and the other table, for a build without
      CONFIG_SERIALIZE_RAW, over the operations of an XDR library (the class
      [XdrLib]) whose laws Xdr states; XdrFlat has that each filter is the sequence of its scalars.
    - GenParse, GenSource: the generator xdr/gen_serialize_raw.c, from the text
      of a description to the texts it writes; GenSource and GenRun give what is
      written a syntax and a meaning, GenRender the descriptions a text,
      GenCorrect the whole, GenReqResp the case of xdr/req_resp.x.  GenXdr and
      GenXdrText: the same for xdr/gen_serialize.c and src/serialize.c; GenTrans
      for xdr/gen_trans.c and src/trans.c.  GenConfig: config/gen_config.c, which
      makes include/autoconf.h of config/sftt_deconfig.

    Concurrency:

    - RwLock: include/rwlock.h, one step for each atomic access; UpdateLock: the
      threads of src/server.c that take [update_lock]; Atomic: every function of
      include/atomic.h, at the grain of single accesses.
    - ThreadPool: src/thread_pool.c, one step for each access to what worker
      and launcher share, with the properties; PoolLife makes and
      destroys a pool when the system can refuse.
    - Lifecycle: starting, stopping and restarting the server, as processes that
      meet in shared memory, ports and signals, and the command line of
      server/main.c.
    - Log, MsgQueue: src/log.c with src/ratelimit.c, and src/msg_queue.c.

    Transfers and commands:

    - Process: programs that send and receive, and a pair of them running
      under every interleaving.
    - FileSystem: the functions of src/file.c, src/mkdirp.c and
      src/path-normalize.c that transfers use, over a map from names to nodes;
      FileTree: listing and comparing directory trees; FileMisc: whole files,
      single paths, and files with random contents.
    - FilePut: [send_files_by_put_req] of src/file_send.c and
      [recv_files_from_put_req] of src/file_recv.c with all they call;
      FilePutRun runs them against each other, FileTransfer has the properties.
    - FileGet: the other direction, [send_files_by_get_resp] against
      [recv_files_from_get_resp]; FileGetRun runs them, FileGetTransfer has the
      properties.
    - NetTrans: src/net_trans.c over a stream that delivers bytes in arbitrary
      pieces; PutLink connects it with the request of FilePut.
    - CmdLine: [parse_args] and the other parsers of command lines, hosts and
      passwords in src/client.c, src/option.c, src/utils.c and src/server.c,
      and [next_arg] of src/option.c.
    - Messages: every packet of include/req_resp.h as a value, and the record
      [host] of what the programs ask the system.
    - Config: src/config.c.  Ids: the identifiers of sessions and connections,
      those of sessions also access by access, since each session has a thread.
    - Sessions: the table of sessions, users and task connections of
      src/server.c.  Server: the loop [handle_client_session] and the handlers
      of requests.  Client: the commands of src/client.c.
    - Forward: a program between two others, how a client serves the requests
      of another one, and the handlers of the server that pass them on.
    - Connection: how both sides open the main and the task connections and
      move them to a new port.  Login: the first exchange on a connection.
    - UserDb: src/user.c, src/db.c and the database shell, over the operations
      of sqlite (the class [Sqlite], with the laws [SqlLaws]).
    - LineEdit: src/cmdline.c.  ClientMain: options, scripts and the loop at the
      terminal.  StartUp: the client from its start to its first command.
    - Display: src/debug.c, src/progress_viewer.c and what is left of
      src/utils.c.  TestRun: src/test_common.c, which runs client and server
      against each other.
    - CommandList, CommandFile: a whole command, from the line that is typed,
      against the server's session.  ForwardRun: the same with a third
      program, to which the server forwards.

    State is explicit: a heap, a pool, a socket, a file system, a client or a
    server is an argument and a result.  [None] stands for undefined behaviour
    or a failed [assert] (for programs, [Crash]); error returns are values.
    What the system answers (directories, the working directory, the output of
    a command, the clock, whether a compare-and-exchange fails spuriously) is an
    argument or a choice of the step relation.  Libraries (sqlite, XDR) are
    classes of operations with their documented laws, each with an instance.

    ** What the theorems show

    - Round trips: Huffman compression ([huffman_roundtrip]), the content coding
      ([buffer_roundtrip]), serialisation of every message, raw and by XDR
      ([raw_roundtrip], [xdr_roundtrip]), a whole packet over a socket
      ([packet_roundtrip]), what the generator writes for any description
      ([generated_roundtrip]), version strings ([version_roundtrip]), settings
      ([server_config_roundtrip]), parameters ([all_args_print]), printed
      integers ([kstrtouint_print]).
    - Equivalence: src/serialize_raw.c and src/serialize.c are what their
      generators make of xdr/req_resp.x ([serialize_raw_generated],
      [serialize_c_generated]), src/trans.c and include/autoconf.h
      what theirs make ([trans_c_generated], [autoconf_generated]).
    - Refinement: the linked list against a sequence ([dlist_refines_sequence]),
      circular lists in one memory against sequences
      ([lists_refine_sequences]), the map against a finite map
      ([map_refines_gmap]), the raw serialiser of the transfer against the packet
      layer ([raw_transport_refines]), counters shared by threads against a
      sequence of their operations ([atomics_linearize]).
    - Functional behaviour: sorting, merging and destroying lists, best fit and
      reallocation, integer parsing against unbounded integers, the grammars of
      addresses, of settings and of the arguments of a command
      ([parse_args_grammar]), the version check, MD5 whatever the cut of the
      input, network byte order of every field, comparing directory trees
      ([dir_compare_decides]).
    - Protocol: a put of a directory tree ends under every schedule with the
      files installed ([put_delivers]), and so does a get ([get_delivers]); the
      receivers are safe against any peer ([receiver_integrity],
      [get_receiver_integrity], [xdr_decode_safe]).
    - Connections: a login ([login_pairs], [login_refused]), a further
      connection ([append_conn_pairs]) and a change of port
      ([port_update_restores]) leave both sides with the same connections;
      identifiers that are made one after the other differ ([ids_distinct]).
    - Commands, end to end: [put], [get], [ll], [w], [cd] and [pwd] against the
      server's session ([put_command_installs], [get_command_installs],
      [ll_delivers], [who_delivers], [cd_then_pwd]); a put to another client
      through the server ([forward_put_delivers]); a client from its start to its
      first answer ([started_client_answers]); a command file
      ([cmd_file_runs_lines]); a password set in the database shell
      ([new_password_logs_in]); the commands of a test, which a client reads back
      ([test_commands_reach_client]).
    - What is shown: the chain of frames is restored by every call
      ([calls_restore]), times and sizes mean what they stand for
      ([left_time_shown], [size_shown]), a terminal shows the last progress
      ([progress_line]); the header defines the settings ([header_defines]).
    - Concurrency: mutual exclusion of the lock for any number of threads
      ([rwlock_exclusion]); each job of the pool runs once when one thread
      launches ([pool_runs_each_job_once]); no schedule keeps all threads in the
      loops of the counters ([atomics_terminate]); at most one server
      ([one_server]); every line that was accepted is logged
      ([server_log_delivered]).
    - Invariants: [pool_invariant] for every sequence of pool operations, up to
      a purpose without memory for its entry ([purpose_failure_crashes]),
      [btree_lifecycle] for every sequence of operations on trees in a heap.
    - Defects of the code, stated as theorems about it.  Of transfers:
      [crypt_only_loses_input], [raw_encode_twice], [resend_delivers_swapped],
      [header_arrival], [put_block_multiple_hangs], [raw_put_fails],
      [get_whole_blocks_reports_failure], [ll_second_page_hangs],
      [trans_put_always_fails], [write_never_answered], [forward_ll_never_ends],
      [forward_put_unchanged_wedges], [put_race_loses_file].  Of threads and
      processes: [update_lock_wedges], [two_launchers_lose_a_job],
      [session_id_race], [dead_worker_wedges], [destroy_leaks_threads], [fresh_server_unnoted],
      [crash_blocks_start], [restart_loses_server].  Of memory and texts:
      [sds_cannot_grow], [sds_grows_without_memory], [sections_outside],
      [btree_rm_dangles], [destroy_used_pool], [detail_race],
      [purpose_failure_crashes], [list_del_resets_nothing], [list_empty_inverted],
      [server_log_overflow], [long_name_overflows], [injected_name_crashes],
      [user_never_added], [get_pass_overflow], [blank_line_crashes],
      [levels_not_found], [first_word_never_stored], [unstarted_kills_group] and others
      beside them.

    ** Sockets that wait and sockets that do not

    The network of Process ([step]) and the three programs of Forward receive
    only what has arrived: a receive waits.  The loop of the server's session
    receives the same from a socket that does not wait, since it asks again
    when nothing has arrived.  The rest of a transfer is received from that
    same socket without asking again: [poll_step] adds these steps, and
    [put_race_loses_file] shows what they do.  The theorems on [put], [get] and
    their forwarded forms say what happens when each packet is there in time.

    ** Serialisers that copy and one that does not

    The program is built with one of two serialisers.  That of XDR leaves the
    object it is given alone ([xdr_roundtrip]); the raw one, which
    include/autoconf.h selects, swaps its integers in place.  An object that is
    sent once is received the same with both ([packet_roundtrip]); one that is
    sent again is not ([resend_delivers_swapped]).  The theorems on whole
    transfers, on further pages of a listing and on several connections at the
    change of the port send an object again, so they take a serialiser that leaves it alone
    ([copying], [get_copying], [ll_copying], [left_len]), and
    [raw_put_fails], [ll_second_page_hangs] and [second_notification_swapped]
    say what the raw one does there.

    ** Bounds and fuel

    The sizes of lists and trees and the counters of the pool are [int]s and
    wrap around; the theorems that need their exact value are about fewer than
    2^31 operations or nodes ([few], [short], [room]).

    The Huffman theorems assume inputs below 4 MiB, so that no counter of bits
    leaves [int]; a code has at most 256 bits; the depth-first traversal gets
    twice the number of nodes as fuel and the breadth-first one the number of
    nodes, and both are proved to suffice.  Walks over lists get the size of
    the heap, which a well-formed list cannot exceed.  An update of MD5 takes
    less than 2^32 - 64 bytes, parsed strings are shorter than 2^31, files are
    below 2^31 bytes.  The loops of a transfer get the number of blocks and
    files; the theorems hold for every larger fuel.  A session runs for a
    number of requests that the theorems leave open, and the loop that pages a
    listing gets the number of entries.  The generators, which read words, get
    the length of the text.  A command file gets the number of its lines; the
    loop that never ends is [None] for every fuel.  Counts of threads and of
    entries are below 2^31.

    ** What is not modelled

    The dumps of memory and lists, and the system calls of sockets.  Of the
    system's libraries: [getopt] and [readline], whose results are arguments,
    and the parts of sqlite and XDR that are not used.  In src/server.c and
    src/client.c the functions of an older transfer, which nothing calls; in
    src/test_common.c the release of the memory of a test.  The variants of the
    message queue over System V queues and the network are stubs in the code.
    The tools and the tests themselves.  The mutexes of src/lock.c are
    wrappers: what they protect is one step.  The memory of atomic accesses is
    sequentially consistent.  Allocation failure is modelled in DList, MemPool,
    Sds, PoolLife and BTree, where an argument says what the system answers, and
    not in the handlers of requests.  The start of the thread that keeps a
    client's connections ([init_sftt_client]) and a failing [fmemopen] are left
    out; names are compared as they are, without resolving '.' and '..', and a
    receiver that would go on with the packet before, because nothing has
    arrived, is [Crash]. *)

From stdpp Require Export prelude list gmap strings.
From Stdlib Require Export ZArith Lia.

(** ** Machine integers

    A C integer is a [Z] kept in range by an explicit wrap-around: [wrap_u w]
    for the unsigned and [wrap_s w] for the signed type of width [w]. *)

Open Scope Z_scope.

Definition wrap_u (w : Z) (z : Z) : Z := z mod 2 ^ w.
Definition wrap_s (w : Z) (z : Z) : Z := (z + 2 ^ (w - 1)) mod 2 ^ w - 2 ^ (w - 1).

Abbreviation u8 := (wrap_u 8).
Abbreviation u32 := (wrap_u 32).
Abbreviation u64 := (wrap_u 64).
Abbreviation i16 := (wrap_s 16).
Abbreviation i32 := (wrap_s 32).
Abbreviation i64 := (wrap_s 64).

Definition is_byte (b : Z) : Prop := 0 <= b < 256.
Definition in_i32 (z : Z) : Prop := - 2 ^ 31 <= z < 2 ^ 31.
Definition in_i16 (z : Z) : Prop := - 2 ^ 15 <= z < 2 ^ 15.

#[export] Instance is_byte_dec b : Decision (is_byte b).
Proof. unfold is_byte. apply _. Defined.

Create HintDb sftt discriminated.
Create Rewrite HintDb sftt.

(** Closes arithmetic side conditions about machine integers. *)
Ltac int_lia := unfold is_byte, in_i32, in_i16 in *; simpl in *; lia.

Lemma wrap_u_range w z : 0 <= w -> 0 <= wrap_u w z < 2 ^ w.
Proof. intros. apply Z.mod_pos_bound, Z.pow_pos_nonneg; lia. Qed.

Lemma wrap_u_small w z : 0 <= z < 2 ^ w -> wrap_u w z = z.
Proof. apply Z.mod_small. Qed.

Lemma wrap_s_small w z : 0 < w -> - 2 ^ (w - 1) <= z < 2 ^ (w - 1) -> wrap_s w z = z.
Proof.
  intros Hw Hz. unfold wrap_s.
  assert (2 ^ w = 2 * 2 ^ (w - 1)) by (rewrite <- Z.pow_succ_r; [f_equal|]; lia).
  rewrite Z.mod_small; lia.
Qed.

Lemma i32_small z : in_i32 z -> i32 z = z.
Proof. intros. apply wrap_s_small; int_lia. Qed.

Lemma i16_small z : in_i16 z -> i16 z = z.
Proof. intros. apply wrap_s_small; int_lia. Qed.

Lemma i32_range z : in_i32 (i32 z).
Proof. unfold in_i32, wrap_s. pose proof (Z.mod_pos_bound (z + 2 ^ (32 - 1)) (2 ^ 32)). lia. Qed.

(** Wrapping the operands first does not matter. *)
Lemma wrap_s_add w a b : 0 < w -> wrap_s w (wrap_s w a + wrap_s w b) = wrap_s w (a + b).
Proof.
  intros Hw. unfold wrap_s at 1 4. f_equal. unfold wrap_s.
  replace (_ - _ + (_ - _) + _) with ((a + 2 ^ (w - 1)) mod 2 ^ w + ((b + 2 ^ (w - 1)) mod 2 ^ w - 2 ^ (w - 1))) by lia.
  rewrite Zplus_mod_idemp_l, Z.add_sub_assoc, Z.add_comm, <- Z.add_sub_assoc, Zplus_mod_idemp_l. f_equal. lia.
Qed.

Lemma wrap_s_idemp w z : 0 < w -> wrap_s w (wrap_s w z) = wrap_s w z.
Proof. intros Hw. unfold wrap_s. by rewrite Z.sub_add, Z.mod_mod by (apply Z.pow_nonzero; lia). Qed.

Lemma wrap_s_add_l w a b : 0 < w -> wrap_s w (wrap_s w a + b) = wrap_s w (a + b).
Proof. intros Hw. rewrite <- wrap_s_add, wrap_s_idemp, wrap_s_add by done. done. Qed.

(** Casting to the unsigned type first does not change the signed value. *)
Lemma wrap_s_mod w z : 0 < w -> wrap_s w (z mod 2 ^ w) = wrap_s w z.
Proof.
  intros. unfold wrap_s. f_equal.
  rewrite <- (Zplus_mod_idemp_l z). reflexivity.
Qed.

Lemma u8_byte z : is_byte (u8 z).
Proof. apply (wrap_u_range 8). lia. Qed.
#[export] Hint Resolve u8_byte : sftt.

(** ** Little-endian storage of integers *)

Fixpoint le_bytes (n : nat) (z : Z) : list Z :=
  match n with
  | O => []
  | S n' => z mod 256 :: le_bytes n' (z / 256)
  end.

Fixpoint le_val (l : list Z) : Z :=
  match l with
  | [] => 0
  | b :: l' => b + 256 * le_val l'
  end.

Lemma length_le_bytes n z : length (le_bytes n z) = n.
Proof. revert z. induction n; intros; simpl; congruence. Qed.

Lemma le_bytes_byte n z : Forall is_byte (le_bytes n z).
Proof.
  revert z. induction n; intros; simpl; constructor; [|done].
  apply Z.mod_pos_bound. lia.
Qed.
#[export] Hint Resolve le_bytes_byte : sftt.
#[export] Hint Rewrite length_le_bytes : sftt.

Lemma le_val_bytes n z : le_val (le_bytes n z) = z mod 256 ^ Z.of_nat n.
Proof.
  revert z. induction n; intros z; cbn [le_bytes le_val].
  - rewrite Z.mod_1_r. done.
  - rewrite IHn, Nat2Z.inj_succ, Z.pow_succ_r by lia.
    rewrite Z.rem_mul_r by (try apply Z.pow_nonzero; lia). done.
Qed.

Lemma le_bytes_val l : Forall is_byte l -> le_bytes (length l) (le_val l) = l.
Proof.
  induction 1 as [|b l Hb _ IH]; cbn [length le_bytes le_val]; [done|].
  unfold is_byte in Hb. f_equal.
  - rewrite Z.mul_comm, Z.mod_add, Z.mod_small; lia.
  - rewrite Z.mul_comm, Z.div_add, Z.div_small, Z.add_0_l by lia. done.
Qed.

Lemma le_bytes_mod n z : le_bytes n (z mod 256 ^ Z.of_nat n) = le_bytes n z.
Proof.
  rewrite <- le_val_bytes. rewrite <- (length_le_bytes n z) at 1. apply le_bytes_val, le_bytes_byte.
Qed.

(** An [int] or [short] written to memory and read back. *)
Definition load_i32 (l : list Z) : Z := i32 (le_val l).
Definition load_i16 (l : list Z) : Z := i16 (le_val l).

Lemma load_i32_store z : in_i32 z -> load_i32 (le_bytes 4 z) = z.
Proof.
  intros. unfold load_i32. rewrite le_val_bytes.
  change (256 ^ Z.of_nat 4) with (2 ^ 32). rewrite wrap_s_mod by lia. by apply i32_small.
Qed.

Lemma load_i16_store z : in_i16 z -> load_i16 (le_bytes 2 z) = z.
Proof.
  intros. unfold load_i16. rewrite le_val_bytes.
  change (256 ^ Z.of_nat 2) with (2 ^ 16). rewrite wrap_s_mod by lia. by apply i16_small.
Qed.
#[export] Hint Resolve load_i32_store load_i16_store : sftt.

(** ** Byte buffers

    A buffer is the list of its bytes; an access outside it is [None], which
    stands for undefined behaviour in C. *)

Definition read_bytes (buf : list Z) (off n : nat) : option (list Z) :=
  if decide (off + n <= length buf)%nat then Some (take n (drop off buf)) else None.

Definition write_bytes (buf : list Z) (off : nat) (bs : list Z) : option (list Z) :=
  if decide (off + length bs <= length buf)%nat
  then Some (take off buf ++ bs ++ drop (off + length bs) buf) else None.

(** Zero-initialised memory, as returned by the pool allocator. *)
Definition zeroed (n : nat) : list Z := replicate n 0.

Lemma read_bytes_app (a b c : list Z) n :
  n = length b -> read_bytes (a ++ b ++ c) (length a) n = Some b.
Proof.
  intros ->. unfold read_bytes. rewrite decide_True by (rewrite !length_app; lia).
  rewrite drop_app_length, take_app_length. done.
Qed.

Lemma write_bytes_app (a b b' c : list Z) :
  length b = length b' -> write_bytes (a ++ b ++ c) (length a) b' = Some (a ++ b' ++ c).
Proof.
  intros Hl. unfold write_bytes. rewrite decide_True by (rewrite !length_app; lia).
  rewrite take_app_length, <- Hl. do 3 f_equal.
  rewrite app_assoc, <- length_app, drop_app_length. done.
Qed.

Lemma read_bytes_prefix (b c : list Z) n : n = length b -> read_bytes (b ++ c) 0 n = Some b.
Proof. apply (read_bytes_app [] b c). Qed.

Lemma write_bytes_prefix (b b' c : list Z) :
  length b = length b' -> write_bytes (b ++ c) 0 b' = Some (b' ++ c).
Proof. apply (write_bytes_app [] b b' c). Qed.

Lemma length_write_bytes buf off bs buf' :
  write_bytes buf off bs = Some buf' -> length buf' = length buf.
Proof.
  unfold write_bytes. case_decide; [|done]. intros [= <-].
  rewrite !length_app, length_take, length_drop. lia.
Qed.
