(* ===== verification/ByteOps.v ===== *)
(** * Bit access within a byte (src/bits.c)

    [set_bit] and [get_bit] as the Huffman coder uses them: position [pos] is
    counted from 1 (the least significant bit) to 8 (the most significant). *)

From S2P Require Import Prelude.

Definition set_bit (ch pos bit : Z) : Z :=
  if bit =? 0 then
    let mask := u8 (Z.lor (Z.shiftl 255 pos) (Z.shiftr 255 (8 - pos + 1))) in
    Z.land ch mask
  else u8 (Z.lor ch (Z.shiftl 1 (pos - 1))).

Definition get_bit (ch pos : Z) : Z :=
  if Z.land ch (Z.shiftl 1 (pos - 1)) =? 0 then 0 else 1.

(** Splits an integer known to lie in 0..8 into its cases. *)
Ltac case_small n :=
  let H := fresh in
  assert (n = 0 \/ n = 1 \/ n = 2 \/ n = 3 \/ n = 4 \/ n = 5 \/ n = 6 \/ n = 7 \/ n = 8)
    as H by lia;
  destruct H as [->|[->|[->|[->|[->|[->|[->|[->| ->]]]]]]]]; try lia.

Lemma byte_testbit_high b i : is_byte b -> 8 <= i -> Z.testbit b i = false.
Proof.
  intros Hb Hi. rewrite <- (Z.mod_small b (2 ^ 8)) by int_lia.
  by apply Z.mod_pow2_bits_high.
Qed.

Lemma get_bit_testbit ch pos :
  1 <= pos -> get_bit ch pos = Z.b2z (Z.testbit ch (pos - 1)).
Proof.
  intros. unfold get_bit.
  rewrite Z.shiftl_1_l. destruct (Z.testbit ch (pos - 1)) eqn:E.
  - destruct (Z.eqb_spec (Z.land ch (2 ^ (pos - 1))) 0) as [H0|]; [|done].
    apply (f_equal (fun z => Z.testbit z (pos - 1))) in H0.
    rewrite Z.land_spec, E, Z.pow2_bits_true, Z.bits_0 in H0 by lia. done.
  - rewrite (proj2 (Z.eqb_eq _ 0)); [done|].
    apply Z.bits_inj'. intros n Hn. rewrite Z.land_spec, Z.bits_0.
    rewrite Z.pow2_bits_eqb by lia. destruct (Z.eqb_spec (pos - 1) n) as [<-|]; [|by rewrite andb_false_r].
    by rewrite E.
Qed.

Lemma set_bit_byte ch pos bit : is_byte ch -> is_byte (set_bit ch pos bit).
Proof.
  intros Hc. unfold set_bit. destruct (bit =? 0); [|apply u8_byte].
  set (m := u8 _). assert (Hm : is_byte m) by apply u8_byte.
  unfold is_byte in *. split; [apply Z.land_nonneg; lia|].
  apply Z.le_lt_trans with ch; [|lia].
  assert (H : Z.ldiff (Z.land ch m) ch = 0).
  { apply Z.bits_inj'. intros n Hn. rewrite Z.ldiff_spec, Z.land_spec, Z.bits_0.
    by destruct (Z.testbit ch n), (Z.testbit m n). }
  apply Z.ldiff_le in H; lia.
Qed.

Lemma set_bit_testbit ch pos bit i :
  is_byte ch -> 1 <= pos <= 8 -> 0 <= i ->
  Z.testbit (set_bit ch pos bit) i =
    if i =? pos - 1 then negb (bit =? 0) else Z.testbit ch i.
Proof.
  intros Hc Hp Hi. destruct (Z.lt_ge_cases i 8) as [Hi8|Hi8].
  2:{ rewrite !byte_testbit_high by (auto using set_bit_byte).
      rewrite (proj2 (Z.eqb_neq i (pos - 1))) by lia. done. }
  unfold set_bit. destruct (bit =? 0).
  - rewrite Z.land_spec. case_small pos; case_small i; vm_compute (Z.testbit (u8 _) _);
      rewrite ?andb_true_r, ?andb_false_r; reflexivity.
  - unfold wrap_u. rewrite Z.mod_pow2_bits_low by lia.
    rewrite Z.lor_spec, Z.shiftl_1_l, Z.pow2_bits_eqb by lia.
    rewrite Z.eqb_sym. destruct (i =? pos - 1) eqn:E; rewrite ?orb_true_r, ?orb_false_r; done.
Qed.

(** * The byte cipher (src/encrypt.c)

    [sftt_encrypt_func] and [sftt_decrypt_func] rewrite [size] bytes of a
    buffer in place; the [i]-th byte is shifted by [i + 5] modulo 256. *)

(** One loop [for (i = 0; i < size; i++) buf[i] = f(i, buf[i])]; the first
    argument counts the iterations left, an index outside the buffer is
    undefined behaviour. *)
Fixpoint for_each_byte (f : Z -> Z -> Z) (left i : nat) (buf : list Z) : option (list Z) :=
  match left with
  | O => Some buf
  | S left' =>
      b ← buf !! i;
      for_each_byte f left' (S i) (<[i := f (Z.of_nat i) b]> buf)
  end.

Definition sftt_encrypt_func (source : list Z) (size : Z) : option (list Z) :=
  for_each_byte (fun i b => u8 (b + i + 5)) (Z.to_nat size) 0 source.

Definition sftt_decrypt_func (aim : list Z) (size : Z) : option (list Z) :=
  for_each_byte (fun i b => u8 (b - i - 5)) (Z.to_nat size) 0 aim.

(** The loop is a map with index over the prefix it covers. *)
Lemma for_each_byte_imap f pre buf suf :
  for_each_byte f (length buf) (length pre) (pre ++ buf ++ suf) =
    Some (pre ++ imap (fun i b => f (Z.of_nat (length pre + i)) b) buf ++ suf).
Proof.
  revert pre. induction buf as [|b buf IH]; intros pre; [done|].
  cbn [length for_each_byte].
  rewrite lookup_app_r, Nat.sub_diag by lia. cbn [lookup list_lookup app mbind option_bind].
  rewrite insert_app_r_alt, Nat.sub_diag by lia. cbn [insert list_insert].
  specialize (IH (pre ++ [f (Z.of_nat (length pre)) b])).
  rewrite length_app, <- !app_assoc in IH. cbn [length app] in IH.
  rewrite Nat.add_1_r in IH. rewrite IH. do 3 f_equal; cbn [imap].
  rewrite Nat.add_0_r. cbn [app]. do 2 f_equal. apply imap_ext. intros i c _.
  cbn. do 2 f_equal. lia.
Qed.

Lemma for_each_byte_whole f buf :
  for_each_byte f (length buf) 0 buf = Some (imap (fun i b => f (Z.of_nat i) b) buf).
Proof.
  pose proof (for_each_byte_imap f [] buf []) as H. simpl in H. by rewrite !app_nil_r in H.
Qed.

Lemma crypt_byte i b : is_byte b -> u8 (u8 (b + i + 5) - i - 5) = b.
Proof.
  intros Hb. unfold wrap_u. rewrite <- Z.sub_add_distr, Zminus_mod_idemp_l.
  replace (b + i + 5 - (i + 5)) with b by lia. apply Z.mod_small. int_lia.
Qed.

Lemma encrypt_total buf :
  exists out, sftt_encrypt_func buf (Z.of_nat (length buf)) = Some out
    /\ length out = length buf /\ Forall is_byte out.
Proof.
  unfold sftt_encrypt_func. rewrite Nat2Z.id, for_each_byte_whole.
  eexists. split; [done|]. split; [by rewrite length_imap|].
  apply Forall_lookup. intros i b. rewrite list_lookup_imap.
  destruct (buf !! i); simpl; intros [= <-]. apply u8_byte.
Qed.

Lemma decrypt_encrypt buf out :
  Forall is_byte buf ->
  sftt_encrypt_func buf (Z.of_nat (length buf)) = Some out ->
  sftt_decrypt_func out (Z.of_nat (length buf)) = Some buf.
Proof.
  unfold sftt_encrypt_func, sftt_decrypt_func. rewrite Nat2Z.id, for_each_byte_whole.
  intros Hb [= <-].
  set (out := imap _ buf). replace (length buf) with (length out) by apply length_imap.
  rewrite for_each_byte_whole. f_equal. apply list_eq. intros i.
  unfold out. rewrite !list_lookup_imap.
  destruct (buf !! i) as [b|] eqn:Hi; simpl; [|done].
  f_equal. apply crypt_byte. by eapply Forall_lookup_1.
Qed.
