(* ===== verification/CStr.v ===== *)
(** * C strings

    A C string is the list of its characters without the terminating zero;
    reading at its end gives 0.  This file holds what the string-handling
    components share: reading a character, and [atoi] with the conventions of
    the C library. *)

From S2P Require Import Prelude.

(** [s[i]] *)
Definition char_at (s : list Z) (i : nat) : Z := default 0 (s !! i).

Definition is_digit (c : Z) : bool := (48 <=? c) && (c <=? 57).
Definition is_space (c : Z) : bool := (c =? 32) || ((9 <=? c) && (c <=? 13)).

Fixpoint skip_spaces (s : list Z) : list Z :=
  match s with
  | c :: s' => if is_space c then skip_spaces s' else s
  | [] => []
  end.

(** The value of the leading decimal digits after [acc]. *)
Fixpoint dec_prefix (acc : Z) (s : list Z) : Z :=
  match s with
  | c :: s' => if is_digit c then dec_prefix (acc * 10 + (c - 48)) s' else acc
  | [] => acc
  end.

(** [strtol] in base 10, saturating at the ends of [long]. *)
Definition strtol10 (s : list Z) : Z :=
  let s := skip_spaces s in
  let v := if char_at s 0 =? 45 then - dec_prefix 0 (drop 1 s)
           else dec_prefix 0 (if char_at s 0 =? 43 then drop 1 s else s) in
  Z.max (- 2 ^ 63) (Z.min (2 ^ 63 - 1) v).

Definition atoi (s : list Z) : Z := i32 (strtol10 s).

(** [index] and [strchr]: the string before the first [c] and the one from it. *)
Fixpoint strchr (s : list Z) (c : Z) : option (list Z * list Z) :=
  match s with
  | [] => None
  | d :: s' =>
      if d =? c then Some ([], s)
      else match strchr s' c with Some (pre, post) => Some (d :: pre, post) | None => None end
  end.

(** The decimal characters of [n], as [printf] prints them with [%d]. *)
Fixpoint print_dec (fuel : nat) (n : Z) : list Z :=
  match fuel with
  | O => []
  | S fuel' => if n <? 10 then [48 + n] else print_dec fuel' (n / 10) ++ [48 + n mod 10]
  end.

(** The characters of a string literal. *)
Definition ascii_bytes (s : string) : list Z :=
  map (fun c => Z.of_N (Ascii.N_of_ascii c)) (String.list_ascii_of_string s).

(** ** Decimal values *)

Definition digits (s : list Z) : Prop := Forall (fun c => is_digit c = true) s.
Definition dec_value (acc : Z) (s : list Z) : Z := foldl (fun a c => a * 10 + (c - 48)) acc s.

#[export] Instance digits_dec s : Decision (digits s).
Proof. unfold digits. apply _. Defined.

Lemma is_digit_spec c : is_digit c = true <-> 48 <= c <= 57.
Proof. unfold is_digit. rewrite andb_true_iff, !Z.leb_le. done. Qed.

Lemma dec_prefix_digits acc s : digits s -> dec_prefix acc s = dec_value acc s.
Proof.
  intros Hs. revert acc. induction Hs as [|c s Hc _ IH]; intros acc; [done|].
  cbn [dec_prefix dec_value foldl]. rewrite Hc. apply IH.
Qed.

Lemma dec_value_bound acc s : digits s -> 0 <= acc ->
  acc * 10 ^ Z.of_nat (length s) <= dec_value acc s < (acc + 1) * 10 ^ Z.of_nat (length s).
Proof.
  intros Hs. revert acc. induction Hs as [|c s Hc _ IH]; intros acc Ha; [simpl; lia|].
  apply is_digit_spec in Hc. cbn [length dec_value foldl]. fold (dec_value (acc * 10 + (c - 48)) s).
  rewrite Nat2Z.inj_succ, Z.pow_succ_r by lia. specialize (IH (acc * 10 + (c - 48)) ltac:(lia)).
  assert (0 < 10 ^ Z.of_nat (length s)) by (apply Z.pow_pos_nonneg; lia). nia.
Qed.

Lemma digit_not_space c : is_digit c = true -> is_space c = false.
Proof.
  rewrite is_digit_spec. intros Hc. unfold is_space.
  rewrite (proj2 (Z.eqb_neq _ _)), (proj2 (Z.leb_gt c 13)) by lia. by rewrite andb_false_r.
Qed.

(** [atoi] of digits whose value is an [int]. *)
Lemma atoi_value s : digits s -> in_i32 (dec_value 0 s) -> atoi s = dec_value 0 s.
Proof.
  intros Hs Hi. pose proof (dec_value_bound 0 s Hs ltac:(lia)) as Hb.
  unfold atoi, strtol10. cbv zeta. assert (skip_spaces s = s) as ->.
  { destruct Hs as [|c s Hc _]; [done|]. cbn [skip_spaces]. by rewrite digit_not_space. }
  assert (char_at s 0 <> 45 /\ char_at s 0 <> 43) as [H45 H43].
  { destruct Hs as [|c s Hc _]; [done|]. apply is_digit_spec in Hc. unfold char_at. simpl. lia. }
  rewrite (proj2 (Z.eqb_neq _ _) H45), (proj2 (Z.eqb_neq _ _) H43), dec_prefix_digits by done.
  unfold in_i32 in Hi. rewrite i32_small; unfold in_i32; lia.
Qed.

(** [atoi] of up to nine digits is their value. *)
Lemma atoi_digits s : digits s -> (length s <= 9)%nat -> atoi s = dec_value 0 s.
Proof.
  intros Hs Hl. pose proof (dec_value_bound 0 s Hs ltac:(lia)) as Hb.
  assert (10 ^ Z.of_nat (length s) <= 10 ^ 9) by (apply Z.pow_le_mono_r; lia).
  apply atoi_value; [done|]. unfold in_i32. lia.
Qed.

(** ** Searching *)

Lemma strchr_some s c pre post : strchr s c = Some (pre, post) ->
  s = pre ++ post /\ c ∉ pre /\ exists t, post = c :: t.
Proof.
  revert pre post. induction s as [|d s IH]; intros pre post; cbn [strchr]; [done|].
  destruct (Z.eqb_spec d c) as [->|Hne].
  - intros [= <- <-]. split; [done|]. split; [by apply not_elem_of_nil|eauto].
  - destruct (strchr s c) as [[pre' post']|]; [|done]. intros [= <- <-].
    destruct (IH _ _ eq_refl) as (-> & Hn & Ht). split; [done|]. split; [|done].
    rewrite not_elem_of_cons. split; [congruence|done].
Qed.

Lemma strchr_found pre c post : c ∉ pre -> strchr (pre ++ c :: post) c = Some (pre, c :: post).
Proof.
  induction pre as [|d pre IH]; cbn [strchr app]; [by rewrite Z.eqb_refl|].
  rewrite not_elem_of_cons. intros [Hne Hn]. rewrite (proj2 (Z.eqb_neq d c)) by congruence.
  by rewrite IH.
Qed.

Lemma strchr_none s c : strchr s c = None <-> c ∉ s.
Proof.
  induction s as [|d s IH]; cbn [strchr]; [split; [intros _; apply not_elem_of_nil|done]|].
  rewrite not_elem_of_cons. destruct (Z.eqb_spec d c) as [->|Hne]; [naive_solver|].
  destruct (strchr s c) as [[]|]; naive_solver.
Qed.

Lemma char_at_app_r a b : char_at (a ++ b) (length a) = char_at b 0.
Proof. unfold char_at. rewrite lookup_app_r by lia. by rewrite Nat.sub_diag. Qed.

(** The end of a string is where a zero is read. *)
Lemma char_at_nil s : Forall (fun c => c <> 0) s -> char_at s 0 = 0 <-> s = [].
Proof. intros Hs. split; [|by intros ->]. by destruct Hs as [|c s Hc _]. Qed.

Lemma forallb_Forall (f : Z -> bool) l : forallb f l = true <-> Forall (fun c => f c = true) l.
Proof.
  induction l as [|c l IH]; cbn [forallb]; [by split|].
  rewrite andb_true_iff, Forall_cons. tauto.
Qed.

Lemma is_digit_add v : 0 <= v < 10 -> is_digit (48 + v) = true.
Proof. rewrite is_digit_spec. lia. Qed.

Lemma print_dec_spec fuel n : 0 <= n < 10 ^ Z.of_nat fuel -> (0 < fuel)%nat ->
  digits (print_dec fuel n) /\ dec_value 0 (print_dec fuel n) = n /\ print_dec fuel n <> [].
Proof.
  revert n. induction fuel as [|fuel IH]; intros n Hn Hf; [lia|]. cbn [print_dec].
  destruct (Z.ltb_spec n 10) as [Hlt|Hge].
  - split_and!; [|unfold dec_value; simpl; lia|done]. apply Forall_singleton, is_digit_add; lia.
  - rewrite Nat2Z.inj_succ, Z.pow_succ_r in Hn by lia.
    assert (Hd : 0 <= n / 10 < 10 ^ Z.of_nat fuel).
    { split; [apply Z.div_pos; lia|]. apply Z.div_lt_upper_bound; lia. }
    assert (Hf' : (0 < fuel)%nat).
    { destruct fuel; [|lia]. simpl in Hd. assert (1 <= n / 10) by (apply Z.div_le_lower_bound; lia). lia. }
    destruct (IH _ Hd Hf') as (Hs & Hv & Hne).
    pose proof (Z.mod_pos_bound n 10 ltac:(lia)) as Hm. split_and!.
    + apply Forall_app. split; [done|]. apply Forall_singleton, is_digit_add. lia.
    + unfold dec_value in *. rewrite foldl_snoc, Hv. pose proof (Z.div_mod n 10). lia.
    + by destruct (print_dec fuel (n / 10)).
Qed.

Lemma length_print_dec fuel n : (length (print_dec fuel n) <= fuel)%nat.
Proof.
  revert n. induction fuel as [|fuel IH]; intros n; cbn [print_dec]; [done|].
  destruct (n <? 10); [simpl; lia|]. rewrite length_app. specialize (IH (n / 10)). simpl. lia.
Qed.

Lemma digits_char_at s i : digits s -> (i < length s)%nat -> 48 <= char_at s i <= 57.
Proof.
  intros Hs Hi. destruct (lookup_lt_is_Some_2 s i Hi) as (c & E). unfold char_at. rewrite E.
  apply is_digit_spec. exact (proj1 (Forall_lookup _ s) Hs i c E).
Qed.

(** [rindex]: the string before the last [c] and the one from it. *)
Fixpoint strrchr (s : list Z) (c : Z) : option (list Z * list Z) :=
  match s with
  | [] => None
  | d :: s' =>
      match strrchr s' c with
      | Some (pre, post) => Some (d :: pre, post)
      | None => if d =? c then Some ([], s) else None
      end
  end.

Lemma strrchr_some s c pre post : strrchr s c = Some (pre, post) ->
  s = pre ++ post /\ exists t, post = c :: t /\ c ∉ t.
Proof.
  revert pre post. induction s as [|d s IH]; intros pre post; cbn [strrchr]; [done|].
  destruct (strrchr s c) as [[pre' post']|] eqn:E.
  - intros [= <- <-]. destruct (IH _ _ eq_refl) as (-> & Ht). done.
  - destruct (Z.eqb_spec d c) as [->|]; [|done]. intros [= <- <-]. split; [done|]. exists s. split; [done|].
    clear IH. induction s as [|d s IH]; [apply not_elem_of_nil|]. cbn [strrchr] in E.
    destruct (strrchr s c) as [[]|]; [done|]. destruct (Z.eqb_spec d c); [done|].
    rewrite not_elem_of_cons. split; [congruence|by apply IH].
Qed.

(** The C string stored at the start of a character array. *)
Fixpoint c_str (buf : list Z) : list Z :=
  match buf with
  | c :: buf' => if c =? 0 then [] else c :: c_str buf'
  | [] => []
  end.

Lemma c_str_app s buf : Forall (fun c => c <> 0) s -> c_str (s ++ 0 :: buf) = s.
Proof.
  induction 1 as [|c s Hc _ IH]; [done|]. cbn [app c_str].
  by rewrite (proj2 (Z.eqb_neq c 0)), IH by done.
Qed.
