(* ===== verification/MsgQueue.v ===== *)
(** * Message queues (src/msg_queue.c)

    Queues have names and are registered by type.  The kind that is used
    passes messages through a file: every queue that opens it reads or writes
    from its beginning, since nothing makes it a named pipe.  Sending over
    System V queues and over the network are stubs that report success. *)

From S2P Require Import Prelude CStr.

Definition MSQ_NAME_LEN : nat := 128.

(** [sizeof(struct msgbuf)] *)
Definition MSGBUF_SIZE : nat := 264.

Inductive msq_type := MSQ_TYPE_IPC | MSQ_TYPE_FILE | MSQ_TYPE_NET.

#[export] Instance msq_type_eq_dec : EqDecision msq_type.
Proof. solve_decision. Defined.

(** The table of functions a queue has is that of its type; [fd] is an open
    file or -1, at position [offset]. *)
Record msg_queue := MsgQueue { name : list Z; type : msq_type; msqid : Z; fd : Z; offset : nat }.

(** [msq_mgr]: the registered queues, the latest first. *)
Definition msq_mgr : Type := msq_type -> list msg_queue.

Definition msq_mgr_init : msq_mgr := fun _ => [].

(** ** The registry *)

Definition get_msg_queue (mgr : msq_mgr) (n : list Z) (t : msq_type) : option msg_queue :=
  List.find (fun q => bool_decide (name q = n)) (mgr t).

Definition create_msg_queue_file (n : list Z) : msg_queue := MsgQueue (take (MSQ_NAME_LEN - 1) n) MSQ_TYPE_FILE (-1) (-1) 0.

(** [msgget]: what the kernel answers for the key of the name; the new
    structure is not cleared, [garbage] is its name. *)
Definition create_msg_queue_ipc (msgget : list Z -> option Z) (garbage n : list Z) : option msg_queue :=
  id ← msgget n; Some (MsgQueue garbage MSQ_TYPE_IPC id (-1) 0).

Definition create_msg_queue_net (n : list Z) : option msg_queue := None.

Definition msq_add (q : msg_queue) (t : msq_type) (mgr : msq_mgr) : msq_mgr :=
  fun t' => if decide (t' = t) then q :: mgr t' else mgr t'.

Definition create_msg_queue (msgget : list Z -> option Z) (garbage : list Z) (mgr : msq_mgr) (n : list Z) (t : msq_type)
    : option (msg_queue * msq_mgr) :=
  match get_msg_queue mgr n t with
  | Some _ => None
  | None =>
      queue ← (match t with
               | MSQ_TYPE_IPC => create_msg_queue_ipc msgget garbage n
               | MSQ_TYPE_FILE => Some (create_msg_queue_file n)
               | MSQ_TYPE_NET => create_msg_queue_net n
               end);
      Some (queue, msq_add queue t mgr)
  end.

(** ** Messages *)

(** [open] of the file, when the queue has none. *)
Definition with_fd (opened : Z) (q : msg_queue) : msg_queue :=
  if fd q =? -1 then MsgQueue (name q) (type q) (msqid q) opened 0 else q.

Definition advance (n : nat) (q : msg_queue) : msg_queue := MsgQueue (name q) (type q) (msqid q) (fd q) (offset q + n).

(** [write] at the position of the queue, up to which the file reaches. *)
Definition send_msg_file (opened : Z) (q : msg_queue) (msg file : list Z) : msg_queue * list Z * Z :=
  let q := with_fd opened q in
  if fd q =? -1 then (q, file, -1) else
  let file := take (offset q) file ++ msg ++ drop (offset q + length msg) file in
  let q := advance (length msg) q in
  if (length msg <? MSGBUF_SIZE)%nat then (q, file, -1) else (q, file, 0).

(** With its result the bytes that were read. *)
Definition recv_msg_file (opened : Z) (q : msg_queue) (file : list Z) : msg_queue * list Z * Z :=
  let q := with_fd opened q in
  if fd q =? -1 then (q, [], -1) else
  let msg := take MSGBUF_SIZE (drop (offset q) file) in
  let q := advance (length msg) q in
  if (length msg <? MSGBUF_SIZE)%nat then (q, msg, -1) else (q, msg, 0).

Definition send_msg_ipc (q : msg_queue) (msg file : list Z) : msg_queue * list Z * Z := (q, file, 0).
Definition recv_msg_ipc (q : msg_queue) (file : list Z) : msg_queue * list Z * Z := (q, [], 0).
Definition send_msg_net (q : msg_queue) (msg file : list Z) : msg_queue * list Z * Z := (q, file, 0).
Definition recv_msg_net (q : msg_queue) (file : list Z) : msg_queue * list Z * Z := (q, [], 0).

Definition send_msg (opened : Z) (q : msg_queue) : list Z -> list Z -> msg_queue * list Z * Z :=
  match type q with MSQ_TYPE_IPC => send_msg_ipc q | MSQ_TYPE_FILE => send_msg_file opened q | MSQ_TYPE_NET => send_msg_net q end.

Definition recv_msg (opened : Z) (q : msg_queue) : list Z -> msg_queue * list Z * Z :=
  match type q with MSQ_TYPE_IPC => recv_msg_ipc q | MSQ_TYPE_FILE => recv_msg_file opened q | MSQ_TYPE_NET => recv_msg_net q end.

Fixpoint send_all (opened : Z) (q : msg_queue) (msgs : list (list Z)) (file : list Z) : msg_queue * list Z * list Z :=
  match msgs with
  | [] => (q, file, [])
  | m :: msgs =>
      let '(q, file, ret) := send_msg opened q m file in
      let '(q, file, rets) := send_all opened q msgs file in (q, file, ret :: rets)
  end.

Fixpoint recv_all (opened : Z) (q : msg_queue) (n : nat) (file : list Z) : list (list Z * Z) :=
  match n with
  | O => []
  | S n => let '(q, msg, ret) := recv_msg opened q file in (msg, ret) :: recv_all opened q n file
  end.

(** ** The queue of a name *)

(** A queue with a name that fits is found again, and no second one is made. *)
Theorem created_is_found msgget garbage mgr n q mgr' : (length n < MSQ_NAME_LEN)%nat ->
  create_msg_queue msgget garbage mgr n MSQ_TYPE_FILE = Some (q, mgr') ->
  get_msg_queue mgr' n MSQ_TYPE_FILE = Some q /\ create_msg_queue msgget garbage mgr' n MSQ_TYPE_FILE = None.
Proof.
  intros Hn. unfold create_msg_queue. destruct (get_msg_queue mgr n MSQ_TYPE_FILE); [done|]. cbn [mbind option_bind]. intros [= <- <-].
  assert (E : get_msg_queue (msq_add (create_msg_queue_file n) MSQ_TYPE_FILE mgr) n MSQ_TYPE_FILE = Some (create_msg_queue_file n)).
  { unfold get_msg_queue, msq_add. rewrite decide_True by done. cbn [List.find create_msg_queue_file name].
    rewrite take_ge by (unfold MSQ_NAME_LEN in *; lia). by rewrite bool_decide_true. }
  by rewrite E.
Qed.

(** One that is too long is cut and never found: each call makes another. *)
Theorem long_name_lost msgget garbage mgr n : (MSQ_NAME_LEN <= length n)%nat -> get_msg_queue mgr n MSQ_TYPE_FILE = None ->
  exists q mgr', create_msg_queue msgget garbage mgr n MSQ_TYPE_FILE = Some (q, mgr') /\ get_msg_queue mgr' n MSQ_TYPE_FILE = None.
Proof.
  intros Hn Hg. unfold create_msg_queue. rewrite Hg. cbn [mbind option_bind]. eexists _, _. split; [reflexivity|].
  unfold get_msg_queue, msq_add in *. rewrite decide_True by done. cbn [List.find create_msg_queue_file name].
  rewrite bool_decide_false; [done|]. intros E. apply (f_equal length) in E. rewrite length_take in E. unfold MSQ_NAME_LEN in *. lia.
Qed.

Lemma send_all_file opened q msgs : type q = MSQ_TYPE_FILE -> fd q <> -1 -> Forall (fun m => length m = MSGBUF_SIZE) msgs ->
  forall file, offset q = length file -> exists q', send_all opened q msgs file = (q', file ++ concat msgs, replicate (length msgs) 0).
Proof.
  intros Ht Hf Hm. revert q Ht Hf. induction Hm as [|m msgs Hl _ IH]; intros q Ht Hf file Ho.
  - exists q. by rewrite app_nil_r.
  - cbn [send_all concat length replicate]. unfold send_msg. rewrite Ht. unfold send_msg_file, with_fd.
    rewrite (proj2 (Z.eqb_neq _ _) Hf), (proj2 (Z.eqb_neq _ _) Hf), (proj2 (Nat.ltb_ge _ _)) by lia.
    rewrite take_ge, drop_ge, app_nil_r by lia.
    destruct (IH (advance (length m) q) Ht Hf (file ++ m)) as [q' ->]; [cbn; rewrite length_app; lia|].
    exists q'. by rewrite <- app_assoc.
Qed.

Lemma recv_all_file opened q msgs : type q = MSQ_TYPE_FILE -> fd q <> -1 -> Forall (fun m => length m = MSGBUF_SIZE) msgs ->
  forall pre rest, offset q = length pre -> recv_all opened q (length msgs) (pre ++ concat msgs ++ rest) = map (fun m => (m, 0)) msgs.
Proof.
  intros Ht Hf Hm. revert q Ht Hf. induction Hm as [|m msgs Hl _ IH]; intros q Ht Hf pre rest Ho; [done|].
  cbn [length concat recv_all map]. unfold recv_msg. rewrite Ht. unfold recv_msg_file, with_fd.
  rewrite (proj2 (Z.eqb_neq _ _) Hf), (proj2 (Z.eqb_neq _ _) Hf). rewrite Ho, drop_app_length, <- app_assoc, <- Hl, take_app_length, Nat.ltb_irrefl.
  f_equal. rewrite (app_assoc pre m). apply (IH (advance (length m) q) Ht Hf (pre ++ m)). cbn. rewrite length_app. lia.
Qed.

(** One sender and one receiver that open the new file: the messages come out
    whole and in order. *)
Theorem messages_in_order n n' opened opened' msgs rest (Ho : opened <> -1 /\ opened' <> -1)
    (Hm : Forall (fun m => length m = MSGBUF_SIZE) msgs) :
  exists q, send_all opened (with_fd opened (create_msg_queue_file n)) msgs [] = (q, concat msgs, replicate (length msgs) 0)
    /\ recv_all opened' (with_fd opened' (create_msg_queue_file n')) (length msgs) (concat msgs ++ rest) = map (fun m => (m, 0)) msgs.
Proof.
  destruct Ho as [Ho Ho']. destruct (send_all_file opened (with_fd opened (create_msg_queue_file n)) msgs) with (file := @nil Z) as [q Eq]; [done..|].
  exists q. split; [exact Eq|]. by apply (recv_all_file opened' (with_fd opened' (create_msg_queue_file n')) msgs eq_refl Ho' Hm []).
Qed.

(** A second sender, in another process, writes over what the first has
    sent. *)
Theorem second_sender_overwrites n n' opened opened' m m' (Ho : opened <> -1 /\ opened' <> -1)
    (Hm : length m = MSGBUF_SIZE /\ length m' = MSGBUF_SIZE) :
  let '(_, file, ret) := send_msg opened (create_msg_queue_file n) m [] in
  let '(_, file', ret') := send_msg opened' (create_msg_queue_file n') m' file in
  ret = 0 /\ ret' = 0 /\ file' = m'.
Proof.
  destruct Ho as [Ho Ho'], Hm as [Hm Hm']. unfold send_msg. cbn [type create_msg_queue_file]. unfold send_msg_file, with_fd. cbn [fd create_msg_queue_file].
  cbn [Z.eqb Pos.eqb fd offset]. rewrite (proj2 (Z.eqb_neq _ _) Ho), (proj2 (Z.eqb_neq _ _) Ho'), Hm, Hm', Nat.ltb_irrefl.
  split_and!; [done|done|]. cbn [take app Nat.add]. rewrite drop_nil, app_nil_r, drop_ge, app_nil_r by lia. done.
Qed.

Lemma created_is_found_witness :
  exists q mgr', create_msg_queue (fun _ => None) [] msq_mgr_init (ascii_bytes "stat") MSQ_TYPE_FILE = Some (q, mgr') /\
  get_msg_queue mgr' (ascii_bytes "stat") MSQ_TYPE_FILE = Some q /\ create_msg_queue (fun _ => None) [] mgr' (ascii_bytes "stat") MSQ_TYPE_FILE = None.
Proof. eexists _, _. split; [reflexivity|]. apply (created_is_found (fun _ => None) [] msq_mgr_init); [vm_compute; lia|reflexivity]. Defined.

Lemma long_name_lost_witness : exists q mgr',
  create_msg_queue (fun _ => None) [] msq_mgr_init (replicate 128 65) MSQ_TYPE_FILE = Some (q, mgr') /\ get_msg_queue mgr' (replicate 128 65) MSQ_TYPE_FILE = None.
Proof. apply (long_name_lost (fun _ => None) [] msq_mgr_init (replicate 128 65)); [vm_compute; lia|reflexivity]. Defined.

Lemma messages_in_order_witness : exists q,
  send_all 5 (with_fd 5 (create_msg_queue_file [])) [replicate 264 1; replicate 264 2] [] = (q, concat [replicate 264 1; replicate 264 2], replicate 2 0)
  /\ recv_all 6 (with_fd 6 (create_msg_queue_file [])) 2 (concat [replicate 264 1; replicate 264 2] ++ [3]) = [(replicate 264 1, 0); (replicate 264 2, 0)].
Proof. apply (messages_in_order [] [] 5 6 [replicate 264 1; replicate 264 2] [3]); [done|repeat constructor]. Defined.

Lemma second_sender_overwrites_witness :
  let '(_, file, ret) := send_msg 5 (create_msg_queue_file []) (replicate 264 1) [] in
  let '(_, file', ret') := send_msg 6 (create_msg_queue_file []) (replicate 264 2) file in
  ret = 0 /\ ret' = 0 /\ file' = replicate 264 2.
Proof. apply (second_sender_overwrites [] [] 5 6 (replicate 264 1) (replicate 264 2)); done. Defined.
