(* ===== verification/Strtox.v ===== *)
(** * Strings to integers (src/strtox.c)

    A C string is the list of its characters, the terminating zero left out:
    reading at its end gives 0.  The theorems relate the 64-bit arithmetic
    with its overflow test to integers without bound. *)

From S2P Require Import Prelude CStr.

Definition EINVAL : Z := 22.
Definition ERANGE : Z := 34.
Definition KSTRTOX_OVERFLOW : Z := 2 ^ 31.
Definition ULLONG_MAX : Z := 2 ^ 64 - 1.

(** The value stored in [*res], or the negative return value. *)
Inductive kresult := KOk (v : Z) | KErr (rv : Z).

Definition _tolower (c : Z) : Z := Z.lor c 0x20.

Definition isdigit (ch : Z) : bool := (48 <=? ch) && (ch <=? 57).

Definition isxdigit (ch : Z) : bool :=
  if isdigit ch then true
  else if (97 <=? ch) && (ch <=? 102) then true
  else (65 <=? ch) && (ch <=? 70).

Definition _parse_integer_fixup_radix (s : list Z) (base : Z) : list Z * Z :=
  let base :=
    if base =? 0 then
      if char_at s 0 =? 48 then
        if (_tolower (char_at s 1) =? 120) && isxdigit (char_at s 2) then 16 else 8
      else 10
    else base in
  if (base =? 16) && (char_at s 0 =? 48) && (_tolower (char_at s 1) =? 120)
  then (drop 2 s, base) else (s, base).

(** [val] of a character, [None] for the [break]. *)
Definition digit_val (c : Z) : option Z :=
  let lc := Z.lor c 0x20 in
  if (48 <=? c) && (c <=? 57) then Some (c - 48)
  else if (97 <=? lc) && (lc <=? 102) then Some (lc - 97 + 10)
  else None.

(** The loop of [_parse_integer] with its two variables; [rv] counts the
    characters and carries the overflow bit. *)
Fixpoint parse_loop (s : list Z) (base res rv : Z) : Z * Z :=
  match s with
  | [] => (res, rv)
  | c :: s =>
      match digit_val c with
      | None => (res, rv)
      | Some val =>
          if base <=? val then (res, rv) else
          let rv :=
            if negb (Z.land res (u64 (Z.shiftl ULLONG_MAX 60)) =? 0) then
              if (ULLONG_MAX - val) / base <? res then Z.lor rv KSTRTOX_OVERFLOW else rv
            else rv in
          parse_loop s base (u64 (res * base + val)) (u32 (rv + 1))
      end
  end.

Definition _parse_integer (s : list Z) (base : Z) : Z * Z := parse_loop s base 0 0.

Definition _kstrtoull (s : list Z) (base : Z) : kresult :=
  let '(s, base) := _parse_integer_fixup_radix s base in
  let '(_res, rv) := _parse_integer s base in
  if negb (Z.land rv KSTRTOX_OVERFLOW =? 0) then KErr (- ERANGE) else
  if rv =? 0 then KErr (- EINVAL) else
  let s := drop (Z.to_nat rv) s in
  let s := if char_at s 0 =? 10 then drop 1 s else s in
  if negb (char_at s 0 =? 0) then KErr (- EINVAL) else KOk _res.

Definition kstrtoull (s : list Z) (base : Z) : kresult :=
  _kstrtoull (if char_at s 0 =? 43 then drop 1 s else s) base.

Definition kstrtouint (s : list Z) (base : Z) : kresult :=
  match kstrtoull s base with
  | KErr rv => KErr rv
  | KOk tmp => if negb (tmp =? u32 tmp) then KErr (- ERANGE) else KOk (u32 tmp)
  end.

Definition kstrtou32 (s : list Z) (base : Z) : kresult := kstrtouint s base.

(** [parse_even_earlier]: -1 unless [p] starts with [option]; the number is
    read one character further on, outside the string ([None]) when [p] is
    [option] itself. *)
Definition parse_even_earlier (option p : list Z) : Datatypes.option kresult :=
  if decide (take (length option) p = option)
  then if decide (length p = length option) then None
       else Some (kstrtou32 (drop (length option + 1) p) 10)
  else Some (KErr (-1)).

(** ** The reference *)

Definition digit_of (base c : Z) : option Z :=
  match digit_val c with Some v => if base <=? v then None else Some v | None => None end.

(** The longest prefix of digits of the base, as values, and the rest. *)
Fixpoint span (base : Z) (s : list Z) : list Z * list Z :=
  match s with
  | [] => ([], [])
  | c :: s' =>
      match digit_of base c with
      | Some v => let '(ds, rest) := span base s' in (v :: ds, rest)
      | None => ([], s)
      end
  end.

Definition value (base : Z) (ds : list Z) (acc : Z) : Z := foldl (fun a v => a * base + v) acc ds.

(** What may follow the digits: nothing, or one newline. *)
Definition at_end (rest : list Z) : bool :=
  let rest := if char_at rest 0 =? 10 then drop 1 rest else rest in char_at rest 0 =? 0.

Definition parse_ref (s : list Z) (base : Z) : kresult :=
  let '(ds, rest) := span base s in
  if 2 ^ 64 <=? value base ds 0 then KErr (- ERANGE)
  else if decide (ds = []) then KErr (- EINVAL)
  else if at_end rest then KOk (value base ds 0) else KErr (- EINVAL).

(** ** The loop *)

Lemma digit_of_range base c v : 2 <= base <= 16 -> digit_of base c = Some v -> 0 <= v < base.
Proof.
  intros Hb. unfold digit_of, digit_val. cbv zeta.
  destruct ((48 <=? c) && (c <=? 57)) eqn:H1.
  - apply andb_prop in H1 as [?%Z.leb_le ?%Z.leb_le].
    destruct (Z.leb_spec base (c - 48)); [done|]. intros [= <-]. lia.
  - destruct ((97 <=? Z.lor c 32) && (Z.lor c 32 <=? 102)) eqn:H2; [|done].
    apply andb_prop in H2 as [?%Z.leb_le ?%Z.leb_le].
    destruct (Z.leb_spec base (Z.lor c 32 - 97 + 10)); [done|]. intros [= <-]. lia.
Qed.

Lemma value_mono base ds acc : 1 <= base -> 0 <= acc -> Forall (fun v => 0 <= v) ds -> acc <= value base ds acc.
Proof.
  intros Hb Ha Hd. revert acc Ha. induction Hd as [|v ds Hv _ IH]; intros acc Ha; [done|].
  cbn [value foldl]. fold (value base ds (acc * base + v)).
  specialize (IH (acc * base + v) ltac:(nia)). nia.
Qed.

Lemma span_range base s : 2 <= base <= 16 -> Forall (fun v => 0 <= v < base) (span base s).1.
Proof.
  intros Hb. induction s as [|c s IH]; [constructor|]. cbn [span].
  destruct (digit_of base c) as [v|] eqn:E; [|constructor].
  destruct (span base s). constructor; [by eapply digit_of_range|done].
Qed.

(** The bits tested before the division are those of a large accumulator. *)
Lemma high_bits res : 0 <= res < 2 ^ 64 ->
  Z.land res (u64 (Z.shiftl ULLONG_MAX 60)) = 0 -> res < 2 ^ 60.
Proof.
  intros Hr Hl. destruct (Z.lt_ge_cases res (2 ^ 60)) as [|Hge]; [done|].
  change (u64 (Z.shiftl ULLONG_MAX 60)) with (Z.shiftl (Z.ones 4) 60) in Hl.
  assert (Hd : Z.shiftr (Z.land res (Z.shiftl (Z.ones 4) 60)) 60 = res / 2 ^ 60).
  { rewrite Z.shiftr_land, Z.shiftr_shiftl_l, Z.shiftl_0_r, Z.land_ones by lia.
    rewrite Z.shiftr_div_pow2 by lia. apply Z.mod_small. split; [apply Z.div_pos; lia|].
    apply Z.div_lt_upper_bound; lia. }
  rewrite Hl, Z.shiftr_0_l in Hd. assert (1 <= res / 2 ^ 60) by (apply Z.div_le_lower_bound; lia). lia.
Qed.

(** The overflow test is exact for a base up to 16. *)
Lemma overflow_test base res v : 2 <= base <= 16 -> 0 <= res < 2 ^ 64 -> 0 <= v < base ->
  (negb (Z.land res (u64 (Z.shiftl ULLONG_MAX 60)) =? 0) && ((ULLONG_MAX - v) / base <? res))
    = (2 ^ 64 <=? res * base + v).
Proof.
  intros Hb Hr Hv. destruct (Z.eqb_spec (Z.land res (u64 (Z.shiftl ULLONG_MAX 60))) 0) as [H0|H0].
  - apply high_bits in H0; [|done]. symmetry. apply Z.leb_gt. nia.
  - simpl. unfold ULLONG_MAX. destruct (Z.leb_spec (2 ^ 64) (res * base + v)) as [Hge|Hlt].
    + apply Z.ltb_lt, Z.div_lt_upper_bound; nia.
    + apply Z.ltb_ge, Z.div_le_lower_bound; nia.
Qed.

(** The counter without and with the overflow bit. *)
Definition flagged (ovf : bool) (n : Z) : Z := n + if ovf then KSTRTOX_OVERFLOW else 0.

Lemma flag_lor ovf n : 0 <= n < 2 ^ 31 -> Z.lor (flagged ovf n) KSTRTOX_OVERFLOW = flagged true n.
Proof.
  intros Hn. unfold flagged, KSTRTOX_OVERFLOW.
  assert (Hadd : n + 2 ^ 31 = Z.lor n (2 ^ 31)).
  { rewrite Z.add_nocarry_lxor, Z.lxor_lor; [done| |];
      apply Z.bits_inj'; intros i Hi; rewrite Z.land_spec, Z.bits_0, Z.pow2_bits_eqb by lia;
      (destruct (Z.eqb_spec 31 i) as [<-|]; [|by rewrite andb_false_r]);
      rewrite <- (Z.mod_small n (2 ^ 31)) by lia; by rewrite Z.mod_pow2_bits_high by lia. }
  destruct ovf; rewrite ?Z.add_0_r, Hadd; [|done]. by rewrite <- Z.lor_assoc, Z.lor_diag.
Qed.

Lemma flag_land ovf n : 0 <= n < 2 ^ 31 -> Z.land (flagged ovf n) KSTRTOX_OVERFLOW = if ovf then 2 ^ 31 else 0.
Proof.
  intros Hn. unfold KSTRTOX_OVERFLOW. apply Z.bits_inj'. intros i Hi.
  rewrite Z.land_spec, Z.pow2_bits_eqb by lia. destruct (Z.eqb_spec 31 i) as [<-|Hne].
  - rewrite andb_true_r, Z.testbit_odd, Z.shiftr_div_pow2 by lia. unfold flagged, KSTRTOX_OVERFLOW.
    destruct ovf.
    + rewrite <- (Z.mul_1_l (2 ^ 31)) at 1. rewrite Z.div_add, Z.div_small by lia. done.
    + rewrite Z.add_0_r, Z.div_small by lia. done.
  - rewrite andb_false_r. destruct ovf; [|by rewrite Z.bits_0].
    rewrite Z.pow2_bits_eqb by lia. symmetry. by apply Z.eqb_neq.
Qed.

(** [rv] after one more digit. *)
Lemma rv_step base acc ovf n v :
  2 <= base <= 16 -> 0 <= acc -> (ovf = false -> acc < 2 ^ 64) -> 0 <= v < base -> 0 <= n < 2 ^ 31 - 1 ->
  u32 ((if negb (Z.land (u64 acc) (u64 (Z.shiftl ULLONG_MAX 60)) =? 0)
        then if (ULLONG_MAX - v) / base <? u64 acc then Z.lor (flagged ovf n) KSTRTOX_OVERFLOW
             else flagged ovf n
        else flagged ovf n) + 1)
    = flagged (ovf || (2 ^ 64 <=? acc * base + v)) (n + 1).
Proof.
  intros Hb Ha Hov Hv Hn.
  assert (Hup : forall o, u32 (flagged o n + 1) = flagged o (n + 1)).
  { intros o. unfold flagged, KSTRTOX_OVERFLOW. destruct o; rewrite (wrap_u_small 32); lia. }
  rewrite flag_lor by lia. destruct ovf.
  - destruct (negb _); [destruct (_ <? _)|]; apply Hup.
  - specialize (Hov eq_refl).
    pose proof (overflow_test base (u64 acc) v Hb (wrap_u_range 64 acc ltac:(lia)) Hv) as Ht.
    rewrite (wrap_u_small 64 acc) in * by lia. simpl. rewrite <- Ht.
    destruct (negb _); simpl; [destruct (_ <? _)|]; apply Hup.
Qed.

Lemma parse_loop_spec base s : 2 <= base <= 16 -> forall acc ovf n,
  0 <= acc -> (ovf = false -> acc < 2 ^ 64) -> 0 <= n -> n + Z.of_nat (length s) < 2 ^ 31 ->
  let ds := (span base s).1 in
  exists res ovf', parse_loop s base (u64 acc) (flagged ovf n)
      = (res, flagged ovf' (n + Z.of_nat (length ds)))
    /\ ovf' = ovf || (2 ^ 64 <=? value base ds acc)
    /\ (ovf' = false -> res = value base ds acc).
Proof.
  intros Hb. induction s as [|c s IH]; intros acc ovf n Ha Hov Hn Hlen ds.
  - exists (u64 acc), ovf. simpl. rewrite Z.add_0_r. split; [done|].
    destruct ovf; [done|]. specialize (Hov eq_refl). simpl. split.
    + symmetry. by apply Z.leb_gt.
    + intros _. apply (wrap_u_small 64). lia.
  - subst ds. cbn [parse_loop span]. unfold digit_of. cbn [length] in Hlen.
    destruct (digit_val c) as [v|] eqn:Ev; [destruct (base <=? v) eqn:Eb|].
    1,3: exists (u64 acc), ovf; simpl; rewrite Z.add_0_r; (split; [done|]); destruct ovf; [done|];
      specialize (Hov eq_refl); simpl; (split; [symmetry; by apply Z.leb_gt|]);
      intros _; apply (wrap_u_small 64); lia.
    assert (Hv : 0 <= v < base) by (apply (digit_of_range base c); [done|unfold digit_of; by rewrite Ev, Eb]).
    rewrite (rv_step base acc ovf n v) by (done || lia).
    set (ovf1 := ovf || (2 ^ 64 <=? acc * base + v)).
    assert (Hmod : u64 (u64 acc * base + v) = u64 (acc * base + v)).
    { unfold wrap_u. rewrite <- Zplus_mod_idemp_l, Zmult_mod_idemp_l. apply Zplus_mod_idemp_l. }
    destruct (IH (acc * base + v) ovf1 (n + 1)) as (res & ovf' & E & Ho & Hres);
      [nia|unfold ovf1; intros [_ H]%orb_false_iff; by apply Z.leb_gt|lia|lia|].
    rewrite Hmod, E. pose proof (span_range base s Hb) as Hsr.
    destruct (span base s) as [ds rest]. cbn [fst] in *.
    exists res, ovf'. split; [cbn [length]; do 2 f_equal; lia|].
    cbn [value foldl]. fold (value base ds (acc * base + v)). split; [|done].
    rewrite Ho. unfold ovf1. destruct ovf; [done|]. simpl.
    destruct (Z.leb_spec (2 ^ 64) (acc * base + v)) as [Hge|]; [|done]. simpl. symmetry.
    apply Z.leb_le. etransitivity; [exact Hge|]. apply value_mono; [lia|nia|].
    eapply Forall_impl; [exact Hsr|]. simpl. lia.
Qed.

(** ** The whole functions *)

Lemma span_app base s : exists pre, s = pre ++ (span base s).2 /\ length pre = length (span base s).1.
Proof.
  induction s as [|c s (pre & Hs & Hl)]; [by exists []|]. cbn [span].
  destruct (digit_of base c); [|by exists []]. destruct (span base s) as [ds rest]. simpl in *.
  exists (c :: pre). simpl. by rewrite <- Hs, Hl.
Qed.

(** The string and base after the sign and the radix prefix. *)
Definition normalise (s : list Z) (base : Z) : list Z * Z :=
  _parse_integer_fixup_radix (if char_at s 0 =? 43 then drop 1 s else s) base.

Lemma fixup_base s base : base = 0 \/ 2 <= base <= 16 -> 2 <= (_parse_integer_fixup_radix s base).2 <= 16.
Proof.
  intros Hb. unfold _parse_integer_fixup_radix.
  assert (H : 2 <= (if base =? 0 then if char_at s 0 =? 48 then
      if (_tolower (char_at s 1) =? 120) && isxdigit (char_at s 2) then 16 else 8 else 10 else base) <= 16).
  { destruct (Z.eqb_spec base 0); [destruct (_ =? 48); [destruct (_ && _)|]; lia|lia]. }
  destruct (_ && _ && _); exact H.
Qed.

Lemma fixup_length s base : (length (_parse_integer_fixup_radix s base).1 <= length s)%nat.
Proof.
  unfold _parse_integer_fixup_radix. destruct (_ && _ && _); simpl; [rewrite length_drop; lia|done].
Qed.

Lemma kstrtoull_ref s base : base = 0 \/ 2 <= base <= 16 -> Z.of_nat (length s) < 2 ^ 31 ->
  kstrtoull s base = parse_ref (normalise s base).1 (normalise s base).2.
Proof.
  intros Hb Hl. unfold kstrtoull, _kstrtoull, normalise.
  set (s1 := if char_at s 0 =? 43 then drop 1 s else s).
  assert (Hl1 : (length s1 <= length s)%nat).
  { unfold s1. destruct (_ =? 43); [rewrite length_drop; lia|done]. }
  pose proof (fixup_base s1 base Hb) as Hb2. pose proof (fixup_length s1 base) as Hl2.
  destruct (_parse_integer_fixup_radix s1 base) as [s2 b]. cbn [fst snd] in *.
  unfold _parse_integer, parse_ref.
  destruct (parse_loop_spec b s2 Hb2 0 false 0) as (res & ovf & E & Ho & Hres); [lia|done|lia|lia|].
  change (u64 0) with 0 in E. change (flagged false 0) with 0 in E. rewrite E.
  destruct (span_app b s2) as (pre & Hs2 & Hpre).
  destruct (span b s2) as [ds rest]. cbn [fst snd] in *. rewrite Z.add_0_l in *.
  assert (Hds : (length ds <= length s2)%nat) by (rewrite Hs2, length_app; lia).
  rewrite flag_land by lia. simpl in Ho. rewrite <- Ho. destruct ovf; [done|].
  cbn [Z.eqb negb]. unfold flagged. rewrite Z.add_0_r.
  destruct ds as [|v ds]; [done|]. rewrite (proj2 (Z.eqb_neq _ _)) by (simpl; lia).
  rewrite decide_False by done. rewrite Nat2Z.id, Hs2, <- Hpre, drop_app_length.
  rewrite Hres by done. unfold at_end. cbv zeta.
  destruct (char_at (if char_at rest 0 =? 10 then drop 1 rest else rest) 0 =? 0); done.
Qed.

(** [kstrtoull] computes what integers without bound say: it skips one
    plus sign and the radix prefix, takes the longest run of digits of the
    base, and returns their value exactly when there is a digit, only a
    newline may follow and the value is below 2^64; it returns -ERANGE exactly
    when the value is not, whatever follows, and -EINVAL otherwise. *)
Theorem kstrtoull_correct s base
    (Hbase : base = 0 \/ 2 <= base <= 16) (Hlen : Z.of_nat (length s) < 2 ^ 31) :
  kstrtoull s base = parse_ref (normalise s base).1 (normalise s base).2.
Proof. by apply kstrtoull_ref. Qed.

Lemma kstrtoull_correct_witness :
  kstrtoull [43; 48; 120; 102; 70; 10] 0 = parse_ref [102; 70; 10] 16 /\ parse_ref [102; 70; 10] 16 = KOk 255.
Proof.
  split; [|reflexivity]. apply (kstrtoull_correct [43; 48; 120; 102; 70; 10] 0); [by left|done].
Defined.

(** ** Printing and parsing *)

Lemma span_digits s : digits s -> span 10 s = (map (fun c => c - 48) s, []).
Proof.
  induction 1 as [|c s Hc _ IH]; [done|]. cbn [span map]. apply is_digit_spec in Hc.
  unfold digit_of, digit_val. cbv zeta. rewrite (proj2 (Z.leb_le 48 c)), (proj2 (Z.leb_le c 57)) by lia.
  cbn [andb]. rewrite (proj2 (Z.leb_gt 10 _)) by lia. by rewrite IH.
Qed.

Lemma value_digits s : value 10 (map (fun c => c - 48) s) 0 = dec_value 0 s.
Proof. unfold value, dec_value. generalize 0. by induction s as [|c s IH]; intros a; [|apply IH]. Qed.

(** A printed number reads back: [kstrtouint] in base 10 of the decimal
    digits of [n] gives [n] for every [n] below 2^32, and -ERANGE from 2^32
    up to 10^20. *)
Theorem kstrtouint_print n (Hn : 0 <= n < 10 ^ 20) :
  kstrtouint (print_dec 20 n) 10 = if n <? 2 ^ 32 then KOk n else KErr (- ERANGE).
Proof.
  destruct (print_dec_spec 20 n) as (Hs & Hv & Hne); [lia|lia|].
  pose proof (length_print_dec 20 n) as Hlen. set (s := print_dec 20 n) in *. clearbody s.
  pose proof (digits_char_at s 0 Hs ltac:(destruct s; simpl; [done|lia])) as Hc.
  unfold kstrtouint. rewrite kstrtoull_ref by (lia || done). unfold normalise.
  rewrite (proj2 (Z.eqb_neq (char_at _ 0) 43)) by lia.
  unfold _parse_integer_fixup_radix. change (10 =? 0) with false. change (10 =? 16) with false.
  cbn [andb fst snd]. change (10 =? 16) with false. cbn [andb fst snd].
  unfold parse_ref. rewrite span_digits, value_digits, Hv by done.
  destruct (Z.leb_spec (2 ^ 64) n) as [Hbig|Hsmall].
  { by rewrite (proj2 (Z.ltb_ge n (2 ^ 32))) by lia. }
  rewrite decide_False by (by destruct s). change (at_end []) with true. cbv iota.
  destruct (Z.ltb_spec n (2 ^ 32)) as [Hlt|Hge].
  - rewrite (wrap_u_small 32) by lia. by rewrite Z.eqb_refl.
  - rewrite (proj2 (Z.eqb_neq _ _)); [done|]. pose proof (wrap_u_range 32 n ltac:(lia)). lia.
Qed.

Lemma kstrtouint_print_witness :
  kstrtouint (print_dec 20 4294967295) 10 = KOk 4294967295
  /\ kstrtouint (print_dec 20 4294967296) 10 = KErr (- ERANGE).
Proof. split; [apply (kstrtouint_print 4294967295); lia|apply (kstrtouint_print 4294967296); lia]. Defined.
