(* ===== verification/Validate.v ===== *)
(** * Addresses in dotted decimal (src/validate.c)

    [is_valid_ipv4] against the grammar it recognises. *)

From S2P Require Import Prelude CStr.

(** The loop that fills [tmp]; [n] characters are still free. *)
Fixpoint copy_tmp (n : nat) (p : list Z) : list Z :=
  match n, p with
  | S n', c :: p' => if c =? 46 then [] else c :: copy_tmp n' p'
  | _, _ => []
  end.

(** [None] is the label [RET_INVALID]; otherwise the returned [p + j]. *)
Definition is_valid_dotted_decimal (p : list Z) (is_first is_last : bool) : option (list Z) :=
  if negb is_first && negb (char_at p 0 =? 46) then None else
  let p := if is_first then p else drop 1 p in
  let tmp := copy_tmp 3 p in
  let j := length tmp in
  if (j =? 0)%nat then None else
  if is_last && negb (char_at p j =? 0) then None else
  let decimal := atoi tmp in
  if (char_at tmp 0 =? 48) && negb (decimal =? 0) then None else
  if negb ((0 <=? decimal) && (decimal <=? 255)) then None else
  Some (drop j p).

Definition valid_char (c : Z) : bool := ((48 <=? c) && (c <=? 57)) || (c =? 46).

Definition is_valid_ipv4 (ip : list Z) : bool :=
  let len := i32 (Z.of_nat (length ip)) in
  if (len <? 7) || (15 <? len) then false else
  if negb (forallb valid_char (take (Z.to_nat len) ip)) then false else
  match is_valid_dotted_decimal ip true false with
  | None => false
  | Some p =>
      match is_valid_dotted_decimal p false false with
      | None => false
      | Some p =>
          match is_valid_dotted_decimal p false false with
          | None => false
          | Some p =>
              match is_valid_dotted_decimal p false true with
              | None => false
              | Some _ => true
              end
          end
      end
  end.

(** ** The grammar *)

(** One to three digits worth at most 255; a leading zero only in a zero. *)
Record octet (o : list Z) : Prop := Octet {
  oct_digits : digits o;
  oct_length : (1 <= length o <= 3)%nat;
  oct_value : dec_value 0 o <= 255;
  oct_zero : char_at o 0 = 48 -> dec_value 0 o = 0;
}.

Definition dotted_quad (ip : list Z) : Prop :=
  exists a b c d, octet a /\ octet b /\ octet c /\ octet d
    /\ ip = a ++ 46 :: b ++ 46 :: c ++ 46 :: d.

(** ** One block *)

(** Where [copy_tmp] stops. *)
Definition stops (o rest : list Z) : Prop := length o = 3%nat \/ rest = [] \/ char_at rest 0 = 46.

Lemma copy_tmp_split n p : exists rest,
  p = copy_tmp n p ++ rest /\ 46 ∉ copy_tmp n p /\ (length (copy_tmp n p) <= n)%nat
  /\ (length (copy_tmp n p) = n \/ rest = [] \/ char_at rest 0 = 46).
Proof.
  revert p. induction n as [|n IH]; intros p.
  - exists p. split_and!; auto. apply not_elem_of_nil.
  - destruct p as [|c p]; cbn [copy_tmp].
    + exists []. split_and!; auto using not_elem_of_nil. simpl. lia.
    + destruct (Z.eqb_spec c 46) as [->|Hne].
      * exists (46 :: p). split_and!; auto using not_elem_of_nil. simpl. lia.
      * destruct (IH p) as (rest & Hp & Hd & Hl & Hs). exists rest.
        split_and!; [simpl; congruence|rewrite not_elem_of_cons; split; congruence|simpl; lia|].
        simpl. destruct Hs as [->|]; auto.
Qed.

Lemma copy_tmp_app n o rest : 46 ∉ o -> (length o <= n)%nat ->
  (length o = n \/ rest = [] \/ char_at rest 0 = 46) -> copy_tmp n (o ++ rest) = o.
Proof.
  revert o. induction n as [|n IH]; intros o Hd Hl Hs.
  - destruct o; simpl in Hl; [|lia]. done.
  - destruct o as [|c o]; cbn [app copy_tmp].
    + destruct rest as [|c rest]; [done|]. destruct Hs as [|[|Hc]]; try done.
      unfold char_at in Hc. simpl in Hc. subst c. done.
    + apply not_elem_of_cons in Hd as [Hc Hd]. rewrite (proj2 (Z.eqb_neq c 46)) by congruence.
      f_equal. apply IH; [done|simpl in Hl; lia|]. simpl in Hs. destruct Hs as [|]; [left; lia|auto].
Qed.

Lemma digits_no_dot o : digits o -> 46 ∉ o.
Proof.
  intros Ho Hin. pose proof (proj1 (Forall_forall _ _) Ho 46 Hin) as Hc. done.
Qed.

Lemma valid_no_dot o : Forall (fun c => valid_char c = true) o -> 46 ∉ o -> digits o.
Proof.
  intros Ho Hn. apply Forall_forall. intros c Hc.
  pose proof (proj1 (Forall_forall _ _) Ho c Hc) as Hv. unfold valid_char in Hv.
  apply orb_prop in Hv as [|Hv%Z.eqb_eq]; [done|]. by subst.
Qed.

(** The tests on the copied block accept exactly the octets. *)
Lemma block_tests o : digits o -> (length o <= 3)%nat ->
  octet o <-> (length o =? 0)%nat = false
    /\ (char_at o 0 =? 48) && negb (atoi o =? 0) = false
    /\ negb ((0 <=? atoi o) && (atoi o <=? 255)) = false.
Proof.
  intros Ho Hl. rewrite atoi_digits by (done || lia). pose proof (dec_value_bound 0 o Ho ltac:(lia)) as Hb.
  rewrite (proj2 (Z.leb_le 0 _)) by lia. rewrite Nat.eqb_neq, andb_false_iff, !negb_false_iff. simpl.
  rewrite Z.eqb_eq, Z.eqb_neq, Z.leb_le. split.
  - intros [? ? ? Hz]. split_and!; [lia| |done].
    destruct (decide (char_at o 0 = 48)) as [E|E]; [right; by apply Hz|by left].
  - intros (H1 & H2 & H3). split; [done|lia|done|]. intros E. destruct H2; [done|lia].
Qed.

Lemma valid_nonzero s : Forall (fun c => valid_char c = true) s -> Forall (fun c => c <> 0) s.
Proof. intros Hs. eapply Forall_impl; [exact Hs|]. by intros c Hc ->. Qed.

Lemma first_block q is_last p' : Forall (fun c => valid_char c = true) q ->
  is_valid_dotted_decimal q true is_last = Some p' <->
  exists o, q = o ++ p' /\ octet o /\ stops o p' /\ (is_last = true -> p' = []).
Proof.
  intros Hq. unfold is_valid_dotted_decimal. cbv zeta. cbn [negb andb].
  destruct (copy_tmp_split 3 q) as (rest & Hsplit & Hd & Hl & Hs).
  set (o := copy_tmp 3 q) in *.
  assert (Ho : Forall (fun c => valid_char c = true) o /\ Forall (fun c => valid_char c = true) rest)
    by (apply Forall_app; congruence).
  destruct Ho as [Ho%valid_no_dot Hrest%valid_nonzero]; [|done].
  assert (Hdrop : drop (length o) q = rest) by (rewrite Hsplit at 1; apply drop_app_length).
  assert (Hend : char_at q (length o) = char_at rest 0) by (rewrite Hsplit at 1; apply char_at_app_r).
  rewrite Hdrop, Hend. pose proof (block_tests o Ho Hl) as Htests. split.
  - destruct (_ =? 0)%nat; [done|]. destruct (is_last && _) eqn:Elast; [done|].
    destruct (_ && negb (atoi o =? 0)); [done|]. destruct (negb (_ && _)); [done|]. intros [= <-].
    exists o. split_and!; [done|by apply Htests|done|]. intros ->.
    apply negb_false_iff, Z.eqb_eq in Elast. by apply char_at_nil.
  - intros (o' & Hq' & Hoct & Hst & Hlast).
    assert (o = o') as <-.
    { unfold o. rewrite Hq'. apply copy_tmp_app; [by apply digits_no_dot, Hoct|apply Hoct|done]. }
    assert (rest = p') as <- by (apply (app_inv_head o); congruence).
    apply Htests in Hoct as (-> & -> & ->).
    destruct is_last; [|done]. by rewrite Hlast.
Qed.

Lemma next_block q is_last :
  is_valid_dotted_decimal (46 :: q) false is_last = is_valid_dotted_decimal q true is_last.
Proof. reflexivity. Qed.

Lemma next_block_dot p is_last r : is_valid_dotted_decimal p false is_last = Some r ->
  exists q, p = 46 :: q.
Proof.
  unfold is_valid_dotted_decimal. cbn [negb andb]. destruct p as [|c q]; [done|].
  change (char_at (c :: q) 0) with c. destruct (Z.eqb_spec c 46) as [->|Hne]; [eauto|done].
Qed.

(** Any of the last three blocks. *)
Lemma later_block p is_last r : Forall (fun c => valid_char c = true) p ->
  is_valid_dotted_decimal p false is_last = Some r ->
  exists o, p = 46 :: o ++ r /\ octet o /\ (is_last = true -> r = []).
Proof.
  intros Hp E. pose proof E as (q & ->)%next_block_dot. rewrite next_block in E.
  apply Forall_cons in Hp as [_ Hq]. apply first_block in E as (o & -> & Ho & _ & Hl); [|done].
  by exists o.
Qed.

Lemma accepts_block o p is_last : octet o -> Forall (fun c => valid_char c = true) (o ++ p) ->
  (p = [] \/ char_at p 0 = 46) -> (is_last = true -> p = []) ->
  is_valid_dotted_decimal (o ++ p) true is_last = Some p.
Proof. intros Ho Hv Hp Hl. apply first_block; [done|]. exists o. split_and!; try done. by right. Qed.

Lemma octet_valid o : octet o -> Forall (fun c => valid_char c = true) o.
Proof.
  intros [Ho _ _ _]. eapply Forall_impl; [exact Ho|]. intros c Hc. unfold valid_char. by apply orb_true_intro; left.
Qed.

Lemma quad_valid a b c d : octet a -> octet b -> octet c -> octet d ->
  Forall (fun ch => valid_char ch = true) (a ++ 46 :: b ++ 46 :: c ++ 46 :: d).
Proof.
  intros Ha Hb Hc Hd. repeat (apply Forall_app; split; [by apply octet_valid|constructor; [done|]]).
  by apply octet_valid.
Qed.

(** [is_valid_ipv4] accepts exactly the dotted quads: four groups of one
    to three digits separated by single dots, each worth at most 255, where a
    group may start with 0 only if its value is 0.  (So "0", "00" and "000"
    are accepted as groups, "01" is not.) *)
Theorem is_valid_ipv4_grammar ip (Hlen : Z.of_nat (length ip) < 2 ^ 31) :
  is_valid_ipv4 ip = true <-> dotted_quad ip.
Proof.
  unfold is_valid_ipv4. cbv zeta. rewrite (i32_small (Z.of_nat _)) by (unfold in_i32; lia).
  rewrite Nat2Z.id, firstn_all. split.
  - destruct (_ || _); [done|]. destruct (forallb _ _) eqn:Hv; [|done]. cbn [negb].
    apply forallb_Forall in Hv.
    destruct (is_valid_dotted_decimal ip true false) as [p1|] eqn:E1; [|done].
    apply first_block in E1 as (a & -> & Ha & _ & _); [|done]. apply Forall_app in Hv as [_ Hv].
    destruct (is_valid_dotted_decimal p1 false false) as [p2|] eqn:E2; [|done].
    apply later_block in E2 as (b & -> & Hb & _); [|done].
    apply Forall_cons in Hv as [_ [_ Hv]%Forall_app].
    destruct (is_valid_dotted_decimal p2 false false) as [p3|] eqn:E3; [|done].
    apply later_block in E3 as (c & -> & Hc & _); [|done].
    apply Forall_cons in Hv as [_ [_ Hv]%Forall_app].
    destruct (is_valid_dotted_decimal p3 false true) as [p4|] eqn:E4; [|done].
    apply later_block in E4 as (d & -> & Hd & ->); [|done|done]. intros _.
    exists a, b, c, d. by rewrite app_nil_r.
  - intros (a & b & c & d & Ha & Hb & Hc & Hd & ->). pose proof (quad_valid a b c d Ha Hb Hc Hd) as Hv.
    rewrite (proj2 (Z.ltb_ge _ 7)), (proj2 (Z.ltb_ge 15 _))
      by (destruct Ha, Hb, Hc, Hd; rewrite !length_app; cbn [length]; rewrite !length_app;
          cbn [length]; rewrite !length_app; cbn [length]; lia).
    rewrite (proj2 (forallb_Forall _ _) Hv). cbn [orb negb].
    rewrite accepts_block by (done || by right). apply Forall_app in Hv as [_ [_ Hv]%Forall_cons].
    rewrite next_block, accepts_block by (done || by right). apply Forall_app in Hv as [_ [_ Hv]%Forall_cons].
    rewrite next_block, accepts_block by (done || by right). apply Forall_app in Hv as [_ [_ Hv]%Forall_cons].
    rewrite <- (app_nil_r d) at 1. rewrite next_block, accepts_block; try done; [by rewrite app_nil_r|by left].
Qed.

(** "192.168.00.1" is accepted, "192.168.01.1" is not. *)
Lemma is_valid_ipv4_grammar_witness :
  dotted_quad [49; 57; 50; 46; 49; 54; 56; 46; 48; 48; 46; 49]
  /\ ~ dotted_quad [49; 57; 50; 46; 49; 54; 56; 46; 48; 49; 46; 49].
Proof.
  split.
  - apply (is_valid_ipv4_grammar [49; 57; 50; 46; 49; 54; 56; 46; 48; 48; 46; 49]); reflexivity.
  - intros H. apply (is_valid_ipv4_grammar [49; 57; 50; 46; 49; 54; 56; 46; 48; 49; 46; 49]) in H; [done|reflexivity].
Defined.
