(* ===== verification/Version.v ===== *)
(** * Version numbers (src/version.c)

    Reading the version string of the build and the check the server makes
    when a client connects. *)

From S2P Require Import Prelude CStr.

Record version_info := VersionInfo { major : Z; minor : Z; revision : Z }.

Definition VERSION : list Z := ascii_bytes "0.1.3".

(** [num = num * 10 + (p[i] - '0')], stored into a [short] at every step. *)
Definition get_short (p : list Z) (len : Z) : Z :=
  if len <=? 0 then -1 else
  let q := map (char_at p) (seq 0 (Z.to_nat len)) in
  if negb (forallb (fun c => (48 <=? c) && (c <=? 57)) q) then -1 else
  foldl (fun num c => i16 (num * 10 + (c - 48))) 0 q.

(** The body of [get_version_info] on the string [VERSION]; [None] is -1. *)
Definition get_version_info (text : list Z) : option version_info :=
  match strchr text 46 with
  | None => None
  | Some (pre, q) =>
      let mj := get_short text (Z.of_nat (length pre)) in
      if mj =? -1 then None else
      let p := drop 1 q in
      match strchr p 46 with
      | None => None
      | Some (pre, q) =>
          let mn := get_short p (Z.of_nat (length pre)) in
          if mn =? -1 then None else
          Some (VersionInfo mj mn (i16 (atoi (drop 1 q))))
      end
  end.

(** [%d] of a [short]. *)
Definition fmt_d (n : Z) : list Z := if n <? 0 then 45 :: print_dec 5 (- n) else print_dec 5 n.

Definition fmt_version (v : version_info) : list Z :=
  fmt_d (major v) ++ [46] ++ fmt_d (minor v) ++ [46] ++ fmt_d (revision v).

(** [snprintf] into [len] bytes keeps [len - 1] characters. *)
Definition snprintf (len : Z) (text : list Z) : list Z := take (Z.to_nat (len - 1)) text.

Definition mismatch_text (client server : version_info) (wanted : list Z) : list Z :=
  ascii_bytes "Version not matched, cannot connect!" ++ [10]
  ++ ascii_bytes "Client's version is " ++ fmt_version client
  ++ ascii_bytes ", server's version is " ++ fmt_version server
  ++ ascii_bytes "!" ++ [10] ++ ascii_bytes "Please use version of " ++ wanted ++ ascii_bytes " for client!".

Definition mismatch_exact (client server : version_info) : list Z :=
  mismatch_text client server (fmt_version server).
Definition mismatch_series (client server : version_info) : list Z :=
  mismatch_text client server (fmt_d (major server) ++ [46] ++ fmt_d (minor server) ++ ascii_bytes ".xx").

(** The return value and the new contents of [message]. *)
Definition check_version (client server : version_info) (message : list Z) (len : Z) : Z * list Z :=
  if (major client =? major server) && (minor client =? minor server) then
    if (major server =? 0) && (minor server =? 0) && negb (revision client =? revision server)
    then (-1, snprintf len (mismatch_exact client server))
    else (0, message)
  else
    if (major server =? 0) && (minor server =? 0)
    then (-1, snprintf len (mismatch_exact client server))
    else (-1, snprintf len (mismatch_series client server)).

(** ** Reading the version string *)

(** The range of a version field that is written in decimal. *)
Definition field_ok (z : Z) : Prop := 0 <= z < 2 ^ 15.

#[export] Instance field_ok_dec z : Decision (field_ok z).
Proof. unfold field_ok. apply _. Defined.

Definition version_ok (v : version_info) : Prop :=
  field_ok (major v) /\ field_ok (minor v) /\ field_ok (revision v).

Lemma chars_prefix s t : map (char_at (s ++ t)) (seq 0 (length s)) = s.
Proof.
  apply list_eq. intros i. rewrite list_lookup_fmap. destruct (decide (i < length s)%nat) as [Hi|Hi].
  - rewrite lookup_seq_lt by done. simpl. unfold char_at. rewrite lookup_app_l by done.
    by destruct (lookup_lt_is_Some_2 s i Hi) as (c & ->).
  - rewrite lookup_seq_ge by lia. by rewrite lookup_ge_None_2 by lia.
Qed.

(** While the value fits, the [short] accumulator does not wrap. *)
Lemma short_fold s acc : digits s -> 0 <= acc -> dec_value acc s < 2 ^ 15 ->
  foldl (fun num c => i16 (num * 10 + (c - 48))) acc s = dec_value acc s.
Proof.
  intros Hs. revert acc. induction Hs as [|c s Hc Hs IH]; intros acc Ha Hv; [done|].
  apply is_digit_spec in Hc. cbn [foldl dec_value] in *. fold (dec_value (acc * 10 + (c - 48)) s) in *.
  pose proof (dec_value_bound (acc * 10 + (c - 48)) s Hs ltac:(lia)) as Hb.
  assert (0 < 10 ^ Z.of_nat (length s)) by (apply Z.pow_pos_nonneg; lia).
  rewrite i16_small by (unfold in_i16; nia). apply IH; [lia|done].
Qed.

Lemma get_short_prefix s t : digits s -> s <> [] -> dec_value 0 s < 2 ^ 15 ->
  get_short (s ++ t) (Z.of_nat (length s)) = dec_value 0 s.
Proof.
  intros Hs Hne Hv. unfold get_short. rewrite Nat2Z.id, chars_prefix.
  rewrite (proj2 (Z.leb_gt _ 0)) by (destruct s; simpl; [done|lia]).
  rewrite (proj2 (forallb_Forall _ s)) by exact Hs. cbn [negb]. by apply short_fold.
Qed.

Lemma fmt_d_spec z : field_ok z ->
  digits (fmt_d z) /\ dec_value 0 (fmt_d z) = z /\ fmt_d z <> [] /\ (length (fmt_d z) <= 5)%nat.
Proof.
  intros Hz. unfold field_ok in Hz. unfold fmt_d. rewrite (proj2 (Z.ltb_ge z 0)) by lia.
  destruct (print_dec_spec 5 z) as (? & ? & ?); [lia|lia|]. split_and!; try done. apply length_print_dec.
Qed.

Lemma no_dot s : digits s -> 46 ∉ s.
Proof. intros Hs Hin. by pose proof (proj1 (Forall_forall _ _) Hs 46 Hin). Qed.

(** A field up to the next dot. *)
Lemma read_field z t : field_ok z ->
  strchr (fmt_d z ++ 46 :: t) 46 = Some (fmt_d z, 46 :: t)
  /\ get_short (fmt_d z ++ 46 :: t) (Z.of_nat (length (fmt_d z))) = z.
Proof.
  intros Hz. destruct (fmt_d_spec z Hz) as (Hd & Hv & Hne & _).
  split; [by apply strchr_found, no_dot|]. rewrite get_short_prefix; [done..|].
  rewrite Hv. unfold field_ok in Hz. lia.
Qed.

(** Printing a version and reading it back gives the same version, for
    every version whose fields fit a non-negative [short]. *)
Theorem version_roundtrip v (Hv : version_ok v) : get_version_info (fmt_version v) = Some v.
Proof.
  destruct v as [mj mn rv]. destruct Hv as (Hmj & Hmn & Hrv). cbn [major minor revision] in *.
  unfold get_version_info, fmt_version. cbn [major minor revision app].
  destruct (read_field mj (fmt_d mn ++ 46 :: fmt_d rv) Hmj) as [-> ->].
  rewrite (proj2 (Z.eqb_neq mj (-1))) by (unfold field_ok in *; lia). change (drop 1 (46 :: ?l)) with l.
  destruct (read_field mn (fmt_d rv) Hmn) as [-> ->].
  rewrite (proj2 (Z.eqb_neq mn (-1))) by (unfold field_ok in *; lia). change (drop 1 (46 :: ?l)) with l.
  destruct (fmt_d_spec rv Hrv) as (Hd & Hval & _ & Hl).
  rewrite atoi_digits, Hval by (done || lia). by rewrite i16_small by (unfold field_ok, in_i16 in *; lia).
Qed.

Lemma version_roundtrip_witness :
  get_version_info (fmt_version (VersionInfo 0 1 3)) = Some (VersionInfo 0 1 3)
  /\ fmt_version (VersionInfo 0 1 3) = VERSION.
Proof. split; [apply (version_roundtrip (VersionInfo 0 1 3)); done|reflexivity]. Defined.

(** Which clients a server accepts. *)
Definition compatible (client server : version_info) : Prop :=
  if decide (major server = 0 /\ minor server = 0) then client = server
  else major client = major server /\ minor client = minor server.

(** The server accepts a client exactly when they have the same major and
    minor number and, for 0.0 releases, the same revision; it then leaves the
    message alone, and otherwise returns -1 with a message that fits the
    buffer. *)
Theorem check_version_gate client server message len (Hlen : 0 < len) :
  let '(ret, message') := check_version client server message len in
  if decide (ret = 0) then compatible client server /\ message' = message
  else ret = -1 /\ ~ compatible client server /\ Z.of_nat (length message') < len.
Proof.
  assert (Hfit : forall t, Z.of_nat (length (snprintf len t)) < len)
    by (intros t; unfold snprintf; rewrite length_take; lia).
  destruct client as [cj cn cr], server as [sj sn sr]. unfold check_version, compatible. cbn [major minor revision].
  destruct (Z.eqb_spec cj sj) as [->|Hj]; [destruct (Z.eqb_spec cn sn) as [->|Hn]|]; cbn [andb].
  - destruct (Z.eqb_spec sj 0) as [->|]; [destruct (Z.eqb_spec sn 0) as [->|];
      [destruct (Z.eqb_spec cr sr) as [->|]|]|]; cbn [andb negb]; repeat case_decide; naive_solver.
  - destruct ((sj =? 0) && (sn =? 0)); repeat case_decide; naive_solver.
  - destruct ((sj =? 0) && (sn =? 0)); repeat case_decide; naive_solver.
Qed.

Lemma check_version_gate_witness :
  compatible (VersionInfo 0 1 2) (VersionInfo 0 1 3) /\ ~ compatible (VersionInfo 0 0 2) (VersionInfo 0 0 3).
Proof.
  split.
  - exact (proj1 (check_version_gate (VersionInfo 0 1 2) (VersionInfo 0 1 3) [] 64 ltac:(lia))).
  - exact (proj1 (proj2 (check_version_gate (VersionInfo 0 0 2) (VersionInfo 0 0 3) [] 64 ltac:(lia)))).
Defined.
