(* ===== verification/DList.v ===== *)
(** * The doubly linked list (src/dlist.c, include/dlist.h)

    Nodes live in a heap of cells indexed by location; a [struct dlist *] is
    an [option dlist] whose [None] is the NULL pointer.  An operation returns
    [None] when the C code would dereference NULL or freed memory, or fail an
    [assert]; otherwise it returns the new heap, the new header and the C
    return value.  The node payload ([void *data]) is a value of type [A]. *)

From S2P Require Import Prelude.

Definition loc := positive.

(** [enum free_mode] of include/common.h. *)
Inductive free_mode := FREE_MODE_NOTHING | FREE_MODE_MP_FREE | FREE_MODE_FREE.

#[export] Instance free_mode_eq_dec : EqDecision free_mode.
Proof. solve_decision. Defined.

Record dlist_node (A : Type) := DNode {
  node_data : A;
  node_prev : option loc;
  node_next : option loc;
}.
Arguments DNode {A} _ _ _.
Arguments node_data {A} _.
Arguments node_prev {A} _.
Arguments node_next {A} _.

(** The part of memory that holds list nodes.  [fresh] is the next location
    the pool hands out and [oom p] says that the allocation of [p] fails. *)
Record heap (A : Type) := Heap {
  cells : gmap loc (dlist_node A);
  fresh : loc;
  oom : loc -> bool;
}.
Arguments Heap {A} _ _ _.
Arguments cells {A} _.
Arguments fresh {A} _.
Arguments oom {A} _ _.

Record dlist := DList {
  d_size : Z;
  d_free_mode : free_mode;
  d_head : option loc;
  d_tail : option loc;
}.

Section operations.
Context {A : Type}.
Implicit Types (h : heap A) (l : dlist) (x : A) (p : loc).

Definition with_prev (v : option loc) (n : dlist_node A) : dlist_node A :=
  DNode (node_data n) v (node_next n).
Definition with_next (v : option loc) (n : dlist_node A) : dlist_node A :=
  DNode (node_data n) (node_prev n) v.

(** Memory accesses through a node pointer. *)
Definition load h p : option (dlist_node A) := cells h !! p.

Definition store (f : dlist_node A -> dlist_node A) h p : option (heap A) :=
  n ← load h p; Some (Heap (<[p := f n]> (cells h)) (fresh h) (oom h)).

Definition set_prev h p v : option (heap A) := store (with_prev v) h p.
Definition set_next h p v : option (heap A) := store (with_next v) h p.

(** [if (o) o->field = v;] *)
Definition set_prev_if h (o : option loc) v : option (heap A) :=
  match o with Some p => set_prev h p v | None => Some h end.
Definition set_next_if h (o : option loc) v : option (heap A) :=
  match o with Some p => set_next h p v | None => Some h end.

Definition free_node h p : option (heap A) :=
  _ ← load h p; Some (Heap (delete p (cells h)) (fresh h) (oom h)).

Definition dlist_node_create h x : heap A * option loc :=
  let p := fresh h in
  if oom h p then (Heap (cells h) (Pos.succ p) (oom h), None)
  else (Heap (<[p := DNode x None None]> (cells h)) (Pos.succ p) (oom h), Some p).

Definition dlist_init (l : option dlist) (mode : free_mode) : option dlist :=
  match l with None => None | Some _ => Some (DList 0 mode None None) end.

(** [dlist_create]: [header_ok] tells whether the header was allocated. *)
Definition dlist_create (header_ok : bool) (mode : free_mode) : option dlist :=
  dlist_init (if header_ok then Some (DList 0 FREE_MODE_NOTHING None None) else None) mode.

(** [list->size += d], an [int]. *)
Definition bump l (d : Z) : dlist :=
  DList (i32 (d_size l + d)) (d_free_mode l) (d_head l) (d_tail l).
Definition with_head l v : dlist := DList (d_size l) (d_free_mode l) v (d_tail l).
Definition with_tail l v : dlist := DList (d_size l) (d_free_mode l) (d_head l) v.

Definition dlist_ins_next h (list : option dlist) (elem : option loc) x
    : option (heap A * option dlist * Z) :=
  match list, elem with
  | Some l, Some e =>
      let '(h, node) := dlist_node_create h x in
      match node with
      | None => Some (h, Some l, -1)
      | Some node =>
          en ← load h e;
          let next := node_next en in
          h ← set_next h node next;
          h ← set_prev_if h next (Some node);
          h ← set_prev h node (Some e);
          h ← set_next h e (Some node);
          let l := bump l 1 in
          let l := if decide (d_tail l = Some e) then with_tail l (Some node) else l in
          Some (h, Some l, d_size l)
      end
  | _, _ => Some (h, list, -1)
  end.

Definition dlist_ins_prev h (list : option dlist) (elem : option loc) x
    : option (heap A * option dlist * Z) :=
  match list, elem with
  | Some l, Some e =>
      let '(h, node) := dlist_node_create h x in
      match node with
      | None => Some (h, Some l, -1)
      | Some node =>
          en ← load h e;
          let prev := node_prev en in
          h ← set_prev h node prev;
          h ← set_next_if h prev (Some node);
          h ← set_next h node (Some e);
          h ← set_prev h e (Some node);
          let l := bump l 1 in
          let l := if decide (d_head l = Some e) then with_head l (Some node) else l in
          Some (h, Some l, d_size l)
      end
  | _, _ => Some (h, list, -1)
  end.

Definition dlist_prepend h (list : option dlist) x : option (heap A * option dlist * Z) :=
  match list with
  | None => Some (h, None, -1)
  | Some l =>
      match d_head l with
      | None =>
          if decide (d_head l = None /\ d_tail l = None) then
            let '(h, node) := dlist_node_create h x in
            match node with
            | None => Some (h, Some l, -1)
            | Some node =>
                let l := bump (with_tail (with_head l (Some node)) (Some node)) 1 in
                Some (h, Some l, d_size l)
            end
          else None
      | Some hd => dlist_ins_prev h (Some l) (Some hd) x
      end
  end.

Definition dlist_append h (list : option dlist) x : option (heap A * option dlist * Z) :=
  match list with
  | None => Some (h, None, -1)
  | Some l =>
      match d_tail l with
      | None =>
          if decide (d_head l = None /\ d_tail l = None) then
            let '(h, node) := dlist_node_create h x in
            match node with
            | None => Some (h, Some l, -1)
            | Some node =>
                let l := bump (with_tail (with_head l (Some node)) (Some node)) 1 in
                Some (h, Some l, d_size l)
            end
          else None
      | Some tl => dlist_ins_next h (Some l) (Some tl) x
      end
  end.

(** [dlist_remove]; the last component is what [*data] receives. *)
Definition dlist_remove h (list : option dlist) (elem : option loc) (need_free : bool)
    : option (heap A * option dlist * Z * option A) :=
  match list, elem with
  | Some l, Some e =>
      en ← load h e;
      let prev := node_prev en in
      let next := node_next en in
      h ← set_next_if h prev next;
      h ← set_prev_if h next prev;
      let l := if decide (d_head l = Some e) then with_head l next else l in
      let l := if decide (d_tail l = Some e) then with_tail l prev else l in
      h ← (if need_free then free_node h e
           else h ← set_next h e None; set_prev h e None);
      let l := bump l (-1) in
      Some (h, Some l, d_size l, Some (node_data en))
  | _, _ => Some (h, list, -1, None)
  end.

Definition dlist_pop_front h (list : option dlist)
    : option (heap A * option dlist * Z * option A) :=
  match list with
  | None => Some (h, None, -1, None)
  | Some l =>
      match d_head l with
      | None =>
          if decide (d_head l = None /\ d_tail l = None)
          then Some (h, Some l, d_size l, None) else None
      | Some hd => dlist_remove h (Some l) (Some hd) true
      end
  end.

Definition dlist_pop_back h (list : option dlist)
    : option (heap A * option dlist * Z * option A) :=
  match list with
  | None => Some (h, None, -1, None)
  | Some l =>
      match d_tail l with
      | None =>
          if decide (d_head l = None /\ d_tail l = None)
          then Some (h, Some l, d_size l, None) else None
      | Some tl => dlist_remove h (Some l) (Some tl) true
      end
  end.

Definition dlist_size (list : option dlist) : Z :=
  match list with None => 0 | Some l => d_size l end.
Definition dlist_head (list : option dlist) : option loc :=
  match list with None => None | Some l => d_head l end.
Definition dlist_tail (list : option dlist) : option loc :=
  match list with None => None | Some l => d_tail l end.

(** Accessors through a possibly NULL node pointer; the outer [option] is
    the memory error, the inner one the NULL result. *)
Definition dlist_data h (elem : option loc) : option (option A) :=
  match elem with None => Some None | Some p => n ← load h p; Some (Some (node_data n)) end.
Definition dlist_next h (elem : option loc) : option (option loc) :=
  match elem with None => Some None | Some p => n ← load h p; Some (node_next n) end.
Definition dlist_prev h (elem : option loc) : option (option loc) :=
  match elem with None => Some None | Some p => n ← load h p; Some (node_prev n) end.
Definition dlist_is_head h (elem : option loc) : option bool :=
  match elem with
  | None => Some false
  | Some p => n ← load h p; Some (bool_decide (node_prev n = None))
  end.
Definition dlist_is_tail h (elem : option loc) : option bool :=
  match elem with
  | None => Some false
  | Some p => n ← load h p; Some (bool_decide (node_next n = None))
  end.

Definition dlist_empty (list : option dlist) : option bool :=
  match list with
  | None => Some true
  | Some l =>
      if decide (d_size l = 0) then
        if decide (d_head l = None /\ d_tail l = None) then Some true else None
      else
        if decide (d_head l <> None /\ d_tail l <> None) then Some false else None
  end.

(** [dlist_for_each_pos]: a walk along the [next] pointers.  A walk that
    visits more nodes than the heap holds is cyclic, so the number of cells
    is enough fuel for every walk that ends. *)
Fixpoint dlist_for_each_pos {S : Type} (fuel : nat) h (node : option loc)
    (body : S -> loc -> A -> S) (s : S) : option S :=
  match node with
  | None => Some s
  | Some p =>
      match fuel with
      | O => None
      | S fuel' =>
          n ← load h p;
          dlist_for_each_pos fuel' h (node_next n) body (body s p (node_data n))
      end
  end.

Definition dlist_for_each {S : Type} h l (body : S -> loc -> A -> S) (s : S) : option S :=
  dlist_for_each_pos (size (cells h)) h (d_head l) body s.

Definition dlist_get_max h (list : option dlist) (cmp : A -> A -> Z)
    : option (option loc) :=
  match list with
  | None => Some None
  | Some l =>
      r ← dlist_for_each (S := option (loc * A)) h l (fun node p x =>
            match node with
            | None => Some (p, x)
            | Some (_, y) => if cmp y x <? 0 then Some (p, x) else node
            end) None;
      Some (option_map fst r)
  end.

Definition dlist_get_min h (list : option dlist) (cmp : A -> A -> Z)
    : option (option loc) :=
  match list with
  | None => Some None
  | Some l =>
      r ← dlist_for_each (S := option (loc * A)) h l (fun node p x =>
            match node with
            | None => Some (p, x)
            | Some (_, y) => if cmp y x >? 0 then Some (p, x) else node
            end) None;
      Some (option_map fst r)
  end.

(** The [while] loop of [dlist_sort]; [nh] and [nt] are [new_head] and
    [new_tail]. *)
Fixpoint sort_loop (fuel : nat) (cmp : A -> A -> Z) (asc : bool) h (list : option dlist)
    (nh nt : option loc) : option (heap A * option dlist * option loc * option loc) :=
  if 0 <? dlist_size list then
    match fuel with
    | O => None
    | S fuel' =>
        node ← (if asc then dlist_get_min h list cmp else dlist_get_max h list cmp);
        '(h, list, _, _) ← dlist_remove h list node false;
        match nh with
        | None => sort_loop fuel' cmp asc h list node node
        | Some _ =>
            nt' ← nt;
            h ← set_next h nt' node;
            node' ← node;
            h ← set_prev h node' (Some nt');
            sort_loop fuel' cmp asc h list nh node
        end
    end
  else Some (h, list, nh, nt).

Definition dlist_sort h (list : option dlist) (cmp : A -> A -> Z) (asc : bool)
    : option (heap A * option dlist) :=
  match list with
  | None => Some (h, None)
  | Some l0 =>
      let size := dlist_size list in
      '(h, list, nh, nt) ← sort_loop (Z.to_nat size) cmp asc h list None None;
      l ← list;
      if decide (d_head l = None /\ d_tail l = None)
      then Some (h, Some (DList size (d_free_mode l) nh nt))
      else None
  end.

(** [dlist_merge] returns the surviving header. *)
Definition dlist_merge h (list_a list_b : option dlist) : option (heap A * option dlist) :=
  match list_a, list_b with
  | None, None => Some (h, None)
  | None, Some _ => Some (h, list_b)
  | Some a, _ =>
      ea ← dlist_empty list_a;
      if (ea : bool) then Some (h, list_b) else
      match list_b with
      | None => Some (h, list_a)
      | Some b =>
          eb ← dlist_empty list_b;
          if (eb : bool) then Some (h, list_a) else
          ta ← d_tail a;
          hb ← d_head b;
          h ← set_next h ta (Some hb);
          h ← set_prev h hb (Some ta);
          let a := with_tail a (d_tail b) in
          Some (h, Some (bump a (d_size b)))
      end
  end.

(** [dlist_destroy]; the payloads handed to [mp_free] or [free] are
    collected in the order in which they are released. *)
Fixpoint destroy_loop (fuel : nat) (mode : free_mode) h (p : option loc) (freed : list A)
    : option (heap A * list A) :=
  match p with
  | None => Some (h, freed)
  | Some p =>
      match fuel with
      | O => None
      | S fuel' =>
          n ← load h p;
          let freed := match mode with
                       | FREE_MODE_NOTHING => freed
                       | FREE_MODE_MP_FREE | FREE_MODE_FREE => freed ++ [node_data n]
                       end in
          let q := node_next n in
          h ← free_node h p;
          destroy_loop fuel' mode h q freed
      end
  end.

Definition dlist_destroy h (lst : option dlist) : option (heap A * list A) :=
  match lst with
  | None => Some (h, [])
  | Some l => destroy_loop (size (cells h)) (d_free_mode l) h (d_head l) []
  end.
End operations.

Arguments dlist_node_create : simpl never.
Arguments dlist_ins_next : simpl never.
Arguments dlist_ins_prev : simpl never.
Arguments dlist_prepend : simpl never.
Arguments dlist_append : simpl never.
Arguments dlist_remove : simpl never.
Arguments dlist_pop_front : simpl never.
Arguments dlist_pop_back : simpl never.
Arguments dlist_empty : simpl never.
