(* ===== verification/DListOps.v ===== *)
(** * Representation of a list in the node heap

    [rep h l ns]: the header [l] owns the cells [ns] (locations with their
    payloads, front to back), linked forwards and backwards. *)

From S2P Require Import Prelude DList.

Section rep.
Context {A : Type}.
Implicit Types (h : heap A) (m : gmap loc (dlist_node A)) (l : dlist) (ns : list (loc * A)).

(** First and last location of a chain, with a default for the empty one. *)
Definition fst_loc ns (d : option loc) : option loc :=
  match ns with [] => d | (p, _) :: _ => Some p end.
Fixpoint last_loc ns (d : option loc) : option loc :=
  match ns with [] => d | (p, _) :: ns' => last_loc ns' (Some p) end.

Fixpoint seg m (pv : option loc) ns (nx : option loc) : Prop :=
  match ns with
  | [] => True
  | (p, x) :: ns' =>
      m !! p = Some (DNode x pv (fst_loc ns' nx)) /\ seg m (Some p) ns' nx
  end.

Definition locs ns : list loc := ns.*1.

Record rep h l ns : Prop := Rep {
  rep_nodup : NoDup (locs ns);
  rep_seg : seg (cells h) None ns None;
  rep_head : d_head l = fst_loc ns None;
  rep_tail : d_tail l = last_loc ns None;
  rep_size : d_size l = i32 (Z.of_nat (length ns));
}.

(** The number of nodes is an [int]. *)
Definition few ns : Prop := Z.of_nat (length ns) < 2 ^ 31.

Lemma few_size h l ns : rep h l ns -> few ns -> d_size l = Z.of_nat (length ns).
Proof. intros Hr Hf. unfold few in Hf. rewrite (rep_size _ _ _ Hr). apply i32_small. unfold in_i32. lia. Qed.

(** Every location in use is below the allocation pointer. *)
Definition heap_wf h : Prop := forall p n, cells h !! p = Some n -> (p < fresh h)%positive.

Lemma fst_loc_app ns1 ns2 d : fst_loc (ns1 ++ ns2) d = fst_loc ns1 (fst_loc ns2 d).
Proof. by destruct ns1 as [|[]]. Qed.

Lemma last_loc_app ns1 ns2 d : last_loc (ns1 ++ ns2) d = last_loc ns2 (last_loc ns1 d).
Proof. revert d. by induction ns1 as [|[p x] ns1 IH]; intros d; simpl. Qed.

Lemma last_loc_in ns d : ns <> [] -> exists p, last_loc ns d = Some p /\ p ∈ locs ns.
Proof.
  revert d. induction ns as [|[p x] ns IH]; intros d Hne; [done|]. simpl.
  destruct ns as [|q ns]; [exists p; split; [done|]; simpl; set_solver|].
  destruct (IH (Some p)) as (r & Hr & Hin); [done|].
  exists r. split; [done|]. set_solver.
Qed.

Lemma fst_loc_in ns d p : fst_loc ns d = Some p -> d = Some p \/ p ∈ locs ns.
Proof. destruct ns as [|[q x] ns]; simpl; [by left|]. intros [= ->]. right. set_solver. Qed.

Lemma seg_app m pv ns1 ns2 nx :
  seg m pv (ns1 ++ ns2) nx <->
  seg m pv ns1 (fst_loc ns2 nx) /\ seg m (last_loc ns1 pv) ns2 nx.
Proof.
  revert pv. induction ns1 as [|[p x] ns1 IH]; intros pv; simpl; [naive_solver|].
  rewrite IH, fst_loc_app. naive_solver.
Qed.

Lemma seg_frame m m' pv ns nx :
  (forall p, p ∈ locs ns -> m' !! p = m !! p) -> seg m pv ns nx -> seg m' pv ns nx.
Proof.
  revert pv. induction ns as [|[p x] ns IH]; intros pv Hf; [done|]. simpl.
  intros [Hp Hs]. split; [rewrite Hf; [done|set_solver]|].
  apply IH; [set_solver|done].
Qed.

Lemma seg_lookup m pv ns nx p x :
  seg m pv ns nx -> (p, x) ∈ ns -> exists n, m !! p = Some n /\ node_data n = x.
Proof.
  revert pv. induction ns as [|[q y] ns IH]; intros pv; simpl; [set_solver|].
  intros [Hq Hs] Hin. apply elem_of_cons in Hin as [[= -> ->]|Hin]; eauto.
Qed.

(** Relinking the ends of a chain. *)
Lemma seg_set_first m pv v q y ns nx :
  NoDup (q :: locs ns) -> seg m pv ((q, y) :: ns) nx ->
  seg (<[q := DNode y v (fst_loc ns nx)]> m) v ((q, y) :: ns) nx.
Proof.
  intros Hnd [Hq Hs]. apply NoDup_cons in Hnd as [Hq' _].
  split; [by simplify_map_eq|].
  eapply seg_frame; [|done]. intros p Hp. rewrite lookup_insert_ne; set_solver.
Qed.

Lemma seg_set_last m pv v ns q y nx :
  q ∉ locs ns -> seg m pv (ns ++ [(q, y)]) nx ->
  seg (<[q := DNode y (last_loc ns pv) v]> m) pv (ns ++ [(q, y)]) v.
Proof.
  intros Hq. rewrite !seg_app. simpl. intros (Hs & Hl & _).
  split; [|split; [by simplify_map_eq|done]].
  eapply seg_frame; [|done]. intros p Hp. rewrite lookup_insert_ne; set_solver.
Qed.

(** The two ends of a non-empty chain. *)
Lemma chain_snoc ns : ns = [] \/ exists ns' q y, ns = ns' ++ [(q, y)].
Proof. destruct ns as [|[q y] ns _] using rev_ind; [by left|]. right. eauto. Qed.

(** [upd S h h']: [h'] differs from [h] only in the contents of the cells
    [S]; no cell appears or disappears. *)
Record upd (S : list loc) h h' : Prop := Upd {
  upd_fresh : fresh h' = fresh h;
  upd_oom : oom h' = oom h;
  upd_frame : forall q, q ∉ S -> cells h' !! q = cells h !! q;
  upd_dom : forall q, is_Some (cells h' !! q) <-> is_Some (cells h !! q);
}.

Lemma upd_refl S h : upd S h h.
Proof. by constructor. Qed.

Lemma upd_trans S1 S2 h1 h2 h3 : upd S1 h1 h2 -> upd S2 h2 h3 -> upd (S1 ++ S2) h1 h3.
Proof.
  intros [F1 O1 C1 D1] [F2 O2 C2 D2]. constructor; [congruence|congruence| |].
  - intros q Hq. rewrite C2, C1; set_solver.
  - intros q. by rewrite D2, D1.
Qed.

Lemma upd_weaken S S' h h' : S ⊆ S' -> upd S h h' -> upd S' h h'.
Proof. intros HS [F O C D]. constructor; [done|done| |done]. intros q Hq. apply C. set_solver. Qed.

Lemma upd_seg S h h' pv ns nx :
  upd S h h' -> (forall p, p ∈ S -> p ∉ locs ns) ->
  seg (cells h) pv ns nx -> seg (cells h') pv ns nx.
Proof.
  intros Hu HS. apply seg_frame. intros p Hp. apply (upd_frame _ _ _ Hu).
  intros Hin. by apply (HS p).
Qed.

Lemma upd_wf S h h' : upd S h h' -> heap_wf h -> heap_wf h'.
Proof.
  intros Hu Hwf p n Hp. rewrite (upd_fresh _ _ _ Hu).
  destruct (proj1 (upd_dom _ _ _ Hu p)) as [n' Hn']; [eauto|]. eauto.
Qed.

Lemma upd_cell S h h' p n : upd S h h' -> p ∉ S -> cells h !! p = Some n -> cells h' !! p = Some n.
Proof. intros Hu Hp Hn. by rewrite (upd_frame _ _ _ Hu). Qed.

Lemma store_upd f h p n :
  cells h !! p = Some n ->
  exists h', store f h p = Some h' /\ cells h' !! p = Some (f n) /\ upd [p] h h'.
Proof.
  intros Hp. unfold store, load. rewrite Hp. simpl. eexists. split; [done|].
  split; [by simplify_map_eq|]. constructor; simpl; [done|done| |].
  - intros q Hq. rewrite lookup_insert_ne; set_solver.
  - intros q. destruct (decide (q = p)) as [->|]; [|by rewrite lookup_insert_ne].
    rewrite lookup_insert_eq, Hp. split; eauto.
Qed.

(** [if (last) last->next = v;] relinks the end of a chain. *)
Lemma set_next_if_last h ns nx v :
  NoDup (locs ns) -> seg (cells h) None ns nx ->
  exists h', set_next_if h (last_loc ns None) v = Some h'
    /\ seg (cells h') None ns v /\ upd (locs ns) h h'.
Proof.
  intros Hnd Hs. destruct (chain_snoc ns) as [->|(ns' & q & y & ->)].
  { exists h. simpl. auto using upd_refl. }
  rewrite last_loc_app. simpl.
  unfold locs in Hnd. rewrite fmap_app in Hnd. apply NoDup_app in Hnd as (_ & Hq & _).
  pose proof Hs as Hs'. apply seg_app in Hs' as (_ & Hl & _). simpl in Hl.
  destruct (store_upd (with_next v) h q _ Hl) as (h' & E & Hc & Hu).
  exists h'. split; [done|]. split.
  - apply seg_app in Hs as (Hs & _). apply seg_app. split; [|done].
    eapply upd_seg; [done| |done]. intros p Hp Hin. apply (Hq p Hin). set_solver.
  - eapply upd_weaken; [|done]. unfold locs. rewrite fmap_app. set_solver.
Qed.

(** [if (first) first->prev = v;] relinks the front of a chain. *)
Lemma set_prev_if_first h ns pv nx v :
  NoDup (locs ns) -> seg (cells h) pv ns nx ->
  exists h', set_prev_if h (fst_loc ns None) v = Some h'
    /\ seg (cells h') v ns nx /\ upd (locs ns) h h'.
Proof.
  intros Hnd Hs. destruct ns as [|[q y] ns]; [exists h; simpl; auto using upd_refl|].
  simpl in *. destruct Hs as [Hq Hs]. apply NoDup_cons in Hnd as [Hq' _].
  destruct (store_upd (with_prev v) h q _ Hq) as (h' & E & Hc & Hu).
  exists h'. split; [done|]. split.
  - split; [done|]. eapply upd_seg; [done| |done]. intros p Hp Hin. set_solver.
  - eapply upd_weaken; [|done]. set_solver.
Qed.
End rep.

(** * Functional correctness of the list operations

    Each operation of [DList], run on a header that represents [ns],
    succeeds and yields a header that represents the list one expects; cells
    of other lists are untouched. *)

(** Membership goals about the locations of concatenated chains. *)
Ltac locs_solve :=
  unfold locs in *; rewrite ?fmap_app, ?fmap_cons in *; simpl in *; set_solver.

Section ops.
Context {A : Type}.
Implicit Types (h : heap A) (l : dlist) (ns : list (loc * A)).

(** What every operation keeps: the heap stays well-formed, the allocator's
    behaviour and the free mode do not change, and cells outside the list
    and the fresh location keep their contents. *)
Record keeps (S : list loc) h l h' l' : Prop := Keeps {
  keeps_wf : heap_wf h';
  keeps_oom : oom h' = oom h;
  keeps_mode : d_free_mode l' = d_free_mode l;
  keeps_frame : forall q, q ∉ S -> q <> fresh h -> cells h' !! q = cells h !! q;
}.

Lemma node_create_spec h (x : A) :
  heap_wf h -> oom h (fresh h) = false ->
  exists h1, dlist_node_create h x = (h1, Some (fresh h))
    /\ cells h1 !! fresh h = Some (DNode x None None)
    /\ cells h !! fresh h = None
    /\ (forall q, q <> fresh h -> cells h1 !! q = cells h !! q)
    /\ heap_wf h1 /\ oom h1 = oom h.
Proof.
  intros Hwf Hoom. unfold dlist_node_create. rewrite Hoom.
  eexists. split; [done|]. split; [by simplify_map_eq|].
  assert (Hf : cells h !! fresh h = None).
  { destruct (cells h !! fresh h) eqn:E; [|done]. apply Hwf in E. lia. }
  split; [done|]. split; [by intros q Hq; simplify_map_eq|]. split; [|done].
  intros p n. simpl. destruct (decide (p = fresh h)) as [->|]; [lia|].
  rewrite lookup_insert_ne by done. intros Hp. apply Hwf in Hp. lia.
Qed.

Lemma locs_app ns1 ns2 : locs (ns1 ++ ns2) = locs ns1 ++ locs ns2.
Proof. apply fmap_app. Qed.

(** A location outside the heap is outside every chain of the heap. *)
Lemma seg_fresh m p (pv nx : option loc) ns :
  m !! p = None -> seg m pv ns nx -> p ∉ locs ns.
Proof.
  revert pv. induction ns as [|[q y] ns IH]; intros pv Hp; simpl; [set_solver|].
  intros [Hq Hs] Hin. apply elem_of_cons in Hin as [->|Hin]; [congruence|]. by eapply IH.
Qed.

Lemma insert_nodup p (x : A) ns1 ns2 :
  p ∉ locs (ns1 ++ ns2) -> NoDup (locs (ns1 ++ ns2)) -> NoDup (locs (ns1 ++ (p, x) :: ns2)).
Proof.
  rewrite !locs_app. intros Hp Hnd.
  apply (NoDup_Permutation_proper _ (p :: locs ns1 ++ locs ns2)).
  - symmetry. apply Permutation_middle.
  - by apply NoDup_cons.
Qed.

Lemma length_insert_mid p (x : A) ns1 ns2 :
  length (ns1 ++ (p, x) :: ns2) = S (length (ns1 ++ ns2)).
Proof. rewrite !length_app. simpl. lia. Qed.

(** In a duplicate-free chain the tail location identifies the last node. *)
Lemma last_loc_mid ns1 e (y : A) ns2 :
  NoDup (locs (ns1 ++ (e, y) :: ns2)) ->
  last_loc (ns1 ++ (e, y) :: ns2) None = Some e <-> ns2 = [].
Proof.
  rewrite last_loc_app, locs_app. simpl. intros Hnd. split; [|by intros ->].
  intros H. apply NoDup_app in Hnd as (_ & _ & [He _]%NoDup_cons).
  destruct ns2 as [|n ns2]; [done|].
  destruct (last_loc_in (n :: ns2) (Some e)) as (q & Hq & Hin); [done|].
  simplify_eq. done.
Qed.

Lemma fst_loc_mid ns1 e (y : A) ns2 :
  NoDup (locs (ns1 ++ (e, y) :: ns2)) ->
  fst_loc (ns1 ++ (e, y) :: ns2) None = Some e <-> ns1 = [].
Proof.
  rewrite locs_app. intros Hnd. split; [|by intros ->].
  destruct ns1 as [|[q z] ns1]; [done|]. simpl. intros [= ->].
  apply NoDup_cons in Hnd as [He _]. set_solver.
Qed.

Lemma mid_nodup ns1 e (y : A) ns2 :
  NoDup (locs (ns1 ++ (e, y) :: ns2)) ->
  NoDup (locs ns1) /\ NoDup (locs ns2) /\ e ∉ locs ns1 /\ e ∉ locs ns2
  /\ forall q, q ∈ locs ns1 -> q ∉ locs ns2.
Proof.
  rewrite locs_app. simpl. intros (H1 & H2 & [H3 H4]%NoDup_cons)%NoDup_app.
  repeat split; [done|done| |done|]; set_solver.
Qed.

Lemma ins_next_spec h l ns1 e (y : A) ns2 x :
  heap_wf h -> oom h (fresh h) = false -> rep h l (ns1 ++ (e, y) :: ns2) ->
  exists h' l', dlist_ins_next h (Some l) (Some e) x = Some (h', Some l', d_size l')
    /\ rep h' l' (ns1 ++ (e, y) :: (fresh h, x) :: ns2)
    /\ keeps (locs (ns1 ++ (e, y) :: ns2)) h l h' l'.
Proof.
  intros Hwf Hoom [Hnd Hs Hhd Htl Hsz].
  destruct (node_create_spec h x Hwf Hoom) as (h1 & E1 & Hp & Hnone & F1 & Hwf1 & O1).
  unfold dlist_ins_next. rewrite E1. set (p := fresh h) in *.
  pose proof (seg_fresh _ _ _ _ _ Hnone Hs) as Hpn.
  assert (Hs1 : seg (cells h1) None (ns1 ++ (e, y) :: ns2) None).
  { eapply seg_frame; [|done]. intros q Hq. apply F1. intros ->. done. }
  apply seg_app in Hs1 as [Sa [He Sb]]. unfold load. rewrite He. simpl.
  destruct (store_upd (with_next (fst_loc ns2 None)) h1 p _ Hp) as (h2 & E2 & C2 & U2).
  unfold set_next, set_prev. rewrite E2. cbn [mbind option_bind].
  destruct (mid_nodup _ _ _ _ Hnd) as (N1 & N2 & H1 & H2 & H12).
  assert (Hp1 : p ∉ locs ns1 /\ p <> e /\ p ∉ locs ns2) by locs_solve.
  destruct Hp1 as (Hp1 & Hpe & Hp2).
  assert (Sb2 : seg (cells h2) (Some e) ns2 None) by (eapply upd_seg; [done|set_solver|done]).
  destruct (set_prev_if_first h2 ns2 (Some e) None (Some p) N2 Sb2) as (h3 & E3 & Sb3 & U3).
  rewrite E3. cbn [mbind option_bind].
  pose proof (upd_cell _ _ _ _ _ U3 Hp2 C2) as C3.
  destruct (store_upd (with_prev (Some e)) h3 p _ C3) as (h4 & E4 & C4 & U4).
  rewrite E4. cbn [mbind option_bind].
  pose proof (upd_trans _ _ _ _ _ U2 (upd_trans _ _ _ _ _ U3 U4)) as U24.
  assert (He4 : cells h4 !! e = cells h1 !! e) by (apply (upd_frame _ _ _ U24); set_solver).
  rewrite He in He4.
  destruct (store_upd (with_next (Some p)) h4 e _ He4) as (h5 & E5 & C5 & U5).
  rewrite E5. cbn [mbind option_bind].
  pose proof (upd_trans _ _ _ _ _ U24 U5) as U25.
  eexists h5, _. split; [done|]. split.
  - constructor.
    + rewrite cons_middle, app_assoc. apply insert_nodup; rewrite <- app_assoc; done.
    + apply seg_app. split; [|split; [done|split]].
      * eapply upd_seg; [exact U25| |exact Sa]. set_solver.
      * eapply upd_cell; [exact U5|set_solver|exact C4].
      * eapply upd_seg; [exact U5|set_solver|].
        eapply upd_seg; [exact U4|set_solver|exact Sb3].
    + case_decide; simpl; rewrite Hhd, !fst_loc_app; done.
    + rewrite last_loc_app. simpl. case_decide as Hd; simpl.
      * rewrite Htl in Hd. apply last_loc_mid in Hd as ->; done.
      * rewrite Htl in Hd |- *. rewrite last_loc_app. simpl.
        destruct ns2 as [|[q z] ns2]; [|done]. by rewrite last_loc_app in Hd.
    + replace (d_size _) with (i32 (d_size l + 1)) by (case_decide; done).
      rewrite Hsz, wrap_s_add_l, !length_app by done. f_equal. simpl. lia.
  - constructor.
    + eapply upd_wf; done.
    + rewrite (upd_oom _ _ _ U25). done.
    + case_decide; done.
    + intros q Hq Hqp. rewrite (upd_frame _ _ _ U25), F1; [done|done|]. locs_solve.
Qed.

Lemma ins_prev_spec h l ns1 e (y : A) ns2 x :
  heap_wf h -> oom h (fresh h) = false -> rep h l (ns1 ++ (e, y) :: ns2) ->
  exists h' l', dlist_ins_prev h (Some l) (Some e) x = Some (h', Some l', d_size l')
    /\ rep h' l' (ns1 ++ (fresh h, x) :: (e, y) :: ns2)
    /\ keeps (locs (ns1 ++ (e, y) :: ns2)) h l h' l'.
Proof.
  intros Hwf Hoom [Hnd Hs Hhd Htl Hsz].
  destruct (node_create_spec h x Hwf Hoom) as (h1 & E1 & Hp & Hnone & F1 & Hwf1 & O1).
  unfold dlist_ins_prev. rewrite E1. set (p := fresh h) in *.
  pose proof (seg_fresh _ _ _ _ _ Hnone Hs) as Hpn.
  assert (Hs1 : seg (cells h1) None (ns1 ++ (e, y) :: ns2) None).
  { eapply seg_frame; [|done]. intros q Hq. apply F1. intros ->. done. }
  apply seg_app in Hs1 as [Sa [He Sb]]. unfold load. rewrite He. simpl.
  destruct (mid_nodup _ _ _ _ Hnd) as (N1 & N2 & H1 & H2 & H12).
  assert (Hp1 : p ∉ locs ns1 /\ p <> e /\ p ∉ locs ns2) by locs_solve.
  destruct Hp1 as (Hp1 & Hpe & Hp2).
  destruct (store_upd (with_prev (last_loc ns1 None)) h1 p _ Hp) as (h2 & E2 & C2 & U2).
  unfold set_next, set_prev. rewrite E2. cbn [mbind option_bind].
  assert (Sa2 : seg (cells h2) None ns1 (Some e)) by (eapply upd_seg; [done|set_solver|done]).
  destruct (set_next_if_last h2 ns1 (Some e) (Some p) N1 Sa2) as (h3 & E3 & Sa3 & U3).
  rewrite E3. cbn [mbind option_bind].
  pose proof (upd_cell _ _ _ _ _ U3 Hp1 C2) as C3.
  destruct (store_upd (with_next (Some e)) h3 p _ C3) as (h4 & E4 & C4 & U4).
  rewrite E4. cbn [mbind option_bind].
  pose proof (upd_trans _ _ _ _ _ U2 (upd_trans _ _ _ _ _ U3 U4)) as U24.
  assert (He4 : cells h4 !! e = cells h1 !! e) by (apply (upd_frame _ _ _ U24); set_solver).
  rewrite He in He4.
  destruct (store_upd (with_prev (Some p)) h4 e _ He4) as (h5 & E5 & C5 & U5).
  rewrite E5. cbn [mbind option_bind].
  pose proof (upd_trans _ _ _ _ _ U24 U5) as U25.
  eexists h5, _. split; [done|]. split.
  - constructor.
    + by apply insert_nodup.
    + apply seg_app. split; [|split; [|split; [done|]]].
      * eapply upd_seg; [exact U5|set_solver|].
        eapply upd_seg; [exact U4|set_solver|exact Sa3].
      * eapply upd_cell; [exact U5|set_solver|exact C4].
      * eapply upd_seg; [exact U25|set_solver|exact Sb].
    + rewrite fst_loc_app. simpl. case_decide as Hd; simpl.
      * rewrite Hhd in Hd. apply fst_loc_mid in Hd as ->; done.
      * rewrite Hhd in Hd |- *. destruct ns1 as [|[q z] ns1]; [done|done].
    + case_decide; simpl; rewrite Htl, !last_loc_app; done.
    + replace (d_size _) with (i32 (d_size l + 1)) by (case_decide; done).
      rewrite Hsz, wrap_s_add_l, !length_app by done. f_equal. simpl. lia.
  - constructor.
    + eapply upd_wf; done.
    + rewrite (upd_oom _ _ _ U25). done.
    + case_decide; done.
    + intros q Hq Hqp. rewrite (upd_frame _ _ _ U25), F1; [done|done|]. locs_solve.
Qed.

Lemma free_node_spec h p n :
  heap_wf h -> cells h !! p = Some n ->
  exists h', free_node h p = Some h' /\ cells h' = delete p (cells h)
    /\ oom h' = oom h /\ heap_wf h'.
Proof.
  intros Hwf Hp. unfold free_node, load. rewrite Hp. simpl. eexists. split; [done|].
  split; [done|]. split; [done|]. intros q m. simpl.
  intros [_ Hq]%lookup_delete_Some. by apply (Hwf q m).
Qed.

(** The last step of [dlist_remove]: release the node or clear its links. *)
Lemma detach_spec h e (y : A) pv nx (need_free : bool) :
  heap_wf h -> cells h !! e = Some (DNode y pv nx) ->
  exists h', (if need_free then free_node h e
              else h ← set_next h e None; set_prev h e None) = Some h'
    /\ cells h' !! e = (if need_free then None else Some (DNode y None None))
    /\ (forall q, q <> e -> cells h' !! q = cells h !! q)
    /\ oom h' = oom h /\ heap_wf h'.
Proof.
  intros Hwf He. destruct need_free.
  - destruct (free_node_spec h e _ Hwf He) as (h' & E & C & O & W).
    exists h'. rewrite C. split; [done|]. split; [by simplify_map_eq|].
    split; [|done]. intros q Hq. by rewrite lookup_delete_ne.
  - unfold set_next, set_prev.
    destruct (store_upd (with_next None) h e _ He) as (h1 & E1 & C1 & U1).
    destruct (store_upd (with_prev None) h1 e _ C1) as (h2 & E2 & C2 & U2).
    rewrite E1. cbn [mbind option_bind]. exists h2. split; [done|]. split; [done|].
    pose proof (upd_trans _ _ _ _ _ U1 U2) as U12.
    split; [intros q Hq; apply (upd_frame _ _ _ U12); set_solver|].
    split; [apply (upd_oom _ _ _ U12)|by eapply upd_wf].
Qed.

Lemma remove_mid_nodup ns1 e (y : A) ns2 :
  NoDup (locs (ns1 ++ (e, y) :: ns2)) -> NoDup (locs (ns1 ++ ns2)) /\ e ∉ locs (ns1 ++ ns2).
Proof.
  intros (N1 & N2 & H1 & H2 & H12)%mid_nodup. rewrite locs_app. split; [|set_solver].
  apply NoDup_app. done.
Qed.

(** What [dlist_remove] stores in the header describes the shorter chain. *)
Lemma head_removed ns1 e (y : A) ns2 :
  NoDup (locs (ns1 ++ (e, y) :: ns2)) ->
  (if decide (fst_loc (ns1 ++ (e, y) :: ns2) None = Some e)
   then fst_loc ns2 None else fst_loc (ns1 ++ (e, y) :: ns2) None)
  = fst_loc (ns1 ++ ns2) None.
Proof.
  intros Hnd. case_decide as Hd.
  - apply fst_loc_mid in Hd as ->; done.
  - destruct ns1 as [|[q z] ns1]; [|done]. by destruct Hd.
Qed.

Lemma tail_removed ns1 e (y : A) ns2 :
  NoDup (locs (ns1 ++ (e, y) :: ns2)) ->
  (if decide (last_loc (ns1 ++ (e, y) :: ns2) None = Some e)
   then last_loc ns1 None else last_loc (ns1 ++ (e, y) :: ns2) None)
  = last_loc (ns1 ++ ns2) None.
Proof.
  intros Hnd. case_decide as Hd.
  - apply last_loc_mid in Hd as ->; [by rewrite app_nil_r|done].
  - rewrite last_loc_mid in Hd by done. rewrite !last_loc_app. by destruct ns2 as [|[q z] ns2].
Qed.

Lemma remove_spec h l ns1 e (y : A) ns2 need_free :
  heap_wf h -> rep h l (ns1 ++ (e, y) :: ns2) ->
  exists h' l', dlist_remove h (Some l) (Some e) need_free
      = Some (h', Some l', d_size l', Some y)
    /\ rep h' l' (ns1 ++ ns2)
    /\ keeps (locs (ns1 ++ (e, y) :: ns2)) h l h' l'
    /\ cells h' !! e = (if need_free then None else Some (DNode y None None)).
Proof.
  intros Hwf [Hnd Hs Hhd Htl Hsz].
  destruct (mid_nodup _ _ _ _ Hnd) as (N1 & N2 & H1 & H2 & H12).
  apply seg_app in Hs as [Sa [He Sb]].
  unfold dlist_remove, load. rewrite He. cbn [mbind option_bind node_prev node_next node_data].
  destruct (set_next_if_last h ns1 _ (fst_loc ns2 None) N1 Sa) as (h1 & E1 & Sa1 & U1).
  rewrite E1. cbn [mbind option_bind].
  assert (Sb1 : seg (cells h1) (Some e) ns2 None) by (eapply upd_seg; done).
  destruct (set_prev_if_first h1 ns2 (Some e) None (last_loc ns1 None) N2 Sb1)
    as (h2 & E2 & Sb2 & U2).
  rewrite E2. cbn [mbind option_bind].
  pose proof (upd_trans _ _ _ _ _ U1 U2) as U12.
  assert (He2 : cells h2 !! e = Some (DNode y (last_loc ns1 None) (fst_loc ns2 None))).
  { rewrite (upd_frame _ _ _ U12), He; [done|]. set_solver. }
  destruct (detach_spec h2 e y _ _ need_free (upd_wf _ _ _ U12 Hwf) He2)
    as (h3 & E3 & C3 & F3 & O3 & W3).
  rewrite E3. cbn [mbind option_bind].
  assert (Sa2 : seg (cells h2) None ns1 (fst_loc ns2 None)).
  { eapply upd_seg; [exact U2| |exact Sa1]. intros q Hq Hq'. by apply (H12 q). }
  destruct (remove_mid_nodup _ _ _ _ Hnd) as [Nd Hed].
  eexists h3, _. split; [done|]. split; [|split; [|done]].
  - constructor; [done| | | |].
    + apply seg_app. split; (eapply seg_frame; [|done]); intros q Hq; apply F3; congruence.
    + rewrite <- (head_removed _ _ _ _ Hnd), <- Hhd. repeat case_decide; done.
    + rewrite <- (tail_removed _ _ _ _ Hnd), <- Htl. repeat case_decide; done.
    + replace (d_size _) with (i32 (d_size l + -1)) by (repeat case_decide; done).
      rewrite Hsz, wrap_s_add_l, !length_app by done. f_equal. simpl. lia.
  - constructor; [done| | |].
    + rewrite O3. apply (upd_oom _ _ _ U12).
    + repeat case_decide; done.
    + intros q Hq _. assert (q <> e) by locs_solve.
      rewrite F3, (upd_frame _ _ _ U12); [done| |done]. locs_solve.
Qed.

Lemma rep_empty_head h l : rep h l [] -> d_head l = None /\ d_tail l = None /\ d_size l = 0.
Proof. intros [_ _ -> -> ->]. done. Qed.

Lemma create_empty h mode : rep h (DList 0 mode None None) [].
Proof. constructor; try done. apply NoDup_nil_2. Qed.

(** Insertion into an empty list, shared by [prepend] and [append]. *)
Lemma first_node_spec h l (x : A) :
  heap_wf h -> oom h (fresh h) = false -> rep h l [] ->
  let l' := bump (with_tail (with_head l (Some (fresh h))) (Some (fresh h))) 1 in
  exists h', dlist_node_create h x = (h', Some (fresh h))
    /\ rep h' l' [(fresh h, x)] /\ keeps [] h l h' l'.
Proof.
  intros Hwf Hoom Hr. destruct (node_create_spec h x Hwf Hoom) as (h1 & E & C & N & F & W & O).
  exists h1. split; [done|]. apply rep_empty_head in Hr as (_ & _ & Hsz). split.
  - constructor; simpl; [apply NoDup_singleton|done|done|done|by rewrite Hsz].
  - constructor; [done|done|done|]. intros q _ Hq. by apply F.
Qed.

Lemma append_spec h l ns (x : A) :
  heap_wf h -> oom h (fresh h) = false -> rep h l ns ->
  exists h' l', dlist_append h (Some l) x = Some (h', Some l', i32 (Z.of_nat (length ns) + 1))
    /\ rep h' l' (ns ++ [(fresh h, x)]) /\ keeps (locs ns) h l h' l'.
Proof.
  intros Hwf Hoom Hr. unfold dlist_append. rewrite (rep_tail _ _ _ Hr).
  destruct (chain_snoc ns) as [->|(ns' & e & y & ->)].
  - destruct (rep_empty_head _ _ Hr) as (Hh & _ & Hsz).
    simpl. rewrite decide_True by done.
    destruct (first_node_spec h l x Hwf Hoom Hr) as (h' & E & R & K).
    rewrite E. eexists h', _. split; [|by split]. simpl. by rewrite Hsz.
  - rewrite last_loc_app. simpl.
    destruct (ins_next_spec h l ns' e y [] x Hwf Hoom Hr) as (h' & l' & E & R & K).
    rewrite E. exists h', l'. rewrite <- app_assoc. simpl. split; [|by split].
    rewrite (rep_size _ _ _ R), !length_app. do 3 f_equal. simpl. lia.
Qed.

Lemma prepend_spec h l ns (x : A) :
  heap_wf h -> oom h (fresh h) = false -> rep h l ns ->
  exists h' l', dlist_prepend h (Some l) x = Some (h', Some l', i32 (Z.of_nat (length ns) + 1))
    /\ rep h' l' ((fresh h, x) :: ns) /\ keeps (locs ns) h l h' l'.
Proof.
  intros Hwf Hoom Hr. unfold dlist_prepend. rewrite (rep_head _ _ _ Hr).
  destruct ns as [|[e y] ns].
  - destruct (rep_empty_head _ _ Hr) as (Hh & Ht & Hsz).
    simpl. rewrite decide_True by done.
    destruct (first_node_spec h l x Hwf Hoom Hr) as (h' & E & R & K).
    rewrite E. eexists h', _. split; [|by split]. simpl. by rewrite Hsz.
  - simpl. destruct (ins_prev_spec h l [] e y ns x Hwf Hoom Hr) as (h' & l' & E & R & K).
    rewrite E. exists h', l'. split; [|by split].
    rewrite (rep_size _ _ _ R). do 3 f_equal. simpl. lia.
Qed.

Lemma pop_front_spec h l p (x : A) ns :
  heap_wf h -> rep h l ((p, x) :: ns) ->
  exists h' l', dlist_pop_front h (Some l) = Some (h', Some l', i32 (Z.of_nat (length ns)), Some x)
    /\ rep h' l' ns /\ keeps (locs ((p, x) :: ns)) h l h' l' /\ cells h' !! p = None.
Proof.
  intros Hwf Hr. unfold dlist_pop_front. rewrite (rep_head _ _ _ Hr). simpl.
  destruct (remove_spec h l [] p x ns true Hwf Hr) as (h' & l' & E & R & K & C).
  rewrite E. exists h', l'. split; [|by split_and!]. by rewrite (rep_size _ _ _ R).
Qed.

Lemma pop_back_spec h l p (x : A) ns :
  heap_wf h -> rep h l (ns ++ [(p, x)]) ->
  exists h' l', dlist_pop_back h (Some l) = Some (h', Some l', i32 (Z.of_nat (length ns)), Some x)
    /\ rep h' l' ns /\ keeps (locs (ns ++ [(p, x)])) h l h' l' /\ cells h' !! p = None.
Proof.
  intros Hwf Hr. unfold dlist_pop_back. rewrite (rep_tail _ _ _ Hr), last_loc_app. simpl.
  destruct (remove_spec h l ns p x [] true Hwf Hr) as (h' & l' & E & R & K & C).
  rewrite app_nil_r in R. rewrite E. exists h', l'.
  split; [|by split_and!]. by rewrite (rep_size _ _ _ R).
Qed.

Lemma empty_spec h l ns : rep h l ns -> few ns -> dlist_empty (Some l) = Some (bool_decide (ns = [])).
Proof.
  intros Hr Hf. pose proof (few_size _ _ _ Hr Hf) as Hs. destruct Hr as [_ _ Hh Ht _]. unfold dlist_empty.
  destruct ns as [|[p x] ns].
  - rewrite decide_True by done. by rewrite decide_True.
  - rewrite decide_False by (rewrite Hs; simpl; lia). rewrite decide_True; [done|].
    rewrite Hh, Ht. destruct (last_loc_in ((p, x) :: ns) None) as (q & -> & _); done.
Qed.
End ops.
