(* ===== verification/DListSort.v ===== *)
(** * Traversals of the list: minimum, maximum, sort, merge, destroy *)

From stdpp Require Import sorting.
From S2P Require Import Prelude DList DListOps.

Local Open Scope Z_scope.

Section walk.
Context {A : Type}.
Implicit Types (h : heap A) (l : dlist) (ns : list (loc * A)).

(** A represented chain is no longer than the heap, so the fuel of
    [dlist_for_each] suffices. *)
Lemma chain_size m (pv nx : option loc) ns :
  NoDup (locs ns) -> seg m pv ns nx -> (length ns <= size m)%nat.
Proof.
  intros Hnd Hs. rewrite <- (length_fmap fst ns). fold (locs ns).
  rewrite <- (size_list_to_set (C := gset loc) (locs ns)) by done.
  rewrite <- (size_dom m). apply subseteq_size. intros p.
  rewrite elem_of_list_to_set, elem_of_dom. unfold locs.
  intros ([q x] & -> & Hin)%list_elem_of_fmap.
  destruct (seg_lookup _ _ _ _ _ _ Hs Hin) as (n & Hn & _). eauto.
Qed.

Lemma for_each_seg {S : Type} h (body : S -> loc -> A -> S) ns : forall fuel pv s,
  seg (cells h) pv ns None -> (length ns <= fuel)%nat ->
  dlist_for_each_pos fuel h (fst_loc ns None) body s
    = Some (foldl (fun s n => body s n.1 n.2) s ns).
Proof.
  induction ns as [|[p x] ns IH]; intros fuel pv s Hs Hf; [by destruct fuel|].
  destruct fuel as [|fuel]; [simpl in Hf; lia|]. destruct Hs as [Hp Hs].
  simpl. unfold load. rewrite Hp. simpl. eapply IH; [done|]. simpl in Hf. lia.
Qed.

Lemma for_each_rep {S : Type} h l (body : S -> loc -> A -> S) ns s :
  rep h l ns ->
  dlist_for_each h l body s = Some (foldl (fun s n => body s n.1 n.2) s ns).
Proof.
  intros [Hnd Hs Hh _ _]. unfold dlist_for_each. rewrite Hh.
  eapply for_each_seg; [done|]. by eapply chain_size.
Qed.

(** The node picked by a scan that keeps the current candidate [y] unless
    [better y x] holds of the next payload [x]. *)
Definition scan (better : A -> A -> bool) (ns : list (loc * A)) : option (loc * A) :=
  foldl (fun (acc : option (loc * A)) n =>
           match acc with
           | None => Some n
           | Some (_, y) => if better y n.2 then Some n else acc
           end) None ns.

Definition better_min (cmp : A -> A -> Z) (y x : A) : bool := cmp y x >? 0.
Definition better_max (cmp : A -> A -> Z) (y x : A) : bool := cmp y x <? 0.

Lemma get_min_scan h l cmp ns :
  rep h l ns -> dlist_get_min h (Some l) cmp = Some (option_map fst (scan (better_min cmp) ns)).
Proof.
  intros Hr. unfold dlist_get_min. rewrite (for_each_rep _ _ _ _ _ Hr). simpl.
  do 2 f_equal. unfold scan. generalize (@None (loc * A)).
  clear Hr. induction ns as [|[p x] ns IH]; intros acc; [done|]. cbn [foldl].
  rewrite IH. f_equal.
Qed.

Lemma get_max_scan h l cmp ns :
  rep h l ns -> dlist_get_max h (Some l) cmp = Some (option_map fst (scan (better_max cmp) ns)).
Proof.
  intros Hr. unfold dlist_get_max. rewrite (for_each_rep _ _ _ _ _ Hr). simpl.
  do 2 f_equal. unfold scan. generalize (@None (loc * A)).
  clear Hr. induction ns as [|[p x] ns IH]; intros acc; [done|]. cbn [foldl].
  rewrite IH. f_equal.
Qed.

(** A comparison function whose sign is a total preorder. *)
Record total_preorder (better : A -> A -> bool) : Prop := TotalPreorder {
  tp_total : forall x y, better x y = true -> better y x = false;
  tp_trans : forall x y z, better x y = false -> better y z = false -> better x z = false;
}.

(** The scan returns a node of the list that no other node beats, and the
    first such: everything before it is strictly beaten. *)
Lemma scan_spec better ns :
  total_preorder better -> ns <> [] ->
  exists ns1 p x ns2, ns = ns1 ++ (p, x) :: ns2 /\ scan better ns = Some (p, x)
    /\ (forall n, n ∈ ns -> better x n.2 = false)
    /\ (forall n, n ∈ ns1 -> better n.2 x = true).
Proof.
  intros [Htot Htr] Hne. induction ns as [|[q z] ns IH] using rev_ind; [done|]. clear Hne.
  destruct ns as [|n0 ns0]; [|destruct IH as (ns1 & p & x & ns2 & -> & Hsc & Hle & Hlt); [done|]].
  { exists [], q, z, []. split_and!; [done|done| |set_solver].
    intros n ->%list_elem_of_singleton. simpl.
    destruct (better z z) eqn:E; [|done]. by rewrite (Htot _ _ E) in E. }
  unfold scan in *. rewrite foldl_snoc, Hsc. cbn [snd].
  destruct (better x z) eqn:E.
  - exists (ns1 ++ (p, x) :: ns2), q, z, []. split_and!; [done|done| |].
    + intros n [Hn| ->%list_elem_of_singleton]%elem_of_app; simpl.
      * apply (Htr _ x); auto.
      * destruct (better z z) eqn:Ez; [|done]. by rewrite (Htot _ _ Ez) in Ez.
    + intros n Hn. destruct (better n.2 z) eqn:En; [done|].
      rewrite (Htr x n.2 z (Hle n Hn) En) in E. done.
  - exists ns1, p, x, (ns2 ++ [(q, z)]). split_and!; [by rewrite <- app_assoc|done| |done].
    intros n [Hn| ->%list_elem_of_singleton]%elem_of_app; auto.
Qed.
End walk.

Section sort.
Context {A : Type}.
Implicit Types (h : heap A) (l : dlist) (ns done : list (loc * A)).

Definition better_by (cmp : A -> A -> Z) (asc : bool) : A -> A -> bool :=
  if asc then better_min cmp else better_max cmp.

Definition node_le (better : A -> A -> bool) (n m : loc * A) : Prop := better n.2 m.2 = false.

(** The invariant of the [while] loop of [dlist_sort]: the header holds the
    nodes still to be moved, [done] is the chain built so far. *)
Record sort_inv h l ns done : Prop := SortInv {
  si_wf : heap_wf h;
  si_rep : rep h l ns;
  si_done : seg (cells h) None done None;
  si_nodup : NoDup (locs (done ++ ns));
}.

(** Moving one selected node from the list to the end of the chain. *)
Lemma sort_move h l ns1 p (x : A) ns2 done :
  sort_inv h l (ns1 ++ (p, x) :: ns2) done ->
  exists h' l', dlist_remove h (Some l) (Some p) false = Some (h', Some l', d_size l', Some x)
    /\ d_free_mode l' = d_free_mode l
    /\ exists h'', (match last_loc done None with
                    | None => Some h'
                    | Some t => h1 ← set_next h' t (Some p); set_prev h1 p (Some t)
                    end) = Some h''
      /\ sort_inv h'' l' (ns1 ++ ns2) (done ++ [(p, x)]).
Proof.
  intros [Hwf Hr Hd Hnd].
  destruct (remove_spec h l ns1 p x ns2 false Hwf Hr) as (h' & l' & E & R & K & C).
  exists h', l'. split; [done|]. split; [apply (keeps_mode _ _ _ _ _ K)|].
  rewrite locs_app in Hnd. apply NoDup_app in Hnd as (Nd & Hdis & Nn).
  assert (Hpd : p ∉ locs done) by (intros Hin; apply (Hdis p Hin); locs_solve).
  destruct (remove_mid_nodup _ _ _ _ Nn) as [Nn' Hp'].
  assert (Hd' : seg (cells h') None done None).
  { eapply seg_frame; [|exact Hd]. intros q Hq. apply (keeps_frame _ _ _ _ _ K).
    - by apply Hdis.
    - intros Heq. apply list_elem_of_fmap in Hq as ([q' y] & Hqq & Hin).
      destruct (seg_lookup _ _ _ _ _ _ Hd Hin) as (n & Hn & _).
      apply Hwf in Hn. simpl in Hqq. subst. lia. }
  assert (Hnd' : NoDup (locs ((done ++ [(p, x)]) ++ ns1 ++ ns2))).
  { rewrite !locs_app in *. simpl. rewrite <- app_assoc. simpl.
    apply NoDup_app. split_and!; [done| |by apply NoDup_cons].
    intros q Hq. specialize (Hdis q Hq). set_solver. }
  destruct (chain_snoc done) as [->|(done' & t & y & ->)].
  { exists h'. split; [done|]. constructor; [apply (keeps_wf _ _ _ _ _ K)|done|by split|done]. }
  rewrite last_loc_app. simpl.
  rewrite locs_app in Hpd, Nd. apply NoDup_app in Nd as (_ & Htd & _).
  pose proof Hd' as Hd2. apply seg_app in Hd2 as (_ & Ht & _). simpl in Ht.
  unfold set_next, set_prev.
  destruct (store_upd (with_next (Some p)) h' t _ Ht) as (h1 & E1 & C1 & U1).
  rewrite E1. cbn [mbind option_bind].
  assert (C' : cells h1 !! p = Some (DNode x None None)).
  { eapply upd_cell; [exact U1| |exact C]. set_solver. }
  destruct (store_upd (with_prev (Some t)) h1 p _ C') as (h2 & E2 & C2 & U2).
  pose proof (upd_trans _ _ _ _ _ U1 U2) as U12.
  exists h2. split; [done|].
  assert (Htn : t ∉ locs (ns1 ++ ns2)).
  { intros Hin. apply (Hdis t); [locs_solve|]. locs_solve. }
  constructor; [eapply upd_wf; [done|apply (keeps_wf _ _ _ _ _ K)]| | |done].
  - destruct R as [? ? ? ? ?]. constructor; try done.
    eapply upd_seg; [exact U12| |done]. intros q Hq ?. set_solver.
  - apply seg_app in Hd' as [Hd1 _]. rewrite <- app_assoc. apply seg_app. simpl.
    split_and!.
    + eapply upd_seg; [exact U12| |exact Hd1]. intros q Hq Hq'.
      apply elem_of_cons in Hq as [->|Hq]; [|set_solver].
      apply (Htd _ Hq'). set_solver.
    + eapply upd_cell; [exact U2|set_solver|exact C1].
    + exact C2.
    + done.
Qed.

Definition eqv (better : A -> A -> bool) (y : A) (n : loc * A) : Prop :=
  better y n.2 = false /\ better n.2 y = false.
#[local] Instance eqv_dec better y n : Decision (eqv better y n).
Proof. unfold eqv. apply _. Defined.

(** What a stable sort of [ns] is. *)
Record sorted_of (better : A -> A -> bool) ns srt : Prop := SortedOf {
  so_perm : srt ≡ₚ ns;
  so_sorted : StronglySorted (node_le better) srt;
  so_stable : forall y, filter (eqv better y) srt = filter (eqv better y) ns;
}.

Lemma sorted_of_nil better : sorted_of better [] [].
Proof. constructor; [done|constructor|done]. Qed.

Lemma filter_none {B : Type} (P : B -> Prop) `{!forall x, Decision (P x)} (l : list B) :
  (forall x, x ∈ l -> ~ P x) -> filter P l = [].
Proof.
  induction l as [|x l IH]; intros Hn; [done|]. rewrite filter_cons_False by (apply Hn; set_solver).
  apply IH. set_solver.
Qed.

(** Selecting the first unbeaten node and sorting the others. *)
Lemma sorted_of_select better ns1 p (x : A) ns2 srt :
  total_preorder better ->
  (forall n, n ∈ ns1 ++ (p, x) :: ns2 -> better x n.2 = false) ->
  (forall n, n ∈ ns1 -> better n.2 x = true) ->
  sorted_of better (ns1 ++ ns2) srt ->
  sorted_of better (ns1 ++ (p, x) :: ns2) ((p, x) :: srt).
Proof.
  intros [Htot Htr] Hmin Hfst [Hp Hs Hst]. constructor.
  - rewrite Hp. apply Permutation_middle.
  - constructor; [done|]. apply Forall_forall. intros n Hn. apply Hmin.
    rewrite Hp in Hn. set_solver.
  - intros y. rewrite filter_app, filter_cons, filter_cons, Hst, filter_app.
    case_decide as He; [|done].
    rewrite (filter_none (eqv better y) ns1); [done|]. intros n Hn [Hyn Hny].
    specialize (Hfst n Hn). destruct He as [He _]. simpl in He.
    rewrite (Htr _ _ _ Hny He) in Hfst. done.
Qed.

Lemma better_scan h l cmp (asc : bool) ns :
  rep h l ns ->
  (if asc then dlist_get_min h (Some l) cmp else dlist_get_max h (Some l) cmp)
    = Some (option_map fst (scan (better_by cmp asc) ns)).
Proof. destruct asc; [apply get_min_scan|apply get_max_scan]. Qed.

Lemma sort_loop_spec cmp asc ns : forall h l done, few ns ->
  total_preorder (better_by cmp asc) -> sort_inv h l ns done ->
  exists h' l' srt, sort_loop (length ns) cmp asc h (Some l) (fst_loc done None) (last_loc done None)
      = Some (h', Some l', fst_loc (done ++ srt) None, last_loc (done ++ srt) None)
    /\ sorted_of (better_by cmp asc) ns srt
    /\ sort_inv h' l' [] (done ++ srt) /\ d_free_mode l' = d_free_mode l.
Proof.
  remember (length ns) as n eqn:Hn. revert ns Hn.
  induction n as [|n IH]; intros ns Hn h l done Hfew Htp Hinv; cbn [sort_loop dlist_size];
    pose proof (few_size _ _ _ (si_rep _ _ _ _ Hinv) Hfew) as Hsz; rewrite Hsz, <- Hn.
  { destruct ns; [|done]. exists h, l, []. rewrite app_nil_r. auto using sorted_of_nil. }
  replace (0 <? Z.of_nat (S n)) with true by (symmetry; apply Z.ltb_lt; lia).
  rewrite (better_scan _ _ _ _ _ (si_rep _ _ _ _ Hinv)). cbn [mbind option_bind].
  destruct (scan_spec (better_by cmp asc) ns Htp) as (ns1 & p & x & ns2 & -> & -> & Hmin & Hfst);
    [by destruct ns|].
  destruct (sort_move _ _ _ _ _ _ _ Hinv) as (h1 & l1 & E1 & M1 & h2 & E2 & Hinv2).
  cbn [option_map fst]. rewrite E1. cbn [mbind option_bind].
  destruct (IH (ns1 ++ ns2)) with (h := h2) (l := l1) (done := done ++ [(p, x)])
    as (h' & l' & srt & E & Hso & Hinv' & M); [| |done|done|].
  { rewrite !length_app in *. simpl in Hn. lia. }
  { unfold few in *. rewrite !length_app in *. simpl in Hfew. lia. }
  exists h', l', ((p, x) :: srt).
  replace (done ++ (p, x) :: srt) with ((done ++ [(p, x)]) ++ srt) by by rewrite <- app_assoc.
  split_and!; [|by apply sorted_of_select|done|congruence].
  destruct (chain_snoc done) as [->|(done' & t & y & ->)].
  - simpl in E2. injection E2 as ->. exact E.
  - rewrite !fst_loc_app, !last_loc_app in *. cbn [last_loc fst_loc] in *.
    destruct (fst_loc done' (Some t)) as [hd|] eqn:Hh;
      [|by destruct done' as [|[]]].
    cbn [mbind option_bind] in *. destruct (set_next h1 t (Some p)) as [h1'|]; [|done].
    cbn [mbind option_bind] in *. rewrite E2. cbn [mbind option_bind]. exact E.
Qed.
End sort.

Section whole_list.
Context {A : Type}.
Implicit Types (h : heap A) (l : dlist) (ns : list (loc * A)).

Lemma rep_sort_inv h l ns : heap_wf h -> rep h l ns -> sort_inv h l ns [].
Proof. intros Hwf Hr. constructor; [done|done|done|apply Hr]. Qed.

Lemma sort_inv_rep h l l' done :
  sort_inv h l [] done -> d_size l' = i32 (Z.of_nat (length done)) ->
  d_head l' = fst_loc done None -> d_tail l' = last_loc done None -> rep h l' done.
Proof.
  intros [_ _ Hs Hnd] Hz Hh Ht. rewrite app_nil_r in Hnd. by constructor.
Qed.

(** [dlist_sort] terminates without a memory error on every well-formed
    list and relinks its nodes, none lost and none duplicated, in the order
    of the comparison function, ascending or descending; nodes that compare
    equal keep their relative order. *)
Theorem dlist_sort_sorts h l ns (cmp : A -> A -> Z) (asc : bool)
    (Hcmp : total_preorder (better_by cmp asc)) (Hwf : heap_wf h) (Hrep : rep h l ns) (Hfew : few ns) :
  exists h' l' srt, dlist_sort h (Some l) cmp asc = Some (h', Some l')
    /\ rep h' l' srt /\ sorted_of (better_by cmp asc) ns srt
    /\ heap_wf h' /\ d_free_mode l' = d_free_mode l.
Proof.
  destruct (sort_loop_spec cmp asc ns h l [] Hfew Hcmp (rep_sort_inv _ _ _ Hwf Hrep))
    as (h' & l' & srt & E & Hso & Hinv & M).
  unfold dlist_sort. cbn [dlist_size]. rewrite (few_size _ _ _ Hrep Hfew), Nat2Z.id.
  cbn [fst_loc last_loc] in E. rewrite E. cbn [mbind option_bind].
  destruct (rep_empty_head _ _ (si_rep _ _ _ _ Hinv)) as (Hh & Ht & _).
  rewrite decide_True by done. eexists _, _, srt. split; [done|].
  split; [|split; [done|split; [apply Hinv|done]]].
  eapply sort_inv_rep; [exact Hinv| |done|done]. simpl.
  by rewrite (Permutation_length (so_perm _ _ _ Hso)), i32_small by (unfold few, in_i32 in *; lia).
Qed.

(** [dlist_merge] of two disjoint non-empty lists splices the second
    after the first and keeps the first header. *)
Theorem dlist_merge_concatenates h la lb ns1 ns2
    (Hne1 : ns1 <> []) (Hne2 : ns2 <> []) (Hdisj : NoDup (locs (ns1 ++ ns2)))
    (Ha : rep (A := A) h la ns1) (Hb : rep h lb ns2) (Hfew1 : few ns1) (Hfew2 : few ns2) :
  exists h' l', dlist_merge h (Some la) (Some lb) = Some (h', Some l')
    /\ rep h' l' (ns1 ++ ns2) /\ d_free_mode l' = d_free_mode la.
Proof.
  unfold dlist_merge. rewrite (empty_spec _ _ _ Ha Hfew1), (empty_spec _ _ _ Hb Hfew2).
  rewrite !bool_decide_eq_false_2 by done. cbn [mbind option_bind].
  pose proof Hdisj as Hnd. rewrite locs_app in Hnd. apply NoDup_app in Hnd as (N1 & N12 & N2).
  destruct Ha as [_ Sa Hha Hta Hza], Hb as [_ Sb Hhb Htb Hzb].
  destruct (last_loc_in ns1 None Hne1) as (t & Ht & _).
  destruct ns2 as [|[q y] ns2]; [done|].
  rewrite Hta, Hhb, Ht. cbn [fst_loc mbind option_bind].
  destruct (set_next_if_last h ns1 None (Some q) N1 Sa) as (h1 & E1 & Sa1 & U1).
  rewrite Ht in E1. simpl in E1. rewrite E1. cbn [mbind option_bind].
  assert (Sb1 : seg (cells h1) None ((q, y) :: ns2) None) by (by eapply upd_seg).
  destruct (set_prev_if_first h1 ((q, y) :: ns2) None None (Some t) N2 Sb1)
    as (h2 & E2 & Sb2 & U2).
  simpl in E2. rewrite E2. cbn [mbind option_bind].
  eexists _, _. split; [done|]. split; [|done]. constructor; simpl.
  - done.
  - apply seg_app. rewrite Ht. split; [|done]. eapply upd_seg; [exact U2| |exact Sa1].
    intros p Hp Hp'. by apply (N12 p).
  - rewrite Hha, fst_loc_app. destruct ns1 as [|[]]; done.
  - rewrite Htb, last_loc_app. done.
  - rewrite Hza, Hzb, wrap_s_add, length_app by done. f_equal. lia.
Qed.

(** The payloads released by [dlist_destroy]. *)
Definition released (mode : free_mode) ns : list A :=
  match mode with FREE_MODE_NOTHING => [] | _ => ns.*2 end.

Lemma destroy_loop_spec mode ns : forall h pv fuel freed,
  NoDup (locs ns) -> seg (cells h) pv ns None -> (length ns <= fuel)%nat ->
  exists h', destroy_loop fuel mode h (fst_loc ns None) freed
      = Some (h', freed ++ released mode ns)
    /\ (forall p, p ∈ locs ns -> cells h' !! p = None)
    /\ (forall p, p ∉ locs ns -> cells h' !! p = cells h !! p).
Proof.
  induction ns as [|[p x] ns IH]; intros h pv fuel freed Hnd Hs Hf.
  { exists h. destruct fuel; simpl; (split; [by destruct mode; rewrite ?app_nil_r|]);
      split; set_solver. }
  destruct fuel as [|fuel]; [simpl in Hf; lia|]. destruct Hs as [Hp Hs].
  apply NoDup_cons in Hnd as [Hpn Hnd]. cbn [fst_loc destroy_loop].
  unfold load. rewrite Hp. cbn [mbind option_bind node_next node_data].
  unfold free_node, load. rewrite Hp. cbn [mbind option_bind].
  set (h1 := Heap (delete p (cells h)) (fresh h) (oom h)).
  assert (Hs1 : seg (cells h1) (Some p) ns None).
  { eapply seg_frame; [|exact Hs]. intros q Hq. apply lookup_delete_ne. set_solver. }
  destruct (IH h1 (Some p) fuel (match mode with FREE_MODE_NOTHING => freed | _ => freed ++ [x] end)
              Hnd Hs1) as (h' & E & Hin & Hout); [simpl in Hf; lia|].
  exists h'. split; [|split].
  - destruct mode; rewrite E; simpl; by rewrite <- ?app_assoc.
  - intros q [->|Hq]%elem_of_cons; [|by apply Hin].
    rewrite Hout by done. apply lookup_delete_eq.
  - intros q Hq. rewrite Hout by set_solver. apply lookup_delete_ne. set_solver.
Qed.

(** [dlist_destroy] frees every node of the list exactly once, releases
    the payloads in list order unless the mode is [FREE_MODE_NOTHING], and
    touches no other cell. *)
Theorem dlist_destroy_frees_all h l ns (Hrep : rep (A := A) h l ns) :
  exists h', dlist_destroy h (Some l) = Some (h', released (d_free_mode l) ns)
    /\ (forall p, p ∈ locs ns -> cells h' !! p = None)
    /\ (forall p, p ∉ locs ns -> cells h' !! p = cells h !! p).
Proof.
  destruct Hrep as [Hnd Hs Hh _ _]. unfold dlist_destroy. rewrite Hh.
  apply (destroy_loop_spec _ _ _ None _ []); [done|done|]. by eapply chain_size.
Qed.
End whole_list.

(** ** Concrete lists on which the theorems above apply *)

Lemma heap_wf_check {A : Type} (h : heap A) :
  forallb (fun kv => Pos.ltb kv.1 (fresh h)) (map_to_list (cells h)) = true -> heap_wf h.
Proof.
  rewrite forallb_forall. intros H p n Hp. apply Pos.ltb_lt, (H (p, n)).
  by apply list_elem_of_In, elem_of_map_to_list.
Qed.

(** The list 5, 3, 4 in the cells 1, 2, 3. *)
Definition demo_heap : heap Z :=
  Heap (<[1%positive := DNode 5 None (Some 2%positive)]>
        (<[2%positive := DNode 3 (Some 1%positive) (Some 3%positive)]>
         (<[3%positive := DNode 4 (Some 2%positive) None]> empty))) 4%positive (fun _ => false).
Definition demo_list : dlist := DList 3 FREE_MODE_MP_FREE (Some 1%positive) (Some 3%positive).
Definition demo_nodes : list (loc * Z) := [(1%positive, 5); (2%positive, 3); (3%positive, 4)].

(** The same heap with a second list that holds 9 alone. *)
Definition two_heap : heap Z :=
  Heap (<[7%positive := DNode 9 None None]> (cells demo_heap)) 8%positive (fun _ => false).
Definition one_list : dlist := DList 1 FREE_MODE_NOTHING (Some 7%positive) (Some 7%positive).

Lemma demo_wf : heap_wf demo_heap.
Proof. by apply heap_wf_check. Defined.

Lemma demo_rep : rep demo_heap demo_list demo_nodes.
Proof.
  constructor; [|vm_compute; auto|done|done|done].
  change (NoDup [1; 2; 3]%positive). by apply (bool_decide_unpack _).
Defined.

Lemma sub_preorder : total_preorder (better_by Z.sub true).
Proof.
  constructor; unfold better_by, better_min; intros *; rewrite ?Z.gtb_ltb, ?Z.ltb_lt, ?Z.ltb_ge; lia.
Defined.

Lemma dlist_sort_sorts_witness :
  exists h' l' srt, dlist_sort demo_heap (Some demo_list) Z.sub true = Some (h', Some l')
    /\ rep h' l' srt /\ sorted_of (better_by Z.sub true) demo_nodes srt
    /\ heap_wf h' /\ d_free_mode l' = FREE_MODE_MP_FREE.
Proof. exact (dlist_sort_sorts _ _ _ Z.sub true sub_preorder demo_wf demo_rep eq_refl). Defined.

Lemma dlist_merge_concatenates_witness :
  exists h' l', dlist_merge two_heap (Some one_list) (Some demo_list) = Some (h', Some l')
    /\ rep h' l' ([(7%positive, 9)] ++ demo_nodes) /\ d_free_mode l' = FREE_MODE_NOTHING.
Proof.
  apply (dlist_merge_concatenates two_heap one_list demo_list [(7%positive, 9)] demo_nodes);
    [done|done| | | |done|done].
  - change (NoDup [7; 1; 2; 3]%positive). by apply (bool_decide_unpack _).
  - constructor; [|vm_compute; auto|done|done|done].
    change (NoDup [7]%positive). by apply (bool_decide_unpack _).
  - constructor; [|vm_compute; auto|done|done|done].
    change (NoDup [1; 2; 3]%positive). by apply (bool_decide_unpack _).
Defined.

Lemma dlist_destroy_frees_all_witness :
  exists h', dlist_destroy demo_heap (Some demo_list) = Some (h', [5; 3; 4])
    /\ (forall p, p ∈ locs demo_nodes -> cells h' !! p = None)
    /\ (forall p, p ∉ locs demo_nodes -> cells h' !! p = cells demo_heap !! p).
Proof. exact (dlist_destroy_frees_all _ _ _ demo_rep). Defined.
