(* ===== verification/ListHead.v ===== *)
(** * Circular lists (include/list.h) and priority lists (include/priority_list.h)

    A [struct list_head] is part of the structure that is listed, and so is the
    head of a list: memory is a map from addresses to these links, an operation
    is [None] when it follows a pointer to nowhere.  The theorems relate the
    links to the sequences that they stand for: any number of lists in one
    memory, whose nodes move between them. *)

From Stdlib Require Import Sorted.
From S2P Require Import Prelude.

Abbreviation addr := positive.

Record list_head := ListHead { next : addr; prev : addr }.

Abbreviation memory := (gmap addr list_head).

Implicit Types (h : memory) (p q e x y : addr) (l c : list addr).

Definition set_next h p v : option memory := n ← h !! p; Some (<[p:=ListHead v (prev n)]> h).
Definition set_prev h p v : option memory := n ← h !! p; Some (<[p:=ListHead (next n) v]> h).

Definition INIT_LIST_HEAD h p : option memory := h ← set_prev h p p; set_next h p p.

Definition __list_add h (entry prev next : addr) : option memory :=
  h ← set_prev h next entry;
  h ← set_next h entry next;
  h ← set_prev h entry prev;
  set_next h prev entry.

Definition list_add h (entry head : addr) : option memory :=
  n ← h !! head; __list_add h entry head (next n).

Definition list_add_tail h (entry head : addr) : option memory :=
  n ← h !! head; __list_add h entry (prev n) head.

Definition __list_del h (prev next : addr) : option memory :=
  h ← set_prev h next prev; set_next h prev next.

Definition list_del h (entry : addr) : option memory :=
  n ← h !! entry; __list_del h (prev n) (next n).

Definition list_del_init h (entry : addr) : option memory :=
  n ← h !! entry; h ← __list_del h (prev n) (next n); INIT_LIST_HEAD h entry.

Definition list_move_tail h (list head : addr) : option memory :=
  n ← h !! list; h ← __list_del h (prev n) (next n); list_add_tail h list head.

Definition list_empty h (head : addr) : option bool :=
  n ← h !! head; Some (bool_decide (next n = head)).

(** The loop over the entries; the body says whether it leaves the loop. *)
Fixpoint list_for_each_from {S} (fuel : nat) (body : addr -> S -> S * bool) h (head pos : addr) (s : S) : option S :=
  match fuel with
  | O => None
  | Datatypes.S fuel' =>
      if decide (pos = head) then Some s else
      let '(s, stop) := body pos s in
      if (stop : bool) then Some s else
      n ← h !! pos; list_for_each_from fuel' body h head (next n) s
  end.

Definition list_for_each_entry {S} (fuel : nat) (body : addr -> S -> S * bool) h (head : addr) (s : S) : option S :=
  n ← h !! head; list_for_each_from fuel body h head (next n) s.

(** The loop whose body may remove the entry. *)
Fixpoint list_for_each_safe (fuel : nat) (body : memory -> addr -> option memory) h (head pos tmp : addr) : option memory :=
  match fuel with
  | O => None
  | Datatypes.S fuel' =>
      if decide (pos = head) then Some h else
      h ← body h pos;
      n ← h !! tmp;
      list_for_each_safe fuel' body h head tmp (next n)
  end.

Definition list_for_each_entry_safe (fuel : nat) (body : memory -> addr -> option memory) h (head : addr) : option memory :=
  n ← h !! head; m ← h !! next n; list_for_each_safe fuel body h head (next n) (next m).

(** The structure around a node has a priority. *)
Definition priority_list_add (fuel : nat) (priority : addr -> Z) h (entry head : addr) : option memory :=
  pre ← list_for_each_entry fuel
          (fun pos pre => if priority entry <? priority pos then (pre, true) else (Some pos, false)) h head None;
  match pre with
  | None => list_add h entry head
  | Some pre => list_add h entry pre
  end.

(** ** Links *)

Definition nexts h p : option addr := next <$> h !! p.
Definition prevs h p : option addr := prev <$> h !! p.

Definition linked h x y : Prop := nexts h x = Some y /\ prevs h y = Some x.

Fixpoint links h c : Prop :=
  match c with
  | x :: (y :: _) as c' => linked h x y /\ links h c'
  | _ => True
  end.

(** The nodes [c], the last linked to the first. *)
Definition ring h c : Prop := NoDup c /\ match c with [] => False | p :: l => links h (p :: l ++ [p]) end.

Lemma links_app h c1 x c2 : links h (c1 ++ x :: c2) <-> links h (c1 ++ [x]) /\ links h (x :: c2).
Proof.
  induction c1 as [|y [|z c1] IH]; simpl in *; [tauto| |].
  - destruct c2; tauto.
  - rewrite IH. tauto.
Qed.

Lemma links_frame h h' c :
  links h c -> (forall q, q ∈ removelast c -> nexts h' q = nexts h q) ->
  (forall q, q ∈ tail c -> prevs h' q = prevs h q) -> links h' c.
Proof.
  induction c as [|x [|y c] IH]; [done..|]. intros [[Hn Hp] Hl] HN HP. split.
  - split; [rewrite HN|rewrite HP]; simpl; auto using list_elem_of_here.
  - apply IH; [done| |].
    + intros q Hq. apply HN. simpl in *. by apply list_elem_of_further.
    + intros q Hq. apply HP. simpl in *. by apply list_elem_of_further.
Qed.

Lemma ring_step h p l : ring h (p :: l) -> ring h (l ++ [p]).
Proof.
  intros [Hnd Hl]. split.
  - rewrite <- Permutation_cons_append. done.
  - destruct l as [|x l]; [done|]. simpl in *. destruct Hl as [Hpx Hl].
    rewrite <- app_assoc. simpl. apply (links_app h (x :: l) p [x]). split; [done|]. split; done.
Qed.

Lemma ring_rotate h c1 c2 : c2 <> [] -> ring h (c1 ++ c2) -> ring h (c2 ++ c1).
Proof.
  intros Hc. revert c2 Hc. induction c1 as [|p c1 IH]; intros c2 Hc Hr; [by rewrite app_nil_r|].
  replace (c2 ++ p :: c1) with ((c2 ++ [p]) ++ c1) by (by rewrite <- app_assoc).
  apply IH; [by destruct c2|]. rewrite app_assoc. by apply ring_step.
Qed.

Lemma nexts_some h p : is_Some (h !! p) -> exists n, nexts h p = Some n.
Proof. intros [n Hn]. unfold nexts. rewrite Hn. by eexists. Qed.

Lemma set_next_spec h p v : is_Some (h !! p) ->
  exists h', set_next h p v = Some h' /\ (forall q, nexts h' q = if decide (q = p) then Some v else nexts h q)
    /\ (forall q, prevs h' q = prevs h q) /\ dom h' = dom h.
Proof.
  intros [n Hn]. unfold set_next. rewrite Hn. simpl. eexists. split; [done|]. unfold nexts, prevs.
  split; [|split].
  - intros q. case_decide as Hq; [subst q; by rewrite lookup_insert_eq|by rewrite lookup_insert_ne by congruence].
  - intros q. destruct (decide (q = p)) as [->|]; [by rewrite lookup_insert_eq, Hn|by rewrite lookup_insert_ne by congruence].
  - apply dom_insert_lookup_L. by eexists.
Qed.

Lemma set_prev_spec h p v : is_Some (h !! p) ->
  exists h', set_prev h p v = Some h' /\ (forall q, nexts h' q = nexts h q)
    /\ (forall q, prevs h' q = if decide (q = p) then Some v else prevs h q) /\ dom h' = dom h.
Proof.
  intros [n Hn]. unfold set_prev. rewrite Hn. simpl. eexists. split; [done|]. unfold nexts, prevs.
  split; [|split].
  - intros q. destruct (decide (q = p)) as [->|]; [by rewrite lookup_insert_eq, Hn|by rewrite lookup_insert_ne by congruence].
  - intros q. case_decide as Hq; [subst q; by rewrite lookup_insert_eq|by rewrite lookup_insert_ne by congruence].
  - apply dom_insert_lookup_L. by eexists.
Qed.


Lemma add_spec h e a b : e <> a -> e <> b -> e ∈ dom h -> a ∈ dom h -> b ∈ dom h ->
  exists h', __list_add h e a b = Some h' /\ dom h' = dom h
    /\ (forall q, nexts h' q = if decide (q = a) then Some e else if decide (q = e) then Some b else nexts h q)
    /\ (forall q, prevs h' q = if decide (q = b) then Some e else if decide (q = e) then Some a else prevs h q).
Proof.
  intros Hea Heb He Ha Hb. unfold __list_add.
  destruct (set_prev_spec h b e) as (h1 & -> & N1 & P1 & D1); [by apply elem_of_dom|]. cbn.
  destruct (set_next_spec h1 e b) as (h2 & -> & N2 & P2 & D2); [apply elem_of_dom; congruence|]. cbn.
  destruct (set_prev_spec h2 e a) as (h3 & -> & N3 & P3 & D3); [apply elem_of_dom; congruence|]. cbn.
  destruct (set_next_spec h3 a e) as (h4 & -> & N4 & P4 & D4); [apply elem_of_dom; congruence|].
  exists h4. split; [done|]. split; [congruence|]. split; intros q.
  - rewrite N4, N3, N2, N1. repeat case_decide; congruence.
  - rewrite P4, P3, P2, P1. repeat case_decide; congruence.
Qed.

Lemma del_spec h a b : a ∈ dom h -> b ∈ dom h ->
  exists h', __list_del h a b = Some h' /\ dom h' = dom h
    /\ (forall q, nexts h' q = if decide (q = a) then Some b else nexts h q)
    /\ (forall q, prevs h' q = if decide (q = b) then Some a else prevs h q).
Proof.
  intros Ha Hb. unfold __list_del.
  destruct (set_prev_spec h b a) as (h1 & -> & N1 & P1 & D1); [by apply elem_of_dom|]. cbn.
  destruct (set_next_spec h1 a b) as (h2 & -> & N2 & P2 & D2); [apply elem_of_dom; congruence|].
  exists h2. split; [done|]. split; [congruence|]. split; intros q; [rewrite N2, N1|rewrite P2, P1]; done.
Qed.

(** The memory outside [c] is as it was. *)
Definition same_outside h h' c : Prop := dom h' = dom h /\ forall q, q ∉ c -> h' !! q = h !! q.

Lemma same_cell h h' q : nexts h' q = nexts h q -> prevs h' q = prevs h q -> h' !! q = h !! q.
Proof. unfold nexts, prevs. destruct (h !! q) as [[]|], (h' !! q) as [[]|]; simpl; congruence. Qed.

Lemma linked_dom h x y : linked h x y -> x ∈ dom h /\ y ∈ dom h.
Proof.
  unfold linked, nexts, prevs. intros [Hx Hy]. split; apply elem_of_dom.
  - destruct (h !! x); [by eexists|done].
  - destruct (h !! y); [by eexists|done].
Qed.

(** The node after [x] in a ring that starts there, and the rest. *)
Lemma ring_first h x l : ring h (x :: l) ->
  exists y c, l ++ [x] = y :: c /\ linked h x y /\ links h (y :: c) /\ NoDup (y :: c) /\ x ∉ l.
Proof.
  intros [Hnd Hl]. assert (Hc : NoDup (l ++ [x])) by (by rewrite <- Permutation_cons_append).
  apply NoDup_cons in Hnd as [Hx Hnd]. destruct l as [|y l]; simpl in *.
  - exists x, []. split; [done|]. split; [by destruct Hl|]. done.
  - exists y, (l ++ [x]). destruct Hl as [Hxy Hl]. split; [done|]. done.
Qed.

Lemma removelast_snoc {A} (l : list A) a : removelast (l ++ [a]) = l.
Proof. rewrite removelast_app by done. by rewrite app_nil_r. Qed.

Lemma insert_after h e x l : ring h (x :: l) -> e ∉ x :: l -> e ∈ dom h ->
  exists h', list_add h e x = Some h' /\ ring h' (x :: e :: l) /\ same_outside h h' (e :: x :: l).
Proof.
  intros Hr He Hd. destruct (ring_first _ _ _ Hr) as (y & c & Ec & Hxy & Hl & Hnd & Hx).
  apply not_elem_of_cons in He as [Hex Hel].
  assert (Hy : y ∈ l ++ [x]) by (rewrite Ec; apply list_elem_of_here).
  assert (Hey : e <> y) by (intros ->; apply elem_of_app in Hy as [?|?%list_elem_of_singleton]; done).
  pose proof (linked_dom _ _ _ Hxy) as [Hdx Hdy].
  destruct (add_spec h e x y) as (h' & Hadd & Hdom & HN & HP); [done..|].
  exists h'. split.
  { unfold list_add. destruct Hxy as [Hn _]. unfold nexts in Hn. destruct (h !! x) as [n|]; [|done].
    cbn in *. injection Hn as ->. done. }
  destruct Hr as [Hndr _]. split.
  - split; [apply NoDup_cons in Hndr as [? ?]; rewrite !NoDup_cons, !not_elem_of_cons; naive_solver|].
    change (links h' (x :: e :: l ++ [x])). rewrite Ec. split; [|split].
    + split; [rewrite HN|rewrite HP]; repeat case_decide; congruence.
    + split; [rewrite HN|rewrite HP]; repeat case_decide; congruence.
    + apply (links_frame h); [done| |].
      * intros q Hq. rewrite <- Ec, removelast_snoc in Hq. rewrite HN.
        rewrite !decide_False; [done| |]; intros ->; done.
      * intros q Hq. simpl in Hq. rewrite HP. apply NoDup_cons in Hnd as [Hyc _].
        rewrite !decide_False; [done| |intros ->; done].
        intros ->. assert (Hin : e ∈ l ++ [x]) by (rewrite Ec; by apply list_elem_of_further).
        apply elem_of_app in Hin as [?|?%list_elem_of_singleton]; done.
  - split; [done|]. intros q [Hq1 [Hq2 Hq3]%not_elem_of_cons]%not_elem_of_cons.
    assert (q <> y) by (intros ->; apply elem_of_app in Hy as [?|?%list_elem_of_singleton]; done).
    apply same_cell; [rewrite HN|rewrite HP]; by rewrite !decide_False.
Qed.

Lemma ring_linked h x y l : ring h (x :: y :: l) -> linked h x y.
Proof. by intros [_ [H _]]. Qed.

Lemma linked_load h x y : linked h x y -> exists n m, h !! x = Some n /\ next n = y /\ h !! y = Some m /\ prev m = x.
Proof.
  unfold linked, nexts, prevs. destruct (h !! x) as [n|], (h !! y) as [m|]; simpl; naive_solver.
Qed.

Lemma remove_after h e x l : ring h (x :: e :: l) ->
  exists h', list_del h e = Some h' /\ ring h' (x :: l) /\ same_outside h h' (x :: l).
Proof.
  intros Hr. pose proof (ring_linked _ _ _ _ Hr) as Hxe.
  destruct (ring_first _ _ _ (ring_step _ _ _ Hr)) as (y & c & Ec & Hey & Hl & Hnd & _).
  pose proof Hr as [Hndr _]. apply NoDup_cons in Hndr as [[Hxe' Hxl]%not_elem_of_cons Hndr].
  assert (E2 : exists c', l ++ [x] = y :: c').
  { destruct l as [|z l]; simpl in *; injection Ec as <- _; by eexists. }
  destruct E2 as [c' E2].
  assert (Hl' : links h (y :: c') /\ NoDup (y :: c')).
  { rewrite <- E2. rewrite <- Ec in Hl, Hnd. apply NoDup_app in Hnd as (Hnd1 & _). split; [|done].
    destruct l as [|z l]; [done|]. change (links h (((z :: l) ++ [x]) ++ [e])) in Hl.
    rewrite <- app_assoc in Hl. by apply (links_app h (z :: l) x [e]) in Hl as [? _]. }
  destruct Hl' as [Hl1 Hnd1]. assert (Hy : y ∈ l ++ [x]) by (rewrite E2; apply list_elem_of_here).
  destruct (linked_load _ _ _ Hxe) as (nx & ne & Hx & _ & He & Hpe).
  pose proof (linked_dom _ _ _ Hxe) as [Hdx _]. pose proof (linked_dom _ _ _ Hey) as [_ Hdy].
  destruct (del_spec h x y) as (h' & Hdel & Hdom & HN & HP); [done..|].
  exists h'. split.
  { unfold list_del. rewrite He. cbn. destruct Hey as [Hn _]. unfold nexts in Hn. rewrite He in Hn.
    injection Hn as ->. by rewrite Hpe. }
  split.
  - split; [apply NoDup_cons; split; [done|by apply NoDup_cons in Hndr as [? ?]]|].
    change (links h' (x :: l ++ [x])). rewrite E2. split.
    + split; [rewrite HN|rewrite HP]; by rewrite decide_True.
    + apply (links_frame h); [done| |].
      * intros q Hq. rewrite <- E2, removelast_snoc in Hq. rewrite HN, decide_False; [done|]. by intros ->.
      * intros q Hq. simpl in Hq. rewrite HP, decide_False; [done|]. intros ->. by apply NoDup_cons in Hnd1 as [? _].
  - split; [done|]. intros q [Hq1 Hq2]%not_elem_of_cons.
    assert (q <> y) by (intros ->; apply elem_of_app in Hy as [?|?%list_elem_of_singleton]; done).
    apply same_cell; [rewrite HN|rewrite HP]; by rewrite decide_False.
Qed.

(** ** Lists in memory

    [M] maps the head of each list to its entries, in order. *)

Implicit Type (M : gmap addr (list addr)).

(** [q] is a head or an entry. *)
Definition listed M q : Prop := exists hd l, M !! hd = Some l /\ q ∈ hd :: l.

Record models h M : Prop := {
  models_ring hd l : M !! hd = Some l -> ring h (hd :: l);
  models_disjoint hd hd' l l' q : M !! hd = Some l -> M !! hd' = Some l' ->
    q ∈ hd :: l -> q ∈ hd' :: l' -> hd = hd';
}.

Lemma ring_frame h h' c : ring h c -> (forall q, q ∈ c -> h' !! q = h !! q) -> ring h' c.
Proof.
  intros [Hnd Hl] Hsame. split; [done|]. destruct c as [|p l]; [done|].
  apply (links_frame h); [done| |]; intros q Hq.
  - unfold nexts. rewrite Hsame; [done|]. change (q ∈ removelast ((p :: l) ++ [p])) in Hq.
    by rewrite removelast_snoc in Hq.
  - unfold prevs. rewrite Hsame; [done|]. simpl in Hq. apply elem_of_app in Hq as [?|?%list_elem_of_singleton].
    + by apply list_elem_of_further.
    + subst. apply list_elem_of_here.
Qed.

(** The list at [hd] is changed in memory, with nodes that were in it or in none. *)
Lemma models_update h h' M hd l c :
  models h M -> ring h' (hd :: l) -> same_outside h h' c ->
  (forall q, q ∈ c \/ q ∈ hd :: l -> forall hd' l', M !! hd' = Some l' -> q ∈ hd' :: l' -> hd' = hd) ->
  models h' (<[hd:=l]> M).
Proof.
  intros [Hr Hd] Hring [_ Hsame] Hc. split.
  - intros hd' l' E. destruct (decide (hd = hd')) as [<-|Hne].
    + rewrite lookup_insert_eq in E. by injection E as <-.
    + rewrite lookup_insert_ne in E by done. apply (ring_frame h); [by apply Hr|].
      intros q Hq. apply Hsame. intros Hqc. apply Hne. symmetry. eapply Hc; [by left|done..].
  - intros h1 h2 l1 l2 q E1 E2 H1 H2.
    destruct (decide (hd = h1)) as [<-|N1], (decide (hd = h2)) as [<-|N2];
      rewrite ?lookup_insert_eq, ?lookup_insert_ne in * by done; simplify_eq.
    + done.
    + symmetry. eapply Hc; [by right|done..].
    + eapply Hc; [by right|done..].
    + by eapply Hd.
Qed.

Lemma listed_head h M hd l q : models h M -> M !! hd = Some l -> q ∈ hd :: l ->
  forall hd' l', M !! hd' = Some l' -> q ∈ hd' :: l' -> hd' = hd.
Proof. intros [_ Hd] E Hq hd' l' E' Hq'. symmetry. by eapply Hd. Qed.

Lemma in_list h M hd l : models h M -> M !! hd = Some l -> forall q, q ∈ hd :: l -> q ∈ dom h.
Proof.
  intros [Hr _] E q Hq. destruct (Hr _ _ E) as [_ Hl].
  change (links h ((hd :: l) ++ [hd])) in Hl.
  apply list_elem_of_split in Hq as (l1 & l2 & El). rewrite El, <- app_assoc in Hl.
  apply links_app in Hl as [_ Hl]. by destruct l2 as [|y l2]; destruct Hl as [[? _]%linked_dom _].
Qed.

Lemma models_add h M hd l e : models h M -> M !! hd = Some l -> ~ listed M e -> e ∈ dom h ->
  exists h', list_add h e hd = Some h' /\ models h' (<[hd:=e :: l]> M) /\ dom h' = dom h.
Proof.
  intros HM E He Hd. destruct (insert_after h e hd l) as (h' & Hadd & Hring & Hsame); [by apply HM| |done|].
  { intros Hin. apply He. by exists hd, l. }
  exists h'. split; [done|]. split; [|apply Hsame].
  eapply (models_update h); [done..|]. intros q Hq hd' l' E' Hq'.
  destruct (decide (q = e)) as [->|Hne]; [by destruct He; exists hd', l'|].
  eapply (listed_head h M hd l q); try done. set_solver.
Qed.

Lemma models_add_after h M hd l1 x l2 e : models h M -> M !! hd = Some (l1 ++ x :: l2) -> ~ listed M e -> e ∈ dom h ->
  exists h', list_add h e x = Some h' /\ models h' (<[hd:=l1 ++ x :: e :: l2]> M) /\ dom h' = dom h.
Proof.
  intros HM E He Hd. pose proof (models_ring _ _ HM _ _ E) as Hr.
  apply (ring_rotate h (hd :: l1) (x :: l2)) in Hr; [|done].
  destruct (insert_after h e x (l2 ++ hd :: l1)) as (h' & Hadd & Hring & Hsame); [done| |done|].
  { intros Hin. apply He. exists hd, (l1 ++ x :: l2). split; [done|]. set_solver. }
  exists h'. split; [done|]. split; [|apply Hsame].
  eapply (models_update h); [done|apply (ring_rotate h' (x :: e :: l2) (hd :: l1)); [done|exact Hring]|done|].
  intros q Hq hd' l' E' Hq'.
  destruct (decide (q = e)) as [->|Hne]; [by destruct He; exists hd', l'|].
  eapply (listed_head h M hd (l1 ++ x :: l2) q); try done. set_solver.
Qed.

(** A node other than the head comes after the head or after another entry. *)
Lemma last_node hd l : exists x c, hd :: l = c ++ [x].
Proof.
  destruct (exists_last (l := hd :: l)) as (c & x & E); [done|]. by exists x, c.
Qed.

Lemma models_add_tail h M hd l e : models h M -> M !! hd = Some l -> ~ listed M e -> e ∈ dom h ->
  exists h', list_add_tail h e hd = Some h' /\ models h' (<[hd:=l ++ [e]]> M) /\ dom h' = dom h.
Proof.
  intros HM E He Hd. destruct l as [|y l0] using rev_ind; [|clear IHl0].
  - destruct (models_add h M hd [] e) as (h' & Hadd & Hm & Hdom); [done..|]. exists h'. split; [|done].
    rewrite <- Hadd. pose proof (models_ring _ _ HM _ _ E) as [_ [Hl _]].
    apply linked_load in Hl as (n & m & Hn & Hnn & Hm' & Hp). unfold list_add_tail, list_add.
    rewrite Hn in *. simplify_eq. cbn. congruence.
  - destruct (models_add_after h M hd l0 y [] e) as (h' & Hadd & Hm & Hdom); [done..|]. exists h'.
    rewrite <- app_assoc. split; [|done]. rewrite <- Hadd.
    pose proof (models_ring _ _ HM _ _ E) as Hr. apply (ring_rotate h (hd :: l0) [y]) in Hr; [|done].
    destruct (linked_load _ _ _ (ring_linked _ _ _ _ Hr)) as (n & m & Hn & Hnn & Hm' & Hp).
    unfold list_add_tail, list_add. rewrite Hm', Hn. cbn. by rewrite Hp, Hnn.
Qed.

Lemma models_del h M hd l1 e l2 : models h M -> M !! hd = Some (l1 ++ e :: l2) ->
  exists h', list_del h e = Some h' /\ models h' (<[hd:=l1 ++ l2]> M) /\ dom h' = dom h
    /\ h' !! e = h !! e /\ ~ listed (<[hd:=l1 ++ l2]> M) e.
Proof.
  intros HM E. pose proof (models_ring _ _ HM _ _ E) as Hr. pose proof Hr as [Hnd _].
  assert (exists x c1 c2, hd :: l1 ++ e :: l2 = c1 ++ x :: e :: c2 /\ hd :: l1 ++ l2 = c1 ++ x :: c2)
    as (x & c1 & c2 & Ec & Ec').
  { destruct (last_node hd l1) as (x & c & El). exists x, c, l2.
    rewrite !(app_comm_cons l1), El, <- !app_assoc. done. }
  assert (He : e ∉ hd :: l1 ++ l2).
  { rewrite app_comm_cons in Hnd |- *. intros Hin. rewrite <- Permutation_middle in Hnd.
    by apply NoDup_cons in Hnd as [? _]. }
  rewrite Ec in Hr. apply ring_rotate in Hr; [|done].
  destruct (remove_after h e x (c2 ++ c1)) as (h' & Hdel & Hring & Hsame); [done|].
  assert (Hring' : ring h' (hd :: l1 ++ l2)).
  { rewrite Ec'. destruct c1 as [|y c1]; [by rewrite app_nil_r in Hring|].
    by apply (ring_rotate h' (x :: c2) (y :: c1)). }
  assert (Hperm : forall q, q ∈ x :: c2 ++ c1 -> q ∈ hd :: l1 ++ l2) by (intros q; rewrite Ec'; set_solver).
  exists h'. split; [done|]. split; [|split; [|split]].
  - eapply (models_update h); [done..|]. intros q Hq. eapply (listed_head h M hd _ q); [done..|].
    destruct Hq as [Hq%Hperm|Hq]; set_solver.
  - apply Hsame.
  - apply Hsame. by intros ?%Hperm.
  - intros (hd' & l' & E' & Hin). destruct (decide (hd = hd')) as [<-|Hne].
    + rewrite lookup_insert_eq in E'. by injection E' as <-.
    + rewrite lookup_insert_ne in E' by done. apply Hne. symmetry.
      eapply (listed_head h M hd _ e); [done..| |done|done]. set_solver.
Qed.

Lemma models_init h M p : models h M -> ~ listed M p -> p ∈ dom h ->
  exists h', INIT_LIST_HEAD h p = Some h' /\ models h' (<[p:=[]]> M) /\ dom h' = dom h.
Proof.
  intros HM Hp Hd. unfold INIT_LIST_HEAD.
  destruct (set_prev_spec h p p) as (h1 & -> & N1 & P1 & D1); [by apply elem_of_dom|]. cbn.
  destruct (set_next_spec h1 p p) as (h2 & -> & N2 & P2 & D2); [apply elem_of_dom; congruence|].
  exists h2. split; [done|]. split; [|congruence].
  apply (models_update h h2 M p [] [p]); [done| | |].
  - split; [apply NoDup_singleton|]. simpl. split; [|done]. split; [rewrite N2|rewrite P2, P1]; by rewrite decide_True.
  - split; [congruence|]. intros q Hq%not_elem_of_cons. apply same_cell.
    + rewrite N2, decide_False, N1; naive_solver.
    + rewrite P2, P1, decide_False; naive_solver.
  - intros q [Hq|Hq] hd' l' E' Hq'; apply list_elem_of_singleton in Hq; subst; destruct Hp; by exists hd', l'.
Qed.

(** ** Sequences of operations *)

Inductive list_op :=
  | OpInit (p : addr) | OpAdd (e p : addr) | OpAddTail (e hd : addr)
  | OpDel (e : addr) | OpDelInit (e : addr) | OpMoveTail (e hd : addr).

Definition list_exec h (o : list_op) : option memory :=
  match o with
  | OpInit p => INIT_LIST_HEAD h p
  | OpAdd e p => list_add h e p
  | OpAddTail e hd => list_add_tail h e hd
  | OpDel e => list_del h e
  | OpDelInit e => list_del_init h e
  | OpMoveTail e hd => list_move_tail h e hd
  end.

Fixpoint list_run h (os : list list_op) : option memory :=
  match os with [] => Some h | o :: os => h ← list_exec h o; list_run h os end.

(** The operations on sequences, with the conditions under which they are used.
    Removal closes the gap in the list and promises nothing of the node: the
    comments in list.h, which say more, are answered by [list_del_resets_nothing]
    and [list_empty_inverted]. *)
Inductive list_spec M : list_op -> gmap addr (list addr) -> Prop :=
  | spec_init p : ~ listed M p -> list_spec M (OpInit p) (<[p:=[]]> M)
  | spec_add e hd l : M !! hd = Some l -> ~ listed M e -> list_spec M (OpAdd e hd) (<[hd:=e :: l]> M)
  | spec_add_after e x hd l1 l2 : M !! hd = Some (l1 ++ x :: l2) -> ~ listed M e ->
      list_spec M (OpAdd e x) (<[hd:=l1 ++ x :: e :: l2]> M)
  | spec_add_tail e hd l : M !! hd = Some l -> ~ listed M e -> list_spec M (OpAddTail e hd) (<[hd:=l ++ [e]]> M)
  | spec_del e hd l1 l2 : M !! hd = Some (l1 ++ e :: l2) -> list_spec M (OpDel e) (<[hd:=l1 ++ l2]> M)
  | spec_del_init e hd l1 l2 : M !! hd = Some (l1 ++ e :: l2) ->
      list_spec M (OpDelInit e) (<[e:=[]]> (<[hd:=l1 ++ l2]> M))
  | spec_move_tail e hd l1 l2 hd' l' : M !! hd = Some (l1 ++ e :: l2) -> (<[hd:=l1 ++ l2]> M) !! hd' = Some l' ->
      list_spec M (OpMoveTail e hd') (<[hd':=l' ++ [e]]> (<[hd:=l1 ++ l2]> M)).

Inductive list_specs : gmap addr (list addr) -> list list_op -> gmap addr (list addr) -> Prop :=
  | specs_nil M : list_specs M [] M
  | specs_cons M o M1 os M2 : list_spec M o M1 -> list_specs M1 os M2 -> list_specs M (o :: os) M2.

(** The nodes that an operation brings in. *)
Definition op_nodes (o : list_op) : list addr :=
  match o with OpInit p => [p] | OpAdd e _ | OpAddTail e _ | OpDel e | OpDelInit e | OpMoveTail e _ => [e] end.

Lemma list_step_refines h M o M' : models h M -> list_spec M o M' -> (forall q, q ∈ op_nodes o -> q ∈ dom h) ->
  exists h', list_exec h o = Some h' /\ models h' M' /\ dom h' = dom h.
Proof.
  intros HM Hs Hn. destruct Hs; simpl in *.
  - apply models_init; [done..|]. set_solver.
  - eapply models_add; [done..|]. set_solver.
  - eapply models_add_after; [done..|]. set_solver.
  - eapply models_add_tail; [done..|]. set_solver.
  - destruct (models_del h M hd l1 e l2) as (h' & Hd & Hm & Hdom & _); [done..|]. by exists h'.
  - destruct (models_del h M hd l1 e l2) as (h1 & Hd & Hm & Hdom & Hsame & Hfree); [done..|].
    destruct (models_init h1 (<[hd:=l1 ++ l2]> M) e) as (h' & Hi & Hm' & Hdom'); [done..|set_solver|].
    exists h'. split; [|split; [done|congruence]]. unfold list_del in Hd. unfold list_del_init.
    destruct (h !! e); [|done]. cbn in *. by rewrite Hd.
  - destruct (models_del h M hd l1 e l2) as (h1 & Hd & Hm & Hdom & Hsame & Hfree); [done..|].
    destruct (models_add_tail h1 (<[hd:=l1 ++ l2]> M) hd' l' e) as (h' & Hi & Hm' & Hdom'); [done..|set_solver|].
    exists h'. split; [|split; [done|congruence]]. unfold list_del in Hd. unfold list_move_tail.
    destruct (h !! e); [|done]. cbn in *. by rewrite Hd.
Qed.

Lemma list_run_refines os h M M' : models h M -> list_specs M os M' ->
  (forall o q, o ∈ os -> q ∈ op_nodes o -> q ∈ dom h) ->
  exists h', list_run h os = Some h' /\ models h' M'.
Proof.
  intros HM Hs. revert h HM. induction Hs as [M|M o M1 os M2 Ho _ IH]; intros h HM Hn; [by exists h|].
  destruct (list_step_refines h M o M1) as (h1 & E1 & HM1 & Hdom); [done..|by intros q; apply Hn; left|].
  destruct (IH h1) as (h2 & E2 & HM2); [done| |].
  - intros o' q Ho' Hq. rewrite Hdom. by eapply Hn; [right|].
  - exists h2. split; [|done]. simpl. by rewrite E1.
Qed.

(** ** Loops *)

(** The entries in order until the body says to stop. *)
Fixpoint fold_until {S} (body : addr -> S -> S * bool) l (s : S) : S :=
  match l with
  | [] => s
  | x :: l => let '(s, stop) := body x s in if (stop : bool) then s else fold_until body l s
  end.

Definition first_of l p : addr := default p (head l).

Lemma ring_suffix h hd l1 l2 : ring h (hd :: l1 ++ l2) -> links h (l2 ++ [hd]) /\ hd ∉ l2.
Proof.
  intros [Hnd Hl]. apply NoDup_cons in Hnd as [Hin _]. split; [|set_solver].
  destruct l2 as [|x l2]; [done|]. rewrite <- app_assoc in Hl.
  by apply (links_app h (hd :: l1) x (l2 ++ [hd])) in Hl as [_ ?].
Qed.

Lemma links_next h x l p : links h (x :: l ++ [p]) -> exists n, h !! x = Some n /\ next n = first_of l p.
Proof. destruct l as [|y l]; intros [Hl _]; destruct (linked_load _ _ _ Hl) as (n & _ & ? & ? & _); by exists n. Qed.

Lemma for_each_from {S} (body : addr -> S -> S * bool) h hd l : forall fuel s,
  links h (l ++ [hd]) -> hd ∉ l -> (length l < fuel)%nat ->
  list_for_each_from fuel body h hd (first_of l hd) s = Some (fold_until body l s).
Proof.
  induction l as [|x l IH]; intros [|fuel] s Hl Hin Hf; simpl in *; try lia.
  - by rewrite decide_True.
  - apply not_elem_of_cons in Hin as [Hx Hin]. change (first_of (x :: l) hd) with x.
    rewrite decide_False by congruence.
    destruct (links_next h x l hd Hl) as (n & Hn & Hnext). destruct (body x s) as [s' []]; [done|].
    rewrite Hn. cbn. rewrite Hnext. apply IH; [by destruct l; destruct Hl|done|lia].
Qed.

Lemma for_each_spec {S} (body : addr -> S -> S * bool) h M hd l fuel s :
  models h M -> M !! hd = Some l -> (length l < fuel)%nat ->
  list_for_each_entry fuel body h hd s = Some (fold_until body l s).
Proof.
  intros HM E Hf. pose proof (models_ring _ _ HM _ _ E) as Hr.
  destruct (ring_suffix h hd [] l Hr) as [Hl Hin]. destruct Hr as [_ Hr].
  destruct (links_next h hd l hd Hr) as (n & Hn & Hnext).
  unfold list_for_each_entry. rewrite Hn. cbn. rewrite Hnext. by apply for_each_from.
Qed.

Lemma list_empty_spec h M hd l : models h M -> M !! hd = Some l -> list_empty h hd = Some (bool_decide (l = [])).
Proof.
  intros HM E. pose proof (models_ring _ _ HM _ _ E) as [Hnd Hr].
  destruct (links_next h hd l hd Hr) as (n & Hn & Hnext). unfold list_empty. rewrite Hn. cbn. rewrite Hnext. f_equal.
  apply bool_decide_ext. destruct l as [|x l]; [done|]. split; [|done]. change (first_of (x :: l) hd) with x.
  apply NoDup_cons in Hnd as [[]%not_elem_of_cons _]. congruence.
Qed.

(** Removing and freeing each entry. *)
Definition free_entry h p : option memory := h ← list_del h p; Some (delete p h).

Definition clear_friend_list (fuel : nat) h (friends : addr) : option memory :=
  list_for_each_entry_safe fuel free_entry h friends.

Lemma models_delete h M p : models h M -> ~ listed M p -> models (delete p h) M.
Proof.
  intros HM Hp. split; [|apply HM]. intros hd l E. apply (ring_frame h); [by apply HM|].
  intros q Hq. apply lookup_delete_ne. intros <-. apply Hp. by exists hd, l.
Qed.

Lemma free_loop hd l : forall fuel h M tmp,
  models h M -> M !! hd = Some l -> (length l < fuel)%nat -> tmp = first_of (tail l) hd ->
  exists h', list_for_each_safe fuel free_entry h hd (first_of l hd) tmp = Some h'
    /\ models h' (<[hd:=[]]> M) /\ dom h' = dom h ∖ list_to_set l.
Proof.
  induction l as [|x l IH]; intros [|fuel] h M tmp HM E Hf ->; simpl in *; try lia.
  - rewrite decide_True by done. exists h. rewrite insert_id by done. set_solver.
  - pose proof (models_ring _ _ HM _ _ E) as [[Hin _]%NoDup_cons _].
    change (first_of (x :: l) hd) with x. rewrite decide_False by set_solver.
    destruct (models_del h M hd [] x l HM E) as (h1 & Hdel & HM1 & Hdom & _ & Hfree). simpl in *.
    assert (Hfe : free_entry h x = Some (delete x h1)) by (unfold free_entry; by rewrite Hdel).
    rewrite Hfe. cbn [mbind option_bind].
    apply (models_delete _ _ x) in HM1; [|done].
    assert (Hl1 : (<[hd:=l]> M) !! hd = Some l) by apply lookup_insert_eq.
    assert (exists n, delete x h1 !! first_of l hd = Some n /\ (l <> [] -> next n = first_of (tail l) hd)) as (n & Hn & Hnext).
    { pose proof (models_ring _ _ HM1 _ _ Hl1) as Hr. destruct l as [|y l]; simpl.
      - destruct Hr as [_ Hr]. destruct (links_next (delete x h1) hd [] hd Hr) as (n & Hn & _). by exists n.
      - destruct (ring_suffix _ hd [] (y :: l) Hr) as [Hl _].
        destruct (links_next (delete x h1) y l hd Hl) as (n & Hn & Hnext). by exists n. }
    rewrite Hn. cbn [mbind option_bind].
    destruct l as [|y l].
    + destruct fuel as [|fuel]; [simpl in *; lia|]. simpl. rewrite decide_True by done.
      exists (delete x h1). rewrite dom_delete_L, Hdom. split; [done|]. split; [done|]. set_solver.
    + rewrite Hnext by done.
      destruct (IH fuel (delete x h1) (<[hd:=y :: l]> M) (first_of l hd)) as (h' & Hrun & HM' & Hdom'); [done..|simpl in *; lia|done|].
      exists h'. split; [exact Hrun|]. rewrite insert_insert_eq in HM'. split; [done|].
      rewrite Hdom', dom_delete_L, Hdom. set_solver.
Qed.

(** ** Priorities *)

Section Priority.
Context (priority : addr -> Z).

Fixpoint stable_insert e l : list addr :=
  match l with
  | [] => [e]
  | x :: l' => if priority e <? priority x then e :: l else x :: stable_insert e l'
  end.

#[local] Abbreviation body e := (fun pos pre => if priority e <? priority pos then (pre, true) else (Some pos, false)).

Lemma find_place e l : forall pre,
  exists l1 l2, l = l1 ++ l2 /\ stable_insert e l = l1 ++ e :: l2
    /\ fold_until (body e) l pre = match l1 with [] => pre | _ => last l1 end.
Proof.
  induction l as [|x l IH]; intros pre; [by exists [], []|]. simpl.
  destruct (priority e <? priority x); [by exists [], (x :: l)|].
  destruct (IH (Some x)) as (l1 & l2 & -> & -> & Hf). exists (x :: l1), l2. split; [done|]. split; [done|].
  rewrite Hf. destruct l1; done.
Qed.

Lemma models_priority h M hd l e fuel : models h M -> M !! hd = Some l -> ~ listed M e -> e ∈ dom h ->
  (length l < fuel)%nat ->
  exists h', priority_list_add fuel priority h e hd = Some h'
    /\ models h' (<[hd:=stable_insert e l]> M) /\ dom h' = dom h.
Proof.
  intros HM E He Hd Hf. unfold priority_list_add. rewrite (for_each_spec _ h M hd l) by done. cbn.
  destruct (find_place e l None) as (l1 & l2 & -> & -> & ->). destruct l1 as [|y l1 _] using rev_ind.
  - by apply models_add.
  - rewrite last_snoc. replace (match l1 ++ [y] with [] => None | _ => Some y end) with (Some y) by (by destruct l1).
    rewrite <- !app_assoc in *. by apply models_add_after.
Qed.

Definition in_order l : Prop := StronglySorted (fun x y => priority x <= priority y) l.

Lemma insert_perm e l : stable_insert e l ≡ₚ e :: l.
Proof.
  induction l as [|x l IH]; simpl; [done|]. destruct (_ <? _); [done|]. by rewrite IH, Permutation_swap.
Qed.

Lemma insert_in_order e l : in_order l -> in_order (stable_insert e l).
Proof.
  induction 1 as [|x l Hl IH Hx]; simpl; [by repeat constructor|].
  destruct (Z.ltb_spec (priority e) (priority x)) as [Hlt|Hge].
  - constructor; [by constructor|]. constructor; [lia|]. eapply Forall_impl; [exact Hx|]. simpl. lia.
  - constructor; [done|]. rewrite insert_perm. by constructor.
Qed.

Lemma filter_nil_Forall (P : addr -> Prop) `{!forall x, Decision (P x)} l : Forall (fun x => ~ P x) l -> filter P l = [].
Proof. induction 1; [done|]. by rewrite filter_cons, decide_False. Qed.

Lemma insert_stable e l k : in_order l ->
  filter (fun x => priority x = k) (stable_insert e l) = filter (fun x => priority x = k) (l ++ [e]).
Proof.
  induction 1 as [|x l Hl IH Hx]; [done|]. cbn [stable_insert app].
  destruct (Z.ltb_spec (priority e) (priority x)) as [Hlt|Hge].
  - rewrite app_comm_cons, filter_app, (filter_cons _ e (x :: l)), (filter_cons _ e []).
    case_decide as He; [|by rewrite app_nil_r].
    assert (Hnone : filter (fun y => priority y = k) (x :: l) = []); [|by rewrite Hnone].
    apply filter_nil_Forall. constructor; [lia|]. eapply Forall_impl; [exact Hx|]. simpl. lia.
  - rewrite !filter_cons, IH. done.
Qed.

Fixpoint priority_adds (fuel : nat) h (es : list addr) hd : option memory :=
  match es with [] => Some h | e :: es => h ← priority_list_add fuel priority h e hd; priority_adds fuel h es hd end.

Lemma priority_adds_run es hd fuel : forall h M l, models h M -> M !! hd = Some l ->
  NoDup es -> (forall e, e ∈ es -> ~ listed M e /\ e ∈ dom h) -> (length l + length es < fuel)%nat -> in_order l ->
  exists h' l', priority_adds fuel h es hd = Some h' /\ models h' (<[hd:=l']> M)
    /\ in_order l' /\ l' ≡ₚ l ++ es
    /\ forall k, filter (fun x => priority x = k) l' = filter (fun x => priority x = k) (l ++ es).
Proof.
  induction es as [|e es IH]; intros h M l HM E Hnd Hes Hf Ho.
  - exists h, l. rewrite insert_id, app_nil_r by done. done.
  - apply NoDup_cons in Hnd as [He Hnd]. destruct (Hes e) as [Hle Hde]; [by left|].
    destruct (models_priority h M hd l e fuel) as (h1 & Hadd & HM1 & Hdom); [done..|simpl in *; lia|].
    destruct (IH h1 (<[hd:=stable_insert e l]> M) (stable_insert e l)) as (h' & l' & Hrun & HM' & Ho' & Hp & Hs).
    + done.
    + apply lookup_insert_eq.
    + done.
    + intros e' He'. destruct (Hes e') as [Hl' Hd']; [by right|]. split; [|by rewrite Hdom].
      intros (hd' & l0 & E0 & Hin). destruct (decide (hd = hd')) as [<-|Hne].
      * rewrite lookup_insert_eq in E0. injection E0 as <-. rewrite insert_perm in Hin.
        apply Hl'. exists hd, l. split; [done|]. set_solver.
      * rewrite lookup_insert_ne in E0 by done. apply Hl'. by exists hd', l0.
    + rewrite insert_perm. simpl in *. lia.
    + by apply insert_in_order.
    + exists h', l'. rewrite insert_insert_eq in HM'. split; [simpl; by rewrite Hadd|]. split; [done|]. split; [done|]. split.
      * rewrite Hp, insert_perm. by rewrite <- Permutation_middle.
      * intros k. rewrite Hs, !filter_app, insert_stable by done.
        rewrite filter_app, <- app_assoc. f_equal. by rewrite !filter_cons; case_decide.
Qed.
End Priority.

(** ** The properties *)

(** C19: The circular lists behave like sequences.  Whatever operations are made
    on the lists of a memory, with nodes that move between them, as long as a
    node is initialised or added only while it is in no list and removed or
    moved only while it is in one ([list_specs]): no operation follows a wild
    pointer, the links stand for the sequences that the same operations make,
    and a loop over a list and the test for emptiness, which is true of a list
    without entries, see exactly its sequence. *)
Theorem lists_refine_sequences os h M M'
    (Hm : models h M) (Hs : list_specs M os M')
    (Hmem : forall o q, o ∈ os -> q ∈ op_nodes o -> q ∈ dom h) :
  exists h', list_run h os = Some h' /\ models h' M' /\
    forall hd l, M' !! hd = Some l ->
      list_empty h' hd = Some (bool_decide (l = [])) /\
      forall S (body : addr -> S -> S * bool) fuel s, (length l < fuel)%nat ->
        list_for_each_entry fuel body h' hd s = Some (fold_until body l s).
Proof.
  destruct (list_run_refines os h M M') as (h' & Hr & HM'); [done..|].
  exists h'. split; [done|]. split; [done|]. intros hd l E. split; [by eapply list_empty_spec|].
  intros. by eapply for_each_spec.
Qed.

(** [list_del] does not reset what it removes: the links of an entry stay as
    they were, and a head that is removed from its entries goes on pointing to
    them and is no empty list. *)
Theorem list_del_resets_nothing h M hd l1 e l2 (Hm : models h M) (Hl : M !! hd = Some (l1 ++ e :: l2)) :
  (exists h', list_del h e = Some h' /\ h' !! e = h !! e)
  /\ exists h', list_del h hd = Some h' /\ h' !! hd = h !! hd /\ list_empty h' hd = Some false.
Proof.
  destruct (models_del h M hd l1 e l2 Hm Hl) as (h1 & E1 & _ & _ & Hs1 & _). split; [by exists h1|].
  pose proof (models_ring _ _ Hm _ _ Hl) as Hr. pose proof Hr as [[Hhd _]%NoDup_cons _].
  assert (exists c y, l1 ++ e :: l2 = c ++ [y]) as (c & y & El).
  { destruct (last_node e l2) as (x & c & Ec). exists (l1 ++ c), x. by rewrite Ec, app_assoc. }
  rewrite El in Hr, Hhd. apply ring_step in Hr. rewrite <- app_assoc in Hr. apply ring_rotate in Hr; [|done].
  destruct (remove_after h hd y c Hr) as (h2 & E2 & _ & Hs2). exists h2.
  assert (Hsame : h2 !! hd = h !! hd) by (apply Hs2; set_solver).
  split; [done|]. split; [done|]. pose proof (list_empty_spec _ _ _ _ Hm Hl) as He. unfold list_empty in *. rewrite Hsame, He.
  by rewrite bool_decide_eq_false_2 by (by destruct l1).
Qed.

(** [list_empty] is true of a list without entries and false of one with
    entries, the opposite of what its comment says it returns. *)
Theorem list_empty_inverted h M hd l (Hm : models h M) (Hl : M !! hd = Some l) :
  list_empty h hd = Some true <-> l = [].
Proof.
  rewrite (list_empty_spec _ _ _ _ Hm Hl). split; [intros [= H]; by apply bool_decide_eq_true in H|by intros ->].
Qed.

(** The list of friends is cleared by a safe loop that removes and frees each
    entry: afterwards the head is an empty list, the entries are no longer in
    memory, and every other list is as it was. *)
Theorem clear_friend_list_frees_all h M hd l fuel
    (Hm : models h M) (Hl : M !! hd = Some l) (Hfuel : (length l < fuel)%nat) :
  exists h', clear_friend_list fuel h hd = Some h'
    /\ models h' (<[hd:=[]]> M) /\ dom h' = dom h ∖ list_to_set l.
Proof.
  pose proof (models_ring _ _ Hm _ _ Hl) as Hr. destruct (ring_suffix h hd [] l Hr) as [Hlinks _].
  destruct Hr as [_ Hr]. destruct (links_next h hd l hd Hr) as (n & Hn & Hnext).
  unfold clear_friend_list, list_for_each_entry_safe. rewrite Hn. cbn. rewrite Hnext.
  destruct l as [|x l].
  - change (first_of [] hd) with hd. rewrite Hn. cbn. destruct fuel; [simpl in *; lia|]. simpl. rewrite decide_True by done.
    exists h. rewrite insert_id by done. set_solver.
  - destruct (links_next h x l hd Hlinks) as (m & Hm' & Hmext). change (first_of (x :: l) hd) with x.
    rewrite Hm'. cbn. by apply (free_loop hd (x :: l) fuel h M).
Qed.

(** A priority list is sorted, and stable.  Entries added one after the other
    to an empty list are then listed by increasing priority, those of one
    priority in the order in which they came. *)
Theorem priority_list_stable_sort priority fuel h M hd es
    (Hm : models h M) (Hempty : M !! hd = Some []) (Hnodup : NoDup es)
    (Hfree : forall e, e ∈ es -> ~ listed M e /\ e ∈ dom h) (Hfuel : (length es < fuel)%nat) :
  exists h' l, priority_adds priority fuel h es hd = Some h' /\ models h' (<[hd:=l]> M)
    /\ StronglySorted (fun x y => priority x <= priority y) l /\ l ≡ₚ es
    /\ forall k, filter (fun x => priority x = k) l = filter (fun x => priority x = k) es.
Proof. apply (priority_adds_run priority es hd fuel h M []); try done. constructor. Qed.

Definition demo_memory : memory := list_to_map ((fun p => (p, ListHead p p)) <$> [1; 2; 3; 4; 5]%positive).

Lemma demo_models : models demo_memory {[ 1%positive := [] ]}.
Proof.
  split.
  - intros hd l [<- <-]%lookup_singleton_Some. split; [apply NoDup_singleton|by vm_compute].
  - intros hd hd' l l' q [<- <-]%lookup_singleton_Some [<- <-]%lookup_singleton_Some. done.
Qed.

Lemma demo_free M q : map_Forall (fun hd l => q ∉ hd :: l) M -> ~ listed M q.
Proof. intros HM (hd & l & E & Hq). by apply (HM hd l E). Qed.

Lemma lists_refine_sequences_witness : exists h',
  list_run demo_memory [OpInit 2; OpAddTail 3 1; OpAdd 4 1; OpMoveTail 3 2; OpDel 4]%positive = Some h'
  /\ list_for_each_entry 5 (fun p s => (s ++ [p], false)) h' 2%positive [] = Some [3%positive].
Proof.
  edestruct (lists_refine_sequences [OpInit 2; OpAddTail 3 1; OpAdd 4 1; OpMoveTail 3 2; OpDel 4]%positive
    demo_memory {[ 1%positive := [] ]} {[ 1%positive := []; 2%positive := [3%positive] ]}) as (h' & Hr & _ & Hloop).
  - apply demo_models.
  - eapply specs_cons; [apply spec_init, demo_free; by apply (bool_decide_unpack _); vm_compute|].
    eapply specs_cons; [eapply spec_add_tail; [reflexivity|apply demo_free; by apply (bool_decide_unpack _); vm_compute]|].
    eapply specs_cons; [eapply spec_add; [reflexivity|apply demo_free; by apply (bool_decide_unpack _); vm_compute]|].
    eapply specs_cons; [apply (spec_move_tail _ 3%positive 1%positive [4%positive] [] 2%positive []); reflexivity|].
    eapply specs_cons; [apply (spec_del _ 4%positive 1%positive [] []); reflexivity|].
    match goal with |- list_specs ?a [] ?b => replace a with b; [constructor|by apply (bool_decide_unpack _); vm_compute] end.
  - intros o q Ho Hq. repeat (apply elem_of_cons in Ho as [->|Ho]; [apply list_elem_of_singleton in Hq; subst; by apply elem_of_dom|]).
    by apply not_elem_of_nil in Ho.
  - exists h'. split; [exact Hr|]. destruct (Hloop 2%positive [3%positive] eq_refl) as [_ Hl]. apply Hl. simpl. lia.
Defined.

Lemma clear_friend_list_frees_all_witness : exists h',
  clear_friend_list 1 demo_memory 1%positive = Some h' /\ dom h' = dom demo_memory.
Proof.
  destruct (clear_friend_list_frees_all demo_memory {[ 1%positive := [] ]} 1%positive [] 1) as (h' & Hr & _ & Hd);
    [apply demo_models|reflexivity|simpl; lia|].
  exists h'. split; [exact Hr|]. rewrite Hd. set_solver.
Defined.

Lemma priority_list_stable_sort_witness :
  exists h' l, priority_adds (fun p => if decide (p = 4%positive) then 0 else 7) 5 demo_memory [2; 3; 4]%positive 1%positive = Some h'
    /\ l ≡ₚ [2; 3; 4]%positive /\ list_for_each_entry 5 (fun p s => (s ++ [p], false)) h' 1%positive [] = Some [4; 2; 3]%positive.
Proof.
  destruct (priority_list_stable_sort (fun p => if decide (p = 4%positive) then 0 else 7) 5 demo_memory {[ 1%positive := [] ]}
    1%positive [2; 3; 4]%positive) as (h' & l & Hr & _ & _ & Hp & _); [apply demo_models|reflexivity| | |simpl; lia|].
  - by apply (bool_decide_unpack _).
  - intros e He. repeat (apply elem_of_cons in He as [->|He];
      [split; [apply demo_free; by apply (bool_decide_unpack _); vm_compute|by apply elem_of_dom]|]). by apply not_elem_of_nil in He.
  - exists h', l. split; [exact Hr|]. split; [done|].
    assert (Some h' = priority_adds (fun p => if decide (p = 4%positive) then 0 else 7) 5 demo_memory [2; 3; 4]%positive 1%positive)
      as E by (by rewrite Hr). vm_compute in E. injection E as ->. reflexivity.
Defined.
