(* ===== verification/Containers.v ===== *)
(** * Stacks and queues over the doubly linked list
    (src/stack.c, src/queue.c)

    A container is the list it owns together with the heap of its nodes;
    containers never share a node.  The clients see them through the
    interfaces [StackOps] and [QueueOps], whose laws speak of the sequence of
    elements only; the instances discharge the laws from [DListOps]. *)

From S2P Require Import Prelude DList DListOps DListSort.

Record cell_list (A : Type) := CellList { cl_heap : heap A; cl_list : option dlist }.
Arguments CellList {A} _ _.
Arguments cl_heap {A} _.
Arguments cl_list {A} _.

Definition empty_heap {A : Type} : heap A := Heap empty 1%positive (fun _ => false).

(** ** The operations *)

Section operations.
Context {A : Type}.
Implicit Types (s q : cell_list A) (x : A).

(** [*_create] returns NULL when the allocation of the container
    ([obj_ok]) or of its list ([list_ok]) fails. *)
Definition stack_create (obj_ok list_ok : bool) (mode : free_mode) : option (cell_list A) :=
  if obj_ok then
    match dlist_create list_ok mode with
    | None => None
    | Some l => Some (CellList empty_heap (Some l))
    end
  else None.

Definition stack_destroy s : option (heap A * list A) :=
  dlist_destroy (cl_heap s) (cl_list s).

Definition stack_push s x : option (cell_list A * Z) :=
  '(h, l, r) ← dlist_prepend (cl_heap s) (cl_list s) x; Some (CellList h l, r).

Definition stack_pop s : option (cell_list A * Z * option A) :=
  '(h, l, r, d) ← dlist_pop_front (cl_heap s) (cl_list s); Some (CellList h l, r, d).

Definition stack_peek s : option (option A) :=
  let node := dlist_head (cl_list s) in
  match node with None => Some None | Some _ => dlist_data (cl_heap s) node end.

Definition stack_size s : Z := dlist_size (cl_list s).

Definition stack_is_empty (s : option (cell_list A)) : bool :=
  match s with
  | None => true
  | Some s =>
      match cl_list s with
      | None => true
      | Some _ => bool_decide (dlist_size (cl_list s) = 0)
      end
  end.

(** The array filled by [stack_peek_all], in index order. *)
Definition stack_peek_all s : option (list A) :=
  l ← cl_list s; dlist_for_each (cl_heap s) l (fun array _ x => array ++ [x]) [].

Definition queue_create (obj_ok list_ok : bool) (mode : free_mode) : option (cell_list A) :=
  if obj_ok then
    match dlist_create list_ok mode with
    | None => None
    | Some l => Some (CellList empty_heap (Some l))
    end
  else None.

Definition queue_destroy q : option (heap A * list A) :=
  dlist_destroy (cl_heap q) (cl_list q).

Definition queue_enqueue q x : option (cell_list A * Z) :=
  '(h, l, r) ← dlist_append (cl_heap q) (cl_list q) x; Some (CellList h l, r).

Definition queue_dequeue q : option (cell_list A * Z * option A) :=
  '(h, l, r, d) ← dlist_pop_front (cl_heap q) (cl_list q); Some (CellList h l, r, d).

Definition queue_peek q : option (option A) :=
  let head := dlist_head (cl_list q) in
  match head with None => Some None | Some _ => dlist_data (cl_heap q) head end.

Definition queue_size q : Z := dlist_size (cl_list q).

Definition queue_is_empty (q : option (cell_list A)) : option bool :=
  match q with
  | None => Some false
  | Some q =>
      match cl_list q with
      | None => Some false
      | Some _ => dlist_empty (cl_list q)
      end
  end.
End operations.

(** ** The contents of a container *)

Section contents.
Context {A : Type}.
Implicit Types (c : cell_list A) (x : A) (xs : list A).

(** The container owns a well-formed list with the elements [xs], and its
    node allocations succeed. *)
Definition holds c xs : Prop :=
  exists l ns, cl_list c = Some l /\ heap_wf (cl_heap c)
    /\ (forall p, oom (cl_heap c) p = false) /\ rep (cl_heap c) l ns /\ ns.*2 = xs.

Lemma holds_empty mode : holds (CellList empty_heap (Some (DList 0 mode None None))) [].
Proof.
  exists (DList 0 mode None None), []. split_and!; [done| |done|apply create_empty|done].
  intros p n Hp. simpl in Hp. by rewrite lookup_empty in Hp.
Qed.

Lemma holds_size c xs : holds c xs -> dlist_size (cl_list c) = i32 (Z.of_nat (length xs)).
Proof.
  intros (l & ns & -> & _ & _ & Hr & <-). simpl. by rewrite (rep_size _ _ _ Hr), length_fmap.
Qed.

Lemma holds_append c xs x :
  holds c xs -> exists h l, dlist_append (cl_heap c) (cl_list c) x
      = Some (h, l, i32 (Z.of_nat (length xs) + 1)) /\ holds (CellList h l) (xs ++ [x]).
Proof.
  intros (l & ns & -> & Hwf & Hoom & Hr & <-).
  destruct (append_spec _ _ _ x Hwf (Hoom _) Hr) as (h' & l' & E & R & K).
  exists h', (Some l'). rewrite length_fmap. split; [done|].
  exists l', (ns ++ [(fresh (cl_heap c), x)]). split_and!; [done|apply K| |done|].
  - intros p. simpl. by rewrite (keeps_oom _ _ _ _ _ K).
  - by rewrite fmap_app.
Qed.

Lemma holds_prepend c xs x :
  holds c xs -> exists h l, dlist_prepend (cl_heap c) (cl_list c) x
      = Some (h, l, i32 (Z.of_nat (length xs) + 1)) /\ holds (CellList h l) (x :: xs).
Proof.
  intros (l & ns & -> & Hwf & Hoom & Hr & <-).
  destruct (prepend_spec _ _ _ x Hwf (Hoom _) Hr) as (h' & l' & E & R & K).
  exists h', (Some l'). rewrite length_fmap. split; [done|].
  exists l', ((fresh (cl_heap c), x) :: ns). split_and!; [done|apply K| |done|done].
  intros p. simpl. by rewrite (keeps_oom _ _ _ _ _ K).
Qed.

Lemma holds_pop_front c xs x :
  holds c (x :: xs) -> exists h l, dlist_pop_front (cl_heap c) (cl_list c)
      = Some (h, l, i32 (Z.of_nat (length xs)), Some x) /\ holds (CellList h l) xs.
Proof.
  intros (l & ns & -> & Hwf & Hoom & Hr & Hns). destruct ns as [|[p y] ns]; [done|].
  injection Hns as Hy <-. simpl in Hy. subst y.
  destruct (pop_front_spec _ _ _ _ _ Hwf Hr) as (h' & l' & E & R & K & _).
  exists h', (Some l'). rewrite length_fmap. split; [done|].
  exists l', ns. split_and!; [done|apply K| |done|done].
  intros q. simpl. by rewrite (keeps_oom _ _ _ _ _ K).
Qed.

Lemma holds_pop_nil c :
  holds c [] -> exists h l, dlist_pop_front (cl_heap c) (cl_list c) = Some (h, l, 0, None)
    /\ holds (CellList h l) [].
Proof.
  intros (l & ns & E & Hwf & Hoom & Hr & Hns). destruct ns; [|done].
  destruct (rep_empty_head _ _ Hr) as (Hh & Ht & Hs). rewrite E.
  unfold dlist_pop_front. rewrite Hh, Ht, Hs, decide_True by done.
  eexists _, _. split; [done|]. exists l, []. split_and!; done.
Qed.

Lemma holds_head c xs :
  holds c xs -> (match dlist_head (cl_list c) with
                 | None => Some None
                 | Some _ => dlist_data (cl_heap c) (dlist_head (cl_list c))
                 end) = Some (head xs).
Proof.
  intros (l & ns & -> & _ & _ & [_ Hs Hh _ _] & <-). simpl. rewrite Hh.
  destruct ns as [|[p y] ns]; [done|]. destruct Hs as [Hp _].
  simpl. unfold load. by rewrite Hp.
Qed.

Lemma holds_fold {S : Type} c xs (body : S -> A -> S) s :
  holds c xs -> (l ← cl_list c; dlist_for_each (cl_heap c) l (fun s _ x => body s x) s)
    = Some (foldl body s xs).
Proof.
  intros (l & ns & -> & _ & _ & Hr & <-). simpl. rewrite (for_each_rep _ _ _ _ _ Hr).
  f_equal. clear Hr. revert s. induction ns as [|n ns IH]; intros s; [done|]. apply IH.
Qed.

Lemma foldl_snoc_id xs acc : foldl (fun (a : list A) x => a ++ [x]) acc xs = acc ++ xs.
Proof.
  revert acc. induction xs as [|x xs IH]; intros acc; simpl; [by rewrite app_nil_r|].
  rewrite IH. by rewrite <- app_assoc.
Qed.

(** The length of what a container holds is an [int]. *)
Definition short xs : Prop := Z.of_nat (length xs) < 2 ^ 31.

Lemma short_size xs : short xs -> i32 (Z.of_nat (length xs)) = Z.of_nat (length xs).
Proof. intros H. unfold short in H. apply i32_small. unfold in_i32. lia. Qed.

Lemma holds_empty_test c xs :
  holds c xs -> short xs -> dlist_empty (cl_list c) = Some (bool_decide (xs = [])).
Proof.
  intros (l & ns & -> & _ & _ & Hr & <-) Hs. unfold short in Hs. rewrite length_fmap in Hs.
  rewrite (empty_spec _ _ _ Hr Hs). f_equal. by destruct ns as [|[]].
Qed.
End contents.

(** ** The interfaces *)

(** What a stack promises: last in, first out. *)
Class StackOps (S A : Type) := {
  st_create : free_mode -> S;
  st_push : S -> A -> option S;
  st_pop : S -> option (S * option A);
  st_peek : S -> option (option A);
  st_is_empty : S -> bool;
  st_peek_all : S -> option (list A);
  st_holds : S -> list A -> Prop;
  st_create_ok mode : st_holds (st_create mode) [];
  st_push_ok s xs x : st_holds s xs -> exists s', st_push s x = Some s' /\ st_holds s' (x :: xs);
  st_pop_ok s x xs : st_holds s (x :: xs) ->
    exists s', st_pop s = Some (s', Some x) /\ st_holds s' xs;
  st_pop_nil s : st_holds s [] -> exists s', st_pop s = Some (s', None) /\ st_holds s' [];
  st_peek_ok s xs : st_holds s xs -> st_peek s = Some (head xs);
  st_is_empty_ok s xs : st_holds s xs -> short xs -> st_is_empty s = bool_decide (xs = []);
  st_peek_all_ok s xs : st_holds s xs -> st_peek_all s = Some xs;
}.

(** What a queue promises: first in, first out. *)
Class QueueOps (Q A : Type) := {
  qu_create : free_mode -> Q;
  qu_enqueue : Q -> A -> option Q;
  qu_dequeue : Q -> option (Q * option A);
  qu_is_empty : Q -> option bool;
  qu_holds : Q -> list A -> Prop;
  qu_create_ok mode : qu_holds (qu_create mode) [];
  qu_enqueue_ok q xs x : qu_holds q xs ->
    exists q', qu_enqueue q x = Some q' /\ qu_holds q' (xs ++ [x]);
  qu_dequeue_ok q x xs : qu_holds q (x :: xs) ->
    exists q', qu_dequeue q = Some (q', Some x) /\ qu_holds q' xs;
  qu_is_empty_ok q xs : qu_holds q xs -> short xs -> qu_is_empty q = Some (bool_decide (xs = []));
}.

(** [stack_create] and [queue_create] when the pool has memory. *)
Definition new_list {A : Type} (mode : free_mode) : cell_list A :=
  CellList empty_heap (dlist_create true mode).

#[export] Program Instance dlist_stack (A : Type) : StackOps (cell_list A) A := {|
  st_create := new_list;
  st_push s x := option_map fst (stack_push s x);
  st_pop s := option_map (fun r => (r.1.1, r.2)) (stack_pop s);
  st_peek := stack_peek;
  st_is_empty s := stack_is_empty (Some s);
  st_peek_all := stack_peek_all;
  st_holds := holds;
|}.
Next Obligation. intros A mode. apply holds_empty. Qed.
Next Obligation.
  intros A s xs x Hs. destruct (holds_prepend s xs x Hs) as (h & l & E & H).
  exists (CellList h l). unfold stack_push. by rewrite E.
Qed.
Next Obligation.
  intros A s x xs Hs. destruct (holds_pop_front s xs x Hs) as (h & l & E & H).
  exists (CellList h l). unfold stack_pop. by rewrite E.
Qed.
Next Obligation.
  intros A s Hs. destruct (holds_pop_nil s Hs) as (h & l & E & H).
  exists (CellList h l). unfold stack_pop. by rewrite E.
Qed.
Next Obligation. intros A s xs Hs. apply (holds_head _ _ Hs). Qed.
Next Obligation.
  intros A s xs Hs Hf. unfold stack_is_empty. rewrite (holds_size _ _ Hs), (short_size _ Hf).
  destruct Hs as (l & ns & -> & _). apply bool_decide_ext.
  destruct xs; simpl; [done|]. split; [lia|done].
Qed.
Next Obligation.
  intros A s xs Hs. unfold stack_peek_all.
  by rewrite (holds_fold s xs (fun a x => a ++ [x]) [] Hs), foldl_snoc_id.
Qed.

#[export] Program Instance dlist_queue (A : Type) : QueueOps (cell_list A) A := {|
  qu_create := new_list;
  qu_enqueue q x := option_map fst (queue_enqueue q x);
  qu_dequeue q := option_map (fun r => (r.1.1, r.2)) (queue_dequeue q);
  qu_is_empty q := queue_is_empty (Some q);
  qu_holds := holds;
|}.
Next Obligation. intros A mode. apply holds_empty. Qed.
Next Obligation.
  intros A s xs x Hs. destruct (holds_append s xs x Hs) as (h & l & E & H).
  exists (CellList h l). unfold queue_enqueue. by rewrite E.
Qed.
Next Obligation.
  intros A s x xs Hs. destruct (holds_pop_front s xs x Hs) as (h & l & E & H).
  exists (CellList h l). unfold queue_dequeue. by rewrite E.
Qed.
Next Obligation.
  intros A q xs Hs Hf. unfold queue_is_empty. rewrite (holds_empty_test _ _ Hs Hf).
  by destruct Hs as (l & ns & -> & _).
Qed.

(** ** Refinement of a mathematical sequence

    Every sequence of list operations started on a fresh list returns what the
    same operations return on a sequence.  A node is named by its place: the
    pointer is found by walking from the head (or, backwards, from the tail),
    and is NULL when the walk leaves the list. *)

Section sequence.
Context {A : Type}.
Implicit Types (c : cell_list A) (x : A) (xs : list A) (h : heap A) (ns : list (loc * A)).

(** The pointer after [i] calls of [dlist_next], or of [dlist_prev]. *)
Fixpoint walk_next (i : nat) (h : heap A) (elem : option loc) : option (option loc) :=
  match i with O => Some elem | S i => elem ← dlist_next h elem; walk_next i h elem end.
Fixpoint walk_prev (i : nat) (h : heap A) (elem : option loc) : option (option loc) :=
  match i with O => Some elem | S i => elem ← dlist_prev h elem; walk_prev i h elem end.

Definition nth_node c (i : nat) : option (option loc) := walk_next i (cl_heap c) (dlist_head (cl_list c)).
Definition nth_last_node c (i : nat) : option (option loc) := walk_prev i (cl_heap c) (dlist_tail (cl_list c)).

Inductive list_op :=
  | Append (x : A) | Prepend (x : A) | PopFront | PopBack
  | InsNext (i : nat) (x : A) | InsPrev (i : nat) (x : A) | RemoveAt (i : nat) (need_free : bool)
  | Size | IsEmpty | DataAt (i : nat) | DataBack (i : nat) | IsHead (i : nat) | IsTail (i : nat) | ForEach.

(** What an operation returns, and the elements that it delivers. *)
Definition abs_step xs (op : list_op) : list A * (Z * list A) :=
  let n := Z.of_nat (length xs) in
  match op with
  | Append x => (xs ++ [x], (n + 1, []))
  | Prepend x => (x :: xs, (n + 1, []))
  | PopFront => match xs with [] => ([], (0, [])) | x :: xs => (xs, (n - 1, [x])) end
  | PopBack => match reverse xs with [] => ([], (0, [])) | x :: rs => (reverse rs, (n - 1, [x])) end
  | InsNext i x => if decide (i < length xs)%nat then (take (S i) xs ++ x :: drop (S i) xs, (n + 1, [])) else (xs, (-1, []))
  | InsPrev i x => if decide (i < length xs)%nat then (take i xs ++ x :: drop i xs, (n + 1, [])) else (xs, (-1, []))
  | RemoveAt i _ => match xs !! i with Some x => (delete i xs, (n - 1, [x])) | None => (xs, (-1, [])) end
  | Size => (xs, (n, []))
  | IsEmpty => (xs, (Z.b2z (bool_decide (xs = [])), []))
  | DataAt i => (xs, (0, option_list (xs !! i)))
  | DataBack i => (xs, (0, option_list (reverse xs !! i)))
  | IsHead i => (xs, (Z.b2z (bool_decide (i = O /\ xs <> [])), []))
  | IsTail i => (xs, (Z.b2z (bool_decide (S i = length xs)), []))
  | ForEach => (xs, (0, xs))
  end.

Definition dlist_step c (op : list_op) : option (cell_list A * (Z * list A)) :=
  let h := cl_heap c in
  let l := cl_list c in
  match op with
  | Append x => '(h, l, r) ← dlist_append h l x; Some (CellList h l, (r, []))
  | Prepend x => '(h, l, r) ← dlist_prepend h l x; Some (CellList h l, (r, []))
  | PopFront => '(h, l, r, d) ← dlist_pop_front h l; Some (CellList h l, (r, option_list d))
  | PopBack => '(h, l, r, d) ← dlist_pop_back h l; Some (CellList h l, (r, option_list d))
  | InsNext i x => elem ← nth_node c i; '(h, l, r) ← dlist_ins_next h l elem x; Some (CellList h l, (r, []))
  | InsPrev i x => elem ← nth_node c i; '(h, l, r) ← dlist_ins_prev h l elem x; Some (CellList h l, (r, []))
  | RemoveAt i need_free =>
      elem ← nth_node c i; '(h, l, r, d) ← dlist_remove h l elem need_free; Some (CellList h l, (r, option_list d))
  | Size => Some (c, (dlist_size l, []))
  | IsEmpty => e ← dlist_empty l; Some (c, (Z.b2z e, []))
  | DataAt i => elem ← nth_node c i; d ← dlist_data h elem; Some (c, (0, option_list d))
  | DataBack i => elem ← nth_last_node c i; d ← dlist_data h elem; Some (c, (0, option_list d))
  | IsHead i => elem ← nth_node c i; b ← dlist_is_head h elem; Some (c, (Z.b2z b, []))
  | IsTail i => elem ← nth_node c i; b ← dlist_is_tail h elem; Some (c, (Z.b2z b, []))
  | ForEach => l ← l; xs ← dlist_for_each h l (fun xs _ x => xs ++ [x]) []; Some (c, (0, xs))
  end.

Fixpoint abs_run xs (ops : list list_op) : list A * list (Z * list A) :=
  match ops with
  | [] => (xs, [])
  | op :: ops =>
      let '(xs, out) := abs_step xs op in
      let '(xs, outs) := abs_run xs ops in (xs, out :: outs)
  end.

Fixpoint dlist_run c (ops : list list_op) : option (cell_list A * list (Z * list A)) :=
  match ops with
  | [] => Some (c, [])
  | op :: ops =>
      '(c, out) ← dlist_step c op;
      '(c, outs) ← dlist_run c ops; Some (c, out :: outs)
  end.

(** *** Walking *)

Lemma walk_next_null h i : walk_next i h None = Some None.
Proof. induction i as [|i IH]; [done|]. exact IH. Qed.

Lemma walk_prev_null h i : walk_prev i h None = Some None.
Proof. induction i as [|i IH]; [done|]. exact IH. Qed.

Lemma walk_next_seg h ns : forall pv i, seg (cells h) pv ns None ->
  walk_next i h (fst_loc ns None) = Some (fst <$> ns !! i).
Proof.
  induction ns as [|[p x] ns IH]; intros pv i Hs; [by rewrite walk_next_null|].
  destruct i as [|i]; [done|]. destruct Hs as [Hp Hs]. cbn [walk_next fst_loc dlist_next]. unfold load. rewrite Hp.
  cbn [mbind option_bind node_next]. by eapply IH.
Qed.

Lemma walk_prev_seg h ns : forall i, seg (cells h) None ns None ->
  walk_prev i h (last_loc ns None) = Some (fst <$> reverse ns !! i).
Proof.
  intros i. generalize (@None loc) at 2 as nx. revert i.
  induction ns as [|[p x] ns IH] using rev_ind; intros i nx Hs; [by rewrite walk_prev_null|].
  rewrite last_loc_app, reverse_snoc. destruct i as [|i]; [done|].
  apply seg_app in Hs as [Hs [Hp _]]. cbn [walk_prev last_loc dlist_prev]. unfold load. rewrite Hp.
  cbn [mbind option_bind node_prev]. by eapply IH.
Qed.

Lemma nth_node_spec h l ns i : rep h l ns -> nth_node (CellList h (Some l)) i = Some (fst <$> ns !! i).
Proof. intros [_ Hs Hh _ _]. unfold nth_node. cbn [dlist_head cl_list cl_heap]. rewrite Hh. by eapply walk_next_seg. Qed.

Lemma nth_last_node_spec h l ns i : rep h l ns -> nth_last_node (CellList h (Some l)) i = Some (fst <$> reverse ns !! i).
Proof. intros [_ Hs _ Ht _]. unfold nth_last_node. cbn [dlist_tail cl_list cl_heap]. rewrite Ht. by eapply walk_prev_seg. Qed.

(** The cell of the node at a place. *)
Lemma nth_cell h l ns i p x : rep h l ns -> ns !! i = Some (p, x) ->
  load h p = Some (DNode x (last_loc (take i ns) None) (fst_loc (drop (S i) ns) None)).
Proof.
  intros [_ Hs _ _ _] Hi. rewrite <- (take_drop_middle ns i _ Hi) in Hs. apply seg_app in Hs as [_ [Hp _]]. exact Hp.
Qed.

Lemma data_spec h l ns (o : option (loc * A)) : rep h l ns -> (forall n, o = Some n -> n ∈ ns) ->
  dlist_data h (fst <$> o) = Some (snd <$> o).
Proof.
  intros Hr Hin. destruct o as [[p x]|]; [|done].
  specialize (Hin _ eq_refl). apply list_elem_of_lookup in Hin as [i Hi].
  cbn [fmap option_fmap option_map fst dlist_data]. by rewrite (nth_cell _ _ _ _ _ _ Hr Hi).
Qed.

(** *** One operation *)

Lemma holds_pop_back (c : cell_list A) xs x :
  holds c (xs ++ [x]) -> exists h l, dlist_pop_back (cl_heap c) (cl_list c)
      = Some (h, l, i32 (Z.of_nat (length xs)), Some x) /\ holds (CellList h l) xs.
Proof.
  intros (l & ns & -> & Hwf & Hoom & Hr & Hns).
  destruct (chain_snoc ns) as [->|(ns' & p & y & ->)]; [by destruct xs|].
  rewrite fmap_app in Hns. apply app_inj_2 in Hns as [<- Hy]; [|done].
  injection Hy as Hy. simpl in Hy. subst y.
  destruct (pop_back_spec _ _ _ _ _ Hwf Hr) as (h' & l' & E & R & K & _).
  exists h', (Some l'). rewrite length_fmap. split; [done|].
  exists l', ns'. split_and!; [done|apply K| |done|done].
  intros q. simpl. by rewrite (keeps_oom _ _ _ _ _ K).
Qed.

Lemma holds_pop_back_nil (c : cell_list A) :
  holds c [] -> exists h l, dlist_pop_back (cl_heap c) (cl_list c) = Some (h, l, 0, None)
    /\ holds (CellList h l) [].
Proof.
  intros (l & ns & E & Hwf & Hoom & Hr & Hns). destruct ns; [|done].
  destruct (rep_empty_head _ _ Hr) as (Hh & Ht & Hs). rewrite E.
  unfold dlist_pop_back. rewrite Hh, Ht, Hs, decide_True by done.
  eexists _, _. split; [done|]. exists l, []. split_and!; done.
Qed.

Lemma holds_of S h0 l0 h l ns : (forall p, oom h0 p = false) -> rep h l ns -> keeps S h0 l0 h l -> holds (CellList h (Some l)) ns.*2.
Proof.
  intros Ho Hr Hk. exists l, ns. split_and!; [done|apply Hk| |done|done].
  intros q. simpl. by rewrite (keeps_oom _ _ _ _ _ Hk).
Qed.

(** What is known of a list whose node at a place is looked for. *)
Lemma holds_at c xs i : holds c xs -> exists h l ns, c = CellList h (Some l) /\ heap_wf h /\ (forall p, oom h p = false) /\ rep h l ns
  /\ ns.*2 = xs /\ nth_node c i = Some (fst <$> ns !! i)
  /\ match ns !! i with
     | Some (e, y) => xs !! i = Some y /\ (i < length xs)%nat /\ rep h l (take i ns ++ (e, y) :: drop (S i) ns)
     | None => xs !! i = None /\ ~ (i < length xs)%nat
     end.
Proof.
  intros (l & ns & El & Hwf & Ho & Hr & <-). destruct c as [h o]. cbn [cl_list cl_heap] in *. subst o.
  exists h, l, ns. split_and!; [done|done|done|done|done|by apply nth_node_spec|].
  destruct (ns !! i) as [[e y]|] eqn:E.
  - rewrite list_lookup_fmap, E, length_fmap. split_and!; [done|by eapply lookup_lt_Some|by rewrite take_drop_middle].
  - rewrite list_lookup_fmap, E, length_fmap. split; [done|]. apply lookup_ge_None in E. lia.
Qed.

Lemma middle_snd ns i e (y : A) (zs : list (loc * A)) : (take i ns ++ (e, y) :: zs).*2 = take i ns.*2 ++ y :: zs.*2.
Proof. by rewrite fmap_app, fmap_cons, fmap_take. Qed.

Lemma int_small n : 0 <= n < 2 ^ 31 -> i32 n = n.
Proof. intros Hn. apply i32_small. unfold in_i32. lia. Qed.

Lemma ins_next_refines c xs i x : holds c xs -> Z.of_nat (S (length xs)) < 2 ^ 31 ->
  exists c', dlist_step c (InsNext i x) = Some (c', (abs_step xs (InsNext i x)).2) /\ holds c' (abs_step xs (InsNext i x)).1.
Proof.
  intros Hc Hs. destruct (holds_at c xs i Hc) as (h & l & ns & -> & Hwf & Ho & Hr & Hns & En & Hi).
  cbn [dlist_step abs_step cl_heap cl_list]. rewrite En. cbn [mbind option_bind].
  destruct (ns !! i) as [[e y]|]; [|destruct Hi as [_ Hi]; rewrite decide_False by done; by eexists].
  destruct Hi as (Hy & Hlt & Hr'). rewrite decide_True by done. cbn [fmap option_fmap option_map fst].
  destruct (ins_next_spec h l _ e y _ x Hwf (Ho _) Hr') as (h' & l' & -> & R & K). cbn [mbind option_bind fst snd].
  pose proof (holds_of _ _ _ _ _ _ Ho R K) as Hh. rewrite middle_snd, fmap_cons, fmap_drop, Hns in Hh.
  rewrite (take_S_r _ _ _ Hy), <- app_assoc. eexists. split; [|exact Hh]. do 3 f_equal.
  rewrite (rep_size _ _ _ R), <- (length_fmap snd), middle_snd, fmap_cons, fmap_drop, Hns, length_app. cbn [length].
  rewrite length_take, length_drop, int_small; lia.
Qed.

Lemma ins_prev_refines c xs i x : holds c xs -> Z.of_nat (S (length xs)) < 2 ^ 31 ->
  exists c', dlist_step c (InsPrev i x) = Some (c', (abs_step xs (InsPrev i x)).2) /\ holds c' (abs_step xs (InsPrev i x)).1.
Proof.
  intros Hc Hs. destruct (holds_at c xs i Hc) as (h & l & ns & -> & Hwf & Ho & Hr & Hns & En & Hi).
  cbn [dlist_step abs_step cl_heap cl_list]. rewrite En. cbn [mbind option_bind].
  destruct (ns !! i) as [[e y]|]; [|destruct Hi as [_ Hi]; rewrite decide_False by done; by eexists].
  destruct Hi as (Hy & Hlt & Hr'). rewrite decide_True by done. cbn [fmap option_fmap option_map fst].
  destruct (ins_prev_spec h l _ e y _ x Hwf (Ho _) Hr') as (h' & l' & -> & R & K). cbn [mbind option_bind fst snd].
  pose proof (holds_of _ _ _ _ _ _ Ho R K) as Hh. rewrite middle_snd, fmap_cons, fmap_drop, Hns in Hh. cbn [snd] in Hh.
  rewrite (drop_S _ _ _ Hy). eexists. split; [|exact Hh]. do 3 f_equal.
  rewrite (rep_size _ _ _ R), <- (length_fmap snd), middle_snd, fmap_cons, fmap_drop, Hns, length_app. cbn [length].
  rewrite length_take, length_drop, int_small; lia.
Qed.

Lemma remove_refines c xs i need_free : holds c xs -> Z.of_nat (S (length xs)) < 2 ^ 31 ->
  exists c', dlist_step c (RemoveAt i need_free) = Some (c', (abs_step xs (RemoveAt i need_free)).2)
    /\ holds c' (abs_step xs (RemoveAt i need_free)).1.
Proof.
  intros Hc Hs. destruct (holds_at c xs i Hc) as (h & l & ns & -> & Hwf & Ho & Hr & Hns & En & Hi).
  cbn [dlist_step abs_step cl_heap cl_list]. rewrite En. cbn [mbind option_bind].
  destruct (ns !! i) as [[e y]|]; [|destruct Hi as [Hx _]; rewrite Hx; by eexists].
  destruct Hi as (Hy & Hlt & Hr'). rewrite Hy. cbn [fmap option_fmap option_map fst].
  destruct (remove_spec h l _ e y _ need_free Hwf Hr') as (h' & l' & -> & R & K & _). cbn [mbind option_bind fst snd].
  pose proof (holds_of _ _ _ _ _ _ Ho R K) as Hh.
  assert (El : (take i ns ++ drop (S i) ns).*2 = delete i xs).
  { by rewrite fmap_app, fmap_take, fmap_drop, Hns, delete_take_drop. }
  rewrite El in Hh. eexists. split; [|exact Hh]. do 3 f_equal.
  rewrite (rep_size _ _ _ R), <- (length_fmap snd), El, length_delete by (by eexists). rewrite int_small; lia.
Qed.

(** The operations that only look. *)
Lemma look_refines c xs op : holds c xs -> Z.of_nat (S (length xs)) < 2 ^ 31 ->
  match op with Size | IsEmpty | DataAt _ | DataBack _ | IsHead _ | IsTail _ | ForEach => True | _ => False end ->
  dlist_step c op = Some (c, (abs_step xs op).2).
Proof.
  intros Hc Hs Hop. assert (Hshort : short xs) by (unfold short; lia).
  destruct op; try done; cbn [dlist_step abs_step snd].
  - by rewrite (holds_size _ _ Hc), short_size.
  - by rewrite (holds_empty_test _ _ Hc Hshort).
  - destruct (holds_at c xs i Hc) as (h & l & ns & -> & _ & _ & Hr & Hns & -> & _). cbn [mbind option_bind cl_heap].
    rewrite (data_spec h l ns _ Hr); [|intros n Hn; by eapply list_elem_of_lookup_2]. cbn [mbind option_bind].
    by rewrite <- Hns, list_lookup_fmap.
  - destruct (holds_at c xs i Hc) as (h & l & ns & -> & _ & _ & Hr & Hns & _ & _). rewrite (nth_last_node_spec _ _ _ _ Hr).
    cbn [mbind option_bind cl_heap].
    rewrite (data_spec h l ns _ Hr); [|intros n Hn; apply list_elem_of_lookup_2 in Hn; by apply elem_of_reverse]. cbn [mbind option_bind].
    by rewrite <- Hns, <- fmap_reverse, list_lookup_fmap.
  - destruct (holds_at c xs i Hc) as (h & l & ns & -> & _ & _ & Hr & Hns & -> & Hi). cbn [mbind option_bind cl_heap].
    destruct (ns !! i) as [[e y]|] eqn:E; cbn [fmap option_fmap option_map fst dlist_is_head].
    + rewrite (nth_cell _ _ _ _ _ _ Hr E). cbn [mbind option_bind node_prev]. do 3 f_equal. f_equal. apply bool_decide_ext.
      destruct Hi as (_ & Hlt & _). destruct i as [|i].
      { split; [|done]. intros _. split; [done|]. intros ->. cbn [length] in Hlt. lia. }
      split; [|intros [? _]; lia]. intros Hl. destruct (last_loc_in (take (S i) ns) None) as (q & Hq & _); [|congruence].
      intros Ht. apply (f_equal length) in Ht. rewrite length_take in Ht. apply lookup_lt_Some in E. cbn [length] in Ht. lia.
    + cbn [mbind option_bind]. rewrite bool_decide_eq_false_2; [done|]. intros [-> Hne]. destruct Hi as [_ Hi]. destruct xs; [done|cbn [length] in Hi; lia].
  - destruct (holds_at c xs i Hc) as (h & l & ns & -> & _ & _ & Hr & Hns & -> & Hi). cbn [mbind option_bind cl_heap].
    destruct (ns !! i) as [[e y]|] eqn:E; cbn [fmap option_fmap option_map fst dlist_is_tail].
    + rewrite (nth_cell _ _ _ _ _ _ Hr E). cbn [mbind option_bind node_next]. do 3 f_equal. f_equal. apply bool_decide_ext.
      apply lookup_lt_Some in E. rewrite <- Hns, length_fmap.
      destruct (drop (S i) ns) as [|[q z] r] eqn:Ed; cbn [fst_loc]; apply (f_equal length) in Ed; rewrite length_drop in Ed; cbn [length] in Ed;
        (split; [intros; congruence || lia|intros; done || lia]).
    + cbn [mbind option_bind]. rewrite bool_decide_eq_false_2; [done|]. destruct Hi as [_ Hi]. lia.
  - pose proof (holds_fold c xs (fun a x => a ++ [x]) [] Hc) as Hf. rewrite foldl_snoc_id in Hf.
    destruct (cl_list c) as [l|]; [|done]. cbn [mbind option_bind] in Hf |- *. by rewrite Hf.
Qed.

Lemma dlist_step_refines c xs op : holds c xs -> Z.of_nat (S (length xs)) < 2 ^ 31 ->
  exists c', dlist_step c op = Some (c', (abs_step xs op).2) /\ holds c' (abs_step xs op).1.
Proof.
  intros Hc Hs.
  destruct op as [x|x| | |i x|i x|i f| | |i|i|i|i|]; try (exists c; split; [by apply look_refines|exact Hc]).
  - destruct (holds_append c xs x Hc) as (h & l & E & H). cbn [dlist_step abs_step fst snd]. rewrite E. cbn [mbind option_bind].
    rewrite int_small by lia. eauto.
  - destruct (holds_prepend c xs x Hc) as (h & l & E & H). cbn [dlist_step abs_step fst snd]. rewrite E. cbn [mbind option_bind].
    rewrite int_small by lia. eauto.
  - cbn [dlist_step abs_step]. destruct xs as [|x xs].
    + destruct (holds_pop_nil c Hc) as (h & l & -> & H). eauto.
    + destruct (holds_pop_front c xs x Hc) as (h & l & -> & H). cbn [mbind option_bind fst snd length] in *.
      rewrite int_small by lia. replace (Z.of_nat (S (length xs)) - 1) with (Z.of_nat (length xs)) by lia. eauto.
  - cbn [dlist_step abs_step]. destruct (reverse xs) as [|x rs] eqn:Hrev.
    + apply (f_equal reverse) in Hrev. rewrite reverse_involutive in Hrev. subst xs.
      destruct (holds_pop_back_nil c Hc) as (h & l & -> & H). eauto.
    + apply (f_equal reverse) in Hrev. rewrite reverse_involutive, reverse_cons in Hrev. subst xs.
      destruct (holds_pop_back c _ x Hc) as (h & l & -> & H). cbn [mbind option_bind fst snd].
      rewrite length_app in *. cbn [length] in *. rewrite int_small by lia.
      replace (Z.of_nat (length (reverse rs) + 1) - 1) with (Z.of_nat (length (reverse rs))) by lia. eauto.
  - by apply ins_next_refines.
  - by apply ins_prev_refines.
  - by apply remove_refines.
Qed.

Lemma length_abs_step xs op : (length (abs_step xs op).1 <= S (length xs))%nat.
Proof.
  destruct op as [x|x| | |i x|i x|i f| | |i|i|i|i|]; cbn [abs_step fst]; try lia.
  - rewrite length_app. cbn [length]. lia.
  - done.
  - destruct xs; cbn [fst length]; lia.
  - pose proof (length_reverse xs) as H. destruct (reverse xs) as [|x rs]; cbn [fst length] in *; [lia|]. rewrite length_reverse. lia.
  - case_decide; cbn [fst]; [|lia]. rewrite length_app. cbn [length]. rewrite length_take, length_drop. lia.
  - case_decide; cbn [fst]; [|lia]. rewrite length_app. cbn [length]. rewrite length_take, length_drop. lia.
  - destruct (xs !! i) eqn:E; cbn [fst]; [|lia]. rewrite length_delete by (by eexists). lia.
Qed.

Lemma dlist_run_refines ops : forall c xs, holds c xs -> Z.of_nat (length xs + length ops) < 2 ^ 31 ->
  exists c', dlist_run c ops = Some (c', (abs_run xs ops).2) /\ holds c' (abs_run xs ops).1.
Proof.
  induction ops as [|op ops IH]; intros c xs Hc Hs; [by exists c|]. cbn [dlist_run abs_run length] in *.
  destruct (dlist_step_refines c xs op Hc) as (c1 & -> & H1); [lia|]. cbn [mbind option_bind].
  pose proof (length_abs_step xs op). destruct (abs_step xs op) as [xs1 out]. cbn [fst snd] in *.
  destruct (IH c1 xs1 H1) as (c2 & -> & H2); [lia|]. cbn [mbind option_bind].
  destruct (abs_run xs1 ops) as [xs2 outs]. cbn [fst snd] in *. eauto.
Qed.

(** C27: A fresh list refines a sequence.  Fewer than 2^31 operations are made
    on it, with memory for each new node: appending, prepending, popping at either end, inserting behind or in
    front of a node and removing one wherever it stands, asking for the size, for
    emptiness, for the data of a node counted from either end or whether a node
    is the first or the last, and going through the list.  No step fails, each
    returns the size and the elements that the operation on the sequence gives,
    and the list then holds exactly that sequence.  With so few operations the
    size, an [int], does not overflow. *)
Theorem dlist_refines_sequence (mode : free_mode) (ops : list list_op) (Hfew : Z.of_nat (length ops) < 2 ^ 31) :
  exists c', dlist_run (new_list mode) ops = Some (c', (abs_run [] ops).2)
    /\ holds c' (abs_run [] ops).1.
Proof. apply dlist_run_refines; [apply holds_empty|done]. Qed.
End sequence.

Arguments list_op : clear implicits.

Lemma dlist_refines_sequence_witness :
  let ops := [Append 1; Append 2; Prepend 0; InsNext 1 7; InsPrev 0 9; RemoveAt 2 false; DataBack 0; IsTail 3; Size; ForEach] in
  exists c', dlist_run (new_list FREE_MODE_NOTHING) ops
      = Some (c', [(1, []); (2, []); (3, []); (4, []); (5, []); (4, [1]); (0, [2]); (1, []); (4, []); (0, [9; 0; 7; 2])])
    /\ holds c' [9; 0; 7; 2].
Proof. intros ops. apply (dlist_refines_sequence FREE_MODE_NOTHING ops). reflexivity. Defined.
