(* ===== verification/Map.v ===== *)
(** * The pointer map (src/map.c, include/map.h)

    A map is a list of key/value nodes searched from the front.  The theorems
    relate it to a finite map: [models m g]. *)

From S2P Require Import Prelude DList DListOps DListSort Containers.

Record kv_node (K V : Type) := KvNode { kv_key : K; kv_value : V }.
Arguments KvNode {K V} _ _.
Arguments kv_key {K V} _.
Arguments kv_value {K V} _.

(** ** The operations *)

Section operations.
Context {K V : Type} `{EqDecision K}.
Abbreviation map := (cell_list (kv_node K V)).
Implicit Types (m : map) (k : K) (v : V).

Definition ptr_equal (a b : K) : bool := bool_decide (a = b).

(** [dlist_for_each] left by a [return] at the first node that satisfies [f]. *)
Fixpoint find_node (fuel : nat) (h : heap (kv_node K V)) (node : option loc)
    (f : kv_node K V -> bool) : option (option (loc * kv_node K V)) :=
  match node with
  | None => Some None
  | Some p =>
      match fuel with
      | O => None
      | S fuel' =>
          n ← load h p;
          if f (node_data n) then Some (Some (p, node_data n))
          else find_node fuel' h (node_next n) f
      end
  end.

Definition find_first m (f : kv_node K V -> bool) : option (option (loc * kv_node K V)) :=
  l ← cl_list m; find_node (size (cells (cl_heap m))) (cl_heap m) (d_head l) f.

Definition with_data (d : kv_node K V) (n : dlist_node (kv_node K V)) :=
  DNode d (node_prev n) (node_next n).

Definition map_create (obj_ok list_ok : bool) : option map :=
  if obj_ok then
    match dlist_create list_ok FREE_MODE_MP_FREE with
    | None => None
    | Some l => Some (CellList empty_heap (Some l))
    end
  else None.

Definition map_init (m : option map) (list_ok : bool) : option map * Z :=
  match m with
  | None => (None, -1)
  | Some m =>
      match dlist_create list_ok FREE_MODE_MP_FREE with
      | None => (None, -1)
      | Some l => (Some (CellList empty_heap (Some l)), 0)
      end
  end.

(** [node_ok]: the allocation of the [kv_node] succeeds. *)
Definition map_add (node_ok : bool) (m : option map) k v : option (option map * Z) :=
  match m with
  | None => Some (None, -1)
  | Some m =>
      if node_ok then
        r ← find_first m (fun kvn => ptr_equal (kv_key kvn) k);
        match r with
        | Some (p, kvn) =>
            h ← store (with_data (KvNode (kv_key kvn) v)) (cl_heap m) p;
            Some (Some (CellList h (cl_list m)), 0)
        | None =>
            '(h, l, r) ← dlist_append (cl_heap m) (cl_list m) (KvNode k v);
            Some (Some (CellList h l), r)
        end
      else Some (Some m, -1)
  end.

(** The second component is what [*value] receives. *)
Definition map_find (m : option map) (is_equal : K -> K -> bool) k : option (Z * option V) :=
  match m with
  | None => Some (-1, None)
  | Some m =>
      r ← find_first m (fun kvn => is_equal (kv_key kvn) k);
      match r with
      | Some (_, kvn) => Some (0, Some (kv_value kvn))
      | None => Some (-1, None)
      end
  end.

(** [*value] receives the [kv_node], not the value stored in it. *)
Definition map_remove (m : option map) k : option (option map * Z * option (kv_node K V)) :=
  match m with
  | None => Some (None, -1, None)
  | Some m =>
      r ← find_first m (fun kvn => ptr_equal (kv_key kvn) k);
      match r with
      | Some (p, _) =>
          '(h, l, _, d) ← dlist_remove (cl_heap m) (cl_list m) (Some p) true;
          Some (Some (CellList h l), 0, d)
      | None => Some (Some m, -1, None)
      end
  end.

Definition map_destroy (m : option map) : option (list (kv_node K V)) :=
  match m with
  | None => Some []
  | Some m =>
      match cl_list m with
      | None => Some []
      | Some _ => '(_, freed) ← dlist_destroy (cl_heap m) (cl_list m); Some freed
      end
  end.
End operations.

(** ** Searching *)

Section search.
Context {K V : Type} `{EqDecision K}.
Abbreviation map := (cell_list (kv_node K V)).
Implicit Types (m : map) (ns : list (loc * kv_node K V)).

Lemma find_node_seg h f ns : forall fuel pv,
  seg (cells h) pv ns None -> (length ns <= fuel)%nat ->
  find_node fuel h (fst_loc ns None) f = Some (List.find (fun n => f n.2) ns).
Proof.
  induction ns as [|[p x] ns IH]; intros fuel pv Hs Hf; [by destruct fuel|].
  destruct fuel as [|fuel]; [simpl in Hf; lia|]. destruct Hs as [Hp Hs]. simpl.
  unfold load. rewrite Hp. simpl. destruct (f x); [done|].
  eapply IH; [done|]. simpl in Hf. lia.
Qed.

Lemma find_first_rep m l ns f :
  cl_list m = Some l -> rep (cl_heap m) l ns ->
  find_first m f = Some (List.find (fun n => f n.2) ns).
Proof.
  intros El [Hnd Hs Hh _ _]. unfold find_first. rewrite El. simpl. rewrite Hh.
  eapply find_node_seg; [done|]. by eapply chain_size.
Qed.

Lemma rep_with_data (h : heap (kv_node K V)) l ns1 p x y ns2 :
  rep h l (ns1 ++ (p, x) :: ns2) ->
  exists h', store (with_data y) h p = Some h' /\ rep h' l (ns1 ++ (p, y) :: ns2) /\ upd [p] h h'.
Proof.
  intros [Hnd Hs Hh Ht Hz].
  destruct (mid_nodup _ _ _ _ Hnd) as (N1 & N2 & H1 & H2 & H12).
  apply seg_app in Hs as [Sa [Hp Sb]].
  destruct (store_upd (with_data y) h p _ Hp) as (h' & E & C & U).
  exists h'. split; [done|]. split; [|done]. constructor.
  - revert Hnd. by rewrite !locs_app.
  - apply seg_app. split; [|split; [done|]]; (eapply upd_seg; [exact U| |done]);
      intros q ->%list_elem_of_singleton; done.
  - rewrite Hh, !fst_loc_app. by destruct ns1 as [|[]].
  - rewrite Ht, !last_loc_app. done.
  - rewrite Hz, !length_app. done.
Qed.

Lemma find_split (f : loc * kv_node K V -> bool) ns n :
  List.find f ns = Some n ->
  exists ns1 ns2, ns = ns1 ++ n :: ns2 /\ f n = true /\ (forall n', n' ∈ ns1 -> f n' = false).
Proof.
  induction ns as [|a ns IH]; simpl; [done|]. destruct (f a) eqn:Ea.
  - intros [= ->]. exists [], ns. split_and!; [done|done|set_solver].
  - intros (ns1 & ns2 & -> & Hn & Hlt)%IH. exists (a :: ns1), ns2. split_and!; [done|done|].
    intros n' [->|Hn']%elem_of_cons; auto.
Qed.
End search.

(** ** The map as a finite map *)

Section models.
Context {K V : Type} `{Countable K}.
Abbreviation map := (cell_list (kv_node K V)).
Implicit Types (m : map) (ns : list (loc * kv_node K V)).

Definition pair_of (n : loc * kv_node K V) : K * V := (kv_key n.2, kv_value n.2).

(** [m] owns a well-formed list whose keys are distinct and whose bindings
    are those of [g]. *)
Definition models m (g : gmap K V) : Prop :=
  exists l ns, cl_list m = Some l /\ heap_wf (cl_heap m)
    /\ (forall p, oom (cl_heap m) p = false) /\ rep (cl_heap m) l ns
    /\ NoDup (pair_of <$> ns).*1 /\ g = list_to_map (pair_of <$> ns).

Lemma pair_of_node p x : pair_of (p, x) = (kv_key x, kv_value x).
Proof. done. Qed.

Definition keyed k : loc * kv_node K V -> bool := fun n => ptr_equal (kv_key n.2) k.

Lemma find_keyed_none k ns :
  List.find (keyed k) ns = None -> k ∉ (pair_of <$> ns).*1.
Proof.
  intros Hf. rewrite <- list_fmap_compose. intros ([p x] & -> & Hin)%list_elem_of_fmap.
  apply list_elem_of_In in Hin. apply (List.find_none _ _ Hf) in Hin. simpl in Hin.
  unfold keyed, ptr_equal in Hin. simpl in Hin. by rewrite bool_decide_eq_true_2 in Hin.
Qed.

Lemma find_keyed_lookup k ns :
  (list_to_map (pair_of <$> ns) : gmap K V) !! k
  = option_map (fun n => kv_value n.2) (List.find (keyed k) ns).
Proof.
  induction ns as [|[p x] ns IH]; [done|]. simpl. unfold keyed at 1, ptr_equal. simpl.
  case_bool_decide as Hk.
  - subst k. by simplify_map_eq.
  - rewrite lookup_insert_ne by done. exact IH.
Qed.

Lemma list_to_map_mid (kvs1 kvs2 : list (K * V)) k v :
  k ∉ kvs1.*1 ->
  (list_to_map (kvs1 ++ (k, v) :: kvs2) : gmap K V) = <[k := v]> (list_to_map (kvs1 ++ kvs2)).
Proof.
  induction kvs1 as [|[k' v'] kvs1 IH]; intros Hk; [done|]. simpl in *.
  rewrite IH by set_solver. rewrite insert_insert_ne; [done|]. set_solver.
Qed.

Lemma models_create : models (new_list FREE_MODE_MP_FREE) ∅.
Proof.
  destruct (holds_empty (A := kv_node K V) FREE_MODE_MP_FREE) as (l & ns & El & Hw & Ho & Hr & Hns).
  destruct ns; [|done]. exists l, []. split_and!; try done. apply NoDup_nil_2.
Qed.

Lemma map_find_models m g k :
  models m g -> map_find (Some m) ptr_equal k
    = Some (match g !! k with Some v => (0, Some v) | None => (-1, None) end).
Proof.
  intros (l & ns & El & Hwf & Hoom & Hr & Hnd & ->). unfold map_find.
  rewrite (find_first_rep _ _ _ _ El Hr). fold (keyed k). rewrite find_keyed_lookup. simpl.
  by destruct (List.find (keyed k) ns) as [[]|].
Qed.

(** What [map_add] returns: 0 for a key that is there, otherwise the length of
    the list, an [int]. *)
Definition add_ret (g : gmap K V) k : Z :=
  match g !! k with Some _ => 0 | None => i32 (Z.of_nat (size g) + 1) end.

Lemma models_size l ns (h : heap (kv_node K V)) : rep h l ns -> NoDup (pair_of <$> ns).*1 ->
  length ns = size (list_to_map (pair_of <$> ns) : gmap K V).
Proof.
  intros _ Hnd. rewrite <- (length_fmap pair_of ns). rewrite <- (Permutation_length (map_to_list_to_map (M := gmap K) _ Hnd)).
  by rewrite length_map_to_list.
Qed.

Lemma map_add_models m g k v :
  models m g -> exists m', map_add true (Some m) k v = Some (Some m', add_ret g k)
    /\ models m' (<[k := v]> g).
Proof.
  intros (l & ns & El & Hwf & Hoom & Hr & Hnd & ->). unfold map_add, add_ret.
  rewrite (find_first_rep _ _ _ _ El Hr). fold (keyed k). rewrite find_keyed_lookup. simpl.
  destruct (List.find (keyed k) ns) as [[p x]|] eqn:Hf.
  - destruct (find_split _ _ _ Hf) as (ns1 & ns2 & -> & Hk & _).
    unfold keyed, ptr_equal in Hk. simpl in Hk. apply bool_decide_eq_true in Hk. subst k.
    destruct (rep_with_data _ _ _ _ _ (KvNode (kv_key x) v) _ Hr) as (h' & E & R & U).
    rewrite E. simpl. eexists. split; [done|].
    exists l, (ns1 ++ (p, KvNode (kv_key x) v) :: ns2). split_and!; [done| | |done| |].
    + by eapply upd_wf.
    + intros q. simpl. by rewrite (upd_oom _ _ _ U).
    + revert Hnd. by rewrite !fmap_app, !fmap_cons.
    + rewrite !fmap_app, !fmap_cons in *. rewrite !pair_of_node in *. simpl in *.
      apply NoDup_app in Hnd as (_ & Hk & _).
      rewrite !list_to_map_mid by (intros Hin; apply (Hk _ Hin), elem_of_cons; by left).
      by rewrite insert_insert_eq.
  - destruct (append_spec _ _ _ (KvNode k v) Hwf (Hoom _) Hr) as (h' & l' & E & R & Kp).
    rewrite El, E. simpl. eexists. rewrite <- (models_size _ _ _ Hr Hnd). split; [done|].
    exists l', (ns ++ [(fresh (cl_heap m), KvNode k v)]).
    apply find_keyed_none in Hf. split_and!; [done|apply Kp| |done| |].
    + intros q. simpl. by rewrite (keeps_oom _ _ _ _ _ Kp).
    + rewrite !fmap_app. apply NoDup_app. simpl. split_and!; [done| |apply NoDup_singleton].
      intros k' Hk' Hk. apply list_elem_of_singleton in Hk. simpl in Hk. subst k'. by apply Hf.
    + rewrite fmap_app, fmap_cons, fmap_nil, pair_of_node. simpl.
      rewrite list_to_map_mid by done. by rewrite app_nil_r.
Qed.

Lemma map_remove_models m g k :
  models m g -> exists m', map_remove (Some m) k
      = Some (match g !! k with
              | Some v => (Some m', 0, Some (KvNode k v))
              | None => (Some m', -1, None)
              end) /\ models m' (delete k g).
Proof.
  intros (l & ns & El & Hwf & Hoom & Hr & Hnd & ->). unfold map_remove.
  rewrite (find_first_rep _ _ _ _ El Hr). fold (keyed k). rewrite find_keyed_lookup. simpl.
  destruct (List.find (keyed k) ns) as [[p x]|] eqn:Hf.
  - destruct (find_split _ _ _ Hf) as (ns1 & ns2 & -> & Hk & _).
    unfold keyed, ptr_equal in Hk. simpl in Hk. apply bool_decide_eq_true in Hk. subst k.
    destruct (remove_spec _ _ _ _ _ _ true Hwf Hr) as (h' & l' & E & R & Kp & _).
    rewrite El, E. simpl. eexists. split; [by destruct x|].
    exists l', (ns1 ++ ns2). rewrite !fmap_app, !fmap_cons in *.
    rewrite pair_of_node in Hnd |- *. simpl in Hnd |- *.
    pose proof Hnd as (N1 & Hk & [Hk2 N2]%NoDup_cons)%NoDup_app.
    split_and!; [done|apply Kp| |done| |].
    + intros q. simpl. by rewrite (keeps_oom _ _ _ _ _ Kp).
    + apply NoDup_app. split_and!; [done| |done]. intros y Hy Hy2.
      apply (Hk y Hy), elem_of_cons. by right.
    + rewrite list_to_map_mid by (intros Hin; apply (Hk _ Hin), elem_of_cons; by left).
      rewrite delete_insert_id; [done|]. apply not_elem_of_list_to_map_1.
      rewrite fmap_app, elem_of_app. intros [Hin|Hin]; [|done].
      apply (Hk _ Hin), elem_of_cons. by left.
  - exists m. split; [done|]. exists l, ns. split_and!; try done.
    rewrite delete_id; [done|]. by rewrite find_keyed_lookup, Hf.
Qed.

(** ** Refinement of a finite map *)

Inductive map_op := Add (k : K) (v : V) | Find (k : K) | Remove (k : K).

(** What an operation delivers: [map_find] a value, [map_remove] an entry. *)
Inductive delivered := Nothing | Value (v : V) | Entry (e : kv_node K V).

(** The new map, the return value and what is delivered. *)
Definition abs_map_step (g : gmap K V) (op : map_op) : gmap K V * (Z * delivered) :=
  match op with
  | Add k v => (<[k := v]> g, (match g !! k with Some _ => 0 | None => Z.of_nat (size g) + 1 end, Nothing))
  | Find k => (g, match g !! k with Some v => (0, Value v) | None => (-1, Nothing) end)
  | Remove k => (delete k g, match g !! k with Some v => (0, Entry (KvNode k v)) | None => (-1, Nothing) end)
  end.

Definition map_step (m : option map) (op : map_op) : option (option map * (Z * delivered)) :=
  match op with
  | Add k v => '(m, r) ← map_add true m k v; Some (m, (r, Nothing))
  | Find k => '(r, v) ← map_find m ptr_equal k; Some (m, (r, match v with Some v => Value v | None => Nothing end))
  | Remove k => '(m, r, n) ← map_remove m k; Some (m, (r, match n with Some n => Entry n | None => Nothing end))
  end.

Fixpoint abs_map_run (g : gmap K V) (ops : list map_op) : gmap K V * list (Z * delivered) :=
  match ops with
  | [] => (g, [])
  | op :: ops =>
      let '(g, out) := abs_map_step g op in
      let '(g, outs) := abs_map_run g ops in (g, out :: outs)
  end.

Fixpoint map_run (m : option map) (ops : list map_op)
    : option (option map * list (Z * delivered)) :=
  match ops with
  | [] => Some (m, [])
  | op :: ops =>
      '(m, out) ← map_step m op;
      '(m, outs) ← map_run m ops; Some (m, out :: outs)
  end.

Lemma map_step_refines m g op : models m g -> Z.of_nat (S (size g)) < 2 ^ 31 ->
  exists m', map_step (Some m) op = Some (Some m', (abs_map_step g op).2)
    /\ models m' (abs_map_step g op).1.
Proof.
  intros Hm Hs. destruct op as [k v|k|k]; cbn [map_step abs_map_step fst snd].
  - destruct (map_add_models m g k v Hm) as (m' & -> & H'). cbn [mbind option_bind]. unfold add_ret.
    rewrite int_small by lia. eauto.
  - rewrite (map_find_models m g k Hm). simpl. destruct (g !! k); simpl; eauto.
  - destruct (map_remove_models m g k Hm) as (m' & -> & H'). simpl.
    destruct (g !! k); simpl; eauto.
Qed.

Lemma size_abs_map_step (g : gmap K V) op : (size (abs_map_step g op).1 <= S (size g))%nat.
Proof.
  destruct op as [k v|k|k]; cbn [abs_map_step fst]; [|lia|].
  - rewrite map_size_insert. destruct (g !! k); unfold id; lia.
  - rewrite map_size_delete. destruct (g !! k); unfold id; lia.
Qed.

(** C28: A fresh pointer map refines a finite map.  Fewer than 2^31 calls of
    [map_add], [map_find] and [map_remove] are made on it, with memory for each
    new entry: no call fails, each
    returns what the finite map gives, a found key delivers its value, and the
    nodes left in the list bind exactly the keys of the finite map, each once.  A
    removal delivers the entry, key and value, where a search delivers the
    value. *)
Theorem map_refines_gmap (ops : list map_op) (Hfew : Z.of_nat (length ops) < 2 ^ 31) :
  exists m', map_run (Some (new_list FREE_MODE_MP_FREE)) ops
      = Some (Some m', (abs_map_run ∅ ops).2)
    /\ models m' (abs_map_run ∅ ops).1.
Proof.
  assert (forall m g, models m g -> Z.of_nat (size g + length ops) < 2 ^ 31 -> exists m', map_run (Some m) ops
      = Some (Some m', (abs_map_run g ops).2) /\ models m' (abs_map_run g ops).1) as Hrun.
  { clear Hfew. induction ops as [|op ops IH]; intros m g Hm Hs; [by exists m|]. cbn [map_run abs_map_run length] in *.
    destruct (map_step_refines m g op Hm) as (m1 & -> & H1); [lia|]. cbn [mbind option_bind].
    pose proof (size_abs_map_step g op). destruct (abs_map_step g op) as [g1 out]. cbn [fst snd] in *.
    destruct (IH m1 g1 H1) as (m2 & -> & H2); [lia|]. cbn [mbind option_bind].
    destruct (abs_map_run g1 ops) as [g2 outs]. cbn [fst snd] in *. eauto. }
  apply Hrun; [apply models_create|]. by rewrite map_size_empty.
Qed.
End models.

Lemma map_refines_gmap_witness :
  exists m', map_run (K := positive) (V := Z) (Some (new_list FREE_MODE_MP_FREE))
        [Add 1%positive 10; Add 2%positive 20; Add 1%positive 11; Find 1%positive; Remove 1%positive; Find 1%positive]
      = Some (Some m', [(1, Nothing); (2, Nothing); (0, Nothing); (0, Value 11); (0, Entry (KvNode 1%positive 11)); (-1, Nothing)])
    /\ models m' {[2%positive := 20]}.
Proof. exact (map_refines_gmap (K := positive) (V := Z) [Add 1%positive 10; Add 2%positive 20; Add 1%positive 11; Find 1%positive; Remove 1%positive; Find 1%positive] eq_refl). Defined.
