(* ===== verification/MemPool.v ===== *)
(** * The memory pool (src/mem_pool.c)

    The pool keeps every block it has obtained from [malloc] in a list and
    reuses the smallest free block that is large enough.  Blocks are named by
    their address; their contents are kept in [mp_mem].  The functions run
    under the pool's mutex, so each is one atomic step; an [os_reply] says which of
    the system's [malloc]s succeed.  [None] is a failed assertion, a NULL
    dereference or an access outside a block.  The counters are [int]s, the
    total size is a [long]. *)

From S2P Require Import Prelude.

Record mem_node := MemNode {
  mn_size : Z;
  mn_using : bool;
  mn_address : positive;
  mn_purpose : string;
  mn_used_cnt : Z;
}.

#[export] Instance mem_node_eq_dec : EqDecision mem_node.
Proof. solve_decision. Defined.

Record mem_pool_stat := PoolStat {
  total_size : Z;
  total_nodes : Z;
  using_nodes : Z;
  free_nodes : Z;
}.

Record mem_pool := MemPool {
  mp_nodes : list mem_node;
  mp_purposes : list (string * Z);
  mp_stat : mem_pool_stat;
  mp_mem : gmap positive (list Z);
  mp_next : positive;
}.

Definition mp_create : mem_pool := MemPool [] [] (PoolStat 0 0 0 0) ∅ 1.

(** What the system's [malloc] answers while a request is served: whether there
    is memory for the node with its block ([mem_node_create]) and for an entry
    of the purposes ([purpose_node_create]). *)
Record os_reply := OsReply { block_ok : bool; purpose_ok : bool }.

Definition plenty : os_reply := OsReply true true.

(** ** Purposes *)

Definition find_purpose (ps : list (string * Z)) (purpose : string) : option (nat * (string * Z)) :=
  list_find (fun p => p.1 = purpose) ps.

(** Without memory for a new entry the NULL of [purpose_node_create] is
    dereferenced. *)
Definition add_purpose (purpose_ok : bool) (ps : list (string * Z)) (purpose : string) : option (list (string * Z)) :=
  match find_purpose ps purpose with
  | None => if purpose_ok then Some ((purpose, 1) :: ps) else None
  | Some (i, _) => Some (alter (fun p => (p.1, i32 (p.2 + 1))) i ps)
  end.

Definition sub_purpose (ps : list (string * Z)) (purpose : string) : option (list (string * Z)) :=
  match find_purpose ps purpose with
  | None => Some ps
  | Some (i, (_, count)) =>
      if decide (0 < count) then
        Some (if decide (count - 1 = 0) then delete i ps
              else alter (fun p => (p.1, p.2 - 1)) i ps)
      else None
  end.

(** ** Nodes *)

Definition mem_node_create (address : positive) (size : Z) : mem_node :=
  MemNode size false address "" 0.

Definition set_using (purpose : string) (nd : mem_node) : mem_node :=
  MemNode (mn_size nd) true (mn_address nd) purpose (u64 (mn_used_cnt nd + 1)).
Definition set_free (nd : mem_node) : mem_node :=
  MemNode (mn_size nd) false (mn_address nd) (mn_purpose nd) (mn_used_cnt nd).

(** The search loop of [mp_malloc]: position and node of the best fit. *)
Fixpoint best_fit (n : Z) (i : nat) (nodes : list mem_node) (m_node : option (nat * mem_node))
    : option (nat * mem_node) :=
  match nodes with
  | [] => m_node
  | p :: nodes =>
      best_fit n (S i) nodes
        (if mn_using p || (mn_size p <? n) then m_node
         else match m_node with
              | None => Some (i, p)
              | Some (_, m) => if mn_size p <? mn_size m then Some (i, p) else m_node
              end)
  end.

Definition find_address (nodes : list mem_node) (a : positive) : option (nat * mem_node) :=
  list_find (fun nd => mn_address nd = a) nodes.

(** [bzero(address, n)] *)
Definition bzero (mem : gmap positive (list Z)) (a : positive) (n : Z)
    : option (gmap positive (list Z)) :=
  block ← mem !! a;
  block ← write_bytes block 0 (zeroed (Z.to_nat n));
  Some (<[a := block]> mem).

(** The common tail of [mp_malloc] for the node at position [i]. *)
Definition take_node (purpose_ok : bool) (mp : mem_pool) (i : nat) (purpose : string) (n : Z) (st : mem_pool_stat)
    : option (mem_pool * option positive) :=
  m_node ← mp_nodes mp !! i;
  let nodes := alter (set_using purpose) i (mp_nodes mp) in
  let st := PoolStat (total_size st) (total_nodes st) (i32 (using_nodes st + 1)) (free_nodes st) in
  ps ← add_purpose purpose_ok (mp_purposes mp) purpose;
  mem ← bzero (mp_mem mp) (mn_address m_node) n;
  Some (MemPool nodes ps st mem (mp_next mp), Some (mn_address m_node)).

Definition mp_malloc (os : os_reply) (mp : mem_pool) (purpose : string) (n : Z)
    : option (mem_pool * option positive) :=
  if n =? 0 then Some (mp, None) else
  let st := mp_stat mp in
  match best_fit n 0 (mp_nodes mp) None with
  | None =>
      if block_ok os then
        let a := mp_next mp in
        take_node (purpose_ok os)
          (MemPool (mem_node_create a n :: mp_nodes mp) (mp_purposes mp) st
             (<[a := zeroed (Z.to_nat n)]> (mp_mem mp)) (Pos.succ a))
          0 purpose n
          (PoolStat (i64 (total_size st + n)) (i32 (total_nodes st + 1)) (using_nodes st) (free_nodes st))
      else Some (mp, None)
  | Some (i, _) =>
      take_node (purpose_ok os) mp i purpose n
        (PoolStat (total_size st) (total_nodes st) (using_nodes st) (i32 (free_nodes st - 1)))
  end.

Definition mp_free (mp : mem_pool) (p : option positive) : option mem_pool :=
  match p with
  | None => Some mp
  | Some a =>
      match find_address (mp_nodes mp) a with
      | None => Some mp
      | Some (i, m_node) =>
          if mn_using m_node then
            let st := mp_stat mp in
            ps ← sub_purpose (mp_purposes mp) (mn_purpose m_node);
            Some (MemPool (alter set_free i (mp_nodes mp)) ps
                    (PoolStat (total_size st) (total_nodes st) (i32 (using_nodes st - 1)) (i32 (free_nodes st + 1)))
                    (mp_mem mp) (mp_next mp))
          else Some mp
      end
  end.

Definition mp_realloc (os : os_reply) (mp : mem_pool) (addr : positive) (n : Z)
    : option (mem_pool * option positive) :=
  match find_address (mp_nodes mp) addr with
  | None => Some (mp, None)
  | Some (_, p) =>
      '(mp, tmp) ← mp_malloc os mp "mp_realloc" n;
      match tmp with
      | None => Some (mp, None)
      | Some t =>
          old ← mp_mem mp !! addr;
          new ← mp_mem mp !! t;
          bs ← read_bytes old 0 (Z.to_nat (if n <? mn_size p then n else mn_size p));
          new ← write_bytes new 0 bs;
          mp ← mp_free (MemPool (mp_nodes mp) (mp_purposes mp) (mp_stat mp)
                          (<[t := new]> (mp_mem mp)) (mp_next mp)) (Some addr);
          Some (mp, Some t)
      end
  end.

Definition mp_node_cnt (mp : mem_pool) : Z := foldl (fun num _ => i32 (num + 1)) 0 (mp_nodes mp).
Definition mp_size (mp : mem_pool) : Z := foldl (fun sum nd => i32 (sum + mn_size nd)) 0 (mp_nodes mp).
Definition get_purpose_count (mp : mem_pool) : Z := foldl (fun count _ => i32 (count + 1)) 0 (mp_purposes mp).
Definition get_mp_stat (mp : mem_pool) : mem_pool_stat := mp_stat mp.

(** ** The invariant *)

Definition sum_sizes (nodes : list mem_node) : Z := foldr (fun nd s => mn_size nd + s) 0 nodes.
Definition count_if (P : mem_node -> bool) (nodes : list mem_node) : Z :=
  foldr (fun nd s => (if P nd then 1 else 0) + s) 0 nodes.
Definition uses (purpose : string) (nd : mem_node) : bool :=
  mn_using nd && bool_decide (mn_purpose nd = purpose).
Definition count_of (ps : list (string * Z)) (purpose : string) : Z :=
  match find_purpose ps purpose with Some (_, (_, c)) => c | None => 0 end.

(** There is room for [k] more nodes: an [int] counts them. *)
Definition room (k : nat) (mp : mem_pool) : Prop := Z.of_nat (length (mp_nodes mp) + k) < 2 ^ 31.

Record pool_ok (mp : mem_pool) : Prop := PoolOk {
  po_few : room 0 mp;
  po_addr : NoDup (mn_address <$> mp_nodes mp);
  po_next : Forall (fun nd => (mn_address nd < mp_next mp)%positive) (mp_nodes mp);
  po_block : Forall (fun nd => 0 < mn_size nd /\ exists b, mp_mem mp !! mn_address nd = Some b
                               /\ length b = Z.to_nat (mn_size nd)) (mp_nodes mp);
  po_total : total_nodes (mp_stat mp) = Z.of_nat (length (mp_nodes mp));
  po_size : total_size (mp_stat mp) = i64 (sum_sizes (mp_nodes mp));
  po_using : using_nodes (mp_stat mp) = count_if mn_using (mp_nodes mp);
  po_free : free_nodes (mp_stat mp) = count_if (fun nd => negb (mn_using nd)) (mp_nodes mp);
  po_names : NoDup (mp_purposes mp).*1;
  po_counts : forall s, count_of (mp_purposes mp) s = count_if (uses s) (mp_nodes mp);
  po_positive : Forall (fun p => 0 < p.2) (mp_purposes mp);
}.

(** ** Lists with one element changed *)

Lemma alter_mid {A : Type} (f : A -> A) l1 x l2 :
  alter f (length l1) (l1 ++ x :: l2) = l1 ++ f x :: l2.
Proof. induction l1 as [|y l1 IH]; [done|]. simpl. f_equal. apply IH. Qed.

Lemma sum_sizes_mid l1 nd l2 : sum_sizes (l1 ++ nd :: l2) = mn_size nd + sum_sizes (l1 ++ l2).
Proof. induction l1 as [|x l1 IH]; simpl in *; [done|]. rewrite IH. lia. Qed.

Lemma count_if_mid P l1 nd l2 :
  count_if P (l1 ++ nd :: l2) = (if P nd then 1 else 0) + count_if P (l1 ++ l2).
Proof. induction l1 as [|x l1 IH]; simpl in *; [done|]. rewrite IH. lia. Qed.

Lemma lookup_split (nodes : list mem_node) i nd :
  nodes !! i = Some nd -> exists l1 l2, nodes = l1 ++ nd :: l2 /\ i = length l1.
Proof.
  intros H. exists (take i nodes), (drop (S i) nodes).
  split; [by rewrite take_drop_middle|]. apply lookup_lt_Some in H. rewrite length_take. lia.
Qed.

Lemma count_if_nonneg P nodes : 0 <= count_if P nodes.
Proof. induction nodes as [|nd nodes IH]; simpl; [done|]. destruct (P nd); lia. Qed.

Lemma count_if_le P nodes : count_if P nodes <= Z.of_nat (length nodes).
Proof. induction nodes as [|nd nodes IH]; simpl; [done|]. destruct (P nd); lia. Qed.

(** A counter of nodes fits an [int]. *)
Lemma count_small mp z : room 0 mp -> -1 <= z <= Z.of_nat (length (mp_nodes mp)) -> i32 z = z.
Proof. unfold room. intros H Hz. apply i32_small. unfold in_i32. lia. Qed.

Lemma foldl_count {A} (l : list A) : Z.of_nat (length l) < 2 ^ 31 -> foldl (fun n _ => i32 (n + 1)) 0 l = Z.of_nat (length l).
Proof.
  change (Z.of_nat (length l)) with (0 + Z.of_nat (length l)). assert (H : 0 <= 0) by done. revert H. generalize 0 at 2 3 4 5 as n.
  induction l as [|x l IH]; intros n Hn Hl; cbn [foldl length] in *; [lia|].
  rewrite i32_small by (unfold in_i32; lia). rewrite IH; lia.
Qed.

(** ** Purposes *)

Lemma find_purpose_lookup ps s i p :
  find_purpose ps s = Some (i, p) -> exists l1 l2, ps = l1 ++ p :: l2 /\ i = length l1 /\ p.1 = s.
Proof.
  intros (Hi & Hs & _)%list_find_Some. exists (take i ps), (drop (S i) ps).
  split; [by rewrite take_drop_middle|]. split; [|done].
  apply lookup_lt_Some in Hi. rewrite length_take. lia.
Qed.

Lemma find_purpose_cons s t c ps :
  find_purpose ((t, c) :: ps) s
    = if decide (t = s) then Some (0%nat, (t, c)) else prod_map S id <$> find_purpose ps s.
Proof. done. Qed.

Lemma count_of_cons t c ps s :
  count_of ((t, c) :: ps) s = if decide (t = s) then c else count_of ps s.
Proof.
  unfold count_of. rewrite find_purpose_cons. case_decide; [done|].
  by destruct (find_purpose ps s) as [[? []]|].
Qed.

Lemma count_of_mid l1 t c l2 s :
  t ∉ l1.*1 -> count_of (l1 ++ (t, c) :: l2) s = if decide (t = s) then c else count_of (l1 ++ l2) s.
Proof.
  induction l1 as [|[u d] l1 IH]; intros Ht; [apply count_of_cons|].
  simpl in *. rewrite !count_of_cons, IH by set_solver.
  repeat case_decide; subst; try done. set_solver.
Qed.

Lemma count_of_absent ps s : s ∉ ps.*1 -> count_of ps s = 0.
Proof.
  induction ps as [|[t c] ps IH]; intros Hs; [done|]. rewrite count_of_cons. simpl in Hs.
  case_decide; [set_solver|]. apply IH. set_solver.
Qed.

Lemma find_purpose_none ps s : find_purpose ps s = None -> s ∉ ps.*1.
Proof.
  intros Hf (p & -> & Hin)%list_elem_of_fmap. apply list_find_None in Hf.
  rewrite Forall_forall in Hf. by apply (Hf p).
Qed.

Record purposes_ok (ps : list (string * Z)) : Prop := PurposesOk {
  pu_names : NoDup ps.*1;
  pu_positive : Forall (fun p => 0 < p.2) ps;
}.

Lemma purpose_split ps s i p :
  purposes_ok ps -> find_purpose ps s = Some (i, p) ->
  exists l1 c l2, p = (s, c) /\ ps = l1 ++ (s, c) :: l2 /\ i = length l1
    /\ s ∉ l1.*1 /\ s ∉ l2.*1 /\ 0 < c /\ purposes_ok (l1 ++ l2)
    /\ forall c', 0 < c' -> purposes_ok (l1 ++ (s, c') :: l2).
Proof.
  intros [Hnd Hpos] Hf. destruct (find_purpose_lookup _ _ _ _ Hf) as (l1 & l2 & -> & -> & Hs).
  destruct p as [t c]. simpl in Hs. subst t. exists l1, c, l2.
  apply Forall_app in Hpos as [Hp1 [Hc Hp2]%Forall_cons].
  rewrite fmap_app, fmap_cons in Hnd. simpl in Hnd.
  pose proof Hnd as (N1 & N12 & [Hs2 N2]%NoDup_cons)%NoDup_app.
  assert (Hs1 : s ∉ l1.*1) by (intros Hin; apply (N12 s Hin), elem_of_cons; by left).
  split_and!; try done.
  - constructor; [|by apply Forall_app]. rewrite fmap_app. apply NoDup_app. split_and!; [done| |done].
    intros x Hx Hx2. apply (N12 x Hx), elem_of_cons. by right.
  - intros c' Hc'. constructor; [by rewrite fmap_app, fmap_cons|].
    apply Forall_app. split; [done|]. by constructor.
Qed.

Lemma add_purpose_spec ps s :
  purposes_ok ps -> count_of ps s < 2 ^ 31 - 1 -> exists ps', add_purpose true ps s = Some ps' /\ purposes_ok ps'
  /\ forall t, count_of ps' t = count_of ps t + (if decide (s = t) then 1 else 0).
Proof.
  intros Hok Hsmall. unfold add_purpose. destruct (find_purpose ps s) as [[i p]|] eqn:Hf; (eexists; split; [done|]).
  - destruct (purpose_split _ _ _ _ Hok Hf) as (l1 & c & l2 & -> & -> & -> & H1 & H2 & Hc & _ & Hup).
    rewrite count_of_mid, decide_True in Hsmall by done.
    rewrite alter_mid. cbn [fst snd]. rewrite i32_small by (unfold in_i32; lia). split; [apply Hup; lia|].
    intros t. rewrite !count_of_mid by done. case_decide; lia.
  - pose proof (find_purpose_none _ _ Hf) as Hn. destruct Hok as [Hnd Hpos]. split.
    + constructor; simpl; [by constructor|by constructor; [simpl; lia|]].
    + intros t. rewrite count_of_cons. case_decide as Ht; [|lia].
      subst t. rewrite count_of_absent by done. lia.
Qed.

Lemma sub_purpose_spec ps s :
  purposes_ok ps -> 0 < count_of ps s ->
  exists ps', sub_purpose ps s = Some ps' /\ purposes_ok ps'
    /\ forall t, count_of ps' t = count_of ps t - (if decide (s = t) then 1 else 0).
Proof.
  intros Hok Hpos. unfold sub_purpose. destruct (find_purpose ps s) as [[i p]|] eqn:Hf.
  2:{ unfold count_of in Hpos. rewrite Hf in Hpos. lia. }
  destruct (purpose_split _ _ _ _ Hok Hf) as (l1 & c & l2 & -> & -> & -> & H1 & H2 & Hc & Hrm & Hup).
  rewrite decide_True by done. eexists. split; [done|].
  case_decide as Hz.
  - rewrite delete_middle. split; [done|]. intros t. rewrite count_of_mid by done.
    case_decide as Ht; [|lia]. subst t. rewrite count_of_absent; [lia|].
    rewrite fmap_app, elem_of_app. tauto.
  - rewrite alter_mid. cbn [fst snd]. split; [apply Hup; lia|].
    intros t. rewrite !count_of_mid by done. case_decide; lia.
Qed.

(** ** Allocation *)

Definition fits (n : Z) (nd : mem_node) : Prop := mn_using nd = false /\ n <= mn_size nd.

Lemma fits_test n nd : (mn_using nd || (mn_size nd <? n)) = false <-> fits n nd.
Proof. unfold fits. rewrite orb_false_iff, Z.ltb_ge. done. Qed.

(** The best of the nodes scanned so far, [pre]. *)
Definition best_of (n : Z) (pre : list mem_node) (m : option (nat * mem_node)) : Prop :=
  match m with
  | None => forall nd, nd ∈ pre -> ~ fits n nd
  | Some (i, nd) => pre !! i = Some nd /\ fits n nd
      /\ forall nd', nd' ∈ pre -> fits n nd' -> mn_size nd <= mn_size nd'
  end.

Lemma best_of_snoc n pre m p :
  best_of n pre m ->
  best_of n (pre ++ [p])
    (if mn_using p || (mn_size p <? n) then m
     else match m with
          | None => Some (length pre, p)
          | Some (_, q) => if mn_size p <? mn_size q then Some (length pre, p) else m
          end).
Proof.
  intros Hm. destruct (mn_using p || (mn_size p <? n)) eqn:Hp.
  - assert (Hn : ~ fits n p) by (rewrite <- fits_test, Hp; done).
    destruct m as [[i nd]|].
    + destruct Hm as (Hi & Hf & Hle). split_and!; [by apply lookup_app_l_Some|done|].
      intros nd' [Hin| ->%list_elem_of_singleton]%elem_of_app Hf'; [auto|done].
    + intros nd [Hin| ->%list_elem_of_singleton]%elem_of_app; auto.
  - apply fits_test in Hp.
    assert (Hlast : (pre ++ [p]) !! length pre = Some p) by (by apply list_lookup_middle).
    destruct m as [[i nd]|].
    + destruct Hm as (Hi & Hf & Hle). destruct (Z.ltb_spec (mn_size p) (mn_size nd)) as [Hlt|Hge].
      * split_and!; [done|done|]. intros nd' [Hin| ->%list_elem_of_singleton]%elem_of_app Hf'; [|lia].
        specialize (Hle _ Hin Hf'). lia.
      * split_and!; [by apply lookup_app_l_Some|done|].
        intros nd' [Hin| ->%list_elem_of_singleton]%elem_of_app Hf'; [auto|lia].
    + split_and!; [done|done|]. intros nd' [Hin| ->%list_elem_of_singleton]%elem_of_app Hf'; [|lia].
      by destruct (Hm nd' Hin).
Qed.

Lemma best_fit_spec n nodes : forall pre m,
  best_of n pre m -> best_of n (pre ++ nodes) (best_fit n (length pre) nodes m).
Proof.
  induction nodes as [|p nodes IH]; intros pre m Hm; simpl; [by rewrite app_nil_r|].
  apply best_of_snoc with (p := p) in Hm. apply IH in Hm.
  rewrite <- app_assoc, length_app, Nat.add_1_r in Hm. exact Hm.
Qed.

(** Putting a free block into use. *)
Lemma take_node_ok mp i nd purpose n :
  pool_ok mp -> mp_nodes mp !! i = Some nd -> fits n nd -> 0 < n ->
  let st := mp_stat mp in
  exists mp' b, take_node true mp i purpose n
      (PoolStat (total_size st) (total_nodes st) (using_nodes st) (i32 (free_nodes st - 1)))
      = Some (mp', Some (mn_address nd))
    /\ pool_ok mp' /\ mp_nodes mp' = alter (set_using purpose) i (mp_nodes mp)
    /\ mp_mem mp !! mn_address nd = Some b /\ length b = Z.to_nat (mn_size nd)
    /\ mp_mem mp' = <[mn_address nd := zeroed (Z.to_nat n) ++ drop (Z.to_nat n) b]> (mp_mem mp).
Proof.
  intros [Hfew Ha Hx Hb Ht Hs Hu Hf Hn Hc Hp] Hi [Hfree Hsz] Hpos st.
  destruct (lookup_split _ _ _ Hi) as (l1 & l2 & Hl & ->).
  pose proof (Forall_lookup_1 _ _ _ _ Hb Hi) as (Hsize & b & Hmem & Hlb).
  assert (Hlt : forall P, P nd = false -> count_if P (mp_nodes mp) < Z.of_nat (length (mp_nodes mp))).
  { intros P HP. rewrite Hl, count_if_mid, HP, length_app. pose proof (count_if_le P (l1 ++ l2)) as Hle.
    rewrite length_app in Hle. simpl. lia. }
  assert (Hmany : Z.of_nat (length (mp_nodes mp)) < 2 ^ 31) by (unfold room in Hfew; lia).
  destruct (add_purpose_spec (mp_purposes mp) purpose (PurposesOk _ Hn Hp)) as (ps & Eps & [Hn' Hp'] & Hc').
  { rewrite Hc. specialize (Hlt (uses purpose)). unfold uses at 1 in Hlt. rewrite Hfree in Hlt. specialize (Hlt eq_refl). lia. }
  eexists _, b. unfold take_node. rewrite Hi. cbn [mbind option_bind]. rewrite Eps. cbn [mbind option_bind].
  unfold bzero. rewrite Hmem. cbn [mbind option_bind].
  assert (Hw : write_bytes b 0 (zeroed (Z.to_nat n))
               = Some (zeroed (Z.to_nat n) ++ drop (Z.to_nat n) b)).
  { rewrite <- (take_drop (Z.to_nat n) b) at 1. apply write_bytes_prefix.
    unfold zeroed. rewrite length_take, length_replicate. lia. }
  rewrite Hw. cbn [mbind option_bind]. split; [done|]. split; [|done].
  pose proof (Hlt mn_using Hfree) as Hlu. pose proof (count_if_nonneg mn_using (mp_nodes mp)).
  pose proof (count_if_le (fun nd => negb (mn_using nd)) (mp_nodes mp)).
  pose proof (count_if_nonneg (fun nd => negb (mn_using nd)) (mp_nodes mp)).
  pose proof (count_small mp (using_nodes st + 1) Hfew ltac:(unfold st; lia)) as Eu.
  pose proof (count_small mp (free_nodes st - 1) Hfew ltac:(unfold st; lia)) as Ef.
  unfold room in Hfew. rewrite Hl in *. rewrite alter_mid.
  rewrite fmap_app, fmap_cons in Ha. constructor; cbn [mp_nodes mp_purposes mp_stat mp_mem mp_next
    total_size total_nodes using_nodes free_nodes].
  - unfold room. cbn [mp_nodes]. rewrite !length_app in *. done.
  - by rewrite fmap_app, fmap_cons.
  - apply Forall_app in Hx as [Hx1 [Hx2 Hx3]%Forall_cons]. apply Forall_app. split; [done|].
    by constructor.
  - assert (Hlen : length (zeroed (Z.to_nat n) ++ drop (Z.to_nat n) b) = Z.to_nat (mn_size nd)).
    { unfold zeroed. rewrite length_app, length_replicate, length_drop. lia. }
    assert (Hblk : Forall (fun nd' => 0 < mn_size nd' /\ exists b', <[mn_address nd :=
        zeroed (Z.to_nat n) ++ drop (Z.to_nat n) b]> (mp_mem mp) !! mn_address nd' = Some b'
        /\ length b' = Z.to_nat (mn_size nd')) (l1 ++ nd :: l2)).
    { apply Forall_forall. intros nd' Hin. rewrite Forall_forall in Hb.
      destruct (Hb nd' Hin) as (Hs' & b' & Hm' & Hl'). split; [done|].
      destruct (decide (mn_address nd' = mn_address nd)) as [He|He].
      - rewrite He, lookup_insert_eq. eexists. split; [done|]. rewrite Hlen.
        rewrite He, Hmem in Hm'. injection Hm' as <-. congruence.
      - rewrite lookup_insert_ne by done. eauto. }
    apply Forall_app in Hblk as [Hb1 [Hb2 Hb3]%Forall_cons]. apply Forall_app. split; [done|].
    by constructor.
  - unfold st. rewrite Ht, !length_app. done.
  - unfold st. rewrite Hs, !sum_sizes_mid. done.
  - rewrite Eu. unfold st. rewrite Hu, !count_if_mid, Hfree. simpl. lia.
  - rewrite Ef. unfold st. rewrite Hf, !count_if_mid, Hfree. simpl. lia.
  - done.
  - intros s. rewrite Hc', Hc, !count_if_mid. unfold uses at 1 3. rewrite Hfree. simpl.
    rewrite bool_decide_decide. case_decide; lia.
  - done.
Qed.

(** Obtaining a block from the system. *)
Definition grow (mp : mem_pool) (n : Z) : mem_pool :=
  let st := mp_stat mp in
  MemPool (mem_node_create (mp_next mp) n :: mp_nodes mp) (mp_purposes mp)
    (PoolStat (i64 (total_size st + n)) (i32 (total_nodes st + 1)) (using_nodes st) (free_nodes st + 1))
    (<[mp_next mp := zeroed (Z.to_nat n)]> (mp_mem mp)) (Pos.succ (mp_next mp)).

Lemma grow_ok mp n : pool_ok mp -> room 1 mp -> 0 < n -> pool_ok (grow mp n).
Proof.
  unfold room. intros [Hfew Ha Hx Hb Ht Hs Hu Hf Hn Hc Hp] Hroom Hpos. constructor; cbn [grow mp_nodes mp_purposes mp_stat
    mp_mem mp_next total_size total_nodes using_nodes free_nodes].
  - unfold room. simpl. lia.
  - rewrite fmap_cons. constructor; [|done]. intros (nd & He & Hin)%list_elem_of_fmap.
    rewrite Forall_forall in Hx. specialize (Hx nd Hin). simpl in He. lia.
  - constructor; [simpl; lia|]. eapply Forall_impl; [exact Hx|]. simpl. lia.
  - constructor.
    + split; [done|]. simpl. rewrite lookup_insert_eq. eexists. split; [done|].
      unfold zeroed. by rewrite length_replicate.
    + apply Forall_forall. intros nd Hin. rewrite Forall_forall in Hb, Hx.
      destruct (Hb nd Hin) as (Hsz & b & Hm & Hl). split; [done|]. exists b. split; [|done].
      rewrite lookup_insert_ne; [done|]. specialize (Hx nd Hin). lia.
  - rewrite Ht, i32_small by (unfold in_i32; lia). simpl. lia.
  - rewrite Hs, wrap_s_add_l by lia. simpl. f_equal. lia.
  - rewrite Hu. simpl. lia.
  - rewrite Hf. simpl. lia.
  - done.
  - intros s. rewrite Hc. simpl. done.
  - done.
Qed.

(** What a successful [mp_malloc] of [n] bytes does. *)
Record allocated (mp : mem_pool) (n : Z) (mp' : mem_pool) (a : positive) : Prop := Allocated {
  al_ok : pool_ok mp';
  al_using : exists nd, nd ∈ mp_nodes mp' /\ mn_address nd = a /\ mn_using nd = true /\ n <= mn_size nd;
  al_unused : forall nd, nd ∈ mp_nodes mp -> mn_using nd = true -> mn_address nd <> a;
  al_zero : exists rest, mp_mem mp' !! a = Some (zeroed (Z.to_nat n) ++ rest);
  al_others : forall nd, nd ∈ mp_nodes mp -> mn_address nd <> a ->
    nd ∈ mp_nodes mp' /\ mp_mem mp' !! mn_address nd = mp_mem mp !! mn_address nd;
  al_best : forall nd, nd ∈ mp_nodes mp -> fits n nd ->
    exists nd', nd' ∈ mp_nodes mp /\ mn_address nd' = a /\ fits n nd' /\ mn_size nd' <= mn_size nd;
  al_keep : forall nd, nd ∈ mp_nodes mp ->
    exists nd', nd' ∈ mp_nodes mp' /\ mn_address nd' = mn_address nd /\ mn_size nd' = mn_size nd;
  al_new : (forall nd, nd ∈ mp_nodes mp -> mn_address nd <> a) ->
    length (mp_nodes mp') = S (length (mp_nodes mp));
}.

Lemma address_unique mp nd nd' :
  pool_ok mp -> nd ∈ mp_nodes mp -> nd' ∈ mp_nodes mp -> mn_address nd = mn_address nd' -> nd = nd'.
Proof.
  intros Hok Hin Hin' He. pose proof (po_addr _ Hok) as Hnd. revert Hnd Hin Hin'.
  generalize (mp_nodes mp) as l. induction l as [|x l IH]; intros Hnd Hin Hin'.
  { by apply list_elem_of_In in Hin. }
  rewrite fmap_cons in Hnd. apply NoDup_cons in Hnd as [Hx Hnd].
  apply elem_of_cons in Hin as [->|Hin]; apply elem_of_cons in Hin' as [->|Hin']; auto.
  - destruct Hx. rewrite He. by apply list_elem_of_fmap_2.
  - destruct Hx. rewrite <- He. by apply list_elem_of_fmap_2.
Qed.

Lemma alter_elem (f : mem_node -> mem_node) l1 nd l2 nd' :
  nd' ∈ l1 ++ nd :: l2 -> nd' <> nd -> nd' ∈ alter f (length l1) (l1 ++ nd :: l2).
Proof.
  rewrite alter_mid, !elem_of_app, !elem_of_cons. intros [H|[H|H]] Hne; auto. done.
Qed.

Lemma reuse_allocated mp i nd purpose n mp' b :
  pool_ok mp -> mp_nodes mp !! i = Some nd -> fits n nd ->
  (forall nd', nd' ∈ mp_nodes mp -> fits n nd' -> mn_size nd <= mn_size nd') ->
  pool_ok mp' -> mp_nodes mp' = alter (set_using purpose) i (mp_nodes mp) ->
  mp_mem mp' = <[mn_address nd := zeroed (Z.to_nat n) ++ drop (Z.to_nat n) b]> (mp_mem mp) ->
  allocated mp n mp' (mn_address nd).
Proof.
  intros Hok Hi Hfit Hbest Hok' Hnodes Hmem.
  pose proof (list_elem_of_lookup_2 _ _ _ Hi) as Hin.
  destruct (lookup_split _ _ _ Hi) as (l1 & l2 & Hl & ->).
  constructor; [done| | | | | | |].
  - exists (set_using purpose nd). rewrite Hnodes, Hl, alter_mid.
    split; [apply elem_of_app; right; by apply elem_of_cons; left|].
    split; [done|]. split; [done|]. apply Hfit.
  - intros nd' Hin' Hu He. rewrite (address_unique mp nd' nd Hok Hin' Hin He) in Hu.
    destruct Hfit. congruence.
  - eexists. rewrite Hmem. apply lookup_insert_eq.
  - intros nd' Hin' Hne. split; [|rewrite Hmem; by rewrite lookup_insert_ne].
    rewrite Hnodes, Hl. rewrite Hl in Hin'. apply alter_elem; [done|]. by intros ->.
  - intros nd' Hin' Hf'. exists nd. auto.
  - intros nd' Hin'. destruct (decide (nd' = nd)) as [->|Hne].
    + exists (set_using purpose nd). rewrite Hnodes, Hl, alter_mid. split; [|done].
      apply elem_of_app. right. by apply elem_of_cons; left.
    + exists nd'. split; [|done]. rewrite Hnodes, Hl. rewrite Hl in Hin'. by apply alter_elem.
  - intros Hno. by destruct (Hno nd Hin).
Qed.

Lemma mp_malloc_spec mp purpose n :
  pool_ok mp -> room 1 mp -> 0 < n ->
  exists mp' a, mp_malloc plenty mp purpose n = Some (mp', Some a) /\ allocated mp n mp' a.
Proof.
  intros Hok Hroom Hn. unfold mp_malloc. rewrite (proj2 (Z.eqb_neq _ _)) by lia.
  pose proof (best_fit_spec n (mp_nodes mp) [] None) as Hb. simpl in Hb.
  destruct (best_fit n 0 (mp_nodes mp) None) as [[i nd]|].
  - destruct Hb as (Hi & Hf & Hbest); [intros nd' H; by apply list_elem_of_In in H|].
    destruct (take_node_ok mp i nd purpose n Hok Hi Hf Hn) as (mp' & b & E & Hok' & Hnodes & _ & _ & Hmem).
    exists mp', (mn_address nd). split; [exact E|]. by eapply reuse_allocated.
  - pose proof (grow_ok mp n Hok Hroom Hn) as Hg.
    assert (Hnone : forall nd, nd ∈ mp_nodes mp -> ~ fits n nd).
    { apply Hb. intros nd' H. by apply list_elem_of_In in H. }
    destruct (take_node_ok (grow mp n) 0 (mem_node_create (mp_next mp) n) purpose n Hg eq_refl)
      as (mp' & b & E & Hok' & Hnodes & _ & _ & Hmem); [by split; simpl|done|].
    exists mp', (mp_next mp). split.
    { cbn [grow mp_stat total_size total_nodes using_nodes free_nodes] in E.
      rewrite Z.add_simpl_r, (count_small mp (free_nodes (mp_stat mp))) in E; [exact E|apply Hok|]. rewrite (po_free _ Hok).
      pose proof (count_if_le (fun nd => negb (mn_using nd)) (mp_nodes mp)).
      pose proof (count_if_nonneg (fun nd => negb (mn_using nd)) (mp_nodes mp)). lia. }
    assert (Hfresh : forall nd, nd ∈ mp_nodes mp -> mn_address nd <> mp_next mp).
    { intros nd Hin He. pose proof (po_next _ Hok) as Hx. rewrite Forall_forall in Hx.
      specialize (Hx nd Hin). lia. }
    constructor; [done| | | | | | |].
    + exists (set_using purpose (mem_node_create (mp_next mp) n)). rewrite Hnodes.
      split; [by apply elem_of_cons; left|]. done.
    + intros nd Hin _. by apply Hfresh.
    + eexists. rewrite Hmem. apply lookup_insert_eq.
    + intros nd Hin Hne. rewrite Hnodes, Hmem. split; [by apply elem_of_cons; right|].
      simpl. by rewrite !lookup_insert_ne by done.
    + intros nd Hin Hf. by destruct (Hnone nd Hin).
    + intros nd Hin. exists nd. rewrite Hnodes. split; [by apply elem_of_cons; right|done].
    + intros _. rewrite Hnodes. done.
Qed.

(** The purpose has no entry yet, and there is no memory for one. *)
Definition denied (os : os_reply) (mp : mem_pool) (purpose : string) : Prop :=
  purpose_ok os = false /\ find_purpose (mp_purposes mp) purpose = None.

#[export] Instance denied_dec os mp purpose : Decision (denied os mp purpose).
Proof. apply _. Defined.

Lemma add_purpose_reply (ok : bool) ps purpose :
  ok = false /\ find_purpose ps purpose = None \/ add_purpose ok ps purpose = add_purpose true ps purpose.
Proof. unfold add_purpose. destruct (find_purpose ps purpose) as [[]|], ok; auto. Qed.

Lemma mp_malloc_cases os mp purpose n :
  mp_malloc os mp purpose n = mp_malloc plenty mp purpose n
  \/ mp_malloc os mp purpose n = Some (mp, None)
  \/ denied os mp purpose /\ mp_malloc os mp purpose n = None.
Proof.
  unfold mp_malloc. destruct (n =? 0); [auto|].
  assert (Htake : forall mp1 i st, mp_purposes mp1 = mp_purposes mp ->
    take_node (purpose_ok os) mp1 i purpose n st = take_node true mp1 i purpose n st
    \/ denied os mp purpose /\ take_node (purpose_ok os) mp1 i purpose n st = None).
  { intros mp1 i st Hp. unfold take_node. destruct (mp_nodes mp1 !! i); [|by left]. cbn [mbind option_bind]. rewrite Hp.
    destruct (add_purpose_reply (purpose_ok os) (mp_purposes mp) purpose) as [[Ho Hn]| ->]; [|by left].
    right. split; [done|]. unfold add_purpose. by rewrite Hn, Ho. }
  destruct (best_fit _ _ _ _) as [[]|].
  - edestruct Htake as [E|[H E]]; [reflexivity|left; exact E|right; right; by split].
  - destruct (block_ok os); [|auto]. edestruct Htake as [E|[H E]]; [|left; exact E|right; right; split; [exact H|exact E]]. done.
Qed.

Lemma mp_malloc_total os mp purpose n :
  pool_ok mp -> room 1 mp -> 0 <= n ->
  (denied os mp purpose /\ mp_malloc os mp purpose n = None)
  \/ exists mp' r, mp_malloc os mp purpose n = Some (mp', r) /\ pool_ok mp'
    /\ match r with None => mp' = mp | Some a => 0 < n /\ allocated mp n mp' a end.
Proof.
  intros Hok Hroom Hn. destruct (mp_malloc_cases os mp purpose n) as [-> |[-> |[Hd ->]]]; [|right; by eexists _, None|by left].
  right. destruct (decide (n = 0)) as [->|Hn0]; [by eexists _, None|].
  destruct (mp_malloc_spec mp purpose n Hok Hroom) as (mp' & a & E & Ha); [lia|].
  exists mp', (Some a). split; [done|]. split; [apply Ha|]. split; [lia|done].
Qed.

(** ** Release *)

Definition release (a : positive) (nd : mem_node) : mem_node :=
  if decide (mn_address nd = a) then set_free nd else nd.

Lemma set_free_id nd : mn_using nd = false -> set_free nd = nd.
Proof. destruct nd. simpl. by intros ->. Qed.

Lemma release_absent a (nodes : list mem_node) : (forall nd, nd ∈ nodes -> mn_address nd <> a) -> release a <$> nodes = nodes.
Proof.
  induction nodes as [|nd nodes IH]; intros H; [done|]. rewrite fmap_cons. unfold release at 1.
  rewrite decide_False by (apply H; by apply elem_of_cons; left). f_equal. apply IH.
  intros nd' Hin. apply H. by apply elem_of_cons; right.
Qed.

Lemma find_address_split (nodes : list mem_node) a i nd :
  NoDup (mn_address <$> nodes) -> find_address nodes a = Some (i, nd) ->
  exists l1 l2, nodes = l1 ++ nd :: l2 /\ i = length l1 /\ mn_address nd = a
    /\ release a <$> nodes = l1 ++ set_free nd :: l2.
Proof.
  intros Hnd (Hi & Ha & _)%list_find_Some. destruct (lookup_split _ _ _ Hi) as (l1 & l2 & -> & ->).
  exists l1, l2. split_and!; [done|done|done|].
  rewrite fmap_app, fmap_cons in Hnd. pose proof Hnd as (_ & N12 & [N2 _]%NoDup_cons)%NoDup_app.
  rewrite fmap_app, fmap_cons. rewrite !release_absent.
  - unfold release. by rewrite decide_True.
  - intros nd' Hin He. apply N2. rewrite Ha, <- He. by apply list_elem_of_fmap_2.
  - intros nd' Hin He. apply (N12 (mn_address nd')); [by apply list_elem_of_fmap_2|].
    apply elem_of_cons. left. congruence.
Qed.

Lemma mp_free_spec mp a :
  pool_ok mp -> exists mp', mp_free mp (Some a) = Some mp' /\ pool_ok mp'
    /\ mp_nodes mp' = release a <$> mp_nodes mp /\ mp_mem mp' = mp_mem mp.
Proof.
  intros Hok. unfold mp_free. destruct (find_address (mp_nodes mp) a) as [[i nd]|] eqn:Hf; cycle 1.
  { exists mp. split_and!; try done. rewrite release_absent; [done|].
    apply list_find_None in Hf. by rewrite Forall_forall in Hf. }
  destruct (find_address_split _ _ _ _ (po_addr _ Hok) Hf) as (l1 & l2 & Hl & -> & Ha & Hrel).
  destruct (mn_using nd) eqn:Hu; cycle 1.
  { exists mp. split_and!; try done. by rewrite Hrel, set_free_id. }
  pose proof (po_counts _ Hok (mn_purpose nd)) as Hcnt. rewrite Hl, count_if_mid in Hcnt.
  assert (Hmany : Z.of_nat (length (mp_nodes mp)) < 2 ^ 31) by (pose proof (po_few _ Hok) as H; unfold room in H; lia).
  unfold uses at 1 in Hcnt. rewrite Hu, bool_decide_eq_true_2 in Hcnt by done. simpl in Hcnt.
  pose proof (count_if_nonneg (uses (mn_purpose nd)) (l1 ++ l2)) as Hnn.
  destruct (sub_purpose_spec (mp_purposes mp) (mn_purpose nd)
    (PurposesOk _ (po_names _ Hok) (po_positive _ Hok))) as (ps & E & [Hn' Hp'] & Hc'); [lia|].
  rewrite E. cbn [mbind option_bind]. eexists. split; [done|]. rewrite Hl, alter_mid in *.
  split; [|by rewrite Hrel]. destruct Hok as [Pm Pa Px Pb Pt Ps Pu Pf Pn Pc Pp].
  pose proof (count_if_le mn_using (l1 ++ l2)) as Lu. pose proof (count_if_nonneg mn_using (l1 ++ l2)) as Nu.
  pose proof (count_if_le (fun nd => negb (mn_using nd)) (l1 ++ l2)) as Lf.
  pose proof (count_if_nonneg (fun nd => negb (mn_using nd)) (l1 ++ l2)) as Nf.
  unfold room in Pm. rewrite Hl in *. rewrite !length_app in *. cbn [length] in *. constructor; cbn [mp_nodes mp_purposes mp_stat mp_mem mp_next
    total_size total_nodes using_nodes free_nodes]; try done.
  - unfold room. cbn [mp_nodes]. rewrite length_app. exact Pm.
  - rewrite fmap_app, fmap_cons in *. done.
  - apply Forall_app in Px as [H1 [H2 H3]%Forall_cons]. apply Forall_app. split; [done|]. by constructor.
  - apply Forall_app in Pb as [H1 [H2 H3]%Forall_cons]. apply Forall_app. split; [done|]. by constructor.
  - rewrite Pt, !length_app. done.
  - rewrite Ps, !sum_sizes_mid. done.
  - rewrite Pu, !count_if_mid, Hu. simpl. rewrite i32_small by (unfold in_i32; lia). lia.
  - rewrite Pf, !count_if_mid, Hu. simpl. rewrite i32_small by (unfold in_i32; lia). lia.
  - intros s. rewrite Hc', Pc, !count_if_mid. unfold uses at 1 3. rewrite Hu. simpl.
    rewrite bool_decide_decide. repeat case_decide; lia.
Qed.

(** ** Reallocation *)

Lemma pool_ok_write mp a b b' :
  pool_ok mp -> mp_mem mp !! a = Some b -> length b' = length b ->
  pool_ok (MemPool (mp_nodes mp) (mp_purposes mp) (mp_stat mp) (<[a := b']> (mp_mem mp)) (mp_next mp)).
Proof.
  intros [Pm Pa Px Pb Pt Ps Pu Pf Pn Pc Pp] Hm Hl. constructor; try done. simpl.
  eapply Forall_impl; [exact Pb|]. intros nd (Hs & c & Hc & Hlc). split; [done|].
  destruct (decide (a = mn_address nd)) as [->|Hne].
  - rewrite lookup_insert_eq. exists b'. split; [done|]. congruence.
  - rewrite lookup_insert_ne by done. eauto.
Qed.

Lemma block_of mp nd :
  pool_ok mp -> nd ∈ mp_nodes mp -> exists b, mp_mem mp !! mn_address nd = Some b
    /\ length b = Z.to_nat (mn_size nd) /\ 0 < mn_size nd.
Proof.
  intros Hok Hin. pose proof (po_block _ Hok) as Hb. rewrite Forall_forall in Hb.
  destruct (Hb nd Hin) as (? & b & ? & ?). eauto.
Qed.

Lemma find_address_in (nodes : list mem_node) a i nd : find_address nodes a = Some (i, nd) -> nd ∈ nodes /\ mn_address nd = a.
Proof. intros (Hi & Ha & _)%list_find_Some. split; [by eapply list_elem_of_lookup_2|done]. Qed.

(** The copy made by [mp_realloc], when the allocation has succeeded. *)
Lemma realloc_copy mp nd n mp1 t :
  pool_ok mp -> nd ∈ mp_nodes mp -> 0 < n -> allocated mp n mp1 t ->
  let k := Z.to_nat (if n <? mn_size nd then n else mn_size nd) in
  exists old new, mp_mem mp1 !! mn_address nd = Some old /\ mp_mem mp1 !! t = Some new
    /\ read_bytes old 0 k = Some (take k old)
    /\ write_bytes new 0 (take k old) = Some (take k old ++ drop k new)
    /\ length (take k old ++ drop k new) = length new /\ length (take k old) = k.
Proof.
  intros Hok Hin Hn Hal k.
  destruct (al_keep _ _ _ _ Hal nd Hin) as (nd' & Hin' & Ha' & Hs').
  destruct (block_of mp1 nd' (al_ok _ _ _ _ Hal) Hin') as (old & Hold & Hlold & Hpos).
  destruct (al_using _ _ _ _ Hal) as (ndt & Hint & Hat & _ & Hnt).
  destruct (block_of mp1 ndt (al_ok _ _ _ _ Hal) Hint) as (new & Hnew & Hlnew & _).
  rewrite Ha' in Hold. rewrite Hat in Hnew. exists old, new.
  assert (Hk : (k <= length old /\ k <= length new)%nat).
  { unfold k. destruct (Z.ltb_spec n (mn_size nd)); lia. }
  assert (Hlk : length (take k old) = k) by (rewrite length_take; lia).
  split_and!; [done|done| | | |done].
  - rewrite <- (take_drop k old) at 1. by apply read_bytes_prefix.
  - rewrite <- (take_drop k new) at 1. apply write_bytes_prefix. rewrite !length_take. lia.
  - rewrite length_app, Hlk, length_drop. lia.
Qed.

Lemma mp_realloc_total os mp a n :
  pool_ok mp -> room 1 mp -> 0 <= n ->
  (denied os mp "mp_realloc" /\ mp_realloc os mp a n = None)
  \/ exists mp' r, mp_realloc os mp a n = Some (mp', r) /\ pool_ok mp'.
Proof.
  intros Hok Hroom Hn. unfold mp_realloc. destruct (find_address (mp_nodes mp) a) as [[i nd]|] eqn:Hf; [|eauto].
  apply find_address_in in Hf as [Hin Ha].
  destruct (mp_malloc_total os mp "mp_realloc" n Hok Hroom Hn) as [[Hd ->]|(mp1 & [t|] & E & Hok1 & Hr)]; [by left| |];
    right; rewrite E; cbn [mbind option_bind]; [|eauto].
  destruct Hr as [Hpos Hal].
  destruct (realloc_copy mp nd n mp1 t Hok Hin Hpos Hal) as (old & new & H1 & H2 & H3 & H4 & H5 & H6).
  rewrite <- Ha, H1. cbn [mbind option_bind]. rewrite H2. cbn [mbind option_bind].
  rewrite H3. cbn [mbind option_bind]. rewrite H4. cbn [mbind option_bind].
  destruct (mp_free_spec _ (mn_address nd) (pool_ok_write mp1 t new _ Hok1 H2 H5)) as (mp' & E' & Hok' & _).
  rewrite E'. cbn [mbind option_bind]. eauto.
Qed.

(** ** How many nodes there are *)

Lemma take_node_length ok mp i purpose n st mp' r :
  take_node ok mp i purpose n st = Some (mp', r) -> length (mp_nodes mp') = length (mp_nodes mp).
Proof.
  unfold take_node. intros H. apply bind_Some in H as (nd & _ & H). apply bind_Some in H as (ps & _ & H).
  apply bind_Some in H as (mem & _ & [= <- _]). cbn [mp_nodes]. apply length_alter.
Qed.

Lemma mp_malloc_length os mp purpose n mp' r :
  mp_malloc os mp purpose n = Some (mp', r) -> (length (mp_nodes mp') <= S (length (mp_nodes mp)))%nat.
Proof.
  unfold mp_malloc. destruct (n =? 0); [intros [= <- _]; lia|]. destruct (best_fit _ _ _ _) as [[]|].
  - intros ->%take_node_length. lia.
  - destruct (block_ok os); [|intros [= <- _]; lia]. intros ->%take_node_length. done.
Qed.

Lemma mp_free_length mp p mp' : mp_free mp p = Some mp' -> length (mp_nodes mp') = length (mp_nodes mp).
Proof.
  unfold mp_free. destruct p as [a|]; [|by intros [= <-]]. destruct (find_address _ _) as [[i nd]|]; [|by intros [= <-]].
  destruct (mn_using nd); [|by intros [= <-]]. intros H. apply bind_Some in H as (ps & _ & [= <-]). cbn [mp_nodes]. apply length_alter.
Qed.

Lemma mp_realloc_length os mp a n mp' r :
  mp_realloc os mp a n = Some (mp', r) -> (length (mp_nodes mp') <= S (length (mp_nodes mp)))%nat.
Proof.
  unfold mp_realloc. destruct (find_address _ _) as [[i nd]|]; [|intros [= <- _]; lia].
  intros H. apply bind_Some in H as ([mp1 [t|]] & E & H); apply mp_malloc_length in E; [|by injection H as <- _].
  do 4 (apply bind_Some in H as (? & _ & H)). apply bind_Some in H as (mp2 & E2 & [= <- _]).
  apply mp_free_length in E2. cbn [mp_nodes] in E2. lia.
Qed.

Lemma room_le k j mp mp' : room (k + j) mp -> (length (mp_nodes mp') <= j + length (mp_nodes mp))%nat -> room k mp'.
Proof. unfold room. lia. Qed.

(** ** The properties *)

Inductive pool_op :=
  | Malloc (os : os_reply) (purpose : string) (n : Z)
  | Free (p : option positive)
  | Realloc (os : os_reply) (addr : positive) (n : Z).

Definition op_size (op : pool_op) : Z :=
  match op with Malloc _ _ n | Realloc _ _ n => n | Free _ => 0 end.

Definition pool_step (mp : mem_pool) (op : pool_op) : option mem_pool :=
  match op with
  | Malloc os purpose n => '(mp, _) ← mp_malloc os mp purpose n; Some mp
  | Free p => mp_free mp p
  | Realloc os addr n => '(mp, _) ← mp_realloc os mp addr n; Some mp
  end.

Fixpoint pool_run (mp : mem_pool) (ops : list pool_op) : option mem_pool :=
  match ops with
  | [] => Some mp
  | op :: ops => mp ← pool_step mp op; pool_run mp ops
  end.

(** The operation needs an entry of the purposes that there is no memory for. *)
Definition op_denied (mp : mem_pool) (op : pool_op) : Prop :=
  match op with
  | Malloc os purpose _ => denied os mp purpose
  | Realloc os _ _ => denied os mp "mp_realloc"
  | Free _ => False
  end.

Lemma pool_create_ok : pool_ok mp_create.
Proof. constructor; simpl; try done; try constructor. Qed.

Lemma pool_step_ok mp op :
  pool_ok mp -> room 1 mp -> 0 <= op_size op ->
  (op_denied mp op /\ pool_step mp op = None) \/ exists mp', pool_step mp op = Some mp' /\ pool_ok mp'.
Proof.
  intros Hok Hroom Hop. destruct op as [os purpose n|[a|]|os a n]; simpl in Hop; unfold pool_step.
  - destruct (mp_malloc_total os mp purpose n Hok Hroom Hop) as [[Hd ->]|(mp' & r & -> & H & _)]; simpl; eauto.
  - destruct (mp_free_spec mp a Hok) as (mp' & -> & H & _). eauto.
  - right. exists mp. done.
  - destruct (mp_realloc_total os mp a n Hok Hroom Hop) as [[Hd ->]|(mp' & r & -> & H)]; simpl; eauto.
Qed.

Lemma pool_step_length mp op mp' :
  pool_step mp op = Some mp' -> (length (mp_nodes mp') <= 1 + length (mp_nodes mp))%nat.
Proof.
  destruct op as [os purpose n|p|os a n]; unfold pool_step.
  - intros H. apply bind_Some in H as ([? r] & E & [= ->]). by apply mp_malloc_length in E.
  - intros ->%mp_free_length. lia.
  - intros H. apply bind_Some in H as ([? r] & E & [= ->]). by apply mp_realloc_length in E.
Qed.

Lemma pool_run_ok ops : forall mp,
  pool_ok mp -> room (length ops) mp -> Forall (fun op => 0 <= op_size op) ops ->
  (exists mp', pool_run mp ops = Some mp' /\ pool_ok mp')
  \/ exists pre op post mp', ops = pre ++ op :: post /\ pool_run mp pre = Some mp' /\ pool_ok mp'
      /\ op_denied mp' op /\ pool_run mp ops = None.
Proof.
  induction ops as [|op ops IH]; intros mp Hok Hroom Hs; [left; by exists mp|].
  apply Forall_cons in Hs as [Hop Hs]. cbn [pool_run length] in *.
  destruct (pool_step_ok mp op Hok) as [[Hd E]|(mp1 & E & Hok1)]; [unfold room in *; lia|done| |].
  { right. exists [], op, ops, mp. by rewrite E. }
  rewrite E. cbn [mbind option_bind].
  destruct (IH mp1 Hok1) as [Hend|(pre & op' & post & mp' & -> & Epre & Hrest)]; [|done|by left|].
  { apply pool_step_length in E. eapply (room_le _ 1); [|exact E]. by rewrite Nat.add_1_r. }
  right. exists (op :: pre), op', post, mp'. cbn [app pool_run]. rewrite E. done.
Qed.

(** C29: Fewer than 2^31 allocations, releases (of any address, twice or not at
    all) and reallocations are run on a new pool, with any answers of the
    system's [malloc].  Either all of them end and the statistics are exact:
    the number of the nodes (and, modulo 2^64, their total size), how many are
    in use and free, and for each purpose how many nodes in use carry it; or,
    with the same invariant up to there, the run stops at a request with a
    purpose that is not in the table when there is no memory for a new entry:
    there [add_purpose] dereferences the NULL of [purpose_node_create].  No
    assertion fails and no access leaves a block. *)
Theorem pool_invariant (ops : list pool_op)
    (Hsize : Forall (fun op => 0 <= op_size op) ops) (Hfew : Z.of_nat (length ops) < 2 ^ 31) :
  (exists mp, pool_run mp_create ops = Some mp /\ pool_ok mp)
  \/ exists pre op post mp, ops = pre ++ op :: post /\ pool_run mp_create pre = Some mp /\ pool_ok mp
      /\ op_denied mp op /\ pool_run mp_create ops = None.
Proof. apply pool_run_ok; [apply pool_create_ok|exact Hfew|done]. Qed.

Definition demo_ops : list pool_op :=
  [Malloc plenty "a" 16; Malloc (OsReply true false) "b" 8; Free (Some 1%positive);
   Malloc plenty "a" 4; Realloc plenty 2%positive 32; Free (Some 2%positive)].

Lemma pool_invariant_witness :
  (exists mp, pool_run mp_create demo_ops = Some mp /\ pool_ok mp)
  \/ exists pre op post mp, demo_ops = pre ++ op :: post /\ pool_run mp_create pre = Some mp /\ pool_ok mp
      /\ op_denied mp op /\ pool_run mp_create demo_ops = None.
Proof. apply pool_invariant; [repeat constructor; done|done]. Defined.

(** A system that has memory for the purposes: every run ends. *)
Definition well_served (op : pool_op) : Prop :=
  match op with Malloc os _ _ | Realloc os _ _ => purpose_ok os = true | Free _ => True end.

Theorem pool_run_ends ops mp : pool_ok mp -> room (length ops) mp ->
  Forall (fun op => 0 <= op_size op) ops -> Forall well_served ops ->
  exists mp', pool_run mp ops = Some mp' /\ pool_ok mp'.
Proof.
  intros Hok Hroom Hs Hw. destruct (pool_run_ok ops mp Hok Hroom Hs) as [H|(pre & op & post & mp' & -> & _ & _ & Hd & _)]; [done|].
  apply Forall_app in Hw as [_ [Hw _]%Forall_cons]. destruct op; cbn in *; [destruct Hd; congruence|done|destruct Hd; congruence].
Qed.

(** The first request with a new purpose crashes when the second [malloc]
    fails: the block is there, its entry of the purposes is not. *)
Theorem purpose_failure_crashes mp purpose n (Hok : pool_ok mp) (Hroom : room 1 mp) (Hn : 0 < n)
    (Hnew : find_purpose (mp_purposes mp) purpose = None) :
  mp_malloc (OsReply true false) mp purpose n = None
  /\ exists mp' a, mp_malloc plenty mp purpose n = Some (mp', Some a).
Proof.
  destruct (mp_malloc_spec mp purpose n Hok Hroom Hn) as (mp' & a & E & _). split; [|eauto].
  revert E. unfold mp_malloc, take_node. rewrite (proj2 (Z.eqb_neq _ _)) by lia.
  assert (H : add_purpose false (mp_purposes mp) purpose = None) by (unfold add_purpose; by rewrite Hnew).
  destruct (best_fit _ _ _ _) as [[i nd]|]; cbn [block_ok purpose_ok plenty mp_nodes mp_purposes].
  - destruct (mp_nodes mp !! i); [|done]. cbn [mbind option_bind]. by rewrite H.
  - cbn [lookup list_lookup mbind option_bind]. by rewrite H.
Qed.

Lemma purpose_failure_crashes_witness :
  mp_malloc (OsReply true false) mp_create "put_req" 64 = None
  /\ exists mp' a, mp_malloc plenty mp_create "put_req" 64 = Some (mp', Some a).
Proof. apply (purpose_failure_crashes mp_create "put_req" 64 pool_create_ok); done. Defined.

(** Given memory, [mp_malloc] returns a block of at least [n] bytes, zeroed, that no
    live allocation uses; the contents and state of every other block stay;
    the smallest free block that fits is reused, and only when none fits is a
    new one obtained. *)
Theorem malloc_best_fit mp purpose n (Hok : pool_ok mp) (Hroom : room 1 mp) (Hn : 0 < n) :
  exists mp' a, mp_malloc plenty mp purpose n = Some (mp', Some a) /\ allocated mp n mp' a.
Proof. by apply mp_malloc_spec. Qed.

Lemma malloc_best_fit_witness :
  exists mp' a, mp_malloc plenty mp_create "x" 5 = Some (mp', Some a) /\ allocated mp_create 5 mp' a.
Proof. apply (malloc_best_fit mp_create "x" 5 pool_create_ok); done. Defined.

(** [mp_realloc] of a block in use moves it: it returns another block
    that begins with the old contents, up to the smaller of the two sizes, and
    the old block is free afterwards. *)
Theorem realloc_keeps_contents mp nd n
    (Hok : pool_ok mp) (Hroom : room 1 mp) (Hin : nd ∈ mp_nodes mp) (Huse : mn_using nd = true) (Hn : 0 < n) :
  exists mp' t old new, mp_realloc plenty mp (mn_address nd) n = Some (mp', Some t)
    /\ pool_ok mp' /\ t <> mn_address nd
    /\ mp_mem mp !! mn_address nd = Some old /\ mp_mem mp' !! t = Some new
    /\ take (Z.to_nat (Z.min n (mn_size nd))) new = take (Z.to_nat (Z.min n (mn_size nd))) old
    /\ set_free nd ∈ mp_nodes mp'.
Proof.
  unfold mp_realloc. destruct (find_address (mp_nodes mp) (mn_address nd)) as [[i nd']|] eqn:Hf; cycle 1.
  { apply list_find_None in Hf. rewrite Forall_forall in Hf. by destruct (Hf nd Hin). }
  apply find_address_in in Hf as [Hin' Ha]. assert (nd' = nd) as -> by (by eapply address_unique).
  destruct (mp_malloc_spec mp "mp_realloc" n Hok Hroom Hn) as (mp1 & t & E & Hal).
  rewrite E. cbn [mbind option_bind]. pose proof (al_ok _ _ _ _ Hal) as Hok1.
  assert (Hne : mn_address nd <> t) by (by apply (al_unused _ _ _ _ Hal)).
  destruct (al_others _ _ _ _ Hal nd Hin Hne) as [Hin1 Hm1].
  destruct (realloc_copy mp nd n mp1 t Hok Hin Hn Hal) as (old & new & H1 & H2 & H3 & H4 & H5 & H6).
  rewrite H1. cbn [mbind option_bind]. rewrite H2. cbn [mbind option_bind].
  rewrite H3. cbn [mbind option_bind]. rewrite H4. cbn [mbind option_bind].
  set (k := Z.to_nat (if n <? mn_size nd then n else mn_size nd)) in *.
  assert (Hk : Z.to_nat (Z.min n (mn_size nd)) = k)
    by (unfold k; destruct (Z.ltb_spec n (mn_size nd)); lia).
  destruct (mp_free_spec _ (mn_address nd) (pool_ok_write mp1 t new _ Hok1 H2 H5))
    as (mp' & E' & Hok' & Hnodes & Hmem).
  rewrite E'. cbn [mbind option_bind mp_nodes mp_mem] in *.
  exists mp', t, old, (take k old ++ drop k new). split; [done|]. split; [done|]. split; [done|].
  split; [by rewrite <- Hm1|]. split; [rewrite Hmem; apply lookup_insert_eq|].
  rewrite Hk, Hnodes. split; [by rewrite take_app_le, take_ge by lia|].
  apply list_elem_of_fmap. exists nd. split; [|done]. unfold release. by rewrite decide_True.
Qed.

(** One block of 8 bytes in use. *)
Definition demo_node : mem_node := MemNode 8 true 1 "x" 1.
Definition demo_pool : mem_pool :=
  MemPool [demo_node] [("x"%string, 1)] (PoolStat 8 1 1 0) {[1%positive := zeroed 8]} 2.

Lemma demo_pool_ok : pool_ok demo_pool.
Proof.
  destruct (pool_run_ends [Malloc plenty "x" 8] mp_create pool_create_ok) as (mp & E & Hok); [done|by repeat constructor..|].
  assert (demo_pool = mp) as -> by (apply (inj Some); rewrite <- E; vm_compute; reflexivity). done.
Qed.

Lemma realloc_keeps_contents_witness :
  exists mp' t old new, mp_realloc plenty demo_pool 1 3 = Some (mp', Some t)
    /\ pool_ok mp' /\ t <> 1%positive
    /\ mp_mem demo_pool !! 1%positive = Some old /\ mp_mem mp' !! t = Some new
    /\ take 3 new = take 3 old /\ set_free demo_node ∈ mp_nodes mp'.
Proof.
  apply (realloc_keeps_contents demo_pool demo_node 3 demo_pool_ok); [done| |done|done].
  by apply elem_of_cons; left.
Defined.
