(* ===== verification/MemDetail.v ===== *)
(** * The rest of the memory pool (src/mem_pool.c)

    The table of what the blocks are used for, the blocks that are reserved in
    advance, and the end of the pool. *)

From S2P Require Import Prelude MemPool.

(** ** What the blocks are used for *)

(** [sizeof] of [mem_pool_using_detail] and of [using_node]. *)
Definition DETAIL_SIZE : Z := 16.
Definition USING_NODE_SIZE : Z := 16.

Record mem_pool_using_detail := Detail { node_count : Z; nodes : list (option string * Z) }.

(** The loop over the purposes: entry [i] of the array is next. *)
Fixpoint fill_nodes (i : nat) (ps : list (string * Z)) (l : list (option string * Z)) : option (list (option string * Z)) :=
  match ps with
  | [] => Some l
  | p :: ps => if (i <? length l)%nat then fill_nodes (S i) ps (<[i := (Some p.1, p.2)]> l) else None
  end.

(** [other] is what other threads do to the pool after the array has been
    allocated and before the mutex is taken for the loop. *)
Definition get_mp_stat_detail (os1 os2 : os_reply) (other : mem_pool -> mem_pool) (mp : mem_pool)
    : option (mem_pool * option mem_pool_using_detail) :=
  '(mp, detail) ← mp_malloc os1 mp "get_mp_stat_detail_struct" DETAIL_SIZE;
  match detail with
  | None => Some (mp, None)
  | Some a =>
      let count := get_purpose_count mp in
      if count <=? 0 then Some (mp, Some (Detail count [])) else
      let count := i32 (count + 1) in
      '(mp, array) ← mp_malloc os2 mp "get_mp_stat_detail_nodes" (USING_NODE_SIZE * count);
      match array with
      | None => mp ← mp_free mp (Some a); Some (mp, None)
      | Some _ =>
          let mp := other mp in
          l ← fill_nodes 0 (mp_purposes mp) (replicate (Z.to_nat count) (None, 0));
          Some (mp, Some (Detail count l))
      end
  end.

(** ** Reserving *)

Record batch_reserved := Reserved { r_purpose : string; r_size : Z; r_count : nat }.

(** The inner loop; [false] is [cont] after a failed allocation. *)
Fixpoint reserve_one (oks : nat -> os_reply) (purpose : string) (size : Z) (count : nat) (mp : mem_pool) : option (mem_pool * bool) :=
  match count with
  | O => Some (mp, true)
  | S count =>
      '(mp, p) ← mp_malloc (oks count) mp purpose size;
      match p with
      | None => Some (mp, false)
      | Some _ => mp ← mp_free mp p; reserve_one oks purpose size count mp
      end
  end.

Fixpoint do_reserve (oks : string -> nat -> os_reply) (reserveds : list batch_reserved) (mp : mem_pool) : option mem_pool :=
  match reserveds with
  | [] => Some mp
  | r :: reserveds =>
      '(mp, cont) ← reserve_one (oks (r_purpose r)) (r_purpose r) (r_size r) (r_count r) mp;
      if cont : bool then do_reserve oks reserveds mp else Some mp
  end.

(** ** The end *)

(** [mp_destroy]: [Some false] leaves the pool as it is, since a block is in
    use.  Every node is released inside the loop that goes on to its successor,
    so the loop reads memory that was released. *)
Definition mp_destroy (mp : mem_pool) : option bool :=
  if existsb mn_using (mp_nodes mp) then Some false
  else match mp_nodes mp with [] => Some true | _ => None end.

(** ** Correctness *)

Lemma fill_nodes_spec ps : forall pre suf, (length ps <= length suf)%nat ->
  fill_nodes (length pre) ps (pre ++ suf) = Some (pre ++ map (fun p => (Some p.1, p.2)) ps ++ drop (length ps) suf).
Proof.
  induction ps as [|p ps IH]; intros pre suf Hl; [done|]. destruct suf as [|x suf]; [simpl in Hl; lia|].
  cbn [fill_nodes length map drop]. rewrite (proj2 (Nat.ltb_lt _ _)) by (rewrite length_app; simpl; lia).
  replace (<[length pre:=(Some p.1, p.2)]> (pre ++ x :: suf)) with ((pre ++ [(Some p.1, p.2)]) ++ suf)
    by (by rewrite insert_app_r_alt, Nat.sub_diag, <- app_assoc by lia).
  specialize (IH (pre ++ [(Some p.1, p.2)]) suf). rewrite length_app, Nat.add_1_r in IH. rewrite IH by (simpl in Hl; lia).
  by rewrite <- app_assoc.
Qed.

Lemma fill_nodes_short ps : forall i l, (i <= length l < i + length ps)%nat -> fill_nodes i ps l = None.
Proof.
  induction ps as [|p ps IH]; intros i l Hl; cbn [fill_nodes]; [simpl in Hl; lia|].
  destruct (Nat.ltb_spec i (length l)); [|done]. apply IH. rewrite length_insert. simpl in Hl. lia.
Qed.

Lemma take_node_purposes ok mp i purpose n st mp' a : take_node ok mp i purpose n st = Some (mp', Some a) ->
  add_purpose ok (mp_purposes mp) purpose = Some (mp_purposes mp') /\ length (mp_nodes mp') = length (mp_nodes mp).
Proof.
  intros H. split; [|by eapply take_node_length]. unfold take_node in H. apply bind_Some in H as (nd & _ & H).
  apply bind_Some in H as (ps & -> & H). by apply bind_Some in H as (mem & _ & [= <- _]).
Qed.

Lemma malloc_purposes os mp purpose n mp' a : mp_malloc os mp purpose n = Some (mp', Some a) ->
  add_purpose (purpose_ok os) (mp_purposes mp) purpose = Some (mp_purposes mp').
Proof.
  unfold mp_malloc. destruct (n =? 0); [done|]. destruct (best_fit _ _ _ _) as [[i nd]|].
  - intros H. by apply take_node_purposes in H as [H _].
  - destruct (block_ok os); [|done]. intros H. by apply take_node_purposes in H as [H _].
Qed.

(** What [add_purpose] does to the names of the table. *)
Lemma add_purpose_names ok ps s ps' : add_purpose ok ps s = Some ps' ->
  ps'.*1 = if decide (s ∈ ps.*1) then ps.*1 else s :: ps.*1.
Proof.
  unfold add_purpose. destruct (find_purpose ps s) as [[i p]|] eqn:E.
  - apply find_purpose_lookup in E as (l1 & l2 & -> & -> & <-). intros [= <-].
    rewrite decide_True by (rewrite fmap_app; apply elem_of_app; right; left). by rewrite alter_mid, !fmap_app, !fmap_cons.
  - rewrite decide_False by (by apply find_purpose_none). destruct ok; [|done]. by intros [= <-].
Qed.

Lemma length_names {A B : Type} (ps : list (A * B)) : length ps = length ps.*1.
Proof. by rewrite length_fmap. Qed.

(** Every purpose of the table has a node. *)
Lemma purposes_le mp : pool_ok mp -> (length (mp_purposes mp) <= length (mp_nodes mp))%nat.
Proof.
  intros Hok. rewrite length_names, <- (length_fmap mn_purpose (mp_nodes mp)).
  apply submseteq_length, NoDup_submseteq; [apply Hok|]. intros s Hs.
  assert (Hc : 0 < count_of (mp_purposes mp) s).
  { apply list_elem_of_fmap in Hs as ([t c] & -> & Hin). pose proof (po_positive _ Hok) as Hp. rewrite Forall_forall in Hp.
    specialize (Hp _ Hin). pose proof (po_names _ Hok) as Hnd. apply list_elem_of_split in Hin as (l1 & l2 & E). rewrite E in *.
    cbn [fst]. rewrite count_of_mid, decide_True; [done..|]. rewrite fmap_app in Hnd. apply NoDup_app in Hnd as (_ & Hnd & _).
    intros H. apply (Hnd _ H). left. }
  rewrite (po_counts _ Hok) in Hc. clear Hs Hok. induction (mp_nodes mp) as [|nd l IH]; [done|]. cbn [count_if foldr] in Hc.
  fold (count_if (uses s) l) in Hc. rewrite fmap_cons. apply elem_of_cons.
  destruct (uses s nd) eqn:E; [left|right; apply IH; lia]. unfold uses in E. apply andb_true_iff in E as [_ E].
  symmetry. by apply bool_decide_eq_true in E.
Qed.

Lemma purpose_count mp : pool_ok mp -> get_purpose_count mp = Z.of_nat (length (mp_purposes mp)).
Proof.
  intros Hok. apply foldl_count. pose proof (purposes_le _ Hok). pose proof (po_few _ Hok) as H0. unfold room in H0. lia.
Qed.

(** The two allocations of [get_mp_stat_detail]. *)
Lemma detail_blocks mp : pool_ok mp -> room 2 mp -> exists mp1 a mp2 b,
  mp_malloc plenty mp "get_mp_stat_detail_struct" DETAIL_SIZE = Some (mp1, Some a) /\ pool_ok mp1
  /\ 0 < get_purpose_count mp1 < 2 ^ 31 - 1
  /\ mp_malloc plenty mp1 "get_mp_stat_detail_nodes" (USING_NODE_SIZE * (get_purpose_count mp1 + 1)) = Some (mp2, Some b) /\ pool_ok mp2
  /\ length (mp_purposes mp2)
     = (length (mp_purposes mp1) + if decide ("get_mp_stat_detail_nodes"%string ∈ (mp_purposes mp1).*1) then 0 else 1)%nat.
Proof.
  intros Hok Hroom.
  destruct (mp_malloc_spec mp "get_mp_stat_detail_struct" DETAIL_SIZE Hok) as (mp1 & a & E1 & H1); [unfold room in *; lia|done|].
  pose proof (al_ok _ _ _ _ H1) as Hok1. pose proof (mp_malloc_length _ _ _ _ _ _ E1) as Hl1.
  assert (Hroom1 : room 1 mp1) by (unfold room in *; lia). pose proof (purposes_le _ Hok1) as Hle.
  assert (Hc : 0 < get_purpose_count mp1 < 2 ^ 31 - 1).
  { rewrite purpose_count by done. unfold room in Hroom1. split; [|lia]. rewrite length_names, (add_purpose_names _ _ _ _ (malloc_purposes _ _ _ _ _ _ E1)).
    case_decide as Hd; [|simpl; lia]. destruct (mp_purposes mp).*1; [by apply not_elem_of_nil in Hd|simpl; lia]. }
  destruct (mp_malloc_spec mp1 "get_mp_stat_detail_nodes" (USING_NODE_SIZE * (get_purpose_count mp1 + 1)) Hok1 Hroom1) as (mp2 & b & E2 & H2);
    [unfold USING_NODE_SIZE; lia|].
  exists mp1, a, mp2, b. split_and!; [done|done|lia|lia|done|apply H2|].
  rewrite length_names, (length_names (mp_purposes mp1)), (add_purpose_names _ _ _ _ (malloc_purposes _ _ _ _ _ _ E2)). case_decide; simpl; lia.
Qed.

Lemma detail_run (other : mem_pool -> mem_pool) mp mp1 a mp2 b : pool_ok mp1 ->
  mp_malloc plenty mp "get_mp_stat_detail_struct" DETAIL_SIZE = Some (mp1, Some a) -> 0 < get_purpose_count mp1 < 2 ^ 31 - 1 ->
  mp_malloc plenty mp1 "get_mp_stat_detail_nodes" (USING_NODE_SIZE * (get_purpose_count mp1 + 1)) = Some (mp2, Some b) ->
  get_mp_stat_detail plenty plenty other mp
  = (l ← fill_nodes 0 (mp_purposes (other mp2)) (replicate (S (length (mp_purposes mp1))) (None, 0));
     Some (other mp2, Some (Detail (get_purpose_count mp1 + 1) l))).
Proof.
  intros Hok1 E1 Hc E2. unfold get_mp_stat_detail. rewrite E1. cbn [mbind option_bind]. rewrite (proj2 (Z.leb_gt _ _)) by lia.
  rewrite i32_small by (unfold in_i32; lia). rewrite E2. cbn [mbind option_bind]. do 2 f_equal. rewrite purpose_count by done. f_equal. lia.
Qed.

Lemma count_of_in ps s c : NoDup ps.*1 -> (s, c) ∈ ps -> count_of ps s = c.
Proof.
  intros Hnd Hin. apply list_elem_of_split in Hin as (l1 & l2 & ->).
  rewrite count_of_mid, decide_True; [done..|]. rewrite fmap_app in Hnd. apply NoDup_app in Hnd as (_ & Hnd & _). intros H. apply (Hnd _ H). left.
Qed.

Lemma count_of_pos ps s : 0 < count_of ps s -> (s, count_of ps s) ∈ ps.
Proof.
  unfold count_of. destruct (find_purpose ps s) as [[i [t c]]|] eqn:E; [|lia]. intros _.
  apply find_purpose_lookup in E as (l1 & l2 & -> & _ & Ht). simpl in Ht. subst t. apply elem_of_app. right. left.
Qed.

(** The table of the pool is right: when no other thread is at work,
    [get_mp_stat_detail] stays inside its array, and the array has a purpose
    with a positive count exactly when that many blocks are in use for it, its
    own two blocks included. *)
Theorem detail_counts mp (Hok : pool_ok mp) (Hroom : room 2 mp) :
  exists mp' d, get_mp_stat_detail plenty plenty (fun mp => mp) mp = Some (mp', Some d) /\ pool_ok mp'
    /\ node_count d = Z.of_nat (length (nodes d))
    /\ forall s c, 0 < c -> (Some s, c) ∈ nodes d <-> c = count_if (uses s) (mp_nodes mp').
Proof.
  destruct (detail_blocks mp Hok Hroom) as (mp1 & a & mp2 & b & E1 & Hok1 & Hc & E2 & Hok2 & Hl).
  rewrite (detail_run _ mp mp1 a mp2 b Hok1 E1 Hc E2).
  pose proof (fill_nodes_spec (mp_purposes mp2) [] (replicate (S (length (mp_purposes mp1))) (None, 0))) as Hf.
  cbn [length app] in Hf. rewrite Hf by (rewrite length_replicate, Hl; case_decide; lia). cbn [mbind option_bind].
  eexists _, _. split; [reflexivity|]. split; [done|]. cbn [node_count nodes]. split.
  - rewrite length_app, length_map, length_drop, length_replicate. rewrite purpose_count, Hl by done. case_decide; lia.
  - intros s c Hpos. destruct Hok2 as [_ _ _ _ _ _ _ _ Hn Hcnt Hp]. rewrite <- Hcnt. split.
    + intros [Hin|Hin]%elem_of_app.
      * apply list_elem_of_fmap in Hin as ([t k] & [= -> ->] & Hin). symmetry. by apply count_of_in.
      * exfalso. rewrite drop_replicate in Hin. apply elem_of_replicate in Hin as [[= _ <-] _]. 
    + intros ->. apply elem_of_app. left. apply list_elem_of_fmap. exists (s, count_of (mp_purposes mp2) s). split; [done|]. by apply count_of_pos.
Qed.

(** A purpose that another thread adds in between makes the loop write behind
    the array. *)
Theorem detail_race mp other (Hok : pool_ok mp) (Hroom : room 2 mp)
    (Hnew : "get_mp_stat_detail_nodes"%string ∉ (mp_purposes mp).*1)
    (Hother : forall mp, length (mp_purposes (other mp)) = S (length (mp_purposes mp))) :
  get_mp_stat_detail plenty plenty other mp = None.
Proof.
  destruct (detail_blocks mp Hok Hroom) as (mp1 & a & mp2 & b & E1 & Hok1 & Hc & E2 & Hok2 & Hl).
  rewrite (detail_run _ mp mp1 a mp2 b Hok1 E1 Hc E2).
  assert (Hnot : "get_mp_stat_detail_nodes"%string ∉ (mp_purposes mp1).*1).
  { rewrite (add_purpose_names _ _ _ _ (malloc_purposes _ _ _ _ _ _ E1)). clear Hl. case_decide; [exact Hnew|].
    rewrite not_elem_of_cons. split; [discriminate|exact Hnew]. }
  rewrite fill_nodes_short; [done|]. rewrite length_replicate, Hother, Hl, decide_False; [lia|exact Hnot].
Qed.

(** ** Reserving gives one block *)

Lemma malloc_reuses mp purpose n : pool_ok mp -> room 1 mp -> 0 < n -> (exists nd, nd ∈ mp_nodes mp /\ fits n nd) ->
  forall os, purpose_ok os = true ->
  exists mp' a, mp_malloc os mp purpose n = Some (mp', Some a) /\ allocated mp n mp' a
    /\ length (mp_nodes mp') = length (mp_nodes mp).
Proof.
  intros Hok Hroom Hn (nd & Hin & Hf) os Hos. destruct (mp_malloc_spec mp purpose n Hok Hroom Hn) as (mp' & a & E & Ha).
  exists mp', a. pose proof (best_fit_spec n (mp_nodes mp) [] None) as Hb. cbn [app length] in Hb.
  unfold mp_malloc in *. rewrite (proj2 (Z.eqb_neq _ _)) in * by lia.
  destruct (best_fit n 0 (mp_nodes mp) None) as [[i nd']|].
  - rewrite Hos. split; [done|]. split; [done|]. by apply take_node_purposes in E as [_ ?].
  - exfalso. apply (Hb (fun x Hx => match not_elem_of_nil x Hx with end) nd Hin Hf).
Qed.

(** A block that was allocated and released can be allocated again. *)
Lemma freed_fits mp n mp1 a mp2 : allocated mp n mp1 a -> mp_free mp1 (Some a) = Some mp2 ->
  pool_ok mp2 /\ length (mp_nodes mp2) = length (mp_nodes mp1) /\ exists nd, nd ∈ mp_nodes mp2 /\ fits n nd.
Proof.
  intros Ha Ef. destruct (mp_free_spec mp1 a (al_ok _ _ _ _ Ha)) as (mp2' & E & Hok & Hn & _). rewrite Ef in E. injection E as <-.
  split; [done|]. rewrite Hn. split; [by rewrite length_fmap|].
  destruct (al_using _ _ _ _ Ha) as (nd & Hin & Haddr & _ & Hsz). exists (release a nd). split; [by apply list_elem_of_fmap_2|].
  unfold release. rewrite decide_True by done. by split.
Qed.

Section Reserve.
Context (oks : string -> nat -> os_reply) (Hoks : forall purpose k, purpose_ok (oks purpose k) = true).

Lemma reserve_reuses purpose n count : 0 < n -> forall mp, pool_ok mp -> room 1 mp -> (exists nd, nd ∈ mp_nodes mp /\ fits n nd) ->
  exists mp', reserve_one (oks purpose) purpose n count mp = Some (mp', true) /\ pool_ok mp' /\ length (mp_nodes mp') = length (mp_nodes mp).
Proof.
  intros Hn. induction count as [|count IH]; intros mp Hok Hroom Hf; [by exists mp|]. cbn [reserve_one].
  destruct (malloc_reuses mp purpose n Hok Hroom Hn Hf (oks purpose count) (Hoks _ _)) as (mp1 & a & -> & Ha & Hl). cbn [mbind option_bind].
  destruct (mp_free_spec mp1 a (al_ok _ _ _ _ Ha)) as (mp2 & E & _). rewrite E. cbn [mbind option_bind].
  destruct (freed_fits _ _ _ _ _ Ha E) as (Hok2 & Hl2 & Hf2).
  destruct (IH mp2 Hok2) as (mp' & -> & Hok' & Hl'); [unfold room in *; lia|done|].
  exists mp'. split_and!; [done|done|lia].
Qed.

Lemma reserve_one_adds purpose n count mp : 0 < n -> pool_ok mp -> room 2 mp ->
  exists mp' cont, reserve_one (oks purpose) purpose n count mp = Some (mp', cont) /\ pool_ok mp'
    /\ (length (mp_nodes mp') <= 1 + length (mp_nodes mp))%nat.
Proof.
  intros Hn Hok Hroom. destruct count as [|count]; [exists mp, true; split_and!; [done|done|lia]|]. cbn [reserve_one].
  destruct (mp_malloc_total (oks purpose count) mp purpose n Hok) as [[[Hd _] _]|(mp1 & r & E & Hok1 & Hr)];
    [unfold room in *; lia|lia|by rewrite Hoks in Hd|]. rewrite E. cbn [mbind option_bind].
  destruct r as [a|]; [|subst mp1; exists mp, false; split_and!; [done|done|lia]].
  pose proof (mp_malloc_length _ _ _ _ _ _ E) as Hg. destruct Hr as [_ Ha].
  destruct (mp_free_spec mp1 a Hok1) as (mp2 & Ef & _). rewrite Ef. cbn [mbind option_bind].
  destruct (freed_fits _ _ _ _ _ Ha Ef) as (Hok2 & Hl2 & Hf2).
  destruct (reserve_reuses purpose n count Hn mp2 Hok2) as (mp' & -> & Hok' & Hl'); [unfold room in *; lia|done|].
  exists mp', true. split_and!; [done|done|lia].
Qed.

(** Whatever counts the table asks for, it gets at most one block for each
    entry: the block is released before the next is asked for. *)
Theorem reserve_one_block_each reserveds : Forall (fun r => 0 < r_size r) reserveds -> forall mp, pool_ok mp -> room (S (length reserveds)) mp ->
  exists mp', do_reserve oks reserveds mp = Some mp' /\ pool_ok mp'
    /\ (length (mp_nodes mp') <= length (mp_nodes mp) + length reserveds)%nat.
Proof.
  induction 1 as [|r reserveds Hr _ IH]; intros mp Hok Hroom; cbn [do_reserve length] in *; [exists mp; split_and!; [done|done|lia]|].
  destruct (reserve_one_adds (r_purpose r) (r_size r) (r_count r) mp Hr Hok) as (mp1 & cont & -> & Hok1 & Hl); [unfold room in *; lia|].
  cbn [mbind option_bind]. destruct cont; [|exists mp1; split_and!; [done|done|lia]].
  destruct (IH mp1 Hok1) as (mp' & -> & Hok' & Hl'); [unfold room in *; lia|]. exists mp'. split_and!; [done|done|lia].
Qed.
End Reserve.

(** A pool that has ever given out a block cannot be destroyed: it is left as
    it is, or released memory is read. *)
Theorem destroy_used_pool mp : pool_ok mp -> 0 < total_nodes (mp_stat mp) ->
  mp_destroy mp = if 0 <? using_nodes (mp_stat mp) then Some false else None.
Proof.
  intros Hok Hn. pose proof (po_total _ Hok) as Ht. rewrite (po_using _ Hok). unfold mp_destroy.
  assert (E : existsb mn_using (mp_nodes mp) = (0 <? count_if mn_using (mp_nodes mp))).
  { clear. induction (mp_nodes mp) as [|nd l IH]; [done|]. cbn [existsb count_if foldr]. fold (count_if mn_using l). rewrite IH.
    pose proof (count_if_nonneg mn_using l). destruct (mn_using nd); cbn [orb].
    - symmetry. apply Z.ltb_lt. lia.
    - by rewrite Z.add_0_l. }
  rewrite E. destruct (0 <? _); [done|]. destruct (mp_nodes mp); [simpl in Ht; lia|done].
Qed.

(** ** A pool with one block *)

Definition demo_used : mem_pool := default mp_create (pool_run mp_create [Malloc plenty "put_req" 64]).

Lemma demo_used_ok : pool_ok demo_used.
Proof.
  destruct (pool_run_ends [Malloc plenty "put_req" 64] mp_create pool_create_ok) as (mp & E & Hok); [done|by repeat constructor..|].
  unfold demo_used. by rewrite E.
Defined.

Lemma detail_counts_witness :
  exists mp' d, get_mp_stat_detail plenty plenty (fun mp => mp) demo_used = Some (mp', Some d) /\ pool_ok mp'
    /\ node_count d = Z.of_nat (length (nodes d))
    /\ forall s c, 0 < c -> (Some s, c) ∈ nodes d <-> c = count_if (uses s) (mp_nodes mp').
Proof. exact (detail_counts demo_used demo_used_ok eq_refl). Defined.

Definition demo_other (mp : mem_pool) : mem_pool :=
  MemPool (mp_nodes mp) (("another", 1) :: mp_purposes mp) (mp_stat mp) (mp_mem mp) (mp_next mp).

Lemma detail_race_witness : get_mp_stat_detail plenty plenty demo_other demo_used = None.
Proof.
  apply (detail_race demo_used demo_other demo_used_ok); [done| |done]. apply (bool_decide_unpack _). vm_compute. exact I.
Defined.

Lemma reserve_one_block_each_witness :
  exists mp', do_reserve (fun _ _ => plenty) [Reserved "get_resp" 100 1000; Reserved "put_req" 200 1000] demo_used = Some mp' /\ pool_ok mp'
    /\ (length (mp_nodes mp') <= 1 + 2)%nat.
Proof.
  apply (reserve_one_block_each (fun _ _ => plenty) (fun _ _ => eq_refl) [Reserved "get_resp" 100 1000; Reserved "put_req" 200 1000]);
    [repeat constructor|exact demo_used_ok|done].
Defined.

Lemma destroy_used_pool_witness : mp_destroy demo_used = Some false.
Proof. apply (destroy_used_pool demo_used demo_used_ok). vm_compute. reflexivity. Defined.
