(* ===== verification/Sds.v ===== *)
(** * Growing strings and the text of a trace (src/sds.c, src/trace.c)

    A string has its characters in a block of the pool.  An [os_reply] says
    for a request which memory the system has; [None] is an access outside a
    block, a NULL dereference or a failed [assert].  The mutex of a string is never taken and is left
    out. *)

From S2P Require Import Prelude CStr MemPool.

Record sds := Sds { buf : option positive; len : Z; size : Z }.

(** ** The operations *)

Definition sds_init (os : os_reply) (mp : mem_pool) (str : sds) (n : Z) : option (mem_pool * sds * Z) :=
  '(mp, tmp) ← mp_malloc os mp "sds_init" n;
  match tmp with
  | None => Some (mp, Sds None 0 0, -1)
  | Some a =>
      mem ← bzero (mp_mem mp) a n;
      Some (MemPool (mp_nodes mp) (mp_purposes mp) (mp_stat mp) mem (mp_next mp), Sds (Some a) 0 n, 0)
  end.

(** [mp_realloc] gives a new block or NULL. *)
Definition sds_resize (os : os_reply) (mp : mem_pool) (ptr : sds) (n : Z) : option (mem_pool * sds * Z) :=
  '(mp, r) ← match buf ptr with Some a => mp_realloc os mp a n | None => Some (mp, None) end;
  match r with
  | Some _ => Some (mp, ptr, -1)
  | None => Some (mp, Sds (buf ptr) (if n <=? len ptr then n else len ptr) n, 0)
  end.

Definition put_bytes (mp : mem_pool) (a : positive) (off : nat) (bs : list Z) : option mem_pool :=
  block ← mp_mem mp !! a;
  block ← write_bytes block off bs;
  Some (MemPool (mp_nodes mp) (mp_purposes mp) (mp_stat mp) (<[a := block]> (mp_mem mp)) (mp_next mp)).

(** [strcat] behind the first [off] characters. *)
Definition strcat_at (mp : mem_pool) (a : positive) (off : nat) (str : list Z) : option mem_pool :=
  block ← mp_mem mp !! a;
  put_bytes mp a (off + length (c_str (drop off block))) (str ++ [0]).

(** Room for [more] characters: what both appending functions do first.
    [first] is the size of a new buffer, [grow] what an old one gets. *)
Definition make_room (ok1 ok2 : os_reply) (mp : mem_pool) (ptr : sds) (more first grow : Z) : option (mem_pool * sds * Z) :=
  '(mp, ptr, ret) ← (if size ptr =? 0 then sds_init ok1 mp ptr first else Some (mp, ptr, 0));
  if negb (ret =? 0) then Some (mp, ptr, -1) else
  let goal := if size ptr - len ptr <=? more then size ptr + grow else 0 in
  if negb (goal =? 0) then
    '(mp, ptr, ret) ← sds_resize ok2 mp ptr goal; Some (mp, ptr, if ret =? 0 then 0 else -1)
  else Some (mp, ptr, 0).

Definition sds_add_str (ok1 ok2 : os_reply) (mp : mem_pool) (ptr : sds) (str : list Z) : option (mem_pool * sds * Z) :=
  let n := Z.of_nat (length str) in
  if n =? 0 then Some (mp, ptr, 0) else
  '(mp, ptr, ret) ← make_room ok1 ok2 mp ptr n (n + 1) n;
  if negb (ret =? 0) then Some (mp, ptr, -1) else
  a ← buf ptr;
  mp ← strcat_at mp a (Z.to_nat (len ptr)) str;
  Some (mp, Sds (buf ptr) (len ptr + n) (size ptr), 0).

Definition sds_add_char (ok1 ok2 : os_reply) (mp : mem_pool) (ptr : sds) (c : Z) : option (mem_pool * sds * Z) :=
  '(mp, ptr, ret) ← make_room ok1 ok2 mp ptr 1 2 8;
  if negb (ret =? 0) then Some (mp, ptr, -1) else
  a ← buf ptr;
  mp ← put_bytes mp a (Z.to_nat (len ptr)) [c; 0];
  Some (mp, Sds (buf ptr) (len ptr + 1) (size ptr), 0).

(** [sizeof(struct sds)]; the address of the structure comes with it. *)
Definition SDS_SIZE : Z := 24.

Definition sds_construct (os : os_reply) (mp : mem_pool) : option (mem_pool * positive * sds) :=
  '(mp, str) ← mp_malloc os mp "sds_construct" SDS_SIZE;
  self ← str; Some (mp, self, Sds None 0 0).

Definition sds_destruct (mp : mem_pool) (self : positive) (ptr : sds) : option mem_pool :=
  mp ← match buf ptr with Some a => mp_free mp (Some a) | None => Some mp end;
  mp_free mp (Some self).

(** ** Traces *)

Record trace_info := TraceInfo { trace_user : option (positive * Z * list Z) }.

Definition TRACE_SIZE : Z := 40.
Definition USER_BASE_INFO_SIZE : Z := 1072.
Definition NAME_MAX : nat := 32.

Definition trace_info_construct (os : os_reply) (mp : mem_pool) : option (mem_pool * trace_info) :=
  '(mp, trace) ← mp_malloc os mp "trace_info_construct" TRACE_SIZE;
  _ ← trace; Some (mp, TraceInfo None).

(** The user is copied; [name] is the characters of its array. *)
Definition trace_info_set_user (os : os_reply) (mp : mem_pool) (trace : trace_info) (uid : Z) (name : list Z) : option (mem_pool * trace_info * Z) :=
  match trace_user trace with
  | None =>
      '(mp, user) ← mp_malloc os mp "trace_info_set_user" USER_BASE_INFO_SIZE;
      user ← user; Some (mp, TraceInfo (Some (user, uid, take NAME_MAX name)), 0)
  | Some (user, _, _) => Some (mp, TraceInfo (Some (user, uid, take NAME_MAX name)), 0)
  end.

Definition print_long (z : Z) : list Z := if z <? 0 then 45 :: print_dec 20 (- z) else print_dec 20 z.
Definition uid_text (uid : Z) : list Z := ascii_bytes "uid=" ++ print_long (i64 uid) ++ ascii_bytes "|".
Definition name_text (name : list Z) : list Z := ascii_bytes "name=" ++ name ++ ascii_bytes "|".

Definition trace_info_to_str (mp : mem_pool) (trace : trace_info) : option (mem_pool * positive * sds) :=
  '(mp, self, str) ← sds_construct plenty mp;
  '(_, uid, name) ← trace_user trace;
  '(mp, str, _) ← sds_add_str plenty plenty mp str (uid_text uid);
  '(mp, str, _) ← sds_add_str plenty plenty mp str (name_text name);
  Some (mp, self, str).

(** ** What works and what does not *)

(** The string is [s], in a block of its own. *)
Record holds (mp : mem_pool) (p : sds) (a : positive) (s : list Z) : Prop := Holds {
  ho_pool : pool_ok mp;
  ho_buf : buf p = Some a;
  ho_len : len p = Z.of_nat (length s);
  ho_fits : len p < size p;
  ho_nodes : exists nd, nd ∈ mp_nodes mp /\ mn_address nd = a /\ mn_using nd = true;
  ho_text : Forall (fun c => c <> 0) s;
  ho_block : exists rest, mp_mem mp !! a = Some (s ++ 0 :: rest) /\ size p <= Z.of_nat (length (s ++ 0 :: rest));
}.

Lemma put_bytes_pool mp a off bs mp' : pool_ok mp -> put_bytes mp a off bs = Some mp' -> pool_ok mp'.
Proof.
  intros Hok. unfold put_bytes. destruct (mp_mem mp !! a) as [b|] eqn:Hm; [|done]. cbn [mbind option_bind].
  destruct (write_bytes b off bs) as [b'|] eqn:Hw; [|done]. intros [= <-].
  eapply pool_ok_write; [done|exact Hm|]. by eapply length_write_bytes.
Qed.

(** [strcat] at the end of a string that is in a block with room for it. *)
Lemma strcat_end mp a s t rest : pool_ok mp -> Forall (fun c => c <> 0) s -> (length t <= length rest)%nat ->
  mp_mem mp !! a = Some (s ++ 0 :: rest) -> forall off, off = length s ->
  exists mp', strcat_at mp a off t = Some mp' /\ pool_ok mp' /\ mp_nodes mp' = mp_nodes mp
    /\ mp_mem mp' !! a = Some (s ++ t ++ 0 :: drop (length t) rest).
Proof.
  intros Hok Hs Hl Hm off ->. unfold strcat_at. rewrite Hm. cbn [mbind option_bind]. rewrite drop_app_length.
  change (c_str (0 :: rest)) with (@nil Z). cbn [length]. rewrite Nat.add_0_r.
  assert (Hw : write_bytes (s ++ 0 :: rest) (length s) (t ++ [0]) = Some (s ++ (t ++ [0]) ++ drop (length t) rest)).
  { assert (E : 0 :: rest = take (length (t ++ [0])) (0 :: rest) ++ drop (length t) rest).
    { rewrite length_app. cbn [length]. rewrite Nat.add_1_r. cbn [take app]. by rewrite take_drop. }
    rewrite E at 1. apply write_bytes_app. rewrite length_take, length_app. cbn [length]. lia. }
  destruct (put_bytes mp a (length s) (t ++ [0])) as [mp'|] eqn:E.
  - exists mp'. split; [done|]. split; [by eapply put_bytes_pool|]. unfold put_bytes in E. rewrite Hm in E. cbn [mbind option_bind] in E.
    rewrite Hw in E. injection E as <-. split; [done|]. cbn [mp_mem]. rewrite lookup_insert_eq, <- app_assoc. done.
  - unfold put_bytes in E. rewrite Hm in E. cbn [mbind option_bind] in E. by rewrite Hw in E.
Qed.

(** A new buffer for [n] characters, with its block. *)
Lemma sds_init_spec mp p n : pool_ok mp -> room 1 mp -> 0 < n -> exists mp' a, sds_init plenty mp p n = Some (mp', Sds (Some a) 0 n, 0)
  /\ holds mp' (Sds (Some a) 0 n) a [] /\ (length (mp_nodes mp') <= S (length (mp_nodes mp)))%nat.
Proof.
  intros Hok Hroom Hn. destruct (mp_malloc_spec mp "sds_init" n Hok Hroom Hn) as (mp1 & a & E & Hal). pose proof (mp_malloc_length _ _ _ _ _ _ E) as Hlen. destruct (al_zero _ _ _ _ Hal) as [rest Hm].
  unfold sds_init. rewrite E. cbn [mbind option_bind]. unfold bzero. rewrite Hm. cbn [mbind option_bind].
  rewrite write_bytes_prefix by done. cbn [mbind option_bind]. eexists _, a. split; [reflexivity|].
  assert (Hn' : Z.to_nat n = S (Z.to_nat (n - 1))) by lia.
  destruct (al_using _ _ _ _ Hal) as (nd & Hin & Ha & Hu & Hsz).
  assert (Hok' : pool_ok (MemPool (mp_nodes mp1) (mp_purposes mp1) (mp_stat mp1) (<[a:=zeroed (Z.to_nat n) ++ rest]> (mp_mem mp1)) (mp_next mp1))).
  { eapply pool_ok_write; [apply Hal|exact Hm|done]. }
  split; [|exact Hlen]. constructor; cbn [buf len size]; [exact Hok'|done|done|lia|by exists nd|constructor|].
  exists (zeroed (Z.to_nat (n - 1)) ++ rest). cbn [mp_mem app]. rewrite lookup_insert_eq. unfold zeroed. rewrite Hn'. split; [done|].
  cbn [length]. rewrite length_app, length_replicate. lia.
Qed.

(** Text for which there is room is put at the end. *)
Theorem sds_add_fits ok1 ok2 mp p a s t : holds mp p a s -> t <> [] -> Forall (fun c => c <> 0) t -> Z.of_nat (length t) < size p - len p ->
  exists mp', let p' := Sds (Some a) (len p + Z.of_nat (length t)) (size p) in
    sds_add_str ok1 ok2 mp p t = Some (mp', p', 0) /\ holds mp' p' a (s ++ t) /\ mp_nodes mp' = mp_nodes mp.
Proof.
  intros [Hok Hb Hlen Hfit (nd & Hin & Ha & Hu) Hs (rest & Hm & Hsz)] Ht Hnz Hroom.
  assert (Hpos : 0 < Z.of_nat (length t)) by (destruct t; [done|cbn; lia]).
  rewrite length_app in Hsz. cbn [length] in Hsz.
  destruct (strcat_end mp a s t rest Hok Hs ltac:(lia) Hm (Z.to_nat (len p)) ltac:(lia)) as (mp' & E & Hok' & Hn' & Hm').
  exists mp'. cbn zeta. unfold sds_add_str, make_room. rewrite (proj2 (Z.eqb_neq _ 0)) by lia.
  rewrite (proj2 (Z.eqb_neq (size p) 0)) by lia. cbn [mbind option_bind negb Z.eqb]. rewrite (proj2 (Z.leb_gt _ _)) by lia.
  cbn [negb Z.eqb mbind option_bind]. rewrite Hb. cbn [mbind option_bind]. rewrite E. cbn [mbind option_bind]. split; [done|].
  split; [|exact Hn']. constructor; cbn [buf len size]; [done|done|rewrite length_app; lia|lia|exists nd; by rewrite Hn'|by apply Forall_app|].
  exists (drop (length t) rest). rewrite <- app_assoc. split; [done|]. rewrite !length_app. cbn [length]. rewrite length_drop. lia.
Qed.

(** The first text of a string is taken, with no room left behind it. *)
Theorem sds_add_first ok2 mp t : pool_ok mp -> room 1 mp -> t <> [] -> Forall (fun c => c <> 0) t ->
  exists mp' a, let p := Sds (Some a) (Z.of_nat (length t)) (Z.of_nat (length t) + 1) in
    sds_add_str plenty ok2 mp (Sds None 0 0) t = Some (mp', p, 0) /\ holds mp' p a t /\ (length (mp_nodes mp') <= S (length (mp_nodes mp)))%nat.
Proof.
  intros Hok Hroom Ht Hnz. assert (Hpos : 0 < Z.of_nat (length t)) by (destruct t; [done|cbn; lia]).
  destruct (sds_init_spec mp (Sds None 0 0) (Z.of_nat (length t) + 1) Hok Hroom ltac:(lia)) as (mp1 & a & E & Hh & Hl1).
  destruct (sds_add_fits plenty ok2 mp1 _ a [] t Hh Ht Hnz ltac:(cbn [size len]; lia)) as (mp2 & E2 & Hh2 & Hn2).
  exists mp2, a. cbn zeta. cbn [len size] in E2, Hh2. rewrite Z.add_0_l in E2, Hh2. split; [|split; [exact Hh2|by rewrite Hn2]]. rewrite <- E2.
  unfold sds_add_str, make_room. rewrite (proj2 (Z.eqb_neq _ 0)) by lia. cbn [size Z.eqb]. rewrite E. cbn [mbind option_bind negb Z.eqb size len].
  rewrite (proj2 (Z.eqb_neq (Z.of_nat (length t) + 1) 0)) by lia. cbn [mbind option_bind negb Z.eqb]. done.
Qed.

(** Nobody uses the block [a] any more. *)
Definition dangling (mp : mem_pool) (a : positive) : Prop := forall nd, nd ∈ mp_nodes mp -> mn_address nd = a -> mn_using nd = false.

(** [mp_realloc] of a block that is there, with memory. *)
Lemma realloc_moves mp nd n : pool_ok mp -> room 1 mp -> nd ∈ mp_nodes mp -> 0 < n -> exists mp' t,
  mp_realloc plenty mp (mn_address nd) n = Some (mp', Some t) /\ pool_ok mp' /\ dangling mp' (mn_address nd).
Proof.
  intros Hok Hroom Hin Hn. unfold mp_realloc.
  destruct (find_address (mp_nodes mp) (mn_address nd)) as [[i nd0]|] eqn:Hf; cycle 1.
  { apply list_find_None in Hf. rewrite Forall_forall in Hf. by destruct (Hf nd Hin). }
  apply find_address_in in Hf as [Hin0 Ha0]. rewrite (address_unique mp nd0 nd Hok Hin0 Hin Ha0).
  destruct (mp_malloc_spec mp "mp_realloc" n Hok Hroom Hn) as (mp1 & t & E & Hal). rewrite E. cbn [mbind option_bind].
  destruct (realloc_copy mp nd n mp1 t Hok Hin Hn Hal) as (old & new & H1 & H2 & H3 & H4 & H5 & _).
  rewrite H1. cbn [mbind option_bind]. rewrite H2. cbn [mbind option_bind]. rewrite H3. cbn [mbind option_bind]. rewrite H4. cbn [mbind option_bind].
  destruct (mp_free_spec _ (mn_address nd) (pool_ok_write mp1 t new _ (al_ok _ _ _ _ Hal) H2 H5)) as (mp2 & E2 & Hok2 & Hnodes & _).
  rewrite E2. cbn [mbind option_bind]. exists mp2, t. split; [done|]. split; [done|].
  intros nd' Hin'. rewrite Hnodes in Hin'. apply list_elem_of_fmap in Hin' as (nd1 & -> & _). unfold release.
  case_decide as Hd; [done|]. intros ?. by destruct Hd.
Qed.

(** A string cannot grow: [sds_resize] takes the new block that [mp_realloc]
    returns for a failure.  The text is refused, and the characters that were
    there are left in a block that has been released. *)
Theorem sds_cannot_grow ok1 mp p a s t : holds mp p a s -> room 1 mp -> size p - len p <= Z.of_nat (length t) -> t <> [] -> exists mp',
  sds_add_str ok1 plenty mp p t = Some (mp', p, -1) /\ dangling mp' a.
Proof.
  intros [Hok Hb Hlen Hfit (nd & Hin & <- & Hu) Hs Hm] Hspace Hroom Ht.
  assert (Hpos : 0 < Z.of_nat (length t)) by (destruct t; [done|cbn; lia]).
  destruct (realloc_moves mp nd (size p + Z.of_nat (length t)) Hok Hspace Hin ltac:(lia)) as (mp' & t' & E & _ & Hd).
  exists mp'. split; [|exact Hd]. unfold sds_add_str, make_room. rewrite (proj2 (Z.eqb_neq _ 0)) by lia.
  rewrite (proj2 (Z.eqb_neq (size p) 0)) by lia. cbn [mbind option_bind negb Z.eqb]. rewrite (proj2 (Z.leb_le _ _)) by lia.
  rewrite (proj2 (Z.eqb_neq _ 0)) by lia. cbn [negb]. unfold sds_resize. rewrite Hb, E. cbn [mbind option_bind]. done.
Qed.

(** The other way round, without memory the failure is taken for success and
    the text is written behind the end of a block that is as long as the string
    was made. *)
Theorem sds_grows_without_memory ok1 mp p a s t block : holds mp p a s -> mp_mem mp !! a = Some block -> Z.of_nat (length block) = size p ->
  size p - len p <= Z.of_nat (length t) -> t <> [] -> best_fit (size p + Z.of_nat (length t)) 0 (mp_nodes mp) None = None ->
  sds_add_str ok1 (OsReply false true) mp p t = None.
Proof.
  intros [Hok Hb Hlen Hfit (nd & Hin & <- & Hu) Hs (rest & Hm & Hsz)] Hblock Hbl Hroom Ht Hbest.
  assert (Hpos : 0 < Z.of_nat (length t)) by (destruct t; [done|cbn; lia]).
  unfold sds_add_str, make_room. rewrite (proj2 (Z.eqb_neq _ 0)) by lia.
  rewrite (proj2 (Z.eqb_neq (size p) 0)) by lia. cbn [mbind option_bind negb Z.eqb]. rewrite (proj2 (Z.leb_le _ _)) by lia.
  rewrite (proj2 (Z.eqb_neq _ 0)) by lia. cbn [negb]. unfold sds_resize. rewrite Hb. unfold mp_realloc.
  destruct (find_address (mp_nodes mp) (mn_address nd)) as [[i nd0]|] eqn:Hf; cycle 1.
  { apply list_find_None in Hf. rewrite Forall_forall in Hf. by destruct (Hf nd Hin). }
  unfold mp_malloc. rewrite (proj2 (Z.eqb_neq _ 0)) by lia. rewrite Hbest. cbn [block_ok mbind option_bind Z.eqb negb buf].
  rewrite (proj2 (Z.leb_gt _ _)) by lia. cbn [len]. unfold strcat_at. rewrite Hm. cbn [mbind option_bind].
  replace (Z.to_nat (len p)) with (length s) by lia. rewrite drop_app_length. change (c_str (0 :: rest)) with (@nil Z). cbn [length]. rewrite Nat.add_0_r.
  unfold put_bytes. rewrite Hm. cbn [mbind option_bind]. unfold write_bytes. rewrite decide_False; [done|].
  rewrite Hm in Hblock. injection Hblock as <-. rewrite length_app. cbn [length]. lia.
Qed.

(** A trace gives a text without the name, in a block that is released. *)
Theorem trace_text_cut mp a uid name : pool_ok mp -> room 3 mp -> Forall (fun c => c <> 0) name -> exists mp' self b,
  let shown := uid_text uid in
  trace_info_to_str mp (TraceInfo (Some (a, uid, name))) = Some (mp', self, Sds (Some b) (Z.of_nat (length shown)) (Z.of_nat (length shown) + 1))
  /\ dangling mp' b.
Proof.
  unfold room. intros Hok Hroom Hname.
  destruct (mp_malloc_spec mp "sds_construct" SDS_SIZE Hok ltac:(unfold room; lia) ltac:(done)) as (mp1 & self & E1 & Hal).
  pose proof (mp_malloc_length _ _ _ _ _ _ E1) as Hl1.
  assert (Hd : forall n f, (0 < f)%nat -> 0 <= n < 10 ^ Z.of_nat f -> Forall (fun c => c <> 0) (print_dec f n)).
  { intros n f Hf Hn. destruct (print_dec_spec f n Hn Hf) as [Hdig _]. eapply Forall_impl; [exact Hdig|]. cbn. intros c Hc.
    apply is_digit_spec in Hc. lia. }
  assert (Hr : - 2 ^ 63 <= i64 uid < 2 ^ 63).
  { unfold wrap_s. pose proof (Z.mod_pos_bound (uid + 2 ^ (64 - 1)) (2 ^ 64) ltac:(lia)). lia. }
  assert (Hz : Forall (fun c => c <> 0) (uid_text uid)).
  { unfold uid_text. rewrite !Forall_app. split; [by repeat constructor|]. split; [|by repeat constructor]. unfold print_long.
    destruct (Z.ltb_spec (i64 uid) 0); [constructor; [done|]|]; apply Hd; lia. }
  destruct (sds_add_first plenty mp1 (uid_text uid) (al_ok _ _ _ _ Hal) ltac:(unfold room; lia) ltac:(done) Hz) as (mp2 & b & E2 & Hh & Hl2). cbn zeta in E2, Hh.
  destruct (sds_cannot_grow plenty mp2 _ b _ (name_text name) Hh) as (mp3 & E3 & Hdang); [unfold room; lia| |done|].
  { cbn [size len]. unfold name_text. rewrite length_app. change (length (ascii_bytes "name=")) with 5%nat. lia. }
  exists mp3, self, b. cbn zeta. unfold trace_info_to_str, sds_construct. rewrite E1. cbn [mbind option_bind trace_user].
  rewrite E2. cbn [mbind option_bind]. rewrite E3. done.
Qed.
