(* ===== verification/Md5.v ===== *)
(** * The MD5 digest (src/md5.c, include/md5.h)

    Words are 32-bit unsigned integers; [~x] is [lnot32].  The file hash reads
    its blocks through a parameter, the sequence of [fread] results. *)

From S2P Require Import Prelude CStr.

Definition BLOCK_SIZE : nat := 1024.
Definition MD5_LEN : nat := 16.

(** ** The compression function *)

Definition lnot32 (x : Z) : Z := Z.lxor x (2 ^ 32 - 1).

Definition F (x y z : Z) : Z := Z.lor (Z.land x y) (Z.land (lnot32 x) z).
Definition G (x y z : Z) : Z := Z.lor (Z.land x z) (Z.land y (lnot32 z)).
Definition H (x y z : Z) : Z := Z.lxor (Z.lxor x y) z.
Definition I (x y z : Z) : Z := Z.lxor y (Z.lor x (lnot32 z)).

Definition ROTATE_LEFT (x n : Z) : Z := Z.lor (u32 (Z.shiftl x n)) (Z.shiftr x (32 - n)).

Definition FF (a b c d x s ac : Z) : Z := u32 (ROTATE_LEFT (u32 (a + u32 (F b c d + x + ac))) s + b).
Definition GG (a b c d x s ac : Z) : Z := u32 (ROTATE_LEFT (u32 (a + u32 (G b c d + x + ac))) s + b).
Definition HH (a b c d x s ac : Z) : Z := u32 (ROTATE_LEFT (u32 (a + u32 (H b c d + x + ac))) s + b).
Definition II (a b c d x s ac : Z) : Z := u32 (ROTATE_LEFT (u32 (a + u32 (I b c d + x + ac))) s + b).

(** [MD5Encode]: each word, least significant byte first. *)
Definition MD5Encode (input : list Z) : list Z :=
  input ≫= fun w => [Z.land w 255; Z.land (Z.shiftr w 8) 255;
                     Z.land (Z.shiftr w 16) 255; Z.land (Z.shiftr w 24) 255].

(** [MD5Decode]: four bytes to a word. *)
Fixpoint MD5Decode (input : list Z) : list Z :=
  match input with
  | b0 :: b1 :: b2 :: b3 :: input =>
      Z.lor (Z.lor (Z.lor b0 (Z.shiftl b1 8)) (Z.shiftl b2 16)) (u32 (Z.shiftl b3 24))
        :: MD5Decode input
  | _ => []
  end.

Record md5_state := MD5State { st_a : Z; st_b : Z; st_c : Z; st_d : Z }.

Definition MD5Transform (state : md5_state) (block : list Z) : md5_state :=
  let words := MD5Decode block in
  let x (i : Z) := nth (Z.to_nat i) words 0 in
  let a := st_a state in
  let b := st_b state in
  let c := st_c state in
  let d := st_d state in
  let a := FF a b c d (x 0) 7 0xd76aa478 in
  let d := FF d a b c (x 1) 12 0xe8c7b756 in
  let c := FF c d a b (x 2) 17 0x242070db in
  let b := FF b c d a (x 3) 22 0xc1bdceee in
  let a := FF a b c d (x 4) 7 0xf57c0faf in
  let d := FF d a b c (x 5) 12 0x4787c62a in
  let c := FF c d a b (x 6) 17 0xa8304613 in
  let b := FF b c d a (x 7) 22 0xfd469501 in
  let a := FF a b c d (x 8) 7 0x698098d8 in
  let d := FF d a b c (x 9) 12 0x8b44f7af in
  let c := FF c d a b (x 10) 17 0xffff5bb1 in
  let b := FF b c d a (x 11) 22 0x895cd7be in
  let a := FF a b c d (x 12) 7 0x6b901122 in
  let d := FF d a b c (x 13) 12 0xfd987193 in
  let c := FF c d a b (x 14) 17 0xa679438e in
  let b := FF b c d a (x 15) 22 0x49b40821 in
  let a := GG a b c d (x 1) 5 0xf61e2562 in
  let d := GG d a b c (x 6) 9 0xc040b340 in
  let c := GG c d a b (x 11) 14 0x265e5a51 in
  let b := GG b c d a (x 0) 20 0xe9b6c7aa in
  let a := GG a b c d (x 5) 5 0xd62f105d in
  let d := GG d a b c (x 10) 9 0x2441453 in
  let c := GG c d a b (x 15) 14 0xd8a1e681 in
  let b := GG b c d a (x 4) 20 0xe7d3fbc8 in
  let a := GG a b c d (x 9) 5 0x21e1cde6 in
  let d := GG d a b c (x 14) 9 0xc33707d6 in
  let c := GG c d a b (x 3) 14 0xf4d50d87 in
  let b := GG b c d a (x 8) 20 0x455a14ed in
  let a := GG a b c d (x 13) 5 0xa9e3e905 in
  let d := GG d a b c (x 2) 9 0xfcefa3f8 in
  let c := GG c d a b (x 7) 14 0x676f02d9 in
  let b := GG b c d a (x 12) 20 0x8d2a4c8a in
  let a := HH a b c d (x 5) 4 0xfffa3942 in
  let d := HH d a b c (x 8) 11 0x8771f681 in
  let c := HH c d a b (x 11) 16 0x6d9d6122 in
  let b := HH b c d a (x 14) 23 0xfde5380c in
  let a := HH a b c d (x 1) 4 0xa4beea44 in
  let d := HH d a b c (x 4) 11 0x4bdecfa9 in
  let c := HH c d a b (x 7) 16 0xf6bb4b60 in
  let b := HH b c d a (x 10) 23 0xbebfbc70 in
  let a := HH a b c d (x 13) 4 0x289b7ec6 in
  let d := HH d a b c (x 0) 11 0xeaa127fa in
  let c := HH c d a b (x 3) 16 0xd4ef3085 in
  let b := HH b c d a (x 6) 23 0x4881d05 in
  let a := HH a b c d (x 9) 4 0xd9d4d039 in
  let d := HH d a b c (x 12) 11 0xe6db99e5 in
  let c := HH c d a b (x 15) 16 0x1fa27cf8 in
  let b := HH b c d a (x 2) 23 0xc4ac5665 in
  let a := II a b c d (x 0) 6 0xf4292244 in
  let d := II d a b c (x 7) 10 0x432aff97 in
  let c := II c d a b (x 14) 15 0xab9423a7 in
  let b := II b c d a (x 5) 21 0xfc93a039 in
  let a := II a b c d (x 12) 6 0x655b59c3 in
  let d := II d a b c (x 3) 10 0x8f0ccc92 in
  let c := II c d a b (x 10) 15 0xffeff47d in
  let b := II b c d a (x 1) 21 0x85845dd1 in
  let a := II a b c d (x 8) 6 0x6fa87e4f in
  let d := II d a b c (x 15) 10 0xfe2ce6e0 in
  let c := II c d a b (x 6) 15 0xa3014314 in
  let b := II b c d a (x 13) 21 0x4e0811a1 in
  let a := II a b c d (x 4) 6 0xf7537e82 in
  let d := II d a b c (x 11) 10 0xbd3af235 in
  let c := II c d a b (x 2) 15 0x2ad7d2bb in
  let b := II b c d a (x 9) 21 0xeb86d391 in
  MD5State (u32 (st_a state + a)) (u32 (st_b state + b)) (u32 (st_c state + c)) (u32 (st_d state + d)).

(** ** The stream *)

Record md5_ctx := MD5Ctx {
  count0 : Z;
  count1 : Z;
  md_state : md5_state;
  md_buffer : list Z;
}.

Definition initial_state : md5_state := MD5State 0x67452301 0xEFCDAB89 0x98BADCFE 0x10325476.

(** The buffer of an uninitialised context is arbitrary. *)
Definition MD5Init (buffer : list Z) : md5_ctx := MD5Ctx 0 0 initial_state buffer.

(** [for (i = partlen; i + 64 <= inputlen; i += 64)]; also returns the final
    [i].  [i + 64] is computed on 32 bits. *)
Fixpoint transform_loop (fuel : nat) (state : md5_state) (input : list Z) (i : Z)
    : option (md5_state * Z) :=
  if u32 (i + 64) <=? Z.of_nat (length input) then
    match fuel with
    | O => None
    | S fuel' =>
        block ← read_bytes input (Z.to_nat i) 64;
        transform_loop fuel' (MD5Transform state block) input (u32 (i + 64))
    end
  else Some (state, i).

Definition MD5Update (context : md5_ctx) (input : list Z) : option md5_ctx :=
  let inputlen := Z.of_nat (length input) in
  let index := Z.land (Z.shiftr (count0 context) 3) 0x3F in
  let partlen := 64 - index in
  let c0 := u32 (count0 context + u32 (Z.shiftl inputlen 3)) in
  let c1 := if c0 <? u32 (Z.shiftl inputlen 3) then u32 (count1 context + 1) else count1 context in
  let c1 := u32 (c1 + Z.shiftr inputlen 29) in
  if partlen <=? inputlen then
    buffer ← write_bytes (md_buffer context) (Z.to_nat index) (take (Z.to_nat partlen) input);
    let state := MD5Transform (md_state context) buffer in
    '(state, i) ← transform_loop (length input) state input partlen;
    buffer ← write_bytes buffer 0 (drop (Z.to_nat i) input);
    Some (MD5Ctx c0 c1 state buffer)
  else
    buffer ← write_bytes (md_buffer context) (Z.to_nat index) input;
    Some (MD5Ctx c0 c1 (md_state context) buffer).

Definition PADDING : list Z := 0x80 :: replicate 63 0.

Definition state_words (st : md5_state) : list Z := [st_a st; st_b st; st_c st; st_d st].

Definition MD5Final (context : md5_ctx) : option (list Z) :=
  let index := Z.land (Z.shiftr (count0 context) 3) 0x3F in
  let padlen := if index <? 56 then 56 - index else 120 - index in
  let bits := MD5Encode [count0 context; count1 context] in
  pad ← read_bytes PADDING 0 (Z.to_nat padlen);
  context ← MD5Update context pad;
  context ← MD5Update context bits;
  Some (MD5Encode (state_words (md_state context))).

(** ** Printable digests *)

Definition charset : list Z := [48; 49; 50; 51; 52; 53; 54; 55; 56; 57; 97; 98; 99; 100; 101; 102].

Definition dec_to_hex_char (dec : Z) : option Z :=
  if decide (0 <= dec < 16) then charset !! Z.to_nat dec else None.

(** The terminating zero is implicit. *)
Fixpoint md5_printable_str (digest : list Z) : option (list Z) :=
  match digest with
  | [] => Some []
  | b :: digest =>
      h ← dec_to_hex_char (b / 16);
      l ← dec_to_hex_char (b mod 16);
      s ← md5_printable_str digest;
      Some (h :: l :: s)
  end.

(** The loop of [md5_str]: blocks of [BLOCK_SIZE], the last one shorter. *)
Fixpoint md5_str_loop (fuel : nat) (context : md5_ctx) (str : list Z) : option md5_ctx :=
  let ret := if (length str <? BLOCK_SIZE)%nat then length str else BLOCK_SIZE in
  context ← MD5Update context (take ret str);
  if (ret <? BLOCK_SIZE)%nat then Some context else
  match fuel with
  | O => None
  | S fuel' => md5_str_loop fuel' context (drop BLOCK_SIZE str)
  end.

Definition md5_str (buffer str : list Z) : option (list Z) :=
  context ← md5_str_loop (length str) (MD5Init buffer) str;
  md5 ← MD5Final context;
  md5_printable_str md5.

(** The loop of [md5_file]: [reads] are the successive results of [fread]. *)
Fixpoint md5_file_loop (context : md5_ctx) (reads : list (list Z)) : option md5_ctx :=
  match reads with
  | [] => None
  | data :: reads =>
      context ← MD5Update context data;
      if (length data <? BLOCK_SIZE)%nat then Some context else md5_file_loop context reads
  end.

(** [None] in the result is the return value -1 of a failed [fopen]. *)
Definition md5_file (buffer : list Z) (reads : option (list (list Z))) : option (option (list Z)) :=
  match reads with
  | None => Some None
  | Some reads =>
      context ← md5_file_loop (MD5Init buffer) reads;
      md5 ← MD5Final context;
      s ← md5_printable_str md5;
      Some (Some s)
  end.

(** ** MD5 as a stream

    The digest does not depend on how the data is cut into updates: it is the
    digest of RFC 1321, the compression function folded over the padded
    message. *)

#[local] Opaque MD5Transform.

(** ** The reference *)

(** [n] blocks of 64 bytes absorbed from the front of [m]. *)
Fixpoint absorb (n : nat) (st : md5_state) (m : list Z) : md5_state :=
  match n with
  | O => st
  | S n => absorb n (MD5Transform st (take 64 m)) (drop 64 m)
  end.

Definition md5_pad (m : list Z) : list Z :=
  m ++ 0x80 :: zeroed ((119 - length m mod 64) mod 64) ++ le_bytes 8 (8 * Z.of_nat (length m)).

Definition md5_digest (m : list Z) : list Z :=
  let p := md5_pad m in
  state_words (absorb (length p / 64) initial_state p) ≫= le_bytes 4.

Lemma absorb_app n1 n2 st a b :
  length a = (64 * n1)%nat -> absorb (n1 + n2) st (a ++ b) = absorb n2 (absorb n1 st a) b.
Proof.
  revert st a. induction n1 as [|n1 IH]; intros st a Ha; simpl.
  { by destruct a. }
  rewrite take_app_le, drop_app_le by lia. apply IH. rewrite length_drop. lia.
Qed.

Lemma absorb_prefix n st a b : length a = (64 * n)%nat -> absorb n st (a ++ b) = absorb n st a.
Proof. intros Ha. rewrite <- (Nat.add_0_r n) at 1. by rewrite absorb_app. Qed.

(** ** The bit count *)

Lemma index_spec c n : c = (8 * Z.of_nat n) mod 2 ^ 32 -> Z.land (Z.shiftr c 3) 0x3F = Z.of_nat (n mod 64).
Proof.
  intros ->. change 0x3F with (Z.ones 6). rewrite Z.land_ones, Z.shiftr_div_pow2 by lia.
  rewrite Nat2Z.inj_mod. pose proof (Z.div_mod (8 * Z.of_nat n) (2 ^ 32)).
  change (2 ^ 3) with 8. change (2 ^ 6) with 64. change (2 ^ 32) with (8 * (64 * 8388608)) in *.
  rewrite Z.mul_mod_distr_l by lia. rewrite Z.mul_comm, Z.div_mul by lia.
  apply Z.mod_mod_divide. exists 8388608. lia.
Qed.

Lemma count_join x y : 0 <= x < 2 ^ 32 -> x + 2 ^ 32 * (y mod 2 ^ 32) = (x + 2 ^ 32 * y) mod 2 ^ 64.
Proof.
  intros Hx. change (2 ^ 64) with (2 ^ 32 * 2 ^ 32). rewrite Z.rem_mul_r by lia.
  rewrite (Z.mul_comm (2 ^ 32) y), Z.mod_add, (Z.mod_small x), Z.div_add, (Z.div_small x) by lia.
  by rewrite Z.add_0_l.
Qed.

(** The two words of [count] hold the number of bits modulo 2^64. *)
Definition counts (c0 c1 : Z) (n : nat) : Prop :=
  0 <= c0 < 2 ^ 32 /\ c0 + 2 ^ 32 * c1 = (8 * Z.of_nat n) mod 2 ^ 64.

Lemma counts_low c0 c1 n : counts c0 c1 n -> c0 = (8 * Z.of_nat n) mod 2 ^ 32.
Proof.
  intros [Hc He]. 
  rewrite <- (Z.mod_mod_divide (8 * Z.of_nat n) (2 ^ 64) (2 ^ 32)) by (by exists (2 ^ 32)).
  rewrite <- He, Z.mul_comm, Z.mod_add, Z.mod_small; lia.
Qed.

Lemma shiftl_3 z : Z.shiftl z 3 = 8 * z.
Proof. rewrite Z.shiftl_mul_pow2 by lia. lia. Qed.

Lemma counts_update c0 c1 n len :
  counts c0 c1 n -> Z.of_nat len < 2 ^ 32 ->
  let s := u32 (Z.shiftl (Z.of_nat len) 3) in
  let c0' := u32 (c0 + s) in
  counts c0' (u32 ((if c0' <? s then u32 (c1 + 1) else c1) + Z.shiftr (Z.of_nat len) 29)) (n + len).
Proof.
  intros [Hc He] Hl s c0'. unfold counts.
  assert (Hsd : s = (8 * Z.of_nat len) mod 2 ^ 32) by (unfold s; by rewrite shiftl_3).
  set (h := Z.shiftr (Z.of_nat len) 29).
  assert (Hs : 0 <= s < 2 ^ 32) by (rewrite Hsd; apply Z.mod_pos_bound; lia).
  assert (H8 : 8 * Z.of_nat len = s + 2 ^ 32 * h).
  { rewrite Hsd. unfold h. rewrite Z.shiftr_div_pow2 by lia.
    rewrite (Z.div_mod (8 * Z.of_nat len) (2 ^ 32)) at 1 by lia.
    change (2 ^ 32) with (8 * 2 ^ 29) at 2. rewrite Z.div_mul_cancel_l by lia. lia. }
  clearbody s. unfold wrap_u in *.
  set (carry := if c0' <? s then 1 else 0).
  assert (Hcar : c0 + s = c0' + 2 ^ 32 * carry).
  { unfold carry, c0', wrap_u. destruct (Z.lt_ge_cases (c0 + s) (2 ^ 32)) as [Hlt|Hge].
    - rewrite Z.mod_small by lia. rewrite (proj2 (Z.ltb_ge _ _)) by lia. lia.
    - rewrite (Z.mod_eq (c0 + s)) by lia. rewrite <- (Z.div_unique (c0 + s) (2 ^ 32) 1 (c0 + s - 2 ^ 32)) by lia.
      rewrite (proj2 (Z.ltb_lt _ _)) by lia. lia. }
  assert (Hc0' : 0 <= c0' < 2 ^ 32) by (apply Z.mod_pos_bound; lia).
  split; [done|].
  assert (Hc1 : ((if c0' <? s then (c1 + 1) mod 2 ^ 32 else c1) + h) mod 2 ^ 32
                = (c1 + carry + h) mod 2 ^ 32).
  { unfold carry. destruct (c0' <? s); [apply Zplus_mod_idemp_l|]. by rewrite Z.add_0_r. }
  rewrite Hc1, count_join by done.
  replace (c0' + 2 ^ 32 * (c1 + carry + h)) with ((c0 + 2 ^ 32 * c1) + 8 * Z.of_nat len) by lia.
  rewrite He, Zplus_mod_idemp_l. f_equal. lia.
Qed.

(** ** Updates *)

(** The context has absorbed the message [m]. *)
Record absorbed (m : list Z) (ctx : md5_ctx) : Prop := Absorbed {
  ab_length : length (md_buffer ctx) = 64%nat;
  ab_state : md_state ctx = absorb (length m / 64) initial_state m;
  ab_buffer : take (length m mod 64) (md_buffer ctx) = drop (64 * (length m / 64)) m;
  ab_count : counts (count0 ctx) (count1 ctx) (length m);
}.

Lemma absorbed_init buffer : length buffer = 64%nat -> absorbed [] (MD5Init buffer).
Proof. intros Hl. by constructor. Qed.

Lemma transform_loop_spec fuel : forall st input k,
  (k <= length input)%nat -> Z.of_nat (length input) < 2 ^ 32 - 64 ->
  ((length input - k) / 64 <= fuel)%nat ->
  transform_loop fuel st input (Z.of_nat k)
    = Some (absorb ((length input - k) / 64) st (drop k input),
            Z.of_nat (k + 64 * ((length input - k) / 64))).
Proof.
  induction fuel as [|fuel IH]; intros st input k Hk Hl Hf; cbn [transform_loop];
    rewrite (wrap_u_small 32) by lia; (destruct (Z.leb_spec (Z.of_nat k + 64) (Z.of_nat (length input))) as [Hle|Hgt]).
  2,4: rewrite (Nat.div_small (length input - k)) by lia; simpl; by rewrite Nat.add_0_r.
  - assert (1 <= (length input - k) / 64)%nat by (apply Nat.div_le_lower_bound; lia). lia.
  - unfold read_bytes. rewrite Nat2Z.id, decide_True by lia. cbn [mbind option_bind].
    replace (Z.of_nat k + 64) with (Z.of_nat (k + 64)) by lia.
    assert (Hd : ((length input - k) / 64 = S ((length input - (k + 64)) / 64))%nat).
    { replace (length input - k)%nat with (length input - (k + 64) + 1 * 64)%nat by lia.
      rewrite Nat.div_add by lia. lia. }
    rewrite IH by (rewrite ?Hd in Hf; lia). rewrite Hd. cbn [absorb].
    rewrite drop_drop. do 2 f_equal. lia.
Qed.

Lemma write_prefix (buf bs : list Z) :
  (length bs <= length buf)%nat -> write_bytes buf 0 bs = Some (bs ++ drop (length bs) buf).
Proof.
  intros Hl. rewrite <- (take_drop (length bs) buf) at 1. apply write_bytes_prefix.
  rewrite length_take. lia.
Qed.

Lemma write_at (buf bs : list Z) off :
  (off + length bs <= length buf)%nat ->
  write_bytes buf off bs = Some (take off buf ++ bs ++ drop (off + length bs) buf).
Proof. intros Hl. unfold write_bytes. by rewrite decide_True. Qed.

(** The position of the message's end in its last block. *)
Lemma update_short m ctx input :
  absorbed m ctx -> (length m mod 64 + length input < 64)%nat ->
  take (length (m ++ input) mod 64) (take (length m mod 64) (md_buffer ctx) ++ input
      ++ drop (length m mod 64 + length input) (md_buffer ctx))
    = drop (64 * (length (m ++ input) / 64)) (m ++ input)
  /\ absorb (length (m ++ input) / 64) initial_state (m ++ input) = md_state ctx.
Proof.
  intros Hab Hlt. destruct Hab as [Hl Hst Hbuf _].
  pose proof (Nat.div_mod_eq (length m) 64) as Hd. set (q := (length m / 64)%nat) in *.
  set (r := (length m mod 64)%nat) in *.
  assert (Hq : (length (m ++ input) / 64 = q)%nat).
  { rewrite length_app. symmetry. apply (Nat.div_unique _ 64 q (r + length input)); lia. }
  assert (Hr : (length (m ++ input) mod 64 = r + length input)%nat).
  { rewrite length_app. symmetry. apply (Nat.mod_unique _ 64 q (r + length input)); lia. }
  rewrite Hq, Hr, Hbuf. split.
  - rewrite drop_app_le by lia. rewrite app_assoc.
    assert (Hlen : length (drop (64 * q) m ++ input) = (r + length input)%nat)
      by (rewrite length_app, length_drop; lia).
    by rewrite <- Hlen, take_app_length.
  - rewrite Hst. rewrite <- (take_drop (64 * q) m) at 1 2. rewrite <- app_assoc.
    rewrite !absorb_prefix by (rewrite length_take; lia). done.
Qed.

(** A block is completed: the message is full blocks, then [tail ++ p] that
    makes one more block, then the rest. *)
Lemma update_long m ctx input :
  absorbed m ctx -> (64 <= length m mod 64 + length input)%nat ->
  let r := (length m mod 64)%nat in
  let k := (64 - r)%nat in
  let n := ((length input - k) / 64)%nat in
  let rest := drop (k + 64 * n) input in
  absorb n (MD5Transform (md_state ctx) (take r (md_buffer ctx) ++ take k input)) (drop k input)
    = absorb (length (m ++ input) / 64) initial_state (m ++ input)
  /\ (length rest < 64)%nat /\ length rest = (length (m ++ input) mod 64)%nat
  /\ drop (64 * (length (m ++ input) / 64)) (m ++ input) = rest.
Proof.
  intros Hab Hge r k n rest. destruct Hab as [Hl Hst Hbuf _].
  pose proof (Nat.div_mod_eq (length m) 64) as Hd. pose proof (Nat.mod_upper_bound (length m) 64) as Hrb.
  pose proof (Nat.div_mod_eq (length input - k) 64) as Hn.
  pose proof (Nat.mod_upper_bound (length input - k) 64) as Hnb.
  fold r in Hd, Hrb, Hge. fold n in Hn. set (q := (length m / 64)%nat) in *.
  assert (Hrl : length rest = ((length input - k) mod 64)%nat)
    by (unfold rest; rewrite length_drop; lia).
  assert (Hq : (length (m ++ input) / 64 = q + (1 + n))%nat).
  { rewrite length_app. symmetry. apply (Nat.div_unique _ 64 _ (length rest)); lia. }
  assert (Hr : (length (m ++ input) mod 64 = length rest)%nat).
  { rewrite length_app. symmetry. apply (Nat.mod_unique _ 64 (q + (1 + n)) (length rest)); lia. }
  set (full := take (64 * q) m). set (tl := drop (64 * q) m) in *.
  assert (Hm : m = full ++ tl) by (unfold full, tl; by rewrite take_drop).
  assert (Hfull : length full = (64 * q)%nat) by (unfold full; rewrite length_take; lia).
  assert (Htl : length tl = r) by (unfold tl; rewrite length_drop; lia).
  assert (Hblk : length (tl ++ take k input) = (64 * 1)%nat)
    by (rewrite length_app, length_take, Htl; lia).
  assert (Hmsg : m ++ input = full ++ (tl ++ take k input) ++ drop k input).
  { rewrite Hm at 1. rewrite <- !app_assoc. by rewrite take_drop. }
  split; [|split; [lia|split; [done|]]].
  - rewrite Hq, Hmsg, absorb_app by done. rewrite (absorb_app 1 n) by done.
    fold r in Hbuf. rewrite Hbuf, Hst. rewrite Hm at 1. rewrite absorb_prefix by done.
    cbn [absorb]. by rewrite (take_ge (tl ++ take k input)) by lia.
  - rewrite Hq, Hmsg. rewrite app_assoc, drop_app_ge by (rewrite length_app; lia).
    rewrite length_app, Hfull, Hblk. unfold rest.
    rewrite drop_drop. f_equal. lia.
Qed.

Lemma update_spec m ctx input :
  absorbed m ctx -> Z.of_nat (length input) < 2 ^ 32 - 64 ->
  exists ctx', MD5Update ctx input = Some ctx' /\ absorbed (m ++ input) ctx'.
Proof.
  intros Hab Hl. pose proof (ab_length _ _ Hab) as Hbl.
  pose proof (Nat.mod_upper_bound (length m) 64) as Hrb.
  assert (Hcnt := counts_update _ _ _ (length input) (ab_count _ _ Hab) ltac:(lia)).
  cbv zeta in Hcnt. rewrite <- length_app in Hcnt. unfold MD5Update.
  rewrite (index_spec _ _ (counts_low _ _ _ (ab_count _ _ Hab))).
  set (r := (length m mod 64)%nat) in *. rewrite Nat2Z.id.
  destruct (Z.leb_spec (64 - Z.of_nat r) (Z.of_nat (length input))) as [Hge|Hlt].
  - destruct (update_long m ctx input Hab) as (Hst & Hrl & Hrm & Hdr); [fold r; lia|].
    fold r in Hst, Hrl, Hrm, Hdr.
    replace (Z.to_nat (64 - Z.of_nat r)) with (64 - r)%nat by lia.
    set (k := (64 - r)%nat) in *. set (n := ((length input - k) / 64)%nat) in *.
    assert (Hkl : length (take k input) = k) by (rewrite length_take; lia).
    rewrite write_at by (rewrite Hkl; lia). cbn [mbind option_bind]. rewrite Hkl.
    rewrite (drop_ge (md_buffer ctx)) by lia. rewrite app_nil_r.
    replace (64 - Z.of_nat r) with (Z.of_nat k) by lia.
    rewrite transform_loop_spec by (try apply Nat.Div0.div_le_upper_bound; lia). fold n.
    cbn [mbind option_bind]. rewrite Nat2Z.id. set (rest := drop (k + 64 * n) input) in *.
    rewrite write_prefix by (rewrite length_app, length_take; lia).
    cbn [mbind option_bind]. eexists. split; [done|]. constructor; cbn [md_buffer md_state count0 count1].
    + rewrite length_app, length_drop, length_app, length_take. lia.
    + exact Hst.
    + by rewrite <- Hrm, take_app_length.
    + exact Hcnt.
  - destruct (update_short m ctx input Hab) as [Hbuf Hst]; [fold r; lia|]. fold r in Hbuf.
    rewrite write_at by lia. cbn [mbind option_bind]. eexists. split; [done|].
    constructor; cbn [md_buffer md_state count0 count1].
    + rewrite !length_app, length_take, length_drop. lia.
    + done.
    + exact Hbuf.
    + exact Hcnt.
Qed.

(** ** The final block *)

Lemma encode_word w :
  [Z.land w 255; Z.land (Z.shiftr w 8) 255; Z.land (Z.shiftr w 16) 255; Z.land (Z.shiftr w 24) 255]
    = le_bytes 4 w.
Proof.
  cbn [le_bytes]. change 255 with (Z.ones 8). rewrite !Z.land_ones, !Z.shiftr_div_pow2 by lia.
  change (2 ^ 24) with (256 * 256 * 256). change (2 ^ 16) with (256 * 256). change (2 ^ 8) with 256.
  by rewrite <- !Z.div_div by lia.
Qed.

Lemma encode_words ws : MD5Encode ws = ws ≫= le_bytes 4.
Proof.
  induction ws as [|w ws IH]; [done|].
  change (MD5Encode (w :: ws)) with ([Z.land w 255; Z.land (Z.shiftr w 8) 255;
    Z.land (Z.shiftr w 16) 255; Z.land (Z.shiftr w 24) 255] ++ MD5Encode ws).
  rewrite encode_word, IH. done.
Qed.

Lemma le_bytes_split n m z : le_bytes (n + m) z = le_bytes n z ++ le_bytes m (z / 256 ^ Z.of_nat n).
Proof.
  revert z. induction n as [|n IH]; intros z; [by rewrite Z.div_1_r|].
  rewrite Nat2Z.inj_succ, Z.pow_succ_r by lia. cbn [Nat.add le_bytes app]. rewrite IH.
  rewrite Z.div_div by (try apply Z.pow_pos_nonneg; lia). done.
Qed.

Lemma count_bytes c0 c1 n :
  counts c0 c1 n -> MD5Encode [c0; c1] = le_bytes 8 (8 * Z.of_nat n).
Proof.
  intros [Hc He]. rewrite encode_words. rewrite <- (le_bytes_mod 8).
  change (256 ^ Z.of_nat 8) with (2 ^ 64). rewrite <- He.
  change 8%nat with (4 + 4)%nat. rewrite le_bytes_split.
  change (256 ^ Z.of_nat 4) with (2 ^ 32). rewrite (Z.mul_comm (2 ^ 32)), Z.div_add by lia.
  rewrite (Z.div_small c0), Z.add_0_l by lia.
  rewrite <- (le_bytes_mod 4 (c0 + c1 * 2 ^ 32)). change (256 ^ Z.of_nat 4) with (2 ^ 32).
  rewrite Z.mod_add, Z.mod_small by lia. change (4 + 4)%nat with 8%nat.
  change ([c0; c1] ≫= le_bytes 4) with (le_bytes 4 c0 ++ le_bytes 4 c1 ++ []).
  by rewrite app_nil_r.
Qed.

Lemma padding_take n : (1 <= n <= 64)%nat ->
  read_bytes PADDING 0 n = Some (0x80 :: zeroed (n - 1)).
Proof.
  intros Hn. unfold PADDING, zeroed.
  replace (0x80 :: replicate 63 0) with ((0x80 :: replicate (n - 1) 0) ++ replicate (64 - n) 0).
  - apply read_bytes_prefix. simpl. rewrite length_replicate. lia.
  - cbn [app]. f_equal. rewrite <- replicate_add. f_equal. lia.
Qed.

Lemma final_spec m ctx : absorbed m ctx -> MD5Final ctx = Some (md5_digest m).
Proof.
  intros Hab. unfold MD5Final. rewrite (index_spec _ _ (counts_low _ _ _ (ab_count _ _ Hab))).
  pose proof (Nat.mod_upper_bound (length m) 64) as Hr. set (r := (length m mod 64)%nat) in *.
  set (z := ((119 - r) mod 64)%nat).
  assert (Hz : Z.to_nat (if Z.of_nat r <? 56 then 56 - Z.of_nat r else 120 - Z.of_nat r) = (1 + z)%nat).
  { unfold z. destruct (Z.ltb_spec (Z.of_nat r) 56).
    - rewrite <- (Nat.mod_unique (119 - r) 64 1 (55 - r)); lia.
    - rewrite Nat.mod_small; lia. }
  assert (Hzb : (z < 64)%nat) by (apply Nat.mod_upper_bound; lia).
  rewrite Hz, padding_take by lia. cbn [mbind option_bind]. replace (1 + z - 1)%nat with z by lia.
  destruct (update_spec m ctx (0x80 :: zeroed z) Hab) as (ctx1 & -> & Hab1).
  { unfold zeroed. simpl. rewrite length_replicate. lia. }
  cbn [mbind option_bind]. rewrite (count_bytes _ _ _ (ab_count _ _ Hab)).
  destruct (update_spec _ ctx1 (le_bytes 8 (8 * Z.of_nat (length m))) Hab1) as (ctx2 & -> & Hab2).
  { by rewrite length_le_bytes. }
  cbn [mbind option_bind]. rewrite encode_words, (ab_state _ _ Hab2).
  unfold md5_digest, md5_pad. fold r. fold z.
  rewrite <- app_assoc. done.
Qed.

Lemma updates_spec reads : forall m ctx,
  absorbed m ctx -> Forall (fun d => Z.of_nat (length d) < 2 ^ 32 - 64) reads ->
  exists ctx', foldl (fun c d => c ← c; MD5Update c d) (Some ctx) reads = Some ctx'
    /\ absorbed (m ++ concat reads) ctx'.
Proof.
  induction reads as [|d reads IH]; intros m ctx Hab Hl; [exists ctx; by rewrite app_nil_r|].
  apply Forall_cons in Hl as [Hd Hl]. destruct (update_spec m ctx d Hab Hd) as (ctx1 & E & Hab1).
  cbn [foldl mbind option_bind]. rewrite E. destruct (IH _ _ Hab1 Hl) as (ctx' & E' & Hab').
  exists ctx'. split; [done|]. by rewrite <- app_assoc in Hab'.
Qed.

Lemma str_loop_spec fuel : forall m ctx str,
  absorbed m ctx -> (length str <= fuel)%nat ->
  exists ctx', md5_str_loop fuel ctx str = Some ctx' /\ absorbed (m ++ str) ctx'.
Proof.
  assert (Hb : (BLOCK_SIZE = 1024)%nat) by done.
  induction fuel as [|fuel IH]; intros m ctx str Hab Hf; cbn [md5_str_loop];
    destruct (Nat.ltb_spec (length str) BLOCK_SIZE) as [Hlt|Hge]; try lia.
  1,2: rewrite take_ge by lia; destruct (update_spec m ctx str Hab) as (ctx' & -> & Hab'); [lia|];
    cbn [mbind option_bind]; rewrite (proj2 (Nat.ltb_lt _ _)) by lia; eauto.
  destruct (update_spec m ctx (take BLOCK_SIZE str) Hab) as (ctx1 & -> & Hab1).
  { rewrite length_take. lia. }
  cbn [mbind option_bind]. rewrite Nat.ltb_irrefl.
  destruct (IH _ _ (drop BLOCK_SIZE str) Hab1) as (ctx' & E & Hab'); [rewrite length_drop; lia|].
  exists ctx'. split; [done|]. by rewrite <- app_assoc, take_drop in Hab'.
Qed.

Lemma file_loop_spec reads last : forall m ctx,
  absorbed m ctx -> Forall (fun d => length d = BLOCK_SIZE) reads -> (length last < BLOCK_SIZE)%nat ->
  exists ctx', md5_file_loop ctx (reads ++ [last]) = Some ctx' /\ absorbed (m ++ concat reads ++ last) ctx'.
Proof.
  assert (Hb : (BLOCK_SIZE = 1024)%nat) by done.
  induction reads as [|d reads IH]; intros m ctx Hab Hl Hlast; cbn [app md5_file_loop].
  - destruct (update_spec m ctx last Hab) as (ctx' & -> & Hab'); [lia|]. cbn [mbind option_bind].
    rewrite (proj2 (Nat.ltb_lt _ _)) by lia. eauto.
  - apply Forall_cons in Hl as [Hd Hl].
    destruct (update_spec m ctx d Hab) as (ctx1 & -> & Hab1); [lia|]. cbn [mbind option_bind].
    rewrite (proj2 (Nat.ltb_ge _ _)) by lia.
    destruct (IH _ _ Hab1 Hl Hlast) as (ctx' & E & Hab'). exists ctx'. split; [done|].
    cbn [concat]. by rewrite <- !app_assoc in *.
Qed.

(** ** Hexadecimal *)

Definition hex_value (c : Z) : Z := if c <? 97 then c - 48 else c - 87.

Fixpoint unhex (s : list Z) : list Z :=
  match s with
  | h :: l :: s => 16 * hex_value h + hex_value l :: unhex s
  | _ => []
  end.

Lemma hex_char v : 0 <= v < 16 -> exists c, dec_to_hex_char v = Some c /\ hex_value c = v
  /\ c ∈ charset.
Proof.
  intros Hv. unfold dec_to_hex_char. rewrite decide_True by done.
  destruct (lookup_lt_is_Some_2 charset (Z.to_nat v)) as [c Hc]; [simpl; lia|].
  exists c. split; [done|]. split; [|by eapply list_elem_of_lookup_2].
  rewrite <- (Z2Nat.id v) by lia. assert (Hn : (Z.to_nat v < 16)%nat) by lia. revert Hc Hn.
  generalize (Z.to_nat v). intros n. do 16 (destruct n as [|n]; [by intros [= <-] _|]). lia.
Qed.

Lemma printable_spec d :
  Forall is_byte d -> exists s, md5_printable_str d = Some s /\ unhex s = d
    /\ length s = (2 * length d)%nat /\ Forall (fun c => c ∈ charset) s.
Proof.
  induction 1 as [|b d Hb _ (s & E & Hu & Hl & Hs)]; [by exists []|]. unfold is_byte in Hb.
  destruct (hex_char (b / 16)) as (h & Eh & Hh & Hhc).
  { split; [apply Z.div_pos; lia|apply Z.div_lt_upper_bound; lia]. }
  destruct (hex_char (b mod 16)) as (l & El & Hlv & Hlc); [apply Z.mod_pos_bound; lia|].
  exists (h :: l :: s). simpl. rewrite Eh. simpl. rewrite El. simpl. rewrite E. simpl.
  rewrite Hh, Hlv, Hu, Hl. split_and!; [done| |lia|by constructor; [|constructor]].
  f_equal. pose proof (Z.div_mod b 16). lia.
Qed.

Lemma digest_bytes m : Forall is_byte (md5_digest m) /\ length (md5_digest m) = 16%nat.
Proof.
  split; [|done]. unfold md5_digest. apply Forall_bind, Forall_forall. intros w _. apply le_bytes_byte.
Qed.

(** ** The properties *)

(** C32: However a message is cut into updates, the digest is that of the whole
    message: the compression function folded over the message followed by a
    one bit, zeros up to 56 modulo 64 and the 64-bit count of its bits. *)
Theorem md5_streaming buffer (reads : list (list Z))
    (Hbuf : length buffer = 64%nat)
    (Hreads : Forall (fun d => Z.of_nat (length d) < 2 ^ 32 - 64) reads) :
  exists ctx, foldl (fun c d => c ← c; MD5Update c d) (Some (MD5Init buffer)) reads = Some ctx
    /\ MD5Final ctx = Some (md5_digest (concat reads)).
Proof.
  destruct (updates_spec reads [] _ (absorbed_init buffer Hbuf) Hreads) as (ctx & E & Hab).
  exists ctx. split; [done|]. by apply final_spec.
Qed.

Lemma md5_streaming_witness :
  exists ctx, foldl (fun c d => c ← c; MD5Update c d) (Some (MD5Init (zeroed 64))) [[97]; []; [98; 99]]
      = Some ctx /\ MD5Final ctx = Some (md5_digest [97; 98; 99]).
Proof. apply (md5_streaming (zeroed 64) [[97]; []; [98; 99]]); [done|]. by repeat constructor. Defined.

(** [md5_str] and [md5_file] of the same bytes give the same string: the 32
    hexadecimal digits of the digest, from which the digest can be read back.
    A file is read as full blocks and a last, shorter one. *)
Theorem md5_str_file buffer reads last
    (Hbuf : length buffer = 64%nat)
    (Hfull : Forall (fun d => length d = BLOCK_SIZE) reads) (Hlast : (length last < BLOCK_SIZE)%nat) :
  exists s, md5_str buffer (concat reads ++ last) = Some s
    /\ md5_file buffer (Some (reads ++ [last])) = Some (Some s)
    /\ length s = 32%nat /\ Forall (fun c => c ∈ charset) s
    /\ unhex s = md5_digest (concat reads ++ last).
Proof.
  set (m := concat reads ++ last). destruct (digest_bytes m) as [Hb Hl].
  destruct (printable_spec _ Hb) as (s & Es & Hu & Hls & Hc). exists s.
  destruct (str_loop_spec (length m) [] _ m (absorbed_init buffer Hbuf)) as (c1 & E1 & H1); [done|].
  destruct (file_loop_spec reads last [] _ (absorbed_init buffer Hbuf) Hfull Hlast) as (c2 & E2 & H2).
  unfold md5_str, md5_file. fold m in H2. rewrite E1, E2. cbn [mbind option_bind].
  rewrite (final_spec _ _ H1), (final_spec _ _ H2). cbn [mbind option_bind app]. rewrite Es.
  split_and!; [done|done|by rewrite Hls, Hl|done|done].
Qed.

Lemma md5_str_file_witness :
  exists s, md5_str (zeroed 64) ([] ++ [97; 98; 99]) = Some s
    /\ md5_file (zeroed 64) (Some ([] ++ [[97; 98; 99]])) = Some (Some s)
    /\ length s = 32%nat /\ Forall (fun c => c ∈ charset) s
    /\ unhex s = md5_digest ([] ++ [97; 98; 99]).
Proof.
  apply (md5_str_file (zeroed 64) [] [97; 98; 99]); [done|constructor|]. simpl. unfold BLOCK_SIZE. lia.
Defined.

(** The test suite of RFC 1321: [md5_str] computes the published digests. *)
Theorem md5_rfc1321_vectors :
  Forall (fun p : string * string =>
      md5_str (zeroed 64) (ascii_bytes p.1) = Some (ascii_bytes p.2))
    [("", "d41d8cd98f00b204e9800998ecf8427e");
     ("a", "0cc175b9c0f1b6a831c399e269772661");
     ("abc", "900150983cd24fb0d6963f7d28e17f72");
     ("message digest", "f96b697d7cb7938d525a2f31aaf161d0");
     ("abcdefghijklmnopqrstuvwxyz", "c3fcd3d76192e4007dfb496cca67e13b");
     ("ABCDEFGHIJKLMNOPQRSTUVWXYZabcdefghijklmnopqrstuvwxyz0123456789",
      "d174ab98d277d9f5a5611c2c9f419d9f");
     ("12345678901234567890123456789012345678901234567890123456789012345678901234567890",
      "57edf4a22be3c955ac49da2e2107b67a")]%string.
Proof. repeat (constructor; [vm_compute; reflexivity|]). constructor. Qed.
