(* ===== verification/Process.v ===== *)
(** * Two programs at the ends of a connection

    A component that talks over a socket is a tree of its sends and receives;
    [bind] composes them as the C code does.  A pair of such programs runs by
    interleaving: messages in each direction are delivered in order, after any
    delay.  The result of a run does not depend on the schedule
    ([every_run_ends]). *)

From stdpp Require Import relations.
From Stdlib Require Import FunctionalExtensionality.
From S2P Require Import Prelude.

(** What [recv_sftt_packet] reports: a packet (positive), the end of the
    connection (0) or an error (-1); [again] says that the socket does not
    block and had nothing to deliver. *)
Inductive received (I : Type) := Got (m : I) | NoData | RecvErr (again : bool).
Arguments Got {I} m.
Arguments NoData {I}.
Arguments RecvErr {I} again.

(** [Crash] is undefined behaviour. *)
Inductive prog (O I R : Type) :=
  | Ret (r : R)
  | Send (o : O) (k : prog O I R)
  | Recv (k : received I -> prog O I R)
  | Crash.
Arguments Ret {O I R} r.
Arguments Send {O I R} o k.
Arguments Recv {O I R} k.
Arguments Crash {O I R}.

#[export] Instance prog_ret O I : MRet (prog O I) := fun R r => Ret r.

#[export] Instance prog_bind O I : MBind (prog O I) := fun R S f =>
  fix go p :=
    match p with
    | Ret r => f r
    | Send o k => Send o (go k)
    | Recv k => Recv (fun r => go (k r))
    | Crash => Crash
    end.

Section Calls.
Context {O I : Type}.

Definition send (o : O) : prog O I () := Send o (Ret tt).
Definition recv : prog O I (received I) := Recv Ret.

(** A partial operation inside a program. *)
Definition lift {A} (x : option A) : prog O I A :=
  match x with Some a => Ret a | None => Crash end.

(** The outcome of a program that reads [ins] and then finds the connection
    closed: the messages it sent and its result. *)
Inductive outcome (R : Type) := Done (r : R) (rest : list (received I)) | Crashed.
Arguments Done {R} r rest.
Arguments Crashed {R}.

Fixpoint run {R} (p : prog O I R) (ins : list (received I)) : list O * outcome R :=
  match p with
  | Ret r => ([], Done r ins)
  | Send o k => let '(out, r) := run k ins in (o :: out, r)
  | Recv k =>
      match ins with
      | [] => run (k NoData) []
      | i :: ins => run (k i) ins
      end
  | Crash => ([], Crashed)
  end.
End Calls.
Arguments outcome : clear implicits.
Arguments Done {I R} r rest.
Arguments Crashed {I R}.

(** ** Schedules

    When any two steps from a state can be joined in at most one step each, one
    schedule that reaches a final state speaks for all of them. *)

Section Schedules.
Context {C : Type} (R : relation C).

(** Every schedule from [c] is finite and can only end in [f]. *)
Definition always_ends (c f : C) : Prop :=
  nf R f /\ exists n, forall m c', nsteps R m c c' -> (m <= n)%nat /\ nsteps R (n - m) c' f.

Context (HR : forall c c1 c2, R c c1 -> R c c2 -> c1 = c2 \/ exists c3, R c1 c3 /\ R c2 c3).

Lemma diamond_descent n c f c' :
  nsteps R n c f -> nf R f -> R c c' -> exists n', n = S n' /\ nsteps R n' c' f.
Proof.
  intros Hn Hf. revert c'. induction Hn as [f|n c c1 f Hs Hn IH]; intros c' Hc'.
  - exfalso. apply Hf. by exists c'.
  - exists n. split; [done|]. destruct (HR _ _ _ Hs Hc') as [<-|(c3 & H1 & H2)]; [done|].
    destruct (IH Hf _ H1) as (n' & -> & H3). by eapply nsteps_l.
Qed.

Lemma diamond_ends c f : rtc R c f -> nf R f -> always_ends c f.
Proof.
  intros [n Hn]%rtc_nsteps_1 Hf. split; [done|]. exists n. intros m. revert n c Hn.
  induction m as [|m IH]; intros n c Hn c' Hm.
  - inversion Hm; subst. rewrite Nat.sub_0_r. split; [lia|done].
  - inversion Hm as [|? ? c1 ? Hs Hm']; subst.
    destruct (diamond_descent _ _ _ _ Hn Hf Hs) as (n' & -> & Hn'). simpl.
    destruct (IH _ _ Hn' _ Hm'). split; [lia|done].
Qed.
End Schedules.

(** ** Running two programs *)

Section Network.
Context {A B RA RB : Type}.

Record network := Network {
  left_end : prog A B RA;
  right_end : prog B A RB;
  to_right : list A;
  to_left : list B;
}.

Inductive step : network -> network -> Prop :=
  | left_sends o k q ab ba : step (Network (Send o k) q ab ba) (Network k q (ab ++ [o]) ba)
  | right_sends o p k ab ba : step (Network p (Send o k) ab ba) (Network p k ab (ba ++ [o]))
  | left_receives k q ab m ba : step (Network (Recv k) q ab (m :: ba)) (Network (k (Got m)) q ab ba)
  | right_receives p k m ab ba : step (Network p (Recv k) (m :: ab) ba) (Network p (k (Got m)) ab ba).

(** Steps of the two ends commute. *)
Lemma step_diamond c c1 c2 : step c c1 -> step c c2 -> c1 = c2 \/ exists c3, step c1 c3 /\ step c2 c3.
Proof. intros H1 H2. destruct H1; inversion H2; subst; eauto using step. Qed.

Definition every_run_ends : network -> network -> Prop := always_ends step.

Lemma run_ends c f : rtc step c f -> nf step f -> every_run_ends c f.
Proof. apply diamond_ends, step_diamond. Qed.

(** The right end's socket does not block: a receive may find nothing. *)
Inductive poll_step : network -> network -> Prop :=
  | poll_moves c c' : step c c' -> poll_step c c'
  | right_polls p k ba : poll_step (Network p (Recv k) [] ba) (Network p (k (RecvErr true)) [] ba).

Lemma final_both_wait k k' : nf step (Network (Recv k) (Recv k') [] []).
Proof. intros [c Hc]. inversion Hc. Qed.

Lemma final_done ra rb ab ba : nf step (Network (Ret ra) (Ret rb) ab ba).
Proof. intros [c Hc]. inversion Hc. Qed.

Lemma final_left_waits k rb ab : nf step (Network (Recv k) (Ret rb) ab []).
Proof. intros [c Hc]. inversion Hc. Qed.

Lemma final_right_waits ra k ba : nf step (Network (Ret ra) (Recv k) [] ba).
Proof. intros [c Hc]. inversion Hc. Qed.
End Network.
Arguments network : clear implicits.

(** A message passed at once, when nothing else is in transit. *)
Lemma pass_right {A B RA RB} (o : A) (k : prog A B RA) (k' : received A -> prog B A RB) :
  rtc step (Network (Send o k) (Recv k') [] []) (Network k (k' (Got o)) [] []).
Proof. eapply rtc_l; [apply left_sends|]. apply rtc_once, right_receives. Qed.

Lemma pass_left {A B RA RB} (o : B) (k : received B -> prog A B RA) (k' : prog B A RB) :
  rtc step (Network (Recv k) (Send o k') [] []) (Network (k (Got o)) k' [] []).
Proof. eapply rtc_l; [apply right_sends|]. apply rtc_once, left_receives. Qed.

(** The two ends can be exchanged. *)
Definition flip_network {A B RA RB} (c : network A B RA RB) : network B A RB RA :=
  let 'Network p q ab ba := c in Network q p ba ab.

Lemma flip_run {A B RA RB} (c c' : network A B RA RB) :
  rtc step c c' -> rtc step (flip_network c) (flip_network c').
Proof.
  induction 1 as [c|c1 c2 c3 H12 _ IH]; [constructor|]. eapply rtc_l; [|exact IH].
  destruct H12; [apply right_sends|apply left_sends|apply right_receives|apply left_receives].
Qed.

(** The laws of [bind]. *)
Lemma bind_send {O I R S} (o : O) (k : prog O I R) (f : R -> prog O I S) :
  (Send o k ≫= f) = Send o (k ≫= f).
Proof. reflexivity. Qed.

Lemma bind_recv {O I R S} (k : received I -> prog O I R) (f : R -> prog O I S) :
  (Recv k ≫= f) = Recv (fun r => k r ≫= f).
Proof. reflexivity. Qed.

Lemma bind_assoc {O I R S U} (p : prog O I R) (f : R -> prog O I S) (g : S -> prog O I U) :
  ((p ≫= f) ≫= g) = (p ≫= (fun r => f r ≫= g)).
Proof.
  induction p as [r|o k IH|k IH|]; [done| | |done].
  - by rewrite !bind_send, IH.
  - rewrite !bind_recv. f_equal. apply functional_extensionality. done.
Qed.

(** What follows the left end does not take part in its run. *)
Definition bind_left {A B RA RB SA} (f : RA -> prog A B SA) (c : network A B RA RB) : network A B SA RB :=
  let 'Network p q ab ba := c in Network (p ≫= f) q ab ba.

Lemma bind_left_run {A B RA RB SA} (f : RA -> prog A B SA) (c c' : network A B RA RB) :
  rtc step c c' -> rtc step (bind_left f c) (bind_left f c').
Proof.
  induction 1 as [c|c1 c2 c3 H12 _ IH]; [constructor|]. eapply rtc_l; [|exact IH].
  destruct H12; cbn [bind_left]; rewrite ?bind_send, ?bind_recv;
    [apply left_sends|apply right_sends|apply (left_receives (fun r => k r ≫= f))|apply right_receives].
Qed.

(** A run of a composition is a run of each part. *)
Lemma run_bind {O I R S} (p : prog O I R) (f : R -> prog O I S) ins out s rest :
  run (p ≫= f) ins = (out, Done s rest) ->
  exists out1 r ins1 out2, run p ins = (out1, Done r ins1)
    /\ run (f r) ins1 = (out2, Done s rest) /\ out = out1 ++ out2.
Proof.
  revert ins out. induction p as [r|o k IH|k IH|]; intros ins out; cbn [mbind prog_bind run].
  - intros E. by exists [], r, ins, out.
  - change ((fix go p := match p with Ret r => f r | Send o k => Send o (go k)
      | Recv k => Recv (fun r => go (k r)) | Crash => Crash end) k) with (k ≫= f).
    destruct (run (k ≫= f) ins) as [out' o'] eqn:E. intros [= <- ->].
    destruct (IH _ _ E) as (o1 & r & i1 & o2 & -> & E2 & ->). by exists (o :: o1), r, i1, o2.
  - destruct ins as [|i ins]; intros E; by apply IH in E.
  - done.
Qed.

(** The programs that only compute. *)
Lemma run_lift {O I A} (x : option A) ins out (r : A) rest :
  run (lift (O := O) (I := I) x) ins = (out, Done r rest) -> x = Some r /\ rest = ins /\ out = [].
Proof. destruct x; cbn; [intros [= <- <- <-]|]; done. Qed.

(** ** Programs over a larger set of messages *)

Section Embed.
Context {O I O' I' : Type} (fO : O -> O') (fI : I' -> option I).

(** A message of another kind is undefined behaviour. *)
Fixpoint embed {R} (p : prog O I R) : prog O' I' R :=
  match p with
  | Ret r => Ret r
  | Send o k => Send (fO o) (embed k)
  | Recv k => Recv (fun r =>
      match r with
      | Got i => match fI i with Some i => embed (k (Got i)) | None => Crash end
      | NoData => embed (k NoData)
      | RecvErr again => embed (k (RecvErr again))
      end)
  | Crash => Crash
  end.
End Embed.

(** Two programs that run to their ends do so as parts of larger ones. *)
Section EmbedRun.
Context {A B A' B' RA RB SA SB : Type}.
Context (fA : A -> A') (gA : A' -> option A) (fB : B -> B') (gB : B' -> option B).
Context (HA : forall a, gA (fA a) = Some a) (HB : forall b, gB (fB b) = Some b).
Context (kA : RA -> prog A' B' SA) (kB : RB -> prog B' A' SB).

Definition embed_network (c : network A B RA RB) : network A' B' SA SB :=
  let 'Network p q ab ba := c in
  Network (embed fA gB p ≫= kA) (embed fB gA q ≫= kB) (fA <$> ab) (fB <$> ba).

Lemma embed_step c c' : step c c' -> step (embed_network c) (embed_network c').
Proof.
  intros []; cbn [embed_network embed fmap list_fmap].
  - rewrite bind_send, fmap_app. apply left_sends.
  - rewrite bind_send, fmap_app. apply right_sends.
  - rewrite bind_recv. set (K := fun r : received B' => _).
    replace (embed fA gB (k (Got m)) ≫= kA) with (K (Got (fB m))) by (unfold K; by rewrite HB).
    apply left_receives.
  - rewrite bind_recv. set (K := fun r : received A' => _).
    replace (embed fB gA (k (Got m)) ≫= kB) with (K (Got (fA m))) by (unfold K; by rewrite HA).
    apply right_receives.
Qed.

Lemma embed_run p q a b : rtc step (Network p q [] []) (Network (Ret a) (Ret b) [] []) ->
  rtc step (Network (embed fA gB p ≫= kA) (embed fB gA q ≫= kB) [] []) (Network (kA a) (kB b) [] []).
Proof.
  intros H. change (rtc step (embed_network (Network p q [] [])) (embed_network (Network (Ret a) (Ret b) [] []))).
  induction H as [c|c1 c2 c3 H12 _ IH]; [constructor|]. eapply rtc_l; [by apply embed_step|done].
Qed.
End EmbedRun.

(** The same when the right end waits for its first message in a program that
    handles others as well. *)
Section EmbedServe.
Context {A B A' B' RA RB SA SB : Type}.
Context (fA : A -> A') (gA : A' -> option A) (fB : B -> B') (gB : B' -> option B).
Context (HA : forall a, gA (fA a) = Some a) (HB : forall b, gB (fB b) = Some b).
Context (kA : RA -> prog A' B' SA) (kB : RB -> prog B' A' SB).
Context (k : received A -> prog B A RB) (K : received A' -> prog B' A' SB).
Context (HK : forall a, K (Got (fA a)) = embed fB gA (k (Got a)) ≫= kB).

Definition waiting (c : network A B RA RB) (c' : network A' B' SA SB) : Prop :=
  c' = embed_network fA gA fB gB kA kB c
  \/ right_end c = Recv k /\ c' = Network (embed fA gB (left_end c) ≫= kA) (Recv K)
       (fA <$> to_right c) (fB <$> to_left c).

Lemma waiting_step c1 c2 c1' : step c1 c2 -> waiting c1 c1' -> exists c2', step c1' c2' /\ waiting c2 c2'.
Proof.
  intros Hs [->|[Hr ->]].
  - eexists. split; [eapply embed_step; [exact HA|exact HB|exact Hs]|by left].
  - destruct Hs as [o k1 q ab ba|o p k1 ab ba|k1 q ab m ba|p k1 m ab ba]; cbn [right_end left_end to_right to_left embed] in Hr |- *; subst.
    + eexists. split; [rewrite bind_send; apply left_sends|]. right. cbn [left_end right_end to_right to_left]. by rewrite fmap_app.
    + done.
    + eexists. rewrite bind_recv. split; [apply left_receives|]. right. cbn. by rewrite HB.
    + injection Hr as ->. eexists. split; [apply right_receives|]. left. cbn. by rewrite HK.
Qed.

Lemma embed_serve p a b : rtc step (Network p (Recv k) [] []) (Network (Ret a) (Ret b) [] []) ->
  rtc step (Network (embed fA gB p ≫= kA) (Recv K) [] []) (Network (kA a) (kB b) [] []).
Proof.
  intros H. assert (Hw : waiting (Network p (Recv k) [] []) (Network (embed fA gB p ≫= kA) (Recv K) [] []))
    by (right; done).
  remember (Network p (Recv k) [] []) as c eqn:Ec. clear Ec. revert Hw.
  generalize (Network (embed fA gB p ≫= kA) (Recv K) [] []).
  remember (Network (Ret a) (Ret b) [] []) as f eqn:Ef.
  induction H as [|c1 c2 c3 H12 _ IH]; subst; intros c' Hw.
  - destruct Hw as [->|[[=] _]]. constructor.
  - destruct (waiting_step _ _ _ H12 Hw) as (c2' & Hs & Hw'). eapply rtc_l; [exact Hs|by apply IH].
Qed.
End EmbedServe.
