(* ===== verification/FileSystem.v ===== *)
(** * Files and directories (src/file.c, src/mkdirp.c, src/path-normalize.c)

    The file system is a finite map from path names to directories and regular
    files; a set of names stands for what the process may not create or write.
    Repeated and trailing slashes do not matter; the components "." and ".."
    are not resolved, and access bits, which no function here reads, are left
    out. *)

From stdpp Require Import gmap.
From S2P Require Import Prelude CStr Md5.

Definition slash : Z := 47.

Inductive node := Dir | Reg (data : list Z).

#[export] Instance node_eq_dec : EqDecision node.
Proof. solve_decision. Defined.

Record fsys := Fsys { files : gmap (list Z) node; denied : gset (list Z) }.

(** ** Names *)

Fixpoint collapse (after_slash : bool) (p : list Z) : list Z :=
  match p with
  | [] => []
  | c :: p' =>
      if c =? slash then if after_slash then collapse true p' else c :: collapse true p'
      else c :: collapse false p'
  end.

(** The result is NULL when [__strdup] refuses the empty string. *)
Definition path_normalize (path : list Z) : option (list Z) :=
  match path with [] => None | _ => Some (collapse false path) end.

(** The name under which the kernel finds a path. *)
Definition canon (p : list Z) : list Z :=
  let q := collapse false p in
  match strrchr q slash with
  | Some (c :: pre, [_]) => c :: pre
  | _ => q
  end.

Definition dirname (p : list Z) : list Z :=
  match strrchr (canon p) slash with
  | None => [46]
  | Some ([], _) => [slash]
  | Some (pre, _) => pre
  end.

Fixpoint strip_slashes (p : list Z) : list Z :=
  match p with
  | [] => []
  | c :: p' =>
      match strip_slashes p' with
      | [] => if c =? slash then [] else [c]
      | q => c :: q
      end
  end.

(** [basename] of the C library: the path without its trailing slashes, which
    it cuts off in place, and the last component. *)
Definition basename (path : list Z) : list Z * list Z :=
  match strip_slashes path with
  | [] => (path, match path with [] => [46] | _ => [slash] end)
  | p => (p, match strrchr p slash with Some (_, post) => drop 1 post | None => p end)
  end.

(** ** System calls *)

Definition node_at (fs : fsys) (p : list Z) : option node :=
  let q := canon p in
  if decide (q = [slash] \/ q = [46]) then Some Dir else files fs !! q.

Definition put_node (fs : fsys) (p : list Z) (nd : node) : fsys :=
  Fsys (<[canon p := nd]> (files fs)) (denied fs).

Definition may_create (fs : fsys) (p : list Z) : bool :=
  bool_decide (node_at fs (dirname p) = Some Dir /\ canon p ∉ denied fs /\ canon p <> []).

Inductive mkdir_result := MkOk | MkEexist | MkErr.

Definition mkdir (fs : fsys) (p : list Z) : fsys * mkdir_result :=
  match node_at fs p with
  | Some _ => (fs, MkEexist)
  | None => if may_create fs p then (put_node fs p Dir, MkOk) else (fs, MkErr)
  end.

(** [fopen(p, "w+")]: the file is created or emptied. *)
Definition fopen_w (fs : fsys) (p : list Z) : option fsys :=
  match node_at fs p with
  | Some Dir => None
  | Some (Reg _) => if decide (canon p ∈ denied fs) then None else Some (put_node fs p (Reg []))
  | None => if may_create fs p then Some (put_node fs p (Reg [])) else None
  end.

(** What reading the file at [p] to its end delivers; nothing for a directory. *)
Definition fopen_r (fs : fsys) (p : list Z) : option (list Z) :=
  match node_at fs p with Some (Reg d) => Some d | Some Dir => Some [] | None => None end.

(** [fwrite] at the end of the file that [fopen_w] opened. *)
Definition fappend (fs : fsys) (p bs : list Z) : fsys :=
  match node_at fs p with Some (Reg d) => put_node fs p (Reg (d ++ bs)) | _ => fs end.

(** ** src/mkdirp.c and src/file.c *)

Fixpoint mkdirp (fuel : nat) (fs : fsys) (path : list Z) : fsys * Z :=
  match fuel with
  | O => (fs, -1)
  | S fuel' =>
      match path_normalize path with
      | None => (fs, -1)
      | Some pathname =>
          let parent := match strrchr pathname slash with Some (pre, _) => pre | None => [] end in
          let '(fs, rc) := match parent with [] => (fs, 0) | _ => mkdirp fuel' fs parent end in
          if negb (rc =? 0) then (fs, -1) else
          let '(fs, r) := mkdir fs pathname in
          (fs, match r with MkErr => -1 | _ => 0 end)
      end
  end.

Definition mkdirp_all (fs : fsys) (path : list Z) : fsys * Z := mkdirp (S (length path)) fs path.

Definition file_existed (fs : fsys) (p : list Z) : bool :=
  match p with [] => false | _ => bool_decide (is_Some (node_at fs p)) end.

Definition is_dir (fs : fsys) (p : list Z) : bool :=
  match node_at fs p with Some Dir => true | _ => false end.

Definition is_file (fs : fsys) (p : list Z) : bool :=
  match node_at fs p with Some (Reg _) => true | _ => false end.

(** [dir_size] is what [ftell] reports at the end of a directory. *)
Definition file_size (dir_size : Z) (fs : fsys) (p : list Z) : Z :=
  match node_at fs p with Some (Reg d) => Z.of_nat (length d) | Some Dir => dir_size | None => 0 end.

(** [chmod] fails on a missing file. *)
Definition set_file_mode (fs : fsys) (p : list Z) : Z :=
  match node_at fs p with Some _ => 0 | None => -1 end.

Definition try_make_dir (fs : fsys) (p : list Z) : fsys * Z :=
  if file_existed fs p then (fs, 0) else
  let '(fs, ret) := mkdirp_all fs p in
  if ret =? -1 then (fs, -1) else (fs, set_file_mode fs p).

Definition create_new_file (fs : fsys) (p : list Z) : fsys * Z :=
  match fopen_w fs p with
  | None => (fs, -1)
  | Some fs => (fs, set_file_mode fs p)
  end.

Definition create_new_file_with_parent (fs : fsys) (p : list Z) : fsys * Z :=
  let '(fs, ret) := try_make_dir fs (dirname p) in
  if negb (ret =? 0) then (fs, -1) else create_new_file fs p.

(** The successive results of [fread] in [md5_file]. *)
Fixpoint freads (fuel : nat) (data : list Z) : list (list Z) :=
  let b := take BLOCK_SIZE data in
  match fuel with
  | O => [b]
  | S fuel' => if (length b <? BLOCK_SIZE)%nat then [b] else b :: freads fuel' (drop BLOCK_SIZE data)
  end.

(** The digits [md5_file] stores for a file with these contents. *)
Definition md5_of (data : list Z) : option (list Z) :=
  r ← md5_file (zeroed 64) (Some (freads (length data) data)); r.

Definition same_file (fs : fsys) (p md5 : list Z) : option bool :=
  if file_existed fs p then
    data ← fopen_r fs p;
    real_md5 ← md5_of data;
    Some (bool_decide (real_md5 = md5))
  else Some false.
