(* ===== verification/FilePut.v ===== *)
(** * Sending and receiving files with put requests
    (src/file_send.c, src/file_recv.c, src/file.c)

    The two ends of a transfer as programs over a connection: the client that
    sends [struct put_req] packets and waits for replies, and the server that
    receives them into its file system.  Packets are the structures at the
    moment they are sent; what serialisation leaves in the sender's structure
    is the business of the interface [Transport].  Progress display, access
    bits and the socket errors that end the process are left out. *)

From stdpp Require Import relations.
From S2P Require Import Prelude CStr Process FileSystem.

Definition CONTENT_BLOCK_SIZE : nat := 2048.
Definition FILE_NAME_MAX_LEN : nat := 256.
Definition MD5_STR_LEN : nat := 33.
Definition REQ_RESP_FLAG_NONE : Z := 0.
Definition REQ_RESP_FLAG_STOP : Z := 2.
Definition FILE_TYPE_FILE : Z := 1.
Definition FILE_TYPE_DIR : Z := 2.
Definition RESP_OK : Z := 0.
Definition RESP_CONTINUE : Z := 3.
Definition RESP_INTERNAL_ERR : Z := 15.

(** ** Packets *)

Record trans_entry := Entry {
  e_type : Z;
  this_size : Z;
  e_mode : Z;
  total_size : Z;
  content : list Z;
}.

(** The fields of [struct put_req] that a transfer uses. *)
Record put_req := PutReq {
  total_files : Z;
  file_idx : Z;
  entry : trans_entry;
  flags : Z;
  need_reply : Z;
}.

Definition with_entry (f : trans_entry -> trans_entry) (r : put_req) : put_req :=
  PutReq (total_files r) (file_idx r) (f (entry r)) (flags r) (need_reply r).
Definition with_idx (i : Z) (r : put_req) : put_req :=
  PutReq (total_files r) i (entry r) (flags r) (need_reply r).
Definition with_files (n i : Z) (r : put_req) : put_req :=
  PutReq n i (entry r) (flags r) (need_reply r).
Definition with_flags (f : Z) (r : put_req) : put_req :=
  PutReq (total_files r) (file_idx r) (entry r) f (need_reply r).
Definition with_reply (b : Z) (r : put_req) : put_req :=
  PutReq (total_files r) (file_idx r) (entry r) (flags r) b.
Definition with_total (n : Z) (e : trans_entry) : trans_entry :=
  Entry (e_type e) (this_size e) (e_mode e) n (content e).
Definition with_name (type mode size : Z) (bytes : list Z) (e : trans_entry) : trans_entry :=
  Entry type size mode (total_size e) bytes.
Definition with_content (size : Z) (bytes : list Z) (e : trans_entry) : trans_entry :=
  Entry (e_type e) size (e_mode e) (total_size e) bytes.

(** [strncpy(dst, src, n)] and [strcpy(dst, src)] into the array [dst]. *)
Definition strncpy (dst src : list Z) (n : nat) : list Z :=
  let s := take n src in s ++ replicate (n - length s) 0 ++ drop n dst.
Definition strcpy (dst src : list Z) : list Z := src ++ 0 :: drop (S (length src)) dst.

(** Bytes read into the start of an array. *)
Definition overwrite (dst bytes : list Z) : list Z := bytes ++ drop (length bytes) dst.

(** ** The interface to the packet layer *)

(** [left_put req] is the caller's structure after [send_sftt_packet]. *)
Class Transport := left_put : put_req -> put_req.

(** A serialiser that does not touch its argument. *)
Definition copying : Transport := fun req => req.

(** The raw serialiser reverses the bytes of every integer in place. *)
Definition swap_u32 (z : Z) : Z := le_val (reverse (le_bytes 4 z)).
Definition swap_i32 (z : Z) : Z := i32 (swap_u32 z).

Definition raw : Transport := fun req =>
  let e := entry req in
  PutReq (swap_i32 (total_files req)) (swap_i32 (file_idx req))
    (Entry (swap_i32 (e_type e)) (swap_i32 (this_size e)) (swap_u32 (e_mode e))
       (swap_u32 (total_size e)) (content e))
    (swap_i32 (flags req)) (swap_i32 (need_reply req)).

(** ** The sender *)

Section Sender.
Context {T : Transport} (src : fsys) (dir_size : Z) (file_mode : list Z -> Z) (readdir : list Z -> list (list Z)).

Abbreviation sender := (prog put_req Z).

(** Sending does not fail; the result is the structure it leaves. *)
Definition send_trans_entry_by_put_req (req : put_req) : sender put_req :=
  _ ← send req; mret (left_put req).

Definition send_file_name_by_put_req (file target : list Z) (req : put_req) : sender put_req :=
  let type := if is_dir src file then FILE_TYPE_DIR else FILE_TYPE_FILE in
  let req := with_entry (fun e =>
    with_name type (file_mode file) (Z.of_nat (length target))
      (strncpy (content e) target FILE_NAME_MAX_LEN) e) req in
  send_trans_entry_by_put_req (with_reply 1 req).

(** The second component is -1 when [md5_file] fails. *)
Definition send_file_md5_by_put_req (file : list Z) (req : put_req) : sender (put_req * Z) :=
  if is_dir src file then mret (req, 0) else
  match fopen_r src file with
  | None => mret (req, -1)
  | Some data =>
      md5 ← lift (md5_of data);
      let req := with_entry (fun e =>
        with_content (Z.of_nat (length md5)) (strcpy (content e) md5) e) req in
      req ← send_trans_entry_by_put_req (with_reply 1 req);
      mret (req, 0)
  end.

Definition send_file_content_by_put_req (req : put_req) : sender put_req :=
  send_trans_entry_by_put_req req.

(** The loop over the blocks; [rest] is what [fread] has not delivered yet and
    [eof] is [feof(fp)].  Returns the structure, [ret] and [feof(fp)]. *)
Fixpoint send_blocks (fuel : nat) (is_last : bool) (req : put_req) (rest : list Z) (eof : bool) (ret : Z)
    : sender (put_req * Z * bool) :=
  if eof then mret (req, ret, eof) else
  match fuel with
  | O => Crash
  | S fuel' =>
      let block := take CONTENT_BLOCK_SIZE rest in
      let rest := drop CONTENT_BLOCK_SIZE rest in
      let eof := (length block <? CONTENT_BLOCK_SIZE)%nat in
      let need_stop := is_last && eof in
      let req := with_entry (fun e =>
        with_content (Z.of_nat (length block)) (overwrite (content e) block) e) req in
      let req := with_flags (if need_stop then REQ_RESP_FLAG_STOP else REQ_RESP_FLAG_NONE) req in
      let req := with_reply (if need_stop then 1 else 0) req in
      req ← send_file_content_by_put_req req;
      if negb (need_reply req =? 0) then
        r ← recv;
        match r with
        | RecvErr _ => mret (req, -1, eof)
        | NoData => Crash
        | Got status =>
            if negb (status =? RESP_OK) then mret (req, 1, eof)
            else send_blocks fuel' is_last req rest eof 1
        end
      else send_blocks fuel' is_last req rest eof 0
  end.

(** A received packet makes [ret] positive, written 1. *)
Definition send_file_by_put_req (file target : list Z) (req : put_req) : sender (put_req * Z) :=
  let is_last := file_idx req =? i32 (total_files req - 1) in
  let need_stop := is_last && is_dir src file in
  let req := with_flags (if need_stop then REQ_RESP_FLAG_STOP else REQ_RESP_FLAG_NONE) req in
  let total := file_size dir_size src file in
  let req := with_entry (with_total (u32 total)) req in
  req ← send_file_name_by_put_req file target req;
  r ← recv;
  match r with
  | RecvErr _ => mret (req, -1)
  | NoData => Crash
  | Got status =>
      if negb (status =? RESP_OK) then mret (req, -1) else
      if is_dir src file then mret (req, 0) else
      '(req, ret) ← send_file_md5_by_put_req file req;
      if ret =? -1 then mret (req, -1) else
      r ← recv;
      match r with
      | RecvErr _ => mret (req, -1)
      | NoData => Crash
      | Got status =>
          if status =? RESP_OK then mret (req, 0) else
          match fopen_r src file with
          | None => mret (req, -1)
          | Some data =>
              let req := with_entry (with_total (u32 total)) req in
              '(req, ret, eof) ← send_blocks (S (length data)) is_last req data false 0;
              if negb eof then mret (req, -1) else mret (req, ret)
          end
      end
  end.

(** [snprintf(tmp, sizeof(tmp), "%s/%s", target, rel_path)] *)
Definition entry_target (target rel_path : list Z) : list Z :=
  take (FILE_NAME_MAX_LEN + 1) (target ++ slash :: rel_path).

Fixpoint send_entries (entries : list (list Z * list Z)) (target : list Z) (req : put_req) (ret : Z)
    : sender Z :=
  match entries with
  | [] => mret ret
  | (abs_path, rel_path) :: entries =>
      '(req, ret) ← send_file_by_put_req abs_path (entry_target target rel_path) req;
      if ret =? -1 then mret ret
      else send_entries entries target (with_idx (i32 (file_idx req + 1)) req) ret
  end.

(** [path_append]: the path is left alone when the result would be too long. *)
Definition path_append (path sub_path : list Z) (max_len : nat) : list Z :=
  if (max_len - 2 <? length path + length sub_path)%nat then path else path ++ slash :: sub_path.

(** [__get_path_entry_list] on a directory; [readdir] is the order of the system. *)
Fixpoint __get_path_entry_list (fuel : nat) (root : list Z * list Z) : option (list (list Z * list Z)) :=
  match fuel with
  | O => None
  | S fuel' =>
      foldl (fun list item =>
        list ← list;
        if decide (item = [46] \/ item = [46; 46]) then Some list else
        let entry := (path_append root.1 item (FILE_NAME_MAX_LEN - 1),
                      path_append root.2 item (FILE_NAME_MAX_LEN - 1)) in
        if is_dir src entry.1 then
          sub_list ← __get_path_entry_list fuel' entry; Some (list ++ sub_list)
        else Some (list ++ [entry])) (Some [root]) (readdir root.1)
  end.

(** [get_path_entry_list(path, NULL)]; the inner [None] is NULL. *)
Definition get_path_entry_list (fuel : nat) (path : list Z) : option (option (list (list Z * list Z))) :=
  if negb (is_dir src path) then Some None else
  if negb (file_existed src path) then Some None else
  let '(path, base) := basename path in
  list ← __get_path_entry_list fuel (take (FILE_NAME_MAX_LEN - 1) path, take (FILE_NAME_MAX_LEN - 1) base);
  Some (Some list).

Definition send_dir_by_put_req (fuel : nat) (path target : list Z) (req : put_req) : sender Z :=
  file_list ← lift (get_path_entry_list fuel path);
  match file_list with
  | None => mret (-1)
  | Some entries => send_entries entries target (with_files (Z.of_nat (length entries)) 0 req) 0
  end.

Definition send_files_by_put_req (fuel : nat) (path target : list Z) (req : put_req) : sender Z :=
  if is_file src path then
    '(req, ret) ← send_file_by_put_req path target (with_files 1 0 req); mret ret
  else send_dir_by_put_req fuel path target req.
End Sender.

(** ** The receiver *)

Abbreviation receiver := (prog Z put_req).

(** What happens to a name that does not exist yet. *)
Definition create_for_put (fs : fsys) (rp : list Z) : fsys * Z :=
  if file_existed fs rp then (fs, 0) else
  let parent := dirname rp in
  let '(fs, ret) := if file_existed fs parent then (fs, 0) else mkdirp_all fs parent in
  if ret =? -1 then (fs, -1) else create_new_file_with_parent fs rp.

(** [fopen(rp, "w+")], once more after making the parent. *)
Definition open_for_put (fs : fsys) (rp : list Z) : fsys * bool :=
  match fopen_w fs rp with
  | Some fs => (fs, true)
  | None =>
      let parent := dirname rp in
      let fs := if file_existed fs parent then fs else (mkdirp_all fs parent).1 in
      match fopen_w fs rp with
      | Some fs => (fs, true)
      | None => (fs, false)
      end
  end.

(** The loop over the blocks: the file system, [recv_size] and [ret].  A size
    outside the content array is undefined. *)
Fixpoint recv_blocks (fuel : nat) (fs : fsys) (rp : list Z) (recv_size total : Z)
    : receiver (fsys * Z * Z) :=
  match fuel with
  | O => Crash
  | S fuel' =>
      r ← recv;
      match r with
      | NoData => mret (fs, recv_size, 0)
      | RecvErr _ => mret (fs, recv_size, -1)
      | Got req =>
          let n := this_size (entry req) in
          if negb ((0 <=? n) && (n <=? Z.of_nat CONTENT_BLOCK_SIZE)) then Crash else
          let fs := fappend fs rp (take (Z.to_nat n) (content (entry req))) in
          ret ← (if negb (need_reply req =? 0) then _ ← send RESP_OK; mret 0 else mret 1);
          let recv_size := i32 (recv_size + n) in
          if recv_size <? total then recv_blocks fuel' fs rp recv_size total
          else mret (fs, recv_size, ret)
      end
  end.

(** The result is the file system, [ret] and [*has_more]. *)
Definition recv_file_from_put_req (fuel : nat) (fs : fsys) (req : put_req) : receiver (fsys * Z * bool) :=
  let has_more := negb (file_idx req =? i32 (total_files req - 1)) in
  let rp := c_str (content (entry req)) in
  if (FILE_NAME_MAX_LEN - 1 <=? length rp)%nat then Crash else
  if e_type (entry req) =? FILE_TYPE_DIR then
    let fs := if file_existed fs rp then fs else (mkdirp_all fs rp).1 in
    _ ← send RESP_OK;
    mret (fs, 0, has_more)
  else
    let '(fs, ret) := create_for_put fs rp in
    if ret =? -1 then _ ← send RESP_INTERNAL_ERR; mret (fs, -1, true) else
    _ ← send RESP_OK;
    r ← recv;
    match r with
    | RecvErr _ => mret (fs, -1, true)
    | NoData => Crash
    | Got req =>
        let md5 := c_str (content (entry req)) in
        if (MD5_STR_LEN <=? length md5)%nat then Crash else
        same ← lift (same_file fs rp md5);
        if (same : bool) then _ ← send RESP_OK; mret (fs, 0, has_more) else
        _ ← send RESP_CONTINUE;
        let total := i32 (total_size (entry req)) in
        let '(fs, opened) := open_for_put fs rp in
        if negb opened then mret (fs, -1, true) else
        '(fs, recv_size, ret) ← recv_blocks fuel fs rp 0 total;
        if negb (recv_size =? total) then mret (fs, -1, true) else
        same ← lift (same_file fs rp md5);
        if (same : bool) then mret (fs, ret, has_more) else mret (fs, -1, true)
    end.

(** The loop over the files; [files] bounds its iterations and [fuel] those of
    the loop over blocks. *)
Fixpoint recv_files_from_put_req (files fuel : nat) (fs : fsys) (req : put_req) : receiver (fsys * Z) :=
  match files with
  | O => Crash
  | S files' =>
      '(fs, ret, has_more) ← recv_file_from_put_req fuel fs req;
      if (ret =? -1) || negb has_more then mret (fs, ret) else
      r ← recv;
      match r with
      | RecvErr _ => mret (fs, -1)
      | NoData => Crash
      | Got req => recv_files_from_put_req files' fuel fs req
      end
  end.

(** The server's loop hands over the first request of a transfer. *)
Definition serve_put (files fuel : nat) (fs : fsys) : receiver (fsys * Z) :=
  r ← recv;
  match r with
  | Got req => recv_files_from_put_req files fuel fs req
  | _ => mret (fs, -1)
  end.
