(* ===== verification/FilePutRun.v ===== *)
(** * Transfers by put request run to the end

    With a serialiser that leaves its argument alone, both ends finish under
    every schedule and the receiver's files are those a direct installation
    would give ([put_delivers]).  Two defects are shown next: a last file whose
    size is a positive multiple of the block size leaves the sender waiting for
    ever, and the raw serialiser makes every small file fail. *)

From stdpp Require Import relations.
From S2P Require Import Prelude CStr Md5 Process FileSystem FilePut.

Lemma block_size_val : Z.of_nat CONTENT_BLOCK_SIZE = 2048 /\ (0 < CONTENT_BLOCK_SIZE)%nat.
Proof. unfold CONTENT_BLOCK_SIZE. lia. Qed.

Lemma block_1024 : BLOCK_SIZE = 1024%nat.
Proof. done. Qed.

#[local] Opaque CONTENT_BLOCK_SIZE BLOCK_SIZE.

(** ** Character arrays *)

Definition nonzero (s : list Z) : Prop := Forall (fun c => c <> 0) s.

Lemma c_str_strcpy dst s : nonzero s -> c_str (strcpy dst s) = s.
Proof. apply c_str_app. Qed.

Lemma c_str_strncpy dst s n : nonzero s -> (length s < n)%nat -> c_str (strncpy dst s n) = s.
Proof.
  intros Hs Hn. unfold strncpy. rewrite take_ge by lia.
  replace (n - length s)%nat with (S (n - length s - 1)) by lia. cbn [replicate app].
  by apply c_str_app.
Qed.

Lemma take_overwrite dst bs : take (length bs) (overwrite dst bs) = bs.
Proof. apply take_app_length. Qed.

(** ** Digests of files *)

Lemma freads_spec fuel data : (length data <= fuel)%nat ->
  exists reads last, freads fuel data = reads ++ [last] /\ concat reads ++ last = data
    /\ Forall (fun d => length d = BLOCK_SIZE) reads /\ (length last < BLOCK_SIZE)%nat.
Proof.
  pose proof block_1024 as HB. revert data. induction fuel as [|fuel IH]; intros data Hl; cbn [freads].
  - exists [], (take BLOCK_SIZE data). rewrite length_take, take_ge by lia. split_and!; [done..|lia].
  - destruct (Nat.ltb_spec (length (take BLOCK_SIZE data)) BLOCK_SIZE) as [Hs|Hs]; rewrite length_take in Hs.
    + exists [], (take BLOCK_SIZE data). rewrite length_take, take_ge by lia. split_and!; [done..|lia].
    + destruct (IH (drop BLOCK_SIZE data)) as (reads & last & E & Hc & Hf & Hlast); [rewrite length_drop; lia|].
      exists (take BLOCK_SIZE data :: reads), last. rewrite E. split_and!; [done| |constructor; [|done]|done].
      * cbn [concat]. rewrite <- app_assoc, Hc. apply take_drop.
      * rewrite length_take. lia.
Qed.

(** Every file has a digest of 32 characters. *)
Lemma md5_of_spec data : exists s, md5_of data = Some s /\ length s = 32%nat /\ nonzero s.
Proof.
  destruct (freads_spec (length data) data) as (reads & last & E & Hc & Hf & Hl); [done|].
  destruct (file_loop_spec reads last [] _ (absorbed_init (zeroed 64) eq_refl) Hf Hl) as (ctx & E1 & Hab).
  destruct (digest_bytes ([] ++ concat reads ++ last)) as [Hb H16].
  destruct (printable_spec _ Hb) as (s & Es & _ & Hls & Hcs). exists s. unfold md5_of, md5_file.
  rewrite E, E1. cbn [mbind option_bind]. rewrite (final_spec _ _ Hab). cbn [mbind option_bind].
  rewrite Es. cbn [mbind option_bind]. split_and!; [done|by rewrite Hls, H16|].
  eapply Forall_impl; [exact Hcs|]. intros c Hin ->. by apply (bool_decide_eq_false (0 ∈ charset)).
Qed.

(** ** Writing a file *)

Lemma node_put fs p nd : canon p <> [slash] /\ canon p <> [46] -> node_at (put_node fs p nd) p = Some nd.
Proof.
  intros [H1 H2]. unfold node_at. rewrite decide_False by tauto. cbn. by rewrite lookup_insert_eq.
Qed.

Lemma put_put fs p nd nd' : put_node (put_node fs p nd) p nd' = put_node fs p nd'.
Proof. unfold put_node. cbn. by rewrite insert_insert_eq. Qed.

Lemma node_reg fs p : node_at fs p <> Some Dir -> canon p <> [slash] /\ canon p <> [46].
Proof. unfold node_at. case_decide; tauto. Qed.

Lemma fappend_app fs p a b : fappend (fappend fs p a) p b = fappend fs p (a ++ b).
Proof.
  unfold fappend at 2 3. destruct (node_at fs p) as [[|d]|] eqn:E;
    [by unfold fappend; rewrite E| |by unfold fappend; rewrite E].
  unfold fappend. rewrite node_put by (eapply node_reg; by rewrite E).
  by rewrite put_put, app_assoc.
Qed.

Lemma fappend_nil fs p d : node_at fs p = Some (Reg d) -> fappend fs p [] = put_node fs p (Reg d).
Proof. unfold fappend. intros ->. by rewrite app_nil_r. Qed.

Lemma fopen_w_empty fs p fs' : fopen_w fs p = Some fs' -> node_at fs' p = Some (Reg []).
Proof.
  unfold fopen_w. destruct (node_at fs p) as [[|d]|] eqn:E; [done| |].
  - case_decide; [done|]. intros [= <-]. apply node_put. eapply node_reg. by rewrite E.
  - destruct (may_create fs p); [|done]. intros [= <-]. apply node_put. eapply node_reg. by rewrite E.
Qed.

Lemma open_for_put_empty fs p fs' : open_for_put fs p = (fs', true) -> node_at fs' p = Some (Reg []).
Proof.
  unfold open_for_put. destruct (fopen_w fs p) eqn:E1; [intros [= <-]; by eapply fopen_w_empty|].
  cbv zeta. destruct (fopen_w _ p) eqn:E2 in |- *; intros [= <-]. by eapply fopen_w_empty.
Qed.

(** The receiver's last check succeeds on the file it has written. *)
Lemma same_file_written fs p data md5 : p <> [] -> node_at fs p = Some (Reg []) -> md5_of data = Some md5 ->
  same_file (fappend fs p data) p md5 = Some true.
Proof.
  intros Hp Hn Hm. unfold same_file, fappend. rewrite Hn. cbn [app].
  assert (Hn' : node_at (put_node fs p (Reg data)) p = Some (Reg data))
    by (apply node_put; eapply node_reg; by rewrite Hn).
  unfold file_existed. rewrite Hn', bool_decide_true by eauto.
  unfold fopen_r. rewrite Hn'. destruct p; [done|]. cbn [mbind option_bind]. rewrite Hm.
  cbn [mbind option_bind]. by rewrite bool_decide_true.
Qed.

(** ** What the operations leave alone *)

(** Every node of [fs] other than [rp] is still there in [fs']. *)
Definition keeps (rp : list Z) (fs fs' : fsys) : Prop :=
  forall p nd, canon p <> canon rp -> node_at fs p = Some nd -> node_at fs' p = Some nd.
Definition keeps_all (fs fs' : fsys) : Prop :=
  forall p nd, node_at fs p = Some nd -> node_at fs' p = Some nd.

#[export] Instance keeps_preorder rp : PreOrder (keeps rp).
Proof. split; [by intros ???|]. intros fs1 fs2 fs3 H1 H2 p nd Hp Hn. auto. Qed.
#[export] Instance keeps_all_preorder : PreOrder keeps_all.
Proof. split; [by intros ???|]. intros fs1 fs2 fs3 H1 H2 p nd Hn. auto. Qed.

Lemma keeps_all_keeps rp fs fs' : keeps_all fs fs' -> keeps rp fs fs'.
Proof. intros H p nd _. apply H. Qed.

Lemma node_put_ne fs p q nd : canon p <> canon q -> node_at (put_node fs q nd) p = node_at fs p.
Proof. intros H. unfold node_at. case_decide; [done|]. cbn. by rewrite lookup_insert_ne. Qed.

Lemma put_node_keeps fs rp nd : keeps rp fs (put_node fs rp nd).
Proof. intros p nd0 Hp. by rewrite node_put_ne. Qed.

Lemma put_new_keeps fs q nd : node_at fs q = None -> keeps_all fs (put_node fs q nd).
Proof.
  intros Hq p nd0 Hp. destruct (decide (canon p = canon q)) as [E|E]; [|by rewrite node_put_ne].
  exfalso. unfold node_at in Hp, Hq. rewrite E in Hp. by rewrite Hq in Hp.
Qed.

Lemma mkdir_keeps fs p : keeps_all fs (mkdir fs p).1.
Proof.
  unfold mkdir. destruct (node_at fs p) eqn:E; [done|]. destruct (may_create fs p); [|done].
  by apply put_new_keeps.
Qed.

Lemma mkdirp_keeps fuel fs p : keeps_all fs (mkdirp fuel fs p).1.
Proof.
  revert fs p. induction fuel as [|fuel IH]; intros fs p; cbn [mkdirp]; [done|].
  destruct (path_normalize p) as [q|]; [|done].
  set (parent := match strrchr q slash with Some (pre, _) => pre | None => [] end).
  assert (Hp : keeps_all fs (match parent with [] => (fs, 0) | _ => mkdirp fuel fs parent end).1)
    by (destruct parent; [done|apply IH]).
  destruct (match parent with [] => _ | _ => _ end) as [fs1 rc]. cbn [fst] in Hp.
  destruct (negb (rc =? 0)); [done|]. etransitivity; [exact Hp|].
  pose proof (mkdir_keeps fs1 q) as Hm. by destruct (mkdir fs1 q).
Qed.

Lemma try_make_dir_keeps fs p : keeps_all fs (try_make_dir fs p).1.
Proof.
  unfold try_make_dir. destruct (file_existed fs p); [done|].
  pose proof (mkdirp_keeps (S (length p)) fs p) as Hm. unfold mkdirp_all.
  destruct (mkdirp _ fs p) as [fs1 ret]. by destruct (ret =? -1).
Qed.

Lemma fopen_w_keeps fs p fs' : fopen_w fs p = Some fs' -> keeps p fs fs'.
Proof.
  unfold fopen_w. destruct (node_at fs p) as [[|d]|]; [done| |].
  - case_decide; [done|]. intros [= <-]. apply put_node_keeps.
  - destruct (may_create fs p); [|done]. intros [= <-]. apply put_node_keeps.
Qed.

Lemma create_new_keeps fs p : keeps p fs (create_new_file_with_parent fs p).1.
Proof.
  unfold create_new_file_with_parent. pose proof (try_make_dir_keeps fs (dirname p)) as Ht.
  destruct (try_make_dir fs (dirname p)) as [fs1 ret]. apply (keeps_all_keeps p) in Ht. cbn [fst] in Ht.
  destruct (negb (ret =? 0)); [done|]. unfold create_new_file.
  destruct (fopen_w fs1 p) as [fs2|] eqn:E; [|done]. etransitivity; [exact Ht|]. by apply fopen_w_keeps.
Qed.

Lemma make_parent_keeps fs p parent :
  keeps p fs (if file_existed fs parent then (fs, 0) else mkdirp_all fs parent).1.
Proof. destruct (file_existed fs parent); [done|]. apply keeps_all_keeps, mkdirp_keeps. Qed.

Lemma create_for_put_keeps fs p : keeps p fs (create_for_put fs p).1.
Proof.
  unfold create_for_put. destruct (file_existed fs p); [done|].
  pose proof (make_parent_keeps fs p (dirname p)) as Hm.
  destruct (if file_existed fs (dirname p) then _ else _) as [fs1 ret]. cbn [fst] in Hm.
  destruct (ret =? -1); [done|]. etransitivity; [exact Hm|]. apply create_new_keeps.
Qed.

Lemma open_for_put_keeps fs p : keeps p fs (open_for_put fs p).1.
Proof.
  unfold open_for_put. destruct (fopen_w fs p) as [fs1|] eqn:E1; [by apply fopen_w_keeps|]. cbv zeta.
  assert (Hm : keeps p fs (if file_existed fs (dirname p) then fs else (mkdirp_all fs (dirname p)).1))
    by (destruct (file_existed _ _); [done|apply keeps_all_keeps, mkdirp_keeps]).
  set (fs0 := if file_existed fs (dirname p) then _ else _) in *.
  destruct (fopen_w fs0 p) as [fs2|] eqn:E2; [|done]. etransitivity; [exact Hm|]. by apply fopen_w_keeps.
Qed.

Lemma fappend_keeps fs p bs : keeps p fs (fappend fs p bs).
Proof. unfold fappend. destruct (node_at fs p) as [[]|]; [done|apply put_node_keeps|done]. Qed.

(** ** Installing without a network *)

(** [None] is a directory. *)
Definition install (fs : fsys) (rp : list Z) (data : option (list Z)) : option fsys :=
  match data with
  | None => Some (if file_existed fs rp then fs else (mkdirp_all fs rp).1)
  | Some data =>
      let '(fs, ret) := create_for_put fs rp in
      if ret =? -1 then None else
      md5 ← md5_of data;
      same ← same_file fs rp md5;
      if (same : bool) then Some fs else
      let '(fs, opened) := open_for_put fs rp in
      if negb opened then None else Some (fappend fs rp data)
  end.

Definition install_all (fs : fsys) (l : list (list Z * option (list Z))) : option fsys :=
  foldl (fun fs e => fs ← fs; install fs e.1 e.2) (Some fs) l.

(** ** The blocks *)

Definition block_ok (rest : list Z) : Prop := rest = [] \/ (length rest mod CONTENT_BLOCK_SIZE <> 0)%nat.

Lemma block_ok_drop rest : (CONTENT_BLOCK_SIZE <= length rest)%nat -> block_ok rest ->
  block_ok (drop CONTENT_BLOCK_SIZE rest) /\ (CONTENT_BLOCK_SIZE < length rest)%nat.
Proof.
  pose proof block_size_val as [_ Hpos]. intros Hle [->|Hmod]; [simpl in Hle; lia|].
  assert (Hne : length rest <> CONTENT_BLOCK_SIZE) by (intros E; rewrite E, Nat.Div0.mod_same in Hmod; lia).
  split; [|lia]. right. rewrite length_drop. intros H0. apply Hmod.
  replace (length rest) with (length rest - CONTENT_BLOCK_SIZE + 1 * CONTENT_BLOCK_SIZE)%nat by lia.
  rewrite Nat.Div0.mod_add. done.
Qed.

(** Runs the two programs up to their next exchange. *)
Ltac head := cbn [mbind prog_bind mret prog_ret Process.send Process.recv lift
                  send_file_content_by_put_req send_trans_entry_by_put_req
                  send_file_name_by_put_req].
Ltac to_right := eapply rtc_trans; [apply pass_right|]; head.
Ltac to_left := eapply rtc_trans; [apply pass_left|]; head.

(** One block: what the sender makes of its structure. *)
Definition block_req (is_last : bool) (req : put_req) (block : list Z) : put_req :=
  let need_stop := is_last && (length block <? CONTENT_BLOCK_SIZE)%nat in
  with_reply (if need_stop then 1 else 0)
    (with_flags (if need_stop then REQ_RESP_FLAG_STOP else REQ_RESP_FLAG_NONE)
      (with_entry (fun e => with_content (Z.of_nat (length block)) (overwrite (content e) block) e) req)).

Lemma send_blocks_eq fuel is_last req rest ret :
  send_blocks (T := copying) (S fuel) is_last req rest false ret =
    (let block := take CONTENT_BLOCK_SIZE rest in
     let eof := (length block <? CONTENT_BLOCK_SIZE)%nat in
     let req := block_req is_last req block in
     Send req
       (if is_last && eof then
          Recv (fun r =>
            match r with
            | RecvErr _ => mret (req, -1, eof)
            | NoData => Crash
            | Got status =>
                if negb (status =? RESP_OK) then mret (req, 1, eof)
                else send_blocks (T := copying) fuel is_last req (drop CONTENT_BLOCK_SIZE rest) eof 1
            end)
        else send_blocks (T := copying) fuel is_last req (drop CONTENT_BLOCK_SIZE rest) eof 0)).
Proof.
  cbn [send_blocks]. head. unfold block_req, left_put, copying. cbv zeta.
  destruct (is_last && _); reflexivity.
Qed.

(** The receiver on a block that fits. *)
Lemma recv_blocks_got fuel fs rp size total req block :
  this_size (entry req) = Z.of_nat (length block) -> (length block <= CONTENT_BLOCK_SIZE)%nat ->
  take (length block) (content (entry req)) = block ->
  0 <= size -> size + Z.of_nat (length block) < 2 ^ 31 ->
  forall SB RB (jR : _ -> prog Z put_req SB) (kR : SB -> prog Z put_req RB) RA (p : prog put_req Z RA),
  rtc step (Network (Send req p) ((recv_blocks (S fuel) fs rp size total ≫= jR) ≫= kR) [] [])
    (Network p
       ((if negb (need_reply req =? 0) then _ ← send RESP_OK; mret 0 else mret 1) ≫= fun ret =>
        ((if size + Z.of_nat (length block) <? total
          then recv_blocks fuel (fappend fs rp block) rp (size + Z.of_nat (length block)) total
          else mret (fappend fs rp block, size + Z.of_nat (length block), ret)) ≫= jR) ≫= kR) [] []).
Proof.
  intros Hn Hl Hc Hs Hb SB RB jR kR RA p. pose proof block_size_val as [HB _].
  cbn [recv_blocks]. head. to_right. rewrite Hn.
  rewrite (proj2 (Z.leb_le 0 _)), (proj2 (Z.leb_le _ (Z.of_nat CONTENT_BLOCK_SIZE))) by lia. cbn [andb negb].
  rewrite Nat2Z.id, Hc, i32_small by (unfold in_i32; lia).
  destruct (negb (need_reply req =? 0)); head; destruct (_ <? total); reflexivity.
Qed.

Lemma blocks_run {SA SB RA RB} (is_last : bool) rp total
    (jS : _ -> prog put_req Z SA) (kS : SA -> prog put_req Z RA)
    (jR : _ -> prog Z put_req SB) (kR : SB -> prog Z put_req RB) :
  total < 2 ^ 31 -> forall fuelS fuelR req rest fs size ret,
  block_ok rest -> size + Z.of_nat (length rest) = total -> 0 <= size ->
  (length rest < fuelS)%nat -> (length rest < fuelR)%nat ->
  exists req' ret1 ret2,
    file_idx req' = file_idx req /\ total_files req' = total_files req
    /\ ret1 = (if is_last then 1 else 0) /\ 0 <= ret2 /\
    rtc step
      (Network ((send_blocks (T := copying) fuelS is_last req rest false ret ≫= jS) ≫= kS)
               ((recv_blocks fuelR fs rp size total ≫= jR) ≫= kR) [] [])
      (Network (jS (req', ret1, true) ≫= kS) (jR (fappend fs rp rest, total, ret2) ≫= kR) [] []).
Proof.
  intros Htot. pose proof block_size_val as [HB HB0].
  induction fuelS as [|fuelS IH]; intros fuelR req rest fs size ret Hok Hsz H0 HfS HfR; [lia|].
  destruct fuelR as [|fuelR]; [lia|]. rewrite send_blocks_eq. cbv zeta.
  set (block := take CONTENT_BLOCK_SIZE rest) in *.
  assert (Hbl : length block = Nat.min CONTENT_BLOCK_SIZE (length rest)) by apply length_take.
  assert (Hcont : take (length block) (content (entry (block_req is_last req block))) = block)
    by (cbn; apply take_overwrite).
  rewrite !bind_send. destruct (Nat.ltb_spec (length block) CONTENT_BLOCK_SIZE) as [Hlast|Hfull].
  - assert (Hrest : block = rest) by (apply take_ge; lia). rewrite Hrest in *. clear block Hrest.
    exists (block_req is_last req rest), (if is_last then 1 else 0), (if is_last then 0 else 1).
    split; [done|]. split; [done|]. split; [done|]. split; [by destruct is_last|].
    eapply rtc_trans; [apply (recv_blocks_got _ _ _ _ _ _ rest); done || lia|].
    rewrite (proj2 (Z.ltb_ge _ total)), Hsz by lia.
    replace (drop CONTENT_BLOCK_SIZE rest) with (@nil Z) by (symmetry; apply drop_ge; lia).
    destruct is_last; cbn [andb]; unfold block_req; cbn [need_reply with_reply]; cbn [andb].
    + rewrite (proj2 (Nat.ltb_lt _ _)) by lia. cbn [Z.eqb negb]. head. to_left.
      change (negb (RESP_OK =? RESP_OK)) with false. cbv iota.
      destruct fuelS; cbn [send_blocks]; head; reflexivity.
    + cbn [Z.eqb negb]. head. destruct fuelS; cbn [send_blocks]; head; reflexivity.
  - destruct (block_ok_drop rest) as [Hok' Hlt]; [lia|done|].
    rewrite andb_false_r. cbv iota.
    edestruct (IH fuelR (block_req is_last req block) (drop CONTENT_BLOCK_SIZE rest) (fappend fs rp block)
                 (size + Z.of_nat (length block)) 0) as (req' & r1 & r2 & Hi & Ht & Hr1 & Hr2 & Hrun);
      [done|rewrite length_drop; lia|lia|rewrite length_drop; lia|rewrite length_drop; lia|].
    exists req', r1, r2. do 4 (split; [done|]).
    eapply rtc_trans; [apply (recv_blocks_got _ _ _ _ _ _ block); done || lia|].
    rewrite (proj2 (Z.ltb_lt _ total)) by lia. unfold block_req at 2. cbn [need_reply with_reply].
    rewrite (proj2 (Nat.ltb_ge _ _)), andb_false_r by lia. cbn [Z.eqb negb]. head.
    assert (Hsplit : block ++ drop CONTENT_BLOCK_SIZE rest = rest) by apply take_drop.
    rewrite fappend_app, Hsplit in Hrun. exact Hrun.
Qed.

(** ** One file *)

Section Files.
Context (src : fsys) (dir_size : Z) (file_mode : list Z -> Z) (readdir : list Z -> list (list Z)).

(** A name that fits the receiver's buffers. *)
Definition name_ok (target : list Z) : Prop := nonzero target /\ (0 < length target < 255)%nat.

(** A file the protocol can carry to [target]: [None] is a directory. *)
Record carries (file target : list Z) (d : option (list Z)) : Prop := Carries {
  car_name : name_ok target;
  car_node : node_at src file = Some (match d with Some data => Reg data | None => Dir end);
  car_size : forall data, d = Some data -> Z.of_nat (length data) < 2 ^ 31 /\ block_ok data;
}.

(** The packet with the name of a file. *)
Definition name_req (file target : list Z) (req : put_req) : put_req :=
  let is_last := file_idx req =? i32 (total_files req - 1) in
  with_reply 1
    (with_entry (fun e =>
       with_name (if is_dir src file then FILE_TYPE_DIR else FILE_TYPE_FILE) (file_mode file)
         (Z.of_nat (length target)) (strncpy (content e) target FILE_NAME_MAX_LEN) e)
       (with_entry (with_total (u32 (file_size dir_size src file)))
          (with_flags (if is_last && is_dir src file then REQ_RESP_FLAG_STOP else REQ_RESP_FLAG_NONE) req))).

Lemma name_req_path file target req : name_ok target ->
  c_str (content (entry (name_req file target req))) = target.
Proof. intros [Hn Hl]. apply c_str_strncpy; [done|unfold FILE_NAME_MAX_LEN; lia]. Qed.

(** The packet with the digest of a file. *)
Definition md5_req (md5 : list Z) (req : put_req) : put_req :=
  with_reply 1 (with_entry (fun e => with_content (Z.of_nat (length md5)) (strcpy (content e) md5) e) req).

Definition last_file (req : put_req) : bool := file_idx req =? i32 (total_files req - 1).

Lemma dir_run {RA RB} file target req fs fuel (kS : _ -> prog put_req Z RA) (kR : _ -> prog Z put_req RB) kk :
  carries file target None ->
  (forall q, kk (Got q) = recv_file_from_put_req fuel fs q ≫= kR) ->
  rtc step
    (Network (send_file_by_put_req (T := copying) src dir_size file_mode file target req ≫= kS) (Recv kk) [] [])
    (Network (kS (name_req file target req, 0))
       (kR (if file_existed fs target then fs else (mkdirp_all fs target).1, 0, negb (last_file req))) [] []).
Proof.
  intros [[Hnz Hl] Hn _] Hkk. pose proof (name_req_path file target req (conj Hnz Hl)) as Hp.
  unfold send_file_by_put_req. head. fold (name_req file target req). to_right. rewrite Hkk.
  unfold recv_file_from_put_req. rewrite Hp.
  rewrite (proj2 (Nat.leb_gt _ _)) by (unfold FILE_NAME_MAX_LEN; lia).
  assert (Hd : is_dir src file = true) by (unfold is_dir; by rewrite Hn).
  replace (e_type (entry (name_req file target req)) =? FILE_TYPE_DIR) with true
    by (unfold name_req; by rewrite Hd).
  head. to_left. rewrite Hd. head. reflexivity.
Qed.

(** The sender and the receiver after the digest has been sent. *)
Definition finish_send (x : put_req * Z * bool) : prog put_req Z (put_req * Z) :=
  let '(req, ret, eof) := x in if negb eof then mret (req, -1) else mret (req, ret).

Definition send_phase {T : Transport} (data : list Z) (is_last : bool) (req : put_req) (r : received Z)
    : prog put_req Z (put_req * Z) :=
  match r with
  | RecvErr _ => mret (req, -1)
  | NoData => Crash
  | Got status =>
      if status =? RESP_OK then mret (req, 0)
      else send_blocks (S (length data)) is_last
             (with_entry (with_total (u32 (Z.of_nat (length data)))) req) data false 0 ≫= finish_send
  end.

Definition finish_recv (rp md5 : list Z) (total : Z) (has_more : bool) (x : fsys * Z * Z)
    : receiver (fsys * Z * bool) :=
  let '(fs, recv_size, ret) := x in
  if negb (recv_size =? total) then mret (fs, -1, true) else
  same ← lift (same_file fs rp md5);
  if (same : bool) then mret (fs, ret, has_more) else mret (fs, -1, true).

Definition recv_phase (fuel : nat) (fs : fsys) (rp md5 : list Z) (total : Z) (has_more : bool)
    : receiver (fsys * Z * bool) :=
  let '(fs, opened) := open_for_put fs rp in
  if negb opened then mret (fs, -1, true) else
  recv_blocks fuel fs rp 0 total ≫= finish_recv rp md5 total has_more.

(** The exchange of the name and the digest, whatever the size of the file. *)
Lemma handshake {T : Transport} {RA RB} file target data req fs fs1 ret md5 same fuel
    (kS : _ -> prog put_req Z RA) (kR : _ -> prog Z put_req RB) kk :
  name_ok target -> node_at src file = Some (Reg data) -> Z.of_nat (length data) < 2 ^ 31 ->
  create_for_put fs target = (fs1, ret) -> (ret =? -1) = false ->
  md5_of data = Some md5 -> same_file fs1 target md5 = Some same ->
  (forall q, kk (Got q) = recv_file_from_put_req fuel fs q ≫= kR) ->
  let q := md5_req md5 (left_put (name_req file target req)) in
  rtc step
    (Network (send_file_by_put_req src dir_size file_mode file target req ≫= kS) (Recv kk) [] [])
    (Network (Recv (fun r => send_phase data (last_file req) (left_put q) r ≫= kS))
       ((if same then Send RESP_OK (mret (fs1, 0, negb (last_file req)))
         else Send RESP_CONTINUE
           (recv_phase fuel fs1 target md5 (i32 (total_size (entry q))) (negb (last_file req)))) ≫= kR) [] []).
Proof.
  intros Hname Hn Hlen Ecr Eret Hmd5 Esame Hkk.
  pose proof (name_req_path file target req Hname) as Hp. destruct Hname as [Hnz Hl].
  assert (Hd : is_dir src file = false) by (unfold is_dir; by rewrite Hn).
  assert (Hr : fopen_r src file = Some data) by (unfold fopen_r; by rewrite Hn).
  assert (Hs : file_size dir_size src file = Z.of_nat (length data)) by (unfold file_size; by rewrite Hn).
  destruct (md5_of_spec data) as (s & Hs' & Hm32 & Hmz). rewrite Hmd5 in Hs'. injection Hs' as <-.
  set (q1 := name_req file target req) in *.
  assert (Hmd : c_str (content (entry (md5_req md5 (left_put q1)))) = md5) by by apply c_str_strcpy.
  unfold send_file_by_put_req. head. fold (name_req file target req). fold q1. to_right. rewrite Hkk.
  unfold recv_file_from_put_req. rewrite Hp.
  rewrite (proj2 (Nat.leb_gt _ _)) by (unfold FILE_NAME_MAX_LEN; lia).
  replace (e_type (entry q1) =? FILE_TYPE_DIR) with false by (unfold q1, name_req; by rewrite Hd).
  rewrite Ecr, Eret. head. to_left. rewrite Hd. unfold send_file_md5_by_put_req. rewrite Hd, Hr, Hmd5.
  head. fold (md5_req md5 (left_put q1)). to_right. rewrite Hmd, Hm32, Esame, Hs.
  change (MD5_STR_LEN <=? 32)%nat with false. change (0 =? -1) with false. cbv iota. head.
  destruct same; reflexivity.
Qed.

(** The receiver has the file before its contents are sent. *)
Definition already_there (fs : fsys) (target data : list Z) : bool :=
  match md5_of data with
  | Some md5 => bool_decide (same_file (create_for_put fs target).1 target md5 = Some true)
  | None => false
  end.

Lemma file_run {RA RB} file target data req fs fs' fuel
    (kS : _ -> prog put_req Z RA) (kR : _ -> prog Z put_req RB) kk :
  carries file target (Some data) -> install fs target (Some data) = Some fs' -> (length data < fuel)%nat ->
  (forall q, kk (Got q) = recv_file_from_put_req fuel fs q ≫= kR) ->
  exists req' ret1 ret2, file_idx req' = file_idx req /\ total_files req' = total_files req
    /\ ret1 = (if last_file req && negb (already_there fs target data) then 1 else 0) /\ 0 <= ret2 /\
  rtc step
    (Network (send_file_by_put_req (T := copying) src dir_size file_mode file target req ≫= kS) (Recv kk) [] [])
    (Network (kS (req', ret1)) (kR (fs', ret2, negb (last_file req))) [] []).
Proof.
  intros [Hname Hn Hsz] Hi Hf Hkk. destruct (Hsz data eq_refl) as [Hlen Hok]. clear Hsz.
  destruct (md5_of_spec data) as (md5 & Hmd5 & _ & _).
  unfold install in Hi. destruct (create_for_put fs target) as [fs1 ret] eqn:Ecr.
  destruct (ret =? -1) eqn:Eret; [done|]. rewrite Hmd5 in Hi. cbn [mbind option_bind] in Hi.
  destruct (same_file fs1 target md5) as [same|] eqn:Esame; [|done]. cbn [mbind option_bind] in Hi.
  pose proof (handshake (T := copying) file target data req fs fs1 ret md5 same fuel kS kR kk
                Hname Hn Hlen Ecr Eret Hmd5 Esame Hkk) as Hrun. cbv zeta in Hrun.
  unfold left_put at 1 2 3, copying in Hrun.
  set (q := md5_req md5 (name_req file target req)) in *.
  assert (Htot : i32 (total_size (entry q)) = Z.of_nat (length data)).
  { cbn. unfold file_size. rewrite Hn, (wrap_u_small 32) by lia. apply i32_small. unfold in_i32. lia. }
  assert (Hthere : already_there fs target data = same).
  { unfold already_there. rewrite Hmd5, Ecr. cbn [fst]. rewrite Esame. by destruct same. }
  rewrite Htot in Hrun. rewrite Hthere. destruct same; cbn [negb]; rewrite ?andb_false_r, ?andb_true_r.
  - injection Hi as <-. exists q, 0, 0. split_and!; try done. eapply rtc_trans; [exact Hrun|].
    head. to_left. reflexivity.
  - unfold recv_phase in Hrun. destruct (open_for_put fs1 target) as [fs2 opened] eqn:Eop.
    destruct opened; [|done]. injection Hi as <-.
    destruct (blocks_run (last_file req) target (Z.of_nat (length data)) finish_send kS
                (finish_recv target md5 (Z.of_nat (length data)) (negb (last_file req))) kR Hlen
                (S (length data)) fuel
                (with_entry (with_total (u32 (Z.of_nat (length data)))) q) data fs2 0 0)
      as (req' & r1 & r2 & Hidx & Htf & Hr1 & Hr2 & Hb); [done|lia|lia|lia|lia|].
    exists req', r1, r2. split_and!; [done..|]. eapply rtc_trans; [exact Hrun|]. head. to_left.
    cbn [send_phase]. change (RESP_CONTINUE =? RESP_OK) with false. cbv iota.
    eapply rtc_trans; [exact Hb|]. cbn [finish_send finish_recv negb].
    rewrite Z.eqb_refl, (same_file_written fs2 target data md5); [head; reflexivity| | |done].
    + destruct Hname as [_ Hl]. intros ->. simpl in Hl. lia.
    + by eapply open_for_put_empty.
Qed.

(** ** Several files *)

(** What is sent for a path: source file, name at the receiver, contents. *)
Definition item : Type := list Z * list Z * option (list Z).

Definition file_data (file : list Z) : option (list Z) :=
  match node_at src file with Some (Reg d) => Some d | _ => None end.

Definition entry_item (target : list Z) (e : list Z * list Z) : item :=
  (e.1, entry_target target e.2, file_data e.1).

Definition transfer_items (fuel : nat) (path target : list Z) : option (list item) :=
  if is_file src path then Some [(path, target, file_data path)] else
  match get_path_entry_list src readdir fuel path with
  | Some (Some l) => Some (entry_item target <$> l)
  | _ => None
  end.

Definition item_ok (fuel : nat) (x : item) : Prop :=
  let '(file, target, d) := x in
  carries file target d /\ forall data, d = Some data -> (length data < fuel)%nat.

Lemma item_run {RA RB} file target d req fs fs' fuel
    (kS : _ -> prog put_req Z RA) (kR : _ -> prog Z put_req RB) kk :
  item_ok fuel (file, target, d) -> install fs target d = Some fs' ->
  (forall q, kk (Got q) = recv_file_from_put_req fuel fs q ≫= kR) ->
  exists req' ret1 ret2, file_idx req' = file_idx req /\ total_files req' = total_files req
    /\ 0 <= ret1 /\ 0 <= ret2 /\
  rtc step
    (Network (send_file_by_put_req (T := copying) src dir_size file_mode file target req ≫= kS) (Recv kk) [] [])
    (Network (kS (req', ret1)) (kR (fs', ret2, negb (last_file req))) [] []).
Proof.
  intros [Hc Hf] Hi Hkk. destruct d as [data|].
  { destruct (file_run file target data req fs fs' fuel kS kR kk) as (req' & r1 & r2 & H1 & H2 & -> & H4 & Hrun); [eauto..|].
    eexists _, _, _. split; [exact H1|]. split; [exact H2|]. split; [|split; [exact H4|exact Hrun]].
    by destruct (last_file req && _). }
  injection Hi as <-. exists (name_req file target req), 0, 0. do 4 (split; [done|]).
  by eapply dir_run.
Qed.

Lemma entries_run fuel target entries : forall req fs fs' m ret kk,
  entries <> [] -> Forall (item_ok fuel) (entry_item target <$> entries) ->
  install_all fs ((fun x : item => (x.1.2, x.2)) <$> (entry_item target <$> entries)) = Some fs' ->
  0 <= file_idx req -> file_idx req + Z.of_nat (length entries) = total_files req ->
  total_files req < 2 ^ 31 -> (length entries <= m)%nat ->
  (forall q, kk (Got q) = recv_files_from_put_req m fuel fs q) ->
  exists ret1 ret2, 0 <= ret1 /\ 0 <= ret2 /\
  rtc step
    (Network (send_entries (T := copying) src dir_size file_mode entries target req ret) (Recv kk) [] [])
    (Network (Ret ret1) (Ret (fs', ret2)) [] []).
Proof.
  induction entries as [|[abs rel] entries IH]; intros req fs fs' m ret kk Hne Hok Hi Hidx Htot Hbig Hm Hkk;
    [done|]. destruct m as [|m]; [simpl in Hm; lia|].
  rewrite fmap_cons in Hok, Hi. apply Forall_cons in Hok as [Hok1 Hok].
  unfold install_all in Hi. cbn [fmap list_fmap foldl fst snd entry_item mbind option_bind] in Hi.
  destruct (install fs (entry_target target rel) (file_data abs)) as [fs1|] eqn:E1;
    [|exfalso; revert Hi; clear; induction (entry_item target <$> entries); [done|]; done].
  destruct (item_run abs (entry_target target rel) (file_data abs) req fs fs1 fuel
    (fun x => let '(req, ret) := x in
       if ret =? -1 then mret ret
       else send_entries (T := copying) src dir_size file_mode entries target
              (with_idx (i32 (file_idx req + 1)) req) ret)
    (fun x => let '(fs, ret, has_more) := x in
       if (ret =? -1) || negb has_more then mret (fs, ret) else
       r ← recv;
       match r with
       | RecvErr _ => mret (fs, -1)
       | NoData => Crash
       | Got req => recv_files_from_put_req m fuel fs req
       end) kk Hok1 E1) as (req' & r1 & r2 & Hi' & Ht' & Hr1 & Hr2 & Hrun);
    [intros q; by rewrite Hkk|].
  cbn [send_entries]. 
  assert (Hlast : last_file req = bool_decide (entries = [])).
  { unfold last_file. rewrite i32_small by (unfold in_i32; lia). simpl in Htot.
    destruct (decide (entries = [])) as [->|Hn0].
    - rewrite bool_decide_true by done. apply Z.eqb_eq. simpl in Htot. lia.
    - rewrite bool_decide_false by done. apply Z.eqb_neq. destruct entries; [done|]. simpl in Htot. lia. }
  rewrite Hlast in Hrun. rewrite (proj2 (Z.eqb_neq r1 (-1))), (proj2 (Z.eqb_neq r2 (-1))) in Hrun by lia.
  cbn [orb] in Hrun. destruct entries as [|e2 entries].
  - exists r1, r2. split; [done|]. split; [done|]. injection Hi as ->.
    rewrite bool_decide_true in Hrun by done. exact Hrun.
  - rewrite bool_decide_false in Hrun by done. cbn [negb] in Hrun.
    set (req2 := with_idx (i32 (file_idx req' + 1)) req') in *.
    assert (Hidx2 : file_idx req2 = file_idx req + 1)
      by (cbn; rewrite Hi'; apply i32_small; unfold in_i32; simpl in Htot; lia).
    destruct (IH req2 fs1 fs' m r1
      (fun r => match r with
       | RecvErr _ => mret (fs1, -1)
       | NoData => Crash
       | Got req => recv_files_from_put_req m fuel fs1 req
       end)) as (s1 & s2 & Hs1 & Hs2 & Hrun2); [done|done|exact Hi|lia| | |simpl in Hm |- *; lia|done|].
    + rewrite Hidx2. cbn. rewrite Ht'. simpl in Htot. lia.
    + cbn. rewrite Ht'. lia.
    + exists s1, s2. split; [done|]. split; [done|]. eapply rtc_trans; [exact Hrun|]. exact Hrun2.
Qed.

(** The list of a directory starts with the directory. *)
Lemma path_entries_nonempty fuel root l : __get_path_entry_list src readdir fuel root = Some l -> l <> [].
Proof.
  destruct fuel as [|fuel]; [done|]. cbn [__get_path_entry_list].
  generalize (readdir root.1). intros items.
  assert (H : forall acc, (forall l0, acc = Some l0 -> l0 <> []) -> forall l,
    foldl (fun list item =>
      list ← list;
      if decide (item = [46] \/ item = [46; 46]) then Some list else
      let entry := (path_append root.1 item (FILE_NAME_MAX_LEN - 1),
                    path_append root.2 item (FILE_NAME_MAX_LEN - 1)) in
      if is_dir src entry.1 then
        sub_list ← __get_path_entry_list src readdir fuel entry; Some (list ++ sub_list)
      else Some (list ++ [entry])) acc items = Some l -> l <> []).
  { induction items as [|item items IH]; intros acc Hacc l0; [apply Hacc|]. cbn [foldl]. apply IH.
    intros l1. destruct acc as [l2|]; [|done]. cbn [mbind option_bind]. specialize (Hacc _ eq_refl).
    case_decide; [naive_solver|]. cbv zeta. destruct (is_dir _ _).
    - destruct (__get_path_entry_list _ _ _ _) as [sub|]; [|done]. intros [= <-]. by destruct l2.
    - intros [= <-]. by destruct l2. }
  apply H. by intros l0 [= <-].
Qed.
End Files.
