(* ===== verification/Log.v ===== *)
(** * Logging (src/log.c, src/ratelimit.c)

    The client appends its lines to a file itself; the server's threads put
    them into a message queue, from which the logger's thread takes them and
    appends them to a file that changes with the hour.  A rate limiter can
    refuse a line on either side.  The texts of the clock and the product of
    floating-point numbers in the limiter are parameters. *)

From stdpp Require Import gmap.
From S2P Require Import Prelude CStr FileSystem FilePutRun.

(** ** The rate limiter *)

Record ratelimit_state := RateLimit { interval : Z; burst : Z; used : Z; missed : Z; last_ts : Z }.

Definition ratelimit_state_construct (interval burst now : Z) : ratelimit_state := RateLimit interval burst 0 0 now.

Section Limiter.
(** [used * (interval * 1.0 / elapsed)] as an [int]. *)
Variable scaled : Z -> Z -> Z -> Z.

Definition ratelimit_try_inc (now : Z) (rs : ratelimit_state) : bool * ratelimit_state :=
  let rs :=
    if interval rs <? now - last_ts rs
    then RateLimit (interval rs) (burst rs) (scaled (used rs) (interval rs) (now - last_ts rs)) (missed rs) (now - interval rs)
    else rs in
  let ret := negb (burst rs <=? used rs) in
  (ret, if ret then RateLimit (interval rs) (burst rs) (used rs + 1) (missed rs) (last_ts rs)
        else RateLimit (interval rs) (burst rs) (used rs) (missed rs + 1) (last_ts rs)).

(** Calls at the given times, with their results. *)
Fixpoint tries (nows : list Z) (rs : ratelimit_state) : list bool * ratelimit_state :=
  match nows with
  | [] => ([], rs)
  | now :: nows =>
      let '(ok, rs) := ratelimit_try_inc now rs in
      let '(oks, rs) := tries nows rs in (ok :: oks, rs)
  end.
End Limiter.

(** ** Names and lines *)

Inductive log_level := LOG_DEBUG | LOG_INFO | LOG_WARN | LOG_ERROR | LOG_OTHER.

Definition get_log_level_desc (level : log_level) : list Z :=
  match level with
  | LOG_DEBUG => ascii_bytes "DEBUG"
  | LOG_INFO => ascii_bytes "INFO"
  | LOG_WARN => ascii_bytes "WARN"
  | LOG_ERROR => ascii_bytes "ERROR"
  | LOG_OTHER => ascii_bytes "*"
  end.

Definition FILE_NAME_MAX_LEN : nat := 256.
Definition DIR_PATH_MAX_LEN : nat := 1024.
Definition LOGGER_PREFIX_LEN : nat := 32.
Definition MSG_MAX_LEN : nat := 256.

(** The part of the union behind [name], [pid] and [length]. *)
Definition BUF_LEN : nat := (MSG_MAX_LEN - 24)%nat.

(** [snprintf] with a limit that counts the terminating zero. *)
Definition snprintf (n : nat) (s : list Z) : list Z := take (n - 1) s.

Section Log.
(** [ymd_hm_str] and [now_time_str] at a time. *)
Variables (stamp clock : Z -> list Z).
Variable scaled : Z -> Z -> Z -> Z.

Definition get_log_file_name (dir prefix : list Z) (max_len : nat) (now : Z) : list Z :=
  match prefix with
  | [] => snprintf (max_len - 1) (dir ++ ascii_bytes "/" ++ stamp now ++ ascii_bytes ".log")
  | _ => snprintf (max_len - 1) (dir ++ ascii_bytes "/" ++ prefix ++ ascii_bytes "." ++ stamp now ++ ascii_bytes ".log")
  end.

Definition log_head (level : log_level) (now : Z) : list Z :=
  ascii_bytes "[" ++ get_log_level_desc level ++ ascii_bytes "][" ++ clock now ++ ascii_bytes "]".

(** [fopen(p, "a")] *)
Definition fopen_a (fs : fsys) (p : list Z) : option fsys :=
  match node_at fs p with
  | Some Dir => None
  | Some (Reg _) => if decide (canon p ∈ denied fs) then None else Some fs
  | None => if may_create fs p then Some (put_node fs p (Reg [])) else None
  end.

Definition open_log (fs : fsys) (p : list Z) : fsys * bool :=
  let fs := if file_existed fs p then fs else (create_new_file_with_parent fs p).1 in
  match fopen_a fs p with None => (fs, false) | Some fs => (fs, true) end.

(** ** The client *)

Record client_log := ClientLog { client_log_dir : list Z; client_log_prefix : list Z; client_limit : ratelimit_state }.

(** [None]: a name is too long for its array. *)
Definition logger_init (dir prefix : list Z) (now : Z) : option client_log :=
  if ((length dir <? DIR_PATH_MAX_LEN) && (length prefix <? LOGGER_PREFIX_LEN))%nat
  then Some (ClientLog dir prefix (ratelimit_state_construct 10 10000 now)) else None.

(** [body] is the text of [fmt] and [args]; the times are the readings of the
    clock for the limiter, the line and the name. *)
Definition add_client_log (level : log_level) (body : list Z) (t1 t2 t3 : Z) (c : client_log) (fs : fsys)
    : client_log * fsys * Z :=
  let '(ok, limit) := ratelimit_try_inc scaled t1 (client_limit c) in
  let c := ClientLog (client_log_dir c) (client_log_prefix c) limit in
  if negb ok then (c, fs, -1) else
  let head := log_head level t2 in
  let buf := head ++ snprintf (MSG_MAX_LEN - length head - 1) body in
  let log_file := get_log_file_name (client_log_dir c) (client_log_prefix c) FILE_NAME_MAX_LEN t3 in
  let '(fs, opened) := open_log fs log_file in
  if negb opened then (c, fs, -1) else
  (c, fappend fs log_file (buf ++ [10]), 0).

(** [do_log] is a copy of [add_client_log]: it does not use its logger. *)
Definition do_log : log_level -> list Z -> Z -> Z -> Z -> client_log -> fsys -> client_log * fsys * Z := add_client_log.
Definition log_info : list Z -> Z -> Z -> Z -> client_log -> fsys -> client_log * fsys * Z := do_log LOG_INFO.

(** ** The server *)

Record msgbuf := Msg { m_length : Z; m_buf : list Z }.

(** [msgsnd] fails when the queue is full.  [msg] is on the stack and not
    initialised; [None] is an access behind the end of its [buf]. *)
Definition add_server_log (room : list msgbuf -> bool) (garbage : list Z) (level : log_level) (body : list Z) (now : Z)
    (queue : list msgbuf) : option (list msgbuf * Z) :=
  let head := log_head level now in
  buf ← write_bytes garbage 0 (head ++ [0]);
  let ret := length head in
  buf ← write_bytes buf ret (snprintf (MSG_MAX_LEN - ret - 1) body ++ [0]);
  let ret := (ret + length body)%nat in
  buf ← write_bytes buf ret [10; 0];
  let ret := S ret in
  if room queue then Some (queue ++ [Msg (i32 (Z.of_nat ret)) buf], 0) else Some (queue, -1).

(** The logger's thread between two messages; [l_open] is [server_log_fp != NULL]. *)
Record logger := Logger { l_fs : fsys; l_file : list Z; l_open : bool; server_limit : ratelimit_state }.

(** One message, with the clock at the limiter and at the name; [None] is
    [fclose(NULL)] or a length behind the end of the buffer. *)
Definition logger_message (dir prefix : list Z) (msg : msgbuf) (t1 t2 : Z) (l : logger) : option logger :=
  if m_length msg <=? 0 then Some l else
  let '(ok, limit) := ratelimit_try_inc scaled t1 (server_limit l) in
  if negb ok then Some (Logger (l_fs l) (l_file l) (l_open l) limit) else
  let file2 := get_log_file_name dir prefix FILE_NAME_MAX_LEN t2 in
  if decide (l_file l = file2) then
    if negb (l_open l) then None else
    text ← read_bytes (m_buf msg) 0 (Z.to_nat (m_length msg));
    Some (Logger (fappend (l_fs l) file2 text) file2 true limit)
  else
    if negb (l_open l) then None else
    let '(fs, opened) := open_log (l_fs l) file2 in
    if negb opened then Some (Logger fs (l_file l) false limit) else
    text ← read_bytes (m_buf msg) 0 (Z.to_nat (m_length msg));
    Some (Logger (fappend fs file2 text) file2 true limit).

(** What [logger_daemon] does before its loop: [None] is the result -1. *)
Definition logger_start (dir prefix : list Z) (t1 t2 : Z) (fs : fsys) : option logger :=
  let file1 := get_log_file_name dir prefix FILE_NAME_MAX_LEN t2 in
  let '(fs, opened) := open_log fs file1 in
  if negb opened then None else Some (Logger fs file1 true (ratelimit_state_construct 10 100000 t1)).

(** The loop, for the messages that arrive. *)
Fixpoint logger_loop (dir prefix : list Z) (arrivals : list (msgbuf * Z * Z)) (l : logger) : option logger :=
  match arrivals with
  | [] => Some l
  | (msg, t1, t2) :: arrivals => l ← logger_message dir prefix msg t1 t2 l; logger_loop dir prefix arrivals l
  end.

End Log.

(** ** The limiter counts *)

Section LimiterProofs.
Variable scaled : Z -> Z -> Z -> Z.

Lemma tries_within nows : forall rs, Forall (fun now => now - last_ts rs <= interval rs) nows ->
  0 <= used rs <= burst rs ->
  let free := Z.to_nat (burst rs - used rs) in
  tries scaled nows rs
  = (replicate (Nat.min free (length nows)) true ++ replicate (length nows - free) false,
     RateLimit (interval rs) (burst rs) (used rs + Z.of_nat (Nat.min free (length nows)))
       (missed rs + Z.of_nat (length nows - free)) (last_ts rs)).
Proof.
  induction nows as [|now nows IH]; intros rs Ht Hu; cbv zeta.
  - cbn [tries length]. rewrite Nat.min_0_r. cbn [replicate app]. destruct rs. cbn in *. do 2 f_equal; lia.
  - apply Forall_cons in Ht as [Hn Ht]. cbn [tries length]. unfold ratelimit_try_inc. rewrite (proj2 (Z.ltb_ge _ _)) by lia.
    destruct (Z.leb_spec (burst rs) (used rs)) as [Hfull|Hroom]; cbn [negb].
    + rewrite (IH (RateLimit _ _ _ _ _)) by (cbn; first [exact Ht|lia]). cbn [interval burst used missed last_ts].
      replace (Z.to_nat (burst rs - used rs)) with 0%nat by lia. cbn [Nat.min replicate app Nat.sub]. rewrite Nat.sub_0_r.
      do 2 f_equal; lia.
    + rewrite (IH (RateLimit _ _ _ _ _)) by (cbn; first [exact Ht|lia]). cbn [interval burst used missed last_ts].
      replace (Z.to_nat (burst rs - used rs)) with (S (Z.to_nat (burst rs - (used rs + 1)))) by lia.
      cbn [Nat.min replicate app Nat.sub]. do 2 f_equal; lia.
Qed.

(** Within one interval the limiter lets exactly as many calls through as
    are free, and then none; it counts both. *)
Theorem limiter_exact nows rs : Forall (fun now => now - last_ts rs <= interval rs) nows -> 0 <= used rs <= burst rs ->
  let free := Z.to_nat (burst rs - used rs) in
  tries scaled nows rs
  = (replicate (Nat.min free (length nows)) true ++ replicate (length nows - free) false,
     RateLimit (interval rs) (burst rs) (used rs + Z.of_nat (Nat.min free (length nows)))
       (missed rs + Z.of_nat (length nows - free)) (last_ts rs)).
Proof. apply tries_within. Qed.

(** The count never passes the limit, whatever the clock does. *)
Theorem limiter_invariant nows : (forall u i d, 0 <= u -> 0 <= i < d -> 0 <= scaled u i d <= u) ->
  forall rs, 0 <= interval rs -> 0 <= used rs <= burst rs ->
  let rs' := (tries scaled nows rs).2 in 0 <= used rs' <= burst rs /\ burst rs' = burst rs /\ interval rs' = interval rs.
Proof.
  intros Hs. induction nows as [|now nows IH]; intros rs Hi Hu; cbn [tries]; [done|].
  destruct (ratelimit_try_inc scaled now rs) as [ok rs1] eqn:E.
  assert (H1 : 0 <= used rs1 <= burst rs /\ burst rs1 = burst rs /\ interval rs1 = interval rs).
  { unfold ratelimit_try_inc in E. destruct (Z.ltb_spec (interval rs) (now - last_ts rs)) as [Hlt|Hge].
    - cbn [interval burst used missed last_ts] in E. specialize (Hs (used rs) (interval rs) (now - last_ts rs)).
      destruct (Z.leb_spec (burst rs) (scaled (used rs) (interval rs) (now - last_ts rs))); injection E as _ <-; cbn; lia.
    - destruct (Z.leb_spec (burst rs) (used rs)); injection E as _ <-; cbn; lia. }
  destruct H1 as (Hu1 & Hb1 & Hi1). rewrite <- Hb1 in Hu1. specialize (IH rs1 ltac:(lia) Hu1).
  destruct (tries scaled nows rs1) as [oks rs']. cbn in *. rewrite Hb1, Hi1 in IH. exact IH.
Qed.
End LimiterProofs.

(** ** A line in the queue *)

Section Lines.
Variables (stamp clock : Z -> list Z).
Variable scaled : Z -> Z -> Z -> Z.

Lemma write_prefix_bytes buf pre x y : take (length pre) buf = pre -> (length pre + length (x ++ y) <= length buf)%nat ->
  exists buf', write_bytes buf (length pre) (x ++ y) = Some buf' /\ take (length pre + length x) buf' = pre ++ x /\ length buf' = length buf.
Proof.
  intros Hp Hl. unfold write_bytes. rewrite decide_True by done. eexists. split; [reflexivity|]. rewrite Hp. split.
  - rewrite <- app_assoc, app_assoc. rewrite <- (length_app pre x). apply take_app_length.
  - rewrite !length_app, length_drop. rewrite length_app in Hl. lia.
Qed.

Definition log_line (level : log_level) (now : Z) (body : list Z) : list Z := log_head clock level now ++ body ++ [10].

(** A line that fits, with its terminating zero, is queued as it is. *)
Lemma server_log_fits room garbage level body now queue :
  length garbage = BUF_LEN -> (length (log_line level now body) < BUF_LEN)%nat -> room queue = true ->
  exists msg, add_server_log clock room garbage level body now queue = Some (queue ++ [msg], 0)
    /\ m_length msg = Z.of_nat (length (log_line level now body))
    /\ read_bytes (m_buf msg) 0 (Z.to_nat (m_length msg)) = Some (log_line level now body).
Proof.
  unfold log_line, add_server_log. set (head := log_head clock level now). intros Hg Hl Hroom. rewrite !length_app in Hl. cbn [length] in Hl.
  assert (HB : (BUF_LEN = 232)%nat) by done.
  destruct (write_prefix_bytes garbage [] head [0]) as (b1 & E1 & P1 & L1); [done|rewrite length_app; cbn [length]; lia|].
  cbn [length Nat.add app] in E1, P1. rewrite E1. cbn [mbind option_bind].
  assert (Hb : snprintf (MSG_MAX_LEN - length head - 1) body = body)
    by (unfold snprintf; apply take_ge; unfold MSG_MAX_LEN; lia).
  rewrite Hb. destruct (write_prefix_bytes b1 head body [0]) as (b2 & E2 & P2 & L2); [done|rewrite length_app; cbn [length]; lia|].
  rewrite E2. cbn [mbind option_bind].
  destruct (write_prefix_bytes b2 (head ++ body) [10] [0]) as (b3 & E3 & P3 & L3); [by rewrite length_app|rewrite length_app; cbn [length app]; lia|].
  rewrite length_app in E3, P3. cbn [app] in E3. rewrite E3. cbn [mbind option_bind]. rewrite Hroom. eexists. split; [reflexivity|].
  cbn [m_length m_buf].
  assert (Hi : i32 (Z.of_nat (S (length head + length body))) = Z.of_nat (length (head ++ body ++ [10])))
    by (rewrite !length_app; cbn [length]; rewrite i32_small by (unfold in_i32; lia); lia).
  rewrite Hi. split; [done|]. rewrite Nat2Z.id. unfold read_bytes. rewrite decide_True by (rewrite !length_app; cbn [length]; lia).
  rewrite drop_0, app_assoc, !length_app. by rewrite P3.
Qed.

(** A longer one is written behind the end of the message on the stack. *)
Theorem server_log_overflow room garbage level body now queue :
  length garbage = BUF_LEN -> (BUF_LEN <= length (log_line level now body))%nat ->
  add_server_log clock room garbage level body now queue = None.
Proof.
  unfold log_line, add_server_log. set (head := log_head clock level now). intros Hg Hl. rewrite !length_app in Hl. cbn [length] in Hl.
  destruct (write_bytes garbage 0 (head ++ [0])) as [b1|] eqn:E1; [|done]. cbn [mbind option_bind].
  apply length_write_bytes in E1. destruct (write_bytes b1 (length head) _) as [b2|] eqn:E2; [|done]. cbn [mbind option_bind].
  apply length_write_bytes in E2. unfold write_bytes. rewrite decide_False; [done|]. cbn [length]. lia.
Qed.
End Lines.

(** ** The logger's thread *)

Section Daemon.
Variables (stamp : Z -> list Z) (scaled : Z -> Z -> Z -> Z) (dir prefix : list Z).

Definition log_name (now : Z) : list Z := get_log_file_name stamp dir prefix FILE_NAME_MAX_LEN now.

Definition content (fs : fsys) (p : list Z) : list Z := default [] (fopen_r fs p).

(** A file that can be created or appended to. *)
Definition log_ready (fs : fsys) (p : list Z) : Prop :=
  p <> [] /\ node_at fs (dirname p) = Some Dir /\ dirname p <> [] /\ canon p ∉ denied fs /\ canon p <> [] /\ node_at fs p <> Some Dir.

(** What the messages of the arrivals add to the file at [p]. *)
Definition added (p : list Z) (arrivals : list (msgbuf * Z * Z)) (oks : list bool) : list Z :=
  concat (zip_with (fun '(msg, _, t2) (ok : bool) =>
    if ok && bool_decide (canon (log_name t2) = canon p) then take (Z.to_nat (m_length msg)) (m_buf msg) else []) arrivals oks).

Lemma put_reg_ready fs q d p : node_at fs q <> Some Dir -> log_ready fs p -> log_ready (put_node fs q (Reg d)) p.
Proof.
  intros Hq (Hne & Hd & Hdn & Hden & Hc & Hp). split_and!; [done| |done|done|done|].
  - destruct (decide (canon (dirname p) = canon q)) as [E|E]; [|by rewrite node_put_ne].
    exfalso. apply Hq. rewrite <- Hd. unfold node_at. by rewrite E.
  - destruct (decide (canon p = canon q)) as [E|E]; [|by rewrite node_put_ne].
    pose proof (node_reg fs q Hq) as Hn. assert (H : node_at (put_node fs q (Reg d)) p = node_at (put_node fs q (Reg d)) q) by (unfold node_at; by rewrite E).
    rewrite H, node_put by done. done.
Qed.

Lemma content_put fs q d p : node_at fs q <> Some Dir ->
  content (put_node fs q (Reg d)) p = if bool_decide (canon q = canon p) then d else content fs p.
Proof.
  intros Hq. unfold content, fopen_r. case_bool_decide as E.
  - assert (H : node_at (put_node fs q (Reg d)) p = node_at (put_node fs q (Reg d)) q) by (unfold node_at; by rewrite E).
    rewrite H, node_put by (by eapply node_reg). done.
  - rewrite node_put_ne by congruence. done.
Qed.

Lemma create_in_dir fs q : log_ready fs q -> node_at fs q = None -> create_new_file_with_parent fs q = (put_node fs q (Reg []), 0).
Proof.
  intros (Hne & Hd & Hdn & Hden & Hc & _) En. unfold create_new_file_with_parent, try_make_dir.
  assert (Ex : file_existed fs (dirname q) = true).
  { unfold file_existed. destruct (dirname q); [done|]. rewrite Hd. by apply bool_decide_true. }
  rewrite Ex. cbn [negb Z.eqb]. unfold create_new_file, fopen_w. rewrite En. unfold may_create.
  rewrite Hd, bool_decide_true by done. unfold set_file_mode. by rewrite node_put by (eapply node_reg; by rewrite En).
Qed.

(** Opening creates an empty file at most. *)
Lemma open_log_ready fs p : log_ready fs p -> exists fs', open_log fs p = (fs', true)
  /\ (exists d, node_at fs' p = Some (Reg d)) /\ (forall q, content fs' q = content fs q) /\ (forall q, log_ready fs q -> log_ready fs' q).
Proof.
  intros Hr. pose proof Hr as (Hne & Hd & Hdn & Hden & Hc & Hp). unfold open_log, file_existed.
  destruct p as [|c p]; [done|]. set (q := c :: p) in *. destruct (node_at fs q) as [[|d]|] eqn:En; [done| |].
  - rewrite bool_decide_true by eauto. unfold fopen_a. rewrite En, decide_False by done. exists fs. split_and!; [done|by eexists|done|done].
  - rewrite bool_decide_false by (intros [? ?]; congruence). rewrite (create_in_dir fs q) by done. cbn [fst].
    unfold fopen_a. rewrite node_put by (eapply node_reg; by rewrite En). rewrite decide_False by done.
    eexists. split; [reflexivity|]. split_and!.
    + eexists. apply node_put. eapply node_reg. by rewrite En.
    + intros r'. rewrite content_put by (by rewrite En). case_bool_decide as E; [|done]. unfold content, fopen_r.
      assert (H : node_at fs r' = node_at fs q) by (unfold node_at; by rewrite E). by rewrite H, En.
    + intros r' Hr'. apply put_reg_ready; [by rewrite En|done].
Qed.

Lemma append_ready fs p d text : node_at fs p = Some (Reg d) ->
  (exists d', node_at (fappend fs p text) p = Some (Reg d'))
  /\ (forall q, content (fappend fs p text) q = content fs q ++ (if bool_decide (canon p = canon q) then text else []))
  /\ (forall q, log_ready fs q -> log_ready (fappend fs p text) q).
Proof.
  intros Hd. unfold fappend. rewrite Hd. split_and!.
  - eexists. apply node_put. eapply node_reg. by rewrite Hd.
  - intros q. rewrite content_put by (by rewrite Hd). case_bool_decide as E; [|by rewrite app_nil_r].
    unfold content, fopen_r. assert (H : node_at fs q = node_at fs p) by (unfold node_at; by rewrite E). by rewrite H, Hd.
  - intros q Hq. apply put_reg_ready; [by rewrite Hd|done].
Qed.

(** The arrivals carry whole messages, at times whose files can be opened. *)
Definition arrival_ok (fs : fsys) (a : msgbuf * Z * Z) : Prop :=
  let '(msg, _, t2) := a in 0 < m_length msg <= Z.of_nat (length (m_buf msg)) /\ log_ready fs (log_name t2).

Lemma read_whole msg : 0 < m_length msg <= Z.of_nat (length (m_buf msg)) ->
  read_bytes (m_buf msg) 0 (Z.to_nat (m_length msg)) = Some (take (Z.to_nat (m_length msg)) (m_buf msg)).
Proof. intros H. unfold read_bytes. rewrite decide_True by lia. by rewrite drop_0. Qed.

Record logging (l : logger) : Prop := Logging {
  lg_open : l_open l = true;
  lg_file : exists d, node_at (l_fs l) (l_file l) = Some (Reg d);
}.

Lemma logger_message_adds msg t1 t2 l : logging l -> arrival_ok (l_fs l) (msg, t1, t2) ->
  let '(ok, limit) := ratelimit_try_inc scaled t1 (server_limit l) in
  exists l', logger_message stamp scaled dir prefix msg t1 t2 l = Some l' /\ logging l' /\ server_limit l' = limit
    /\ (forall q, content (l_fs l') q = content (l_fs l) q
         ++ (if ok && bool_decide (canon (log_name t2) = canon q) then take (Z.to_nat (m_length msg)) (m_buf msg) else []))
    /\ (forall q, log_ready (l_fs l) q -> log_ready (l_fs l') q).
Proof.
  intros [Ho [d Hd]] [Hm Hr]. destruct (ratelimit_try_inc scaled t1 (server_limit l)) as [ok limit] eqn:El.
  unfold logger_message. rewrite (proj2 (Z.leb_gt _ _)), El by lia. fold (log_name t2). destruct ok; cbn [negb].
  2: { exists (Logger (l_fs l) (l_file l) (l_open l) limit). split_and!; [done|by split; [|exists d]|done| |done].
       intros q. cbn [andb]. by rewrite app_nil_r. }
  rewrite Ho, (read_whole _ Hm). cbn [negb mbind option_bind andb]. case_decide as E.
  - destruct (append_ready (l_fs l) (log_name t2) d (take (Z.to_nat (m_length msg)) (m_buf msg))) as ([d' Hd'] & Hc & Hq); [by rewrite <- E|].
    eexists. split; [reflexivity|]. split_and!; [split; [done|by exists d']|done|exact Hc|exact Hq].
  - destruct (open_log_ready (l_fs l) (log_name t2) Hr) as (fs' & -> & [d1 Hd1] & Hc1 & Hq1). cbn [negb].
    destruct (append_ready fs' (log_name t2) d1 (take (Z.to_nat (m_length msg)) (m_buf msg)) Hd1) as ([d' Hd'] & Hc & Hq).
    eexists. split; [reflexivity|]. split_and!; [split; [done|by exists d']|done| |intros q Hrq; by apply Hq, Hq1].
    intros q. cbn [l_fs]. by rewrite Hc, Hc1.
Qed.

Lemma logger_loop_adds arrivals : forall l, logging l -> Forall (arrival_ok (l_fs l)) arrivals ->
  exists l', logger_loop stamp scaled dir prefix arrivals l = Some l' /\ logging l'
    /\ forall q, content (l_fs l') q = content (l_fs l) q ++ added q arrivals (tries scaled (map (fun a => a.1.2) arrivals) (server_limit l)).1.
Proof.
  induction arrivals as [|[[msg t1] t2] arrivals IH]; intros l Hl Ha.
  - exists l. split_and!; [done|done|]. intros q. cbn. by rewrite app_nil_r.
  - apply Forall_cons in Ha as [Hm Ha]. cbn [logger_loop]. pose proof (logger_message_adds msg t1 t2 l Hl Hm) as H.
    destruct (ratelimit_try_inc scaled t1 (server_limit l)) as [ok limit] eqn:El. destruct H as (l1 & -> & Hl1 & Hlim & Hc & Hq).
    cbn [mbind option_bind]. destruct (IH l1 Hl1) as (l' & -> & Hl' & Hc').
    { eapply Forall_impl; [exact Ha|]. intros [[m a1] a2] [H1 H2]. split; [done|by apply Hq]. }
    exists l'. split_and!; [done|done|]. intros q. rewrite Hc', Hc, Hlim. cbn [map fst snd tries]. rewrite El.
    destruct (tries scaled (map (fun a => a.1.2) arrivals) limit) as [oks rs]. cbn [fst]. rewrite <- app_assoc. f_equal.
Qed.

(** A line of the client is cut to the length of a message and appended to
    the file of its hour, when the limiter lets it through. *)
Theorem client_log_appends clock level body t1 t2 t3 c fs limit
    (Hlimit : ratelimit_try_inc scaled t1 (client_limit c) = (true, limit))
    (Hplace : client_log_dir c = dir /\ client_log_prefix c = prefix) (Hready : log_ready fs (log_name t3)) :
  exists fs', add_client_log stamp clock scaled level body t1 t2 t3 c fs = (ClientLog dir prefix limit, fs', 0)
    /\ forall q, content fs' q = content fs q
         ++ (if bool_decide (canon (log_name t3) = canon q)
             then (log_head clock level t2 ++ take (MSG_MAX_LEN - length (log_head clock level t2) - 2) body) ++ [10] else []).
Proof.
  destruct Hplace as [Hd Hp]. unfold add_client_log. rewrite Hlimit. cbn [negb client_log_dir client_log_prefix]. rewrite Hd, Hp. fold (log_name t3).
  destruct (open_log_ready fs (log_name t3) Hready) as (fs1 & -> & [d Hd1] & Hc1 & _). cbn [negb].
  unfold snprintf. replace (MSG_MAX_LEN - length (log_head clock level t2) - 1 - 1)%nat with (MSG_MAX_LEN - length (log_head clock level t2) - 2)%nat by lia.
  eexists. split; [reflexivity|]. intros q.
  destruct (append_ready fs1 (log_name t3) d ((log_head clock level t2 ++ take (MSG_MAX_LEN - length (log_head clock level t2) - 2) body) ++ [10]) Hd1) as (_ & Hc & _).
  by rewrite Hc, Hc1.
Qed.
End Daemon.

(** ** From the threads of the server to the file *)

Section Delivery.
Variables (stamp clock : Z -> list Z) (scaled : Z -> Z -> Z -> Z) (dir prefix : list Z) (room : list msgbuf -> bool).

(** A call of [add_log] by a thread: what was on its stack, and its line. *)
Record log_call := LogCall { lc_stack : list Z; lc_level : log_level; lc_body : list Z; lc_now : Z }.

Fixpoint log_calls (cs : list log_call) (queue : list msgbuf) : option (list msgbuf) :=
  match cs with
  | [] => Some queue
  | c :: cs =>
      '(queue, _) ← add_server_log clock room (lc_stack c) (lc_level c) (lc_body c) (lc_now c) queue;
      log_calls cs queue
  end.

Definition line_of (c : log_call) : list Z := log_line clock (lc_level c) (lc_now c) (lc_body c).

Definition call_ok (c : log_call) : Prop := length (lc_stack c) = BUF_LEN /\ (length (line_of c) < BUF_LEN)%nat.

(** A message that is the line of a call. *)
Definition carries_line (c : log_call) (m : msgbuf) : Prop :=
  m_length m = Z.of_nat (length (line_of c)) /\ read_bytes (m_buf m) 0 (Z.to_nat (m_length m)) = Some (line_of c).

Lemma log_calls_queue (Hroom : forall q, room q = true) cs : Forall call_ok cs -> forall queue,
  exists ms, log_calls cs queue = Some (queue ++ ms) /\ Forall2 carries_line cs ms.
Proof.
  induction 1 as [|c cs [Hs Hl] _ IH]; intros queue; cbn [log_calls].
  - exists []. split; [by rewrite app_nil_r|constructor].
  - destruct (server_log_fits clock room (lc_stack c) (lc_level c) (lc_body c) (lc_now c) queue Hs Hl (Hroom _)) as (m & -> & Hm & Hr).
    cbn [mbind option_bind]. destruct (IH (queue ++ [m])) as (ms & -> & Hms). exists (m :: ms). split; [by rewrite <- app_assoc|].
    constructor; [by split|done].
Qed.

Definition delivered_at (q : list Z) (cs : list log_call) (times : list (Z * Z)) : list Z :=
  concat (zip_with (fun c t => if bool_decide (canon (log_name stamp dir prefix t.2) = canon q) then line_of c else []) cs times).

Lemma carries_take c m : carries_line c m -> take (Z.to_nat (m_length m)) (m_buf m) = line_of c
  /\ 0 < m_length m <= Z.of_nat (length (m_buf m)).
Proof.
  intros [Hl Hr]. unfold read_bytes in Hr. case_decide as E; [|done]. rewrite drop_0 in Hr. injection Hr as Hr. split; [done|].
  assert (0 < length (line_of c))%nat by (unfold line_of, log_line, log_head; rewrite !length_app; cbn; lia). lia.
Qed.

Lemma added_delivered q cs ms times : Forall2 carries_line cs ms -> length times = length ms ->
  added stamp dir prefix q (zip_with (fun m t => (m, t.1, t.2)) ms times) (replicate (length ms) true) = delivered_at q cs times.
Proof.
  intros Hms. revert times. induction Hms as [|c m cs ms Hc _ IH]; intros [|[t1 t2] times] Hl; try discriminate Hl; [done|].
  unfold added, delivered_at. cbn [length replicate zip_with concat fst snd andb]. rewrite (proj1 (carries_take c m Hc)).
  f_equal. apply IH. by injection Hl.
Qed.

(** C31: What the threads of the server log is in the files, once and in order,
    under these conditions: every line, with its head, is shorter than the 232
    bytes of a message ([server_log_overflow] is about longer ones), the queue
    has room, all lines are taken within one interval of the limiter and within
    its budget (those beyond it are dropped), and the file of each hour can be
    opened.  Then the logger's thread appends each line to the file of the hour
    in which it takes it, whichever files the hours need; every file keeps what
    it had. *)
Theorem server_log_delivered cs queue times l
    (Hroom : forall q, room q = true) (Hcs : Forall call_ok cs) (Hq : log_calls cs [] = Some queue)
    (Htimes : length times = length queue) (Hlog : logging l)
    (Hready : Forall (fun t => log_ready (l_fs l) (log_name stamp dir prefix t.2)) times)
    (Hlimit : Forall (fun t => t.1 - last_ts (server_limit l) <= interval (server_limit l)) times)
    (Hfree : 0 <= used (server_limit l) /\ used (server_limit l) + Z.of_nat (length cs) <= burst (server_limit l)) :
  exists l', logger_loop stamp scaled dir prefix (zip_with (fun m t => (m, t.1, t.2)) queue times) l = Some l'
    /\ forall q, content (l_fs l') q = content (l_fs l) q ++ delivered_at q cs times.
Proof.
  destruct (log_calls_queue Hroom cs Hcs []) as (ms & Hq' & Hms). rewrite Hq in Hq'. injection Hq' as ->. cbn [app] in *.
  pose proof (Forall2_length _ _ _ Hms) as Hlen.
  destruct (logger_loop_adds stamp scaled dir prefix (zip_with (fun m t => (m, t.1, t.2)) ms times) l Hlog) as (l' & El & _ & Hc).
  { clear - Hms Hready Htimes. revert times Htimes Hready. induction Hms as [|c m cs ms Hm _ IH]; intros [|t times] Hl Hr; try discriminate Hl; [constructor|].
    apply Forall_cons in Hr as [Hr Hrs]. cbn [zip_with]. constructor; [split; [apply (carries_take c m Hm)|exact Hr]|]. apply IH; [by injection Hl|done]. }
  exists l'. split; [done|]. intros q. rewrite Hc. f_equal. rewrite tries_within; cbn [fst].
  - set (n := length (map _ _)). assert (Hn : n = length ms).
    { unfold n. rewrite length_map. clear - Htimes. revert times Htimes. induction ms as [|m ms IH]; intros [|t times] Hl; try discriminate Hl; [done|].
      cbn [zip_with length]. f_equal. apply IH. by injection Hl. }
    rewrite Nat.min_r by lia. replace (n - _)%nat with 0%nat by lia. cbn [replicate]. rewrite app_nil_r, Hn. by apply added_delivered.
  - clear - Hlimit Htimes. revert times Htimes Hlimit. induction ms as [|m ms IH]; intros [|t times] Hl Hf; try discriminate Hl; [constructor|].
    apply Forall_cons in Hf as [Hf Hfs]. cbn [zip_with map fst snd]. constructor; [exact Hf|]. apply IH; [by injection Hl|done].
  - lia.
Qed.

(** When the file of a new hour cannot be opened, the line is lost and the
    next line closes a file that is not there. *)
Theorem log_reopen_crash m1 m2 t1 t2 t3 t4 l :
  0 < m_length m1 -> 0 < m_length m2 -> l_file l <> log_name stamp dir prefix t2 ->
  (open_log (l_fs l) (log_name stamp dir prefix t2)).2 = false ->
  (tries scaled [t1; t3] (server_limit l)).1 = [true; true] ->
  logger_loop stamp scaled dir prefix [(m1, t1, t2); (m2, t3, t4)] l = None.
Proof.
  intros H1 H2 Hne Hop Ht. cbn [tries] in Ht. destruct (ratelimit_try_inc scaled t1 (server_limit l)) as [ok1 r1] eqn:E1.
  destruct (ratelimit_try_inc scaled t3 r1) as [ok2 r2] eqn:E2. injection Ht as -> ->.
  assert (F1 : logger_message stamp scaled dir prefix m1 t1 t2 l = None
    \/ exists fs', logger_message stamp scaled dir prefix m1 t1 t2 l = Some (Logger fs' (l_file l) false r1)).
  { unfold logger_message. rewrite (proj2 (Z.leb_gt (m_length m1) 0) H1), E1. cbn [negb]. fold (log_name stamp dir prefix t2).
    rewrite decide_False by done. destruct (l_open l); cbn [negb]; [|by left].
    destruct (open_log (l_fs l) (log_name stamp dir prefix t2)) as [fs' opened]. cbn [snd] in Hop. rewrite Hop. cbn [negb]. right. by exists fs'. }
  cbn [logger_loop]. destruct F1 as [->|[fs' ->]]; [done|]. cbn [mbind option_bind].
  unfold logger_message. cbn [server_limit]. rewrite (proj2 (Z.leb_gt (m_length m2) 0) H2), E2. cbn [negb l_open]. by case_decide.
Qed.
End Delivery.

(** ** Two threads across the turn of an hour *)

Definition demo_stamp (now : Z) : list Z := [48 + now / 3600].
Definition demo_clock (now : Z) : list Z := ascii_bytes "t".
Definition demo_scaled (u i d : Z) : Z := u * i / d.

Definition demo_fs : fsys := Fsys {[ ascii_bytes "/l" := Dir ]} {[ ascii_bytes "/l/s.2.log" ]}.

Definition demo_logger : logger :=
  default (Logger demo_fs [] false (ratelimit_state_construct 0 0 0))
    (logger_start demo_stamp (ascii_bytes "/l") (ascii_bytes "s") 3598 3598 demo_fs).

Definition demo_calls : list log_call :=
  [LogCall (replicate 232 7) LOG_INFO (ascii_bytes "a") 0; LogCall (replicate 232 9) LOG_WARN (ascii_bytes "b") 0].

Definition demo_queue : list msgbuf := default [] (log_calls demo_clock (fun _ => true) demo_calls []).

Definition demo_times : list (Z * Z) := [(3599, 3599); (3600, 3600)].

Lemma demo_ready t : t ∈ demo_times -> log_ready (l_fs demo_logger) (log_name demo_stamp (ascii_bytes "/l") (ascii_bytes "s") t.2).
Proof.
  unfold demo_times. rewrite !elem_of_cons. intros [->|[->|H]]; [..|by apply not_elem_of_nil in H];
    (split_and!; [discriminate|vm_compute; reflexivity|discriminate| |discriminate|vm_compute; discriminate]);
    apply (bool_decide_unpack _); vm_compute; exact I.
Defined.

Lemma server_log_delivered_witness :
  exists l', logger_loop demo_stamp demo_scaled (ascii_bytes "/l") (ascii_bytes "s") (zip_with (fun m t => (m, t.1, t.2)) demo_queue demo_times) demo_logger = Some l'
    /\ forall q, content (l_fs l') q = content (l_fs demo_logger) q ++ delivered_at demo_stamp demo_clock (ascii_bytes "/l") (ascii_bytes "s") q demo_calls demo_times.
Proof.
  apply (server_log_delivered demo_stamp demo_clock demo_scaled (ascii_bytes "/l") (ascii_bytes "s") (fun _ => true) demo_calls demo_queue demo_times demo_logger).
  - done.
  - repeat constructor; vm_compute; lia.
  - vm_compute. reflexivity.
  - vm_compute. reflexivity.
  - split; [reflexivity|]. exists []. vm_compute. reflexivity.
  - apply Forall_forall. apply demo_ready.
  - repeat constructor; vm_compute; discriminate.
  - vm_compute. split; [discriminate|discriminate].
Defined.

Lemma log_reopen_crash_witness :
  logger_loop demo_stamp demo_scaled (ascii_bytes "/l") (ascii_bytes "s") [(Msg 1 [65], 3600, 7200); (Msg 1 [66], 3600, 7200)] demo_logger = None.
Proof.
  apply (log_reopen_crash demo_stamp demo_scaled (ascii_bytes "/l") (ascii_bytes "s")); [done|done|discriminate|vm_compute; reflexivity|vm_compute; reflexivity].
Defined.

Lemma server_log_overflow_witness : add_server_log demo_clock (fun _ => true) (replicate 232 0) LOG_INFO (replicate 222 65) 0 [] = None.
Proof. apply (server_log_overflow demo_clock (fun _ => true) (replicate 232 0) LOG_INFO (replicate 222 65) 0 []); vm_compute; [reflexivity|lia]. Defined.

Lemma limiter_exact_witness : tries demo_scaled [5; 6; 7] (RateLimit 10 2 0 0 0) = ([true; true; false], RateLimit 10 2 2 1 0).
Proof. apply (limiter_exact demo_scaled [5; 6; 7] (RateLimit 10 2 0 0 0)); [repeat constructor; vm_compute; discriminate|vm_compute; split; discriminate]. Defined.

Lemma limiter_invariant_witness : let rs' := (tries demo_scaled [5; 30; 31] (RateLimit 10 2 0 0 0)).2 in
  0 <= used rs' <= 2 /\ burst rs' = 2 /\ interval rs' = 10.
Proof.
  apply (limiter_invariant demo_scaled [5; 30; 31]); [|vm_compute; discriminate|vm_compute; split; discriminate].
  intros u i d Hu Hi. unfold demo_scaled. split; [apply Z.div_pos; nia|]. apply Z.div_le_upper_bound; nia.
Defined.

Lemma client_log_appends_witness :
  exists fs', add_client_log demo_stamp demo_clock demo_scaled LOG_ERROR (ascii_bytes "disk full") 1 1 1
      (ClientLog (ascii_bytes "/l") (ascii_bytes "c") (ratelimit_state_construct 10 10000 0)) demo_fs
    = (ClientLog (ascii_bytes "/l") (ascii_bytes "c") (RateLimit 10 10000 1 0 0), fs', 0)
    /\ forall q, content fs' q = content demo_fs q
         ++ (if bool_decide (canon (log_name demo_stamp (ascii_bytes "/l") (ascii_bytes "c") 1) = canon q)
             then ascii_bytes "[ERROR][t]disk full" ++ [10] else []).
Proof.
  apply (client_log_appends demo_stamp demo_scaled (ascii_bytes "/l") (ascii_bytes "c") demo_clock LOG_ERROR (ascii_bytes "disk full") 1 1 1
    (ClientLog (ascii_bytes "/l") (ascii_bytes "c") (ratelimit_state_construct 10 10000 0)) demo_fs (RateLimit 10 10000 1 0 0));
    [reflexivity|done|].
  split_and!; [discriminate|vm_compute; reflexivity|discriminate| |discriminate|vm_compute; discriminate].
  apply (bool_decide_unpack _). vm_compute. exact I.
Defined.
