(* ===== verification/FileTransfer.v ===== *)
(** * Transfers by put request: the properties

    What a transfer achieves, what the receiver guarantees against any peer,
    and two defects. *)

From stdpp Require Import relations.
From S2P Require Import Prelude CStr Md5 Process FileSystem FilePut FilePutRun.

#[local] Opaque CONTENT_BLOCK_SIZE BLOCK_SIZE.

(** ** Delivery *)

Lemma transfer_run src dir_size file_mode readdir pfuel path target req fs fs' n fuel items :
  transfer_items src readdir pfuel path target = Some items ->
  Forall (item_ok src fuel) items -> Z.of_nat (length items) < 2 ^ 31 -> (length items <= n)%nat ->
  install_all fs ((fun x => (x.1.2, x.2)) <$> items) = Some fs' ->
  exists ret1 ret2, 0 <= ret1 /\ 0 <= ret2 /\
    rtc step
      (Network (send_files_by_put_req (T := copying) src dir_size file_mode readdir pfuel path target req)
         (serve_put n fuel fs) [] [])
      (Network (Ret ret1) (Ret (fs', ret2)) [] []).
Proof.
  intros Hitems Hok Hbig Hn Hi. unfold transfer_items in Hitems. unfold send_files_by_put_req, serve_put.
  destruct (is_file src path).
  - injection Hitems as <-. destruct n as [|n]; [simpl in Hn; lia|].
    apply Forall_cons in Hok as [Hok _]. cbn in Hi.
    destruct (install fs target (file_data src path)) as [fs1|] eqn:E1; [|done]. injection Hi as <-.
    destruct (item_run src dir_size file_mode path target (file_data src path) (with_files 1 0 req) fs fs1 fuel
      (fun x => let '(_, ret) := x in mret ret)
      (fun x => let '(fs, ret, has_more) := x in
         if (ret =? -1) || negb has_more then mret (fs, ret) else
         r ← recv;
         match r with
         | RecvErr _ => mret (fs, -1)
         | NoData => Crash
         | Got req => recv_files_from_put_req n fuel fs req
         end)
      (fun r => match r with Got req => recv_files_from_put_req (S n) fuel fs req | _ => mret (fs, -1) end)
      Hok E1) as (req' & r1 & r2 & _ & _ & Hr1 & Hr2 & Hrun); [done|].
    exists r1, r2. split; [done|]. split; [done|].
    rewrite (proj2 (Z.eqb_neq r2 (-1))) in Hrun by lia. exact Hrun.
  - unfold send_dir_by_put_req.
    destruct (get_path_entry_list src readdir pfuel path) as [[entries|]|] eqn:El; [|done|done].
    injection Hitems as <-. rewrite length_fmap in Hbig, Hn.
    assert (Hne : entries <> []).
    { unfold get_path_entry_list in El. destruct (negb _); [done|]. destruct (negb _); [done|].
      destruct (basename path) as [p base].
      destruct (__get_path_entry_list _ _ _ _) as [l|] eqn:E; [|done]. cbn [mbind option_bind] in El.
      injection El as <-. by eapply path_entries_nonempty. }
    cbn [lift mbind prog_bind].
    eapply (entries_run src dir_size file_mode fuel target entries); try done; cbn; lia.
Qed.

(** C5: A transfer delivers, under these conditions.  The serialiser leaves its
    argument alone, as the one of the XDR build does ([raw_put_fails] is about
    the other).  Every file to send is shorter than 2^31 bytes and empty or not
    a multiple of the 2048 bytes of a block ([put_block_multiple_hangs]), its
    name at the receiver has 1 to 254 characters, and it can be installed there;
    there are fewer than 2^31 of them.  Then whatever the schedule both ends finish
    without error, nothing is left in the connection, and the receiver's file
    system is the one that installing the files one after the other gives,
    without blocks, digests or replies. *)
Theorem put_delivers src dir_size file_mode readdir pfuel path target req fs fs' n fuel items
    (Hitems : transfer_items src readdir pfuel path target = Some items)
    (Hok : Forall (item_ok src fuel) items)
    (Hcount : Z.of_nat (length items) < 2 ^ 31) (Hn : (length items <= n)%nat)
    (Hinstall : install_all fs ((fun x => (x.1.2, x.2)) <$> items) = Some fs') :
  exists ret1 ret2, 0 <= ret1 /\ 0 <= ret2 /\
    every_run_ends
      (Network (send_files_by_put_req (T := copying) src dir_size file_mode readdir pfuel path target req)
         (serve_put n fuel fs) [] [])
      (Network (Ret ret1) (Ret (fs', ret2)) [] []).
Proof.
  destruct (transfer_run src dir_size file_mode readdir pfuel path target req fs fs' n fuel items)
    as (r1 & r2 & H1 & H2 & Hrun); [done..|].
  exists r1, r2. split; [done|]. split; [done|]. apply run_ends; [done|apply final_done].
Qed.

(** A source with the file [/d/f] and an empty receiver. *)
Definition demo_src : fsys := Fsys {[ [47; 100] := Dir; [47; 100; 47; 102] := Reg [104; 105] ]} ∅.
Definition demo_dst : fsys := Fsys {[ [47; 116] := Dir ]} ∅.
Definition demo_readdir (p : list Z) : list (list Z) := [[46]; [46; 46]; [102]].
Definition demo_result : fsys :=
  Fsys {[ [47; 116] := Dir; [47; 116; 47; 100] := Dir; [47; 116; 47; 100; 47; 102] := Reg [104; 105] ]} ∅.
Definition demo_req : put_req := PutReq 0 0 (Entry 0 0 0 0 (replicate CONTENT_BLOCK_SIZE 0)) 0 0.
Definition demo_items : list item :=
  [([47; 100], [47; 116; 47; 100], None); ([47; 100; 47; 102], [47; 116; 47; 100; 47; 102], Some [104; 105])].

Lemma demo_items_ok : Forall (item_ok demo_src 10) demo_items.
Proof.
  repeat (apply Forall_cons; split); [| |constructor].
  - split; [|done]. split; [|reflexivity|done]. split; [|simpl; lia].
    apply (bool_decide_unpack _). reflexivity.
  - split; [|intros data [= <-]; simpl; lia]. split; [|reflexivity|].
    + split; [|simpl; lia]. apply (bool_decide_unpack _). reflexivity.
    + intros data [= <-]. split; [simpl; lia|]. right. rewrite Nat.mod_small; [done|].
      pose proof block_size_val. simpl. lia.
Qed.

Lemma put_delivers_witness :
  exists ret1 ret2, 0 <= ret1 /\ 0 <= ret2 /\
    every_run_ends
      (Network (send_files_by_put_req (T := copying) demo_src 4096 (fun _ => 420) demo_readdir 3
                  [47; 100] [47; 116] demo_req)
         (serve_put 2 10 demo_dst) [] [])
      (Network (Ret ret1) (Ret (demo_result, ret2)) [] []).
Proof.
  apply (put_delivers demo_src 4096 (fun _ => 420) demo_readdir 3 [47; 100] [47; 116] demo_req
           demo_dst demo_result 2 10 demo_items).
  - vm_compute. reflexivity.
  - exact demo_items_ok.
  - simpl. lia.
  - simpl. lia.
  - vm_compute. reflexivity.
Defined.

(** ** What the receiver guarantees *)

(** Runs a program to its next input. *)
Ltac run_head H := cbn [run mbind prog_bind mret prog_ret Process.send Process.recv] in H.

Lemma recv_blocks_keeps fuel : forall fs rp size total ins out fs' n ret rest,
  run (recv_blocks fuel fs rp size total) ins = (out, Done (fs', n, ret) rest) -> keeps rp fs fs'.
Proof.
  induction fuel as [|fuel IH]; intros fs rp size total ins out fs' n ret rest; cbn [recv_blocks]; [done|].
  intros (o1 & r & i1 & o2 & _ & E & _)%run_bind. destruct r as [q| |]; [|by injection E as <- <- <- <- <-..].
  destruct (negb _); [done|]. apply run_bind in E as (o3 & r3 & i3 & o4 & _ & E & _).
  destruct (_ <? total); [|injection E as _ <- _ _ _; apply fappend_keeps].
  apply IH in E. etransitivity; [apply fappend_keeps|exact E].
Qed.

Lemma run_cons {O I R} (o : O) (x : list O * outcome I R) out r :
  (let '(out, r) := x in (o :: out, r)) = (out, r) -> exists out', x = (out', r).
Proof. destruct x as [out' r']. intros [= _ ->]. by exists out'. Qed.

Lemma same_file_true fs p md5 : same_file fs p md5 = Some true ->
  exists data, fopen_r fs p = Some data /\ md5_of data = Some md5.
Proof.
  unfold same_file. destruct (file_existed fs p); [|done].
  destruct (fopen_r fs p) as [data|]; [|done]. cbn [mbind option_bind].
  destruct (md5_of data) as [s|] eqn:E; [|done]. cbn [mbind option_bind].
  intros [= H%bool_decide_eq_true]. exists data. by rewrite E, H.
Qed.

(** C15: Whatever the peer sends, receiving a file changes no file or directory
    but the one it names and the parents it creates; and when it reports
    success for a regular file, the file now stored under that name has the
    digest the peer announced. *)
Theorem receiver_integrity fuel fs req ins out fs' ret more rest
    (Hrun : run (recv_file_from_put_req fuel fs req) ins = (out, Done (fs', ret, more) rest)) :
  let rp := c_str (content (entry req)) in
  keeps rp fs fs'
  /\ (ret <> -1 -> e_type (entry req) <> FILE_TYPE_DIR ->
      exists q ins' data, ins = Got q :: ins' /\ fopen_r fs' rp = Some data
        /\ md5_of data = Some (c_str (content (entry q)))).
Proof.
  intros rp. unfold recv_file_from_put_req in Hrun. fold rp in Hrun.
  destruct (_ <=? length rp)%nat; [done|]. destruct (Z.eqb_spec (e_type (entry req)) FILE_TYPE_DIR) as [Ht|Ht].
  { run_head Hrun. injection Hrun as _ <- _ _ _. split; [|done].
    destruct (file_existed fs rp); [done|]. apply keeps_all_keeps, mkdirp_keeps. }
  pose proof (create_for_put_keeps fs rp) as Hk. destruct (create_for_put fs rp) as [fs1 r1]. cbn [fst] in Hk.
  destruct (r1 =? -1). { run_head Hrun. by injection Hrun as _ <- <- _ _. }
  run_head Hrun. apply run_cons in Hrun as (o1 & Hrun).
  destruct ins as [|[q| |] ins]; cbn iota beta in Hrun; [done| |done|by injection Hrun as _ <- <- _ _].
  destruct (_ <=? length _)%nat; [done|]. apply run_bind in Hrun as (o2 & same & i2 & o3 & E1 & Hrun & _).
  apply run_lift in E1 as (Esame & -> & _). destruct same.
  { run_head Hrun. injection Hrun as _ <- _ _ _. split; [done|]. intros _ _.
    exists q, ins. by destruct (same_file_true _ _ _ Esame) as (data & H1 & H2); exists data. }
  run_head Hrun. apply run_cons in Hrun as (o4 & Hrun).
  pose proof (open_for_put_keeps fs1 rp) as Ho. destruct (open_for_put fs1 rp) as [fs2 opened].
  cbn [fst] in Ho. destruct opened; cbn [negb] in Hrun.
  2:{ run_head Hrun. injection Hrun as _ <- <- _ _. split; [by etransitivity|done]. }
  apply run_bind in Hrun as (o5 & [[fs3 n] r3] & i3 & o6 & E2 & Hrun & _).
  apply recv_blocks_keeps in E2. assert (Hk3 : keeps rp fs fs3) by (do 2 (etransitivity; [eassumption|]); done).
  destruct (negb (n =? _)). { run_head Hrun. by injection Hrun as _ <- <- _ _. }
  apply run_bind in Hrun as (o7 & same & i4 & o8 & E3 & Hrun & _).
  apply run_lift in E3 as (Esame3 & -> & _). destruct same; run_head Hrun; injection Hrun as _ <- <- _ _; [|done].
  split; [done|]. intros _ _. exists q, ins.
  by destruct (same_file_true _ _ _ Esame3) as (data & H1 & H2); exists data.
Qed.

(** An empty file pushed to a fresh name. *)
Lemma receiver_integrity_witness :
  exists fs' out, run (recv_file_from_put_req 1 demo_dst
        (PutReq 1 0 (Entry 1 2 420 0 (strcpy (replicate 64 0) [47; 120])) 0 1))
      [Got (PutReq 1 0 (Entry 1 32 420 0 (strcpy (replicate 64 0) (default [] (md5_of [])))) 0 1)]
    = (out, Done (fs', 0, false) []) /\ keeps [47; 120] demo_dst fs'.
Proof.
  eexists _, _. split; [vm_compute; reflexivity|].
  refine (proj1 (receiver_integrity 1 demo_dst
    (PutReq 1 0 (Entry 1 2 420 0 (strcpy (replicate 64 0) [47; 120])) 0 1)
    [Got (PutReq 1 0 (Entry 1 32 420 0 (strcpy (replicate 64 0) (default [] (md5_of [])))) 0 1)] _ _ 0 false [] _)).
  vm_compute. reflexivity.
Defined.

(** ** Two defects *)

(** When the size is a multiple of the block size, the receiver is done before
    the sender has seen the end of its file. *)
Lemma blocks_multiple {SA SB RA RB} is_last rp total
    (jS : _ -> prog put_req Z SA) (kS : SA -> prog put_req Z RA)
    (jR : _ -> prog Z put_req SB) (kR : SB -> prog Z put_req RB) :
  total < 2 ^ 31 -> forall fuelS fuelR req rest fs size ret,
  rest <> [] -> (length rest mod CONTENT_BLOCK_SIZE = 0)%nat ->
  size + Z.of_nat (length rest) = total -> 0 <= size ->
  (length rest < fuelS)%nat -> (length rest < fuelR)%nat ->
  exists req' fuel',
    rtc step
      (Network ((send_blocks (T := copying) fuelS is_last req rest false ret ≫= jS) ≫= kS)
               ((recv_blocks fuelR fs rp size total ≫= jR) ≫= kR) [] [])
      (Network ((send_blocks (T := copying) (S fuel') is_last req' [] false 0 ≫= jS) ≫= kS)
               (jR (fappend fs rp rest, total, 1) ≫= kR) [] []).
Proof.
  intros Htot. pose proof block_size_val as [HB HB0].
  induction fuelS as [|fuelS IH]; intros fuelR req rest fs size ret Hne Hmod Hsz H0 HfS HfR; [lia|].
  destruct fuelR as [|fuelR]; [lia|]. rewrite send_blocks_eq. cbv zeta.
  set (block := take CONTENT_BLOCK_SIZE rest) in *.
  assert (Hge : (CONTENT_BLOCK_SIZE <= length rest)%nat).
  { apply Nat.Div0.div_exact in Hmod. destruct (length rest / CONTENT_BLOCK_SIZE)%nat; [|lia].
    destruct rest; [done|simpl in Hmod; lia]. }
  assert (Hbl : length block = CONTENT_BLOCK_SIZE) by (unfold block; rewrite length_take; lia).
  assert (Hcont : take (length block) (content (entry (block_req is_last req block))) = block)
    by (cbn; apply take_overwrite).
  assert (Hsplit : block ++ drop CONTENT_BLOCK_SIZE rest = rest) by apply take_drop.
  assert (Hdl : length (drop CONTENT_BLOCK_SIZE rest) = (length rest - CONTENT_BLOCK_SIZE)%nat) by apply length_drop.
  rewrite !bind_send, (proj2 (Nat.ltb_ge _ _)), andb_false_r by lia. cbv iota.
  destruct (decide (drop CONTENT_BLOCK_SIZE rest = [])) as [Hnil|Hmore].
  - destruct fuelS as [|fuelS]; [lia|]. exists (block_req is_last req block), fuelS.
    assert (block = rest) as Hbr by (rewrite <- Hsplit, Hnil, app_nil_r; done).
    eapply rtc_trans; [apply (recv_blocks_got _ _ _ _ _ _ block); done || lia|].
    rewrite Hnil, Hbr in *. rewrite (proj2 (Z.ltb_ge _ total)), Hsz by lia.
    unfold block_req at 2. cbn [need_reply with_reply].
    rewrite (proj2 (Nat.ltb_ge _ _)), andb_false_r by lia. cbn [Z.eqb negb]. head. reflexivity.
  - destruct (IH fuelR (block_req is_last req block) (drop CONTENT_BLOCK_SIZE rest) (fappend fs rp block)
                (size + Z.of_nat (length block)) 0) as (req' & fuel' & Hrun);
      [done| |lia|lia|lia|lia|].
    { rewrite Hdl. apply Nat.Div0.div_exact in Hmod. rewrite Hmod.
      replace (CONTENT_BLOCK_SIZE * (length rest / CONTENT_BLOCK_SIZE) - CONTENT_BLOCK_SIZE)%nat
        with ((length rest / CONTENT_BLOCK_SIZE - 1) * CONTENT_BLOCK_SIZE)%nat by nia.
      apply Nat.Div0.mod_mul. }
    exists req', fuel'. eapply rtc_trans; [apply (recv_blocks_got _ _ _ _ _ _ block); done || lia|].
    assert (length (drop CONTENT_BLOCK_SIZE rest) <> 0%nat) by (by destruct (drop CONTENT_BLOCK_SIZE rest)).
    rewrite (proj2 (Z.ltb_lt _ total)) by lia. unfold block_req at 2. cbn [need_reply with_reply].
    rewrite (proj2 (Nat.ltb_ge _ _)), andb_false_r by lia. cbn [Z.eqb negb]. head.
    rewrite fappend_app, Hsplit in Hrun. exact Hrun.
Qed.

(** A single regular file whose digest differs from what the receiver has. *)
Record single (src fs : fsys) (path target data : list Z) (fs2 : fsys) : Prop := Single {
  sg_name : name_ok target;
  sg_node : node_at src path = Some (Reg data);
  sg_size : Z.of_nat (length data) < 2 ^ 31;
  sg_ready : exists fs1 ret md5, create_for_put fs target = (fs1, ret) /\ ret <> -1
    /\ md5_of data = Some md5 /\ same_file fs1 target md5 = Some false
    /\ open_for_put fs1 target = (fs2, true);
}.

(** What remains of the two ends after the file. *)
Definition sender_end (x : put_req * Z) : prog put_req Z Z := let '(_, ret) := x in mret ret.

Definition receiver_end (n fuel : nat) (x : fsys * Z * bool) : receiver (fsys * Z) :=
  let '(fs, ret, has_more) := x in
  if (ret =? -1) || negb has_more then mret (fs, ret) else
  r ← recv;
  match r with
  | RecvErr _ => mret (fs, -1)
  | NoData => Crash
  | Got req => recv_files_from_put_req n fuel fs req
  end.

(** The exchange up to the first block, for any serialiser. *)
Lemma single_start {T : Transport} src dir_size file_mode readdir pfuel path target req fs data fs2 n fuel :
  single src fs path target data fs2 ->
  exists md5, let q := md5_req md5 (left_put (name_req src dir_size file_mode path target (with_files 1 0 req))) in
  md5_of data = Some md5 /\
  rtc step
    (Network (send_files_by_put_req src dir_size file_mode readdir pfuel path target req)
       (serve_put (S n) fuel fs) [] [])
    (Network
       ((send_blocks (S (length data)) true
           (with_entry (with_total (u32 (Z.of_nat (length data)))) (left_put q)) data false 0
         ≫= finish_send) ≫= sender_end)
       ((recv_blocks fuel fs2 target 0 (i32 (total_size (entry q)))
         ≫= finish_recv target md5 (i32 (total_size (entry q))) false) ≫= receiver_end n fuel) [] []).
Proof.
  intros [Hname Hn Hlen (fs1 & ret & md5 & Ecr & Eret & Hmd5 & Esame & Eop)].
  exists md5. intros q. split; [done|]. unfold send_files_by_put_req, serve_put.
  unfold is_file. rewrite Hn. apply Z.eqb_neq in Eret.
  eapply rtc_trans.
  - apply (handshake src dir_size file_mode path target data (with_files 1 0 req) fs fs1 ret md5 false fuel
             sender_end (receiver_end n fuel)
             (fun r => match r with Got req => recv_files_from_put_req (S n) fuel fs req | _ => mret (fs, -1) end)
             Hname Hn Hlen Ecr Eret Hmd5 Esame). done.
  - fold q. change (last_file (with_files 1 0 req)) with true. cbv iota.
    rewrite bind_send. to_left. cbn [send_phase]. change (RESP_CONTINUE =? RESP_OK) with false. cbv iota.
    unfold recv_phase. rewrite Eop. reflexivity.
Qed.

(** One file [/f] with the given contents, sent to [/t/f]. *)
Definition one_file (data : list Z) : fsys := Fsys {[ [47; 102] := Reg data ]} ∅.
Definition one_target : list Z := [47; 116; 47; 102].
Definition one_opened : fsys := Fsys {[ [47; 116] := Dir; one_target := Reg [] ]} ∅.

Lemma one_single data md5 :
  Z.of_nat (length data) < 2 ^ 31 -> md5_of data = Some md5 ->
  same_file (create_for_put demo_dst one_target).1 one_target md5 = Some false ->
  single (one_file data) demo_dst [47; 102] one_target data one_opened.
Proof.
  intros Hl Hmd5 Hsame. split; [split| | |].
  - apply (bool_decide_unpack _). reflexivity.
  - simpl. lia.
  - reflexivity.
  - done.
  - exists one_opened, 0, md5. split; [vm_compute; reflexivity|]. split; [done|]. split; [done|].
    split; [exact Hsame|]. vm_compute. reflexivity.
Qed.

(** A put of one file whose size is a positive multiple of the block size
    never ends: the receiver has stored the whole file and has left the
    transfer, while the sender, which has not seen the end of the file, has
    sent one more empty block that nobody reads and waits for the reply. *)
Theorem put_block_multiple_hangs src dir_size file_mode readdir pfuel path target req fs data fs2 n fuel
    (Hsingle : single src fs path target data fs2)
    (Hne : data <> []) (Hmult : (length data mod CONTENT_BLOCK_SIZE = 0)%nat)
    (Hfuel : (length data < fuel)%nat) :
  exists k last,
    this_size (entry last) = 0 /\ need_reply last = 1 /\
    every_run_ends
      (Network (send_files_by_put_req (T := copying) src dir_size file_mode readdir pfuel path target req)
         (serve_put (S n) fuel fs) [] [])
      (Network (Recv k) (Ret (fappend fs2 target data, 1)) [last] []).
Proof.
  destruct (single_start (T := copying) src dir_size file_mode readdir pfuel path target req fs data fs2 n fuel
              Hsingle) as (md5 & Hmd5 & Hstart). destruct Hsingle as [[Hnz Hl] Hn Hlen (fs1 & ret & md5' & _ & _ & _ & _ & Eop)].
  set (q := md5_req md5 _) in *.
  assert (Htot : i32 (total_size (entry q)) = Z.of_nat (length data)).
  { cbn. unfold file_size. rewrite Hn, (wrap_u_small 32) by lia. apply i32_small. unfold in_i32. lia. }
  rewrite Htot in Hstart.
  edestruct (blocks_multiple true target (Z.of_nat (length data)) finish_send sender_end
               (finish_recv target md5 (Z.of_nat (length data)) false) (receiver_end n fuel)) as (req' & fuel' & Hb);
    [exact Hlen|exact Hne|exact Hmult|apply Z.add_0_l|done|apply Nat.lt_succ_diag_r|exact Hfuel|].
  pose proof (transitivity Hstart Hb) as Hrun. clear Hstart Hb.
  cbn [finish_recv] in Hrun. rewrite Z.eqb_refl in Hrun. cbn [negb] in Hrun.
  rewrite (same_file_written fs2 target data md5) in Hrun;
    [|intros ->; simpl in Hl; lia|by eapply open_for_put_empty|done].
  rewrite send_blocks_eq in Hrun. cbv zeta in Hrun.
  replace (take CONTENT_BLOCK_SIZE []) with (@nil Z) in Hrun by (by destruct CONTENT_BLOCK_SIZE).
  assert (H0 : (length (@nil Z) <? CONTENT_BLOCK_SIZE)%nat = true) by apply Nat.ltb_lt, block_size_val.
  rewrite H0 in Hrun.
  cbn [andb mbind prog_bind mret prog_ret lift receiver_end] in Hrun.
  change ((1 =? -1) || negb false) with true in Hrun. cbv iota in Hrun.
  eexists _, (block_req true req' []). split; [done|].
  split; [unfold block_req; by rewrite H0|].
  apply run_ends; [|apply final_left_waits].
  eapply rtc_r; [exact Hrun|]. apply (left_sends _ _ _ [] []).
Qed.

Lemma put_block_multiple_hangs_witness :
  exists k last,
    this_size (entry last) = 0 /\ need_reply last = 1 /\
    every_run_ends
      (Network (send_files_by_put_req (T := copying) (one_file (replicate 2048 7)) 4096 (fun _ => 420)
                  demo_readdir 3 [47; 102] one_target demo_req)
         (serve_put 1 2049 demo_dst) [] [])
      (Network (Recv k) (Ret (fappend one_opened one_target (replicate 2048 7), 1)) [last] []).
Proof.
  apply (put_block_multiple_hangs (one_file (replicate 2048 7)) 4096 (fun _ => 420) demo_readdir 3 [47; 102]
           one_target demo_req demo_dst (replicate 2048 7) one_opened 0 2049).
  - eapply (one_single _ (default [] (md5_of (replicate 2048 7)))); vm_compute; reflexivity.
  - done.
  - vm_compute. reflexivity.
  - rewrite length_replicate. lia.
Defined.

Lemma send_blocks_eof {T : Transport} fuel is_last req rest ret :
  send_blocks fuel is_last req rest true ret = mret (req, ret, true).
Proof. by destruct fuel. Qed.

Lemma small_swapped n : 0 < n < 2048 -> i32 (swap_u32 n) < 0 \/ n < i32 (swap_u32 n).
Proof.
  intros Hn.
  assert (Hall : forallb (fun k => let z := Z.of_nat k in
      (i32 (swap_u32 z) <? 0) || (z <? i32 (swap_u32 z))) (seq 1 2047) = true) by (vm_compute; reflexivity).
  rewrite forallb_forall in Hall. specialize (Hall (Z.to_nat n)). cbv zeta in Hall.
  rewrite Z2Nat.id in Hall by lia. rewrite orb_true_iff, !Z.ltb_lt in Hall. apply Hall.
  apply in_seq. lia.
Qed.

(** With the raw serialiser, which reverses the integers of the request in
    place, no put of a single file of 1 to 2047 bytes succeeds: the size that
    goes with the digest arrives with its bytes reversed, so the receiver,
    having written the whole file, either waits for ever for the rest or
    reports an error; the sender reports success. *)
Theorem raw_put_fails src dir_size file_mode readdir pfuel path target req fs data fs2 n fuel
    (Hsingle : single src fs path target data fs2)
    (Hsize : (0 < length data < 2048)%nat) (Hfuel : (1 < fuel)%nat) :
  exists r, match r with Ret (_, ret) => ret = -1 | Recv _ => True | _ => False end /\
    every_run_ends
      (Network (send_files_by_put_req (T := raw) src dir_size file_mode readdir pfuel path target req)
         (serve_put (S n) fuel fs) [] [])
      (Network (Ret 1) r [] []).
Proof.
  destruct (single_start (T := raw) src dir_size file_mode readdir pfuel path target req fs data fs2 n fuel
              Hsingle) as (md5 & Hmd5 & Hstart). destruct Hsingle as [[Hnz Hl] Hn Hlen _].
  pose proof block_size_val as [HB HB0].
  set (q := md5_req md5 _) in *. set (total := i32 (total_size (entry q))) in *.
  assert (Htot : total < 0 \/ Z.of_nat (length data) < total).
  { unfold total, q. cbn. unfold file_size. rewrite Hn, (wrap_u_small 32) by lia. apply small_swapped. lia. }
  clearbody total. set (q2 := with_entry _ (left_put q)) in *. clearbody q2. clear q.
  destruct fuel as [|[|fuel]]; [lia|lia|].
  cbn [send_blocks] in Hstart.
  replace (take CONTENT_BLOCK_SIZE data) with data in Hstart by (symmetry; apply take_ge; lia).
  rewrite (proj2 (Nat.ltb_lt (length data) _)) in Hstart by lia. cbn [andb] in Hstart.
  cbn [mbind prog_bind mret prog_ret Process.send Process.recv
       send_file_content_by_put_req send_trans_entry_by_put_req] in Hstart.
  unfold left_put at 1, raw in Hstart. cbn [need_reply with_reply] in Hstart.
  change (negb (swap_i32 1 =? 0)) with true in Hstart. cbv iota in Hstart.
  set (b := with_reply 1 _) in *.
  pose proof (transitivity Hstart (recv_blocks_got (S fuel) fs2 target 0 total b data eq_refl ltac:(lia)
    (take_overwrite _ _) ltac:(lia) ltac:(lia) _ _ _ _ _ _)) as Hrun. clear Hstart.
  change (need_reply b) with 1 in Hrun. change (negb (1 =? 0)) with true in Hrun. cbv iota in Hrun.
  cbn [mbind prog_bind mret prog_ret Process.send] in Hrun.
  pose proof (transitivity Hrun (pass_left _ _ _)) as Hrun2. clear Hrun.
  cbn beta in Hrun2. change (negb (RESP_OK =? RESP_OK)) with false in Hrun2. cbv iota in Hrun2.
  rewrite send_blocks_eof, Z.add_0_l in Hrun2.
  cbn [mbind prog_bind mret prog_ret finish_send sender_end negb] in Hrun2.
  destruct (Z.ltb_spec (Z.of_nat (length data)) total) as [Hlt|Hge].
  - cbn [recv_blocks mbind prog_bind mret prog_ret Process.recv] in Hrun2.
    eexists (Recv _). split; [done|]. apply run_ends; [exact Hrun2|apply final_right_waits].
  - cbn [mbind prog_bind mret prog_ret finish_recv] in Hrun2.
    rewrite (proj2 (Z.eqb_neq _ total)) in Hrun2 by lia.
    exists (Ret (fappend fs2 target data, -1)). split; [done|]. apply run_ends; [exact Hrun2|apply final_done].
Qed.

Lemma raw_put_fails_witness :
  exists r, match r with Ret (_, ret) => ret = -1 | Recv _ => True | _ => False end /\
    every_run_ends
      (Network (send_files_by_put_req (T := raw) (one_file [104; 105]) 4096 (fun _ => 420)
                  demo_readdir 3 [47; 102] one_target demo_req)
         (serve_put 1 2 demo_dst) [] [])
      (Network (Ret 1) r [] []).
Proof.
  apply (raw_put_fails (one_file [104; 105]) 4096 (fun _ => 420) demo_readdir 3 [47; 102]
           one_target demo_req demo_dst [104; 105] one_opened 0 2).
  - eapply (one_single _ (default [] (md5_of [104; 105]))); vm_compute; reflexivity.
  - simpl. lia.
  - lia.
Defined.
