(* ===== verification/FileGet.v ===== *)
(** * Sending and receiving files with get responses
    (src/file_send.c, src/file_recv.c)

    The other direction: the server sends [struct get_resp] packets and the
    client, which asked for a path, replies with status codes.  The conventions
    are those of FilePut. *)

From S2P Require Import Prelude CStr Process FileSystem FilePut.

Definition RESP_UNKNOWN_FILE_TYPE : Z := 17.

(** The fields of [struct get_resp] that a transfer uses. *)
Record get_resp := GetResp {
  gr_status : Z;
  gr_flags : Z;
  gr_total_files : Z;
  gr_file_idx : Z;
  gr_entry : trans_entry;
  gr_need_reply : Z;
}.

Definition gr_with_entry (f : trans_entry -> trans_entry) (r : get_resp) : get_resp :=
  GetResp (gr_status r) (gr_flags r) (gr_total_files r) (gr_file_idx r) (f (gr_entry r)) (gr_need_reply r).
Definition gr_with_idx (n i : Z) (r : get_resp) : get_resp :=
  GetResp (gr_status r) (gr_flags r) n i (gr_entry r) (gr_need_reply r).
Definition gr_with_reply (b : Z) (r : get_resp) : get_resp :=
  GetResp (gr_status r) (gr_flags r) (gr_total_files r) (gr_file_idx r) (gr_entry r) b.
Definition gr_with_status (code flags : Z) (r : get_resp) : get_resp :=
  GetResp code flags (gr_total_files r) (gr_file_idx r) (gr_entry r) (gr_need_reply r).

(** [left_get resp] is the caller's structure after a send. *)
Class GetTransport := left_get : get_resp -> get_resp.
Definition get_copying : GetTransport := fun resp => resp.

(** ** The sender *)

Section Sender.
Context {T : GetTransport} (src : fsys) (dir_size : Z) (file_mode : list Z -> Z).
Context (readdir : list Z -> list (list Z)).

Abbreviation sender := (prog get_resp Z).

Definition send_get_resp (resp : get_resp) (code flags : Z) : sender get_resp :=
  let resp := gr_with_status code flags resp in
  _ ← send resp; mret (left_get resp).

Definition send_file_name_by_get_resp (path fname : list Z) (resp : get_resp) (flags : Z)
    : sender (get_resp * Z) :=
  let type := if is_dir src path then FILE_TYPE_DIR else FILE_TYPE_FILE in
  let resp := gr_with_entry (fun e =>
    with_name type (file_mode path) (Z.of_nat (length fname))
      (strncpy (content e) fname FILE_NAME_MAX_LEN) e) resp in
  resp ← send_get_resp (gr_with_reply 1 resp) RESP_OK flags;
  r ← recv;
  match r with
  | RecvErr _ => mret (resp, -1)
  | NoData => Crash
  | Got status => mret (resp, if negb (status =? RESP_OK) then -1 else 1)
  end.

(** Calling it on a directory fails an assertion. *)
Definition send_file_md5_by_get_resp (path : list Z) (resp : get_resp) : sender (get_resp * Z) :=
  if is_dir src path then Crash else
  let resp := gr_with_entry (with_total (u32 (file_size dir_size src path))) resp in
  match fopen_r src path with
  | None => mret (resp, -1)
  | Some data =>
      md5 ← lift (md5_of data);
      let resp := gr_with_entry (fun e =>
        with_content (Z.of_nat (length md5)) (strcpy (content e) md5) e) resp in
      resp ← send_get_resp (gr_with_reply 1 resp) RESP_OK REQ_RESP_FLAG_NONE;
      mret (resp, 0)
  end.

(** The [do] loop; the result is the structure and [feof(fp)]. *)
Fixpoint send_get_blocks (fuel : nat) (is_last : bool) (resp : get_resp) (rest : list Z) (read_size : Z)
    : sender (get_resp * bool) :=
  match fuel with
  | O => Crash
  | S fuel' =>
      let block := take CONTENT_BLOCK_SIZE rest in
      let rest := drop CONTENT_BLOCK_SIZE rest in
      let eof := (length block <? CONTENT_BLOCK_SIZE)%nat in
      let resp := gr_with_entry (fun e =>
        with_content (Z.of_nat (length block)) (overwrite (content e) block) e) resp in
      let read_size := read_size + Z.of_nat (length block) in
      let flags := if is_last && (read_size =? total_size (gr_entry resp))
                   then REQ_RESP_FLAG_STOP else REQ_RESP_FLAG_NONE in
      resp ← send_get_resp (gr_with_reply 0 resp) RESP_OK flags;
      if read_size <? total_size (gr_entry resp)
      then send_get_blocks fuel' is_last resp rest read_size
      else mret (resp, eof)
  end.

Definition send_file_by_get_resp (path fname : list Z) (resp : get_resp) : sender (get_resp * Z) :=
  let is_last := gr_file_idx resp =? i32 (gr_total_files resp - 1) in
  let need_stop := is_last && is_dir src path in
  if is_dir src path then
    send_file_name_by_get_resp path fname resp (if need_stop then REQ_RESP_FLAG_STOP else REQ_RESP_FLAG_NONE)
  else
    '(resp, ret) ← send_file_name_by_get_resp path fname resp REQ_RESP_FLAG_NONE;
    if ret =? -1 then mret (resp, -1) else
    '(resp, ret) ← send_file_md5_by_get_resp path resp;
    if ret =? -1 then mret (resp, -1) else
    r ← recv;
    match r with
    | RecvErr _ => mret (resp, -1)
    | NoData => Crash
    | Got status =>
        if status =? RESP_OK then mret (resp, 0) else
        match fopen_r src path with
        | None => mret (resp, -1)
        | Some data =>
            let resp := gr_with_entry (with_total (u32 (file_size dir_size src path))) resp in
            '(resp, eof) ← send_get_blocks (S (length data)) is_last resp data 0;
            mret (resp, if negb eof then -1 else 0)
        end
    end.

(** A file that fails is passed over. *)
Fixpoint send_get_entries (entries : list (list Z * list Z)) (resp : get_resp) : sender Z :=
  match entries with
  | [] => mret 0
  | (abs_path, rel_path) :: entries =>
      '(resp, _) ← send_file_by_get_resp abs_path rel_path resp;
      send_get_entries entries (gr_with_idx (gr_total_files resp) (i32 (gr_file_idx resp + 1)) resp)
  end.

Definition send_dir_by_get_resp (fuel : nat) (path : list Z) (resp : get_resp) : sender Z :=
  file_list ← lift (get_path_entry_list src readdir fuel path);
  match file_list with
  | None => mret (-1)
  | Some entries => send_get_entries entries (gr_with_idx (Z.of_nat (length entries)) 0 resp)
  end.

Definition send_files_by_get_resp (fuel : nat) (path : list Z) (resp : get_resp) : sender Z :=
  if is_file src path then
    let '(path, fname) := basename path in
    '(_, ret) ← send_file_by_get_resp path fname (gr_with_idx 1 0 resp); mret ret
  else send_dir_by_get_resp fuel path resp.
End Sender.

(** ** The receiver *)

Abbreviation get_receiver := (prog Z get_resp).

Definition path_join (dir fname : list Z) : list Z := dir ++ slash :: fname.

Fixpoint recv_get_blocks (fuel : nat) (fs : fsys) (rp : list Z) (recv_size total : Z)
    : get_receiver (fsys * Z * Z) :=
  match fuel with
  | O => Crash
  | S fuel' =>
      r ← recv;
      match r with
      | NoData => Crash
      | RecvErr _ => mret (fs, recv_size, -1)
      | Got resp =>
          let n := this_size (gr_entry resp) in
          if negb ((0 <=? n) && (n <=? Z.of_nat CONTENT_BLOCK_SIZE)) then Crash else
          let fs := fappend fs rp (take (Z.to_nat n) (content (gr_entry resp))) in
          ret ← (if negb (gr_need_reply resp =? 0) then _ ← send RESP_OK; mret 0 else mret 1);
          let recv_size := recv_size + n in
          if recv_size <? total then recv_get_blocks fuel' fs rp recv_size total
          else mret (fs, recv_size, ret)
      end
  end.

Definition recv_file_from_get_resp (fuel : nat) (fs : fsys) (rp : list Z) (type : Z) : get_receiver (fsys * Z) :=
  if type =? FILE_TYPE_DIR then
    let '(fs, ret) := if file_existed fs rp then (fs, 0) else mkdirp_all fs rp in
    if ret =? -1 then _ ← send RESP_INTERNAL_ERR; mret (fs, -1) else
    _ ← send RESP_OK; mret (fs, ret)
  else if type =? FILE_TYPE_FILE then
    let '(fs, ret) := if file_existed fs rp then (fs, 0) else create_new_file_with_parent fs rp in
    if ret =? -1 then _ ← send RESP_INTERNAL_ERR; mret (fs, -1) else
    _ ← send RESP_OK;
    if negb (file_existed fs rp && is_file fs rp) then Crash else
    r ← recv;
    match r with
    | RecvErr _ => mret (fs, -1)
    | NoData => Crash
    | Got resp =>
        let total := total_size (gr_entry resp) in
        let md5 := c_str (content (gr_entry resp)) in
        if (MD5_STR_LEN <=? length md5)%nat then Crash else
        same ← lift (same_file fs rp md5);
        if (same : bool) then _ ← send RESP_OK; mret (fs, 1) else
        _ ← send RESP_CONTINUE;
        match fopen_w fs rp with
        | None => _ ← send RESP_INTERNAL_ERR; mret (fs, -1)
        | Some fs =>
            '(fs, recv_size, ret) ← recv_get_blocks fuel fs rp 0 total;
            if recv_size <? total then mret (fs, -1) else
            same ← lift (same_file fs rp md5);
            if (same : bool) then mret (fs, ret) else mret (fs, -1)
        end
    end
  else _ ← send RESP_UNKNOWN_FILE_TYPE; mret (fs, -1).

(** The loop over the files of a directory, with [recv_count] files done. *)
Fixpoint recv_get_files (files fuel : nat) (fs : fsys) (path : list Z) (total_files recv_count : Z) (resp : get_resp)
    : get_receiver (fsys * Z) :=
  match files with
  | O => Crash
  | S files' =>
      let name := c_str (content (gr_entry resp)) in
      if (CONTENT_BLOCK_SIZE <=? length name)%nat then Crash else
      '(fs, ret) ← recv_file_from_get_resp fuel fs (path_join path name) (e_type (gr_entry resp));
      if ret =? -1 then mret (fs, -1) else
      let recv_count := i32 (recv_count + 1) in
      if recv_count =? total_files then mret (fs, 0) else
      r ← recv;
      match r with
      | RecvErr _ => mret (fs, -1)
      | NoData => Crash
      | Got resp =>
          if recv_count <? total_files then recv_get_files files' fuel fs path total_files recv_count resp
          else mret (fs, 0)
      end
  end.

Definition recv_files_from_get_resp (files fuel : nat) (fs : fsys) (path : list Z) : get_receiver (fsys * Z) :=
  r ← recv;
  match r with
  | RecvErr _ => mret (fs, -1)
  | NoData => Crash
  | Got resp =>
      let total_files := gr_total_files resp in
      if negb (0 <? total_files) then mret (fs, -1) else
      if (total_files =? 1) && (e_type (gr_entry resp) =? FILE_TYPE_FILE) then
        let name := c_str (content (gr_entry resp)) in
        if (CONTENT_BLOCK_SIZE <=? length name)%nat then Crash else
        let rp := if is_dir fs path then path_join path name else path in
        recv_file_from_get_resp fuel fs rp (e_type (gr_entry resp))
      else if negb (is_dir fs path) then mret (fs, -1)
      else recv_get_files files fuel fs path total_files 0 resp
  end.
