(* ===== verification/FileGetRun.v ===== *)
(** * Transfers by get response run to the end

    The counterpart of FilePutRun.  Here the sender counts what it has read, so
    every size is carried; only its return value depends on the size. *)

From Stdlib Require Import FunctionalExtensionality.
From stdpp Require Import relations.
From S2P Require Import Prelude CStr Md5 Process FileSystem FilePut FilePutRun FileGet.

#[local] Opaque CONTENT_BLOCK_SIZE BLOCK_SIZE.

Lemma bind_ret {O I R} (p : prog O I R) : (p ≫= mret) = p.
Proof.
  induction p as [r|o k IH|k IH|]; [done|by rewrite bind_send, IH| |done].
  rewrite bind_recv. f_equal. apply functional_extensionality, IH.
Qed.

(** ** Installing without a network *)

Definition install_get (fs : fsys) (rp : list Z) (data : option (list Z)) : option fsys :=
  match data with
  | None =>
      let '(fs, ret) := if file_existed fs rp then (fs, 0) else mkdirp_all fs rp in
      if ret =? -1 then None else Some fs
  | Some data =>
      let '(fs, ret) := if file_existed fs rp then (fs, 0) else create_new_file_with_parent fs rp in
      if (ret =? -1) || negb (file_existed fs rp && is_file fs rp) then None else
      md5 ← md5_of data;
      same ← same_file fs rp md5;
      if (same : bool) then Some fs else
      fs ← fopen_w fs rp; Some (fappend fs rp data)
  end.

(** ** The blocks *)

(** [feof(fp)] after a file of [n] bytes has been read in blocks. *)
Definition short_end (n : nat) : bool := (n =? 0)%nat || negb (n mod CONTENT_BLOCK_SIZE =? 0)%nat.

Lemma short_end_small n : (n < CONTENT_BLOCK_SIZE)%nat -> short_end n = true.
Proof.
  intros H. unfold short_end. destruct (Nat.eqb_spec n 0); [done|].
  rewrite Nat.mod_small by done. by rewrite (proj2 (Nat.eqb_neq n 0)).
Qed.

Lemma short_end_drop n : (CONTENT_BLOCK_SIZE < n)%nat -> short_end (n - CONTENT_BLOCK_SIZE) = short_end n.
Proof.
  pose proof block_size_val as [_ HB]. intros H. unfold short_end.
  rewrite (proj2 (Nat.eqb_neq n 0)), (proj2 (Nat.eqb_neq (n - _) 0)) by lia.
  replace n with (n - CONTENT_BLOCK_SIZE + 1 * CONTENT_BLOCK_SIZE)%nat at 2 by lia.
  by rewrite Nat.Div0.mod_add.
Qed.

Ltac ghead := cbn [mbind prog_bind mret prog_ret Process.send Process.recv lift send_get_resp].

Definition get_block_resp (is_last : bool) (resp : get_resp) (block : list Z) (read_size : Z) : get_resp :=
  let resp := gr_with_entry (fun e =>
    with_content (Z.of_nat (length block)) (overwrite (content e) block) e) resp in
  gr_with_status RESP_OK
    (if is_last && (read_size =? total_size (gr_entry resp)) then REQ_RESP_FLAG_STOP else REQ_RESP_FLAG_NONE)
    (gr_with_reply 0 resp).

(** One block from the sender to the receiver. *)
Lemma get_block_step {SA SB RA RB} is_last rp total
    (jS : _ -> prog get_resp Z SA) (kS : SA -> prog get_resp Z RA)
    (jR : _ -> prog Z get_resp SB) (kR : SB -> prog Z get_resp RB) fuelS fuelR resp rest fs size :
  total_size (gr_entry resp) = total ->
  let block := take CONTENT_BLOCK_SIZE rest in
  let size' := size + Z.of_nat (length block) in
  let q := get_block_resp is_last resp block size' in
  rtc step
    (Network ((send_get_blocks (T := get_copying) (S fuelS) is_last resp rest size ≫= jS) ≫= kS)
             ((recv_get_blocks (S fuelR) fs rp size total ≫= jR) ≫= kR) [] [])
    (Network
       (((if size' <? total
          then send_get_blocks (T := get_copying) fuelS is_last q (drop CONTENT_BLOCK_SIZE rest) size'
          else mret (q, (length block <? CONTENT_BLOCK_SIZE)%nat)) ≫= jS) ≫= kS)
       (((if size' <? total then recv_get_blocks fuelR (fappend fs rp block) rp size' total
          else mret (fappend fs rp block, size', 1)) ≫= jR) ≫= kR) [] []).
Proof.
  intros Htot block size' q. pose proof block_size_val as [HB HB0].
  assert (Hbl : (length block <= CONTENT_BLOCK_SIZE)%nat) by (unfold block; rewrite length_take; lia).
  cbn [send_get_blocks recv_get_blocks]. fold block. ghead. fold size'.
  fold (get_block_resp is_last resp block size'). fold q.
  eapply rtc_trans; [apply pass_right|]. ghead.
  replace (this_size (gr_entry q)) with (Z.of_nat (length block)) by done.
  replace (content (gr_entry q)) with (overwrite (content (gr_entry resp)) block) by done.
  rewrite (proj2 (Z.leb_le 0 _)), (proj2 (Z.leb_le _ (Z.of_nat CONTENT_BLOCK_SIZE))) by lia. cbn [andb negb].
  rewrite Nat2Z.id, take_overwrite. change (gr_need_reply q) with 0. cbn [Z.eqb negb]. ghead. fold size'.
  unfold left_get, get_copying. replace (total_size (gr_entry q)) with total by (by rewrite <- Htot).
  destruct (size' <? total); reflexivity.
Qed.

Lemma get_blocks_run {SA SB RA RB} is_last rp total
    (jS : _ -> prog get_resp Z SA) (kS : SA -> prog get_resp Z RA)
    (jR : _ -> prog Z get_resp SB) (kR : SB -> prog Z get_resp RB) :
  forall fuelS fuelR resp rest fs size,
  total_size (gr_entry resp) = total -> size + Z.of_nat (length rest) = total ->
  (length rest < fuelS)%nat -> (length rest < fuelR)%nat ->
  exists resp',
    gr_file_idx resp' = gr_file_idx resp /\ gr_total_files resp' = gr_total_files resp /\
    rtc step
      (Network ((send_get_blocks (T := get_copying) fuelS is_last resp rest size ≫= jS) ≫= kS)
               ((recv_get_blocks fuelR fs rp size total ≫= jR) ≫= kR) [] [])
      (Network (jS (resp', short_end (length rest)) ≫= kS) (jR (fappend fs rp rest, total, 1) ≫= kR) [] []).
Proof.
  pose proof block_size_val as [HB HB0].
  induction fuelS as [|fuelS IH]; intros fuelR resp rest fs size Htot Hsz HfS HfR; [lia|].
  destruct fuelR as [|fuelR]; [lia|].
  pose proof (get_block_step is_last rp total jS kS jR kR fuelS fuelR resp rest fs size Htot) as Hstep.
  cbv zeta in Hstep. set (block := take CONTENT_BLOCK_SIZE rest) in *.
  assert (Hbl : length block = Nat.min CONTENT_BLOCK_SIZE (length rest)) by apply length_take.
  assert (Hsplit : block ++ drop CONTENT_BLOCK_SIZE rest = rest) by apply take_drop.
  assert (Hdl : length (drop CONTENT_BLOCK_SIZE rest) = (length rest - CONTENT_BLOCK_SIZE)%nat) by apply length_drop.
  set (q := get_block_resp is_last resp block _) in *.
  destruct (Nat.le_gt_cases (length rest) CONTENT_BLOCK_SIZE) as [Hle|Hgt].
  - assert (block = rest) as Hbr by (apply take_ge; lia).
    rewrite (proj2 (Z.ltb_ge _ total)) in Hstep by lia. exists q. do 2 (split; [done|]).
    assert (Hend : (length block <? CONTENT_BLOCK_SIZE)%nat = short_end (length rest)).
    { rewrite Hbr. destruct (Nat.ltb_spec (length rest) CONTENT_BLOCK_SIZE); [by rewrite short_end_small|].
      replace (length rest) with CONTENT_BLOCK_SIZE by lia. unfold short_end.
      rewrite Nat.Div0.mod_same. by rewrite (proj2 (Nat.eqb_neq _ 0)) by lia. }
    assert (Happ : fappend fs rp block = fappend fs rp rest) by by rewrite Hbr.
    assert (Hend' : size + Z.of_nat (length block) = total) by (rewrite Hbr; done).
    rewrite Hend, Happ, Hend' in Hstep. exact Hstep.
  - rewrite (proj2 (Z.ltb_lt _ total)) in Hstep by lia.
    destruct (IH fuelR q (drop CONTENT_BLOCK_SIZE rest) (fappend fs rp block) (size + Z.of_nat (length block)))
      as (resp' & Hi & Hf & Hrun); [done|lia|lia|lia|].
    exists resp'. split; [done|]. split; [done|].
    rewrite fappend_app, Hsplit, Hdl, short_end_drop in Hrun by lia. exact (transitivity Hstep Hrun).
Qed.

(** ** One file *)

Lemma mkdirp_ret fuel fs p : (mkdirp fuel fs p).2 = 0 \/ (mkdirp fuel fs p).2 = -1.
Proof.
  destruct fuel as [|fuel]; cbn [mkdirp]; [by right|]. destruct (path_normalize p); [|by right].
  destruct (match match strrchr l slash with Some (pre, _) => pre | None => [] end with
            | [] => (fs, 0) | _ => _ end) as [fs1 rc].
  destruct (negb (rc =? 0)); [by right|]. destruct (mkdir fs1 l) as [fs2 []]; cbn; auto.
Qed.

Lemma mkdir_ret fs p fs1 ret :
  (if file_existed fs p then (fs, 0) else mkdirp_all fs p) = (fs1, ret) -> ret <> -1 -> 0 <= ret.
Proof.
  destruct (file_existed fs p); [by intros [= _ <-]|]. intros E Hret. unfold mkdirp_all in E.
  pose proof (mkdirp_ret (S (length p)) fs p) as H. rewrite E in H. cbn in H. lia.
Qed.

Section Files.
Context (src : fsys) (dir_size : Z) (file_mode : list Z -> Z) (readdir : list Z -> list (list Z)).

Definition get_name_resp (path fname : list Z) (resp : get_resp) (flags : Z) : get_resp :=
  gr_with_status RESP_OK flags
    (gr_with_reply 1
      (gr_with_entry (fun e =>
         with_name (if is_dir src path then FILE_TYPE_DIR else FILE_TYPE_FILE) (file_mode path)
           (Z.of_nat (length fname)) (strncpy (content e) fname FILE_NAME_MAX_LEN) e) resp)).

Definition get_md5_resp (n : Z) (md5 : list Z) (resp : get_resp) : get_resp :=
  gr_with_status RESP_OK REQ_RESP_FLAG_NONE
    (gr_with_reply 1
      (gr_with_entry (fun e => with_content (Z.of_nat (length md5)) (strcpy (content e) md5) e)
        (gr_with_entry (with_total (u32 n)) resp))).

Lemma get_name_resp_path path fname resp fl : name_ok fname ->
  c_str (content (gr_entry (get_name_resp path fname resp fl))) = fname.
Proof. intros [Hn Hl]. apply c_str_strncpy; [done|unfold FILE_NAME_MAX_LEN; lia]. Qed.

(** A file that can be asked for. *)
Record offers (path fname : list Z) (d : option (list Z)) : Prop := Offers {
  off_name : name_ok fname;
  off_node : node_at src path = Some (match d with Some data => Reg data | None => Dir end);
  off_size : forall data, d = Some data -> Z.of_nat (length data) < 2 ^ 31;
}.

(** The two ends after the digest has been sent. *)
Definition get_finish_send (x : get_resp * bool) : prog get_resp Z (get_resp * Z) :=
  let '(resp, eof) := x in mret (resp, if negb eof then -1 else 0).

Definition get_send_phase (data : list Z) (is_last : bool) (resp : get_resp) (r : received Z)
    : prog get_resp Z (get_resp * Z) :=
  match r with
  | RecvErr _ => mret (resp, -1)
  | NoData => Crash
  | Got status =>
      if status =? RESP_OK then mret (resp, 0)
      else send_get_blocks (T := get_copying) (S (length data)) is_last
             (gr_with_entry (with_total (u32 (Z.of_nat (length data)))) resp) data 0 ≫= get_finish_send
  end.

Definition get_finish_recv (rp md5 : list Z) (total : Z) (x : fsys * Z * Z) : get_receiver (fsys * Z) :=
  let '(fs, recv_size, ret) := x in
  if recv_size <? total then mret (fs, -1) else
  same ← lift (same_file fs rp md5);
  if (same : bool) then mret (fs, ret) else mret (fs, -1).

Definition get_recv_phase (fuel : nat) (fs : fsys) (rp md5 : list Z) (total : Z) : get_receiver (fsys * Z) :=
  match fopen_w fs rp with
  | None => _ ← send RESP_INTERNAL_ERR; mret (fs, -1)
  | Some fs => recv_get_blocks fuel fs rp 0 total ≫= get_finish_recv rp md5 total
  end.

(** What the receiver of a name does next. *)
Definition takes (fuel : nat) (fs : fsys) (rp path fname : list Z) (n : Z)
    {RB} (kR : fsys * Z -> get_receiver RB) (kk : received get_resp -> get_receiver RB) : Prop :=
  forall q, c_str (content (gr_entry q)) = fname -> gr_total_files q = n ->
    e_type (gr_entry q) = (if is_dir src path then FILE_TYPE_DIR else FILE_TYPE_FILE) ->
    kk (Got q) = recv_file_from_get_resp fuel fs rp (e_type (gr_entry q)) ≫= kR.

Lemma get_handshake {RA RB} path fname rp data resp fs fs1 ret md5 same fuel
    (kS : _ -> prog get_resp Z RA) (kR : _ -> prog Z get_resp RB) kk :
  offers path fname (Some data) ->
  (if file_existed fs rp then (fs, 0) else create_new_file_with_parent fs rp) = (fs1, ret) ->
  (ret =? -1) = false -> negb (file_existed fs1 rp && is_file fs1 rp) = false ->
  md5_of data = Some md5 -> same_file fs1 rp md5 = Some same ->
  takes fuel fs rp path fname (gr_total_files resp) kR kk ->
  let q := get_md5_resp (Z.of_nat (length data)) md5 (get_name_resp path fname resp REQ_RESP_FLAG_NONE) in
  rtc step
    (Network (send_file_by_get_resp (T := get_copying) src dir_size file_mode path fname resp ≫= kS) (Recv kk) [] [])
    (Network (Recv (fun r => get_send_phase data (gr_file_idx resp =? i32 (gr_total_files resp - 1)) q r ≫= kS))
       ((if same then Send RESP_OK (mret (fs1, 1))
         else Send RESP_CONTINUE (get_recv_phase fuel fs1 rp md5 (Z.of_nat (length data)))) ≫= kR) [] []).
Proof.
  intros [Hname Hn Hsz] Ecr Eret Eex Hmd5 Esame Hkk. specialize (Hsz data eq_refl).
  assert (Hd : is_dir src path = false) by (unfold is_dir; by rewrite Hn).
  assert (Hr : fopen_r src path = Some data) by (unfold fopen_r; by rewrite Hn).
  assert (Hs : file_size dir_size src path = Z.of_nat (length data)) by (unfold file_size; by rewrite Hn).
  destruct (md5_of_spec data) as (s & Hs' & Hm32 & Hmz). rewrite Hmd5 in Hs'. injection Hs' as <-.
  set (q1 := get_name_resp path fname resp REQ_RESP_FLAG_NONE).
  assert (Hq : kk (Got q1) = recv_file_from_get_resp fuel fs rp (e_type (gr_entry q1)) ≫= kR)
    by (apply Hkk; [by apply get_name_resp_path|done|done]).
  replace (e_type (gr_entry q1)) with FILE_TYPE_FILE in Hq by (unfold q1; cbn; by rewrite Hd).
  intros q. assert (Hmd : c_str (content (gr_entry q)) = md5) by by apply c_str_strcpy.
  assert (Htot : total_size (gr_entry q) = Z.of_nat (length data)) by (apply (wrap_u_small 32); lia).
  unfold send_file_by_get_resp, send_file_name_by_get_resp. rewrite Hd. ghead.
  replace (gr_with_status RESP_OK REQ_RESP_FLAG_NONE _) with q1 by (unfold q1, get_name_resp; by rewrite Hd).
  eapply rtc_trans; [apply pass_right|]. rewrite Hq. unfold recv_file_from_get_resp.
  change (FILE_TYPE_FILE =? FILE_TYPE_DIR) with false. change (FILE_TYPE_FILE =? FILE_TYPE_FILE) with true.
  cbv iota. rewrite Ecr, Eret. ghead. rewrite Eex. eapply rtc_trans; [apply pass_left|]. ghead.
  change (negb (RESP_OK =? RESP_OK)) with false. change (1 =? -1) with false. cbv iota.
  unfold send_file_md5_by_get_resp. rewrite Hd, Hr, Hmd5, Hs. ghead. unfold left_get, get_copying.
  fold (get_md5_resp (Z.of_nat (length data)) md5 q1). fold q.
  eapply rtc_trans; [apply pass_right|]. ghead. rewrite Hmd, Hm32, Esame, Htot.
  change (MD5_STR_LEN <=? 32)%nat with false. change (0 =? -1) with false. cbv iota. ghead.
  destruct same; reflexivity.
Qed.

(** Whether the receiver finds, or has just created, a file with this digest. *)
Definition up_to_date (fs : fsys) (rp data : list Z) : bool :=
  let '(fs, _) := if file_existed fs rp then (fs, 0) else create_new_file_with_parent fs rp in
  default false (md5 ← md5_of data; same_file fs rp md5).

(** What the sender reports for one file: -1 for blocks sent to a full end. *)
Definition get_ret (fs : fsys) (rp : list Z) (d : option (list Z)) : Z :=
  match d with
  | None => 1
  | Some data => if up_to_date fs rp data || short_end (length data) then 0 else -1
  end.

Lemma get_item_run {RA RB} path fname rp d resp fs fs' fuel
    (kS : _ -> prog get_resp Z RA) (kR : _ -> prog Z get_resp RB) kk :
  offers path fname d -> (forall data, d = Some data -> (length data < fuel)%nat) ->
  rp <> [] -> install_get fs rp d = Some fs' ->
  takes fuel fs rp path fname (gr_total_files resp) kR kk ->
  exists resp' ret2, gr_file_idx resp' = gr_file_idx resp /\ gr_total_files resp' = gr_total_files resp
    /\ 0 <= ret2 /\
  rtc step
    (Network (send_file_by_get_resp (T := get_copying) src dir_size file_mode path fname resp ≫= kS) (Recv kk) [] [])
    (Network (kS (resp', get_ret fs rp d)) (kR (fs', ret2)) [] []).
Proof.
  intros Hoff Hf Hrp Hi Hkk. destruct d as [data|].
  - specialize (Hf data eq_refl). destruct (md5_of_spec data) as (md5 & Hmd5 & _ & _).
    unfold install_get in Hi.
    destruct (if file_existed fs rp then (fs, 0) else create_new_file_with_parent fs rp) as [fs1 ret] eqn:Ecr.
    destruct (ret =? -1) eqn:Eret; [done|]. cbn [orb] in Hi.
    destruct (negb (file_existed fs1 rp && is_file fs1 rp)) eqn:Eex; [done|].
    rewrite Hmd5 in Hi. cbn [mbind option_bind] in Hi.
    destruct (same_file fs1 rp md5) as [same|] eqn:Esame; [|done]. cbn [mbind option_bind] in Hi.
    assert (Hup : up_to_date fs rp data = same).
    { unfold up_to_date. rewrite Ecr, Hmd5. cbn [mbind option_bind]. by rewrite Esame. }
    unfold get_ret. rewrite Hup.
    pose proof (get_handshake path fname rp data resp fs fs1 ret md5 same fuel kS kR kk
                  Hoff Ecr Eret Eex Hmd5 Esame Hkk) as Hrun. cbv zeta in Hrun.
    set (q := get_md5_resp _ md5 _) in *. destruct same.
    + injection Hi as <-. exists q, 1. split_and!; [done..|].
      eapply rtc_trans; [exact Hrun|]. eapply rtc_trans; [apply pass_left|]. reflexivity.
    + unfold get_recv_phase in Hrun. destruct (fopen_w fs1 rp) as [fs2|] eqn:Eop; [|done].
      injection Hi as <-. destruct Hoff as [_ _ Hsz]. specialize (Hsz data eq_refl).
      destruct (get_blocks_run (gr_file_idx resp =? i32 (gr_total_files resp - 1)) rp (Z.of_nat (length data))
                  get_finish_send kS (get_finish_recv rp md5 (Z.of_nat (length data))) kR
                  (S (length data)) fuel (gr_with_entry (with_total (u32 (Z.of_nat (length data)))) q) data fs2 0)
        as (resp' & Hidx & Htf & Hb); [apply (wrap_u_small 32); lia|lia|lia|lia|].
      exists resp', 1. do 3 (split; [done|]).
      eapply rtc_trans; [exact Hrun|]. rewrite bind_send. eapply rtc_trans; [apply pass_left|].
      cbn [get_send_phase]. change (RESP_CONTINUE =? RESP_OK) with false. cbv iota.
      eapply rtc_trans; [exact Hb|]. cbn [get_finish_send get_finish_recv].
      rewrite Z.ltb_irrefl, (same_file_written fs2 rp data md5); [by destruct (short_end _)|done| |done].
      by eapply fopen_w_empty.
  - destruct Hoff as [Hname Hn _]. assert (Hd : is_dir src path = true) by (unfold is_dir; by rewrite Hn).
    unfold install_get in Hi. destruct (if file_existed fs rp then (fs, 0) else mkdirp_all fs rp) as [fs1 ret] eqn:Ecr.
    destruct (ret =? -1) eqn:Eret; [done|]. injection Hi as <-.
    set (q := get_name_resp path fname resp
      (if (gr_file_idx resp =? i32 (gr_total_files resp - 1)) && is_dir src path
       then REQ_RESP_FLAG_STOP else REQ_RESP_FLAG_NONE)).
    exists q, ret. do 2 (split; [done|]). split; [apply Z.eqb_neq in Eret; by eapply mkdir_ret|].
    assert (Hq : kk (Got q) = recv_file_from_get_resp fuel fs rp (e_type (gr_entry q)) ≫= kR)
      by (apply Hkk; [by apply get_name_resp_path|done|done]).
    replace (e_type (gr_entry q)) with FILE_TYPE_DIR in Hq by (unfold q; cbn; by rewrite Hd).
    unfold send_file_by_get_resp, send_file_name_by_get_resp. rewrite Hd at 1. ghead.
    fold (get_name_resp path fname resp (if (gr_file_idx resp =? i32 (gr_total_files resp - 1)) && is_dir src path
       then REQ_RESP_FLAG_STOP else REQ_RESP_FLAG_NONE)). fold q.
    eapply rtc_trans; [apply pass_right|]. rewrite Hq. unfold recv_file_from_get_resp.
    change (FILE_TYPE_DIR =? FILE_TYPE_DIR) with true. cbv iota. rewrite Ecr, Eret. ghead.
    eapply rtc_trans; [apply pass_left|]. reflexivity.
Qed.

(** ** Several files *)

(** Source file, name in the packet, name at the receiver, contents. *)
Record get_item := GetItem { gi_file : list Z; gi_name : list Z; gi_path : list Z; gi_data : option (list Z) }.

Definition entry_get_item (target : list Z) (e : list Z * list Z) : get_item :=
  GetItem e.1 e.2 (path_join target e.2) (file_data src e.1).

(** What is sent for [path] when [target] was asked to receive it. *)
Definition get_items (fuel : nat) (fs : fsys) (path target : list Z) : option (list get_item) :=
  if is_file src path then
    let '(p, base) := basename path in
    d ← file_data src p;
    Some [GetItem p base (if is_dir fs target then path_join target base else target) (Some d)]
  else
    match get_path_entry_list src readdir fuel path with
    | Some (Some l) => Some (entry_get_item target <$> l)
    | _ => None
    end.

Definition get_item_ok (fuel : nat) (x : get_item) : Prop :=
  offers (gi_file x) (gi_name x) (gi_data x) /\ gi_path x <> []
  /\ forall data, gi_data x = Some data -> (length data < fuel)%nat.

Definition install_get_all (fs : fsys) (l : list get_item) : option fsys :=
  foldl (fun fs x => fs ← fs; install_get fs (gi_path x) (gi_data x)) (Some fs) l.

Lemma install_get_none l : foldl (fun fs x => fs ← fs; install_get fs (gi_path x) (gi_data x)) None l = None.
Proof. by induction l. Qed.

Lemma name_fits q fname : c_str (content (gr_entry q)) = fname -> name_ok fname ->
  (CONTENT_BLOCK_SIZE <=? length (c_str (content (gr_entry q))))%nat = false.
Proof. pose proof block_size_val. intros -> [_ H']. apply Nat.leb_gt. lia. Qed.

Lemma get_entries_run fuel target n entries : forall resp fs fs' m count kk,
  entries <> [] -> Forall (get_item_ok fuel) (entry_get_item target <$> entries) ->
  install_get_all fs (entry_get_item target <$> entries) = Some fs' ->
  0 <= count -> count + Z.of_nat (length entries) = n -> n < 2 ^ 31 -> (length entries <= m)%nat ->
  gr_total_files resp = n ->
  (forall q, gr_total_files q = n ->
     e_type (gr_entry q) = (match entries with
       | e :: _ => if is_dir src e.1 then FILE_TYPE_DIR else FILE_TYPE_FILE | [] => 0 end) ->
     kk (Got q) = recv_get_files m fuel fs target n count q) ->
  rtc step
    (Network (send_get_entries (T := get_copying) src dir_size file_mode entries resp) (Recv kk) [] [])
    (Network (Ret 0) (Ret (fs', 0)) [] []).
Proof.
  induction entries as [|[abs rel] entries IH]; intros resp fs fs' m count kk Hne Hok Hi H0 Hn Hbig Hm Htf Hkk;
    [done|]. destruct m as [|m]; [simpl in Hm; lia|].
  rewrite fmap_cons in Hok, Hi. apply Forall_cons in Hok as [[Hoff [Hrp Hf]] Hok]. cbn in Hoff, Hrp, Hf.
  unfold install_get_all in Hi. cbn [foldl mbind option_bind gi_path gi_data entry_get_item fst snd] in Hi.
  destruct (install_get fs (path_join target rel) (file_data src abs)) as [fs1|] eqn:E1;
    [|by rewrite install_get_none in Hi].
  set (kR := fun x : fsys * Z => let '(fs, ret) := x in
    if ret =? -1 then mret (fs, -1) else
    let recv_count := i32 (count + 1) in
    if recv_count =? n then mret (fs, 0) else
    r ← recv;
    match r with
    | RecvErr _ => mret (fs, -1)
    | NoData => Crash
    | Got resp =>
        if recv_count <? n then recv_get_files m fuel fs target n recv_count resp else mret (fs, 0)
    end).
  destruct (get_item_run abs rel (path_join target rel) (file_data src abs) resp fs fs1 fuel
    (fun x => let '(resp, _) := x in
       send_get_entries (T := get_copying) src dir_size file_mode entries
         (gr_with_idx (gr_total_files resp) (i32 (gr_file_idx resp + 1)) resp))
    kR kk Hoff Hf Hrp E1) as (resp' & r2 & _ & Htf' & Hr2 & Hrun).
  { intros q Hq1 Hq2 Hq3. rewrite Hkk; [|by rewrite Hq2|exact Hq3]. cbn [recv_get_files].
    rewrite (name_fits q rel Hq1) by apply Hoff. rewrite Hq1. reflexivity. }
  cbn [send_get_entries]. subst kR. cbv beta iota in Hrun.
  rewrite (proj2 (Z.eqb_neq r2 (-1))) in Hrun by lia.
  simpl in Hn. rewrite (i32_small (count + 1)) in Hrun by (unfold in_i32; lia). cbv zeta in Hrun.
  destruct entries as [|e2 entries].
  - simpl in Hn. rewrite (proj2 (Z.eqb_eq (count + 1) n)) in Hrun by lia. injection Hi as ->. exact Hrun.
  - simpl in Hn. rewrite (proj2 (Z.eqb_neq (count + 1) n)), (proj2 (Z.ltb_lt (count + 1) n)) in Hrun by lia.
    etransitivity; [exact Hrun|].
    eapply (IH _ fs1 fs' m (count + 1)); [done|done|exact Hi|lia|simpl; lia|lia|simpl in Hm |- *; lia| |].
    + cbn. by rewrite Htf'.
    + done.
Qed.

(** What the sender reports in the end. *)
Definition get_report (fs : fsys) (path : list Z) (items : list get_item) : Z :=
  match items with
  | x :: _ => if is_file src path then get_ret fs (gi_path x) (gi_data x) else 0
  | [] => 0
  end.

Lemma get_run fuel pfuel m path target resp fs fs' items :
  get_items pfuel fs path target = Some items ->
  Forall (get_item_ok fuel) items -> Z.of_nat (length items) < 2 ^ 31 -> (length items <= m)%nat ->
  install_get_all fs items = Some fs' ->
  (is_file src path = false ->
     is_dir fs target = true /\ exists x l, items = x :: l /\ gi_data x = None) ->
  exists ret2, 0 <= ret2 /\
    rtc step
      (Network (send_files_by_get_resp (T := get_copying) src dir_size file_mode readdir pfuel path resp)
         (recv_files_from_get_resp m fuel fs target) [] [])
      (Network (Ret (get_report fs path items)) (Ret (fs', ret2)) [] []).
Proof.
  intros Hitems Hok Hbig Hm Hi Hroot. unfold get_items in Hitems. unfold send_files_by_get_resp.
  destruct (is_file src path) eqn:Efile.
  - destruct (basename path) as [p base]. destruct (file_data src p) as [data|]; [|done].
    injection Hitems as <-. apply Forall_cons in Hok as [[Hoff [Hrp Hf]] _].
    cbn [gi_file gi_name gi_path gi_data] in Hoff, Hrp, Hf, Hi.
    set (rp := if is_dir fs target then path_join target base else target) in *.
    assert (E1 : install_get fs rp (Some data) = Some fs') by exact Hi. unfold recv_files_from_get_resp.
    destruct (get_item_run p base rp (Some data) (gr_with_idx 1 0 resp) fs fs' fuel
      (fun x => let '(_, ret) := x in mret ret) mret
      (fun r => match r with
        | RecvErr _ => mret (fs, -1)
        | NoData => Crash
        | Got resp =>
            let total_files := gr_total_files resp in
            if negb (0 <? total_files) then mret (fs, -1) else
            if (total_files =? 1) && (e_type (gr_entry resp) =? FILE_TYPE_FILE) then
              let name := c_str (content (gr_entry resp)) in
              if (CONTENT_BLOCK_SIZE <=? length name)%nat then Crash else
              let rp := if is_dir fs target then path_join target name else target in
              recv_file_from_get_resp fuel fs rp (e_type (gr_entry resp))
            else if negb (is_dir fs target) then mret (fs, -1)
            else recv_get_files m fuel fs target total_files 0 resp
        end) Hoff Hf Hrp E1) as (resp' & r2 & _ & _ & Hr2 & Hrun).
    { intros q Hq1 Hq2 Hq3. cbv zeta. rewrite Hq2. change (gr_total_files (gr_with_idx 1 0 resp)) with 1.
      assert (Hd : is_dir src p = false) by (unfold is_dir; by rewrite (off_node _ _ _ Hoff)).
      rewrite Hd in Hq3. rewrite Hq3, (name_fits q base Hq1) by apply Hoff. rewrite Hq1.
      change (negb (0 <? 1)) with false. change ((1 =? 1) && (FILE_TYPE_FILE =? FILE_TYPE_FILE)) with true.
      cbv iota. fold rp. by rewrite bind_ret. }
    exists r2. split; [done|]. unfold get_report. rewrite Efile. exact Hrun.
  - destruct (Hroot eq_refl) as [Hdir (x & l & Hx & Hnone)].
    unfold send_dir_by_get_resp.
    destruct (get_path_entry_list src readdir pfuel path) as [[entries|]|]; [|done|done].
    injection Hitems as <-. rewrite length_fmap in Hbig, Hm. cbn [lift mbind prog_bind].
    exists 0. split; [done|]. unfold get_report. rewrite Efile.
    destruct entries as [|e entries]; [done|]. injection Hx as <- <-.
    assert (Hd : is_dir src e.1 = true).
    { apply Forall_cons in Hok as [[[_ Hn _] _] _]. unfold is_dir. cbn in Hn, Hnone. by rewrite Hn, Hnone. }
    eapply (get_entries_run fuel target (Z.of_nat (length (e :: entries))) (e :: entries) _ fs fs' m 0);
      [done|exact Hok|exact Hi|lia|lia|done|done|done|].
    intros q Hq Ht. cbv zeta. rewrite Hq, Ht, Hd.
    rewrite (proj2 (Z.ltb_lt 0 _)) by (simpl; lia). change (FILE_TYPE_DIR =? FILE_TYPE_FILE) with false.
    rewrite andb_false_r, Hdir. reflexivity.
Qed.
End Files.
