(* ===== verification/FileGetTransfer.v ===== *)
(** * Transfers by get response: the properties

    What a transfer achieves, what the receiver guarantees against any peer. *)

From stdpp Require Import relations.
From S2P Require Import Prelude CStr Md5 Process FileSystem FilePut FilePutRun FileTransfer FileGet FileGetRun.

#[local] Opaque CONTENT_BLOCK_SIZE BLOCK_SIZE.

(** ** Delivery *)

(** C16: A file or a directory that is asked for arrives.  When the serialiser
    leaves its argument alone, every file has a name that fits and can be
    installed, and a directory is received into an existing directory, then
    whatever the schedule both ends finish, nothing is left in the connection,
    the receiver reports success and its file system is the one that installing
    the files one after the other gives.  The sender reports success for a
    directory, and for a single file that the receiver had already or that does
    not end on a block boundary. *)
Theorem get_delivers src dir_size file_mode readdir fuel pfuel m path target resp fs fs' items
    (Hitems : get_items src readdir pfuel fs path target = Some items)
    (Hok : Forall (get_item_ok src fuel) items)
    (Hcount : Z.of_nat (length items) < 2 ^ 31) (Hm : (length items <= m)%nat)
    (Hinstall : install_get_all fs items = Some fs')
    (Hdir : is_file src path = false ->
       is_dir fs target = true /\ exists x l, items = x :: l /\ gi_data x = None) :
  exists ret2, 0 <= ret2
    /\ every_run_ends
         (Network (send_files_by_get_resp (T := get_copying) src dir_size file_mode readdir pfuel path resp)
            (recv_files_from_get_resp m fuel fs target) [] [])
         (Network (Ret (get_report src fs path items)) (Ret (fs', ret2)) [] []).
Proof.
  destruct (get_run src dir_size file_mode readdir fuel pfuel m path target resp fs fs' items)
    as (r2 & H2 & Hrun); [done..|].
  exists r2. split; [done|]. apply run_ends; [done|apply final_done].
Qed.

Definition demo_resp : get_resp := GetResp 0 0 0 0 (Entry 0 0 0 0 (replicate CONTENT_BLOCK_SIZE 0)) 0.
Definition demo_get_result : fsys :=
  Fsys {[ [47; 116] := Dir; [47; 116; 47; 100] := Dir; [47; 116; 47; 100; 47; 102] := Reg [104; 105] ]} ∅.
Definition demo_get_items : list get_item :=
  [GetItem [47; 100] [100] [47; 116; 47; 100] None;
   GetItem [47; 100; 47; 102] [100; 47; 102] [47; 116; 47; 100; 47; 102] (Some [104; 105])].

Lemma demo_get_items_ok : Forall (get_item_ok demo_src 10) demo_get_items.
Proof.
  repeat (apply Forall_cons; split); [| |constructor]; (split; [|split; [done|]]).
  - split; [|reflexivity|done]. split; [|simpl; lia]. apply (bool_decide_unpack _). reflexivity.
  - done.
  - split; [|reflexivity|intros data [= <-]; simpl; lia].
    split; [|simpl; lia]. apply (bool_decide_unpack _). reflexivity.
  - intros data [= <-]. simpl. lia.
Qed.

Lemma get_delivers_witness :
  exists ret2, 0 <= ret2
    /\ every_run_ends
         (Network (send_files_by_get_resp (T := get_copying) demo_src 4096 (fun _ => 420) demo_readdir 3
                     [47; 100] demo_resp)
            (recv_files_from_get_resp 2 10 demo_dst [47; 116]) [] [])
         (Network (Ret 0) (Ret (demo_get_result, ret2)) [] []).
Proof.
  apply (get_delivers demo_src 4096 (fun _ => 420) demo_readdir 10 3 2 [47; 100] [47; 116] demo_resp
           demo_dst demo_get_result demo_get_items).
  - vm_compute. reflexivity.
  - exact demo_get_items_ok.
  - simpl. lia.
  - simpl. lia.
  - vm_compute. reflexivity.
  - intros _. split; [reflexivity|]. eexists _, _. by split.
Defined.

(** ** A defect *)

(** A file that the receiver has just created for other contents. *)
Lemma fresh_not_up_to_date fs rp data fs' : install_get fs rp (Some data) = Some fs' ->
  file_existed fs rp = false -> md5_of data <> md5_of [] -> up_to_date fs rp data = false.
Proof.
  unfold install_get, up_to_date. intros Hi Hex Hmd. rewrite Hex in Hi |- *.
  unfold create_new_file_with_parent in *. destruct (try_make_dir fs (dirname rp)) as [fs1 ret].
  destruct (negb (ret =? 0)); [done|]. unfold create_new_file in *.
  destruct (fopen_w fs1 rp) as [fs2|] eqn:Eop; [|done]. apply fopen_w_empty in Eop.
  destruct (md5_of data) as [md5|] eqn:Em; [|done]. cbn [mbind option_bind].
  destruct (same_file fs2 rp md5) as [[]|] eqn:Es; [|done|done]. exfalso. apply Hmd.
  apply same_file_true in Es as (d & Hd & Hdm). unfold fopen_r in Hd.
  rewrite Eop in Hd. injection Hd as <-. by rewrite Hdm.
Qed.

(** Asking for one file that is a positive number of whole blocks delivers
    it, but the sender reports failure: after the last block it takes the end
    of the file, which no read has met yet, for an error. *)
Theorem get_whole_blocks_reports_failure src dir_size file_mode readdir fuel pfuel m path target resp fs fs' x data
    (Hfile : is_file src path = true)
    (Hitems : get_items src readdir pfuel fs path target = Some [x])
    (Hok : get_item_ok src fuel x) (Hm : (0 < m)%nat)
    (Hinstall : install_get fs (gi_path x) (gi_data x) = Some fs')
    (Hdata : gi_data x = Some data) (Hne : data <> []) (Hmult : (length data mod CONTENT_BLOCK_SIZE = 0)%nat)
    (Hnew : file_existed fs (gi_path x) = false) (Hmd5 : md5_of data <> md5_of []) :
  exists ret2, 0 <= ret2
    /\ every_run_ends
         (Network (send_files_by_get_resp (T := get_copying) src dir_size file_mode readdir pfuel path resp)
            (recv_files_from_get_resp m fuel fs target) [] [])
         (Network (Ret (-1)) (Ret (fs', ret2)) [] []).
Proof.
  destruct (get_run src dir_size file_mode readdir fuel pfuel m path target resp fs fs' [x])
    as (r2 & H2 & Hrun); [done|by constructor|done|done|done|by rewrite Hfile|].
  exists r2. split; [done|]. apply run_ends; [|apply final_done]. revert Hrun. unfold get_report, get_ret.
  rewrite Hfile. rewrite Hdata in Hinstall |- *. rewrite (fresh_not_up_to_date _ _ _ _ Hinstall) by done.
  unfold short_end. rewrite Hmult, (proj2 (Nat.eqb_neq (length data) 0)) by (by destruct data). done.
Qed.

Definition one_get_item : get_item :=
  GetItem [47; 102] [102] [47; 116; 47; 102] (Some (replicate 2048 7)).

Definition holds_sevens (o : option fsys) : bool :=
  match o with
  | Some f => bool_decide (file_data f [47; 116; 47; 102] = Some (replicate 2048 7))
  | None => false
  end.

Lemma get_whole_blocks_reports_failure_witness :
  exists fs' ret2, file_data fs' [47; 116; 47; 102] = Some (replicate 2048 7) /\ 0 <= ret2
    /\ every_run_ends
         (Network (send_files_by_get_resp (T := get_copying) (one_file (replicate 2048 7)) 4096 (fun _ => 420)
                     demo_readdir 3 [47; 102] demo_resp)
            (recv_files_from_get_resp 1 2049 demo_dst [47; 116]) [] [])
         (Network (Ret (-1)) (Ret (fs', ret2)) [] []).
Proof.
  destruct (install_get demo_dst (gi_path one_get_item) (gi_data one_get_item)) as [fs'|] eqn:E;
    [|vm_compute in E; discriminate].
  destruct (get_whole_blocks_reports_failure (one_file (replicate 2048 7)) 4096 (fun _ => 420) demo_readdir
              2049 3 1 [47; 102] [47; 116] demo_resp demo_dst fs' one_get_item (replicate 2048 7))
    as (ret2 & H2 & Hrun).
  - vm_compute. reflexivity.
  - vm_compute. reflexivity.
  - split; [|split; [done|intros d [= <-]; apply Nat.ltb_lt; vm_compute; reflexivity]].
    split; [|vm_compute; reflexivity|intros d [= <-]; apply Z.ltb_lt; vm_compute; reflexivity].
    split; [|simpl; lia]. apply (bool_decide_unpack _). reflexivity.
  - lia.
  - exact E.
  - reflexivity.
  - done.
  - vm_compute. reflexivity.
  - vm_compute. reflexivity.
  - vm_compute. discriminate.
  - exists fs', ret2. split; [|exact (conj H2 Hrun)].
    assert (H : holds_sevens (Some fs') = true) by (rewrite <- E; vm_compute; reflexivity).
    exact (bool_decide_unpack _ (Is_true_true_2 _ H)).
Defined.

(** ** What the receiver guarantees *)

Lemma recv_get_blocks_keeps fuel : forall fs rp size total ins out fs' n ret rest,
  run (recv_get_blocks fuel fs rp size total) ins = (out, Done (fs', n, ret) rest) -> keeps rp fs fs'.
Proof.
  induction fuel as [|fuel IH]; intros fs rp size total ins out fs' n ret rest; cbn [recv_get_blocks]; [done|].
  intros (o1 & r & i1 & o2 & _ & E & _)%run_bind. destruct r as [q| |]; [|done|by injection E as <- <- <- <- <-].
  destruct (negb _); [done|]. apply run_bind in E as (o3 & r3 & i3 & o4 & _ & E & _).
  destruct (_ <? total); [|injection E as _ <- _ _ _; apply fappend_keeps].
  apply IH in E. etransitivity; [apply fappend_keeps|exact E].
Qed.

(** C17: The client's side: whatever the server sends, receiving one file changes
    no file or directory but the one it is told to store and the parents it
    creates; and when it reports success for a regular file, the stored file
    has the digest the server announced. *)
Theorem get_receiver_integrity fuel fs rp type ins out fs' ret rest
    (Hrun : run (recv_file_from_get_resp fuel fs rp type) ins = (out, Done (fs', ret) rest)) :
  keeps rp fs fs'
  /\ (ret <> -1 -> type <> FILE_TYPE_DIR ->
      exists q ins' data, ins = Got q :: ins' /\ fopen_r fs' rp = Some data
        /\ md5_of data = Some (c_str (content (gr_entry q)))).
Proof.
  unfold recv_file_from_get_resp in Hrun. destruct (Z.eqb_spec type FILE_TYPE_DIR) as [Ht|Ht].
  { split; [|done].
    destruct (if file_existed fs rp then (fs, 0) else mkdirp_all fs rp) as [fs1 r1] eqn:E1.
    assert (Hk : keeps rp fs fs1).
    { destruct (file_existed fs rp); [by injection E1 as <- <-|]. apply keeps_all_keeps.
      pose proof (mkdirp_keeps (S (length rp)) fs rp) as H. unfold mkdirp_all in E1. by rewrite E1 in H. }
    destruct (r1 =? -1); run_head Hrun; by injection Hrun as _ <- _ _. }
  destruct (Z.eqb_spec type FILE_TYPE_FILE) as [_|_].
  2:{ run_head Hrun. by injection Hrun as _ <- <- _. }
  destruct (if file_existed fs rp then (fs, 0) else create_new_file_with_parent fs rp) as [fs1 r1] eqn:E1.
  assert (Hk : keeps rp fs fs1).
  { destruct (file_existed fs rp); [by injection E1 as <- <-|].
    pose proof (create_new_keeps fs rp) as H. by rewrite E1 in H. }
  destruct (r1 =? -1). { run_head Hrun. by injection Hrun as _ <- <- _. }
  run_head Hrun. apply run_cons in Hrun as (o1 & Hrun). destruct (negb _); [done|].
  destruct ins as [|[q| |] ins]; run_head Hrun; [done| |done|by injection Hrun as _ <- <- _].
  destruct (_ <=? length _)%nat; [done|]. apply run_bind in Hrun as (o2 & same & i2 & o3 & E2 & Hrun & _).
  apply run_lift in E2 as (Esame & -> & _). destruct same.
  { run_head Hrun. injection Hrun as _ <- _ _. split; [done|]. intros _ _.
    exists q, ins. by destruct (same_file_true _ _ _ Esame) as (data & H1 & H2); exists data. }
  run_head Hrun. apply run_cons in Hrun as (o4 & Hrun).
  destruct (fopen_w fs1 rp) as [fs2|] eqn:Eop.
  2:{ run_head Hrun. by injection Hrun as _ <- <- _. }
  apply fopen_w_keeps in Eop. apply run_bind in Hrun as (o5 & [[fs3 n] r3] & i3 & o6 & E3 & Hrun & _).
  apply recv_get_blocks_keeps in E3.
  assert (Hk3 : keeps rp fs fs3) by (do 2 (etransitivity; [eassumption|]); done).
  destruct (n <? _). { run_head Hrun. by injection Hrun as _ <- <- _. }
  apply run_bind in Hrun as (o7 & same & i4 & o8 & E4 & Hrun & _).
  apply run_lift in E4 as (Esame4 & -> & _). destruct same; run_head Hrun; injection Hrun as _ <- <- _; [|done].
  split; [done|]. intros _ _. exists q, ins.
  by destruct (same_file_true _ _ _ Esame4) as (data & H1 & H2); exists data.
Qed.

(** A file that is there already. *)
Lemma get_receiver_integrity_witness :
  exists out, run (recv_file_from_get_resp 1 demo_get_result [47; 116; 47; 100; 47; 102] FILE_TYPE_FILE)
      [Got (GetResp 0 0 1 0 (Entry 1 32 420 2 (strcpy (replicate 64 0) (default [] (md5_of [104; 105])))) 1)]
    = (out, Done (demo_get_result, 1) []) /\ keeps [47; 116; 47; 100; 47; 102] demo_get_result demo_get_result.
Proof.
  eexists. split; [vm_compute; reflexivity|].
  refine (proj1 (get_receiver_integrity 1 demo_get_result [47; 116; 47; 100; 47; 102] FILE_TYPE_FILE
    [Got (GetResp 0 0 1 0 (Entry 1 32 420 2 (strcpy (replicate 64 0) (default [] (md5_of [104; 105])))) 1)]
    _ _ 1 [] _)).
  vm_compute. reflexivity.
Defined.
