(* ===== verification/Huffman.v ===== *)
(** * The Huffman coder: definitions (src/compress.c, src/btree.c)

    Tree nodes are values that carry the address of the C node, so that the
    visited map of [get_char_codes], which compares pointers, is the one of
    the code.  Nodes are never changed once built, which makes the value view
    exact.  [None] stands for a failed [assert] or an access outside a
    buffer. *)

From S2P Require Import Prelude ByteOps DList DListOps DListSort Containers Map.

Definition CHARSET_SIZE : nat := 256.
Definition CHAR_BIT_LEN : Z := 8.

Record char_stat_node := CharStat { cs_ch : Z; cs_freq : Z }.

(** ** Binary trees *)

Inductive btree_node (A : Type) :=
  | BNull
  | BNode (addr : positive) (data : A) (left right : btree_node A).
Arguments BNull {A}.
Arguments BNode {A} _ _ _ _.

Section btree.
Context {A : Type}.

Definition btree_node_create (addr : positive) (data : A) : btree_node A :=
  BNode addr data BNull BNull.

Definition btree_node_gen_parent (addr : positive) (data : A) (left right : btree_node A)
    : btree_node A :=
  BNode addr data left right.

Definition btree_is_leaf (node : btree_node A) : bool :=
  match node with BNode _ _ BNull BNull => true | _ => false end.

Definition btree_data (node : btree_node A) : option A :=
  match node with BNull => None | BNode _ d _ _ => Some d end.

Definition btree_addr (node : btree_node A) : option positive :=
  match node with BNull => None | BNode p _ _ _ => Some p end.

Fixpoint btree_node_count (node : btree_node A) : nat :=
  match node with
  | BNull => 0
  | BNode _ _ l r => btree_node_count l + btree_node_count r + 1
  end.

(** [struct btree]: its size and its root. *)
Definition btree_set_root (root : btree_node A) : nat * btree_node A :=
  (btree_node_count root, root).

(** [btree_node_destroy]: the number of nodes freed and their payloads in the
    order of release (post-order). *)
Fixpoint btree_node_destroy (node : btree_node A) (mode : free_mode) : nat * list A :=
  match node with
  | BNull => (0%nat, [])
  | BNode _ d l r =>
      let '(left_cnt, f1) := btree_node_destroy l mode in
      let '(right_cnt, f2) := btree_node_destroy r mode in
      ((left_cnt + right_cnt + 1)%nat,
       match mode with
       | FREE_MODE_NOTHING => []
       | FREE_MODE_MP_FREE | FREE_MODE_FREE => f1 ++ f2 ++ [d]
       end)
  end.

(** [btree_bfs] over any queue; the result is the list of nodes visited. *)
Context {Q : Type} `{!QueueOps Q (btree_node A)}.

Fixpoint bfs_loop (fuel : nat) (q : Q) (visited : list (btree_node A))
    : option (list (btree_node A)) :=
  e ← qu_is_empty q;
  if (e : bool) then Some visited else
  match fuel with
  | O => None
  | S fuel' =>
      '(q, node) ← qu_dequeue q;
      node ← node;
      match node with
      | BNull => None
      | BNode _ _ l r =>
          q ← match l with BNull => Some q | _ => qu_enqueue q l end;
          q ← match r with BNull => Some q | _ => qu_enqueue q r end;
          bfs_loop fuel' q (visited ++ [node])
      end
  end.

Definition btree_bfs (root : btree_node A) : option (list (btree_node A)) :=
  q ← qu_enqueue (qu_create FREE_MODE_NOTHING) root;
  bfs_loop (btree_node_count root) q [].
End btree.

Abbreviation tnode := (btree_node char_stat_node).

(** ** Character frequencies *)

Definition calc_char_freq (input : list Z) : option (list Z) :=
  if decide (input = []) then None
  else Some (foldl (fun char_freq b => alter (fun c => i32 (c + 1)) (Z.to_nat b) char_freq)
               (replicate CHARSET_SIZE 0) input).

(** The pairs <char, freq> with a non-zero frequency, in increasing order. *)
Definition entries (char_freq : list Z) : list (Z * Z) :=
  filter (fun e => e.2 <> 0) (imap (fun i c => (Z.of_nat i, c)) char_freq).

Section tree.
Implicit Types (t : tnode).

Definition node_freq t : option Z := option_map cs_freq (btree_data t).

Definition fetch_min_btree_node (list : cell_list tnode) : option (cell_list tnode * option tnode) :=
  match cl_list list with
  | None => Some (list, None)
  | Some l =>
      e ← dlist_empty (Some l);
      if (e : bool) then Some (list, None) else
      let h := cl_heap list in
      ln ← d_head l;
      n ← load h ln;
      r ← dlist_for_each_pos (size (cells h)) h (node_next n) (fun acc ln tn =>
            '(min_ln, min_tn) ← acc;
            f1 ← node_freq tn;
            f2 ← node_freq min_tn;
            Some (if f1 <? f2 then (ln, tn) else (min_ln, min_tn)))
          (Some (ln, node_data n));
      '(min_ln, min_tn) ← r;
      '(h, l, _, _) ← dlist_remove h (Some l) (Some min_ln) true;
      Some (CellList h l, Some min_tn)
  end.

(** The leaves, allocated at [next], [next + 1], ... *)
Fixpoint append_leaves (es : list (Z * Z)) (next : positive) (list : cell_list tnode)
    : option (cell_list tnode * positive) :=
  match es with
  | [] => Some (list, next)
  | (i, f) :: es =>
      '(h, l, _) ← dlist_append (cl_heap list) (cl_list list)
                     (btree_node_create next (CharStat i f));
      append_leaves es (Pos.succ next) (CellList h l)
  end.

(** The [for (;;)] loop of [generate_huffman_tree]. *)
Fixpoint merge_loop (fuel : nat) (next : positive) (list : cell_list tnode) : option tnode :=
  match fuel with
  | O => None
  | S fuel' =>
      '(list, t_node1) ← fetch_min_btree_node list;
      t_node1 ← t_node1;
      '(list, t_node2) ← fetch_min_btree_node list;
      f1 ← node_freq t_node1;
      match t_node2 with
      | None =>
          Some (if btree_is_leaf t_node1
                then btree_node_gen_parent next (CharStat (-1) f1) t_node1 BNull
                else t_node1)
      | Some t_node2 =>
          f2 ← node_freq t_node2;
          let t_node := btree_node_gen_parent next (CharStat (-1) (i32 (f1 + f2))) t_node1 t_node2 in
          '(h, l, _) ← dlist_append (cl_heap list) (cl_list list) t_node;
          merge_loop fuel' (Pos.succ next) (CellList h l)
      end
  end.

(** [Some None] is the NULL returned for an empty frequency table.  Each
    round removes two list nodes and adds one, so the number of leaves is
    enough fuel. *)
Definition generate_huffman_tree (char_freq : list Z) : option (option tnode) :=
  let es := entries char_freq in
  '(list, next) ← append_leaves es 1%positive (new_list FREE_MODE_NOTHING);
  e ← dlist_empty (cl_list list);
  if (e : bool) then Some None else
  root ← merge_loop (length es) next list;
  Some (Some root).
End tree.

(** ** Character codes *)

(** What [get_char_codes] needs of the visited map. *)
Class VisitedOps (M K : Type) `{Countable K} := {
  vm_create : M;
  vm_mem : M -> K -> option bool;
  vm_add : M -> K -> option M;
  vm_holds : M -> gset K -> Prop;
  vm_create_ok : vm_holds vm_create ∅;
  vm_mem_ok m X k : vm_holds m X -> vm_mem m k = Some (bool_decide (k ∈ X));
  vm_add_ok m X k : vm_holds m X -> exists m', vm_add m k = Some m' /\ vm_holds m' ({[k]} ∪ X);
}.

#[export] Program Instance map_visited : VisitedOps (cell_list (kv_node positive unit)) positive := {|
  vm_create := new_list FREE_MODE_MP_FREE;
  vm_mem m k := option_map (fun r => negb (r.1 =? -1)) (map_find (Some m) ptr_equal k);
  vm_add m k := '(m, _) ← map_add true (Some m) k tt; m;
  vm_holds m X := exists g, models m g /\ dom g = X;
|}.
Next Obligation. exists ∅. split; [apply models_create|done]. Qed.
Next Obligation.
  intros m X k (g & Hm & <-). rewrite (map_find_models m g k Hm). simpl. f_equal.
  destruct (g !! k) eqn:E; symmetry.
  - apply bool_decide_eq_true, elem_of_dom. eauto.
  - by apply bool_decide_eq_false, not_elem_of_dom.
Qed.
Next Obligation.
  intros m X k (g & Hm & <-). destruct (map_add_models m g k tt Hm) as (m' & E & H').
  rewrite E. exists m'. split; [done|]. exists (<[k := tt]> g). split; [done|]. by rewrite dom_insert_L.
Qed.

Section codes.
Context {SC ST M : Type} `{!StackOps SC Z} `{!StackOps ST tnode} `{!VisitedOps M positive}.

(** The characters '1' and '0' of a code. *)
Definition code_left : Z := 49.
Definition code_right : Z := 48.

(** The outer [option] is an error, the inner one the NULL returned when the
    code is empty ([mp_malloc] of zero bytes); the terminator is implicit. *)
Definition get_char_code (s : SC) : option (option (list Z)) :=
  array ← st_peek_all s;
  Some (if decide (array = []) then None else Some (reverse array)).

Definition set_code (char_codes : list (option (list Z))) (ch : Z) (code : option (list Z))
    : option (list (option (list Z))) :=
  if decide (0 <= ch < Z.of_nat (length char_codes))
  then Some (<[Z.to_nat ch := code]> char_codes) else None.

(** [tn->left && map_find(m, ptr_equal, tn->left, NULL) == -1] *)
Definition unvisited (m : M) (node : tnode) : option bool :=
  match btree_addr node with
  | None => Some false
  | Some p => option_map negb (vm_mem m p)
  end.

Definition visit (m : M) (sc : SC) (stn : ST) (c : Z) (node : tnode) : option (M * SC * ST) :=
  sc ← st_push sc c;
  stn ← st_push stn node;
  p ← btree_addr node;
  m ← vm_add m p;
  Some (m, sc, stn).

Fixpoint codes_loop (fuel : nat) (m : M) (sc : SC) (stn : ST)
    (char_codes : list (option (list Z))) : option (list (option (list Z))) :=
  if st_is_empty stn then Some char_codes else
  match fuel with
  | O => None
  | S fuel' =>
      tn ← st_peek stn;
      tn ← tn;
      csn ← btree_data tn;
      if btree_is_leaf tn then
        code ← get_char_code sc;
        char_codes ← set_code char_codes (cs_ch csn) code;
        '(sc, _) ← st_pop sc;
        '(stn, _) ← st_pop stn;
        codes_loop fuel' m sc stn char_codes
      else
        match tn with
        | BNull => None
        | BNode _ _ lft rgt =>
            go_left ← unvisited m lft;
            if (go_left : bool) then
              '(m, sc, stn) ← visit m sc stn code_left lft;
              codes_loop fuel' m sc stn char_codes
            else
              go_right ← unvisited m rgt;
              if (go_right : bool) then
                '(m, sc, stn) ← visit m sc stn code_right rgt;
                codes_loop fuel' m sc stn char_codes
              else
                '(sc, _) ← st_pop sc;
                '(stn, _) ← st_pop stn;
                codes_loop fuel' m sc stn char_codes
        end
  end.

(** Every node is pushed once and popped once: twice the number of nodes is
    enough fuel. *)
Definition get_char_codes (root : tnode) (char_codes : list (option (list Z)))
    : option (list (option (list Z))) :=
  stn ← st_push (st_create FREE_MODE_NOTHING) root;
  codes_loop (2 * btree_node_count root) vm_create (st_create FREE_MODE_NOTHING) stn char_codes.
End codes.

(** ** Encoding *)

Definition ALIGN_FLOOR (val align : Z) : Z := Z.land val (Z.lnot (align - 1)).
Definition ALIGN_CEIL (val align : Z) : Z := ALIGN_FLOOR (val + align - 1) align.

Definition copy_entry (st : option (list Z * nat)) (e : Z * Z) : option (list Z * nat) :=
  '(buf, pos) ← st;
  buf ← write_bytes buf pos [e.1];
  buf ← write_bytes buf (pos + 1) (le_bytes 4 e.2);
  Some (buf, (pos + 5)%nat).

(** [copy_char_freq] at the start of [buf]; returns the bytes written. *)
Definition copy_char_freq (buf : list Z) (char_freq : list Z) : option (list Z * nat) :=
  let es := entries char_freq in
  '(buf, pos) ← foldl copy_entry (Some (buf, 2%nat)) es;
  let cnt := i16 (Z.of_nat (length es)) in
  if decide (cnt = 0) then None else
  buf ← write_bytes buf 0 (le_bytes 2 cnt);
  Some (buf, pos).

(** The write cursor: a byte offset and the number of bits left in it. *)
Definition put_bit (st : option (list Z * nat * Z)) (c : Z) : option (list Z * nat * Z) :=
  '(buf, pos, index) ← st;
  let '(pos, index) := if index =? 0 then (S pos, CHAR_BIT_LEN) else (pos, index) in
  b ← buf !! pos;
  Some (<[pos := set_bit b index (if c =? code_right then 0 else 1)]> buf, pos, index - 1).

Definition put_char (char_codes : list (option (list Z))) (st : option (list Z * nat * Z)) (b : Z)
    : option (list Z * nat * Z) :=
  tmp ← char_codes !! Z.to_nat b;
  tmp ← tmp;
  foldl put_bit st tmp.

(** [huffman_encode] at offset [head] of [buf]; returns the bytes written. *)
Definition huffman_encode (input : list Z) (char_codes : list (option (list Z)))
    (buf : list Z) (head : nat) : option (list Z * nat) :=
  buf ← write_bytes buf head (le_bytes 4 (Z.of_nat (length input)));
  '(buf, pos, _) ← foldl (put_char char_codes) (Some (buf, (head + 4)%nat, CHAR_BIT_LEN)) input;
  Some (buf, (pos - head + 1)%nat).

Definition add_code_len (char_codes : list (option (list Z))) (len : option Z) (b : Z) : option Z :=
  len ← len;
  tmp ← char_codes !! Z.to_nat b;
  tmp ← tmp;
  Some (i32 (len + Z.of_nat (length tmp))).

Definition get_compress_output_len (input : list Z) (char_freq : list Z)
    (char_codes : list (option (list Z))) : option Z :=
  let output_len := 2 + 5 * Z.of_nat (length (entries char_freq)) + 4 in
  tmp_len ← foldl (add_code_len char_codes) (Some 0) input;
  Some (i32 (output_len + Z.shiftr (ALIGN_CEIL tmp_len 8) 3)).

(** The instances of the containers used by [get_char_codes]. *)
Definition char_codes_of (root : tnode) : option (list (option (list Z))) :=
  get_char_codes (SC := cell_list Z) (ST := cell_list tnode)
    (M := cell_list (kv_node positive unit)) root (replicate CHARSET_SIZE None).

(** [None] is a crash, [Some None] the error return -1. *)
Definition huffman_compress (input : list Z) : option (option (list Z)) :=
  match calc_char_freq input with
  | None => Some None
  | Some char_freq =>
      tree ← generate_huffman_tree char_freq;
      match tree with
      | None => Some None
      | Some root =>
          char_codes ← char_codes_of root;
          output_len ← get_compress_output_len input char_freq char_codes;
          let output := zeroed (Z.to_nat output_len) in
          '(output, char_freq_len) ← copy_char_freq output char_freq;
          '(output, char_code_len) ← huffman_encode input char_codes output char_freq_len;
          if decide (Z.of_nat (char_freq_len + char_code_len) = output_len)
          then Some (Some output) else None
      end
  end.

(** ** Decoding *)

(** The loop of [get_char_freq]: [cnt] entries from offset [pos]. *)
Fixpoint get_entries (cnt : nat) (input : list Z) (pos : nat) (char_freq : list Z)
    : option (list Z * nat) :=
  match cnt with
  | O => Some (char_freq, pos)
  | S cnt' =>
      ch ← input !! pos;
      f ← read_bytes input (S pos) 4;
      get_entries cnt' input (pos + 5) (<[Z.to_nat ch := load_i32 f]> char_freq)
  end.

Definition get_char_freq (input : list Z) : option (list Z * nat * Z) :=
  cnt ← read_bytes input 0 2;
  let char_cnt := load_i16 cnt in
  '(char_freq, pos) ← get_entries (Z.to_nat char_cnt) input 2 (replicate CHARSET_SIZE 0);
  Some (char_freq, pos, char_cnt).

Definition take_bit (input : list Z) (pos : nat) (index : Z) : option (Z * nat * Z) :=
  let '(pos, index) := if index =? 0 then (S pos, CHAR_BIT_LEN) else (pos, index) in
  b ← input !! pos;
  Some (get_bit b index, pos, index - 1).

(** [while (!btree_is_leaf(tn))]: every round goes down one level. *)
Fixpoint walk (input : list Z) (tn : tnode) (pos : nat) (index : Z) : option (tnode * nat * Z) :=
  if btree_is_leaf tn then Some (tn, pos, index) else
  match tn with
  | BNull => None
  | BNode _ _ lft rgt =>
      '(bit, pos, index) ← take_bit input pos index;
      if bit =? 0 then walk input rgt pos index else walk input lft pos index
  end.

Fixpoint decode_loop (n : nat) (root : tnode) (input : list Z) (pos : nat) (index : Z)
    (output : list Z) : option (list Z) :=
  match n with
  | O => Some output
  | S n' =>
      '(tn, pos, index) ← walk input root pos index;
      csn ← btree_data tn;
      decode_loop n' root input pos index (output ++ [u8 (cs_ch csn)])
  end.

(** [huffman_decode] of [input_len] characters from offset [pos]. *)
Definition huffman_decode (root : tnode) (input : list Z) (pos : nat) (input_len : Z)
    : option (list Z) :=
  if input_len <? 1 then Some []
  else decode_loop (Z.to_nat input_len) root input pos CHAR_BIT_LEN [].

(** The result is [input_len] with the decoded bytes; [Some None] is -1. *)
Definition huffman_decompress (input : list Z) : option (option (Z * list Z)) :=
  '(char_freq, pos, char_cnt) ← get_char_freq input;
  if decide (char_cnt = 0) then Some None else
  tree ← generate_huffman_tree char_freq;
  match tree with
  | None => Some None
  | Some root =>
      len ← read_bytes input pos 4;
      let input_len := load_i32 len in
      output ← huffman_decode root input (pos + 4) input_len;
      Some (Some (input_len, output))
  end.
