(* ===== verification/HuffmanTree.v ===== *)
(** * The Huffman coder: the tree (src/compress.c, [generate_huffman_tree])

    The tree built from a frequency table has one leaf per character of the
    table, distinct node addresses, no half-empty node above the leaves but
    the root of a one-character table, and codes of 1 to 256 characters. *)

From S2P Require Import Prelude ByteOps DList DListOps DListSort Containers Map Huffman.

Section tree.
Implicit Types (t : tnode) (ts : list tnode).

(** The addresses of a tree's nodes. *)
Fixpoint addrs t : list positive :=
  match t with BNull => [] | BNode p _ l r => p :: addrs l ++ addrs r end.

Definition extend (c : Z) (e : Z * list Z) : Z * list Z := (e.1, c :: e.2).

(** The characters at the leaves, each with the path that leads to it. *)
Fixpoint leaf_codes t : list (Z * list Z) :=
  match t with
  | BNull => []
  | BNode _ d BNull BNull => [(cs_ch d, [])]
  | BNode _ _ l r => (extend code_left <$> leaf_codes l) ++ (extend code_right <$> leaf_codes r)
  end.

Definition chars t : list Z := (leaf_codes t).*1.

Inductive proper : tnode -> Prop :=
  | proper_leaf p i f : 0 <= i < 256 -> proper (BNode p (CharStat i f) BNull BNull)
  | proper_one p d l : proper l -> proper (BNode p d l BNull)
  | proper_two p d l r : proper l -> proper r -> proper (BNode p d l r).

(** Every path is shorter than the number of leaves. *)
Definition shallow t : Prop :=
  Forall (fun e => (length e.2 < length (leaf_codes t))%nat) (leaf_codes t).

Lemma chars_extend c (es : list (Z * list Z)) : (extend c <$> es).*1 = es.*1.
Proof. rewrite <- list_fmap_compose. by apply list_fmap_ext. Qed.

Lemma proper_nonnull t : proper t -> t <> BNull.
Proof. by destruct 1. Qed.

Lemma leaf_codes_two p d l r :
  proper l -> leaf_codes (BNode p d l r)
    = (extend code_left <$> leaf_codes l) ++ (extend code_right <$> leaf_codes r).
Proof. by destruct 1. Qed.

Lemma chars_two p d l r : proper l -> chars (BNode p d l r) = chars l ++ chars r.
Proof. intros. unfold chars. by rewrite leaf_codes_two, fmap_app, !chars_extend. Qed.

Lemma leaf_codes_nonempty t : proper t -> leaf_codes t <> [].
Proof.
  induction 1; [done| |]; rewrite leaf_codes_two by done; intros [Hn _]%app_eq_nil;
    by apply fmap_nil_inv in Hn.
Qed.

Lemma shallow_two p d l r :
  proper l -> proper r -> shallow l -> shallow r -> shallow (BNode p d l r).
Proof.
  intros Hl Hr Sl Sr. unfold shallow. rewrite leaf_codes_two by done.
  pose proof (leaf_codes_nonempty _ Hl). pose proof (leaf_codes_nonempty _ Hr).
  assert (0 < length (leaf_codes l) /\ 0 < length (leaf_codes r))%nat
    by (destruct (leaf_codes l), (leaf_codes r); simpl; split; (done || lia)).
  rewrite length_app, !length_fmap. apply Forall_app. split; apply Forall_fmap;
    eapply Forall_impl; [exact Sl| |exact Sr|]; intros e He; simpl in *; lia.
Qed.

(** ** Picking the least frequent node *)

Definition freq_of t : Z := default 0 (node_freq t).
Definition less_frequent (y x : tnode) : bool := freq_of x <? freq_of y.

Lemma less_frequent_preorder : total_preorder less_frequent.
Proof. constructor; unfold less_frequent; intros *; rewrite ?Z.ltb_lt, ?Z.ltb_ge; lia. Qed.

Lemma node_freq_of t : t <> BNull -> node_freq t = Some (freq_of t).
Proof. by destruct t. Qed.

(** The loop of [fetch_min_btree_node] is the scan of [DListSort]. *)
Lemma fetch_scan (ns : list (loc * tnode)) : forall acc,
  Forall (fun t => t <> BNull) (acc.2 :: ns.*2) ->
  foldl (fun (a : option (loc * tnode)) n =>
          '(min_ln, min_tn) ← a;
          f1 ← node_freq n.2;
          f2 ← node_freq min_tn;
          Some (if f1 <? f2 then (n.1, n.2) else (min_ln, min_tn))) (Some acc) ns
  = foldl (fun (a : option (loc * tnode)) n =>
             match a with
             | None => Some n
             | Some (_, y) => if less_frequent y n.2 then Some n else a
             end) (Some acc) ns.
Proof.
  induction ns as [|[p x] ns IH]; intros [q y] Hne; [done|]. simpl in *.
  apply Forall_cons in Hne as [Hy [Hx Hns]%Forall_cons].
  rewrite !node_freq_of by done. simpl. unfold less_frequent at 2.
  destruct (freq_of x <? freq_of y); apply IH; by constructor.
Qed.

Lemma fetch_min_spec (c : cell_list tnode) ts :
  holds c ts -> short ts -> ts <> [] -> Forall (fun t => t <> BNull) ts ->
  exists ts1 t ts2 c', ts = ts1 ++ t :: ts2
    /\ fetch_min_btree_node c = Some (c', Some t) /\ holds c' (ts1 ++ ts2)
    /\ (forall t', t' ∈ ts -> freq_of t <= freq_of t').
Proof.
  intros (l & ns & El & Hwf & Hoom & Hr & <-) Hshort Hne Hnn.
  assert (Hfew : few ns) by (unfold short in Hshort; by rewrite length_fmap in Hshort).
  assert (Hns : ns <> []) by (by intros ->).
  destruct (scan_spec less_frequent ns less_frequent_preorder Hns)
    as (ns1 & p & t & ns2 & Hsp & Hsc & Hmin & _).
  exists (ns1.*2), t, (ns2.*2). unfold fetch_min_btree_node. rewrite El.
  rewrite (empty_spec _ _ _ Hr Hfew), bool_decide_eq_false_2 by done. cbn [mbind option_bind].
  pose proof Hr as [Hnd Hs Hh _ _]. rewrite Hh.
  destruct ns as [|[q0 t0] ns]; [done|]. cbn [fst_loc mbind option_bind].
  destruct Hs as [Hq Hs]. unfold load. rewrite Hq. cbn [mbind option_bind node_next node_data].
  erewrite for_each_seg; [|exact Hs|]; cycle 1.
  { pose proof (chain_size (cells (cl_heap c)) None None ((q0, t0) :: ns) Hnd
      (conj Hq Hs)) as Hz. simpl in Hz. lia. }
  cbn [mbind option_bind].
  rewrite (fetch_scan ns (q0, t0)) by exact Hnn.
  change (foldl _ (Some (q0, t0)) ns) with (scan less_frequent ((q0, t0) :: ns)).
  rewrite Hsc. cbn [mbind option_bind]. rewrite Hsp in Hr.
  destruct (remove_spec _ _ _ _ _ _ true Hwf Hr) as (h' & l' & E & R & K & _).
  rewrite E. cbn [mbind option_bind]. eexists. split; [by rewrite Hsp, fmap_app|].
  split; [done|]. split.
  - exists l', (ns1 ++ ns2). split_and!; [done|apply K| |done|by rewrite fmap_app].
    intros q. simpl. by rewrite (keeps_oom _ _ _ _ _ K).
  - intros t' Ht'. apply list_elem_of_fmap in Ht' as (n & -> & Hn).
    specialize (Hmin _ Hn). unfold less_frequent in Hmin. by apply Z.ltb_ge in Hmin.
Qed.

Lemma short_nil {A} : short (@nil A).
Proof. done. Qed.

Lemma fetch_min_nil (c : cell_list tnode) :
  holds c [] -> fetch_min_btree_node c = Some (c, None).
Proof.
  intros Hc. unfold fetch_min_btree_node. pose proof (holds_empty_test _ _ Hc short_nil) as He.
  destruct Hc as (l & ns & El & _). rewrite El in *. rewrite He. done.
Qed.

(** ** The leaves *)

Fixpoint leaves (es : list (Z * Z)) (next : positive) : list tnode :=
  match es with
  | [] => []
  | (i, f) :: es => btree_node_create next (CharStat i f) :: leaves es (Pos.succ next)
  end.

Fixpoint next_after (n : nat) (next : positive) : positive :=
  match n with O => next | S n => next_after n (Pos.succ next) end.

Lemma length_leaves es next : length (leaves es next) = length es.
Proof. revert next. induction es as [|[i f] es IH]; intros; simpl; [done|]. by rewrite IH. Qed.

Lemma append_leaves_spec es : forall next c ts,
  holds c ts -> exists c', append_leaves es next c = Some (c', next_after (length es) next)
    /\ holds c' (ts ++ leaves es next).
Proof.
  induction es as [|[i f] es IH]; intros next c ts Hc; simpl.
  { exists c. by rewrite app_nil_r. }
  destruct (holds_append c ts (btree_node_create next (CharStat i f)) Hc) as (h & l & E & Hc').
  rewrite E. simpl. destruct (IH (Pos.succ next) _ _ Hc') as (c' & E' & H').
  exists c'. split; [done|]. by rewrite <- app_assoc in H'.
Qed.

(** ** Merging *)

(** A forest whose nodes are allocated below [next], with the characters [cs]. *)
Record forest (next : positive) ts (cs : list Z) : Prop := Forest {
  fo_proper : Forall proper ts;
  fo_shallow : Forall shallow ts;
  fo_nodup : NoDup (ts ≫= addrs);
  fo_next : Forall (fun p => (p < next)%positive) (ts ≫= addrs);
  fo_chars : (ts ≫= chars) ≡ₚ cs;
}.

Lemma forest_perm next ts ts' cs : ts ≡ₚ ts' -> forest next ts cs -> forest next ts' cs.
Proof.
  intros Hp [H1 H2 H3 H4 H5].
  assert (Ha : (ts ≫= addrs) ≡ₚ (ts' ≫= addrs)) by (by apply bind_Permutation).
  constructor; [by rewrite <- Hp|by rewrite <- Hp|by rewrite <- Ha|by rewrite <- Ha|].
  rewrite <- H5. symmetry. by apply bind_Permutation.
Qed.

Lemma forest_leaves es : forall next,
  Forall (fun e => 0 <= e.1 < 256) es ->
  forest (next_after (length es) next) (leaves es next) es.*1
  /\ (next <= next_after (length es) next)%positive
  /\ Forall (fun p => (next <= p)%positive) (leaves es next ≫= addrs).
Proof.
  induction es as [|[i f] es IH]; intros next He; simpl.
  { split; [|split; [lia|constructor]]. constructor; simpl; try constructor. }
  apply Forall_cons in He as [Hi He].
  destruct (IH (Pos.succ next) He) as ([H1 H2 H3 H4 H5] & Hle & Hge). simpl in *.
  split; [|split; [lia|]].
  - constructor; simpl.
    + constructor; [|done]. by constructor.
    + constructor; [|done]. repeat constructor.
    + constructor; [|done]. intros Hin. rewrite Forall_forall in Hge.
      specialize (Hge _ Hin). lia.
    + constructor; [lia|done].
    + by rewrite H5.
  - constructor; [lia|]. eapply Forall_impl; [exact Hge|]. simpl. lia.
Qed.

Lemma forest_merge next t1 t2 ts cs (d : char_stat_node) :
  forest next (t1 :: t2 :: ts) cs -> forest (Pos.succ next) (ts ++ [BNode next d t1 t2]) cs.
Proof.
  intros [H1 H2 H3 H4 H5]. apply (forest_perm _ (BNode next d t1 t2 :: ts)).
  { apply Permutation_cons_append. }
  apply Forall_cons in H1 as [P1 [P2 H1]%Forall_cons].
  apply Forall_cons in H2 as [S1 [S2 H2]%Forall_cons]. simpl in *. rewrite app_assoc in *.
  constructor; simpl.
  - constructor; [by constructor|done].
  - constructor; [by apply shallow_two|done].
  - constructor; [|done]. intros Hin. rewrite Forall_forall in H4. specialize (H4 _ Hin). lia.
  - constructor; [lia|]. eapply Forall_impl; [exact H4|]. simpl. lia.
  - by rewrite chars_two.
Qed.

(** What [generate_huffman_tree] returns. *)
Record huffman_tree (root : tnode) (cs : list Z) : Prop := HuffmanTree {
  ht_proper : proper root;
  ht_inner : btree_is_leaf root = false;
  ht_nodup : NoDup (addrs root);
  ht_chars : chars root ≡ₚ cs;
  ht_length : Forall (fun e => (1 <= length e.2 <= length cs)%nat) (leaf_codes root);
}.

Lemma inner_length t : proper t -> btree_is_leaf t = false ->
  Forall (fun e => (1 <= length e.2)%nat) (leaf_codes t).
Proof.
  destruct 1 as [|p d l Hl|p d l r Hl Hr]; intros Hi; [done| |];
    rewrite leaf_codes_two by done; apply Forall_app; split; apply Forall_fmap, Forall_forall;
    intros e _; simpl; lia.
Qed.

Lemma merge_last next t cs (f : Z) :
  forest next [t] cs ->
  huffman_tree (if btree_is_leaf t then btree_node_gen_parent next (CharStat (-1) f) t BNull else t) cs.
Proof.
  intros [H1 H2 H3 H4 H5]. simpl in *. rewrite !app_nil_r in *.
  rewrite Forall_singleton in H1, H2.
  destruct (btree_is_leaf t) eqn:Hl.
  - destruct H1 as [p i g Hi|p d l Hp|p d l r Hp Hq]; [|by destruct Hp|by destruct Hp].
    unfold chars in H5. simpl in H5. constructor; simpl.
    + by apply proper_one, proper_leaf.
    + done.
    + constructor; [|repeat constructor; set_solver]. intros Hin.
      apply list_elem_of_singleton in Hin. subst. apply Forall_cons in H4 as [H4 _]. lia.
    + unfold chars. simpl. done.
    + constructor; [|constructor]. simpl. apply Permutation_length in H5. simpl in H5. lia.
  - constructor; try done. apply Forall_forall. intros e He. split.
    + pose proof (inner_length _ H1 Hl) as Hin. rewrite Forall_forall in Hin. by apply Hin.
    + unfold shallow in H2. rewrite Forall_forall in H2. specialize (H2 _ He).
      apply Permutation_length in H5. unfold chars in H5. rewrite length_fmap in H5. lia.
Qed.

Lemma forest_nonnull next ts cs : forest next ts cs -> Forall (fun t => t <> BNull) ts.
Proof. intros [H _ _ _ _]. eapply Forall_impl; [exact H|]. apply proper_nonnull. Qed.

Lemma merge_loop_spec fuel : forall next c ts cs,
  holds c ts -> short ts -> forest next ts cs -> ts <> [] -> (length ts <= fuel)%nat ->
  exists root, merge_loop fuel next c = Some root /\ huffman_tree root cs.
Proof.
  induction fuel as [|fuel IH]; intros next c ts cs Hc Hshort Hf Hne Hfuel.
  { destruct ts; [done|simpl in Hfuel; lia]. }
  destruct (fetch_min_spec c ts Hc Hshort Hne (forest_nonnull _ _ _ Hf)) as (a1 & t1 & a2 & c1 & -> & E1 & H1 & _).
  cbn [merge_loop]. rewrite E1. cbn [mbind option_bind].
  apply (forest_perm _ _ (t1 :: a1 ++ a2)) in Hf; [|symmetry; apply Permutation_middle].
  unfold short in Hshort. rewrite length_app in Hfuel, Hshort. simpl in Hfuel, Hshort.
  assert (Hshort' : short (a1 ++ a2)) by (unfold short; rewrite length_app; lia).
  set (as' := a1 ++ a2) in *.
  assert (Hn1 : node_freq t1 = Some (freq_of t1)).
  { apply node_freq_of. apply forest_nonnull in Hf. by apply Forall_cons in Hf as [? _]. }
  destruct (decide (as' = [])) as [Hnil|Hne'].
  { rewrite Hnil in *. rewrite (fetch_min_nil _ H1). cbn [mbind option_bind]. rewrite Hn1.
    cbn [mbind option_bind]. eexists. split; [done|]. by apply merge_last. }
  assert (Hnn : Forall (fun t => t <> BNull) as').
  { apply forest_nonnull in Hf. by apply Forall_cons in Hf as [_ ?]. }
  destruct (fetch_min_spec c1 as' H1 Hshort' Hne' Hnn) as (b1 & t2 & b2 & c2 & Eb & E2 & H2 & _).
  rewrite E2, Eb in *. cbn [mbind option_bind]. rewrite Hn1.
  rewrite (node_freq_of t2) by (by apply Forall_app in Hnn as [_ [? _]%Forall_cons]).
  cbn [mbind option_bind].
  set (t := btree_node_gen_parent _ _ t1 t2).
  destruct (holds_append c2 (b1 ++ b2) t H2) as (h & l & E & H3).
  rewrite E. cbn [mbind option_bind].
  apply (IH _ _ ((b1 ++ b2) ++ [t]) cs H3).
  - unfold short. assert (Hlen : length as' = length (a1 ++ a2)) by done.
    rewrite Eb in Hlen. rewrite !length_app in *. simpl in *. lia.
  - apply forest_merge. eapply forest_perm; [|exact Hf].
    constructor. symmetry. apply Permutation_middle.
  - by destruct (b1 ++ b2).
  - assert (Hlen : length as' = length (a1 ++ a2)) by done.
    rewrite Eb in Hlen. rewrite !length_app in *. simpl in *. lia.
Qed.

(** ** The whole function *)

Lemma entries_range (char_freq : list Z) :
  (length char_freq <= 256)%nat -> Forall (fun e => 0 <= e.1 < 256) (entries char_freq).
Proof.
  intros Hl. apply Forall_forall. intros [i f] [_ Hin]%list_elem_of_filter.
  apply list_elem_of_lookup in Hin as [k Hk]. rewrite list_lookup_imap in Hk.
  destruct (char_freq !! k) eqn:E; [|done]. injection Hk as <- <-.
  apply lookup_lt_Some in E. simpl. lia.
Qed.

Lemma length_entries (char_freq : list Z) : (length (entries char_freq) <= length char_freq)%nat.
Proof. unfold entries. etransitivity; [apply length_filter|]. by rewrite length_imap. Qed.

Lemma generate_huffman_tree_spec (char_freq : list Z) :
  (length char_freq <= 256)%nat -> entries char_freq <> [] ->
  exists root, generate_huffman_tree char_freq = Some (Some root)
    /\ huffman_tree root (entries char_freq).*1.
Proof.
  intros Hl Hne. unfold generate_huffman_tree.
  destruct (append_leaves_spec (entries char_freq) 1%positive (new_list FREE_MODE_NOTHING) [])
    as (c & E & Hc); [apply holds_empty|].
  rewrite E. cbn [mbind option_bind]. simpl in Hc.
  assert (Hnl : leaves (entries char_freq) 1 <> []) by (by destruct (entries char_freq) as [|[]]).
  assert (Hs : short (leaves (entries char_freq) 1)).
  { unfold short. rewrite length_leaves. pose proof (length_entries char_freq). lia. }
  rewrite (holds_empty_test _ _ Hc Hs), bool_decide_eq_false_2 by done. cbn [mbind option_bind].
  destruct (forest_leaves (entries char_freq) 1%positive (entries_range _ Hl)) as (Hf & _ & _).
  destruct (merge_loop_spec (length (entries char_freq)) _ _ _ _ Hc Hs Hf Hnl)
    as (root & -> & Hroot); [by rewrite length_leaves|]. eauto.
Qed.
End tree.
