(* ===== verification/HuffmanCodes.v ===== *)
(** * The Huffman coder: the codes (src/compress.c, [get_char_codes])

    The depth-first traversal with its two stacks and its visited map
    terminates and stores, for each leaf, the path that leads to it.  The
    proof is against the interfaces of the containers. *)

From S2P Require Import Prelude ByteOps DList DListOps Containers Map Huffman HuffmanTree.

Abbreviation code_table := (list (option (list Z))).

Definition code_of (w : list Z) : option (list Z) := if decide (w = []) then None else Some w.

(** ** The traversal over mathematical containers *)

Definition unseen (V : gset positive) (t : tnode) : bool :=
  match btree_addr t with None => false | Some p => bool_decide (p ∉ V) end.

Fixpoint dfs (fuel : nat) (V : gset positive) (sc : list Z) (stn : list tnode) (codes : code_table)
    : option code_table :=
  match stn with
  | [] => Some codes
  | tn :: rest =>
      match fuel, tn with
      | O, _ | _, BNull => None
      | S fuel, BNode _ csn lft rgt =>
          if btree_is_leaf tn then
            codes ← set_code codes (cs_ch csn) (code_of (reverse sc));
            dfs fuel V (tail sc) rest codes
          else if unseen V lft then
            p ← btree_addr lft; dfs fuel ({[p]} ∪ V) (code_left :: sc) (lft :: stn) codes
          else if unseen V rgt then
            p ← btree_addr rgt; dfs fuel ({[p]} ∪ V) (code_right :: sc) (rgt :: stn) codes
          else dfs fuel V (tail sc) rest codes
      end
  end.

Section refinement.
Context {SC ST M : Type} `{!StackOps SC Z} `{!StackOps ST tnode} `{!VisitedOps M positive}.

Lemma pop_any {S A : Type} `{!StackOps S A} (s : S) xs :
  st_holds s xs -> exists s', st_pop s = Some (s', head xs) /\ st_holds s' (tail xs).
Proof.
  intros Hs. destruct xs as [|x xs]; [by apply st_pop_nil|by apply st_pop_ok].
Qed.

Lemma reverse_nil (xs : list Z) : reverse xs = [] <-> xs = [].
Proof.
  split; [|by intros ->]. intros Hx. rewrite <- (reverse_involutive xs), Hx. done.
Qed.

Lemma get_char_code_spec (s : SC) xs :
  st_holds s xs -> get_char_code s = Some (code_of (reverse xs)).
Proof.
  intros Hs. unfold get_char_code. rewrite (st_peek_all_ok _ _ Hs). simpl. f_equal.
  unfold code_of. pose proof (reverse_nil xs). repeat case_decide; naive_solver.
Qed.

Lemma unvisited_spec (m : M) V t :
  vm_holds m V -> unvisited m t = Some (unseen V t).
Proof.
  intros Hm. unfold unvisited, unseen. destruct (btree_addr t) as [p|]; [|done].
  rewrite (vm_mem_ok _ _ p Hm). simpl. f_equal. by rewrite bool_decide_not.
Qed.

Lemma visit_spec (m : M) V (sc : SC) xs (stn : ST) ts c t p :
  vm_holds m V -> st_holds sc xs -> st_holds stn ts -> btree_addr t = Some p ->
  exists m' sc' stn', visit m sc stn c t = Some (m', sc', stn')
    /\ vm_holds m' ({[p]} ∪ V) /\ st_holds sc' (c :: xs) /\ st_holds stn' (t :: ts).
Proof.
  intros Hm Hs Ht Hp. unfold visit.
  destruct (st_push_ok sc xs c Hs) as (sc' & -> & Hs').
  destruct (st_push_ok stn ts t Ht) as (stn' & E & Ht').
  destruct (vm_add_ok m V p Hm) as (m' & E' & Hm').
  simpl. rewrite E. simpl. rewrite Hp. simpl. rewrite E'. simpl. eauto 10.
Qed.

Lemma codes_loop_refines fuel : forall m V (sc : SC) xs (stn : ST) ts codes,
  vm_holds m V -> st_holds sc xs -> st_holds stn ts ->
  Z.of_nat (length ts + fuel) < 2 ^ 31 ->
  codes_loop fuel m sc stn codes = dfs fuel V xs ts codes.
Proof.
  induction fuel as [|fuel IH]; intros m V sc xs stn ts codes Hm Hs Ht Hn;
    cbn [codes_loop]; rewrite (st_is_empty_ok _ _ Ht) by (unfold short; lia);
    (destruct ts as [|t ts]; [done|]); rewrite bool_decide_eq_false_2 by done; [done|].
  rewrite (st_peek_ok _ _ Ht). cbn [dfs head mbind option_bind].
  destruct t as [|p d l r]; [done|]. cbn [btree_data mbind option_bind].
  destruct (pop_any sc xs Hs) as (sc' & Es & Hs').
  destruct (pop_any stn _ Ht) as (stn' & Et & Ht').
  destruct (btree_is_leaf (BNode p d l r)).
  - rewrite (get_char_code_spec _ _ Hs). cbn [mbind option_bind].
    destruct (set_code codes (cs_ch d) _) as [codes'|]; [|done]. cbn [mbind option_bind].
    rewrite Es. cbn [mbind option_bind]. rewrite Et. cbn [mbind option_bind]. apply IH; (done || simpl in *; lia).
  - rewrite (unvisited_spec _ _ l Hm). cbn [mbind option_bind].
    destruct (unseen V l) eqn:Hl.
    { unfold unseen in Hl. destruct (btree_addr l) as [q|] eqn:Hq; [|done].
      destruct (visit_spec m V sc xs stn _ code_left l q Hm Hs Ht Hq) as (? & ? & ? & -> & ? & ? & ?).
      cbn [mbind option_bind]. apply IH; (done || simpl in *; lia). }
    rewrite (unvisited_spec _ _ r Hm). cbn [mbind option_bind].
    destruct (unseen V r) eqn:Hr.
    { unfold unseen in Hr. destruct (btree_addr r) as [q|] eqn:Hq; [|done].
      destruct (visit_spec m V sc xs stn _ code_right r q Hm Hs Ht Hq) as (? & ? & ? & -> & ? & ? & ?).
      cbn [mbind option_bind]. apply IH; (done || simpl in *; lia). }
    rewrite Es. cbn [mbind option_bind]. rewrite Et. cbn [mbind option_bind]. apply IH; (done || simpl in *; lia).
Qed.
End refinement.

(** ** The size of a tree *)

Fixpoint path_sum (es : list (Z * list Z)) : nat :=
  match es with [] => 0 | e :: es => length e.2 + path_sum es end.

Lemma path_sum_app es1 es2 : path_sum (es1 ++ es2) = (path_sum es1 + path_sum es2)%nat.
Proof. induction es1 as [|e es1 IH]; [done|]. cbn [app path_sum]. lia. Qed.

Lemma path_sum_extend c es : path_sum (extend c <$> es) = (path_sum es + length es)%nat.
Proof.
  induction es as [|e es IH]; [done|]. rewrite fmap_cons. cbn [path_sum length]. rewrite IH. simpl. lia.
Qed.

(** A tree has no more nodes than one more than its codes have characters. *)
Lemma proper_size t : proper t -> (btree_node_count t <= S (path_sum (leaf_codes t)))%nat.
Proof.
  induction 1 as [p i f Hi|p d l Hl IHl|p d l r Hl IHl Hr IHr]; [simpl; lia| |];
    rewrite leaf_codes_two, path_sum_app, !path_sum_extend by done; pose proof (leaf_codes_nonempty _ Hl).
  - destruct (leaf_codes l) eqn:E; [done|]. cbn [btree_node_count length leaf_codes path_sum] in *. simpl. lia.
  - pose proof (leaf_codes_nonempty _ Hr). destruct (leaf_codes l), (leaf_codes r); try done.
    cbn [btree_node_count length] in *. lia.
Qed.

Lemma path_sum_bound es (n : nat) : Forall (fun e => (length e.2 <= n)%nat) es -> (path_sum es <= length es * n)%nat.
Proof. induction 1; simpl; lia. Qed.

Lemma bytes_length cs : NoDup cs -> Forall (fun c => 0 <= c < 256) cs -> (length cs <= 256)%nat.
Proof.
  intros Hnd Hr. change 256%nat with (length (seqZ 0 256)). apply submseteq_length, NoDup_submseteq; [done|].
  intros c Hc. rewrite Forall_forall in Hr. apply elem_of_seqZ. specialize (Hr _ Hc). simpl in Hr. lia.
Qed.

Lemma huffman_tree_size root cs : huffman_tree root cs -> NoDup cs -> Forall (fun c => 0 <= c < 256) cs ->
  Z.of_nat (btree_node_count root) <= 65537.
Proof.
  intros [Hp Hi _ Hch Hlen] Hcs Hr. pose proof (proper_size _ Hp). pose proof (bytes_length _ Hcs Hr).
  apply Permutation_length in Hch. unfold chars in Hch. rewrite length_fmap in Hch.
  assert (path_sum (leaf_codes root) <= length (leaf_codes root) * length cs)%nat.
  { apply path_sum_bound. eapply Forall_impl; [exact Hlen|]. simpl. lia. }
  nia.
Qed.

(** ** What the traversal records *)

Definition record_code (prefix : list Z) (codes : code_table) (e : Z * list Z) : code_table :=
  <[Z.to_nat e.1 := code_of (prefix ++ e.2)]> codes.
Definition record (prefix : list Z) (t : tnode) (codes : code_table) : code_table :=
  foldl (record_code prefix) codes (leaf_codes t).

Definition descendants (t : tnode) : list positive := tail (addrs t).
Definition steps (t : tnode) : nat := 2 * btree_node_count t - 1.

Lemma descendants_node p d l r : descendants (BNode p d l r) = addrs l ++ addrs r.
Proof. done. Qed.

Lemma record_extend prefix c (es : list (Z * list Z)) codes :
  foldl (record_code prefix) codes (extend c <$> es) = foldl (record_code (prefix ++ [c])) codes es.
Proof.
  revert codes. induction es as [|e es IH]; intros codes; [done|]. simpl. rewrite IH. f_equal.
  unfold record_code. simpl. by rewrite <- app_assoc.
Qed.

Lemma record_two prefix p d l r codes :
  proper l -> record prefix (BNode p d l r) codes
    = record (prefix ++ [code_right]) r (record (prefix ++ [code_left]) l codes).
Proof. intros Hl. unfold record. by rewrite leaf_codes_two, foldl_app, !record_extend. Qed.

Lemma length_record prefix t codes : length (record prefix t codes) = length codes.
Proof.
  unfold record. revert codes. induction (leaf_codes t) as [|e es IH]; intros codes; [done|].
  simpl. rewrite IH. apply length_insert.
Qed.

Lemma proper_addr t : proper t -> exists p, btree_addr t = Some p /\ addrs t = p :: descendants t.
Proof. destruct 1; simpl; eauto. Qed.

Lemma proper_count t : proper t -> (1 <= btree_node_count t)%nat.
Proof. destruct 1; simpl; lia. Qed.

(** One level: if the left subtree is unvisited it is pushed and explored. *)
Definition explores (t : tnode) : Prop :=
  forall V sc rest codes fuel,
    (forall p, p ∈ descendants t -> p ∉ V) ->
    Forall (fun c => 0 <= c < Z.of_nat (length codes)) (chars t) ->
    exists V', (forall p, p ∈ V' <-> p ∈ V \/ p ∈ descendants t)
      /\ dfs (steps t + fuel) V sc (t :: rest) codes
         = dfs fuel V' (tail sc) rest (record (reverse sc) t codes).

Lemma unseen_true V t p : btree_addr t = Some p -> p ∉ V -> unseen V t = true.
Proof. intros Hp Hv. unfold unseen. rewrite Hp. by apply bool_decide_eq_true. Qed.

Lemma unseen_false V t p : btree_addr t = Some p -> p ∈ V -> unseen V t = false.
Proof. intros Hp Hv. unfold unseen. rewrite Hp. apply bool_decide_eq_false. tauto. Qed.

Lemma explores_leaf p i f : 0 <= i < 256 -> explores (BNode p (CharStat i f) BNull BNull).
Proof.
  intros Hi V sc rest codes fuel _ Hc. exists V. split; [intros q; simpl; set_solver|].
  apply Forall_cons in Hc as [Hc _]. simpl in *. unfold set_code. rewrite decide_True by done.
  cbn [mbind option_bind]. unfold record. simpl. unfold record_code. simpl. by rewrite app_nil_r.
Qed.

(** Descending into a subtree and coming back to its parent. *)
Lemma explores_child V c l q stn sc codes fuel :
  explores l -> btree_addr l = Some q -> addrs l = q :: descendants l -> NoDup (addrs l) ->
  (forall p, p ∈ addrs l -> p ∉ V) ->
  Forall (fun c => 0 <= c < Z.of_nat (length codes)) (chars l) ->
  exists V', (forall p, p ∈ V' <-> p ∈ V \/ p ∈ addrs l)
    /\ dfs (steps l + fuel) ({[q]} ∪ V) (c :: sc) (l :: stn) codes
       = dfs fuel V' sc stn (record (reverse sc ++ [c]) l codes).
Proof.
  intros He Hq Ha Hnd Hv Hc. rewrite Ha in *. apply NoDup_cons in Hnd as [Hqd _].
  destruct (He ({[q]} ∪ V) (c :: sc) stn codes fuel) as (V' & HV' & E); [|done|].
  { intros p Hp Hp'. apply elem_of_union in Hp' as [->%elem_of_singleton|Hp']; [done|].
    apply (Hv p); [by apply elem_of_cons; right|done]. }
  exists V'. split; [|by rewrite E, reverse_cons].
  intros p. rewrite HV', elem_of_union, elem_of_singleton, elem_of_cons. tauto.
Qed.

Lemma explores_one p d l :
  proper l -> NoDup (addrs l) -> explores l -> explores (BNode p d l BNull).
Proof.
  intros Hl Hnd He V sc rest codes fuel Hv Hc.
  destruct (proper_addr _ Hl) as (q & Hq & Ha). pose proof (proper_count _ Hl) as Hn.
  rewrite chars_two in Hc by done. unfold chars at 2 in Hc. simpl in Hc. rewrite app_nil_r in Hc.
  rewrite descendants_node in Hv. cbn [addrs] in Hv. rewrite app_nil_r in Hv.
  destruct (explores_child V code_left l q (BNode p d l BNull :: rest) sc codes (S fuel)
    He Hq Ha Hnd Hv Hc) as (V1 & H1 & E1).
  exists V1. split; [intros x; rewrite H1, descendants_node; cbn [addrs]; by rewrite app_nil_r|].
  replace (steps _ + fuel)%nat with (S (steps l + S fuel)) by (unfold steps; simpl; lia).
  cbn [dfs]. replace (btree_is_leaf _) with false by (by destruct Hl).
  assert (Hqin : q ∈ addrs l) by (rewrite Ha; by apply elem_of_cons; left).
  rewrite (unseen_true V l q Hq) by (by apply Hv). rewrite Hq. cbn [mbind option_bind].
  rewrite E1. cbn [dfs]. replace (btree_is_leaf _) with false by (by destruct Hl).
  rewrite (unseen_false V1 l q Hq) by (apply H1; by right).
  unfold unseen at 1. cbn [btree_addr]. rewrite record_two by done. done.
Qed.

Lemma explores_two p d l r :
  proper l -> proper r -> NoDup (addrs l ++ addrs r) ->
  explores l -> explores r -> explores (BNode p d l r).
Proof.
  intros Hl Hr (Nl & Nlr & Nr)%NoDup_app He1 He2 V sc rest codes fuel Hv Hc.
  destruct (proper_addr _ Hl) as (q1 & Hq1 & Ha1). pose proof (proper_count _ Hl) as Hn1.
  destruct (proper_addr _ Hr) as (q2 & Hq2 & Ha2). pose proof (proper_count _ Hr) as Hn2.
  rewrite chars_two in Hc by done. apply Forall_app in Hc as [Hc1 Hc2]. rewrite descendants_node in Hv.
  assert (Hv1 : forall x, x ∈ addrs l -> x ∉ V) by (intros x Hx; apply Hv, elem_of_app; by left).
  set (t := BNode p d l r).
  destruct (explores_child V code_left l q1 (t :: rest) sc codes (S (steps r + S fuel))
    He1 Hq1 Ha1 Nl Hv1 Hc1) as (V1 & H1 & E1).
  destruct (explores_child V1 code_right r q2 (t :: rest) sc
    (record (reverse sc ++ [code_left]) l codes) (S fuel) He2 Hq2 Ha2 Nr) as (V2 & H2 & E2).
  { intros x Hx [Hxv|Hxl]%H1; [|by apply (Nlr x)]. by apply (Hv x), Hxv; apply elem_of_app; right. }
  { by rewrite length_record. }
  exists V2. split; [intros x; unfold t; rewrite H2, H1, descendants_node, elem_of_app; tauto|].
  replace (steps t + fuel)%nat with (S (steps l + S (steps r + S fuel))) by (unfold steps; simpl; lia).
  cbn [dfs]. unfold t at 1 2. replace (btree_is_leaf _) with false by (by destruct Hl).
  assert (Hin1 : q1 ∈ addrs l) by (rewrite Ha1; by apply elem_of_cons; left).
  assert (Hin2 : q2 ∈ addrs r) by (rewrite Ha2; by apply elem_of_cons; left).
  rewrite (unseen_true V l q1 Hq1) by (by apply Hv1). rewrite Hq1. cbn [mbind option_bind].
  fold t. rewrite E1. cbn [dfs]. unfold t at 1. replace (btree_is_leaf _) with false by (by destruct Hl).
  unfold t at 1.
  rewrite (unseen_false V1 l q1 Hq1) by (apply H1; by right).
  rewrite (unseen_true V1 r q2 Hq2); cycle 1.
  { intros [Hxv|Hxl]%H1; [|by apply (Nlr q2)]. by apply (Hv q2), Hxv; apply elem_of_app; right. }
  rewrite Hq2. cbn [mbind option_bind]. fold t. rewrite E2. cbn [dfs]. unfold t at 1.
  replace (btree_is_leaf _) with false by (by destruct Hl). unfold t at 1.
  rewrite (unseen_false V2 l q1 Hq1) by (apply H2; left; apply H1; by right).
  rewrite (unseen_false V2 r q2 Hq2) by (apply H2; by right).
  unfold t. by rewrite record_two.
Qed.

Lemma proper_explores t : proper t -> NoDup (addrs t) -> explores t.
Proof.
  induction 1 as [p i f Hi|p d l Hl IHl|p d l r Hl IHl Hr IHr]; intros Hnd.
  - by apply explores_leaf.
  - simpl in Hnd. rewrite app_nil_r in Hnd. apply NoDup_cons in Hnd as [_ Hnd].
    apply explores_one; auto.
  - simpl in Hnd. apply NoDup_cons in Hnd as [_ Hnd].
    pose proof Hnd as (N1 & _ & N2)%NoDup_app. apply explores_two; auto.
Qed.

(** ** The code table *)

Lemma record_lookup (es : list (Z * list Z)) ch w (codes : code_table) :
  NoDup es.*1 -> Forall (fun c => 0 <= c < Z.of_nat (length codes)) es.*1 -> (ch, w) ∈ es ->
  foldl (record_code []) codes es !! Z.to_nat ch = Some (code_of w).
Proof.
  induction es as [|[c u] es IH] using rev_ind; [set_solver|].
  rewrite fmap_app, foldl_snoc. simpl. intros (Hnd & Hdis & _)%NoDup_app [Hr Hc]%Forall_app Hin.
  rewrite Forall_singleton in Hc.
  assert (Hlen : length (foldl (record_code []) codes es) = length codes).
  { clear. revert codes. induction es as [|e es IH]; intros codes; [done|].
    simpl. rewrite IH. apply length_insert. }
  unfold record_code at 1. simpl.
  apply elem_of_app in Hin as [Hin|[= -> ->]%list_elem_of_singleton].
  - assert (Hch : ch ∈ es.*1) by (apply list_elem_of_fmap; by exists (ch, w)).
    rewrite list_lookup_insert_ne; [by apply IH|].
    intros Heq. rewrite Forall_forall in Hr. specialize (Hr _ Hch). cbn beta in Hr.
    apply (Hdis _ Hch), list_elem_of_singleton. simpl in Heq. lia.
  - apply list_lookup_insert_eq. rewrite Hlen. lia.
Qed.

(** [get_char_codes] succeeds on the tree of a frequency table and gives each
    of its characters the path to its leaf. *)
Lemma char_codes_of_spec root cs :
  huffman_tree root cs -> NoDup cs -> Forall (fun c => 0 <= c < 256) cs ->
  exists codes, char_codes_of root = Some codes /\ length codes = 256%nat
    /\ forall ch w, (ch, w) ∈ leaf_codes root -> codes !! Z.to_nat ch = Some (Some w).
Proof.
  intros Hroot Hcs Hr. pose proof (huffman_tree_size _ _ Hroot Hcs Hr) as Hsize.
  destruct Hroot as [Hp Hi Hnd Hch Hlen].
  exists (record [] root (replicate CHARSET_SIZE None)).
  assert (Hcr : Forall (fun c => 0 <= c < Z.of_nat 256) (chars root)) by by rewrite Hch.
  split; [|split].
  - unfold char_codes_of, get_char_codes.
    destruct (st_push_ok (st_create FREE_MODE_NOTHING) [] root (st_create_ok _)) as (stn & -> & Hst).
    cbn [mbind option_bind].
    rewrite (codes_loop_refines _ _ ∅ _ [] _ [root] _ vm_create_ok (st_create_ok _) Hst) by (simpl; lia).
    pose proof (proper_count _ Hp) as Hn.
    replace (2 * btree_node_count root)%nat with (steps root + 1)%nat by (unfold steps; lia).
    destruct (proper_explores _ Hp Hnd ∅ [] [] (replicate CHARSET_SIZE None) 1%nat) as (V & _ & E);
      [set_solver| |exact E].
    by rewrite length_replicate.
  - rewrite length_record. apply length_replicate.
  - intros ch w Hin. unfold record. rewrite (record_lookup _ ch w); [| | |done].
    + f_equal. unfold code_of. rewrite decide_False; [done|].
      rewrite Forall_forall in Hlen. specialize (Hlen _ Hin). intros ->. simpl in Hlen. lia.
    + change (NoDup (chars root)). by rewrite Hch.
    + rewrite length_replicate. done.
Qed.

(** * The Huffman coder: the bit stream (src/compress.c, [huffman_encode],
    [huffman_decode])

    Bits are written and read most significant first through a cursor that
    moves to the next byte lazily; [spells] relates a buffer to the code
    characters it stores. *)

(** The cursor after [k] bits of a stream that starts at byte [base]. *)
Definition cursor_pos (base k : nat) : nat := (base + (k - 1) / 8)%nat.
Definition cursor_index (k : nat) : Z :=
  match k with O => 8 | S j => 7 - Z.of_nat (j mod 8) end.

Definition bit_at (buf : list Z) (base k : nat) : option bool :=
  b ← buf !! (base + k / 8)%nat; Some (Z.testbit b (7 - Z.of_nat (k mod 8))).

(** [buf] holds, from bit [k] on, the bits of the code characters [cs]. *)
Definition spells (buf : list Z) (base k : nat) (cs : list Z) : Prop :=
  forall j c, cs !! j = Some c -> bit_at buf base (k + j) = Some (negb (c =? code_right)).

Lemma spells_cons buf base k c cs :
  spells buf base k (c :: cs) <->
  bit_at buf base k = Some (negb (c =? code_right)) /\ spells buf base (S k) cs.
Proof.
  split.
  - intros H. split.
    + specialize (H 0%nat c eq_refl). by rewrite Nat.add_0_r in H.
    + intros j d Hj. rewrite Nat.add_succ_l, <- Nat.add_succ_r. by apply H.
  - intros [H0 H] [|j] d Hj; simpl in Hj.
    + injection Hj as <-. by rewrite Nat.add_0_r.
    + rewrite Nat.add_succ_r, <- Nat.add_succ_l. by apply H.
Qed.

Lemma spells_app buf base k cs1 cs2 :
  spells buf base k (cs1 ++ cs2) <->
  spells buf base k cs1 /\ spells buf base (k + length cs1) cs2.
Proof.
  revert k. induction cs1 as [|c cs1 IH]; intros k; simpl.
  - rewrite Nat.add_0_r. split; [intros H; split; [intros j d Hj; done|done]|tauto].
  - rewrite !spells_cons, IH, Nat.add_succ_r. tauto.
Qed.

Lemma spells_ext buf buf' base k cs :
  (forall j, (k <= j < k + length cs)%nat -> bit_at buf' base j = bit_at buf base j) ->
  spells buf base k cs -> spells buf' base k cs.
Proof.
  intros He Hs j c Hj. pose proof (lookup_lt_Some _ _ _ Hj). rewrite He by lia. by apply Hs.
Qed.

(** [if (index == 0) { ++pos; index = CHAR_BIT_LEN; }] *)
Lemma cursor_advance base k :
  (if cursor_index k =? 0 then (S (cursor_pos base k), CHAR_BIT_LEN)
   else (cursor_pos base k, cursor_index k))
  = ((base + k / 8)%nat, 8 - Z.of_nat (k mod 8)).
Proof.
  unfold cursor_pos, cursor_index, CHAR_BIT_LEN. destruct k as [|j]; [simpl; f_equal; lia|].
  replace (S j - 1)%nat with j by lia.
  pose proof (Nat.div_mod_eq j 8) as Hd. pose proof (Nat.mod_upper_bound j 8) as Hm.
  destruct (decide (j mod 8 = 7)%nat) as [H7|H7].
  - rewrite (proj2 (Z.eqb_eq _ 0)) by lia.
    rewrite <- (Nat.div_unique (S j) 8 (S (j / 8)) 0), <- (Nat.mod_unique (S j) 8 (S (j / 8)) 0) by lia.
    f_equal. lia.
  - rewrite (proj2 (Z.eqb_neq _ 0)) by lia.
    rewrite <- (Nat.div_unique (S j) 8 (j / 8) (S (j mod 8))) by lia.
    rewrite <- (Nat.mod_unique (S j) 8 (j / 8) (S (j mod 8))) by lia. f_equal. lia.
Qed.

Lemma cursor_pos_succ base k : cursor_pos base (S k) = (base + k / 8)%nat.
Proof. unfold cursor_pos. by replace (S k - 1)%nat with k by lia. Qed.

Lemma cursor_index_succ k : cursor_index (S k) = 8 - Z.of_nat (k mod 8) - 1.
Proof. unfold cursor_index. lia. Qed.

(** ** Writing *)

(** What writing from bit [k] on leaves alone. *)
Record written (base k n : nat) (buf buf' : list Z) : Prop := Written {
  wr_length : length buf' = length buf;
  wr_bytes : Forall is_byte buf -> Forall is_byte buf';
  wr_before : forall i, (i < base)%nat -> buf' !! i = buf !! i;
  wr_other : forall j, ~ (k <= j < k + n)%nat -> bit_at buf' base j = bit_at buf base j;
}.

Lemma written_refl base k buf : written base k 0 buf buf.
Proof. by constructor. Qed.

Lemma written_trans base k n m buf1 buf2 buf3 :
  written base k n buf1 buf2 -> written base (k + n) m buf2 buf3 -> written base k (n + m) buf1 buf3.
Proof.
  intros [L1 B1 F1 O1] [L2 B2 F2 O2]. constructor; [congruence|auto| |].
  - intros i Hi. by rewrite F2, F1.
  - intros j Hj. rewrite O2, O1 by lia. done.
Qed.

Lemma put_bit_spec buf base k c :
  Forall is_byte buf -> (base + k / 8 < length buf)%nat ->
  exists buf', put_bit (Some (buf, cursor_pos base k, cursor_index k)) c
      = Some (buf', cursor_pos base (S k), cursor_index (S k))
    /\ bit_at buf' base k = Some (negb (c =? code_right)) /\ written base k 1 buf buf'.
Proof.
  intros Hb Hl. unfold put_bit. cbn [mbind option_bind]. rewrite cursor_advance.
  destruct (lookup_lt_is_Some_2 _ _ Hl) as [b Hbk]. rewrite Hbk. cbn [mbind option_bind].
  pose proof (Forall_lookup_1 _ _ _ _ Hb Hbk) as Hbb. rewrite cursor_pos_succ, cursor_index_succ.
  pose proof (Nat.mod_upper_bound k 8) as Hm.
  set (b' := set_bit b _ _). exists (<[(base + k / 8)%nat := b']> buf).
  assert (Hbit : forall i, 0 <= i -> Z.testbit b' i
      = if i =? 7 - Z.of_nat (k mod 8) then negb (c =? code_right) else Z.testbit b i).
  { intros i Hi. unfold b'. rewrite set_bit_testbit by (done || lia).
    replace (8 - Z.of_nat (k mod 8) - 1) with (7 - Z.of_nat (k mod 8)) by lia.
    by destruct (c =? code_right). }
  split; [done|]. split; [|constructor].
  - unfold bit_at. rewrite list_lookup_insert_eq by done. cbn [mbind option_bind].
    rewrite Hbit, Z.eqb_refl by lia. done.
  - apply length_insert.
  - intros _. apply Forall_insert; [done|]. by apply set_bit_byte.
  - intros i Hi. apply list_lookup_insert_ne. lia.
  - intros j Hj. unfold bit_at. pose proof (Nat.mod_upper_bound j 8) as Hmj.
    destruct (decide (base + j / 8 = base + k / 8)%nat) as [He|He].
    + rewrite He, list_lookup_insert_eq, Hbk by done. cbn [mbind option_bind]. rewrite Hbit by lia.
      rewrite (proj2 (Z.eqb_neq (7 - Z.of_nat (j mod 8)) (7 - Z.of_nat (k mod 8)))); [done|].
      intros Heq. apply Hj.
      pose proof (Nat.div_mod_eq j 8). pose proof (Nat.div_mod_eq k 8). lia.
    + by rewrite list_lookup_insert_ne by done.
Qed.

Lemma div8_lt base k n m : (8 * base + k + S n <= 8 * m)%nat -> (base + k / 8 < m)%nat.
Proof. pose proof (Nat.div_mod_eq k 8). pose proof (Nat.mod_upper_bound k 8). lia. Qed.

Lemma put_bits_spec cs : forall buf base k,
  Forall is_byte buf -> (8 * base + k + length cs <= 8 * length buf)%nat ->
  exists buf', foldl put_bit (Some (buf, cursor_pos base k, cursor_index k)) cs
      = Some (buf', cursor_pos base (k + length cs), cursor_index (k + length cs))
    /\ spells buf' base k cs /\ written base k (length cs) buf buf'.
Proof.
  induction cs as [|c cs IH]; intros buf base k Hb Hl; cbn [foldl].
  { exists buf. simpl. rewrite Nat.add_0_r. split; [done|]. split; [by intros j|apply written_refl]. }
  destruct (put_bit_spec buf base k c Hb) as (buf1 & E1 & B1 & W1).
  { eapply div8_lt. exact Hl. }
  rewrite E1. cbn [length] in *.
  destruct (IH buf1 base (S k)) as (buf2 & E2 & S2 & W2).
  { by apply (wr_bytes _ _ _ _ _ W1). }
  { rewrite (wr_length _ _ _ _ _ W1). lia. }
  exists buf2. rewrite Nat.add_succ_r, <- Nat.add_succ_l. split; [done|].
  split; [|eapply (written_trans _ _ 1); [exact W1|]; by rewrite Nat.add_1_r].
  apply spells_cons. split; [|done]. rewrite (wr_other _ _ _ _ _ W2) by lia. done.
Qed.

Definition has_code (codes : list (option (list Z))) (code : Z -> list Z) (b : Z) : Prop :=
  codes !! Z.to_nat b = Some (Some (code b)).

Lemma put_chars_flat codes code input : forall st,
  Forall (has_code codes code) input ->
  foldl (put_char codes) st input = foldl put_bit st (input ≫= code).
Proof.
  induction input as [|b input IH]; intros st Hc; [done|].
  apply Forall_cons in Hc as [Hb Hc]. cbn [foldl]. rewrite IH by done.
  change ((b :: input) ≫= code) with (code b ++ (input ≫= code)).
  rewrite foldl_app. unfold put_char. unfold has_code in Hb. rewrite Hb. done.
Qed.

(** ** Reading *)

Lemma take_bit_spec buf base k b :
  bit_at buf base k = Some b ->
  take_bit buf (cursor_pos base k) (cursor_index k)
    = Some (Z.b2z b, cursor_pos base (S k), cursor_index (S k)).
Proof.
  unfold bit_at, take_bit. rewrite cursor_advance.
  destruct (buf !! (base + k / 8)%nat) as [x|]; [|done]. cbn [mbind option_bind]. intros [= <-].
  rewrite cursor_pos_succ, cursor_index_succ. pose proof (Nat.mod_upper_bound k 8) as Hm.
  rewrite get_bit_testbit by lia.
  by replace (8 - Z.of_nat (k mod 8) - 1) with (7 - Z.of_nat (k mod 8)) by lia.
Qed.

(** Following the path of a leaf from the root consumes exactly its code. *)
Lemma walk_spec buf base t : forall ch w k,
  proper t -> (ch, w) ∈ leaf_codes t -> spells buf base k w ->
  exists p f, walk buf t (cursor_pos base k) (cursor_index k)
    = Some (BNode p (CharStat ch f) BNull BNull,
            cursor_pos base (k + length w), cursor_index (k + length w)).
Proof.
  induction t as [|p d l IHl r IHr]; intros ch w k Hp Hin Hs; [by apply list_elem_of_In in Hin|].
  destruct (btree_is_leaf (BNode p d l r)) eqn:Hleaf.
  { destruct l; [|done]. destruct r; [|done].
    apply list_elem_of_singleton in Hin as [= -> ->].
    exists p, (cs_freq d). simpl. rewrite Nat.add_0_r. by destruct d. }
  cbn [walk]. rewrite Hleaf.
  assert (Hl : proper l) by (by inversion Hp; subst).
  rewrite leaf_codes_two in Hin by done.
  apply elem_of_app in Hin as [Hin|Hin]; apply list_elem_of_fmap in Hin as ([ch' w'] & [= -> ->] & Hin);
    apply spells_cons in Hs as [H0 Hs]; rewrite (take_bit_spec _ _ _ _ H0); simpl.
  - destruct (IHl ch' w' (S k) Hl Hin Hs) as (q & f & E). rewrite Nat.add_succ_r. eauto.
  - assert (Hr : proper r) by (by inversion Hp; subst; try apply list_elem_of_In in Hin).
    destruct (IHr ch' w' (S k) Hr Hin Hs) as (q & f & E). rewrite Nat.add_succ_r. eauto.
Qed.

Lemma decode_loop_spec buf base root code input : forall k output,
  proper root -> Forall is_byte input ->
  Forall (fun b => (b, code b) ∈ leaf_codes root) input ->
  spells buf base k (input ≫= code) ->
  decode_loop (length input) root buf (cursor_pos base k) (cursor_index k) output
    = Some (output ++ input).
Proof.
  induction input as [|b input IH]; intros k output Hp Hb Hc Hs; simpl; [by rewrite app_nil_r|].
  apply Forall_cons in Hb as [Hbb Hb]. apply Forall_cons in Hc as [Hcb Hc].
  change ((b :: input) ≫= code) with (code b ++ (input ≫= code)) in Hs.
  apply spells_app in Hs as [Hs1 Hs2].
  destruct (walk_spec buf base root b (code b) k Hp Hcb Hs1) as (p & f & ->). simpl.
  rewrite (IH _ _ Hp Hb Hc Hs2). unfold is_byte in Hbb.
  rewrite (wrap_u_small 8) by lia. by rewrite <- app_assoc.
Qed.

(** ** The size of the stream *)

Lemma align_ceil_bytes n : 0 <= n -> Z.shiftr (ALIGN_CEIL n 8) 3 = (n + 7) / 8.
Proof.
  intros Hn. unfold ALIGN_CEIL, ALIGN_FLOOR.
  rewrite Z.shiftr_land. replace (n + 8 - 1) with (n + 7) by lia.
  change (Z.shiftr (Z.lnot (8 - 1)) 3) with (-1). rewrite Z.land_m1_r.
  by rewrite Z.shiftr_div_pow2.
Qed.

Lemma stream_bytes n : (1 <= n)%nat ->
  Z.of_nat (cursor_pos 4 n + 1) = 4 + (Z.of_nat n + 7) / 8.
Proof.
  intros Hn. unfold cursor_pos.
  replace (Z.of_nat n + 7) with (Z.of_nat (n - 1) + 1 * 8) by lia.
  rewrite Z.div_add by lia. rewrite !Nat2Z.inj_add, Nat2Z.inj_div. lia.
Qed.

Lemma add_code_len_sum codes code input : forall n,
  Forall (has_code codes code) input -> 0 <= n ->
  n + Z.of_nat (length (input ≫= code)) < 2 ^ 31 ->
  foldl (add_code_len codes) (Some n) input = Some (n + Z.of_nat (length (input ≫= code))).
Proof.
  induction input as [|b input IH]; intros n Hc Hn Hl; [simpl; by rewrite Z.add_0_r|].
  apply Forall_cons in Hc as [Hb Hc].
  change ((b :: input) ≫= code) with (code b ++ (input ≫= code)) in *.
  rewrite length_app in *. cbn [foldl]. unfold add_code_len at 2. unfold has_code in Hb.
  rewrite Hb. cbn [mbind option_bind]. rewrite i32_small by int_lia.
  rewrite IH by (done || lia). f_equal. lia.
Qed.
