(* ===== verification/HuffmanRound.v ===== *)
(** * The Huffman coder: compression and decompression are inverse
    (src/compress.c, [huffman_compress], [huffman_decompress]) *)

From S2P Require Import Prelude ByteOps DList DListOps Containers Map Huffman HuffmanTree HuffmanCodes.

(** ** The frequency table *)

Definition occurrences (input : list Z) (i : nat) : Z :=
  Z.of_nat (length (filter (fun b => b = Z.of_nat i) input)).

Lemma occurrences_snoc input b i :
  occurrences (input ++ [b]) i = occurrences input i + (if decide (b = Z.of_nat i) then 1 else 0).
Proof.
  unfold occurrences. rewrite filter_app, length_app, filter_cons, filter_nil.
  case_decide; simpl; lia.
Qed.

Lemma occurrences_bound input i : 0 <= occurrences input i <= Z.of_nat (length input).
Proof.
  unfold occurrences. split; [lia|]. induction input as [|b input IH]; [done|].
  rewrite filter_cons. case_decide; simpl; lia.
Qed.

Lemma calc_char_freq_spec input :
  input <> [] -> Forall is_byte input -> Z.of_nat (length input) < 2 ^ 31 ->
  exists cf, calc_char_freq input = Some cf /\ length cf = 256%nat
    /\ forall i, (i < 256)%nat -> cf !! i = Some (occurrences input i).
Proof.
  intros Hne Hb Hl. unfold calc_char_freq. rewrite decide_False by done.
  eexists. split; [done|]. clear Hne.
  induction input as [|b input IH] using rev_ind.
  { split; [apply length_replicate|]. intros i Hi. cbn [foldl].
    change (occurrences [] i) with 0. by apply lookup_replicate_2. }
  apply Forall_app in Hb as [Hb Hbb]. rewrite Forall_singleton in Hbb.
  rewrite length_app in Hl. simpl in Hl. destruct IH as [IH1 IH2]; [done|lia|].
  rewrite foldl_snoc. split; [by rewrite length_alter|].
  intros i Hi. rewrite occurrences_snoc. pose proof (occurrences_bound input i) as Ho.
  unfold is_byte in Hbb. case_decide as Hd.
  - subst b. rewrite Nat2Z.id, list_lookup_alter_eq, IH2 by done. simpl.
    rewrite i32_small by int_lia. done.
  - rewrite list_lookup_alter_ne by lia. rewrite IH2 by done. f_equal. lia.
Qed.

Lemma elem_of_entries cf i f : (i, f) ∈ entries cf <-> 0 <= i /\ cf !! Z.to_nat i = Some f /\ f <> 0.
Proof.
  unfold entries. rewrite list_elem_of_filter, list_elem_of_lookup. simpl. split.
  - intros (Hf & k & Hk). rewrite list_lookup_imap in Hk.
    destruct (cf !! k) eqn:E; [|done]. injection Hk as <- <-. rewrite Nat2Z.id. auto with lia.
  - intros (Hi & Hk & Hf). split; [done|]. exists (Z.to_nat i).
    rewrite list_lookup_imap, Hk. simpl. by rewrite Z2Nat.id by done.
Qed.

Lemma entries_nodup cf : NoDup (entries cf).*1.
Proof.
  unfold entries. cut (forall k, NoDup (filter (fun e : Z * Z => e.2 <> 0)
    (imap (fun i c => (Z.of_nat (k + i), c)) cf)).*1 /\
    Forall (fun i => Z.of_nat k <= i) (filter (fun e : Z * Z => e.2 <> 0)
    (imap (fun i c => (Z.of_nat (k + i), c)) cf)).*1).
  { intros H. apply (H 0%nat). }
  induction cf as [|c cf IH]; intros k; [split; constructor|].
  rewrite imap_cons. specialize (IH (S k)) as [IH1 IH2].
  assert (He : imap ((fun i c => (Z.of_nat (k + i), c)) ∘ S) cf
               = imap (fun i c => (Z.of_nat (S k + i), c)) cf).
  { apply imap_ext. intros i x _. simpl. by rewrite Nat.add_succ_r. }
  rewrite He. rewrite filter_cons. case_decide; simpl.
  - rewrite Nat.add_0_r. split; constructor; [|done|lia|eapply Forall_impl; [exact IH2|]; simpl; lia].
    intros Hin. rewrite Forall_forall in IH2. specialize (IH2 _ Hin). cbn beta in IH2. lia.
  - split; [done|]. eapply Forall_impl; [exact IH2|]; simpl; lia.
Qed.

Lemma entries_length cf : (length (entries cf) <= length cf)%nat.
Proof.
  unfold entries. etransitivity; [apply length_filter|]. by rewrite length_imap.
Qed.

(** Storing the entries into a zeroed table restores the table. *)
Lemma insert_entries (es : list (Z * Z)) (tab : list Z) k :
  NoDup es.*1 -> Forall (fun i => 0 <= i) es.*1 -> (k < length tab)%nat ->
  foldl (fun (t : list Z) (e : Z * Z) => <[Z.to_nat e.1 := e.2]> t) tab es !! k
    = match List.find (fun e => e.1 =? Z.of_nat k) es with
      | Some e => Some e.2
      | None => tab !! k
      end.
Proof.
  revert tab. induction es as [|[i f] es IH]; intros tab Hnd Hi Hk; [done|].
  apply NoDup_cons in Hnd as [Hin Hnd]. apply Forall_cons in Hi as [Hi0 Hi].
  cbn [foldl]. rewrite IH by (done || by rewrite length_insert). cbn [List.find].
  cbn [fst snd] in *. destruct (Z.eqb_spec i (Z.of_nat k)) as [->|Hne].
  - rewrite Nat2Z.id, list_lookup_insert_eq by done.
    destruct (List.find _ es) as [[j g]|] eqn:Hf; [|done].
    apply List.find_some in Hf as [Hf1 Hf2]. apply Z.eqb_eq in Hf2. simpl in Hf2. subst j.
    destruct Hin. apply list_elem_of_fmap. exists (Z.of_nat k, g). by rewrite list_elem_of_In.
  - by rewrite list_lookup_insert_ne by lia.
Qed.

Lemma restore_entries cf : length cf = CHARSET_SIZE ->
  foldl (fun (t : list Z) (e : Z * Z) => <[Z.to_nat e.1 := e.2]> t)
    (replicate CHARSET_SIZE 0) (entries cf) = cf.
Proof.
  intros Hl. apply list_eq. intros k.
  assert (Hlen : forall es tab, length (foldl (fun (t : list Z) (e : Z * Z) =>
            <[Z.to_nat e.1 := e.2]> t) tab es) = length tab).
  { induction es as [|e es IH]; intros tab; [done|]. cbn [foldl]. by rewrite IH, length_insert. }
  destruct (decide (k < CHARSET_SIZE)%nat) as [Hk|Hk].
  2:{ rewrite !lookup_ge_None_2; [done|lia|]. rewrite Hlen, length_replicate. lia. }
  rewrite insert_entries; [|apply entries_nodup| |by rewrite length_replicate].
  2:{ apply Forall_forall. intros i Hi. apply list_elem_of_fmap in Hi as ([? ?] & -> & Hi).
      apply elem_of_entries in Hi. simpl. tauto. }
  destruct (lookup_lt_is_Some_2 cf k) as [c Hc]; [by rewrite Hl|].
  destruct (List.find _ _) as [[j g]|] eqn:Hf.
  - apply List.find_some in Hf as [Hf1 Hf2]. simpl in Hf2. apply Z.eqb_eq in Hf2. subst j.
    apply list_elem_of_In, elem_of_entries in Hf1 as (_ & Hf1 & _). by rewrite Nat2Z.id in Hf1.
  - rewrite lookup_replicate_2, Hc by done. f_equal.
    destruct (decide (c = 0)) as [->|Hc0]; [done|].
    assert (Hin : (Z.of_nat k, c) ∈ entries cf).
    { apply elem_of_entries. rewrite Nat2Z.id. auto with lia. }
    apply list_elem_of_In in Hin. apply (List.find_none _ _ Hf) in Hin. simpl in Hin. lia.
Qed.

(** ** The entries in the buffer *)

Definition entry_bytes (e : Z * Z) : list Z := e.1 :: le_bytes 4 e.2.

Lemma length_entries_bytes es : length (es ≫= entry_bytes) = (5 * length es)%nat.
Proof.
  induction es as [|e es IH]; [done|].
  change ((e :: es) ≫= entry_bytes) with (entry_bytes e ++ (es ≫= entry_bytes)).
  rewrite length_app, IH. simpl. lia.
Qed.

Lemma copy_entries_spec es : forall pre mid rest,
  length mid = (5 * length es)%nat ->
  foldl copy_entry (Some (pre ++ mid ++ rest, length pre)) es
    = Some (pre ++ (es ≫= entry_bytes) ++ rest, (length pre + 5 * length es)%nat).
Proof.
  induction es as [|[i f] es IH]; intros pre mid rest Hm.
  { destruct mid; [|done]. simpl. by rewrite Nat.add_0_r. }
  cbn [length] in Hm.
  destruct mid as [|m0 mid]; [simpl in Hm; lia|]. rewrite <- (take_drop 4 mid) in *.
  assert (H4 : length (take 4 mid) = 4%nat) by (simpl in Hm; rewrite length_app, length_drop in Hm; rewrite length_take in *; lia).
  assert (Hd : length (drop 4 mid) = (5 * length es)%nat) by (simpl in Hm; rewrite length_app in Hm; lia).
  set (m4 := take 4 mid) in *. set (md := drop 4 mid) in *. clearbody m4 md. clear Hm mid.
  cbn [foldl]. unfold copy_entry at 2. cbn [mbind option_bind fst snd].
  change (pre ++ (m0 :: m4 ++ md) ++ rest) with (pre ++ [m0] ++ ((m4 ++ md) ++ rest)).
  rewrite write_bytes_app by done. cbn [mbind option_bind].
  rewrite <- app_assoc, app_assoc.
  replace (length pre + 1)%nat with (length (pre ++ [i])) by (rewrite length_app; done).
  rewrite write_bytes_app by (by rewrite length_le_bytes). cbn [mbind option_bind].
  specialize (IH ((pre ++ [i]) ++ le_bytes 4 f) md rest Hd).
  rewrite <- app_assoc in IH.
  replace (length pre + 5)%nat with (length ((pre ++ [i]) ++ le_bytes 4 f))
    by (rewrite !length_app, length_le_bytes; simpl; lia).
  rewrite (app_assoc (pre ++ [i])) in *. rewrite <- !app_assoc in *. simpl in *. rewrite IH.
  rewrite !length_app. cbn [length]. rewrite ?length_app. f_equal. f_equal. simpl. lia.
Qed.

Lemma get_entries_spec es : forall pre rest cf,
  Forall (fun e => in_i32 e.2) es ->
  get_entries (length es) (pre ++ (es ≫= entry_bytes) ++ rest) (length pre) cf
    = Some (foldl (fun (t : list Z) (e : Z * Z) => <[Z.to_nat e.1 := e.2]> t) cf es,
            (length pre + 5 * length es)%nat).
Proof.
  induction es as [|[i f] es IH]; intros pre rest cf He.
  { simpl. by rewrite Nat.add_0_r. }
  apply Forall_cons in He as [Hf He]. cbn [length get_entries foldl fst snd].
  change (((i, f) :: es) ≫= entry_bytes) with (i :: le_bytes 4 f ++ (es ≫= entry_bytes)).
  rewrite lookup_app_r, Nat.sub_diag by lia. cbn [app lookup list_lookup mbind option_bind].
  replace (pre ++ i :: (le_bytes 4 f ++ (es ≫= entry_bytes)) ++ rest)
    with ((pre ++ [i]) ++ le_bytes 4 f ++ ((es ≫= entry_bytes) ++ rest))
    by (rewrite <- !app_assoc; done).
  replace (S (length pre)) with (length (pre ++ [i])) by (rewrite length_app; simpl; lia).
  rewrite read_bytes_app by (by rewrite length_le_bytes). cbn [mbind option_bind].
  rewrite load_i32_store by done.
  replace (length pre + 5)%nat with (length ((pre ++ [i]) ++ le_bytes 4 f))
    by (rewrite !length_app, length_le_bytes; simpl; lia).
  rewrite (app_assoc (pre ++ [i])). rewrite IH by done.
  rewrite !length_app, length_le_bytes. f_equal. f_equal. simpl. lia.
Qed.

(** ** Compression *)

(** The code of each character of the input. *)
Definition lookup_code (codes : list (option (list Z))) (b : Z) : list Z :=
  default [] (mjoin (codes !! Z.to_nat b)).

(** Everything the coder computes for a non-empty input. *)
Record coder (input cf : list Z) (root : tnode) (codes : list (option (list Z))) : Prop := Coder {
  co_calc : calc_char_freq input = Some cf;
  co_length : length cf = CHARSET_SIZE;
  co_i32 : Forall (fun e => in_i32 e.2) (entries cf);
  co_nonempty : entries cf <> [];
  co_tree : generate_huffman_tree cf = Some (Some root);
  co_proper : proper root;
  co_codes : char_codes_of root = Some codes;
  co_has : Forall (has_code codes (lookup_code codes)) input;
  co_leaf : Forall (fun b => (b, lookup_code codes b) ∈ leaf_codes root) input;
  co_short : Forall (fun b => (1 <= length (lookup_code codes b) <= 256)%nat) input;
}.

Lemma coder_exists input :
  input <> [] -> Forall is_byte input -> Z.of_nat (length input) < 2 ^ 31 ->
  exists cf root codes, coder input cf root codes.
Proof.
  intros Hne Hb Hl. destruct (calc_char_freq_spec input Hne Hb Hl) as (cf & Ecf & Hlen & Hcf).
  assert (Hin : forall b, b ∈ input -> exists f, (b, f) ∈ entries cf).
  { intros b Hbi. rewrite Forall_forall in Hb. pose proof (Hb _ Hbi) as Hbb. unfold is_byte in Hbb.
    exists (occurrences input (Z.to_nat b)). apply elem_of_entries.
    split_and!; [lia|apply Hcf; lia|]. unfold occurrences. rewrite Z2Nat.id by lia.
    assert (Hf : b ∈ filter (fun x => x = b) input) by (by apply list_elem_of_filter).
    destruct (filter _ input); [by apply list_elem_of_In in Hf|]. simpl. lia. }
  assert (Hes : entries cf <> []).
  { destruct input as [|b input]; [done|]. destruct (Hin b) as [f Hf]; [by apply elem_of_cons; left|].
    intros He. rewrite He in Hf. by apply list_elem_of_In in Hf. }
  destruct (generate_huffman_tree_spec cf) as (root & Et & Hroot); [lia|done|].
  assert (Hr : Forall (fun c => 0 <= c < 256) (entries cf).*1).
  { apply Forall_fmap. eapply Forall_impl; [apply entries_range; lia|]. done. }
  destruct (char_codes_of_spec root _ Hroot (entries_nodup cf) Hr) as (codes & Ec & Hlc & Hco).
  assert (Hleaf : forall b, b ∈ input -> exists w, (b, w) ∈ leaf_codes root).
  { intros b Hbi. destruct (Hin b Hbi) as [f Hf].
    assert (Hb1 : b ∈ chars root).
    { rewrite (ht_chars _ _ Hroot). apply list_elem_of_fmap. by exists (b, f). }
    apply list_elem_of_fmap in Hb1 as ([b' w] & -> & Hw). eauto. }
  assert (Hlook : forall b w, (b, w) ∈ leaf_codes root -> lookup_code codes b = w).
  { intros b w Hw. unfold lookup_code. by rewrite (Hco _ _ Hw). }
  exists cf, root, codes. constructor; try done; try apply Hroot.
  - apply Forall_forall. intros [i f] Hif. apply elem_of_entries in Hif as (Hi & Hif & _).
    pose proof (lookup_lt_Some _ _ _ Hif). rewrite Hcf in Hif by lia. injection Hif as <-.
    pose proof (occurrences_bound input (Z.to_nat i)). int_lia.
  - apply Forall_forall. intros b Hbi. destruct (Hleaf b Hbi) as [w Hw].
    unfold has_code. by rewrite (Hlook _ _ Hw), (Hco _ _ Hw).
  - apply Forall_forall. intros b Hbi. destruct (Hleaf b Hbi) as [w Hw]. by rewrite (Hlook _ _ Hw).
  - apply Forall_forall. intros b Hbi. destruct (Hleaf b Hbi) as [w Hw]. rewrite (Hlook _ _ Hw).
    pose proof (ht_length _ _ Hroot) as Hlw. rewrite Forall_forall in Hlw. specialize (Hlw _ Hw).
    simpl in Hlw. rewrite length_fmap in Hlw. pose proof (entries_length cf). lia.
Qed.

Lemma stream_length (code : Z -> list Z) input :
  Forall (fun b => (1 <= length (code b) <= 256)%nat) input ->
  (length input <= length (input ≫= code) <= 256 * length input)%nat.
Proof.
  induction 1 as [|b input Hb _ IH]; [done|].
  change ((b :: input) ≫= code) with (code b ++ (input ≫= code)).
  rewrite length_app. cbn [length]. lia.
Qed.

(** The number of bytes [huffman_compress] produces. *)
Definition packed_length (entry_cnt bit_cnt : nat) : nat :=
  (2 + 5 * entry_cnt + 4 + (bit_cnt + 7) / 8)%nat.

Lemma output_len_spec input cf root codes :
  coder input cf root codes -> Z.of_nat (length input) < 2 ^ 22 ->
  get_compress_output_len input cf codes
    = Some (Z.of_nat (packed_length (length (entries cf)) (length (input ≫= lookup_code codes)))).
Proof.
  intros Hc Hl. pose proof (stream_length _ _ (co_short _ _ _ _ Hc)) as Hs.
  unfold get_compress_output_len.
  rewrite (add_code_len_sum _ (lookup_code codes)); [|apply (co_has _ _ _ _ Hc)|lia|lia].
  cbn [mbind option_bind]. rewrite Z.add_0_l, align_ceil_bytes by lia.
  pose proof (entries_length cf) as He. rewrite (co_length _ _ _ _ Hc) in He. unfold CHARSET_SIZE in He.
  set (n := length (input ≫= lookup_code codes)) in *. unfold packed_length.
  assert (Hq : Z.of_nat ((n + 7) / 8) = (Z.of_nat n + 7) / 8) by (rewrite Nat2Z.inj_div, Nat2Z.inj_add; done).
  assert ((Z.of_nat n + 7) / 8 <= 2 ^ 28) by (apply Z.div_le_upper_bound; lia).
  assert (0 <= (Z.of_nat n + 7) / 8) by (apply Z.div_pos; lia).
  set (q := (Z.of_nat n + 7) / 8) in *. clearbody q.
  rewrite i32_small. { f_equal. rewrite !Nat2Z.inj_add, Hq. lia. }
  unfold in_i32. lia.
Qed.

(** The layout of the compressed form. *)
Record packed (input cf : list Z) (codes : list (option (list Z))) (out : list Z) : Prop := Packed {
  pk_header : exists body, out = le_bytes 2 (Z.of_nat (length (entries cf)))
      ++ (entries cf ≫= entry_bytes) ++ le_bytes 4 (Z.of_nat (length input)) ++ body;
  pk_spells : spells out (2 + 5 * length (entries cf) + 4) 0 (input ≫= lookup_code codes);
  pk_bytes : Forall is_byte out;
  pk_length : length out
      = packed_length (length (entries cf)) (length (input ≫= lookup_code codes));
}.

Lemma copy_char_freq_spec cf (buf : list Z) m :
  length cf = CHARSET_SIZE -> entries cf <> [] -> length buf = (2 + 5 * length (entries cf) + m)%nat ->
  exists rest, length rest = m /\ copy_char_freq buf cf
    = Some (le_bytes 2 (Z.of_nat (length (entries cf))) ++ (entries cf ≫= entry_bytes) ++ rest,
            (2 + 5 * length (entries cf))%nat)
    /\ rest = drop (2 + 5 * length (entries cf)) buf.
Proof.
  intros Hcf Hne Hl. set (es := entries cf) in *.
  pose proof (entries_length cf) as He. fold es in He. rewrite Hcf in He. unfold CHARSET_SIZE in He.
  exists (drop (2 + 5 * length es) buf). split; [rewrite length_drop; lia|]. split; [|done].
  unfold copy_char_freq. fold es.
  set (h2 := take 2 buf). set (mid := take (5 * length es) (drop 2 buf)).
  assert (Hbuf : buf = h2 ++ mid ++ drop (2 + 5 * length es) buf).
  { unfold h2, mid. rewrite <- drop_drop, !take_drop. done. }
  assert (H2 : length h2 = 2%nat) by (unfold h2; rewrite length_take; lia).
  assert (Hm : length mid = (5 * length es)%nat) by (unfold mid; rewrite length_take, length_drop; lia).
  set (rest := drop (2 + 5 * length es) buf) in *. rewrite Hbuf. clearbody h2 mid rest. clear Hbuf.
  pose proof (copy_entries_spec es h2 mid rest Hm) as Hcp. rewrite H2 in Hcp.
  rewrite Hcp. cbn [mbind option_bind].
  assert (0 < length es)%nat by (destruct es; [done|simpl; lia]).
  rewrite i16_small by (unfold in_i16; lia). rewrite decide_False by lia.
  by rewrite write_bytes_prefix.
Qed.

Lemma huffman_encode_spec input codes code (pre mid body : list Z) :
  Forall (has_code codes code) input -> (1 <= length (input ≫= code))%nat ->
  length mid = 4%nat -> Forall is_byte (pre ++ body) -> length body = ((length (input ≫= code) + 7) / 8)%nat ->
  exists body', huffman_encode input codes (pre ++ mid ++ body) (length pre)
      = Some (pre ++ le_bytes 4 (Z.of_nat (length input)) ++ body', (4 + length body)%nat)
    /\ length body' = length body
    /\ Forall is_byte (pre ++ le_bytes 4 (Z.of_nat (length input)) ++ body')
    /\ spells (pre ++ le_bytes 4 (Z.of_nat (length input)) ++ body') (length pre + 4) 0 (input ≫= code).
Proof.
  intros Hc Hk Hm Hb Hl. unfold huffman_encode.
  assert (H4 : length (le_bytes 4 (Z.of_nat (length input))) = 4%nat) by done.
  pose proof (le_bytes_byte 4 (Z.of_nat (length input))) as H4b.
  set (len4 := le_bytes 4 _) in *. clearbody len4.
  rewrite write_bytes_app by (by rewrite Hm). cbn [mbind option_bind].
  rewrite (put_chars_flat codes code) by done. set (K := input ≫= code) in *.
  set (buf := pre ++ len4 ++ body). set (base := (length pre + 4)%nat).
  assert (Hlb : length buf = (base + length body)%nat).
  { unfold buf, base. rewrite !length_app. lia. }
  pose proof (Nat.div_mod_eq (length K + 7) 8). pose proof (Nat.mod_upper_bound (length K + 7) 8).
  assert (Hbb : Forall is_byte buf).
  { apply Forall_app in Hb as [Hb1 Hb2]. unfold buf. rewrite !Forall_app.
    done. }
  destruct (put_bits_spec K buf base 0 Hbb) as (buf' & E & S & W); [rewrite Hlb; lia|].
  replace (cursor_pos base 0) with base in E by (unfold cursor_pos; simpl; lia).
  change (cursor_index 0) with CHAR_BIT_LEN in E. rewrite E. cbn [mbind option_bind].
  destruct W as [Wl Wb Wf _].
  assert (Hbuf' : buf' = pre ++ len4 ++ drop base buf').
  { rewrite <- (take_drop base buf') at 1. rewrite app_assoc. f_equal.
    apply list_eq. intros i. destruct (decide (i < base)%nat) as [Hi|Hi].
    - rewrite lookup_take_lt, Wf by done. unfold buf. rewrite app_assoc, lookup_app_l; [done|].
      rewrite length_app. unfold base in Hi. lia.
    - rewrite !lookup_ge_None_2; [done| |]; rewrite ?length_app, ?length_take; unfold base in *; lia. }
  exists (drop base buf'). rewrite <- Hbuf'. split_and!.
  - f_equal. f_equal. unfold cursor_pos, base.
    rewrite Hl. replace (0 + length K + 7)%nat with (length K + 7)%nat by lia.
    replace (length K + 7)%nat with (0 + length K - 1 + 1 * 8)%nat by lia.
    rewrite Nat.div_add by lia. simpl. lia.
  - rewrite length_drop, Wl, Hlb. lia.
  - by apply Wb.
  - done.
Qed.

Lemma huffman_compress_spec input :
  input <> [] -> Forall is_byte input -> Z.of_nat (length input) < 2 ^ 22 ->
  exists cf root codes out, coder input cf root codes
    /\ huffman_compress input = Some (Some out) /\ packed input cf codes out.
Proof.
  intros Hne Hb Hl. destruct (coder_exists input Hne Hb) as (cf & root & codes & Hc); [lia|].
  exists cf, root, codes. set (K := input ≫= lookup_code codes).
  pose proof (stream_length _ _ (co_short _ _ _ _ Hc)) as Hk. fold K in Hk.
  assert (1 <= length input)%nat by (destruct input; simpl; [done|lia]).
  set (es := entries cf). set (bytes := ((length K + 7) / 8)%nat).
  unfold huffman_compress. rewrite (co_calc _ _ _ _ Hc), (co_tree _ _ _ _ Hc).
  cbn [mbind option_bind]. rewrite (co_codes _ _ _ _ Hc). cbn [mbind option_bind].
  rewrite (output_len_spec _ _ _ _ Hc Hl). cbn [mbind option_bind]. rewrite Nat2Z.id. fold es K.
  unfold packed_length. fold bytes.
  set (zs := zeroed (2 + 5 * length es + 4 + bytes)).
  assert (Hzs : length zs = (2 + 5 * length es + (4 + bytes))%nat).
  { unfold zs, zeroed. rewrite length_replicate. lia. }
  destruct (copy_char_freq_spec cf zs _ (co_length _ _ _ _ Hc) (co_nonempty _ _ _ _ Hc) Hzs)
    as (rest & Hrl & E1 & Hrest).
  rewrite E1. cbn [mbind option_bind]. fold es in Hrest |- *.
  set (pre := le_bytes 2 (Z.of_nat (length es)) ++ (es ≫= entry_bytes)).
  assert (Hpre : length pre = (2 + 5 * length es)%nat).
  { unfold pre. rewrite length_app, length_le_bytes, length_entries_bytes. lia. }
  assert (Hrb : Forall is_byte rest).
  { rewrite Hrest. apply Forall_drop. unfold zs, zeroed. apply Forall_replicate. unfold is_byte. lia. }
  assert (Hpb : Forall is_byte pre).
  { unfold pre. apply Forall_app. split; [apply le_bytes_byte|]. apply Forall_bind.
    eapply Forall_impl; [apply (entries_range cf); rewrite (co_length _ _ _ _ Hc); unfold CHARSET_SIZE; lia|].
    intros e He. unfold entry_bytes. constructor; [done|apply le_bytes_byte]. }
  rewrite app_assoc. fold pre. rewrite <- (take_drop 4 rest), <- Hpre.
  destruct (huffman_encode_spec input codes (lookup_code codes) pre (take 4 rest) (drop 4 rest)
    (co_has _ _ _ _ Hc)) as (body & E2 & Hbl & Hbb & Hsp); fold K.
  { lia. }
  { rewrite length_take. lia. }
  { apply Forall_app. split; [done|]. by apply Forall_drop. }
  { rewrite length_drop. fold bytes. lia. }
  rewrite E2. cbn [mbind option_bind]. rewrite length_drop in *.
  rewrite decide_True by (rewrite Hpre; lia).
  eexists. split; [done|]. split; [done|]. constructor.
  - exists body. unfold pre. by rewrite <- app_assoc.
  - by rewrite Hpre in Hsp.
  - done.
  - fold es K. unfold packed_length. fold bytes. rewrite !length_app, length_le_bytes, Hpre, Hbl. lia.
Qed.

(** ** Decompression *)

Lemma huffman_decompress_spec input cf root codes out :
  Forall is_byte input -> Z.of_nat (length input) < 2 ^ 22 ->
  coder input cf root codes -> packed input cf codes out ->
  huffman_decompress out = Some (Some (Z.of_nat (length input), input)).
Proof.
  intros Hb Hl Hc [(body & Hout) Hsp _ _].
  pose proof (entries_length cf) as He. rewrite (co_length _ _ _ _ Hc) in He. unfold CHARSET_SIZE in He.
  pose proof (restore_entries cf (co_length _ _ _ _ Hc)) as Hcf.
  pose proof (co_nonempty _ _ _ _ Hc) as Hne. pose proof (co_i32 _ _ _ _ Hc) as Hi.
  set (es := entries cf) in *. set (n2 := le_bytes 2 (Z.of_nat (length es))) in *.
  assert (H2 : length n2 = 2%nat) by done.
  assert (Hl2 : load_i16 n2 = Z.of_nat (length es)) by (apply load_i16_store; int_lia).
  assert (0 < length es)%nat by (destruct es; [done|simpl; lia]).
  assert (Hin : input <> []).
  { pose proof (co_calc _ _ _ _ Hc) as Hcalc. by intros ->. }
  unfold huffman_decompress, get_char_freq. rewrite Hout at 1.
  rewrite read_bytes_prefix by done. cbn [mbind option_bind].
  rewrite Hl2, Nat2Z.id. rewrite Hout at 1.
  pose proof (get_entries_spec es n2 (le_bytes 4 (Z.of_nat (length input)) ++ body)
    (replicate CHARSET_SIZE 0) Hi) as Hge.
  rewrite H2 in Hge. rewrite Hge, Hcf. cbn [mbind option_bind].
  rewrite decide_False by lia. rewrite (co_tree _ _ _ _ Hc). cbn [mbind option_bind].
  rewrite Hout at 1. rewrite app_assoc.
  replace (2 + 5 * length es)%nat with (length (n2 ++ (es ≫= entry_bytes)))
    by (rewrite length_app, length_entries_bytes; lia).
  rewrite read_bytes_app by (by rewrite length_le_bytes). cbn [mbind option_bind].
  rewrite load_i32_store by int_lia. unfold huffman_decode.
  assert (0 < length input)%nat by (destruct input; [done|simpl; lia]).
  rewrite (proj2 (Z.ltb_ge _ _)) by lia. rewrite Nat2Z.id.
  replace (length (n2 ++ (es ≫= entry_bytes)) + 4)%nat with (cursor_pos (2 + 5 * length es + 4) 0)
    by (rewrite length_app, length_entries_bytes; unfold cursor_pos; simpl; lia).
  change CHAR_BIT_LEN with (cursor_index 0).
  rewrite (decode_loop_spec out _ root (lookup_code codes)); [done|apply (co_proper _ _ _ _ Hc)|done| |done].
  apply (co_leaf _ _ _ _ Hc).
Qed.

(** ** The properties *)

(** C1: [huffman_decompress] undoes [huffman_compress]: for every non-empty
    input shorter than 4 MiB (longer ones could overflow the [int] that counts
    bits) compression succeeds, stays inside its output buffer and passes its
    final assertion, and decompressing the result reads only inside that
    result and returns the input and its length. *)
Theorem huffman_roundtrip input
    (Hne : input <> []) (Hbytes : Forall is_byte input) (Hlen : Z.of_nat (length input) < 2 ^ 22) :
  exists out, huffman_compress input = Some (Some out) /\ Forall is_byte out
    /\ huffman_decompress out = Some (Some (Z.of_nat (length input), input)).
Proof.
  destruct (huffman_compress_spec input Hne Hbytes Hlen) as (cf & root & codes & out & Hc & E & Hp).
  exists out. split; [done|]. split; [apply (pk_bytes _ _ _ _ Hp)|].
  by eapply huffman_decompress_spec.
Qed.

Lemma huffman_roundtrip_witness :
  exists out, huffman_compress [115; 102; 116; 116] = Some (Some out) /\ Forall is_byte out
    /\ huffman_decompress out = Some (Some (4, [115; 102; 116; 116])).
Proof.
  apply (huffman_roundtrip [115; 102; 116; 116]); [done| |done].
  by apply (bool_decide_unpack _).
Defined.

Definition distinct (input : list Z) : nat := length (remove_dups input).

Lemma entries_distinct input cf :
  Forall is_byte input -> Z.of_nat (length input) < 2 ^ 31 -> input <> [] ->
  calc_char_freq input = Some cf -> length (entries cf) = distinct input.
Proof.
  intros Hb Hl Hne Hcalc. destruct (calc_char_freq_spec input Hne Hb Hl) as (cf' & E & Hlen & Hcf).
  rewrite Hcalc in E. injection E as <-. unfold distinct.
  rewrite <- (length_fmap fst (entries cf)). apply Permutation_length.
  apply NoDup_Permutation; [apply entries_nodup|apply NoDup_remove_dups|].
  intros b. rewrite elem_of_remove_dups, list_elem_of_fmap. split.
  - intros ([i f] & -> & (Hi & Hif & Hf)%elem_of_entries). simpl.
    pose proof (lookup_lt_Some _ _ _ Hif). rewrite Hcf in Hif by lia. injection Hif as <-.
    unfold occurrences in Hf. rewrite Z2Nat.id in Hf by done.
    destruct (filter (fun x => x = i) input) as [|x xs] eqn:Ef; [done|].
    assert (Hx : x ∈ filter (fun x => x = i) input) by (rewrite Ef; by apply elem_of_cons; left).
    apply list_elem_of_filter in Hx as [-> Hx]. done.
  - intros Hin. rewrite Forall_forall in Hb. pose proof (Hb _ Hin) as Hbb. unfold is_byte in Hbb.
    exists (b, occurrences input (Z.to_nat b)). split; [done|]. apply elem_of_entries.
    split_and!; [lia|apply Hcf; lia|]. unfold occurrences. rewrite Z2Nat.id by lia.
    assert (Hf : b ∈ filter (fun x => x = b) input) by (by apply list_elem_of_filter).
    destruct (filter _ input); [by apply list_elem_of_In in Hf|]. simpl. lia.
Qed.

(** The size of the compressed form: 2 bytes of count, 5 per distinct
    character, 4 of length, and the code bits of the input rounded up to whole
    bytes; every character costs between 1 and 256 bits. *)
Theorem huffman_compress_size input
    (Hne : input <> []) (Hbytes : Forall is_byte input) (Hlen : Z.of_nat (length input) < 2 ^ 22) :
  exists out bit_cnt, huffman_compress input = Some (Some out)
    /\ length out = (2 + 5 * distinct input + 4 + (bit_cnt + 7) / 8)%nat
    /\ (length input <= bit_cnt <= 256 * length input)%nat.
Proof.
  destruct (huffman_compress_spec input Hne Hbytes Hlen) as (cf & root & codes & out & Hc & E & Hp).
  exists out, (length (input ≫= lookup_code codes)). split; [done|]. split.
  - rewrite (pk_length _ _ _ _ Hp). unfold packed_length.
    rewrite (entries_distinct input cf Hbytes); [done|lia|done|apply (co_calc _ _ _ _ Hc)].
  - apply stream_length, (co_short _ _ _ _ Hc).
Qed.

Lemma huffman_compress_size_witness :
  exists out bit_cnt, huffman_compress [7; 7; 9] = Some (Some out)
    /\ length out = (2 + 5 * distinct [7%Z; 7%Z; 9%Z] + 4 + (bit_cnt + 7) / 8)%nat
    /\ (3 <= bit_cnt <= 768)%nat.
Proof.
  apply (huffman_compress_size [7; 7; 9]); [done| |done]. by apply (bool_decide_unpack _).
Defined.

(** Compression of an empty buffer is refused with -1, and a compressed
    form that announces no character is refused with -1 by decompression. *)
Theorem huffman_rejects_empty (rest : list Z) :
  huffman_compress [] = Some None /\ huffman_decompress (0 :: 0 :: rest) = Some None.
Proof.
  split; [done|]. change (0 :: 0 :: rest) with ([0; 0] ++ rest).
  unfold huffman_decompress, get_char_freq.
  by rewrite (read_bytes_prefix [0; 0] rest 2).
Qed.
