(* ===== verification/BTree.v ===== *)
(** * Binary trees in place (src/btree.c)

    Nodes live in a heap and have an address; a released node is no longer in
    it, and an access to it is [None].  The trees of [Huffman] are what such a
    heap represents. *)

From stdpp Require Import gmap.
From S2P Require Import Prelude DList Huffman.

Section BTree.
Context {A : Type}.

Record cell := Cell { c_data : A; c_left : option positive; c_right : option positive }.

Abbreviation heap := (gmap positive cell).

Record btree := BTree { t_size : Z; t_free_mode : free_mode; t_root : option positive }.

(** [btree_node_create] when the pool hands out [new]; [None] when it cannot. *)
Definition new_node (new : option positive) (data : A) (h : heap) : option (positive * heap) :=
  a ← new; Some (a, <[a := Cell data None None]> h).

Definition btree_init (mode : free_mode) : btree := BTree 0 mode None.

(** NULL when the pool has no room for the header. *)
Definition btree_create (ok : bool) (mode : free_mode) : option btree := if ok then Some (btree_init mode) else None.

Definition btree_is_empty (tree : option btree) : bool :=
  match tree with None => true | Some t => bool_decide (t_root t = None) end.

Definition btree_size (tree : option btree) : Z := match tree with None => 0 | Some t => t_size t end.

Definition btree_root (tree : option btree) : option positive := tree ≫= t_root.

(** [tree->size], an [int], is set first and returned. *)
Definition grown (t : btree) : btree := BTree (i32 (t_size t + 1)) (t_free_mode t) (t_root t).

Definition btree_ins_left (tree : btree) (node : option positive) (data : A) (new : option positive) (h : heap)
    : option (btree * heap * Z) :=
  match new_node new data h with
  | None => Some (tree, h, -1)
  | Some (p, h) =>
      match node, btree_is_empty (Some tree) with
      | None, true => let t := grown (BTree (t_size tree) (t_free_mode tree) (Some p)) in Some (t, h, t_size t)
      | None, false => None
      | Some a, _ =>
          c ← h !! a;
          let h := <[p := Cell data (c_left c) None]> h in
          c ← h !! a;
          let h := <[a := Cell (c_data c) (Some p) (c_right c)]> h in
          Some (grown tree, h, t_size (grown tree))
      end
  end.

Definition btree_ins_right (tree : btree) (node : option positive) (data : A) (new : option positive) (h : heap)
    : option (btree * heap * Z) :=
  match new_node new data h with
  | None => Some (tree, h, -1)
  | Some (p, h) =>
      match node, btree_is_empty (Some tree) with
      | None, true => let t := grown (BTree (t_size tree) (t_free_mode tree) (Some p)) in Some (t, h, t_size t)
      | None, false => None
      | Some a, _ =>
          c ← h !! a;
          let h := <[p := Cell data None (c_right c)]> h in
          c ← h !! a;
          let h := <[a := Cell (c_data c) (c_left c) (Some p)]> h in
          Some (grown tree, h, t_size (grown tree))
      end
  end.

(** [btree_node_destroy]: how many nodes are released, and the payloads in the
    order in which they are. *)
Fixpoint node_destroy (fuel : nat) (node : option positive) (mode : free_mode) (h : heap) : option (Z * list A * heap) :=
  match fuel, node with
  | _, None => Some (0, [], h)
  | O, _ => None
  | S fuel, Some a =>
      c ← h !! a;
      '(left_cnt, f1, h) ← node_destroy fuel (c_left c) mode h;
      c ← h !! a;
      '(right_cnt, f2, h) ← node_destroy fuel (c_right c) mode h;
      c ← h !! a;
      Some (i32 (i32 (left_cnt + right_cnt) + 1), f1 ++ f2 ++ (match mode with FREE_MODE_NOTHING => [] | _ => [c_data c] end), delete a h)
  end.

Definition heap_fuel (h : heap) : nat := S (size h).

(** The header is reset, which is what is left in it when it goes back to the
    pool. *)
Definition btree_destroy (tree : btree) (h : heap) : option (btree * list A * heap) :=
  '(_, freed, h) ← node_destroy (heap_fuel h) (t_root tree) (t_free_mode tree) h;
  Some (BTree 0 (t_free_mode tree) None, freed, h).

(** [None] also stands for the failed assertion. *)
Definition btree_rm_left (tree : btree) (node : option positive) (h : heap) : option (btree * list A * heap * Z) :=
  match node with
  | None => Some (tree, [], h, -1)
  | Some a =>
      c ← h !! a;
      '(del_cnt, freed, h) ← node_destroy (heap_fuel h) (c_left c) (t_free_mode tree) h;
      if negb (del_cnt <? t_size tree) then None else
      let n := i32 (t_size tree - del_cnt) in Some (BTree n (t_free_mode tree) (t_root tree), freed, h, n)
  end.

Definition btree_rm_right (tree : btree) (node : option positive) (h : heap) : option (btree * list A * heap * Z) :=
  match node with
  | None => Some (tree, [], h, -1)
  | Some a =>
      c ← h !! a;
      '(del_cnt, freed, h) ← node_destroy (heap_fuel h) (c_right c) (t_free_mode tree) h;
      if negb (del_cnt <? t_size tree) then None else
      let n := i32 (t_size tree - del_cnt) in Some (BTree n (t_free_mode tree) (t_root tree), freed, h, n)
  end.

(** ** The tree a heap represents *)

Fixpoint rep (h : heap) (p : option positive) (t : btree_node A) : Prop :=
  match t with
  | BNull => p = None
  | BNode a d l r => p = Some a /\ exists pl pr, h !! a = Some (Cell d pl pr) /\ rep h pl l /\ rep h pr r
  end.

Fixpoint addrs (t : btree_node A) : list positive :=
  match t with BNull => [] | BNode a _ l r => a :: addrs l ++ addrs r end.

(** A header with the tree it stands for. *)
Record tree_ok (tree : btree) (h : heap) (t : btree_node A) : Prop := TreeOk {
  to_rep : rep h (t_root tree) t;
  to_addrs : NoDup (addrs t);
  to_size : t_size tree = i32 (Z.of_nat (btree_node_count t));
}.

Lemma length_addrs t : length (addrs t) = btree_node_count t.
Proof. induction t as [|a d l IHl r IHr]; [done|]. cbn [addrs btree_node_count length]. rewrite length_app. lia. Qed.

Lemma rep_frame h h' t : forall p, (forall a, a ∈ addrs t -> h' !! a = h !! a) -> rep h p t -> rep h' p t.
Proof.
  induction t as [|a d l IHl r IHr]; intros p Hf; [done|]. cbn [rep addrs] in *. intros (-> & pl & pr & Ha & Hl & Hr).
  split; [done|]. exists pl, pr. rewrite Hf by (by left). split_and!; [done| |].
  - apply IHl; [|done]. intros b Hb. apply Hf. right. apply elem_of_app. by left.
  - apply IHr; [|done]. intros b Hb. apply Hf. right. apply elem_of_app. by right.
Qed.

Lemma rep_alive h t : forall p a, rep h p t -> a ∈ addrs t -> is_Some (h !! a).
Proof.
  induction t as [|b d l IHl r IHr]; intros p a; cbn [rep addrs]; [by intros _ ?%not_elem_of_nil|].
  intros (-> & pl & pr & Hb & Hl & Hr) [->|[Hin|Hin]%elem_of_app]%elem_of_cons; [by eexists|by eapply IHl|by eapply IHr].
Qed.

(** The payloads that [node_destroy] releases: children first. *)
Fixpoint postorder (t : btree_node A) : list A :=
  match t with BNull => [] | BNode _ d l r => postorder l ++ postorder r ++ [d] end.

Definition freed_by (mode : free_mode) (t : btree_node A) : list A :=
  match mode with FREE_MODE_NOTHING => [] | _ => postorder t end.

Definition without (l : list positive) (h : heap) : heap := foldr (fun a h => delete a h) h l.

Lemma lookup_without l h a : without l h !! a = if decide (a ∈ l) then None else h !! a.
Proof.
  induction l as [|b l IH]; [by rewrite decide_False by (by intros ?%not_elem_of_nil)|]. cbn [without foldr]. fold (without l h).
  destruct (decide (a = b)) as [->|Hne].
  - by rewrite lookup_delete_eq, decide_True by (by left).
  - rewrite lookup_delete_ne, IH by done. destruct (decide (a ∈ l)) as [Hin|Hin].
    + by rewrite decide_True by (by right).
    + rewrite decide_False; [done|]. by intros [->|?]%elem_of_cons.
Qed.

Lemma node_destroy_spec t mode : forall fuel h p, rep h p t -> NoDup (addrs t) -> (btree_node_count t < fuel)%nat ->
  exists h', node_destroy fuel p mode h = Some (i32 (Z.of_nat (btree_node_count t)), freed_by mode t, h')
    /\ forall a, h' !! a = if decide (a ∈ addrs t) then None else h !! a.
Proof.
  induction t as [|a d l IHl r IHr]; intros fuel h p Hrep Hnd Hf.
  - cbn in Hrep. subst p. exists h. destruct fuel; [lia|]. split; [by destruct mode|]. intros a. by rewrite decide_False by (by intros ?%not_elem_of_nil).
  - destruct fuel as [|fuel]; [lia|]. cbn [btree_node_count addrs] in *. apply NoDup_cons in Hnd as [Ha Hnd].
    apply NoDup_app in Hnd as (Hnl & Hdisj & Hnr). cbn [rep] in Hrep. destruct Hrep as (-> & pl & pr & Hc & Hl & Hr).
    rewrite elem_of_app in Ha. cbn [node_destroy]. rewrite Hc. cbn [mbind option_bind c_left].
    destruct (IHl fuel h pl Hl Hnl ltac:(lia)) as (h1 & -> & H1). cbn [mbind option_bind].
    rewrite (H1 a), decide_False, Hc by tauto. cbn [mbind option_bind c_right].
    assert (Hr1 : rep h1 pr r).
    { eapply rep_frame; [|exact Hr]. intros b Hb. rewrite H1, decide_False; [done|]. intros Hb'. by apply (Hdisj b). }
    destruct (IHr fuel h1 pr Hr1 Hnr ltac:(lia)) as (h2 & -> & H2). cbn [mbind option_bind].
    rewrite (H2 a), decide_False by tauto. rewrite (H1 a), decide_False, Hc by tauto. cbn [mbind option_bind c_data].
    eexists. split; [f_equal; f_equal; [f_equal; [by rewrite wrap_s_add, wrap_s_add_l by lia; f_equal; lia|by destruct mode]]|]. intros b. destruct (decide (b = a)) as [->|Hne].
    + by rewrite lookup_delete_eq, decide_True by (by left).
    + rewrite lookup_delete_ne, H2, H1 by done. repeat case_decide; try done; exfalso; set_solver.
Qed.

(** This is what the value of the tree says. *)
Lemma destroy_value t mode : Huffman.btree_node_destroy t mode = (btree_node_count t, freed_by mode t).
Proof.
  induction t as [|a d l IHl r IHr]; [by destruct mode|]. cbn [Huffman.btree_node_destroy]. rewrite IHl, IHr. cbn [btree_node_count].
  by destruct mode.
Qed.

Lemma count_fuel h p t : rep h p t -> NoDup (addrs t) -> (btree_node_count t < heap_fuel h)%nat.
Proof.
  intros Hr Hn. unfold heap_fuel. rewrite <- length_addrs.
  assert (Hsub : list_to_set (C := gset positive) (addrs t) ⊆ dom h).
  { intros a. rewrite elem_of_list_to_set, elem_of_dom. intros Ha. by eapply rep_alive. }
  apply subseteq_size in Hsub. rewrite size_list_to_set, size_dom in Hsub by done. lia.
Qed.

(** ** Insertion *)

(** A new node below the node [a], above what was there. *)
Fixpoint graft_left (a new : positive) (d : A) (t : btree_node A) : btree_node A :=
  match t with
  | BNull => BNull
  | BNode b x l r =>
      if decide (b = a) then BNode b x (BNode new d l BNull) r else BNode b x (graft_left a new d l) (graft_left a new d r)
  end.

Fixpoint graft_right (a new : positive) (d : A) (t : btree_node A) : btree_node A :=
  match t with
  | BNull => BNull
  | BNode b x l r =>
      if decide (b = a) then BNode b x l (BNode new d BNull r) else BNode b x (graft_right a new d l) (graft_right a new d r)
  end.

Lemma graft_left_absent a new d t : a ∉ addrs t -> graft_left a new d t = t.
Proof.
  induction t as [|b x l IHl r IHr]; [done|]. cbn [addrs graft_left]. rewrite not_elem_of_cons, not_elem_of_app. intros (Hb & Hl & Hr).
  by rewrite decide_False, IHl, IHr by done.
Qed.

Lemma graft_right_absent a new d t : a ∉ addrs t -> graft_right a new d t = t.
Proof.
  induction t as [|b x l IHl r IHr]; [done|]. cbn [addrs graft_right]. rewrite not_elem_of_cons, not_elem_of_app. intros (Hb & Hl & Hr).
  by rewrite decide_False, IHl, IHr by done.
Qed.

Lemma graft_left_addrs a new d t : a ∈ addrs t -> NoDup (addrs t) -> addrs (graft_left a new d t) ≡ₚ new :: addrs t.
Proof.
  induction t as [|b x l IHl r IHr]; [by intros ?%not_elem_of_nil|]. cbn [addrs graft_left]. intros Hin [Hb (Hl & Hd & Hr)%NoDup_app]%NoDup_cons.
  rewrite not_elem_of_app in Hb. case_decide as E; [subst b|].
  - cbn [addrs]. rewrite app_nil_r. apply Permutation_swap.
  - apply elem_of_cons in Hin as [->|[Hin|Hin]%elem_of_app]; [done| |]; cbn [addrs].
    + rewrite (IHl Hin Hl), graft_left_absent by (by apply Hd). apply Permutation_swap.
    + rewrite (graft_left_absent _ _ _ l) by (by intros ?%Hd). rewrite (IHr Hin Hr), <- Permutation_middle. apply Permutation_swap.
Qed.

Lemma graft_right_addrs a new d t : a ∈ addrs t -> NoDup (addrs t) -> addrs (graft_right a new d t) ≡ₚ new :: addrs t.
Proof.
  induction t as [|b x l IHl r IHr]; [by intros ?%not_elem_of_nil|]. cbn [addrs graft_right]. intros Hin [Hb (Hl & Hd & Hr)%NoDup_app]%NoDup_cons.
  rewrite not_elem_of_app in Hb. case_decide as E; [subst b|].
  - cbn [addrs app]. rewrite <- Permutation_middle. apply Permutation_swap.
  - apply elem_of_cons in Hin as [->|[Hin|Hin]%elem_of_app]; [done| |]; cbn [addrs].
    + rewrite (IHl Hin Hl), graft_right_absent by (by apply Hd). apply Permutation_swap.
    + rewrite (graft_right_absent _ _ _ l) by (by intros ?%Hd). rewrite (IHr Hin Hr), <- Permutation_middle. apply Permutation_swap.
Qed.

(** A node of the tree and the link of another one in the heap. *)
Lemma rep_graft_left h a c new d t : h !! a = Some c -> new ∉ addrs t -> NoDup (addrs t) -> forall p, rep h p t -> a ∈ addrs t ->
  rep (<[a := Cell (c_data c) (Some new) (c_right c)]> (<[new := Cell d (c_left c) None]> h)) p (graft_left a new d t).
Proof.
  intros Hc. induction t as [|b x l IHl r IHr]; [by intros _ _ p _ ?%not_elem_of_nil|]. cbn [addrs graft_left rep].
  rewrite not_elem_of_cons, not_elem_of_app. intros (Hnb & Hnl & Hnr) [Hb (Hl & Hd & Hr)%NoDup_app]%NoDup_cons p (-> & pl & pr & Hh & Rl & Rr) Hin.
  rewrite not_elem_of_app in Hb. set (h' := <[a:=_]> _).
  assert (Hframe : forall u, u ∉ [a; new] -> h' !! u = h !! u).
  { intros u Hu. unfold h'. rewrite !lookup_insert_ne; [done|set_solver|set_solver]. }
  assert (Hsub : forall u q, a ∉ addrs u -> new ∉ addrs u -> rep h q u -> rep h' q u).
  { intros u q H1 H2. apply rep_frame. intros e He. apply Hframe. rewrite !not_elem_of_cons. split_and!; [by intros ->|by intros ->|by intros ?%not_elem_of_nil]. }
  case_decide as E; [subst b|].
  - rewrite Hc in Hh. injection Hh as ->. cbn [rep c_data c_left c_right] in *. split; [done|]. exists (Some new), pr. unfold h' at 1.
    rewrite lookup_insert_eq. split_and!; [done|done| |apply Hsub; [tauto|done|done]].
    exists pl, None. unfold h' at 1. rewrite lookup_insert_ne, lookup_insert_eq by done. split_and!; [done|apply Hsub; [tauto|done|done]|done].
  - cbn [rep]. split; [done|]. exists pl, pr. rewrite Hframe by (rewrite !not_elem_of_cons; split_and!; [done|by intros <-|by intros ?%not_elem_of_nil]).
    split; [done|]. apply elem_of_cons in Hin as [->|[Hin|Hin]%elem_of_app]; [done| |].
    + split; [by apply IHl|]. rewrite graft_left_absent by (by apply Hd). apply Hsub; [by apply Hd|done|done].
    + split; [|by apply IHr]. rewrite graft_left_absent by (by intros ?%Hd). apply Hsub; [by intros ?%Hd|done|done].
Qed.

Lemma rep_graft_right h a c new d t : h !! a = Some c -> new ∉ addrs t -> NoDup (addrs t) -> forall p, rep h p t -> a ∈ addrs t ->
  rep (<[a := Cell (c_data c) (c_left c) (Some new)]> (<[new := Cell d None (c_right c)]> h)) p (graft_right a new d t).
Proof.
  intros Hc. induction t as [|b x l IHl r IHr]; [by intros _ _ p _ ?%not_elem_of_nil|]. cbn [addrs graft_right rep].
  rewrite not_elem_of_cons, not_elem_of_app. intros (Hnb & Hnl & Hnr) [Hb (Hl & Hd & Hr)%NoDup_app]%NoDup_cons p (-> & pl & pr & Hh & Rl & Rr) Hin.
  rewrite not_elem_of_app in Hb. set (h' := <[a:=_]> _).
  assert (Hframe : forall u, u ∉ [a; new] -> h' !! u = h !! u).
  { intros u Hu. unfold h'. rewrite !lookup_insert_ne; [done|set_solver|set_solver]. }
  assert (Hsub : forall u q, a ∉ addrs u -> new ∉ addrs u -> rep h q u -> rep h' q u).
  { intros u q H1 H2. apply rep_frame. intros e He. apply Hframe. rewrite !not_elem_of_cons. split_and!; [by intros ->|by intros ->|by intros ?%not_elem_of_nil]. }
  case_decide as E; [subst b|].
  - rewrite Hc in Hh. injection Hh as ->. cbn [rep c_data c_left c_right] in *. split; [done|]. exists pl, (Some new). unfold h' at 1.
    rewrite lookup_insert_eq. split_and!; [done|apply Hsub; [tauto|done|done]|done|].
    exists None, pr. unfold h' at 1. rewrite lookup_insert_ne, lookup_insert_eq by done. split_and!; [done|done|apply Hsub; [tauto|done|done]].
  - cbn [rep]. split; [done|]. exists pl, pr. rewrite Hframe by (rewrite !not_elem_of_cons; split_and!; [done|by intros <-|by intros ?%not_elem_of_nil]).
    split; [done|]. apply elem_of_cons in Hin as [->|[Hin|Hin]%elem_of_app]; [done| |].
    + split; [by apply IHl|]. rewrite graft_right_absent by (by apply Hd). apply Hsub; [by apply Hd|done|done].
    + split; [|by apply IHr]. rewrite graft_right_absent by (by intros ?%Hd). apply Hsub; [by intros ?%Hd|done|done].
Qed.

Lemma fresh_absent h p t new : rep h p t -> h !! new = None -> new ∉ addrs t.
Proof. intros Hr Hn Hin. destruct (rep_alive h t p new Hr Hin) as [c Hc]. congruence. Qed.

Lemma graft_ok tree h t a new h' t' : tree_ok tree h t -> rep h' (t_root tree) t' -> addrs t' ≡ₚ new :: addrs t -> new ∉ addrs t -> a ∈ addrs t ->
  tree_ok (grown tree) h' t'.
Proof.
  intros [Hrep Hnd Hsz] Hr' Hp Hnew Ha. split; [done|rewrite Hp; by constructor|].
  cbn [grown t_size]. rewrite Hsz, wrap_s_add_l, <- !length_addrs, (Permutation_length Hp) by lia. f_equal. cbn [length]. lia.
Qed.

Lemma ins_spec tree h t a new d : tree_ok tree h t -> a ∈ addrs t -> h !! new = None ->
  exists c, h !! a = Some c
   /\ btree_ins_left tree (Some a) d (Some new) h
      = Some (grown tree, <[a := Cell (c_data c) (Some new) (c_right c)]> (<[new := Cell d (c_left c) None]> h), t_size (grown tree))
   /\ btree_ins_right tree (Some a) d (Some new) h
      = Some (grown tree, <[a := Cell (c_data c) (c_left c) (Some new)]> (<[new := Cell d None (c_right c)]> h), t_size (grown tree)).
Proof.
  intros [Hrep Hnd Hsz] Ha Hnew. destruct (rep_alive h t _ a Hrep Ha) as [c Hc]. assert (Hne : new <> a) by congruence.
  exists c. split; [done|]. unfold btree_ins_left, btree_ins_right, new_node. cbn [mbind option_bind].
  rewrite (lookup_insert_ne h new a), Hc by done. cbn [mbind option_bind].
  rewrite !insert_insert_eq, (lookup_insert_ne h new a (Cell d (c_left c) None)), (lookup_insert_ne h new a (Cell d None (c_right c))), Hc by done.
  done.
Qed.

(** An insertion below a node of the tree puts the new node between it and its
    child, counts it, and leaves every node where it was. *)
Theorem btree_insert tree h t a new d : tree_ok tree h t -> a ∈ addrs t -> h !! new = None ->
  (exists h', btree_ins_left tree (Some a) d (Some new) h = Some (grown tree, h', t_size (grown tree))
     /\ tree_ok (grown tree) h' (graft_left a new d t) /\ forall b, b <> new -> b <> a -> h' !! b = h !! b)
  /\ (exists h', btree_ins_right tree (Some a) d (Some new) h = Some (grown tree, h', t_size (grown tree))
     /\ tree_ok (grown tree) h' (graft_right a new d t) /\ forall b, b <> new -> b <> a -> h' !! b = h !! b).
Proof.
  intros Hok Ha Hnew. destruct (ins_spec tree h t a new d Hok Ha Hnew) as (c & Hc & -> & ->).
  pose proof Hok as [Hrep Hnd Hsz]. pose proof (fresh_absent _ _ _ _ Hrep Hnew) as Habs.
  split; eexists; (split; [done|split; [|by intros; rewrite !lookup_insert_ne]]).
  - eapply graft_ok; [done|by apply rep_graft_left|by apply graft_left_addrs|done|done].
  - eapply graft_ok; [done|by apply rep_graft_right|by apply graft_right_addrs|done|done].
Qed.

(** The first node of an empty tree becomes its root; without memory nothing
    changes; a NULL node in a tree that has a root is dereferenced. *)
Theorem btree_insert_null mode n root d new h :
  btree_ins_left (BTree 0 mode None) None d (Some new) h = Some (BTree 1 mode (Some new), <[new := Cell d None None]> h, 1)
  /\ tree_ok (BTree 1 mode (Some new)) (<[new := Cell d None None]> h) (BNode new d BNull BNull)
  /\ (forall tree node, btree_ins_left tree node d None h = Some (tree, h, -1) /\ btree_ins_right tree node d None h = Some (tree, h, -1))
  /\ btree_ins_left (BTree n mode (Some root)) None d (Some new) h = None
  /\ btree_ins_right (BTree n mode (Some root)) None d (Some new) h = None.
Proof.
  split_and!; try done. split; [|cbn; apply NoDup_cons; split; [set_solver|constructor]|done].
  cbn. split; [done|]. exists None, None. by rewrite lookup_insert_eq.
Qed.

(** ** Destruction *)

Lemma btree_destroy_spec tree h t : tree_ok tree h t ->
  exists h', btree_destroy tree h = Some (BTree 0 (t_free_mode tree) None, freed_by (t_free_mode tree) t, h')
    /\ forall a, h' !! a = if decide (a ∈ addrs t) then None else h !! a.
Proof.
  intros [Hrep Hnd Hsz]. unfold btree_destroy.
  destruct (node_destroy_spec t (t_free_mode tree) (heap_fuel h) h (t_root tree) Hrep Hnd) as (h' & -> & H'); [by eapply count_fuel|].
  exists h'. by split.
Qed.

(** [btree_destroy] on the heap does what it does on the value of the tree, and
    the nodes of the tree, no others, leave the heap. *)
Theorem btree_destroy_exact tree h t : tree_ok tree h t ->
  exists h', btree_destroy tree h = Some (BTree 0 (t_free_mode tree) None, (Huffman.btree_node_destroy t (t_free_mode tree)).2, h')
    /\ forall a, h' !! a = if decide (a ∈ addrs t) then None else h !! a.
Proof. rewrite destroy_value. apply btree_destroy_spec. Qed.

(** ** A tree from its first node to its destruction *)

(** An insertion with the address that the pool hands out: at the root of an
    empty tree, or on a side of a node. *)
Inductive insertion := AtRoot (new : positive) (d : A) | Below (left : bool) (a new : positive) (d : A).

Definition ins_new (op : insertion) : positive := match op with AtRoot new _ | Below _ _ new _ => new end.
Definition ins_data (op : insertion) : A := match op with AtRoot _ d | Below _ _ _ d => d end.

Definition insert_op (op : insertion) (tree : btree) (h : heap) : option (btree * heap * Z) :=
  match op with
  | AtRoot new d => btree_ins_left tree None d (Some new) h
  | Below true a new d => btree_ins_left tree (Some a) d (Some new) h
  | Below false a new d => btree_ins_right tree (Some a) d (Some new) h
  end.

Fixpoint build (ops : list insertion) (tree : btree) (h : heap) : option (btree * heap) :=
  match ops with
  | [] => Some (tree, h)
  | op :: ops => '(tree, h, _) ← insert_op op tree h; build ops tree h
  end.

(** The pool hands out addresses that are not in use, and the nodes named are
    those of the tree. *)
Fixpoint ops_ok (used : list positive) (h : heap) (ops : list insertion) : Prop :=
  match ops with
  | [] => True
  | op :: ops =>
      ins_new op ∉ used /\ h !! ins_new op = None /\ (match op with AtRoot _ _ => used = [] | Below _ a _ _ => a ∈ used end)
      /\ ops_ok (ins_new op :: used) h ops
  end.

Lemma graft_left_data a new d t : a ∈ addrs t -> NoDup (addrs t) -> postorder (graft_left a new d t) ≡ₚ d :: postorder t.
Proof.
  induction t as [|b x l IHl r IHr]; [by intros ?%not_elem_of_nil|]. cbn [addrs graft_left postorder].
  intros Hin [Hb (Hl & Hd & Hr)%NoDup_app]%NoDup_cons. rewrite not_elem_of_app in Hb. case_decide as E; [subst b|].
  - cbn [postorder app]. rewrite <- !app_assoc. cbn [app]. by rewrite <- Permutation_middle.
  - apply elem_of_cons in Hin as [->|[Hin|Hin]%elem_of_app]; [done| |]; cbn [postorder].
    + by rewrite (IHl Hin Hl), graft_left_absent by (by apply Hd).
    + rewrite (graft_left_absent _ _ _ l) by (by intros ?%Hd). rewrite (IHr Hin Hr). cbn [app]. by rewrite <- Permutation_middle.
Qed.

Lemma graft_right_data a new d t : a ∈ addrs t -> NoDup (addrs t) -> postorder (graft_right a new d t) ≡ₚ d :: postorder t.
Proof.
  induction t as [|b x l IHl r IHr]; [by intros ?%not_elem_of_nil|]. cbn [addrs graft_right postorder].
  intros Hin [Hb (Hl & Hd & Hr)%NoDup_app]%NoDup_cons. rewrite not_elem_of_app in Hb. case_decide as E; [subst b|].
  - cbn [postorder app]. rewrite <- !app_assoc. cbn [app]. by rewrite <- !Permutation_middle.
  - apply elem_of_cons in Hin as [->|[Hin|Hin]%elem_of_app]; [done| |]; cbn [postorder].
    + by rewrite (IHl Hin Hl), graft_right_absent by (by apply Hd).
    + rewrite (graft_right_absent _ _ _ l) by (by intros ?%Hd). rewrite (IHr Hin Hr). cbn [app]. by rewrite <- Permutation_middle.
Qed.

(** What holds between two insertions into a tree that was started in [h0]. *)
Record built (h0 : heap) (used : list positive) (data : list A) (tree : btree) (h : heap) (t : btree_node A) : Prop := Built {
  bu_ok : tree_ok tree h t;
  bu_used : addrs t ≡ₚ used;
  bu_data : postorder t ≡ₚ data;
  bu_out : forall a, a ∉ used -> h !! a = h0 !! a;
  bu_new : forall a, a ∈ used -> h0 !! a = None;
}.

Lemma insert_built h0 used data tree h t op ops : built h0 used data tree h t -> ops_ok used h0 (op :: ops) ->
  exists tree' h' t' n, insert_op op tree h = Some (tree', h', n) /\ n = t_size tree' /\ t_free_mode tree' = t_free_mode tree
    /\ built h0 (ins_new op :: used) (ins_data op :: data) tree' h' t'.
Proof.
  intros [Hok Hu Hd Ho Hn] (Hf & Hfh & Hm & _). pose proof (to_addrs _ _ _ Hok) as Hnd.
  assert (Hnew : h !! ins_new op = None) by (by rewrite Ho).
  assert (Hn' : forall a, a ∈ ins_new op :: used -> h0 !! a = None) by (intros a [->|?]%elem_of_cons; auto).
  destruct op as [new d|left a new d]; cbn [ins_new ins_data insert_op] in *.
  - subst used. apply Permutation_nil_r in Hu. destruct t as [|b x l r]; [|done]. destruct Hok as [Hr _ Hsz]. cbn in Hr, Hsz, Hd.
    destruct tree as [n mode root]. cbn in Hr. change (t_size (BTree n mode root)) with n in Hsz. change (i32 (Z.of_nat _)) with 0 in Hsz. subst n root. apply Permutation_nil_l in Hd. subst data.
    eexists _, _, (BNode new d BNull BNull), _. split_and!; [reflexivity|done|done|]. split; [|done|done| |done].
    + split; [|cbn; apply NoDup_cons; split; [set_solver|constructor]|done]. cbn. split; [done|]. exists None, None. by rewrite lookup_insert_eq.
    + intros b Hb. rewrite lookup_insert_ne by (intros ->; apply Hb; by left). apply Ho. by intros ?%not_elem_of_nil.
  - assert (Ha : a ∈ addrs t) by (by rewrite Hu).
    assert (Hfr : forall b, b ∉ new :: used -> b <> new /\ b <> a /\ b ∉ used).
    { intros b. rewrite not_elem_of_cons. intros [Hb1 Hb2]. split_and!; [done|by intros ->|done]. }
    destruct (btree_insert tree h t a new d Hok Ha Hnew) as [(h1 & E1 & Ok1 & F1) (h2 & E2 & Ok2 & F2)]. destruct left.
    + exists (grown tree), h1, (graft_left a new d t), (t_size (grown tree)). split_and!; [done|done|done|]. split; [done| | | |done].
      * by rewrite graft_left_addrs, Hu.
      * by rewrite graft_left_data, Hd.
      * intros b (H1 & H2 & H3)%Hfr. rewrite F1 by done. by apply Ho.
    + exists (grown tree), h2, (graft_right a new d t), (t_size (grown tree)). split_and!; [done|done|done|]. split; [done| | | |done].
      * by rewrite graft_right_addrs, Hu.
      * by rewrite graft_right_data, Hd.
      * intros b (H1 & H2 & H3)%Hfr. rewrite F2 by done. by apply Ho.
Qed.

Lemma build_built h0 ops : forall used data tree h t, built h0 used data tree h t -> ops_ok used h0 ops ->
  exists tree' h' t', build ops tree h = Some (tree', h') /\ t_free_mode tree' = t_free_mode tree
    /\ built h0 (rev (map ins_new ops) ++ used) (rev (map ins_data ops) ++ data) tree' h' t'.
Proof.
  induction ops as [|op ops IH]; intros used data tree h t Hb Hok; cbn [build map rev length].
  - by exists tree, h, t.
  - destruct (insert_built _ _ _ _ _ _ _ _ Hb Hok) as (t1 & h1 & v1 & n & E & Hn & Hm & Hb1). rewrite E. cbn [mbind option_bind].
    destruct (IH _ _ _ _ _ Hb1 (proj2 (proj2 (proj2 Hok)))) as (t2 & h2 & v2 & -> & Hm2 & Hb2).
    exists t2, h2, v2. rewrite <- !app_assoc. split_and!; [done|by rewrite Hm2|done].
Qed.

(** C35: A binary tree stays well formed under every sequence of insertions, its
    size, an [int], counts them, and its destruction resets the header and gives
    the memory back exactly: no node of it remains, nothing else is touched, and
    each payload is released once if the tree owns its payloads and not at all
    otherwise. *)
Theorem btree_lifecycle mode h0 ops (Hok : ops_ok [] h0 ops) :
  exists tree h t, build ops (btree_init mode) h0 = Some (tree, h) /\ tree_ok tree h t
    /\ btree_size (Some tree) = i32 (Z.of_nat (length ops))
    /\ (Z.of_nat (length ops) < 2 ^ 31 -> btree_size (Some tree) = Z.of_nat (length ops))
    /\ exists freed, btree_destroy tree h = Some (BTree 0 mode None, freed, h0)
         /\ freed ≡ₚ (match mode with FREE_MODE_NOTHING => [] | _ => map ins_data ops end).
Proof.
  destruct (build_built h0 ops [] [] (btree_init mode) h0 BNull) as (tree & h & t & E & Hm & [Htok Hu Hd Ho Hn]); [|done|].
  - split; [split; [done|constructor|done]|done|done|done|by intros a ?%not_elem_of_nil].
  - assert (Hs : btree_size (Some tree) = i32 (Z.of_nat (length ops))).
    { cbn [btree_size]. rewrite (to_size _ _ _ Htok), <- length_addrs, (Permutation_length Hu). by rewrite app_nil_r, length_rev, length_map. }
    exists tree, h, t. split_and!; [done|done|done|intros Hfew; rewrite Hs; apply i32_small; unfold in_i32; lia|].
    destruct (btree_destroy_spec tree h t Htok) as (h' & -> & Hh'). exists (freed_by (t_free_mode tree) t). split.
    + rewrite Hm. cbn [btree_init t_free_mode]. f_equal. f_equal. apply map_eq. intros a. rewrite Hh'. case_decide as Hin; rewrite Hu in Hin; [symmetry; by apply Hn|by apply Ho].
    + rewrite Hm. cbn [btree_init t_free_mode]. rewrite app_nil_r in Hd. unfold freed_by. destruct mode; [done| |]; rewrite Hd; symmetry; apply Permutation_rev.
Qed.

(** Fewer than 2^31 nodes: [btree_rm_left] at the root releases the left subtree and subtracts its
    nodes, but the root still points to it: a later [btree_destroy] reads a
    node that was released.  [btree_rm_right] is the same on the other side. *)
Theorem btree_rm_dangles tree h a d l r : tree_ok tree h (BNode a d l r) -> Z.of_nat (btree_node_count (BNode a d l r)) < 2 ^ 31 ->
  (exists h' freed, btree_rm_left tree (Some a) h = Some (BTree (t_size tree - Z.of_nat (btree_node_count l)) (t_free_mode tree) (t_root tree),
       freed, h', t_size tree - Z.of_nat (btree_node_count l))
     /\ (l <> BNull -> btree_destroy (BTree (t_size tree - Z.of_nat (btree_node_count l)) (t_free_mode tree) (t_root tree)) h' = None))
  /\ (exists h' freed, btree_rm_right tree (Some a) h = Some (BTree (t_size tree - Z.of_nat (btree_node_count r)) (t_free_mode tree) (t_root tree),
       freed, h', t_size tree - Z.of_nat (btree_node_count r))
     /\ (r <> BNull -> btree_destroy (BTree (t_size tree - Z.of_nat (btree_node_count r)) (t_free_mode tree) (t_root tree)) h' = None)).
Proof.
  intros [Hrep Hnd Hsz] Hfew. cbn [rep addrs btree_node_count] in *.
  rewrite i32_small in Hsz by (unfold in_i32; lia).
  assert (Hsub : forall t : btree_node A, (btree_node_count t <= btree_node_count l \/ btree_node_count t <= btree_node_count r)%nat ->
    i32 (Z.of_nat (btree_node_count t)) = Z.of_nat (btree_node_count t)
    /\ i32 (t_size tree - Z.of_nat (btree_node_count t)) = t_size tree - Z.of_nat (btree_node_count t)).
  { intros t Ht. split; apply i32_small; unfold in_i32; lia. }
  destruct Hrep as (Hroot & pl & pr & Hc & Rl & Rr).
  apply NoDup_cons in Hnd as [Ha (Hl & Hd & Hr)%NoDup_app]. rewrite elem_of_app in Ha.
  unfold btree_rm_left, btree_rm_right. rewrite Hc. cbn [mbind option_bind c_left c_right]. split.
  - destruct (node_destroy_spec l (t_free_mode tree) (heap_fuel h) h pl Rl Hl) as (h1 & -> & H1); [by eapply count_fuel|].
    cbn [mbind option_bind]. rewrite (proj1 (Hsub l ltac:(lia))), (proj2 (Hsub l ltac:(lia))). rewrite (proj2 (Z.ltb_lt _ _)) by lia. cbn [negb]. do 2 eexists. split; [done|]. intros Hne.
    destruct l as [|b x l1 l2]; [done|]. cbn [rep] in Rl. destruct Rl as (-> & _).
    unfold btree_destroy. cbn [t_root t_free_mode]. rewrite Hroot. unfold heap_fuel.
    destruct (size h1) as [|n] eqn:En; [exfalso; apply map_size_empty_inv in En; specialize (H1 a); subst h1; rewrite decide_False, lookup_empty in H1 by tauto; congruence|].
    cbn [node_destroy]. rewrite (H1 a), decide_False, Hc by tauto. cbn [mbind option_bind c_left]. rewrite (H1 b), decide_True by (by left).
    done.
  - destruct (node_destroy_spec r (t_free_mode tree) (heap_fuel h) h pr Rr Hr) as (h1 & -> & H1); [by eapply count_fuel|].
    cbn [mbind option_bind]. rewrite (proj1 (Hsub r ltac:(lia))), (proj2 (Hsub r ltac:(lia))). rewrite (proj2 (Z.ltb_lt _ _)) by lia. cbn [negb]. do 2 eexists. split; [done|]. intros Hne.
    assert (Rl1 : rep h1 pl l).
    { eapply rep_frame; [|exact Rl]. intros b Hb. rewrite H1, decide_False; [done|]. by apply Hd. }
    assert (Ha1 : h1 !! a = Some (Cell d pl pr)) by (rewrite H1, decide_False by tauto; done).
    assert (Hfuel : (btree_node_count l < size h1)%nat).
    { clear Hsub. assert (Hsub : {[a]} ∪ list_to_set (C := gset positive) (addrs l) ⊆ dom h1).
      { intros b. rewrite elem_of_union, elem_of_singleton, elem_of_list_to_set, elem_of_dom. intros [->|Hb]; [by eexists|by eapply rep_alive]. }
      apply subseteq_size in Hsub. rewrite size_union, size_singleton, size_list_to_set, size_dom, length_addrs in Hsub by (done || set_solver). lia. }
    destruct r as [|b x r1 r2]; [done|]. cbn [rep] in Rr. destruct Rr as (-> & _).
    unfold btree_destroy. cbn [t_root t_free_mode]. rewrite Hroot. unfold heap_fuel. cbn [node_destroy]. rewrite Ha1. cbn [mbind option_bind c_left].
    destruct (node_destroy_spec l (t_free_mode tree) (size h1) h1 pl Rl1 Hl Hfuel) as (h2 & -> & H2). cbn [mbind option_bind].
    rewrite (H2 a), decide_False, Ha1 by tauto. cbn [mbind option_bind c_right].
    destruct (size h1) as [|n]; [lia|]. cbn [node_destroy]. rewrite (H2 b), decide_False, (H1 b), decide_True; [done|by left|].
    intros Hb. apply (Hd b Hb). by left.
Qed.
End BTree.

(** Two insertions as [btree_test] makes them. *)
Definition sample_heap : gmap positive (@cell Z) := {[1%positive := Cell 10 (Some 2%positive) None; 2%positive := Cell 20 None None]}.
Definition sample_btree : btree_node Z := BNode 1%positive 10 (BNode 2%positive 20 BNull BNull) BNull.
Definition sample_header : btree := BTree 2 FREE_MODE_FREE (Some 1%positive).

(** A heap with a node of another tree. *)
Definition sample_heap2 : gmap positive (@cell Z) := {[7%positive := Cell 70 None None]}.

Lemma sample_ok : tree_ok sample_header sample_heap sample_btree.
Proof.
  split; [|by vm_compute; repeat constructor; set_solver|done]. cbn. split; [done|]. exists (Some 2%positive), None. split; [done|].
  split; [|done]. split; [done|]. by exists None, None.
Qed.

Lemma btree_insert_witness : exists h', btree_ins_left sample_header (Some 2%positive) 30 (Some 3%positive) sample_heap
  = Some (grown sample_header, h', 3).
Proof.
  destruct (proj1 (btree_insert sample_header sample_heap sample_btree 2%positive 3%positive 30 sample_ok ltac:(cbn; set_solver) ltac:(done)))
    as (h' & H & _). by exists h'.
Defined.

Definition sample_ops : list (@insertion Z) := [AtRoot 1%positive 10; Below true 1%positive 2%positive 20; Below false 1%positive 3%positive 30].

Lemma btree_lifecycle_witness : exists tree h t, build sample_ops (btree_init FREE_MODE_FREE) sample_heap2 = Some (tree, h)
  /\ tree_ok tree h t /\ btree_size (Some tree) = 3 /\ (3 < 2 ^ 31 -> btree_size (Some tree) = 3)
  /\ exists freed, btree_destroy tree h = Some (BTree 0 FREE_MODE_FREE None, freed, sample_heap2) /\ freed ≡ₚ [10; 20; 30].
Proof.
  apply (btree_lifecycle FREE_MODE_FREE sample_heap2 sample_ops). cbn. split_and!; try done; try set_solver.
Defined.

Lemma btree_destroy_exact_witness : exists h', btree_destroy sample_header sample_heap = Some (BTree 0 FREE_MODE_FREE None, [20; 10], h').
Proof. destruct (btree_destroy_exact sample_header sample_heap sample_btree sample_ok) as (h' & H & _). by exists h'. Defined.

Lemma btree_rm_dangles_witness : exists h' freed, btree_rm_left sample_header (Some 1%positive) sample_heap
    = Some (BTree 1 FREE_MODE_FREE (Some 1%positive), freed, h', 1)
  /\ btree_destroy (BTree 1 FREE_MODE_FREE (Some 1%positive)) h' = None.
Proof.
  destruct (proj1 (btree_rm_dangles sample_header sample_heap _ _ _ _ sample_ok eq_refl)) as (h' & freed & H & Hd). exists h', freed.
  split; [exact H|]. by apply Hd.
Defined.
