(* ===== verification/Encode.v ===== *)
(** * Packet contents: compression and cipher combined (src/encode.c)

    The result is the C return value with what [*output] receives
    ([None] when [*output] is left alone); the outer [None] is a failed
    assertion or a memory error. *)

From S2P Require Import Prelude ByteOps Huffman HuffmanRound.

(** The first two bytes read as a [short]. *)
Definition first_short (p : list Z) : option Z := bs ← read_bytes p 0 2; Some (load_i16 bs).

(** The assertion that the first [short] is not zero. *)
Definition assert_counted (p : list Z) : option unit :=
  s ← first_short p; if decide (s = 0) then None else Some tt.

Definition sftt_buffer_encode (input : list Z) (zip crypt : bool) : option (Z * option (list Z)) :=
  let len := Z.of_nat (length input) in
  if decide (len = 0) then Some (0, None) else
  if zip then
    r ← huffman_compress input;
    output ← r;
    let output_len := Z.of_nat (length output) in
    _ ← assert_counted output;
    if crypt then
      output ← sftt_encrypt_func output output_len; Some (output_len, Some output)
    else Some (output_len, Some output)
  else if crypt then
    let output := zeroed (length input) in
    output ← sftt_encrypt_func output len; Some (len, Some output)
  else
    output ← write_bytes (zeroed (length input)) 0 input; Some (len, Some output).

Definition sftt_buffer_decode (input : list Z) (unzip decrypt : bool) : option (Z * option (list Z)) :=
  let len := Z.of_nat (length input) in
  if decide (len = 0) then Some (0, None) else
  if decrypt then
    tmp ← write_bytes (zeroed (length input)) 0 input;
    tmp ← sftt_decrypt_func tmp len;
    if unzip then
      _ ← assert_counted tmp;
      r ← huffman_decompress tmp;
      Some (match r with None => (-1, None) | Some (n, output) => (n, Some output) end)
    else
      output ← write_bytes (zeroed (length input)) 0 tmp; Some (len, Some output)
  else if unzip then
    _ ← assert_counted input;
    r ← huffman_decompress input;
    Some (match r with None => (-1, None) | Some (n, output) => (n, Some output) end)
  else
    output ← write_bytes (zeroed (length input)) 0 input; Some (len, Some output).

(** ** Lemmas *)

Lemma copy_whole (bs : list Z) : write_bytes (zeroed (length bs)) 0 bs = Some bs.
Proof.
  pose proof (write_bytes_prefix (zeroed (length bs)) bs []) as H.
  rewrite !app_nil_r in H. apply H. apply length_replicate.
Qed.

Lemma compressed_counted input out :
  input <> [] -> Forall is_byte input -> Z.of_nat (length input) < 2 ^ 22 ->
  huffman_compress input = Some (Some out) -> assert_counted out = Some tt.
Proof.
  intros Hne Hb Hl E.
  destruct (huffman_compress_spec input Hne Hb Hl) as (cf & root & codes & out' & Hc & E' & Hp).
  rewrite E in E'. injection E' as <-. destruct (pk_header _ _ _ _ Hp) as (body & ->).
  unfold assert_counted, first_short. rewrite read_bytes_prefix by (by rewrite length_le_bytes).
  cbn [mbind option_bind].
  pose proof (entries_length cf) as He. rewrite (co_length _ _ _ _ Hc) in He. unfold CHARSET_SIZE in He.
  pose proof (co_nonempty _ _ _ _ Hc) as Hn.
  assert (0 < length (entries cf))%nat by (destruct (entries cf); [done|simpl; lia]).
  rewrite load_i16_store by (unfold in_i16; lia). rewrite decide_False by lia. done.
Qed.

Lemma zip_roundtrip input :
  input <> [] -> Forall is_byte input -> Z.of_nat (length input) < 2 ^ 22 ->
  exists out, huffman_compress input = Some (Some out) /\ Forall is_byte out /\ out <> []
    /\ assert_counted out = Some tt
    /\ huffman_decompress out = Some (Some (Z.of_nat (length input), input)).
Proof.
  intros Hne Hb Hl.
  destruct (huffman_compress_spec input Hne Hb Hl) as (cf & root & codes & out & Hc & E & Hp).
  exists out. split; [done|]. split; [apply (pk_bytes _ _ _ _ Hp)|]. split.
  - intros ->. pose proof (pk_length _ _ _ _ Hp) as Hpl. unfold packed_length in Hpl. simpl in Hpl. lia.
  - split; [by eapply compressed_counted|]. by eapply huffman_decompress_spec.
Qed.

(** The cipher is undone on the copy made by the decoder. *)
Lemma cipher_roundtrip (out : list Z) :
  Forall is_byte out -> exists enc, sftt_encrypt_func out (Z.of_nat (length out)) = Some enc
    /\ length enc = length out /\ sftt_decrypt_func enc (Z.of_nat (length enc)) = Some out.
Proof.
  intros Hb. destruct (encrypt_total out) as (enc & E & Hl & _).
  exists enc. split; [done|]. split; [done|]. rewrite Hl. by apply decrypt_encrypt.
Qed.

(** ** The properties *)

(** C25: [sftt_buffer_decode] undoes [sftt_buffer_encode] when contents are
    sent plain, compressed, or compressed and enciphered: for a non-empty
    buffer below 4 MiB the encoder succeeds and the decoder, called with the
    same flags, returns the original bytes and their number. *)
Theorem buffer_roundtrip input zip crypt
    (Hne : input <> []) (Hbytes : Forall is_byte input)
    (Hlen : Z.of_nat (length input) < 2 ^ 22) (Hmode : zip = true \/ crypt = false) :
  exists out, sftt_buffer_encode input zip crypt = Some (Z.of_nat (length out), Some out)
    /\ sftt_buffer_decode out zip crypt = Some (Z.of_nat (length input), Some input).
Proof.
  assert (Hn : Z.of_nat (length input) <> 0) by (destruct input; simpl; [done|lia]).
  unfold sftt_buffer_encode. rewrite decide_False by done.
  destruct zip.
  - destruct (zip_roundtrip input Hne Hbytes Hlen) as (out & E & Hb & Hno & Ha & Hd).
    rewrite E. cbn [mbind option_bind]. rewrite Ha. cbn [mbind option_bind].
    assert (Hlo : Z.of_nat (length out) <> 0) by (destruct out; simpl; [done|lia]).
    destruct crypt.
    + destruct (cipher_roundtrip out Hb) as (enc & Ee & Hl & Edec). rewrite Ee. cbn [mbind option_bind].
      exists enc. rewrite Hl. split; [done|].
      unfold sftt_buffer_decode. rewrite decide_False by (rewrite Hl; done).
      rewrite copy_whole. cbn [mbind option_bind]. rewrite Edec. cbn [mbind option_bind].
      rewrite Ha. cbn [mbind option_bind]. by rewrite Hd.
    + exists out. split; [done|]. unfold sftt_buffer_decode. rewrite decide_False by done.
      rewrite Ha. cbn [mbind option_bind]. by rewrite Hd.
  - destruct Hmode as [?| ->]; [done|]. rewrite copy_whole. cbn [mbind option_bind].
    exists input. split; [done|]. unfold sftt_buffer_decode. rewrite decide_False by done.
    by rewrite copy_whole.
Qed.

Lemma buffer_roundtrip_witness :
  exists out, sftt_buffer_encode [104; 105; 104] true true = Some (Z.of_nat (length out), Some out)
    /\ sftt_buffer_decode out true true = Some (3, Some [104; 105; 104]).
Proof.
  apply (buffer_roundtrip [104; 105; 104] true true); [done| |done|by left].
  by apply (bool_decide_unpack _).
Defined.

(** Enciphering without compression loses the contents: the output
    buffer is never filled from the input, so two buffers of the same length
    are encoded alike, and decoding yields zeros. *)
Theorem crypt_only_loses_input input input'
    (Hne : input <> []) (Hsame : length input = length input') :
  sftt_buffer_encode input false true = sftt_buffer_encode input' false true
  /\ exists out, sftt_buffer_encode input false true = Some (Z.of_nat (length input), Some out)
       /\ sftt_buffer_decode out false true
          = Some (Z.of_nat (length input), Some (zeroed (length input))).
Proof.
  assert (Hn : Z.of_nat (length input) <> 0) by (destruct input; simpl; [done|lia]).
  unfold sftt_buffer_encode. rewrite <- Hsame. rewrite decide_False by done.
  assert (Hz : length (zeroed (length input)) = length input) by apply length_replicate.
  destruct (cipher_roundtrip (zeroed (length input))) as (enc & Ee & Hl & Ed).
  { apply Forall_replicate. unfold is_byte. lia. }
  rewrite Hz in Ee, Hl. rewrite Ee. cbn [mbind option_bind]. split; [done|].
  exists enc. split; [done|]. unfold sftt_buffer_decode. rewrite decide_False by (rewrite Hl; done).
  rewrite copy_whole. cbn [mbind option_bind]. rewrite Ed. cbn [mbind option_bind].
  rewrite Hl. rewrite <- Hz at 1. by rewrite copy_whole.
Qed.

Lemma crypt_only_loses_input_witness :
  sftt_buffer_encode [1; 2] false true = sftt_buffer_encode [3; 4] false true
  /\ exists out, sftt_buffer_encode [1; 2] false true = Some (2, Some out)
       /\ sftt_buffer_decode out false true = Some (2, Some [0; 0]).
Proof. exact (crypt_only_loses_input [1; 2] [3; 4] ltac:(done) eq_refl). Defined.
