(* ===== verification/Layout.v ===== *)
(** * C structures in memory

    The layout rules of the x86-64 ABI for the types of req_resp.x, and the
    byte order of their integer fields.  The host is little-endian: [htons]
    and [htonl] reverse the bytes of the field in place. *)

From S2P Require Import Prelude.

Inductive ctype :=
  | CChar | CShort | CInt | CUInt
  | CArr (t : ctype) (n : nat)
  | CStruct (fields : list (string * ctype)).

Definition align_up (n a : nat) : nat := ((n + a - 1) / a * a)%nat.

Fixpoint align_of (t : ctype) : nat :=
  match t with
  | CChar => 1
  | CShort => 2
  | CInt | CUInt => 4
  | CArr t _ => align_of t
  | CStruct fs =>
      (fix go (fs : list (string * ctype)) : nat :=
         match fs with [] => 1%nat | (_, t) :: fs => Nat.max (align_of t) (go fs) end) fs
  end.

(** The end of the fields laid out from offset [pos]. *)
Fixpoint size_of (t : ctype) : nat :=
  match t with
  | CChar => 1
  | CShort => 2
  | CInt | CUInt => 4
  | CArr t n => size_of t * n
  | CStruct fs =>
      align_up
        ((fix go (pos : nat) (fs : list (string * ctype)) : nat :=
            match fs with
            | [] => pos
            | (_, t) :: fs => go (align_up pos (align_of t) + size_of t)%nat fs
            end) 0%nat fs)
        (align_of (CStruct fs))
  end.

(** The offset of a field, as [offsetof] gives it. *)
Fixpoint offset_from (pos : nat) (fs : list (string * ctype)) (f : string) : nat :=
  match fs with
  | [] => pos
  | (g, t) :: fs =>
      let start := align_up pos (align_of t) in
      if String.eqb f g then start else offset_from (start + size_of t)%nat fs f
  end.

Definition offset_of (t : ctype) (f : string) : nat :=
  match t with CStruct fs => offset_from 0%nat fs f | _ => 0%nat end.

(** The integers of a type wider than a byte: offset and width, in order. *)
Definition shift_fields (d : nat) (l : list (nat * nat)) : list (nat * nat) :=
  (fun e => ((d + e.1)%nat, e.2)) <$> l.

Fixpoint int_fields (t : ctype) : list (nat * nat) :=
  match t with
  | CChar => []
  | CShort => [(0, 2)]%nat
  | CInt | CUInt => [(0, 4)]%nat
  | CArr t n => seq 0 n ≫= fun i => shift_fields (i * size_of t) (int_fields t)
  | CStruct fs =>
      (fix go (pos : nat) (fs : list (string * ctype)) : list (nat * nat) :=
         match fs with
         | [] => []
         | (_, t) :: fs =>
             let start := align_up pos (align_of t) in
             shift_fields start (int_fields t) ++ go (start + size_of t)%nat fs
         end) 0%nat fs
  end.

(** ** Byte order *)

Definition slice (m : list Z) (off n : nat) : list Z := take n (drop off m).

Lemma length_slice (m : list Z) off n : (off + n <= length m)%nat -> length (slice m off n) = n.
Proof. intros. unfold slice. rewrite length_take, length_drop. lia. Qed.

(** Big-endian value, as read from the network. *)
Definition be_val (l : list Z) : Z := le_val (reverse l).

(** Reversal of [w] bytes in place at offset [off]. *)
Definition swap_at (m : list Z) (off w : nat) : option (list Z) :=
  bs ← read_bytes m off w; write_bytes m off (reverse bs).

Fixpoint swap_all (l : list (nat * nat)) (m : list Z) : option (list Z) :=
  match l with
  | [] => Some m
  | (off, w) :: l => m ← swap_at m off w; swap_all l m
  end.

(** Fields in increasing order, without overlap, within [pos, size). *)
Fixpoint fields_ok (pos size : nat) (l : list (nat * nat)) : bool :=
  match l with
  | [] => bool_decide (pos <= size)%nat
  | (off, w) :: l => bool_decide (pos <= off)%nat && fields_ok (off + w) size l
  end.

(** The bytes from offset [pos] on, with the listed fields reversed. *)
Fixpoint reversed_from (pos : nat) (l : list (nat * nat)) (m : list Z) : list Z :=
  match l with
  | [] => m
  | (off, w) :: l =>
      let d := (off - pos)%nat in
      take d m ++ reverse (take w (drop d m)) ++ reversed_from (off + w) l (drop (d + w) m)
  end.

Definition network_form (l : list (nat * nat)) (m : list Z) : list Z := reversed_from 0 l m.

Lemma fields_ok_bound l pos size : fields_ok pos size l = true -> (pos <= size)%nat.
Proof.
  revert pos. induction l as [|[off w] l IH]; intros pos; simpl.
  - by intros ?%bool_decide_eq_true.
  - intros [H1%bool_decide_eq_true H2%IH]%andb_prop. lia.
Qed.

Lemma swap_at_app (pre mid suf : list Z) :
  swap_at (pre ++ mid ++ suf) (length pre) (length mid) = Some (pre ++ reverse mid ++ suf).
Proof.
  unfold swap_at. rewrite read_bytes_app by done. cbn [mbind option_bind].
  apply write_bytes_app. by rewrite length_reverse.
Qed.

Lemma split_field (m : list Z) d w :
  (d + w <= length m)%nat ->
  m = take d m ++ take w (drop d m) ++ drop (d + w) m
  /\ length (take d m) = d /\ length (take w (drop d m)) = w.
Proof.
  intros H. split; [|rewrite !length_take, ?length_drop; lia].
  rewrite <- (take_drop d m) at 1. f_equal.
  rewrite <- (take_drop w (drop d m)) at 1. by rewrite drop_drop.
Qed.

Lemma swap_at_split (pre m : list Z) off d w :
  off = (length pre + d)%nat -> (d + w <= length m)%nat ->
  swap_at (pre ++ m) off w
    = Some ((pre ++ take d m ++ reverse (take w (drop d m))) ++ drop (d + w) m).
Proof.
  intros -> Hl. destruct (split_field m d w Hl) as (Hm & Hd & Hw).
  set (a := take d m) in *. set (f := take w (drop d m)) in *. set (t := drop (d + w) m) in *.
  clearbody a f t. subst m. pose proof (swap_at_app (pre ++ a) f t) as H.
  rewrite length_app, Hd, Hw, <- !app_assoc in H. rewrite H. by rewrite <- !app_assoc.
Qed.

Lemma swap_all_spec l : forall pre m,
  fields_ok (length pre) (length pre + length m) l = true ->
  swap_all l (pre ++ m) = Some (pre ++ reversed_from (length pre) l m).
Proof.
  induction l as [|[off w] l IH]; intros pre m; [done|]. cbn [fields_ok].
  intros [H1%bool_decide_eq_true H2]%andb_prop. pose proof (fields_ok_bound _ _ _ H2) as Hb.
  cbn [swap_all reversed_from]. set (d := (off - length pre)%nat).
  destruct (split_field m d w) as (_ & Hd & Hw); [lia|].
  rewrite (swap_at_split pre m off d w) by lia. cbn [mbind option_bind].
  assert (Hp : length (pre ++ take d m ++ reverse (take w (drop d m))) = (off + w)%nat)
    by (rewrite !length_app, length_reverse, Hd, Hw; lia).
  rewrite IH, Hp; [by rewrite <- !app_assoc|].
  rewrite Hp, length_drop.
  by replace (off + w + (length m - (d + w)))%nat with (length pre + length m)%nat by lia.
Qed.

Lemma length_reversed l : forall pos m,
  fields_ok pos (pos + length m) l = true -> length (reversed_from pos l m) = length m.
Proof.
  induction l as [|[off w] l IH]; intros pos m; [done|]. cbn [fields_ok].
  intros [H1%bool_decide_eq_true H2]%andb_prop. pose proof (fields_ok_bound _ _ _ H2) as Hb.
  cbn [reversed_from]. rewrite !length_app, length_reverse, !length_take, length_drop, IH.
  - rewrite length_drop. lia.
  - rewrite length_drop.
    by replace (off + w + (length m - (off - pos + w)))%nat with (pos + length m)%nat by lia.
Qed.

Lemma reversed_involutive l : forall pos m,
  fields_ok pos (pos + length m) l = true -> reversed_from pos l (reversed_from pos l m) = m.
Proof.
  induction l as [|[off w] l IH]; intros pos m; [done|]. cbn [fields_ok].
  intros [H1%bool_decide_eq_true H2]%andb_prop. pose proof (fields_ok_bound _ _ _ H2) as Hb.
  cbn [reversed_from]. set (d := (off - pos)%nat).
  destruct (split_field m d w) as (Hm & Hd & Hw); [lia|].
  set (a := take d m) in *. set (f := take w (drop d m)) in *. set (t := drop (d + w) m) in *.
  assert (Ha : length (a ++ reverse f) = (d + w)%nat) by (rewrite length_app, length_reverse; lia).
  replace (take d (a ++ reverse f ++ reversed_from (off + w) l t)) with a
    by (by rewrite <- Hd, take_app_length).
  replace (drop d (a ++ reverse f ++ reversed_from (off + w) l t))
    with (reverse f ++ reversed_from (off + w) l t) by (by rewrite <- Hd, drop_app_length).
  replace (take w (reverse f ++ reversed_from (off + w) l t)) with (reverse f)
    by (rewrite <- Hw, <- length_reverse; by rewrite take_app_length).
  replace (drop (d + w) (a ++ reverse f ++ reversed_from (off + w) l t))
    with (reversed_from (off + w) l t) by (rewrite app_assoc, <- Ha; by rewrite drop_app_length).
  rewrite reverse_involutive, IH; [done|].
  unfold t. rewrite length_drop.
  by replace (off + w + (length m - (d + w)))%nat with (pos + length m)%nat by lia.
Qed.

Lemma slice_app_r (p m : list Z) n k w :
  length p = n -> slice (p ++ m) (n + k) w = slice m k w.
Proof. intros <-. unfold slice. by rewrite drop_app_add. Qed.

Lemma slice_drop (m : list Z) n k w : slice (drop n m) k w = slice m (n + k) w.
Proof. unfold slice. by rewrite drop_drop. Qed.

(** A field of the network form is the big-endian form of the same field. *)
Lemma reversed_field l off w : forall pos m,
  fields_ok pos (pos + length m) l = true -> (off, w) ∈ l ->
  slice (reversed_from pos l m) (off - pos) w = reverse (slice m (off - pos) w).
Proof.
  induction l as [|[off0 w0] l IH]; intros pos m; [intros _ H; by apply list_elem_of_In in H|].
  cbn [fields_ok]. intros [H1%bool_decide_eq_true H2]%andb_prop Hin.
  pose proof (fields_ok_bound _ _ _ H2) as Hb. cbn [reversed_from]. set (d := (off0 - pos)%nat).
  destruct (split_field m d w0) as (Hm & Hd & Hw); [lia|].
  set (a := take d m) in *. set (f := take w0 (drop d m)) in *. set (t := drop (d + w0) m) in *.
  apply elem_of_cons in Hin as [[= -> ->]|Hin].
  - fold d. unfold slice. fold f. rewrite <- Hd at 1. rewrite drop_app_length.
    rewrite <- Hw at 1. rewrite <- (length_reverse f) at 1. by rewrite take_app_length.
  - assert (Hge : (off0 + w0 <= off)%nat).
    { clear - H2 Hin. revert H2 Hin. generalize (off0 + w0)%nat.
      induction l as [|[o v] l IH]; intros q; cbn [fields_ok]; [intros _ H; by apply list_elem_of_In in H|].
      intros [H1%bool_decide_eq_true H2]%andb_prop [[= -> ->]|Hin]%elem_of_cons; [done|].
      specialize (IH _ H2 Hin). lia. }
    replace (off - pos)%nat with (d + w0 + (off - (off0 + w0)))%nat by lia.
    assert (Ha : length (a ++ reverse f) = (d + w0)%nat) by (rewrite length_app, length_reverse; lia).
    rewrite (app_assoc a), slice_app_r by done. rewrite <- (slice_drop m).
    fold t. apply IH; [|done]. unfold t. rewrite length_drop.
    by replace (off0 + w0 + (length m - (d + w0)))%nat with (pos + length m)%nat by lia.
Qed.

Lemma slice_app_l (p m : list Z) k w : (k + w <= length p)%nat -> slice (p ++ m) k w = slice p k w.
Proof.
  intros H. unfold slice. rewrite drop_app_le by lia. apply take_app_le. rewrite length_drop. lia.
Qed.

(** Bytes outside every field stay as they are. *)
Lemma reversed_gap l off n : forall pos m,
  fields_ok pos (pos + length m) l = true -> (pos <= off)%nat ->
  Forall (fun e => (e.1 + e.2 <= off)%nat \/ (off + n <= e.1)%nat) l ->
  slice (reversed_from pos l m) (off - pos) n = slice m (off - pos) n.
Proof.
  induction l as [|[o w] l IH]; intros pos m; [done|]. cbn [fields_ok].
  intros [H1%bool_decide_eq_true H2]%andb_prop Hpos [He Hl]%Forall_cons. cbn [fst snd] in He.
  pose proof (fields_ok_bound _ _ _ H2) as Hb. cbn [reversed_from]. set (d := (o - pos)%nat).
  destruct (split_field m d w) as (Hm & Hd & Hw); [lia|].
  set (a := take d m) in *. set (f := take w (drop d m)) in *. set (t := drop (d + w) m) in *.
  destruct He as [He|He].
  - replace (off - pos)%nat with (d + w + (off - (o + w)))%nat by lia.
    assert (Ha : length (a ++ reverse f) = (d + w)%nat) by (rewrite length_app, length_reverse; lia).
    rewrite (app_assoc a), slice_app_r by done. rewrite <- (slice_drop m). fold t.
    apply IH; [|lia|done]. unfold t. rewrite length_drop.
    by replace (o + w + (length m - (d + w)))%nat with (pos + length m)%nat by lia.
  - rewrite slice_app_l by lia. rewrite Hm at 1. by rewrite slice_app_l by lia.
Qed.

(** * Every C type is laid out soundly

    For any type, the integer fields lie in order and without overlap inside
    its size; with the unfoldings of the nested recursions of [Layout]. *)

Abbreviation fields := (list (string * ctype)).

Fixpoint struct_align (fs : fields) : nat :=
  match fs with [] => 1%nat | (_, t) :: fs => Nat.max (align_of t) (struct_align fs) end.

Fixpoint struct_end (pos : nat) (fs : fields) : nat :=
  match fs with
  | [] => pos
  | (_, t) :: fs => struct_end (align_up pos (align_of t) + size_of t)%nat fs
  end.

Fixpoint struct_ints (pos : nat) (fs : fields) : list (nat * nat) :=
  match fs with
  | [] => []
  | (_, t) :: fs =>
      let start := align_up pos (align_of t) in
      shift_fields start (int_fields t) ++ struct_ints (start + size_of t)%nat fs
  end.

Lemma align_of_struct fs : align_of (CStruct fs) = struct_align fs.
Proof. reflexivity. Qed.

Lemma size_of_struct fs : size_of (CStruct fs) = align_up (struct_end 0 fs) (align_of (CStruct fs)).
Proof. reflexivity. Qed.

Lemma int_fields_struct fs : int_fields (CStruct fs) = struct_ints 0 fs.
Proof. reflexivity. Qed.

Lemma ctype_fields_ind (P : ctype -> Prop) :
  P CChar -> P CShort -> P CInt -> P CUInt -> (forall t n, P t -> P (CArr t n)) ->
  (forall fs, Forall (fun f => P f.2) fs -> P (CStruct fs)) -> forall t, P t.
Proof.
  intros H1 H2 H3 H4 H5 H6. fix IH 1. intros [| | | |t n|fs]; [done..| |].
  - apply H5, IH.
  - apply H6. induction fs as [|[f t] fs IHfs]; [constructor|]. constructor; [apply IH|exact IHfs].
Qed.

Lemma align_of_pos t : (1 <= align_of t)%nat.
Proof.
  induction t as [| | | |t n IH|fs IH] using ctype_fields_ind; [simpl; lia..| |]; [done|].
  rewrite align_of_struct. destruct fs as [|[f t] fs]; [done|]. cbn [struct_align]. apply Forall_cons in IH as [IH _]. simpl in IH. lia.
Qed.

Lemma align_up_le n a : (1 <= a)%nat -> (n <= align_up n a)%nat.
Proof.
  intros Ha. unfold align_up. pose proof (Nat.div_mod (n + a - 1) a ltac:(lia)) as H1.
  pose proof (Nat.mod_upper_bound (n + a - 1) a ltac:(lia)) as H2. nia.
Qed.

(** ** Field lists *)

Lemma fields_ok_weaken l : forall p s p' s', fields_ok p s l = true -> (p' <= p)%nat -> (s <= s')%nat -> fields_ok p' s' l = true.
Proof.
  induction l as [|[off w] l IH]; intros p s p' s'; cbn [fields_ok].
  - intros H%bool_decide_eq_true ? ?. apply bool_decide_eq_true. lia.
  - intros [H1%bool_decide_eq_true H2]%andb_prop ? ?. apply andb_true_intro. split; [apply bool_decide_eq_true; lia|].
    by eapply IH.
Qed.

Lemma fields_ok_shift l : forall p s d, fields_ok p s l = true -> fields_ok (d + p) (d + s) (shift_fields d l) = true.
Proof.
  induction l as [|[off w] l IH]; intros p s d; cbn [fields_ok shift_fields fmap list_fmap].
  - intros H%bool_decide_eq_true. apply bool_decide_eq_true. lia.
  - intros [H1%bool_decide_eq_true H2]%andb_prop. apply andb_true_intro. split; [apply bool_decide_eq_true; simpl; lia|].
    simpl. rewrite <- Nat.add_assoc. by apply IH.
Qed.

Lemma fields_ok_app l1 : forall p m s l2, fields_ok p m l1 = true -> fields_ok m s l2 = true -> fields_ok p s (l1 ++ l2) = true.
Proof.
  induction l1 as [|[off w] l1 IH]; intros p m s l2; cbn [fields_ok app].
  - intros H%bool_decide_eq_true Hl. eapply fields_ok_weaken; [exact Hl|done|done].
  - intros [H1%bool_decide_eq_true H2]%andb_prop Hl. apply andb_true_intro. split; [by apply bool_decide_eq_true|]. by eapply IH.
Qed.

Lemma shift_fields_shift a b l : shift_fields a (shift_fields b l) = shift_fields (a + b) l.
Proof. unfold shift_fields. rewrite <- list_fmap_compose. apply list_fmap_ext. intros i [o w] _. simpl. f_equal. lia. Qed.

Lemma shift_fields_app d l1 l2 : shift_fields d (l1 ++ l2) = shift_fields d l1 ++ shift_fields d l2.
Proof. apply fmap_app. Qed.

Lemma array_ok k l n : fields_ok 0 k l = true -> forall a,
  fields_ok (a * k) ((a + n) * k) (seq a n ≫= fun i => shift_fields (i * k) l) = true.
Proof.
  intros Hl. induction n as [|n IH]; intros a; cbn [seq mbind list_bind].
  - apply bool_decide_eq_true. lia.
  - eapply fields_ok_app; [|replace (a + S n)%nat with (S a + n)%nat by lia; apply IH].
    replace (a * k)%nat with (a * k + 0)%nat at 1 by lia. replace (S a * k)%nat with (a * k + k)%nat by lia. by apply fields_ok_shift.
Qed.

Lemma struct_ok fs : Forall (fun f => fields_ok 0 (size_of f.2) (int_fields f.2) = true) fs ->
  forall pos, fields_ok pos (struct_end pos fs) (struct_ints pos fs) = true.
Proof.
  induction 1 as [|[f t] fs Hf _ IH]; intros pos; cbn [struct_ints struct_end].
  - by apply bool_decide_eq_true.
  - eapply fields_ok_app; [|apply IH]. eapply fields_ok_weaken; [apply (fields_ok_shift _ _ _ (align_up pos (align_of t)) Hf)| |done].
    pose proof (align_up_le pos (align_of t) (align_of_pos t)). lia.
Qed.

Theorem layout_ok t : fields_ok 0 (size_of t) (int_fields t) = true.
Proof.
  induction t as [| | | |t n IH|fs IH] using ctype_fields_ind; [done..| |].
  - cbn [size_of int_fields]. pose proof (array_ok _ _ n IH 0) as H. by rewrite Nat.mul_comm.
  - rewrite int_fields_struct, size_of_struct. eapply fields_ok_weaken; [apply struct_ok, IH|done|].
    apply align_up_le. apply align_of_pos.
Qed.

(** ** Where a field is *)

Lemma offset_from_field fs1 : forall pos f t fs2, f ∉ fs1.*1 ->
  offset_from pos (fs1 ++ (f, t) :: fs2) f = align_up (struct_end pos fs1) (align_of t).
Proof.
  induction fs1 as [|[g u] fs1 IH]; intros pos f t fs2 Hf; cbn [app offset_from struct_end].
  - by rewrite String.eqb_refl.
  - rewrite fmap_cons, not_elem_of_cons in Hf. destruct Hf as [Hg Hf]. simpl in Hg.
    rewrite (proj2 (String.eqb_neq f g) Hg). by apply IH.
Qed.

Lemma struct_end_app fs1 : forall pos fs2, struct_end pos (fs1 ++ fs2) = struct_end (struct_end pos fs1) fs2.
Proof. induction fs1 as [|[g u] fs1 IH]; intros pos fs2; [done|]. cbn [app struct_end]. apply IH. Qed.
