(* ===== verification/ReqResp.v ===== *)
(** * The messages of the protocol (include/req_resp.h, generated from
    xdr/req_resp.x): the layout of every request and response. *)

From S2P Require Import Prelude Layout.

Definition XDR_USER_NAME_MAX_LEN : nat := 32.
Definition XDR_PASSWD_MD5_LEN : nat := 33.
Definition XDR_SESSION_ID_LEN : nat := 32.
Definition XDR_FILE_NAME_MAX_LEN : nat := 256.
Definition XDR_DIR_PATH_MAX_LEN : nat := 1024.
Definition XDR_FILE_ENTRY_MAX_CNT : nat := 16.
Definition XDR_CONTENT_BLOCK_SIZE : nat := 2048.
Definition XDR_NET_MSG_MAX_LEN : nat := 1024.
Definition XDR_CMD_MAX_LEN : nat := 1024.
Definition XDR_IPV4_MAX_LEN : nat := 16.
Definition XDR_LOGGED_IN_USER_MAX_CNT : nat := 32.
Definition XDR_WRITE_MSG_MAX_LEN : nat := 4096.
Definition XDR_RESP_MESSAGE_MAX_LEN : nat := 80.
Definition XDR_DIRECT_CMD_RESP_MAX_LEN : nat := 1024.
Definition XDR_CONNECT_ID_LEN : nat := 32.

Definition version_info : ctype := CStruct [
  ("major"%string, CShort);
  ("minor"%string, CShort);
  ("revision"%string, CShort)].

Definition channel_info_req : ctype := CStruct [
  ("flags"%string, CInt)].

Definition channel_info_resp_data : ctype := CStruct [
  ("main_port"%string, CInt);
  ("second_port"%string, CInt)].

Definition channel_info_resp : ctype := CStruct [
  ("status"%string, CInt);
  ("flags"%string, CInt);
  ("message"%string, CArr CChar XDR_RESP_MESSAGE_MAX_LEN);
  ("data"%string, channel_info_resp_data)].

Definition validate_req : ctype := CStruct [
  ("name_len"%string, CInt);
  ("passwd_len"%string, CInt);
  ("name"%string, CArr CChar XDR_USER_NAME_MAX_LEN);
  ("passwd_md5"%string, CArr CChar XDR_PASSWD_MD5_LEN);
  ("ver"%string, version_info)].

Definition validate_resp_data : ctype := CStruct [
  ("uid"%string, CUInt);
  ("name"%string, CArr CChar XDR_USER_NAME_MAX_LEN);
  ("session_id"%string, CArr CChar XDR_SESSION_ID_LEN);
  ("connect_id"%string, CArr CChar XDR_CONNECT_ID_LEN);
  ("pwd"%string, CArr CChar XDR_DIR_PATH_MAX_LEN)].

Definition validate_resp : ctype := CStruct [
  ("status"%string, CInt);
  ("flags"%string, CInt);
  ("message"%string, CArr CChar XDR_RESP_MESSAGE_MAX_LEN);
  ("data"%string, validate_resp_data)].

Definition append_conn_req : ctype := CStruct [
  ("session_id"%string, CArr CChar XDR_SESSION_ID_LEN);
  ("type"%string, CInt)].

Definition append_conn_resp_data : ctype := CStruct [
  ("connect_id"%string, CArr CChar XDR_CONNECT_ID_LEN)].

Definition append_conn_resp : ctype := CStruct [
  ("status"%string, CInt);
  ("flags"%string, CInt);
  ("message"%string, CArr CChar XDR_RESP_MESSAGE_MAX_LEN);
  ("data"%string, append_conn_resp_data)].

Definition logged_in_user : ctype := CStruct [
  ("session_id"%string, CArr CChar XDR_SESSION_ID_LEN);
  ("name"%string, CArr CChar XDR_USER_NAME_MAX_LEN);
  ("ip"%string, CArr CChar XDR_IPV4_MAX_LEN);
  ("port"%string, CInt)].

Definition pwd_req : ctype := CStruct [
  ("session_id"%string, CArr CChar XDR_SESSION_ID_LEN)].

Definition pwd_resp_data : ctype := CStruct [
  ("pwd"%string, CArr CChar XDR_DIR_PATH_MAX_LEN)].

Definition pwd_resp : ctype := CStruct [
  ("status"%string, CInt);
  ("flags"%string, CInt);
  ("message"%string, CArr CChar XDR_RESP_MESSAGE_MAX_LEN);
  ("data"%string, pwd_resp_data)].

Definition ll_req : ctype := CStruct [
  ("session_id"%string, CArr CChar XDR_SESSION_ID_LEN);
  ("path"%string, CArr CChar XDR_DIR_PATH_MAX_LEN);
  ("to_peer"%string, CInt);
  ("user"%string, logged_in_user)].

Definition file_entry : ctype := CStruct [
  ("name"%string, CArr CChar XDR_FILE_NAME_MAX_LEN);
  ("type"%string, CUInt);
  ("size"%string, CUInt);
  ("c_time"%string, CUInt);
  ("a_time"%string, CUInt);
  ("m_time"%string, CUInt);
  ("mode"%string, CUInt)].

Definition ll_resp_data : ctype := CStruct [
  ("total"%string, CInt);
  ("this_nr"%string, CInt);
  ("entries"%string, CArr file_entry XDR_FILE_ENTRY_MAX_CNT)].

Definition ll_resp : ctype := CStruct [
  ("status"%string, CInt);
  ("flags"%string, CInt);
  ("message"%string, CArr CChar XDR_RESP_MESSAGE_MAX_LEN);
  ("data"%string, ll_resp_data)].

Definition cd_req : ctype := CStruct [
  ("session_id"%string, CArr CChar XDR_SESSION_ID_LEN);
  ("path"%string, CArr CChar XDR_DIR_PATH_MAX_LEN)].

Definition cd_resp_data : ctype := CStruct [
  ("pwd"%string, CArr CChar XDR_DIR_PATH_MAX_LEN)].

Definition cd_resp : ctype := CStruct [
  ("status"%string, CInt);
  ("flags"%string, CInt);
  ("message"%string, CArr CChar XDR_RESP_MESSAGE_MAX_LEN);
  ("data"%string, cd_resp_data)].

Definition get_req : ctype := CStruct [
  ("session_id"%string, CArr CChar XDR_SESSION_ID_LEN);
  ("path"%string, CArr CChar XDR_DIR_PATH_MAX_LEN);
  ("to_peer"%string, CInt);
  ("user"%string, logged_in_user)].

Definition trans_entry : ctype := CStruct [
  ("type"%string, CInt);
  ("this_size"%string, CInt);
  ("mode"%string, CUInt);
  ("total_size"%string, CUInt);
  ("content"%string, CArr CChar XDR_CONTENT_BLOCK_SIZE)].

Definition get_resp_data : ctype := CStruct [
  ("total_files"%string, CInt);
  ("file_idx"%string, CInt);
  ("entry"%string, trans_entry)].

Definition get_resp : ctype := CStruct [
  ("status"%string, CInt);
  ("flags"%string, CInt);
  ("message"%string, CArr CChar XDR_RESP_MESSAGE_MAX_LEN);
  ("data"%string, get_resp_data);
  ("need_reply"%string, CInt)].

Definition put_req_data : ctype := CStruct [
  ("total_files"%string, CInt);
  ("file_idx"%string, CInt);
  ("entry"%string, trans_entry)].

Definition put_req : ctype := CStruct [
  ("session_id"%string, CArr CChar XDR_SESSION_ID_LEN);
  ("to_peer"%string, CInt);
  ("user"%string, logged_in_user);
  ("data"%string, put_req_data);
  ("flags"%string, CInt);
  ("need_reply"%string, CInt)].

Definition put_resp : ctype := CStruct [
  ("status"%string, CInt);
  ("flags"%string, CInt);
  ("message"%string, CArr CChar XDR_RESP_MESSAGE_MAX_LEN)].

Definition common_resp : ctype := CStruct [
  ("status"%string, CInt);
  ("flags"%string, CInt);
  ("message"%string, CArr CChar XDR_RESP_MESSAGE_MAX_LEN)].

Definition write_msg_req : ctype := CStruct [
  ("mtype"%string, CInt);
  ("name"%string, CArr CChar 16);
  ("pid"%string, CInt);
  ("length"%string, CInt);
  ("mtext"%string, CArr CChar XDR_NET_MSG_MAX_LEN)].

Definition read_msg_req : ctype := CStruct [
  ("mtype"%string, CInt)].

Definition read_msg_resp_data : ctype := CStruct [
  ("mtype"%string, CInt);
  ("name"%string, CArr CChar 16);
  ("pid"%string, CInt);
  ("length"%string, CInt);
  ("mtext"%string, CArr CChar XDR_NET_MSG_MAX_LEN)].

Definition read_msg_resp : ctype := CStruct [
  ("status"%string, CInt);
  ("flags"%string, CInt);
  ("message"%string, CArr CChar XDR_RESP_MESSAGE_MAX_LEN);
  ("data"%string, read_msg_resp_data)].

Definition mp_stat_req : ctype := CStruct [
  ("session_id"%string, CArr CChar XDR_SESSION_ID_LEN)].

Definition mp_stat_resp_data : ctype := CStruct [
  ("total_size"%string, CUInt);
  ("total_nodes"%string, CInt);
  ("using_nodes"%string, CInt);
  ("free_nodes"%string, CInt)].

Definition mp_stat_resp : ctype := CStruct [
  ("status"%string, CInt);
  ("flags"%string, CInt);
  ("message"%string, CArr CChar XDR_RESP_MESSAGE_MAX_LEN);
  ("data"%string, mp_stat_resp_data)].

Definition directcmd_req : ctype := CStruct [
  ("session_id"%string, CArr CChar XDR_SESSION_ID_LEN);
  ("cmd"%string, CArr CChar XDR_CMD_MAX_LEN)].

Definition directcmd_resp_data : ctype := CStruct [
  ("total_len"%string, CInt);
  ("this_len"%string, CInt);
  ("content"%string, CArr CChar XDR_DIRECT_CMD_RESP_MAX_LEN)].

Definition directcmd_resp : ctype := CStruct [
  ("status"%string, CInt);
  ("flags"%string, CInt);
  ("message"%string, CArr CChar XDR_RESP_MESSAGE_MAX_LEN);
  ("data"%string, directcmd_resp_data)].

Definition who_req : ctype := CStruct [
  ("session_id"%string, CArr CChar XDR_SESSION_ID_LEN)].

Definition who_resp_data : ctype := CStruct [
  ("total"%string, CInt);
  ("this_nr"%string, CInt);
  ("users"%string, CArr logged_in_user XDR_LOGGED_IN_USER_MAX_CNT)].

Definition who_resp : ctype := CStruct [
  ("status"%string, CInt);
  ("flags"%string, CInt);
  ("message"%string, CArr CChar XDR_RESP_MESSAGE_MAX_LEN);
  ("data"%string, who_resp_data)].

Definition write_req : ctype := CStruct [
  ("user"%string, logged_in_user);
  ("len"%string, CInt);
  ("message"%string, CArr CChar XDR_WRITE_MSG_MAX_LEN)].

Definition write_resp_data : ctype := CStruct [
  ("message"%string, CArr CChar XDR_WRITE_MSG_MAX_LEN)].

Definition write_resp : ctype := CStruct [
  ("status"%string, CInt);
  ("flags"%string, CInt);
  ("message"%string, CArr CChar XDR_RESP_MESSAGE_MAX_LEN);
  ("data"%string, write_resp_data)].

Definition port_update_req : ctype := CStruct [
  ("second_port"%string, CInt)].

Definition port_update_resp : ctype := CStruct [
  ("status"%string, CInt);
  ("flags"%string, CInt);
  ("message"%string, CArr CChar XDR_RESP_MESSAGE_MAX_LEN)].

Definition reconnect_req : ctype := CStruct [
  ("session_id"%string, CArr CChar XDR_SESSION_ID_LEN);
  ("connect_id"%string, CArr CChar XDR_CONNECT_ID_LEN)].

Definition reconnect_resp : ctype := CStruct [
  ("status"%string, CInt);
  ("flags"%string, CInt);
  ("message"%string, CArr CChar XDR_RESP_MESSAGE_MAX_LEN)].
