(* ===== verification/SerializeRaw.v ===== *)
(** * Serialisation by copy (src/serialize_raw.c)

    The functions are straight-line code: reversals of the bytes of integer
    fields in place, copies between the object and a buffer.  Each is the
    sequence of its steps; [exec] runs them.  [req] is the offset of the
    object in the memory of the packet's top-level structure, as nested
    objects are serialised where they are.  [X_raw_decode_in_place] is
    [__X_raw_decode] of the source. *)

From S2P Require Import Prelude Layout ReqResp.

Inductive step :=
  | Swap (off width : nat)
  | CopyOut (off n : nat)
  | Alloc (n : nat)
  | CopyIn.

(** [htons]/[ntohs] and [htonl]/[ntohl] of a field. *)
Definition hton_s (req : nat) (t : ctype) (f : string) : step := Swap (offset_of t f + req) 2.
Definition hton_l (req : nat) (t : ctype) (f : string) : step := Swap (offset_of t f + req) 4.

(** [&_req->f] and [&_req->f[i]]. *)
Definition field (req : nat) (t : ctype) (f : string) : nat := (offset_of t f + req)%nat.
Definition element (req : nat) (t : ctype) (f : string) (elem : ctype) (i : nat) : nat :=
  (i * size_of elem + field req t f)%nat.

(** [if (buf && len) { ... }] *)
Definition copy_out (req : nat) (buf : bool) (t : ctype) : list step :=
  if buf then [CopyOut req (size_of t)] else [].

(** The object and the buffer handed out. *)
Record raw_state := RawState { rs_obj : list Z; rs_buf : option (list Z) }.

(** [input] is the buffer given to a decoder. *)
Definition exec_step (input : list Z) (st : raw_state) (s : step) : option raw_state :=
  match s with
  | Swap off w => m ← swap_at (rs_obj st) off w; Some (RawState m (rs_buf st))
  | CopyOut off n => bs ← read_bytes (rs_obj st) off n; Some (RawState (rs_obj st) (Some bs))
  | Alloc n => Some (RawState (zeroed n) (rs_buf st))
  | CopyIn => m ← write_bytes (rs_obj st) 0 input; Some (RawState m (rs_buf st))
  end.

Fixpoint exec (input : list Z) (l : list step) (st : raw_state) : option raw_state :=
  match l with
  | [] => Some st
  | s :: l => st ← exec_step input st s; exec input l st
  end.

Definition version_info_raw_encode (req : nat) (buf : bool) : list step :=
  [hton_s req version_info "major"; hton_s req version_info "minor"; hton_s req version_info "revision"] ++
  copy_out req buf version_info.

Definition version_info_raw_decode_in_place (req : nat) : list step :=
  [hton_s req version_info "major"; hton_s req version_info "minor"; hton_s req version_info "revision"].

Definition version_info_raw_decode : list step :=
  [Alloc (size_of version_info); CopyIn] ++
  [hton_s 0 version_info "major"; hton_s 0 version_info "minor"; hton_s 0 version_info "revision"].

Definition channel_info_req_raw_encode (req : nat) (buf : bool) : list step :=
  [hton_l req channel_info_req "flags"] ++
  copy_out req buf channel_info_req.

Definition channel_info_req_raw_decode_in_place (req : nat) : list step :=
  [hton_l req channel_info_req "flags"].

Definition channel_info_req_raw_decode : list step :=
  [Alloc (size_of channel_info_req); CopyIn] ++
  [hton_l 0 channel_info_req "flags"].

Definition channel_info_resp_data_raw_encode (req : nat) (buf : bool) : list step :=
  [hton_l req channel_info_resp_data "main_port"; hton_l req channel_info_resp_data "second_port"] ++
  copy_out req buf channel_info_resp_data.

Definition channel_info_resp_data_raw_decode_in_place (req : nat) : list step :=
  [hton_l req channel_info_resp_data "main_port"; hton_l req channel_info_resp_data "second_port"].

Definition channel_info_resp_data_raw_decode : list step :=
  [Alloc (size_of channel_info_resp_data); CopyIn] ++
  [hton_l 0 channel_info_resp_data "main_port"; hton_l 0 channel_info_resp_data "second_port"].

Definition channel_info_resp_raw_encode (req : nat) (buf : bool) : list step :=
  [hton_l req channel_info_resp "status"; hton_l req channel_info_resp "flags"] ++
  channel_info_resp_data_raw_encode (field req channel_info_resp "data") false ++
  copy_out req buf channel_info_resp.

Definition channel_info_resp_raw_decode_in_place (req : nat) : list step :=
  [hton_l req channel_info_resp "status"; hton_l req channel_info_resp "flags"] ++
  channel_info_resp_data_raw_decode_in_place (field req channel_info_resp "data").

Definition channel_info_resp_raw_decode : list step :=
  [Alloc (size_of channel_info_resp); CopyIn] ++
  [hton_l 0 channel_info_resp "status"; hton_l 0 channel_info_resp "flags"] ++
  channel_info_resp_data_raw_decode_in_place (field 0 channel_info_resp "data").

Definition validate_req_raw_encode (req : nat) (buf : bool) : list step :=
  [hton_l req validate_req "name_len"; hton_l req validate_req "passwd_len"] ++
  version_info_raw_encode (field req validate_req "ver") false ++
  copy_out req buf validate_req.

Definition validate_req_raw_decode_in_place (req : nat) : list step :=
  [hton_l req validate_req "name_len"; hton_l req validate_req "passwd_len"] ++
  version_info_raw_decode_in_place (field req validate_req "ver").

Definition validate_req_raw_decode : list step :=
  [Alloc (size_of validate_req); CopyIn] ++
  [hton_l 0 validate_req "name_len"; hton_l 0 validate_req "passwd_len"] ++
  version_info_raw_decode_in_place (field 0 validate_req "ver").

Definition validate_resp_data_raw_encode (req : nat) (buf : bool) : list step :=
  [hton_l req validate_resp_data "uid"] ++
  copy_out req buf validate_resp_data.

Definition validate_resp_data_raw_decode_in_place (req : nat) : list step :=
  [hton_l req validate_resp_data "uid"].

Definition validate_resp_data_raw_decode : list step :=
  [Alloc (size_of validate_resp_data); CopyIn] ++
  [hton_l 0 validate_resp_data "uid"].

Definition validate_resp_raw_encode (req : nat) (buf : bool) : list step :=
  [hton_l req validate_resp "status"; hton_l req validate_resp "flags"] ++
  validate_resp_data_raw_encode (field req validate_resp "data") false ++
  copy_out req buf validate_resp.

Definition validate_resp_raw_decode_in_place (req : nat) : list step :=
  [hton_l req validate_resp "status"; hton_l req validate_resp "flags"] ++
  validate_resp_data_raw_decode_in_place (field req validate_resp "data").

Definition validate_resp_raw_decode : list step :=
  [Alloc (size_of validate_resp); CopyIn] ++
  [hton_l 0 validate_resp "status"; hton_l 0 validate_resp "flags"] ++
  validate_resp_data_raw_decode_in_place (field 0 validate_resp "data").

Definition append_conn_req_raw_encode (req : nat) (buf : bool) : list step :=
  [hton_l req append_conn_req "type"] ++
  copy_out req buf append_conn_req.

Definition append_conn_req_raw_decode_in_place (req : nat) : list step :=
  [hton_l req append_conn_req "type"].

Definition append_conn_req_raw_decode : list step :=
  [Alloc (size_of append_conn_req); CopyIn] ++
  [hton_l 0 append_conn_req "type"].

Definition append_conn_resp_data_raw_encode (req : nat) (buf : bool) : list step :=
  copy_out req buf append_conn_resp_data.

Definition append_conn_resp_data_raw_decode_in_place (req : nat) : list step :=
  [].

Definition append_conn_resp_data_raw_decode : list step :=
  [Alloc (size_of append_conn_resp_data); CopyIn].

Definition append_conn_resp_raw_encode (req : nat) (buf : bool) : list step :=
  [hton_l req append_conn_resp "status"; hton_l req append_conn_resp "flags"] ++
  append_conn_resp_data_raw_encode (field req append_conn_resp "data") false ++
  copy_out req buf append_conn_resp.

Definition append_conn_resp_raw_decode_in_place (req : nat) : list step :=
  [hton_l req append_conn_resp "status"; hton_l req append_conn_resp "flags"] ++
  append_conn_resp_data_raw_decode_in_place (field req append_conn_resp "data").

Definition append_conn_resp_raw_decode : list step :=
  [Alloc (size_of append_conn_resp); CopyIn] ++
  [hton_l 0 append_conn_resp "status"; hton_l 0 append_conn_resp "flags"] ++
  append_conn_resp_data_raw_decode_in_place (field 0 append_conn_resp "data").

Definition logged_in_user_raw_encode (req : nat) (buf : bool) : list step :=
  [hton_l req logged_in_user "port"] ++
  copy_out req buf logged_in_user.

Definition logged_in_user_raw_decode_in_place (req : nat) : list step :=
  [hton_l req logged_in_user "port"].

Definition logged_in_user_raw_decode : list step :=
  [Alloc (size_of logged_in_user); CopyIn] ++
  [hton_l 0 logged_in_user "port"].

Definition pwd_req_raw_encode (req : nat) (buf : bool) : list step :=
  copy_out req buf pwd_req.

Definition pwd_req_raw_decode_in_place (req : nat) : list step :=
  [].

Definition pwd_req_raw_decode : list step :=
  [Alloc (size_of pwd_req); CopyIn].

Definition pwd_resp_data_raw_encode (req : nat) (buf : bool) : list step :=
  copy_out req buf pwd_resp_data.

Definition pwd_resp_data_raw_decode_in_place (req : nat) : list step :=
  [].

Definition pwd_resp_data_raw_decode : list step :=
  [Alloc (size_of pwd_resp_data); CopyIn].

Definition pwd_resp_raw_encode (req : nat) (buf : bool) : list step :=
  [hton_l req pwd_resp "status"; hton_l req pwd_resp "flags"] ++
  pwd_resp_data_raw_encode (field req pwd_resp "data") false ++
  copy_out req buf pwd_resp.

Definition pwd_resp_raw_decode_in_place (req : nat) : list step :=
  [hton_l req pwd_resp "status"; hton_l req pwd_resp "flags"] ++
  pwd_resp_data_raw_decode_in_place (field req pwd_resp "data").

Definition pwd_resp_raw_decode : list step :=
  [Alloc (size_of pwd_resp); CopyIn] ++
  [hton_l 0 pwd_resp "status"; hton_l 0 pwd_resp "flags"] ++
  pwd_resp_data_raw_decode_in_place (field 0 pwd_resp "data").

Definition ll_req_raw_encode (req : nat) (buf : bool) : list step :=
  [hton_l req ll_req "to_peer"] ++
  logged_in_user_raw_encode (field req ll_req "user") false ++
  copy_out req buf ll_req.

Definition ll_req_raw_decode_in_place (req : nat) : list step :=
  [hton_l req ll_req "to_peer"] ++
  logged_in_user_raw_decode_in_place (field req ll_req "user").

Definition ll_req_raw_decode : list step :=
  [Alloc (size_of ll_req); CopyIn] ++
  [hton_l 0 ll_req "to_peer"] ++
  logged_in_user_raw_decode_in_place (field 0 ll_req "user").

Definition file_entry_raw_encode (req : nat) (buf : bool) : list step :=
  [hton_l req file_entry "type"; hton_l req file_entry "size"; hton_l req file_entry "c_time"; hton_l req file_entry "a_time"; hton_l req file_entry "m_time"; hton_l req file_entry "mode"] ++
  copy_out req buf file_entry.

Definition file_entry_raw_decode_in_place (req : nat) : list step :=
  [hton_l req file_entry "type"; hton_l req file_entry "size"; hton_l req file_entry "c_time"; hton_l req file_entry "a_time"; hton_l req file_entry "m_time"; hton_l req file_entry "mode"].

Definition file_entry_raw_decode : list step :=
  [Alloc (size_of file_entry); CopyIn] ++
  [hton_l 0 file_entry "type"; hton_l 0 file_entry "size"; hton_l 0 file_entry "c_time"; hton_l 0 file_entry "a_time"; hton_l 0 file_entry "m_time"; hton_l 0 file_entry "mode"].

Definition ll_resp_data_raw_encode (req : nat) (buf : bool) : list step :=
  [hton_l req ll_resp_data "total"; hton_l req ll_resp_data "this_nr"] ++
  (seq 0 XDR_FILE_ENTRY_MAX_CNT ≫= fun i => file_entry_raw_encode (element req ll_resp_data "entries" file_entry i) false) ++
  copy_out req buf ll_resp_data.

Definition ll_resp_data_raw_decode_in_place (req : nat) : list step :=
  [hton_l req ll_resp_data "total"; hton_l req ll_resp_data "this_nr"] ++
  (seq 0 XDR_FILE_ENTRY_MAX_CNT ≫= fun i => file_entry_raw_decode_in_place (element req ll_resp_data "entries" file_entry i)).

Definition ll_resp_data_raw_decode : list step :=
  [Alloc (size_of ll_resp_data); CopyIn] ++
  [hton_l 0 ll_resp_data "total"; hton_l 0 ll_resp_data "this_nr"] ++
  (seq 0 XDR_FILE_ENTRY_MAX_CNT ≫= fun i => file_entry_raw_decode_in_place (element 0 ll_resp_data "entries" file_entry i)).

Definition ll_resp_raw_encode (req : nat) (buf : bool) : list step :=
  [hton_l req ll_resp "status"; hton_l req ll_resp "flags"] ++
  ll_resp_data_raw_encode (field req ll_resp "data") false ++
  copy_out req buf ll_resp.

Definition ll_resp_raw_decode_in_place (req : nat) : list step :=
  [hton_l req ll_resp "status"; hton_l req ll_resp "flags"] ++
  ll_resp_data_raw_decode_in_place (field req ll_resp "data").

Definition ll_resp_raw_decode : list step :=
  [Alloc (size_of ll_resp); CopyIn] ++
  [hton_l 0 ll_resp "status"; hton_l 0 ll_resp "flags"] ++
  ll_resp_data_raw_decode_in_place (field 0 ll_resp "data").

Definition cd_req_raw_encode (req : nat) (buf : bool) : list step :=
  copy_out req buf cd_req.

Definition cd_req_raw_decode_in_place (req : nat) : list step :=
  [].

Definition cd_req_raw_decode : list step :=
  [Alloc (size_of cd_req); CopyIn].

Definition cd_resp_data_raw_encode (req : nat) (buf : bool) : list step :=
  copy_out req buf cd_resp_data.

Definition cd_resp_data_raw_decode_in_place (req : nat) : list step :=
  [].

Definition cd_resp_data_raw_decode : list step :=
  [Alloc (size_of cd_resp_data); CopyIn].

Definition cd_resp_raw_encode (req : nat) (buf : bool) : list step :=
  [hton_l req cd_resp "status"; hton_l req cd_resp "flags"] ++
  cd_resp_data_raw_encode (field req cd_resp "data") false ++
  copy_out req buf cd_resp.

Definition cd_resp_raw_decode_in_place (req : nat) : list step :=
  [hton_l req cd_resp "status"; hton_l req cd_resp "flags"] ++
  cd_resp_data_raw_decode_in_place (field req cd_resp "data").

Definition cd_resp_raw_decode : list step :=
  [Alloc (size_of cd_resp); CopyIn] ++
  [hton_l 0 cd_resp "status"; hton_l 0 cd_resp "flags"] ++
  cd_resp_data_raw_decode_in_place (field 0 cd_resp "data").

Definition get_req_raw_encode (req : nat) (buf : bool) : list step :=
  [hton_l req get_req "to_peer"] ++
  logged_in_user_raw_encode (field req get_req "user") false ++
  copy_out req buf get_req.

Definition get_req_raw_decode_in_place (req : nat) : list step :=
  [hton_l req get_req "to_peer"] ++
  logged_in_user_raw_decode_in_place (field req get_req "user").

Definition get_req_raw_decode : list step :=
  [Alloc (size_of get_req); CopyIn] ++
  [hton_l 0 get_req "to_peer"] ++
  logged_in_user_raw_decode_in_place (field 0 get_req "user").

Definition trans_entry_raw_encode (req : nat) (buf : bool) : list step :=
  [hton_l req trans_entry "type"; hton_l req trans_entry "this_size"; hton_l req trans_entry "mode"; hton_l req trans_entry "total_size"] ++
  copy_out req buf trans_entry.

Definition trans_entry_raw_decode_in_place (req : nat) : list step :=
  [hton_l req trans_entry "type"; hton_l req trans_entry "this_size"; hton_l req trans_entry "mode"; hton_l req trans_entry "total_size"].

Definition trans_entry_raw_decode : list step :=
  [Alloc (size_of trans_entry); CopyIn] ++
  [hton_l 0 trans_entry "type"; hton_l 0 trans_entry "this_size"; hton_l 0 trans_entry "mode"; hton_l 0 trans_entry "total_size"].

Definition get_resp_data_raw_encode (req : nat) (buf : bool) : list step :=
  [hton_l req get_resp_data "total_files"; hton_l req get_resp_data "file_idx"] ++
  trans_entry_raw_encode (field req get_resp_data "entry") false ++
  copy_out req buf get_resp_data.

Definition get_resp_data_raw_decode_in_place (req : nat) : list step :=
  [hton_l req get_resp_data "total_files"; hton_l req get_resp_data "file_idx"] ++
  trans_entry_raw_decode_in_place (field req get_resp_data "entry").

Definition get_resp_data_raw_decode : list step :=
  [Alloc (size_of get_resp_data); CopyIn] ++
  [hton_l 0 get_resp_data "total_files"; hton_l 0 get_resp_data "file_idx"] ++
  trans_entry_raw_decode_in_place (field 0 get_resp_data "entry").

Definition get_resp_raw_encode (req : nat) (buf : bool) : list step :=
  [hton_l req get_resp "status"; hton_l req get_resp "flags"] ++
  get_resp_data_raw_encode (field req get_resp "data") false ++
  [hton_l req get_resp "need_reply"] ++
  copy_out req buf get_resp.

Definition get_resp_raw_decode_in_place (req : nat) : list step :=
  [hton_l req get_resp "status"; hton_l req get_resp "flags"] ++
  get_resp_data_raw_decode_in_place (field req get_resp "data") ++
  [hton_l req get_resp "need_reply"].

Definition get_resp_raw_decode : list step :=
  [Alloc (size_of get_resp); CopyIn] ++
  [hton_l 0 get_resp "status"; hton_l 0 get_resp "flags"] ++
  get_resp_data_raw_decode_in_place (field 0 get_resp "data") ++
  [hton_l 0 get_resp "need_reply"].

Definition put_req_data_raw_encode (req : nat) (buf : bool) : list step :=
  [hton_l req put_req_data "total_files"; hton_l req put_req_data "file_idx"] ++
  trans_entry_raw_encode (field req put_req_data "entry") false ++
  copy_out req buf put_req_data.

Definition put_req_data_raw_decode_in_place (req : nat) : list step :=
  [hton_l req put_req_data "total_files"; hton_l req put_req_data "file_idx"] ++
  trans_entry_raw_decode_in_place (field req put_req_data "entry").

Definition put_req_data_raw_decode : list step :=
  [Alloc (size_of put_req_data); CopyIn] ++
  [hton_l 0 put_req_data "total_files"; hton_l 0 put_req_data "file_idx"] ++
  trans_entry_raw_decode_in_place (field 0 put_req_data "entry").

Definition put_req_raw_encode (req : nat) (buf : bool) : list step :=
  [hton_l req put_req "to_peer"] ++
  logged_in_user_raw_encode (field req put_req "user") false ++
  put_req_data_raw_encode (field req put_req "data") false ++
  [hton_l req put_req "flags"; hton_l req put_req "need_reply"] ++
  copy_out req buf put_req.

Definition put_req_raw_decode_in_place (req : nat) : list step :=
  [hton_l req put_req "to_peer"] ++
  logged_in_user_raw_decode_in_place (field req put_req "user") ++
  put_req_data_raw_decode_in_place (field req put_req "data") ++
  [hton_l req put_req "flags"; hton_l req put_req "need_reply"].

Definition put_req_raw_decode : list step :=
  [Alloc (size_of put_req); CopyIn] ++
  [hton_l 0 put_req "to_peer"] ++
  logged_in_user_raw_decode_in_place (field 0 put_req "user") ++
  put_req_data_raw_decode_in_place (field 0 put_req "data") ++
  [hton_l 0 put_req "flags"; hton_l 0 put_req "need_reply"].

Definition put_resp_raw_encode (req : nat) (buf : bool) : list step :=
  [hton_l req put_resp "status"; hton_l req put_resp "flags"] ++
  copy_out req buf put_resp.

Definition put_resp_raw_decode_in_place (req : nat) : list step :=
  [hton_l req put_resp "status"; hton_l req put_resp "flags"].

Definition put_resp_raw_decode : list step :=
  [Alloc (size_of put_resp); CopyIn] ++
  [hton_l 0 put_resp "status"; hton_l 0 put_resp "flags"].

Definition common_resp_raw_encode (req : nat) (buf : bool) : list step :=
  [hton_l req common_resp "status"; hton_l req common_resp "flags"] ++
  copy_out req buf common_resp.

Definition common_resp_raw_decode_in_place (req : nat) : list step :=
  [hton_l req common_resp "status"; hton_l req common_resp "flags"].

Definition common_resp_raw_decode : list step :=
  [Alloc (size_of common_resp); CopyIn] ++
  [hton_l 0 common_resp "status"; hton_l 0 common_resp "flags"].

Definition write_msg_req_raw_encode (req : nat) (buf : bool) : list step :=
  [hton_l req write_msg_req "mtype"; hton_l req write_msg_req "pid"; hton_l req write_msg_req "length"] ++
  copy_out req buf write_msg_req.

Definition write_msg_req_raw_decode_in_place (req : nat) : list step :=
  [hton_l req write_msg_req "mtype"; hton_l req write_msg_req "pid"; hton_l req write_msg_req "length"].

Definition write_msg_req_raw_decode : list step :=
  [Alloc (size_of write_msg_req); CopyIn] ++
  [hton_l 0 write_msg_req "mtype"; hton_l 0 write_msg_req "pid"; hton_l 0 write_msg_req "length"].

Definition read_msg_req_raw_encode (req : nat) (buf : bool) : list step :=
  [hton_l req read_msg_req "mtype"] ++
  copy_out req buf read_msg_req.

Definition read_msg_req_raw_decode_in_place (req : nat) : list step :=
  [hton_l req read_msg_req "mtype"].

Definition read_msg_req_raw_decode : list step :=
  [Alloc (size_of read_msg_req); CopyIn] ++
  [hton_l 0 read_msg_req "mtype"].

Definition read_msg_resp_data_raw_encode (req : nat) (buf : bool) : list step :=
  [hton_l req read_msg_resp_data "mtype"; hton_l req read_msg_resp_data "pid"; hton_l req read_msg_resp_data "length"] ++
  copy_out req buf read_msg_resp_data.

Definition read_msg_resp_data_raw_decode_in_place (req : nat) : list step :=
  [hton_l req read_msg_resp_data "mtype"; hton_l req read_msg_resp_data "pid"; hton_l req read_msg_resp_data "length"].

Definition read_msg_resp_data_raw_decode : list step :=
  [Alloc (size_of read_msg_resp_data); CopyIn] ++
  [hton_l 0 read_msg_resp_data "mtype"; hton_l 0 read_msg_resp_data "pid"; hton_l 0 read_msg_resp_data "length"].

Definition read_msg_resp_raw_encode (req : nat) (buf : bool) : list step :=
  [hton_l req read_msg_resp "status"; hton_l req read_msg_resp "flags"] ++
  read_msg_resp_data_raw_encode (field req read_msg_resp "data") false ++
  copy_out req buf read_msg_resp.

Definition read_msg_resp_raw_decode_in_place (req : nat) : list step :=
  [hton_l req read_msg_resp "status"; hton_l req read_msg_resp "flags"] ++
  read_msg_resp_data_raw_decode_in_place (field req read_msg_resp "data").

Definition read_msg_resp_raw_decode : list step :=
  [Alloc (size_of read_msg_resp); CopyIn] ++
  [hton_l 0 read_msg_resp "status"; hton_l 0 read_msg_resp "flags"] ++
  read_msg_resp_data_raw_decode_in_place (field 0 read_msg_resp "data").

Definition mp_stat_req_raw_encode (req : nat) (buf : bool) : list step :=
  copy_out req buf mp_stat_req.

Definition mp_stat_req_raw_decode_in_place (req : nat) : list step :=
  [].

Definition mp_stat_req_raw_decode : list step :=
  [Alloc (size_of mp_stat_req); CopyIn].

Definition mp_stat_resp_data_raw_encode (req : nat) (buf : bool) : list step :=
  [hton_l req mp_stat_resp_data "total_size"; hton_l req mp_stat_resp_data "total_nodes"; hton_l req mp_stat_resp_data "using_nodes"; hton_l req mp_stat_resp_data "free_nodes"] ++
  copy_out req buf mp_stat_resp_data.

Definition mp_stat_resp_data_raw_decode_in_place (req : nat) : list step :=
  [hton_l req mp_stat_resp_data "total_size"; hton_l req mp_stat_resp_data "total_nodes"; hton_l req mp_stat_resp_data "using_nodes"; hton_l req mp_stat_resp_data "free_nodes"].

Definition mp_stat_resp_data_raw_decode : list step :=
  [Alloc (size_of mp_stat_resp_data); CopyIn] ++
  [hton_l 0 mp_stat_resp_data "total_size"; hton_l 0 mp_stat_resp_data "total_nodes"; hton_l 0 mp_stat_resp_data "using_nodes"; hton_l 0 mp_stat_resp_data "free_nodes"].

Definition mp_stat_resp_raw_encode (req : nat) (buf : bool) : list step :=
  [hton_l req mp_stat_resp "status"; hton_l req mp_stat_resp "flags"] ++
  mp_stat_resp_data_raw_encode (field req mp_stat_resp "data") false ++
  copy_out req buf mp_stat_resp.

Definition mp_stat_resp_raw_decode_in_place (req : nat) : list step :=
  [hton_l req mp_stat_resp "status"; hton_l req mp_stat_resp "flags"] ++
  mp_stat_resp_data_raw_decode_in_place (field req mp_stat_resp "data").

Definition mp_stat_resp_raw_decode : list step :=
  [Alloc (size_of mp_stat_resp); CopyIn] ++
  [hton_l 0 mp_stat_resp "status"; hton_l 0 mp_stat_resp "flags"] ++
  mp_stat_resp_data_raw_decode_in_place (field 0 mp_stat_resp "data").

Definition directcmd_req_raw_encode (req : nat) (buf : bool) : list step :=
  copy_out req buf directcmd_req.

Definition directcmd_req_raw_decode_in_place (req : nat) : list step :=
  [].

Definition directcmd_req_raw_decode : list step :=
  [Alloc (size_of directcmd_req); CopyIn].

Definition directcmd_resp_data_raw_encode (req : nat) (buf : bool) : list step :=
  [hton_l req directcmd_resp_data "total_len"; hton_l req directcmd_resp_data "this_len"] ++
  copy_out req buf directcmd_resp_data.

Definition directcmd_resp_data_raw_decode_in_place (req : nat) : list step :=
  [hton_l req directcmd_resp_data "total_len"; hton_l req directcmd_resp_data "this_len"].

Definition directcmd_resp_data_raw_decode : list step :=
  [Alloc (size_of directcmd_resp_data); CopyIn] ++
  [hton_l 0 directcmd_resp_data "total_len"; hton_l 0 directcmd_resp_data "this_len"].

Definition directcmd_resp_raw_encode (req : nat) (buf : bool) : list step :=
  [hton_l req directcmd_resp "status"; hton_l req directcmd_resp "flags"] ++
  directcmd_resp_data_raw_encode (field req directcmd_resp "data") false ++
  copy_out req buf directcmd_resp.

Definition directcmd_resp_raw_decode_in_place (req : nat) : list step :=
  [hton_l req directcmd_resp "status"; hton_l req directcmd_resp "flags"] ++
  directcmd_resp_data_raw_decode_in_place (field req directcmd_resp "data").

Definition directcmd_resp_raw_decode : list step :=
  [Alloc (size_of directcmd_resp); CopyIn] ++
  [hton_l 0 directcmd_resp "status"; hton_l 0 directcmd_resp "flags"] ++
  directcmd_resp_data_raw_decode_in_place (field 0 directcmd_resp "data").

Definition who_req_raw_encode (req : nat) (buf : bool) : list step :=
  copy_out req buf who_req.

Definition who_req_raw_decode_in_place (req : nat) : list step :=
  [].

Definition who_req_raw_decode : list step :=
  [Alloc (size_of who_req); CopyIn].

Definition who_resp_data_raw_encode (req : nat) (buf : bool) : list step :=
  [hton_l req who_resp_data "total"; hton_l req who_resp_data "this_nr"] ++
  (seq 0 XDR_LOGGED_IN_USER_MAX_CNT ≫= fun i => logged_in_user_raw_encode (element req who_resp_data "users" logged_in_user i) false) ++
  copy_out req buf who_resp_data.

Definition who_resp_data_raw_decode_in_place (req : nat) : list step :=
  [hton_l req who_resp_data "total"; hton_l req who_resp_data "this_nr"] ++
  (seq 0 XDR_LOGGED_IN_USER_MAX_CNT ≫= fun i => logged_in_user_raw_decode_in_place (element req who_resp_data "users" logged_in_user i)).

Definition who_resp_data_raw_decode : list step :=
  [Alloc (size_of who_resp_data); CopyIn] ++
  [hton_l 0 who_resp_data "total"; hton_l 0 who_resp_data "this_nr"] ++
  (seq 0 XDR_LOGGED_IN_USER_MAX_CNT ≫= fun i => logged_in_user_raw_decode_in_place (element 0 who_resp_data "users" logged_in_user i)).

Definition who_resp_raw_encode (req : nat) (buf : bool) : list step :=
  [hton_l req who_resp "status"; hton_l req who_resp "flags"] ++
  who_resp_data_raw_encode (field req who_resp "data") false ++
  copy_out req buf who_resp.

Definition who_resp_raw_decode_in_place (req : nat) : list step :=
  [hton_l req who_resp "status"; hton_l req who_resp "flags"] ++
  who_resp_data_raw_decode_in_place (field req who_resp "data").

Definition who_resp_raw_decode : list step :=
  [Alloc (size_of who_resp); CopyIn] ++
  [hton_l 0 who_resp "status"; hton_l 0 who_resp "flags"] ++
  who_resp_data_raw_decode_in_place (field 0 who_resp "data").

Definition write_req_raw_encode (req : nat) (buf : bool) : list step :=
  logged_in_user_raw_encode (field req write_req "user") false ++
  [hton_l req write_req "len"] ++
  copy_out req buf write_req.

Definition write_req_raw_decode_in_place (req : nat) : list step :=
  logged_in_user_raw_decode_in_place (field req write_req "user") ++
  [hton_l req write_req "len"].

Definition write_req_raw_decode : list step :=
  [Alloc (size_of write_req); CopyIn] ++
  logged_in_user_raw_decode_in_place (field 0 write_req "user") ++
  [hton_l 0 write_req "len"].

Definition write_resp_data_raw_encode (req : nat) (buf : bool) : list step :=
  copy_out req buf write_resp_data.

Definition write_resp_data_raw_decode_in_place (req : nat) : list step :=
  [].

Definition write_resp_data_raw_decode : list step :=
  [Alloc (size_of write_resp_data); CopyIn].

Definition write_resp_raw_encode (req : nat) (buf : bool) : list step :=
  [hton_l req write_resp "status"; hton_l req write_resp "flags"] ++
  write_resp_data_raw_encode (field req write_resp "data") false ++
  copy_out req buf write_resp.

Definition write_resp_raw_decode_in_place (req : nat) : list step :=
  [hton_l req write_resp "status"; hton_l req write_resp "flags"] ++
  write_resp_data_raw_decode_in_place (field req write_resp "data").

Definition write_resp_raw_decode : list step :=
  [Alloc (size_of write_resp); CopyIn] ++
  [hton_l 0 write_resp "status"; hton_l 0 write_resp "flags"] ++
  write_resp_data_raw_decode_in_place (field 0 write_resp "data").

Definition port_update_req_raw_encode (req : nat) (buf : bool) : list step :=
  [hton_l req port_update_req "second_port"] ++
  copy_out req buf port_update_req.

Definition port_update_req_raw_decode_in_place (req : nat) : list step :=
  [hton_l req port_update_req "second_port"].

Definition port_update_req_raw_decode : list step :=
  [Alloc (size_of port_update_req); CopyIn] ++
  [hton_l 0 port_update_req "second_port"].

Definition port_update_resp_raw_encode (req : nat) (buf : bool) : list step :=
  [hton_l req port_update_resp "status"; hton_l req port_update_resp "flags"] ++
  copy_out req buf port_update_resp.

Definition port_update_resp_raw_decode_in_place (req : nat) : list step :=
  [hton_l req port_update_resp "status"; hton_l req port_update_resp "flags"].

Definition port_update_resp_raw_decode : list step :=
  [Alloc (size_of port_update_resp); CopyIn] ++
  [hton_l 0 port_update_resp "status"; hton_l 0 port_update_resp "flags"].

Definition reconnect_req_raw_encode (req : nat) (buf : bool) : list step :=
  copy_out req buf reconnect_req.

Definition reconnect_req_raw_decode_in_place (req : nat) : list step :=
  [].

Definition reconnect_req_raw_decode : list step :=
  [Alloc (size_of reconnect_req); CopyIn].

Definition reconnect_resp_raw_encode (req : nat) (buf : bool) : list step :=
  [hton_l req reconnect_resp "status"; hton_l req reconnect_resp "flags"] ++
  copy_out req buf reconnect_resp.

Definition reconnect_resp_raw_decode_in_place (req : nat) : list step :=
  [hton_l req reconnect_resp "status"; hton_l req reconnect_resp "flags"].

Definition reconnect_resp_raw_decode : list step :=
  [Alloc (size_of reconnect_resp); CopyIn] ++
  [hton_l 0 reconnect_resp "status"; hton_l 0 reconnect_resp "flags"].
