(* ===== verification/SerializeTable.v ===== *)
(** * The serialisation table (src/serialize_handler.c, include/packet.h)

    One row per packet type: how its object is laid out, serialised and
    deserialised.  The terminating row with type -1 is the end of the list. *)

From S2P Require Import Prelude Layout ReqResp SerializeRaw.

Inductive packet_type :=
  | PACKET_TYPE_VALIDATE_REQ
  | PACKET_TYPE_VALIDATE_RESP
  | PACKET_TYPE_FILE_NAME_REQ
  | PACKET_TYPE_FILE_NAME_RESP
  | PACKET_TYPE_DATA_REQ
  | PACKET_TYPE_DATA_RESP
  | PACKET_TYPE_FILE_END_REQ
  | PACKET_TYPE_FILE_END_RESP
  | PACKET_TYPE_SEND_COMPLETE_REQ
  | PACKET_TYPE_SEND_COMPLETE_RESP
  | PACKET_TYPE_PWD_REQ
  | PACKET_TYPE_PWD_RESP
  | PACKET_TYPE_CD_REQ
  | PACKET_TYPE_CD_RESP
  | PACKET_TYPE_LL_REQ
  | PACKET_TYPE_LL_RESP
  | PACKET_TYPE_PUT_REQ
  | PACKET_TYPE_PUT_RESP
  | PACKET_TYPE_GET_REQ
  | PACKET_TYPE_GET_RESP
  | PACKET_TYPE_COMMON_RESP
  | PACKET_TYPE_WRITE_MSG_REQ
  | PACKET_TYPE_READ_MSG_REQ
  | PACKET_TYPE_READ_MSG_RESP
  | PACKET_TYPE_MP_STAT_REQ
  | PACKET_TYPE_MP_STAT_RESP
  | PACKET_TYPE_DIRECTCMD_REQ
  | PACKET_TYPE_DIRECTCMD_RESP
  | PACKET_TYPE_WHO_REQ
  | PACKET_TYPE_WHO_RESP
  | PACKET_TYPE_WRITE_REQ
  | PACKET_TYPE_WRITE_RESP
  | PACKET_TYPE_APPEND_CONN_REQ
  | PACKET_TYPE_APPEND_CONN_RESP
  | PACKET_TYPE_CHANNEL_INFO_REQ
  | PACKET_TYPE_CHANNEL_INFO_RESP
  | PACKET_TYPE_PORT_UPDATE_REQ
  | PACKET_TYPE_PORT_UPDATE_RESP
  | PACKET_TYPE_RECONNECT_REQ
  | PACKET_TYPE_RECONNECT_RESP.

#[export] Instance packet_type_eq_dec : EqDecision packet_type.
Proof. solve_decision. Defined.

(** The value of each enumerator. *)
Definition packet_code (t : packet_type) : Z :=
  match t with
  | PACKET_TYPE_VALIDATE_REQ => 0
  | PACKET_TYPE_VALIDATE_RESP => 1
  | PACKET_TYPE_FILE_NAME_REQ => 2
  | PACKET_TYPE_FILE_NAME_RESP => 3
  | PACKET_TYPE_DATA_REQ => 4
  | PACKET_TYPE_DATA_RESP => 5
  | PACKET_TYPE_FILE_END_REQ => 6
  | PACKET_TYPE_FILE_END_RESP => 7
  | PACKET_TYPE_SEND_COMPLETE_REQ => 8
  | PACKET_TYPE_SEND_COMPLETE_RESP => 9
  | PACKET_TYPE_PWD_REQ => 10
  | PACKET_TYPE_PWD_RESP => 11
  | PACKET_TYPE_CD_REQ => 12
  | PACKET_TYPE_CD_RESP => 13
  | PACKET_TYPE_LL_REQ => 14
  | PACKET_TYPE_LL_RESP => 15
  | PACKET_TYPE_PUT_REQ => 16
  | PACKET_TYPE_PUT_RESP => 17
  | PACKET_TYPE_GET_REQ => 18
  | PACKET_TYPE_GET_RESP => 19
  | PACKET_TYPE_COMMON_RESP => 20
  | PACKET_TYPE_WRITE_MSG_REQ => 21
  | PACKET_TYPE_READ_MSG_REQ => 22
  | PACKET_TYPE_READ_MSG_RESP => 23
  | PACKET_TYPE_MP_STAT_REQ => 24
  | PACKET_TYPE_MP_STAT_RESP => 25
  | PACKET_TYPE_DIRECTCMD_REQ => 26
  | PACKET_TYPE_DIRECTCMD_RESP => 27
  | PACKET_TYPE_WHO_REQ => 28
  | PACKET_TYPE_WHO_RESP => 29
  | PACKET_TYPE_WRITE_REQ => 30
  | PACKET_TYPE_WRITE_RESP => 31
  | PACKET_TYPE_APPEND_CONN_REQ => 32
  | PACKET_TYPE_APPEND_CONN_RESP => 33
  | PACKET_TYPE_CHANNEL_INFO_REQ => 34
  | PACKET_TYPE_CHANNEL_INFO_RESP => 35
  | PACKET_TYPE_PORT_UPDATE_REQ => 36
  | PACKET_TYPE_PORT_UPDATE_RESP => 37
  | PACKET_TYPE_RECONNECT_REQ => 38
  | PACKET_TYPE_RECONNECT_RESP => 39
  end.

Record serialize_handler := Handler {
  h_type : Z;
  h_object : ctype;
  h_serialize : list step;
  h_deserialize : list step;
}.

(** A row of the table: the object's type, and its two functions. *)
Definition row (t : packet_type) (obj : ctype) (enc : nat -> bool -> list step) (dec : list step)
    : serialize_handler :=
  Handler (packet_code t) obj (enc 0%nat true) dec.

Definition serializables_raw : list serialize_handler := [
  row PACKET_TYPE_VALIDATE_REQ validate_req validate_req_raw_encode validate_req_raw_decode;
  row PACKET_TYPE_VALIDATE_RESP validate_resp validate_resp_raw_encode validate_resp_raw_decode;
  row PACKET_TYPE_PWD_REQ pwd_req pwd_req_raw_encode pwd_req_raw_decode;
  row PACKET_TYPE_PWD_RESP pwd_resp pwd_resp_raw_encode pwd_resp_raw_decode;
  row PACKET_TYPE_CD_REQ cd_req cd_req_raw_encode cd_req_raw_decode;
  row PACKET_TYPE_CD_RESP cd_resp cd_resp_raw_encode cd_resp_raw_decode;
  row PACKET_TYPE_LL_REQ ll_req ll_req_raw_encode ll_req_raw_decode;
  row PACKET_TYPE_LL_RESP ll_resp ll_resp_raw_encode ll_resp_raw_decode;
  row PACKET_TYPE_GET_REQ get_req get_req_raw_encode get_req_raw_decode;
  row PACKET_TYPE_GET_RESP get_resp get_resp_raw_encode get_resp_raw_decode;
  row PACKET_TYPE_PUT_REQ put_req put_req_raw_encode put_req_raw_decode;
  row PACKET_TYPE_PUT_RESP put_resp put_resp_raw_encode put_resp_raw_decode;
  row PACKET_TYPE_COMMON_RESP common_resp common_resp_raw_encode common_resp_raw_decode;
  row PACKET_TYPE_WRITE_MSG_REQ write_msg_req write_msg_req_raw_encode write_msg_req_raw_decode;
  row PACKET_TYPE_READ_MSG_REQ read_msg_req read_msg_req_raw_encode read_msg_req_raw_decode;
  row PACKET_TYPE_READ_MSG_RESP read_msg_resp read_msg_resp_raw_encode read_msg_resp_raw_decode;
  row PACKET_TYPE_MP_STAT_REQ mp_stat_req mp_stat_req_raw_encode mp_stat_req_raw_decode;
  row PACKET_TYPE_MP_STAT_RESP mp_stat_resp mp_stat_resp_raw_encode mp_stat_resp_raw_decode;
  row PACKET_TYPE_DIRECTCMD_REQ directcmd_req directcmd_req_raw_encode directcmd_req_raw_decode;
  row PACKET_TYPE_DIRECTCMD_RESP directcmd_resp directcmd_resp_raw_encode directcmd_resp_raw_decode;
  row PACKET_TYPE_WHO_REQ who_req who_req_raw_encode who_req_raw_decode;
  row PACKET_TYPE_WHO_RESP who_resp who_resp_raw_encode who_resp_raw_decode;
  row PACKET_TYPE_WRITE_REQ write_req write_req_raw_encode write_req_raw_decode;
  row PACKET_TYPE_WRITE_RESP write_resp write_resp_raw_encode write_resp_raw_decode;
  row PACKET_TYPE_APPEND_CONN_REQ append_conn_req append_conn_req_raw_encode append_conn_req_raw_decode;
  row PACKET_TYPE_APPEND_CONN_RESP append_conn_resp append_conn_resp_raw_encode append_conn_resp_raw_decode;
  row PACKET_TYPE_CHANNEL_INFO_REQ channel_info_req channel_info_req_raw_encode channel_info_req_raw_decode;
  row PACKET_TYPE_CHANNEL_INFO_RESP channel_info_resp channel_info_resp_raw_encode channel_info_resp_raw_decode;
  row PACKET_TYPE_PORT_UPDATE_REQ port_update_req port_update_req_raw_encode port_update_req_raw_decode;
  row PACKET_TYPE_PORT_UPDATE_RESP port_update_resp port_update_resp_raw_encode port_update_resp_raw_decode;
  row PACKET_TYPE_RECONNECT_REQ reconnect_req reconnect_req_raw_encode reconnect_req_raw_decode;
  row PACKET_TYPE_RECONNECT_RESP reconnect_resp reconnect_resp_raw_encode reconnect_resp_raw_decode].

#[export] Instance step_eq_dec : EqDecision step.
Proof. solve_decision. Defined.

(** ** What the rows have in common *)

Definition swaps (l : list (nat * nat)) : list step := (fun e => Swap e.1 e.2) <$> l.

(** The row reverses each integer field of its object exactly once, in both
    directions, and copies the whole object. *)
Definition row_ok (h : serialize_handler) : bool :=
  let l := int_fields (h_object h) in
  let n := size_of (h_object h) in
  bool_decide (h_serialize h = swaps l ++ [CopyOut 0 n])
  && bool_decide (h_deserialize h = [Alloc n; CopyIn] ++ swaps l)
  && fields_ok 0 n l && (0 <? n)%nat.

Lemma rows_ok : forallb row_ok serializables_raw = true.
Proof. vm_compute. reflexivity. Qed.

Lemma row_facts h : h ∈ serializables_raw ->
  h_serialize h = swaps (int_fields (h_object h)) ++ [CopyOut 0 (size_of (h_object h))]
  /\ h_deserialize h = [Alloc (size_of (h_object h)); CopyIn] ++ swaps (int_fields (h_object h))
  /\ fields_ok 0 (size_of (h_object h)) (int_fields (h_object h)) = true
  /\ (0 < size_of (h_object h))%nat.
Proof.
  intros Hin. pose proof rows_ok as Hok. rewrite forallb_forall in Hok.
  apply list_elem_of_In, Hok in Hin. unfold row_ok in Hin.
  apply andb_prop in Hin as [Hin H4]. apply andb_prop in Hin as [Hin H3].
  apply andb_prop in Hin as [H1%bool_decide_eq_true H2%bool_decide_eq_true].
  apply Nat.ltb_lt in H4. done.
Qed.

Lemma exec_swaps input l rest m buf :
  exec input (swaps l ++ rest) (RawState m buf)
    = (m ← swap_all l m; exec input rest (RawState m buf)).
Proof.
  revert m. induction l as [|[off w] l IH]; intros m; [done|].
  cbn [swaps fmap list_fmap app exec exec_step rs_obj rs_buf swap_all fst snd].
  destruct (swap_at m off w) as [m'|]; [|done]. cbn [mbind option_bind]. apply IH.
Qed.

Lemma swap_all_whole l m :
  fields_ok 0 (length m) l = true -> swap_all l m = Some (network_form l m).
Proof. intros H. apply (swap_all_spec l [] m). done. Qed.

Lemma serialize_row h obj :
  h ∈ serializables_raw -> length obj = size_of (h_object h) ->
  exec [] (h_serialize h) (RawState obj None)
    = Some (RawState (network_form (int_fields (h_object h)) obj)
                     (Some (network_form (int_fields (h_object h)) obj))).
Proof.
  intros Hin Hl. destruct (row_facts h Hin) as (-> & _ & Hf & _). rewrite <- Hl in *.
  rewrite exec_swaps, swap_all_whole by done. cbn [mbind option_bind exec exec_step rs_obj rs_buf].
  set (net := network_form _ _).
  assert (Hn : length net = length obj) by (by apply length_reversed).
  pose proof (read_bytes_prefix net [] (length obj) (eq_sym Hn)) as Hr. rewrite app_nil_r in Hr.
  by rewrite Hr.
Qed.

Lemma deserialize_row h obj :
  h ∈ serializables_raw -> length obj = size_of (h_object h) ->
  exec (network_form (int_fields (h_object h)) obj) (h_deserialize h) (RawState [] None)
    = Some (RawState obj None).
Proof.
  intros Hin Hl. destruct (row_facts h Hin) as (_ & -> & Hf & _). rewrite <- Hl in *.
  set (net := network_form _ _).
  assert (Hn : length net = length obj) by (by apply length_reversed).
  pose proof (write_bytes_prefix (zeroed (length obj)) net []) as Hw. rewrite !app_nil_r in Hw.
  cbn [app exec exec_step rs_obj rs_buf mbind option_bind].
  rewrite Hw by (unfold zeroed; by rewrite length_replicate). cbn [mbind option_bind].
  rewrite <- (app_nil_r (swaps _)), exec_swaps, swap_all_whole by (by rewrite Hn).
  cbn [mbind option_bind exec]. do 2 f_equal. by apply reversed_involutive.
Qed.

(** Every row of the table round-trips: for every object of the row's C
    type, serialising succeeds within the object, and deserialising the bytes
    produced gives the object back. *)
Theorem raw_roundtrip h obj
    (Hrow : h ∈ serializables_raw) (Hobj : length obj = size_of (h_object h)) :
  exists st net, exec [] (h_serialize h) (RawState obj None) = Some st
    /\ rs_buf st = Some net /\ length net = size_of (h_object h)
    /\ exec net (h_deserialize h) (RawState [] None) = Some (RawState obj None).
Proof.
  destruct (row_facts h Hrow) as (_ & _ & Hf & _). rewrite <- Hobj in Hf.
  eexists _, _. split; [by apply serialize_row|]. split; [done|].
  split; [|by apply deserialize_row]. rewrite <- Hobj. by apply length_reversed.
Qed.

(** The object of the [port_update] request: one [int]. *)
Definition demo_row : serialize_handler :=
  row PACKET_TYPE_PORT_UPDATE_REQ port_update_req port_update_req_raw_encode
    port_update_req_raw_decode.

Lemma demo_row_in : demo_row ∈ serializables_raw.
Proof.
  change demo_row with (nth 28 serializables_raw demo_row).
  apply list_elem_of_In, nth_In. vm_compute. lia.
Defined.

Lemma raw_roundtrip_witness :
  exists st net, exec [] (h_serialize demo_row) (RawState [57; 48; 0; 0] None) = Some st
    /\ rs_buf st = Some net /\ length net = 4%nat
    /\ exec net (h_deserialize demo_row) (RawState [] None) = Some (RawState [57; 48; 0; 0] None).
Proof. exact (raw_roundtrip demo_row [57; 48; 0; 0] demo_row_in eq_refl). Defined.

(** Every integer field of every message travels in network byte order,
    exactly once converted: read big-endian in the bytes sent, it has the
    value it has in the object, for every field the C type declares. *)
Theorem raw_network_order h obj off w
    (Hrow : h ∈ serializables_raw) (Hobj : length obj = size_of (h_object h))
    (Hfield : (off, w) ∈ int_fields (h_object h)) :
  exists st net, exec [] (h_serialize h) (RawState obj None) = Some st /\ rs_buf st = Some net
    /\ be_val (slice net off w) = le_val (slice obj off w).
Proof.
  destruct (row_facts h Hrow) as (_ & _ & Hf & _). rewrite <- Hobj in Hf.
  eexists _, _. split; [by apply serialize_row|]. split; [done|].
  pose proof (reversed_field _ off w 0 obj Hf Hfield) as Hr. rewrite Nat.sub_0_r in Hr.
  unfold network_form, be_val. by rewrite Hr, reverse_involutive.
Qed.

Lemma raw_network_order_witness :
  exists st net, exec [] (h_serialize demo_row) (RawState [57; 48; 0; 0] None) = Some st
    /\ rs_buf st = Some net /\ be_val (slice net 0 4) = 12345.
Proof.
  apply (raw_network_order demo_row [57; 48; 0; 0] 0 4 demo_row_in eq_refl).
  apply elem_of_cons. by left.
Defined.

(** Serialising changes the caller's object: the conversion is done in
    place, so serialising the same object a second time undoes it and sends
    the fields in host byte order. *)
Theorem raw_encode_twice h obj
    (Hrow : h ∈ serializables_raw) (Hobj : length obj = size_of (h_object h)) :
  exists st st', exec [] (h_serialize h) (RawState obj None) = Some st
    /\ exec [] (h_serialize h) (RawState (rs_obj st) None) = Some st'
    /\ rs_buf st' = Some obj.
Proof.
  destruct (row_facts h Hrow) as (_ & _ & Hf & _). rewrite <- Hobj in Hf.
  eexists _, _. split; [by apply serialize_row|]. split.
  - apply serialize_row; [done|]. rewrite <- Hobj. by apply length_reversed.
  - simpl. f_equal. by apply reversed_involutive.
Qed.

Lemma raw_encode_twice_witness :
  exists st st', exec [] (h_serialize demo_row) (RawState [57; 48; 0; 0] None) = Some st
    /\ exec [] (h_serialize demo_row) (RawState (rs_obj st) None) = Some st'
    /\ rs_buf st' = Some [57; 48; 0; 0].
Proof. exact (raw_encode_twice demo_row [57; 48; 0; 0] demo_row_in eq_refl). Defined.
