(* ===== verification/Xdr.v ===== *)
(** * Serialisation by XDR filters (src/req_resp.c)

    A filter goes through an object and a stream in one direction or the
    other.  The filters of the messages are built from those of the XDR
    library, which are the operations of a class: what [put] writes for a value
    [get] reads, [xdr_vector] takes the elements in turn, and a buffer from
    [XDR_INLINE] is a part of the stream.  The second half of the file reduces
    every filter to the list of the scalars of its type. *)

From S2P Require Import Prelude DList Layout SerializeRaw.

Inductive xdr_op := XDR_ENCODE | XDR_DECODE | XDR_FREE.

(** The [XDR] handle with its stream, what was written or what is left to
    read, and the memory of the object. *)
Record xdr := Xdr { x_op : xdr_op; x_buf : list Z; x_mem : list Z }.

(** [None] is an access outside the object, [false] the result FALSE. *)
Definition filter := xdr -> option (bool * xdr).

Inductive xprim := XShort | XInt | XUInt | XChar | XUChar.

(** Size, reading and writing of a scalar in memory. *)
Definition prim_type (k : xprim) : ctype :=
  match k with XShort => CShort | XInt => CInt | XUInt => CUInt | XChar | XUChar => CChar end.

Definition width (k : xprim) : nat := size_of (prim_type k).

Definition load (k : xprim) (bs : list Z) : Z :=
  match k with
  | XShort => i16 (le_val bs)
  | XInt => i32 (le_val bs)
  | XUInt => u32 (le_val bs)
  | XChar => wrap_s 8 (le_val bs)
  | XUChar => u8 (le_val bs)
  end.

Definition store (k : xprim) (v : Z) : list Z := le_bytes (width k) v.

Definition in_range (k : xprim) (v : Z) : Prop :=
  match k with
  | XShort => in_i16 v
  | XInt => in_i32 v
  | XUInt => 0 <= v < 2 ^ 32
  | XChar => - 2 ^ 7 <= v < 2 ^ 7
  | XUChar => 0 <= v < 2 ^ 8
  end.

(** The operations of the library. *)
Class XdrLib := {
  put : xprim -> Z -> list Z;
  get : xprim -> list Z -> option (Z * list Z);
  xdr_vector : nat -> nat -> nat -> (nat -> filter) -> filter;
  xdr_inline : nat -> xdr -> bool;
  ixdr_put : xprim -> Z -> list Z;
  ixdr_get : xprim -> list Z -> option (Z * list Z);
}.

Definition and_then (f g : filter) : filter := fun x =>
  '(ok, x) ← f x;
  if (ok : bool) then g x else Some (false, x).

Declare Scope xdr_scope.
Infix ">>" := and_then (at level 60, right associativity) : xdr_scope.
Open Scope xdr_scope.

Definition TRUE : filter := fun x => Some (true, x).

(** [n] elements of [size] bytes from [base] on. *)
Fixpoint elements (base size n : nat) (proc : nat -> filter) : filter :=
  match n with
  | O => TRUE
  | S n => proc base >> elements (size + base) size n proc
  end.

Section Filters.
Context `{XdrLib}.

Definition xdr_prim (k : xprim) (objp : nat) : filter := fun x =>
  match x_op x with
  | XDR_ENCODE =>
      bs ← read_bytes (x_mem x) objp (width k);
      Some (true, Xdr XDR_ENCODE (x_buf x ++ put k (load k bs)) (x_mem x))
  | XDR_DECODE =>
      match get k (x_buf x) with
      | None => Some (false, x)
      | Some (v, rest) =>
          m ← write_bytes (x_mem x) objp (store k v);
          Some (true, Xdr XDR_DECODE rest m)
      end
  | XDR_FREE => TRUE x
  end.

Definition xdr_short : nat -> filter := xdr_prim XShort.
Definition xdr_int : nat -> filter := xdr_prim XInt.
Definition xdr_u_int : nat -> filter := xdr_prim XUInt.
Definition xdr_char : nat -> filter := xdr_prim XChar.
Definition xdr_u_char : nat -> filter := xdr_prim XUChar.

(** [IXDR_PUT_*(buf, objp->f)] and [objp->f = IXDR_GET_*(buf)]. *)
Definition IXDR_PUT (k : xprim) (objp : nat) : filter := fun x =>
  bs ← read_bytes (x_mem x) objp (width k);
  Some (true, Xdr (x_op x) (x_buf x ++ ixdr_put k (load k bs)) (x_mem x)).

Definition IXDR_GET (k : xprim) (objp : nat) : filter := fun x =>
  '(v, rest) ← ixdr_get k (x_buf x);
  m ← write_bytes (x_mem x) objp (store k v);
  Some (true, Xdr (x_op x) rest m).

(** [buf = XDR_INLINE (xdrs, units * BYTES_PER_XDR_UNIT)] *)
Definition BYTES_PER_XDR_UNIT : nat := 4.

Definition if_inline (units : nat) (absent present : filter) : filter := fun x =>
  if xdr_inline (units * BYTES_PER_XDR_UNIT) x then present x else absent x.

Definition by_op (encode decode other : filter) : filter := fun x =>
  match x_op x with XDR_ENCODE => encode x | XDR_DECODE => decode x | XDR_FREE => other x end.

End Filters.

(** ** Types *)

Inductive xty :=
  | XPrim (k : xprim)
  | XVec (t : xty) (n : nat)
  | XStruct (fs : list (string * xty)).

Fixpoint erase (t : xty) : ctype :=
  match t with
  | XPrim k => prim_type k
  | XVec t n => CArr (erase t) n
  | XStruct fs => CStruct ((fix go (fs : list (string * xty)) : list (string * ctype) :=
      match fs with [] => [] | (f, t) :: fs => (f, erase t) :: go fs end) fs)
  end.

Definition erase_fields (fs : list (string * xty)) : list (string * ctype) := map (fun f => (f.1, erase f.2)) fs.

(** The scalars of a type, with their offsets, in order. *)
Definition shift_scalars (d : nat) (l : list (nat * xprim)) : list (nat * xprim) :=
  (fun e => ((d + e.1)%nat, e.2)) <$> l.

Fixpoint scalars (t : xty) : list (nat * xprim) :=
  match t with
  | XPrim k => [(0%nat, k)]
  | XVec t n => seq 0 n ≫= fun i => shift_scalars (i * size_of (erase t)) (scalars t)
  | XStruct fs =>
      (fix go (pos : nat) (fs : list (string * xty)) : list (nat * xprim) :=
         match fs with
         | [] => []
         | (_, t) :: fs =>
             let start := align_up pos (align_of (erase t)) in
             shift_scalars start (scalars t) ++ go (start + size_of (erase t))%nat fs
         end) 0%nat fs
  end.

Fixpoint scalars_from (pos : nat) (fs : list (string * xty)) : list (nat * xprim) :=
  match fs with
  | [] => []
  | (_, t) :: fs =>
      let start := align_up pos (align_of (erase t)) in
      shift_scalars start (scalars t) ++ scalars_from (start + size_of (erase t))%nat fs
  end.

Lemma erase_struct fs : erase (XStruct fs) = CStruct (erase_fields fs).
Proof. cbn [erase]. f_equal. induction fs as [|[f t] fs IH]; [done|]. cbn. f_equal. exact IH. Qed.

Lemma scalars_struct fs : scalars (XStruct fs) = scalars_from 0 fs.
Proof. reflexivity. Qed.

Lemma xty_fields_ind (P : xty -> Prop) :
  (forall k, P (XPrim k)) -> (forall t n, P t -> P (XVec t n)) ->
  (forall fs, Forall (fun f => P f.2) fs -> P (XStruct fs)) -> forall t, P t.
Proof.
  intros H1 H2 H3. fix IH 1. intros [k|t n|fs]; [apply H1|apply H2, IH|].
  apply H3. induction fs as [|[f t] fs IHfs]; [constructor|]. constructor; [apply IH|exact IHfs].
Qed.

Lemma shift_scalars_app d l1 l2 : shift_scalars d (l1 ++ l2) = shift_scalars d l1 ++ shift_scalars d l2.
Proof. apply fmap_app. Qed.

Lemma shift_scalars_shift a b l : shift_scalars a (shift_scalars b l) = shift_scalars (a + b) l.
Proof.
  unfold shift_scalars. rewrite <- list_fmap_compose. apply list_fmap_ext. intros i [o k] _. simpl. f_equal. lia.
Qed.

(** ** A filter is the sequence of its scalars *)

Section Flat.
Context `{XdrLib}.

Fixpoint run_prims (l : list (nat * xprim)) : filter :=
  match l with
  | [] => TRUE
  | (off, k) :: l => xdr_prim k off >> run_prims l
  end.

Definition flat (p : nat -> filter) (t : xty) : Prop :=
  forall objp x, p objp x = run_prims (shift_scalars objp (scalars t)) x.

Lemma and_then_assoc f g h x : ((f >> g) >> h) x = (f >> (g >> h)) x.
Proof. unfold and_then. destruct (f x) as [[[] y]|]; done. Qed.

Lemma and_then_ext f f' g g' x : f x = f' x -> (forall y, f' x = Some (true, y) -> g y = g' y) -> (f >> g) x = (f' >> g') x.
Proof. intros E Eg. unfold and_then. rewrite E. destruct (f' x) as [[[] y]|]; cbn [mbind option_bind]; [by apply Eg|done|done]. Qed.

Lemma run_prims_app l1 l2 x : run_prims (l1 ++ l2) x = (run_prims l1 >> run_prims l2) x.
Proof.
  revert x. induction l1 as [|[off k] l1 IH]; intros x; [done|]. cbn [app run_prims]. rewrite and_then_assoc.
  apply and_then_ext; [done|]. intros y _. apply IH.
Qed.

Lemma flat_prim k : flat (xdr_prim k) (XPrim k).
Proof.
  intros objp x. cbn [scalars shift_scalars fmap list_fmap run_prims fst snd]. rewrite Nat.add_0_r.
  unfold and_then. by destruct (xdr_prim k objp x) as [[[] y]|].
Qed.

Lemma flat_elements p t n : flat p t -> flat (fun objp => elements objp (size_of (erase t)) n p) (XVec t n).
Proof.
  intros Hp objp x. cbn [scalars]. set (s := size_of (erase t)).
  assert (Hg : forall a objp x, elements (a * s + objp) s n p x = run_prims (shift_scalars objp (seq a n ≫= fun i => shift_scalars (i * s) (scalars t))) x).
  { clear x objp. induction n as [|n IH]; intros a objp x; [done|]. cbn [elements seq mbind list_bind].
    rewrite shift_scalars_app, run_prims_app. apply and_then_ext.
    - rewrite Hp, shift_scalars_shift. by rewrite Nat.add_comm.
    - intros y _. replace (s + (a * s + objp))%nat with (S a * s + objp)%nat by lia. apply IH. }
  exact (Hg 0%nat objp x).
Qed.

(** The filters of the fields [fs] of a structure of type [T], laid out from
    offset [pos] on. *)
Definition chain (T : ctype) (pos objp : nat) (g : filter) (fs : list (string * xty)) : Prop :=
  forall x, g x = run_prims (shift_scalars objp (scalars_from pos fs)) x.

Lemma chain_done T pos objp : chain T pos objp TRUE [].
Proof. intros x. reflexivity. Qed.

Lemma chain_field T pos objp proc f t g fs : offset_of T f = align_up pos (align_of (erase t)) -> flat proc t ->
  chain T (align_up pos (align_of (erase t)) + size_of (erase t)) objp g fs ->
  chain T pos objp (proc (field objp T f) >> g) ((f, t) :: fs).
Proof.
  intros Hoff Hp Hg x. cbn [scalars_from]. rewrite shift_scalars_app, run_prims_app. apply and_then_ext.
  - rewrite Hp, shift_scalars_shift. unfold field. by rewrite Hoff, Nat.add_comm.
  - intros y _. apply Hg.
Qed.

Lemma flat_chain p T fs : (forall objp, chain T 0 objp (p objp) fs) -> flat p (XStruct fs).
Proof. intros Hc objp x. rewrite scalars_struct. apply Hc. Qed.
End Flat.

(** * What an XDR filter does to a stream

    The documented behaviour of the XDR library (RFC 4506: every scalar is a
    unit of four bytes) as a class of laws, and what follows for any filter
    that is the sequence of its scalars: encoding appends the units and leaves
    the object alone, decoding them fills exactly the scalars, and a decoder
    given any bytes at all stays inside its object. *)

Class XdrLaws `{XdrLib} : Prop := {
  get_put : forall k v rest, in_range k v -> get k (put k v ++ rest) = Some (v, rest);
  length_put : forall k v, length (put k v) = BYTES_PER_XDR_UNIT;
  get_unit : forall k bs, (BYTES_PER_XDR_UNIT <= length bs)%nat -> exists v, get k bs = Some (v, drop BYTES_PER_XDR_UNIT bs);
  get_short : forall k bs, (length bs < BYTES_PER_XDR_UNIT)%nat -> get k bs = None;
  vector_elements : forall base n size proc x, xdr_vector base n size proc x = elements base size n proc x;
  inline_left : forall n x, xdr_inline n x = true -> x_op x = XDR_DECODE -> (n <= length (x_buf x))%nat;
  ixdr_put_put : forall k v, k = XInt \/ k = XUInt -> ixdr_put k v = put k v;
  ixdr_get_get : forall k bs, k = XInt \/ k = XUInt -> ixdr_get k bs = get k bs;
}.

(** ** A scalar in memory *)

Lemma le_val_bound l : Forall is_byte l -> 0 <= le_val l < 256 ^ Z.of_nat (length l).
Proof.
  induction 1 as [|b l Hb _ IH]; cbn [le_val length]; [lia|]. rewrite Nat2Z.inj_succ, Z.pow_succ_r by lia. int_lia.
Qed.

Lemma wrap_s_range w z : 0 < w -> - 2 ^ (w - 1) <= wrap_s w z < 2 ^ (w - 1).
Proof.
  intros Hw. unfold wrap_s. pose proof (Z.mod_pos_bound (z + 2 ^ (w - 1)) (2 ^ w)) as Hm.
  assert (E : 2 ^ w = 2 * 2 ^ (w - 1)) by (rewrite <- Z.pow_succ_r by lia; f_equal; lia). lia.
Qed.

Lemma load_in_range k bs : in_range k (load k bs).
Proof.
  destruct k; cbn [load in_range]; [apply (wrap_s_range 16)|apply (wrap_s_range 32)|apply wrap_u_range|apply (wrap_s_range 8)|apply wrap_u_range]; lia.
Qed.

Lemma wrap_s_bytes w n z : 0 < w -> 2 ^ w = 256 ^ Z.of_nat n -> le_bytes n (wrap_s w z) = le_bytes n z.
Proof.
  intros Hw E. rewrite <- (le_bytes_mod n (wrap_s w z)), <- (le_bytes_mod n z), <- E. f_equal.
  unfold wrap_s. rewrite Zminus_mod_idemp_l. f_equal. lia.
Qed.

Lemma store_load k bs : Forall is_byte bs -> length bs = width k -> store k (load k bs) = bs.
Proof.
  intros Hb Hl. rewrite <- (le_bytes_val bs Hb) at 2. rewrite Hl. unfold store.
  destruct k; cbn [load]; [apply wrap_s_bytes; [lia|reflexivity]..|apply (le_bytes_mod 4)|apply wrap_s_bytes; [lia|reflexivity]|apply (le_bytes_mod 1)].
Qed.

Lemma length_store k v : length (store k v) = width k.
Proof. apply length_le_bytes. Qed.

Abbreviation scalar_list := (list (nat * xprim)).

Definition inside (n : nat) (l : scalar_list) : Prop := Forall (fun e => (e.1 + width e.2 <= n)%nat) l.

(** The bytes of [m] at [off], put into [d]. *)
Definition pasted (m : list Z) (off n : nat) (d : list Z) : list Z := take off d ++ slice m off n ++ drop (off + n) d.

Fixpoint pasted_all (l : scalar_list) (m d : list Z) : list Z :=
  match l with
  | [] => d
  | (off, k) :: l => pasted_all l m (pasted m off (width k) d)
  end.

Definition covers (off n i : nat) : bool := (off <=? i)%nat && (i <? off + n)%nat.

(** Byte [i] belongs to one of the scalars. *)
Definition covered (l : scalar_list) (i : nat) : bool := existsb (fun e => covers e.1 (width e.2) i) l.

Lemma length_pasted m off n d : length m = length d -> (off + n <= length d)%nat -> length (pasted m off n d) = length d.
Proof. intros E H. unfold pasted. rewrite !length_app, length_slice, length_take, length_drop by lia. lia. Qed.

Lemma lookup_pasted m off n d i : length m = length d -> (off + n <= length d)%nat ->
  pasted m off n d !! i = if covers off n i then m !! i else d !! i.
Proof.
  intros E H. unfold pasted, covers, slice. destruct (Nat.leb_spec off i) as [H1|H1]; cbn [andb].
  - rewrite lookup_app_r by (rewrite length_take; lia). rewrite length_take, Nat.min_l by lia.
    destruct (Nat.ltb_spec i (off + n)) as [H2|H2].
    + rewrite lookup_app_l by (rewrite length_take, length_drop; lia). rewrite lookup_take_lt, lookup_drop by lia. f_equal. lia.
    + rewrite lookup_app_r by (rewrite length_take, length_drop; lia).
      rewrite length_take, length_drop, Nat.min_l, lookup_drop by lia. f_equal. lia.
  - rewrite lookup_app_l by (rewrite length_take; lia). by rewrite lookup_take_lt by lia.
Qed.

Lemma length_pasted_all l m : forall d, length m = length d -> inside (length d) l -> length (pasted_all l m d) = length d.
Proof.
  induction l as [|[off k] l IH]; intros d E Hin; [done|]. apply Forall_cons in Hin as [H Hin]. cbn [pasted_all fst snd] in *.
  pose proof (length_pasted m off (width k) d E H) as L. rewrite IH; rewrite ?L; done.
Qed.

Lemma lookup_pasted_all l m i : forall d, length m = length d -> inside (length d) l ->
  pasted_all l m d !! i = if covered l i then m !! i else d !! i.
Proof.
  induction l as [|[off k] l IH]; intros d E Hin; [done|]. apply Forall_cons in Hin as [H Hin]. cbn [pasted_all covered existsb fst snd] in *.
  pose proof (length_pasted m off (width k) d E H) as L. rewrite IH; rewrite ?L; [|done..].
  rewrite lookup_pasted by done. fold (covered l i). by destruct (covered l i), (covers off (width k) i).
Qed.

Section Run.
Context `{XdrLaws}.

(** The units of the scalars of an object. *)
Definition encoding (l : scalar_list) (m : list Z) : list Z :=
  l ≫= fun e => put e.2 (load e.2 (slice m e.1 (width e.2))).

Lemma encoding_cons off k l m : encoding ((off, k) :: l) m = put k (load k (slice m off (width k))) ++ encoding l m.
Proof. reflexivity. Qed.

Lemma length_encoding l m : length (encoding l m) = (BYTES_PER_XDR_UNIT * length l)%nat.
Proof.
  induction l as [|[off k] l IH]; [done|]. rewrite encoding_cons, length_app, length_put, IH. cbn [length]. lia.
Qed.

Lemma run_prims_encode l m : inside (length m) l -> forall buf,
  run_prims l (Xdr XDR_ENCODE buf m) = Some (true, Xdr XDR_ENCODE (buf ++ encoding l m) m).
Proof.
  induction 1 as [|[off k] l Hk _ IH]; intros buf; cbn [run_prims]; [unfold encoding; cbn; by rewrite app_nil_r|].
  unfold and_then, xdr_prim at 1. cbn [x_op x_buf x_mem fst snd] in *. unfold read_bytes. rewrite decide_True by done.
  cbn [mbind option_bind]. by rewrite IH, encoding_cons, <- app_assoc.
Qed.

Lemma run_prims_decode l m rest : Forall is_byte m -> forall d, length m = length d -> inside (length d) l ->
  run_prims l (Xdr XDR_DECODE (encoding l m ++ rest) d) = Some (true, Xdr XDR_DECODE rest (pasted_all l m d)).
Proof.
  intros Hb. induction l as [|[off k] l IH]; intros d E Hin; [done|]. apply Forall_cons in Hin as [Hk Hin]. cbn [fst snd] in Hk.
  cbn [run_prims pasted_all]. unfold and_then, xdr_prim at 1. cbn [x_op x_buf x_mem].
  rewrite encoding_cons, <- app_assoc, get_put by apply load_in_range.
  assert (Hs : length (slice m off (width k)) = width k) by (apply length_slice; lia).
  rewrite store_load; [|by apply Forall_take, Forall_drop|done].
  unfold write_bytes. rewrite Hs, decide_True by done. cbn [mbind option_bind].
  fold (pasted m off (width k) d). pose proof (length_pasted m off (width k) d E Hk) as L.
  apply IH; by rewrite L.
Qed.

(** Any bytes: the decoder stays inside its object and accepts as soon as
    there are enough units. *)
Lemma run_prims_any l : forall buf d, inside (length d) l -> exists y,
  run_prims l (Xdr XDR_DECODE buf d) = Some (bool_decide (BYTES_PER_XDR_UNIT * length l <= length buf)%nat, y)
  /\ length (x_mem y) = length d.
Proof.
  induction l as [|[off k] l IH]; intros buf d Hin.
  - exists (Xdr XDR_DECODE buf d). split; [|reflexivity]. rewrite bool_decide_true by (cbn; lia). reflexivity.
  - apply Forall_cons in Hin as [Hk Hin]. cbn [run_prims fst snd length] in *. unfold and_then, xdr_prim at 1. cbn [x_op x_buf x_mem].
    destruct (le_lt_dec BYTES_PER_XDR_UNIT (length buf)) as [Hle|Hlt].
    + destruct (get_unit k buf Hle) as [v ->]. unfold write_bytes. rewrite length_store, decide_True by done. cbn [mbind option_bind].
      set (d' := take off d ++ _). assert (L : length d' = length d)
        by (unfold d'; rewrite !length_app, length_store, length_take, length_drop; lia).
      destruct (IH (drop BYTES_PER_XDR_UNIT buf) d') as (y & -> & Hy); [by rewrite L|].
      exists y. split; [|by rewrite Hy]. do 2 f_equal. apply bool_decide_ext. rewrite length_drop. lia.
    + rewrite get_short by done. cbn [mbind option_bind]. exists (Xdr XDR_DECODE buf d). split; [|reflexivity]. by rewrite bool_decide_false by lia.
Qed.

Lemma run_prims_op l : forall x ok y, run_prims l x = Some (ok, y) -> x_op y = x_op x.
Proof.
  induction l as [|[off k] l IH]; intros x ok y; cbn [run_prims]; [by intros [= <- <-]|]. unfold and_then.
  destruct (xdr_prim k off x) as [[b z]|] eqn:E; [|done]. cbn [mbind option_bind].
  assert (Hz : x_op z = x_op x).
  { unfold xdr_prim in E. destruct (x_op x) eqn:Ex.
    - destruct (read_bytes _ _ _); [|done]. cbn in E. by injection E as <- <-.
    - destruct (get k (x_buf x)) as [[v rest]|]; [|by injection E as <- <-].
      destruct (write_bytes _ _ _); [|done]. cbn in E. by injection E as <- <-.
    - by injection E as <- <-. }
  destruct b; [|by intros [= <- <-]]. intros Hr. rewrite <- Hz. by eapply IH.
Qed.

Lemma flat_vector p t n : flat p t -> flat (fun objp => xdr_vector objp n (size_of (erase t)) p) (XVec t n).
Proof. intros Hp objp x. rewrite vector_elements. by apply (flat_elements p t n Hp). Qed.

Lemma chain_vector T pos objp proc f t n size g fs :
  offset_of T f = align_up pos (align_of (erase t)) -> size = size_of (erase t) -> flat proc t ->
  chain T (align_up pos (align_of (erase t)) + size_of (erase t) * n) objp g fs ->
  chain T pos objp (xdr_vector (field objp T f) n size proc >> g) ((f, XVec t n) :: fs).
Proof.
  intros Hoff -> Hp Hg. apply (chain_field T pos objp (fun o => xdr_vector o n (size_of (erase t)) proc)); [done| |done].
  by apply flat_vector.
Qed.

(** ** The units of a buffer taken from the stream *)

Definition inlined (k : xprim) : Prop := k = XInt \/ k = XUInt.

Definition puts (l : scalar_list) : filter := foldr (fun e g => IXDR_PUT e.2 e.1 >> g) TRUE l.
Definition gets (l : scalar_list) : filter := foldr (fun e g => IXDR_GET e.2 e.1 >> g) TRUE l.

Lemma puts_run l : Forall (fun e => inlined e.2) l -> forall x, x_op x = XDR_ENCODE -> puts l x = run_prims l x.
Proof.
  induction 1 as [|[off k] l Hk _ IH]; intros x Hop; [done|]. cbn [puts foldr run_prims fst snd] in *. apply and_then_ext.
  - unfold IXDR_PUT, xdr_prim. rewrite Hop. destruct (read_bytes _ _ _); [|done]. cbn. by rewrite ixdr_put_put.
  - intros y E. apply IH. rewrite <- Hop. apply (run_prims_op [(off, k)] x true y). cbn [run_prims]. unfold and_then. by rewrite E.
Qed.

Lemma gets_run l : Forall (fun e => inlined e.2) l -> forall x, x_op x = XDR_DECODE ->
  (BYTES_PER_XDR_UNIT * length l <= length (x_buf x))%nat -> gets l x = run_prims l x.
Proof.
  induction 1 as [|[off k] l Hk _ IH]; intros x Hop Hlen; [done|]. cbn [gets foldr run_prims fst snd length] in *.
  destruct (get_unit k (x_buf x)) as [v Hv]; [lia|]. apply and_then_ext.
  - unfold IXDR_GET, xdr_prim. rewrite Hop, ixdr_get_get, Hv by done. done.
  - intros y. unfold xdr_prim. rewrite Hop, Hv. destruct (write_bytes _ _ _); [|done]. intros [= <-].
    apply IH; [done|]. cbn [x_buf]. rewrite length_drop. lia.
Qed.

(** Both branches of an inlined block are the sequence of its scalars. *)
Lemma if_inline_puts l x : Forall (fun e => inlined e.2) l -> x_op x = XDR_ENCODE ->
  if_inline (length l) (run_prims l) (puts l) x = run_prims l x.
Proof. intros Hl Hop. unfold if_inline. destruct (xdr_inline _ x); [by apply puts_run|done]. Qed.

Lemma if_inline_gets l x : Forall (fun e => inlined e.2) l -> x_op x = XDR_DECODE ->
  if_inline (length l) (run_prims l) (gets l) x = run_prims l x.
Proof.
  intros Hl Hop. unfold if_inline. destruct (xdr_inline _ x) eqn:E; [|done]. apply gets_run; [done..|].
  rewrite Nat.mul_comm. by apply inline_left.
Qed.
End Run.

(** ** A filter with a form for each operation *)

Section ByOp.
Context `{XdrLaws}.

Lemma chain_by_op T pos objp e d o fs :
  (forall x, x_op x = XDR_ENCODE -> e x = o x) -> (forall x, x_op x = XDR_DECODE -> d x = o x) ->
  chain T pos objp o fs -> chain T pos objp (by_op e d o) fs.
Proof. intros He Hd Ho x. rewrite <- Ho. unfold by_op. destruct (x_op x) eqn:E; [by apply He|by apply Hd|done]. Qed.

Lemma and_then_TRUE f x : (f >> TRUE) x = f x.
Proof. unfold and_then. by destruct (f x) as [[[] y]|]. Qed.

Lemma run_prims_then l g x : (run_prims l >> g) x = foldr (fun e h => xdr_prim e.2 e.1 >> h) g l x.
Proof.
  revert x. induction l as [|[off k] l IH]; intros x; [done|]. cbn [run_prims foldr fst snd].
  rewrite and_then_assoc. apply and_then_ext; [done|]. intros y _. apply IH.
Qed.

(** An inlined block and what follows it, as the chain of plain filters. *)
Lemma puts_then l g x : Forall (fun e => inlined e.2) l -> x_op x = XDR_ENCODE ->
  (if_inline (length l) (run_prims l) (puts l) >> g) x = foldr (fun e h => xdr_prim e.2 e.1 >> h) g l x.
Proof. intros Hl Hop. rewrite <- run_prims_then. apply and_then_ext; [by apply if_inline_puts|done]. Qed.

Lemma gets_then l g x : Forall (fun e => inlined e.2) l -> x_op x = XDR_DECODE ->
  (if_inline (length l) (run_prims l) (gets l) >> g) x = foldr (fun e h => xdr_prim e.2 e.1 >> h) g l x.
Proof. intros Hl Hop. rewrite <- run_prims_then. apply and_then_ext; [by apply if_inline_gets|done]. Qed.

Lemma flat_op p t objp x ok y : flat p t -> p objp x = Some (ok, y) -> x_op y = x_op x.
Proof. intros Hp. rewrite Hp. apply run_prims_op. Qed.

Lemma flat_vector_op p t n objp x ok y : flat p t -> xdr_vector objp n (size_of (erase t)) p x = Some (ok, y) -> x_op y = x_op x.
Proof. intros Hp E. exact (flat_op _ (XVec t n) objp x ok y (flat_vector p t n Hp) E). Qed.
End ByOp.

(** ** The scalars of a type lie inside it *)

Lemma inside_shift d n s l : inside n l -> (d + n <= s)%nat -> inside s (shift_scalars d l).
Proof. intros H Hs. unfold inside, shift_scalars. apply Forall_fmap. eapply Forall_impl; [exact H|]. intros [off k] Hk. cbn in *. lia. Qed.

Lemma inside_elements k n l : inside k l -> forall a s, ((a + n) * k <= s)%nat ->
  inside s (seq a n ≫= fun i => shift_scalars (i * k) l).
Proof.
  intros Hl. induction n as [|n IH]; intros a s Hs; cbn [seq mbind list_bind]; [constructor|]. apply Forall_app. split.
  - eapply inside_shift; [exact Hl|]. nia.
  - apply IH. nia.
Qed.

Lemma struct_end_le fs : forall pos, (pos <= struct_end pos fs)%nat.
Proof.
  induction fs as [|[f t] fs IH]; intros pos; cbn [struct_end]; [done|].
  pose proof (align_up_le pos (align_of t) (align_of_pos t)). specialize (IH (align_up pos (align_of t) + size_of t)%nat). lia.
Qed.

Lemma inside_fields fs : Forall (fun f => inside (size_of (erase f.2)) (scalars f.2)) fs ->
  forall pos, inside (struct_end pos (erase_fields fs)) (scalars_from pos fs).
Proof.
  induction 1 as [|[f t] fs Hf _ IH]; intros pos; cbn [scalars_from]; [constructor|]. apply Forall_app. split; [|apply IH].
  eapply inside_shift; [exact Hf|]. cbn [erase_fields map struct_end fst snd]. apply struct_end_le.
Qed.

Theorem scalars_inside t : inside (size_of (erase t)) (scalars t).
Proof.
  induction t as [k|t n IH|fs IH] using xty_fields_ind.
  - repeat constructor.
  - cbn [erase size_of scalars]. rewrite Nat.mul_comm. by apply (inside_elements _ n _ IH 0).
  - rewrite erase_struct, size_of_struct, scalars_struct. eapply Forall_impl; [apply inside_fields, IH|].
    intros e H. cbv beta in *. pose proof (align_up_le (struct_end 0 (erase_fields fs)) _ (align_of_pos (CStruct (erase_fields fs)))). lia.
Qed.

(** ** Serialising an object *)

(** What [X_encode] returns and leaves: its result, the bytes of the stream,
    their number as [*len] has it, how to free them, and the object. *)
Record encoded := Encoded { e_ret : bool; e_buf : list Z; e_len : Z; e_mode : free_mode; e_obj : list Z }.

Record decoded := Decoded { d_ret : bool; d_obj : list Z; d_mode : free_mode }.

(** [X_encode]: the filter on a stream in memory. *)
Definition encode_with (proc : nat -> filter) (obj : list Z) : option encoded :=
  '(ret, x) ← proc 0%nat (Xdr XDR_ENCODE [] obj);
  Some (Encoded ret (x_buf x) (i32 (Z.of_nat (length (x_buf x)))) FREE_MODE_FREE (x_mem x)).

(** [X_decode]: the filter on the first [len] bytes of [buf] and a new object
    of zeroed memory, which the caller gets whatever the result is. *)
Definition decode_with (size : nat) (proc : nat -> filter) (buf : list Z) (len : Z) : option decoded :=
  if len <? 0 then None else
  input ← read_bytes buf 0 (Z.to_nat len);
  '(ret, x) ← proc 0%nat (Xdr XDR_DECODE input (zeroed size));
  Some (Decoded ret (x_mem x) FREE_MODE_MP_FREE).

Section Objects.
Context `{XdrLaws}.
Variables (p : nat -> filter) (t : xty).
Hypothesis Hp : flat p t.

Lemma shift_scalars_0 l : shift_scalars 0 l = l.
Proof. unfold shift_scalars. rewrite <- (list_fmap_id l) at 2. apply list_fmap_ext. by intros i [o k] _. Qed.

Lemma encode_flat obj : length obj = size_of (erase t) ->
  encode_with p obj = Some (Encoded true (encoding (scalars t) obj) (i32 (Z.of_nat (BYTES_PER_XDR_UNIT * length (scalars t)))) FREE_MODE_FREE obj).
Proof.
  intros Hl. unfold encode_with. rewrite Hp, shift_scalars_0, run_prims_encode by (rewrite Hl; apply scalars_inside).
  cbn [mbind option_bind app x_buf x_mem]. by rewrite length_encoding.
Qed.

Lemma decode_flat obj : length obj = size_of (erase t) -> Forall is_byte obj -> 
  decode_with (size_of (erase t)) p (encoding (scalars t) obj) (Z.of_nat (BYTES_PER_XDR_UNIT * length (scalars t)))
  = Some (Decoded true (pasted_all (scalars t) obj (zeroed (size_of (erase t)))) FREE_MODE_MP_FREE).
Proof.
  intros Hl Hb. unfold decode_with. rewrite (proj2 (Z.ltb_ge _ _)) by lia. rewrite Nat2Z.id.
  pose proof (read_bytes_prefix (encoding (scalars t) obj) [] _ (eq_sym (length_encoding (scalars t) obj))) as Hr.
  rewrite app_nil_r in Hr. rewrite Hr. cbn [mbind option_bind]. rewrite Hp, shift_scalars_0.
  pose proof (run_prims_decode (scalars t) obj [] Hb (zeroed (size_of (erase t)))) as Hd. rewrite app_nil_r in Hd.
  rewrite Hd; [done| |]; unfold zeroed; rewrite length_replicate; [done|apply scalars_inside].
Qed.

Lemma decode_any buf len : 0 <= len <= Z.of_nat (length buf) -> exists obj,
  decode_with (size_of (erase t)) p buf len = Some (Decoded (bool_decide (Z.of_nat (BYTES_PER_XDR_UNIT * length (scalars t)) <= len)) obj FREE_MODE_MP_FREE)
  /\ length obj = size_of (erase t).
Proof.
  intros [Hpos Hlen]. unfold decode_with. rewrite (proj2 (Z.ltb_ge _ _)) by lia. unfold read_bytes. rewrite decide_True by lia.
  cbn [mbind option_bind]. change (drop 0 buf) with buf. rewrite Hp, shift_scalars_0.
  destruct (run_prims_any (scalars t) (take (Z.to_nat len) buf) (zeroed (size_of (erase t)))) as (y & -> & Hy).
  - unfold zeroed. rewrite length_replicate. apply scalars_inside.
  - cbn [mbind option_bind]. exists (x_mem y). split; [|rewrite Hy; apply length_replicate]. do 2 f_equal.
    apply bool_decide_ext. rewrite length_take. lia.
Qed.
End Objects.
