(* ===== verification/XdrProcs.v ===== *)
(** * The filters of the messages (src/req_resp.c)

    One definition per filter, a chain of the filters of its fields that stops
    at the first one that fails; three of them have a form of their own for
    encoding and for decoding, with a buffer of the stream when it offers one. *)

From S2P Require Import Prelude Layout ReqResp SerializeRaw Xdr.

Local Open Scope string_scope.

Section Procs.
Context `{XdrLib}.

Definition xdr_version_info (objp : nat) : filter :=
  xdr_short (field objp version_info "major") >>
  xdr_short (field objp version_info "minor") >>
  xdr_short (field objp version_info "revision") >>
  TRUE.

Definition xdr_channel_info_req (objp : nat) : filter :=
  xdr_int (field objp channel_info_req "flags") >>
  TRUE.

Definition xdr_channel_info_resp_data (objp : nat) : filter :=
  xdr_int (field objp channel_info_resp_data "main_port") >>
  xdr_int (field objp channel_info_resp_data "second_port") >>
  TRUE.

Definition xdr_channel_info_resp (objp : nat) : filter :=
  xdr_int (field objp channel_info_resp "status") >>
  xdr_int (field objp channel_info_resp "flags") >>
  xdr_vector (field objp channel_info_resp "message") XDR_RESP_MESSAGE_MAX_LEN (size_of CChar) xdr_char >>
  xdr_channel_info_resp_data (field objp channel_info_resp "data") >>
  TRUE.

Definition xdr_validate_req (objp : nat) : filter :=
  xdr_int (field objp validate_req "name_len") >>
  xdr_int (field objp validate_req "passwd_len") >>
  xdr_vector (field objp validate_req "name") XDR_USER_NAME_MAX_LEN (size_of CChar) xdr_char >>
  xdr_vector (field objp validate_req "passwd_md5") XDR_PASSWD_MD5_LEN (size_of CChar) xdr_char >>
  xdr_version_info (field objp validate_req "ver") >>
  TRUE.

Definition xdr_validate_resp_data (objp : nat) : filter :=
  xdr_u_int (field objp validate_resp_data "uid") >>
  xdr_vector (field objp validate_resp_data "name") XDR_USER_NAME_MAX_LEN (size_of CChar) xdr_char >>
  xdr_vector (field objp validate_resp_data "session_id") XDR_SESSION_ID_LEN (size_of CChar) xdr_char >>
  xdr_vector (field objp validate_resp_data "connect_id") XDR_CONNECT_ID_LEN (size_of CChar) xdr_char >>
  xdr_vector (field objp validate_resp_data "pwd") XDR_DIR_PATH_MAX_LEN (size_of CChar) xdr_char >>
  TRUE.

Definition xdr_validate_resp (objp : nat) : filter :=
  xdr_int (field objp validate_resp "status") >>
  xdr_int (field objp validate_resp "flags") >>
  xdr_vector (field objp validate_resp "message") XDR_RESP_MESSAGE_MAX_LEN (size_of CChar) xdr_char >>
  xdr_validate_resp_data (field objp validate_resp "data") >>
  TRUE.

Definition xdr_append_conn_req (objp : nat) : filter :=
  xdr_vector (field objp append_conn_req "session_id") XDR_SESSION_ID_LEN (size_of CChar) xdr_char >>
  xdr_int (field objp append_conn_req "type") >>
  TRUE.

Definition xdr_append_conn_resp_data (objp : nat) : filter :=
  xdr_vector (field objp append_conn_resp_data "connect_id") XDR_CONNECT_ID_LEN (size_of CChar) xdr_char >>
  TRUE.

Definition xdr_append_conn_resp (objp : nat) : filter :=
  xdr_int (field objp append_conn_resp "status") >>
  xdr_int (field objp append_conn_resp "flags") >>
  xdr_vector (field objp append_conn_resp "message") XDR_RESP_MESSAGE_MAX_LEN (size_of CChar) xdr_char >>
  xdr_append_conn_resp_data (field objp append_conn_resp "data") >>
  TRUE.

Definition xdr_logged_in_user (objp : nat) : filter :=
  xdr_vector (field objp logged_in_user "session_id") XDR_SESSION_ID_LEN (size_of CChar) xdr_char >>
  xdr_vector (field objp logged_in_user "name") XDR_USER_NAME_MAX_LEN (size_of CChar) xdr_char >>
  xdr_vector (field objp logged_in_user "ip") XDR_IPV4_MAX_LEN (size_of CChar) xdr_char >>
  xdr_int (field objp logged_in_user "port") >>
  TRUE.

Definition xdr_pwd_req (objp : nat) : filter :=
  xdr_vector (field objp pwd_req "session_id") XDR_SESSION_ID_LEN (size_of CChar) xdr_char >>
  TRUE.

Definition xdr_pwd_resp_data (objp : nat) : filter :=
  xdr_vector (field objp pwd_resp_data "pwd") XDR_DIR_PATH_MAX_LEN (size_of CChar) xdr_char >>
  TRUE.

Definition xdr_pwd_resp (objp : nat) : filter :=
  xdr_int (field objp pwd_resp "status") >>
  xdr_int (field objp pwd_resp "flags") >>
  xdr_vector (field objp pwd_resp "message") XDR_RESP_MESSAGE_MAX_LEN (size_of CChar) xdr_char >>
  xdr_pwd_resp_data (field objp pwd_resp "data") >>
  TRUE.

Definition xdr_ll_req (objp : nat) : filter :=
  xdr_vector (field objp ll_req "session_id") XDR_SESSION_ID_LEN (size_of CChar) xdr_char >>
  xdr_vector (field objp ll_req "path") XDR_DIR_PATH_MAX_LEN (size_of CChar) xdr_char >>
  xdr_int (field objp ll_req "to_peer") >>
  xdr_logged_in_user (field objp ll_req "user") >>
  TRUE.

Definition xdr_file_entry (objp : nat) : filter :=
  by_op
    (xdr_vector (field objp file_entry "name") XDR_FILE_NAME_MAX_LEN (size_of CChar) xdr_char >>
     if_inline 6
       (xdr_u_int (field objp file_entry "type") >>
        xdr_u_int (field objp file_entry "size") >>
        xdr_u_int (field objp file_entry "c_time") >>
        xdr_u_int (field objp file_entry "a_time") >>
        xdr_u_int (field objp file_entry "m_time") >>
        xdr_u_int (field objp file_entry "mode") >>
        TRUE)
       (IXDR_PUT XUInt (field objp file_entry "type") >>
        IXDR_PUT XUInt (field objp file_entry "size") >>
        IXDR_PUT XUInt (field objp file_entry "c_time") >>
        IXDR_PUT XUInt (field objp file_entry "a_time") >>
        IXDR_PUT XUInt (field objp file_entry "m_time") >>
        IXDR_PUT XUInt (field objp file_entry "mode") >>
        TRUE) >>
     TRUE)
    (xdr_vector (field objp file_entry "name") XDR_FILE_NAME_MAX_LEN (size_of CChar) xdr_char >>
     if_inline 6
       (xdr_u_int (field objp file_entry "type") >>
        xdr_u_int (field objp file_entry "size") >>
        xdr_u_int (field objp file_entry "c_time") >>
        xdr_u_int (field objp file_entry "a_time") >>
        xdr_u_int (field objp file_entry "m_time") >>
        xdr_u_int (field objp file_entry "mode") >>
        TRUE)
       (IXDR_GET XUInt (field objp file_entry "type") >>
        IXDR_GET XUInt (field objp file_entry "size") >>
        IXDR_GET XUInt (field objp file_entry "c_time") >>
        IXDR_GET XUInt (field objp file_entry "a_time") >>
        IXDR_GET XUInt (field objp file_entry "m_time") >>
        IXDR_GET XUInt (field objp file_entry "mode") >>
        TRUE) >>
     TRUE)
    (xdr_vector (field objp file_entry "name") XDR_FILE_NAME_MAX_LEN (size_of CChar) xdr_char >>
     xdr_u_int (field objp file_entry "type") >>
     xdr_u_int (field objp file_entry "size") >>
     xdr_u_int (field objp file_entry "c_time") >>
     xdr_u_int (field objp file_entry "a_time") >>
     xdr_u_int (field objp file_entry "m_time") >>
     xdr_u_int (field objp file_entry "mode") >>
     TRUE).

Definition xdr_ll_resp_data (objp : nat) : filter :=
  xdr_int (field objp ll_resp_data "total") >>
  xdr_int (field objp ll_resp_data "this_nr") >>
  xdr_vector (field objp ll_resp_data "entries") XDR_FILE_ENTRY_MAX_CNT (size_of file_entry) xdr_file_entry >>
  TRUE.

Definition xdr_ll_resp (objp : nat) : filter :=
  xdr_int (field objp ll_resp "status") >>
  xdr_int (field objp ll_resp "flags") >>
  xdr_vector (field objp ll_resp "message") XDR_RESP_MESSAGE_MAX_LEN (size_of CChar) xdr_char >>
  xdr_ll_resp_data (field objp ll_resp "data") >>
  TRUE.

Definition xdr_cd_req (objp : nat) : filter :=
  xdr_vector (field objp cd_req "session_id") XDR_SESSION_ID_LEN (size_of CChar) xdr_char >>
  xdr_vector (field objp cd_req "path") XDR_DIR_PATH_MAX_LEN (size_of CChar) xdr_char >>
  TRUE.

Definition xdr_cd_resp_data (objp : nat) : filter :=
  xdr_vector (field objp cd_resp_data "pwd") XDR_DIR_PATH_MAX_LEN (size_of CChar) xdr_char >>
  TRUE.

Definition xdr_cd_resp (objp : nat) : filter :=
  xdr_int (field objp cd_resp "status") >>
  xdr_int (field objp cd_resp "flags") >>
  xdr_vector (field objp cd_resp "message") XDR_RESP_MESSAGE_MAX_LEN (size_of CChar) xdr_char >>
  xdr_cd_resp_data (field objp cd_resp "data") >>
  TRUE.

Definition xdr_get_req (objp : nat) : filter :=
  xdr_vector (field objp get_req "session_id") XDR_SESSION_ID_LEN (size_of CChar) xdr_char >>
  xdr_vector (field objp get_req "path") XDR_DIR_PATH_MAX_LEN (size_of CChar) xdr_char >>
  xdr_int (field objp get_req "to_peer") >>
  xdr_logged_in_user (field objp get_req "user") >>
  TRUE.

Definition xdr_trans_entry (objp : nat) : filter :=
  by_op
    (if_inline 4
       (xdr_int (field objp trans_entry "type") >>
        xdr_int (field objp trans_entry "this_size") >>
        xdr_u_int (field objp trans_entry "mode") >>
        xdr_u_int (field objp trans_entry "total_size") >>
        TRUE)
       (IXDR_PUT XInt (field objp trans_entry "type") >>
        IXDR_PUT XInt (field objp trans_entry "this_size") >>
        IXDR_PUT XUInt (field objp trans_entry "mode") >>
        IXDR_PUT XUInt (field objp trans_entry "total_size") >>
        TRUE) >>
     xdr_vector (field objp trans_entry "content") XDR_CONTENT_BLOCK_SIZE (size_of CChar) xdr_u_char >>
     TRUE)
    (if_inline 4
       (xdr_int (field objp trans_entry "type") >>
        xdr_int (field objp trans_entry "this_size") >>
        xdr_u_int (field objp trans_entry "mode") >>
        xdr_u_int (field objp trans_entry "total_size") >>
        TRUE)
       (IXDR_GET XInt (field objp trans_entry "type") >>
        IXDR_GET XInt (field objp trans_entry "this_size") >>
        IXDR_GET XUInt (field objp trans_entry "mode") >>
        IXDR_GET XUInt (field objp trans_entry "total_size") >>
        TRUE) >>
     xdr_vector (field objp trans_entry "content") XDR_CONTENT_BLOCK_SIZE (size_of CChar) xdr_u_char >>
     TRUE)
    (xdr_int (field objp trans_entry "type") >>
     xdr_int (field objp trans_entry "this_size") >>
     xdr_u_int (field objp trans_entry "mode") >>
     xdr_u_int (field objp trans_entry "total_size") >>
     xdr_vector (field objp trans_entry "content") XDR_CONTENT_BLOCK_SIZE (size_of CChar) xdr_u_char >>
     TRUE).

Definition xdr_get_resp_data (objp : nat) : filter :=
  xdr_int (field objp get_resp_data "total_files") >>
  xdr_int (field objp get_resp_data "file_idx") >>
  xdr_trans_entry (field objp get_resp_data "entry") >>
  TRUE.

Definition xdr_get_resp (objp : nat) : filter :=
  xdr_int (field objp get_resp "status") >>
  xdr_int (field objp get_resp "flags") >>
  xdr_vector (field objp get_resp "message") XDR_RESP_MESSAGE_MAX_LEN (size_of CChar) xdr_char >>
  xdr_get_resp_data (field objp get_resp "data") >>
  xdr_int (field objp get_resp "need_reply") >>
  TRUE.

Definition xdr_put_req_data (objp : nat) : filter :=
  xdr_int (field objp put_req_data "total_files") >>
  xdr_int (field objp put_req_data "file_idx") >>
  xdr_trans_entry (field objp put_req_data "entry") >>
  TRUE.

Definition xdr_put_req (objp : nat) : filter :=
  xdr_vector (field objp put_req "session_id") XDR_SESSION_ID_LEN (size_of CChar) xdr_char >>
  xdr_int (field objp put_req "to_peer") >>
  xdr_logged_in_user (field objp put_req "user") >>
  xdr_put_req_data (field objp put_req "data") >>
  xdr_int (field objp put_req "flags") >>
  xdr_int (field objp put_req "need_reply") >>
  TRUE.

Definition xdr_put_resp (objp : nat) : filter :=
  xdr_int (field objp put_resp "status") >>
  xdr_int (field objp put_resp "flags") >>
  xdr_vector (field objp put_resp "message") XDR_RESP_MESSAGE_MAX_LEN (size_of CChar) xdr_char >>
  TRUE.

Definition xdr_common_resp (objp : nat) : filter :=
  xdr_int (field objp common_resp "status") >>
  xdr_int (field objp common_resp "flags") >>
  xdr_vector (field objp common_resp "message") XDR_RESP_MESSAGE_MAX_LEN (size_of CChar) xdr_char >>
  TRUE.

Definition xdr_write_msg_req (objp : nat) : filter :=
  xdr_int (field objp write_msg_req "mtype") >>
  xdr_vector (field objp write_msg_req "name") 16 (size_of CChar) xdr_char >>
  xdr_int (field objp write_msg_req "pid") >>
  xdr_int (field objp write_msg_req "length") >>
  xdr_vector (field objp write_msg_req "mtext") XDR_NET_MSG_MAX_LEN (size_of CChar) xdr_char >>
  TRUE.

Definition xdr_read_msg_req (objp : nat) : filter :=
  xdr_int (field objp read_msg_req "mtype") >>
  TRUE.

Definition xdr_read_msg_resp_data (objp : nat) : filter :=
  xdr_int (field objp read_msg_resp_data "mtype") >>
  xdr_vector (field objp read_msg_resp_data "name") 16 (size_of CChar) xdr_char >>
  xdr_int (field objp read_msg_resp_data "pid") >>
  xdr_int (field objp read_msg_resp_data "length") >>
  xdr_vector (field objp read_msg_resp_data "mtext") XDR_NET_MSG_MAX_LEN (size_of CChar) xdr_char >>
  TRUE.

Definition xdr_read_msg_resp (objp : nat) : filter :=
  xdr_int (field objp read_msg_resp "status") >>
  xdr_int (field objp read_msg_resp "flags") >>
  xdr_vector (field objp read_msg_resp "message") XDR_RESP_MESSAGE_MAX_LEN (size_of CChar) xdr_char >>
  xdr_read_msg_resp_data (field objp read_msg_resp "data") >>
  TRUE.

Definition xdr_mp_stat_req (objp : nat) : filter :=
  xdr_vector (field objp mp_stat_req "session_id") XDR_SESSION_ID_LEN (size_of CChar) xdr_char >>
  TRUE.

Definition xdr_mp_stat_resp_data (objp : nat) : filter :=
  by_op
    (if_inline 4
       (xdr_u_int (field objp mp_stat_resp_data "total_size") >>
        xdr_int (field objp mp_stat_resp_data "total_nodes") >>
        xdr_int (field objp mp_stat_resp_data "using_nodes") >>
        xdr_int (field objp mp_stat_resp_data "free_nodes") >>
        TRUE)
       (IXDR_PUT XUInt (field objp mp_stat_resp_data "total_size") >>
        IXDR_PUT XInt (field objp mp_stat_resp_data "total_nodes") >>
        IXDR_PUT XInt (field objp mp_stat_resp_data "using_nodes") >>
        IXDR_PUT XInt (field objp mp_stat_resp_data "free_nodes") >>
        TRUE) >>
     TRUE)
    (if_inline 4
       (xdr_u_int (field objp mp_stat_resp_data "total_size") >>
        xdr_int (field objp mp_stat_resp_data "total_nodes") >>
        xdr_int (field objp mp_stat_resp_data "using_nodes") >>
        xdr_int (field objp mp_stat_resp_data "free_nodes") >>
        TRUE)
       (IXDR_GET XUInt (field objp mp_stat_resp_data "total_size") >>
        IXDR_GET XInt (field objp mp_stat_resp_data "total_nodes") >>
        IXDR_GET XInt (field objp mp_stat_resp_data "using_nodes") >>
        IXDR_GET XInt (field objp mp_stat_resp_data "free_nodes") >>
        TRUE) >>
     TRUE)
    (xdr_u_int (field objp mp_stat_resp_data "total_size") >>
     xdr_int (field objp mp_stat_resp_data "total_nodes") >>
     xdr_int (field objp mp_stat_resp_data "using_nodes") >>
     xdr_int (field objp mp_stat_resp_data "free_nodes") >>
     TRUE).

Definition xdr_mp_stat_resp (objp : nat) : filter :=
  xdr_int (field objp mp_stat_resp "status") >>
  xdr_int (field objp mp_stat_resp "flags") >>
  xdr_vector (field objp mp_stat_resp "message") XDR_RESP_MESSAGE_MAX_LEN (size_of CChar) xdr_char >>
  xdr_mp_stat_resp_data (field objp mp_stat_resp "data") >>
  TRUE.

Definition xdr_directcmd_req (objp : nat) : filter :=
  xdr_vector (field objp directcmd_req "session_id") XDR_SESSION_ID_LEN (size_of CChar) xdr_char >>
  xdr_vector (field objp directcmd_req "cmd") XDR_CMD_MAX_LEN (size_of CChar) xdr_char >>
  TRUE.

Definition xdr_directcmd_resp_data (objp : nat) : filter :=
  xdr_int (field objp directcmd_resp_data "total_len") >>
  xdr_int (field objp directcmd_resp_data "this_len") >>
  xdr_vector (field objp directcmd_resp_data "content") XDR_DIRECT_CMD_RESP_MAX_LEN (size_of CChar) xdr_char >>
  TRUE.

Definition xdr_directcmd_resp (objp : nat) : filter :=
  xdr_int (field objp directcmd_resp "status") >>
  xdr_int (field objp directcmd_resp "flags") >>
  xdr_vector (field objp directcmd_resp "message") XDR_RESP_MESSAGE_MAX_LEN (size_of CChar) xdr_char >>
  xdr_directcmd_resp_data (field objp directcmd_resp "data") >>
  TRUE.

Definition xdr_who_req (objp : nat) : filter :=
  xdr_vector (field objp who_req "session_id") XDR_SESSION_ID_LEN (size_of CChar) xdr_char >>
  TRUE.

Definition xdr_who_resp_data (objp : nat) : filter :=
  xdr_int (field objp who_resp_data "total") >>
  xdr_int (field objp who_resp_data "this_nr") >>
  xdr_vector (field objp who_resp_data "users") XDR_LOGGED_IN_USER_MAX_CNT (size_of logged_in_user) xdr_logged_in_user >>
  TRUE.

Definition xdr_who_resp (objp : nat) : filter :=
  xdr_int (field objp who_resp "status") >>
  xdr_int (field objp who_resp "flags") >>
  xdr_vector (field objp who_resp "message") XDR_RESP_MESSAGE_MAX_LEN (size_of CChar) xdr_char >>
  xdr_who_resp_data (field objp who_resp "data") >>
  TRUE.

Definition xdr_write_req (objp : nat) : filter :=
  xdr_logged_in_user (field objp write_req "user") >>
  xdr_int (field objp write_req "len") >>
  xdr_vector (field objp write_req "message") XDR_WRITE_MSG_MAX_LEN (size_of CChar) xdr_char >>
  TRUE.

Definition xdr_write_resp_data (objp : nat) : filter :=
  xdr_vector (field objp write_resp_data "message") XDR_WRITE_MSG_MAX_LEN (size_of CChar) xdr_char >>
  TRUE.

Definition xdr_write_resp (objp : nat) : filter :=
  xdr_int (field objp write_resp "status") >>
  xdr_int (field objp write_resp "flags") >>
  xdr_vector (field objp write_resp "message") XDR_RESP_MESSAGE_MAX_LEN (size_of CChar) xdr_char >>
  xdr_write_resp_data (field objp write_resp "data") >>
  TRUE.

Definition xdr_port_update_req (objp : nat) : filter :=
  xdr_int (field objp port_update_req "second_port") >>
  TRUE.

Definition xdr_port_update_resp (objp : nat) : filter :=
  xdr_int (field objp port_update_resp "status") >>
  xdr_int (field objp port_update_resp "flags") >>
  xdr_vector (field objp port_update_resp "message") XDR_RESP_MESSAGE_MAX_LEN (size_of CChar) xdr_char >>
  TRUE.

Definition xdr_reconnect_req (objp : nat) : filter :=
  xdr_vector (field objp reconnect_req "session_id") XDR_SESSION_ID_LEN (size_of CChar) xdr_char >>
  xdr_vector (field objp reconnect_req "connect_id") XDR_CONNECT_ID_LEN (size_of CChar) xdr_char >>
  TRUE.

Definition xdr_reconnect_resp (objp : nat) : filter :=
  xdr_int (field objp reconnect_resp "status") >>
  xdr_int (field objp reconnect_resp "flags") >>
  xdr_vector (field objp reconnect_resp "message") XDR_RESP_MESSAGE_MAX_LEN (size_of CChar) xdr_char >>
  TRUE.

End Procs.
