(* ===== verification/XdrFlat.v ===== *)
(** * Every filter is the sequence of the scalars of its type

    The types of include/req_resp.h as a filter sees them, where a [u_char] is
    not a [char], and for each filter of [XdrProcs] that it runs through the
    scalars of its structure in order, inlined blocks included. *)

From S2P Require Import Prelude Layout ReqResp SerializeRaw Xdr XdrProcs.

Definition version_info_x : xty := XStruct [
  ("major"%string, XPrim XShort);
  ("minor"%string, XPrim XShort);
  ("revision"%string, XPrim XShort)].

Definition channel_info_req_x : xty := XStruct [
  ("flags"%string, XPrim XInt)].

Definition channel_info_resp_data_x : xty := XStruct [
  ("main_port"%string, XPrim XInt);
  ("second_port"%string, XPrim XInt)].

Definition channel_info_resp_x : xty := XStruct [
  ("status"%string, XPrim XInt);
  ("flags"%string, XPrim XInt);
  ("message"%string, XVec (XPrim XChar) XDR_RESP_MESSAGE_MAX_LEN);
  ("data"%string, channel_info_resp_data_x)].

Definition validate_req_x : xty := XStruct [
  ("name_len"%string, XPrim XInt);
  ("passwd_len"%string, XPrim XInt);
  ("name"%string, XVec (XPrim XChar) XDR_USER_NAME_MAX_LEN);
  ("passwd_md5"%string, XVec (XPrim XChar) XDR_PASSWD_MD5_LEN);
  ("ver"%string, version_info_x)].

Definition validate_resp_data_x : xty := XStruct [
  ("uid"%string, XPrim XUInt);
  ("name"%string, XVec (XPrim XChar) XDR_USER_NAME_MAX_LEN);
  ("session_id"%string, XVec (XPrim XChar) XDR_SESSION_ID_LEN);
  ("connect_id"%string, XVec (XPrim XChar) XDR_CONNECT_ID_LEN);
  ("pwd"%string, XVec (XPrim XChar) XDR_DIR_PATH_MAX_LEN)].

Definition validate_resp_x : xty := XStruct [
  ("status"%string, XPrim XInt);
  ("flags"%string, XPrim XInt);
  ("message"%string, XVec (XPrim XChar) XDR_RESP_MESSAGE_MAX_LEN);
  ("data"%string, validate_resp_data_x)].

Definition append_conn_req_x : xty := XStruct [
  ("session_id"%string, XVec (XPrim XChar) XDR_SESSION_ID_LEN);
  ("type"%string, XPrim XInt)].

Definition append_conn_resp_data_x : xty := XStruct [
  ("connect_id"%string, XVec (XPrim XChar) XDR_CONNECT_ID_LEN)].

Definition append_conn_resp_x : xty := XStruct [
  ("status"%string, XPrim XInt);
  ("flags"%string, XPrim XInt);
  ("message"%string, XVec (XPrim XChar) XDR_RESP_MESSAGE_MAX_LEN);
  ("data"%string, append_conn_resp_data_x)].

Definition logged_in_user_x : xty := XStruct [
  ("session_id"%string, XVec (XPrim XChar) XDR_SESSION_ID_LEN);
  ("name"%string, XVec (XPrim XChar) XDR_USER_NAME_MAX_LEN);
  ("ip"%string, XVec (XPrim XChar) XDR_IPV4_MAX_LEN);
  ("port"%string, XPrim XInt)].

Definition pwd_req_x : xty := XStruct [
  ("session_id"%string, XVec (XPrim XChar) XDR_SESSION_ID_LEN)].

Definition pwd_resp_data_x : xty := XStruct [
  ("pwd"%string, XVec (XPrim XChar) XDR_DIR_PATH_MAX_LEN)].

Definition pwd_resp_x : xty := XStruct [
  ("status"%string, XPrim XInt);
  ("flags"%string, XPrim XInt);
  ("message"%string, XVec (XPrim XChar) XDR_RESP_MESSAGE_MAX_LEN);
  ("data"%string, pwd_resp_data_x)].

Definition ll_req_x : xty := XStruct [
  ("session_id"%string, XVec (XPrim XChar) XDR_SESSION_ID_LEN);
  ("path"%string, XVec (XPrim XChar) XDR_DIR_PATH_MAX_LEN);
  ("to_peer"%string, XPrim XInt);
  ("user"%string, logged_in_user_x)].

Definition file_entry_x : xty := XStruct [
  ("name"%string, XVec (XPrim XChar) XDR_FILE_NAME_MAX_LEN);
  ("type"%string, XPrim XUInt);
  ("size"%string, XPrim XUInt);
  ("c_time"%string, XPrim XUInt);
  ("a_time"%string, XPrim XUInt);
  ("m_time"%string, XPrim XUInt);
  ("mode"%string, XPrim XUInt)].

Definition ll_resp_data_x : xty := XStruct [
  ("total"%string, XPrim XInt);
  ("this_nr"%string, XPrim XInt);
  ("entries"%string, XVec (file_entry_x) XDR_FILE_ENTRY_MAX_CNT)].

Definition ll_resp_x : xty := XStruct [
  ("status"%string, XPrim XInt);
  ("flags"%string, XPrim XInt);
  ("message"%string, XVec (XPrim XChar) XDR_RESP_MESSAGE_MAX_LEN);
  ("data"%string, ll_resp_data_x)].

Definition cd_req_x : xty := XStruct [
  ("session_id"%string, XVec (XPrim XChar) XDR_SESSION_ID_LEN);
  ("path"%string, XVec (XPrim XChar) XDR_DIR_PATH_MAX_LEN)].

Definition cd_resp_data_x : xty := XStruct [
  ("pwd"%string, XVec (XPrim XChar) XDR_DIR_PATH_MAX_LEN)].

Definition cd_resp_x : xty := XStruct [
  ("status"%string, XPrim XInt);
  ("flags"%string, XPrim XInt);
  ("message"%string, XVec (XPrim XChar) XDR_RESP_MESSAGE_MAX_LEN);
  ("data"%string, cd_resp_data_x)].

Definition get_req_x : xty := XStruct [
  ("session_id"%string, XVec (XPrim XChar) XDR_SESSION_ID_LEN);
  ("path"%string, XVec (XPrim XChar) XDR_DIR_PATH_MAX_LEN);
  ("to_peer"%string, XPrim XInt);
  ("user"%string, logged_in_user_x)].

Definition trans_entry_x : xty := XStruct [
  ("type"%string, XPrim XInt);
  ("this_size"%string, XPrim XInt);
  ("mode"%string, XPrim XUInt);
  ("total_size"%string, XPrim XUInt);
  ("content"%string, XVec (XPrim XUChar) XDR_CONTENT_BLOCK_SIZE)].

Definition get_resp_data_x : xty := XStruct [
  ("total_files"%string, XPrim XInt);
  ("file_idx"%string, XPrim XInt);
  ("entry"%string, trans_entry_x)].

Definition get_resp_x : xty := XStruct [
  ("status"%string, XPrim XInt);
  ("flags"%string, XPrim XInt);
  ("message"%string, XVec (XPrim XChar) XDR_RESP_MESSAGE_MAX_LEN);
  ("data"%string, get_resp_data_x);
  ("need_reply"%string, XPrim XInt)].

Definition put_req_data_x : xty := XStruct [
  ("total_files"%string, XPrim XInt);
  ("file_idx"%string, XPrim XInt);
  ("entry"%string, trans_entry_x)].

Definition put_req_x : xty := XStruct [
  ("session_id"%string, XVec (XPrim XChar) XDR_SESSION_ID_LEN);
  ("to_peer"%string, XPrim XInt);
  ("user"%string, logged_in_user_x);
  ("data"%string, put_req_data_x);
  ("flags"%string, XPrim XInt);
  ("need_reply"%string, XPrim XInt)].

Definition put_resp_x : xty := XStruct [
  ("status"%string, XPrim XInt);
  ("flags"%string, XPrim XInt);
  ("message"%string, XVec (XPrim XChar) XDR_RESP_MESSAGE_MAX_LEN)].

Definition common_resp_x : xty := XStruct [
  ("status"%string, XPrim XInt);
  ("flags"%string, XPrim XInt);
  ("message"%string, XVec (XPrim XChar) XDR_RESP_MESSAGE_MAX_LEN)].

Definition write_msg_req_x : xty := XStruct [
  ("mtype"%string, XPrim XInt);
  ("name"%string, XVec (XPrim XChar) 16);
  ("pid"%string, XPrim XInt);
  ("length"%string, XPrim XInt);
  ("mtext"%string, XVec (XPrim XChar) XDR_NET_MSG_MAX_LEN)].

Definition read_msg_req_x : xty := XStruct [
  ("mtype"%string, XPrim XInt)].

Definition read_msg_resp_data_x : xty := XStruct [
  ("mtype"%string, XPrim XInt);
  ("name"%string, XVec (XPrim XChar) 16);
  ("pid"%string, XPrim XInt);
  ("length"%string, XPrim XInt);
  ("mtext"%string, XVec (XPrim XChar) XDR_NET_MSG_MAX_LEN)].

Definition read_msg_resp_x : xty := XStruct [
  ("status"%string, XPrim XInt);
  ("flags"%string, XPrim XInt);
  ("message"%string, XVec (XPrim XChar) XDR_RESP_MESSAGE_MAX_LEN);
  ("data"%string, read_msg_resp_data_x)].

Definition mp_stat_req_x : xty := XStruct [
  ("session_id"%string, XVec (XPrim XChar) XDR_SESSION_ID_LEN)].

Definition mp_stat_resp_data_x : xty := XStruct [
  ("total_size"%string, XPrim XUInt);
  ("total_nodes"%string, XPrim XInt);
  ("using_nodes"%string, XPrim XInt);
  ("free_nodes"%string, XPrim XInt)].

Definition mp_stat_resp_x : xty := XStruct [
  ("status"%string, XPrim XInt);
  ("flags"%string, XPrim XInt);
  ("message"%string, XVec (XPrim XChar) XDR_RESP_MESSAGE_MAX_LEN);
  ("data"%string, mp_stat_resp_data_x)].

Definition directcmd_req_x : xty := XStruct [
  ("session_id"%string, XVec (XPrim XChar) XDR_SESSION_ID_LEN);
  ("cmd"%string, XVec (XPrim XChar) XDR_CMD_MAX_LEN)].

Definition directcmd_resp_data_x : xty := XStruct [
  ("total_len"%string, XPrim XInt);
  ("this_len"%string, XPrim XInt);
  ("content"%string, XVec (XPrim XChar) XDR_DIRECT_CMD_RESP_MAX_LEN)].

Definition directcmd_resp_x : xty := XStruct [
  ("status"%string, XPrim XInt);
  ("flags"%string, XPrim XInt);
  ("message"%string, XVec (XPrim XChar) XDR_RESP_MESSAGE_MAX_LEN);
  ("data"%string, directcmd_resp_data_x)].

Definition who_req_x : xty := XStruct [
  ("session_id"%string, XVec (XPrim XChar) XDR_SESSION_ID_LEN)].

Definition who_resp_data_x : xty := XStruct [
  ("total"%string, XPrim XInt);
  ("this_nr"%string, XPrim XInt);
  ("users"%string, XVec (logged_in_user_x) XDR_LOGGED_IN_USER_MAX_CNT)].

Definition who_resp_x : xty := XStruct [
  ("status"%string, XPrim XInt);
  ("flags"%string, XPrim XInt);
  ("message"%string, XVec (XPrim XChar) XDR_RESP_MESSAGE_MAX_LEN);
  ("data"%string, who_resp_data_x)].

Definition write_req_x : xty := XStruct [
  ("user"%string, logged_in_user_x);
  ("len"%string, XPrim XInt);
  ("message"%string, XVec (XPrim XChar) XDR_WRITE_MSG_MAX_LEN)].

Definition write_resp_data_x : xty := XStruct [
  ("message"%string, XVec (XPrim XChar) XDR_WRITE_MSG_MAX_LEN)].

Definition write_resp_x : xty := XStruct [
  ("status"%string, XPrim XInt);
  ("flags"%string, XPrim XInt);
  ("message"%string, XVec (XPrim XChar) XDR_RESP_MESSAGE_MAX_LEN);
  ("data"%string, write_resp_data_x)].

Definition port_update_req_x : xty := XStruct [
  ("second_port"%string, XPrim XInt)].

Definition port_update_resp_x : xty := XStruct [
  ("status"%string, XPrim XInt);
  ("flags"%string, XPrim XInt);
  ("message"%string, XVec (XPrim XChar) XDR_RESP_MESSAGE_MAX_LEN)].

Definition reconnect_req_x : xty := XStruct [
  ("session_id"%string, XVec (XPrim XChar) XDR_SESSION_ID_LEN);
  ("connect_id"%string, XVec (XPrim XChar) XDR_CONNECT_ID_LEN)].

Definition reconnect_resp_x : xty := XStruct [
  ("status"%string, XPrim XInt);
  ("flags"%string, XPrim XInt);
  ("message"%string, XVec (XPrim XChar) XDR_RESP_MESSAGE_MAX_LEN)].

Create HintDb xdr.

#[export] Hint Extern 1 (flat xdr_short _) => apply (flat_prim XShort) : xdr.
#[export] Hint Extern 1 (flat xdr_int _) => apply (flat_prim XInt) : xdr.
#[export] Hint Extern 1 (flat xdr_u_int _) => apply (flat_prim XUInt) : xdr.
#[export] Hint Extern 1 (flat xdr_char _) => apply (flat_prim XChar) : xdr.
#[export] Hint Extern 1 (flat xdr_u_char _) => apply (flat_prim XUChar) : xdr.

Ltac chain_step :=
  lazymatch goal with
  | |- chain _ _ _ TRUE _ => apply chain_done
  | |- chain _ _ _ (xdr_vector _ _ _ _ >> _) _ => apply chain_vector; [vm_compute; reflexivity|vm_compute; reflexivity|auto with xdr|]
  | |- chain _ _ _ (_ >> _) _ => apply chain_field; [vm_compute; reflexivity|auto with xdr|]
  end.

Tactic Notation "flat_struct" reference(p) constr(T) := apply (flat_chain _ T); intros objp; unfold p; repeat chain_step.

Local Open Scope string_scope.

Section Flat.
Context `{XdrLaws}.

Lemma flat_version_info : flat xdr_version_info version_info_x.
Proof. flat_struct xdr_version_info version_info. Qed.
#[local] Hint Extern 1 (flat xdr_version_info _) => exact flat_version_info : xdr.

Lemma flat_channel_info_req : flat xdr_channel_info_req channel_info_req_x.
Proof. flat_struct xdr_channel_info_req channel_info_req. Qed.
#[local] Hint Extern 1 (flat xdr_channel_info_req _) => exact flat_channel_info_req : xdr.

Lemma flat_channel_info_resp_data : flat xdr_channel_info_resp_data channel_info_resp_data_x.
Proof. flat_struct xdr_channel_info_resp_data channel_info_resp_data. Qed.
#[local] Hint Extern 1 (flat xdr_channel_info_resp_data _) => exact flat_channel_info_resp_data : xdr.

Lemma flat_channel_info_resp : flat xdr_channel_info_resp channel_info_resp_x.
Proof. flat_struct xdr_channel_info_resp channel_info_resp. Qed.
#[local] Hint Extern 1 (flat xdr_channel_info_resp _) => exact flat_channel_info_resp : xdr.

Lemma flat_validate_req : flat xdr_validate_req validate_req_x.
Proof. flat_struct xdr_validate_req validate_req. Qed.
#[local] Hint Extern 1 (flat xdr_validate_req _) => exact flat_validate_req : xdr.

Lemma flat_validate_resp_data : flat xdr_validate_resp_data validate_resp_data_x.
Proof. flat_struct xdr_validate_resp_data validate_resp_data. Qed.
#[local] Hint Extern 1 (flat xdr_validate_resp_data _) => exact flat_validate_resp_data : xdr.

Lemma flat_validate_resp : flat xdr_validate_resp validate_resp_x.
Proof. flat_struct xdr_validate_resp validate_resp. Qed.
#[local] Hint Extern 1 (flat xdr_validate_resp _) => exact flat_validate_resp : xdr.

Lemma flat_append_conn_req : flat xdr_append_conn_req append_conn_req_x.
Proof. flat_struct xdr_append_conn_req append_conn_req. Qed.
#[local] Hint Extern 1 (flat xdr_append_conn_req _) => exact flat_append_conn_req : xdr.

Lemma flat_append_conn_resp_data : flat xdr_append_conn_resp_data append_conn_resp_data_x.
Proof. flat_struct xdr_append_conn_resp_data append_conn_resp_data. Qed.
#[local] Hint Extern 1 (flat xdr_append_conn_resp_data _) => exact flat_append_conn_resp_data : xdr.

Lemma flat_append_conn_resp : flat xdr_append_conn_resp append_conn_resp_x.
Proof. flat_struct xdr_append_conn_resp append_conn_resp. Qed.
#[local] Hint Extern 1 (flat xdr_append_conn_resp _) => exact flat_append_conn_resp : xdr.

Lemma flat_logged_in_user : flat xdr_logged_in_user logged_in_user_x.
Proof. flat_struct xdr_logged_in_user logged_in_user. Qed.
#[local] Hint Extern 1 (flat xdr_logged_in_user _) => exact flat_logged_in_user : xdr.

Lemma flat_pwd_req : flat xdr_pwd_req pwd_req_x.
Proof. flat_struct xdr_pwd_req pwd_req. Qed.
#[local] Hint Extern 1 (flat xdr_pwd_req _) => exact flat_pwd_req : xdr.

Lemma flat_pwd_resp_data : flat xdr_pwd_resp_data pwd_resp_data_x.
Proof. flat_struct xdr_pwd_resp_data pwd_resp_data. Qed.
#[local] Hint Extern 1 (flat xdr_pwd_resp_data _) => exact flat_pwd_resp_data : xdr.

Lemma flat_pwd_resp : flat xdr_pwd_resp pwd_resp_x.
Proof. flat_struct xdr_pwd_resp pwd_resp. Qed.
#[local] Hint Extern 1 (flat xdr_pwd_resp _) => exact flat_pwd_resp : xdr.

Lemma flat_ll_req : flat xdr_ll_req ll_req_x.
Proof. flat_struct xdr_ll_req ll_req. Qed.
#[local] Hint Extern 1 (flat xdr_ll_req _) => exact flat_ll_req : xdr.

Lemma flat_file_entry : flat xdr_file_entry file_entry_x.
Proof.
  apply (flat_chain _ file_entry). intros objp. unfold xdr_file_entry. apply chain_by_op.
  - intros x Hop. apply and_then_ext; [done|]. intros y Hy. apply (puts_then [(field objp file_entry "type", XUInt); (field objp file_entry "size", XUInt); (field objp file_entry "c_time", XUInt); (field objp file_entry "a_time", XUInt); (field objp file_entry "m_time", XUInt); (field objp file_entry "mode", XUInt)] TRUE); [repeat constructor; by right|]. rewrite <- Hop.
    eapply (flat_vector_op xdr_char (XPrim XChar)), Hy. apply (flat_prim XChar).
  - intros x Hop. apply and_then_ext; [done|]. intros y Hy. apply (gets_then [(field objp file_entry "type", XUInt); (field objp file_entry "size", XUInt); (field objp file_entry "c_time", XUInt); (field objp file_entry "a_time", XUInt); (field objp file_entry "m_time", XUInt); (field objp file_entry "mode", XUInt)] TRUE); [repeat constructor; by right|]. rewrite <- Hop.
    eapply (flat_vector_op xdr_char (XPrim XChar)), Hy. apply (flat_prim XChar).
  - repeat chain_step.
Qed.
#[local] Hint Extern 1 (flat xdr_file_entry _) => exact flat_file_entry : xdr.

Lemma flat_ll_resp_data : flat xdr_ll_resp_data ll_resp_data_x.
Proof. flat_struct xdr_ll_resp_data ll_resp_data. Qed.
#[local] Hint Extern 1 (flat xdr_ll_resp_data _) => exact flat_ll_resp_data : xdr.

Lemma flat_ll_resp : flat xdr_ll_resp ll_resp_x.
Proof. flat_struct xdr_ll_resp ll_resp. Qed.
#[local] Hint Extern 1 (flat xdr_ll_resp _) => exact flat_ll_resp : xdr.

Lemma flat_cd_req : flat xdr_cd_req cd_req_x.
Proof. flat_struct xdr_cd_req cd_req. Qed.
#[local] Hint Extern 1 (flat xdr_cd_req _) => exact flat_cd_req : xdr.

Lemma flat_cd_resp_data : flat xdr_cd_resp_data cd_resp_data_x.
Proof. flat_struct xdr_cd_resp_data cd_resp_data. Qed.
#[local] Hint Extern 1 (flat xdr_cd_resp_data _) => exact flat_cd_resp_data : xdr.

Lemma flat_cd_resp : flat xdr_cd_resp cd_resp_x.
Proof. flat_struct xdr_cd_resp cd_resp. Qed.
#[local] Hint Extern 1 (flat xdr_cd_resp _) => exact flat_cd_resp : xdr.

Lemma flat_get_req : flat xdr_get_req get_req_x.
Proof. flat_struct xdr_get_req get_req. Qed.
#[local] Hint Extern 1 (flat xdr_get_req _) => exact flat_get_req : xdr.

Lemma flat_trans_entry : flat xdr_trans_entry trans_entry_x.
Proof.
  apply (flat_chain _ trans_entry). intros objp. unfold xdr_trans_entry. apply chain_by_op.
  - intros x Hop. apply (puts_then [(field objp trans_entry "type", XInt); (field objp trans_entry "this_size", XInt); (field objp trans_entry "mode", XUInt); (field objp trans_entry "total_size", XUInt)]); [|done]. repeat constructor; first [by left|by right].
  - intros x Hop. apply (gets_then [(field objp trans_entry "type", XInt); (field objp trans_entry "this_size", XInt); (field objp trans_entry "mode", XUInt); (field objp trans_entry "total_size", XUInt)]); [|done]. repeat constructor; first [by left|by right].
  - repeat chain_step.
Qed.
#[local] Hint Extern 1 (flat xdr_trans_entry _) => exact flat_trans_entry : xdr.

Lemma flat_get_resp_data : flat xdr_get_resp_data get_resp_data_x.
Proof. flat_struct xdr_get_resp_data get_resp_data. Qed.
#[local] Hint Extern 1 (flat xdr_get_resp_data _) => exact flat_get_resp_data : xdr.

Lemma flat_get_resp : flat xdr_get_resp get_resp_x.
Proof. flat_struct xdr_get_resp get_resp. Qed.
#[local] Hint Extern 1 (flat xdr_get_resp _) => exact flat_get_resp : xdr.

Lemma flat_put_req_data : flat xdr_put_req_data put_req_data_x.
Proof. flat_struct xdr_put_req_data put_req_data. Qed.
#[local] Hint Extern 1 (flat xdr_put_req_data _) => exact flat_put_req_data : xdr.

Lemma flat_put_req : flat xdr_put_req put_req_x.
Proof. flat_struct xdr_put_req put_req. Qed.
#[local] Hint Extern 1 (flat xdr_put_req _) => exact flat_put_req : xdr.

Lemma flat_put_resp : flat xdr_put_resp put_resp_x.
Proof. flat_struct xdr_put_resp put_resp. Qed.
#[local] Hint Extern 1 (flat xdr_put_resp _) => exact flat_put_resp : xdr.

Lemma flat_common_resp : flat xdr_common_resp common_resp_x.
Proof. flat_struct xdr_common_resp common_resp. Qed.
#[local] Hint Extern 1 (flat xdr_common_resp _) => exact flat_common_resp : xdr.

Lemma flat_write_msg_req : flat xdr_write_msg_req write_msg_req_x.
Proof. flat_struct xdr_write_msg_req write_msg_req. Qed.
#[local] Hint Extern 1 (flat xdr_write_msg_req _) => exact flat_write_msg_req : xdr.

Lemma flat_read_msg_req : flat xdr_read_msg_req read_msg_req_x.
Proof. flat_struct xdr_read_msg_req read_msg_req. Qed.
#[local] Hint Extern 1 (flat xdr_read_msg_req _) => exact flat_read_msg_req : xdr.

Lemma flat_read_msg_resp_data : flat xdr_read_msg_resp_data read_msg_resp_data_x.
Proof. flat_struct xdr_read_msg_resp_data read_msg_resp_data. Qed.
#[local] Hint Extern 1 (flat xdr_read_msg_resp_data _) => exact flat_read_msg_resp_data : xdr.

Lemma flat_read_msg_resp : flat xdr_read_msg_resp read_msg_resp_x.
Proof. flat_struct xdr_read_msg_resp read_msg_resp. Qed.
#[local] Hint Extern 1 (flat xdr_read_msg_resp _) => exact flat_read_msg_resp : xdr.

Lemma flat_mp_stat_req : flat xdr_mp_stat_req mp_stat_req_x.
Proof. flat_struct xdr_mp_stat_req mp_stat_req. Qed.
#[local] Hint Extern 1 (flat xdr_mp_stat_req _) => exact flat_mp_stat_req : xdr.

Lemma flat_mp_stat_resp_data : flat xdr_mp_stat_resp_data mp_stat_resp_data_x.
Proof.
  apply (flat_chain _ mp_stat_resp_data). intros objp. unfold xdr_mp_stat_resp_data. apply chain_by_op.
  - intros x Hop. apply (puts_then [(field objp mp_stat_resp_data "total_size", XUInt); (field objp mp_stat_resp_data "total_nodes", XInt); (field objp mp_stat_resp_data "using_nodes", XInt); (field objp mp_stat_resp_data "free_nodes", XInt)]); [|done]. repeat constructor; first [by left|by right].
  - intros x Hop. apply (gets_then [(field objp mp_stat_resp_data "total_size", XUInt); (field objp mp_stat_resp_data "total_nodes", XInt); (field objp mp_stat_resp_data "using_nodes", XInt); (field objp mp_stat_resp_data "free_nodes", XInt)]); [|done]. repeat constructor; first [by left|by right].
  - repeat chain_step.
Qed.
#[local] Hint Extern 1 (flat xdr_mp_stat_resp_data _) => exact flat_mp_stat_resp_data : xdr.

Lemma flat_mp_stat_resp : flat xdr_mp_stat_resp mp_stat_resp_x.
Proof. flat_struct xdr_mp_stat_resp mp_stat_resp. Qed.
#[local] Hint Extern 1 (flat xdr_mp_stat_resp _) => exact flat_mp_stat_resp : xdr.

Lemma flat_directcmd_req : flat xdr_directcmd_req directcmd_req_x.
Proof. flat_struct xdr_directcmd_req directcmd_req. Qed.
#[local] Hint Extern 1 (flat xdr_directcmd_req _) => exact flat_directcmd_req : xdr.

Lemma flat_directcmd_resp_data : flat xdr_directcmd_resp_data directcmd_resp_data_x.
Proof. flat_struct xdr_directcmd_resp_data directcmd_resp_data. Qed.
#[local] Hint Extern 1 (flat xdr_directcmd_resp_data _) => exact flat_directcmd_resp_data : xdr.

Lemma flat_directcmd_resp : flat xdr_directcmd_resp directcmd_resp_x.
Proof. flat_struct xdr_directcmd_resp directcmd_resp. Qed.
#[local] Hint Extern 1 (flat xdr_directcmd_resp _) => exact flat_directcmd_resp : xdr.

Lemma flat_who_req : flat xdr_who_req who_req_x.
Proof. flat_struct xdr_who_req who_req. Qed.
#[local] Hint Extern 1 (flat xdr_who_req _) => exact flat_who_req : xdr.

Lemma flat_who_resp_data : flat xdr_who_resp_data who_resp_data_x.
Proof. flat_struct xdr_who_resp_data who_resp_data. Qed.
#[local] Hint Extern 1 (flat xdr_who_resp_data _) => exact flat_who_resp_data : xdr.

Lemma flat_who_resp : flat xdr_who_resp who_resp_x.
Proof. flat_struct xdr_who_resp who_resp. Qed.
#[local] Hint Extern 1 (flat xdr_who_resp _) => exact flat_who_resp : xdr.

Lemma flat_write_req : flat xdr_write_req write_req_x.
Proof. flat_struct xdr_write_req write_req. Qed.
#[local] Hint Extern 1 (flat xdr_write_req _) => exact flat_write_req : xdr.

Lemma flat_write_resp_data : flat xdr_write_resp_data write_resp_data_x.
Proof. flat_struct xdr_write_resp_data write_resp_data. Qed.
#[local] Hint Extern 1 (flat xdr_write_resp_data _) => exact flat_write_resp_data : xdr.

Lemma flat_write_resp : flat xdr_write_resp write_resp_x.
Proof. flat_struct xdr_write_resp write_resp. Qed.
#[local] Hint Extern 1 (flat xdr_write_resp _) => exact flat_write_resp : xdr.

Lemma flat_port_update_req : flat xdr_port_update_req port_update_req_x.
Proof. flat_struct xdr_port_update_req port_update_req. Qed.
#[local] Hint Extern 1 (flat xdr_port_update_req _) => exact flat_port_update_req : xdr.

Lemma flat_port_update_resp : flat xdr_port_update_resp port_update_resp_x.
Proof. flat_struct xdr_port_update_resp port_update_resp. Qed.
#[local] Hint Extern 1 (flat xdr_port_update_resp _) => exact flat_port_update_resp : xdr.

Lemma flat_reconnect_req : flat xdr_reconnect_req reconnect_req_x.
Proof. flat_struct xdr_reconnect_req reconnect_req. Qed.
#[local] Hint Extern 1 (flat xdr_reconnect_req _) => exact flat_reconnect_req : xdr.

Lemma flat_reconnect_resp : flat xdr_reconnect_resp reconnect_resp_x.
Proof. flat_struct xdr_reconnect_resp reconnect_resp. Qed.
#[local] Hint Extern 1 (flat xdr_reconnect_resp _) => exact flat_reconnect_resp : xdr.

End Flat.
