(* ===== verification/XdrTable.v ===== *)
(** * Serialisation by XDR (src/serialize.c, the table of src/serialize_handler.c)

    The other table of handlers, for a build without CONFIG_SERIALIZE_RAW. *)

From S2P Require Import Prelude DList Layout ReqResp SerializeRaw SerializeTable Xdr XdrProcs XdrFlat.

Section Handlers.
Context `{XdrLib}.

Definition channel_info_req_encode := encode_with xdr_channel_info_req.
Definition channel_info_req_decode := decode_with (size_of channel_info_req) xdr_channel_info_req.

Definition channel_info_resp_encode := encode_with xdr_channel_info_resp.
Definition channel_info_resp_decode := decode_with (size_of channel_info_resp) xdr_channel_info_resp.

Definition validate_req_encode := encode_with xdr_validate_req.
Definition validate_req_decode := decode_with (size_of validate_req) xdr_validate_req.

Definition validate_resp_encode := encode_with xdr_validate_resp.
Definition validate_resp_decode := decode_with (size_of validate_resp) xdr_validate_resp.

Definition append_conn_req_encode := encode_with xdr_append_conn_req.
Definition append_conn_req_decode := decode_with (size_of append_conn_req) xdr_append_conn_req.

Definition append_conn_resp_encode := encode_with xdr_append_conn_resp.
Definition append_conn_resp_decode := decode_with (size_of append_conn_resp) xdr_append_conn_resp.

Definition pwd_req_encode := encode_with xdr_pwd_req.
Definition pwd_req_decode := decode_with (size_of pwd_req) xdr_pwd_req.

Definition pwd_resp_encode := encode_with xdr_pwd_resp.
Definition pwd_resp_decode := decode_with (size_of pwd_resp) xdr_pwd_resp.

Definition ll_req_encode := encode_with xdr_ll_req.
Definition ll_req_decode := decode_with (size_of ll_req) xdr_ll_req.

Definition ll_resp_encode := encode_with xdr_ll_resp.
Definition ll_resp_decode := decode_with (size_of ll_resp) xdr_ll_resp.

Definition cd_req_encode := encode_with xdr_cd_req.
Definition cd_req_decode := decode_with (size_of cd_req) xdr_cd_req.

Definition cd_resp_encode := encode_with xdr_cd_resp.
Definition cd_resp_decode := decode_with (size_of cd_resp) xdr_cd_resp.

Definition get_req_encode := encode_with xdr_get_req.
Definition get_req_decode := decode_with (size_of get_req) xdr_get_req.

Definition get_resp_encode := encode_with xdr_get_resp.
Definition get_resp_decode := decode_with (size_of get_resp) xdr_get_resp.

Definition put_req_encode := encode_with xdr_put_req.
Definition put_req_decode := decode_with (size_of put_req) xdr_put_req.

Definition put_resp_encode := encode_with xdr_put_resp.
Definition put_resp_decode := decode_with (size_of put_resp) xdr_put_resp.

Definition common_resp_encode := encode_with xdr_common_resp.
Definition common_resp_decode := decode_with (size_of common_resp) xdr_common_resp.

Definition write_msg_req_encode := encode_with xdr_write_msg_req.
Definition write_msg_req_decode := decode_with (size_of write_msg_req) xdr_write_msg_req.

Definition read_msg_req_encode := encode_with xdr_read_msg_req.
Definition read_msg_req_decode := decode_with (size_of read_msg_req) xdr_read_msg_req.

Definition read_msg_resp_encode := encode_with xdr_read_msg_resp.
Definition read_msg_resp_decode := decode_with (size_of read_msg_resp) xdr_read_msg_resp.

Definition mp_stat_req_encode := encode_with xdr_mp_stat_req.
Definition mp_stat_req_decode := decode_with (size_of mp_stat_req) xdr_mp_stat_req.

Definition mp_stat_resp_encode := encode_with xdr_mp_stat_resp.
Definition mp_stat_resp_decode := decode_with (size_of mp_stat_resp) xdr_mp_stat_resp.

Definition directcmd_req_encode := encode_with xdr_directcmd_req.
Definition directcmd_req_decode := decode_with (size_of directcmd_req) xdr_directcmd_req.

Definition directcmd_resp_encode := encode_with xdr_directcmd_resp.
Definition directcmd_resp_decode := decode_with (size_of directcmd_resp) xdr_directcmd_resp.

Definition who_req_encode := encode_with xdr_who_req.
Definition who_req_decode := decode_with (size_of who_req) xdr_who_req.

Definition who_resp_encode := encode_with xdr_who_resp.
Definition who_resp_decode := decode_with (size_of who_resp) xdr_who_resp.

Definition write_req_encode := encode_with xdr_write_req.
Definition write_req_decode := decode_with (size_of write_req) xdr_write_req.

Definition write_resp_encode := encode_with xdr_write_resp.
Definition write_resp_decode := decode_with (size_of write_resp) xdr_write_resp.

Definition port_update_req_encode := encode_with xdr_port_update_req.
Definition port_update_req_decode := decode_with (size_of port_update_req) xdr_port_update_req.

Definition port_update_resp_encode := encode_with xdr_port_update_resp.
Definition port_update_resp_decode := decode_with (size_of port_update_resp) xdr_port_update_resp.

Definition reconnect_req_encode := encode_with xdr_reconnect_req.
Definition reconnect_req_decode := decode_with (size_of reconnect_req) xdr_reconnect_req.

Definition reconnect_resp_encode := encode_with xdr_reconnect_resp.
Definition reconnect_resp_decode := decode_with (size_of reconnect_resp) xdr_reconnect_resp.

Record xdr_handler := XHandler {
  xh_type : Z;
  xh_object : ctype;
  xh_serialize : list Z -> option encoded;
  xh_deserialize : list Z -> Z -> option decoded;
}.

Definition serializables : list xdr_handler := [
  XHandler (packet_code PACKET_TYPE_VALIDATE_REQ) validate_req validate_req_encode validate_req_decode;
  XHandler (packet_code PACKET_TYPE_VALIDATE_RESP) validate_resp validate_resp_encode validate_resp_decode;
  XHandler (packet_code PACKET_TYPE_PWD_REQ) pwd_req pwd_req_encode pwd_req_decode;
  XHandler (packet_code PACKET_TYPE_PWD_RESP) pwd_resp pwd_resp_encode pwd_resp_decode;
  XHandler (packet_code PACKET_TYPE_CD_REQ) cd_req cd_req_encode cd_req_decode;
  XHandler (packet_code PACKET_TYPE_CD_RESP) cd_resp cd_resp_encode cd_resp_decode;
  XHandler (packet_code PACKET_TYPE_LL_REQ) ll_req ll_req_encode ll_req_decode;
  XHandler (packet_code PACKET_TYPE_LL_RESP) ll_resp ll_resp_encode ll_resp_decode;
  XHandler (packet_code PACKET_TYPE_GET_REQ) get_req get_req_encode get_req_decode;
  XHandler (packet_code PACKET_TYPE_GET_RESP) get_resp get_resp_encode get_resp_decode;
  XHandler (packet_code PACKET_TYPE_PUT_REQ) put_req put_req_encode put_req_decode;
  XHandler (packet_code PACKET_TYPE_PUT_RESP) put_resp put_resp_encode put_resp_decode;
  XHandler (packet_code PACKET_TYPE_COMMON_RESP) common_resp common_resp_encode common_resp_decode;
  XHandler (packet_code PACKET_TYPE_WRITE_MSG_REQ) write_msg_req write_msg_req_encode write_msg_req_decode;
  XHandler (packet_code PACKET_TYPE_READ_MSG_REQ) read_msg_req read_msg_req_encode read_msg_req_decode;
  XHandler (packet_code PACKET_TYPE_READ_MSG_RESP) read_msg_resp read_msg_resp_encode read_msg_resp_decode;
  XHandler (packet_code PACKET_TYPE_MP_STAT_REQ) mp_stat_req mp_stat_req_encode mp_stat_req_decode;
  XHandler (packet_code PACKET_TYPE_MP_STAT_RESP) mp_stat_resp mp_stat_resp_encode mp_stat_resp_decode;
  XHandler (packet_code PACKET_TYPE_DIRECTCMD_REQ) directcmd_req directcmd_req_encode directcmd_req_decode;
  XHandler (packet_code PACKET_TYPE_DIRECTCMD_RESP) directcmd_resp directcmd_resp_encode directcmd_resp_decode;
  XHandler (packet_code PACKET_TYPE_WHO_REQ) who_req who_req_encode who_req_decode;
  XHandler (packet_code PACKET_TYPE_WHO_RESP) who_resp who_resp_encode who_resp_decode;
  XHandler (packet_code PACKET_TYPE_WRITE_REQ) write_req write_req_encode write_req_decode;
  XHandler (packet_code PACKET_TYPE_WRITE_RESP) write_resp write_resp_encode write_resp_decode;
  XHandler (packet_code PACKET_TYPE_APPEND_CONN_REQ) append_conn_req append_conn_req_encode append_conn_req_decode;
  XHandler (packet_code PACKET_TYPE_APPEND_CONN_RESP) append_conn_resp append_conn_resp_encode append_conn_resp_decode;
  XHandler (packet_code PACKET_TYPE_CHANNEL_INFO_REQ) channel_info_req channel_info_req_encode channel_info_req_decode;
  XHandler (packet_code PACKET_TYPE_CHANNEL_INFO_RESP) channel_info_resp channel_info_resp_encode channel_info_resp_decode;
  XHandler (packet_code PACKET_TYPE_PORT_UPDATE_REQ) port_update_req port_update_req_encode port_update_req_decode;
  XHandler (packet_code PACKET_TYPE_PORT_UPDATE_RESP) port_update_resp port_update_resp_encode port_update_resp_decode;
  XHandler (packet_code PACKET_TYPE_RECONNECT_REQ) reconnect_req reconnect_req_encode reconnect_req_decode;
  XHandler (packet_code PACKET_TYPE_RECONNECT_RESP) reconnect_resp reconnect_resp_encode reconnect_resp_decode].
End Handlers.

Section Rows.
Context `{XdrLaws}.

Definition row_flat (h : xdr_handler) : Prop :=
  exists p t, flat p t /\ erase t = xh_object h
    /\ xh_serialize h = encode_with p /\ xh_deserialize h = decode_with (size_of (xh_object h)) p.

Lemma rows_flat : Forall row_flat serializables.
Proof.
  repeat (apply Forall_cons; split).
  - exists xdr_validate_req, validate_req_x. split; [apply flat_validate_req|by repeat split].
  - exists xdr_validate_resp, validate_resp_x. split; [apply flat_validate_resp|by repeat split].
  - exists xdr_pwd_req, pwd_req_x. split; [apply flat_pwd_req|by repeat split].
  - exists xdr_pwd_resp, pwd_resp_x. split; [apply flat_pwd_resp|by repeat split].
  - exists xdr_cd_req, cd_req_x. split; [apply flat_cd_req|by repeat split].
  - exists xdr_cd_resp, cd_resp_x. split; [apply flat_cd_resp|by repeat split].
  - exists xdr_ll_req, ll_req_x. split; [apply flat_ll_req|by repeat split].
  - exists xdr_ll_resp, ll_resp_x. split; [apply flat_ll_resp|by repeat split].
  - exists xdr_get_req, get_req_x. split; [apply flat_get_req|by repeat split].
  - exists xdr_get_resp, get_resp_x. split; [apply flat_get_resp|by repeat split].
  - exists xdr_put_req, put_req_x. split; [apply flat_put_req|by repeat split].
  - exists xdr_put_resp, put_resp_x. split; [apply flat_put_resp|by repeat split].
  - exists xdr_common_resp, common_resp_x. split; [apply flat_common_resp|by repeat split].
  - exists xdr_write_msg_req, write_msg_req_x. split; [apply flat_write_msg_req|by repeat split].
  - exists xdr_read_msg_req, read_msg_req_x. split; [apply flat_read_msg_req|by repeat split].
  - exists xdr_read_msg_resp, read_msg_resp_x. split; [apply flat_read_msg_resp|by repeat split].
  - exists xdr_mp_stat_req, mp_stat_req_x. split; [apply flat_mp_stat_req|by repeat split].
  - exists xdr_mp_stat_resp, mp_stat_resp_x. split; [apply flat_mp_stat_resp|by repeat split].
  - exists xdr_directcmd_req, directcmd_req_x. split; [apply flat_directcmd_req|by repeat split].
  - exists xdr_directcmd_resp, directcmd_resp_x. split; [apply flat_directcmd_resp|by repeat split].
  - exists xdr_who_req, who_req_x. split; [apply flat_who_req|by repeat split].
  - exists xdr_who_resp, who_resp_x. split; [apply flat_who_resp|by repeat split].
  - exists xdr_write_req, write_req_x. split; [apply flat_write_req|by repeat split].
  - exists xdr_write_resp, write_resp_x. split; [apply flat_write_resp|by repeat split].
  - exists xdr_append_conn_req, append_conn_req_x. split; [apply flat_append_conn_req|by repeat split].
  - exists xdr_append_conn_resp, append_conn_resp_x. split; [apply flat_append_conn_resp|by repeat split].
  - exists xdr_channel_info_req, channel_info_req_x. split; [apply flat_channel_info_req|by repeat split].
  - exists xdr_channel_info_resp, channel_info_resp_x. split; [apply flat_channel_info_resp|by repeat split].
  - exists xdr_port_update_req, port_update_req_x. split; [apply flat_port_update_req|by repeat split].
  - exists xdr_port_update_resp, port_update_resp_x. split; [apply flat_port_update_resp|by repeat split].
  - exists xdr_reconnect_req, reconnect_req_x. split; [apply flat_reconnect_req|by repeat split].
  - exists xdr_reconnect_resp, reconnect_resp_x. split; [apply flat_reconnect_resp|by repeat split].
  - apply Forall_nil_2.
Qed.
End Rows.

(** ** The scalars of a C type *)

(** Offset and width of every scalar of a type, in order. *)
Fixpoint leaves (t : ctype) : list (nat * nat) :=
  match t with
  | CChar => [(0, 1)]%nat
  | CShort => [(0, 2)]%nat
  | CInt | CUInt => [(0, 4)]%nat
  | CArr t n => seq 0 n ≫= fun i => shift_fields (i * size_of t) (leaves t)
  | CStruct fs =>
      (fix go (pos : nat) (fs : list (string * ctype)) : list (nat * nat) :=
         match fs with
         | [] => []
         | (_, t) :: fs =>
             let start := align_up pos (align_of t) in
             shift_fields start (leaves t) ++ go (start + size_of t)%nat fs
         end) 0%nat fs
  end.

Fixpoint leaves_from (pos : nat) (fs : list (string * ctype)) : list (nat * nat) :=
  match fs with
  | [] => []
  | (_, t) :: fs =>
      let start := align_up pos (align_of t) in
      shift_fields start (leaves t) ++ leaves_from (start + size_of t)%nat fs
  end.

(** Byte [i] of an object belongs to a scalar; the others are padding. *)
Definition in_scalar (t : ctype) (i : nat) : bool := existsb (fun e => covers e.1 e.2 i) (leaves t).

Definition extents (l : scalar_list) : list (nat * nat) := (fun e => (e.1, width e.2)) <$> l.

Lemma extents_shift d l : extents (shift_scalars d l) = shift_fields d (extents l).
Proof. unfold extents, shift_scalars, shift_fields. rewrite <- !list_fmap_compose. done. Qed.

Lemma extents_app l1 l2 : extents (l1 ++ l2) = extents l1 ++ extents l2.
Proof. apply fmap_app. Qed.

Lemma extents_elements k l n : forall a,
  extents (seq a n ≫= fun i => shift_scalars (i * k) l) = seq a n ≫= fun i => shift_fields (i * k) (extents l).
Proof.
  induction n as [|n IH]; intros a; [done|]. cbn [seq mbind list_bind]. by rewrite extents_app, extents_shift, IH.
Qed.

Lemma extents_fields fs : Forall (fun f => extents (scalars f.2) = leaves (erase f.2)) fs ->
  forall pos, extents (scalars_from pos fs) = leaves_from pos (erase_fields fs).
Proof.
  induction 1 as [|[f t] fs Hf _ IH]; intros pos; [done|]. cbn [scalars_from erase_fields map leaves_from fst snd] in *.
  by rewrite extents_app, extents_shift, Hf, IH.
Qed.

Lemma extents_scalars t : extents (scalars t) = leaves (erase t).
Proof.
  induction t as [k|t n IH|fs IH] using xty_fields_ind; [by destruct k| |].
  - cbn [scalars erase leaves]. by rewrite extents_elements, IH.
  - rewrite erase_struct, scalars_struct. change (leaves (CStruct (erase_fields fs))) with (leaves_from 0 (erase_fields fs)).
    by apply extents_fields.
Qed.

Lemma scalars_leaves t : length (scalars t) = length (leaves (erase t)).
Proof. rewrite <- extents_scalars. unfold extents. by rewrite length_fmap. Qed.

Lemma covered_in_scalar t i : covered (scalars t) i = in_scalar (erase t) i.
Proof.
  unfold covered, in_scalar. rewrite <- extents_scalars. unfold extents. generalize (scalars t) as l.
  induction l as [|e l IH]; [done|]. cbn [fmap list_fmap existsb fst snd]. by rewrite IH.
Qed.

(** The number of bytes of an encoded object. *)
Definition encoded_size (t : ctype) : nat := (BYTES_PER_XDR_UNIT * length (leaves t))%nat.

Section Table.
Context `{XdrLaws}.

(** Sizes are small enough for the [int] that carries them. *)
Lemma encoded_small : Forall (fun h => Z.of_nat (encoded_size (xh_object h)) < 2 ^ 22) serializables.
Proof. repeat (apply Forall_cons; split; [vm_compute; reflexivity|]). constructor. Qed.

(** C26: The XDR serialisers lose nothing: for every row of the table and
    every object of its C type, encoding succeeds, leaves the object itself
    unchanged and gives four bytes per scalar of the type; decoding these
    bytes succeeds with a new object in which every byte of a scalar is the
    one encoded and the padding is zero. *)
Theorem xdr_roundtrip h obj
    (Hrow : h ∈ serializables) (Hobj : length obj = size_of (xh_object h)) (Hbytes : Forall is_byte obj) :
  exists e d, xh_serialize h obj = Some e
    /\ e_ret e = true /\ e_obj e = obj /\ e_mode e = FREE_MODE_FREE
    /\ length (e_buf e) = encoded_size (xh_object h) /\ e_len e = Z.of_nat (encoded_size (xh_object h))
    /\ xh_deserialize h (e_buf e) (e_len e) = Some d
    /\ d_ret d = true /\ d_mode d = FREE_MODE_MP_FREE /\ length (d_obj d) = size_of (xh_object h)
    /\ forall i, (i < size_of (xh_object h))%nat ->
         d_obj d !! i = if in_scalar (xh_object h) i then obj !! i else Some 0.
Proof.
  pose proof rows_flat as Hf. rewrite Forall_forall in Hf. destruct (Hf h Hrow) as (p & t & Hp & Et & Es & Ed).
  pose proof encoded_small as Hs. rewrite Forall_forall in Hs. specialize (Hs h Hrow). cbv beta in Hs.
  rewrite Es, Ed, <- Et in *. clear Es Ed. unfold encoded_size in *. rewrite <- scalars_leaves in *.
  eexists _, _. split; [by apply (encode_flat p t Hp)|]. cbn [e_ret e_obj e_mode e_buf e_len].
  assert (El : i32 (Z.of_nat (BYTES_PER_XDR_UNIT * length (scalars t))) = Z.of_nat (BYTES_PER_XDR_UNIT * length (scalars t)))
    by (apply i32_small; unfold in_i32; lia).
  rewrite El. repeat (split; [first [reflexivity|apply length_encoding|by apply (decode_flat p t Hp)]|]). cbn [d_obj].
  set (z := zeroed (size_of (erase t))). assert (Hz : length z = size_of (erase t)) by (apply length_replicate).
  pose proof (scalars_inside t) as Hin. split.
  - rewrite length_pasted_all; rewrite ?Hz; done.
  - intros i Hi. rewrite lookup_pasted_all; [|by rewrite Hz|by rewrite Hz]. rewrite covered_in_scalar.
    destruct (in_scalar _ i); [done|]. unfold z, zeroed. by apply lookup_replicate_2.
Qed.

(** C34: A decoder is safe on any input: whatever bytes arrive, it stays
    inside the object it has allocated, and it succeeds exactly when there are
    enough bytes for the scalars of the type. *)
Theorem xdr_decode_safe h buf len
    (Hrow : h ∈ serializables) (Hlen : 0 <= len <= Z.of_nat (length buf)) :
  exists d, xh_deserialize h buf len = Some d /\ length (d_obj d) = size_of (xh_object h)
    /\ d_ret d = bool_decide (Z.of_nat (encoded_size (xh_object h)) <= len).
Proof.
  pose proof rows_flat as Hf. rewrite Forall_forall in Hf. destruct (Hf h Hrow) as (p & t & Hp & Et & _ & Ed).
  rewrite Ed, <- Et. unfold encoded_size. rewrite <- scalars_leaves.
  destruct (decode_any p t Hp buf len Hlen) as (obj & -> & Hl). by eexists.
Qed.
End Table.

(** ** The library as RFC 4506 has it *)

(** A scalar is a unit of four bytes, the most significant first. *)
Definition rfc_wrap (k : xprim) (z : Z) : Z :=
  match k with XShort => i16 z | XInt => i32 z | XUInt => u32 z | XChar => wrap_s 8 z | XUChar => u8 z end.

#[export] Instance Rfc4506 : XdrLib := {
  put _ v := reverse (le_bytes BYTES_PER_XDR_UNIT v);
  get k bs := if (length bs <? BYTES_PER_XDR_UNIT)%nat then None
              else Some (rfc_wrap k (be_val (take BYTES_PER_XDR_UNIT bs)), drop BYTES_PER_XDR_UNIT bs);
  xdr_vector base n size proc := elements base size n proc;
  xdr_inline n x := match x_op x with XDR_ENCODE => true | XDR_DECODE => (n <=? length (x_buf x))%nat | XDR_FREE => false end;
  ixdr_put _ v := reverse (le_bytes BYTES_PER_XDR_UNIT v);
  ixdr_get k bs := if (length bs <? BYTES_PER_XDR_UNIT)%nat then None
              else Some (rfc_wrap k (be_val (take BYTES_PER_XDR_UNIT bs)), drop BYTES_PER_XDR_UNIT bs);
}.

Lemma wrap_s_small_mod w z : 0 < w <= 32 -> - 2 ^ (w - 1) <= z < 2 ^ (w - 1) -> wrap_s w (z mod 2 ^ 32) = z.
Proof.
  intros Hw Hz. rewrite <- (wrap_s_small w z) at 2 by lia. rewrite <- (wrap_s_mod w (z mod 2 ^ 32)), <- (wrap_s_mod w z) by lia.
  f_equal. apply Z.mod_mod_divide. exists (2 ^ (32 - w)). rewrite <- Z.pow_add_r by lia. f_equal. lia.
Qed.

Lemma wrap_u_small_mod w z : 0 < w <= 32 -> 0 <= z < 2 ^ w -> wrap_u w (z mod 2 ^ 32) = z.
Proof.
  intros Hw Hz. unfold wrap_u. assert (2 ^ w <= 2 ^ 32) by (apply Z.pow_le_mono_r; lia). rewrite (Z.mod_small z) by lia.
  by apply Z.mod_small.
Qed.

#[export] Instance Rfc4506_laws : XdrLaws.
Proof.
  split.
  - intros k v rest Hv. cbn [put get Rfc4506]. rewrite length_app, length_reverse, length_le_bytes.
    rewrite (proj2 (Nat.ltb_ge _ _)) by lia. unfold BYTES_PER_XDR_UNIT, be_val.
    rewrite take_app_length', drop_app_length', reverse_involutive, le_val_bytes by (by rewrite length_reverse, length_le_bytes).
    change (256 ^ Z.of_nat 4) with (2 ^ 32). do 2 f_equal.
    destruct k; cbn [rfc_wrap in_range] in *; first [apply wrap_s_small_mod|apply wrap_u_small_mod]; int_lia.
  - intros k v. cbn [put Rfc4506]. by rewrite length_reverse, length_le_bytes.
  - intros k bs Hl. cbn [get Rfc4506]. rewrite (proj2 (Nat.ltb_ge _ _)) by lia. by eexists.
  - intros k bs Hl. cbn [get Rfc4506]. by rewrite (proj2 (Nat.ltb_lt _ _)) by lia.
  - done.
  - intros n x. cbn [xdr_inline Rfc4506]. intros E Hop. rewrite Hop in E. by apply Nat.leb_le.
  - done.
  - done.
Qed.

Definition demo_version : xdr_handler := XHandler (packet_code PACKET_TYPE_VALIDATE_REQ) validate_req validate_req_encode validate_req_decode.

Lemma demo_version_in : demo_version ∈ serializables.
Proof. left. Defined.

(** A message of zeroes with both lengths and the version set; byte 73 is padding. *)
Definition demo_validate : list Z := [4; 0; 0; 0; 255; 255; 255; 255] ++ replicate 65 7 ++ [9; 1; 0; 2; 0; 255; 255].

Lemma xdr_roundtrip_witness :
  length demo_validate = size_of validate_req /\ in_scalar validate_req 73 = false /\ demo_validate !! 73%nat = Some 9 /\
  exists e d, validate_req_encode demo_validate = Some e
    /\ e_ret e = true /\ e_obj e = demo_validate /\ e_mode e = FREE_MODE_FREE
    /\ length (e_buf e) = encoded_size validate_req /\ e_len e = Z.of_nat (encoded_size validate_req)
    /\ validate_req_decode (e_buf e) (e_len e) = Some d
    /\ d_ret d = true /\ d_mode d = FREE_MODE_MP_FREE /\ length (d_obj d) = size_of validate_req
    /\ forall i, (i < size_of validate_req)%nat ->
         d_obj d !! i = if in_scalar validate_req i then demo_validate !! i else Some 0.
Proof.
  split; [reflexivity|]. split; [reflexivity|]. split; [reflexivity|].
  apply (xdr_roundtrip demo_version demo_validate demo_version_in eq_refl).
  repeat (apply Forall_cons; split; [unfold is_byte; lia|]). apply Forall_nil_2.
Defined.

Lemma xdr_decode_safe_witness : exists d, validate_req_decode [0; 0; 0; 1; 255] 5 = Some d
  /\ length (d_obj d) = size_of validate_req /\ d_ret d = bool_decide (Z.of_nat (encoded_size validate_req) <= 5).
Proof. apply (xdr_decode_safe demo_version [0; 0; 0; 1; 255] 5 demo_version_in). simpl. lia. Defined.
