(* ===== verification/GenParse.v ===== *)
(** * Reading interface descriptions (xdr/gen_serialize_raw.c)

    The first half of the generator: the structures of a file like
    xdr/req_resp.x as data.  [None] stands for a failed [assert], for [BUG] and
    for a name that fills its array and is left without a terminator; words
    are cut out of the text, so what is read next is the rest of it. *)

From S2P Require Import Prelude CStr.

Abbreviation text := (list Z).

Definition ST_NAME_LEN : nat := 64.
Definition ELEM_NAME_LEN : nat := 64.
Definition DIMS_MAX_NUM : nat := 5.

Definition ELEM_TYPE_UNSIGNED : Z := Z.shiftl 1 31.
Definition ELEM_TYPE_CHAR : Z := Z.shiftl 1 0.
Definition ELEM_TYPE_SHORT : Z := Z.shiftl 1 1.
Definition ELEM_TYPE_INT : Z := Z.shiftl 1 2.
Definition ELEM_TYPE_STRUCT : Z := Z.shiftl 1 3.

Definition ELEM_TYPE_UNSIGNED_CHAR : Z := Z.lor ELEM_TYPE_UNSIGNED ELEM_TYPE_CHAR.
Definition ELEM_TYPE_UNSIGNED_SHORT : Z := Z.lor ELEM_TYPE_UNSIGNED ELEM_TYPE_SHORT.
Definition ELEM_TYPE_UNSIGNED_INT : Z := Z.lor ELEM_TYPE_UNSIGNED ELEM_TYPE_INT.

(** [type] is an [int]; [dims] are the entries before the first NULL. *)
Record elem := Elem { elem_name : text; type : Z; elem_st_name : text; dims : list text }.

Record st := St { st_name : text; elems : list elem }.

(** [p->type & ELEM_TYPE_X] as a condition. *)
Definition has_type (p : elem) (bit : Z) : bool := negb (Z.land (type p) bit =? 0).

(** ** Words *)

(** A word, and the text behind the character that ends it. *)
Fixpoint word_of (s : text) : text * text :=
  match s with
  | [] => ([], [])
  | c :: s => if is_space c then ([], s) else let '(w, rest) := word_of s in (c :: w, rest)
  end.

Definition fetch_next_str (str : text) : option (text * text) :=
  match skip_spaces str with
  | [] => None
  | p => Some (word_of p)
  end.

(** [strncpy] into a name's array. *)
Definition short_name (len : nat) (p : text) : option text := if (length p <? len)%nat then Some p else None.

Definition bracket_open : Z := 91.
Definition bracket_close : Z := 93.
Definition semicolon : Z := 59.

(** The loop at the [cnt]-th '['; [p] is the text behind it. *)
Fixpoint parse_dims (fuel cnt : nat) (p : text) : option (list text) :=
  match fuel with
  | O => None
  | S fuel =>
      if (DIMS_MAX_NUM <=? cnt)%nat then None else
      '(dim, rest) ← strchr p bracket_close;
      match drop 1 rest with
      | [] => Some [dim]
      | p =>
          match strchr p bracket_open with
          | None => Some [dim]
          | Some (_, rest) => ds ← parse_dims fuel (S cnt) (drop 1 rest); Some (dim :: ds)
          end
      end
  end.

Definition parse_name_and_dims (p : text) : option (text * list text) :=
  match strchr p bracket_open with
  | None => name ← short_name ELEM_NAME_LEN p; Some (name, [])
  | Some (name, rest) =>
      name ← short_name ELEM_NAME_LEN name;
      match name with
      | [] => Some (name, [])
      | _ => ds ← parse_dims (S DIMS_MAX_NUM) 0 (drop 1 rest); Some (name, ds)
      end
  end.

(** ** Structures *)

(** [elem->type] and [elem->st_name]: from the type's first word to the text
    behind the type. *)
Definition parse_type (p q : text) : option (Z * text * text) :=
  '(ty, p, q) ←
    (if bool_decide (p = ascii_bytes "unsigned")
     then '(p, q) ← fetch_next_str q; Some (i32 ELEM_TYPE_UNSIGNED, p, q)
     else Some (0, p, q));
  if bool_decide (p = ascii_bytes "char") then Some (i32 (Z.lor ty ELEM_TYPE_CHAR), [], q)
  else if bool_decide (p = ascii_bytes "short") then Some (i32 (Z.lor ty ELEM_TYPE_SHORT), [], q)
  else if bool_decide (p = ascii_bytes "int") then Some (i32 (Z.lor ty ELEM_TYPE_INT), [], q)
  else if bool_decide (p = ascii_bytes "struct") then
    if negb (ty =? 0) then None else
    '(p, q) ← fetch_next_str q;
    st_name ← short_name ST_NAME_LEN p;
    Some (ELEM_TYPE_STRUCT, st_name, q)
  else None.

(** The elements up to the closing bracket, after those already in the list. *)
Fixpoint parse_struct (fuel : nat) (q : text) (l : list elem) : option (list elem * text) :=
  match fuel, q with
  | O, _ => None
  | _, [] => Some (l, [])
  | S fuel, _ =>
      '(p, q) ← fetch_next_str q;
      if bool_decide (p = ascii_bytes "};") then Some (l, q) else
      '(ty, st_name, q) ← parse_type p q;
      '(p, q) ← fetch_next_str q;
      if negb (default 0 (last p) =? semicolon) then None else
      '(name, ds) ← parse_name_and_dims (take (length p - 1) p);
      parse_struct fuel q (l ++ [Elem name ty st_name ds])
  end.

(** The loop that looks for the word [struct]; [None] is the jump to [err]. *)
Fixpoint find_struct (fuel : nat) (q : text) : option text :=
  match fuel, q with
  | O, _ | _, [] => None
  | S fuel, _ =>
      '(p, q) ← fetch_next_str q;
      if bool_decide (p = ascii_bytes "struct") then match q with [] => None | _ => Some q end
      else find_struct fuel q
  end.

(** [Some None] is the result NULL. *)
Definition fetch_next_struct (str : text) : option (option (st * text)) :=
  match find_struct (S (length str)) str with
  | None => Some None
  | Some q =>
      '(p, q) ← fetch_next_str q;
      name ← short_name ST_NAME_LEN p;
      '(p, q) ← fetch_next_str q;
      if negb (bool_decide (p = ascii_bytes "{")) then None else
      '(l, q) ← parse_struct (S (length q)) q [];
      Some (Some (St name l, q))
  end.

(** The loop over the content of the file.  A result NULL is not looked at:
    the address of its [list] is written to. *)
Fixpoint struct_list (fuel : nat) (p : text) (l : list st) : option (list st) :=
  match fuel, p with
  | O, _ => None
  | _, [] => Some l
  | S fuel, _ =>
      s ← fetch_next_struct p;
      '(s, p) ← s;
      struct_list fuel p (l ++ [s])
  end.

(** [get_struct_list] on the content of a file, up to a zero byte. *)
Definition parse_content (data : text) : option (list st) :=
  let content := c_str data in struct_list (S (length content)) content [].

Definition get_elem_dims (p : elem) : nat := length (dims p).

Definition get_max_dims_in_elems (s : st) : nat :=
  foldl (fun max_dims p => if (max_dims <? get_elem_dims p)%nat then get_elem_dims p else max_dims) 0%nat (elems s).

(** ** What is read has at most five dimensions *)

Definition few_dims (l : list elem) : Prop := Forall (fun p => (length (dims p) <= DIMS_MAX_NUM)%nat) l.

Lemma parse_dims_few fuel : forall cnt p ds, (cnt <= DIMS_MAX_NUM)%nat -> parse_dims fuel cnt p = Some ds -> (cnt + length ds <= DIMS_MAX_NUM)%nat.
Proof.
  induction fuel as [|fuel IH]; intros cnt p ds Hc; [done|]. cbn [parse_dims]. destruct (Nat.leb_spec DIMS_MAX_NUM cnt) as [|Hlt]; [done|].
  intros H. apply bind_Some in H as ([dim rest] & _ & H).
  destruct (drop 1 rest) as [|c q]; [injection H as <-; simpl; lia|].
  destruct (strchr (c :: q) bracket_open) as [[pre r]|]; [|injection H as <-; simpl; lia].
  apply bind_Some in H as (ds' & Hds & [= <-]). apply IH in Hds; [simpl; lia|lia].
Qed.

Lemma parse_name_few p name ds : parse_name_and_dims p = Some (name, ds) -> (length ds <= DIMS_MAX_NUM)%nat.
Proof.
  unfold parse_name_and_dims. destruct (strchr p bracket_open) as [[pre r]|].
  - intros H. apply bind_Some in H as (nm & _ & H). destruct nm; [injection H as _ <-; simpl; lia|].
    apply bind_Some in H as (ds' & Hds & [= <- <-]). apply (parse_dims_few _ 0) in Hds; [done|lia].
  - intros H. apply bind_Some in H as (nm & _ & [= <- <-]). simpl. lia.
Qed.

Lemma parse_struct_few fuel : forall q l l' q', few_dims l -> parse_struct fuel q l = Some (l', q') -> few_dims l'.
Proof.
  induction fuel as [|fuel IH]; intros q l l' q' Hl; [done|]. cbn [parse_struct]. destruct q as [|c q]; [by intros [= <- _]|].
  intros H. apply bind_Some in H as ([p r] & _ & H). case_bool_decide; [by injection H as <- _|].
  apply bind_Some in H as ([[ty sn] r1] & _ & H). apply bind_Some in H as ([p2 r2] & _ & H).
  destruct (negb _); [done|]. apply bind_Some in H as ([name ds] & Hn & H).
  apply IH in H; [done|]. apply Forall_app. split; [done|]. apply Forall_singleton. by eapply parse_name_few.
Qed.

Lemma struct_list_few fuel : forall p l sts, Forall (fun s => few_dims (elems s)) l -> struct_list fuel p l = Some sts ->
  Forall (fun s => few_dims (elems s)) sts.
Proof.
  induction fuel as [|fuel IH]; intros p l sts Hl; [done|]. cbn [struct_list].
  destruct p as [|c p]; [by intros [= <-]|]. intros H. apply bind_Some in H as ([[s q]|] & Hs & H); [|done].
  apply IH in H; [done|]. apply Forall_app. split; [done|]. apply Forall_singleton.
  unfold fetch_next_struct in Hs. destruct (find_struct _ _); [|done].
  apply bind_Some in Hs as ([p1 q1] & _ & Hs). apply bind_Some in Hs as (name & _ & Hs).
  apply bind_Some in Hs as ([p2 q2] & _ & Hs). destruct (negb _); [done|].
  apply bind_Some in Hs as ([l' q3] & Hl' & [= <- <-]). eapply parse_struct_few; [|exact Hl']. constructor.
Qed.

Lemma parse_content_few data sts : parse_content data = Some sts -> Forall (fun s => few_dims (elems s)) sts.
Proof. apply struct_list_few. constructor. Qed.

(** ** The loops end

    Every word takes at least one character of the text, so fuel for its
    length is enough: more makes no difference. *)

Lemma length_skip_spaces s : (length (skip_spaces s) <= length s)%nat.
Proof. induction s as [|c s IH]; [done|]. cbn [skip_spaces]. destruct (is_space c); simpl; lia. Qed.

Lemma length_word_of s w rest : word_of s = (w, rest) -> (length rest <= length s - 1)%nat.
Proof.
  revert w rest. induction s as [|c s IH]; intros w rest; cbn [word_of]; [by intros [= <- <-]|].
  destruct (is_space c); [intros [= <- <-]; simpl; lia|]. destruct (word_of s) as [w' r']. intros [= <- <-].
  specialize (IH _ _ eq_refl). simpl. lia.
Qed.

Lemma fetch_shrinks s w rest : fetch_next_str s = Some (w, rest) -> (length rest < length s)%nat.
Proof.
  unfold fetch_next_str. pose proof (length_skip_spaces s). destruct (skip_spaces s) as [|c q]; [done|].
  intros Hs. assert (Hw : word_of (c :: q) = (w, rest)) by congruence. apply length_word_of in Hw. simpl in *. lia.
Qed.

Lemma parse_type_shrinks p q ty sn rest : parse_type p q = Some (ty, sn, rest) -> (length rest <= length q)%nat.
Proof.
  unfold parse_type. intros H. apply bind_Some in H as ([[t p'] q'] & Hu & H).
  assert (Hq : (length q' <= length q)%nat).
  { destruct (bool_decide (p = ascii_bytes "unsigned")); [|by injection Hu as _ _ <-]. apply bind_Some in Hu as ([p1 q1] & Hf%fetch_shrinks & [= _ _ <-]). lia. }
  destruct (bool_decide (p' = ascii_bytes "char")); [by injection H as _ _ <-|].
  destruct (bool_decide (p' = ascii_bytes "short")); [by injection H as _ _ <-|].
  destruct (bool_decide (p' = ascii_bytes "int")); [by injection H as _ _ <-|].
  destruct (bool_decide (p' = ascii_bytes "struct")); [|done].
  destruct (negb _); [done|]. apply bind_Some in H as ([p1 q1] & Hf%fetch_shrinks & H).
  apply bind_Some in H as (n & _ & [= _ _ <-]). lia.
Qed.

Lemma parse_struct_fuel fuel : forall fuel' q l, (length q < fuel)%nat -> (length q < fuel')%nat ->
  parse_struct fuel q l = parse_struct fuel' q l.
Proof.
  induction fuel as [|fuel IH]; intros fuel' q l H1 H2; [lia|]. destruct fuel' as [|fuel']; [lia|]. cbn [parse_struct].
  destruct q as [|c q]; [done|]. destruct (fetch_next_str (c :: q)) as [[p r]|] eqn:E1; [|done]. apply fetch_shrinks in E1.
  cbn [mbind option_bind]. case_bool_decide; [done|]. destruct (parse_type p r) as [[[ty sn] r1]|] eqn:E2; [|done].
  apply parse_type_shrinks in E2. cbn [mbind option_bind].
  destruct (fetch_next_str r1) as [[p2 r2]|] eqn:E3; [|done]. apply fetch_shrinks in E3. cbn [mbind option_bind].
  destruct (negb _); [done|]. destruct (parse_name_and_dims _) as [[name ds]|]; [|done]. cbn [mbind option_bind].
  apply IH; simpl in *; lia.
Qed.

Lemma parse_struct_shrinks fuel : forall q l l' rest, parse_struct fuel q l = Some (l', rest) -> (length rest <= length q)%nat.
Proof.
  induction fuel as [|fuel IH]; intros q l l' rest; [done|]. cbn [parse_struct]. destruct q as [|c q]; [by intros [= _ <-]|].
  intros H. apply bind_Some in H as ([p r] & E1%fetch_shrinks & H). case_bool_decide; [injection H as _ <-; lia|].
  apply bind_Some in H as ([[ty sn] r1] & E2%parse_type_shrinks & H). apply bind_Some in H as ([p2 r2] & E3%fetch_shrinks & H).
  destruct (negb _); [done|]. apply bind_Some in H as ([name ds] & _ & H%IH). lia.
Qed.

Lemma find_struct_fuel fuel : forall fuel' q, (length q < fuel)%nat -> (length q < fuel')%nat -> find_struct fuel q = find_struct fuel' q.
Proof.
  induction fuel as [|fuel IH]; intros fuel' q H1 H2; [lia|]. destruct fuel' as [|fuel']; [lia|]. cbn [find_struct].
  destruct q as [|c q]; [done|]. destruct (fetch_next_str (c :: q)) as [[p r]|] eqn:E1; [|done]. apply fetch_shrinks in E1.
  cbn [mbind option_bind]. case_bool_decide; [done|]. apply IH; simpl in *; lia.
Qed.

Lemma find_struct_shrinks fuel : forall q rest, find_struct fuel q = Some rest -> (length rest < length q)%nat.
Proof.
  induction fuel as [|fuel IH]; intros q rest; [done|]. cbn [find_struct]. destruct q as [|c q]; [done|].
  intros H. apply bind_Some in H as ([p r] & E1%fetch_shrinks & H). case_bool_decide; [|apply IH in H; lia].
  destruct r; [done|]. injection H as <-. done.
Qed.

Lemma fetch_struct_shrinks str s rest : fetch_next_struct str = Some (Some (s, rest)) -> (length rest < length str)%nat.
Proof.
  unfold fetch_next_struct. destruct (find_struct _ str) as [q|] eqn:E; [|done]. apply find_struct_shrinks in E.
  intros H. apply bind_Some in H as ([p q1] & E1%fetch_shrinks & H). apply bind_Some in H as (n & _ & H).
  apply bind_Some in H as ([p2 q2] & E2%fetch_shrinks & H). destruct (negb _); [done|].
  apply bind_Some in H as ([l q3] & E3%parse_struct_shrinks & [= _ <-]). lia.
Qed.

(** The loops that read a description end: each structure takes some of the
    text, so [None] from [parse_content] is a failed assertion or a use of NULL
    and never want of fuel. *)
Theorem struct_list_terminates fuel : forall fuel' p l, (length p < fuel)%nat -> (length p < fuel')%nat ->
  struct_list fuel p l = struct_list fuel' p l.
Proof.
  induction fuel as [|fuel IH]; intros fuel' p l H1 H2; [lia|]. destruct fuel' as [|fuel']; [lia|]. cbn [struct_list].
  destruct p as [|c p]; [done|]. destruct (fetch_next_struct (c :: p)) as [[[s q]|]|] eqn:E; [|done|done].
  apply fetch_struct_shrinks in E. cbn [mbind option_bind]. apply IH; simpl in *; lia.
Qed.

Lemma struct_list_terminates_witness : struct_list 7 (ascii_bytes "x {};") [] = struct_list 9 (ascii_bytes "x {};") [].
Proof. apply struct_list_terminates; vm_compute; lia. Defined.
