(* ===== verification/GenSource.v ===== *)
(** * Writing the serialisers (xdr/gen_serialize_raw.c)

    The second half of the generator: the texts it prints for each structure
    and the two files it makes of them.  The C literal of a format is written
    with [\q] for an escaped double quote. *)

From Stdlib Require Import Ascii.
From S2P Require Import Prelude CStr FileSystem GenParse.

Open Scope string_scope.

(** [fprintf] with strings as arguments. *)
Fixpoint format (fmt : string) (args : list text) : text :=
  match fmt with
  | EmptyString => []
  | String "\" (String e fmt) =>
      match e with
      | "n"%char => 10
      | "t"%char => 9
      | "q"%char => 34
      | _ => Z.of_N (Ascii.N_of_ascii e)
      end :: format fmt args
  | String "%" (String "s" fmt) =>
      match args with
      | [] => format fmt []
      | a :: args => (a ++ format fmt args)%list
      end
  | String c fmt => Z.of_N (Ascii.N_of_ascii c) :: format fmt args
  end.

Definition fprintf (fmt : string) (args : list text) (out : text) : text := (out ++ format fmt args)%list.

(** ** The text for an element

    The three output functions have the same switch, with [htons] and [htonl]
    or [ntohs] and [ntohl], and with calls of [X_raw_encode] or [__X_raw_decode]. *)

Record conversions := Conversions { short_fn : string; int_fn : string; call_pre : string; call_fn : string; call_post : string }.

Definition encode_conversions : conversions := Conversions "htons" "htonl" "" "_raw_encode" ", NULL, NULL, NULL".
Definition decode_conversions : conversions := Conversions "ntohs" "ntohl" "__" "_raw_decode" "".

(** The three branches at one place of the switch, [BUG] as [None]. *)
Definition output_access (cv : conversions) (tabs index : string) (p : elem) (out : text) : option text :=
  if has_type p ELEM_TYPE_SHORT then
    Some (fprintf (tabs ++ "_req->%s" ++ index ++ " = " ++ short_fn cv ++ "(_req->%s" ++ index ++ ");\n") [elem_name p; elem_name p] out)
  else if has_type p ELEM_TYPE_INT then
    Some (fprintf (tabs ++ "_req->%s" ++ index ++ " = " ++ int_fn cv ++ "(_req->%s" ++ index ++ ");\n") [elem_name p; elem_name p] out)
  else if has_type p ELEM_TYPE_STRUCT then
    Some (fprintf (tabs ++ call_pre cv ++ "%s" ++ call_fn cv ++ "(&_req->%s" ++ index ++ call_post cv ++ ");\n") [elem_st_name p; elem_name p] out)
  else None.

(** [switch (d)] *)
Definition output_elem (cv : conversions) (p : elem) (out : text) : option text :=
  match dims p with
  | [d0; d1; d2; d3; d4] =>
      let out := fprintf "\tfor (i = 0; i < %s; ++i)\n" [d0] out in
      let out := fprintf "\t\tfor (j = 0; j < %s; ++j)\n" [d1] out in
      let out := fprintf "\t\t\tfor (k = 0; k < %s; ++k)\n" [d2] out in
      let out := fprintf "\t\t\t\tfor (m = 0; m < %s; ++m)\n" [d3] out in
      let out := fprintf "\t\t\t\t\tfor (n = 0; n < %s; ++n) {\n" [d4] out in
      out ← output_access cv "\t\t\t\t\t\t" "[i][j][k][m][n]" p out;
      Some (fprintf "\t\t\t\t\t}\n" [] out)
  | [d0; d1; d2; d3] =>
      let out := fprintf "\tfor (i = 0; i < %s; ++i)\n" [d0] out in
      let out := fprintf "\t\tfor (j = 0; j < %s; ++j)\n" [d1] out in
      let out := fprintf "\t\t\tfor (k = 0; k < %s; ++k)\n" [d2] out in
      let out := fprintf "\t\t\t\tfor (m = 0; m < %s; ++m) {\n" [d3] out in
      out ← output_access cv "\t\t\t\t\t" "[i][j][k][m]" p out;
      Some (fprintf "\t\t\t\t}\n" [] out)
  | [d0; d1; d2] =>
      let out := fprintf "\tfor (i = 0; i < %s; ++i)\n" [d0] out in
      let out := fprintf "\t\tfor (j = 0; j < %s; ++j)\n" [d1] out in
      let out := fprintf "\t\t\tfor (k = 0; k < %s; ++k) {\n" [d2] out in
      out ← output_access cv "\t\t\t\t" "[i][j][k]" p out;
      Some (fprintf "\t\t\t}\n" [] out)
  | [d0; d1] =>
      let out := fprintf "\tfor (i = 0; i < %s; ++i)\n" [d0] out in
      let out := fprintf "\t\tfor (j = 0; j < %s; ++j) {\n" [d1] out in
      out ← output_access cv "\t\t\t" "[i][j]" p out;
      Some (fprintf "\t\t}\n" [] out)
  | [d0] =>
      let out := fprintf "\tfor (i = 0; i < %s; ++i) {\n" [d0] out in
      out ← output_access cv "\t\t" "[i]" p out;
      Some (fprintf "\t}\n" [] out)
  | [] => output_access cv "\t" "" p out
  | _ => None
  end.

(** The condition at the head of the loop's body. *)
Definition converted (p : elem) : bool :=
  has_type p ELEM_TYPE_SHORT || has_type p ELEM_TYPE_INT || has_type p ELEM_TYPE_STRUCT.

(** The loop over the elements, with [write]. *)
Fixpoint output_elems (cv : conversions) (l : list elem) (write : bool) (out : text) : option (bool * text) :=
  match l with
  | [] => Some (write, out)
  | p :: l =>
      if negb (converted p) then output_elems cv l write out else
      out ← output_elem cv p out;
      output_elems cv l true out
  end.

Definition output_locals (max_dims : nat) (out : text) : text :=
  match max_dims with
  | 5 => fprintf "\tint i = 0, j = 0, k = 0, m = 0, n = 0;\n" [] out
  | 4 => fprintf "\tint i = 0, j = 0, k = 0, m = 0;\n" [] out
  | 3 => fprintf "\tint i = 0, j = 0, k = 0;\n" [] out
  | 2 => fprintf "\tint i = 0, j = 0;\n" [] out
  | 1 => fprintf "\tint i = 0;\n" [] out
  | _ => out
  end%nat.

(** ** The functions for a structure *)

Definition output_encode (s : st) (out : text) : option text :=
  let name := st_name s in
  let out := fprintf "bool %s_raw_encode(void *req, unsigned char **buf, int *len,\n" [name] out in
  let out := fprintf "\t\t\tenum free_mode *mode)\n" [] out in
  let out := fprintf "{\n" [] out in
  let out := fprintf "\tDEBUG((DEBUG_DEBUG, \qin\\n\q));\n\n" [] out in
  let out := fprintf "\tbool ret = true;\n" [] out in
  let out := output_locals (get_max_dims_in_elems s) out in
  let out := fprintf "\tstruct %s *_req = req;\n\n" [name] out in
  '(write, out) ← output_elems encode_conversions (elems s) false out;
  let out := if write : bool then fprintf "\n" [] out else out in
  let out := fprintf "\tif (buf && len) {\n" [] out in
  let out := fprintf "\t\t*buf = mp_malloc(g_mp, __func__, sizeof(struct %s));\n" [name] out in
  let out := fprintf "\t\tmemcpy(*buf, req, sizeof(struct %s));\n" [name] out in
  let out := fprintf "\t\t*len = sizeof(struct %s);\n" [name] out in
  let out := fprintf "\t\t*mode = FREE_MODE_MP_FREE;\n" [] out in
  let out := fprintf "\t}\n\n" [] out in
  let out := fprintf "\tDEBUG((DEBUG_DEBUG, \qout\\n\q));\n\n" [] out in
  let out := fprintf "\treturn ret;\n" [] out in
  Some (fprintf "}\n\n" [] out).

Definition output_decode (s : st) (out : text) : option text :=
  let name := st_name s in
  let out := fprintf "bool %s_raw_decode(unsigned char *buf, int len, void **req,\n" [name] out in
  let out := fprintf "\t\t\tenum free_mode *mode)\n" [] out in
  let out := fprintf "{\n" [] out in
  let out := fprintf "\tDEBUG((DEBUG_DEBUG, \qin\\n\q));\n\n" [] out in
  let out := fprintf "\tbool ret = true;\n" [] out in
  let out := output_locals (get_max_dims_in_elems s) out in
  let out := fprintf "\tstruct %s *_req = (struct %s *)mp_malloc(g_mp, __func__,\n\t\tsizeof(struct %s));\n\n" [name; name; name] out in
  let out := fprintf "\tmemcpy(_req, buf, len);\n" [] out in
  '(write, out) ← output_elems decode_conversions (elems s) false out;
  let out := if write : bool then fprintf "\n" [] out else out in
  let out := fprintf "\tif (req) {\n" [] out in
  let out := fprintf "\t\t*req = _req;\n" [] out in
  let out := fprintf "\t\t*mode = FREE_MODE_MP_FREE;\n" [] out in
  let out := fprintf "\t}\n\n" [] out in
  let out := fprintf "\tDEBUG((DEBUG_DEBUG, \qout\\n\q));\n\n" [] out in
  let out := fprintf "\treturn ret;\n" [] out in
  Some (fprintf "}\n\n" [] out).

Definition output_native_decode (s : st) (out : text) : option text :=
  let name := st_name s in
  let out := fprintf "void __%s_raw_decode(struct %s *req)\n" [name; name] out in
  let out := fprintf "{\n" [] out in
  let out := fprintf "\tDEBUG((DEBUG_DEBUG, \qin\\n\q));\n\n" [] out in
  let out := output_locals (get_max_dims_in_elems s) out in
  let out := fprintf "\tstruct %s *_req = req;\n\n" [name] out in
  '(write, out) ← output_elems decode_conversions (elems s) false out;
  let out := if write : bool then fprintf "\n" [] out else out in
  let out := fprintf "\tDEBUG((DEBUG_DEBUG, \qout\\n\q));\n" [] out in
  Some (fprintf "}\n\n" [] out).

(** ** The two files *)

Definition h_text (st_list : list st) : text :=
  let out := fprintf "/*\n * Automatically generated - do not edit\n */\n\n" [] [] in
  let out := fprintf "#ifndef _SERIALIZE_RAW_H_\n" [] out in
  let out := fprintf "#define _SERIALIZE_RAW_H_\n\n" [] out in
  let out := fprintf "#include <stdbool.h>\n" [] out in
  let out := fprintf "#include \qcommon.h\q\n\n" [] out in
  let out := foldl (fun out p =>
    let name := st_name p in
    let out := fprintf "bool %s_raw_encode(void *req, unsigned char **buf, int *len,\n" [name] out in
    let out := fprintf "\t\t\tenum free_mode *mode);\n\n" [] out in
    let out := fprintf "void __%s_raw_decode(struct %s *req);\n\n" [name; name] out in
    let out := fprintf "bool %s_raw_decode(unsigned char *buf, int len, void **req,\n" [name] out in
    fprintf "\t\t\tenum free_mode *mode);\n\n" [] out) out st_list in
  fprintf "#endif\n" [] out.

Definition gen_h_file (fs : fsys) (h_file : text) (st_list : list st) : fsys * Z :=
  match fopen_w fs h_file with
  | None => (fs, -1)
  | Some fs => (fappend fs h_file (h_text st_list), 0)
  end.

(** The loop over the structures. *)
Fixpoint output_structs (st_list : list st) (out : text) : option text :=
  match st_list with
  | [] => Some out
  | p :: st_list =>
      out ← output_encode p out;
      out ← output_native_decode p out;
      out ← output_decode p out;
      output_structs st_list out
  end.

Definition c_includes : text :=
  let out := fprintf "/*\n * Automatically generated - do not edit\n */\n\n" [] [] in
  let out := fprintf "#include <arpa/inet.h>\n" [] out in
  let out := fprintf "#include <stdbool.h>\n" [] out in
  let out := fprintf "#include <stdio.h>\n" [] out in
  let out := fprintf "#include <rpc/types.h>\n" [] out in
  let out := fprintf "#include <rpc/xdr.h>\n" [] out in
  let out := fprintf "#include \qcommon.h\q\n" [] out in
  let out := fprintf "#include \qdebug.h\q\n" [] out in
  let out := fprintf "#include \qlog.h\q\n" [] out in
  let out := fprintf "#include \qmem_pool.h\q\n" [] out in
  fprintf "#include \qserialize.h\q\n\n" [] out.

Definition c_text (st_list : list st) : option text := output_structs st_list c_includes.

Definition gen_c_file (fs : fsys) (c_file : text) (st_list : list st) : option (fsys * Z) :=
  match fopen_w fs c_file with
  | None => Some (fs, -1)
  | Some fs => out ← c_text st_list; Some (fappend fs c_file out, 0)
  end.

Close Scope string_scope.

Definition gen_serialize (fs : fsys) (h_file c_file : text) (st_list : list st) : option (fsys * Z) :=
  let '(fs, ret) := gen_h_file fs h_file st_list in
  if ret =? -1 then Some (fs, -1) else
  '(fs, ret) ← gen_c_file fs c_file st_list;
  if ret =? -1 then Some (fs, -1) else Some (fs, 0).

Definition SZ_1MB : Z := 1024 * 1024.

Definition file_size (fs : fsys) (filename : text) : nat :=
  match fopen_r fs filename with None => 0%nat | Some data => length data end.

(** With its result the list it fills. *)
Definition get_struct_list (fs : fsys) (xdr_file : text) : option (list st * Z) :=
  if SZ_1MB <? Z.of_nat (file_size fs xdr_file) then Some ([], -1) else
  data ← fopen_r fs xdr_file;
  l ← parse_content data;
  Some (l, 0).

Definition main (fs : fsys) (argv : list text) : option (fsys * Z) :=
  match argv with
  | [_; xdr_file; h_file; c_file] =>
      '(st_list, ret) ← get_struct_list fs xdr_file;
      if ret =? -1 then Some (fs, -1) else
      '(fs, ret) ← gen_serialize fs h_file c_file st_list;
      if ret =? -1 then Some (fs, -1) else Some (fs, 0)
  | _ => Some (fs, -1)
  end.

(** * The program that the generator writes (xdr/gen_serialize_raw.c)

    The part of C that occurs in the generated file, as syntax with its text: a
    program has three functions for each structure, the two decoders with the
    same body.  The generator prints the text of [program_of] of what it read. *)

(** ** Syntax *)

Inductive direction := Encode | Decode.

Inductive width := W16 | W32.

Inductive stmt :=
  | For (v : string) (bound : text) (body : stmt)
  | Convert (d : direction) (w : width) (name : text) (index : list string)
  | Call (d : direction) (callee name : text) (index : list string).

Record code := Code { locals : list string; encode_body : list stmt; decode_body : list stmt }.

Definition loop_vars : list string := ["i"; "j"; "k"; "m"; "n"]%string.

Definition nest (loops : list (string * text)) (leaf : stmt) : stmt :=
  foldr (fun vb s => For vb.1 vb.2 s) leaf loops.

Definition access (d : direction) (p : elem) (index : list string) : stmt :=
  if has_type p ELEM_TYPE_SHORT then Convert d W16 (elem_name p) index
  else if has_type p ELEM_TYPE_INT then Convert d W32 (elem_name p) index
  else Call d (elem_st_name p) (elem_name p) index.

Definition elem_stmt (d : direction) (p : elem) : option stmt :=
  if converted p then
    let vs := take (length (dims p)) loop_vars in
    Some (nest (zip vs (dims p)) (access d p vs))
  else None.

Definition code_of (s : st) : code :=
  Code (take (get_max_dims_in_elems s) loop_vars)
    (omap (elem_stmt Encode) (elems s)) (omap (elem_stmt Decode) (elems s)).

(** ** Text *)

Definition tabs (depth : nat) : text := replicate depth 9.

Definition print_index (index : list string) : text := concat (map (fun v => format "[%s]" [ascii_bytes v]) index).

Definition place (name : text) (index : list string) : text := format "_req->%s%s" [name; print_index index].

Definition print_conversion (d : direction) (w : width) : text :=
  ascii_bytes (match d, w with
               | Encode, W16 => "htons" | Encode, W32 => "htonl" | Decode, W16 => "ntohs" | Decode, W32 => "ntohl"
               end%string).

Fixpoint print_stmt (depth : nat) (s : stmt) : text :=
  match s with
  | For v b body =>
      tabs depth ++ format "for (%s = 0; %s < %s; ++%s)" [ascii_bytes v; ascii_bytes v; b; ascii_bytes v] ++
      match body with
      | For _ _ _ => format "\n" [] ++ print_stmt (S depth) body
      | _ => format " {\n" [] ++ print_stmt (S depth) body ++ tabs depth ++ format "}\n" []
      end
  | Convert d w name index =>
      tabs depth ++ format "%s = %s(%s);\n" [place name index; print_conversion d w; place name index]
  | Call Encode callee name index => tabs depth ++ format "%s_raw_encode(&%s, NULL, NULL, NULL);\n" [callee; place name index]
  | Call Decode callee name index => tabs depth ++ format "__%s_raw_decode(&%s);\n" [callee; place name index]
  end.

Definition print_body (body : list stmt) : text :=
  concat (map (print_stmt 1) body) ++ match body with [] => [] | _ => format "\n" [] end.

Fixpoint print_vars (vs : list string) : text :=
  match vs with
  | [] => []
  | [v] => format "%s = 0;\n" [ascii_bytes v]
  | v :: vs => format "%s = 0, " [ascii_bytes v] ++ print_vars vs
  end.

Definition print_locals (vs : list string) : text :=
  match vs with [] => [] | _ => format "\tint " [] ++ print_vars vs end.

Definition print_encode (name : text) (c : code) : text :=
  format "bool %s_raw_encode(void *req, unsigned char **buf, int *len,\n\t\t\tenum free_mode *mode)\n{\n\tDEBUG((DEBUG_DEBUG, \qin\\n\q));\n\n\tbool ret = true;\n" [name] ++
  print_locals (locals c) ++
  format "\tstruct %s *_req = req;\n\n" [name] ++
  print_body (encode_body c) ++
  format "\tif (buf && len) {\n\t\t*buf = mp_malloc(g_mp, __func__, sizeof(struct %s));\n\t\tmemcpy(*buf, req, sizeof(struct %s));\n\t\t*len = sizeof(struct %s);\n\t\t*mode = FREE_MODE_MP_FREE;\n\t}\n\n\tDEBUG((DEBUG_DEBUG, \qout\\n\q));\n\n\treturn ret;\n}\n\n" [name; name; name].

Definition print_native_decode (name : text) (c : code) : text :=
  format "void __%s_raw_decode(struct %s *req)\n{\n\tDEBUG((DEBUG_DEBUG, \qin\\n\q));\n\n" [name; name] ++
  print_locals (locals c) ++
  format "\tstruct %s *_req = req;\n\n" [name] ++
  print_body (decode_body c) ++
  format "\tDEBUG((DEBUG_DEBUG, \qout\\n\q));\n}\n\n" [].

Definition print_decode (name : text) (c : code) : text :=
  format "bool %s_raw_decode(unsigned char *buf, int len, void **req,\n\t\t\tenum free_mode *mode)\n{\n\tDEBUG((DEBUG_DEBUG, \qin\\n\q));\n\n\tbool ret = true;\n" [name] ++
  print_locals (locals c) ++
  format "\tstruct %s *_req = (struct %s *)mp_malloc(g_mp, __func__,\n\t\tsizeof(struct %s));\n\n\tmemcpy(_req, buf, len);\n" [name; name; name] ++
  print_body (decode_body c) ++
  format "\tif (req) {\n\t\t*req = _req;\n\t\t*mode = FREE_MODE_MP_FREE;\n\t}\n\n\tDEBUG((DEBUG_DEBUG, \qout\\n\q));\n\n\treturn ret;\n}\n\n" [].

Definition print_program (prog : list (text * code)) : text :=
  c_includes ++ concat (map (fun nc => print_encode nc.1 nc.2 ++ print_native_decode nc.1 nc.2 ++ print_decode nc.1 nc.2) prog).

Definition program_of (sts : list st) : list (text * code) := map (fun s => (st_name s, code_of s)) sts.

(** ** The generator prints this text *)

Lemma fprintf_fprintf f g a b out : fprintf g b (fprintf f a out) = out ++ (format f a ++ format g b).
Proof. unfold fprintf. by rewrite <- app_assoc. Qed.

Lemma output_locals_prints n out : (n <= 5)%nat -> output_locals n out = out ++ print_locals (take n loop_vars).
Proof.
  intros Hn. do 6 (destruct n as [|n]; [unfold output_locals, fprintf; cbn; by rewrite ?app_nil_r|]). lia.
Qed.

Definition conversions_of (d : direction) : conversions :=
  match d with Encode => encode_conversions | Decode => decode_conversions end.

(** Both sides are literals and arguments in the same order. *)
Ltac same_format := cbv -[app]; f_equal; repeat progress (cbn [app]; rewrite <- ?app_assoc); reflexivity.

Lemma output_elem_prints d p out : converted p = true -> (length (dims p) <= 5)%nat ->
  exists s, elem_stmt d p = Some s /\ output_elem (conversions_of d) p out = Some (out ++ print_stmt 1 s).
Proof.
  destruct p as [name ty sn ds]. cbn [dims]. intros Hc Hd. unfold elem_stmt. rewrite Hc. eexists. split; [done|]. cbn [dims].
  unfold converted in Hc. unfold access, output_elem, output_access. cbn [dims elem_name elem_st_name].
  destruct ds as [|d0 [|d1 [|d2 [|d3 [|d4 [|d5 ds]]]]]]; [..|simpl in Hd; lia];
    destruct (has_type _ ELEM_TYPE_SHORT), (has_type _ ELEM_TYPE_INT), (has_type _ ELEM_TYPE_STRUCT);
    try discriminate Hc; destruct d; same_format.
Qed.

Lemma output_elems_prints d l : few_dims l -> forall write out,
  output_elems (conversions_of d) l write out
  = Some (write || match omap (elem_stmt d) l with [] => false | _ => true end,
          out ++ concat (map (print_stmt 1) (omap (elem_stmt d) l))).
Proof.
  induction 1 as [|p l Hp _ IH]; intros write out; cbn [output_elems omap list_omap].
  - by rewrite orb_false_r, app_nil_r.
  - destruct (converted p) eqn:Hc; cbn [negb].
    + destruct (output_elem_prints d p out Hc Hp) as (s & Hs & Ho). rewrite Hs, Ho. cbn [mbind option_bind].
      rewrite IH. cbn [map concat]. by rewrite orb_true_r, app_assoc.
    + assert (elem_stmt d p = None) as -> by (unfold elem_stmt; by rewrite Hc). apply IH.
Qed.

Lemma max_dims_few s : few_dims (elems s) -> (get_max_dims_in_elems s <= 5)%nat.
Proof.
  intros Hf. unfold get_max_dims_in_elems. enough (H : forall m, (m <= 5)%nat ->
    (foldl (fun max_dims p => if (max_dims <? get_elem_dims p)%nat then get_elem_dims p else max_dims) m (elems s) <= 5)%nat)
    by (apply H; lia).
  induction Hf as [|p l Hp _ IH]; intros m Hm; [done|]. cbn [foldl]. apply IH. unfold get_elem_dims. by case_match.
Qed.

Lemma if_write (body : list stmt) (out : text) :
  (if match body with [] => false | _ => true end then fprintf "\n" [] (out ++ concat (map (print_stmt 1) body))
   else out ++ concat (map (print_stmt 1) body)) = out ++ print_body body.
Proof. unfold print_body, fprintf. destruct body; [by rewrite !app_nil_r|]. by rewrite app_assoc. Qed.

Lemma output_encode_prints s out : few_dims (elems s) ->
  output_encode s out = Some (out ++ print_encode (st_name s) (code_of s)).
Proof.
  intros Hf. unfold output_encode. rewrite output_locals_prints by by apply max_dims_few.
  rewrite (output_elems_prints Encode) by done. cbn [mbind option_bind]. rewrite orb_false_l, if_write.
  unfold print_encode, code_of. cbn [locals encode_body]. generalize (print_locals (take (get_max_dims_in_elems s) loop_vars)).
  generalize (print_body (omap (elem_stmt Encode) (elems s))). generalize (st_name s). intros name body vars. same_format.
Qed.

Lemma output_native_decode_prints s out : few_dims (elems s) ->
  output_native_decode s out = Some (out ++ print_native_decode (st_name s) (code_of s)).
Proof.
  intros Hf. unfold output_native_decode. rewrite output_locals_prints by by apply max_dims_few.
  rewrite (output_elems_prints Decode) by done. cbn [mbind option_bind]. rewrite orb_false_l, if_write.
  unfold print_native_decode, code_of. cbn [locals decode_body]. generalize (print_locals (take (get_max_dims_in_elems s) loop_vars)).
  generalize (print_body (omap (elem_stmt Decode) (elems s))). generalize (st_name s). intros name body vars. same_format.
Qed.

Lemma output_decode_prints s out : few_dims (elems s) ->
  output_decode s out = Some (out ++ print_decode (st_name s) (code_of s)).
Proof.
  intros Hf. unfold output_decode. rewrite output_locals_prints by by apply max_dims_few.
  rewrite (output_elems_prints Decode) by done. cbn [mbind option_bind]. rewrite orb_false_l, if_write.
  unfold print_decode, code_of. cbn [locals decode_body]. generalize (print_locals (take (get_max_dims_in_elems s) loop_vars)).
  generalize (print_body (omap (elem_stmt Decode) (elems s))). generalize (st_name s). intros name body vars. same_format.
Qed.

Lemma c_text_prints sts : Forall (fun s => few_dims (elems s)) sts -> c_text sts = Some (print_program (program_of sts)).
Proof.
  unfold c_text, print_program. generalize c_includes. intros out Hf. revert out.
  induction Hf as [|s sts Hs _ IH]; intros out; cbn [output_structs program_of map concat]; [by rewrite app_nil_r|].
  rewrite output_encode_prints by done. cbn [mbind option_bind]. rewrite output_native_decode_prints by done.
  cbn [mbind option_bind]. rewrite output_decode_prints by done. cbn [mbind option_bind]. rewrite IH.
  by rewrite !app_assoc.
Qed.
