(* ===== verification/GenRun.v ===== *)
(** * What the generated serialisers do

    The meaning of the programs of [GenSyntax].  A function is the sequence of
    its steps on the memory of an object, [None] where C gives none: an
    undeclared variable, an index behind the end, a conversion of another
    width, a function that is not there. *)

From S2P Require Import Prelude CStr Layout SerializeRaw SerializeTable GenParse GenSource.

(** ** Declarations *)

Definition name_string (t : text) : string :=
  String.string_of_list_ascii (map (fun c => Ascii.ascii_of_N (Z.to_N c)) t).

Fixpoint lookup_name {A} (l : list (text * A)) (n : text) : option A :=
  match l with
  | [] => None
  | (m, a) :: l => if bool_decide (m = n) then Some a else lookup_name l n
  end.

Definition base_type (known : list (text * ctype)) (p : elem) : option ctype :=
  if has_type p ELEM_TYPE_SHORT then Some CShort
  else if has_type p ELEM_TYPE_INT then Some (if has_type p ELEM_TYPE_UNSIGNED then CUInt else CInt)
  else if has_type p ELEM_TYPE_STRUCT then lookup_name known (elem_st_name p)
  else if has_type p ELEM_TYPE_CHAR then Some CChar
  else None.

Definition array_type (ns : list nat) (t : ctype) : ctype := foldr (fun n t => CArr t n) t ns.

Section Declarations.

(** The values of the constants. *)
Context (consts : text -> option nat).

Definition declare_field (known : list (text * ctype)) (p : elem) : option (string * ctype) :=
  t ← base_type known p;
  ns ← mapM consts (dims p);
  Some (name_string (elem_name p), array_type ns t).

(** Names are declared once, and structures before their use. *)
Definition declare_struct (known : list (text * ctype)) (s : st) : option ctype :=
  if bool_decide (st_name s ∈ known.*1) then None else
  fs ← mapM (declare_field known) (elems s);
  if bool_decide (NoDup fs.*1) then Some (CStruct fs) else None.

Fixpoint declare (known : list (text * ctype)) (sts : list st) : option (list (text * ctype)) :=
  match sts with
  | [] => Some known
  | s :: sts => t ← declare_struct known s; declare (known ++ [(st_name s, t)]) sts
  end.

End Declarations.

(** ** Meaning *)

Fixpoint ctype_eqb (t u : ctype) {struct t} : bool :=
  match t, u with
  | CChar, CChar | CShort, CShort | CInt, CInt | CUInt, CUInt => true
  | CArr t n, CArr u m => ctype_eqb t u && Nat.eqb n m
  | CStruct fs, CStruct gs =>
      (fix go (fs gs : list (string * ctype)) {struct fs} : bool :=
         match fs, gs with
         | [], [] => true
         | (f, t) :: fs, (g, u) :: gs => String.eqb f g && ctype_eqb t u && go fs gs
         | _, _ => false
         end) fs gs
  | _, _ => false
  end.

(** The functions for a structure: [X_raw_encode] with and without a buffer,
    [__X_raw_decode] and [X_raw_decode]. *)
Record cfuns := CFuns {
  f_type : ctype;
  f_encode : nat -> bool -> option (list step);
  f_native : nat -> option (list step);
  f_decode : option (list step);
}.

Fixpoint assoc (env : list (string * nat)) (v : string) : option nat :=
  match env with
  | [] => None
  | (w, i) :: env => if String.eqb w v then Some i else assoc env v
  end.

Fixpoint field_type (fs : list (string * ctype)) (f : string) : option ctype :=
  match fs with
  | [] => None
  | (g, t) :: fs => if String.eqb f g then Some t else field_type fs f
  end.

(** An element of an array at [off]. *)
Fixpoint at_index (t : ctype) (off : nat) (ix : list nat) {struct ix} : option (nat * ctype) :=
  match ix with
  | [] => Some (off, t)
  | i :: ix =>
      match t with
      | CArr t n => if (i <? n)%nat then at_index t (i * size_of t + off) ix else None
      | _ => None
      end
  end.

(** [_req->name[i]...] for an object of type [t] at [req]. *)
Definition locate (t : ctype) (req : nat) (name : text) (ix : list nat) : option (nat * ctype) :=
  match t with
  | CStruct fs =>
      let f := name_string name in
      u ← field_type fs f;
      at_index u (offset_of t f + req) ix
  | _ => None
  end.

Definition width_of (w : width) : nat := match w with W16 => 2 | W32 => 4 end.

Definition converts (w : width) (t : ctype) : bool :=
  match w, t with W16, CShort | W32, CInt | W32, CUInt => true | _, _ => false end.

Section Meaning.

Context (consts : text -> option nat) (funs : list (text * cfuns)).

(** A statement on the object of type [t] at [req]. *)
Fixpoint run (vars : list string) (t : ctype) (req : nat) (env : list (string * nat)) (s : stmt) : option (list step) :=
  match s with
  | For v b body =>
      if negb (bool_decide (v ∈ vars)) then None else
      n ← consts b;
      ls ← mapM (fun i => run vars t req ((v, i) :: env) body) (seq 0 n);
      Some (concat ls)
  | Convert _ w name index =>
      ix ← mapM (assoc env) index;
      '(off, u) ← locate t req name ix;
      if converts w u then Some [Swap off (width_of w)] else None
  | Call d callee name index =>
      ix ← mapM (assoc env) index;
      '(off, u) ← locate t req name ix;
      f ← lookup_name funs callee;
      if negb (ctype_eqb (f_type f) u) then None else
      match d with Encode => f_encode f off false | Decode => f_native f off end
  end.

Definition run_body (vars : list string) (t : ctype) (req : nat) (body : list stmt) : option (list step) :=
  ls ← mapM (run vars t req []) body; Some (concat ls).

(** The three functions for a structure of type [t]. *)
Definition denote (t : ctype) (c : code) : cfuns :=
  CFuns t
    (fun req buf => l ← run_body (locals c) t req (encode_body c); Some (l ++ copy_out req buf t))
    (fun req => run_body (locals c) t req (decode_body c))
    (l ← run_body (locals c) t 0 (decode_body c); Some ([Alloc (size_of t); CopyIn] ++ l)).

End Meaning.

(** A program with the types its structures have. *)
Fixpoint denote_program (consts : text -> option nat) (funs : list (text * cfuns))
    (types : list (text * ctype)) (prog : list (text * code)) : option (list (text * cfuns)) :=
  match types, prog with
  | [], [] => Some funs
  | (n, t) :: types, (m, c) :: prog =>
      if bool_decide (n = m) then denote_program consts (funs ++ [(n, denote consts funs t c)]) types prog else None
  | _, _ => None
  end.

(** ** One place *)

Lemma ctype_eqb_refl t : ctype_eqb t t = true.
Proof.
  induction t as [| | | |t n IH|fs IH] using ctype_fields_ind; [done..| |]; cbn [ctype_eqb].
  - by rewrite IH, Nat.eqb_refl.
  - induction IH as [|[f t] fs Ht _ IH]; [done|]. simpl in Ht. rewrite String.eqb_refl, Ht. exact IH.
Qed.

Lemma swaps_app l1 l2 : swaps (l1 ++ l2) = swaps l1 ++ swaps l2.
Proof. apply fmap_app. Qed.

(** What the functions for a type do to an object at [off]. *)
Definition swaps_of (t : ctype) (off : nat) : list step := swaps (shift_fields off (int_fields t)).

Definition serialises (f : cfuns) (t : ctype) : Prop :=
  f_type f = t
  /\ (forall req buf, f_encode f req buf = Some (swaps_of t req ++ copy_out req buf t))
  /\ (forall req, f_native f req = Some (swaps_of t req))
  /\ f_decode f = Some ([Alloc (size_of t); CopyIn] ++ swaps_of t 0).

Lemma at_index_app t off ix jx : at_index t off (ix ++ jx) = ('(o, u) ← at_index t off ix; at_index u o jx).
Proof.
  revert t off. induction ix as [|i ix IH]; intros t off; [done|]. cbn [app at_index].
  destruct t; try done. case_match; [apply IH|done].
Qed.

Lemma locate_app t req name ix jx : locate t req name (ix ++ jx) = ('(o, u) ← locate t req name ix; at_index u o jx).
Proof. unfold locate. destruct t; try done. destruct (field_type _ _); [|done]. apply at_index_app. Qed.

Lemma swaps_of_array t n off :
  swaps_of (CArr t n) off = concat (map (fun i => swaps_of t (i * size_of t + off)) (seq 0 n)).
Proof.
  unfold swaps_of. cbn [int_fields]. induction (seq 0 n) as [|i l IH]; [done|].
  cbn [mbind list_bind map concat]. rewrite shift_fields_app, swaps_app, IH, shift_fields_shift.
  do 3 f_equal. lia.
Qed.

Lemma mapM_some {A B} (f : A -> option B) (g : A -> B) l : (forall x, x ∈ l -> f x = Some (g x)) -> mapM f l = Some (map g l).
Proof.
  induction l as [|x l IH]; intros Hf; [done|]. cbn [mapM map]. rewrite (Hf x) by left. cbn [mbind option_bind].
  rewrite IH; [done|]. intros y Hy. apply Hf. by right.
Qed.

Lemma assoc_cons env v i ws : v ∉ ws -> mapM (assoc ((v, i) :: env)) ws = mapM (assoc env) ws.
Proof.
  induction ws as [|w ws IH]; intros Hv; [done|]. apply not_elem_of_cons in Hv as [Hvw Hv].
  assert (E : assoc ((v, i) :: env) w = assoc env w) by (cbn [assoc]; by rewrite (proj2 (String.eqb_neq v w) Hvw)).
  cbn [mapM]. by rewrite E, IH.
Qed.

Lemma mapM_app {A B} (f : A -> option B) l1 l2 :
  mapM f (l1 ++ l2) = (a ← mapM f l1; b ← mapM f l2; Some (a ++ b)).
Proof.
  induction l1 as [|x l1 IH]; cbn [mapM app]; [by destruct (mapM f l2)|].
  rewrite IH. destruct (f x); [|done]. destruct (mapM f l1); [|done]. by destruct (mapM f l2).
Qed.

(** ** Loops *)

Section Loops.

Context (consts : text -> option nat) (funs : list (text * cfuns)) (vars : list string) (t : ctype) (req : nat).

Abbreviation run_in := (run consts funs vars t req).

(** A nest of loops does at every element what its inner statement does. *)
Lemma run_nest name leaf base vs : forall ds ns env ws ix off,
  mapM consts ds = Some ns -> length vs = length ds -> Forall (fun v => v ∈ vars) vs -> NoDup (ws ++ vs) ->
  mapM (assoc env) ws = Some ix -> locate t req name ix = Some (off, array_type ns base) ->
  (forall env jx o, mapM (assoc env) (ws ++ vs) = Some jx -> locate t req name jx = Some (o, base) ->
     run_in env leaf = Some (swaps_of base o)) ->
  run_in env (nest (zip vs ds) leaf) = Some (swaps_of (array_type ns base) off).
Proof.
  induction vs as [|v vs IH]; intros [|d ds] ns env ws ix off Hds Hl Hvars Hnd Hix Hloc Hleaf; try discriminate Hl.
  - injection Hds as <-. cbn [zip zip_with nest foldr array_type]. eapply Hleaf; [|exact Hloc]. by rewrite app_nil_r.
  - apply bind_Some in Hds as (n & Hd & Hds). apply bind_Some in Hds as (ns' & Hds & [= <-]).
    apply Forall_cons in Hvars as [Hv Hvars]. cbn [zip zip_with nest foldr fst snd run array_type].
    rewrite bool_decide_eq_true_2 by done. cbn [negb]. rewrite Hd. cbn [mbind option_bind].
    change (foldr (fun n t => CArr t n) base ns') with (array_type ns' base).
    change (foldr _ leaf (zip_with pair vs ds)) with (nest (zip vs ds) leaf).
    rewrite (mapM_some _ (fun i => swaps_of (array_type ns' base) (i * size_of (array_type ns' base) + off))).
    + cbn [mbind option_bind]. by rewrite swaps_of_array.
    + intros i Hi%elem_of_seq. assert (Hvw : v ∉ ws).
      { apply NoDup_app in Hnd as (_ & Hnd & _). intros Hw. apply (Hnd v Hw). by left. }
      apply (IH ds ns' ((v, i) :: env) (ws ++ [v]) (ix ++ [i])); [done|by injection Hl|done|by rewrite <- app_assoc| | |].
      * rewrite mapM_app, (assoc_cons env v i ws Hvw), Hix. cbn [mbind option_bind mapM assoc]. by rewrite String.eqb_refl.
      * rewrite locate_app, Hloc. cbn [mbind option_bind at_index array_type foldr].
        rewrite (proj2 (Nat.ltb_lt i n)) by lia. done.
      * intros env' jx o Hj Hlj. eapply Hleaf; [|exact Hlj]. by rewrite <- app_assoc in Hj.
Qed.

End Loops.

(** ** Elements and structures *)

Lemma char_array_swaps ns off : swaps_of (array_type ns CChar) off = [].
Proof.
  revert off. induction ns as [|n ns IH]; intros off; [done|]. cbn [array_type foldr].
  change (foldr _ CChar ns) with (array_type ns CChar). rewrite swaps_of_array.
  induction (seq 0 n) as [|i l IHl]; [done|]. cbn [map concat]. by rewrite IH, IHl.
Qed.

Lemma field_type_at fs1 : forall f u fs2, f ∉ fs1.*1 -> field_type (fs1 ++ (f, u) :: fs2) f = Some u.
Proof.
  induction fs1 as [|[g v] fs1 IH]; intros f u fs2 Hf; cbn [app field_type]; [by rewrite String.eqb_refl|].
  rewrite fmap_cons, not_elem_of_cons in Hf. destruct Hf as [Hg Hf]. rewrite (proj2 (String.eqb_neq f g) Hg). by apply IH.
Qed.

(** The functions that are there serialise the structures that are known. *)
Definition funs_ok (known : list (text * ctype)) (funs : list (text * cfuns)) : Prop :=
  Forall2 (fun k f => k.1 = f.1 /\ serialises f.2 k.2) known funs.

Lemma funs_ok_lookup known funs n t : funs_ok known funs -> lookup_name known n = Some t ->
  exists f, lookup_name funs n = Some f /\ serialises f t.
Proof.
  induction 1 as [|[m u] [m' f] known funs [Hm Hf] _ IH]; [done|]. simpl in Hm, Hf. subst m'. cbn [lookup_name].
  case_bool_decide; [intros [= <-]; eauto|done].
Qed.

Lemma take_prefix_in {A} n m (l : list A) : (n <= m)%nat -> Forall (fun v => v ∈ take m l) (take n l).
Proof.
  intros Hnm. apply Forall_forall. intros v Hv. replace n with (n `min` m)%nat in Hv by lia. rewrite <- take_take in Hv.
  by eapply elem_of_subseteq, Hv; apply subseteq_take.
Qed.

Section Elements.

Context (consts : text -> option nat) (known : list (text * ctype)) (funs : list (text * cfuns)).
Context (Hfuns : funs_ok known funs).

Lemma run_access d p base vars t req env off jx vs : converted p = true -> base_type known p = Some base ->
  mapM (assoc env) vs = Some jx -> locate t req (elem_name p) jx = Some (off, base) ->
  run consts funs vars t req env (access d p vs) = Some (swaps_of base off).
Proof.
  unfold converted, base_type, access. intros Hc Hb Hv Hl.
  destruct (has_type p ELEM_TYPE_SHORT).
  { injection Hb as <-. cbn [run]. rewrite Hv. cbn [mbind option_bind]. rewrite Hl. cbn [mbind option_bind converts].
    unfold swaps_of. cbn. by rewrite Nat.add_0_r. }
  destruct (has_type p ELEM_TYPE_INT).
  { cbn [run]. rewrite Hv. cbn [mbind option_bind]. rewrite Hl. cbn [mbind option_bind].
    destruct (has_type p ELEM_TYPE_UNSIGNED); injection Hb as <-; cbn [converts]; unfold swaps_of; cbn; by rewrite Nat.add_0_r. }
  destruct (has_type p ELEM_TYPE_STRUCT); [|done].
  destruct (funs_ok_lookup _ _ _ _ Hfuns Hb) as (f & Hf & Ht & He & Hn & _).
  cbn [run]. rewrite Hv. cbn [mbind option_bind]. rewrite Hl. cbn [mbind option_bind]. rewrite Hf. cbn [mbind option_bind].
  rewrite Ht, ctype_eqb_refl. cbn [negb]. destruct d; [|done]. by rewrite He, app_nil_r.
Qed.

Lemma loop_vars_nodup n : NoDup (take n loop_vars).
Proof. apply sublist_NoDup with loop_vars; [apply (bool_decide_unpack _); vm_compute; exact I|apply sublist_take]. Qed.

Lemma run_elem d p n u t req off : declare_field consts known p = Some (name_string (elem_name p), u) ->
  converted p = true -> (length (dims p) <= 5)%nat -> (length (dims p) <= n)%nat ->
  locate t req (elem_name p) [] = Some (off, u) ->
  exists s, elem_stmt d p = Some s /\ run consts funs (take n loop_vars) t req [] s = Some (swaps_of u off).
Proof.
  unfold declare_field. intros Hf Hc Hd Hn Hl. apply bind_Some in Hf as (base & Hb & Hf).
  apply bind_Some in Hf as (ns & Hns & [= <-]). unfold elem_stmt. rewrite Hc. eexists. split; [done|].
  eapply run_nest with (ws := []) (ix := []); [exact Hns| | | |done|exact Hl|].
  - rewrite length_take. simpl. lia.
  - by apply take_prefix_in.
  - apply loop_vars_nodup.
  - intros env jx o Hj Hlj. by eapply run_access.
Qed.

End Elements.

Section Structures.

Context (consts : text -> option nat) (known : list (text * ctype)) (funs : list (text * cfuns)).
Context (Hfuns : funs_ok known funs).

Lemma declare_field_name p f : declare_field consts known p = Some f -> f = (name_string (elem_name p), f.2).
Proof.
  unfold declare_field. intros Hf. apply bind_Some in Hf as (base & _ & Hf). by apply bind_Some in Hf as (ns & _ & [= <-]).
Qed.

Lemma unconverted_swaps p f off : declare_field consts known p = Some f -> converted p = false -> swaps_of f.2 off = [].
Proof.
  unfold declare_field, base_type, converted. intros Hf Hc. apply bind_Some in Hf as (base & Hb & Hf).
  apply bind_Some in Hf as (ns & _ & [= <-]). cbn [snd]. apply orb_false_elim in Hc as [[H1 H2]%orb_false_elim H3].
  rewrite H1, H2, H3 in Hb. destruct (has_type p ELEM_TYPE_CHAR); [|done]. injection Hb as <-. apply char_array_swaps.
Qed.

Lemma run_elems d n req l : forall fs1 fs2, mapM (declare_field consts known) l = Some fs2 -> NoDup (fs1 ++ fs2).*1 ->
  few_dims l -> Forall (fun p => (length (dims p) <= n)%nat) l ->
  exists ls, mapM (run consts funs (take n loop_vars) (CStruct (fs1 ++ fs2)) req []) (omap (elem_stmt d) l) = Some ls
    /\ concat ls = swaps (shift_fields req (struct_ints (struct_end 0 fs1) fs2)).
Proof.
  induction l as [|p l IH]; intros fs1 fs2 Hfs Hnd Hfew Hn.
  - injection Hfs as <-. by exists [].
  - apply bind_Some in Hfs as (f & Hf & Hfs). apply bind_Some in Hfs as (fs & Hfs & [= <-]).
    apply Forall_cons in Hfew as [Hp Hfew]. apply Forall_cons in Hn as [Hpn Hn].
    pose proof (declare_field_name p f Hf) as Hname. destruct f as [fn u]. injection Hname as ->.
    destruct (IH (fs1 ++ [(name_string (elem_name p), u)]) fs Hfs) as (ls & Hls & Hc);
      [by rewrite <- app_assoc|done|done|]. rewrite <- app_assoc in Hls. cbn [app] in Hls.
    rewrite struct_end_app in Hc. cbn [struct_end struct_ints] in Hc |- *.
    set (start := align_up (struct_end 0 fs1) (align_of u)) in *.
    assert (Hsplit : swaps (shift_fields req (shift_fields start (int_fields u) ++ struct_ints (start + size_of u) fs))
      = swaps_of u (start + req) ++ concat ls).
    { rewrite Hc, shift_fields_app, swaps_app, shift_fields_shift. unfold swaps_of. by rewrite Nat.add_comm. }
    rewrite Hsplit.
    assert (Hfresh : name_string (elem_name p) ∉ fs1.*1).
    { rewrite fmap_app, NoDup_app in Hnd. intros Hin. apply (proj1 (proj2 Hnd) _ Hin). by left. }
    destruct (converted p) eqn:Hcv.
    + destruct (run_elem consts known funs Hfuns d p n u (CStruct (fs1 ++ (name_string (elem_name p), u) :: fs)) req
        (start + req) Hf Hcv Hp Hpn) as (s & Hs & Hr).
      { unfold locate. rewrite field_type_at by done. cbn [mbind option_bind at_index offset_of].
        by rewrite offset_from_field. }
      exists (swaps_of u (start + req) :: ls). split; [|done].
      cbn [omap list_omap]. rewrite Hs. cbn [mapM]. rewrite Hr. cbn [mbind option_bind]. by rewrite Hls.
    + assert (Hs : elem_stmt d p = None) by (unfold elem_stmt; by rewrite Hcv). exists ls. cbn [omap list_omap]. rewrite Hs.
      split; [done|]. by rewrite (unconverted_swaps _ _ _ Hf Hcv).
Qed.

Lemma max_dims_bound s : Forall (fun p => (length (dims p) <= get_max_dims_in_elems s)%nat) (elems s).
Proof.
  unfold get_max_dims_in_elems, get_elem_dims. set (step := fun (m : nat) (p : elem) => if (m <? length (dims p))%nat then length (dims p) else m).
  assert (Hge : forall l m, (m <= foldl step m l)%nat).
  { induction l as [|p l IH]; intros m; [done|]. cbn [foldl]. specialize (IH (step m p)). unfold step at 1 in IH.
    destruct (Nat.ltb_spec m (length (dims p))); lia. }
  generalize 0%nat. induction (elems s) as [|p l IH]; intros m; [constructor|]. cbn [foldl]. constructor; [|apply IH].
  specialize (Hge l (step m p)). unfold step at 1 in Hge. destruct (Nat.ltb_spec m (length (dims p))); lia.
Qed.

Lemma run_struct d s t req : declare_struct consts known s = Some t -> few_dims (elems s) ->
  run_body consts funs (take (get_max_dims_in_elems s) loop_vars) t req (omap (elem_stmt d) (elems s)) = Some (swaps_of t req).
Proof.
  unfold declare_struct. intros Hs Hfew. case_bool_decide; [done|]. apply bind_Some in Hs as (fs & Hfs & Hs).
  case_bool_decide as Hnd; [|done]. injection Hs as <-.
  destruct (run_elems d (get_max_dims_in_elems s) req (elems s) [] fs Hfs Hnd Hfew (max_dims_bound s)) as (ls & Hls & Hc).
  unfold run_body. cbn [app] in Hls. rewrite Hls. cbn [mbind option_bind]. by rewrite Hc.
Qed.

Lemma struct_serialises s t : declare_struct consts known s = Some t -> few_dims (elems s) ->
  serialises (denote consts funs t (code_of s)) t.
Proof.
  intros Hs Hf. unfold denote, code_of. cbn [locals encode_body decode_body]. split_and!; cbn [f_type f_encode f_native f_decode].
  - done.
  - intros req buf. by rewrite (run_struct Encode s t req Hs Hf).
  - intros req. by rewrite (run_struct Decode s t req Hs Hf).
  - by rewrite (run_struct Decode s t 0 Hs Hf).
Qed.

End Structures.

Lemma denote_ok consts sts : Forall (fun s => few_dims (elems s)) sts -> forall known funs types, funs_ok known funs ->
  declare consts known sts = Some types ->
  exists rest funs', types = known ++ rest /\ denote_program consts funs rest (program_of sts) = Some funs' /\ funs_ok types funs'.
Proof.
  induction 1 as [|s sts Hs _ IH]; intros known funs types Hf; cbn [declare].
  - intros [= <-]. exists [], funs. by rewrite app_nil_r.
  - intros H. apply bind_Some in H as (t & Ht & H).
    assert (Hf' : funs_ok (known ++ [(st_name s, t)]) (funs ++ [(st_name s, denote consts funs t (code_of s))])).
    { apply Forall2_app; [done|]. constructor; [|constructor]. split; [done|]. by apply struct_serialises with (known := known). }
    destruct (IH _ _ _ Hf' H) as (rest & funs' & -> & Hd & Hok).
    exists ((st_name s, t) :: rest), funs'. rewrite <- app_assoc. split; [done|]. split; [|by rewrite <- app_assoc in Hok].
    cbn [program_of map denote_program]. by rewrite bool_decide_eq_true_2.
Qed.

(** Every function of a program that C accepts has a meaning, and it is the right one. *)
Lemma program_serialises consts sts types : Forall (fun s => few_dims (elems s)) sts -> declare consts [] sts = Some types ->
  exists funs, denote_program consts [] types (program_of sts) = Some funs /\ funs_ok types funs.
Proof.
  intros Hs Hd. destruct (denote_ok consts sts Hs [] [] types) as (rest & funs & -> & H1 & H2); [constructor|done|].
  by exists funs.
Qed.
