(* ===== verification/GenReqResp.v ===== *)
(** * The generated serialisers of the protocol (xdr/req_resp.x)

    The description of the messages, and that what the generator makes of it
    is src/serialize_raw.c, function by function as [SerializeRaw] has them. *)

From S2P Require Import Prelude CStr Layout ReqResp SerializeRaw SerializeTable GenParse GenSource GenRun.

Definition req_resp_x : string :=
"const XDR_USER_NAME_MAX_LEN = 32;
const XDR_PASSWD_MD5_LEN = 33;
const XDR_SESSION_ID_LEN = 32;
const XDR_DIR_NAME_MAX_LEN = 256;
const XDR_FILE_NAME_MAX_LEN = 256;
const XDR_DIR_PATH_MAX_LEN = 1024;
const XDR_FILE_PATH_MAX_LEN = 1024;
const XDR_FILE_ENTRY_MAX_CNT = 16;
const XDR_CONTENT_BLOCK_SIZE = 2048;
const XDR_NET_MSG_MAX_LEN = 1024;
const XDR_CMD_MAX_LEN = 1024;
const XDR_CMD_RET_BATCH_LEN = 4096;
const XDR_IPV4_MAX_LEN = 16;
const XDR_LOGGED_IN_USER_MAX_CNT = 32;
const XDR_WRITE_MSG_MAX_LEN = 4096;
const XDR_RESP_MESSAGE_MAX_LEN = 80;
const XDR_DIRECT_CMD_RESP_MAX_LEN = 1024;
const XDR_CONNECT_ID_LEN = 32;
const XDR_REQ_RESP_FLAG_NONE = 0x0000;
const XDR_REQ_RESP_FLAG_NEXT = 0x0001;
const XDR_REQ_RESP_FLAG_STOP = 0x0002;

struct version_info {
	short major;
	short minor;
	short revision;
};

struct channel_info_req {
	int flags;
};

struct channel_info_resp_data {
	int main_port;
	int second_port;
};

struct channel_info_resp {
	int status;
	int flags;
	char message[XDR_RESP_MESSAGE_MAX_LEN];
	struct channel_info_resp_data data;
};

struct validate_req {
	int name_len;
	int passwd_len;
	char name[XDR_USER_NAME_MAX_LEN];
	char passwd_md5[XDR_PASSWD_MD5_LEN];
	struct version_info ver;
};

struct validate_resp_data {
	unsigned int uid;
	char name[XDR_USER_NAME_MAX_LEN];
	char session_id[XDR_SESSION_ID_LEN];
	char connect_id[XDR_CONNECT_ID_LEN];
	char pwd[XDR_DIR_PATH_MAX_LEN];
};

struct validate_resp {
	int status;
	int flags;
	char message[XDR_RESP_MESSAGE_MAX_LEN];
	struct validate_resp_data data;
};

struct append_conn_req {
	char session_id[XDR_SESSION_ID_LEN];
	int type;
};

struct append_conn_resp_data {
	char connect_id[XDR_CONNECT_ID_LEN];
};

struct append_conn_resp {
	int status;
	int flags;
	char message[XDR_RESP_MESSAGE_MAX_LEN];
	struct append_conn_resp_data data;
};

struct logged_in_user {
	char session_id[XDR_SESSION_ID_LEN];
	char name[XDR_USER_NAME_MAX_LEN];
	char ip[XDR_IPV4_MAX_LEN];
	int port;
};

struct pwd_req {
	char session_id[XDR_SESSION_ID_LEN];
};

struct pwd_resp_data {
	char pwd[XDR_DIR_PATH_MAX_LEN];
};

struct pwd_resp {
	int status;
	int flags;
	char message[XDR_RESP_MESSAGE_MAX_LEN];
	struct pwd_resp_data data;
};

struct ll_req {
	char session_id[XDR_SESSION_ID_LEN];
	char path[XDR_DIR_PATH_MAX_LEN];
	int to_peer;
	struct logged_in_user user;
};

struct file_entry {
	char name[XDR_FILE_NAME_MAX_LEN];
	unsigned int type;
	unsigned int size;
	unsigned int c_time;
	unsigned int a_time;
	unsigned int m_time;
	unsigned int mode;
};

struct ll_resp_data {
	int total;
	int this_nr;
	struct file_entry entries[XDR_FILE_ENTRY_MAX_CNT];
};

struct ll_resp {
	int status;
	int flags;
	char message[XDR_RESP_MESSAGE_MAX_LEN];
	struct ll_resp_data data;
};

struct cd_req {
	char session_id[XDR_SESSION_ID_LEN];
	char path[XDR_DIR_PATH_MAX_LEN];
};

struct cd_resp_data {
	char pwd[XDR_DIR_PATH_MAX_LEN];
};

struct cd_resp {
	int status;
	int flags;
	char message[XDR_RESP_MESSAGE_MAX_LEN];
	struct cd_resp_data data;
};

struct get_req {
	char session_id[XDR_SESSION_ID_LEN];
	char path[XDR_DIR_PATH_MAX_LEN];
	int to_peer;
	struct logged_in_user user;
};

struct trans_entry {
	int type;
	int this_size;
	unsigned int mode;
	unsigned int total_size;
	unsigned char content[XDR_CONTENT_BLOCK_SIZE];
};

struct get_resp_data {
	int total_files;
	int file_idx;
	struct trans_entry entry;
};

struct get_resp {
	int status;
	int flags;
	char message[XDR_RESP_MESSAGE_MAX_LEN];
	struct get_resp_data data;
	int need_reply;
};

struct put_req_data {
	int total_files;
	int file_idx;
	struct trans_entry entry;
};

struct put_req {
	char session_id[XDR_SESSION_ID_LEN];
	int to_peer;
	struct logged_in_user user;
	struct put_req_data data;
	int flags;
	int need_reply;
};

struct put_resp {
	int status;
	int flags;
	char message[XDR_RESP_MESSAGE_MAX_LEN];
};

struct common_resp {
	int status;
	int flags;
	char message[XDR_RESP_MESSAGE_MAX_LEN];
};

struct write_msg_req {
	int mtype;
	char name[16];
	int pid;
	int length;
	char mtext[XDR_NET_MSG_MAX_LEN];
};

struct read_msg_req {
	int mtype;
};

struct read_msg_resp_data {
	int mtype;
	char name[16];
	int pid;
	int length;
	char mtext[XDR_NET_MSG_MAX_LEN];
};

struct read_msg_resp {
	int status;
	int flags;
	char message[XDR_RESP_MESSAGE_MAX_LEN];
	struct read_msg_resp_data data;
};

struct mp_stat_req {
	char session_id[XDR_SESSION_ID_LEN];
};

struct mp_stat_resp_data {
	unsigned int total_size;
	int total_nodes;
	int using_nodes;
	int free_nodes;
};

struct mp_stat_resp {
	int status;
	int flags;
	char message[XDR_RESP_MESSAGE_MAX_LEN];
	struct mp_stat_resp_data data;
};

struct directcmd_req {
	char session_id[XDR_SESSION_ID_LEN];
	char cmd[XDR_CMD_MAX_LEN];
};

struct directcmd_resp_data {
	int total_len;
	int this_len;
	char content[XDR_DIRECT_CMD_RESP_MAX_LEN];
};

struct directcmd_resp {
	int status;
	int flags;
	char message[XDR_RESP_MESSAGE_MAX_LEN];
	struct directcmd_resp_data data;
};

struct who_req {
	char session_id[XDR_SESSION_ID_LEN];
};

struct who_resp_data {
	int total;
	int this_nr;
	struct logged_in_user users[XDR_LOGGED_IN_USER_MAX_CNT];
};

struct who_resp {
	int status;
	int flags;
	char message[XDR_RESP_MESSAGE_MAX_LEN];
	struct who_resp_data data;
};

struct write_req {
	struct logged_in_user user;
	int len;
	char message[XDR_WRITE_MSG_MAX_LEN];
};

struct write_resp_data {
	char message[XDR_WRITE_MSG_MAX_LEN];
};

struct write_resp {
	int status;
	int flags;
	char message[XDR_RESP_MESSAGE_MAX_LEN];
	struct write_resp_data data;
};

struct port_update_req {
	int second_port;
};

struct port_update_resp {
	int status;
	int flags;
	char message[XDR_RESP_MESSAGE_MAX_LEN];
};

struct reconnect_req {
	char session_id[XDR_SESSION_ID_LEN];
	char connect_id[XDR_CONNECT_ID_LEN];
};

struct reconnect_resp {
	int status;
	int flags;
	char message[XDR_RESP_MESSAGE_MAX_LEN];
};
".

(** The value of a dimension: a constant of the description, or a number. *)
Definition req_resp_names : list (text * nat) := [
  (ascii_bytes "XDR_USER_NAME_MAX_LEN", XDR_USER_NAME_MAX_LEN);
  (ascii_bytes "XDR_PASSWD_MD5_LEN", XDR_PASSWD_MD5_LEN);
  (ascii_bytes "XDR_SESSION_ID_LEN", XDR_SESSION_ID_LEN);
  (ascii_bytes "XDR_FILE_NAME_MAX_LEN", XDR_FILE_NAME_MAX_LEN);
  (ascii_bytes "XDR_DIR_PATH_MAX_LEN", XDR_DIR_PATH_MAX_LEN);
  (ascii_bytes "XDR_FILE_ENTRY_MAX_CNT", XDR_FILE_ENTRY_MAX_CNT);
  (ascii_bytes "XDR_CONTENT_BLOCK_SIZE", XDR_CONTENT_BLOCK_SIZE);
  (ascii_bytes "XDR_NET_MSG_MAX_LEN", XDR_NET_MSG_MAX_LEN);
  (ascii_bytes "XDR_CMD_MAX_LEN", XDR_CMD_MAX_LEN);
  (ascii_bytes "XDR_IPV4_MAX_LEN", XDR_IPV4_MAX_LEN);
  (ascii_bytes "XDR_LOGGED_IN_USER_MAX_CNT", XDR_LOGGED_IN_USER_MAX_CNT);
  (ascii_bytes "XDR_WRITE_MSG_MAX_LEN", XDR_WRITE_MSG_MAX_LEN);
  (ascii_bytes "XDR_RESP_MESSAGE_MAX_LEN", XDR_RESP_MESSAGE_MAX_LEN);
  (ascii_bytes "XDR_DIRECT_CMD_RESP_MAX_LEN", XDR_DIRECT_CMD_RESP_MAX_LEN);
  (ascii_bytes "XDR_CONNECT_ID_LEN", XDR_CONNECT_ID_LEN)].

Definition req_resp_consts (dim : text) : option nat :=
  if bool_decide (digits dim /\ dim <> []) then Some (Z.to_nat (dec_value 0 dim)) else lookup_name req_resp_names dim.

(** ** The functions of src/serialize_raw.c *)

Record raw_functions := RawFunctions {
  rf_name : string;
  rf_type : ctype;
  rf_encode : nat -> bool -> list step;
  rf_native : nat -> list step;
  rf_decode : list step;
}.

Definition serialize_raw_c : list raw_functions := [
  RawFunctions "version_info" version_info version_info_raw_encode version_info_raw_decode_in_place version_info_raw_decode;
  RawFunctions "channel_info_req" channel_info_req channel_info_req_raw_encode channel_info_req_raw_decode_in_place channel_info_req_raw_decode;
  RawFunctions "channel_info_resp_data" channel_info_resp_data channel_info_resp_data_raw_encode channel_info_resp_data_raw_decode_in_place channel_info_resp_data_raw_decode;
  RawFunctions "channel_info_resp" channel_info_resp channel_info_resp_raw_encode channel_info_resp_raw_decode_in_place channel_info_resp_raw_decode;
  RawFunctions "validate_req" validate_req validate_req_raw_encode validate_req_raw_decode_in_place validate_req_raw_decode;
  RawFunctions "validate_resp_data" validate_resp_data validate_resp_data_raw_encode validate_resp_data_raw_decode_in_place validate_resp_data_raw_decode;
  RawFunctions "validate_resp" validate_resp validate_resp_raw_encode validate_resp_raw_decode_in_place validate_resp_raw_decode;
  RawFunctions "append_conn_req" append_conn_req append_conn_req_raw_encode append_conn_req_raw_decode_in_place append_conn_req_raw_decode;
  RawFunctions "append_conn_resp_data" append_conn_resp_data append_conn_resp_data_raw_encode append_conn_resp_data_raw_decode_in_place append_conn_resp_data_raw_decode;
  RawFunctions "append_conn_resp" append_conn_resp append_conn_resp_raw_encode append_conn_resp_raw_decode_in_place append_conn_resp_raw_decode;
  RawFunctions "logged_in_user" logged_in_user logged_in_user_raw_encode logged_in_user_raw_decode_in_place logged_in_user_raw_decode;
  RawFunctions "pwd_req" pwd_req pwd_req_raw_encode pwd_req_raw_decode_in_place pwd_req_raw_decode;
  RawFunctions "pwd_resp_data" pwd_resp_data pwd_resp_data_raw_encode pwd_resp_data_raw_decode_in_place pwd_resp_data_raw_decode;
  RawFunctions "pwd_resp" pwd_resp pwd_resp_raw_encode pwd_resp_raw_decode_in_place pwd_resp_raw_decode;
  RawFunctions "ll_req" ll_req ll_req_raw_encode ll_req_raw_decode_in_place ll_req_raw_decode;
  RawFunctions "file_entry" file_entry file_entry_raw_encode file_entry_raw_decode_in_place file_entry_raw_decode;
  RawFunctions "ll_resp_data" ll_resp_data ll_resp_data_raw_encode ll_resp_data_raw_decode_in_place ll_resp_data_raw_decode;
  RawFunctions "ll_resp" ll_resp ll_resp_raw_encode ll_resp_raw_decode_in_place ll_resp_raw_decode;
  RawFunctions "cd_req" cd_req cd_req_raw_encode cd_req_raw_decode_in_place cd_req_raw_decode;
  RawFunctions "cd_resp_data" cd_resp_data cd_resp_data_raw_encode cd_resp_data_raw_decode_in_place cd_resp_data_raw_decode;
  RawFunctions "cd_resp" cd_resp cd_resp_raw_encode cd_resp_raw_decode_in_place cd_resp_raw_decode;
  RawFunctions "get_req" get_req get_req_raw_encode get_req_raw_decode_in_place get_req_raw_decode;
  RawFunctions "trans_entry" trans_entry trans_entry_raw_encode trans_entry_raw_decode_in_place trans_entry_raw_decode;
  RawFunctions "get_resp_data" get_resp_data get_resp_data_raw_encode get_resp_data_raw_decode_in_place get_resp_data_raw_decode;
  RawFunctions "get_resp" get_resp get_resp_raw_encode get_resp_raw_decode_in_place get_resp_raw_decode;
  RawFunctions "put_req_data" put_req_data put_req_data_raw_encode put_req_data_raw_decode_in_place put_req_data_raw_decode;
  RawFunctions "put_req" put_req put_req_raw_encode put_req_raw_decode_in_place put_req_raw_decode;
  RawFunctions "put_resp" put_resp put_resp_raw_encode put_resp_raw_decode_in_place put_resp_raw_decode;
  RawFunctions "common_resp" common_resp common_resp_raw_encode common_resp_raw_decode_in_place common_resp_raw_decode;
  RawFunctions "write_msg_req" write_msg_req write_msg_req_raw_encode write_msg_req_raw_decode_in_place write_msg_req_raw_decode;
  RawFunctions "read_msg_req" read_msg_req read_msg_req_raw_encode read_msg_req_raw_decode_in_place read_msg_req_raw_decode;
  RawFunctions "read_msg_resp_data" read_msg_resp_data read_msg_resp_data_raw_encode read_msg_resp_data_raw_decode_in_place read_msg_resp_data_raw_decode;
  RawFunctions "read_msg_resp" read_msg_resp read_msg_resp_raw_encode read_msg_resp_raw_decode_in_place read_msg_resp_raw_decode;
  RawFunctions "mp_stat_req" mp_stat_req mp_stat_req_raw_encode mp_stat_req_raw_decode_in_place mp_stat_req_raw_decode;
  RawFunctions "mp_stat_resp_data" mp_stat_resp_data mp_stat_resp_data_raw_encode mp_stat_resp_data_raw_decode_in_place mp_stat_resp_data_raw_decode;
  RawFunctions "mp_stat_resp" mp_stat_resp mp_stat_resp_raw_encode mp_stat_resp_raw_decode_in_place mp_stat_resp_raw_decode;
  RawFunctions "directcmd_req" directcmd_req directcmd_req_raw_encode directcmd_req_raw_decode_in_place directcmd_req_raw_decode;
  RawFunctions "directcmd_resp_data" directcmd_resp_data directcmd_resp_data_raw_encode directcmd_resp_data_raw_decode_in_place directcmd_resp_data_raw_decode;
  RawFunctions "directcmd_resp" directcmd_resp directcmd_resp_raw_encode directcmd_resp_raw_decode_in_place directcmd_resp_raw_decode;
  RawFunctions "who_req" who_req who_req_raw_encode who_req_raw_decode_in_place who_req_raw_decode;
  RawFunctions "who_resp_data" who_resp_data who_resp_data_raw_encode who_resp_data_raw_decode_in_place who_resp_data_raw_decode;
  RawFunctions "who_resp" who_resp who_resp_raw_encode who_resp_raw_decode_in_place who_resp_raw_decode;
  RawFunctions "write_req" write_req write_req_raw_encode write_req_raw_decode_in_place write_req_raw_decode;
  RawFunctions "write_resp_data" write_resp_data write_resp_data_raw_encode write_resp_data_raw_decode_in_place write_resp_data_raw_decode;
  RawFunctions "write_resp" write_resp write_resp_raw_encode write_resp_raw_decode_in_place write_resp_raw_decode;
  RawFunctions "port_update_req" port_update_req port_update_req_raw_encode port_update_req_raw_decode_in_place port_update_req_raw_decode;
  RawFunctions "port_update_resp" port_update_resp port_update_resp_raw_encode port_update_resp_raw_decode_in_place port_update_resp_raw_decode;
  RawFunctions "reconnect_req" reconnect_req reconnect_req_raw_encode reconnect_req_raw_decode_in_place reconnect_req_raw_decode;
  RawFunctions "reconnect_resp" reconnect_resp reconnect_resp_raw_encode reconnect_resp_raw_decode_in_place reconnect_resp_raw_decode].

Definition same_functions (r : raw_functions) (nf : text * cfuns) : Prop :=
  let '(name, f) := nf in
  name = ascii_bytes (rf_name r) /\ f_type f = rf_type r
  /\ (forall req buf, f_encode f req buf = Some (rf_encode r req buf))
  /\ (forall req, f_native f req = Some (rf_native r req))
  /\ f_decode f = Some (rf_decode r).

Definition req_resp_structs : list st := default [] (parse_content (ascii_bytes req_resp_x)).

Definition req_resp_types : list (text * ctype) := default [] (declare req_resp_consts [] req_resp_structs).

Lemma req_resp_parsed : parse_content (ascii_bytes req_resp_x) = Some req_resp_structs.
Proof. vm_compute. reflexivity. Qed.

Lemma req_resp_declared : declare req_resp_consts [] req_resp_structs = Some req_resp_types.
Proof. vm_compute. reflexivity. Qed.

Definition req_resp_funs : list (text * cfuns) :=
  default [] (denote_program req_resp_consts [] req_resp_types (program_of req_resp_structs)).

(** A structure's functions side by side, those of the program and those of the file. *)
Definition functions := (text * ctype * (nat -> bool -> option (list step)) * (nat -> option (list step)) * option (list step))%type.

Definition generated (nf : text * cfuns) : functions :=
  (nf.1, f_type nf.2, fun req buf => f_encode nf.2 req buf, fun req => f_native nf.2 req, f_decode nf.2).

Definition checked_in (r : raw_functions) : functions :=
  (ascii_bytes (rf_name r), rf_type r, fun req buf => Some (rf_encode r req buf), fun req => Some (rf_native r req), Some (rf_decode r)).

Lemma functions_agree : map generated req_resp_funs = map checked_in serialize_raw_c.
Proof. vm_cast_no_check (eq_refl (map checked_in serialize_raw_c)). Qed.

Lemma req_resp_denoted : denote_program req_resp_consts [] req_resp_types (program_of req_resp_structs) = Some req_resp_funs.
Proof.
  destruct (program_serialises req_resp_consts req_resp_structs req_resp_types) as (funs & Hf & _);
    [apply (parse_content_few _ _ req_resp_parsed)|apply req_resp_declared|].
  unfold req_resp_funs. by rewrite Hf.
Qed.

Lemma agree_same fs rs : map generated fs = map checked_in rs -> Forall2 same_functions rs fs.
Proof.
  revert rs. induction fs as [|[name f] fs IH]; intros [|r rs] H; try discriminate H; [constructor|].
  injection H as Hn Ht He Hd Hc H. constructor; [|by apply IH]. unfold same_functions. split_and!; [done|done| | |done].
  - intros req buf. exact (f_equal (fun g => g req buf) He).
  - intros req. exact (f_equal (fun g => g req) Hd).
Qed.

(** C4: src/serialize_raw.c is what the generator makes of xdr/req_resp.x: it
    reads the 49 structures, a C compiler accepts them, and the program it
    prints has, function by function and for an object at any place, the steps
    of the functions in that file. *)
Theorem serialize_raw_generated :
  parse_content (ascii_bytes req_resp_x) = Some req_resp_structs
  /\ c_text req_resp_structs = Some (print_program (program_of req_resp_structs))
  /\ declare req_resp_consts [] req_resp_structs = Some req_resp_types
  /\ denote_program req_resp_consts [] req_resp_types (program_of req_resp_structs) = Some req_resp_funs
  /\ Forall2 same_functions serialize_raw_c req_resp_funs.
Proof.
  split_and!; [apply req_resp_parsed| |apply req_resp_declared|apply req_resp_denoted|apply agree_same, functions_agree].
  apply c_text_prints, (parse_content_few (ascii_bytes req_resp_x)), req_resp_parsed.
Qed.
