(* ===== verification/GenRender.v ===== *)
(** * Interface descriptions as text

    The text of structures, in the form of xdr/req_resp.x, and that the
    generator reads it back.  Before the first structure there may be any words
    but [struct]; between two structures is an empty line. *)

From S2P Require Import Prelude CStr GenParse.

Definition newline : Z := 10.
Definition blank : Z := 32.

(** A word of the text. *)
Definition is_word (w : text) : Prop := w <> [] /\ Forall (fun c => is_space c = false /\ c <> 0) w.

#[export] Instance is_word_dec w : Decision (is_word w).
Proof. unfold is_word. apply _. Defined.

Definition type_words (p : elem) : list text :=
  (if has_type p ELEM_TYPE_UNSIGNED then [ascii_bytes "unsigned"] else []) ++
  (if has_type p ELEM_TYPE_STRUCT then [ascii_bytes "struct"; elem_st_name p]
   else if has_type p ELEM_TYPE_CHAR then [ascii_bytes "char"]
   else if has_type p ELEM_TYPE_SHORT then [ascii_bytes "short"]
   else [ascii_bytes "int"]).

Definition name_word (p : elem) : text :=
  elem_name p ++ concat (map (fun d => bracket_open :: d ++ [bracket_close]) (dims p)) ++ [semicolon].

Definition spaced (w : text) : text := w ++ [blank].

Definition render_elem (p : elem) : text := [9] ++ concat (map spaced (type_words p)) ++ name_word p ++ [newline].

Definition render_st (s : st) : text :=
  concat (map spaced [ascii_bytes "struct"; st_name s]) ++ ascii_bytes "{" ++ [newline] ++
  concat (map render_elem (elems s)) ++ ascii_bytes "};" ++ [newline].

Fixpoint render_list (sts : list st) : text :=
  match sts with
  | [] => []
  | s :: sts => newline :: render_st s ++ render_list sts
  end.

Definition render (words : list text) (sts : list st) : text := concat (map spaced words) ++ render_list sts.

(** What such a text can say. *)
Definition scalar_types : list Z :=
  [ELEM_TYPE_CHAR; ELEM_TYPE_SHORT; ELEM_TYPE_INT; i32 ELEM_TYPE_UNSIGNED_CHAR; i32 ELEM_TYPE_UNSIGNED_SHORT; i32 ELEM_TYPE_UNSIGNED_INT].

Definition is_dim (d : text) : Prop := Forall (fun c => is_space c = false /\ c <> 0 /\ c <> bracket_close) d.

Record elem_ok (p : elem) : Prop := ElemOk {
  eo_type : type p ∈ scalar_types /\ elem_st_name p = []
            \/ type p = ELEM_TYPE_STRUCT /\ is_word (elem_st_name p) /\ (length (elem_st_name p) < ST_NAME_LEN)%nat;
  eo_name : is_word (elem_name p) /\ bracket_open ∉ elem_name p /\ (length (elem_name p) < ELEM_NAME_LEN)%nat;
  eo_dims : Forall is_dim (dims p) /\ (length (dims p) <= DIMS_MAX_NUM)%nat;
}.

Definition st_ok (s : st) : Prop :=
  is_word (st_name s) /\ (length (st_name s) < ST_NAME_LEN)%nat /\ Forall elem_ok (elems s).

(** ** Words *)

Lemma word_not_space w : is_word w -> Forall (fun c => is_space c = false) w.
Proof. intros [_ Hw]. eapply Forall_impl; [exact Hw|naive_solver]. Qed.

Lemma word_of_app w c rest : Forall (fun c => is_space c = false) w -> is_space c = true -> word_of (w ++ c :: rest) = (w, rest).
Proof. intros Hw Hc. induction Hw as [|d w Hd _ IH]; cbn [app word_of]; [by rewrite Hc|]. by rewrite Hd, IH. Qed.

Lemma fetch_word sp w c rest : Forall (fun c => is_space c = true) sp -> is_word w -> is_space c = true ->
  fetch_next_str (sp ++ w ++ c :: rest) = Some (w, rest).
Proof.
  intros Hsp Hw Hc. unfold fetch_next_str.
  assert (Hsk : skip_spaces (sp ++ w ++ c :: rest) = w ++ c :: rest).
  { induction Hsp as [|d sp Hd _ IH]; cbn [app skip_spaces]; [|by rewrite Hd].
    destruct Hw as [Hne Hw]. destruct w as [|d w]; [done|]. apply Forall_cons in Hw as [[Hd _] _]. cbn [app skip_spaces]. by rewrite Hd. }
  rewrite Hsk. rewrite <- (word_of_app w c rest (word_not_space _ Hw) Hc). by destruct w; [destruct Hw|].
Qed.

Lemma short_name_ok n p : (length p < n)%nat -> short_name n p = Some p.
Proof. intros H. unfold short_name. by rewrite (proj2 (Nat.ltb_lt _ _) H). Qed.

Lemma dim_no_close d : is_dim d -> bracket_close ∉ d.
Proof. intros Hd Hin. pose proof (proj1 (Forall_forall _ _) Hd _ Hin) as (_ & _ & ?). done. Qed.

Definition dims_text (ds : list text) : text := concat (map (fun d => bracket_open :: d ++ [bracket_close]) ds).

Lemma parse_dims_render ds : forall fuel cnt d, is_dim d -> Forall is_dim ds -> (cnt + S (length ds) <= DIMS_MAX_NUM)%nat ->
  (length ds < fuel)%nat -> parse_dims fuel cnt (d ++ bracket_close :: dims_text ds) = Some (d :: ds).
Proof.
  induction ds as [|e ds IH]; intros fuel cnt d Hd Hds Hc Hf; (destruct fuel as [|fuel]; [simpl in Hf; lia|]); cbn [parse_dims];
    rewrite (proj2 (Nat.leb_gt _ _)) by (simpl in Hc; lia); rewrite strchr_found by (by apply dim_no_close); cbn [mbind option_bind drop].
  - done.
  - apply Forall_cons in Hds as [He Hds]. unfold dims_text. cbn [map concat app].
    rewrite drop_0. cbn [strchr]. rewrite Z.eqb_refl. cbn [drop]. rewrite drop_0, <- app_assoc. cbn [app].
    change (concat (map _ ds)) with (dims_text ds). simpl in Hc, Hf. rewrite (IH fuel (S cnt) e) by (done || lia). done.
Qed.

Lemma parse_name_render p : elem_ok p -> parse_name_and_dims (elem_name p ++ dims_text (dims p)) = Some (elem_name p, dims p).
Proof.
  intros [_ ([Hne _] & Hb & Hl) [Hds Hn]]. unfold parse_name_and_dims. destruct (dims p) as [|d ds].
  - unfold dims_text. cbn [map concat]. rewrite app_nil_r, (proj2 (strchr_none _ _) Hb), short_name_ok by done. done.
  - unfold dims_text. cbn [map concat app]. rewrite strchr_found by done. rewrite short_name_ok by done. cbn [mbind option_bind drop].
    destruct (elem_name p) as [|c n]; [done|]. apply Forall_cons in Hds as [Hd Hds].
    rewrite drop_0, <- app_assoc. change (concat (map _ ds)) with (dims_text ds). cbn [app].
    rewrite (parse_dims_render ds (S DIMS_MAX_NUM) 0 d); [done|done|done|exact Hn|simpl in Hn; lia].
Qed.

Lemma is_word_name p : elem_ok p -> is_word (name_word p).
Proof.
  intros [_ ([Hne Hw] & _ & _) [Hds _]]. unfold name_word. split; [by destruct (elem_name p)|].
  rewrite !Forall_app. split; [done|]. split; [|by repeat constructor].
  induction Hds as [|d ds Hd _ IH]; [constructor|]. cbn [map concat]. constructor; [done|]. rewrite !Forall_app. split; [|done].
  split; [eapply Forall_impl; [exact Hd|naive_solver]|by repeat constructor].
Qed.

Lemma fetch_now w c rest : is_word w -> is_space c = true -> fetch_next_str (w ++ c :: rest) = Some (w, rest).
Proof. apply (fetch_word [] w c rest). constructor. Qed.

Lemma fetch_spaced w rest : is_word w -> fetch_next_str (spaced w ++ rest) = Some (w, rest).
Proof. intros Hw. unfold spaced. rewrite <- app_assoc. by apply fetch_now. Qed.

Lemma parse_type_struct q : parse_type (ascii_bytes "struct") q
  = ('(p, q) ← fetch_next_str q; st_name ← short_name ST_NAME_LEN p; Some (ELEM_TYPE_STRUCT, st_name, q)).
Proof. reflexivity. Qed.

(** The words of an element's type. *)
Lemma parse_type_render p rest : elem_ok p -> exists w q,
  fetch_next_str ([9] ++ concat (map spaced (type_words p)) ++ rest) = Some (w, q)
  /\ parse_type w q = Some (type p, elem_st_name p, rest) /\ bool_decide (w = ascii_bytes "};") = false.
Proof.
  intros [[[Ht Hs]|(Ht & Hw & Hl)] _ _]; unfold type_words, has_type.
  - rewrite Hs. unfold scalar_types in Ht. rewrite !elem_of_cons in Ht.
    destruct Ht as [->|[->|[->|[->|[->|[->|?%not_elem_of_nil]]]]]]; [..|done];
      eexists _, _; (split; [reflexivity|split; [reflexivity|reflexivity]]).
  - rewrite Ht. exists (ascii_bytes "struct"), (spaced (elem_st_name p) ++ rest). split_and!; [|rewrite parse_type_struct, fetch_spaced by done; cbn [mbind option_bind]; by rewrite short_name_ok|done].
    change (concat (map spaced _)) with (spaced (ascii_bytes "struct") ++ spaced (elem_st_name p) ++ []).
    rewrite <- !app_assoc. apply (fetch_word [9] (ascii_bytes "struct") blank); [by repeat constructor| |done].
    apply (bool_decide_unpack _). vm_compute. exact I.
Qed.

(** ** Structures *)

Lemma parse_elem_render p : elem_ok p -> forall fuel rest l,
  parse_struct (S fuel) (render_elem p ++ rest) l = parse_struct fuel rest (l ++ [p]).
Proof.
  intros Hp fuel rest l. unfold render_elem. rewrite <- !app_assoc.
  destruct (parse_type_render p (name_word p ++ [newline] ++ rest) Hp) as (w & q & Hf & Ht & Hne).
  cbn [parse_struct app]. cbn [app] in Hf. rewrite Hf. cbn [mbind option_bind]. rewrite Hne, Ht. cbn [mbind option_bind].
  cbn [app]. rewrite fetch_now by (done || by apply is_word_name). cbn [mbind option_bind].
  assert (Hn : name_word p = (elem_name p ++ dims_text (dims p)) ++ [semicolon]) by (unfold name_word; by rewrite app_assoc).
  rewrite Hn, last_snoc. cbn [default]. rewrite Z.eqb_refl. cbn [negb].
  rewrite length_app, Nat.add_sub, take_app_length, parse_name_render by done. cbn [mbind option_bind].
  by destruct p.
Qed.

Lemma parse_elems_render es : Forall elem_ok es -> forall fuel rest l, (length es < fuel)%nat ->
  parse_struct fuel (concat (map render_elem es) ++ ascii_bytes "};" ++ newline :: rest) l = Some (l ++ es, rest).
Proof.
  induction 1 as [|p es Hp _ IH]; intros fuel rest l Hf; (destruct fuel as [|fuel]; [simpl in Hf; lia|]).
  - cbn [map concat app length]. rewrite app_nil_r. reflexivity.
  - cbn [map concat]. rewrite <- app_assoc, parse_elem_render by done. rewrite IH by (simpl in Hf; lia). by rewrite <- app_assoc.
Qed.

Lemma length_render_elems es : (length es <= length (concat (map render_elem es)))%nat.
Proof.
  induction es as [|p es IH]; [done|]. cbn [map concat length]. rewrite length_app. unfold render_elem at 1. rewrite length_app. simpl. lia.
Qed.

(** Words before a structure are passed over. *)
Lemma find_struct_render words : Forall (fun w => is_word w /\ w <> ascii_bytes "struct") words -> forall fuel rest, rest <> [] ->
  (length words < fuel)%nat -> find_struct fuel (concat (map spaced words) ++ [newline] ++ spaced (ascii_bytes "struct") ++ rest) = Some rest.
Proof.
  induction 1 as [|w words [Hw Hne] _ IH]; intros fuel rest Hr Hf; (destruct fuel as [|fuel]; [simpl in Hf; lia|]).
  - cbn [map concat]. rewrite app_nil_l. unfold spaced. rewrite <- app_assoc. cbn [find_struct app].
    change (newline :: ?x ++ blank :: rest) with ([newline] ++ x ++ blank :: rest).
    rewrite (fetch_word [newline] (ascii_bytes "struct") blank rest); [|by repeat constructor|apply (bool_decide_unpack _); vm_compute; exact I|done].
    cbn [mbind option_bind]. rewrite bool_decide_eq_true_2 by done. by destruct rest.
  - cbn [map concat]. rewrite <- app_assoc. destruct (spaced w ++ _) as [|c q] eqn:E; [by destruct Hw as [? _], w|].
    cbn [find_struct]. rewrite <- E, fetch_spaced by done. cbn [mbind option_bind]. rewrite bool_decide_eq_false_2 by done.
    apply IH; [done|simpl in Hf; lia].
Qed.

Lemma fetch_struct_render words s rest : Forall (fun w => is_word w /\ w <> ascii_bytes "struct") words -> st_ok s ->
  fetch_next_struct (concat (map spaced words) ++ [newline] ++ render_st s ++ rest) = Some (Some (s, rest)).
Proof.
  intros Hwords (Hw & Hl & Hes). unfold fetch_next_struct, render_st. cbn [map concat].
  set (tail := spaced (st_name s) ++ ascii_bytes "{" ++ [newline] ++ concat (map render_elem (elems s)) ++ ascii_bytes "};" ++ [newline] ++ rest).
  assert (E : concat (map spaced words) ++ [newline] ++ ((spaced (ascii_bytes "struct") ++ spaced (st_name s) ++ []) ++
      ascii_bytes "{" ++ [newline] ++ concat (map render_elem (elems s)) ++ ascii_bytes "};" ++ [newline]) ++ rest
    = concat (map spaced words) ++ [newline] ++ spaced (ascii_bytes "struct") ++ tail).
  { unfold tail. rewrite app_nil_r, <- !app_assoc. done. }
  rewrite E. rewrite (find_struct_render words Hwords); [|unfold tail; by destruct Hw as [? _], (st_name s)|].
  - unfold tail. rewrite fetch_spaced by done. cbn [mbind option_bind]. rewrite short_name_ok by done. cbn [mbind option_bind].
    cbn [app]. rewrite (fetch_now (ascii_bytes "{") newline); [|apply (bool_decide_unpack _); vm_compute; exact I|done].
    cbn [mbind option_bind negb]. rewrite bool_decide_eq_true_2 by done. cbn [negb].
    rewrite parse_elems_render; [|done|].
    + cbn [mbind option_bind app]. by destruct s.
    + rewrite length_app. pose proof (length_render_elems (elems s)). lia.
  - rewrite length_app. assert (length words <= length (concat (map spaced words)))%nat; [|lia].
    clear. induction words as [|w words IH]; [done|]. cbn [map concat length]. unfold spaced at 1. rewrite !length_app. simpl. lia.
Qed.

Lemma struct_list_render sts : Forall st_ok sts -> forall fuel tail l,
  struct_list (length sts + fuel) (render_list sts ++ tail) l = struct_list fuel tail (l ++ sts).
Proof.
  induction 1 as [|s sts Hs _ IH]; intros fuel tail l; cbn [length render_list Nat.add]; [by rewrite app_nil_r|].
  pose proof (fetch_struct_render [] s (render_list sts ++ tail) (Forall_nil_2 _) Hs) as E. cbn [map concat app] in E.
  cbn [app struct_list]. rewrite <- app_assoc, E. cbn [mbind option_bind]. rewrite IH. by rewrite <- app_assoc.
Qed.

(** The words go with the first structure. *)
Lemma struct_list_words words s sts tail fuel : Forall (fun w => is_word w /\ w <> ascii_bytes "struct") words -> Forall st_ok (s :: sts) ->
  struct_list (S (length sts) + fuel) (render words (s :: sts) ++ tail) [] = struct_list fuel tail (s :: sts).
Proof.
  intros Hw [Hs Hsts]%Forall_cons. unfold render. cbn [render_list Nat.add].
  replace ((concat (map spaced words) ++ newline :: render_st s ++ render_list sts) ++ tail)
    with (concat (map spaced words) ++ [newline] ++ render_st s ++ (render_list sts ++ tail)) by (by rewrite <- !app_assoc; cbn [app]; rewrite <- app_assoc).
  destruct (concat (map spaced words) ++ [newline] ++ render_st s ++ render_list sts ++ tail) as [|c q] eqn:E; [by destruct (concat (map spaced words))|].
  cbn [struct_list]. rewrite <- E, fetch_struct_render by done. cbn [mbind option_bind app]. by apply struct_list_render.
Qed.

Lemma length_render_list sts : (length sts <= length (render_list sts))%nat.
Proof. induction sts as [|s sts IH]; [done|]. cbn [render_list length]. rewrite length_app. lia. Qed.

(** ** No zero bytes *)

Definition no_zero (s : text) : Prop := Forall (fun c => c <> 0) s.

Lemma word_no_zero w : is_word w -> no_zero w.
Proof. intros [_ Hw]. eapply Forall_impl; [exact Hw|naive_solver]. Qed.

Lemma spaced_no_zero ws : Forall no_zero ws -> no_zero (concat (map spaced ws)).
Proof.
  induction 1 as [|w ws Hw _ IH]; [constructor|]. cbn [map concat]. unfold no_zero, spaced. rewrite !Forall_app.
  split_and!; [done|by repeat constructor|done].
Qed.

Lemma literal_no_zero s : bool_decide (no_zero (ascii_bytes s)) = true -> no_zero (ascii_bytes s).
Proof. apply bool_decide_eq_true_1. Qed.

Lemma type_words_no_zero p : elem_ok p -> Forall no_zero (type_words p).
Proof.
  intros [Ht _ _]. unfold type_words.
  assert (Hs : has_type p ELEM_TYPE_STRUCT = true -> no_zero (elem_st_name p)).
  { destruct Ht as [[Hs ->]|(_ & Hw & _)]; [constructor|]. intros _. by apply word_no_zero. }
  rewrite Forall_app. split.
  - destruct (has_type p ELEM_TYPE_UNSIGNED); [|constructor]. by apply Forall_singleton, literal_no_zero.
  - destruct (has_type p ELEM_TYPE_STRUCT); [apply Forall_cons; split; [by apply literal_no_zero|apply Forall_singleton, Hs; done]|].
    destruct (has_type p ELEM_TYPE_CHAR), (has_type p ELEM_TYPE_SHORT); by apply Forall_singleton, literal_no_zero.
Qed.

Lemma render_st_no_zero s : st_ok s -> no_zero (render_st s).
Proof.
  intros (Hw & _ & Hes). unfold render_st, no_zero. rewrite !Forall_app. split_and!; try by repeat constructor.
  - apply spaced_no_zero, Forall_cons. split; [by apply literal_no_zero|by apply Forall_singleton, word_no_zero].
  - clear Hw. induction Hes as [|p es Hp _ IH]; [constructor|]. cbn [map concat]. rewrite Forall_app. split; [|done].
    unfold render_elem. rewrite !Forall_app. split_and!; try by repeat constructor.
    + by apply spaced_no_zero, type_words_no_zero.
    + by apply word_no_zero, is_word_name.
Qed.

Lemma render_no_zero words sts : Forall is_word words -> Forall st_ok sts -> no_zero (render words sts).
Proof.
  intros Hw Hs. unfold render, no_zero. rewrite Forall_app. split.
  - apply spaced_no_zero. eapply Forall_impl; [exact Hw|apply word_no_zero].
  - induction Hs as [|s sts Hs _ IH]; [constructor|]. cbn [render_list]. constructor; [done|]. rewrite Forall_app.
    split; [by apply render_st_no_zero|done].
Qed.

Lemma c_str_no_zero s : no_zero s -> c_str s = s.
Proof. induction 1 as [|c s Hc _ IH]; [done|]. cbn [c_str]. by rewrite (proj2 (Z.eqb_neq c 0) Hc), IH. Qed.

Lemma parse_render_tail words s sts tail : Forall (fun w => is_word w /\ w <> ascii_bytes "struct") words -> Forall st_ok (s :: sts) ->
  no_zero tail -> exists fuel, (length tail < fuel)%nat /\ parse_content (render words (s :: sts) ++ tail) = struct_list fuel tail (s :: sts).
Proof.
  intros Hw Hs Ht. unfold parse_content. rewrite c_str_no_zero; cycle 1.
  { apply Forall_app. split; [|done]. apply render_no_zero; [eapply Forall_impl; [exact Hw|naive_solver]|done]. }
  set (n := length (render words (s :: sts) ++ tail)).
  assert (Hn : (S (length sts) + length tail <= n)%nat).
  { unfold n, render. rewrite !length_app. pose proof (length_render_list (s :: sts)) as H. simpl in H |- *. lia. }
  exists (S n - S (length sts))%nat. split; [lia|].
  replace (S n) with (S (length sts) + (S n - S (length sts)))%nat at 1 by lia. by apply struct_list_words.
Qed.
