(* ===== verification/GenCorrect.v ===== *)
(** * The generator is correct (xdr/gen_serialize_raw.c)

    For any description of structures: it is read as it was written, the text
    that is printed is that of a program, and the functions of the program
    serialise: every integer is in network byte order, and decoding gives the
    object back. *)

From S2P Require Import Prelude CStr FileSystem FilePutRun Layout SerializeRaw SerializeTable GenParse GenSource GenRun GenRender.

(** ** Serialising by the list of the integer fields *)

Lemma shift_fields_0 l : shift_fields 0 l = l.
Proof. unfold shift_fields. induction l as [|[o w] l IH]; [done|]. cbn. by f_equal. Qed.

Lemma exec_encode t obj : length obj = size_of t ->
  let net := network_form (int_fields t) obj in
  exec [] (swaps_of t 0 ++ copy_out 0 true t) (RawState obj None) = Some (RawState net (Some net)) /\ length net = size_of t.
Proof.
  intros Hl net. pose proof (layout_ok t) as Hf. rewrite <- Hl in Hf.
  assert (Hn : length net = length obj) by (by apply length_reversed). split; [|by rewrite Hn].
  unfold swaps_of. rewrite shift_fields_0, exec_swaps, swap_all_whole by done.
  cbn [mbind option_bind copy_out exec exec_step rs_obj rs_buf]. fold net.
  pose proof (read_bytes_prefix net [] (size_of t)) as Hr. rewrite app_nil_r in Hr. rewrite Hr; [done|by rewrite Hn].
Qed.

Lemma exec_decode t obj : length obj = size_of t ->
  exec (network_form (int_fields t) obj) ([Alloc (size_of t); CopyIn] ++ swaps_of t 0) (RawState [] None) = Some (RawState obj None).
Proof.
  intros Hl. pose proof (layout_ok t) as Hf. rewrite <- Hl in Hf. set (net := network_form _ _).
  assert (Hn : length net = length obj) by (by apply length_reversed).
  pose proof (write_bytes_prefix (zeroed (size_of t)) net []) as Hw. rewrite !app_nil_r in Hw.
  cbn [app exec exec_step rs_obj rs_buf mbind option_bind].
  rewrite Hw by (unfold zeroed; rewrite length_replicate; lia). cbn [mbind option_bind].
  unfold swaps_of. rewrite shift_fields_0, <- (app_nil_r (swaps _)), exec_swaps, swap_all_whole by (by rewrite Hn).
  cbn [mbind option_bind exec]. do 2 f_equal. by apply reversed_involutive.
Qed.

(** C3: What the generator makes of a description serialises.  What it prints is
    the text of a program, and for every structure that a C compiler accepts,
    whatever its fields, the generated
    encoder leaves each integer field in network byte order, and the generated
    decoder gives the object back. *)
Theorem generated_roundtrip consts data sts types name t obj :
  parse_content data = Some sts -> declare consts [] sts = Some types ->
  lookup_name types name = Some t -> length obj = size_of t ->
  c_text sts = Some (print_program (program_of sts)) /\
  exists funs f enc dec net,
    denote_program consts [] types (program_of sts) = Some funs /\ lookup_name funs name = Some f
    /\ f_encode f 0 true = Some enc /\ f_decode f = Some dec
    /\ exec [] enc (RawState obj None) = Some (RawState net (Some net)) /\ length net = size_of t
    /\ (forall off w, (off, w) ∈ int_fields t -> be_val (slice net off w) = le_val (slice obj off w))
    /\ exec net dec (RawState [] None) = Some (RawState obj None).
Proof.
  intros Hp Hd Ht Hl. destruct (program_serialises consts sts types (parse_content_few _ _ Hp) Hd) as (funs & Hfuns & Hok).
  destruct (funs_ok_lookup _ _ _ _ Hok Ht) as (f & Hf & _ & He & _ & Hdec).
  destruct (exec_encode t obj Hl) as [Henc Hn]. split; [apply c_text_prints, (parse_content_few _ _ Hp)|].
  exists funs, f, (swaps_of t 0 ++ copy_out 0 true t), ([Alloc (size_of t); CopyIn] ++ swaps_of t 0), (network_form (int_fields t) obj).
  split_and!; [done..| |by apply exec_decode].
  intros off w Hin. pose proof (layout_ok t) as Hlay. rewrite <- Hl in Hlay.
  pose proof (reversed_field _ off w 0 obj Hlay Hin) as Hr. rewrite Nat.sub_0_r in Hr.
  unfold network_form, be_val. by rewrite Hr, reverse_involutive.
Qed.

Lemma parse_rendered words sts :
  Forall (fun w => is_word w /\ w <> ascii_bytes "struct") words -> Forall st_ok sts -> sts <> [] ->
  parse_content (render words sts) = Some sts.
Proof.
  intros Hw Hs Hne. destruct sts as [|s sts]; [done|].
  destruct (parse_render_tail words s sts [] Hw Hs) as (fuel & Hf & E); [constructor|]. rewrite app_nil_r in E. rewrite E.
  destruct fuel; [simpl in Hf; lia|done].
Qed.

(** Structures written in the form of req_resp.x, behind constants and
    other declarations, are read back as they are. *)
Theorem parse_render words sts :
  Forall (fun w => is_word w /\ w <> ascii_bytes "struct") words -> Forall st_ok sts -> sts <> [] ->
  parse_content (render words sts) = Some sts.
Proof. apply parse_rendered. Qed.

(** An empty line behind the last structure: the result NULL of
    [fetch_next_struct] is used. *)
Lemma trailing_line_crashes words s sts :
  Forall (fun w => is_word w /\ w <> ascii_bytes "struct") words -> Forall st_ok (s :: sts) ->
  parse_content (render words (s :: sts) ++ [newline]) = None.
Proof.
  intros Hw Hs. destruct (parse_render_tail words s sts [newline] Hw Hs) as (fuel & Hf & ->); [by repeat constructor|].
  destruct fuel; [simpl in Hf; lia|done].
Qed.

(** ** The files *)

Lemma fopen_w_written fs p fs1 d : fopen_w fs p = Some fs1 -> fopen_r (fappend fs1 p d) p = Some d.
Proof.
  intros Ho%fopen_w_empty. unfold fappend. rewrite Ho. cbn [app]. unfold fopen_r. rewrite node_put; [done|].
  eapply node_reg. by rewrite Ho.
Qed.

(** The first of two files that are written keeps what was written to it. *)
Lemma written_kept fs fs1 fs2 p q d e : fopen_w fs p = Some fs1 -> fopen_w (fappend fs1 p d) q = Some fs2 -> canon p <> canon q ->
  fopen_r (fappend fs2 q e) p = Some d.
Proof.
  intros Hp Hq Hd. pose proof (fopen_w_written _ _ _ d Hp) as Hr. unfold fopen_r in *.
  destruct (node_at (fappend fs1 p d) p) as [nd|] eqn:En; [|done].
  by rewrite (fappend_keeps _ _ _ _ _ Hd (fopen_w_keeps _ _ _ Hq _ _ Hd En)).
Qed.

(** [main] on a description leaves in the two files the header and the
    text of the program of its structures. *)
Theorem main_writes fs fs1 fs2 prog xdr_file h_file c_file words sts :
  fopen_r fs xdr_file = Some (render words sts) -> Z.of_nat (length (render words sts)) <= SZ_1MB ->
  Forall (fun w => is_word w /\ w <> ascii_bytes "struct") words -> Forall st_ok sts -> sts <> [] ->
  fopen_w fs h_file = Some fs1 -> fopen_w (fappend fs1 h_file (h_text sts)) c_file = Some fs2 -> canon h_file <> canon c_file ->
  exists fs', main fs [prog; xdr_file; h_file; c_file] = Some (fs', 0)
    /\ fopen_r fs' h_file = Some (h_text sts)
    /\ fopen_r fs' c_file = Some (print_program (program_of sts)).
Proof.
  intros Hx Hsz Hw Hs Hne Hh Hc Hd. pose proof (parse_rendered words sts Hw Hs Hne) as Hp.
  exists (fappend fs2 c_file (print_program (program_of sts))). split_and!.
  - unfold main, get_struct_list, file_size. rewrite Hx, (proj2 (Z.ltb_ge _ _)) by done. cbn [mbind option_bind].
    rewrite Hp. cbn [mbind option_bind]. change (0 =? -1) with false. cbv iota.
    unfold gen_serialize, gen_h_file, gen_c_file. rewrite Hh. change (0 =? -1) with false. cbv iota. rewrite Hc.
    rewrite (c_text_prints sts) by (apply (parse_content_few _ _ Hp)). done.
  - by apply (written_kept _ _ _ _ _ _ _ Hh Hc Hd).
  - by apply (fopen_w_written _ _ _ _ Hc).
Qed.

(** ** A description with an array of arrays of structures *)

Definition demo_words : list text := map ascii_bytes ["const"; "N"; "="; "3;"]%string.

Definition demo_structs : list st := [
  St (ascii_bytes "point") [Elem (ascii_bytes "x") ELEM_TYPE_INT [] []; Elem (ascii_bytes "y") (i32 ELEM_TYPE_UNSIGNED_SHORT) [] [ascii_bytes "2"]];
  St (ascii_bytes "area") [Elem (ascii_bytes "name") ELEM_TYPE_CHAR [] [ascii_bytes "N"];
    Elem (ascii_bytes "corners") ELEM_TYPE_STRUCT (ascii_bytes "point") [ascii_bytes "2"; ascii_bytes "N"]]].

Definition demo_consts (d : text) : option nat :=
  if bool_decide (d = ascii_bytes "N") then Some 3%nat else if bool_decide (d = ascii_bytes "2") then Some 2%nat else None.

Definition demo_types : list (text * ctype) := default [] (declare demo_consts [] demo_structs).

Definition demo_area : ctype := default CChar (lookup_name demo_types (ascii_bytes "area")).

Definition demo_object : list Z := map Z.of_nat (seq 0 52).

#[export] Instance elem_ok_dec p : Decision (elem_ok p).
Proof.
  destruct (decide ((type p ∈ scalar_types /\ elem_st_name p = []
      \/ type p = ELEM_TYPE_STRUCT /\ is_word (elem_st_name p) /\ (length (elem_st_name p) < ST_NAME_LEN)%nat)
    /\ (is_word (elem_name p) /\ bracket_open ∉ elem_name p /\ (length (elem_name p) < ELEM_NAME_LEN)%nat)
    /\ Forall (Forall (fun c => is_space c = false /\ c <> 0 /\ c <> bracket_close)) (dims p) /\ (length (dims p) <= DIMS_MAX_NUM)%nat))
    as [H|H]; [left|right].
  - destruct H as (? & ? & ?). by constructor.
  - intros [H1 H2 H3]. by apply H.
Defined.

#[export] Instance st_ok_dec s : Decision (st_ok s).
Proof. unfold st_ok. apply _. Defined.

Lemma demo_words_ok : Forall (fun w => is_word w /\ w <> ascii_bytes "struct") demo_words.
Proof. apply (bool_decide_unpack _). vm_compute. exact I. Defined.

Lemma demo_structs_ok : Forall st_ok demo_structs.
Proof. apply (bool_decide_unpack _). vm_compute. exact I. Defined.

Lemma generated_roundtrip_witness :
  length demo_object = size_of demo_area /\
  c_text demo_structs = Some (print_program (program_of demo_structs)) /\
  exists funs f enc dec net,
    denote_program demo_consts [] demo_types (program_of demo_structs) = Some funs /\ lookup_name funs (ascii_bytes "area") = Some f
    /\ f_encode f 0 true = Some enc /\ f_decode f = Some dec
    /\ exec [] enc (RawState demo_object None) = Some (RawState net (Some net)) /\ length net = size_of demo_area
    /\ (forall off w, (off, w) ∈ int_fields demo_area -> be_val (slice net off w) = le_val (slice demo_object off w))
    /\ exec net dec (RawState [] None) = Some (RawState demo_object None).
Proof.
  split; [vm_compute; reflexivity|].
  apply (generated_roundtrip demo_consts (render demo_words demo_structs) demo_structs demo_types (ascii_bytes "area"));
    vm_compute; reflexivity.
Defined.

Lemma parse_render_witness : parse_content (render demo_words demo_structs) = Some demo_structs.
Proof. apply (parse_render demo_words demo_structs demo_words_ok demo_structs_ok). discriminate. Defined.

Definition demo_generator_fs : fsys :=
  Fsys {[ ascii_bytes "/x" := Reg (render demo_words demo_structs) ]} ∅.

Lemma main_writes_witness :
  exists fs', main demo_generator_fs [ascii_bytes "gen"; ascii_bytes "/x"; ascii_bytes "/h"; ascii_bytes "/c"] = Some (fs', 0)
    /\ fopen_r fs' (ascii_bytes "/h") = Some (h_text demo_structs)
    /\ fopen_r fs' (ascii_bytes "/c") = Some (print_program (program_of demo_structs)).
Proof.
  apply (main_writes demo_generator_fs
    (put_node demo_generator_fs (ascii_bytes "/h") (Reg []))
    (put_node (fappend (put_node demo_generator_fs (ascii_bytes "/h") (Reg [])) (ascii_bytes "/h") (h_text demo_structs)) (ascii_bytes "/c") (Reg []))
    (ascii_bytes "gen") (ascii_bytes "/x") (ascii_bytes "/h") (ascii_bytes "/c") demo_words demo_structs);
    [vm_compute; reflexivity|vm_compute; discriminate|apply demo_words_ok|apply demo_structs_ok|discriminate|vm_compute; reflexivity| |discriminate].
  vm_compute; reflexivity.
Defined.
