(* ===== verification/GenXdr.v ===== *)
(** * The generator of the XDR serialisers (xdr/gen_serialize.c)

    It looks for the structures of requests and responses in a description and
    writes an encoder and a decoder for each, which call the filter of that
    structure.  Texts are printed as in GenSource. *)

From S2P Require Import Prelude CStr FileSystem GenParse GenSource GenRender GenCorrect.

Definition NAME_BUF_LEN : nat := 1024.
Definition brace_open : Z := 123.

(** ** Which structures *)

(** [strstr]: the text from the first occurrence of [foo] on. *)
Fixpoint strstr (src foo : text) : option text :=
  if bool_decide (foo `prefix_of` src) then Some src else
  match src with [] => None | _ :: src => strstr src foo end.

Definition endswith (src foo : text) : bool :=
  if (length src <? length foo)%nat then false else
  match strstr src foo with None => false | Some pos => (length pos =? length foo)%nat end.

(** 0: the structure is one of the protocol. *)
Definition req_resp_filter (struct_name : text) : Z :=
  if endswith struct_name (ascii_bytes "_req") || endswith struct_name (ascii_bytes "_resp") then 0 else 1.

(** The name is added to the list or not; [None] when it fills its array. *)
Definition add_name (struct_name : text) (l : list text) : option (list text) :=
  if negb (length struct_name <? NAME_BUF_LEN)%nat then None else
  Some (if req_resp_filter struct_name =? 0 then l ++ [struct_name] else l).

(** The loop over the words of [p]; a break gives the list so far. *)
Fixpoint struct_names (fuel : nat) (p : text) (l : list text) : option (list text) :=
  match fuel with
  | O => None
  | S fuel =>
      match fetch_next_str p with
      | None => Some l
      | Some (key_word, p) =>
          if negb (bool_decide (key_word = ascii_bytes "struct")) then struct_names fuel p l else
          match fetch_next_str p with
          | None => Some l
          | Some (struct_name, p) =>
              match strchr struct_name brace_open with
              | Some (struct_name, _) => l ← add_name struct_name l; struct_names fuel p l
              | None =>
                  match fetch_next_str p with
                  | None => Some l
                  | Some (word, p) =>
                      if char_at word 0 =? brace_open then l ← add_name struct_name l; struct_names fuel p l
                      else struct_names fuel p l
                  end
              end
          end
      end
  end.

Definition get_struct_list (fs : fsys) (xdr_file : text) : option (list text * Z) :=
  if SZ_1MB <? Z.of_nat (file_size fs xdr_file) then Some ([], -1) else
  data ← fopen_r fs xdr_file;
  l ← struct_names (S (length (c_str data))) (c_str data) [];
  Some (l, 0).

(** ** What is written *)

Open Scope string_scope.

Definition h_text (names : list text) : text :=
  let out := fprintf "/*\n * Automatically generated - do not edit\n */\n\n" [] [] in
  let out := fprintf "#ifndef _SERIALIZE_H_\n" [] out in
  let out := fprintf "#define _SERIALIZE_H_\n\n" [] out in
  let out := fprintf "#include <stdbool.h>\n" [] out in
  let out := fprintf "#include \qcommon.h\q\n\n" [] out in
  let out := foldl (fun out name =>
    let out := fprintf "bool %s_encode(void *req, unsigned char **buf, int *len,\n" [name] out in
    let out := fprintf "\t\t\tenum free_mode *mode);\n\n" [] out in
    let out := fprintf "bool %s_decode(unsigned char *buf, int len, void **req,\n" [name] out in
    fprintf "\t\t\tenum free_mode *mode);\n\n" [] out) out names in
  fprintf "#endif\n" [] out.

(** [assert(head != NULL)] *)
Definition gen_h_file (fs : fsys) (names : list text) (h_file : text) : option (fsys * Z) :=
  match names with
  | [] => None
  | _ => match fopen_w fs h_file with None => Some (fs, -1) | Some fs => Some (fappend fs h_file (h_text names), 0) end
  end.

Definition output_encode (name out : text) : text :=
  let out := fprintf "bool %s_encode(void *req, unsigned char **buf, int *len,\n" [name] out in
  let out := fprintf "\t\t\tenum free_mode *mode)\n" [] out in
  let out := fprintf "{\n" [] out in
  let out := fprintf "\tDEBUG((DEBUG_DEBUG, \qin\\n\q));\n\n" [] out in
  let out := fprintf "\tsize_t size = 0;\n" [] out in
  let out := fprintf "\tFILE *fp = open_memstream((char **)buf, &size);\n\n" [] out in
  let out := fprintf "\tXDR xdr;\n" [] out in
  let out := fprintf "\txdrstdio_create(&xdr, fp, XDR_ENCODE);\n\n" [] out in
  let out := fprintf "\tbool ret = xdr_%s(&xdr, (struct %s *)req);\n\n" [name; name] out in
  let out := fprintf "\tfflush(fp);\n" [] out in
  let out := fprintf "\tfclose(fp);\n\n" [] out in
  let out := fprintf "\t*len = size;\n" [] out in
  let out := fprintf "\t*mode = FREE_MODE_FREE;\n" [] out in
  let out := fprintf "\tDEBUG((DEBUG_DEBUG, \qencode done|ret=%d|encode_len=%d\\n\q,\n\t\tret, *len));\n" [] out in
  let out := fprintf "\tDEBUG((DEBUG_DEBUG, \qout\\n\q));\n\n" [] out in
  let out := fprintf "\treturn ret;\n" [] out in
  fprintf "}\n\n" [] out.

Definition output_decode (name out : text) : text :=
  let out := fprintf "bool %s_decode(unsigned char *buf, int len, void **req,\n" [name] out in
  let out := fprintf "\t\t\tenum free_mode *mode)\n" [] out in
  let out := fprintf "{\n" [] out in
  let out := fprintf "\tDEBUG((DEBUG_DEBUG, \qin\\n\q));\n\n" [] out in
  let out := fprintf "\tstruct %s *_req = (struct %s *)mp_malloc(g_mp,\n\t\t__func__, sizeof(struct %s));\n\n" [name; name; name] out in
  let out := fprintf "\tFILE *fp = fmemopen(buf, len, \qr\q);\n\n" [] out in
  let out := fprintf "\tXDR xdr;\n" [] out in
  let out := fprintf "\txdrstdio_create(&xdr, fp, XDR_DECODE);\n\n" [] out in
  let out := fprintf "\tbool ret = xdr_%s(&xdr, _req);\n" [name] out in
  let out := fprintf "\tfflush(fp);\n" [] out in
  let out := fprintf "\tfclose(fp);\n\n" [] out in
  let out := fprintf "\t*req = _req;\n" [] out in
  let out := fprintf "\t*mode = FREE_MODE_MP_FREE;\n" [] out in
  let out := fprintf "\tDEBUG((DEBUG_DEBUG, \qdecode done|ret=%d\\n\q, ret));\n" [] out in
  let out := fprintf "\tDEBUG((DEBUG_DEBUG, \qout\\n\q));\n\n" [] out in
  let out := fprintf "\treturn ret;\n" [] out in
  fprintf "}\n" [] out.

(** The loop, with an empty line between two structures. *)
Fixpoint output_names (names : list text) (out : text) : text :=
  match names with
  | [] => out
  | name :: names =>
      let out := output_decode name (output_encode name out) in
      output_names names (match names with [] => out | _ => fprintf "\n" [] out end)
  end.

Definition c_includes : text :=
  let out := fprintf "/*\n * Automatically generated - do not edit\n */\n\n" [] [] in
  let out := fprintf "#include <stdbool.h>\n" [] out in
  let out := fprintf "#include <stdio.h>\n" [] out in
  let out := fprintf "#include <rpc/types.h>\n" [] out in
  let out := fprintf "#include <rpc/xdr.h>\n" [] out in
  let out := fprintf "#include \qcommon.h\q\n" [] out in
  let out := fprintf "#include \qdebug.h\q\n" [] out in
  let out := fprintf "#include \qlog.h\q\n" [] out in
  let out := fprintf "#include \qmem_pool.h\q\n" [] out in
  fprintf "#include \qserialize.h\q\n\n" [] out.

Close Scope string_scope.

Definition gen_c_file (fs : fsys) (names : list text) (c_file : text) : option (fsys * Z) :=
  match names with
  | [] => None
  | _ => match fopen_w fs c_file with None => Some (fs, -1) | Some fs => Some (fappend fs c_file (output_names names c_includes), 0) end
  end.

Definition gen_serialize (fs : fsys) (names : list text) (h_file c_file : text) : option (fsys * Z) :=
  '(fs, ret) ← gen_h_file fs names h_file;
  if ret =? -1 then Some (fs, -1) else
  '(fs, ret) ← gen_c_file fs names c_file;
  if ret =? -1 then Some (fs, -1) else Some (fs, 0).

Definition main (fs : fsys) (argv : list text) : option (fsys * Z) :=
  match argv with
  | [_; xdr_file; h_file; c_file] =>
      '(head, ret) ← get_struct_list fs xdr_file;
      if ret =? -1 then Some (fs, -1) else
      '(fs, ret) ← gen_serialize fs head h_file c_file;
      if ret =? -1 then Some (fs, -1) else Some (fs, 0)
  | _ => Some (fs, -1)
  end.

(** ** Which names are taken *)

Lemma strstr_some src foo pos : strstr src foo = Some pos <->
  exists pre, src = pre ++ pos /\ foo `prefix_of` pos /\ forall pre' pos', src = pre' ++ pos' -> foo `prefix_of` pos' -> (length pre <= length pre')%nat.
Proof.
  revert pos. induction src as [|c src IH]; intros pos; cbn [strstr].
  - case_bool_decide as Hp; split.
    + intros [= <-]. exists []. split; [done|]. split; [done|]. intros. cbn. lia.
    + intros (pre & E & _ & _). symmetry in E. by apply app_nil in E as [_ ->].
    + done.
    + intros (pre & E & Hf & _). symmetry in E. apply app_nil in E as [_ ->]. done.
  - case_bool_decide as Hp.
    + split.
      * intros [= <-]. exists []. split; [done|]. split; [done|]. intros. cbn. lia.
      * intros (pre & E & _ & Hmin). specialize (Hmin [] (c :: src) eq_refl Hp). destruct pre; [|cbn in Hmin; lia]. cbn in E. by subst.
    + rewrite IH. split.
      * intros (pre & -> & Hf & Hmin). exists (c :: pre). split; [done|]. split; [done|].
        intros [|c' pre'] pos' E Hf'; [by cbn in E; subst|]. cbn in E. injection E as _ E. specialize (Hmin _ _ E Hf'). cbn. lia.
      * intros ([|c' pre] & E & Hf & Hmin); [by cbn in E; subst|]. cbn in E. injection E as <- ->. exists pre. split; [done|]. split; [done|].
        intros pre' pos' E Hf'. specialize (Hmin (c :: pre') pos'). cbn in Hmin. rewrite E in Hmin. specialize (Hmin eq_refl Hf'). lia.
Qed.

(** A name is taken to end with [foo] when the end is the only place where
    [foo] is found. *)
Theorem endswith_spec src foo : endswith src foo = true <->
  exists pre, src = pre ++ foo /\ forall pre' pos', src = pre' ++ pos' -> foo `prefix_of` pos' -> (length pre <= length pre')%nat.
Proof.
  unfold endswith. split.
  - destruct (_ <? _)%nat; [done|]. destruct (strstr src foo) as [pos|] eqn:E; [|done]. intros Hl%Nat.eqb_eq.
    apply strstr_some in E as (pre & -> & [r ->] & Hmin). rewrite length_app in Hl. destruct r; [|cbn in Hl; lia].
    rewrite app_nil_r in *. by exists pre.
  - intros (pre & -> & Hmin). rewrite (proj2 (Nat.ltb_ge _ _)) by (rewrite length_app; lia).
    assert (E : strstr (pre ++ foo) foo = Some foo) by (apply strstr_some; by exists pre). rewrite E. by apply Nat.eqb_eq.
Qed.

(** A request whose name has the suffix also in the middle gets no serialiser. *)
Lemma repeated_suffix_lost : req_resp_filter (ascii_bytes "read_req_ack_req") = 1.
Proof. reflexivity. Qed.

(** ** The words of a text *)

Inductive yields : text -> list text -> Prop :=
  | yields_end p : fetch_next_str p = None -> yields p []
  | yields_word p w rest ws : fetch_next_str p = Some (w, rest) -> yields rest ws -> yields p (w :: ws).

(** The loop on a list of words. *)
Fixpoint names_in (ws : list text) (l : list text) : option (list text) :=
  match ws with
  | [] => Some l
  | k :: ws =>
      if negb (bool_decide (k = ascii_bytes "struct")) then names_in ws l else
      match ws with
      | [] => Some l
      | n :: ws =>
          match strchr n brace_open with
          | Some (n, _) => l ← add_name n l; names_in ws l
          | None =>
              match ws with
              | [] => Some l
              | w :: ws => if char_at w 0 =? brace_open then l ← add_name n l; names_in ws l else names_in ws l
              end
          end
      end
  end.

Lemma struct_names_words ws : forall p, yields p ws -> forall fuel l, (length ws < fuel)%nat -> struct_names fuel p l = names_in ws l.
Proof.
  induction ws as [ws IH] using (induction_ltof1 _ (@length text)); unfold ltof in IH. intros p Hy fuel l Hf.
  destruct fuel as [|fuel]; [lia|]. cbn [struct_names]. destruct Hy as [p E|p w rest ws E Hy]; rewrite E; [done|].
  cbn [names_in length] in *. destruct (negb _); [apply IH; [lia|done|lia]|].
  destruct Hy as [p' E'|p' n rest' ws E' Hy]; rewrite E'; [done|]. cbn [length] in *.
  destruct (strchr n brace_open) as [[n' ?]|].
  - destruct (add_name n' l); [|done]. cbn [mbind option_bind]. apply IH; [lia|done|lia].
  - destruct Hy as [p2 E2|p2 w2 rest2 ws E2 Hy]; rewrite E2; [done|]. cbn [length] in *.
    destruct (_ =? _); [destruct (add_name n l); [cbn [mbind option_bind]|done]|]; apply IH; lia || done.
Qed.

Lemma yields_spaced w c rest ws sp : Forall (fun c => is_space c = true) sp -> is_word w -> is_space c = true -> yields rest ws -> yields (sp ++ w ++ c :: rest) (w :: ws).
Proof. intros Hsp Hw Hc Hy. eapply yields_word; [by apply fetch_word|exact Hy]. Qed.

Lemma yields_words l : Forall is_word l -> forall rest ws, yields rest ws -> yields (concat (map spaced l) ++ rest) (l ++ ws).
Proof.
  induction 1 as [|w l Hw _ IH]; intros rest ws Hy; [done|]. cbn [map concat app]. rewrite <- app_assoc. unfold spaced at 1. rewrite <- app_assoc.
  apply (yields_spaced w blank _ _ []); [constructor|done|done|by apply IH].
Qed.

Definition elem_words (p : elem) : list text := type_words p ++ [name_word p].
Definition st_words (s : st) : list text := [ascii_bytes "struct"; st_name s; ascii_bytes "{"] ++ concat (map elem_words (elems s)) ++ [ascii_bytes "};"].

(** ** The structures of a description *)

(** No name has an opening brace in it. *)
Definition plain_names (s : st) : Prop :=
  brace_open ∉ st_name s /\ Forall (fun p => brace_open ∉ elem_name p /\ brace_open ∉ elem_st_name p) (elems s).

Lemma yields_space c rest ws : is_space c = true -> yields rest ws -> yields (c :: rest) ws.
Proof.
  intros Hc Hy. assert (E : fetch_next_str (c :: rest) = fetch_next_str rest) by (unfold fetch_next_str; cbn [skip_spaces]; by rewrite Hc).
  destruct Hy as [p H|p w r ws H Hy]; [apply yields_end|eapply yields_word]; try rewrite E; done.
Qed.

Lemma is_word_literal s : bool_decide (is_word (ascii_bytes s)) = true -> is_word (ascii_bytes s).
Proof. apply bool_decide_eq_true_1. Qed.

Lemma type_words_are_words p : elem_ok p -> Forall is_word (type_words p).
Proof.
  intros [[[Ht Hs]|(Ht & Hw & Hl)] _ _]; unfold type_words, has_type.
  - unfold scalar_types in Ht. rewrite !elem_of_cons in Ht.
    destruct Ht as [->|[->|[->|[->|[->|[->|?%not_elem_of_nil]]]]]]; [..|done]; apply (bool_decide_unpack _); vm_compute; exact Logic.I.
  - rewrite Ht. apply Forall_cons. split; [by apply is_word_literal|by apply Forall_singleton].
Qed.

Lemma yields_elem p rest ws : elem_ok p -> yields rest ws -> yields (render_elem p ++ rest) (elem_words p ++ ws).
Proof.
  intros Hp Hy. unfold render_elem, elem_words. rewrite <- !app_assoc. cbn [app]. apply yields_space; [done|].
  apply yields_words; [by apply type_words_are_words|]. apply (yields_spaced _ newline _ _ []); [constructor|by apply is_word_name|done|done].
Qed.

Lemma yields_st s rest ws : st_ok s -> yields rest ws -> yields (newline :: render_st s ++ rest) (st_words s ++ ws).
Proof.
  intros (Hn & _ & Hes) Hy. apply yields_space; [done|]. unfold render_st, st_words. rewrite <- !app_assoc.
  change [ascii_bytes "struct"; st_name s; ascii_bytes "{"] with ([ascii_bytes "struct"; st_name s] ++ [ascii_bytes "{"]). rewrite <- !app_assoc.
  apply yields_words; [by apply Forall_cons; split; [apply is_word_literal|apply Forall_singleton]|]. cbn [app].
  apply (yields_spaced _ newline _ _ []); [constructor|by apply is_word_literal|done|].
  assert (Hend : yields (ascii_bytes "};" ++ newline :: rest) (ascii_bytes "};" :: ws)).
  { apply (yields_spaced _ newline _ _ []); [constructor|by apply is_word_literal|done|done]. }
  clear Hy. induction Hes as [|p es Hp _ IH]; [exact Hend|]. cbn [map concat]. rewrite <- !app_assoc. by apply yields_elem.
Qed.

Lemma yields_render words sts : Forall is_word words -> Forall st_ok sts -> yields (render words sts) (words ++ concat (map st_words sts)).
Proof.
  intros Hw Hs. unfold render. apply yields_words; [done|].
  induction Hs as [|s sts Hs _ IH]; [by apply yields_end|]. cbn [render_list map concat]. by apply yields_st.
Qed.

Lemma names_in_skip w ws l : w <> ascii_bytes "struct" -> names_in (w :: ws) l = names_in ws l.
Proof. intros Hw. cbn [names_in]. by rewrite bool_decide_eq_false_2. Qed.

Lemma name_word_skips p : elem_ok p -> brace_open ∉ elem_name p -> name_word p <> ascii_bytes "struct" /\ (char_at (name_word p) 0 =? brace_open) = false.
Proof.
  intros [_ ([Hne _] & _ & _) _] Hb. unfold name_word. split.
  - rewrite app_assoc. intros E. apply (f_equal last) in E. rewrite last_snoc in E. vm_compute in E. discriminate E.
  - destruct (elem_name p) as [|c n]; [done|]. cbn. apply Z.eqb_neq. intros ->. apply Hb. by left.
Qed.

Lemma names_in_elem p ws l : elem_ok p -> brace_open ∉ elem_name p -> brace_open ∉ elem_st_name p -> names_in (elem_words p ++ ws) l = names_in ws l.
Proof.
  intros Hp Hb Hs. destruct (name_word_skips p Hp Hb) as [Hw Hc]. unfold elem_words, type_words, has_type.
  destruct (eo_type _ Hp) as [[Ht _]|(Ht & _ & _)].
  - unfold scalar_types in Ht. rewrite !elem_of_cons in Ht.
    destruct Ht as [->|[->|[->|[->|[->|[->|?%not_elem_of_nil]]]]]]; [..|done];
      repeat match goal with |- context [if ?b then _ else _] => let v := eval vm_compute in b in change b with v; cbv iota end;
      cbn [app]; rewrite ?names_in_skip by (exact Hw || (vm_compute; discriminate)); done.
  - rewrite Ht. change (negb (Z.land ELEM_TYPE_STRUCT ELEM_TYPE_UNSIGNED =? 0)) with false. change (negb (Z.land ELEM_TYPE_STRUCT ELEM_TYPE_STRUCT =? 0)) with true.
    cbn [app names_in]. rewrite bool_decide_eq_true_2 by done. cbn [negb]. rewrite (proj2 (strchr_none _ _) Hs), Hc. done.
Qed.

(** A text has at least as many characters as words. *)
Lemma yields_length p ws : yields p ws -> (length ws <= length p)%nat.
Proof.
  induction 1 as [|p w rest ws E _ IH]; [cbn; lia|]. cbn [length]. unfold fetch_next_str in E.
  destruct (skip_spaces p) as [|c s] eqn:Es; [done|]. injection E as E. pose proof (length_skip_spaces p) as Hsk. rewrite Es in Hsk.
  apply (length_word_of (c :: s)) in E. cbn [length] in *. lia.
Qed.

Lemma add_name_ok n l : (length n < ST_NAME_LEN)%nat -> add_name n l = Some (l ++ filter (fun n => req_resp_filter n = 0) [n]).
Proof.
  intros Hn. unfold ST_NAME_LEN in Hn. unfold add_name. rewrite (proj2 (Nat.ltb_lt (length n) NAME_BUF_LEN)) by (unfold NAME_BUF_LEN; lia). cbn [negb].
  rewrite filter_cons, filter_nil. destruct (Z.eqb_spec (req_resp_filter n) 0); [by rewrite decide_True|rewrite decide_False by done; by rewrite app_nil_r].
Qed.

Lemma names_in_st s ws l : st_ok s -> plain_names s ->
  names_in (st_words s ++ ws) l = names_in ws (l ++ filter (fun n => req_resp_filter n = 0) [st_name s]).
Proof.
  intros (Hn & Hnl & Hes) [Hb He]. unfold st_words. rewrite <- !app_assoc. cbn [app names_in]. rewrite bool_decide_eq_true_2 by done. cbn [negb].
  rewrite (proj2 (strchr_none _ _) Hb). change (char_at (ascii_bytes "{") 0 =? brace_open) with true. cbv iota.
  rewrite (add_name_ok _ l Hnl). cbn [mbind option_bind]. generalize (l ++ filter (fun n => req_resp_filter n = 0) [st_name s]). clear -Hes He. intros l.
  induction Hes as [|p es Hp _ IH]; [cbn [map concat app]; by rewrite names_in_skip|]. apply Forall_cons in He as [[H1 H2] He].
  cbn [map concat]. rewrite <- app_assoc, names_in_elem by done. by apply IH.
Qed.

Lemma names_in_words words ws l : Forall (fun w => is_word w /\ w <> ascii_bytes "struct") words -> names_in (words ++ ws) l = names_in ws l.
Proof. induction 1 as [|w words [_ Hw] _ IH]; [done|]. cbn [app]. by rewrite names_in_skip. Qed.

(** Exactly the structures whose name is that of a request or a response, in
    their order. *)
Theorem names_of_description words sts : Forall (fun w => is_word w /\ w <> ascii_bytes "struct") words -> Forall st_ok sts -> Forall plain_names sts ->
  forall fuel, (length (render words sts) < fuel)%nat ->
  struct_names fuel (render words sts) [] = Some (filter (fun n => req_resp_filter n = 0) (map st_name sts)).
Proof.
  intros Hw Hs Hp fuel Hf.
  assert (Hy : yields (render words sts) (words ++ concat (map st_words sts))) by (apply yields_render; [eapply Forall_impl; [exact Hw|naive_solver]|done]).
  rewrite (struct_names_words _ _ Hy) by (pose proof (yields_length _ _ Hy); lia). clear Hy Hf. rewrite names_in_words by done.
  assert (H : forall l, names_in (concat (map st_words sts)) l = Some (l ++ filter (fun n => req_resp_filter n = 0) (map st_name sts))); [|by rewrite H].
  induction Hs as [|s sts Hs Hsts IH]; intros l; [cbn [map concat names_in]; by rewrite filter_nil, app_nil_r|].
  apply Forall_cons in Hp as [Hs' Hp]. cbn [map concat]. rewrite names_in_st, IH by done. f_equal. rewrite <- app_assoc. f_equal.
  change (st_name s :: map st_name sts) with ([st_name s] ++ map st_name sts). by rewrite filter_app.
Qed.

(** ** The two files *)

Lemma gen_serialize_writes fs fs1 fs2 names h_file c_file : names <> [] -> fopen_w fs h_file = Some fs1 ->
  fopen_w (fappend fs1 h_file (h_text names)) c_file = Some fs2 ->
  gen_serialize fs names h_file c_file = Some (fappend fs2 c_file (output_names names c_includes), 0).
Proof.
  intros Hne Hh Hc. unfold gen_serialize, gen_h_file, gen_c_file. destruct names as [|n ns]; [done|]. rewrite Hh. cbn [mbind option_bind].
  change (0 =? -1) with false. cbv iota. by rewrite Hc.
Qed.

(** [main] on a description leaves the declarations and the functions of its
    requests and responses. *)
Theorem main_writes_xdr fs fs1 fs2 prog xdr_file h_file c_file words sts :
  fopen_r fs xdr_file = Some (render words sts) -> Z.of_nat (length (render words sts)) <= SZ_1MB ->
  Forall (fun w => is_word w /\ w <> ascii_bytes "struct") words -> Forall st_ok sts -> Forall plain_names sts ->
  let names := filter (fun n => req_resp_filter n = 0) (map st_name sts) in names <> [] ->
  fopen_w fs h_file = Some fs1 -> fopen_w (fappend fs1 h_file (h_text names)) c_file = Some fs2 -> canon h_file <> canon c_file ->
  exists fs', main fs [prog; xdr_file; h_file; c_file] = Some (fs', 0)
    /\ fopen_r fs' h_file = Some (h_text names) /\ fopen_r fs' c_file = Some (output_names names c_includes).
Proof.
  intros Hx Hsz Hw Hs Hp names Hne Hh Hc Hd.
  assert (Hz : c_str (render words sts) = render words sts).
  { apply c_str_no_zero, render_no_zero; [eapply Forall_impl; [exact Hw|naive_solver]|done]. }
  exists (fappend fs2 c_file (output_names names c_includes)). split_and!.
  - unfold main, get_struct_list, file_size. rewrite Hx, (proj2 (Z.ltb_ge _ _)) by done. cbn [mbind option_bind].
    rewrite Hz, (names_of_description words sts Hw Hs Hp) by lia. cbn [mbind option_bind]. change (0 =? -1) with false. cbv iota. fold names.
    by rewrite (gen_serialize_writes _ _ _ _ _ _ Hne Hh Hc).
  - apply (written_kept _ _ _ _ _ _ _ Hh Hc Hd).
  - by apply (fopen_w_written _ _ _ _ Hc).
Qed.
