(* ===== verification/GenXdrText.v ===== *)
(** * The XDR serialisers of the protocol as a generated file

    The texts of src/serialize.c and include/serialize.h, and that
    xdr/gen_serialize.c writes exactly these for xdr/req_resp.x.  The functions
    of src/serialize.c that XdrTable has are all of them.  In the texts [\q] is
    a double quote and two backslashes are one. *)

From S2P Require Import Prelude CStr FileSystem Layout ReqResp SerializeRaw SerializeTable Xdr XdrProcs XdrTable GenParse GenSource GenReqResp GenRender GenCorrect GenXdr.

Definition serialize_h : string :=
"/*
 * Automatically generated - do not edit
 */

#ifndef _SERIALIZE_H_
#define _SERIALIZE_H_

#include <stdbool.h>
#include \qcommon.h\q

bool channel_info_req_encode(void *req, unsigned char **buf, int *len,
			enum free_mode *mode);

bool channel_info_req_decode(unsigned char *buf, int len, void **req,
			enum free_mode *mode);

bool channel_info_resp_encode(void *req, unsigned char **buf, int *len,
			enum free_mode *mode);

bool channel_info_resp_decode(unsigned char *buf, int len, void **req,
			enum free_mode *mode);

bool validate_req_encode(void *req, unsigned char **buf, int *len,
			enum free_mode *mode);

bool validate_req_decode(unsigned char *buf, int len, void **req,
			enum free_mode *mode);

bool validate_resp_encode(void *req, unsigned char **buf, int *len,
			enum free_mode *mode);

bool validate_resp_decode(unsigned char *buf, int len, void **req,
			enum free_mode *mode);

bool append_conn_req_encode(void *req, unsigned char **buf, int *len,
			enum free_mode *mode);

bool append_conn_req_decode(unsigned char *buf, int len, void **req,
			enum free_mode *mode);

bool append_conn_resp_encode(void *req, unsigned char **buf, int *len,
			enum free_mode *mode);

bool append_conn_resp_decode(unsigned char *buf, int len, void **req,
			enum free_mode *mode);

bool pwd_req_encode(void *req, unsigned char **buf, int *len,
			enum free_mode *mode);

bool pwd_req_decode(unsigned char *buf, int len, void **req,
			enum free_mode *mode);

bool pwd_resp_encode(void *req, unsigned char **buf, int *len,
			enum free_mode *mode);

bool pwd_resp_decode(unsigned char *buf, int len, void **req,
			enum free_mode *mode);

bool ll_req_encode(void *req, unsigned char **buf, int *len,
			enum free_mode *mode);

bool ll_req_decode(unsigned char *buf, int len, void **req,
			enum free_mode *mode);

bool ll_resp_encode(void *req, unsigned char **buf, int *len,
			enum free_mode *mode);

bool ll_resp_decode(unsigned char *buf, int len, void **req,
			enum free_mode *mode);

bool cd_req_encode(void *req, unsigned char **buf, int *len,
			enum free_mode *mode);

bool cd_req_decode(unsigned char *buf, int len, void **req,
			enum free_mode *mode);

bool cd_resp_encode(void *req, unsigned char **buf, int *len,
			enum free_mode *mode);

bool cd_resp_decode(unsigned char *buf, int len, void **req,
			enum free_mode *mode);

bool get_req_encode(void *req, unsigned char **buf, int *len,
			enum free_mode *mode);

bool get_req_decode(unsigned char *buf, int len, void **req,
			enum free_mode *mode);

bool get_resp_encode(void *req, unsigned char **buf, int *len,
			enum free_mode *mode);

bool get_resp_decode(unsigned char *buf, int len, void **req,
			enum free_mode *mode);

bool put_req_encode(void *req, unsigned char **buf, int *len,
			enum free_mode *mode);

bool put_req_decode(unsigned char *buf, int len, void **req,
			enum free_mode *mode);

bool put_resp_encode(void *req, unsigned char **buf, int *len,
			enum free_mode *mode);

bool put_resp_decode(unsigned char *buf, int len, void **req,
			enum free_mode *mode);

bool common_resp_encode(void *req, unsigned char **buf, int *len,
			enum free_mode *mode);

bool common_resp_decode(unsigned char *buf, int len, void **req,
			enum free_mode *mode);

bool write_msg_req_encode(void *req, unsigned char **buf, int *len,
			enum free_mode *mode);

bool write_msg_req_decode(unsigned char *buf, int len, void **req,
			enum free_mode *mode);

bool read_msg_req_encode(void *req, unsigned char **buf, int *len,
			enum free_mode *mode);

bool read_msg_req_decode(unsigned char *buf, int len, void **req,
			enum free_mode *mode);

bool read_msg_resp_encode(void *req, unsigned char **buf, int *len,
			enum free_mode *mode);

bool read_msg_resp_decode(unsigned char *buf, int len, void **req,
			enum free_mode *mode);

bool mp_stat_req_encode(void *req, unsigned char **buf, int *len,
			enum free_mode *mode);

bool mp_stat_req_decode(unsigned char *buf, int len, void **req,
			enum free_mode *mode);

bool mp_stat_resp_encode(void *req, unsigned char **buf, int *len,
			enum free_mode *mode);

bool mp_stat_resp_decode(unsigned char *buf, int len, void **req,
			enum free_mode *mode);

bool directcmd_req_encode(void *req, unsigned char **buf, int *len,
			enum free_mode *mode);

bool directcmd_req_decode(unsigned char *buf, int len, void **req,
			enum free_mode *mode);

bool directcmd_resp_encode(void *req, unsigned char **buf, int *len,
			enum free_mode *mode);

bool directcmd_resp_decode(unsigned char *buf, int len, void **req,
			enum free_mode *mode);

bool who_req_encode(void *req, unsigned char **buf, int *len,
			enum free_mode *mode);

bool who_req_decode(unsigned char *buf, int len, void **req,
			enum free_mode *mode);

bool who_resp_encode(void *req, unsigned char **buf, int *len,
			enum free_mode *mode);

bool who_resp_decode(unsigned char *buf, int len, void **req,
			enum free_mode *mode);

bool write_req_encode(void *req, unsigned char **buf, int *len,
			enum free_mode *mode);

bool write_req_decode(unsigned char *buf, int len, void **req,
			enum free_mode *mode);

bool write_resp_encode(void *req, unsigned char **buf, int *len,
			enum free_mode *mode);

bool write_resp_decode(unsigned char *buf, int len, void **req,
			enum free_mode *mode);

bool port_update_req_encode(void *req, unsigned char **buf, int *len,
			enum free_mode *mode);

bool port_update_req_decode(unsigned char *buf, int len, void **req,
			enum free_mode *mode);

bool port_update_resp_encode(void *req, unsigned char **buf, int *len,
			enum free_mode *mode);

bool port_update_resp_decode(unsigned char *buf, int len, void **req,
			enum free_mode *mode);

bool reconnect_req_encode(void *req, unsigned char **buf, int *len,
			enum free_mode *mode);

bool reconnect_req_decode(unsigned char *buf, int len, void **req,
			enum free_mode *mode);

bool reconnect_resp_encode(void *req, unsigned char **buf, int *len,
			enum free_mode *mode);

bool reconnect_resp_decode(unsigned char *buf, int len, void **req,
			enum free_mode *mode);

#endif
".

(** The file in pieces: what comes before the functions, and the functions of
    each structure. *)
Definition serialize_c : list string := [
"/*
 * Automatically generated - do not edit
 */

#include <stdbool.h>
#include <stdio.h>
#include <rpc/types.h>
#include <rpc/xdr.h>
#include \qcommon.h\q
#include \qdebug.h\q
#include \qlog.h\q
#include \qmem_pool.h\q
#include \qserialize.h\q

";
"bool channel_info_req_encode(void *req, unsigned char **buf, int *len,
			enum free_mode *mode)
{
	DEBUG((DEBUG_DEBUG, \qin\\n\q));

	size_t size = 0;
	FILE *fp = open_memstream((char **)buf, &size);

	XDR xdr;
	xdrstdio_create(&xdr, fp, XDR_ENCODE);

	bool ret = xdr_channel_info_req(&xdr, (struct channel_info_req *)req);

	fflush(fp);
	fclose(fp);

	*len = size;
	*mode = FREE_MODE_FREE;
	DEBUG((DEBUG_DEBUG, \qencode done|ret=%d|encode_len=%d\\n\q,
		ret, *len));
	DEBUG((DEBUG_DEBUG, \qout\\n\q));

	return ret;
}

bool channel_info_req_decode(unsigned char *buf, int len, void **req,
			enum free_mode *mode)
{
	DEBUG((DEBUG_DEBUG, \qin\\n\q));

	struct channel_info_req *_req = (struct channel_info_req *)mp_malloc(g_mp,
		__func__, sizeof(struct channel_info_req));

	FILE *fp = fmemopen(buf, len, \qr\q);

	XDR xdr;
	xdrstdio_create(&xdr, fp, XDR_DECODE);

	bool ret = xdr_channel_info_req(&xdr, _req);
	fflush(fp);
	fclose(fp);

	*req = _req;
	*mode = FREE_MODE_MP_FREE;
	DEBUG((DEBUG_DEBUG, \qdecode done|ret=%d\\n\q, ret));
	DEBUG((DEBUG_DEBUG, \qout\\n\q));

	return ret;
}

";
"bool channel_info_resp_encode(void *req, unsigned char **buf, int *len,
			enum free_mode *mode)
{
	DEBUG((DEBUG_DEBUG, \qin\\n\q));

	size_t size = 0;
	FILE *fp = open_memstream((char **)buf, &size);

	XDR xdr;
	xdrstdio_create(&xdr, fp, XDR_ENCODE);

	bool ret = xdr_channel_info_resp(&xdr, (struct channel_info_resp *)req);

	fflush(fp);
	fclose(fp);

	*len = size;
	*mode = FREE_MODE_FREE;
	DEBUG((DEBUG_DEBUG, \qencode done|ret=%d|encode_len=%d\\n\q,
		ret, *len));
	DEBUG((DEBUG_DEBUG, \qout\\n\q));

	return ret;
}

bool channel_info_resp_decode(unsigned char *buf, int len, void **req,
			enum free_mode *mode)
{
	DEBUG((DEBUG_DEBUG, \qin\\n\q));

	struct channel_info_resp *_req = (struct channel_info_resp *)mp_malloc(g_mp,
		__func__, sizeof(struct channel_info_resp));

	FILE *fp = fmemopen(buf, len, \qr\q);

	XDR xdr;
	xdrstdio_create(&xdr, fp, XDR_DECODE);

	bool ret = xdr_channel_info_resp(&xdr, _req);
	fflush(fp);
	fclose(fp);

	*req = _req;
	*mode = FREE_MODE_MP_FREE;
	DEBUG((DEBUG_DEBUG, \qdecode done|ret=%d\\n\q, ret));
	DEBUG((DEBUG_DEBUG, \qout\\n\q));

	return ret;
}

";
"bool validate_req_encode(void *req, unsigned char **buf, int *len,
			enum free_mode *mode)
{
	DEBUG((DEBUG_DEBUG, \qin\\n\q));

	size_t size = 0;
	FILE *fp = open_memstream((char **)buf, &size);

	XDR xdr;
	xdrstdio_create(&xdr, fp, XDR_ENCODE);

	bool ret = xdr_validate_req(&xdr, (struct validate_req *)req);

	fflush(fp);
	fclose(fp);

	*len = size;
	*mode = FREE_MODE_FREE;
	DEBUG((DEBUG_DEBUG, \qencode done|ret=%d|encode_len=%d\\n\q,
		ret, *len));
	DEBUG((DEBUG_DEBUG, \qout\\n\q));

	return ret;
}

bool validate_req_decode(unsigned char *buf, int len, void **req,
			enum free_mode *mode)
{
	DEBUG((DEBUG_DEBUG, \qin\\n\q));

	struct validate_req *_req = (struct validate_req *)mp_malloc(g_mp,
		__func__, sizeof(struct validate_req));

	FILE *fp = fmemopen(buf, len, \qr\q);

	XDR xdr;
	xdrstdio_create(&xdr, fp, XDR_DECODE);

	bool ret = xdr_validate_req(&xdr, _req);
	fflush(fp);
	fclose(fp);

	*req = _req;
	*mode = FREE_MODE_MP_FREE;
	DEBUG((DEBUG_DEBUG, \qdecode done|ret=%d\\n\q, ret));
	DEBUG((DEBUG_DEBUG, \qout\\n\q));

	return ret;
}

";
"bool validate_resp_encode(void *req, unsigned char **buf, int *len,
			enum free_mode *mode)
{
	DEBUG((DEBUG_DEBUG, \qin\\n\q));

	size_t size = 0;
	FILE *fp = open_memstream((char **)buf, &size);

	XDR xdr;
	xdrstdio_create(&xdr, fp, XDR_ENCODE);

	bool ret = xdr_validate_resp(&xdr, (struct validate_resp *)req);

	fflush(fp);
	fclose(fp);

	*len = size;
	*mode = FREE_MODE_FREE;
	DEBUG((DEBUG_DEBUG, \qencode done|ret=%d|encode_len=%d\\n\q,
		ret, *len));
	DEBUG((DEBUG_DEBUG, \qout\\n\q));

	return ret;
}

bool validate_resp_decode(unsigned char *buf, int len, void **req,
			enum free_mode *mode)
{
	DEBUG((DEBUG_DEBUG, \qin\\n\q));

	struct validate_resp *_req = (struct validate_resp *)mp_malloc(g_mp,
		__func__, sizeof(struct validate_resp));

	FILE *fp = fmemopen(buf, len, \qr\q);

	XDR xdr;
	xdrstdio_create(&xdr, fp, XDR_DECODE);

	bool ret = xdr_validate_resp(&xdr, _req);
	fflush(fp);
	fclose(fp);

	*req = _req;
	*mode = FREE_MODE_MP_FREE;
	DEBUG((DEBUG_DEBUG, \qdecode done|ret=%d\\n\q, ret));
	DEBUG((DEBUG_DEBUG, \qout\\n\q));

	return ret;
}

";
"bool append_conn_req_encode(void *req, unsigned char **buf, int *len,
			enum free_mode *mode)
{
	DEBUG((DEBUG_DEBUG, \qin\\n\q));

	size_t size = 0;
	FILE *fp = open_memstream((char **)buf, &size);

	XDR xdr;
	xdrstdio_create(&xdr, fp, XDR_ENCODE);

	bool ret = xdr_append_conn_req(&xdr, (struct append_conn_req *)req);

	fflush(fp);
	fclose(fp);

	*len = size;
	*mode = FREE_MODE_FREE;
	DEBUG((DEBUG_DEBUG, \qencode done|ret=%d|encode_len=%d\\n\q,
		ret, *len));
	DEBUG((DEBUG_DEBUG, \qout\\n\q));

	return ret;
}

bool append_conn_req_decode(unsigned char *buf, int len, void **req,
			enum free_mode *mode)
{
	DEBUG((DEBUG_DEBUG, \qin\\n\q));

	struct append_conn_req *_req = (struct append_conn_req *)mp_malloc(g_mp,
		__func__, sizeof(struct append_conn_req));

	FILE *fp = fmemopen(buf, len, \qr\q);

	XDR xdr;
	xdrstdio_create(&xdr, fp, XDR_DECODE);

	bool ret = xdr_append_conn_req(&xdr, _req);
	fflush(fp);
	fclose(fp);

	*req = _req;
	*mode = FREE_MODE_MP_FREE;
	DEBUG((DEBUG_DEBUG, \qdecode done|ret=%d\\n\q, ret));
	DEBUG((DEBUG_DEBUG, \qout\\n\q));

	return ret;
}

";
"bool append_conn_resp_encode(void *req, unsigned char **buf, int *len,
			enum free_mode *mode)
{
	DEBUG((DEBUG_DEBUG, \qin\\n\q));

	size_t size = 0;
	FILE *fp = open_memstream((char **)buf, &size);

	XDR xdr;
	xdrstdio_create(&xdr, fp, XDR_ENCODE);

	bool ret = xdr_append_conn_resp(&xdr, (struct append_conn_resp *)req);

	fflush(fp);
	fclose(fp);

	*len = size;
	*mode = FREE_MODE_FREE;
	DEBUG((DEBUG_DEBUG, \qencode done|ret=%d|encode_len=%d\\n\q,
		ret, *len));
	DEBUG((DEBUG_DEBUG, \qout\\n\q));

	return ret;
}

bool append_conn_resp_decode(unsigned char *buf, int len, void **req,
			enum free_mode *mode)
{
	DEBUG((DEBUG_DEBUG, \qin\\n\q));

	struct append_conn_resp *_req = (struct append_conn_resp *)mp_malloc(g_mp,
		__func__, sizeof(struct append_conn_resp));

	FILE *fp = fmemopen(buf, len, \qr\q);

	XDR xdr;
	xdrstdio_create(&xdr, fp, XDR_DECODE);

	bool ret = xdr_append_conn_resp(&xdr, _req);
	fflush(fp);
	fclose(fp);

	*req = _req;
	*mode = FREE_MODE_MP_FREE;
	DEBUG((DEBUG_DEBUG, \qdecode done|ret=%d\\n\q, ret));
	DEBUG((DEBUG_DEBUG, \qout\\n\q));

	return ret;
}

";
"bool pwd_req_encode(void *req, unsigned char **buf, int *len,
			enum free_mode *mode)
{
	DEBUG((DEBUG_DEBUG, \qin\\n\q));

	size_t size = 0;
	FILE *fp = open_memstream((char **)buf, &size);

	XDR xdr;
	xdrstdio_create(&xdr, fp, XDR_ENCODE);

	bool ret = xdr_pwd_req(&xdr, (struct pwd_req *)req);

	fflush(fp);
	fclose(fp);

	*len = size;
	*mode = FREE_MODE_FREE;
	DEBUG((DEBUG_DEBUG, \qencode done|ret=%d|encode_len=%d\\n\q,
		ret, *len));
	DEBUG((DEBUG_DEBUG, \qout\\n\q));

	return ret;
}

bool pwd_req_decode(unsigned char *buf, int len, void **req,
			enum free_mode *mode)
{
	DEBUG((DEBUG_DEBUG, \qin\\n\q));

	struct pwd_req *_req = (struct pwd_req *)mp_malloc(g_mp,
		__func__, sizeof(struct pwd_req));

	FILE *fp = fmemopen(buf, len, \qr\q);

	XDR xdr;
	xdrstdio_create(&xdr, fp, XDR_DECODE);

	bool ret = xdr_pwd_req(&xdr, _req);
	fflush(fp);
	fclose(fp);

	*req = _req;
	*mode = FREE_MODE_MP_FREE;
	DEBUG((DEBUG_DEBUG, \qdecode done|ret=%d\\n\q, ret));
	DEBUG((DEBUG_DEBUG, \qout\\n\q));

	return ret;
}

";
"bool pwd_resp_encode(void *req, unsigned char **buf, int *len,
			enum free_mode *mode)
{
	DEBUG((DEBUG_DEBUG, \qin\\n\q));

	size_t size = 0;
	FILE *fp = open_memstream((char **)buf, &size);

	XDR xdr;
	xdrstdio_create(&xdr, fp, XDR_ENCODE);

	bool ret = xdr_pwd_resp(&xdr, (struct pwd_resp *)req);

	fflush(fp);
	fclose(fp);

	*len = size;
	*mode = FREE_MODE_FREE;
	DEBUG((DEBUG_DEBUG, \qencode done|ret=%d|encode_len=%d\\n\q,
		ret, *len));
	DEBUG((DEBUG_DEBUG, \qout\\n\q));

	return ret;
}

bool pwd_resp_decode(unsigned char *buf, int len, void **req,
			enum free_mode *mode)
{
	DEBUG((DEBUG_DEBUG, \qin\\n\q));

	struct pwd_resp *_req = (struct pwd_resp *)mp_malloc(g_mp,
		__func__, sizeof(struct pwd_resp));

	FILE *fp = fmemopen(buf, len, \qr\q);

	XDR xdr;
	xdrstdio_create(&xdr, fp, XDR_DECODE);

	bool ret = xdr_pwd_resp(&xdr, _req);
	fflush(fp);
	fclose(fp);

	*req = _req;
	*mode = FREE_MODE_MP_FREE;
	DEBUG((DEBUG_DEBUG, \qdecode done|ret=%d\\n\q, ret));
	DEBUG((DEBUG_DEBUG, \qout\\n\q));

	return ret;
}

";
"bool ll_req_encode(void *req, unsigned char **buf, int *len,
			enum free_mode *mode)
{
	DEBUG((DEBUG_DEBUG, \qin\\n\q));

	size_t size = 0;
	FILE *fp = open_memstream((char **)buf, &size);

	XDR xdr;
	xdrstdio_create(&xdr, fp, XDR_ENCODE);

	bool ret = xdr_ll_req(&xdr, (struct ll_req *)req);

	fflush(fp);
	fclose(fp);

	*len = size;
	*mode = FREE_MODE_FREE;
	DEBUG((DEBUG_DEBUG, \qencode done|ret=%d|encode_len=%d\\n\q,
		ret, *len));
	DEBUG((DEBUG_DEBUG, \qout\\n\q));

	return ret;
}

bool ll_req_decode(unsigned char *buf, int len, void **req,
			enum free_mode *mode)
{
	DEBUG((DEBUG_DEBUG, \qin\\n\q));

	struct ll_req *_req = (struct ll_req *)mp_malloc(g_mp,
		__func__, sizeof(struct ll_req));

	FILE *fp = fmemopen(buf, len, \qr\q);

	XDR xdr;
	xdrstdio_create(&xdr, fp, XDR_DECODE);

	bool ret = xdr_ll_req(&xdr, _req);
	fflush(fp);
	fclose(fp);

	*req = _req;
	*mode = FREE_MODE_MP_FREE;
	DEBUG((DEBUG_DEBUG, \qdecode done|ret=%d\\n\q, ret));
	DEBUG((DEBUG_DEBUG, \qout\\n\q));

	return ret;
}

";
"bool ll_resp_encode(void *req, unsigned char **buf, int *len,
			enum free_mode *mode)
{
	DEBUG((DEBUG_DEBUG, \qin\\n\q));

	size_t size = 0;
	FILE *fp = open_memstream((char **)buf, &size);

	XDR xdr;
	xdrstdio_create(&xdr, fp, XDR_ENCODE);

	bool ret = xdr_ll_resp(&xdr, (struct ll_resp *)req);

	fflush(fp);
	fclose(fp);

	*len = size;
	*mode = FREE_MODE_FREE;
	DEBUG((DEBUG_DEBUG, \qencode done|ret=%d|encode_len=%d\\n\q,
		ret, *len));
	DEBUG((DEBUG_DEBUG, \qout\\n\q));

	return ret;
}

bool ll_resp_decode(unsigned char *buf, int len, void **req,
			enum free_mode *mode)
{
	DEBUG((DEBUG_DEBUG, \qin\\n\q));

	struct ll_resp *_req = (struct ll_resp *)mp_malloc(g_mp,
		__func__, sizeof(struct ll_resp));

	FILE *fp = fmemopen(buf, len, \qr\q);

	XDR xdr;
	xdrstdio_create(&xdr, fp, XDR_DECODE);

	bool ret = xdr_ll_resp(&xdr, _req);
	fflush(fp);
	fclose(fp);

	*req = _req;
	*mode = FREE_MODE_MP_FREE;
	DEBUG((DEBUG_DEBUG, \qdecode done|ret=%d\\n\q, ret));
	DEBUG((DEBUG_DEBUG, \qout\\n\q));

	return ret;
}

";
"bool cd_req_encode(void *req, unsigned char **buf, int *len,
			enum free_mode *mode)
{
	DEBUG((DEBUG_DEBUG, \qin\\n\q));

	size_t size = 0;
	FILE *fp = open_memstream((char **)buf, &size);

	XDR xdr;
	xdrstdio_create(&xdr, fp, XDR_ENCODE);

	bool ret = xdr_cd_req(&xdr, (struct cd_req *)req);

	fflush(fp);
	fclose(fp);

	*len = size;
	*mode = FREE_MODE_FREE;
	DEBUG((DEBUG_DEBUG, \qencode done|ret=%d|encode_len=%d\\n\q,
		ret, *len));
	DEBUG((DEBUG_DEBUG, \qout\\n\q));

	return ret;
}

bool cd_req_decode(unsigned char *buf, int len, void **req,
			enum free_mode *mode)
{
	DEBUG((DEBUG_DEBUG, \qin\\n\q));

	struct cd_req *_req = (struct cd_req *)mp_malloc(g_mp,
		__func__, sizeof(struct cd_req));

	FILE *fp = fmemopen(buf, len, \qr\q);

	XDR xdr;
	xdrstdio_create(&xdr, fp, XDR_DECODE);

	bool ret = xdr_cd_req(&xdr, _req);
	fflush(fp);
	fclose(fp);

	*req = _req;
	*mode = FREE_MODE_MP_FREE;
	DEBUG((DEBUG_DEBUG, \qdecode done|ret=%d\\n\q, ret));
	DEBUG((DEBUG_DEBUG, \qout\\n\q));

	return ret;
}

";
"bool cd_resp_encode(void *req, unsigned char **buf, int *len,
			enum free_mode *mode)
{
	DEBUG((DEBUG_DEBUG, \qin\\n\q));

	size_t size = 0;
	FILE *fp = open_memstream((char **)buf, &size);

	XDR xdr;
	xdrstdio_create(&xdr, fp, XDR_ENCODE);

	bool ret = xdr_cd_resp(&xdr, (struct cd_resp *)req);

	fflush(fp);
	fclose(fp);

	*len = size;
	*mode = FREE_MODE_FREE;
	DEBUG((DEBUG_DEBUG, \qencode done|ret=%d|encode_len=%d\\n\q,
		ret, *len));
	DEBUG((DEBUG_DEBUG, \qout\\n\q));

	return ret;
}

bool cd_resp_decode(unsigned char *buf, int len, void **req,
			enum free_mode *mode)
{
	DEBUG((DEBUG_DEBUG, \qin\\n\q));

	struct cd_resp *_req = (struct cd_resp *)mp_malloc(g_mp,
		__func__, sizeof(struct cd_resp));

	FILE *fp = fmemopen(buf, len, \qr\q);

	XDR xdr;
	xdrstdio_create(&xdr, fp, XDR_DECODE);

	bool ret = xdr_cd_resp(&xdr, _req);
	fflush(fp);
	fclose(fp);

	*req = _req;
	*mode = FREE_MODE_MP_FREE;
	DEBUG((DEBUG_DEBUG, \qdecode done|ret=%d\\n\q, ret));
	DEBUG((DEBUG_DEBUG, \qout\\n\q));

	return ret;
}

";
"bool get_req_encode(void *req, unsigned char **buf, int *len,
			enum free_mode *mode)
{
	DEBUG((DEBUG_DEBUG, \qin\\n\q));

	size_t size = 0;
	FILE *fp = open_memstream((char **)buf, &size);

	XDR xdr;
	xdrstdio_create(&xdr, fp, XDR_ENCODE);

	bool ret = xdr_get_req(&xdr, (struct get_req *)req);

	fflush(fp);
	fclose(fp);

	*len = size;
	*mode = FREE_MODE_FREE;
	DEBUG((DEBUG_DEBUG, \qencode done|ret=%d|encode_len=%d\\n\q,
		ret, *len));
	DEBUG((DEBUG_DEBUG, \qout\\n\q));

	return ret;
}

bool get_req_decode(unsigned char *buf, int len, void **req,
			enum free_mode *mode)
{
	DEBUG((DEBUG_DEBUG, \qin\\n\q));

	struct get_req *_req = (struct get_req *)mp_malloc(g_mp,
		__func__, sizeof(struct get_req));

	FILE *fp = fmemopen(buf, len, \qr\q);

	XDR xdr;
	xdrstdio_create(&xdr, fp, XDR_DECODE);

	bool ret = xdr_get_req(&xdr, _req);
	fflush(fp);
	fclose(fp);

	*req = _req;
	*mode = FREE_MODE_MP_FREE;
	DEBUG((DEBUG_DEBUG, \qdecode done|ret=%d\\n\q, ret));
	DEBUG((DEBUG_DEBUG, \qout\\n\q));

	return ret;
}

";
"bool get_resp_encode(void *req, unsigned char **buf, int *len,
			enum free_mode *mode)
{
	DEBUG((DEBUG_DEBUG, \qin\\n\q));

	size_t size = 0;
	FILE *fp = open_memstream((char **)buf, &size);

	XDR xdr;
	xdrstdio_create(&xdr, fp, XDR_ENCODE);

	bool ret = xdr_get_resp(&xdr, (struct get_resp *)req);

	fflush(fp);
	fclose(fp);

	*len = size;
	*mode = FREE_MODE_FREE;
	DEBUG((DEBUG_DEBUG, \qencode done|ret=%d|encode_len=%d\\n\q,
		ret, *len));
	DEBUG((DEBUG_DEBUG, \qout\\n\q));

	return ret;
}

bool get_resp_decode(unsigned char *buf, int len, void **req,
			enum free_mode *mode)
{
	DEBUG((DEBUG_DEBUG, \qin\\n\q));

	struct get_resp *_req = (struct get_resp *)mp_malloc(g_mp,
		__func__, sizeof(struct get_resp));

	FILE *fp = fmemopen(buf, len, \qr\q);

	XDR xdr;
	xdrstdio_create(&xdr, fp, XDR_DECODE);

	bool ret = xdr_get_resp(&xdr, _req);
	fflush(fp);
	fclose(fp);

	*req = _req;
	*mode = FREE_MODE_MP_FREE;
	DEBUG((DEBUG_DEBUG, \qdecode done|ret=%d\\n\q, ret));
	DEBUG((DEBUG_DEBUG, \qout\\n\q));

	return ret;
}

";
"bool put_req_encode(void *req, unsigned char **buf, int *len,
			enum free_mode *mode)
{
	DEBUG((DEBUG_DEBUG, \qin\\n\q));

	size_t size = 0;
	FILE *fp = open_memstream((char **)buf, &size);

	XDR xdr;
	xdrstdio_create(&xdr, fp, XDR_ENCODE);

	bool ret = xdr_put_req(&xdr, (struct put_req *)req);

	fflush(fp);
	fclose(fp);

	*len = size;
	*mode = FREE_MODE_FREE;
	DEBUG((DEBUG_DEBUG, \qencode done|ret=%d|encode_len=%d\\n\q,
		ret, *len));
	DEBUG((DEBUG_DEBUG, \qout\\n\q));

	return ret;
}

bool put_req_decode(unsigned char *buf, int len, void **req,
			enum free_mode *mode)
{
	DEBUG((DEBUG_DEBUG, \qin\\n\q));

	struct put_req *_req = (struct put_req *)mp_malloc(g_mp,
		__func__, sizeof(struct put_req));

	FILE *fp = fmemopen(buf, len, \qr\q);

	XDR xdr;
	xdrstdio_create(&xdr, fp, XDR_DECODE);

	bool ret = xdr_put_req(&xdr, _req);
	fflush(fp);
	fclose(fp);

	*req = _req;
	*mode = FREE_MODE_MP_FREE;
	DEBUG((DEBUG_DEBUG, \qdecode done|ret=%d\\n\q, ret));
	DEBUG((DEBUG_DEBUG, \qout\\n\q));

	return ret;
}

";
"bool put_resp_encode(void *req, unsigned char **buf, int *len,
			enum free_mode *mode)
{
	DEBUG((DEBUG_DEBUG, \qin\\n\q));

	size_t size = 0;
	FILE *fp = open_memstream((char **)buf, &size);

	XDR xdr;
	xdrstdio_create(&xdr, fp, XDR_ENCODE);

	bool ret = xdr_put_resp(&xdr, (struct put_resp *)req);

	fflush(fp);
	fclose(fp);

	*len = size;
	*mode = FREE_MODE_FREE;
	DEBUG((DEBUG_DEBUG, \qencode done|ret=%d|encode_len=%d\\n\q,
		ret, *len));
	DEBUG((DEBUG_DEBUG, \qout\\n\q));

	return ret;
}

bool put_resp_decode(unsigned char *buf, int len, void **req,
			enum free_mode *mode)
{
	DEBUG((DEBUG_DEBUG, \qin\\n\q));

	struct put_resp *_req = (struct put_resp *)mp_malloc(g_mp,
		__func__, sizeof(struct put_resp));

	FILE *fp = fmemopen(buf, len, \qr\q);

	XDR xdr;
	xdrstdio_create(&xdr, fp, XDR_DECODE);

	bool ret = xdr_put_resp(&xdr, _req);
	fflush(fp);
	fclose(fp);

	*req = _req;
	*mode = FREE_MODE_MP_FREE;
	DEBUG((DEBUG_DEBUG, \qdecode done|ret=%d\\n\q, ret));
	DEBUG((DEBUG_DEBUG, \qout\\n\q));

	return ret;
}

";
"bool common_resp_encode(void *req, unsigned char **buf, int *len,
			enum free_mode *mode)
{
	DEBUG((DEBUG_DEBUG, \qin\\n\q));

	size_t size = 0;
	FILE *fp = open_memstream((char **)buf, &size);

	XDR xdr;
	xdrstdio_create(&xdr, fp, XDR_ENCODE);

	bool ret = xdr_common_resp(&xdr, (struct common_resp *)req);

	fflush(fp);
	fclose(fp);

	*len = size;
	*mode = FREE_MODE_FREE;
	DEBUG((DEBUG_DEBUG, \qencode done|ret=%d|encode_len=%d\\n\q,
		ret, *len));
	DEBUG((DEBUG_DEBUG, \qout\\n\q));

	return ret;
}

bool common_resp_decode(unsigned char *buf, int len, void **req,
			enum free_mode *mode)
{
	DEBUG((DEBUG_DEBUG, \qin\\n\q));

	struct common_resp *_req = (struct common_resp *)mp_malloc(g_mp,
		__func__, sizeof(struct common_resp));

	FILE *fp = fmemopen(buf, len, \qr\q);

	XDR xdr;
	xdrstdio_create(&xdr, fp, XDR_DECODE);

	bool ret = xdr_common_resp(&xdr, _req);
	fflush(fp);
	fclose(fp);

	*req = _req;
	*mode = FREE_MODE_MP_FREE;
	DEBUG((DEBUG_DEBUG, \qdecode done|ret=%d\\n\q, ret));
	DEBUG((DEBUG_DEBUG, \qout\\n\q));

	return ret;
}

";
"bool write_msg_req_encode(void *req, unsigned char **buf, int *len,
			enum free_mode *mode)
{
	DEBUG((DEBUG_DEBUG, \qin\\n\q));

	size_t size = 0;
	FILE *fp = open_memstream((char **)buf, &size);

	XDR xdr;
	xdrstdio_create(&xdr, fp, XDR_ENCODE);

	bool ret = xdr_write_msg_req(&xdr, (struct write_msg_req *)req);

	fflush(fp);
	fclose(fp);

	*len = size;
	*mode = FREE_MODE_FREE;
	DEBUG((DEBUG_DEBUG, \qencode done|ret=%d|encode_len=%d\\n\q,
		ret, *len));
	DEBUG((DEBUG_DEBUG, \qout\\n\q));

	return ret;
}

bool write_msg_req_decode(unsigned char *buf, int len, void **req,
			enum free_mode *mode)
{
	DEBUG((DEBUG_DEBUG, \qin\\n\q));

	struct write_msg_req *_req = (struct write_msg_req *)mp_malloc(g_mp,
		__func__, sizeof(struct write_msg_req));

	FILE *fp = fmemopen(buf, len, \qr\q);

	XDR xdr;
	xdrstdio_create(&xdr, fp, XDR_DECODE);

	bool ret = xdr_write_msg_req(&xdr, _req);
	fflush(fp);
	fclose(fp);

	*req = _req;
	*mode = FREE_MODE_MP_FREE;
	DEBUG((DEBUG_DEBUG, \qdecode done|ret=%d\\n\q, ret));
	DEBUG((DEBUG_DEBUG, \qout\\n\q));

	return ret;
}

";
"bool read_msg_req_encode(void *req, unsigned char **buf, int *len,
			enum free_mode *mode)
{
	DEBUG((DEBUG_DEBUG, \qin\\n\q));

	size_t size = 0;
	FILE *fp = open_memstream((char **)buf, &size);

	XDR xdr;
	xdrstdio_create(&xdr, fp, XDR_ENCODE);

	bool ret = xdr_read_msg_req(&xdr, (struct read_msg_req *)req);

	fflush(fp);
	fclose(fp);

	*len = size;
	*mode = FREE_MODE_FREE;
	DEBUG((DEBUG_DEBUG, \qencode done|ret=%d|encode_len=%d\\n\q,
		ret, *len));
	DEBUG((DEBUG_DEBUG, \qout\\n\q));

	return ret;
}

bool read_msg_req_decode(unsigned char *buf, int len, void **req,
			enum free_mode *mode)
{
	DEBUG((DEBUG_DEBUG, \qin\\n\q));

	struct read_msg_req *_req = (struct read_msg_req *)mp_malloc(g_mp,
		__func__, sizeof(struct read_msg_req));

	FILE *fp = fmemopen(buf, len, \qr\q);

	XDR xdr;
	xdrstdio_create(&xdr, fp, XDR_DECODE);

	bool ret = xdr_read_msg_req(&xdr, _req);
	fflush(fp);
	fclose(fp);

	*req = _req;
	*mode = FREE_MODE_MP_FREE;
	DEBUG((DEBUG_DEBUG, \qdecode done|ret=%d\\n\q, ret));
	DEBUG((DEBUG_DEBUG, \qout\\n\q));

	return ret;
}

";
"bool read_msg_resp_encode(void *req, unsigned char **buf, int *len,
			enum free_mode *mode)
{
	DEBUG((DEBUG_DEBUG, \qin\\n\q));

	size_t size = 0;
	FILE *fp = open_memstream((char **)buf, &size);

	XDR xdr;
	xdrstdio_create(&xdr, fp, XDR_ENCODE);

	bool ret = xdr_read_msg_resp(&xdr, (struct read_msg_resp *)req);

	fflush(fp);
	fclose(fp);

	*len = size;
	*mode = FREE_MODE_FREE;
	DEBUG((DEBUG_DEBUG, \qencode done|ret=%d|encode_len=%d\\n\q,
		ret, *len));
	DEBUG((DEBUG_DEBUG, \qout\\n\q));

	return ret;
}

bool read_msg_resp_decode(unsigned char *buf, int len, void **req,
			enum free_mode *mode)
{
	DEBUG((DEBUG_DEBUG, \qin\\n\q));

	struct read_msg_resp *_req = (struct read_msg_resp *)mp_malloc(g_mp,
		__func__, sizeof(struct read_msg_resp));

	FILE *fp = fmemopen(buf, len, \qr\q);

	XDR xdr;
	xdrstdio_create(&xdr, fp, XDR_DECODE);

	bool ret = xdr_read_msg_resp(&xdr, _req);
	fflush(fp);
	fclose(fp);

	*req = _req;
	*mode = FREE_MODE_MP_FREE;
	DEBUG((DEBUG_DEBUG, \qdecode done|ret=%d\\n\q, ret));
	DEBUG((DEBUG_DEBUG, \qout\\n\q));

	return ret;
}

";
"bool mp_stat_req_encode(void *req, unsigned char **buf, int *len,
			enum free_mode *mode)
{
	DEBUG((DEBUG_DEBUG, \qin\\n\q));

	size_t size = 0;
	FILE *fp = open_memstream((char **)buf, &size);

	XDR xdr;
	xdrstdio_create(&xdr, fp, XDR_ENCODE);

	bool ret = xdr_mp_stat_req(&xdr, (struct mp_stat_req *)req);

	fflush(fp);
	fclose(fp);

	*len = size;
	*mode = FREE_MODE_FREE;
	DEBUG((DEBUG_DEBUG, \qencode done|ret=%d|encode_len=%d\\n\q,
		ret, *len));
	DEBUG((DEBUG_DEBUG, \qout\\n\q));

	return ret;
}

bool mp_stat_req_decode(unsigned char *buf, int len, void **req,
			enum free_mode *mode)
{
	DEBUG((DEBUG_DEBUG, \qin\\n\q));

	struct mp_stat_req *_req = (struct mp_stat_req *)mp_malloc(g_mp,
		__func__, sizeof(struct mp_stat_req));

	FILE *fp = fmemopen(buf, len, \qr\q);

	XDR xdr;
	xdrstdio_create(&xdr, fp, XDR_DECODE);

	bool ret = xdr_mp_stat_req(&xdr, _req);
	fflush(fp);
	fclose(fp);

	*req = _req;
	*mode = FREE_MODE_MP_FREE;
	DEBUG((DEBUG_DEBUG, \qdecode done|ret=%d\\n\q, ret));
	DEBUG((DEBUG_DEBUG, \qout\\n\q));

	return ret;
}

";
"bool mp_stat_resp_encode(void *req, unsigned char **buf, int *len,
			enum free_mode *mode)
{
	DEBUG((DEBUG_DEBUG, \qin\\n\q));

	size_t size = 0;
	FILE *fp = open_memstream((char **)buf, &size);

	XDR xdr;
	xdrstdio_create(&xdr, fp, XDR_ENCODE);

	bool ret = xdr_mp_stat_resp(&xdr, (struct mp_stat_resp *)req);

	fflush(fp);
	fclose(fp);

	*len = size;
	*mode = FREE_MODE_FREE;
	DEBUG((DEBUG_DEBUG, \qencode done|ret=%d|encode_len=%d\\n\q,
		ret, *len));
	DEBUG((DEBUG_DEBUG, \qout\\n\q));

	return ret;
}

bool mp_stat_resp_decode(unsigned char *buf, int len, void **req,
			enum free_mode *mode)
{
	DEBUG((DEBUG_DEBUG, \qin\\n\q));

	struct mp_stat_resp *_req = (struct mp_stat_resp *)mp_malloc(g_mp,
		__func__, sizeof(struct mp_stat_resp));

	FILE *fp = fmemopen(buf, len, \qr\q);

	XDR xdr;
	xdrstdio_create(&xdr, fp, XDR_DECODE);

	bool ret = xdr_mp_stat_resp(&xdr, _req);
	fflush(fp);
	fclose(fp);

	*req = _req;
	*mode = FREE_MODE_MP_FREE;
	DEBUG((DEBUG_DEBUG, \qdecode done|ret=%d\\n\q, ret));
	DEBUG((DEBUG_DEBUG, \qout\\n\q));

	return ret;
}

";
"bool directcmd_req_encode(void *req, unsigned char **buf, int *len,
			enum free_mode *mode)
{
	DEBUG((DEBUG_DEBUG, \qin\\n\q));

	size_t size = 0;
	FILE *fp = open_memstream((char **)buf, &size);

	XDR xdr;
	xdrstdio_create(&xdr, fp, XDR_ENCODE);

	bool ret = xdr_directcmd_req(&xdr, (struct directcmd_req *)req);

	fflush(fp);
	fclose(fp);

	*len = size;
	*mode = FREE_MODE_FREE;
	DEBUG((DEBUG_DEBUG, \qencode done|ret=%d|encode_len=%d\\n\q,
		ret, *len));
	DEBUG((DEBUG_DEBUG, \qout\\n\q));

	return ret;
}

bool directcmd_req_decode(unsigned char *buf, int len, void **req,
			enum free_mode *mode)
{
	DEBUG((DEBUG_DEBUG, \qin\\n\q));

	struct directcmd_req *_req = (struct directcmd_req *)mp_malloc(g_mp,
		__func__, sizeof(struct directcmd_req));

	FILE *fp = fmemopen(buf, len, \qr\q);

	XDR xdr;
	xdrstdio_create(&xdr, fp, XDR_DECODE);

	bool ret = xdr_directcmd_req(&xdr, _req);
	fflush(fp);
	fclose(fp);

	*req = _req;
	*mode = FREE_MODE_MP_FREE;
	DEBUG((DEBUG_DEBUG, \qdecode done|ret=%d\\n\q, ret));
	DEBUG((DEBUG_DEBUG, \qout\\n\q));

	return ret;
}

";
"bool directcmd_resp_encode(void *req, unsigned char **buf, int *len,
			enum free_mode *mode)
{
	DEBUG((DEBUG_DEBUG, \qin\\n\q));

	size_t size = 0;
	FILE *fp = open_memstream((char **)buf, &size);

	XDR xdr;
	xdrstdio_create(&xdr, fp, XDR_ENCODE);

	bool ret = xdr_directcmd_resp(&xdr, (struct directcmd_resp *)req);

	fflush(fp);
	fclose(fp);

	*len = size;
	*mode = FREE_MODE_FREE;
	DEBUG((DEBUG_DEBUG, \qencode done|ret=%d|encode_len=%d\\n\q,
		ret, *len));
	DEBUG((DEBUG_DEBUG, \qout\\n\q));

	return ret;
}

bool directcmd_resp_decode(unsigned char *buf, int len, void **req,
			enum free_mode *mode)
{
	DEBUG((DEBUG_DEBUG, \qin\\n\q));

	struct directcmd_resp *_req = (struct directcmd_resp *)mp_malloc(g_mp,
		__func__, sizeof(struct directcmd_resp));

	FILE *fp = fmemopen(buf, len, \qr\q);

	XDR xdr;
	xdrstdio_create(&xdr, fp, XDR_DECODE);

	bool ret = xdr_directcmd_resp(&xdr, _req);
	fflush(fp);
	fclose(fp);

	*req = _req;
	*mode = FREE_MODE_MP_FREE;
	DEBUG((DEBUG_DEBUG, \qdecode done|ret=%d\\n\q, ret));
	DEBUG((DEBUG_DEBUG, \qout\\n\q));

	return ret;
}

";
"bool who_req_encode(void *req, unsigned char **buf, int *len,
			enum free_mode *mode)
{
	DEBUG((DEBUG_DEBUG, \qin\\n\q));

	size_t size = 0;
	FILE *fp = open_memstream((char **)buf, &size);

	XDR xdr;
	xdrstdio_create(&xdr, fp, XDR_ENCODE);

	bool ret = xdr_who_req(&xdr, (struct who_req *)req);

	fflush(fp);
	fclose(fp);

	*len = size;
	*mode = FREE_MODE_FREE;
	DEBUG((DEBUG_DEBUG, \qencode done|ret=%d|encode_len=%d\\n\q,
		ret, *len));
	DEBUG((DEBUG_DEBUG, \qout\\n\q));

	return ret;
}

bool who_req_decode(unsigned char *buf, int len, void **req,
			enum free_mode *mode)
{
	DEBUG((DEBUG_DEBUG, \qin\\n\q));

	struct who_req *_req = (struct who_req *)mp_malloc(g_mp,
		__func__, sizeof(struct who_req));

	FILE *fp = fmemopen(buf, len, \qr\q);

	XDR xdr;
	xdrstdio_create(&xdr, fp, XDR_DECODE);

	bool ret = xdr_who_req(&xdr, _req);
	fflush(fp);
	fclose(fp);

	*req = _req;
	*mode = FREE_MODE_MP_FREE;
	DEBUG((DEBUG_DEBUG, \qdecode done|ret=%d\\n\q, ret));
	DEBUG((DEBUG_DEBUG, \qout\\n\q));

	return ret;
}

";
"bool who_resp_encode(void *req, unsigned char **buf, int *len,
			enum free_mode *mode)
{
	DEBUG((DEBUG_DEBUG, \qin\\n\q));

	size_t size = 0;
	FILE *fp = open_memstream((char **)buf, &size);

	XDR xdr;
	xdrstdio_create(&xdr, fp, XDR_ENCODE);

	bool ret = xdr_who_resp(&xdr, (struct who_resp *)req);

	fflush(fp);
	fclose(fp);

	*len = size;
	*mode = FREE_MODE_FREE;
	DEBUG((DEBUG_DEBUG, \qencode done|ret=%d|encode_len=%d\\n\q,
		ret, *len));
	DEBUG((DEBUG_DEBUG, \qout\\n\q));

	return ret;
}

bool who_resp_decode(unsigned char *buf, int len, void **req,
			enum free_mode *mode)
{
	DEBUG((DEBUG_DEBUG, \qin\\n\q));

	struct who_resp *_req = (struct who_resp *)mp_malloc(g_mp,
		__func__, sizeof(struct who_resp));

	FILE *fp = fmemopen(buf, len, \qr\q);

	XDR xdr;
	xdrstdio_create(&xdr, fp, XDR_DECODE);

	bool ret = xdr_who_resp(&xdr, _req);
	fflush(fp);
	fclose(fp);

	*req = _req;
	*mode = FREE_MODE_MP_FREE;
	DEBUG((DEBUG_DEBUG, \qdecode done|ret=%d\\n\q, ret));
	DEBUG((DEBUG_DEBUG, \qout\\n\q));

	return ret;
}

";
"bool write_req_encode(void *req, unsigned char **buf, int *len,
			enum free_mode *mode)
{
	DEBUG((DEBUG_DEBUG, \qin\\n\q));

	size_t size = 0;
	FILE *fp = open_memstream((char **)buf, &size);

	XDR xdr;
	xdrstdio_create(&xdr, fp, XDR_ENCODE);

	bool ret = xdr_write_req(&xdr, (struct write_req *)req);

	fflush(fp);
	fclose(fp);

	*len = size;
	*mode = FREE_MODE_FREE;
	DEBUG((DEBUG_DEBUG, \qencode done|ret=%d|encode_len=%d\\n\q,
		ret, *len));
	DEBUG((DEBUG_DEBUG, \qout\\n\q));

	return ret;
}

bool write_req_decode(unsigned char *buf, int len, void **req,
			enum free_mode *mode)
{
	DEBUG((DEBUG_DEBUG, \qin\\n\q));

	struct write_req *_req = (struct write_req *)mp_malloc(g_mp,
		__func__, sizeof(struct write_req));

	FILE *fp = fmemopen(buf, len, \qr\q);

	XDR xdr;
	xdrstdio_create(&xdr, fp, XDR_DECODE);

	bool ret = xdr_write_req(&xdr, _req);
	fflush(fp);
	fclose(fp);

	*req = _req;
	*mode = FREE_MODE_MP_FREE;
	DEBUG((DEBUG_DEBUG, \qdecode done|ret=%d\\n\q, ret));
	DEBUG((DEBUG_DEBUG, \qout\\n\q));

	return ret;
}

";
"bool write_resp_encode(void *req, unsigned char **buf, int *len,
			enum free_mode *mode)
{
	DEBUG((DEBUG_DEBUG, \qin\\n\q));

	size_t size = 0;
	FILE *fp = open_memstream((char **)buf, &size);

	XDR xdr;
	xdrstdio_create(&xdr, fp, XDR_ENCODE);

	bool ret = xdr_write_resp(&xdr, (struct write_resp *)req);

	fflush(fp);
	fclose(fp);

	*len = size;
	*mode = FREE_MODE_FREE;
	DEBUG((DEBUG_DEBUG, \qencode done|ret=%d|encode_len=%d\\n\q,
		ret, *len));
	DEBUG((DEBUG_DEBUG, \qout\\n\q));

	return ret;
}

bool write_resp_decode(unsigned char *buf, int len, void **req,
			enum free_mode *mode)
{
	DEBUG((DEBUG_DEBUG, \qin\\n\q));

	struct write_resp *_req = (struct write_resp *)mp_malloc(g_mp,
		__func__, sizeof(struct write_resp));

	FILE *fp = fmemopen(buf, len, \qr\q);

	XDR xdr;
	xdrstdio_create(&xdr, fp, XDR_DECODE);

	bool ret = xdr_write_resp(&xdr, _req);
	fflush(fp);
	fclose(fp);

	*req = _req;
	*mode = FREE_MODE_MP_FREE;
	DEBUG((DEBUG_DEBUG, \qdecode done|ret=%d\\n\q, ret));
	DEBUG((DEBUG_DEBUG, \qout\\n\q));

	return ret;
}

";
"bool port_update_req_encode(void *req, unsigned char **buf, int *len,
			enum free_mode *mode)
{
	DEBUG((DEBUG_DEBUG, \qin\\n\q));

	size_t size = 0;
	FILE *fp = open_memstream((char **)buf, &size);

	XDR xdr;
	xdrstdio_create(&xdr, fp, XDR_ENCODE);

	bool ret = xdr_port_update_req(&xdr, (struct port_update_req *)req);

	fflush(fp);
	fclose(fp);

	*len = size;
	*mode = FREE_MODE_FREE;
	DEBUG((DEBUG_DEBUG, \qencode done|ret=%d|encode_len=%d\\n\q,
		ret, *len));
	DEBUG((DEBUG_DEBUG, \qout\\n\q));

	return ret;
}

bool port_update_req_decode(unsigned char *buf, int len, void **req,
			enum free_mode *mode)
{
	DEBUG((DEBUG_DEBUG, \qin\\n\q));

	struct port_update_req *_req = (struct port_update_req *)mp_malloc(g_mp,
		__func__, sizeof(struct port_update_req));

	FILE *fp = fmemopen(buf, len, \qr\q);

	XDR xdr;
	xdrstdio_create(&xdr, fp, XDR_DECODE);

	bool ret = xdr_port_update_req(&xdr, _req);
	fflush(fp);
	fclose(fp);

	*req = _req;
	*mode = FREE_MODE_MP_FREE;
	DEBUG((DEBUG_DEBUG, \qdecode done|ret=%d\\n\q, ret));
	DEBUG((DEBUG_DEBUG, \qout\\n\q));

	return ret;
}

";
"bool port_update_resp_encode(void *req, unsigned char **buf, int *len,
			enum free_mode *mode)
{
	DEBUG((DEBUG_DEBUG, \qin\\n\q));

	size_t size = 0;
	FILE *fp = open_memstream((char **)buf, &size);

	XDR xdr;
	xdrstdio_create(&xdr, fp, XDR_ENCODE);

	bool ret = xdr_port_update_resp(&xdr, (struct port_update_resp *)req);

	fflush(fp);
	fclose(fp);

	*len = size;
	*mode = FREE_MODE_FREE;
	DEBUG((DEBUG_DEBUG, \qencode done|ret=%d|encode_len=%d\\n\q,
		ret, *len));
	DEBUG((DEBUG_DEBUG, \qout\\n\q));

	return ret;
}

bool port_update_resp_decode(unsigned char *buf, int len, void **req,
			enum free_mode *mode)
{
	DEBUG((DEBUG_DEBUG, \qin\\n\q));

	struct port_update_resp *_req = (struct port_update_resp *)mp_malloc(g_mp,
		__func__, sizeof(struct port_update_resp));

	FILE *fp = fmemopen(buf, len, \qr\q);

	XDR xdr;
	xdrstdio_create(&xdr, fp, XDR_DECODE);

	bool ret = xdr_port_update_resp(&xdr, _req);
	fflush(fp);
	fclose(fp);

	*req = _req;
	*mode = FREE_MODE_MP_FREE;
	DEBUG((DEBUG_DEBUG, \qdecode done|ret=%d\\n\q, ret));
	DEBUG((DEBUG_DEBUG, \qout\\n\q));

	return ret;
}

";
"bool reconnect_req_encode(void *req, unsigned char **buf, int *len,
			enum free_mode *mode)
{
	DEBUG((DEBUG_DEBUG, \qin\\n\q));

	size_t size = 0;
	FILE *fp = open_memstream((char **)buf, &size);

	XDR xdr;
	xdrstdio_create(&xdr, fp, XDR_ENCODE);

	bool ret = xdr_reconnect_req(&xdr, (struct reconnect_req *)req);

	fflush(fp);
	fclose(fp);

	*len = size;
	*mode = FREE_MODE_FREE;
	DEBUG((DEBUG_DEBUG, \qencode done|ret=%d|encode_len=%d\\n\q,
		ret, *len));
	DEBUG((DEBUG_DEBUG, \qout\\n\q));

	return ret;
}

bool reconnect_req_decode(unsigned char *buf, int len, void **req,
			enum free_mode *mode)
{
	DEBUG((DEBUG_DEBUG, \qin\\n\q));

	struct reconnect_req *_req = (struct reconnect_req *)mp_malloc(g_mp,
		__func__, sizeof(struct reconnect_req));

	FILE *fp = fmemopen(buf, len, \qr\q);

	XDR xdr;
	xdrstdio_create(&xdr, fp, XDR_DECODE);

	bool ret = xdr_reconnect_req(&xdr, _req);
	fflush(fp);
	fclose(fp);

	*req = _req;
	*mode = FREE_MODE_MP_FREE;
	DEBUG((DEBUG_DEBUG, \qdecode done|ret=%d\\n\q, ret));
	DEBUG((DEBUG_DEBUG, \qout\\n\q));

	return ret;
}

";
"bool reconnect_resp_encode(void *req, unsigned char **buf, int *len,
			enum free_mode *mode)
{
	DEBUG((DEBUG_DEBUG, \qin\\n\q));

	size_t size = 0;
	FILE *fp = open_memstream((char **)buf, &size);

	XDR xdr;
	xdrstdio_create(&xdr, fp, XDR_ENCODE);

	bool ret = xdr_reconnect_resp(&xdr, (struct reconnect_resp *)req);

	fflush(fp);
	fclose(fp);

	*len = size;
	*mode = FREE_MODE_FREE;
	DEBUG((DEBUG_DEBUG, \qencode done|ret=%d|encode_len=%d\\n\q,
		ret, *len));
	DEBUG((DEBUG_DEBUG, \qout\\n\q));

	return ret;
}

bool reconnect_resp_decode(unsigned char *buf, int len, void **req,
			enum free_mode *mode)
{
	DEBUG((DEBUG_DEBUG, \qin\\n\q));

	struct reconnect_resp *_req = (struct reconnect_resp *)mp_malloc(g_mp,
		__func__, sizeof(struct reconnect_resp));

	FILE *fp = fmemopen(buf, len, \qr\q);

	XDR xdr;
	xdrstdio_create(&xdr, fp, XDR_DECODE);

	bool ret = xdr_reconnect_resp(&xdr, _req);
	fflush(fp);
	fclose(fp);

	*req = _req;
	*mode = FREE_MODE_MP_FREE;
	DEBUG((DEBUG_DEBUG, \qdecode done|ret=%d\\n\q, ret));
	DEBUG((DEBUG_DEBUG, \qout\\n\q));

	return ret;
}
"].

(** ** What is printed, without the text before it *)

Definition print_pair (name : text) : text := GenXdr.output_encode name [] ++ GenXdr.output_decode name [].

Fixpoint print_pairs (names : list text) : text :=
  match names with [] => [] | [name] => print_pair name | name :: names => print_pair name ++ newline :: print_pairs names end.

Lemma output_encode_app name out : GenXdr.output_encode name out = out ++ GenXdr.output_encode name [].
Proof. unfold GenXdr.output_encode, fprintf. rewrite <- !app_assoc. done. Qed.

Lemma output_decode_app name out : GenXdr.output_decode name out = out ++ GenXdr.output_decode name [].
Proof. unfold GenXdr.output_decode, fprintf. rewrite <- !app_assoc. done. Qed.

Lemma output_names_prints names : forall out, output_names names out = out ++ print_pairs names.
Proof.
  induction names as [|name names IH]; intros out; [by rewrite app_nil_r|]. cbn [output_names]. rewrite IH.
  rewrite output_decode_app, output_encode_app. destruct names as [|n2 names]; cbn [print_pairs]; unfold print_pair.
  - by rewrite <- !app_assoc, app_nil_r.
  - unfold fprintf. rewrite <- !app_assoc. done.
Qed.

Fixpoint text_eqb (a b : text) : bool :=
  match a, b with [], [] => true | x :: a, y :: b => if x =? y then text_eqb a b else false | _, _ => false end.

Lemma text_eqb_eq a : forall b, text_eqb a b = true -> a = b.
Proof. induction a as [|x a IH]; intros [|y b] H; try done. cbn [text_eqb] in H. destruct (Z.eqb_spec x y) as [->|]; [f_equal; by apply IH|done]. Qed.

(** ** The functions of src/serialize.c *)

Record xdr_functions := XdrFunctions { xf_name : string; xf_object : ctype; xf_encode : list Z -> option encoded; xf_decode : list Z -> Z -> option decoded }.

Definition protocol_names : list text := map ascii_bytes [
  "channel_info_req"; "channel_info_resp"; "validate_req"; "validate_resp"; "append_conn_req"; "append_conn_resp";
  "pwd_req"; "pwd_resp"; "ll_req"; "ll_resp"; "cd_req"; "cd_resp";
  "get_req"; "get_resp"; "put_req"; "put_resp"; "common_resp"; "write_msg_req";
  "read_msg_req"; "read_msg_resp"; "mp_stat_req"; "mp_stat_resp"; "directcmd_req"; "directcmd_resp";
  "who_req"; "who_resp"; "write_req"; "write_resp"; "port_update_req"; "port_update_resp";
  "reconnect_req"; "reconnect_resp"]%string.

Lemma protocol_names_found : struct_names (S (length (c_str (ascii_bytes req_resp_x)))) (c_str (ascii_bytes req_resp_x)) [] = Some protocol_names.
Proof. vm_compute. reflexivity. Qed.

Lemma serialize_h_text : GenXdr.h_text protocol_names = format serialize_h [].
Proof. apply text_eqb_eq. vm_compute. reflexivity. Qed.

Lemma serialize_c_text : GenXdr.c_includes ++ print_pairs protocol_names = concat (map (fun piece => format piece []) serialize_c).
Proof. apply text_eqb_eq. vm_compute. reflexivity. Qed.

(** C10: The generator makes src/serialize.c and include/serialize.h, to the letter,
    of xdr/req_resp.x. *)
Theorem serialize_c_generated fs fs1 fs2 prog xdr_file h_file c_file :
  fopen_r fs xdr_file = Some (ascii_bytes req_resp_x) -> fopen_w fs h_file = Some fs1 ->
  fopen_w (fappend fs1 h_file (format serialize_h [])) c_file = Some fs2 -> canon h_file <> canon c_file ->
  exists fs', GenXdr.main fs [prog; xdr_file; h_file; c_file] = Some (fs', 0)
    /\ fopen_r fs' h_file = Some (format serialize_h []) /\ fopen_r fs' c_file = Some (concat (map (fun piece => format piece []) serialize_c)).
Proof.
  intros Hx Hh Hc Hd. exists (fappend fs2 c_file (concat (map (fun piece => format piece []) serialize_c))). split_and!.
  - unfold GenXdr.main, GenXdr.get_struct_list, file_size. rewrite Hx. rewrite (proj2 (Z.ltb_ge _ _)) by (apply Z.leb_le; vm_compute; reflexivity).
    cbn [mbind option_bind]. rewrite protocol_names_found. cbn [mbind option_bind]. change (0 =? -1) with false. cbv iota.
    rewrite <- serialize_h_text in Hc. rewrite (gen_serialize_writes _ _ _ _ _ _ (ltac:(discriminate) : protocol_names <> []) Hh Hc). cbn [mbind option_bind].
    change (0 =? -1) with false. cbv iota. by rewrite output_names_prints, serialize_c_text.
  - by apply (written_kept _ _ _ _ _ _ _ Hh Hc Hd).
  - by apply (fopen_w_written _ _ _ _ Hc).
Qed.

Section Functions.
Context `{XdrLib}.

Definition functions_of_serialize_c : list xdr_functions := [
  XdrFunctions "channel_info_req" channel_info_req channel_info_req_encode channel_info_req_decode;
  XdrFunctions "channel_info_resp" channel_info_resp channel_info_resp_encode channel_info_resp_decode;
  XdrFunctions "validate_req" validate_req validate_req_encode validate_req_decode;
  XdrFunctions "validate_resp" validate_resp validate_resp_encode validate_resp_decode;
  XdrFunctions "append_conn_req" append_conn_req append_conn_req_encode append_conn_req_decode;
  XdrFunctions "append_conn_resp" append_conn_resp append_conn_resp_encode append_conn_resp_decode;
  XdrFunctions "pwd_req" pwd_req pwd_req_encode pwd_req_decode;
  XdrFunctions "pwd_resp" pwd_resp pwd_resp_encode pwd_resp_decode;
  XdrFunctions "ll_req" ll_req ll_req_encode ll_req_decode;
  XdrFunctions "ll_resp" ll_resp ll_resp_encode ll_resp_decode;
  XdrFunctions "cd_req" cd_req cd_req_encode cd_req_decode;
  XdrFunctions "cd_resp" cd_resp cd_resp_encode cd_resp_decode;
  XdrFunctions "get_req" get_req get_req_encode get_req_decode;
  XdrFunctions "get_resp" get_resp get_resp_encode get_resp_decode;
  XdrFunctions "put_req" put_req put_req_encode put_req_decode;
  XdrFunctions "put_resp" put_resp put_resp_encode put_resp_decode;
  XdrFunctions "common_resp" common_resp common_resp_encode common_resp_decode;
  XdrFunctions "write_msg_req" write_msg_req write_msg_req_encode write_msg_req_decode;
  XdrFunctions "read_msg_req" read_msg_req read_msg_req_encode read_msg_req_decode;
  XdrFunctions "read_msg_resp" read_msg_resp read_msg_resp_encode read_msg_resp_decode;
  XdrFunctions "mp_stat_req" mp_stat_req mp_stat_req_encode mp_stat_req_decode;
  XdrFunctions "mp_stat_resp" mp_stat_resp mp_stat_resp_encode mp_stat_resp_decode;
  XdrFunctions "directcmd_req" directcmd_req directcmd_req_encode directcmd_req_decode;
  XdrFunctions "directcmd_resp" directcmd_resp directcmd_resp_encode directcmd_resp_decode;
  XdrFunctions "who_req" who_req who_req_encode who_req_decode;
  XdrFunctions "who_resp" who_resp who_resp_encode who_resp_decode;
  XdrFunctions "write_req" write_req write_req_encode write_req_decode;
  XdrFunctions "write_resp" write_resp write_resp_encode write_resp_decode;
  XdrFunctions "port_update_req" port_update_req port_update_req_encode port_update_req_decode;
  XdrFunctions "port_update_resp" port_update_resp port_update_resp_encode port_update_resp_decode;
  XdrFunctions "reconnect_req" reconnect_req reconnect_req_encode reconnect_req_decode;
  XdrFunctions "reconnect_resp" reconnect_resp reconnect_resp_encode reconnect_resp_decode].

Lemma functions_named : map (fun r => ascii_bytes (xf_name r)) functions_of_serialize_c = protocol_names.
Proof. reflexivity. Qed.

(** Where the functions of each packet are. *)
Definition handler_rows : list nat := [2; 3; 6; 7; 10; 11; 8; 9; 12; 13; 14; 15; 16; 17; 18; 19; 20; 21; 22; 23; 24; 25; 26; 27; 4; 5; 0; 1; 28; 29; 30; 31]%nat.

Lemma handler_rows_ok : map (fun i => (fun r => (xf_object r, xf_encode r, xf_decode r)) <$> functions_of_serialize_c !! i) handler_rows
  = map (fun h => Some (xh_object h, xh_serialize h, xh_deserialize h)) serializables.
Proof. reflexivity. Qed.

(** Every packet has its functions in that file. *)
Theorem handlers_are_generated i h : serializables !! i = Some h -> exists r, r ∈ functions_of_serialize_c
  /\ xh_object h = xf_object r /\ xh_serialize h = xf_encode r /\ xh_deserialize h = xf_decode r.
Proof.
  intros Hh. pose proof (f_equal (fun l => l !! i) handler_rows_ok) as E. cbv beta in E. rewrite !list_lookup_fmap, Hh in E.
  destruct (handler_rows !! i) as [k|]; [|done]. cbn [fmap option_fmap option_map] in E.
  destruct (functions_of_serialize_c !! k) as [r|] eqn:Hr; [|done]. cbn [fmap option_fmap option_map] in E. injection E as E1 E2 E3.
  exists r. split; [by eapply list_elem_of_lookup_2|]. auto.
Qed.
End Functions.

(** ** A directory with the description in it *)

Definition xdr_fs (data : text) : fsys := Fsys {[ ascii_bytes "/x" := Reg data ]} ∅.
Definition xdr_fs_h (data : text) : fsys := put_node (xdr_fs data) (ascii_bytes "/h") (Reg []).
Definition xdr_fs_c (data h : text) : fsys := put_node (fappend (xdr_fs_h data) (ascii_bytes "/h") h) (ascii_bytes "/c") (Reg []).

Lemma xdr_fs_read data : fopen_r (xdr_fs data) (ascii_bytes "/x") = Some data.
Proof. vm_compute. reflexivity. Qed.

Lemma xdr_fs_open_h data : fopen_w (xdr_fs data) (ascii_bytes "/h") = Some (xdr_fs_h data).
Proof. vm_compute. reflexivity. Qed.

Lemma xdr_fs_open_c data h : fopen_w (fappend (xdr_fs_h data) (ascii_bytes "/h") h) (ascii_bytes "/c") = Some (xdr_fs_c data h).
Proof. vm_compute. reflexivity. Qed.

Lemma serialize_c_generated_witness :
  exists fs', GenXdr.main (xdr_fs (ascii_bytes req_resp_x)) [ascii_bytes "gen"; ascii_bytes "/x"; ascii_bytes "/h"; ascii_bytes "/c"] = Some (fs', 0)
    /\ fopen_r fs' (ascii_bytes "/h") = Some (format serialize_h [])
    /\ fopen_r fs' (ascii_bytes "/c") = Some (concat (map (fun piece => format piece []) serialize_c)).
Proof.
  exact (serialize_c_generated _ _ _ (ascii_bytes "gen") _ _ _ (xdr_fs_read _) (xdr_fs_open_h _) (xdr_fs_open_c _ _) ltac:(discriminate)).
Defined.
