(* ===== verification/GenTrans.v ===== *)
(** * The generator of the reply functions (xdr/gen_trans.c)

    It looks for the structures of replies in a description and writes for each
    the function that fills in the status and sends it: src/trans.c and
    include/trans.h.  The texts of these two files are here, and that they are
    what the generator makes of xdr/req_resp.x.  Texts are printed as in
    GenSource; in the literals [\q] is a double quote. *)

From S2P Require Import Prelude CStr FileSystem Layout GenParse GenSource GenReqResp GenRender GenCorrect GenXdr GenXdrText.

Definition PACKET_TYPE_BUF_LEN : nat := 128.

(** ** Which structures *)

(** 0: the structure is a reply. *)
Definition req_resp_filter (struct_name : text) : Z := if endswith struct_name (ascii_bytes "_resp") then 0 else 1.

Definition add_resp_name (struct_name : text) (l : list text) : option (list text) :=
  if negb (length struct_name <? NAME_BUF_LEN)%nat then None else
  Some (if req_resp_filter struct_name =? 0 then l ++ [struct_name] else l).

Fixpoint resp_names (fuel : nat) (p : text) (l : list text) : option (list text) :=
  match fuel with
  | O => None
  | S fuel =>
      match fetch_next_str p with
      | None => Some l
      | Some (key_word, p) =>
          if negb (bool_decide (key_word = ascii_bytes "struct")) then resp_names fuel p l else
          match fetch_next_str p with
          | None => Some l
          | Some (struct_name, p) =>
              match strchr struct_name brace_open with
              | Some (struct_name, _) => l ← add_resp_name struct_name l; resp_names fuel p l
              | None =>
                  match fetch_next_str p with
                  | None => Some l
                  | Some (word, p) =>
                      if char_at word 0 =? brace_open then l ← add_resp_name struct_name l; resp_names fuel p l
                      else resp_names fuel p l
                  end
              end
          end
      end
  end.

Definition get_struct_list (fs : fsys) (xdr_file : text) : option (list text * Z) :=
  if SZ_1MB <? Z.of_nat (file_size fs xdr_file) then Some ([], -1) else
  data ← fopen_r fs xdr_file;
  l ← resp_names (S (length (c_str data))) (c_str data) [];
  Some (l, 0).

(** ** What is written *)

Definition toupper (c : Z) : Z := if (97 <=? c) && (c <=? 122) then c - 32 else c.

Open Scope string_scope.

Definition h_text (names : list text) : text :=
  let out := fprintf "/*\n * Automatically generated - do not edit\n */\n\n" [] [] in
  let out := fprintf "#ifndef _TRANS_H_\n" [] out in
  let out := fprintf "#define _TRANS_H_\n\n" [] out in
  let out := fprintf "#include \qpacket.h\q\n\n" [] out in
  let out := foldl (fun out name =>
    fprintf "int send_%s(int fd, struct sftt_packet *resp_packet,\n\tstruct %s *resp, int code, int flags);\n\n" [name; name] out) out names in
  fprintf "#endif\n" [] out.

(** [None] when the array is too small. *)
Definition get_packet_type (name : text) : option text :=
  let packet_type := (ascii_bytes "PACKET_TYPE_" ++ map toupper name)%list in
  if (length packet_type <? PACKET_TYPE_BUF_LEN)%nat then Some packet_type else None.

Definition output_send_resp (name out : text) : option text :=
  let out := fprintf "int send_%s(int fd, struct sftt_packet *resp_packet,\n\tstruct %s *resp, int code, int flags)\n" [name; name] out in
  let out := fprintf "{\n" [] out in
  let out := fprintf "\tresp->status = code;\n" [] out in
  let out := fprintf "\tstrncpy(resp->message, resp_messages[code], RESP_MESSAGE_MAX_LEN - 1);\n" [] out in
  let out := fprintf "\tresp->flags = flags;\n\n" [] out in
  let out := fprintf "\tresp_packet->obj = resp;\n" [] out in
  packet_type ← get_packet_type name;
  let out := fprintf "\tresp_packet->type = %s;\n" [packet_type] out in
  let out := fprintf "\treturn send_sftt_packet(fd, resp_packet);\n" [] out in
  Some (fprintf "}\n" [] out).

Fixpoint output_resps (names : list text) (out : text) : option text :=
  match names with
  | [] => Some out
  | name :: names =>
      out ← output_send_resp name out;
      output_resps names (match names with [] => out | _ => fprintf "\n" [] out end)
  end.

Definition c_includes : text :=
  let out := fprintf "/*\n * Automatically generated - do not edit\n */\n\n" [] [] in
  let out := fprintf "#include \qnet_trans.h\q\n" [] out in
  let out := fprintf "#include \qreq_resp.h\q\n" [] out in
  let out := fprintf "#include \qresponse.h\q\n" [] out in
  let out := fprintf "#include \qtrans.h\q\n\n" [] out in
  fprintf "extern const char *resp_messages[];\n\n" [] out.

Close Scope string_scope.

(** [assert(head != NULL)] *)
Definition gen_h_file (fs : fsys) (names : list text) (h_file : text) : option (fsys * Z) :=
  match names with
  | [] => None
  | _ => match fopen_w fs h_file with None => Some (fs, -1) | Some fs => Some (fappend fs h_file (h_text names), 0) end
  end.

Definition gen_c_file (fs : fsys) (names : list text) (c_file : text) : option (fsys * Z) :=
  match names with
  | [] => None
  | _ =>
      match fopen_w fs c_file with
      | None => Some (fs, -1)
      | Some fs => out ← output_resps names c_includes; Some (fappend fs c_file out, 0)
      end
  end.

Definition gen_trans (fs : fsys) (names : list text) (h_file c_file : text) : option (fsys * Z) :=
  '(fs, ret) ← gen_h_file fs names h_file;
  if ret =? -1 then Some (fs, -1) else
  '(fs, ret) ← gen_c_file fs names c_file;
  if ret =? -1 then Some (fs, -1) else Some (fs, 0).

Definition main (fs : fsys) (argv : list text) : option (fsys * Z) :=
  match argv with
  | [_; xdr_file; h_file; c_file] =>
      '(head, ret) ← get_struct_list fs xdr_file;
      if ret =? -1 then Some (fs, -1) else
      '(fs, ret) ← gen_trans fs head h_file c_file;
      if ret =? -1 then Some (fs, -1) else Some (fs, 0)
  | _ => Some (fs, -1)
  end.

(** ** The two files of the repository *)

Definition trans_h : string :=
"/*
 * Automatically generated - do not edit
 */

#ifndef _TRANS_H_
#define _TRANS_H_

#include \qpacket.h\q

int send_channel_info_resp(int fd, struct sftt_packet *resp_packet,
	struct channel_info_resp *resp, int code, int flags);

int send_validate_resp(int fd, struct sftt_packet *resp_packet,
	struct validate_resp *resp, int code, int flags);

int send_append_conn_resp(int fd, struct sftt_packet *resp_packet,
	struct append_conn_resp *resp, int code, int flags);

int send_pwd_resp(int fd, struct sftt_packet *resp_packet,
	struct pwd_resp *resp, int code, int flags);

int send_ll_resp(int fd, struct sftt_packet *resp_packet,
	struct ll_resp *resp, int code, int flags);

int send_cd_resp(int fd, struct sftt_packet *resp_packet,
	struct cd_resp *resp, int code, int flags);

int send_get_resp(int fd, struct sftt_packet *resp_packet,
	struct get_resp *resp, int code, int flags);

int send_put_resp(int fd, struct sftt_packet *resp_packet,
	struct put_resp *resp, int code, int flags);

int send_common_resp(int fd, struct sftt_packet *resp_packet,
	struct common_resp *resp, int code, int flags);

int send_read_msg_resp(int fd, struct sftt_packet *resp_packet,
	struct read_msg_resp *resp, int code, int flags);

int send_mp_stat_resp(int fd, struct sftt_packet *resp_packet,
	struct mp_stat_resp *resp, int code, int flags);

int send_directcmd_resp(int fd, struct sftt_packet *resp_packet,
	struct directcmd_resp *resp, int code, int flags);

int send_who_resp(int fd, struct sftt_packet *resp_packet,
	struct who_resp *resp, int code, int flags);

int send_write_resp(int fd, struct sftt_packet *resp_packet,
	struct write_resp *resp, int code, int flags);

int send_port_update_resp(int fd, struct sftt_packet *resp_packet,
	struct port_update_resp *resp, int code, int flags);

int send_reconnect_resp(int fd, struct sftt_packet *resp_packet,
	struct reconnect_resp *resp, int code, int flags);

#endif
".

Definition trans_c : string :=
"/*
 * Automatically generated - do not edit
 */

#include \qnet_trans.h\q
#include \qreq_resp.h\q
#include \qresponse.h\q
#include \qtrans.h\q

extern const char *resp_messages[];

int send_channel_info_resp(int fd, struct sftt_packet *resp_packet,
	struct channel_info_resp *resp, int code, int flags)
{
	resp->status = code;
	strncpy(resp->message, resp_messages[code], RESP_MESSAGE_MAX_LEN - 1);
	resp->flags = flags;

	resp_packet->obj = resp;
	resp_packet->type = PACKET_TYPE_CHANNEL_INFO_RESP;
	return send_sftt_packet(fd, resp_packet);
}

int send_validate_resp(int fd, struct sftt_packet *resp_packet,
	struct validate_resp *resp, int code, int flags)
{
	resp->status = code;
	strncpy(resp->message, resp_messages[code], RESP_MESSAGE_MAX_LEN - 1);
	resp->flags = flags;

	resp_packet->obj = resp;
	resp_packet->type = PACKET_TYPE_VALIDATE_RESP;
	return send_sftt_packet(fd, resp_packet);
}

int send_append_conn_resp(int fd, struct sftt_packet *resp_packet,
	struct append_conn_resp *resp, int code, int flags)
{
	resp->status = code;
	strncpy(resp->message, resp_messages[code], RESP_MESSAGE_MAX_LEN - 1);
	resp->flags = flags;

	resp_packet->obj = resp;
	resp_packet->type = PACKET_TYPE_APPEND_CONN_RESP;
	return send_sftt_packet(fd, resp_packet);
}

int send_pwd_resp(int fd, struct sftt_packet *resp_packet,
	struct pwd_resp *resp, int code, int flags)
{
	resp->status = code;
	strncpy(resp->message, resp_messages[code], RESP_MESSAGE_MAX_LEN - 1);
	resp->flags = flags;

	resp_packet->obj = resp;
	resp_packet->type = PACKET_TYPE_PWD_RESP;
	return send_sftt_packet(fd, resp_packet);
}

int send_ll_resp(int fd, struct sftt_packet *resp_packet,
	struct ll_resp *resp, int code, int flags)
{
	resp->status = code;
	strncpy(resp->message, resp_messages[code], RESP_MESSAGE_MAX_LEN - 1);
	resp->flags = flags;

	resp_packet->obj = resp;
	resp_packet->type = PACKET_TYPE_LL_RESP;
	return send_sftt_packet(fd, resp_packet);
}

int send_cd_resp(int fd, struct sftt_packet *resp_packet,
	struct cd_resp *resp, int code, int flags)
{
	resp->status = code;
	strncpy(resp->message, resp_messages[code], RESP_MESSAGE_MAX_LEN - 1);
	resp->flags = flags;

	resp_packet->obj = resp;
	resp_packet->type = PACKET_TYPE_CD_RESP;
	return send_sftt_packet(fd, resp_packet);
}

int send_get_resp(int fd, struct sftt_packet *resp_packet,
	struct get_resp *resp, int code, int flags)
{
	resp->status = code;
	strncpy(resp->message, resp_messages[code], RESP_MESSAGE_MAX_LEN - 1);
	resp->flags = flags;

	resp_packet->obj = resp;
	resp_packet->type = PACKET_TYPE_GET_RESP;
	return send_sftt_packet(fd, resp_packet);
}

int send_put_resp(int fd, struct sftt_packet *resp_packet,
	struct put_resp *resp, int code, int flags)
{
	resp->status = code;
	strncpy(resp->message, resp_messages[code], RESP_MESSAGE_MAX_LEN - 1);
	resp->flags = flags;

	resp_packet->obj = resp;
	resp_packet->type = PACKET_TYPE_PUT_RESP;
	return send_sftt_packet(fd, resp_packet);
}

int send_common_resp(int fd, struct sftt_packet *resp_packet,
	struct common_resp *resp, int code, int flags)
{
	resp->status = code;
	strncpy(resp->message, resp_messages[code], RESP_MESSAGE_MAX_LEN - 1);
	resp->flags = flags;

	resp_packet->obj = resp;
	resp_packet->type = PACKET_TYPE_COMMON_RESP;
	return send_sftt_packet(fd, resp_packet);
}

int send_read_msg_resp(int fd, struct sftt_packet *resp_packet,
	struct read_msg_resp *resp, int code, int flags)
{
	resp->status = code;
	strncpy(resp->message, resp_messages[code], RESP_MESSAGE_MAX_LEN - 1);
	resp->flags = flags;

	resp_packet->obj = resp;
	resp_packet->type = PACKET_TYPE_READ_MSG_RESP;
	return send_sftt_packet(fd, resp_packet);
}

int send_mp_stat_resp(int fd, struct sftt_packet *resp_packet,
	struct mp_stat_resp *resp, int code, int flags)
{
	resp->status = code;
	strncpy(resp->message, resp_messages[code], RESP_MESSAGE_MAX_LEN - 1);
	resp->flags = flags;

	resp_packet->obj = resp;
	resp_packet->type = PACKET_TYPE_MP_STAT_RESP;
	return send_sftt_packet(fd, resp_packet);
}

int send_directcmd_resp(int fd, struct sftt_packet *resp_packet,
	struct directcmd_resp *resp, int code, int flags)
{
	resp->status = code;
	strncpy(resp->message, resp_messages[code], RESP_MESSAGE_MAX_LEN - 1);
	resp->flags = flags;

	resp_packet->obj = resp;
	resp_packet->type = PACKET_TYPE_DIRECTCMD_RESP;
	return send_sftt_packet(fd, resp_packet);
}

int send_who_resp(int fd, struct sftt_packet *resp_packet,
	struct who_resp *resp, int code, int flags)
{
	resp->status = code;
	strncpy(resp->message, resp_messages[code], RESP_MESSAGE_MAX_LEN - 1);
	resp->flags = flags;

	resp_packet->obj = resp;
	resp_packet->type = PACKET_TYPE_WHO_RESP;
	return send_sftt_packet(fd, resp_packet);
}

int send_write_resp(int fd, struct sftt_packet *resp_packet,
	struct write_resp *resp, int code, int flags)
{
	resp->status = code;
	strncpy(resp->message, resp_messages[code], RESP_MESSAGE_MAX_LEN - 1);
	resp->flags = flags;

	resp_packet->obj = resp;
	resp_packet->type = PACKET_TYPE_WRITE_RESP;
	return send_sftt_packet(fd, resp_packet);
}

int send_port_update_resp(int fd, struct sftt_packet *resp_packet,
	struct port_update_resp *resp, int code, int flags)
{
	resp->status = code;
	strncpy(resp->message, resp_messages[code], RESP_MESSAGE_MAX_LEN - 1);
	resp->flags = flags;

	resp_packet->obj = resp;
	resp_packet->type = PACKET_TYPE_PORT_UPDATE_RESP;
	return send_sftt_packet(fd, resp_packet);
}

int send_reconnect_resp(int fd, struct sftt_packet *resp_packet,
	struct reconnect_resp *resp, int code, int flags)
{
	resp->status = code;
	strncpy(resp->message, resp_messages[code], RESP_MESSAGE_MAX_LEN - 1);
	resp->flags = flags;

	resp_packet->obj = resp;
	resp_packet->type = PACKET_TYPE_RECONNECT_RESP;
	return send_sftt_packet(fd, resp_packet);
}
".

(** ** Which names are taken *)

(** These are the names that gen_serialize.c takes and that end as a reply does. *)
Lemma resp_names_filter fuel : forall p l l', struct_names fuel p l = Some l' ->
  resp_names fuel p (filter (fun n => req_resp_filter n = 0) l) = Some (filter (fun n => req_resp_filter n = 0) l').
Proof.
  assert (Hadd : forall n l l', add_name n l = Some l' ->
    add_resp_name n (filter (fun n => req_resp_filter n = 0) l) = Some (filter (fun n => req_resp_filter n = 0) l')).
  { intros n l l'. unfold add_name, add_resp_name. destruct (negb _); [done|]. intros [= <-]. f_equal.
    unfold GenXdr.req_resp_filter, req_resp_filter. destruct (endswith n (ascii_bytes "_resp")) eqn:E.
    - rewrite orb_true_r. cbn [Z.eqb]. rewrite filter_app. f_equal. rewrite filter_cons, decide_True by (by rewrite E). done.
    - destruct (endswith n (ascii_bytes "_req")); cbn [orb Z.eqb]; [|done].
      rewrite filter_app, filter_cons, decide_False by (rewrite E; discriminate). by rewrite filter_nil, app_nil_r. }
  induction fuel as [|fuel IH]; intros p l l'; cbn [struct_names resp_names]; [done|].
  destruct (fetch_next_str p) as [[k p1]|]; [|by intros [= <-]]. destruct (negb _); [apply IH|].
  destruct (fetch_next_str p1) as [[n p2]|]; [|by intros [= <-]]. destruct (strchr n brace_open) as [[n' ?]|].
  - destruct (add_name n' l) as [l1|] eqn:E; [|done]. rewrite (Hadd _ _ _ E). apply IH.
  - destruct (fetch_next_str p2) as [[w p3]|]; [|by intros [= <-]]. destruct (_ =? _); [|apply IH].
    destruct (add_name n l) as [l1|] eqn:E; [|done]. rewrite (Hadd _ _ _ E). apply IH.
Qed.

(** The replies of a description, in their order. *)
Theorem resp_names_of_description words sts : Forall (fun w => is_word w /\ w <> ascii_bytes "struct") words -> Forall st_ok sts -> Forall plain_names sts ->
  forall fuel, (length (render words sts) < fuel)%nat ->
  resp_names fuel (render words sts) [] = Some (filter (fun n => req_resp_filter n = 0) (map st_name sts)).
Proof.
  intros Hw Hs Hp fuel Hf. pose proof (resp_names_filter _ _ _ _ (names_of_description words sts Hw Hs Hp fuel Hf)) as H.
  rewrite filter_nil in H. rewrite H. f_equal. rewrite list_filter_filter. apply list_filter_iff. intros n.
  unfold GenXdr.req_resp_filter, req_resp_filter. destruct (endswith n (ascii_bytes "_resp")); [by rewrite orb_true_r|]. naive_solver.
Qed.

(** ** The files are what the generator writes *)

Definition reply_names : list text := filter (fun n => req_resp_filter n = 0) protocol_names.

Lemma reply_names_found : resp_names (S (length (c_str (ascii_bytes req_resp_x)))) (c_str (ascii_bytes req_resp_x)) [] = Some reply_names.
Proof. exact (resp_names_filter _ _ _ _ protocol_names_found). Qed.

Lemma trans_h_text : h_text reply_names = format trans_h [].
Proof. apply text_eqb_eq. vm_compute. reflexivity. Qed.

Lemma trans_c_text : output_resps reply_names c_includes = Some (format trans_c []).
Proof.
  assert (H : match output_resps reply_names c_includes with Some out => text_eqb out (format trans_c []) | None => false end = true) by (vm_compute; reflexivity).
  destruct (output_resps _ _) as [out|]; [|done]. by rewrite (text_eqb_eq _ _ H).
Qed.

Lemma gen_trans_writes fs fs1 fs2 names out h_file c_file : names <> [] -> fopen_w fs h_file = Some fs1 ->
  fopen_w (fappend fs1 h_file (h_text names)) c_file = Some fs2 -> output_resps names c_includes = Some out ->
  gen_trans fs names h_file c_file = Some (fappend fs2 c_file out, 0).
Proof.
  intros Hne Hh Hc Ho. unfold gen_trans, gen_h_file, gen_c_file. destruct names as [|n ns]; [done|]. rewrite Hh. cbn [mbind option_bind].
  change (0 =? -1) with false. cbv iota. by rewrite Hc, Ho.
Qed.

(** The generator makes src/trans.c and include/trans.h, to the letter, of
    xdr/req_resp.x. *)
Theorem trans_c_generated fs fs1 fs2 prog xdr_file h_file c_file :
  fopen_r fs xdr_file = Some (ascii_bytes req_resp_x) -> fopen_w fs h_file = Some fs1 ->
  fopen_w (fappend fs1 h_file (format trans_h [])) c_file = Some fs2 -> canon h_file <> canon c_file ->
  exists fs', main fs [prog; xdr_file; h_file; c_file] = Some (fs', 0)
    /\ fopen_r fs' h_file = Some (format trans_h []) /\ fopen_r fs' c_file = Some (format trans_c []).
Proof.
  intros Hx Hh Hc Hd. exists (fappend fs2 c_file (format trans_c [])). split_and!.
  - unfold main, get_struct_list, file_size. rewrite Hx. rewrite (proj2 (Z.ltb_ge _ _)) by (apply Z.leb_le; vm_compute; reflexivity).
    cbn [mbind option_bind]. rewrite reply_names_found. cbn [mbind option_bind]. change (0 =? -1) with false. cbv iota.
    rewrite <- trans_h_text in Hc. rewrite (gen_trans_writes _ _ _ _ _ _ _ (ltac:(discriminate) : reply_names <> []) Hh Hc trans_c_text). done.
  - by apply (written_kept _ _ _ _ _ _ _ Hh Hc Hd).
  - by apply (fopen_w_written _ _ _ _ Hc).
Qed.

Lemma trans_c_generated_witness :
  exists fs', main (xdr_fs (ascii_bytes req_resp_x)) [ascii_bytes "gen"; ascii_bytes "/x"; ascii_bytes "/h"; ascii_bytes "/c"] = Some (fs', 0)
    /\ fopen_r fs' (ascii_bytes "/h") = Some (format trans_h []) /\ fopen_r fs' (ascii_bytes "/c") = Some (format trans_c []).
Proof.
  exact (trans_c_generated _ _ _ (ascii_bytes "gen") _ _ _ (xdr_fs_read _) (xdr_fs_open_h _) (xdr_fs_open_c _ _) ltac:(discriminate)).
Defined.
