(* ===== verification/GenConfig.v ===== *)
(** * The generator of the configuration header (config/gen_config.c)

    It turns the settings of config/sftt_deconfig into the macros of
    include/autoconf.h.  A stream is what is left to read and whether its end
    has been met.  Texts are printed as in GenSource; in the literals [\q] is a
    double quote. *)

From S2P Require Import Prelude CStr FileSystem FilePutRun GenParse GenSource GenRender GenCorrect GenXdrText.

Record key_value := KeyValue { key : text; value : text }.

Definition stream : Type := text * bool.

(** ** Reading *)

(** The loop, with room for [n] characters more. *)
Fixpoint take_line (n : nat) (rest : text) {struct rest} : text * stream :=
  match rest with
  | [] => ([], ([], true))
  | ch :: rest =>
      if ch =? newline then ([], (rest, false)) else
      match n with
      | O => ([], (rest, false))
      | 1%nat => ([ch], (rest, false))
      | S n => let '(buf, fp) := take_line n rest in (ch :: buf, fp)
      end
  end.

(** [None] is the result -1. *)
Definition read_line (fp : stream) (max_len : nat) : option (text * stream) :=
  let '(rest, feof) := fp in
  if feof then None else
  let '(buf, fp) := take_line max_len rest in Some (c_str buf, fp).

(** The structure is cleared before. *)
Definition str_to_config (buf : text) : key_value * Z :=
  match buf with
  | [] => (KeyValue [] [], -1)
  | _ =>
      match strchr buf 61 with
      | None => (KeyValue (take 127 buf) [], 0)
      | Some (pre, post) => (KeyValue (take 127 pre) (take 1023 (drop 1 post)), 0)
      end
  end.

(** ** Writing *)

Open Scope string_scope.

Definition write_header (out : text) : text :=
  let out := fprintf "/*\n * Automatically generated - do not edit\n */\n\n" [] out in
  let out := fprintf "#ifndef _AUTOCONF_H_\n" [] out in
  fprintf "#define _AUTOCONF_H_\n\n" [] out.

Definition write_foot (out : text) : text := fprintf "#endif\n" [] out.
Definition write_nodef (key out : text) : text := fprintf "/* %s is not set */\n" [key] out.
Definition write_def (key out : text) : text := fprintf "#define %s 1\n" [key] out.
Definition write_config (config : key_value) (out : text) : text := fprintf "#define %s %s\n" [key config; value config] out.

Close Scope string_scope.

(** One turn of the loop on the line [buf]: the output and [i]. *)
Definition gen_line (buf out : text) (i : Z) : text * Z :=
  match buf with
  | [] => (out, i)
  | _ =>
      let '(config, ret) := str_to_config buf in
      if ret =? -1 then
        if (0 <? length (key config))%nat then (write_nodef (key config) out, i + 1) else (out, i)
      else if (length (value config) =? 1)%nat then
        (if char_at (value config) 0 =? 121 then write_def (key config) out else write_nodef (key config) out, i + 1)
      else (write_config config out, i + 1)
  end.

Fixpoint gen_loop (fuel : nat) (fp : stream) (out : text) (i : Z) : option (text * Z) :=
  match fuel with
  | O => None
  | S fuel =>
      match read_line fp 1023 with
      | None => Some (out, i)
      | Some (buf, fp) => let '(out, i) := gen_line buf out i in gen_loop fuel fp out i
      end
  end.

Definition __gen_config (data : text) : option (text * Z) :=
  '(out, i) ← gen_loop (S (S (length data))) (data, false) (write_header []) 0;
  Some (write_foot out, if i =? 0 then -1 else 0).

(** [None]: [out_fp] is closed although it was never set, or the loop does not
    end, since reading a directory fails before its end is met. *)
Definition gen_config (fs : fsys) (in_file out_file : text) : option (fsys * Z) :=
  match node_at fs in_file with
  | None => None
  | Some _ =>
      match fopen_w fs out_file with
      | None => Some (fs, -1)
      | Some fs =>
          match node_at fs in_file with
          | Some (Reg data) =>
              '(out, ret) ← __gen_config data;
              Some (fappend fs out_file out, ret)
          | _ => None
          end
      end
  end.

Definition main (fs : fsys) (argv : list text) : option (fsys * Z) :=
  match argv with
  | [_; in_file; out_file] => gen_config fs in_file out_file
  | _ => Some (fs, -1)
  end.

(** ** The files of the repository *)

Definition sftt_deconfig : string :=
"CONFIG_DEBUG=y
CONFIG_USE_RANDOM_PORT=n
CONFIG_UPDATE_CHANNEL=y
CONFIG_GET_OVERLAP=y
CONFIG_MP_STAT_DEBUG=n
CONFIG_MP_FREE_DEBUG=y
CONFIG_MP_MALLOC_DEBUG=y
CONFIG_RESP_PER_FILE_BLOCK=n
CONFIG_HUFFMAN_TREE_DEBUG=n
CONFIG_HUFFMAN_COMPRESS_DEBUG=n
CONFIG_HUFFMAN_DECOMPRESS_DEBUG=n
CONFIG_DEFAULT_DEBUG_LEVEL=\qwarn\q
CONFIG_SERVER_DEBUG_LEVEL=\qwarn\q
CONFIG_CLIENT_DEBUG_LEVEL=\qwarn\q
CONFIG_SERIALIZE_RAW=y
".

Definition autoconf_h : string :=
"/*
 * Automatically generated - do not edit
 */

#ifndef _AUTOCONF_H_
#define _AUTOCONF_H_

#define CONFIG_DEBUG 1
/* CONFIG_USE_RANDOM_PORT is not set */
#define CONFIG_UPDATE_CHANNEL 1
#define CONFIG_GET_OVERLAP 1
/* CONFIG_MP_STAT_DEBUG is not set */
#define CONFIG_MP_FREE_DEBUG 1
#define CONFIG_MP_MALLOC_DEBUG 1
/* CONFIG_RESP_PER_FILE_BLOCK is not set */
/* CONFIG_HUFFMAN_TREE_DEBUG is not set */
/* CONFIG_HUFFMAN_COMPRESS_DEBUG is not set */
/* CONFIG_HUFFMAN_DECOMPRESS_DEBUG is not set */
#define CONFIG_DEFAULT_DEBUG_LEVEL \qwarn\q
#define CONFIG_SERVER_DEBUG_LEVEL \qwarn\q
#define CONFIG_CLIENT_DEBUG_LEVEL \qwarn\q
#define CONFIG_SERIALIZE_RAW 1
#endif
".

(** ** Lines *)

(** The text of some lines, each with its end. *)
Definition unlines (l : list text) : text := concat (map (fun s => s ++ [newline]) l).

(** A line that is read as it stands. *)
Definition line_ok (s : text) : Prop := Forall (fun c => c <> 0 /\ c <> newline) s /\ (length s <= 1023)%nat.

#[export] Instance line_ok_dec s : Decision (line_ok s).
Proof. unfold line_ok. apply _. Defined.

Lemma take_line_spec n s rest : Forall (fun c => c <> 0 /\ c <> newline) s -> (length s < n)%nat ->
  take_line n (s ++ newline :: rest) = (s, (rest, false)).
Proof.
  intros Hs. revert n. induction Hs as [|c s [_ Hc] _ IH]; intros n Hn; cbn [app length take_line] in *.
  - by rewrite Z.eqb_refl.
  - rewrite (proj2 (Z.eqb_neq _ _) Hc). destruct n as [|[|n]]; [lia|lia|]. by rewrite IH by lia.
Qed.

(** A line that fills the buffer leaves its end, which is read as an empty line. *)
Lemma take_line_full n s rest : Forall (fun c => c <> 0 /\ c <> newline) s -> length s = S n ->
  take_line (S n) (s ++ rest) = (s, (rest, false)).
Proof.
  intros Hs. revert n. induction Hs as [|c s [_ Hc] _ IH]; intros n Hn; cbn [app length take_line] in *; [lia|].
  rewrite (proj2 (Z.eqb_neq _ _) Hc). destruct n as [|n]; [by destruct s|]. by rewrite IH by lia.
Qed.

Lemma c_str_line s : Forall (fun c => c <> 0 /\ c <> newline) s -> c_str s = s.
Proof. induction 1 as [|c s [Hc _] _ IH]; [done|]. cbn [c_str]. by rewrite (proj2 (Z.eqb_neq _ _) Hc), IH. Qed.

(** The lines one after the other. *)
Fixpoint gen_lines (l : list text) (out : text) (i : Z) : text * Z :=
  match l with [] => (out, i) | buf :: l => let '(out, i) := gen_line buf out i in gen_lines l out i end.

Lemma gen_loop_lines l : Forall line_ok l -> forall fuel out i, (S (length (unlines l)) < fuel)%nat ->
  gen_loop fuel (unlines l, false) out i = Some (gen_lines l out i).
Proof.
  induction 1 as [|s l [Hs Hl] _ IH]; intros fuel out i Hf.
  - destruct fuel as [|[|fuel]]; cbn in Hf; [lia|lia|]. done.
  - unfold unlines in *. cbn [map concat] in *. rewrite <- app_assoc in *. cbn [app] in *. rewrite length_app in Hf. cbn [length] in Hf.
    destruct fuel as [|fuel]; [lia|]. cbn [gen_loop gen_lines read_line]. destruct (decide (length s < 1023)%nat) as [Hlt|Hge].
    + rewrite take_line_spec, c_str_line by done. destruct (gen_line s out i) as [out1 i1]. apply IH. lia.
    + rewrite take_line_full, c_str_line by (done || lia). destruct (gen_line s out i) as [out1 i1].
      destruct fuel as [|fuel]; [lia|]. cbn [gen_loop read_line take_line]. rewrite Z.eqb_refl. cbn [c_str gen_line]. apply IH. lia.
Qed.

(** ** The macros of a header *)

Fixpoint split_lines (s : text) : list text :=
  match s with
  | [] => []
  | c :: s => if c =? newline then [] :: split_lines s else
      match split_lines s with [] => [[c]] | l :: ls => (c :: l) :: ls end
  end.

(** The name and the text of a macro, if the line defines one. *)
Definition parse_define (l : text) : option (text * text) :=
  if bool_decide (ascii_bytes "#define " `prefix_of` l) then
    Some (match strchr (drop 8 l) 32 with Some (name, body) => (name, drop 1 body) | None => (drop 8 l, []) end)
  else None.

Definition macros (header : text) : list (text * text) := omap parse_define (split_lines header).

(** A setting [KEY=VALUE] as a line, and the macro that it means. *)
Definition setting_line (kv : text * text) : text := kv.1 ++ 61 :: kv.2.

Definition setting_macro (kv : text * text) : option (text * text) :=
  if (length kv.2 =? 1)%nat then if char_at kv.2 0 =? 121 then Some (kv.1, ascii_bytes "1") else None
  else Some kv.

Definition setting_ok (kv : text * text) : Prop :=
  (0 < length kv.1 <= 127)%nat /\ Forall (fun c => c <> 0 /\ c <> newline /\ c <> 32 /\ c <> 61) kv.1
  /\ Forall (fun c => c <> 0 /\ c <> newline) kv.2 /\ (length (setting_line kv) <= 1023)%nat.

#[export] Instance setting_ok_dec kv : Decision (setting_ok kv).
Proof. unfold setting_ok. apply _. Defined.

Lemma split_lines_app l s : newline ∉ l -> split_lines (l ++ newline :: s) = l :: split_lines s.
Proof.
  induction l as [|c l IH]; cbn [app split_lines]; [by rewrite Z.eqb_refl|]. rewrite not_elem_of_cons. intros [Hc Hl].
  rewrite IH by done. by rewrite (proj2 (Z.eqb_neq _ _)) by congruence.
Qed.

Lemma macros_line l s : newline ∉ l -> macros (l ++ newline :: s) = option_list (parse_define l) ++ macros s.
Proof. intros Hl. unfold macros. rewrite split_lines_app by done. cbn [omap list_omap]. by destruct (parse_define l). Qed.

(** What is written for a setting. *)
Definition setting_text (kv : text * text) : text :=
  if (length kv.2 =? 1)%nat then if char_at kv.2 0 =? 121 then write_def kv.1 [] else write_nodef kv.1 [] else write_config (KeyValue kv.1 kv.2) [].

Lemma gen_line_setting kv out i : setting_ok kv -> gen_line (setting_line kv) out i = (out ++ setting_text kv, i + 1).
Proof.
  intros (Hl & Hk & Hv & Hlen). unfold setting_line in *. rewrite length_app in Hlen. cbn [length] in Hlen.
  assert (H61 : 61 ∉ kv.1) by (rewrite Forall_forall in Hk; intros Hin; apply Hk in Hin; naive_solver).
  assert (E : str_to_config (kv.1 ++ 61 :: kv.2) = (KeyValue kv.1 kv.2, 0)).
  { unfold str_to_config. rewrite (strchr_found _ _ _ H61). cbn [drop]. rewrite drop_0, !take_ge by lia. destruct kv as [[|c k] v]; [cbn in Hl; lia|done]. }
  unfold gen_line. destruct (kv.1 ++ 61 :: kv.2) as [|c s] eqn:Es; [by destruct kv.1|]. rewrite E. cbn [Z.eqb key value].
  unfold setting_text. destruct (length kv.2 =? 1)%nat; [|done]. by destruct (_ =? 121).
Qed.

Lemma gen_lines_settings l : Forall setting_ok l -> forall out i,
  gen_lines (map setting_line l) out i = (out ++ concat (map setting_text l), i + Z.of_nat (length l)).
Proof.
  induction 1 as [|kv l Hkv _ IH]; intros out i; [cbn; by rewrite app_nil_r, Z.add_0_r|].
  cbn [map gen_lines concat length]. rewrite gen_line_setting, IH, <- app_assoc by done. f_equal. lia.
Qed.

Lemma setting_line_ok kv : setting_ok kv -> line_ok (setting_line kv).
Proof.
  intros (_ & Hk & Hv & Hl). split; [|done]. unfold setting_line. apply Forall_app. split; [eapply Forall_impl; [exact Hk|naive_solver]|].
  constructor; [done|exact Hv].
Qed.

(** The macro of a setting is read off its text. *)
Lemma macros_of_text kv rest : setting_ok kv -> macros (setting_text kv ++ rest) = option_list (setting_macro kv) ++ macros rest.
Proof.
  intros (_ & Hk & Hv & _). assert (H32 : 32 ∉ kv.1) by (rewrite Forall_forall in Hk; intros Hin; apply Hk in Hin; naive_solver).
  assert (Hnk : newline ∉ kv.1) by (rewrite Forall_forall in Hk; intros Hin; apply Hk in Hin; naive_solver).
  assert (Hnv : newline ∉ kv.2) by (rewrite Forall_forall in Hv; intros Hin; apply Hv in Hin; naive_solver).
  assert (Hd : newline ∉ ascii_bytes "#define ") by (apply (bool_decide_unpack _); vm_compute; exact Logic.I).
  assert (Hdef : forall v, newline ∉ v -> macros ((ascii_bytes "#define " ++ kv.1 ++ 32 :: v ++ [newline]) ++ rest) = (kv.1, v) :: macros rest).
  { intros v Hv'. assert (E : (ascii_bytes "#define " ++ kv.1 ++ 32 :: v ++ [newline]) ++ rest
      = (ascii_bytes "#define " ++ kv.1 ++ 32 :: v) ++ newline :: rest) by (by rewrite <- !app_assoc; cbn [app]; rewrite <- !app_assoc).
    rewrite E, macros_line.
    - unfold parse_define. rewrite bool_decide_eq_true_2 by (by eexists). change (drop 8 (ascii_bytes "#define " ++ kv.1 ++ 32 :: v)) with (kv.1 ++ 32 :: v).
      rewrite strchr_found by done. cbn [drop]. by rewrite drop_0.
    - rewrite !elem_of_app, elem_of_cons. intros [H|[H|[H|H]]]; done. }
  unfold setting_text, setting_macro. destruct (length kv.2 =? 1)%nat; [destruct (char_at kv.2 0 =? 121)|].
  - apply (Hdef (ascii_bytes "1")). apply (bool_decide_unpack _). vm_compute. exact Logic.I.
  - change (write_nodef kv.1 []) with (ascii_bytes "/* " ++ kv.1 ++ ascii_bytes " is not set */" ++ [newline]).
    assert (E : (ascii_bytes "/* " ++ kv.1 ++ ascii_bytes " is not set */" ++ [newline]) ++ rest
      = (ascii_bytes "/* " ++ kv.1 ++ ascii_bytes " is not set */") ++ newline :: rest) by (by rewrite <- !app_assoc).
    rewrite E, macros_line; [done|]. rewrite !elem_of_app. intros [H|[H|H]]; [|done|]; revert H; apply (bool_decide_unpack _); vm_compute; exact Logic.I.
  - destruct kv as [k v]. apply (Hdef v). exact Hnv.
Qed.

(** ** The header that is written *)

(** The file is what the settings mean, between the guards: the macros of the
    header are the guard and those of the settings, in their order. *)
Theorem header_defines settings : Forall setting_ok settings ->
  exists out, __gen_config (unlines (map setting_line settings)) = Some (out, if (length settings =? 0)%nat then -1 else 0)
    /\ macros out = (ascii_bytes "_AUTOCONF_H_", []) :: omap setting_macro settings.
Proof.
  intros Hs. exists (write_foot (write_header [] ++ concat (map setting_text settings))). unfold __gen_config.
  rewrite gen_loop_lines by (lia || (apply Forall_map; eapply Forall_impl; [exact Hs|apply setting_line_ok])).
  rewrite gen_lines_settings by done. cbn [mbind option_bind]. split.
  - do 2 f_equal. destruct settings; [done|]. cbn [length]. rewrite (proj2 (Z.eqb_neq _ _)) by lia. done.
  - unfold write_foot, fprintf. rewrite <- app_assoc.
    assert (Hh : forall s, macros (write_header [] ++ s) = (ascii_bytes "_AUTOCONF_H_", []) :: macros s) by (intros s; by vm_compute).
    rewrite Hh. f_equal. induction Hs as [|kv l Hkv _ IH]; [by vm_compute|]. cbn [map concat]. rewrite <- app_assoc, macros_of_text, IH by done.
    cbn [omap list_omap]. by destruct (setting_macro kv).
Qed.

Lemma deconfig_header : __gen_config (format sftt_deconfig []) = Some (format autoconf_h [], 0).
Proof.
  assert (H : match __gen_config (format sftt_deconfig []) with Some (out, ret) => text_eqb out (format autoconf_h []) && (ret =? 0) | None => false end = true)
    by (vm_compute; reflexivity).
  destruct (__gen_config _) as [[out ret]|]; [|done]. apply andb_prop in H as [Ho Hr%Z.eqb_eq]. by rewrite (text_eqb_eq _ _ Ho), Hr.
Qed.

(** include/autoconf.h is, to the letter, what the generator makes of
    config/sftt_deconfig. *)
Theorem autoconf_generated fs fs1 prog in_file out_file :
  node_at fs in_file = Some (Reg (format sftt_deconfig [])) -> fopen_w fs out_file = Some fs1 -> canon in_file <> canon out_file ->
  exists fs', main fs [prog; in_file; out_file] = Some (fs', 0) /\ fopen_r fs' out_file = Some (format autoconf_h []).
Proof.
  intros Hi Ho Hd. exists (fappend fs1 out_file (format autoconf_h [])). split; [|by apply (fopen_w_written _ _ _ _ Ho)].
  unfold main, gen_config. rewrite Hi, Ho, (fopen_w_keeps _ _ _ Ho in_file _ Hd Hi), deconfig_header. done.
Qed.

Lemma autoconf_generated_witness : exists fs',
  main (Fsys {[ ascii_bytes "/d" := Reg (format sftt_deconfig []) ]} ∅) [ascii_bytes "gen"; ascii_bytes "/d"; ascii_bytes "/a"] = Some (fs', 0)
  /\ fopen_r fs' (ascii_bytes "/a") = Some (format autoconf_h []).
Proof.
  exact (autoconf_generated (Fsys {[ ascii_bytes "/d" := Reg (format sftt_deconfig []) ]} ∅)
    (put_node (Fsys {[ ascii_bytes "/d" := Reg (format sftt_deconfig []) ]} ∅) (ascii_bytes "/a") (Reg []))
    (ascii_bytes "gen") (ascii_bytes "/d") (ascii_bytes "/a") eq_refl eq_refl ltac:(discriminate)).
Defined.

(** The levels of the two programs have other names than the macros that
    server/main.c and client/main.c look for. *)
Lemma levels_not_found : ascii_bytes "CONFIG_SERVER_DEBUG_LEVEL" ∈ map fst (macros (format autoconf_h []))
  /\ ascii_bytes "CONFIG_SERVER_DEFAULT_DEBUG_LEVEL" ∉ map fst (macros (format autoconf_h []))
  /\ ascii_bytes "CONFIG_CLIENT_DEFAULT_DEBUG_LEVEL" ∉ map fst (macros (format autoconf_h [])).
Proof. apply (bool_decide_unpack _). vm_compute. exact Logic.I. Qed.

(** A line without a value becomes a macro all the same: the usual comment of
    such a file is no text that a compiler takes. *)
Lemma comment_becomes_macro : __gen_config (ascii_bytes "# CONFIG_A is not set") =
  Some (write_foot (write_header [] ++ format "#define # CONFIG_A is not set \n" []), 0).
Proof. vm_compute. reflexivity. Qed.

(** A setting of one character that is not [y] is taken to be absent. *)
Lemma one_digit_is_lost : __gen_config (ascii_bytes "CONFIG_LEVEL=3") =
  Some (write_foot (write_header [] ++ format "/* CONFIG_LEVEL is not set */\n" []), 0).
Proof. vm_compute. reflexivity. Qed.

(** Without the file of settings, the file to write is closed though it was
    never opened. *)
Lemma missing_settings_undefined fs prog in_file out_file : node_at fs in_file = None -> main fs [prog; in_file; out_file] = None.
Proof. intros H. unfold main, gen_config. by rewrite H. Qed.

Lemma header_defines_witness :
  let settings := [(ascii_bytes "A", ascii_bytes "y"); (ascii_bytes "B", ascii_bytes "n"); (ascii_bytes "C", ascii_bytes "12")] in
  exists out, __gen_config (unlines (map setting_line settings)) = Some (out, 0)
    /\ macros out = [(ascii_bytes "_AUTOCONF_H_", []); (ascii_bytes "A", ascii_bytes "1"); (ascii_bytes "C", ascii_bytes "12")].
Proof.
  exact (header_defines [(ascii_bytes "A", ascii_bytes "y"); (ascii_bytes "B", ascii_bytes "n"); (ascii_bytes "C", ascii_bytes "12")]
    ltac:(apply (bool_decide_unpack _); vm_compute; exact Logic.I)).
Defined.
