(* ===== verification/NetTrans.v ===== *)
(** * Packets over a socket (src/net_trans.c)

    A stream socket is what has arrived and not been read yet, in the pieces
    in which it arrived; a writer collects what has been sent.  [None] is a
    failed assertion or a memory error. *)

From S2P Require Import Prelude ByteOps Huffman HuffmanRound Encode Layout ReqResp SerializeRaw SerializeTable.

(** ** Sockets *)

(** [Data bs]: bytes that one [recv] can return; [Again]: a moment at which a
    non-blocking socket has nothing to read.  The end of the list is the end
    of the connection. *)
Inductive arrival := Data (bs : list Z) | Again.
Definition stream := list arrival.

Definition unread (bs : list Z) (s : stream) : stream :=
  match bs with [] => s | _ => Data bs :: s end.

(** [recv(sock, buf, n, 0)]: the return value and the bytes stored. *)
Definition recv (s : stream) (n : nat) : Z * list Z * stream :=
  match s with
  | [] => (0, [], [])
  | Again :: s => (-1, [], s)
  | Data bs :: s =>
      let got := take n bs in (Z.of_nat (length got), got, unread (drop n bs) s)
  end.

Fixpoint gather (s : stream) (n : nat) : list Z * stream :=
  match s with
  | [] => ([], [])
  | Again :: s => ([], s)
  | Data bs :: s =>
      if (n <=? length bs)%nat then (take n bs, unread (drop n bs) s)
      else let '(more, s) := gather s (n - length bs) in (bs ++ more, s)
  end.

(** [recv] with [MSG_WAITALL]. *)
Definition recv_waitall (s : stream) (n : nat) : Z * list Z * stream :=
  match s with
  | Again :: s => (-1, [], s)
  | _ => let '(got, s) := gather s n in (Z.of_nat (length got), got, s)
  end.

(** [room]: how many more bytes the kernel takes, [None] when it takes all. *)
Record writer := Writer { sent : list Z; room : option nat }.

Definition send (w : writer) (buf : list Z) : Z * writer :=
  match room w with
  | None => (Z.of_nat (length buf), Writer (sent w ++ buf) None)
  | Some r =>
      let out := take r buf in
      (Z.of_nat (length out), Writer (sent w ++ out) (Some (r - length out)%nat))
  end.

(** ** Packets *)

Record sftt_packet := Packet {
  sp_type : Z;
  sp_obj : option (list Z);
  sp_content : option (list Z);
  sp_data_len : Z;
}.

Definition empty_packet : sftt_packet := Packet 0 None None 0.

(** [malloc_sftt_packet]; [ok] tells whether the pool had memory. *)
Definition malloc_sftt_packet (ok : bool) : option sftt_packet :=
  if ok then Some empty_packet else None.

Definition sftt_packet_free_content (sp : sftt_packet) : sftt_packet :=
  Packet (sp_type sp) (sp_obj sp) None 0.

Definition find_handler (type : Z) : option serialize_handler :=
  List.find (fun h => h_type h =? type) serializables_raw.

(** The object after the call is the one the encoder has changed in place. *)
Definition sftt_packet_serialize (sp : sftt_packet) : option (sftt_packet * bool) :=
  match find_handler (sp_type sp) with
  | None => Some (sp, false)
  | Some h =>
      obj ← sp_obj sp;
      st ← exec [] (h_serialize h) (RawState obj None);
      buf ← rs_buf st;
      Some (Packet (sp_type sp) (Some (rs_obj st)) (Some buf) (Z.of_nat (length buf)), true)
  end.

Definition sftt_packet_deserialize (sp : sftt_packet) : option (sftt_packet * bool) :=
  match find_handler (sp_type sp) with
  | None => Some (sp, false)
  | Some h =>
      content ← sp_content sp;
      st ← exec content (h_deserialize h) (RawState [] None);
      Some (Packet (sp_type sp) (Some (rs_obj st)) (sp_content sp) (sp_data_len sp), true)
  end.

Definition sftt_packet_encode_content (src dst : sftt_packet) : option (sftt_packet * Z) :=
  content ← sp_content src;
  '(len, out) ← sftt_buffer_encode content true true;
  Some (Packet (sp_type dst) (sp_obj dst)
          (match out with Some c => Some c | None => sp_content dst end) len, len).

Definition sftt_packet_decode_content (src dst : sftt_packet) : option (sftt_packet * Z) :=
  content ← sp_content src;
  '(len, out) ← sftt_buffer_decode content true true;
  Some (Packet (sp_type dst) (sp_obj dst)
          (match out with Some c => Some c | None => sp_content dst end) len, len).

Definition sftt_packet_send_header (w : writer) (sp : sftt_packet) : option writer :=
  let header := le_bytes 4 (sp_type sp) ++ le_bytes 4 (sp_data_len sp) in
  let header_len := 8 in
  '(encoded_len, buffer) ← sftt_buffer_encode header false false;
  if decide (encoded_len = header_len) then
    buffer ← buffer;
    let '(ret, w) := send w buffer in
    if decide (ret = encoded_len) then Some w else None
  else None.

Definition sftt_packet_send_content (w : writer) (sp : sftt_packet) : option writer :=
  content ← sp_content sp;
  bs ← read_bytes content 0 (Z.to_nat (sp_data_len sp));
  let '(ret, w) := send w bs in
  if decide (ret = sp_data_len sp) then Some w else None.

(** Returns the writer, the caller's packet after the call and the result. *)
Definition send_sftt_packet (malloc_ok : bool) (w : writer) (sp : sftt_packet)
    : option (writer * sftt_packet * Z) :=
  '(sp, ok) ← sftt_packet_serialize sp;
  if negb (ok : bool) then Some (w, sp, -1) else
  match malloc_sftt_packet malloc_ok with
  | None => Some (w, sp, -1)
  | Some sp' =>
      let sp' := Packet (sp_type sp) (sp_obj sp') (sp_content sp') (sp_data_len sp') in
      '(sp', ret) ← sftt_packet_encode_content sp sp';
      if negb (0 <? ret) then Some (w, sp, -1) else
      let sp := sftt_packet_free_content sp in
      w ← sftt_packet_send_header w sp';
      w ← sftt_packet_send_content w sp';
      Some (w, sp, 0)
  end.

Definition sftt_packet_recv_header (s : stream) (sp : sftt_packet)
    : option (stream * sftt_packet * Z) :=
  let header_len := 8 in
  let '(ret, header, s) := recv s 8 in
  if negb (0 <? ret) then Some (s, sp, ret) else
  if negb (ret =? header_len) then Some (s, sp, -1) else
  '(decoded_len, buffer) ← sftt_buffer_decode header false false;
  if decide (decoded_len = header_len) then
    buffer ← buffer;
    t ← read_bytes buffer 0 4;
    l ← read_bytes buffer 4 4;
    Some (s, Packet (load_i32 t) (sp_obj sp) (sp_content sp) (load_i32 l), header_len)
  else None.

(** A length that is not positive leaves [content] NULL and fails. *)
Definition sftt_packet_recv_content (s : stream) (sp : sftt_packet)
    : option (stream * sftt_packet * Z) :=
  let n := sp_data_len sp in
  if n =? 0 then Some (s, Packet (sp_type sp) (sp_obj sp) None n, 0) else
  if n <? 0 then Some (s, Packet (sp_type sp) (sp_obj sp) None n, -1) else
  let '(ret, got, s) := recv_waitall s (Z.to_nat n) in
  content ← write_bytes (zeroed (Z.to_nat n)) 0 got;
  let sp := Packet (sp_type sp) (sp_obj sp) (Some content) n in
  if negb (ret =? n) then Some (s, sp, if ret =? 0 then 0 else -1)
  else Some (s, sp, n).

Definition recv_sftt_packet (malloc_ok : bool) (s : stream) (sp : sftt_packet)
    : option (stream * sftt_packet * Z) :=
  sp' ← malloc_sftt_packet malloc_ok;
  '(s, sp', ret) ← sftt_packet_recv_header s sp';
  if negb (0 <? ret) then Some (s, sp, ret) else
  let recv_len := ret in
  '(s, sp', ret) ← sftt_packet_recv_content s sp';
  if negb (0 <? ret) then Some (s, sp, -1) else
  let recv_len := recv_len + ret in
  let sp := Packet (sp_type sp') (sp_obj sp) (sp_content sp) (sp_data_len sp) in
  '(sp, ret) ← sftt_packet_decode_content sp' sp;
  if negb (0 <? ret) then Some (s, sp, -1) else
  '(sp, ok) ← sftt_packet_deserialize sp;
  if negb (ok : bool) then Some (s, sp, -1) else
  Some (s, sftt_packet_free_content sp, recv_len).

(** ** Streams *)

Lemma unread_nil s : unread [] s = s.
Proof. done. Qed.

(** Waiting for all of it makes the pieces of the stream irrelevant. *)
Lemma gather_chunks chunks : forall n s,
  Forall (fun c => c <> []) chunks -> n = length (concat chunks) -> (0 < n)%nat ->
  gather ((Data <$> chunks) ++ s) n = (concat chunks, s).
Proof.
  induction chunks as [|c chunks IH]; intros n s Hne Hn Hpos; [simpl in *; lia|].
  apply Forall_cons in Hne as [Hc Hne]. simpl in *. rewrite length_app in Hn.
  destruct (Nat.leb_spec n (length c)) as [Hle|Hgt].
  - destruct chunks as [|d chunks].
    + simpl in *. rewrite app_nil_r. rewrite take_ge, drop_ge by lia. done.
    + apply Forall_cons in Hne as [Hd _]. simpl in Hn. rewrite length_app in Hn.
      destruct d; [done|]. simpl in Hn. lia.
  - rewrite (IH (n - length c)%nat); [done|done|lia|].
    destruct (length (concat chunks)); lia.
Qed.

Lemma recv_waitall_chunks chunks s :
  Forall (fun c => c <> []) chunks -> concat chunks <> [] ->
  recv_waitall ((Data <$> chunks) ++ s) (length (concat chunks))
    = (Z.of_nat (length (concat chunks)), concat chunks, s).
Proof.
  intros Hne Hc. assert (Hpos : (0 < length (concat chunks))%nat)
    by (destruct (concat chunks); simpl; [done|lia]).
  unfold recv_waitall. destruct chunks as [|c chunks]; [done|].
  change ((Data <$> c :: chunks) ++ s) with (Data c :: ((Data <$> chunks) ++ s)).
  change (Data c :: ((Data <$> chunks) ++ s)) with ((Data <$> c :: chunks) ++ s).
  rewrite (gather_chunks (c :: chunks)) by done. done.
Qed.

Lemma send_room w buf :
  room w = None -> send w buf = (Z.of_nat (length buf), Writer (sent w ++ buf) None).
Proof. intros H. unfold send. by rewrite H. Qed.

(** ** The bytes of a packet *)

Definition header_bytes (type len : Z) : list Z := le_bytes 4 type ++ le_bytes 4 len.

Lemma header_length type len : length (header_bytes type len) = 8%nat.
Proof. done. Qed.

Lemma plain_encode bs : bs <> [] ->
  sftt_buffer_encode bs false false = Some (Z.of_nat (length bs), Some bs)
  /\ sftt_buffer_decode bs false false = Some (Z.of_nat (length bs), Some bs).
Proof.
  intros Hne. assert (Z.of_nat (length bs) <> 0) by (destruct bs; simpl; [done|lia]).
  unfold sftt_buffer_encode, sftt_buffer_decode. rewrite !decide_False by done.
  by rewrite copy_whole.
Qed.

Lemma recv_header_whole s sp type len :
  in_i32 type -> in_i32 len ->
  sftt_packet_recv_header (Data (header_bytes type len) :: s) sp
    = Some (s, Packet type (sp_obj sp) (sp_content sp) len, 8).
Proof.
  intros Ht Hl. unfold sftt_packet_recv_header, recv.
  rewrite (take_ge (header_bytes type len)), (drop_ge (header_bytes type len)) by done.
  rewrite header_length. cbn [negb Z.ltb Z.compare unread].
  destruct (plain_encode (header_bytes type len) ltac:(done)) as [_ Hd].
  change (negb (0 <? Z.of_nat 8)) with false. change (negb (Z.of_nat 8 =? 8)) with false.
  cbv iota. rewrite Hd. cbn [mbind option_bind]. rewrite header_length, decide_True by done.
  unfold header_bytes. rewrite read_bytes_prefix by done. cbn [mbind option_bind].
  pose proof (read_bytes_app (le_bytes 4 type) (le_bytes 4 len) [] 4 eq_refl) as Hr.
  rewrite app_nil_r, length_le_bytes in Hr. rewrite Hr.
  cbn [mbind option_bind]. by rewrite !load_i32_store.
Qed.

Lemma rows_small : forallb (fun h => (Z.of_nat (size_of (h_object h)) <? 2 ^ 22)) serializables_raw = true.
Proof. vm_compute. reflexivity. Qed.

Lemma row_small h : h ∈ serializables_raw -> Z.of_nat (size_of (h_object h)) < 2 ^ 22.
Proof.
  intros Hin. pose proof rows_small as Hs. rewrite forallb_forall in Hs.
  apply list_elem_of_In, Hs in Hin. by apply Z.ltb_lt in Hin.
Qed.

Lemma find_handler_row h : h ∈ serializables_raw -> find_handler (h_type h) = Some h.
Proof.
  intros Hin. unfold find_handler.
  assert (Hall : Forall (fun h => List.find (fun h' => h_type h' =? h_type h) serializables_raw = Some h)
    serializables_raw).
  { repeat constructor. }
  rewrite Forall_forall in Hall. by apply Hall.
Qed.

Lemma row_type h : h ∈ serializables_raw -> in_i32 (h_type h).
Proof.
  intros Hin. assert (Hall : Forall (fun h => in_i32 (h_type h)) serializables_raw)
    by (repeat constructor; simpl; lia).
  rewrite Forall_forall in Hall. by apply Hall.
Qed.

Lemma network_bytes l m pos :
  fields_ok pos (pos + length m) l = true -> Forall is_byte m -> Forall is_byte (reversed_from pos l m).
Proof.
  revert pos m. induction l as [|[off w] l IH]; intros pos m; [done|]. cbn [fields_ok].
  intros [H1%bool_decide_eq_true H2]%andb_prop Hm. pose proof (fields_ok_bound _ _ _ H2) as Hb.
  cbn [reversed_from]. rewrite !Forall_app. split_and!.
  - by apply Forall_take.
  - apply Forall_reverse. by apply Forall_take, Forall_drop.
  - apply IH; [|by apply Forall_drop]. rewrite length_drop.
    by replace (off + w + (length m - (off - pos + w)))%nat with (pos + length m)%nat by lia.
Qed.

(** Everything [send_sftt_packet] does for an object of a row. *)
Lemma send_spec h obj content len w :
  h ∈ serializables_raw -> length obj = size_of (h_object h) -> Forall is_byte obj ->
  exists net out w', network_form (int_fields (h_object h)) obj = net
    /\ sftt_buffer_decode out true true = Some (Z.of_nat (length net), Some net)
    /\ out <> [] /\ Forall is_byte net /\ (0 < length net)%nat
    /\ Z.of_nat (length out) < 2 ^ 31
    /\ (room w = None ->
        send_sftt_packet true w (Packet (h_type h) (Some obj) content len)
          = Some (w', Packet (h_type h) (Some net) None 0, 0)
        /\ sent w' = sent w ++ header_bytes (h_type h) (Z.of_nat (length out)) ++ out).
Proof.
  intros Hin Hl Hb. destruct (row_facts h Hin) as (_ & _ & Hf & Hpos). rewrite <- Hl in Hf, Hpos.
  set (net := network_form _ _).
  assert (Hn : length net = length obj) by (by apply length_reversed).
  assert (Hnb : Forall is_byte net) by (by apply network_bytes).
  assert (Hne : net <> []) by (intros He; rewrite He in Hn; simpl in Hn; lia).
  assert (Hsm : Z.of_nat (length net) < 2 ^ 22) by (rewrite Hn, Hl; by apply row_small).
  destruct (zip_roundtrip net Hne Hnb Hsm) as (zip & Ez & Hzb & Hzne & Hza & Hzd).
  destruct (cipher_roundtrip zip Hzb) as (out & Ec & Hol & Hod).
  assert (Hzl : Z.of_nat (length zip) < 2 ^ 31).
  { destruct (huffman_compress_spec net Hne Hnb Hsm) as (cf & root & codes & z & Hc & E & Hp).
    rewrite Ez in E. injection E as <-. rewrite (pk_length _ _ _ _ Hp). unfold packed_length.
    pose proof (entries_length cf) as He. rewrite (co_length _ _ _ _ Hc) in He. unfold CHARSET_SIZE in He.
    pose proof (stream_length _ _ (co_short _ _ _ _ Hc)) as Hs.
    assert (((length (net ≫= lookup_code codes) + 7) / 8 <= length (net ≫= lookup_code codes) + 7)%nat)
      by (apply Nat.Div0.div_le_upper_bound; lia).
    lia. }
  assert (Hzn : Z.of_nat (length zip) <> 0) by (destruct zip; simpl; [done|lia]).
  exists net, out. eexists. split; [done|]. split.
  { unfold sftt_buffer_decode. rewrite decide_False by (rewrite Hol; done).
    rewrite copy_whole. cbn [mbind option_bind]. rewrite Hod. cbn [mbind option_bind].
    rewrite Hza. cbn [mbind option_bind]. by rewrite Hzd. }
  split; [intros ->; simpl in Hol; lia|]. split; [done|]. split; [lia|]. split; [lia|].
  intros Hroom. unfold send_sftt_packet, sftt_packet_serialize. cbn [sp_type sp_obj].
  rewrite find_handler_row by done. cbn [mbind option_bind].
  rewrite serialize_row by done. fold net. cbn [mbind option_bind rs_buf rs_obj negb].
  cbn [malloc_sftt_packet sp_type sp_obj sp_content sp_data_len empty_packet].
  unfold sftt_packet_encode_content. cbn [sp_content sp_type sp_obj mbind option_bind].
  unfold sftt_buffer_encode at 1. rewrite decide_False by lia.
  rewrite Ez. cbn [mbind option_bind]. rewrite Hza. cbn [mbind option_bind].
  rewrite Ec. cbn [mbind option_bind]. rewrite (proj2 (Z.ltb_lt _ _)) by lia. cbn [negb].
  unfold sftt_packet_send_header. cbn [sp_type sp_data_len].
  fold (header_bytes (h_type h) (Z.of_nat (length zip))).
  destruct (plain_encode (header_bytes (h_type h) (Z.of_nat (length zip))) ltac:(done)) as [-> _].
  cbn [mbind option_bind]. rewrite header_length, decide_True by done.
  cbn [mbind option_bind]. rewrite send_room by done.
  rewrite header_length, decide_True by done. cbn [mbind option_bind].
  unfold sftt_packet_send_content. cbn [sp_content sp_data_len mbind option_bind].
  rewrite Nat2Z.id. rewrite <- Hol at 1.
  pose proof (read_bytes_prefix out [] (length out) eq_refl) as Hrd. rewrite app_nil_r in Hrd.
  rewrite Hrd. cbn [mbind option_bind]. rewrite send_room by done.
  rewrite Hol, decide_True by done. cbn [mbind option_bind]. split; [done|].
  cbn [sent]. by rewrite <- app_assoc.
Qed.

Lemma recv_content_chunks chunks s sp :
  Forall (fun c => c <> []) chunks -> concat chunks <> [] ->
  sp_data_len sp = Z.of_nat (length (concat chunks)) ->
  sftt_packet_recv_content ((Data <$> chunks) ++ s) sp
    = Some (s, Packet (sp_type sp) (sp_obj sp) (Some (concat chunks)) (sp_data_len sp), sp_data_len sp).
Proof.
  intros Hne Hc Hl. assert (Hp : 0 < sp_data_len sp) by (rewrite Hl; destruct (concat chunks); simpl; [done|lia]).
  unfold sftt_packet_recv_content.
  rewrite (proj2 (Z.eqb_neq _ _)), (proj2 (Z.ltb_ge _ _)) by lia.
  rewrite Hl, Nat2Z.id, recv_waitall_chunks by done. rewrite copy_whole. cbn [mbind option_bind].
  by rewrite Z.eqb_refl.
Qed.

(** Receiving what [send_spec] says was sent. *)
Lemma recv_spec h obj net out chunks rest sp :
  h ∈ serializables_raw -> length obj = size_of (h_object h) ->
  network_form (int_fields (h_object h)) obj = net -> (0 < length net)%nat ->
  sftt_buffer_decode out true true = Some (Z.of_nat (length net), Some net) ->
  Z.of_nat (length out) < 2 ^ 31 -> out <> [] ->
  Forall (fun c => c <> []) chunks -> concat chunks = out ->
  recv_sftt_packet true (Data (header_bytes (h_type h) (Z.of_nat (length out))) :: (Data <$> chunks) ++ rest) sp
    = Some (rest, Packet (h_type h) (Some obj) None 0, 8 + Z.of_nat (length out)).
Proof.
  intros Hin Hl Hnet Hpos Hdec Hlen Hout Hne Hch. unfold recv_sftt_packet.
  cbn [malloc_sftt_packet mbind option_bind].
  rewrite recv_header_whole by (by apply row_type || int_lia).
  cbn [mbind option_bind sp_obj sp_content empty_packet]. change (negb (0 <? 8)) with false. cbv iota.
  rewrite recv_content_chunks by (rewrite ?Hch; done). cbn [mbind option_bind sp_data_len sp_type sp_obj].
  assert (0 < Z.of_nat (length out)) by (destruct out; simpl; [done|lia]).
  rewrite (proj2 (Z.ltb_lt _ _)) by done. cbn [negb sp_content sp_type].
  unfold sftt_packet_decode_content. cbn [sp_content mbind option_bind].
  rewrite Hch, Hdec. cbn [mbind option_bind]. rewrite (proj2 (Z.ltb_lt _ _)) by lia. cbn [negb].
  unfold sftt_packet_deserialize. cbn [sp_type sp_content sp_obj sp_data_len].
  rewrite find_handler_row by done. cbn [mbind option_bind]. rewrite <- Hnet.
  rewrite deserialize_row by done. done.
Qed.

(** ** The properties *)

(** C2: A packet arrives as it was sent: for every packet type and every
    object of its C type, [send_sftt_packet] puts a header and a content on
    the wire, and [recv_sftt_packet], on a stream where the header arrives in
    one piece and the content in any pieces, returns the type, an equal object
    and the number of bytes read, and leaves the rest of the stream untouched. *)
Theorem packet_roundtrip h obj content len w sp
    (Hrow : h ∈ serializables_raw) (Hobj : length obj = size_of (h_object h))
    (Hbytes : Forall is_byte obj) (Hroom : room w = None) :
  exists out w' sp', send_sftt_packet true w (Packet (h_type h) (Some obj) content len) = Some (w', sp', 0)
    /\ sent w' = sent w ++ header_bytes (h_type h) (Z.of_nat (length out)) ++ out
    /\ forall chunks rest, Forall (fun c => c <> []) chunks -> concat chunks = out ->
         recv_sftt_packet true
           (Data (header_bytes (h_type h) (Z.of_nat (length out))) :: (Data <$> chunks) ++ rest) sp
         = Some (rest, Packet (h_type h) (Some obj) None 0, 8 + Z.of_nat (length out)).
Proof.
  destruct (send_spec h obj content len w Hrow Hobj Hbytes)
    as (net & out & w' & Hnet & Hdec & Hne & _ & Hpos & Hlen & Hsend).
  destruct (Hsend Hroom) as [E Hs]. exists out, w', (Packet (h_type h) (Some net) None 0).
  split; [done|]. split; [done|]. intros chunks rest Hc Hch. by eapply recv_spec.
Qed.

Lemma packet_roundtrip_witness :
  exists out w' sp', send_sftt_packet true (Writer [] None)
      (Packet (h_type demo_row) (Some [57; 48; 0; 0]) None 0) = Some (w', sp', 0)
    /\ sent w' = header_bytes (h_type demo_row) (Z.of_nat (length out)) ++ out
    /\ forall chunks rest, Forall (fun c => c <> []) chunks -> concat chunks = out ->
         recv_sftt_packet true
           (Data (header_bytes (h_type demo_row) (Z.of_nat (length out))) :: (Data <$> chunks) ++ rest)
           empty_packet
         = Some (rest, Packet (h_type demo_row) (Some [57; 48; 0; 0]) None 0, 8 + Z.of_nat (length out)).
Proof.
  apply (packet_roundtrip demo_row [57; 48; 0; 0] None 0 (Writer [] None) empty_packet demo_row_in);
    [done| |done]. by apply (bool_decide_unpack _).
Defined.

(** Sending a packet twice does not send the same object twice: the first
    call leaves the packet's object byte-swapped, and the receiver of the
    second call gets that swapped object. *)
Theorem resend_delivers_swapped h obj w sp
    (Hrow : h ∈ serializables_raw) (Hobj : length obj = size_of (h_object h))
    (Hbytes : Forall is_byte obj) (Hroom : room w = None) :
  exists w1 sp1 out w2 sp2,
    send_sftt_packet true w (Packet (h_type h) (Some obj) None 0) = Some (w1, sp1, 0)
    /\ send_sftt_packet true (Writer [] None) sp1 = Some (w2, sp2, 0)
    /\ sent w2 = header_bytes (h_type h) (Z.of_nat (length out)) ++ out
    /\ recv_sftt_packet true [Data (header_bytes (h_type h) (Z.of_nat (length out))); Data out] sp
       = Some ([], Packet (h_type h) (Some (network_form (int_fields (h_object h)) obj)) None 0,
               8 + Z.of_nat (length out)).
Proof.
  destruct (send_spec h obj None 0 w Hrow Hobj Hbytes)
    as (net & out1 & w1 & Hnet & _ & _ & Hnb & _ & _ & Hsend1).
  destruct (Hsend1 Hroom) as [E1 _]. destruct (row_facts h Hrow) as (_ & _ & Hf & _).
  assert (Hn : length net = size_of (h_object h)).
  { rewrite <- Hnet, <- Hobj. apply length_reversed. by rewrite Hobj. }
  destruct (send_spec h net None 0 (Writer [] None) Hrow Hn Hnb)
    as (net2 & out & w2 & Hnet2 & Hdec & Hne & _ & Hpos & Hlen & Hsend2).
  destruct (Hsend2 eq_refl) as [E2 Hs2].
  exists w1, (Packet (h_type h) (Some net) None 0), out, w2, (Packet (h_type h) (Some net2) None 0).
  split; [done|]. split; [done|]. split; [done|].
  rewrite Hnet. apply (recv_spec h net net2 out [out] []); try done.
  - by repeat constructor.
  - simpl. by rewrite app_nil_r.
Qed.

Lemma resend_delivers_swapped_witness :
  exists w1 sp1 out w2 sp2,
    send_sftt_packet true (Writer [] None) (Packet (h_type demo_row) (Some [57; 48; 0; 0]) None 0)
      = Some (w1, sp1, 0)
    /\ send_sftt_packet true (Writer [] None) sp1 = Some (w2, sp2, 0)
    /\ sent w2 = header_bytes (h_type demo_row) (Z.of_nat (length out)) ++ out
    /\ recv_sftt_packet true [Data (header_bytes (h_type demo_row) (Z.of_nat (length out))); Data out]
         empty_packet
       = Some ([], Packet (h_type demo_row) (Some [0; 0; 48; 57]) None 0, 8 + Z.of_nat (length out)).
Proof.
  apply (resend_delivers_swapped demo_row [57; 48; 0; 0] (Writer [] None) empty_packet demo_row_in);
    [done| |done]. by apply (bool_decide_unpack _).
Defined.

(** A header must arrive in one piece: when only its first [k] bytes have
    arrived, [recv_sftt_packet] reports -1 and drops them, so the next call
    starts in the middle of the header. At the end of the connection it
    reports 0, and on a socket with nothing to read -1, losing nothing. *)
Theorem header_arrival type len (k : nat) rest sp
    (Hk : (0 < k < 8)%nat) :
  recv_sftt_packet true
    (Data (take k (header_bytes type len)) :: Data (drop k (header_bytes type len)) :: rest) sp
    = Some (Data (drop k (header_bytes type len)) :: rest, sp, -1)
  /\ recv_sftt_packet true [] sp = Some ([], sp, 0)
  /\ recv_sftt_packet true (Again :: rest) sp = Some (rest, sp, -1).
Proof.
  split; [|done]. unfold recv_sftt_packet, sftt_packet_recv_header, recv.
  cbn [malloc_sftt_packet mbind option_bind].
  assert (Hl : length (take k (header_bytes type len)) = k) by (rewrite length_take, header_length; lia).
  rewrite (take_ge (take k _)), (drop_ge (take k _)) by (rewrite Hl; lia). rewrite Hl.
  rewrite (proj2 (Z.ltb_lt _ _)) by lia. rewrite (proj2 (Z.eqb_neq _ _)) by lia. done.
Qed.

Lemma header_arrival_witness :
  recv_sftt_packet true (Data [38; 0; 0] :: Data [0; 5; 0; 0; 0] :: []) empty_packet
    = Some ([Data [0; 5; 0; 0; 0]], empty_packet, -1)
  /\ recv_sftt_packet true [] empty_packet = Some ([], empty_packet, 0)
  /\ recv_sftt_packet true [Again] empty_packet = Some ([], empty_packet, -1).
Proof. apply (header_arrival 38 5 3 [] empty_packet). lia. Defined.
