(* ===== verification/PutLink.v ===== *)
(** * The raw serialiser behind the transfer model

    [FilePut.raw] states what a send leaves in a [struct put_req].  Here it is
    derived from the byte-level model: viewed field by field, the object that
    [send_sftt_packet] leaves behind is [raw] of the object it was given. *)

From S2P Require Import Prelude Md5 FilePut Encode Layout ReqResp SerializeRaw SerializeTable NetTrans.

Definition put_data : nat := offset_of ReqResp.put_req "data".
Definition put_entry : nat := put_data + offset_of ReqResp.put_req_data "entry".

Definition data_off (f : string) : nat := put_data + offset_of ReqResp.put_req_data f.
Definition entry_off (f : string) : nat := put_entry + offset_of ReqResp.trans_entry f.

Definition int_at (m : list Z) (off : nat) : Z := load_i32 (slice m off 4).
Definition uint_at (m : list Z) (off : nat) : Z := le_val (slice m off 4).

(** The fields of a transfer in the bytes of a [struct put_req]. *)
Definition put_view (m : list Z) : FilePut.put_req :=
  PutReq (int_at m (data_off "total_files")) (int_at m (data_off "file_idx"))
    (Entry (int_at m (entry_off "type")) (int_at m (entry_off "this_size"))
       (uint_at m (entry_off "mode")) (uint_at m (entry_off "total_size"))
       (slice m (entry_off "content") CONTENT_BLOCK_SIZE))
    (int_at m (offset_of ReqResp.put_req "flags")) (int_at m (offset_of ReqResp.put_req "need_reply")).

Lemma slice_byte m off n : Forall is_byte m -> Forall is_byte (slice m off n).
Proof. intros H. unfold slice. by apply Forall_take, Forall_drop. Qed.

Lemma swap_u32_val s : length s = 4%nat -> Forall is_byte s -> swap_u32 (le_val s) = le_val (reverse s).
Proof. intros Hl Hb. unfold swap_u32. by rewrite <- Hl, le_bytes_val. Qed.

Lemma swap_i32_val s : length s = 4%nat -> Forall is_byte s -> swap_i32 (load_i32 s) = load_i32 (reverse s).
Proof.
  intros Hl Hb. unfold swap_i32, load_i32, swap_u32. do 3 f_equal.
  rewrite <- (le_bytes_mod 4 (i32 _)). change (256 ^ Z.of_nat 4) with (2 ^ 32).
  assert (i32 (le_val s) mod 2 ^ 32 = le_val s mod 2 ^ 32) as ->.
  { unfold wrap_s. rewrite <- Zminus_mod_idemp_l, Z.mod_mod, Zminus_mod_idemp_l by lia. f_equal. lia. }
  rewrite (le_bytes_mod 4). by rewrite <- Hl, le_bytes_val.
Qed.

Section View.
Context (m : list Z) (Hl : length m = size_of ReqResp.put_req) (Hb : Forall is_byte m).
Let fields := int_fields ReqResp.put_req.

Lemma swapped_slice off : (off, 4%nat) ∈ fields -> (off + 4 <= size_of ReqResp.put_req)%nat ->
  slice (network_form fields m) off 4 = reverse (slice m off 4)
  /\ length (slice m off 4) = 4%nat /\ Forall is_byte (slice m off 4).
Proof.
  intros Hin Hle. split; [|split; [apply length_slice; lia|by apply slice_byte]].
  pose proof (reversed_field fields off 4 0 m) as H. rewrite Nat.sub_0_r in H.
  apply H; [|done]. rewrite Hl. vm_compute. reflexivity.
Qed.

Lemma view_int off : (off, 4%nat) ∈ fields -> (off + 4 <= size_of ReqResp.put_req)%nat ->
  int_at (network_form fields m) off = swap_i32 (int_at m off).
Proof. intros Hin Hle. destruct (swapped_slice off Hin Hle) as (E & H1 & H2). unfold int_at. by rewrite E, swap_i32_val. Qed.

Lemma view_uint off : (off, 4%nat) ∈ fields -> (off + 4 <= size_of ReqResp.put_req)%nat ->
  uint_at (network_form fields m) off = swap_u32 (uint_at m off).
Proof. intros Hin Hle. destruct (swapped_slice off Hin Hle) as (E & H1 & H2). unfold uint_at. by rewrite E, swap_u32_val. Qed.

Lemma view_content :
  slice (network_form fields m) (entry_off "content") CONTENT_BLOCK_SIZE
    = slice m (entry_off "content") CONTENT_BLOCK_SIZE.
Proof.
  pose proof (reversed_gap fields (entry_off "content") CONTENT_BLOCK_SIZE 0 m) as H. rewrite Nat.sub_0_r in H.
  apply H; [rewrite Hl; vm_compute; reflexivity|lia|]. apply (bool_decide_unpack _). vm_compute. exact Logic.I.
Qed.

Lemma put_view_network : put_view (network_form fields m) = raw (put_view m).
Proof.
  assert (Hin : forall off, bool_decide ((off, 4%nat) ∈ fields /\ (off + 4 <= size_of ReqResp.put_req)%nat) = true ->
    (off, 4%nat) ∈ fields /\ (off + 4 <= size_of ReqResp.put_req)%nat) by (by intros off ?%bool_decide_eq_true).
  unfold put_view, raw. cbn [total_files file_idx entry flags need_reply e_type this_size e_mode total_size content].
  rewrite view_content. rewrite !view_int, !view_uint by (apply Hin; vm_compute; reflexivity). reflexivity.
Qed.
End View.

Definition put_row : serialize_handler :=
  row PACKET_TYPE_PUT_REQ ReqResp.put_req put_req_raw_encode put_req_raw_decode.

Lemma put_row_in : put_row ∈ serializables_raw.
Proof.
  change put_row with (nth 10 serializables_raw put_row). apply list_elem_of_In, nth_In. vm_compute. lia.
Defined.

(** C37: The transfer model's raw serialiser is the program's: sending a put
    request through [send_sftt_packet] delivers to [recv_sftt_packet] the very
    object that was sent, and leaves in the sender's packet an object whose
    fields are those of [FilePut.raw]. *)
Theorem raw_transport_refines m w sp (Hl : length m = size_of ReqResp.put_req) (Hb : Forall is_byte m)
    (Hroom : room w = None) :
  exists m' w' out,
    send_sftt_packet true w (Packet (h_type put_row) (Some m) None 0)
      = Some (w', Packet (h_type put_row) (Some m') None 0, 0)
    /\ put_view m' = raw (put_view m)
    /\ sent w' = sent w ++ header_bytes (h_type put_row) (Z.of_nat (length out)) ++ out
    /\ recv_sftt_packet true
         [Data (header_bytes (h_type put_row) (Z.of_nat (length out))); Data out] sp
       = Some ([], Packet (h_type put_row) (Some m) None 0, 8 + Z.of_nat (length out)).
Proof.
  destruct (send_spec put_row m None 0 w put_row_in Hl Hb)
    as (net & out & w' & Hnet & Hdec & Hne & Hnb & Hpos & Hlen & Hsend).
  destruct (Hsend Hroom) as [E Hs]. exists net, w', out. split; [done|].
  split; [rewrite <- Hnet; by apply put_view_network|]. split; [done|].
  apply (recv_spec put_row m net out [out] []); [exact put_row_in|exact Hl|exact Hnet|exact Hpos|done..| |].
  - by repeat constructor.
  - simpl. by rewrite app_nil_r.
Qed.

Lemma raw_transport_refines_witness :
  exists m' w' out,
    send_sftt_packet true (Writer [] None) (Packet (h_type put_row) (Some (zeroed (size_of ReqResp.put_req))) None 0)
      = Some (w', Packet (h_type put_row) (Some m') None 0, 0)
    /\ put_view m' = raw (put_view (zeroed (size_of ReqResp.put_req)))
    /\ sent w' = sent (Writer [] None) ++ header_bytes (h_type put_row) (Z.of_nat (length out)) ++ out
    /\ recv_sftt_packet true
         [Data (header_bytes (h_type put_row) (Z.of_nat (length out))); Data out] empty_packet
       = Some ([], Packet (h_type put_row) (Some (zeroed (size_of ReqResp.put_req))) None 0,
               8 + Z.of_nat (length out)).
Proof.
  apply (raw_transport_refines (zeroed (size_of ReqResp.put_req)) (Writer [] None) empty_packet);
    [apply length_replicate| |done].
  apply (bool_decide_unpack _). vm_compute. exact Logic.I.
Defined.
