(* ===== verification/RwLock.v ===== *)
(** * The reader/writer lock (src/include/rwlock.h)

    A lock is one counter.  Each function is the step it makes from one atomic
    access to the next; the other threads run between two steps. *)

From stdpp Require Import relations.
From S2P Require Import Prelude.

Definition EBUSY : Z := 16.

(** Where a function is: about to load the counter, or about to exchange it
    for a value it has loaded. *)
Inductive phase := Load | Cas (x : Z).

Inductive progress := Again (p : phase) | Return (r : Z).

#[export] Instance phase_eq_dec : EqDecision phase.
Proof. solve_decision. Defined.

(** [spurious]: the weak exchange may fail although the values agree. *)
Definition compare_exchange (spurious : bool) (cnt x : Z) : bool := negb spurious && (cnt =? x).

Definition rwlock_init : Z := 0.

Definition rwlock_read_lock (spurious : bool) (p : phase) (cnt : Z) : progress * Z :=
  match p with
  | Load => if cnt <? 0 then (Again Load, cnt) else (Again (Cas cnt), cnt)
  | Cas x => if compare_exchange spurious cnt x then (Return 0, i32 (x + 1)) else (Again Load, cnt)
  end.

Definition rwlock_read_trylock (spurious : bool) (p : phase) (cnt : Z) : progress * Z :=
  match p with
  | Load => if cnt <? 0 then (Return (- EBUSY), cnt) else (Again (Cas cnt), cnt)
  | Cas x => if compare_exchange spurious cnt x then (Return 0, i32 (x + 1)) else (Again Load, cnt)
  end.

Definition rwlock_read_unlock (cnt : Z) : Z := i32 (cnt - 1).

Definition rwlock_write_trylock (spurious : bool) (p : phase) (cnt : Z) : progress * Z :=
  match p with
  | Load => if negb (cnt =? 0) then (Return (- EBUSY), cnt) else (Again (Cas cnt), cnt)
  | Cas x => if compare_exchange spurious cnt x then (Return 0, -1) else (Return (- EBUSY), cnt)
  end.

Definition rwlock_write_lock (spurious : bool) (p : phase) (cnt : Z) : progress * Z :=
  match p with
  | Load => if negb (cnt =? 0) then (Again Load, cnt) else (Again (Cas cnt), cnt)
  | Cas x => if compare_exchange spurious cnt x then (Return 0, -1) else (Again Load, cnt)
  end.

Definition rwlock_write_unlock (cnt : Z) : Z := 0.

(** ** Threads that keep to the discipline

    A thread that holds nothing may ask for the lock; one that holds it may
    give it back, in the mode it has it. *)

Inductive mode := Read | Write.
Inductive request := Request (m : mode) (try : bool).

(** What a thread does: nothing, asking, or holding. *)
Inductive thread := Idle | Asking (r : request) (p : phase) | Holding (m : mode).

#[export] Instance mode_eq_dec : EqDecision mode.
Proof. solve_decision. Defined.
#[export] Instance request_eq_dec : EqDecision request.
Proof. solve_decision. Defined.
#[export] Instance thread_eq_dec : EqDecision thread.
Proof. solve_decision. Defined.

Definition acquire (r : request) : bool -> phase -> Z -> progress * Z :=
  match r with
  | Request Read false => rwlock_read_lock
  | Request Read true => rwlock_read_trylock
  | Request Write false => rwlock_write_lock
  | Request Write true => rwlock_write_trylock
  end.

Definition release (m : mode) : Z -> Z :=
  match m with Read => rwlock_read_unlock | Write => rwlock_write_unlock end.

(** The thread after a step of its function. *)
Definition asked (r : request) (g : progress) : thread :=
  match g with
  | Again p => Asking r p
  | Return 0 => match r with Request m _ => Holding m end
  | Return _ => Idle
  end.

Inductive thread_step : thread * Z -> thread * Z -> Prop :=
  | thread_asks r cnt : thread_step (Idle, cnt) (Asking r Load, cnt)
  | thread_tries r p cnt spurious g cnt' : acquire r spurious p cnt = (g, cnt') ->
      thread_step (Asking r p, cnt) (asked r g, cnt')
  | thread_releases m cnt : thread_step (Holding m, cnt) (Idle, release m cnt).

(** The threads and the counter. *)
Definition system : Type := list thread * Z.

Inductive system_step : system -> system -> Prop :=
  | system_step_at a t b t' cnt cnt' : thread_step (t, cnt) (t', cnt') ->
      system_step (a ++ t :: b, cnt) (a ++ t' :: b, cnt').

Definition holds (m : mode) (t : thread) : nat := if decide (t = Holding m) then 1%nat else 0%nat.
Definition holders (m : mode) (l : list thread) : nat := sum_list_with (holds m) l.

(** The counter says who holds the lock: one writer alone, or any number of
    readers. *)
Definition balanced (w r : nat) (cnt : Z) : Prop :=
  (w = 0%nat /\ cnt = Z.of_nat r) \/ (w = 1%nat /\ r = 0%nat /\ cnt = -1).

(** A thread about to exchange has loaded a counter it may change. *)
Definition loaded (t : thread) : Prop :=
  match t with
  | Asking (Request Read _) (Cas x) => 0 <= x
  | Asking (Request Write _) (Cas x) => x = 0
  | _ => True
  end.

Definition lock_inv (s : system) : Prop :=
  Forall loaded s.1 /\ balanced (holders Write s.1) (holders Read s.1) s.2.

Lemma holders_split m a t b :
  holders m (a ++ t :: b) = (holds m t + (holders m a + holders m b))%nat.
Proof. unfold holders. rewrite sum_list_with_app. cbn [sum_list_with]. lia. Qed.

Lemma holders_length m l : (holders m l <= length l)%nat.
Proof.
  induction l as [|t l IH]; [done|]. change (t :: l) with ([] ++ t :: l). rewrite holders_split.
  unfold holds. simpl in *. case_decide; lia.
Qed.

Lemma compare_exchange_true spurious cnt x : compare_exchange spurious cnt x = true -> cnt = x.
Proof. unfold compare_exchange. intros [_ ?%Z.eqb_eq]%andb_true_iff. done. Qed.

(** What an attempt does: nothing, or it takes the lock, from a state in which
    it may be taken. *)
Lemma acquire_spec r spurious p cnt g cnt' :
  acquire r spurious p cnt = (g, cnt') -> loaded (Asking r p) ->
  (cnt' = cnt /\ asked r g <> Holding Read /\ asked r g <> Holding Write /\ loaded (asked r g))
  \/ (exists try, r = Request Read try /\ asked r g = Holding Read /\ 0 <= cnt /\ cnt' = i32 (cnt + 1))
  \/ (exists try, r = Request Write try /\ asked r g = Holding Write /\ cnt = 0 /\ cnt' = -1).
Proof.
  destruct r as [[] []], p as [|x]; cbn [acquire rwlock_read_lock rwlock_read_trylock rwlock_write_lock
    rwlock_write_trylock loaded]; intros E Hl.
  all: try (destruct (Z.ltb_spec cnt 0)). all: try (destruct (Z.eqb_spec cnt 0)); cbn [negb] in E.
  all: try (destruct (compare_exchange spurious cnt x) eqn:Ex; [apply compare_exchange_true in Ex as ->|]).
  all: injection E as <- <-; try (left; done).
  all: try (right; left; eexists; done). all: right; right; eexists; done.
Qed.

Lemma holds_none m t : t <> Holding m -> holds m t = 0%nat.
Proof. intros H. unfold holds. by rewrite decide_False. Qed.

(** One step of one thread, while the others are [w] writers and [r] readers. *)
Lemma thread_step_inv t t' cnt cnt' w r :
  thread_step (t, cnt) (t', cnt') -> loaded t -> Z.of_nat (S r) < 2 ^ 31 ->
  balanced (holds Write t + w) (holds Read t + r) cnt ->
  loaded t' /\ balanced (holds Write t' + w) (holds Read t' + r) cnt'.
Proof.
  unfold balanced. intros Hs Hl Hr Hb.
  inversion Hs as [q c|q p c spurious g c' Hacq|m c]; subst; clear Hs.
  - split; [by destruct q as [[] ?]|exact Hb].
  - change (holds Write (Asking q p)) with 0%nat in Hb. change (holds Read (Asking q p)) with 0%nat in Hb.
    destruct (acquire_spec _ _ _ _ _ _ Hacq Hl) as [(-> & H1 & H2 & Hl')|[(try & -> & -> & H0 & ->)|(try & -> & -> & -> & ->)]].
    + rewrite !holds_none by done. done.
    + change (holds Write (Holding Read)) with 0%nat. change (holds Read (Holding Read)) with 1%nat.
      split; [done|]. left. rewrite i32_small by (unfold in_i32; lia). lia.
    + change (holds Write (Holding Write)) with 1%nat. change (holds Read (Holding Write)) with 0%nat.
      split; [done|]. right. lia.
  - split; [done|]. destruct m; cbn [release]; unfold rwlock_read_unlock, rwlock_write_unlock;
      change (holds Write (Holding Read)) with 0%nat in Hb; change (holds Read (Holding Read)) with 1%nat in Hb;
      change (holds Write (Holding Write)) with 1%nat in Hb; change (holds Read (Holding Write)) with 0%nat in Hb;
      rewrite !holds_none by done; left; [rewrite i32_small by (unfold in_i32; lia)|]; lia.
Qed.

Lemma system_step_inv s s' : system_step s s' ->
  Z.of_nat (length s.1) < 2 ^ 31 -> lock_inv s -> lock_inv s' /\ length s'.1 = length s.1.
Proof.
  intros [a t b t' cnt cnt' Hs] Hn [Hl Hb]. cbn [fst snd] in *.
  rewrite length_app in Hn. cbn [length] in Hn.
  apply Forall_app in Hl as [Ha [Ht Hb']%Forall_cons]. rewrite !holders_split in Hb.
  pose proof (holders_length Read a). pose proof (holders_length Read b).
  destruct (thread_step_inv _ _ _ _ (holders Write a + holders Write b)
    (holders Read a + holders Read b) Hs Ht) as [Hlt Hbal]; [lia|exact Hb|].
  split; [|by rewrite !length_app]. split; cbn [fst snd]; [|by rewrite !holders_split].
  by apply Forall_app, conj, Forall_cons.
Qed.

Lemma reachable_inv n s : rtc system_step (replicate n Idle, rwlock_init) s ->
  Z.of_nat n < 2 ^ 31 -> lock_inv s /\ length s.1 = n.
Proof.
  intros Hs Hn. remember (replicate n Idle, rwlock_init) as s0 eqn:E0.
  assert (Hinv : lock_inv s0 /\ length s0.1 = n).
  { subst. split; [|apply length_replicate]. split; cbn [fst snd].
    - by apply Forall_replicate.
    - left. assert (H : forall m, holders m (replicate n Idle) = 0%nat); [|by rewrite !H].
      intros m. clear. induction n as [|n IH]; [done|]. exact IH. }
  clear E0. induction Hs as [s|s1 s2 s3 H12 _ IH]; [done|]. apply IH. destruct Hinv as [Hi Hl].
  destruct (system_step_inv _ _ H12 ltac:(lia) Hi). split; [done|lia].
Qed.

Lemma holders_elem m l : Holding m ∈ l -> (0 < holders m l)%nat.
Proof.
  intros (a & b & ->)%list_elem_of_split. rewrite holders_split. unfold holds.
  rewrite decide_True by done. lia.
Qed.

Lemma holders_unique l i j m : l !! i = Some (Holding m) -> l !! j = Some (Holding m) ->
  holders m l = 1%nat -> i = j.
Proof.
  intros (a & b & -> & ->)%list_elem_of_split_length Hj. rewrite holders_split. unfold holds at 1.
  rewrite decide_True by done. intros H1. destruct (lt_eq_lt_dec j (length a)) as [[Hlt| ->]|Hgt]; [| done|].
  - rewrite lookup_app_l in Hj by done. apply list_elem_of_lookup_2, holders_elem in Hj. lia.
  - rewrite lookup_app_r, lookup_cons_ne_0 in Hj by lia. apply list_elem_of_lookup_2, holders_elem in Hj. lia.
Qed.

(** C12: Mutual exclusion.  However the accesses of any number of threads below
    2^31 are interleaved, as long as each gives back only what it holds: a
    thread that has the lock for writing is the only one to have it, and the
    counter is -1 exactly then and otherwise counts the readers. *)
Theorem rwlock_exclusion n l cnt (Hn : Z.of_nat n < 2 ^ 31)
    (Hreach : rtc system_step (replicate n Idle, rwlock_init) (l, cnt)) :
  (forall i, l !! i = Some (Holding Write) ->
     cnt = -1 /\ forall j m, l !! j = Some (Holding m) -> j = i)
  /\ (Holding Write ∉ l -> cnt = Z.of_nat (holders Read l)).
Proof.
  destruct (reachable_inv _ _ Hreach Hn) as [[_ Hb] _]. cbn [fst snd] in Hb. split.
  - intros i Hi. pose proof (holders_elem _ _ (list_elem_of_lookup_2 _ _ _ Hi)) as Hw.
    destruct Hb as [[Hb _]|(Hb & Hr & ->)]; [lia|]. split; [done|]. intros j [] Hj.
    + apply list_elem_of_lookup_2, holders_elem in Hj. lia.
    + by eapply holders_unique.
  - intros Hn'. destruct Hb as [[_ Hb]|(Hb & _)]; [done|]. exfalso. apply Hn'.
    clear -Hb. induction l as [|t l IH]; [done|]. cbn in Hb. unfold holds in Hb.
    case_decide as Ht; [rewrite Ht; apply list_elem_of_here|]. apply list_elem_of_further, IH, Hb.
Qed.

Lemma rwlock_exclusion_witness :
  rtc system_step (replicate 2 Idle, rwlock_init) ([Holding Write; Asking (Request Read false) Load], -1)
  /\ forall j m, [Holding Write; Asking (Request Read false) Load] !! j = Some (Holding m) -> j = 0%nat.
Proof.
  assert (Hr : rtc system_step (replicate 2 Idle, rwlock_init)
    ([Holding Write; Asking (Request Read false) Load], -1)).
  { eapply rtc_l; [apply (system_step_at [] Idle [Idle] (Asking (Request Write false) Load) 0 0), thread_asks|].
    eapply rtc_l; [apply (system_step_at [] (Asking (Request Write false) Load) [Idle]
      (Asking (Request Write false) (Cas 0)) 0 0), (thread_tries _ _ _ false (Again (Cas 0))); reflexivity|].
    eapply rtc_l; [apply (system_step_at [] (Asking (Request Write false) (Cas 0)) [Idle]
      (Holding Write) 0 (-1)), (thread_tries (Request Write false) (Cas 0) 0 false (Return 0) (-1)); reflexivity|].
    apply rtc_once, (system_step_at [Holding Write] Idle [] (Asking (Request Read false) Load) (-1) (-1)), thread_asks. }
  split; [exact Hr|]. exact (proj2 (proj1 (rwlock_exclusion 2 _ _ eq_refl Hr) 0%nat eq_refl)).
Defined.
