(* ===== verification/Atomic.v ===== *)
(** * Atomic counters (include/atomic.h)

    A counter is a signed integer of 16, 32 or 64 bits.  A function is the step
    it makes from one access of the counter to the next; the built-in atomic
    operations of the compiler are one access each, and the 64-bit [init],
    [read] and [set] are loops around a compare-and-exchange.  Other threads run
    between two accesses.  At the end: under every schedule the functions take
    effect one after the other, in the order in which they return, and no
    schedule keeps all threads in their loops. *)

From S2P Require Import Prelude.

(** Before the first access, or with the value [tmp] that was loaded. *)
Inductive phase := Start | Loaded (tmp : Z).

Inductive outcome := Return (r : Z) | Again (p : phase).

Definition op := phase -> Z -> outcome * Z.

Definition flag (b : bool) : Z := if b then 1 else 0.

(** A function of one access. *)
Definition access (f : Z -> Z * Z) : op := fun _ v => let '(r, v) := f v in (Return r, v).

(** ** 16 bits *)

Definition atomic16_compare (v exp src : Z) : bool * Z :=
  if wrap_u 16 v =? wrap_u 16 exp then (true, wrap_s 16 src) else (false, v).

Definition atomic16_cmpset (exp src : Z) : op :=
  access (fun v => let '(ok, v) := atomic16_compare v exp src in (flag ok, v)).

Definition atomic16_exchange (val : Z) : op :=
  access (fun v => (wrap_u 16 v, wrap_s 16 val)).

Definition atomic16_init : op :=
  access (fun v => (0, 0)).

Definition atomic16_read : op :=
  access (fun v => (v, v)).

Definition atomic16_set (new_value : Z) : op :=
  access (fun v => (0, wrap_s 16 new_value)).

Definition atomic16_add (inc : Z) : op :=
  access (fun v => (0, wrap_s 16 (v + inc))).

Definition atomic16_sub (dec : Z) : op :=
  access (fun v => (0, wrap_s 16 (v - dec))).

Definition atomic16_inc : op :=
  atomic16_add 1.

Definition atomic16_dec : op :=
  atomic16_sub 1.

Definition atomic16_add_return (inc : Z) : op :=
  access (fun v => let v := wrap_s 16 (v + inc) in (v, v)).

Definition atomic16_sub_return (dec : Z) : op :=
  access (fun v => let v := wrap_s 16 (v - dec) in (v, v)).

Definition atomic16_inc_and_test : op :=
  access (fun v => let v := wrap_s 16 (v + 1) in (flag (v =? 0), v)).

Definition atomic16_dec_and_test : op :=
  access (fun v => let v := wrap_s 16 (v - 1) in (flag (v =? 0), v)).

Definition atomic16_test_and_set : op :=
  atomic16_cmpset 0 1.

Definition atomic16_clear : op :=
  access (fun v => (0, 0)).

(** ** 32 bits *)

Definition atomic32_compare (v exp src : Z) : bool * Z :=
  if wrap_u 32 v =? wrap_u 32 exp then (true, wrap_s 32 src) else (false, v).

Definition atomic32_cmpset (exp src : Z) : op :=
  access (fun v => let '(ok, v) := atomic32_compare v exp src in (flag ok, v)).

Definition atomic32_exchange (val : Z) : op :=
  access (fun v => (wrap_u 32 v, wrap_s 32 val)).

Definition atomic32_init : op :=
  access (fun v => (0, 0)).

Definition atomic32_read : op :=
  access (fun v => (v, v)).

Definition atomic32_set (new_value : Z) : op :=
  access (fun v => (0, wrap_s 32 new_value)).

Definition atomic32_add (inc : Z) : op :=
  access (fun v => (0, wrap_s 32 (v + inc))).

Definition atomic32_sub (dec : Z) : op :=
  access (fun v => (0, wrap_s 32 (v - dec))).

Definition atomic32_inc : op :=
  atomic32_add 1.

Definition atomic32_dec : op :=
  atomic32_sub 1.

Definition atomic32_add_return (inc : Z) : op :=
  access (fun v => let v := wrap_s 32 (v + inc) in (v, v)).

Definition atomic32_sub_return (dec : Z) : op :=
  access (fun v => let v := wrap_s 32 (v - dec) in (v, v)).

Definition atomic32_inc_and_test : op :=
  access (fun v => let v := wrap_s 32 (v + 1) in (flag (v =? 0), v)).

Definition atomic32_dec_and_test : op :=
  access (fun v => let v := wrap_s 32 (v - 1) in (flag (v =? 0), v)).

Definition atomic32_test_and_set : op :=
  atomic32_cmpset 0 1.

Definition atomic32_clear : op :=
  access (fun v => (0, 0)).

(** ** 64 bits *)

Definition atomic64_compare (v exp src : Z) : bool * Z :=
  if wrap_u 64 v =? wrap_u 64 exp then (true, wrap_s 64 src) else (false, v).

Definition atomic64_cmpset (exp src : Z) : op :=
  access (fun v => let '(ok, v) := atomic64_compare v exp src in (flag ok, v)).

Definition atomic64_exchange (val : Z) : op :=
  access (fun v => (wrap_u 64 v, wrap_s 64 val)).

Definition atomic64_init : op :=
  fun p v =>
  match p with
  | Start => (Again (Loaded (wrap_u 64 v)), v)
  | Loaded tmp =>
      let '(success, v) := atomic64_compare v tmp 0 in
      (if success then Return 0 else Again Start, v)
  end.

Definition atomic64_read : op :=
  fun p v =>
  match p with
  | Start => (Again (Loaded (wrap_u 64 v)), v)
  | Loaded tmp =>
      let '(success, v) := atomic64_compare v tmp tmp in
      (if success then Return (wrap_s 64 tmp) else Again Start, v)
  end.

Definition atomic64_set (new_value : Z) : op :=
  fun p v =>
  match p with
  | Start => (Again (Loaded (wrap_u 64 v)), v)
  | Loaded tmp =>
      let '(success, v) := atomic64_compare v tmp new_value in
      (if success then Return 0 else Again Start, v)
  end.

Definition atomic64_add (inc : Z) : op :=
  access (fun v => (0, wrap_s 64 (v + inc))).

Definition atomic64_sub (dec : Z) : op :=
  access (fun v => (0, wrap_s 64 (v - dec))).

Definition atomic64_inc : op :=
  atomic64_add 1.

Definition atomic64_dec : op :=
  atomic64_sub 1.

Definition atomic64_add_return (inc : Z) : op :=
  access (fun v => let v := wrap_s 64 (v + inc) in (v, v)).

Definition atomic64_sub_return (dec : Z) : op :=
  access (fun v => let v := wrap_s 64 (v - dec) in (v, v)).

(** [f(...) == 0] *)
Definition is_zero (f : op) : op := fun p v =>
  match f p v with (Return r, v) => (Return (flag (r =? 0)), v) | again => again end.

Definition atomic64_inc_and_test : op :=
  is_zero (atomic64_add_return 1).

Definition atomic64_dec_and_test : op :=
  is_zero (atomic64_sub_return 1).

Definition atomic64_test_and_set : op :=
  atomic64_cmpset 0 1.

Definition atomic64_clear : op :=
  atomic64_set 0.

(** ** Calls *)

Inductive width := W16 | W32 | W64.

Definition bits (w : width) : Z := match w with W16 => 16 | W32 => 32 | W64 => 64 end.

Inductive call :=
  | Cmpset (exp src : Z) | Exchange (val : Z) | Init | Read | Set_ (new_value : Z) | Add (inc : Z) | Sub (dec : Z) | Inc | Dec
  | AddReturn (inc : Z) | SubReturn (dec : Z) | IncAndTest | DecAndTest | TestAndSet | Clear.

Definition perform (w : width) (c : call) : op :=
  match w with
  | W16 =>
      match c with
      | Cmpset e s => atomic16_cmpset e s
      | Exchange x => atomic16_exchange x
      | Init => atomic16_init
      | Read => atomic16_read
      | Set_ x => atomic16_set x
      | Add x => atomic16_add x
      | Sub x => atomic16_sub x
      | Inc => atomic16_inc
      | Dec => atomic16_dec
      | AddReturn x => atomic16_add_return x
      | SubReturn x => atomic16_sub_return x
      | IncAndTest => atomic16_inc_and_test
      | DecAndTest => atomic16_dec_and_test
      | TestAndSet => atomic16_test_and_set
      | Clear => atomic16_clear
      end
  | W32 =>
      match c with
      | Cmpset e s => atomic32_cmpset e s
      | Exchange x => atomic32_exchange x
      | Init => atomic32_init
      | Read => atomic32_read
      | Set_ x => atomic32_set x
      | Add x => atomic32_add x
      | Sub x => atomic32_sub x
      | Inc => atomic32_inc
      | Dec => atomic32_dec
      | AddReturn x => atomic32_add_return x
      | SubReturn x => atomic32_sub_return x
      | IncAndTest => atomic32_inc_and_test
      | DecAndTest => atomic32_dec_and_test
      | TestAndSet => atomic32_test_and_set
      | Clear => atomic32_clear
      end
  | W64 =>
      match c with
      | Cmpset e s => atomic64_cmpset e s
      | Exchange x => atomic64_exchange x
      | Init => atomic64_init
      | Read => atomic64_read
      | Set_ x => atomic64_set x
      | Add x => atomic64_add x
      | Sub x => atomic64_sub x
      | Inc => atomic64_inc
      | Dec => atomic64_dec
      | AddReturn x => atomic64_add_return x
      | SubReturn x => atomic64_sub_return x
      | IncAndTest => atomic64_inc_and_test
      | DecAndTest => atomic64_dec_and_test
      | TestAndSet => atomic64_test_and_set
      | Clear => atomic64_clear
      end
  end.

(** What each function means when nothing happens in between: its result, and
    the counter afterwards. *)
Definition meaning (w : width) (c : call) (v : Z) : Z * Z :=
  let s z := wrap_s (bits w) z in
  match c with
  | Cmpset e x => if wrap_u (bits w) v =? wrap_u (bits w) e then (1, s x) else (0, v)
  | Exchange x => (wrap_u (bits w) v, s x)
  | Init | Clear => (0, 0)
  | Read => (v, v)
  | Set_ x => (0, s x)
  | Add x => (0, s (v + x))
  | Sub x => (0, s (v - x))
  | Inc => (0, s (v + 1))
  | Dec => (0, s (v - 1))
  | AddReturn x => (s (v + x), s (v + x))
  | SubReturn x => (s (v - x), s (v - x))
  | IncAndTest => (flag (s (v + 1) =? 0), s (v + 1))
  | DecAndTest => (flag (s (v - 1) =? 0), s (v - 1))
  | TestAndSet => if v =? 0 then (1, 1) else (0, v)
  end.

Definition in_width (w : width) (v : Z) : Prop := - 2 ^ (bits w - 1) <= v < 2 ^ (bits w - 1).

(** ** Threads *)

(** A thread is in its first call at the given phase. *)
Record thread := Thread { at_phase : phase; calls : list call }.

(** A return: who, of what, with which result. *)
Record event := Event { ev_thread : nat; ev_call : call; ev_result : Z }.

Record system := System { counter : Z; threads : list thread; history : list event }.

(** An access by thread [i]; [None] when it has nothing left to do. *)
Definition step (w : width) (i : nat) (s : system) : option system :=
  t ← threads s !! i;
  match calls t with
  | [] => None
  | c :: rest =>
      let '(o, v) := perform w c (at_phase t) (counter s) in
      match o with
      | Return r => Some (System v (<[i := Thread Start rest]> (threads s)) (history s ++ [Event i c r]))
      | Again p => Some (System v (<[i := Thread p (c :: rest)]> (threads s)) (history s))
      end
  end.

Fixpoint run (w : width) (schedule : list nat) (s : system) : option system :=
  match schedule with
  | [] => Some s
  | i :: schedule => s ← step w i s; run w schedule s
  end.

Definition initial (v : Z) (programs : list (list call)) : system := System v (Thread Start <$> programs) [].

(** The calls one after the other: each must give the result it has. *)
Fixpoint replay (w : width) (v : Z) (h : list event) : option Z :=
  match h with
  | [] => Some v
  | Event _ c r :: h => let '(r', v') := meaning w c v in if r =? r' then replay w v' h else None
  end.

(** The calls of thread [i] in a history. *)
Definition calls_of (i : nat) (h : list event) : list call := ev_call <$> filter (fun e => ev_thread e = i) h.

(** ** Every function is its meaning at its last access *)

Lemma bits_pos w : 0 < bits w.
Proof. by destruct w. Qed.

Lemma wrap_s_in_width w z : in_width w (wrap_s (bits w) z).
Proof.
  unfold in_width, wrap_s. pose proof (Z.mod_pos_bound (z + 2 ^ (bits w - 1)) (2 ^ bits w)) as Hm.
  assert (E : 2 ^ bits w = 2 * 2 ^ (bits w - 1)) by (destruct w; reflexivity).
  specialize (Hm ltac:(destruct w; reflexivity)). lia.
Qed.

Lemma wrap_s_id w v : in_width w v -> wrap_s (bits w) v = v.
Proof. intros Hv. apply wrap_s_small; [apply bits_pos|exact Hv]. Qed.

Lemma small_in_width w v : 0 <= v <= 1 -> in_width w v.
Proof. intros. unfold in_width. destruct w; simpl; lia. Qed.

(** The bits of a counter determine it. *)
Lemma same_bits w v tmp : in_width w v -> wrap_u (bits w) v = wrap_u (bits w) tmp -> wrap_s (bits w) tmp = v.
Proof.
  intros Hv E. rewrite <- (wrap_s_id w v Hv), <- (wrap_s_mod _ tmp), <- (wrap_s_mod _ v) by apply bits_pos.
  unfold wrap_u in E. by rewrite E.
Qed.

Lemma zero_bits w v : in_width w v -> (wrap_u (bits w) v =? wrap_u (bits w) 0) = (v =? 0).
Proof.
  intros Hv. destruct (Z.eqb_spec v 0) as [->|Hne]; [apply Z.eqb_refl|]. apply Z.eqb_neq. intros E. apply Hne.
  rewrite <- (same_bits w v 0 Hv E). destruct w; reflexivity.
Qed.

Definition done_right (w : width) (c : call) (v : Z) (o : outcome * Z) : Prop :=
  match o with (Return r, v') => meaning w c v = (r, v') | (Again _, v') => v' = v end.

Lemma loop_right c new ret p v : in_width W64 v ->
  (forall tmp, wrap_s 64 tmp = v -> meaning W64 c v = (ret tmp, new tmp)) ->
  done_right W64 c v
    (match p with
     | Start => (Again (Loaded (wrap_u 64 v)), v)
     | Loaded tmp =>
         let '(success, v) := if wrap_u 64 v =? wrap_u 64 tmp then (true, new tmp) else (false, v) in
         (if success then Return (ret tmp) else Again Start, v)
     end).
Proof.
  intros Hv Hm. destruct p as [|tmp]; [done|]. destruct (Z.eqb_spec (wrap_u 64 v) (wrap_u 64 tmp)) as [E|]; [|done].
  apply Hm. exact (same_bits W64 v tmp Hv E).
Qed.

Lemma perform_right w c p v : in_width w v -> done_right w c v (perform w c p v).
Proof.
  intros Hv. destruct c; destruct w; cbn [perform];
    try solve [unfold done_right, atomic16_cmpset, atomic32_cmpset, atomic64_cmpset, access, atomic16_compare, atomic32_compare, atomic64_compare, meaning;
      cbn [bits]; destruct (_ =? _); done]; try reflexivity;
    try (apply (loop_right _ (fun _ => _) (fun _ => _) p v Hv); intros; done).
  - apply (loop_right Read (fun tmp => wrap_s 64 tmp) (fun tmp => wrap_s 64 tmp) p v Hv). by intros tmp ->.
  - pose proof (zero_bits W16 v Hv) as E. cbn [bits] in E.
    unfold done_right, atomic16_test_and_set, atomic16_cmpset, access, atomic16_compare, meaning. rewrite E. by destruct (v =? 0).
  - pose proof (zero_bits W32 v Hv) as E. cbn [bits] in E.
    unfold done_right, atomic32_test_and_set, atomic32_cmpset, access, atomic32_compare, meaning. rewrite E. by destruct (v =? 0).
  - pose proof (zero_bits W64 v Hv) as E. cbn [bits] in E.
    unfold done_right, atomic64_test_and_set, atomic64_cmpset, access, atomic64_compare, meaning. rewrite E. by destruct (v =? 0).
Qed.

Lemma meaning_in_width w c v : in_width w v -> in_width w (meaning w c v).2.
Proof.
  intros Hv. destruct c; cbn [meaning snd]; try apply wrap_s_in_width; try done; try (apply small_in_width; lia).
  - destruct (_ =? _); cbn [snd]; [apply wrap_s_in_width|done].
  - destruct (_ =? _); cbn [snd]; [apply small_in_width; lia|done].
Qed.

(** ** One after the other *)

Lemma replay_snoc w i c r : forall h v v1, replay w v h = Some v1 -> meaning w c v1 = (r, (meaning w c v1).2) ->
  replay w v (h ++ [Event i c r]) = Some (meaning w c v1).2.
Proof.
  intros h. induction h as [|[j c' r'] h IH]; intros v v1; cbn [app replay].
  - intros [= <-] E. rewrite E. by rewrite Z.eqb_refl.
  - destruct (meaning w c' v) as [r'' v'']. destruct (r' =? r''); [apply IH|done].
Qed.

Lemma calls_of_snoc i h e : calls_of i (h ++ [e]) = calls_of i h ++ (if decide (ev_thread e = i) then [ev_call e] else []).
Proof. unfold calls_of. rewrite filter_app, fmap_app, filter_cons, filter_nil. by case_decide. Qed.

Record linear (w : width) (v0 : Z) (programs : list (list call)) (s : system) : Prop := Linear {
  ln_width : in_width w (counter s);
  ln_replay : replay w v0 (history s) = Some (counter s);
  ln_length : length (threads s) = length programs;
  ln_calls : forall i t, threads s !! i = Some t -> programs !! i = Some (calls_of i (history s) ++ calls t);
}.

Lemma linear_initial w v0 programs : in_width w v0 -> linear w v0 programs (initial v0 programs).
Proof.
  intros Hv. split; cbn; [done|done|by rewrite length_fmap|]. intros i t Ht. rewrite list_lookup_fmap in Ht.
  destruct (programs !! i); [|done]. injection Ht as <-. done.
Qed.

Lemma linear_step w v0 programs i s s' : linear w v0 programs s -> step w i s = Some s' -> linear w v0 programs s'.
Proof.
  intros [Hw Hr Hl Hc]. unfold step. intros H. apply bind_Some in H as (t & Ht & H).
  destruct (calls t) as [|c rest] eqn:Ec; [done|]. pose proof (perform_right w c (at_phase t) (counter s) Hw) as Hp.
  destruct (perform w c (at_phase t) (counter s)) as [[r|p] v']; cbn in Hp.
  - injection H as <-. pose proof (meaning_in_width w c _ Hw) as Hw'. rewrite Hp in Hw'. split; cbn [counter history threads]; [done| |by rewrite length_insert|].
    + rewrite (replay_snoc w i c r _ _ _ Hr); by rewrite Hp.
    + intros j u Hu. rewrite calls_of_snoc. cbn [ev_thread ev_call]. apply list_lookup_insert_Some in Hu as [(-> & <- & _)|[Hne Hu]].
      * rewrite decide_True by done. rewrite (Hc _ _ Ht), Ec. cbn [calls]. by rewrite <- app_assoc.
      * rewrite decide_False by done. rewrite app_nil_r. by apply Hc.
  - injection H as <-. subst v'. split; cbn [counter history threads]; [done|done|by rewrite length_insert|].
    intros j u Hu. apply list_lookup_insert_Some in Hu as [(-> & <- & _)|[Hne Hu]]; [|by apply Hc].
    rewrite (Hc _ _ Ht), Ec. done.
Qed.

Lemma linear_run w v0 programs schedule : forall s s', linear w v0 programs s -> run w schedule s = Some s' -> linear w v0 programs s'.
Proof.
  induction schedule as [|i schedule IH]; intros s s' Hs; cbn [run]; [by intros [= <-]|].
  intros H. apply bind_Some in H as (s1 & H1 & H). apply (IH s1); [|done]. by eapply linear_step.
Qed.

(** ** The loops end *)

(** A thread whose loaded value is out of date has two accesses to go before
    it can succeed, one that has loaded nothing has one. *)
Definition turns (v : Z) (t : thread) : nat :=
  match at_phase t with
  | Start => 1
  | Loaded tmp => if wrap_u 64 v =? wrap_u 64 tmp then 0 else 2
  end.

Definition todo (l : list thread) : nat := sum_list_with (fun t => length (calls t)) l.

Definition potential (s : system) : nat :=
  (2 * S (length (threads s)) * todo (threads s) + sum_list_with (turns (counter s)) (threads s))%nat.

Lemma sum_insert {A} (f : A -> nat) (l : list A) : forall i x y, l !! i = Some x ->
  (sum_list_with f (<[i:=y]> l) + f x = sum_list_with f l + f y)%nat.
Proof.
  induction l as [|z l IH]; intros [|i] x y; [done|done| |].
  - intros [= <-]. cbn. lia.
  - intros H. specialize (IH i x y H).
    change (f z + sum_list_with f (<[i:=y]> l) + f x = f z + sum_list_with f l + f y)%nat. lia.
Qed.

Lemma turns_change v v' l : (sum_list_with (turns v') l <= sum_list_with (turns v) l + 2 * length l)%nat.
Proof.
  induction l as [|t l IH]; [done|]. cbn [sum_list_with length].
  assert (turns v' t <= turns v t + 2)%nat; [|lia]. unfold turns. destruct (at_phase t); [lia|]. destruct (_ =? _), (_ =? _); lia.
Qed.

(** An access that does not end the call. *)
Lemma again_turns w c p v q v' : perform w c p v = (Again q, v') ->
  v' = v /\ (turns v (Thread q []) < turns v (Thread p []))%nat.
Proof.
  assert (Hloop : forall new ret, 
    match p with
     | Start => (Again (Loaded (wrap_u 64 v)), v)
     | Loaded tmp =>
         let '(success, v) := atomic64_compare v tmp (new tmp) in
         (if success then Return (ret tmp) else Again Start, v)
     end = (Again q, v') -> v' = v /\ (turns v (Thread q []) < turns v (Thread p []))%nat).
  { intros new ret. unfold atomic64_compare, turns. destruct p as [|tmp]; cbn [at_phase].
    - intros [= <- <-]. split; [done|]. rewrite (wrap_u_small 64 (wrap_u 64 v)), Z.eqb_refl by (apply wrap_u_range; lia). lia.
    - destruct (Z.eqb_spec (wrap_u 64 v) (wrap_u 64 tmp)); [done|]. intros [= <- <-]. split; [done|lia]. }
  destruct w, c; cbn [perform]; try discriminate;
    try solve [unfold atomic16_cmpset, atomic32_cmpset, atomic64_cmpset, atomic16_test_and_set, atomic32_test_and_set, atomic64_test_and_set,
      atomic16_cmpset, atomic32_cmpset, atomic64_cmpset, access; destruct (_ v _ _) as [ok v1]; discriminate].
  - apply (Hloop (fun _ => 0) (fun _ => 0)).
  - apply (Hloop (fun tmp => tmp) (fun tmp => wrap_s 64 tmp)).
  - apply (Hloop (fun _ => new_value) (fun _ => 0)).
  - apply (Hloop (fun _ => 0) (fun _ => 0)).
Qed.

Lemma turns_calls v p l l' : turns v (Thread p l) = turns v (Thread p l').
Proof. reflexivity. Qed.

Lemma step_potential w i s s' : step w i s = Some s' -> (potential s' < potential s)%nat.
Proof.
  unfold step. intros H. apply bind_Some in H as (t & Ht & H). destruct (calls t) as [|c rest] eqn:Ec; [done|].
  pose proof (lookup_lt_Some _ _ _ Ht) as Hi. pose proof (again_turns w c (at_phase t) (counter s)) as Ha.
  destruct (perform w c (at_phase t) (counter s)) as [[r|p] v'] eqn:Ep; injection H as <-; unfold potential, todo; cbn [threads counter];
    rewrite length_insert.
  - pose proof (sum_insert (fun t => length (calls t)) (threads s) i t (Thread Start rest) Ht) as H1.
    pose proof (sum_insert (turns v') (threads s) i t (Thread Start rest) Ht) as H2.
    pose proof (turns_change (counter s) v' (threads s)) as H3. cbv beta in H1. rewrite Ec in H1. cbn [calls length] in H1.
    assert (H4 : (turns v' (Thread Start rest) = 1)%nat) by done.
    set (n := length (threads s)) in *. set (a := sum_list_with (fun t => length (calls t)) (<[i:=Thread Start rest]> (threads s))) in *.
    replace (sum_list_with (fun t => length (calls t)) (threads s)) with (a + 1)%nat by lia. lia.
  - destruct (Ha p v' eq_refl) as [-> Hlt].
    pose proof (sum_insert (fun t => length (calls t)) (threads s) i t (Thread p (c :: rest)) Ht) as H1.
    pose proof (sum_insert (turns (counter s)) (threads s) i t (Thread p (c :: rest)) Ht) as H2.
    cbv beta in H1. rewrite Ec in H1. cbn [calls] in H1. rewrite (turns_calls _ p [] (c :: rest)) in Hlt.
    assert (turns (counter s) (Thread (at_phase t) []) = turns (counter s) t) by (by destruct t).
    set (n := length (threads s)) in *. set (a := sum_list_with _ (threads s)) in *. set (b := sum_list_with _ (<[i:=_]> (threads s))) in *.
    assert (b = a) by lia. nia.
Qed.

Lemma run_potential w schedule : forall s s', run w schedule s = Some s' -> (length schedule + potential s' <= potential s)%nat.
Proof.
  induction schedule as [|i schedule IH]; intros s s'; cbn [run length]; [intros [= <-]; lia|].
  intros H. apply bind_Some in H as (s1 & H1%step_potential & H%IH). lia.
Qed.

Lemma sum_fmap {A B} (f : B -> nat) (g : A -> B) l : sum_list_with f (g <$> l) = sum_list_with (fun x => f (g x)) l.
Proof. induction l as [|x l IH]; [done|]. cbn. by f_equal. Qed.

Lemma potential_initial v programs :
  potential (initial v programs) = (2 * S (length programs) * length (concat programs) + length programs)%nat.
Proof.
  unfold potential, initial, todo. cbn [threads counter]. rewrite length_fmap, !sum_fmap.
  assert (E1 : sum_list_with (fun x => length (calls (Thread Start x))) programs = length (concat programs)).
  { induction programs as [|p l IH]; [done|]. cbn [concat]. rewrite length_app, <- IH. done. }
  assert (E2 : sum_list_with (fun x => turns v (Thread Start x)) programs = length programs).
  { clear. induction programs as [|p l IH]; [done|]. cbn [length]. by rewrite <- IH. }
  by rewrite E1, E2.
Qed.

(** A thread with calls left can always make an access. *)
Lemma step_enabled w i s t : threads s !! i = Some t -> calls t <> [] -> is_Some (step w i s).
Proof.
  intros Ht Hc. unfold step. rewrite Ht. cbn [mbind option_bind]. destruct (calls t) as [|c rest]; [done|].
  destruct (perform _ _ _ _) as [[r|p] v']; by eexists.
Qed.

(** C23: The atomic functions are atomic: whatever calls the threads make and
    however their accesses are interleaved, the calls that have returned gave
    the results, and left the counter, that the same calls give one after the
    other in the order in which they returned; and these are for each thread
    the first calls of its program, in its order. *)
Theorem atomics_linearize w v programs schedule s
    (Hv : in_width w v) (Hrun : run w schedule (initial v programs) = Some s) :
  replay w v (history s) = Some (counter s) /\ in_width w (counter s)
  /\ forall i t, threads s !! i = Some t -> programs !! i = Some (calls_of i (history s) ++ calls t).
Proof.
  destruct (linear_run w v programs schedule _ s (linear_initial w v programs Hv) Hrun) as [Hw Hr _ Hc]. done.
Qed.

(** C20: The loops of the 64-bit functions cannot go on for ever: no schedule
    has more accesses than twice the number of calls for each thread and one
    more, and one for each thread, and a schedule that cannot go on has brought
    every thread to its end. *)
Theorem atomics_terminate w v programs schedule s
    (Hrun : run w schedule (initial v programs) = Some s) :
  (length schedule <= 2 * S (length programs) * length (concat programs) + length programs)%nat
  /\ ((forall i, step w i s = None) -> forall i t, threads s !! i = Some t -> calls t = []).
Proof.
  pose proof (run_potential w schedule _ s Hrun) as H. rewrite potential_initial in H. split; [lia|].
  intros Hnone i t Ht. destruct (calls t) eqn:E; [done|].
  destruct (step_enabled w i s t Ht) as [s' Hs]; [by rewrite E|]. by rewrite Hnone in Hs.
Qed.

(** ** Counting *)

(** What a call adds to the counter. *)
Definition amount (c : call) : option Z :=
  match c with
  | Add x | AddReturn x => Some x
  | Sub x | SubReturn x => Some (- x)
  | Inc | IncAndTest => Some 1
  | Dec | DecAndTest => Some (-1)
  | Read => Some 0
  | _ => None
  end.

Definition total (l : list call) : Z := foldr (fun c n => default 0 (amount c) + n) 0 l.

Lemma meaning_amount w c v : in_width w v -> is_Some (amount c) -> (meaning w c v).2 = wrap_s (bits w) (v + default 0 (amount c)).
Proof. intros Hv [x Hx]. destruct c; try discriminate; injection Hx as <-; try reflexivity. cbn [amount default meaning snd]. by rewrite Z.add_0_r, wrap_s_id. Qed.

Lemma replay_total w h : forall v v', in_width w v -> Forall (fun e => is_Some (amount (ev_call e))) h -> replay w v h = Some v' ->
  v' = wrap_s (bits w) (v + total (ev_call <$> h)).
Proof.
  induction h as [|[i c r] h IH]; intros v v' Hv Hh; cbn [replay].
  - intros [= <-]. cbn. by rewrite Z.add_0_r, wrap_s_id.
  - apply Forall_cons in Hh as [Hc Hh]. cbn [ev_call] in Hc. pose proof (meaning_amount w c v Hv Hc) as Hm.
    pose proof (meaning_in_width w c v Hv) as Hw. destruct (meaning w c v) as [r' v1]. cbn [snd] in Hm, Hw.
    destruct (r =? r'); [|done]. intros H. rewrite (IH v1 v' Hw Hh H), Hm, wrap_s_add_l by (by destruct w).
    change (total (ev_call <$> Event i c r :: h)) with (default 0 (amount c) + total (ev_call <$> h)). f_equal. lia.
Qed.

Definition total_left (l : list thread) : Z := foldr (fun t n => total (calls t) + n) 0 l.

Lemma total_left_insert l : forall i t u, l !! i = Some t -> total_left (<[i:=u]> l) = total_left l - total (calls t) + total (calls u).
Proof.
  induction l as [|x l IH]; intros [|i] t u; [done|done| |].
  - intros [= <-]. cbn. lia.
  - intros H. specialize (IH i t u H). change (total (calls x) + total_left (<[i:=u]> l) = total (calls x) + total_left l - total (calls t) + total (calls u)). lia.
Qed.

Lemma total_cons c l : total (c :: l) = default 0 (amount c) + total l.
Proof. reflexivity. Qed.

Lemma total_app l1 l2 : total (l1 ++ l2) = total l1 + total l2.
Proof. induction l1 as [|c l1 IH]; [done|]. cbn [app]. rewrite !total_cons, IH. lia. Qed.

Definition accounted (s : system) : Z := total (ev_call <$> history s) + total_left (threads s).

Lemma step_accounted w i s s' : step w i s = Some s' -> accounted s' = accounted s.
Proof.
  unfold step. intros H. apply bind_Some in H as (t & Ht & H). destruct (calls t) as [|c rest] eqn:Ec; [done|].
  destruct (perform _ _ _ _) as [[r|p] v']; injection H as <-; unfold accounted; cbn [history threads].
  - rewrite fmap_app, total_app, (total_left_insert _ _ _ _ Ht), Ec. cbn [fmap list_fmap ev_call calls]. rewrite !total_cons.
    change (total []) with 0. lia.
  - rewrite (total_left_insert _ _ _ _ Ht), Ec. cbn [calls]. lia.
Qed.

Lemma run_accounted w schedule : forall s s', run w schedule s = Some s' -> accounted s' = accounted s.
Proof.
  induction schedule as [|i schedule IH]; intros s s'; cbn [run]; [by intros [= <-]|].
  intros H. apply bind_Some in H as (s1 & H1%step_accounted & H%IH). lia.
Qed.

Definition counts (c : call) : Prop := is_Some (amount c).

Lemma step_counts w i s s' : step w i s = Some s' ->
  Forall (fun e => counts (ev_call e)) (history s) /\ Forall (fun t => Forall counts (calls t)) (threads s) ->
  Forall (fun e => counts (ev_call e)) (history s') /\ Forall (fun t => Forall counts (calls t)) (threads s').
Proof.
  unfold step. intros H [Hh Ht]. apply bind_Some in H as (t & Hi & H). pose proof (Forall_lookup_1 _ _ _ _ Ht Hi) as Hc. cbv beta in Hc.
  destruct (calls t) as [|c rest]; [done|]. pose proof Hc as Hc'. apply Forall_cons in Hc' as [Hc1 Hrest].
  destruct (perform _ _ _ _) as [[r|p] v']; injection H as <-; cbn [history threads].
  - split; [apply Forall_app; split; [done|by apply Forall_singleton]|by apply Forall_insert].
  - split; [done|by apply Forall_insert].
Qed.

Lemma run_counts w schedule : forall s s', run w schedule s = Some s' ->
  Forall (fun e => counts (ev_call e)) (history s) /\ Forall (fun t => Forall counts (calls t)) (threads s) ->
  Forall (fun e => counts (ev_call e)) (history s').
Proof.
  induction schedule as [|i schedule IH]; intros s s'; cbn [run]; [intros [= <-]; tauto|].
  intros H Hs. apply bind_Some in H as (s1 & H1 & H). apply (IH s1 s' H). by eapply step_counts.
Qed.

Lemma total_left_initial programs : total_left (Thread Start <$> programs) = total (concat programs).
Proof.
  induction programs as [|p l IH]; [done|]. cbn [concat]. rewrite total_app, <- IH.
  change (total_left (Thread Start <$> p :: l)) with (total p + total_left (Thread Start <$> l)). done.
Qed.

Lemma total_left_done l : (forall i t, l !! i = Some t -> calls t = []) -> total_left l = 0.
Proof.
  induction l as [|t l IH]; intros H; [done|]. cbn. rewrite (H 0%nat t eq_refl). cbn. apply IH. intros i u Hu. exact (H (S i) u Hu).
Qed.

(** Counting is exact: when threads that only add, subtract, count and read
    have come to their end, the counter is the old one with everything added,
    as far as the width goes. *)
Theorem atomics_count w v programs schedule s
    (Hv : in_width w v) (Hc : Forall (Forall counts) programs)
    (Hrun : run w schedule (initial v programs) = Some s) (Hend : forall i t, threads s !! i = Some t -> calls t = []) :
  counter s = wrap_s (bits w) (v + total (concat programs)).
Proof.
  pose proof (run_accounted w schedule _ s Hrun) as Ha. unfold accounted, initial in Ha. cbn [history threads] in Ha.
  rewrite total_left_initial, (total_left_done _ Hend) in Ha.
  destruct (linear_run w v programs schedule _ s (linear_initial w v programs Hv) Hrun) as [_ Hr _ _].
  rewrite (replay_total w (history s) v (counter s) Hv); [|eapply run_counts; [exact Hrun|]|done].
  - do 2 f_equal. cbn in Ha. lia.
  - split; [constructor|]. cbn [initial threads]. by apply Forall_fmap.
Qed.

(** ** Three threads on a 64-bit counter *)

Definition demo_programs : list (list call) := [[Inc; Read]; [Set_ 5; AddReturn 2]; [Read]].

(** Thread 0 counts between the load and the exchange of the others' loops. *)
Definition demo_schedule : list nat := [1; 2; 0; 1; 2; 1; 1; 1; 0; 0; 2; 2]%nat.

Definition demo_end : system := default (initial 0 []) (run W64 demo_schedule (initial (-1) demo_programs)).

Lemma atomics_linearize_witness :
  map ev_result (history demo_end) = [0; 0; 7; 7; 7] /\
  replay W64 (-1) (history demo_end) = Some (counter demo_end) /\ in_width W64 (counter demo_end)
  /\ forall i t, threads demo_end !! i = Some t -> demo_programs !! i = Some (calls_of i (history demo_end) ++ calls t).
Proof.
  split; [reflexivity|]. apply (atomics_linearize W64 (-1) demo_programs demo_schedule demo_end); [unfold in_width; cbn; lia|reflexivity].
Defined.

Lemma atomics_terminate_witness : (12 <= 2 * 4 * 5 + 3)%nat
  /\ ((forall i, step W64 i demo_end = None) -> forall i t, threads demo_end !! i = Some t -> calls t = []).
Proof. apply (atomics_terminate W64 (-1) demo_programs demo_schedule demo_end). reflexivity. Defined.

Definition demo_counting : system :=
  default (initial 0 []) (run W16 [0; 1; 0; 1]%nat (initial 32766 [[Inc; Inc]; [AddReturn 3; Dec]])).

Lemma atomics_count_witness : counter demo_counting = wrap_s 16 (32766 + 4) /\ counter demo_counting = -32766.
Proof.
  split; [|reflexivity]. apply (atomics_count W16 32766 [[Inc; Inc]; [AddReturn 3; Dec]] [0; 1; 0; 1]%nat demo_counting).
  - unfold in_width. cbn. lia.
  - repeat constructor; by eexists.
  - reflexivity.
  - intros [|[|i]] t; [by intros [= <-]..|done].
Defined.
