(* ===== verification/UpdateLock.v ===== *)
(** * The threads of the server and [update_lock] (src/server.c)

    The server changes its second port while it runs.  The thread that does so
    takes [update_lock] for writing, the two threads that accept connections
    and the thread of each session take it for reading.  The program counters
    below follow the loops of these threads; what the environment decides
    (clocks, sockets, random ports, which packet arrives) is an argument. *)

From stdpp Require Import relations.
From S2P Require Import Prelude RwLock.

Definition MAX_CLIENT_NUM : nat := 32.

(** ** The loops *)

(** [port_update_loop]; [UPort] is the part between the lock and its release. *)
Inductive updater := UWait | UTry (p : phase) | UPort | UUnlock.

(** [need_update_port] and [can_update_port] are [due] and [ready]; the new
    port and its socket are [port] and [sock]. *)
Definition port_update_loop (due ready spurious : bool) (main_port port sock : Z)
    (pc : updater) (cnt second_port second_sock : Z) : updater * Z * Z * Z :=
  match pc with
  | UWait => (if due && ready then UTry Load else UWait, cnt, second_port, second_sock)
  | UTry p =>
      let '(g, cnt) := rwlock_write_trylock spurious p cnt in
      (match g with Again p => UTry p | Return r => if negb (r =? 0) then UWait else UPort end,
       cnt, second_port, second_sock)
  | UPort =>
      if (main_port =? port) || (second_port =? port) then (UUnlock, cnt, second_port, second_sock)
      else if sock =? -1 then (UUnlock, cnt, second_port, second_sock)
      else (UUnlock, cnt, port, sock)
  | UUnlock => (UWait, rwlock_write_unlock cnt, second_port, second_sock)
  end.

(** [main_channel_loop]; in [MRespond] it sends the second port. *)
Inductive main_channel := MAccept | MLock (p : phase) | MRespond | MUnlock.

Definition main_channel_loop (connect_fd : Z) (spurious : bool) (pc : main_channel) (cnt : Z)
    : main_channel * Z :=
  match pc with
  | MAccept => (if connect_fd =? -1 then MAccept else MLock Load, cnt)
  | MLock p =>
      let '(g, cnt) := rwlock_read_lock spurious p cnt in
      (match g with Again p => MLock p | Return _ => MRespond end, cnt)
  | MRespond => (MUnlock, cnt)
  | MUnlock => (MAccept, rwlock_read_unlock cnt)
  end.

(** [second_channel_loop]; the result says whether a session is started. *)
Inductive second_channel := CLock (p : phase) | CAccept | CUnlock.

Definition second_channel_loop (connect_fd : Z) (spurious : bool) (sessions : nat) (pc : second_channel) (cnt : Z)
    : second_channel * Z * bool :=
  match pc with
  | CLock p =>
      let '(g, cnt) := rwlock_read_lock spurious p cnt in
      (match g with Again p => CLock p | Return _ => CAccept end, cnt, false)
  | CAccept =>
      if connect_fd =? -1 then (CUnlock, cnt, false)
      else (CUnlock, cnt, (sessions <? MAX_CLIENT_NUM)%nat)
  | CUnlock => (CLock Load, rwlock_read_unlock cnt, false)
  end.

(** The loop of [handle_client_session].  The result of the attempt is only
    used to sleep; [SUpdating] waits for [is_conn_updating] of the main
    connection, which nothing in the server sets. *)
Inductive session := STry (p : phase) | SUpdating | SRecv | SUnlock | SHandle | SExit.

Definition handle_client_session (spurious conn_updating leaves : bool) (pc : session) (cnt : Z) : session * Z :=
  match pc with
  | STry p =>
      let '(g, cnt) := rwlock_read_trylock spurious p cnt in
      (match g with Again p => STry p | Return _ => SUpdating end, cnt)
  | SUpdating => (if conn_updating then SUpdating else SRecv, cnt)
  | SRecv => (SUnlock, cnt)
  | SUnlock => (SHandle, rwlock_read_unlock cnt)
  | SHandle => (if leaves then SExit else STry Load, cnt)
  | SExit => (SExit, cnt)
  end.

(** ** The server *)

Record server := Server {
  update_lock : Z;
  second_port : Z;
  second_sock : Z;
  port_updater : updater;
  main_loop : main_channel;
  second_loop : second_channel;
  sessions : list session;
}.

(** After [sftt_server_start], with the sessions of [n] clients. *)
Definition started (port sock : Z) (n : nat) : server :=
  Server rwlock_init port sock UWait MAccept (CLock Load) (replicate n (STry Load)).

Section Server.
Context (main_port : Z).

Inductive server_step : server -> server -> Prop :=
  | updater_runs due ready spurious port sock u u' c c' sp sp' ss ss' m k l :
      port_update_loop due ready spurious main_port port sock u c sp ss = (u', c', sp', ss') ->
      server_step (Server c sp ss u m k l) (Server c' sp' ss' u' m k l)
  | main_runs fd spurious m m' c c' sp ss u k l :
      main_channel_loop fd spurious m c = (m', c') ->
      server_step (Server c sp ss u m k l) (Server c' sp ss u m' k l)
  | second_runs fd spurious k k' c c' new sp ss u m l :
      second_channel_loop fd spurious (length l) k c = (k', c', new) ->
      server_step (Server c sp ss u m k l)
                  (Server c' sp ss u m k' (if (new : bool) then l ++ [STry Load] else l))
  | session_runs spurious leaves s s' c c' sp ss u m k a b :
      handle_client_session spurious false leaves s c = (s', c') ->
      server_step (Server c sp ss u m k (a ++ s :: b)) (Server c' sp ss u m k (a ++ s' :: b)).

(** ** A lock that nobody holds and nobody can take *)

(** The counter is negative, and no thread has the lock or is about to
    exchange a counter it has loaded. *)
Definition session_outside (s : session) : Prop := forall x, s <> STry (Cas x).

Record wedged (s : server) : Prop := Wedged {
  wedged_lock : update_lock s < 0;
  wedged_updater : port_updater s = UWait \/ port_updater s = UTry Load;
  wedged_main : main_loop s = MAccept \/ main_loop s = MLock Load;
  wedged_second : second_loop s = CLock Load;
  wedged_sessions : Forall session_outside (sessions s);
}.

(** What a wedged server has lost. *)
Lemma session_outside_step spurious leaves s s' c c' :
  handle_client_session spurious false leaves s c = (s', c') -> session_outside s -> c < 0 -> - 2 ^ 31 < c ->
  session_outside s' /\ c - 1 <= c' <= c.
Proof.
  intros E Hs Hc Hlow. destruct s as [[|x]| | | | |]; cbn [handle_client_session rwlock_read_trylock] in E.
  - rewrite (proj2 (Z.ltb_lt c 0)) in E by done. injection E as <- <-. split; [done|lia].
  - by destruct (Hs x).
  - injection E as <- <-. split; [done|lia].
  - injection E as <- <-. split; [done|lia].
  - injection E as <- <-. unfold rwlock_read_unlock. rewrite i32_small by (unfold in_i32; lia). split; [done|lia].
  - destruct leaves; injection E as <- <-; (split; [done|lia]).
  - injection E as <- <-. split; [done|lia].
Qed.

Lemma wedged_step s s' : server_step s s' -> wedged s -> - 2 ^ 31 < update_lock s ->
  wedged s' /\ update_lock s - 1 <= update_lock s' <= update_lock s /\ second_port s' = second_port s
    /\ length (sessions s') = length (sessions s).
Proof.
  intros Hs [Hl Hu Hm Hk Hss] Hlow.
  destruct Hs as [due ready spurious port sock u u' c c' sp sp' ss ss' m k l E|fd spurious m m' c c' sp ss u k l E
    |fd spurious k k' c c' new sp ss u m l E|spurious leaves s s' c c' sp ss u m k a b E]; cbn in *.
  - destruct Hu as [->| ->]; cbn [port_update_loop rwlock_write_trylock] in E.
    + injection E as <- <- <- <-. split; [|split; [lia|done]].
      split; cbn; auto. destruct (due && ready); auto.
    + rewrite (proj2 (Z.eqb_neq c 0)) in E by lia. injection E as <- <- <- <-.
      split; [|split; [lia|done]]. split; cbn; auto.
  - destruct Hm as [->| ->]; cbn [main_channel_loop rwlock_read_lock] in E.
    + injection E as <- <-. split; [|split; [lia|done]]. split; cbn; auto. destruct (fd =? -1); auto.
    + rewrite (proj2 (Z.ltb_lt c 0)) in E by done. injection E as <- <-.
      split; [|split; [lia|done]]. split; cbn; auto.
  - subst k. cbn [second_channel_loop rwlock_read_lock] in E. rewrite (proj2 (Z.ltb_lt c 0)) in E by done.
    injection E as <- <- <-. split; [|split; [lia|done]]. split; cbn; auto.
  - apply Forall_app in Hss as [Ha [Hs Hb]%Forall_cons].
    destruct (session_outside_step _ _ _ _ _ _ E Hs Hl Hlow) as [Hs' Hc'].
    split; [|split; [lia|split; [done|by rewrite !length_app]]].
    split; cbn; [lia|done|done|done|]. by apply Forall_app, conj, Forall_cons.
Qed.

Lemma wedged_steps n s s' : nsteps server_step n s s' -> wedged s -> - 2 ^ 31 <= update_lock s - Z.of_nat n ->
  wedged s' /\ second_port s' = second_port s /\ length (sessions s') = length (sessions s).
Proof.
  induction 1 as [s|n s1 s2 s3 H12 _ IH]; intros Hw Hlow; [done|].
  destruct (wedged_step _ _ H12 Hw) as (Hw2 & Hl & Hp & Hn); [lia|].
  destruct IH as (Hw3 & Hp3 & Hn3); [done|lia|]. split; [done|]. split; congruence.
Qed.

(** A session whose attempt falls into an update gives back a lock it never
    got. *)
Lemma wedge_reachable port sock n port' sock' :
  main_port <> port' -> port <> port' -> sock' <> -1 ->
  exists s, rtc server_step (started port sock (S n)) s
    /\ wedged s /\ update_lock s = -1 /\ second_port s = port' /\ length (sessions s) = S n.
Proof.
  intros H1 H2 H3. exists (Server (-1) port' sock' UWait MAccept (CLock Load) (SHandle :: replicate n (STry Load))).
  split; [|split; [split; cbn; auto; [lia|constructor; [done|by apply Forall_replicate]]|]];
    [|cbn; by rewrite length_replicate].
  unfold started. cbn [replicate].
  assert (Hports : (main_port =? port') || (port =? port') = false)
    by (by rewrite (proj2 (Z.eqb_neq main_port port')), (proj2 (Z.eqb_neq port port'))).
  do 3 (eapply rtc_l; [eapply (updater_runs true true false port' sock'); reflexivity|]). cbn.
  do 3 (eapply rtc_l; [eapply (session_runs false false _ _ _ _ _ _ _ _ _ []); reflexivity|]). cbn.
  eapply rtc_l; [eapply (updater_runs true true false port' sock'); cbn [port_update_loop];
    rewrite Hports, (proj2 (Z.eqb_neq sock' (-1))) by done; reflexivity|].
  eapply rtc_l; [eapply (updater_runs true true false port' sock'); reflexivity|]. cbn.
  eapply rtc_once, (session_runs false false _ _ _ _ _ _ _ _ _ []). reflexivity.
Qed.
End Server.

(** C39: The loop of a session gives [update_lock] back whether or not it got
    it.  With one client connected, the server can reach a state in which
    nobody holds the lock but its counter is -1, as if for writing; and
    whatever happens in the next 2^31 - 1 steps, no thread that accepts
    connections gets past the lock, no session is added, and the port is not
    changed again. *)
Theorem update_lock_wedges main_port port sock n port' sock'
    (Hmain : main_port <> port') (Hport : port <> port') (Hsock : sock' <> -1) :
  exists s, rtc (server_step main_port) (started port sock (S n)) s /\ update_lock s = -1
    /\ forall k s', nsteps (server_step main_port) k s s' -> Z.of_nat k < 2 ^ 31 ->
       second_loop s' = CLock Load /\ (main_loop s' = MAccept \/ main_loop s' = MLock Load)
       /\ (port_updater s' = UWait \/ port_updater s' = UTry Load)
       /\ length (sessions s') = S n /\ second_port s' = port'.
Proof.
  destruct (wedge_reachable main_port port sock n port' sock') as (s & Hr & Hw & Hl & Hp & Hn); [done..|].
  exists s. split; [done|]. split; [done|]. intros k s' Hk Hb.
  destruct (wedged_steps main_port _ _ _ Hk Hw) as ([_ Hu Hm Hk' _] & Hp' & Hn'); [lia|].
  do 3 (split; [done|]). split; congruence.
Qed.

Lemma update_lock_wedges_witness :
  exists s, rtc (server_step 9000) (started 9001 5 1) s /\ update_lock s = -1.
Proof.
  destruct (update_lock_wedges 9000 9001 5 0 9002 6) as (s & Hr & Hl & _); [done..|].
  exists s. exact (conj Hr Hl).
Defined.
