(* ===== verification/ThreadPool.v ===== *)
(** * The thread pool (src/thread_pool.c)

    A worker and the threads that launch jobs share a structure and two pipes.
    The steps below are the accesses to them, which interleave freely; a read
    on an empty pipe does not step.  Functions are numbers, and [call] is what
    calling one returns. *)

From stdpp Require Import relations.
From S2P Require Import Prelude RwLock.

Inductive thread_state_t := WAIT | RUNNING.

#[export] Instance thread_state_eq_dec : EqDecision thread_state_t.
Proof. solve_decision. Defined.

(** A function and its argument. *)
Definition job : Type := nat * Z.

Record thread_instance := Instance {
  state : thread_state_t;
  f : option nat;
  arg : Z;
  ret : Z;
  main2worker : nat;
  worker2main : nat;
}.

Definition with_state s t := Instance s (f t) (arg t) (ret t) (main2worker t) (worker2main t).
Definition with_f g t := Instance (state t) g (arg t) (ret t) (main2worker t) (worker2main t).
Definition with_arg a t := Instance (state t) (f t) a (ret t) (main2worker t) (worker2main t).
Definition with_ret r t := Instance (state t) (f t) (arg t) r (main2worker t) (worker2main t).
Definition with_main2worker n t := Instance (state t) (f t) (arg t) (ret t) n (worker2main t).
Definition with_worker2main n t := Instance (state t) (f t) (arg t) (ret t) (main2worker t) n.

(** After [create_worker_thread]. *)
Definition create_worker_thread : thread_instance := Instance WAIT None 0 0 0 0.

(** ** The worker *)

Inductive worker :=
  | WaitCommand | SetRunning | AckCommand | LoadF | LoadArg (g : nat) | Call (j : job)
  | StoreRet (r : Z) | ClearF | ClearArg | SetWait.

Section Pool.
Context (call : nat -> Z -> Z).

(** A read on a pipe takes a byte or blocks. *)
Definition worker_thread_wait_command (t : thread_instance) : option thread_instance :=
  match main2worker t with O => None | S n => Some (with_main2worker n t) end.

Definition worker_thread_ack_command (t : thread_instance) : thread_instance :=
  with_worker2main (S (worker2main t)) t.

(** One turn of [worker_thread_loop], and the job it calls. *)
Definition worker_thread_loop (w : worker) (t : thread_instance) : option (worker * thread_instance * list job) :=
  match w with
  | WaitCommand =>
      match worker_thread_wait_command t with None => None | Some t => Some (SetRunning, t, []) end
  | SetRunning => Some (AckCommand, with_state RUNNING t, [])
  | AckCommand => Some (LoadF, worker_thread_ack_command t, [])
  | LoadF => match f t with None => Some (LoadF, t, []) | Some g => Some (LoadArg g, t, []) end
  | LoadArg g => Some (Call (g, arg t), t, [])
  | Call j => Some (StoreRet (call j.1 j.2), t, [j])
  | StoreRet r => Some (ClearF, with_ret r t, [])
  | ClearF => Some (ClearArg, with_f None t, [])
  | ClearArg => Some (SetWait, with_arg 0 t, [])
  | SetWait => Some (WaitCommand, with_state WAIT t, [])
  end.

(** ** A launch *)

Definition THREAD_INDEX_ANY : Z := -1.

Inductive launch :=
  | Scan (i : nat) (j : job) | CheckState (i : nat) (j : job) | StoreArg (i : nat) (j : job)
  | StoreF (i : nat) (j : job) | WakeWrite (i : nat) (j : job) | WakeRead (i : nat) (j : job).

Definition launch_thread_in_pool (tid : Z) (j : job) : launch :=
  if tid =? THREAD_INDEX_ANY then Scan 0 j else CheckState (Z.to_nat tid) j.

(** What a step of a launch leads to: another one, or the result of the call. *)
Definition next : Type := launch + Z.

(** [get_one_idle_thread] at index [i] of a pool of the given states. *)
Definition get_one_idle_thread (threads : list thread_instance) (i : nat) (j : job) : next :=
  match threads !! i with
  | None => inr (-1)
  | Some t => if decide (state t = WAIT) then inl (CheckState i j) else inl (Scan (S i) j)
  end.

(** The two halves of [wake_worker_thread]. *)
Definition wake_write (t : thread_instance) : thread_instance := with_main2worker (S (main2worker t)) t.
Definition wake_read (t : thread_instance) : option thread_instance :=
  match worker2main t with O => None | S n => Some (with_worker2main n t) end.

(** It returns when the worker is ready again. *)
Definition wait_worker_thread (t : thread_instance) : option Z :=
  if decide (state t = WAIT) then Some (ret t) else None.

Definition launch_one_thread (l : launch) (t : thread_instance) : option (next * thread_instance) :=
  match l with
  | Scan _ _ => None
  | CheckState i j => Some (if decide (state t = WAIT) then inl (StoreArg i j) else inr (- EBUSY), t)
  | StoreArg i j => Some (inl (StoreF i j), with_arg j.2 t)
  | StoreF i j => Some (inl (WakeWrite i j), with_f (Some j.1) t)
  | WakeWrite i j => Some (inl (WakeRead i j), wake_write t)
  | WakeRead i j =>
      match wake_read t with None => None | Some t => Some (inr 0, t) end
  end.

Definition target (l : launch) : nat :=
  match l with
  | Scan i _ | CheckState i _ | StoreArg i _ | StoreF i _ | WakeWrite i _ | WakeRead i _ => i
  end.
Definition launch_job (l : launch) : job :=
  match l with
  | Scan _ j | CheckState _ j | StoreArg _ j | StoreF _ j | WakeWrite _ j | WakeRead _ j => j
  end.

(** ** The pool and the threads that use it

    A launcher is in the middle of a launch or has nothing to do.  The logs
    record the launches that returned 0 and the calls the workers made. *)

Record pool := Pool {
  threads : list (worker * thread_instance);
  launchers : list (option launch);
  launched : list (nat * job);
  called : list (nat * job);
}.

Definition create_thread_pool (size users : nat) : pool :=
  Pool (replicate size (WaitCommand, create_worker_thread)) (replicate users None) [] [].

Inductive pool_step : pool -> pool -> Prop :=
  | worker_runs i w t w' t' js ts us la ca : ts !! i = Some (w, t) ->
      worker_thread_loop w t = Some (w', t', js) ->
      pool_step (Pool ts us la ca) (Pool (<[i:=(w', t')]> ts) us la (ca ++ ((fun j => (i, j)) <$> js)))
  | launch_starts u tid j ts us la ca : us !! u = Some None -> -1 <= tid ->
      pool_step (Pool ts us la ca) (Pool ts (<[u:=Some (launch_thread_in_pool tid j)]> us) la ca)
  | launch_scans u i j n ts us la ca : us !! u = Some (Some (Scan i j)) ->
      get_one_idle_thread (snd <$> ts) i j = n ->
      pool_step (Pool ts us la ca)
                (Pool ts (<[u:=match n with inl l => Some l | inr _ => None end]> us) la ca)
  | launch_runs u l w t n t' ts us la ca : us !! u = Some (Some l) -> ts !! target l = Some (w, t) ->
      launch_one_thread l t = Some (n, t') ->
      pool_step (Pool ts us la ca)
                (Pool (<[target l:=(w, t')]> ts)
                      (<[u:=match n with inl l => Some l | inr _ => None end]> us)
                      (match n with inr 0 => la ++ [(target l, launch_job l)] | _ => la end) ca).
End Pool.

(** * Jobs in the thread pool: the properties

    With one thread launching, every accepted job is called exactly once, in
    order; with two, a job can be lost. *)

(** ** What a worker owes

    [stage] is how far the launcher has come with a worker. *)
Inductive stage := Rest | Chosen | Armed (j : job) | Loaded (j : job) | Sent (j : job).

Definition stage_of (l : launch) : stage :=
  match l with
  | Scan _ _ | CheckState _ _ => Rest
  | StoreArg _ _ => Chosen
  | StoreF _ j => Armed j
  | WakeWrite _ j => Loaded j
  | WakeRead _ j => Sent j
  end.

Definition stage_at (u : option launch) (i : nat) : stage :=
  match u with
  | None => Rest
  | Some l => if decide (target l = i) then stage_of l else Rest
  end.

(** The job handed over by a launch that has not returned. *)
Definition in_flight (s : stage) : list job :=
  match s with Loaded j | Sent j => [j] | _ => [] end.

(** The acknowledgements that wait in the pipe. *)
Inductive acks : stage -> nat -> Prop :=
  | acks_rest : acks Rest 0
  | acks_sent j : acks (Sent j) 1.

(** [serves s w t p]: at stage [s] the worker [w] will call the jobs [p]. *)
Inductive serves : stage -> worker -> thread_instance -> list job -> Prop :=
  | serves_idle a r : serves Rest WaitCommand (Instance WAIT None a r 0 0) []
  | serves_chosen a r : serves Chosen WaitCommand (Instance WAIT None a r 0 0) []
  | serves_armed j r : serves (Armed j) WaitCommand (Instance WAIT None j.2 r 0 0) []
  | serves_loaded j r : serves (Loaded j) WaitCommand (Instance WAIT (Some j.1) j.2 r 0 0) [j]
  | serves_woken j r : serves (Sent j) WaitCommand (Instance WAIT (Some j.1) j.2 r 1 0) [j]
  | serves_set j r : serves (Sent j) SetRunning (Instance WAIT (Some j.1) j.2 r 0 0) [j]
  | serves_ack j r : serves (Sent j) AckCommand (Instance RUNNING (Some j.1) j.2 r 0 0) [j]
  | serves_f s n j r : acks s n -> serves s LoadF (Instance RUNNING (Some j.1) j.2 r 0 n) [j]
  | serves_arg s n j r : acks s n -> serves s (LoadArg j.1) (Instance RUNNING (Some j.1) j.2 r 0 n) [j]
  | serves_call s n j g a r : acks s n -> serves s (Call j) (Instance RUNNING g a r 0 n) [j]
  | serves_ret s n v g a r : acks s n -> serves s (StoreRet v) (Instance RUNNING g a r 0 n) []
  | serves_clear_f s n g a r : acks s n -> serves s ClearF (Instance RUNNING g a r 0 n) []
  | serves_clear_arg s n a r : acks s n -> serves s ClearArg (Instance RUNNING None a r 0 n) []
  | serves_wait s n a r : acks s n -> serves s SetWait (Instance RUNNING None a r 0 n) []
  | serves_done j a r : serves (Sent j) WaitCommand (Instance WAIT None a r 0 1) [].
#[local] Hint Constructors serves acks : core.

Section Pool.
Context (call : nat -> Z -> Z).

Lemma serves_worker s w t p w' t' js :
  serves s w t p -> worker_thread_loop call w t = Some (w', t', js) ->
  exists p', serves s w' t' p' /\ p = js ++ p'.
Proof.
  intros Hs E. destruct Hs; simpl in E; try discriminate; injection E as <- <- <-;
    (eexists; split; [|reflexivity]); unfold worker_thread_ack_command, wake_write, with_main2worker, with_state, with_worker2main,
      with_ret, with_f, with_arg;
    cbn; try rewrite <- surjective_pairing; eauto.
  all: match goal with H : acks _ _ |- _ => destruct H; eauto end.
Qed.

Lemma serves_launch l w t p n t' :
  serves (stage_of l) w t p -> launch_one_thread l t = Some (n, t') ->
  exists q, serves (match n with inl l => stage_of l | inr _ => Rest end) w t' (p ++ q)
    /\ match n with
       | inl l' => target l' = target l /\ in_flight (stage_of l') = in_flight (stage_of l) ++ q
       | inr r => q = [] /\ in_flight (stage_of l) = if decide (r = 0) then [launch_job l] else []
       end.
Proof.
  intros Hs E. destruct l as [i j|i j|i j|i j|i j|i j]; cbn [launch_one_thread stage_of] in *; [done|..].
  all: inversion Hs; subst; simpl in E; try discriminate;
    try match goal with H : acks _ _ |- _ => inversion H; subst; clear H end; simpl in E; injection E as <- <-;
    unfold worker_thread_ack_command, wake_write, with_main2worker, with_state, with_worker2main,
      with_ret, with_f, with_arg; cbn.
  all: first [exists []; cbn; (split; [by eauto|done]) | exists [j]; (split; [by eauto|done])].
Qed.

(** ** The invariant *)

Definition jobs_of (i : nat) (log : list (nat * job)) : list job := (filter (fun x => x.1 = i) log).*2.

Lemma jobs_of_app i a b : jobs_of i (a ++ b) = jobs_of i a ++ jobs_of i b.
Proof. unfold jobs_of. by rewrite filter_app, fmap_app. Qed.

Lemma jobs_of_calls i k (js : list job) :
  jobs_of i ((fun j => (k, j)) <$> js) = if decide (k = i) then js else [].
Proof.
  unfold jobs_of. induction js as [|j js IH]; [by destruct (decide _)|].
  rewrite fmap_cons, filter_cons. cbn [fst]. destruct (decide (k = i)); [by rewrite fmap_cons, IH|done].
Qed.

Definition worker_ok (u : option launch) (la ca : list (nat * job)) (i : nat) (x : worker * thread_instance) : Prop :=
  exists p, serves (stage_at u i) x.1 x.2 p
    /\ jobs_of i ca ++ p = jobs_of i la ++ in_flight (stage_at u i).

Definition jobs_ok (s : pool) : Prop :=
  exists u, launchers s = [u] /\ forall i x, threads s !! i = Some x -> worker_ok u (launched s) (called s) i x.
Lemma stage_at_other l i : target l <> i -> stage_at (Some l) i = Rest.
Proof. intros H. cbn. by rewrite decide_False. Qed.

Lemma stage_at_target l : stage_at (Some l) (target l) = stage_of l.
Proof. cbn. by rewrite decide_True. Qed.

(** At rest with every worker. *)
Lemma stage_at_rest u i : (forall l, u = Some l -> stage_of l = Rest) -> stage_at u i = Rest.
Proof. intros H. destruct u as [l|]; [|done]. cbn. case_decide; [by apply H|done]. Qed.

Lemma worker_ok_rest u u' la ca i x : stage_at u i = Rest -> stage_at u' i = Rest ->
  worker_ok u la ca i x -> worker_ok u' la ca i x.
Proof. unfold worker_ok. intros -> ->. done. Qed.

Lemma job_step_ok s s' : pool_step call s s' -> jobs_ok s -> jobs_ok s'.
Proof.
  intros Hs (u & Hu & Hok). destruct Hs as [i w t w' t' js ts us la ca Hi E|v tid j ts us la ca Hv Ht
    |v i j n ts us la ca Hv E|v l w t n t' ts us la ca Hv Hi E]; cbn [launchers threads launched called] in *; subst us.
  - exists u. split; [done|]. intros k x Hk. cbn in Hk |- *.
    destruct (decide (i = k)) as [<-|Hne].
    + rewrite list_lookup_insert_eq in Hk by (by eapply lookup_lt_Some). injection Hk as <-.
      destruct (Hok _ _ Hi) as (p & Hsv & Heq). destruct (serves_worker _ _ _ _ _ _ _ Hsv E) as (p' & Hsv' & ->).
      exists p'. split; [done|]. by rewrite jobs_of_app, jobs_of_calls, decide_True, <- app_assoc.
    + rewrite list_lookup_insert_ne in Hk by done. destruct (Hok _ _ Hk) as (p & Hsv & Heq). exists p.
      split; [done|]. by rewrite jobs_of_app, jobs_of_calls, decide_False, app_nil_r.
  - destruct v as [|v]; [|done]. injection Hv as ->. eexists. split; [reflexivity|]. intros k x Hk.
    eapply worker_ok_rest; [| |by apply Hok]; [done|]. apply stage_at_rest. intros l [= <-].
    unfold launch_thread_in_pool. by destruct (tid =? _).
  - destruct v as [|v]; [|done]. injection Hv as ->. eexists. split; [reflexivity|]. intros k x Hk.
    eapply worker_ok_rest; [| |by apply Hok]; [by apply stage_at_rest; intros l [= <-]|]. apply stage_at_rest.
    intros l Hl. subst n. unfold get_one_idle_thread in Hl. destruct (_ !! i) as [t|]; [|done].
    by destruct (decide _); injection Hl as <-.
  - destruct v as [|v]; [|done]. injection Hv as ->. eexists. split; [reflexivity|]. intros k x Hk. cbn in Hk |- *.
    destruct (Hok _ _ Hi) as (p & Hsv & Heq). rewrite stage_at_target in Hsv, Heq. cbn [fst snd] in Hsv.
    destruct (serves_launch _ _ _ _ _ _ Hsv E) as (q & Hsv' & Hlog).
    assert (Hla : jobs_of k (match n with inr 0 => la ++ [(target l, launch_job l)] | _ => la end)
      = jobs_of k la ++ match n with inr 0 => if decide (target l = k) then [launch_job l] else [] | _ => [] end).
    { destruct n as [|[]]; rewrite ?app_nil_r; [done| |done..]. rewrite jobs_of_app. f_equal.
      exact (jobs_of_calls k (target l) [launch_job l]). }
    unfold worker_ok. rewrite Hla. clear Hla. destruct (decide (target l = k)) as [<-|Hne].
    + rewrite list_lookup_insert_eq in Hk by (by eapply lookup_lt_Some). injection Hk as <-. exists (p ++ q).
      cbn [fst snd]. rewrite app_assoc, Heq, <- !app_assoc.
      destruct n as [l'|r]; [destruct Hlog as [Ht Hf]; rewrite <- Ht, stage_at_target, Hf; done|].
      destruct Hlog as [-> ->]. cbn [stage_at in_flight]. split; [done|]. f_equal. by destruct r.
    + rewrite list_lookup_insert_ne in Hk by done. destruct (Hok _ _ Hk) as (p0 & Hsv0 & Heq0).
      rewrite (stage_at_other l) in Hsv0, Heq0 by done. exists p0.
      assert (Hst : stage_at (match n with inl l => Some l | inr _ => None end) k = Rest).
      { destruct n as [l'|]; [|done]. apply stage_at_other. destruct Hlog as [-> _]. done. }
      rewrite Hst. split; [done|]. rewrite Heq0. destruct n as [|[]]; cbn; by rewrite !app_nil_r.
Qed.

(** A worker at rest finishes its job in at most seven turns of its own. *)
Fixpoint turns (n : nat) (w : worker) (t : thread_instance) : option (worker * thread_instance * list job) :=
  match n with
  | O => Some (w, t, [])
  | S n =>
      '(w, t, js) ← worker_thread_loop call w t;
      '(w, t, js') ← turns n w t;
      Some (w, t, js ++ js')
  end.

Lemma serves_turns w t p : serves Rest w t p ->
  exists n t', (n <= 7)%nat /\ turns n w t = Some (WaitCommand, t', p) /\ serves Rest WaitCommand t' [].
Proof.
  intros H. inversion H; subst; try match goal with H : acks _ _ |- _ => inversion H; subst; clear H end.
  - exists 0%nat. eexists. split; [lia|]. split; [reflexivity|constructor].
  - exists 7%nat. eexists. split; [lia|]. split; [cbn; by rewrite <- surjective_pairing|constructor].
  - exists 6%nat. eexists. split; [lia|]. split; [cbn; by rewrite <- surjective_pairing|constructor].
  - exists 5%nat. eexists. split; [lia|]. split; [reflexivity|constructor].
  - exists 4%nat. eexists. split; [lia|]. split; [reflexivity|constructor].
  - exists 3%nat. eexists. split; [lia|]. split; [reflexivity|constructor].
  - exists 2%nat. eexists. split; [lia|]. split; [reflexivity|constructor].
  - exists 1%nat. eexists. split; [lia|]. split; [reflexivity|constructor].
Qed.

Lemma reachable_ok size s : rtc (pool_step call) (create_thread_pool size 1) s -> jobs_ok s.
Proof.
  intros Hs. assert (H0 : jobs_ok (create_thread_pool size 1)).
  { exists None. split; [done|]. intros i x Hx. apply lookup_replicate_1 in Hx as [-> _].
    exists []. split; [constructor|done]. }
  induction Hs as [s|s1 s2 s3 H12 _ IH]; [done|]. by apply IH, (job_step_ok s1).
Qed.
End Pool.

(** C13: When one thread launches, the pool runs each job once.  Between two
    launches, however launcher and workers have been scheduled, the calls a
    worker has made are the launches on it that returned 0, in their order and
    each once, but for at most one job that the worker has in hand; and the
    worker, left alone, calls that job and is ready again after at most seven
    turns. *)
Theorem pool_runs_each_job_once call size ts la ca i w t
    (Hreach : rtc (pool_step call) (create_thread_pool size 1) (Pool ts [None] la ca))
    (Hi : ts !! i = Some (w, t)) :
  exists p n t', (length p <= 1)%nat /\ jobs_of i ca ++ p = jobs_of i la
    /\ (n <= 7)%nat /\ turns call n w t = Some (WaitCommand, t', p) /\ is_Some (wait_worker_thread t').
Proof.
  destruct (reachable_ok _ _ _ Hreach) as (u & [= <-] & Hok). destruct (Hok _ _ Hi) as (p & Hs & Heq).
  cbn in Hs, Heq. rewrite app_nil_r in Heq. destruct (serves_turns call _ _ _ Hs) as (n & t' & Hn & Ht & Hs').
  exists p, n, t'. split; [by destruct Hs; cbn; lia|]. split; [done|]. split; [done|]. split; [done|].
  inversion Hs'; subst. by eexists.
Qed.

(** ** Running a schedule *)

Inductive action := Work (i : nat) | Start (u : nat) (tid : Z) (j : job) | Go (u : nat).

Definition act (call : nat -> Z -> Z) (s : pool) (a : action) : option pool :=
  let 'Pool ts us la ca := s in
  match a with
  | Work i =>
      '(w, t) ← ts !! i;
      '(w', t', js) ← worker_thread_loop call w t;
      Some (Pool (<[i:=(w', t')]> ts) us la (ca ++ ((fun j => (i, j)) <$> js)))
  | Start u tid j =>
      match us !! u with
      | Some None =>
          if -1 <=? tid then Some (Pool ts (<[u:=Some (launch_thread_in_pool tid j)]> us) la ca) else None
      | _ => None
      end
  | Go u =>
      match us !! u with
      | Some (Some (Scan i j)) =>
          let n := get_one_idle_thread (snd <$> ts) i j in
          Some (Pool ts (<[u:=match n with inl l => Some l | inr _ => None end]> us) la ca)
      | Some (Some l) =>
          '(w, t) ← ts !! target l;
          '(n, t') ← launch_one_thread l t;
          Some (Pool (<[target l:=(w, t')]> ts) (<[u:=match n with inl l => Some l | inr _ => None end]> us)
                  (match n with inr 0 => la ++ [(target l, launch_job l)] | _ => la end) ca)
      | _ => None
      end
  end.

Definition acts (call : nat -> Z -> Z) (s : pool) (l : list action) : option pool :=
  foldl (fun s a => s ← s; act call s a) (Some s) l.

Lemma act_step call s a s' : act call s a = Some s' -> pool_step call s s'.
Proof.
  destruct s as [ts us la ca], a as [i|u tid j|u]; cbn [act].
  - destruct (ts !! i) as [[w t]|] eqn:Hi; [|done]. cbn [mbind option_bind].
    destruct (worker_thread_loop call w t) as [[[w' t'] js]|] eqn:E; [|done]. cbn [mbind option_bind].
    intros [= <-]. by eapply worker_runs.
  - destruct (us !! u) as [[l|]|] eqn:Hu; [done| |done]. destruct (Z.leb_spec (-1) tid); [|done].
    intros [= <-]. by apply launch_starts.
  - destruct (us !! u) as [[l|]|] eqn:Hu; [|done..].
    destruct l as [i j| | | | |]; [intros [= <-]; by eapply launch_scans|..].
    all: match goal with |- context [launch_one_thread ?l] => set (l0 := l) in *; cbn [target launch_job] end.
    all: destruct (ts !! target l0) as [[w t]|] eqn:Hi; [|done]; cbn [mbind option_bind].
    all: destruct (launch_one_thread l0 t) as [[n t']|] eqn:E; [|done]; cbn [mbind option_bind].
    all: intros [= <-]; exact (launch_runs call u l0 w t n t' ts us la ca Hu Hi E).
Qed.

Lemma acts_rtc call l : forall s s', acts call s l = Some s' -> rtc (pool_step call) s s'.
Proof.
  unfold acts. induction l as [|a l IH] using rev_ind; intros s s' H; [injection H as ->; constructor|].
  rewrite foldl_snoc in H. destruct (foldl _ _ l) as [s1|] eqn:E; [|done].
  eapply rtc_r; [by apply IH|by eapply act_step].
Qed.

(** A launch on an idle worker: scan, check, store, wake, and the worker's part. *)
Definition one_launch (u : nat) (j : job) : list action :=
  [Start u (-1) j; Go u; Go u; Go u; Go u; Go u; Work 0; Work 0; Work 0; Go u].

Lemma pool_runs_each_job_once_witness :
  exists s, acts (fun _ a => a) (create_thread_pool 1 1) (one_launch 0 (7%nat, 5)) = Some s
    /\ exists p n t', (length p <= 1)%nat /\ jobs_of 0 (called s) ++ p = [(7%nat, 5)]
         /\ (n <= 7)%nat /\ turns (fun _ a => a) n LoadF (Instance RUNNING (Some 7%nat) 5 0 0 0) = Some (WaitCommand, t', p)
         /\ is_Some (wait_worker_thread t').
Proof.
  assert (H : acts (fun _ a => a) (create_thread_pool 1 1) (one_launch 0 (7%nat, 5))
    = Some (Pool [(LoadF, Instance RUNNING (Some 7%nat) 5 0 0 0)] [None] [(0%nat, (7%nat, 5))] [])) by reflexivity.
  eexists. split; [exact H|].
  exact (pool_runs_each_job_once (fun _ a => a) 1 _ _ _ 0 _ _ (acts_rtc _ _ _ _ H) eq_refl).
Defined.

(** ** Two launchers *)

(** The worker waits for a function that will not come, and is not idle. *)
Definition starved (i : nat) (s : pool) : Prop :=
  (exists t, threads s !! i = Some (LoadF, t) /\ f t = None /\ state t = RUNNING)
  /\ Forall (fun u => stage_at u i = Rest) (launchers s).

Lemma starved_step call i s s' : pool_step call s s' -> starved i s ->
  starved i s' /\ jobs_of i (called s') = jobs_of i (called s).
Proof.
  intros Hs [(t0 & Hi0 & Hf & Hst) Hall]. destruct Hs as [k w t w' t' js ts us la ca Hi E|u tid j ts us la ca Hu Ht
    |u k j n ts us la ca Hu E|u l w t n t' ts us la ca Hu Hi E]; unfold starved;
    cbn [launchers threads launched called] in *.
  - rewrite jobs_of_app, jobs_of_calls. destruct (decide (k = i)) as [->|Hne].
    + rewrite Hi in Hi0. injection Hi0 as -> ->. cbn in E. rewrite Hf in E. injection E as <- <- <-.
      rewrite app_nil_r. split; [|done]. split; [|done]. exists t0.
      rewrite list_lookup_insert_eq by (by eapply lookup_lt_Some). done.
    + rewrite app_nil_r. split; [|done]. split; [|done]. exists t0. by rewrite list_lookup_insert_ne by done.
  - split; [|done]. split; [by exists t0|]. apply Forall_insert; [done|]. apply stage_at_rest. intros l [= <-].
    unfold launch_thread_in_pool. by destruct (tid =? _).
  - split; [|done]. split; [by exists t0|]. apply Forall_insert; [done|]. apply stage_at_rest.
    intros l Hl. subst n. unfold get_one_idle_thread in Hl. destruct (_ !! k) as [t|]; [|done].
    by destruct (decide _); injection Hl as <-.
  - split; [|done]. pose proof (Forall_lookup_1 _ _ _ _ Hall Hu) as Hl. cbn beta in Hl.
    destruct (decide (target l = i)) as [<-|Hne].
    + rewrite stage_at_target in Hl. rewrite Hi in Hi0. injection Hi0 as -> ->.
      destruct l; try discriminate Hl; [discriminate E|]. cbn in E. rewrite decide_False in E by congruence.
      injection E as <- <-. split; [|by apply Forall_insert]. exists t0.
      rewrite list_lookup_insert_eq by (by eapply lookup_lt_Some). done.
    + split; [exists t0; by rewrite list_lookup_insert_ne by done|]. apply Forall_insert; [done|].
      destruct n as [l'|]; [|done]. apply stage_at_other. clear Hl.
      destruct l; cbn in E; [discriminate|destruct (decide _)|..|destruct (wake_read t)]; by simplify_eq/=.
Qed.

Lemma starved_forever call i s s' : rtc (pool_step call) s s' -> starved i s ->
  starved i s' /\ jobs_of i (called s') = jobs_of i (called s).
Proof.
  induction 1 as [s|s1 s2 s3 H12 _ IH]; intros Hs; [done|].
  destruct (starved_step _ _ _ _ H12 Hs) as [Hs2 <-]. by apply IH.
Qed.

(** Both launchers check the worker before either stores its job. *)
Definition lost_schedule (j1 j2 : job) : list action :=
  [Start 0 (-1) j1; Go 0; Go 0; Start 1 (-1) j2; Go 1; Go 1; Go 0; Go 0; Go 1; Go 1; Go 0; Go 1;
   Work 0; Work 0; Work 0; Go 0; Work 0; Work 0; Work 0; Work 0; Work 0; Work 0; Work 0;
   Work 0; Work 0; Work 0; Go 1].

(** C40: The pool is not safe for two threads that launch at the same time.  Both
    can find the same worker idle and both launches return 0, but the worker
    calls only the second job; it then waits for a function for ever, is never
    given another job, and the first job is never run. *)
Theorem two_launchers_lose_a_job call j1 j2 :
  exists s, rtc (pool_step call) (create_thread_pool 1 2) s
    /\ launchers s = [None; None] /\ jobs_of 0 (launched s) = [j1; j2] /\ jobs_of 0 (called s) = [j2]
    /\ forall s', rtc (pool_step call) s s' -> jobs_of 0 (called s') = [j2].
Proof.
  destruct j1 as [f1 a1], j2 as [f2 a2]. eexists. split; [apply (acts_rtc call (lost_schedule (f1, a1) (f2, a2))); vm_compute; reflexivity|]. cbn.
  split; [done|]. split; [done|]. split; [done|]. intros s' Hs'.
  apply (starved_forever call 0) in Hs' as [_ ->]; [done|].
  split; [eexists; cbn; done|]. by repeat constructor.
Qed.
