(* ===== verification/PoolLife.v ===== *)
(** * Making and destroying a thread pool (src/thread_pool.c)

    ThreadPool begins with a pool whose workers all run.  Here the system can
    refuse a pipe or a thread, and the memory of the pool is in the allocator.
    [dead] workers are those without a thread. *)

From stdpp Require Import relations.
From S2P Require Import Prelude MemPool RwLock ThreadPool.

Definition THREAD_POOL_MAX_SIZE : Z := 32.
Definition THREAD_SIZE : Z := 56.
Definition TP_SIZE : Z := 16.

(** What the system answers for worker [i]: whether there are pipes, and the
    result of [pthread_create], 0 or the number of an error. *)
Record answers := Answers { pipes : nat -> bool * bool; pthread_create : nat -> Z }.

(** The worker, and whether it has a thread. *)
Definition slot : Type := thread_instance * bool.

(** [mp_malloc] gives zeros, and [WAIT] is 0. *)
Definition blank_slot : slot := (Instance WAIT None 0 0 0 0, false).

Record thread_pool := ThreadPool {
  tp_address : positive;
  tp_size : Z;
  initialized : bool;
  tp_threads : option (positive * list slot);
}.

Section Create.
Context (sys : answers).

Definition create_worker_thread (i : nat) (s : slot) : slot * Z :=
  let '(p1, p2) := pipes sys i in
  if negb p1 then (s, -1) else
  if negb p2 then (s, -1) else
  let ret := pthread_create sys i in
  ((with_state WAIT s.1, bool_decide (ret = 0)), ret).

(** The loop of [init_thread_pool], which ends at the first failure. *)
Fixpoint init_threads (i : nat) (l : list slot) : list slot * Z :=
  match l with
  | [] => ([], 0)
  | s :: l =>
      let '(s, ret) := create_worker_thread i s in
      if negb (ret =? 0) then (s :: l, ret) else let '(l, ret) := init_threads (S i) l in (s :: l, ret)
  end.

Definition init_thread_pool (tp : thread_pool) : thread_pool * Z :=
  if initialized tp then (tp, 0) else
  match tp_threads tp with
  | None => (tp, 0)
  | Some (a, l) => let '(l, ret) := init_threads 0 l in (ThreadPool (tp_address tp) (tp_size tp) false (Some (a, l)), ret)
  end.

(** [ok1] and [ok2]: which memory there is for the two requests. *)
Definition create_thread_pool (ok1 ok2 : os_reply) (mp : mem_pool) (size : Z) : option (mem_pool * option thread_pool) :=
  if THREAD_POOL_MAX_SIZE <? size then Some (mp, None) else
  '(mp, tp) ← mp_malloc ok1 mp "create_thread_pool" TP_SIZE;
  match tp with
  | None => Some (mp, None)
  | Some tp =>
      '(mp, threads) ← mp_malloc ok2 mp "create_thread_pool" (THREAD_SIZE * size);
      match threads with
      | None => mp ← mp_free mp (Some tp); Some (mp, None)
      | Some a =>
          let '(pool, ret) := init_thread_pool (ThreadPool tp size false (Some (a, replicate (Z.to_nat size) blank_slot))) in
          if ret <? 0 then mp ← mp_free mp (Some tp); Some (mp, None)
          else Some (mp, Some (ThreadPool tp size true (tp_threads pool)))
      end
  end.
End Create.

(** [stop_worker_thread]: the thread is cancelled and joined. *)
Definition stop_worker_thread (s : slot) : slot := (s.1, false).

(** [None]: [wait_worker_thread] goes on waiting for a worker. *)
Fixpoint stop_workers (l : list slot) : option (list slot) :=
  match l with
  | [] => Some []
  | s :: l => _ ← wait_worker_thread s.1; l ← stop_workers l; Some (stop_worker_thread s :: l)
  end.

(** The pointer [threads] is cleared before the block behind it is freed. *)
Definition destroy_thread_pool (mp : mem_pool) (tp : thread_pool) : option mem_pool :=
  if negb (initialized tp) then Some mp else
  _ ← match tp_threads tp with Some (_, l) => stop_workers l | None => Some [] end;
  mp ← mp_free mp None;
  mp_free mp (Some (tp_address tp)).

(** ** A pool whose workers all run is that of ThreadPool *)

Lemma init_threads_ok sys l : forall i, (forall k, (i <= k < i + length l)%nat -> pipes sys k = (true, true) /\ pthread_create sys k = 0) ->
  Forall (fun s => s = blank_slot) l -> init_threads sys i l = (replicate (length l) (ThreadPool.create_worker_thread, true), 0).
Proof.
  induction l as [|s l IH]; intros i Hsys Hl; [done|]. apply Forall_cons in Hl as [-> Hl]. cbn [init_threads length replicate].
  unfold create_worker_thread. destruct (Hsys i) as [-> ->]; [cbn [length]; lia|]. cbn [negb Z.eqb].
  rewrite IH; [done| |done]. intros k Hk. apply Hsys. cbn [length]. lia.
Qed.

Theorem create_thread_pool_runs sys mp size : pool_ok mp -> room 2 mp -> 0 < size <= THREAD_POOL_MAX_SIZE ->
  (forall k, (k < Z.to_nat size)%nat -> pipes sys k = (true, true) /\ pthread_create sys k = 0) ->
  exists mp' tp a l, create_thread_pool sys plenty plenty mp size = Some (mp', Some tp) /\ initialized tp = true
    /\ tp_threads tp = Some (a, l) /\ Forall (fun s => s.2 = true) l
    /\ forall users, threads (ThreadPool.create_thread_pool (Z.to_nat size) users) = map (fun s => (WaitCommand, s.1)) l.
Proof.
  unfold room. intros Hok Hroom Hsize Hsys. unfold create_thread_pool. rewrite (proj2 (Z.ltb_ge _ _)) by lia.
  destruct (mp_malloc_spec mp "create_thread_pool" TP_SIZE Hok ltac:(unfold room; lia) ltac:(done)) as (mp1 & tp & E1 & Hal1).
  pose proof (mp_malloc_length _ _ _ _ _ _ E1) as Hl1. rewrite E1. cbn [mbind option_bind].
  destruct (mp_malloc_spec mp1 "create_thread_pool" (THREAD_SIZE * size) (al_ok _ _ _ _ Hal1) ltac:(unfold room; lia) ltac:(unfold THREAD_SIZE; lia)) as (mp2 & a & E2 & Hal2).
  rewrite E2. cbn [mbind option_bind]. unfold init_thread_pool. cbn [initialized tp_threads].
  rewrite init_threads_ok; [|intros k Hk; apply Hsys; rewrite length_replicate in Hk; lia|by apply Forall_replicate].
  rewrite length_replicate. cbn [Z.ltb Z.compare tp_threads]. eexists _, _, a, _. split; [reflexivity|]. cbn [initialized tp_threads].
  split; [done|]. split; [done|]. split; [by apply Forall_replicate|]. intros users. cbn [ThreadPool.create_thread_pool threads].
  symmetry. apply (fmap_replicate (fun s : slot => (WaitCommand, s.1))).
Qed.

(** ** A worker without a thread *)

Lemma init_threads_refused sys l : forall i e k, (forall j, (i <= j < i + k)%nat -> pipes sys j = (true, true) /\ pthread_create sys j = 0) ->
  (k < length l)%nat -> pipes sys (i + k) = (true, true) -> pthread_create sys (i + k) = e -> 0 < e -> Forall (fun s => s = blank_slot) l ->
  init_threads sys i l = (replicate k (ThreadPool.create_worker_thread, true) ++ replicate (length l - k) (ThreadPool.create_worker_thread, false), e).
Proof.
  induction l as [|s l IH]; intros i e k Hsys Hk Hp He Hpos Hl; [cbn in Hk; lia|]. apply Forall_cons in Hl as [-> Hl].
  assert (Hrest : l = replicate (length l) blank_slot) by (symmetry; apply replicate_as_Forall; split; [done|]; eapply Forall_impl; [exact Hl|done]).
  cbn [init_threads length]. unfold create_worker_thread. destruct k as [|k].
  - rewrite Nat.add_0_r in Hp, He. rewrite Hp. cbn [negb]. rewrite He. rewrite (proj2 (Z.eqb_neq e 0)) by lia. cbn [negb replicate app].
    rewrite bool_decide_eq_false_2 by lia. rewrite Nat.sub_0_r. cbn [replicate]. f_equal. f_equal. exact Hrest.
  - destruct (Hsys i) as [-> ->]; [lia|]. cbn [negb Z.eqb]. cbn [length] in Hk.
    rewrite (IH (S i) e k); [|intros j Hj; apply Hsys; lia|lia|by rewrite Nat.add_succ_comm|by rewrite Nat.add_succ_comm|done|done].
    cbn [replicate app]. by replace (S (length l) - S k)%nat with (length l - k)%nat by lia.
Qed.

(** When the system refuses a thread the number of the error is positive, and
    only negative results count: the pool is handed out although the worker and
    all behind it have no thread. *)
Theorem refused_thread_unnoticed sys mp size k : pool_ok mp -> room 2 mp -> 0 < size <= THREAD_POOL_MAX_SIZE -> (k < Z.to_nat size)%nat ->
  (forall j, (j < k)%nat -> pipes sys j = (true, true) /\ pthread_create sys j = 0) ->
  pipes sys k = (true, true) -> 0 < pthread_create sys k ->
  exists mp' tp a l, create_thread_pool sys plenty plenty mp size = Some (mp', Some tp) /\ initialized tp = true
    /\ tp_threads tp = Some (a, l) /\ forall j s, l !! j = Some s -> s.2 = bool_decide (j < k)%nat /\ state s.1 = WAIT.
Proof.
  unfold room. intros Hok Hroom Hsize Hk Hsys Hp He. unfold create_thread_pool. rewrite (proj2 (Z.ltb_ge _ _)) by lia.
  destruct (mp_malloc_spec mp "create_thread_pool" TP_SIZE Hok ltac:(unfold room; lia) ltac:(done)) as (mp1 & tp & E1 & Hal1).
  pose proof (mp_malloc_length _ _ _ _ _ _ E1) as Hl1. rewrite E1. cbn [mbind option_bind].
  destruct (mp_malloc_spec mp1 "create_thread_pool" (THREAD_SIZE * size) (al_ok _ _ _ _ Hal1) ltac:(unfold room; lia) ltac:(unfold THREAD_SIZE; lia)) as (mp2 & a & E2 & Hal2).
  rewrite E2. cbn [mbind option_bind]. unfold init_thread_pool. cbn [initialized tp_threads].
  rewrite (init_threads_refused sys _ 0 (pthread_create sys k) k); [|intros j Hj; apply Hsys; lia|by rewrite length_replicate|done|done|done|by apply Forall_replicate].
  rewrite length_replicate. cbn [fst snd]. rewrite (proj2 (Z.ltb_ge (pthread_create sys k) 0)) by lia. eexists _, _, a, _. split; [reflexivity|].
  cbn [initialized tp_threads]. split; [done|]. split; [done|]. intros j s Hj. apply lookup_app_Some in Hj as [Hj|[Hl Hj]].
  - apply lookup_replicate in Hj as [-> Hj]. by rewrite bool_decide_eq_true_2.
  - rewrite length_replicate in Hl. apply lookup_replicate in Hj as [-> _]. rewrite bool_decide_eq_false_2 by lia. done.
Qed.

(** The steps of a pool in which the workers [dead] have no thread. *)
Definition live_step (call : nat -> Z -> Z) (dead : nat -> Prop) (s s' : pool) : Prop :=
  pool_step call s s' /\ forall i w t, dead i -> threads s !! i = Some (w, t) -> exists t', threads s' !! i = Some (w, t').

(** Its worker waits for its first command and has acknowledged none. *)
Definition silent (s : pool) (i : nat) : Prop := exists t, threads s !! i = Some (WaitCommand, t) /\ worker2main t = O.

Lemma launch_silent l t n t' : launch_one_thread l t = Some (n, t') -> worker2main t = O -> worker2main t' = O.
Proof.
  destruct l; cbn; try done; try (intros [= <- <-]; done). unfold wake_read. intros E Hw. rewrite Hw in E. done.
Qed.

Lemma live_step_silent call dead s s' i : live_step call dead s s' -> dead i -> silent s i -> silent s' i.
Proof.
  intros [Hstep Hdead] Hi (t & Ht & Hw). destruct (Hdead i _ _ Hi Ht) as [t1 Ht1]. exists t1. split; [done|].
  destruct Hstep as [k w t0 w' t' js ts us la ca Hk Hrun| |u k j n ts us la ca Hu Hn|u l w t0 n t' ts us la ca Hu Hk Hl]; cbn [threads] in *.
  - destruct (decide (k = i)) as [->|Hne].
    + rewrite Ht in Hk. injection Hk as <- <-. rewrite list_lookup_insert_eq in Ht1 by (by eapply lookup_lt_Some). injection Ht1 as -> ->.
      cbn in Hrun. unfold worker_thread_wait_command in Hrun. by destruct (main2worker t).
    + rewrite list_lookup_insert_ne in Ht1 by done. congruence.
  - congruence.
  - congruence.
  - destruct (decide (target l = i)) as [Ht2|Hne].
    + subst i. rewrite list_lookup_insert_eq in Ht1 by (by eapply lookup_lt_Some). rewrite Ht in Hk. injection Hk as <- <-. injection Ht1 as <-.
      by eapply launch_silent.
    + rewrite list_lookup_insert_ne in Ht1 by done. congruence.
Qed.

(** A launch on such a worker never returns: the thread that asked waits for an
    answer for ever, whatever the others do. *)
Theorem dead_worker_wedges call dead size users s i u j : (i < size)%nat -> dead i ->
  rtc (live_step call dead) (ThreadPool.create_thread_pool size users) s -> launchers s !! u = Some (Some (WakeRead i j)) ->
  forall s', rtc (live_step call dead) s s' -> launchers s' !! u = Some (Some (WakeRead i j)).
Proof.
  intros Hi Hdead Hreach Hu s' Hrun.
  assert (Hsilent : silent s i).
  { assert (H0 : silent (ThreadPool.create_thread_pool size users) i).
    { exists ThreadPool.create_worker_thread. cbn. split; [by apply lookup_replicate_2|done]. }
    clear Hu Hrun. induction Hreach as [s0|s0 s1 s2 H01 _ IH]; [done|]. apply IH. by eapply live_step_silent. }
  clear Hreach. induction Hrun as [s0|s0 s1 s2 H01 _ IH]; [done|]. apply IH; [|by eapply live_step_silent].
  destruct Hsilent as (t & Ht & Hw). destruct H01 as [Hstep _].
  destruct Hstep as [k w t0 w' t' js ts us la ca Hk Hrun|v tid j' ts us la ca Hv Htid|v k j' n ts us la ca Hv Hn|v l w t0 n t' ts us la ca Hv Hk Hl];
    cbn [threads launchers] in *; [done| | |];
    (destruct (decide (v = u)) as [->|Hne]; [|by rewrite list_lookup_insert_ne]); rewrite Hu in Hv; try done.
  injection Hv as <-. cbn [target] in Hk. rewrite Ht in Hk. injection Hk as <- <-. cbn in Hl. unfold wake_read in Hl. by rewrite Hw in Hl.
Qed.

(** Such a launch is possible: nothing marks the worker, so it looks idle. *)
Lemma dead_worker_wedges_witness call : exists s, rtc (live_step call (fun i => i = 0%nat)) (ThreadPool.create_thread_pool 1 1) s
  /\ forall s', rtc (live_step call (fun i => i = 0%nat)) s s' -> launchers s' !! 0%nat = Some (Some (WakeRead 0 (7%nat, 5))).
Proof.
  set (j := (7%nat, 5)). set (t1 := with_arg 5 ThreadPool.create_worker_thread). set (t2 := with_f (Some 7%nat) t1).
  assert (H : rtc (live_step call (fun i => i = 0%nat)) (ThreadPool.create_thread_pool 1 1)
                (Pool [(WaitCommand, wake_write t2)] [Some (WakeRead 0 j)] [] [])).
  { assert (Hstep : forall w t t' u u', pool_step call (Pool [(w, t)] u [] []) (Pool [(w, t')] u' [] []) ->
      live_step call (fun i => i = 0%nat) (Pool [(w, t)] u [] []) (Pool [(w, t')] u' [] [])).
    { intros w t t' u u' H. split; [exact H|]. intros i w1 tt -> [= <- <-]. by exists t'. }
    eapply rtc_l; [apply Hstep; apply (launch_starts call 0 0 j _ [None] [] []); [done|lia]|].
    eapply rtc_l; [apply Hstep; refine (launch_runs call 0 (CheckState 0 j) WaitCommand ThreadPool.create_worker_thread (inl (StoreArg 0 j)) ThreadPool.create_worker_thread [_] [_] [] [] _ _ _); reflexivity|].
    eapply rtc_l; [apply Hstep; refine (launch_runs call 0 (StoreArg 0 j) WaitCommand ThreadPool.create_worker_thread (inl (StoreF 0 j)) t1 [_] [_] [] [] _ _ _); reflexivity|].
    eapply rtc_l; [apply Hstep; refine (launch_runs call 0 (StoreF 0 j) WaitCommand t1 (inl (WakeWrite 0 j)) t2 [_] [_] [] [] _ _ _); reflexivity|].
    eapply rtc_l; [apply Hstep; refine (launch_runs call 0 (WakeWrite 0 j) WaitCommand t2 (inl (WakeRead 0 j)) (wake_write t2) [_] [_] [] [] _ _ _); reflexivity|]. apply rtc_refl. }
  eexists. split; [exact H|]. intros s' Hs'. by eapply (dead_worker_wedges call (fun i => i = 0%nat) 1 1); [lia|done|exact H| |exact Hs'].
Defined.

(** ** Destruction *)

Lemma stop_workers_spec l : Forall (fun s => state s.1 = WAIT) l -> stop_workers l = Some (map (fun s => (s.1, false)) l).
Proof.
  induction 1 as [|s l Hs _ IH]; [done|]. cbn [stop_workers]. unfold wait_worker_thread. rewrite decide_True by done.
  cbn [mbind option_bind]. by rewrite IH.
Qed.

(** An idle pool is destroyed, but the block of its workers stays in use. *)
Theorem destroy_leaks_threads mp tp a l nd : pool_ok mp -> initialized tp = true -> tp_threads tp = Some (a, l) ->
  Forall (fun s => state s.1 = WAIT) l -> nd ∈ mp_nodes mp -> mn_address nd = a -> a <> tp_address tp ->
  exists mp', destroy_thread_pool mp tp = Some mp' /\ nd ∈ mp_nodes mp'.
Proof.
  intros Hok Hinit Ht Hl Hin Ha Hne. unfold destroy_thread_pool. rewrite Hinit, Ht. cbn [negb]. rewrite (stop_workers_spec l Hl).
  cbn [mbind option_bind]. change (mp_free mp None) with (Some mp). cbn [mbind option_bind].
  destruct (mp_free_spec mp (tp_address tp) Hok) as (mp' & E & _ & Hn & _). exists mp'. split; [exact E|]. rewrite Hn.
  apply list_elem_of_fmap. exists nd. split; [|done]. unfold MemPool.release. rewrite decide_False; [done|congruence].
Qed.

(** As long as a worker is busy the destruction waits for it. *)
Theorem destroy_waits mp tp a l s : initialized tp = true -> tp_threads tp = Some (a, l) -> s ∈ l -> state s.1 <> WAIT -> destroy_thread_pool mp tp = None.
Proof.
  intros Hinit Ht Hs Hw. unfold destroy_thread_pool. rewrite Hinit, Ht. cbn [negb].
  assert (E : stop_workers l = None); [|by rewrite E]. clear Ht. induction l as [|s0 l IH]; [by apply elem_of_nil in Hs|].
  cbn [stop_workers]. unfold wait_worker_thread. case_decide as Hd; cbn [mbind option_bind]; [|done].
  apply elem_of_cons in Hs as [->|Hs]; [done|]. by rewrite (IH Hs).
Qed.
