(* ===== verification/CmdLine.v ===== *)
(** * Command lines (src/client.c, src/option.c, src/utils.c, src/server.c)

    How the client splits a line into a command and its arguments, and the
    smaller parsers of both programs.  [None] is an access outside an array. *)

From S2P Require Import Prelude CStr.

Definition EXEC_NAME_MAX_LEN : nat := 32.
Definition CMD_ARG_MAX_LEN : nat := 1024.
Definition single_quote : Z := 39.
Definition double_quote : Z := 34.

(** ** Words of a line *)

Fixpoint take_word (n : nat) (s : list Z) : list Z * list Z :=
  match n, s with
  | S n', c :: s' => if is_space c then ([], s) else let '(w, r) := take_word n' s' in (c :: w, r)
  | _, _ => ([], s)
  end.

(** The name ([None] is the null pointer that [__strdup] makes of an empty
    string) and what follows it. *)
Definition parse_exec_name (buf : list Z) : option (list Z) * list Z :=
  let '(name, rest) := take_word (EXEC_NAME_MAX_LEN - 1) (skip_spaces buf) in
  (match name with [] => None | _ => Some name end, rest).

Inductive cmd_args_state :=
  | INIT | RECEIVE_SINGLE_QUOTE | AMONG_SINGLE_QUOTE | RECEIVE_DOUBLE_QUOTE | AMONG_DOUBLE_QUOTE.

(** What a character does to the state: it opens or closes quotes, it is kept
    or dropped, it ends a word, or it is not expected. *)
Inductive cmd_args_step :=
  | Keep (st : cmd_args_state) | Skip (st : cmd_args_state) | EndWord | Unexpected.

Definition cmd_args_next (st : cmd_args_state) (c : Z) : cmd_args_step :=
  if is_space c then match st with INIT => EndWord | _ => Keep st end
  else if c =? single_quote then
    match st with
    | INIT => Skip RECEIVE_SINGLE_QUOTE
    | RECEIVE_SINGLE_QUOTE | AMONG_SINGLE_QUOTE => Skip INIT
    | _ => Unexpected
    end
  else if c =? double_quote then
    match st with
    | INIT => Skip RECEIVE_DOUBLE_QUOTE
    | RECEIVE_DOUBLE_QUOTE | AMONG_DOUBLE_QUOTE => Skip INIT
    | _ => Unexpected
    end
  else
    match st with
    | INIT => Keep INIT
    | RECEIVE_SINGLE_QUOTE | AMONG_SINGLE_QUOTE => Keep AMONG_SINGLE_QUOTE
    | RECEIVE_DOUBLE_QUOTE | AMONG_DOUBLE_QUOTE => Keep AMONG_DOUBLE_QUOTE
    end.

(** The word in [arg] is appended to the list; nothing happens for no word. *)
Definition end_word (args : list (list Z)) (arg : list Z) : option (list (list Z)) :=
  match arg with
  | [] => Some args
  | _ => if (length arg <? CMD_ARG_MAX_LEN)%nat then Some (args ++ [arg]) else None
  end.

(** [Some None]: the function gives up with [argc] -1. *)
Fixpoint parse_args_loop (buf : list Z) (st : cmd_args_state) (arg : list Z) (args : list (list Z))
    : option (option (list (list Z))) :=
  match buf with
  | [] =>
      match st with
      | INIT => args ← end_word args arg; Some (Some args)
      | _ => Some (Some args)
      end
  | c :: buf =>
      if (CMD_ARG_MAX_LEN <=? length arg)%nat then Some None else
      match cmd_args_next st c with
      | Keep st => parse_args_loop buf st (arg ++ [c]) args
      | Skip st => parse_args_loop buf st arg args
      | EndWord => args ← end_word args arg; parse_args_loop buf st [] args
      | Unexpected => Some None
      end
  end.

Definition parse_args (buf : list Z) : option (option (list (list Z))) := parse_args_loop buf INIT [] [].

Record user_cmd := UserCmd { name : option (list Z); argv : list (list Z) }.

Definition parse_command (buf : list Z) : option (option user_cmd) :=
  let '(name, rest) := parse_exec_name buf in
  args ← parse_args rest;
  Some (args ← args; Some (UserCmd name args)).

(** ** Lines of the database shell (src/server.c) *)

Definition is_blank (c : Z) : bool := (c =? 32) || (c =? 9).

Fixpoint skip_blanks (s : list Z) : list Z :=
  match s with
  | c :: s' => if is_blank c then skip_blanks s' else s
  | [] => []
  end.

Fixpoint until_blank (s : list Z) : list Z * list Z :=
  match s with
  | c :: s' => if is_blank c then ([], s) else let '(w, r) := until_blank s' in (c :: w, r)
  | [] => ([], [])
  end.

(** The next word and the string after it, one blank behind. *)
Definition fetch_next_str (str : list Z) : option (list Z * list Z) :=
  match skip_blanks str with
  | [] => None
  | p => let '(w, r) := until_blank p in Some (w, drop 1 r)
  end.

(** ** Strings (src/utils.c) *)

Fixpoint strip_right (line : list Z) : list Z :=
  match line with
  | [] => []
  | c :: line' =>
      match strip_right line' with
      | [] => if c =? 32 then [] else [c]
      | r => c :: r
      end
  end.

Fixpoint strip_left (line : list Z) : list Z :=
  match line with
  | c :: line' => if c =? 32 then strip_left line' else line
  | [] => []
  end.

Definition strip (line : list Z) : list Z := strip_left (strip_right line).

Definition is_int (buf : list Z) : bool :=
  let c := char_at buf 0 in
  if negb ((c =? 45) || (c =? 43) || is_digit c) then false
  else if (11 <? length buf)%nat then false
  else if negb (forallb is_digit (drop 1 buf)) then false
  else strtol10 buf =? atoi buf.

(** ** Where to log in and what to transfer (src/client.c) *)

Definition FILE_NAME_MAX_LEN : nat := 256.
Definition at_sign : Z := 64.
Definition colon : Z := 58.

(** The arrays for the user and the host are the caller's, cleared and taken to
    be long enough. *)
Definition try_fetch_login_info (input : list Z) : option (list Z * list Z) :=
  let input := strip input in
  match strchr input at_sign with
  | Some (user, rest) =>
      let host := drop 1 rest in
      match strchr host at_sign with None => Some (user, host) | Some _ => None end
  | None => None
  end.

Definition is_remote_path (buf : list Z) : bool :=
  match strchr buf at_sign with
  | None => false
  | Some (_, rest) => match strchr rest colon with None => false | Some _ => true end
  end.

Definition fetch_remote_info (buf : list Z) : option (list Z * list Z * list Z) :=
  match strchr buf at_sign with
  | None | Some ([], _) => None
  | Some (user, rest) =>
      match strchr (drop 1 rest) colon with
      | None | Some ([], _) => None
      | Some (host, rest) => match take FILE_NAME_MAX_LEN (drop 1 rest) with [] => None | path => Some (user, host, path) end
      end
  end.

Inductive trans_type := TRANS_GET | TRANS_PUT.
Record trans_info := TransInfo { type : trans_type; src : list Z; dest : list Z }.

(** [existed] is [file_existed arg1]; the result has the user and the host. *)
Definition try_fetch_trans_info (existed : bool) (arg1 arg2 : list Z) : option (list Z * list Z * trans_info) :=
  if is_remote_path arg1 then
    '(user, host, path) ← fetch_remote_info arg1;
    Some (user, host, TransInfo TRANS_GET path (take FILE_NAME_MAX_LEN arg2))
  else if negb existed then None
  else if negb (is_remote_path arg2) then None
  else
    '(user, host, path) ← fetch_remote_info arg2;
    Some (user, host, TransInfo TRANS_PUT (take FILE_NAME_MAX_LEN arg1) path).

(** ** Options (src/option.c) *)

Inductive arg_flag := NO_ARG | HAS_ARG | OPT_ARG.
Record sftt_option := Option { opt_name : list Z; opt_value : Z; flags : arg_flag }.

(** The option at [optind], its argument, and the next index. *)
Definition lookup_opt (argv : list (list Z)) (optind : nat) (sftt_opts : list sftt_option)
    : option (sftt_option * option (list Z) * nat) :=
  a ← argv !! optind;
  '(_, opt) ← list_find (fun opt => opt_name opt = a) sftt_opts;
  let optind := S optind in
  Some (opt,
    match flags opt with NO_ARG => None | _ => argv !! optind end,
    match flags opt with
    | HAS_ARG => if (optind <? length argv)%nat then S optind else optind
    | _ => optind
    end).

(** ** The language of argument lines *)

Definition is_quote (c : Z) : bool := (c =? single_quote) || (c =? double_quote).
Definition plain (c : Z) : Prop := is_space c = false /\ is_quote c = false.
Definition unquoted (s : list Z) : Prop := Forall (fun c => is_quote c = false) s.

(** [spells t w]: the text [t], plain characters and quoted pieces, is the word
    [w]. *)
Inductive spells : list Z -> list Z -> Prop :=
  | spells_nil : spells [] []
  | spells_plain t w c : spells t w -> plain c -> spells (t ++ [c]) (w ++ [c])
  | spells_quoted t w q body : spells t w -> is_quote q = true -> unquoted body ->
      spells (t ++ q :: body ++ [q]) (w ++ body).

(** An empty word is no argument. *)
Definition word (w : list Z) : list (list Z) := match w with [] => [] | _ => [w] end.

(** Words, each with the space that ends it. *)
Inductive words : list Z -> list (list Z) -> Prop :=
  | words_nil : words [] []
  | words_word s ws t w c : words s ws -> spells t w -> (length w < CMD_ARG_MAX_LEN)%nat ->
      is_space c = true -> words (s ++ t ++ [c]) (ws ++ word w).

(** The rest of the line: a last word, or one whose quote is not closed, which
    is dropped. *)
Inductive last_word : list Z -> list (list Z) -> Prop :=
  | last_closed t w : spells t w -> (length w < CMD_ARG_MAX_LEN)%nat -> last_word t (word w)
  | last_open t w q body : spells t w -> is_quote q = true -> unquoted body ->
      (length w < CMD_ARG_MAX_LEN)%nat -> (length (w ++ body) <= CMD_ARG_MAX_LEN)%nat ->
      last_word (t ++ q :: body) [].

Definition args_line (s : list Z) (ws : list (list Z)) : Prop :=
  exists s1 ws1 t ws2, s = s1 ++ t /\ ws = ws1 ++ ws2 /\ words s1 ws1 /\ last_word t ws2.

(** Between the quotes [q]. *)
Definition inside (q : Z) (st : cmd_args_state) : Prop :=
  (q = single_quote /\ (st = RECEIVE_SINGLE_QUOTE \/ st = AMONG_SINGLE_QUOTE))
  \/ (q = double_quote /\ (st = RECEIVE_DOUBLE_QUOTE \/ st = AMONG_DOUBLE_QUOTE)).

Lemma inside_unquoted q st c : inside q st -> is_quote c = false ->
  exists st', cmd_args_next st c = Keep st' /\ inside q st'.
Proof.
  intros Hi [H1 H2]%orb_false_iff. unfold cmd_args_next. rewrite H1, H2.
  destruct (is_space c); [destruct Hi as [[-> [-> | ->]]|[-> [-> | ->]]]; eexists; (split; [done|unfold inside; auto])|].
  destruct Hi as [[-> [-> | ->]]|[-> [-> | ->]]]; eexists; (split; [done|unfold inside; auto]).
Qed.

Lemma quote_not_space q : is_quote q = true -> is_space q = false.
Proof. unfold is_quote. intros [->%Z.eqb_eq| ->%Z.eqb_eq]%orb_true_iff; done. Qed.

Lemma inside_close q st : inside q st -> cmd_args_next st q = Skip INIT.
Proof. by intros [[-> [-> | ->]]|[-> [-> | ->]]]. Qed.

Lemma inside_other q st c : inside q st -> is_quote c = true -> c <> q -> cmd_args_next st c = Unexpected.
Proof.
  intros Hst Hc Hne. unfold cmd_args_next. rewrite (quote_not_space c Hc). unfold is_quote in Hc.
  by destruct (Z.eqb_spec c single_quote), (Z.eqb_spec c double_quote), Hst as [[-> [-> | ->]]|[-> [-> | ->]]].
Qed.

Lemma inside_open q : is_quote q = true -> exists st, cmd_args_next INIT q = Skip st /\ inside q st.
Proof.
  unfold is_quote. intros [->%Z.eqb_eq| ->%Z.eqb_eq]%orb_true_iff;
    eexists; (split; [done|unfold inside; auto]).
Qed.

Lemma plain_next c : plain c -> cmd_args_next INIT c = Keep INIT.
Proof. intros [Hs [H1 H2]%orb_false_iff]. unfold cmd_args_next. by rewrite Hs, H1, H2. Qed.

(** ** The parser accepts it *)

Lemma loop_cons c buf st arg args : (length arg < CMD_ARG_MAX_LEN)%nat ->
  parse_args_loop (c :: buf) st arg args =
    match cmd_args_next st c with
    | Keep st => parse_args_loop buf st (arg ++ [c]) args
    | Skip st => parse_args_loop buf st arg args
    | EndWord => args ← end_word args arg; parse_args_loop buf st [] args
    | Unexpected => Some None
    end.
Proof. intros H. cbn [parse_args_loop]. by rewrite (proj2 (Nat.leb_gt _ _)) by done. Qed.

Lemma loop_body q body rest args : unquoted body -> forall st arg, inside q st ->
  (length (arg ++ body) <= CMD_ARG_MAX_LEN)%nat ->
  exists st', inside q st' /\
    parse_args_loop (body ++ rest) st arg args = parse_args_loop rest st' (arg ++ body) args.
Proof.
  induction 1 as [|c body Hc _ IH]; intros st arg Hst Hlen; [rewrite app_nil_r; by exists st|].
  destruct (inside_unquoted q st c Hst Hc) as (st' & E & Hst').
  rewrite length_app in Hlen. cbn [length] in Hlen. destruct (IH st' (arg ++ [c])) as (st2 & Hst2 & E2);
    [done|rewrite !length_app; simpl; lia|].
  exists st2. split; [done|]. cbn [app]. by rewrite loop_cons, E, E2, <- app_assoc by lia.
Qed.

Lemma loop_spells t w : spells t w -> forall rest arg args, (length (arg ++ w) < CMD_ARG_MAX_LEN)%nat ->
  parse_args_loop (t ++ rest) INIT arg args = parse_args_loop rest INIT (arg ++ w) args.
Proof.
  induction 1 as [|t w c _ IH Hc|t w q body _ IH Hq Hb]; intros rest arg args Hlen;
    [by rewrite app_nil_r|..]; rewrite !length_app in Hlen.
  - rewrite <- app_assoc, IH by (rewrite length_app; lia). simpl in Hlen. cbn [app].
    by rewrite loop_cons, plain_next, app_assoc by (done || rewrite length_app; lia).
  - rewrite <- app_assoc, IH by (rewrite length_app; lia). cbn [app].
    destruct (inside_open q Hq) as (st & E & Hst). rewrite loop_cons, E by (rewrite length_app; lia).
    rewrite <- app_assoc. destruct (loop_body q body ([q] ++ rest) args Hb st (arg ++ w) Hst) as (st' & Hst' & ->);
      [rewrite !length_app; lia|].
    cbn [app]. rewrite loop_cons, (inside_close q st' Hst') by (rewrite !length_app; lia). by rewrite app_assoc.
Qed.

Lemma end_word_word args w : (length w < CMD_ARG_MAX_LEN)%nat -> end_word args w = Some (args ++ word w).
Proof.
  intros H. destruct w; cbn [end_word word]; [by rewrite app_nil_r|]. by rewrite (proj2 (Nat.ltb_lt _ _)).
Qed.

Lemma space_next c : is_space c = true -> cmd_args_next INIT c = EndWord.
Proof. intros H. unfold cmd_args_next. by rewrite H. Qed.

Lemma loop_words s ws : words s ws -> forall rest,
  parse_args (s ++ rest) = parse_args_loop rest INIT [] ws.
Proof.
  induction 1 as [|s ws t w c _ IH Ht Hw Hc]; intros rest; [done|].
  rewrite <- app_assoc, IH, <- app_assoc, (loop_spells t w Ht) by done. cbn [app].
  by rewrite loop_cons, space_next, end_word_word by done.
Qed.

Lemma parse_args_complete s ws : args_line s ws -> parse_args s = Some (Some ws).
Proof.
  intros (s1 & ws1 & t & ws2 & -> & -> & H1 & H2). rewrite (loop_words s1 ws1 H1).
  destruct H2 as [t w Ht Hw|t w q body Ht Hq Hb Hw Hl].
  - rewrite <- (app_nil_r t), (loop_spells t w Ht) by done. cbn [parse_args_loop app].
    by rewrite end_word_word.
  - rewrite (loop_spells t w Ht) by done. cbn [app]. destruct (inside_open q Hq) as (st & E & Hst).
    rewrite loop_cons, E by done.
    rewrite <- (app_nil_r body). destruct (loop_body q body [] ws1 Hb st w Hst Hl) as (st' & Hst' & ->).
    rewrite app_nil_r. by destruct Hst' as [[_ [-> | ->]]|[_ [-> | ->]]].
Qed.

(** ** It accepts nothing else *)

(** What has been read of a word. *)
Inductive partial : list Z -> cmd_args_state -> list Z -> Prop :=
  | partial_init t w : spells t w -> (length w <= CMD_ARG_MAX_LEN)%nat -> partial t INIT w
  | partial_inside t w q body st : spells t w -> is_quote q = true -> unquoted body -> inside q st ->
      (length w < CMD_ARG_MAX_LEN)%nat -> (length (w ++ body) <= CMD_ARG_MAX_LEN)%nat ->
      partial (t ++ q :: body) st (w ++ body).

Lemma parse_args_sound buf : forall s1 ws1 t st arg ws,
  words s1 ws1 -> partial t st arg ->
  parse_args_loop buf st arg ws1 = Some (Some ws) -> args_line (s1 ++ t ++ buf) ws.
Proof.
  induction buf as [|c buf IH]; intros s1 ws1 t st arg ws Hs Hp E.
  - rewrite app_nil_r. destruct Hp as [t w Ht Hl|t w q body st Ht Hq Hb Hst Hw Hl]; cbn [parse_args_loop] in E.
    + assert (Hw : (length w < CMD_ARG_MAX_LEN)%nat).
      { destruct w as [|c w]; [cbn; unfold CMD_ARG_MAX_LEN; lia|]. cbn [end_word] in E.
        by destruct (Nat.ltb_spec (length (c :: w)) CMD_ARG_MAX_LEN). }
      rewrite end_word_word in E by done. injection E as <-.
      exists s1, ws1, t, (word w). by split_and!; [| | |apply last_closed].
    + assert (ws = ws1) as -> by (by destruct Hst as [[_ [-> | ->]]|[_ [-> | ->]]]; injection E).
      exists s1, ws1, (t ++ q :: body), []. split_and!; [done|by rewrite app_nil_r|done|by eapply last_open].
  - cbn [parse_args_loop] in E. destruct (Nat.leb_spec CMD_ARG_MAX_LEN (length arg)) as [|Harg]; [done|].
    assert (Hsplit : s1 ++ t ++ c :: buf = s1 ++ (t ++ [c]) ++ buf) by by rewrite <- app_assoc.
    rewrite Hsplit. clear Hsplit.
    destruct Hp as [t w Ht Hl|t w q body st Ht Hq Hb Hst Hw Hl].
    + unfold cmd_args_next in E. destruct (is_space c) eqn:Ec.
      { rewrite end_word_word in E by done. cbn [mbind option_bind] in E.
        rewrite app_assoc. apply (IH _ (ws1 ++ word w) [] INIT []); [by eapply words_word| |done].
        apply partial_init; [constructor|cbn; lia]. }
      destruct (is_quote c) eqn:Eq.
      { destruct (inside_open c Eq) as (st & Est & Hst).
        unfold cmd_args_next in Est. rewrite Ec in Est. rewrite Est in E.
        apply (IH s1 ws1 (t ++ [c]) st w); [done| |done]. rewrite <- (app_nil_r w).
        apply partial_inside; try done; [constructor|rewrite app_nil_r; lia]. }
      pose proof Eq as [H1 H2]%orb_false_iff. rewrite H1, H2 in E.
      apply (IH s1 ws1 (t ++ [c]) INIT (w ++ [c])); [done| |done].
      apply partial_init; [by apply spells_plain|rewrite length_app; simpl; lia].
    + replace ((t ++ q :: body) ++ [c]) with (t ++ q :: body ++ [c]) by (by rewrite <- app_assoc).
      destruct (is_quote c) eqn:Eq.
      * destruct (decide (c = q)) as [->|Hne]; [|by rewrite (inside_other q st c) in E].
        rewrite (inside_close q st Hst) in E.
        eapply (IH s1 ws1 _ INIT (w ++ body)); [done| |exact E].
        apply partial_init; [by apply spells_quoted|lia].
      * destruct (inside_unquoted q st c Hst Eq) as (st' & Est & Hst'). rewrite Est in E.
        rewrite <- app_assoc in E. apply (IH s1 ws1 (t ++ q :: body ++ [c]) st' (w ++ body ++ [c])); [done| |done].
        apply partial_inside; try done; [apply Forall_app; split; [done|by apply Forall_singleton]|].
        rewrite app_assoc, length_app. simpl. lia.
Qed.

(** C14: The arguments of a command.  [parse_args] returns the list [ws] exactly
    for the lines that consist of these words: each word is made of plain
    characters and of pieces between single or between double quotes without
    quotes inside, words end at white space, a word with nothing in it is no
    argument, and a last word whose quote is not closed is dropped. *)
Theorem parse_args_grammar s ws : parse_args s = Some (Some ws) <-> args_line s ws.
Proof.
  split; [|apply parse_args_complete]. intros E.
  apply (parse_args_sound s [] [] [] INIT []); [constructor| |exact E].
  apply partial_init; [constructor|cbn; lia].
Qed.

Example parse_args_example :
  parse_args (ascii_bytes " a 'b c'd ") = Some (Some [ascii_bytes "a"; ascii_bytes "b cd"]).
Proof. reflexivity. Qed.

(** A word of exactly [CMD_ARG_MAX_LEN] characters at the end of the line: its
    terminator is written behind the array. *)
Fact parse_args_overflow : parse_args (replicate CMD_ARG_MAX_LEN 97) = None.
Proof. vm_compute. reflexivity. Qed.

(** * Parameters in a text (src/option.c)

    [next_arg] cuts the next parameter off a text of the form
    [name=value name="a value" name].  It works in place: the text is an array
    that ends with a zero, and names and values are where it points. *)

Definition EQUALS : Z := 61.
Definition QUOTE : Z := 34.

(** The loop: where the parameter ends, and where its first [=] is, if that is
    not in front. *)
Fixpoint scan_arg (args : list Z) (i equals : nat) (in_quote : bool) : nat * nat :=
  match args with
  | [] => (i, equals)
  | c :: args =>
      if is_space c && negb in_quote then (i, equals) else
      scan_arg args (S i) (if (equals =? 0)%nat && (c =? EQUALS) then i else equals)
        (if c =? QUOTE then negb in_quote else in_quote)
  end.

(** Where the name and the value begin, where the text goes on, and the array
    with the zeros that were written. *)
Definition next_arg_at (args : list Z) : list Z * nat * option nat * nat :=
  let quoted := char_at args 0 =? QUOTE in
  let start := if quoted then 1%nat else 0%nat in
  let '(i, equals) := scan_arg (drop start args) 0 0 quoted in
  let buf := args ++ [0] in
  let at_ k := (start + k)%nat in
  let last := (start + i - 1)%nat in
  let '(buf, val) :=
    if (equals =? 0)%nat then (buf, None) else
    let buf := <[at_ equals := 0]> buf in
    let val := at_ (S equals) in
    if char_at buf val =? QUOTE then (if char_at buf last =? QUOTE then <[last := 0]> buf else buf, Some (S val))
    else (buf, Some val) in
  let buf := if quoted && (char_at buf last =? QUOTE) then <[last := 0]> buf else buf in
  if char_at buf (at_ i) =? 0 then (buf, start, val, at_ i) else (<[at_ i := 0]> buf, start, val, at_ (S i)).

(** The strings there; the last one is without its leading spaces. *)
Definition next_arg (args : list Z) : list Z * option (list Z) * list Z :=
  let '(buf, param, val, next) := next_arg_at args in
  (c_str (drop param buf), (fun v => c_str (drop v buf)) <$> val, skip_spaces (c_str (drop next buf))).

(** The parameters of a text, one after the other; the number of characters is
    enough fuel. *)
Fixpoint all_args (fuel : nat) (args : list Z) : list (list Z * option (list Z)) :=
  match fuel, args with
  | S fuel, _ :: _ => let '(param, val, rest) := next_arg args in (param, val) :: all_args fuel rest
  | _, _ => []
  end.

(** ** The loop *)

Definition arg_char (c : Z) : Prop := c <> 0 /\ c <> QUOTE /\ is_space c = false.

Lemma scan_word w : forall s i equals q, Forall (fun c => c <> QUOTE /\ (q = true \/ is_space c = false)) w ->
  equals <> 0%nat \/ EQUALS ∉ w -> scan_arg (w ++ s) i equals q = scan_arg s (i + length w) equals q.
Proof.
  induction w as [|c w IH]; intros s i equals q Hw He; [by rewrite Nat.add_0_r|].
  apply Forall_cons in Hw as [[Hq Hs] Hw]. cbn [app scan_arg length].
  assert (E : is_space c && negb q = false) by (destruct Hs as [->| ->]; [apply andb_false_r|done]). rewrite E. clear E.
  rewrite (proj2 (Z.eqb_neq c QUOTE) Hq).
  assert (E : (equals =? 0)%nat && (c =? EQUALS) = false).
  { destruct He as [He|He]; [by rewrite (proj2 (Nat.eqb_neq _ _) He)|]. apply andb_false_iff. right. apply Z.eqb_neq. intros ->. apply He. by left. }
  rewrite E, IH, Nat.add_succ_comm; [done|done|]. destruct He as [He|He]; [by left|right]. intros H. apply He. by right.
Qed.

Lemma scan_equals s i q : i <> 0%nat -> scan_arg (EQUALS :: s) i 0 q = scan_arg s (S i) i q.
Proof. intros Hi. cbn [scan_arg]. change (is_space EQUALS) with false. cbn [andb Nat.eqb Z.eqb]. done. Qed.

Lemma scan_quote s i equals q : equals <> 0%nat -> scan_arg (QUOTE :: s) i equals q = scan_arg s (S i) equals (negb q).
Proof. intros He. cbn [scan_arg]. change (is_space QUOTE) with false. cbn [andb]. by rewrite (proj2 (Nat.eqb_neq _ _) He). Qed.

(** What can stand behind a parameter. *)
Definition ends (tl : list Z) : Prop := tl = [] \/ exists c rest, tl = c :: rest /\ is_space c = true.

Lemma scan_end tl i equals : ends tl -> scan_arg tl i equals false = (i, equals).
Proof. intros [->|(c & rest & -> & Hc)]; [done|]. cbn [scan_arg]. by rewrite Hc. Qed.

(** ** One parameter *)

Lemma insert_mid (l1 : list Z) x y l2 k : k = length l1 -> <[k := y]> (l1 ++ x :: l2) = l1 ++ y :: l2.
Proof. intros ->. by rewrite insert_app_r_alt, Nat.sub_diag by done. Qed.

Lemma char_mid (l1 : list Z) x l2 k : k = length l1 -> char_at (l1 ++ x :: l2) k = x.
Proof. intros ->. unfold char_at. by rewrite list_lookup_middle. Qed.

Lemma drop_mid (l1 l2 : list Z) k : k = length l1 -> drop k (l1 ++ l2) = l2.
Proof. intros ->. apply drop_app_length. Qed.

Lemma c_str_text l : Forall (fun c => c <> 0) l -> c_str (l ++ [0]) = l.
Proof. apply c_str_app. Qed.

(** The end: the character behind the parameter becomes a zero. *)
Definition cut (l tl : list Z) : list Z := match tl with [] => l ++ [0] | _ :: rest => l ++ 0 :: rest ++ [0] end.

Lemma cut_end l tl k (start : nat) (val : option nat) : ends tl -> k = length l -> (forall c, c ∈ tl -> c <> 0) ->
  (if char_at (l ++ tl ++ [0]) k =? 0 then (l ++ tl ++ [0], start, val, k) else (<[k := 0]> (l ++ tl ++ [0]), start, val, S k))
  = (cut l tl, start, val, (k + length (take 1 tl))%nat).
Proof.
  intros He -> Hnz. destruct He as [->|(c & rest & -> & Hc)].
  - cbn [app]. rewrite char_mid by done. cbn [Z.eqb cut take length]. by rewrite Nat.add_0_r.
  - cbn [app]. rewrite char_mid by done. rewrite (proj2 (Z.eqb_neq c 0)) by (apply Hnz; by left). rewrite insert_mid by done.
    cbn [cut take length]. rewrite take_0, Nat.add_1_r. done.
Qed.

Lemma cut_rest (l tl : list Z) : ends tl -> (forall c, c ∈ tl -> c <> 0) -> c_str (drop (length l + length (take 1 tl)) (cut l tl)) = drop 1 tl.
Proof.
  intros [->|(c & rest & -> & Hc)] Hnz.
  - cbn [take length cut drop]. by rewrite Nat.add_0_r, drop_mid.
  - cbn [take length cut drop]. rewrite take_0. cbn [length]. change (l ++ 0 :: rest ++ [0]) with (l ++ [0] ++ rest ++ [0]). rewrite app_assoc, drop_mid.
    + apply c_str_text. apply Forall_forall. intros x Hx. apply Hnz. by right.
    + rewrite length_app. done.
Qed.

Lemma cut_prefix a b tl : exists tl', cut (a ++ 0 :: b) tl = a ++ 0 :: b ++ tl' /\ cut b tl = b ++ tl' /\ exists t, tl' = 0 :: t.
Proof.
  destruct tl as [|c rest]; cbn [cut]; eexists; rewrite <- ?app_assoc; cbn [app]; split; eauto.
Qed.

Section Arg.
Context (n tl : list Z).
Hypothesis Hn : n <> [] /\ Forall arg_char n /\ EQUALS ∉ n.
Hypothesis Htl : ends tl /\ (forall c, c ∈ tl -> c <> 0).

#[local] Lemma name_unquoted rest : (char_at (n ++ rest) 0 =? QUOTE) = false.
Proof. destruct Hn as (H1 & H2 & _). destruct n as [|c m]; [done|]. cbn. apply Forall_cons in H2 as [(_ & ? & _) _]. by apply Z.eqb_neq. Qed.

#[local] Lemma name_scans rest : scan_arg (n ++ rest) 0 0 false = scan_arg rest (length n) 0 false.
Proof.
  rewrite scan_word; [done| |right; apply Hn]. eapply Forall_impl; [apply Hn|]. intros c (_ & ? & ?). auto.
Qed.

#[local] Lemma name_nonzero : Forall (fun c => c <> 0) n /\ length n <> 0%nat.
Proof. split; [eapply Forall_impl; [apply Hn|]; by intros c (? & _)|]. destruct n; [by destruct Hn|done]. Qed.

(** A name on its own. *)
Lemma next_arg_name : next_arg (n ++ tl) = (n, None, skip_spaces (drop 1 tl)).
Proof.
  destruct Htl as [He Hnz], name_nonzero as [Hz Hlen]. unfold next_arg, next_arg_at. rewrite name_unquoted, drop_0, name_scans, scan_end by done.
  cbn [Nat.eqb andb Nat.add]. rewrite <- app_assoc, cut_end by done. cbn [fmap option_fmap option_map]. rewrite drop_0, cut_rest by done.
  repeat f_equal. destruct tl as [|c rest]; cbn [cut]; [by apply c_str_text|]. by apply c_str_app.
Qed.

(** A value without spaces. *)
Lemma next_arg_word v : Forall arg_char v -> next_arg (n ++ EQUALS :: v ++ tl) = (n, Some v, skip_spaces (drop 1 tl)).
Proof.
  intros Hv. destruct Htl as [He Hnz], name_nonzero as [Hz Hlen]. unfold next_arg, next_arg_at.
  rewrite name_unquoted, drop_0, name_scans, scan_equals by done.
  rewrite scan_word; [|eapply Forall_impl; [exact Hv|]; intros c (_ & ? & ?); auto|by left]. rewrite scan_end by done.
  rewrite (proj2 (Nat.eqb_neq _ _) Hlen). cbn [Nat.add andb]. rewrite <- app_assoc. cbn [app]. rewrite insert_mid by done.
  assert (Hchar : (char_at (n ++ 0 :: (v ++ tl) ++ [0]) (S (length n)) =? QUOTE) = false).
  { change (n ++ 0 :: (v ++ tl) ++ [0]) with (n ++ [0] ++ (v ++ tl) ++ [0]). rewrite app_assoc.
    apply Z.eqb_neq. destruct v as [|c w].
    - cbn [app]. destruct He as [->|(c & rest & -> & Hc)]; cbn [app]; rewrite char_mid by (rewrite length_app; cbn; lia); [done|]. intros ->. done.
    - cbn [app]. rewrite char_mid by (rewrite length_app; cbn; lia). apply Forall_cons in Hv as [(_ & ? & _) _]. done. }
  rewrite Hchar. cbn [andb].
  replace (n ++ 0 :: (v ++ tl) ++ [0]) with ((n ++ 0 :: v) ++ tl ++ [0]) by (rewrite <- !app_assoc; cbn [app]; by rewrite <- ?app_assoc).
  rewrite cut_end; [|done|rewrite length_app; cbn [length]; lia|done]. cbn [fmap option_fmap option_map].
  replace (S (length n + length v) + length (take 1 tl))%nat with (length (n ++ 0%Z :: v) + length (take 1 tl))%nat by (rewrite length_app; cbn [length]; lia).
  rewrite cut_rest by done. rewrite drop_0. destruct (cut_prefix n v tl) as (t & -> & _ & t' & ->).
  rewrite c_str_app by done. repeat f_equal.
  change (n ++ 0 :: v ++ 0 :: t') with (n ++ [0] ++ v ++ 0 :: t'). rewrite app_assoc, drop_mid by (rewrite length_app; cbn; lia).
  apply c_str_app. eapply Forall_impl; [exact Hv|]. by intros c (? & _).
Qed.

(** A value between quotes. *)
Lemma next_arg_quoted v : Forall (fun c => c <> 0 /\ c <> QUOTE) v ->
  next_arg (n ++ EQUALS :: QUOTE :: v ++ QUOTE :: tl) = (n, Some v, skip_spaces (drop 1 tl)).
Proof.
  intros Hv. destruct Htl as [He Hnz], name_nonzero as [Hz Hlen]. unfold next_arg, next_arg_at.
  rewrite name_unquoted, drop_0, name_scans, scan_equals, scan_quote by done. cbn [negb].
  rewrite scan_word; [|eapply Forall_impl; [exact Hv|]; intros c (_ & ?); auto|by left]. rewrite scan_quote by done. cbn [negb]. rewrite scan_end by done.
  rewrite (proj2 (Nat.eqb_neq _ _) Hlen). cbn [Nat.add andb]. rewrite <- app_assoc. cbn [app]. rewrite insert_mid by done.
  change (n ++ 0 :: QUOTE :: (v ++ QUOTE :: tl) ++ [0]) with (n ++ [0] ++ QUOTE :: (v ++ QUOTE :: tl) ++ [0]). rewrite (app_assoc n [0]).
  rewrite char_mid by (rewrite length_app; cbn; lia). rewrite Z.eqb_refl.
  replace ((n ++ [0]) ++ QUOTE :: (v ++ QUOTE :: tl) ++ [0]) with ((n ++ 0 :: QUOTE :: v) ++ QUOTE :: tl ++ [0])
    by (rewrite <- !app_assoc; cbn [app]; by rewrite <- ?app_assoc).
  rewrite char_mid by (rewrite length_app; cbn [length]; lia). rewrite Z.eqb_refl. rewrite insert_mid by (rewrite length_app; cbn [length]; lia).
  replace ((n ++ 0 :: QUOTE :: v) ++ 0 :: tl ++ [0]) with (((n ++ 0 :: QUOTE :: v) ++ [0]) ++ tl ++ [0]) by by rewrite <- (app_assoc _ [0]).
  rewrite cut_end; [|done|rewrite !length_app; cbn [length]; lia|done]. cbn [fmap option_fmap option_map].
  replace (S (S (S (length n + length v))) + length (take 1 tl))%nat with (length ((n ++ 0%Z :: QUOTE :: v) ++ [0%Z]) + length (take 1 tl))%nat
    by (rewrite !length_app; cbn [length]; lia).
  rewrite cut_rest by done. rewrite drop_0, <- app_assoc. cbn [app].
  destruct (cut_prefix n (QUOTE :: v ++ [0]) tl) as (t & -> & _ & t' & ->). rewrite c_str_app by done. repeat f_equal.
  replace (n ++ 0 :: (QUOTE :: v ++ [0]) ++ 0 :: t') with ((n ++ [0; QUOTE]) ++ v ++ 0 :: 0 :: t') by (rewrite <- !app_assoc; cbn [app]; by rewrite <- ?app_assoc).
  rewrite drop_mid by (rewrite length_app; cbn; lia). apply c_str_app. eapply Forall_impl; [exact Hv|]. by intros c (? & _).
Qed.
End Arg.

(** ** All parameters of a text *)

Definition print_arg (a : list Z * option (list Z)) : list Z :=
  match a.2 with None => a.1 | Some v => a.1 ++ EQUALS :: QUOTE :: v ++ [QUOTE] end.

Fixpoint print_args (l : list (list Z * option (list Z))) : list Z :=
  match l with [] => [] | [a] => print_arg a | a :: l => print_arg a ++ 32 :: print_args l end.

Definition good_arg (a : list Z * option (list Z)) : Prop :=
  (a.1 <> [] /\ Forall arg_char a.1 /\ EQUALS ∉ a.1) /\ match a.2 with None => True | Some v => Forall (fun c => c <> 0 /\ c <> QUOTE) v end.

Lemma next_arg_print a tl : good_arg a -> ends tl -> (forall c, c ∈ tl -> c <> 0) ->
  next_arg (print_arg a ++ tl) = (a.1, a.2, skip_spaces (drop 1 tl)).
Proof.
  destruct a as [n [v|]]; intros [Hn Hv] He Hnz; cbn [fst snd] in *; unfold print_arg; cbn [fst snd].
  - rewrite <- app_assoc. cbn [app]. rewrite <- app_assoc. apply next_arg_quoted; done.
  - apply next_arg_name; done.
Qed.

Lemma print_arg_first a : good_arg a -> exists c s, print_arg a = c :: s /\ is_space c = false.
Proof.
  destruct a as [[|c n] v]; intros ((Hne & Hp & _) & _); [done|]. cbn [fst] in Hp. apply Forall_cons in Hp as [(_ & _ & Hc) _].
  unfold print_arg. destruct v; cbn [fst snd app]; eauto.
Qed.

Lemma print_arg_nonzero a : good_arg a -> Forall (fun c => c <> 0) (print_arg a).
Proof.
  destruct a as [n v]; intros ((_ & Hp & _) & Hv). cbn [fst snd] in *.
  assert (Hn : Forall (fun c => c <> 0) n) by (eapply Forall_impl; [exact Hp|]; by intros c (? & _)).
  unfold print_arg. destruct v as [v|]; cbn [fst snd]; [|done]. apply Forall_app. split; [done|]. constructor; [done|]. constructor; [done|].
  apply Forall_app. split; [|by repeat constructor]. eapply Forall_impl; [exact Hv|]. by intros c (? & _).
Qed.

Lemma print_args_nonzero l : Forall good_arg l -> Forall (fun c => c <> 0) (print_args l).
Proof.
  induction l as [|a [|b l] IH]; intros Hl; [constructor| |]; apply Forall_cons in Hl as [Ha Hl].
  - by apply print_arg_nonzero.
  - cbn [print_args]. apply Forall_app. split; [by apply print_arg_nonzero|]. constructor; [done|by apply IH].
Qed.

Lemma print_args_skip l : Forall good_arg l -> skip_spaces (print_args l) = print_args l.
Proof.
  destruct l as [|a l]; intros Hl; [done|]. apply Forall_cons in Hl as [Ha _]. destruct (print_arg_first a Ha) as (c & s & E & Hc).
  destruct l as [|b l]; cbn [print_args]; rewrite E; cbn [app skip_spaces]; by rewrite Hc.
Qed.

(** Every list of parameters comes back from its text: names without spaces,
    quotes and equals signs, values of any characters but quotes, with or
    without a value. *)
Theorem all_args_print l : Forall good_arg l -> forall fuel, (length l <= fuel)%nat -> all_args fuel (print_args l) = l.
Proof.
  induction l as [|a l IH]; intros Hl fuel Hf; [by destruct fuel|]. apply Forall_cons in Hl as [Ha Hl].
  destruct fuel as [|fuel]; [cbn in Hf; lia|]. cbn [length] in Hf. destruct (print_arg_first a Ha) as (c & s & E & Hc).
  assert (Hrest : exists tl, print_args (a :: l) = print_arg a ++ tl /\ ends tl /\ (forall x, x ∈ tl -> x <> 0) /\ skip_spaces (drop 1 tl) = print_args l).
  { destruct l as [|b l].
    - exists []. cbn [print_args]. rewrite app_nil_r. split; [done|]. split; [by left|]. split; [|done]. intros x Hx. by apply elem_of_nil in Hx.
    - exists (32 :: print_args (b :: l)). split; [done|]. split; [right; by exists 32, (print_args (b :: l))|]. split.
      + apply Forall_forall. constructor; [done|by apply print_args_nonzero].
      + cbn [drop]. by apply print_args_skip. }
  destruct Hrest as (tl & -> & He & Hnz & Hskip). pose proof (next_arg_print a tl Ha He Hnz) as Hnext.
  rewrite E in *. cbn [app] in *. cbn [all_args]. rewrite Hnext, Hskip. rewrite (IH Hl fuel) by lia. by destruct a.
Qed.

Example all_args_example : all_args 40 (ascii_bytes "host=alpha name=" ++ [QUOTE] ++ ascii_bytes "a b" ++ [QUOTE] ++ ascii_bytes "  debug")
  = [(ascii_bytes "host", Some (ascii_bytes "alpha")); (ascii_bytes "name", Some (ascii_bytes "a b")); (ascii_bytes "debug", None)].
Proof. vm_compute. reflexivity. Qed.
