(* ===== verification/Messages.v ===== *)
(** * The packets of client and server (src/include/req_resp.h)

    The structures that requests and responses carry, as far as the handlers
    use them, and one type for all packets.  A character array holds the string
    stored in it; [strncpy] of [n] characters into a cleared array is [take n].
    What serialisation leaves in the sender's structure is the business of the
    interface [Sent]. *)

From S2P Require Import Prelude CStr Version FileSystem FilePut FileGet.

Definition SESSION_ID_LEN : nat := 32.
Definition CONNECT_ID_LEN : nat := 32.
Definition USER_NAME_MAX_LEN : nat := 32.
Definition IPV4_MAX_LEN : nat := 16.
Definition DIR_PATH_MAX_LEN : nat := 1024.
Definition FILE_ENTRY_MAX_CNT : nat := 16.
Definition LOGGED_IN_USER_MAX_CNT : nat := 32.
Definition WRITE_MSG_MAX_LEN : nat := 4096.
Definition CMD_MAX_LEN : nat := 1024.
Definition CMD_RET_BATCH_LEN : nat := 4096.
Definition DIRECT_CMD_RESP_MAX_LEN : nat := 1024.
Definition RESP_MESSAGE_MAX_LEN : Z := 80.

Definition RESP_CANNOT_CD : Z := 2.
Definition RESP_UVS_NTFD : Z := 4.
Definition RESP_UVS_INVALID : Z := 5.
Definition RESP_UVS_MISSHOME : Z := 6.
Definition RESP_UVS_BLOCK : Z := 7.
Definition RESP_UVS_BAD_VER : Z := 8.
Definition RESP_UVS_PASS : Z := 9.
Definition RESP_CNT_CHECK_USER : Z := 10.
Definition RESP_CNT_GET_PEER : Z := 11.
Definition RESP_SEND_PEER_ERR : Z := 12.
Definition RESP_SESSION_INVALID : Z := 13.
Definition RESP_FILE_NTFD : Z := 14.
Definition RESP_PATH_NOT_ABS : Z := 16.
Definition RESP_UNKNOWN_CONN_TYPE : Z := 18.
Definition RESP_PEER_BUSYING : Z := 20.
Definition FILE_TYPE_UNKNOWN : Z := 0.
Definition CONN_TYPE_CTRL : Z := 0.
Definition CONN_TYPE_TASK : Z := 2.

(** The texts of src/response.c. *)
Definition resp_messages (code : Z) : list Z :=
  ascii_bytes (nth (Z.to_nat code)
    ["ok!"; "server exception!"; "cannot change directory!"; "continue!"; "user not found!";
     "cannot validate user!"; "cannot find user's home!"; "user blocked!"; "version mismatch!";
     "pass validate!"; "cannot check user!"; "cannot get peer info!"; "send to peer failed!";
     "session invalid!"; "file not found!"; "internal error!"; "path not absolute!";
     "unknown file type!"; "unknown connect type!"; "cannot get task connect, please try again!";
     "peer is busing, cannot serve!"] "")%string.

Record logged_in_user := LoggedInUser {
  lu_session_id : list Z;
  lu_name : list Z;
  lu_ip : list Z;
  lu_port : Z;
}.

(** ** Directory listings *)

Record file_entry := FileEntry { fe_name : list Z; fe_type : Z }.

Record ll_resp := LlResp {
  ll_status : Z;
  ll_flags : Z;
  ll_total : Z;
  ll_this_nr : Z;
  ll_entries : list file_entry;
}.

(** What [send_sftt_packet] leaves in the server's structures: [left_ll] of a
    listing, [left_len] of an integer that is sent again: the length of a command's
    output, the new port. *)
Class Sent := { left_ll : ll_resp -> ll_resp; left_len : Z -> Z }.

Definition ll_copying : Sent := {| left_ll resp := resp; left_len n := n |}.

(** The raw serialiser reverses every integer in place. *)
Definition ll_raw : Sent := {|
  left_ll resp :=
    LlResp (swap_i32 (ll_status resp)) (swap_i32 (ll_flags resp)) (swap_i32 (ll_total resp))
      (swap_i32 (ll_this_nr resp))
      ((fun e => FileEntry (fe_name e) (swap_u32 (fe_type e))) <$> ll_entries resp);
  left_len := swap_i32;
|}.

(** ** Logged-in users *)

Record who_resp := WhoResp {
  who_status : Z;
  who_flags : Z;
  who_total : Z;
  who_this_nr : Z;
  who_users : list logged_in_user;
}.

(** ** All packets *)

Inductive packet :=
  | ValidateReq (name passwd_md5 : list Z) (ver : version_info)
  | ValidateResp (status uid : Z) (message name pwd session_id connect_id : list Z)
  | PwdReq (session_id : list Z)
  | PwdResp (status : Z) (pwd : list Z)
  | CdReq (session_id path : list Z)
  | CdResp (status : Z) (pwd : list Z)
  | LlReq (session_id path : list Z) (to_peer : Z) (user : logged_in_user)
  | LlResponse (resp : ll_resp)
  | WhoReq (session_id : list Z)
  | WhoResponse (resp : who_resp)
  | WriteReq (user : logged_in_user) (message : list Z)
  | WriteResp (status : Z)
  | MpStatReq (session_id : list Z)
  | MpStatResp (total_size total_nodes using_nodes free_nodes : Z)
  | DirectcmdReq (session_id cmd : list Z)
  | DirectcmdResp (status total_len this_len : Z) (content : list Z)
  | GetReq (session_id path : list Z) (to_peer : Z) (user : logged_in_user)
  | GetResponse (resp : get_resp)
  | PutRequest (to_peer : Z) (user : logged_in_user) (req : put_req)
  | PutResp (status : Z)
  | CommonResp (status : Z)
  | AppendConnReq (session_id : list Z) (type : Z)
  | AppendConnResp (status : Z) (connect_id : list Z)
  | ReconnectReq (session_id connect_id : list Z)
  | ChannelInfoResp (main_port second_port : Z)
  | PortUpdateReq (second_port : Z).

(** A structure of zeros. *)
Definition no_user : logged_in_user := LoggedInUser [] [] [] 0.
Definition zero_ll_resp : ll_resp := LlResp 0 0 0 0 (replicate FILE_ENTRY_MAX_CNT (FileEntry [] 0)).
Definition zero_who_resp : who_resp := WhoResp 0 0 0 0 [].

(** ** Paths (src/utils.c, src/file.c) *)

Definition simplify_path (path : list Z) : list Z :=
  match path with
  | [] => []
  | c :: path => collapse false (c :: strip_slashes path)
  end.

Definition is_absolute_path (path : list Z) : bool := char_at path 0 =? slash.

(** [snprintf(buf, n, "%s/%s", dir, name)] *)
Definition print_path (n : nat) (dir name : list Z) : list Z := take (n - 1) (dir ++ slash :: name).

(** [None] for NULL: the path is no directory, or [opendir], which delivers the
    names, fails. *)
Definition get_top_file_list (fs : fsys) (opendir : list Z -> option (list (list Z))) (dir : list Z)
    : option (list (list Z)) :=
  if negb (file_existed fs dir) || negb (is_dir fs dir) then None else opendir dir.

(** ** The machine a program runs on

    What the system answers: the order of the names in a directory ([readdir]),
    the names themselves or an error ([opendir]), [chdir] followed by [getcwd],
    the output of a command, the size that [ftell] reports of a directory, and
    access bits; with it the statistics of the program's pool and its version. *)
Record host := Host {
  h_readdir : list Z -> list (list Z);
  h_opendir : list Z -> option (list (list Z));
  h_chdir : fsys -> list Z -> option (list Z);
  h_run_cmd : list Z -> option (list Z);
  h_dir_size : Z;
  h_file_mode : list Z -> Z;
  h_mp_stat : Z * Z * Z * Z;
  h_version : version_info;
}.
