(* ===== verification/Ids.v ===== *)
(** * Session and connection identifiers (src/utils.c)

    An identifier holds the time in seconds and a number that counts the
    identifiers of one second; the session's also holds letters.  What [rand]
    and the clock return are arguments.  Both functions put a zero behind the
    buffer that they are given; the string in the buffer is the result.

    The time and number of the last identifier are static variables without a
    lock.  One thread makes the connections' identifiers, but each session's
    thread makes its own: their calls are also modelled access by access. *)

From Stdlib Require Import Sorted.
From S2P Require Import Prelude CStr Messages.

(** [rand() % (end - begin) + begin]; a failed assertion is [None]. *)
Definition gen_int (rand begin end_ : Z) : option Z :=
  if begin <? end_ then Some (rand mod (end_ - begin) + begin) else None.

Definition gen_char (rand begin end_ : Z) : option Z := gen_int rand begin end_.

Definition gen_random_num (rand min max : Z) : option Z := gen_int rand min max.

Definition letter (rand : Z) : Z := rand mod 25 + 97.

(** The static variables. *)
Record id_state := IdState { last_ts : Z; last_id : Z }.

Definition id_start : id_state := IdState 0 0.

Definition next_id (st : id_state) (ts : Z) : Z :=
  i32 ((if negb (ts =? last_ts st) then -1 else last_id st) + 1).

(** [%lu], and [%04d] and [%06d] of a number that is not negative. *)
Definition print_lu (n : Z) : list Z := print_dec 20 n.
Definition print_pad (w : nat) (n : Z) : list Z :=
  let s := print_dec 10 n in replicate (w - length s) 48 ++ s.

(** The [snprintf] of [gen_session_id]; [rands] is what [rand] has returned. *)
Definition print_session_id (rands : list Z) (len : nat) (ts id : Z) : list Z :=
  let letters := letter <$> rands in
  let part1 := 115 :: take 2 letters in
  let part2 := take 3 (drop 2 letters) in
  take (len - 1) (part1 ++ print_lu ts ++ part2 ++ print_pad 4 id).

Definition gen_session_id (rands : list Z) (len : nat) (st : id_state) (ts : Z) : id_state * list Z :=
  let id := next_id st ts in (IdState ts id, print_session_id rands len ts id).

Definition gen_connect_id (len : nat) (st : id_state) (ts : Z) : id_state * list Z :=
  let id := next_id st ts in
  (IdState ts id, take (len - 1) (print_lu ts ++ print_pad 6 id)).

(** ** The accesses of a call of [gen_session_id] *)

Section calls.
(** The C library's generator, of which the process has one. *)
Context {G : Type} (srand : Z -> G) (rand : G -> Z * G).

(** What the clock shows to the call: [time(NULL)] and [get_ts()]. *)
Record call := Call { c_time : Z; c_ts : Z }.

Record shared := Shared { statics : id_state; generator : G }.

(** The access that comes next. *)
Inductive call_pc :=
  | Seed
  | TestTs
  | ResetId
  | ReadId
  | Draw (id : Z) (rands : list Z)
  | WriteTs (id : Z) (text : list Z)
  | WriteId (id : Z) (text : list Z)
  | Returned (text : list Z).

Definition call_step (c : call) (sh : shared) (pc : call_pc) : shared * call_pc :=
  let st := statics sh in
  match pc with
  | Seed => (Shared st (srand (u32 (c_time c))), TestTs)
  | TestTs => (sh, if negb (c_ts c =? last_ts st) then ResetId else ReadId)
  | ResetId => (Shared (IdState (last_ts st) (-1)) (generator sh), ReadId)
  | ReadId => (sh, Draw (i32 (last_id st + 1)) [])
  | Draw id rands =>
      if (length rands <? 5)%nat then
        let '(r, g) := rand (generator sh) in (Shared st g, Draw id (rands ++ [r]))
      else (sh, WriteTs id (print_session_id rands SESSION_ID_LEN (c_ts c) id))
  | WriteTs id text => (Shared (IdState (c_ts c) (last_id st)) (generator sh), WriteId id text)
  | WriteId id text => (Shared (IdState (last_ts st) id) (generator sh), Returned text)
  | Returned text => (sh, pc)
  end.

(** One access of thread [i], or other code that uses the generator. *)
Inductive turn := Go (i : nat) | Other (g : G).

Definition take_turn (s : shared * list (call * call_pc)) (t : turn) : shared * list (call * call_pc) :=
  match t with
  | Other g => (Shared (statics s.1) g, s.2)
  | Go i =>
      match s.2 !! i with
      | None => s
      | Some (c, pc) => let '(sh, pc) := call_step c s.1 pc in (sh, <[i := (c, pc)]> s.2)
      end
  end.

Definition take_turns (s : shared * list (call * call_pc)) (ts : list turn) : shared * list (call * call_pc) :=
  foldl take_turn s ts.

Definition start_calls (st : id_state) (g : G) (calls : list call) : shared * list (call * call_pc) :=
  (Shared st g, (fun c => (c, Seed)) <$> calls).

(** The most accesses that a call makes. *)
Definition CALL_STEPS : nat := 12.

(** Thread [i] makes its call while no other thread makes one; [others k] is
    what other code does to the generator before its access [k]. *)
Definition uninterrupted (i : nat) (others : nat -> list G) : list turn :=
  flat_map (fun k => (Other <$> others k) ++ [Go i]) (seq 0 CALL_STEPS).

Definition one_by_one (n : nat) (others : nat -> nat -> list G) : list turn :=
  flat_map (fun i => uninterrupted i (others i)) (seq 0 n).
End calls.

(** ** Printed numbers *)

Lemma print_dec_length fuel n k : 0 <= n < 10 ^ Z.of_nat k -> (0 < k)%nat -> (length (print_dec fuel n) <= k)%nat.
Proof.
  revert n k. induction fuel as [|fuel IH]; intros n k Hn Hk; simpl; [lia|].
  destruct (Z.ltb_spec n 10) as [Hlt|Hge]; [simpl; lia|]. rewrite length_app. simpl.
  destruct k as [|[|k]]; [lia|simpl in Hn; lia|].
  rewrite Nat2Z.inj_succ, Z.pow_succ_r in Hn by lia.
  specialize (IH (n / 10) (S k)). rewrite Nat.add_1_r. apply le_n_S, IH; [|lia].
  split; [apply Z.div_pos; lia|apply Z.div_lt_upper_bound; lia].
Qed.

Lemma dec_value_zeros k s : dec_value 0 (replicate k 48 ++ s) = dec_value 0 s.
Proof. induction k as [|k IH]; [done|]. exact IH. Qed.

Lemma print_lu_spec n : 0 <= n < 10 ^ 10 -> digits (print_lu n) /\ dec_value 0 (print_lu n) = n /\ (length (print_lu n) <= 10)%nat.
Proof.
  intros Hn. destruct (print_dec_spec 20 n) as (Hd & Hv & _); [lia|lia|].
  split; [done|]. split; [done|]. apply (print_dec_length 20 n 10); lia.
Qed.

Lemma print_pad_spec w n : 0 <= n < 10 ^ 6 -> (w <= 6)%nat ->
  dec_value 0 (print_pad w n) = n /\ (length (print_pad w n) <= 6)%nat /\ (w <= length (print_pad w n))%nat.
Proof.
  intros Hn Hw. destruct (print_dec_spec 10 n) as (_ & Hv & _); [lia|lia|].
  pose proof (print_dec_length 10 n 6 ltac:(lia) ltac:(lia)).
  unfold print_pad. rewrite dec_value_zeros, length_app, length_replicate. split; [done|]. lia.
Qed.

Lemma digits_span a b x y s t : digits a -> digits b -> is_digit x = false -> is_digit y = false ->
  a ++ x :: s = b ++ y :: t -> a = b /\ x :: s = y :: t.
Proof.
  intros Ha. revert b. induction Ha as [|c a Hc _ IH]; intros [|d b] Hb Hx Hy E; simpl in *.
  - done.
  - injection E as -> _. apply Forall_cons in Hb as [Hb _]. congruence.
  - injection E as -> _. congruence.
  - injection E as -> E. apply Forall_cons in Hb as [_ Hb]. destruct (IH b Hb Hx Hy E) as [-> ->]. done.
Qed.

Lemma letter_no_digit r : is_digit (letter r) = false.
Proof.
  apply not_true_iff_false. rewrite is_digit_spec. unfold letter. pose proof (Z.mod_pos_bound r 25). lia.
Qed.

(** ** The counter *)

(** The times and numbers of successive calls. *)
Fixpoint ticks (st : id_state) (times : list Z) : list (Z * Z) :=
  match times with
  | [] => []
  | ts :: times => (ts, next_id st ts) :: ticks (IdState ts (next_id st ts)) times
  end.

Definition later (a b : Z * Z) : Prop := a.1 < b.1 \/ (a.1 = b.1 /\ a.2 < b.2).

Lemma later_trans a b c : later a b -> later b c -> later a c.
Proof. unfold later. lia. Qed.

Lemma ticks_later times : forall st n,
  Sorted Z.le (last_ts st :: times) -> 0 <= last_id st <= n -> n + Z.of_nat (length times) < 10 ^ 6 ->
  StronglySorted later ((last_ts st, last_id st) :: ticks st times)
  /\ Forall (fun p => 0 <= p.2 < 10 ^ 6) (ticks st times).
Proof.
  induction times as [|ts times IH]; intros st n Hs Hn Hl; [by repeat constructor|].
  inversion Hs as [|? ? Hs' Hle]; subst. inversion Hle; subst. simpl in *.
  assert (Hid : next_id st ts = if ts =? last_ts st then last_id st + 1 else 0).
  { unfold next_id. destruct (ts =? last_ts st); simpl; rewrite i32_small; unfold in_i32; lia. }
  destruct (IH (IdState ts (next_id st ts)) (n + 1)) as [Hss Hall]; simpl.
  - done.
  - rewrite Hid. destruct (ts =? last_ts st); lia.
  - lia.
  - simpl in Hss. split.
    + constructor; [done|]. assert (Hlt : later (last_ts st, last_id st) (ts, next_id st ts)).
      { unfold later. simpl. rewrite Hid. destruct (Z.eqb_spec ts (last_ts st)); lia. }
      constructor; [done|]. inversion Hss as [|? ? _ Hf]; subst. eapply Forall_impl; [exact Hf|].
      intros p Hp. by eapply later_trans.
    + constructor; [|done]. simpl. rewrite Hid. destruct (ts =? last_ts st); lia.
Qed.

Lemma later_nodup l : StronglySorted later l -> NoDup l.
Proof.
  induction 1 as [|p l Hs IH Hp]; constructor; [|done].
  intros Hin. apply (proj1 (Forall_forall _ l) Hp) in Hin. unfold later in Hin. lia.
Qed.

Fixpoint connect_ids (st : id_state) (times : list Z) : list (list Z) :=
  match times with
  | [] => []
  | ts :: times => let '(st, id) := gen_connect_id CONNECT_ID_LEN st ts in id :: connect_ids st times
  end.

Fixpoint session_ids (st : id_state) (calls : list (list Z * Z)) : list (list Z) :=
  match calls with
  | [] => []
  | (rands, ts) :: calls => let '(st, id) := gen_session_id rands SESSION_ID_LEN st ts in id :: session_ids st calls
  end.

Definition connect_text (p : Z * Z) : list Z := print_lu p.1 ++ print_pad 6 p.2.

Definition fits (p : Z * Z) : Prop := 0 <= p.1 < 10 ^ 10 /\ 0 <= p.2 < 10 ^ 6.

Lemma connect_text_inj p q : fits p -> fits q ->
  take (CONNECT_ID_LEN - 1) (connect_text p) = take (CONNECT_ID_LEN - 1) (connect_text q) -> p = q.
Proof.
  intros [Hp1 Hp2] [Hq1 Hq2].
  destruct (print_lu_spec _ Hp1) as (_ & Vp & Lp), (print_lu_spec _ Hq1) as (_ & Vq & Lq).
  destruct (print_pad_spec 6 _ Hp2 ltac:(lia)) as (Wp & Mp & Np), (print_pad_spec 6 _ Hq2 ltac:(lia)) as (Wq & Mq & Nq).
  unfold connect_text, CONNECT_ID_LEN.
  rewrite !take_ge by (rewrite length_app; lia). intros E.
  apply app_inj_2 in E as [E1 E2]; [|lia]. destruct p, q; simpl in *. congruence.
Qed.

Definition session_text (c : list Z * (Z * Z)) : list Z :=
  let letters := letter <$> c.1 in
  (115 :: take 2 letters) ++ print_lu c.2.1 ++ take 3 (drop 2 letters) ++ print_pad 4 c.2.2.

Lemma session_text_inj c d : (5 <= length c.1)%nat -> (5 <= length d.1)%nat -> fits c.2 -> fits d.2 ->
  take (SESSION_ID_LEN - 1) (session_text c) = take (SESSION_ID_LEN - 1) (session_text d) -> c.2 = d.2.
Proof.
  destruct c as [r p], d as [s q]. cbn [fst snd]. intros Hr Hs [Hp1 Hp2] [Hq1 Hq2].
  destruct (print_lu_spec _ Hp1) as (Dp & Vp & Lp), (print_lu_spec _ Hq1) as (Dq & Vq & Lq).
  destruct (print_pad_spec 4 _ Hp2 ltac:(lia)) as (Wp & Mp & Np), (print_pad_spec 4 _ Hq2 ltac:(lia)) as (Wq & Mq & Nq).
  unfold session_text, SESSION_ID_LEN. cbn [fst snd].
  destruct r as [|r1 [|r2 [|r3 [|r4 [|r5 r]]]]], s as [|s1 [|s2 [|s3 [|s4 [|s5 s]]]]]; simpl in Hr, Hs; try lia.
  cbn [fmap list_fmap take drop app]. rewrite !take_0. cbn [app]. do 2 rewrite take_ge by (simpl; rewrite length_app; simpl; lia).
  cbn [app]. intros E. injection E as E1 E2 E.
  apply digits_span in E as [Ea Eb]; [|done|done|apply letter_no_digit..].
  simpl in Eb. injection Eb as _ _ _ Eb. destruct p, q; simpl in *. congruence.
Qed.

(** What determines [g a] is different wherever [g a] is. *)
Lemma NoDup_fmap_via {A B C} (f : A -> B) (g : A -> C) (P : A -> Prop) l :
  (forall a b, P a -> P b -> f a = f b -> g a = g b) -> Forall P l -> NoDup (g <$> l) -> NoDup (f <$> l).
Proof.
  intros Hf HP. induction HP as [|a l Pa HP IH]; intros Hnd; [constructor|].
  apply NoDup_cons in Hnd as [Ha Hnd]. constructor; [|by apply IH].
  intros (b & E & Hb)%list_elem_of_fmap. apply Ha. rewrite (Hf a b); [by apply list_elem_of_fmap_2|done| |done].
  by apply (proj1 (Forall_forall _ l) HP).
Qed.

Lemma connect_ids_texts times : forall st,
  connect_ids st times = (fun p => take (CONNECT_ID_LEN - 1) (connect_text p)) <$> ticks st times.
Proof. induction times as [|ts times IH]; intros st; [done|]. simpl. f_equal. apply IH. Qed.

Lemma session_ids_texts calls : forall st,
  session_ids st calls = (fun c => take (SESSION_ID_LEN - 1) (session_text c)) <$> zip (fst <$> calls) (ticks st (snd <$> calls)).
Proof. induction calls as [|[r ts] calls IH]; intros st; [done|]. simpl. f_equal. apply IH. Qed.

Lemma ticks_times st times : (fst <$> ticks st times) = times.
Proof. revert st. induction times as [|ts times IH]; intros st; [done|]. simpl. by rewrite IH. Qed.

Lemma ticks_fit times : Sorted Z.le (0 :: times) -> Forall (fun ts => ts < 10 ^ 10) times ->
  Z.of_nat (length times) < 10 ^ 6 -> NoDup (ticks id_start times) /\ Forall fits (ticks id_start times).
Proof.
  intros Hs Hb Hl. destruct (ticks_later times id_start 0) as [Hss Hn]; simpl; [done|lia|lia|].
  split; [inversion Hss; subst; by apply later_nodup|].
  apply Forall_forall. intros p Hp. split; [|by apply (proj1 (Forall_forall _ _) Hn)].
  assert (Hin : p.1 ∈ times) by (rewrite <- (ticks_times id_start times); by apply list_elem_of_fmap_2).
  apply Sorted_StronglySorted in Hs; [|intros ???; lia]. inversion Hs as [|? ? _ Hge]; subst.
  apply (proj1 (Forall_forall _ _) Hb) in Hin as Hlt. apply (proj1 (Forall_forall _ _) Hge) in Hin. lia.
Qed.

(** ** A call that no other interrupts *)

Section uninterrupted.
Context {G : Type} (srand : Z -> G) (rand : G -> Z * G).

Lemma take_turns_app s ts1 ts2 : take_turns srand rand s (ts1 ++ ts2) = take_turns srand rand (take_turns srand rand s ts1) ts2.
Proof. apply foldl_app. Qed.

Lemma take_others gs : forall sh l, exists g, take_turns srand rand (sh, l) (Other <$> gs) = (Shared (statics sh) g, l).
Proof.
  induction gs as [|g gs IH]; intros [st g0] l; [by exists g0|]. cbn [fmap list_fmap take_turns foldl take_turn fst snd statics].
  apply IH.
Qed.

(** What is known of a call that started with the static variables [st0] and
    has been alone since. *)
Definition alone (st0 : id_state) (c : call) (st : id_state) (pc : call_pc) : Prop :=
  let ts := c_ts c in
  let id := next_id st0 ts in
  let made text := exists rands, length rands = 5%nat /\ text = print_session_id rands SESSION_ID_LEN ts id in
  match pc with
  | Seed | TestTs => st = st0
  | ResetId => st = st0 /\ ts <> last_ts st0
  | ReadId => i32 (last_id st + 1) = id
  | Draw id' rands => id' = id /\ (length rands <= 5)%nat
  | WriteTs id' text => id' = id /\ made text
  | WriteId id' text => id' = id /\ made text /\ last_ts st = ts
  | Returned text => made text /\ st = IdState ts id
  end.

(** A bound on the accesses that are left. *)
Definition accesses_left (pc : call_pc) : nat :=
  match pc with
  | Seed => 12 | TestTs => 11 | ResetId => 10 | ReadId => 9 | Draw _ rands => 8 - length rands
  | WriteTs _ _ => 2 | WriteId _ _ => 1 | Returned _ => 0
  end.

Lemma call_step_alone st0 c st g pc : alone st0 c st pc -> exists st' g' pc',
  call_step srand rand c (Shared st g) pc = (Shared st' g', pc') /\ alone st0 c st' pc'
  /\ (accesses_left pc' <= accesses_left pc - 1)%nat.
Proof.
  destruct pc as [| | | |id rands|id text|id text|text]; cbn [alone call_step statics generator]; intros H.
  - do 3 eexists. split; [done|]. by split; [|simpl; lia].
  - subst st. exists st0, g. destruct (Z.eqb_spec (c_ts c) (last_ts st0)) as [E|E]; cbn [negb]; (eexists; split; [done|]).
    + split; [|simpl; lia]. cbn. unfold next_id. by rewrite E, Z.eqb_refl.
    + split; [|simpl; lia]. by split.
  - destruct H as [-> H]. do 3 eexists. split; [done|]. split; [|simpl; lia]. cbn. unfold next_id. by rewrite (proj2 (Z.eqb_neq _ _)).
  - do 3 eexists. split; [done|]. split; [|simpl; lia]. cbn. split; [done|lia].
  - destruct H as [-> Hl]. destruct (Nat.ltb_spec (length rands) 5) as [Hlt|Hge].
    + destruct (rand g) as [r g']. do 3 eexists. split; [done|]. cbn [alone accesses_left]. rewrite length_app. cbn [length]. split; [split; [done|lia]|lia].
    + do 3 eexists. split; [done|]. cbn [alone accesses_left]. split; [|lia]. split; [done|]. exists rands. split; [lia|done].
  - destruct H as [-> H]. do 3 eexists. split; [done|]. cbn. split; [done|lia].
  - destruct H as (-> & H & Hts). do 3 eexists. split; [done|]. cbn. rewrite Hts. by split; [|lia].
  - exists st, g. eexists. split; [done|]. split; [done|simpl; lia].
Qed.

(** One access of the call, and what comes before it. *)
Lemma take_access gs st0 st g pre c pc post : alone st0 c st pc -> exists st' g' pc',
  take_turns srand rand (Shared st g, pre ++ (c, pc) :: post) ((Other <$> gs) ++ [Go (length pre)])
    = (Shared st' g', pre ++ (c, pc') :: post)
  /\ alone st0 c st' pc' /\ (accesses_left pc' <= accesses_left pc - 1)%nat.
Proof.
  intros Ha. rewrite take_turns_app. destruct (take_others gs (Shared st g) (pre ++ (c, pc) :: post)) as (g1 & ->).
  destruct (call_step_alone st0 c st g1 pc Ha) as (st' & g' & pc' & E & Ha' & Hl). exists st', g', pc'. split; [|done].
  cbn [take_turns foldl take_turn snd statics fst]. rewrite list_lookup_middle by done. rewrite E. f_equal.
  by rewrite insert_app_r_alt, Nat.sub_diag by lia.
Qed.

Lemma take_accesses others st0 pre c post n : forall k st g pc, alone st0 c st pc -> (accesses_left pc <= n)%nat ->
  exists g' text, take_turns srand rand (Shared st g, pre ++ (c, pc) :: post)
      (flat_map (fun k => (Other <$> others k) ++ [Go (length pre)]) (seq k n))
    = (Shared (IdState (c_ts c) (next_id st0 (c_ts c))) g', pre ++ (c, Returned text) :: post)
  /\ exists rands, length rands = 5%nat /\ (gen_session_id rands SESSION_ID_LEN st0 (c_ts c)).2 = text.
Proof.
  induction n as [|n IH]; intros k st g pc Ha Hl.
  - destruct pc as [| | | |id rands|id text|id text|text]; cbn in Hl; try lia; [destruct Ha; lia|].
    destruct Ha as [(rands & Hr & ->) ->]. eexists _, _. split; [reflexivity|]. by exists rands.
  - cbn [seq flat_map]. rewrite take_turns_app.
    destruct (take_access (others k) st0 st g pre c pc post Ha) as (st' & g' & pc' & -> & Ha' & Hl').
    apply IH; [done|lia].
Qed.

(** A call that is alone does what [gen_session_id] says. *)
Lemma take_uninterrupted others st g pre c post : exists g' rands, length rands = 5%nat
  /\ let '(st', text) := gen_session_id rands SESSION_ID_LEN st (c_ts c) in
     take_turns srand rand (Shared st g, pre ++ (c, Seed) :: post) (uninterrupted (length pre) others)
     = (Shared st' g', pre ++ (c, Returned text) :: post).
Proof.
  destruct (take_accesses others st pre c post CALL_STEPS 0 st g Seed eq_refl ltac:(done)) as (g' & text & E & rands & Hr & <-).
  exists g', rands. split; [done|]. exact E.
Qed.

Lemma take_one_by_one others calls : forall n pre st g, length pre = n ->
  exists sh' rands, length rands = length calls /\ Forall (fun l => length l = 5%nat) rands
  /\ take_turns srand rand (Shared st g, pre ++ ((fun c => (c, Seed)) <$> calls))
       (flat_map (fun i => uninterrupted i (others i)) (seq n (length calls)))
     = (sh', pre ++ zip calls (Returned <$> session_ids st (zip rands (c_ts <$> calls)))).
Proof.
  induction calls as [|c calls IH]; intros n pre st g Hn.
  { exists (Shared st g), []. by split_and!. }
  cbn [fmap list_fmap length seq flat_map]. rewrite take_turns_app. subst n.
  destruct (take_uninterrupted (others (length pre)) st g pre c ((fun c => (c, Seed)) <$> calls)) as (g' & rands & Hr & E).
  destruct (gen_session_id rands SESSION_ID_LEN st (c_ts c)) as [st' text] eqn:Eg. rewrite E.
  destruct (IH (S (length pre)) (pre ++ [(c, Returned text)]) st' g') as (sh' & rs & Hl & Hall & E').
  { rewrite length_app. simpl. lia. }
  rewrite <- app_assoc in E'. cbn [app] in E'. exists sh', (rands :: rs). split; [simpl; by rewrite Hl|]. split; [by constructor|].
  cbn [app fmap list_fmap] in E'. rewrite E'. cbn [zip zip_with session_ids fmap list_fmap]. rewrite Eg. cbn [zip zip_with fmap list_fmap].
  by rewrite <- app_assoc.
Qed.
End uninterrupted.

Lemma session_ids_distinct calls :
  Sorted Z.le (0 :: (snd <$> calls)) -> Forall (fun c => (5 <= length c.1)%nat /\ c.2 < 10 ^ 10) calls ->
  Z.of_nat (length calls) < 10 ^ 6 -> NoDup (session_ids id_start calls).
Proof.
  intros Hs Hb Hf. rewrite session_ids_texts.
  destruct (ticks_fit (snd <$> calls)) as [Hnd Hfit]; [done| |by rewrite length_fmap|].
  { apply Forall_fmap. eapply Forall_impl; [exact Hb|]. by intros c [_ ?]. }
  assert (Hlen : length (fst <$> calls) = length (ticks id_start (snd <$> calls))).
  { by rewrite <- (length_fmap fst (ticks _ _)), ticks_times, !length_fmap. }
  apply (NoDup_fmap_via _ snd (fun c => (5 <= length c.1)%nat /\ fits c.2)).
  - intros c d [? ?] [? ?]. by apply session_text_inj.
  - apply Forall_forall. intros [r p] Hin. split.
    + apply elem_of_zip_l, list_elem_of_fmap in Hin as (c & -> & Hc). by apply (proj1 (Forall_forall _ _) Hb).
    + apply elem_of_zip_r in Hin. by apply (proj1 (Forall_forall _ _) Hfit).
  - by rewrite snd_zip by lia.
Qed.

(** C24: The identifiers of sessions and of connections are all different, when
    the clock does not go back, fewer than a million are made and the calls are
    made one after the other: the number distinguishes those of one second,
    whatever the random letters are, and nothing of time and number is lost in
    the buffer.  The calls of [gen_session_id] are those of any threads, access
    by access, with other code using the generator between the accesses, but no
    two of them overlap ([session_id_race] shows two that do).  Those of
    [gen_connect_id] are made by one thread. *)
Theorem ids_distinct {G : Type} (srand : Z -> G) (rand : G -> Z * G) (g : G) (others : nat -> nat -> list G) calls times
    (Hcalls : Sorted Z.le (0 :: (c_ts <$> calls)) /\ Forall (fun c => c_ts c < 10 ^ 10) calls)
    (Htimes : Sorted Z.le (0 :: times) /\ Forall (fun ts => ts < 10 ^ 10) times)
    (Hfew : Z.of_nat (length calls) < 10 ^ 6 /\ Z.of_nat (length times) < 10 ^ 6) :
  (exists sh texts, length texts = length calls
     /\ take_turns srand rand (start_calls id_start g calls) (one_by_one (length calls) others)
        = (sh, zip calls (Returned <$> texts))
     /\ NoDup texts)
  /\ NoDup (connect_ids id_start times).
Proof.
  destruct Hcalls as [Hs1 Hb1], Htimes as [Hs2 Hb2], Hfew as [Hf1 Hf2]. split.
  - destruct (take_one_by_one srand rand others calls 0 [] id_start g eq_refl) as (sh & rands & Hl & Hr & E).
    assert (Hz : (snd <$> zip rands (c_ts <$> calls)) = c_ts <$> calls) by (apply snd_zip; rewrite length_fmap; lia).
    exists sh. eexists. split; [|split; [exact E|]].
    + rewrite session_ids_texts, Hz, length_fmap, length_zip_with, length_fmap, length_zip_with.
      rewrite <- (length_fmap fst (ticks _ _)), ticks_times, length_fmap. lia.
    + apply session_ids_distinct; [by rewrite Hz| |rewrite length_zip_with, length_fmap; lia].
      apply Forall_forall. intros [l ts] Hin. pose proof (elem_of_zip_l _ _ _ _ Hin) as H1. pose proof (elem_of_zip_r _ _ _ _ Hin) as H2.
      rewrite Forall_forall in Hr. rewrite Forall_forall in Hb1. specialize (Hr _ H1). apply list_elem_of_fmap in H2 as (c & -> & Hc). simpl in *. split; [lia|by apply Hb1].
  - rewrite connect_ids_texts. destruct (ticks_fit times) as [Hnd Hfit]; [done..|].
    apply (NoDup_fmap_via _ id fits); [apply connect_text_inj|done|by rewrite list_fmap_id].
Qed.

(** Two calls of one second. *)
Definition demo_calls : list call := [Call 1700000000 1700000000; Call 1700000000 1700000000].

Lemma ids_distinct_witness :
  (exists sh texts, length texts = 2%nat
     /\ take_turns (fun s => s) (fun s => (s, s + 1)) (start_calls id_start 0 demo_calls) (one_by_one 2 (fun _ _ => [7]))
        = (sh, zip demo_calls (Returned <$> texts))
     /\ NoDup texts)
  /\ NoDup (connect_ids id_start [1700000000; 1700000000]).
Proof.
  apply (ids_distinct (fun s => s) (fun s => (s, s + 1)) 0 (fun _ _ => [7]) demo_calls); split; repeat constructor; simpl; lia.
Defined.

(** ** Two calls that overlap *)

Section race.
Context {G : Type} (srand : Z -> G) (rand : G -> Z * G).

Fixpoint call_steps (n : nat) (c : call) (sh : shared) (pc : call_pc) : shared * call_pc :=
  match n with
  | O => (sh, pc)
  | S n => let '(sh, pc) := call_step srand rand c sh pc in call_steps n c sh pc
  end.

Lemma take_go n i c : forall sh l pc, l !! i = Some (c, pc) ->
  take_turns srand rand (sh, l) (replicate n (Go i))
    = let '(sh', pc') := call_steps n c sh pc in (sh', <[i := (c, pc')]> l).
Proof.
  induction n as [|n IH]; intros sh l pc Hi; cbn [replicate call_steps]; [by rewrite list_insert_id|].
  cbn [take_turns foldl take_turn fst snd]. rewrite Hi. destruct (call_step srand rand c sh pc) as [sh1 pc1].
  fold (take_turns srand rand (sh1, <[i:=(c, pc1)]> l) (replicate n (Go i))).
  rewrite (IH _ _ pc1) by (apply list_lookup_insert_eq; by eapply lookup_lt_Some).
  destruct (call_steps n c sh1 pc1) as [sh2 pc2]. by rewrite list_insert_insert_eq.
Qed.

Lemma call_steps_add n k c : forall sh pc,
  call_steps (n + k) c sh pc = let '(sh, pc) := call_steps n c sh pc in call_steps k c sh pc.
Proof. induction n as [|n IH]; intros sh pc; [done|]. cbn [Nat.add call_steps]. destruct (call_step srand rand c sh pc). apply IH. Qed.

(** The accesses before a call stores anything but the reset of the number. *)
Definition READS (c : call) (st : id_state) : nat := if c_ts c =? last_ts st then 9 else 10.

Definition reset_id (c : call) (st : id_state) : id_state :=
  if c_ts c =? last_ts st then st else IdState (last_ts st) (-1).

(** What the next calls of [rand] return, behind [rs]. *)
Fixpoint draws (n : nat) (g : G) (rs : list Z) : list Z * G :=
  match n with O => (rs, g) | S n => let '(r, g) := rand g in draws n g (rs ++ [r]) end.

Lemma length_draws n : forall g rs, length (draws n g rs).1 = (length rs + n)%nat.
Proof.
  induction n as [|n IH]; intros g rs; cbn [draws]; [simpl; lia|]. destruct (rand g) as [r g1].
  rewrite IH, length_app. simpl. lia.
Qed.

Lemma call_draws c st id n k : forall g rs, (length rs + n = 5)%nat ->
  call_steps (n + k) c (Shared st g) (Draw id rs) = call_steps k c (Shared st (draws n g rs).2) (Draw id (draws n g rs).1).
Proof.
  induction n as [|n IH]; intros g rs Hl; [done|]. cbn [Nat.add call_steps call_step draws generator].
  rewrite (proj2 (Nat.ltb_lt _ _)) by lia. destruct (rand g) as [r g1]. cbn [statics]. apply IH. rewrite length_app. simpl. lia.
Qed.

(** The letters of a call are those that follow its time. *)
Definition letters_of (c : call) : list Z * G := draws 5 (srand (u32 (c_time c))) [].

Lemma call_reads c st g :
  call_steps (READS c st) c (Shared st g) Seed
  = (Shared (reset_id c st) (letters_of c).2,
     WriteTs (next_id st (c_ts c)) (print_session_id (letters_of c).1 SESSION_ID_LEN (c_ts c) (next_id st (c_ts c)))).
Proof.
  assert (Hdraw : forall st id, call_steps 6 c (Shared st (srand (u32 (c_time c)))) (Draw id [])
    = (Shared st (letters_of c).2, WriteTs id (print_session_id (letters_of c).1 SESSION_ID_LEN (c_ts c) id))).
  { intros st' id. change 6%nat with (5 + 1)%nat. rewrite call_draws by done. fold (letters_of c). cbn [call_steps call_step].
    rewrite (proj2 (Nat.ltb_ge _ _)); [done|]. unfold letters_of. by rewrite length_draws. }
  unfold READS, reset_id, next_id. destruct (c_ts c =? last_ts st) eqn:Et; destruct st as [lts lid]; cbn [last_ts] in Et.
  - change 9%nat with (3 + 6)%nat. rewrite call_steps_add. cbn [call_steps call_step statics last_ts]. rewrite Et.
    cbn [negb call_steps call_step statics last_id]. apply Hdraw.
  - change 10%nat with (4 + 6)%nat. rewrite call_steps_add. cbn [call_steps call_step statics last_ts]. rewrite Et.
    cbn [negb call_steps call_step statics last_id last_ts generator]. apply Hdraw.
Qed.

Lemma reset_same c st : READS c (reset_id c st) = READS c st /\ next_id (reset_id c st) (c_ts c) = next_id st (c_ts c)
  /\ reset_id c (reset_id c st) = reset_id c st.
Proof.
  unfold READS, reset_id, next_id. destruct (c_ts c =? last_ts st) eqn:E; cbn [last_ts last_id]; rewrite E; done.
Qed.

(** Two clients that log in in the same second can get the same identifier:
    whatever the generator is and the static variables hold, the second call
    reads them before the first has stored its number, and it sets the generator
    back to the same letters. *)
Theorem session_id_race (g : G) (st : id_state) (c : call) :
  exists turns sh text, take_turns srand rand (start_calls st g [c; c]) turns = (sh, [(c, Returned text); (c, Returned text)]).
Proof.
  pose proof (call_reads c st) as H1. pose proof (call_reads c (reset_id c st)) as H2.
  destruct (reset_same c st) as (Hr & Hid & Hre). rewrite Hr, Hid, Hre in H2.
  exists (replicate (READS c st) (Go 0) ++ replicate (READS c st) (Go 1) ++ [Go 0; Go 0; Go 1; Go 1]).
  unfold start_calls. cbn [fmap list_fmap]. rewrite !take_turns_app, (take_go _ 0 c _ _ Seed), H1 by done.
  rewrite (take_go _ 1 c _ _ Seed), H2 by done. cbn. do 2 eexists. reflexivity.
Qed.
End race.
