(* ===== verification/Display.v ===== *)
(** * Messages, the call stack and the progress line (src/debug.c,
    src/progress_viewer.c, src/utils.c)

    Which messages are printed, the chain of frames that [DBUG_ENTER] and
    [DBUG_RETURN] keep on the C stack, the texts of sizes and times, what a
    terminal shows of the progress line, and the helpers of src/utils.c for
    lines and words. *)

From stdpp Require Import gmap.
From S2P Require Import Prelude CStr Version FileSystem Messages Ids.

(** ** Levels *)

Definition DEBUG_DEBUG : Z := 1.
Definition DEBUG_INFO : Z := 2.
Definition DEBUG_WARN : Z := 3.
Definition DEBUG_ERROR : Z := 4.

Definition get_debug_level_desc (print_level : Z) : string :=
  if print_level =? DEBUG_DEBUG then "DEBUG" else if print_level =? DEBUG_INFO then "INFO"
  else if print_level =? DEBUG_WARN then "WARN" else if print_level =? DEBUG_ERROR then "ERROR" else "*".

Definition set_default_debug_level (default_level : Z) (debug_level : option string) : Z :=
  match debug_level with
  | None => default_level
  | Some level =>
      if (level =? "debug")%string then DEBUG_DEBUG
      else if (level =? "info")%string then DEBUG_INFO
      else if (level =? "warn")%string then DEBUG_WARN
      else if (level =? "error")%string then DEBUG_ERROR
      else default_level
  end.

(** The level, and the name that is printed after the words "client debug level: ". *)
Definition set_client_debug_level (default_level verbose : Z) (debug_level : option string) : Z * option string :=
  if verbose =? 0 then (set_default_debug_level default_level debug_level, None) else
  let level := if verbose =? 1 then DEBUG_INFO else if 1 <? verbose then DEBUG_DEBUG else default_level in
  (level, Some (get_debug_level_desc level)).

Definition set_server_debug_level (default_level verbose : Z) (debug_level : option string) : Z * option string :=
  if verbose =? 0 then (set_default_debug_level default_level debug_level, None) else
  let level := if verbose =? 1 then DEBUG_INFO else if 1 <? verbose then DEBUG_DEBUG else default_level in
  (level, Some (get_debug_level_desc level)).

(** The condition of [debug_print]. *)
Definition debug_print (default_level print_level : Z) : bool := default_level <=? print_level.

(** ** The call stack *)

Record db_stack_frame := Frame { fr_func : string; fr_file : string; fr_level : Z; fr_line : Z; fr_prev : option positive }.

Record db_code_state := CodeState { framep : option positive; level : Z }.

(** The frames are variables of active functions, at the addresses [stack];
    the key of the thread has no state before the first use. *)
Record thread := Thread { stack : gmap positive db_stack_frame; dbug_key : option db_code_state }.

Definition _dbug_get_code_state (t : thread) : db_code_state := default (CodeState None 0) (dbug_key t).

Definition _db_enter_ (func file : string) (line : Z) (frame : positive) (t : thread) : thread :=
  let cs := _dbug_get_code_state t in
  Thread (<[frame := Frame func file (level cs + 1) line (framep cs)]> (stack t)) (Some (CodeState (Some frame) (level cs + 1))).

(** [None]: the assertion fails, or the frame at the top is gone. *)
Definition _db_return_ (t : thread) : option thread :=
  let cs := _dbug_get_code_state t in
  p ← framep cs;
  fr ← stack t !! p;
  Some (Thread (stack t) (Some (CodeState (fr_prev fr) (if 0 <? level cs then level cs - 1 else level cs)))).

(** The frames that are printed, from the innermost; a frame that is gone is
    [None].  There are no more frames than places on the stack. *)
Fixpoint db_frames (fuel : nat) (t : thread) (p : option positive) : option (list db_stack_frame) :=
  match p with
  | None => Some []
  | Some p =>
      match fuel with
      | O => None
      | S fuel => fr ← stack t !! p; rest ← db_frames fuel t (fr_prev fr); Some (fr :: rest)
      end
  end.

Definition _db_dump_ (t : thread) : option (list db_stack_frame) :=
  db_frames (size (stack t)) t (framep (_dbug_get_code_state t)).

(** A call: the function, whether it leaves with [DBUG_RETURN] or by a plain
    [return], and the calls in its body. *)
Inductive call := Call (func file : string) (line : Z) (leaves : bool) (body : list call).

(** The variables of a function are at the address [frame] and those of its
    callees beyond; they are gone when it returns. *)
Fixpoint run_call (c : call) (frame : positive) (t : thread) : option thread :=
  match c with
  | Call func file line leaves body =>
      let t := _db_enter_ func file line frame t in
      t ← (fix run_calls (l : list call) (t : thread) : option thread :=
             match l with [] => Some t | c :: l => t ← run_call c (Pos.succ frame) t; run_calls l t end) body t;
      t ← (if leaves then _db_return_ t else Some t);
      Some (Thread (delete frame (stack t)) (dbug_key t))
  end.

Fixpoint run_calls (l : list call) (frame : positive) (t : thread) : option thread :=
  match l with [] => Some t | c :: l => t ← run_call c frame t; run_calls l frame t end.

Fixpoint leaves_ok (c : call) : Prop :=
  match c with
  | Call _ _ _ leaves body =>
      leaves = true /\ (fix all (l : list call) : Prop := match l with [] => True | c :: l => leaves_ok c /\ all l end) body
  end.

(** The frames below an address are the same. *)
Definition same_below (frame : positive) (t t' : thread) : Prop := forall p, (p < frame)%positive -> stack t' !! p = stack t !! p.

(** A call that leaves by the macros gives the thread back as it was. *)
Definition restores (frame : positive) (t : thread) (r : option thread) : Prop :=
  exists t', r = Some t' /\ _dbug_get_code_state t' = _dbug_get_code_state t /\ same_below frame t t'.

Lemma restores_bind frame t r (k : thread -> option thread) : restores frame t r ->
  (forall t', _dbug_get_code_state t' = _dbug_get_code_state t -> same_below frame t t' -> restores frame t (k t')) -> restores frame t (r ≫= k).
Proof. intros (t' & -> & Hk & Hb) H. by apply H. Qed.

Lemma restores_trans frame t t1 r : _dbug_get_code_state t1 = _dbug_get_code_state t -> same_below frame t t1 -> restores frame t1 r -> restores frame t r.
Proof.
  intros Hk Hb (t' & -> & Hk' & Hb'). exists t'. split; [done|]. split; [by rewrite Hk', Hk|].
  intros p Hp. by rewrite Hb', Hb.
Qed.

Lemma run_call_restores c : leaves_ok c -> forall frame t, 0 <= level (_dbug_get_code_state t) -> restores frame t (run_call c frame t).
Proof.
  revert c. fix IH 1. intros [func file line leaves body] [-> Hbody] frame t Hlevel. cbn [run_call].
  set (t1 := _db_enter_ func file line frame t).
  assert (H1 : 0 <= level (_dbug_get_code_state t1)) by (unfold t1; cbn; lia).
  assert (Hb : forall l, (fix all (l : list call) : Prop := match l with [] => True | c :: l => leaves_ok c /\ all l end) l ->
    forall t2, _dbug_get_code_state t2 = _dbug_get_code_state t1 -> restores (Pos.succ frame) t2 ((fix run_calls (l : list call) (t : thread) : option thread :=
      match l with [] => Some t | c :: l => t ← run_call c (Pos.succ frame) t; run_calls l t end) l t2)).
  { induction l as [|c l IHl]; intros Hl t2 Hk2; [by exists t2|].
    destruct Hl as [Hc Hl]. apply restores_bind; [apply IH; [exact Hc|rewrite Hk2; exact H1]|].
    intros t3 Hk3 Hb3. eapply restores_trans; [exact Hk3|exact Hb3|]. apply IHl; [exact Hl|].
    by rewrite Hk3. }
  destruct (Hb body Hbody t1) as (t2 & -> & Hk2 & Hb2); [done|]. cbn [mbind option_bind]. unfold _db_return_.
  rewrite Hk2. assert (Ef : stack t2 !! frame = Some (Frame func file (level (_dbug_get_code_state t) + 1) line (framep (_dbug_get_code_state t)))).
  { rewrite Hb2 by lia. unfold t1. cbn [stack _db_enter_]. by rewrite lookup_insert_eq. }
  unfold t1. cbn [_dbug_get_code_state _db_enter_ dbug_key from_option id framep level mbind option_bind]. rewrite Ef. cbn [mbind option_bind fr_prev].
  eexists. split; [done|]. split.
  - unfold _dbug_get_code_state at 1. cbn [dbug_key from_option id]. rewrite (proj2 (Z.ltb_lt _ _)) by lia. unfold _dbug_get_code_state. destruct (default _ _) as [p n]. cbn. f_equal. lia.
  - intros p Hp. cbn [stack]. rewrite lookup_delete_ne by lia. rewrite Hb2 by lia. unfold t1. cbn [stack _db_enter_]. by rewrite lookup_insert_ne by lia.
Qed.

(** Functions that all leave by the macros can call each other in any way: the
    chain and its level are at the end what they were before, and no frame is
    read that is gone. *)
Theorem calls_restore l frame t : Forall leaves_ok l -> 0 <= level (_dbug_get_code_state t) -> restores frame t (run_calls l frame t).
Proof.
  intros Hl. revert t. induction Hl as [|c l Hc _ IH]; intros t Ht; cbn [run_calls].
  - by exists t.
  - apply restores_bind; [by apply run_call_restores|]. intros t1 Hk Hb. eapply restores_trans; [exact Hk|exact Hb|].
    apply IH. by rewrite Hk.
Qed.

Lemma db_frames_insert fuel t p l frame fr : stack t !! frame = None -> db_frames fuel t p = Some l ->
  forall k cs, db_frames (k + fuel) (Thread (<[frame := fr]> (stack t)) cs) p = Some l.
Proof.
  intros Hf. revert p l. induction fuel as [|fuel IH]; intros p l H k cs; destruct p as [p|]; cbn [db_frames] in H.
  - done.
  - injection H as <-. by destruct k.
  - destruct (stack t !! p) as [fr'|] eqn:E; [|done]. cbn [mbind option_bind] in H.
    destruct (db_frames fuel t (fr_prev fr')) as [rest|] eqn:Er; [|done]. injection H as <-.
    rewrite Nat.add_succ_r. cbn [db_frames stack]. rewrite lookup_insert_ne by congruence. rewrite E. cbn [mbind option_bind].
    by rewrite (IH _ _ Er k cs).
  - injection H as <-. by destruct (k + S fuel)%nat.
Qed.

(** The dump is the chain of the active functions, with the one entered last in
    front. *)
Theorem dump_entered func file line frame t l : stack t !! frame = None -> _db_dump_ t = Some l ->
  _db_dump_ (_db_enter_ func file line frame t)
    = Some (Frame func file (level (_dbug_get_code_state t) + 1) line (framep (_dbug_get_code_state t)) :: l).
Proof.
  intros Hf Hl. unfold _db_dump_ in *. unfold _db_enter_. cbn [stack _dbug_get_code_state dbug_key from_option id framep].
  rewrite map_size_insert_None by done. cbn [db_frames stack]. rewrite lookup_insert_eq. cbn [mbind option_bind fr_prev].
  by rewrite (db_frames_insert _ _ _ _ frame _ Hf Hl 0).
Qed.

(** A function that leaves by a plain [return] makes its caller read a frame
    that is gone, in the dump and when the caller returns. *)
Theorem plain_return_dangles func file line func2 file2 line2 frame t :
  (forall p, (frame < p)%positive -> stack t !! p = None) ->
  let entered := run_call (Call func2 file2 line2 false []) (Pos.succ frame) (_db_enter_ func file line frame t) in
  exists t', entered = Some t' /\ _db_dump_ t' = None /\ _db_return_ t' = None
    /\ run_call (Call func file line true [Call func2 file2 line2 false []]) frame t = None.
Proof.
  intros Hf entered. eexists. split; [done|].
  split; [|split].
  - unfold _db_dump_. cbn [stack]. destruct (size _) as [|n]; [done|]. cbn [db_frames _db_enter_ _dbug_get_code_state dbug_key from_option id framep stack].
    by rewrite lookup_delete_eq.
  - unfold _db_return_. cbn [_db_enter_ _dbug_get_code_state dbug_key from_option id framep stack mbind option_bind]. by rewrite lookup_delete_eq.
  - cbn [run_call mbind option_bind]. unfold _db_return_ at 1. cbn [_dbug_get_code_state dbug_key from_option id framep stack mbind option_bind _db_enter_].
    by rewrite lookup_delete_eq.
Qed.

(** ** Sizes and times *)

Definition SIZE_1G : Z := 1024 * 1024 * 1024.
Definition SIZE_1M : Z := 1024 * 1024.
Definition SIZE_1K : Z := 1024.

(** The quotient, rounded to the nearest integer and to an even one in the middle. *)
Definition round_half_even (a b : Z) : Z :=
  let q := a / b in
  let r := 2 * (a mod b) in
  if r <? b then q else if b <? r then q + 1 else if Z.even q then q else q + 1.

(** The [double] nearest to a [long] that is positive. *)
Definition to_double (z : Z) : Z :=
  let e := Z.log2 z - 52 in if e <=? 0 then z else round_half_even z (2 ^ e) * 2 ^ e.

(** [%d], [%02d] of an [int], and [%.2f] of a positive number over a power of 2. *)
Definition print_d (z : Z) : list Z := if z <? 0 then 45 :: print_dec 10 (- z) else print_dec 10 z.
Definition print_02d (z : Z) : list Z := if z <? 0 then 45 :: print_dec 10 (- z) else print_pad 2 z.
Definition print_2f (num den : Z) : list Z :=
  let h := round_half_even (100 * num) den in print_dec 20 (h / 100) ++ 46 :: print_pad 2 (h mod 100).

Definition format_trans_speed (speed max_len : Z) : list Z :=
  snprintf max_len
    (if SIZE_1G <? speed then print_2f (to_double speed) SIZE_1G ++ ascii_bytes "GB/s"
     else if SIZE_1M <? speed then print_2f (to_double speed) SIZE_1M ++ ascii_bytes "MB/s"
     else if SIZE_1K <? speed then print_2f (to_double speed) SIZE_1K ++ ascii_bytes "KB/s"
     else print_d (i32 speed) ++ ascii_bytes "B/s").

Definition format_trans_size (size max_len : Z) : list Z :=
  snprintf max_len
    (if SIZE_1G <? size then print_2f (to_double size) SIZE_1G ++ ascii_bytes "GB"
     else if SIZE_1M <? size then print_2f (to_double size) SIZE_1M ++ ascii_bytes "MB"
     else if SIZE_1K <? size then print_2f (to_double size) SIZE_1K ++ ascii_bytes "KB"
     else print_d (i32 size) ++ ascii_bytes "B").

Definition format_left_time (left max_len : Z) : list Z :=
  snprintf max_len
    (if 3600 <? left then
       let hour := Z.quot left 3600 in
       let minute := Z.quot (Z.rem left 3600) 60 in
       let second := Z.rem left 60 in
       (if 10 <=? hour then print_d hour else print_02d hour) ++ 58 :: print_02d minute ++ 58 :: print_02d second
     else print_02d (Z.quot left 60) ++ 58 :: print_02d (Z.rem left 60)).

(** ** The progress line *)

(** [last], the time of the last output, is kept by the caller of the model:
    [due] is whether more than [udelay] has passed. *)
Record progress_viewer := Viewer { pv_idx : Z; pv_udelay : Z; pv_char_cnt : nat }.

Definition start_progress_viewer (udelay : Z) : progress_viewer := Viewer 0 udelay 0.

Definition stop_progress_viewer (pv : progress_viewer) (info : list Z) : list Z * progress_viewer :=
  (replicate (pv_char_cnt pv) 32 ++ 13 :: info ++ [10], Viewer (pv_idx pv) (pv_udelay pv) (S (length info))).

Definition show_progress (due : bool) (pv : progress_viewer) (info : list Z) : list Z * progress_viewer :=
  if (pv_idx pv =? 0) || due then
    (replicate (pv_char_cnt pv) 32 ++ 13 :: info ++ [13], Viewer (i32 (pv_idx pv + 1)) (pv_udelay pv) (S (length info)))
  else ([], pv).

(** A line of a terminal: its cells, blank beyond, and the column of the next
    character. *)
Record term := Term { cells : list Z; column : nat }.

Definition term_put (t : term) (c : Z) : term :=
  if c =? 13 then Term (cells t) 0
  else Term (take (column t) (cells t ++ replicate (column t) 32) ++ c :: drop (S (column t)) (cells t)) (S (column t)).

Definition term_text (t : term) (s : list Z) : term := foldl term_put t s.

(** ** Lines and words (src/utils.c) *)

Definition LINE_LIMIT : Z := 80.

(** What is printed, without the end of the line; [None] when the zero is put
    outside the array.  No string is printed as "(null)". *)
Definition print_line (str : option (list Z)) (c : Z) : option (list Z) :=
  let width := match str with None => LINE_LIMIT / 2 | Some str => i32 (u64 (LINE_LIMIT - Z.of_nat (length str)) / 2) end in
  let width := if width <? 0 then 0 else width in
  let str := default (ascii_bytes "(null)") str in
  let printed := take (Z.to_nat (LINE_LIMIT - width - 1)) str in
  let j := width + Z.of_nat (length str) in
  if LINE_LIMIT <? j then None else
  Some (c_str (if j <? LINE_LIMIT then replicate (Z.to_nat width) c ++ printed ++ replicate (Z.to_nat (LINE_LIMIT - j)) c ++ [0]
               else replicate (Z.to_nat width) c ++ printed ++ [0; 0])).

Definition __strdup (buf : option (list Z)) : option (list Z) :=
  match buf with None | Some [] => None | Some buf => Some buf end.

(** The path as it is left, and the last component. *)
Definition get_right_most_path (path : list Z) : list Z * list Z :=
  let path := simplify_path path in
  match path with
  | [] => (path, [])
  | _ => match strrchr path slash with None => (path, path) | Some (_, post) => (path, drop 1 post) end
  end.

(** The result and the array [word], which has [len] characters.  [None]: the
    array overflows, or [strncpy] gets a length that is negative. *)
Definition get_first_word (buf word : list Z) (len : Z) : option (Z * list Z) :=
  if len <=? 0 then Some (-1, word) else
  match buf with
  | [] => Some (-1, word)
  | _ =>
      match strchr buf 32 with
      | None =>
          if Z.of_nat (length buf) <? len then Some (-1, word) else
          if Z.of_nat (length buf) + 1 <=? len then Some (0, buf ++ [0]) else None
      | Some (pre, _) =>
          if len <? Z.of_nat (length pre) then Some (-1, word) else
          if u64 (- Z.of_nat (length pre)) <=? len then Some (0, word) else None
      end
  end.

Definition gen_id (rand : Z) : option Z := gen_int rand (2 ^ 29) (2 ^ 30).

(** The array [buf] of at least [len + 1] characters; [rands] are the results
    of [rand].  The character before the end is not written. *)
Definition simple_session_id (rands : list Z) (buf : list Z) (len : nat) : list Z :=
  imap (fun i rand => if Nat.odd i then rand mod 25 + 97 else rand mod 9 + 48) (take (len - 1) rands)
    ++ take (len - (len - 1)) (drop (len - 1) buf) ++ 0 :: drop (S len) buf.

(** [strftime] is given the format and the room; no text stands for 0. *)
Definition ts_to_str (strftime : string -> Z -> Z -> list Z) (ts max_len : Z) : list Z * Z :=
  match strftime "%Y-%m-%d %H:%M:%S"%string (i64 ts) max_len with
  | [] => (ascii_bytes "unknown", 7)
  | s => (s, Z.of_nat (length s))
  end.

Definition now_time_str (strftime : string -> Z -> Z -> list Z) (now max_len : Z) : list Z * Z := ts_to_str strftime now max_len.

Definition ymd_hm_str (strftime : string -> Z -> Z -> list Z) (now max_len : Z) : list Z * Z :=
  match strftime "%Y%m%d%H"%string now max_len with
  | [] => (ascii_bytes "unknown", 7)
  | s => (s, Z.of_nat (length s))
  end.

(** ** What the texts say *)

(** The seconds that a text like "1:02:03" stands for. *)
Definition clock_step (st : Z * Z) (c : Z) : Z * Z := if c =? 58 then ((st.1 + st.2) * 60, 0) else (st.1, st.2 * 10 + (c - 48)).
Definition clock_value (s : list Z) : Z := let '(acc, cur) := foldl clock_step (0, 0) s in acc + cur.

Lemma clock_digits a s : digits s -> foldl clock_step (a, 0) s = (a, dec_value 0 s).
Proof.
  unfold dec_value. generalize 0. intros v Hs. revert v. induction Hs as [|c s Hc _ IH]; intros v; [done|]. cbn [foldl].
  apply is_digit_spec in Hc. unfold clock_step at 2. rewrite (proj2 (Z.eqb_neq _ _)) by lia. apply IH.
Qed.

Lemma print_dec_digits n : 0 <= n < 10 ^ 10 -> digits (print_dec 10 n) /\ dec_value 0 (print_dec 10 n) = n.
Proof. intros Hn. destruct (print_dec_spec 10 n) as (H1 & H2 & _); [lia|lia|done]. Qed.

Lemma print_d_spec n : 0 <= n < 10 ^ 6 -> digits (print_d n) /\ dec_value 0 (print_d n) = n /\ (length (print_d n) <= 6)%nat.
Proof.
  intros Hn. unfold print_d. rewrite (proj2 (Z.ltb_ge _ _)) by lia. destruct (print_dec_digits n) as [H1 H2]; [lia|].
  split; [done|]. split; [done|]. apply (print_dec_length 10 n 6); lia.
Qed.

Lemma print_02d_spec n : 0 <= n < 10 ^ 6 -> digits (print_02d n) /\ dec_value 0 (print_02d n) = n /\ (length (print_02d n) <= 6)%nat.
Proof.
  intros Hn. unfold print_02d. rewrite (proj2 (Z.ltb_ge _ _)) by lia. destruct (print_pad_spec 2 n Hn) as (Hv & Hl & _); [lia|].
  split; [|done]. unfold print_pad. apply Forall_app. split; [by apply Forall_replicate|]. apply print_dec_digits. lia.
Qed.

(** The time that is left is the time that is shown, as minutes and seconds up
    to one hour and with the hours from then on. *)
Theorem left_time_shown left max_len : 0 <= left < 2 ^ 31 -> 20 < max_len -> clock_value (format_left_time left max_len) = left.
Proof.
  intros Hl Hm. unfold format_left_time, snprintf. destruct (Z.ltb_spec 3600 left) as [H|H].
  - cbv zeta. rewrite !Z.quot_div_nonneg, !Z.rem_mod_nonneg by (lia || (rewrite ?Z.rem_mod_nonneg by lia; apply Z.mod_pos_bound; lia)).
    set (h := left / 3600). set (m := left mod 3600 / 60). set (s := left mod 60).
    pose proof (Z.mod_pos_bound left 3600 ltac:(lia)) as B1. pose proof (Z.mod_pos_bound left 60 ltac:(lia)) as B2.
    assert (Hh : 0 <= h < 10 ^ 6) by (unfold h; split; [apply Z.div_pos; lia|apply Z.div_lt_upper_bound; lia]).
    assert (Hmn : 0 <= m < 60) by (unfold m; split; [apply Z.div_pos; lia|apply Z.div_lt_upper_bound; lia]).
    destruct (print_02d_spec m) as (Dm & Vm & Lm); [lia|]. destruct (print_02d_spec s) as (Ds & Vs & Ls); [unfold s; lia|].
    assert (exists ht, (if 10 <=? h then print_d h else print_02d h) = ht /\ digits ht /\ dec_value 0 ht = h /\ (length ht <= 6)%nat) as (ht & -> & Dh & Vh & Lh).
    { destruct (10 <=? h); eexists; (split; [done|]); [by apply print_d_spec|by apply print_02d_spec]. }
    rewrite take_ge by (rewrite !length_app; cbn [length]; rewrite length_app; cbn [length]; lia).
    unfold clock_value. rewrite foldl_app, (clock_digits 0 ht Dh). cbn [foldl]. unfold clock_step at 2. cbn [Z.eqb Pos.eqb fst snd].
    rewrite foldl_app, clock_digits by done. cbn [foldl]. unfold clock_step at 2. cbn [Z.eqb Pos.eqb fst snd].
    rewrite clock_digits, Vh, Vm, Vs by done. unfold h, m, s.
    pose proof (Z.div_mod left 3600 ltac:(lia)). pose proof (Z.div_mod (left mod 3600) 60 ltac:(lia)).
    assert (left mod 3600 mod 60 = left mod 60) by (apply Z.mod_mod_divide; by exists 60). lia.
  - rewrite Z.quot_div_nonneg, Z.rem_mod_nonneg by lia. pose proof (Z.mod_pos_bound left 60 ltac:(lia)) as B2.
    assert (Hmn : 0 <= left / 60 < 10 ^ 6) by (split; [apply Z.div_pos; lia|apply Z.div_lt_upper_bound; lia]).
    destruct (print_02d_spec (left / 60)) as (Dm & Vm & Lm); [lia|]. destruct (print_02d_spec (left mod 60)) as (Ds & Vs & Ls); [lia|].
    rewrite take_ge by (rewrite !length_app; cbn [length]; lia).
    unfold clock_value. rewrite foldl_app, clock_digits by done. cbn [foldl]. unfold clock_step at 2. cbn [Z.eqb Pos.eqb fst snd].
    rewrite clock_digits, Vm, Vs by done. pose proof (Z.div_mod left 60 ltac:(lia)). lia.
Qed.

(** [%.2f] is off by at most half a hundredth. *)
Lemma round_half_even_close a b : 0 < b -> 2 * Z.abs (a - b * round_half_even a b) <= b.
Proof.
  intros Hb. unfold round_half_even. pose proof (Z.div_mod a b ltac:(lia)) as Hdm. pose proof (Z.mod_pos_bound a b Hb) as Hm.
  destruct (Z.ltb_spec (2 * (a mod b)) b); [lia|]. destruct (Z.ltb_spec b (2 * (a mod b))); [lia|]. destruct (Z.even _); lia.
Qed.

(** The number that is shown for a size, in hundredths of the unit. *)
Definition shown_unit (size : Z) : Z := if SIZE_1G <? size then SIZE_1G else if SIZE_1M <? size then SIZE_1M else SIZE_1K.

Theorem size_shown size max_len : SIZE_1K < size < 2 ^ 53 -> 30 < max_len ->
  exists h suffix, format_trans_size size max_len = print_dec 20 (h / 100) ++ 46 :: print_pad 2 (h mod 100) ++ suffix
    /\ (length suffix = 2)%nat /\ 2 * Z.abs (100 * size - shown_unit size * h) <= shown_unit size.
Proof.
  intros Hs Hm. exists (round_half_even (100 * size) (shown_unit size)),
    (if SIZE_1G <? size then ascii_bytes "GB" else if SIZE_1M <? size then ascii_bytes "MB" else ascii_bytes "KB").
  assert (Hd : to_double size = size).
  { unfold to_double. rewrite (proj2 (Z.leb_le _ _)); [done|]. assert (Z.log2 size < 53) by (apply Z.log2_lt_pow2; unfold SIZE_1K in Hs; lia). lia. }
  assert (Hu : 0 < shown_unit size) by (unfold shown_unit; destruct (_ <? _); [done|]; by destruct (_ <? _)).
  split; [|split; [destruct (_ <? _); [done|]; by destruct (_ <? _)|by apply round_half_even_close]].
  set (h := round_half_even (100 * size) (shown_unit size)).
  assert (Hlen : (length (print_dec 20 (h / 100) ++ 46%Z :: print_pad 2 (h mod 100)) <= 27)%nat).
  { rewrite length_app. cbn [length]. pose proof (length_print_dec 20 (h / 100)). pose proof (Z.mod_pos_bound h 100 ltac:(lia)).
    destruct (print_pad_spec 2 (h mod 100)) as (_ & ? & _); lia. }
  unfold format_trans_size, print_2f, snprintf. rewrite Hd. unfold h, shown_unit in *.
  destruct (SIZE_1G <? size); [|destruct (SIZE_1M <? size); [|rewrite (proj2 (Z.ltb_lt SIZE_1K size)) by lia]];
    (rewrite take_ge by (rewrite length_app; change (length (ascii_bytes _)) with 2%nat; lia)); by rewrite <- app_assoc.
Qed.

(** ** What the terminal shows *)

Lemma term_text_at s : Forall (fun c => c <> 13) s -> forall t, (column t <= length (cells t))%nat ->
  term_text t s = Term (take (column t) (cells t) ++ s ++ drop (column t + length s) (cells t)) (column t + length s).
Proof.
  induction 1 as [|c s Hc _ IH]; intros [cs n] Hn; cbn [column cells] in *; unfold term_text; cbn [foldl length app].
  - by rewrite Nat.add_0_r, take_drop.
  - fold (term_text (term_put (Term cs n) c) s). unfold term_put. rewrite (proj2 (Z.eqb_neq _ _) Hc). cbn [column cells].
    rewrite take_app_le by done. rewrite IH; cbn [column cells]; [|rewrite length_app, length_take; cbn [length]; lia].
    f_equal; [|lia]. assert (Ht : length (take n cs) = n) by (rewrite length_take; lia).
    rewrite take_app_ge, Ht by (rewrite Ht; lia). replace (S n - n)%nat with 1%nat by lia. cbn [take]. rewrite take_0, <- app_assoc. cbn [app]. do 2 f_equal.
    rewrite drop_app_ge, Ht by (rewrite Ht; lia). replace (S n + length s - n)%nat with (S (length s)) by lia. cbn [drop]. rewrite drop_drop. do 2 f_equal. lia.
Qed.

(** The line holds [s] and is blank beyond; the next character comes first. *)
Definition shows (t : term) (s : list Z) : Prop := column t = O /\ exists blanks, cells t = s ++ blanks /\ Forall (fun c => c = 32) blanks.

Lemma blanks_spec l : Forall (fun c => c = 32) l -> l = replicate (length l) 32.
Proof. induction 1 as [|c l -> _ IH]; [done|]. cbn [length replicate]. by f_equal. Qed.

(** One output: the old text is wiped out, the new one is shown. *)
Lemma redraw t old info cnt : shows t old -> (length old <= cnt)%nat -> Forall (fun c => c <> 13) info ->
  shows (term_text t (replicate cnt 32 ++ 13 :: info ++ [13])) info.
Proof.
  intros (Hc & b & Ec & Hb) Hcnt Hi. unfold term_text. rewrite foldl_app. fold (term_text t (replicate cnt 32)).
  rewrite (term_text_at (replicate cnt 32)) by (rewrite ?Hc; lia || (apply Forall_replicate; lia)). rewrite Hc. cbn [take app foldl]. rewrite length_replicate.
  unfold term_put at 2. cbn [Z.eqb Pos.eqb cells]. rewrite foldl_app.
  set (t1 := Term _ 0). change (foldl term_put t1 info) with (term_text t1 info). rewrite (term_text_at info Hi t1) by (unfold t1; cbn [column]; lia).
  cbn [foldl]. unfold term_put. cbn [Z.eqb Pos.eqb cells]. split; [done|]. unfold t1. cbn [column cells take app Nat.add]. eexists. split; [done|].
  rewrite take_0. cbn [app]. apply Forall_drop, Forall_app. split; [by apply Forall_replicate|]. rewrite Ec. cbn [Nat.add]. rewrite drop_app_ge by lia. by apply Forall_drop.
Qed.

(** The outputs of a viewer from its start: the texts that were due, and a last
    one with the end of the line behind it. *)
Fixpoint show_all (pv : progress_viewer) (l : list (bool * list Z)) : list Z * progress_viewer :=
  match l with
  | [] => ([], pv)
  | (due, info) :: l =>
      let '(out, pv) := show_progress due pv info in let '(out', pv) := show_all pv l in (out ++ out', pv)
  end.

Lemma show_all_shows l : Forall (fun x => Forall (fun c => c <> 13) x.2) l -> forall t old pv, shows t old -> (length old <= pv_char_cnt pv)%nat ->
  exists now, shows (term_text t (show_all pv l).1) now /\ (length now <= pv_char_cnt (show_all pv l).2)%nat
    /\ (now = old \/ exists due, (due, now) ∈ l).
Proof.
  induction 1 as [|[due info] l Hi _ IH]; intros t old pv Ht Hc; [by exists old; auto|]. cbn [show_all snd] in *.
  unfold show_progress. destruct ((pv_idx pv =? 0) || due).
  - set (pv1 := Viewer _ _ _). destruct (show_all pv1 l) as [out' pv'] eqn:E. cbn [fst snd].
    unfold term_text. rewrite foldl_app. fold (term_text t (replicate (pv_char_cnt pv) 32 ++ 13 :: info ++ [13])).
    destruct (IH _ info pv1 (redraw t old info _ Ht Hc Hi)) as (now & Hn & Hl & Hw); [cbn; lia|]. rewrite E in Hn, Hl.
    exists now. split; [exact Hn|]. split; [exact Hl|]. right. destruct Hw as [->|[d Hd]]; [exists due; by left|exists d; by right].
  - destruct (show_all pv l) as [out' pv'] eqn:E. cbn [fst snd app]. destruct (IH t old pv Ht Hc) as (now & Hn & Hl & Hw).
    rewrite E in Hn, Hl. exists now. split; [exact Hn|]. split; [exact Hl|]. destruct Hw as [->|[d Hd]]; [by left|right; exists d; by right].
Qed.

(** Whatever texts are shown after each other, of whatever lengths, the line of
    the terminal holds the last one that was due and nothing of the others; at
    the end it holds the text of [stop_progress_viewer]. *)
Theorem progress_line udelay l info t : Forall (fun x => Forall (fun c => c <> 13) x.2) l -> Forall (fun c => c <> 13) info -> shows t [] ->
  let '(out, pv) := show_all (start_progress_viewer udelay) l in
  (exists now, shows (term_text t out) now /\ (now = [] \/ exists due, (due, now) ∈ l))
  /\ exists last, (stop_progress_viewer pv info).1 = last ++ [10] /\ shows (term_text (term_text t out) (last ++ [13])) info.
Proof.
  intros Hl Hi Ht. pose proof (show_all_shows l Hl t [] (start_progress_viewer udelay) Ht) as H.
  destruct (show_all _ l) as [out pv]. destruct H as (now & Hn & Hc & Hw); [cbn; lia|]. cbn [fst snd] in *. split; [by exists now|].
  exists (replicate (pv_char_cnt pv) 32 ++ 13 :: info). unfold stop_progress_viewer. cbn [fst]. rewrite <- !app_assoc. cbn [app]. split; [done|].
  by apply (redraw _ now).
Qed.

(** ** Lines and words *)

(** A title of less than 80 characters stands in the middle of a full line;
    one of 80 loses its last character, a longer one is written outside. *)
Theorem print_line_shows s c : Forall (fun c => c <> 0) s -> c <> 0 ->
  let n := Z.of_nat (length s) in
  (n < 80 -> exists w, print_line (Some s) c = Some (replicate w c ++ s ++ replicate (80 - w - length s) c) /\ (w = (80 - length s) / 2)%nat)
  /\ (n = 80 -> print_line (Some s) c = Some (take 79 s)) /\ (80 < n < 2 ^ 31 -> print_line (Some s) c = None).
Proof.
  intros Hs Hc n. unfold print_line. cbn [from_option id]. fold n. unfold LINE_LIMIT.
  assert (Hz : forall l, Forall (fun c => c <> 0) l -> forall r, c_str (l ++ 0 :: r) = l) by (intros; by apply c_str_app).
  split; [|split].
  - intros Hn. exists ((80 - length s) / 2)%nat. split; [|done].
    assert (Hw : u64 (80 - n) / 2 = (80 - n) / 2) by (unfold wrap_u; rewrite Z.mod_small; lia). rewrite Hw.
    assert (0 <= (80 - n) / 2 <= 40) by (split; [apply Z.div_pos; lia|apply Z.div_le_upper_bound; lia]).
    rewrite i32_small by (unfold in_i32; lia). rewrite (proj2 (Z.ltb_ge ((80 - n) / 2) 0)) by lia.
    pose proof (Z.div_mod (80 - n) 2 ltac:(lia)). pose proof (Z.mod_pos_bound (80 - n) 2 ltac:(lia)).
    assert (Hj : (80 - n) / 2 + n < 80 \/ n = 79 \/ n = 80) by lia.
    rewrite (proj2 (Z.ltb_ge 80 _)), (proj2 (Z.ltb_lt _ 80)) by lia. rewrite take_ge by lia.
    assert (Hn2 : Z.to_nat ((80 - n) / 2) = ((80 - length s) / 2)%nat).
    { rewrite <- (Nat2Z.id ((80 - length s) / 2)), Nat2Z.inj_div, Nat2Z.inj_sub by lia. done. }
    rewrite Hn2. assert (Hr : Z.to_nat (80 - ((80 - n) / 2 + n)) = (80 - (80 - length s) / 2 - length s)%nat) by lia. rewrite Hr.
    f_equal. rewrite !app_assoc. rewrite Hz; [done|]. rewrite !Forall_app. split; [split; [by apply Forall_replicate|done]|by apply Forall_replicate].
  - intros Hn. rewrite Hn. change (i32 (u64 (80 - 80) / 2)) with 0. cbn [Z.ltb Z.compare Z.add Pos.compare Pos.compare_cont replicate Z.to_nat app Z.sub Z.opp Z.pos_sub Pos.pred_double].
    f_equal. apply Hz. by apply Forall_take.
  - intros Hn. assert (Hu : u64 (80 - n) = 2 ^ 64 + (80 - n)) by (unfold wrap_u; symmetry; apply (Z.mod_unique _ _ (-1)); lia).
    rewrite Hu. set (w := i32 _). rewrite (proj2 (Z.ltb_lt 80 _)); [done|]. destruct (Z.ltb_spec w 0); lia.
Qed.

(** [get_first_word] stores no word: it refuses, leaves the array as it is, or
    goes beyond it. *)
Theorem first_word_never_stored buf word len : len < 2 ^ 31 -> Z.of_nat (length buf) < 2 ^ 31 ->
  get_first_word buf word len = None \/ get_first_word buf word len = Some (-1, word)
  \/ get_first_word buf word len = Some (0, word) /\ exists rest, buf = 32 :: rest.
Proof.
  intros Hlen Hbuf. unfold get_first_word. destruct (Z.leb_spec len 0); [auto|]. destruct buf as [|c buf]; [auto|].
  destruct (strchr (c :: buf) 32) as [[pre post]|] eqn:E.
  - destruct (len <? _); [auto|]. destruct (_ <=? len) eqn:El; [|auto]. right. right. split; [done|].
    apply strchr_some in E as (Es & _ & t & ->). destruct pre as [|d pre]; [exists t; done|]. exfalso.
    apply (f_equal length) in Es. rewrite length_app in Es. cbn [length] in *. apply Z.leb_le in El.
    unfold wrap_u in El. rewrite <- (Z.mod_unique (- Z.of_nat (S (length pre))) (2 ^ 64) (-1) (2 ^ 64 - Z.of_nat (S (length pre)))) in El; lia.
  - destruct (Z.ltb_spec (Z.of_nat (length (c :: buf))) len); [auto|]. rewrite (proj2 (Z.leb_gt _ _)) by lia. auto.
Qed.

(** ** The last component *)

Lemma collapse_name b name : slash ∉ name -> collapse b name = name.
Proof.
  revert b. induction name as [|c name IH]; intros b; [done|]. rewrite not_elem_of_cons. intros [Hc Hn]. cbn [collapse].
  rewrite (proj2 (Z.eqb_neq _ _)) by congruence. by rewrite IH.
Qed.

(** Behind the last slash nothing changes. *)
Lemma collapse_last p name : slash ∉ name -> forall b, (b = true -> exists c, c ∈ p /\ c <> slash) ->
  exists q, collapse b (p ++ slash :: name) = q ++ slash :: name.
Proof.
  intros Hn. induction p as [|c p IH]; intros b Hb; cbn [app collapse].
  - rewrite Z.eqb_refl. destruct b; [destruct (Hb eq_refl) as (c & ?%not_elem_of_nil & _); done|]. exists []. by rewrite collapse_name.
  - destruct (Z.eqb_spec c slash) as [->|Hc].
    + destruct b.
      * apply IH. intros _. destruct (Hb eq_refl) as (c & [->|Hin]%elem_of_cons & Hc); [done|by exists c].
      * destruct (decide (Forall (fun c => c = slash) p)) as [Hall|Hex].
        -- exists []. assert (E : collapse true (p ++ slash :: name) = name); [|by rewrite E].
           clear IH Hb. induction Hall as [|c p -> _ IHp]; cbn [app collapse]; rewrite Z.eqb_refl; [by apply collapse_name|exact IHp].
        -- destruct (IH true) as (q & ->); [|by exists (slash :: q)]. intros _. apply not_Forall_Exists in Hex; [|apply _].
           apply Exists_exists in Hex as (c & Hin & Hc). by exists c.
    + destruct (IH false) as (q & ->); [done|]. by exists (c :: q).
Qed.

Lemma strip_slashes_name p name : name <> [] -> slash ∉ name -> strip_slashes (p ++ name) = p ++ name.
Proof.
  intros Hne Hn. destruct name as [|c name _] using rev_ind; [done|]. rewrite app_assoc. revert Hn. rewrite elem_of_app. intros Hn.
  assert (Hc : c <> slash) by (intros ->; apply Hn; right; by left). clear Hn Hne. induction (p ++ name) as [|d s IH]; cbn [app strip_slashes].
  - by rewrite (proj2 (Z.eqb_neq _ _) Hc).
  - rewrite IH. by destruct s.
Qed.

Lemma strip_slashes_more p name k : name <> [] -> slash ∉ name -> strip_slashes (p ++ name ++ replicate k slash) = p ++ name.
Proof.
  intros Hne Hn. rewrite app_assoc. rewrite <- (strip_slashes_name p name Hne Hn) at 2. generalize (p ++ name) as s.
  induction s as [|c s IH]; cbn [app strip_slashes].
  - induction k as [|k IH]; [done|]. cbn [replicate strip_slashes]. by rewrite IH, Z.eqb_refl.
  - by rewrite IH.
Qed.

(** The last component of a path, whatever slashes are behind it or doubled
    before it. *)
Theorem right_most_is_last dir name k : name <> [] -> slash ∉ name -> exists path,
  get_right_most_path (dir ++ slash :: name ++ replicate k slash) = (path, name) /\ exists q, path = q ++ slash :: name.
Proof.
  intros Hne Hn. unfold get_right_most_path.
  assert (E : exists q, simplify_path (dir ++ slash :: name ++ replicate k slash) = q ++ slash :: name).
  { destruct dir as [|c dir]; cbn [app simplify_path].
    - rewrite <- (app_nil_l (name ++ _)), strip_slashes_more by done. cbn [app]. by apply (collapse_last [] name Hn false).
    - replace (dir ++ slash :: name ++ replicate k slash) with ((dir ++ [slash]) ++ name ++ replicate k slash) by (by rewrite <- app_assoc).
      rewrite strip_slashes_more, <- app_assoc by done. by apply (collapse_last (c :: dir) name Hn false). }
  destruct E as (q & ->). exists (q ++ slash :: name). split; [|by exists q].
  assert (Er : strrchr (q ++ slash :: name) slash = Some (q, slash :: name)).
  { clear -Hn. induction q as [|c q IH]; cbn [app strrchr]; [|by rewrite IH].
    assert (strrchr name slash = None) as ->; [|done]. induction name as [|c name IH]; [done|]. rewrite not_elem_of_cons in Hn. cbn [strrchr].
    rewrite IH by tauto. by rewrite (proj2 (Z.eqb_neq _ _)) by (intros ->; tauto). }
  rewrite Er. destruct (q ++ slash :: name) eqn:Eq; [by destruct q|]. cbn [drop]. by rewrite drop_0.
Qed.

Lemma gen_id_range rand : exists id, gen_id rand = Some id /\ 2 ^ 29 <= id < 2 ^ 30.
Proof.
  unfold gen_id, gen_int. cbn [Z.ltb Z.compare]. eexists. split; [reflexivity|]. pose proof (Z.mod_pos_bound rand (2 ^ 30 - 2 ^ 29) ltac:(lia)). lia.
Qed.

(** The text of a time is never empty. *)
Lemma ts_to_str_text strftime ts max_len : 0 < (ts_to_str strftime ts max_len).2 /\ (ts_to_str strftime ts max_len).1 <> [].
Proof. unfold ts_to_str. destruct (strftime _ _ _); cbn [fst snd]; split; done || (cbn [length]; lia). Qed.
