(* ===== verification/FileTree.v ===== *)
(** * Directory trees (src/file.c)

    Listing everything under a directory and comparing two directories.  The
    order in which [readdir] delivers the names, the failure of [opendir], the
    mode and the size that the system reports are arguments. *)

From S2P Require Import Prelude CStr Md5 FileSystem FilePut FilePutRun FileGet Messages.

Record file_node := FileNode {
  fn_abs_path : list Z;
  fn_name : list Z;
  fn_mode : Z;
  fn_type : Z;
  fn_size : Z;
  fn_md5 : list Z;
}.

Section Trees.
Context (fs : fsys) (opendir : list Z -> option (list (list Z))) (file_mode : list Z -> Z) (dir_size : Z).

Definition is_dots (name : list Z) : Prop := name = [46] \/ name = [46; 46].

(** What the loops over [readdir] look at. *)
Definition entries (path : list Z) : option (list (list Z)) :=
  names ← opendir path; Some (filter (fun name => ~ is_dots name) names).

(** [md5_file] leaves the cleared array when the file cannot be opened. *)
Definition node_of (path name : list Z) : option file_node :=
  let abs_path := path_join path name in
  let mode := file_mode abs_path in
  if is_dir fs abs_path then Some (FileNode abs_path name mode FILE_TYPE_DIR 0 [])
  else
    md5 ← match fopen_r fs abs_path with Some data => md5_of data | None => Some [] end;
    Some (FileNode abs_path name mode FILE_TYPE_FILE (file_size dir_size fs abs_path) md5).

(** [None] inside is the result -1; each node is put before the others. *)
Definition get_file_node_list (path : list Z) : option (option (list file_node)) :=
  if negb (file_existed fs path) || negb (is_dir fs path) then Some None else
  match entries path with
  | None => Some None
  | Some names => nodes ← mapM (node_of path) names; Some (Some (reverse nodes))
  end.

Definition find_node (name : list Z) (l : list file_node) : option file_node :=
  '(_, q) ← list_find (fun q => fn_name q = name) l; Some q.

Definition same_node (p q : file_node) : bool :=
  bool_decide (fn_mode p = fn_mode q /\ fn_type p = fn_type q
    /\ (fn_type p = FILE_TYPE_FILE -> fn_size p = fn_size q /\ fn_md5 p = fn_md5 q)).

(** The first loop of [dir_compare]. *)
Definition same_nodes (l1 l2 : list file_node) : bool :=
  forallb (fun p => match find_node (fn_name p) l2 with None => false | Some q => same_node p q end) l1.

(** Its second loop, which goes into the directories. *)
Fixpoint compare_dirs (compare : list Z -> list Z -> option Z) (l1 l2 : list file_node) : option Z :=
  match l1 with
  | [] => Some 0
  | p :: l1 =>
      if fn_type p =? FILE_TYPE_DIR then
        q ← find_node (fn_name p) l2;
        r ← compare (fn_abs_path p) (fn_abs_path q);
        if negb (r =? 0) then Some (-1) else compare_dirs compare l1 l2
      else compare_dirs compare l1 l2
  end.

Fixpoint dir_compare (fuel : nat) (path1 path2 : list Z) : option Z :=
  match fuel with
  | O => None
  | S fuel' =>
      fn_list1 ← get_file_node_list path1;
      fn_list2 ← get_file_node_list path2;
      match fn_list1, fn_list2 with
      | Some l1, Some l2 =>
          if negb (length l1 =? length l2)%nat then Some (-1) else
          if negb (same_nodes l1 l2) then Some (-1) else
          compare_dirs (dir_compare fuel') l1 l2
      | _, _ => Some (-1)
      end
  end.

(** [get_all_file_list]: a directory's entries, each followed by what is under it. *)
Fixpoint get_all_file_list (fuel : nat) (dir : list Z) : option (option (list (list Z))) :=
  match fuel with
  | O => None
  | S fuel' =>
      if negb (file_existed fs dir) || negb (is_dir fs dir) then Some None else
      match entries dir with
      | None => Some None
      | Some names =>
          l ← foldr (fun name rest =>
            let rp := path_join dir name in
            sub ← (if is_dir fs rp then get_all_file_list fuel' rp else Some None);
            rest ← rest;
            Some (rp :: default [] sub ++ rest)) (Some []) names;
          Some (Some l)
      end
  end.

(** ** The tree under a directory *)

(** The depth of the tree is less than [n]. *)
Fixpoint shallow (n : nat) (path : list Z) : Prop :=
  match n with
  | O => False
  | S n => forall names name, entries path = Some names -> name ∈ names -> is_dir fs (path_join path name) = true ->
             shallow n (path_join path name)
  end.

Definition readable_dir (path : list Z) : Prop :=
  file_existed fs path = true /\ is_dir fs path = true /\ is_Some (entries path).

Inductive same_tree : list Z -> list Z -> Prop :=
  | same_tree_intro path1 path2 names1 names2 :
      readable_dir path1 -> readable_dir path2 ->
      entries path1 = Some names1 -> entries path2 = Some names2 ->
      (forall name, name ∈ names1 <-> name ∈ names2) ->
      (forall name, name ∈ names1 ->
         file_mode (path_join path1 name) = file_mode (path_join path2 name) /\
         is_dir fs (path_join path1 name) = is_dir fs (path_join path2 name)) ->
      (forall name, name ∈ names1 -> is_dir fs (path_join path1 name) = false ->
         fopen_r fs (path_join path1 name) = fopen_r fs (path_join path2 name)) ->
      (forall name, name ∈ names1 -> is_dir fs (path_join path1 name) = true ->
         same_tree (path_join path1 name) (path_join path2 name)) ->
      same_tree path1 path2.

(** ** Lists of nodes *)

Definition md5_at (path : list Z) : list Z :=
  match fopen_r fs path with Some data => default [] (md5_of data) | None => [] end.

Definition the_node (path name : list Z) : file_node :=
  let abs_path := path_join path name in
  if is_dir fs abs_path then FileNode abs_path name (file_mode abs_path) FILE_TYPE_DIR 0 []
  else FileNode abs_path name (file_mode abs_path) FILE_TYPE_FILE (file_size dir_size fs abs_path) (md5_at abs_path).

Lemma node_of_spec path name : node_of path name = Some (the_node path name).
Proof.
  unfold node_of, the_node, md5_at. destruct (is_dir fs _); [done|].
  destruct (fopen_r fs _) as [data|]; [|done]. by destruct (md5_of_spec data) as (s & -> & _).
Qed.

Lemma nodes_spec path names : mapM (node_of path) names = Some (the_node path <$> names).
Proof. induction names as [|name names IH]; [done|]. simpl. by rewrite node_of_spec, IH. Qed.

Lemma the_node_name path name : fn_name (the_node path name) = name.
Proof. unfold the_node. by destruct (is_dir fs _). Qed.

Lemma the_node_abs path name : fn_abs_path (the_node path name) = path_join path name.
Proof. unfold the_node. by destruct (is_dir fs _). Qed.

Lemma the_node_type path name : (fn_type (the_node path name) =? FILE_TYPE_DIR) = is_dir fs (path_join path name).
Proof. unfold the_node. by destruct (is_dir fs _). Qed.

Lemma find_node_spec path name names : find_node name (reverse (the_node path <$> names)) =
  if decide (name ∈ names) then Some (the_node path name) else None.
Proof.
  unfold find_node. destruct (list_find _ _) as [[i q]|] eqn:E; cbn.
  - apply list_find_Some in E as (Hi & Hn & _). apply list_elem_of_lookup_2, elem_of_reverse, list_elem_of_fmap in Hi as (n & -> & Hin).
    rewrite the_node_name in Hn. subst. by rewrite decide_True.
  - apply list_find_None in E. rewrite Forall_forall in E. rewrite decide_False; [done|]. intros Hin.
    apply (E (the_node path name)); [|apply the_node_name]. by apply elem_of_reverse, list_elem_of_fmap_2.
Qed.

Lemma list_of_dir path names : readable_dir path -> entries path = Some names ->
  get_file_node_list path = Some (Some (reverse (the_node path <$> names))).
Proof.
  intros (He & Hd & _) En. unfold get_file_node_list. rewrite He, Hd, En. cbn. by rewrite nodes_spec.
Qed.

Lemma readable_or_not path : {readable_dir path} + {get_file_node_list path = Some None}.
Proof.
  unfold readable_dir, get_file_node_list.
  destruct (file_existed fs path), (is_dir fs path); cbn; try by right.
  destruct (entries path); [left; by eauto|by right].
Qed.

Lemma same_files path1 path2 :
  (forall d1 d2, fopen_r fs path1 = Some d1 -> fopen_r fs path2 = Some d2 ->
     length d1 = length d2 -> md5_of d1 = md5_of d2 -> d1 = d2) ->
  is_dir fs path1 = false -> is_dir fs path2 = false ->
  (file_size dir_size fs path1 = file_size dir_size fs path2 /\ md5_at path1 = md5_at path2)
    <-> fopen_r fs path1 = fopen_r fs path2.
Proof.
  intros Hcoll H1 H2. unfold is_dir, file_size, md5_at, fopen_r in *.
  destruct (node_at fs path1) as [[|d1]|], (node_at fs path2) as [[|d2]|]; try done.
  - destruct (md5_of_spec d1) as (s1 & E1 & _), (md5_of_spec d2) as (s2 & E2 & _). rewrite E1, E2. cbn. split.
    + intros [Hl Hs]. f_equal. apply Hcoll; [done..|lia|congruence].
    + intros [= ->]. split; congruence.
  - destruct (md5_of_spec d1) as (s1 & -> & Hs & _). cbn. split; [|done]. intros [_ E]. by rewrite E in Hs.
  - destruct (md5_of_spec d2) as (s2 & -> & Hs & _). cbn. split; [|done]. intros [_ E]. by rewrite <- E in Hs.
Qed.

Lemma same_node_spec path1 path2 name :
  (forall d1 d2, fopen_r fs (path_join path1 name) = Some d1 -> fopen_r fs (path_join path2 name) = Some d2 ->
     length d1 = length d2 -> md5_of d1 = md5_of d2 -> d1 = d2) ->
  same_node (the_node path1 name) (the_node path2 name) = true <->
    file_mode (path_join path1 name) = file_mode (path_join path2 name)
    /\ is_dir fs (path_join path1 name) = is_dir fs (path_join path2 name)
    /\ (is_dir fs (path_join path1 name) = false ->
        fopen_r fs (path_join path1 name) = fopen_r fs (path_join path2 name)).
Proof.
  intros Hcoll. unfold same_node. rewrite bool_decide_eq_true. unfold the_node.
  destruct (is_dir fs (path_join path1 name)) eqn:E1, (is_dir fs (path_join path2 name)) eqn:E2; cbn.
  - split; intros (Hm & _); (split; [done|]); (split; [done|]); intros ?; discriminate.
  - split; intros (_ & ? & _); discriminate.
  - split; intros (_ & ? & _); discriminate.
  - rewrite <- (same_files _ _ Hcoll E1 E2). naive_solver.
Qed.

Lemma compare_dirs_spec compare path1 path2 names1 names2 :
  (forall name, name ∈ names1 -> name ∈ names2) ->
  (forall name, name ∈ names1 -> is_dir fs (path_join path1 name) = true ->
     exists r, compare (path_join path1 name) (path_join path2 name) = Some r) ->
  exists r, compare_dirs compare (the_node path1 <$> names1) (reverse (the_node path2 <$> names2)) = Some r
    /\ (r = 0 \/ r = -1)
    /\ (r = 0 <-> forall name, name ∈ names1 -> is_dir fs (path_join path1 name) = true ->
          compare (path_join path1 name) (path_join path2 name) = Some 0).
Proof.
  induction names1 as [|name names1 IH]; intros Hsub Htot.
  { exists 0. split; [done|]. split; [by left|]. split; [|done]. intros _ name []%not_elem_of_nil. }
  destruct IH as (r & Hr & Hr01 & Hiff).
  { intros n Hn. apply Hsub. by right. }
  { intros n Hn. apply Htot. by right. }
  cbn [fmap list_fmap compare_dirs]. rewrite the_node_type, the_node_name, the_node_abs.
  destruct (is_dir fs (path_join path1 name)) eqn:Ed.
  - rewrite find_node_spec, decide_True by (apply Hsub; by left). cbn [mbind option_bind]. rewrite the_node_abs.
    destruct (Htot name (list_elem_of_here _ _) Ed) as (r0 & E0). rewrite E0. cbn [mbind option_bind].
    destruct (Z.eqb_spec r0 0) as [->|Hne]; cbn [negb].
    + exists r. split; [exact Hr|]. split; [done|]. rewrite Hiff. split.
      * intros H n [->|Hn]%elem_of_cons; [done|by apply H].
      * intros H n Hn. apply H. by right.
    + exists (-1). split; [done|]. split; [by right|]. split; [done|]. intros H.
      rewrite (H name (list_elem_of_here _ _) Ed) in E0. congruence.
  - exists r. split; [exact Hr|]. split; [done|]. rewrite Hiff. split.
    + intros H n [->|Hn]%elem_of_cons Hd; [congruence|by apply H].
    + intros H n Hn. apply H. by right.
Qed.

Lemma same_nodes_spec path1 path2 names1 names2 :
  (forall name d1 d2, fopen_r fs (path_join path1 name) = Some d1 -> fopen_r fs (path_join path2 name) = Some d2 ->
     length d1 = length d2 -> md5_of d1 = md5_of d2 -> d1 = d2) ->
  same_nodes (reverse (the_node path1 <$> names1)) (reverse (the_node path2 <$> names2)) = true <->
  forall name, name ∈ names1 -> name ∈ names2
    /\ file_mode (path_join path1 name) = file_mode (path_join path2 name)
    /\ is_dir fs (path_join path1 name) = is_dir fs (path_join path2 name)
    /\ (is_dir fs (path_join path1 name) = false ->
        fopen_r fs (path_join path1 name) = fopen_r fs (path_join path2 name)).
Proof.
  intros Hcoll. unfold same_nodes. rewrite List.forallb_forall. setoid_rewrite <- list_elem_of_In. split.
  - intros H name Hn. specialize (H (the_node path1 name)).
    rewrite the_node_name, find_node_spec in H. destruct (decide (name ∈ names2)) as [Hin|Hin].
    + split; [done|]. apply same_node_spec; [apply Hcoll|]. apply H. by apply elem_of_reverse, list_elem_of_fmap_2.
    + exfalso. discriminate H. by apply elem_of_reverse, list_elem_of_fmap_2.
  - intros H p Hp. apply elem_of_reverse, list_elem_of_fmap in Hp as (name & -> & Hn).
    destruct (H name Hn) as [Hin Hs]. rewrite the_node_name, find_node_spec, decide_True by done.
    by apply same_node_spec; [apply Hcoll|].
Qed.

Section Compare.
Context (Hnodup : forall path names, entries path = Some names -> NoDup names).
Context (Hcoll : forall path1 path2 d1 d2, fopen_r fs path1 = Some d1 -> fopen_r fs path2 = Some d2 ->
  length d1 = length d2 -> md5_of d1 = md5_of d2 -> d1 = d2).

Lemma dir_compare_spec fuel : forall path1 path2, shallow fuel path1 ->
  exists r, dir_compare fuel path1 path2 = Some r /\ (r = 0 \/ r = -1) /\ (r = 0 <-> same_tree path1 path2).
Proof.
  induction fuel as [|fuel IH]; intros path1 path2 Hsh; [done|]. cbn [dir_compare].
  destruct (readable_or_not path1) as [R1|E1].
  2: { rewrite E1. cbn. exists (-1).
       assert (exists o, get_file_node_list path2 = Some o) as [o ->].
       { destruct (readable_or_not path2) as [R2|E2]; [|by eexists].
         destruct (proj2 (proj2 R2)) as [names2 En]. rewrite (list_of_dir _ _ R2 En). by eexists. }
       split; [done|]. split; [by right|]. split; [done|]. intros H. exfalso. inversion H as [? ? n1 n2 R1 R2 En1 En2]; subst.
       by rewrite (list_of_dir _ _ R1 En1) in E1. }
  destruct (proj2 (proj2 R1)) as [names1 En1]. rewrite (list_of_dir _ _ R1 En1). cbn [mbind option_bind].
  destruct (readable_or_not path2) as [R2|E2].
  2: { rewrite E2. cbn. exists (-1). split; [done|]. split; [by right|]. split; [done|].
       intros H. exfalso. inversion H as [? ? n1 n2 R1' R2 En1' En2]; subst. by rewrite (list_of_dir _ _ R2 En2) in E2. }
  destruct (proj2 (proj2 R2)) as [names2 En2]. rewrite (list_of_dir _ _ R2 En2). cbn [mbind option_bind].
  rewrite !length_reverse, !length_fmap.
  pose proof (Hnodup _ _ En1) as N1. pose proof (Hnodup _ _ En2) as N2.
  assert (Hinv : same_tree path1 path2 -> (forall name, name ∈ names1 <-> name ∈ names2) /\
    (forall name, name ∈ names1 -> file_mode (path_join path1 name) = file_mode (path_join path2 name) /\
       is_dir fs (path_join path1 name) = is_dir fs (path_join path2 name)) /\
    (forall name, name ∈ names1 -> is_dir fs (path_join path1 name) = false ->
       fopen_r fs (path_join path1 name) = fopen_r fs (path_join path2 name)) /\
    (forall name, name ∈ names1 -> is_dir fs (path_join path1 name) = true ->
         same_tree (path_join path1 name) (path_join path2 name))).
  { intros H. inversion H; subst. by simplify_eq. }
  destruct (Nat.eqb_spec (length names1) (length names2)) as [Hlen|Hlen]; cbn [negb].
  2: { exists (-1). split; [done|]. split; [by right|]. split; [done|]. intros (Hn & _)%Hinv. exfalso. apply Hlen.
       by apply Permutation_length, NoDup_Permutation. }
  pose proof (same_nodes_spec path1 path2 names1 names2 ltac:(intros; by eapply Hcoll)) as Hsn.
  destruct (same_nodes _ _); cbn [negb].
  2: { exists (-1). split; [done|]. split; [by right|]. split; [done|]. intros (Hn & Hm & Hf & _)%Hinv. exfalso.
       assert (false = true); [|done]. apply Hsn. intros name Hin. split; [by apply Hn|]. split; [by apply Hm|].
       split; [by apply Hm|auto]. }
  pose proof (proj1 Hsn eq_refl) as Hall. clear Hsn.
  rewrite <- fmap_reverse.
  destruct (compare_dirs_spec (dir_compare fuel) path1 path2 (reverse names1) names2) as (r & -> & Hr & Hiff).
  { intros name Hn. rewrite elem_of_reverse in Hn. exact (proj1 (Hall name Hn)). }
  { intros name Hn Hd. rewrite elem_of_reverse in Hn. destruct (IH (path_join path1 name) (path_join path2 name)) as (r & E & _); [by eapply Hsh|by exists r]. }
  exists r. split; [done|]. split; [done|]. rewrite Hiff. split.
  - intros H. econstructor; [exact R1|exact R2|exact En1|exact En2|..].
    + assert (Hsub : names1 ⊆+ names2) by (apply NoDup_submseteq; [done|intros n Hn; exact (proj1 (Hall n Hn))]).
      assert (Hperm : names1 ≡ₚ names2) by (apply submseteq_length_Permutation; [done|lia]).
      intros name. by rewrite Hperm.
    + intros name Hn. destruct (Hall name Hn) as (_ & ? & ? & _). done.
    + intros name Hn. by apply (Hall name).
    + intros name Hn Hd. destruct (IH (path_join path1 name) (path_join path2 name)) as (r' & E & _ & Hiff'); [by eapply Hsh|].
      rewrite H in E; [|by apply elem_of_reverse|done]. injection E as <-. by apply Hiff'.
  - intros (_ & _ & _ & Ht)%Hinv name Hn Hd. rewrite elem_of_reverse in Hn.
    destruct (IH (path_join path1 name) (path_join path2 name)) as (r' & -> & _ & Hiff'); [by eapply Hsh|].
    f_equal. apply Hiff'. by apply Ht.
Qed.
End Compare.

(** ** All files *)

(** What is found by going down from a directory. *)
Inductive under : list Z -> list Z -> Prop :=
  | under_entry dir names name : readable_dir dir -> entries dir = Some names -> name ∈ names -> under dir (path_join dir name)
  | under_deep dir names name p : readable_dir dir -> entries dir = Some names -> name ∈ names ->
      is_dir fs (path_join dir name) = true -> under (path_join dir name) p -> under dir p.

Lemma under_readable dir p : under dir p -> readable_dir dir.
Proof. by intros []. Qed.

(** A path below [dir] goes through one of its entries. *)
Lemma under_through dir p : under dir p ->
  exists names name rest, entries dir = Some names /\ name ∈ names /\ p = path_join dir name ++ rest
    /\ (rest = [] \/ exists r, rest = slash :: r).
Proof.
  induction 1 as [dir names name Hr En Hn|dir names name p Hr En Hn Hd _ IH].
  - exists names, name, []. rewrite app_nil_r. split_and!; [done..|by left].
  - destruct IH as (n2 & name2 & rest2 & _ & _ & -> & _). exists names, name, (slash :: name2 ++ rest2).
    split_and!; [done|done|by unfold path_join; rewrite <- !app_assoc|right; by eexists].
Qed.

Lemma slash_free_prefix (a b s t : list Z) : slash ∉ a -> slash ∉ b ->
  (s = [] \/ exists r, s = slash :: r) -> (t = [] \/ exists r, t = slash :: r) -> a ++ s = b ++ t -> a = b /\ s = t.
Proof.
  revert b. induction a as [|c a IH]; intros [|d b] Ha Hb Hs Ht E; simpl in *.
  - done.
  - exfalso. apply Hb. destruct Hs as [->|[r ->]]; [done|]. injection E as -> _. apply list_elem_of_here.
  - exfalso. apply Ha. destruct Ht as [->|[r ->]]; [done|]. injection E as -> _. apply list_elem_of_here.
  - injection E as -> E. apply not_elem_of_cons in Ha as [_ Ha], Hb as [_ Hb].
    by destruct (IH b Ha Hb Hs Ht E) as [-> ->].
Qed.

Section AllFiles.
Context (Hnames : forall path names, entries path = Some names -> NoDup names /\ Forall (fun name => slash ∉ name) names).

Lemma path_join_inj dir (a b s t : list Z) : path_join dir a ++ s = path_join dir b ++ t -> a ++ s = b ++ t.
Proof. unfold path_join. rewrite <- !app_assoc. intros E%app_inv_head. by injection E. Qed.

(** The entry [name] or something below it. *)
Definition from_entry (dir name p : list Z) : Prop :=
  p = path_join dir name \/ (is_dir fs (path_join dir name) = true /\ under (path_join dir name) p).

Lemma from_entry_shape dir name p : from_entry dir name p ->
  exists rest, p = path_join dir name ++ rest /\ (rest = [] \/ exists r, rest = slash :: r).
Proof.
  intros [->|[_ Hu]]; [exists []; rewrite app_nil_r; auto|].
  destruct (under_through _ _ Hu) as (_ & n2 & r2 & _ & _ & -> & _). exists (slash :: n2 ++ r2). unfold path_join.
  split; [by rewrite <- !app_assoc|right; by eexists].
Qed.

Lemma from_entry_unique dir a b p : slash ∉ a -> slash ∉ b -> from_entry dir a p -> from_entry dir b p -> a = b.
Proof.
  intros Ha Hb (s & -> & Hs)%from_entry_shape (t & E & Ht)%from_entry_shape.
  apply path_join_inj in E. by destruct (slash_free_prefix a b s t Ha Hb Hs Ht E).
Qed.

Lemma not_under_itself dir : ~ under dir dir.
Proof.
  intros (_ & n2 & r2 & _ & _ & E & _)%under_through. apply (f_equal length) in E.
  unfold path_join in E. rewrite !length_app in E. simpl in E. lia.
Qed.

Definition lists_under (dir : list Z) (r : option (list (list Z))) : Prop :=
  NoDup (default [] r) /\ forall p, p ∈ default [] r <-> under dir p.

(** The loop over the names, when each subdirectory is listed. *)
Lemma names_loop sub_of dir names : NoDup names -> Forall (fun name => slash ∉ name) names ->
  (forall name, name ∈ names -> is_dir fs (path_join dir name) = true ->
     exists r, sub_of (path_join dir name) = Some r /\ lists_under (path_join dir name) r) ->
  exists l, foldr (fun name rest =>
            let rp := path_join dir name in
            sub ← (if is_dir fs rp then sub_of rp else Some None);
            rest ← rest;
            Some (rp :: default [] sub ++ rest)) (Some []) names = Some l
    /\ NoDup l /\ forall p, p ∈ l <-> exists name, name ∈ names /\ from_entry dir name p.
Proof.
  induction names as [|name names IH]; intros Hnd Hfree Hsub.
  { exists []. split; [done|]. split; [constructor|]. intros p. split; [by intros ?%not_elem_of_nil|].
    by intros (name & ?%not_elem_of_nil & _). }
  apply NoDup_cons in Hnd as [Hname Hnd]. apply Forall_cons in Hfree as [Hf Hfree].
  destruct IH as (rest & Hrest & Hndr & Hin); [done|done|by intros n Hn; apply Hsub; right|].
  assert (exists r, (if is_dir fs (path_join dir name) then sub_of (path_join dir name) else Some None) = Some r
    /\ NoDup (default [] r)
    /\ forall p, p ∈ default [] r <-> is_dir fs (path_join dir name) = true /\ under (path_join dir name) p) as (r & Er & Hnr & Hr).
  { destruct (is_dir fs (path_join dir name)) eqn:Ed.
    - destruct (Hsub name (list_elem_of_here _ _) Ed) as (r & E & Hn & Hu). exists r. split; [done|]. split; [done|].
      intros p. rewrite Hu. naive_solver.
    - exists None. split; [done|]. split; [constructor|]. intros p. split; [by intros ?%not_elem_of_nil|by intros [? _]]. }
  cbn [foldr]. cbv zeta in Hrest |- *. rewrite Er. cbn [mbind option_bind]. rewrite Hrest. cbn [mbind option_bind].
  eexists. split; [done|]. split.
  - apply NoDup_cons. split.
    + intros [Hp|Hp]%elem_of_app; [apply Hr in Hp as [_ Hp]; by apply not_under_itself in Hp|].
      apply Hin in Hp as (n2 & Hn2 & Hp). rewrite Forall_forall in Hfree.
      rewrite (from_entry_unique dir name n2 (path_join dir name)) in Hname; [done|done|by apply Hfree|by left|done].
    + apply NoDup_app. split; [done|]. split; [|done]. intros p Hp1 Hp2. apply Hr in Hp1 as Hp1'.
      apply Hin in Hp2 as (n2 & Hn2 & Hp). rewrite Forall_forall in Hfree.
      rewrite (from_entry_unique dir name n2 p) in Hname; [done|done|by apply Hfree|by right|done].
  - intros p. rewrite elem_of_cons, elem_of_app, Hr, Hin. unfold from_entry at 2. split.
    + intros [->|[Hu|(n & Hn & Hp)]]; [exists name; split; [by left|by left]|exists name; split; [by left|by right]|
        exists n; split; [by right|done]].
    + intros (n & [->|Hn]%elem_of_cons & Hp); [destruct Hp; auto|]. right. right. by exists n.
Qed.

Lemma all_files_spec fuel : forall dir, shallow fuel dir ->
  exists r, get_all_file_list fuel dir = Some r /\ lists_under dir r.
Proof.
  induction fuel as [|fuel IH]; intros dir Hsh; [done|]. cbn [get_all_file_list].
  assert (Hno : (file_existed fs dir = false \/ is_dir fs dir = false \/ entries dir = None) -> lists_under dir None).
  { intros Hn. split; [constructor|]. intros p. split; [by intros ?%not_elem_of_nil|].
    intros (? & ? & [? ?])%under_readable. exfalso. naive_solver congruence. }
  destruct (file_existed fs dir) eqn:He; cbn [negb orb]; [|exists None; auto].
  destruct (is_dir fs dir) eqn:Hd; cbn [negb]; [|exists None; auto].
  destruct (entries dir) as [names|] eqn:En; [|exists None; auto].
  destruct (Hnames _ _ En) as [Hnd Hfree].
  destruct (names_loop (get_all_file_list fuel) dir names Hnd Hfree) as (l & El & Hndl & Hl).
  { intros name Hn Hdir. apply IH. by eapply Hsh. }
  cbv zeta in El |- *. rewrite El. cbn [mbind option_bind]. eexists. split; [done|]. split; [done|].
  assert (R : readable_dir dir) by (split; [done|split; [done|by eexists]]).
  intros p. cbn. rewrite Hl. split.
  - intros (name & Hn & [->|[Hdir Hu]]); [by eapply under_entry|by eapply under_deep].
  - intros Hu. inversion Hu as [? names' name R' En' Hn|? names' name ? R' En' Hn Hdir Hu']; subst; simplify_eq;
      exists name; split; try done; [by left|by right].
Qed.
End AllFiles.
End Trees.

(** ** The properties *)

(** C18: Comparing two directories.  For a tree of finite depth [dir_compare] ends,
    with 0 or -1, and the result is 0 exactly when both are directories that can
    be listed, with the same names in whatever order, and each name is on both
    sides a directory or on both a file, of the same mode, with the same
    contents or again with equal trees.  Digests stand for contents, so no two
    different files of one size may have the same. *)
Theorem dir_compare_decides fs opendir file_mode dir_size fuel path1 path2
    (Hdepth : shallow fs opendir fuel path1)
    (Hnodup : forall path names, entries opendir path = Some names -> NoDup names)
    (Hcollision : forall p1 p2 d1 d2, fopen_r fs p1 = Some d1 -> fopen_r fs p2 = Some d2 ->
       length d1 = length d2 -> md5_of d1 = md5_of d2 -> d1 = d2) :
  exists r, dir_compare fs opendir file_mode dir_size fuel path1 path2 = Some r /\ (r = 0 \/ r = -1)
    /\ (r = 0 <-> same_tree fs opendir file_mode path1 path2).
Proof. by apply dir_compare_spec. Qed.

(** The list of all files.  For a tree of finite depth [get_all_file_list] ends
    with each path below the directory, at any depth, once. *)
Theorem get_all_file_list_complete fs opendir fuel dir
    (Hdepth : shallow fs opendir fuel dir) (Hdir : readable_dir fs opendir dir)
    (Hnames : forall path names, entries opendir path = Some names ->
       NoDup names /\ Forall (fun name => slash ∉ name) names) :
  exists l, get_all_file_list fs opendir fuel dir = Some (Some l) /\ NoDup l
    /\ forall p, p ∈ l <-> under fs opendir dir p.
Proof.
  destruct (all_files_spec fs opendir (fun _ => 0) Hnames fuel dir Hdepth) as (r & E & Hnd & Hin).
  destruct Hdir as (He & Hd & [names En]). destruct fuel; [done|].
  cbn [get_all_file_list] in E |- *. rewrite He, Hd, En in E |- *. cbn [negb orb] in E |- *.
  destruct (foldr _ _ names) as [l|]; [|done]. cbn in E |- *. injection E as <-. by exists l.
Qed.

Definition demo_fs : fsys :=
  Fsys {[ ascii_bytes "/a" := Dir; ascii_bytes "/a/f" := Reg [1; 2]; ascii_bytes "/a/d" := Dir;
          ascii_bytes "/b" := Dir; ascii_bytes "/b/f" := Reg [1; 2]; ascii_bytes "/b/d" := Dir ]} ∅.

Definition demo_opendir (path : list Z) : option (list (list Z)) :=
  if decide (path = ascii_bytes "/a") then Some [[46]; [102]; [46; 46]; [100]]
  else if decide (path = ascii_bytes "/b") then Some [[46]; [46; 46]; [100]; [102]]
  else Some [[46]; [46; 46]].

Lemma demo_entries path names : entries demo_opendir path = Some names -> NoDup names /\ Forall (fun name => slash ∉ name) names.
Proof.
  unfold entries, demo_opendir. repeat case_decide; intros [= <-]; split; by apply (bool_decide_unpack _).
Qed.

Lemma demo_shallow : shallow demo_fs demo_opendir 2 (ascii_bytes "/a").
Proof.
  intros names name E Hn _. injection E as <-. intros names name2 E.
  repeat (apply elem_of_cons in Hn as [->|Hn]; [injection E as <-; by intros ?%not_elem_of_nil|]). by apply not_elem_of_nil in Hn.
Qed.

Lemma demo_contents p d : fopen_r demo_fs p = Some d -> d = [] \/ d = [1; 2].
Proof.
  unfold fopen_r, node_at. case_decide; [intros [= <-]; by left|].
  cbn [files demo_fs]. destruct (_ !! canon p) as [nd|] eqn:E; [|done]. intros H'.
  assert (Hnd : nd = Dir \/ nd = Reg [1; 2]).
  { repeat (apply lookup_insert_Some in E as [[_ <-]|[_ E]]; [auto|]). by apply lookup_singleton_Some in E as [_ <-]; auto. }
  destruct Hnd as [-> | ->]; injection H' as <-; auto.
Qed.

Lemma dir_compare_decides_witness :
  dir_compare demo_fs demo_opendir (fun _ => 493) 4096 2 (ascii_bytes "/a") (ascii_bytes "/b") = Some 0
  /\ same_tree demo_fs demo_opendir (fun _ => 493) (ascii_bytes "/a") (ascii_bytes "/b").
Proof.
  destruct (dir_compare_decides demo_fs demo_opendir (fun _ => 493) 4096 2 (ascii_bytes "/a") (ascii_bytes "/b"))
    as (r & E & _ & Hiff).
  - apply demo_shallow.
  - intros path names H. by destruct (demo_entries path names H).
  - intros p1 p2 d1 d2 H1%demo_contents H2%demo_contents Hl _. destruct H1 as [-> | ->], H2 as [-> | ->]; done.
  - assert (Hr : Some r = Some 0) by (rewrite <- E; vm_compute; reflexivity). injection Hr as ->.
    split; [exact E|by apply Hiff].
Defined.

Lemma get_all_file_list_complete_witness : exists l,
  get_all_file_list demo_fs demo_opendir 2 (ascii_bytes "/a") = Some (Some l) /\ NoDup l
  /\ l = [ascii_bytes "/a/f"; ascii_bytes "/a/d"].
Proof.
  destruct (get_all_file_list_complete demo_fs demo_opendir 2 (ascii_bytes "/a")) as (l & E & Hnd & _).
  - apply demo_shallow.
  - split; [by vm_compute|]. split; [by vm_compute|by eexists].
  - apply demo_entries.
  - exists l. split; [exact E|]. split; [exact Hnd|].
    assert (Hl : Some (Some l) = Some (Some [ascii_bytes "/a/f"; ascii_bytes "/a/d"])) by (rewrite <- E; vm_compute; reflexivity).
    by injection Hl as ->.
Defined.
