(* ===== verification/FileMisc.v ===== *)
(** * Whole files, single paths and generated files (src/file.c, src/utils.c)

    The functions of src/file.c that neither the transfers nor the listings
    use: reading and writing a whole file, the path entries, the older list of
    the files under a directory, and the generator of files with random
    contents.  Whether the pool has memory, the random numbers, the working
    directory and [realpath] are arguments. *)

From S2P Require Import Prelude CStr FileSystem FilePut FileGet FilePutRun Messages Ids FileTree.

(** ** Whole files *)

(** The block with its terminating zero, or NULL, and [*length]. *)
Definition file_get_contents (mem_ok : bool) (dir_size : Z) (fs : fsys) (path : list Z) : option (list Z) * Z :=
  let length := file_size dir_size fs path in
  if negb mem_ok then (None, length) else
  match fopen_r fs path with
  | None => (None, length)
  | Some content =>
      let data := take (Z.to_nat length) content in
      (Some (data ++ [0]), Z.of_nat (List.length data))
  end.

(** The result -1 is a [size_t]. *)
Definition file_put_contents (fs : fsys) (path text : list Z) : fsys * Z :=
  match fopen_w fs path with
  | None => (fs, 2 ^ 64 - 1)
  | Some fs => (fappend fs path text, Z.of_nat (length text))
  end.

(** [fp] is at the end of the file [path]; [write_ok] is whether the disk takes
    the character. *)
Definition write_new_line (write_ok : bool) (fs : fsys) (path : list Z) : fsys * Z :=
  if write_ok then (fappend fs path [10], 0) else (fs, -1).

(** ** Path entries *)

Definition is_relative_path (path : option (list Z)) : bool :=
  match path with Some path => negb (char_at path 0 =? slash) | None => false end.

Definition set_path_entry (abs rel : list Z) : list Z * list Z :=
  (take (FILE_NAME_MAX_LEN - 1) abs, take (FILE_NAME_MAX_LEN - 1) rel).

Definition dup_path_entry (src : list Z * list Z) : list Z * list Z := set_path_entry src.1 src.2.

Definition get_dirname (path : list Z) : list Z := dirname path.

(** [basename] cuts the trailing slashes off its argument, which is stored
    after that.  The outer [None] is the failed [assert], the inner one NULL. *)
Definition get_path_entry (mem_ok : bool) (fs : fsys) (path : list Z) (pwd : option (list Z))
    : option (option (list Z * list Z)) :=
  rp ← (if file_existed fs path then Some (Some path) else
        if is_absolute_path path then Some None else
        match pwd with
        | None => Some None
        | Some pwd =>
            let rp := path_join pwd path in
            if negb (is_absolute_path rp) then None else
            Some (if file_existed fs rp then Some rp else None)
        end);
  match rp with
  | None => Some None
  | Some rp =>
      if negb mem_ok then Some None else
      let '(rp, p) := basename rp in
      Some (Some (set_path_entry rp p))
  end.

(** [mkstemp] is given the template and delivers the name it made, if any. *)
Definition create_temp_file (mkstemp : list Z -> option (list Z)) (prefix : list Z) : option (list Z) :=
  if (32 <=? length prefix)%nat then None else
  mkstemp (ascii_bytes "/tmp/" ++ prefix ++ ascii_bytes "XXXXXX").

(** ** The older list of files *)

Section Older.
Context (fs : fsys) (mem_ok : list Z -> bool).
Context (realpath : list Z -> list Z -> option (list Z)).
Context (opendir : list Z -> list Z -> option (list (list Z))).
Context (chdir : list Z -> list Z -> list Z).

(** The arrays of a path hold 256 characters with the zero; what does not fit
    is [None], and so is what [realpath] leaves when it fails. *)
Definition path_fits (p : list Z) : bool := (length p <? FILE_NAME_MAX_LEN)%nat.

Definition get_file_path_entry (cwd file_name : list Z) : option (list Z * list Z) :=
  abs_path ← realpath cwd file_name;
  if negb (path_fits abs_path) then None else Some (basename abs_path).

(** The list and the working directory.  The names "." and ".." are directories. *)
Fixpoint get_dir_path_entry_list (fuel : nat) (cwd file_name prefix : list Z)
    : option (list (list Z * list Z) * list Z) :=
  match fuel with
  | O => None
  | S fuel' =>
      dir_abs_path ← realpath cwd file_name;
      if negb (path_fits dir_abs_path) then None else
      let '(dir_abs_path, p) := basename dir_abs_path in
      let dir_rel_path := prefix ++ slash :: p in
      if negb (path_fits dir_rel_path) then None else
      match opendir cwd file_name with
      | None => Some ([], cwd)
      | Some names =>
          foldl (fun acc name =>
            '(head, cwd) ← acc;
            if decide (is_dots name) then Some (head, cwd) else
            let tmp_path := path_join dir_abs_path name in
            if is_dir fs tmp_path then
              '(sub_list, cwd) ← get_dir_path_entry_list fuel' cwd tmp_path dir_rel_path;
              Some (head ++ sub_list, cwd)
            else if negb (mem_ok tmp_path) then Some (head, cwd) else
            let rel_path := path_join dir_rel_path name in
            if negb (path_fits tmp_path && path_fits rel_path) then None else
            Some (head ++ [(tmp_path, rel_path)], cwd)) (Some ([], chdir cwd file_name)) names
      end
  end.

(** The array and [*pcnt]; no array for no entries. *)
Definition get_dir_path_entry_array (array_ok : bool) (fuel : nat) (cwd file_name prefix : list Z)
    : option (option (list (list Z * list Z)) * Z * list Z) :=
  '(head, cwd) ← get_dir_path_entry_list fuel cwd file_name prefix;
  match head with
  | [] => Some (None, 0, cwd)
  | _ => if negb array_ok then Some (None, 0, cwd) else Some (Some head, Z.of_nat (length head), cwd)
  end.
End Older.

(** ** Files with random contents *)

(** What [make_or_update_dir] returns at the end is [chmod]'s result. *)
Definition make_or_update_dir (fs : fsys) (path : list Z) : fsys * Z :=
  let '(fs, ret) := if file_existed fs path then (fs, 0) else mkdirp_all fs path in
  if ret =? -1 then (fs, -1) else (fs, set_file_mode fs path).

(** The array with its terminating zero; [rand k] is what the [k]th call of
    [rand] returns, and the first call here is call [k]. *)
Definition gen_random_str (rand : nat -> Z) (k : nat) (len : Z) : option (list Z) :=
  if len <? 1 then Some [] else
  buf ← mapM (fun i => gen_char (rand i) 1 127) (seq k (Z.to_nat (len - 1)));
  Some (buf ++ [0]).

(** [open(path, O_WRONLY)] *)
Definition open_wronly (fs : fsys) (path : list Z) : bool :=
  match node_at fs path with
  | Some (Reg _) => bool_decide (canon path ∉ denied fs)
  | _ => false
  end.

Definition ftruncate (fs : fsys) (path : list Z) (size : Z) : option fsys :=
  if i64 size <? 0 then None else
  match node_at fs path with
  | Some (Reg d) =>
      Some (put_node fs path (Reg (take (Z.to_nat size) d ++ replicate (Z.to_nat size - length d) 0)))
  | _ => Some fs
  end.

(** [write] at the position [pos] of the open file. *)
Definition write_pos (fs : fsys) (path : list Z) (pos : nat) (bs : list Z) : fsys :=
  match node_at fs path with
  | Some (Reg d) => put_node fs path (Reg (take pos d ++ bs ++ drop (pos + length bs) d))
  | _ => fs
  end.

(** The loop over the whole blocks, [n] of them; the position is that of the
    next character, and so is the number of calls of [rand] so far. *)
Fixpoint random_blocks (rand : nat -> Z) (n : nat) (fs : fsys) (path : list Z) (k pos : nat) : option fsys :=
  match n with
  | O => Some fs
  | S n =>
      buf ← gen_random_str rand k (Z.of_nat CONTENT_BLOCK_SIZE + 1);
      random_blocks rand n (write_pos fs path pos (take CONTENT_BLOCK_SIZE buf)) path
        (k + CONTENT_BLOCK_SIZE) (pos + CONTENT_BLOCK_SIZE)
  end.

(** [size] is a [size_t]; the counter of the blocks is an [int]. *)
Definition gen_random_file (rand : nat -> Z) (fs : fsys) (path : list Z) (size : Z) : option (fsys * Z) :=
  let '(fs, ret) := if file_existed fs path then (fs, 0) else create_new_file fs path in
  if ret =? -1 then Some (fs, -1) else
  if negb (open_wronly fs path) then Some (fs, -1) else
  match ftruncate fs path size with
  | None => Some (fs, -1)
  | Some fs =>
      let block := Z.of_nat CONTENT_BLOCK_SIZE in
      if 2 ^ 31 <=? size / block then None else
      let n := Z.to_nat (size / block) in
      fs ← random_blocks rand n fs path 0 0;
      let remain := size mod block in
      if remain =? 0 then Some (fs, 0) else
      buf ← gen_random_str rand (n * CONTENT_BLOCK_SIZE) (remain + 1);
      Some (write_pos fs path (n * CONTENT_BLOCK_SIZE) (take (Z.to_nat remain) buf), 0)
  end.

Record file_gen_attr := FileGenAttr { fa_path : list Z; fa_type : Z; fa_size : Z }.

(** An empty path without [root] is NULL: a file of no name is [None]. *)
Definition gen_one_file (rand : nat -> Z) (fs : fsys) (attr : file_gen_attr) (root : option (list Z))
    : option (fsys * Z) :=
  let real_path := match root with Some root => path_join root (fa_path attr) | None => fa_path attr end in
  if fa_type attr =? FILE_TYPE_DIR then Some (make_or_update_dir fs real_path) else
  match real_path with
  | [] => None
  | _ =>
      let '(fs, ret) := try_make_dir fs (get_dirname real_path) in
      if negb (ret =? 0) then Some (fs, -1) else gen_random_file rand fs real_path (fa_size attr)
  end.

(** [rands i] is what [rand] returns while the [i]th file is written. *)
Fixpoint gen_files (rands : nat -> nat -> Z) (i : nat) (fs : fsys) (attrs : list file_gen_attr) (root : option (list Z))
    : option (fsys * Z) :=
  match attrs with
  | [] => Some (fs, 0)
  | attr :: attrs =>
      '(fs, ret) ← gen_one_file (rands i) fs attr root;
      if negb (ret =? 0) then Some (fs, ret) else gen_files rands (S i) fs attrs root
  end.

Definition gen_files_by_template (rands : nat -> nat -> Z) (fs : fsys) (attrs : option (list file_gen_attr))
    (root : option (list Z)) : option (fsys * Z) :=
  match attrs with
  | None | Some [] => Some (fs, -1)
  | Some attrs => gen_files rands 0 fs attrs root
  end.

(** ** Reading back *)

(** What [file_put_contents] writes, [file_get_contents] returns; a file that
    cannot be opened leaves everything as it was. *)
Theorem put_get_contents dir_size fs path text :
  let '(fs', ret) := file_put_contents fs path text in
  fopen_w fs path = None /\ fs' = fs /\ ret = 2 ^ 64 - 1
  \/ ret = Z.of_nat (length text) /\ keeps path fs fs'
     /\ file_get_contents true dir_size fs' path = (Some (text ++ [0]), Z.of_nat (length text)).
Proof.
  unfold file_put_contents. destruct (fopen_w fs path) as [fs1|] eqn:E; [right|by left].
  pose proof (fopen_w_empty _ _ _ E) as Hn. split; [done|]. split.
  { etransitivity; [by apply fopen_w_keeps|apply fappend_keeps]. }
  assert (Hr : node_at (fappend fs1 path text) path = Some (Reg text)).
  { unfold fappend. rewrite Hn. apply node_put. eapply node_reg. by rewrite Hn. }
  unfold file_get_contents, file_size, fopen_r. rewrite Hr. cbn [negb]. by rewrite Nat2Z.id, firstn_all.
Qed.

(** ** Random contents *)

Definition random_char (c : Z) : Prop := 1 <= c < 127.

Lemma gen_random_chars (rand : nat -> Z) l :
  exists s, mapM (fun i => gen_char (rand i) 1 127) l = Some s /\ length s = length l /\ Forall random_char s.
Proof.
  induction l as [|i l (s & E & Hl & Hs)]; [by exists []|].
  exists (rand i mod 126 + 1 :: s). cbn [mapM]. rewrite E. split; [done|].
  split; [cbn [length]; by rewrite Hl|]. constructor; [|done]. unfold random_char.
  pose proof (Z.mod_pos_bound (rand i) 126). lia.
Qed.

(** The string has the length that is asked for, without a zero inside. *)
Lemma gen_random_str_spec rand k len : 1 <= len ->
  exists s, gen_random_str rand k len = Some (s ++ [0]) /\ Z.of_nat (length s) = len - 1 /\ Forall random_char s.
Proof.
  intros Hlen. unfold gen_random_str. rewrite (proj2 (Z.ltb_ge _ _)) by lia.
  destruct (gen_random_chars rand (seq k (Z.to_nat (len - 1)))) as (s & -> & Hl & Hs). exists s.
  split; [done|]. rewrite length_seq in Hl. split; [lia|done].
Qed.

(** [gen_char] starts the generator anew from the clock each time: within one
    second all characters are equal. *)
Theorem random_within_a_second (first_rand : Z -> Z) now k len : 1 <= len ->
  exists c, gen_random_str (fun _ => first_rand now) k len = Some (replicate (Z.to_nat (len - 1)) c ++ [0]).
Proof.
  intros Hlen. exists (first_rand now mod 126 + 1). unfold gen_random_str. rewrite (proj2 (Z.ltb_ge _ _)) by lia.
  assert (forall l : list nat, mapM (fun _ => gen_char (first_rand now) 1 127) l = Some (replicate (length l) (first_rand now mod 126 + 1))) as ->.
  { induction l as [|i l IH]; [done|]. cbn [mapM]. rewrite IH. done. }
  by rewrite length_seq.
Qed.

(** The file at [p] has [size] characters and the first [pos] are written. *)
Definition filled (p : list Z) (pos size : nat) (fs : fsys) : Prop :=
  exists d, node_at fs p = Some (Reg d) /\ length d = size /\ Forall random_char (take pos d).

Lemma write_pos_filled p pos size fs bs : filled p pos size fs -> (pos + length bs <= size)%nat -> Forall random_char bs ->
  filled p (pos + length bs) size (write_pos fs p pos bs) /\ keeps p fs (write_pos fs p pos bs).
Proof.
  intros (d & Hn & Hl & Hd) Hp Hb. unfold write_pos. rewrite Hn. split; [|apply put_node_keeps].
  exists (take pos d ++ bs ++ drop (pos + length bs) d). split; [apply node_put; eapply node_reg; by rewrite Hn|].
  assert (Ht : length (take pos d) = pos) by (rewrite length_take; lia).
  split; [rewrite !length_app, Ht, length_drop; lia|].
  rewrite app_assoc, take_app_le by (rewrite length_app; lia).
  rewrite take_ge by (rewrite length_app; lia). by apply Forall_app.
Qed.

Lemma random_blocks_spec rand n : forall fs p k pos size, filled p pos size fs -> (pos + n * CONTENT_BLOCK_SIZE <= size)%nat ->
  exists fs', random_blocks rand n fs p k pos = Some fs' /\ filled p (pos + n * CONTENT_BLOCK_SIZE) size fs' /\ keeps p fs fs'.
Proof.
  induction n as [|n IH]; intros fs p k pos size Hf Hp; [exists fs; by rewrite Nat.add_0_r|]. cbn [random_blocks].
  destruct (gen_random_str_spec rand k (Z.of_nat CONTENT_BLOCK_SIZE + 1)) as (s & E & Hl & Hs); [lia|].
  rewrite E. cbn [mbind option_bind]. assert (length s = CONTENT_BLOCK_SIZE) as Hlen by lia.
  assert (take CONTENT_BLOCK_SIZE (s ++ [0]) = s) as -> by (rewrite <- Hlen; apply take_app_length).
  destruct (write_pos_filled p pos size fs s Hf ltac:(lia) Hs) as [Hf' Hk]. rewrite Hlen in Hf'.
  destruct (IH (write_pos fs p pos s) p (k + CONTENT_BLOCK_SIZE)%nat _ size Hf' ltac:(lia)) as (fs' & -> & Hf2 & Hk2).
  exists fs'. split; [done|]. split; [|by etransitivity]. replace (pos + S n * CONTENT_BLOCK_SIZE)%nat with
    (pos + CONTENT_BLOCK_SIZE + n * CONTENT_BLOCK_SIZE)%nat by lia. done.
Qed.

Lemma open_wronly_reg fs p : open_wronly fs p = true -> exists d, node_at fs p = Some (Reg d).
Proof. unfold open_wronly. destruct (node_at fs p) as [[|d]|]; naive_solver. Qed.

Lemma ftruncate_filled fs p size d : node_at fs p = Some (Reg d) -> 0 <= size < 2 ^ 63 ->
  exists fs', ftruncate fs p size = Some fs' /\ filled p 0 (Z.to_nat size) fs' /\ keeps p fs fs'.
Proof.
  intros Hn Hs. unfold ftruncate. rewrite wrap_s_small by lia. rewrite (proj2 (Z.ltb_ge _ _)), Hn by lia.
  eexists. split; [done|]. split; [|apply put_node_keeps]. eexists. split; [apply node_put; eapply node_reg; by rewrite Hn|].
  split; [rewrite length_app, length_take, length_replicate; lia|constructor].
Qed.

Lemma fopen_w_writable fs p fs' : fopen_w fs p = Some fs' -> canon p ∉ denied fs.
Proof.
  unfold fopen_w, may_create. destruct (node_at fs p) as [[|d]|]; [done|by case_decide|].
  case_bool_decide as H; [|done]. by destruct H as (_ & H & _).
Qed.

Lemma fopen_w_denied fs p fs' : fopen_w fs p = Some fs' -> denied fs' = denied fs.
Proof.
  unfold fopen_w. destruct (node_at fs p) as [[|d]|]; [done| |]; [case_decide; [done|]|destruct (may_create fs p); [|done]]; by intros [= <-].
Qed.

(** Creating, when the file is missing, and opening succeed together when the
    file can be opened for writing. *)
Lemma created_open fs p : p <> [] ->
  match fopen_w fs p with
  | Some _ => exists fs1 d, (if file_existed fs p then (fs, 0) else create_new_file fs p) = (fs1, 0)
      /\ open_wronly fs1 p = true /\ node_at fs1 p = Some (Reg d) /\ keeps p fs fs1
  | None => exists fs1 ret, (if file_existed fs p then (fs, 0) else create_new_file fs p) = (fs1, ret)
      /\ (ret = -1 \/ open_wronly fs1 p = false) /\ fs1 = fs
  end.
Proof.
  intros Hp. assert (file_existed fs p = bool_decide (is_Some (node_at fs p))) as -> by (by destruct p).
  destruct (fopen_w fs p) as [fs'|] eqn:E.
  - pose proof (fopen_w_writable _ _ _ E) as Hw. case_bool_decide as Hs.
    + exists fs. destruct (node_at fs p) as [[|d]|] eqn:En; [by unfold fopen_w in E; rewrite En in E| |by destruct Hs].
      exists d. unfold open_wronly. rewrite En. by rewrite bool_decide_true.
    + exists fs', []. pose proof (fopen_w_empty _ _ _ E) as Hn. unfold create_new_file, set_file_mode, open_wronly. rewrite E, Hn.
      split; [done|]. split; [|by split; [|apply fopen_w_keeps]]. by rewrite bool_decide_true by (by rewrite (fopen_w_denied _ _ _ E)).
  - case_bool_decide as Hs; [exists fs, 0|exists fs, (-1)]; [|by unfold create_new_file; rewrite E; split_and!; [| left|]].
    split; [done|]. split; [right|done]. unfold open_wronly. unfold fopen_w in E.
    destruct (node_at fs p) as [[|d]|]; [done| |done]. destruct (decide (canon p ∈ denied fs)); [apply bool_decide_eq_false_2; tauto|done].
Qed.

Lemma gen_random_file_spec rand fs p size : p <> [] -> 0 <= size < 2 ^ 42 ->
  exists fs' ret, gen_random_file rand fs p size = Some (fs', ret) /\ keeps p fs fs' /\
    (ret = 0 /\ filled p (Z.to_nat size) (Z.to_nat size) fs' \/ ret = -1 /\ fs' = fs /\ fopen_w fs p = None).
Proof.
  intros Hp Hsize. unfold gen_random_file. pose proof (created_open fs p Hp) as Hc.
  destruct (fopen_w fs p) as [fs0|] eqn:E.
  2: { destruct Hc as (fs1 & ret & -> & H & ->). exists fs, (-1). assert (keeps p fs fs) by done.
       destruct H as [->|H]; [by split_and!; [| |right]|].
       destruct (ret =? -1); [by split_and!; [| |right]|]. rewrite H. by split_and!; [| |right]. }
  destruct Hc as (fs1 & d & -> & Ho & Hn & Hk1). cbn [Z.eqb]. rewrite Ho. cbn [negb].
  destruct (ftruncate_filled fs1 p size d Hn ltac:(lia)) as (fs2 & -> & Hf & Hk2).
  set (block := Z.of_nat CONTENT_BLOCK_SIZE). assert (Hb : block = 2048) by done.
  assert (Hdiv : 0 <= size / block < 2 ^ 31).
  { split; [apply Z.div_pos; lia|]. rewrite Hb. apply Z.div_lt_upper_bound; lia. }
  rewrite (proj2 (Z.leb_gt _ _)) by lia. cbv zeta.
  pose proof (Z.div_mod size block ltac:(lia)) as Hdm. pose proof (Z.mod_pos_bound size block ltac:(lia)) as Hm.
  set (n := Z.to_nat (size / block)). assert (HN : Z.of_nat (n * CONTENT_BLOCK_SIZE) = block * (size / block)).
  { unfold n. rewrite Nat2Z.inj_mul, Z2Nat.id by lia. fold block. lia. }
  destruct (random_blocks_spec rand n fs2 p 0 0 _ Hf) as (fs3 & -> & Hf3 & Hk3); [lia|]. cbn [mbind option_bind Nat.add] in *.
  exists (if size mod block =? 0 then fs3 else write_pos fs3 p (n * CONTENT_BLOCK_SIZE)
    (take (Z.to_nat (size mod block)) (default [] (gen_random_str rand (n * CONTENT_BLOCK_SIZE) (size mod block + 1))))), 0.
  destruct (Z.eqb_spec (size mod block) 0) as [E0|E0].
  { split; [done|]. split; [by do 2 (etransitivity; [eassumption|])|]. left. split; [done|].
    by replace (n * CONTENT_BLOCK_SIZE)%nat with (Z.to_nat size) in Hf3 by lia. }
  destruct (gen_random_str_spec rand (n * CONTENT_BLOCK_SIZE) (size mod block + 1)) as (s & -> & Hl & Hs); [lia|].
  cbn [mbind option_bind from_option id]. assert (Hls : Z.to_nat (size mod block) = length s) by lia. rewrite Hls, take_app_length.
  destruct (write_pos_filled p (n * CONTENT_BLOCK_SIZE) _ fs3 s Hf3 ltac:(lia) Hs) as [Hf4 Hk4].
  split; [done|]. split; [by do 3 (etransitivity; [eassumption|])|]. left. split; [done|].
  by replace (n * CONTENT_BLOCK_SIZE + length s)%nat with (Z.to_nat size) in Hf4 by lia.
Qed.

(** ** The files of a template *)

Definition real_path (root : option (list Z)) (attr : file_gen_attr) : list Z :=
  match root with Some root => path_join root (fa_path attr) | None => fa_path attr end.

(** What a template asks for is there: something at the path of a directory, a
    file of its size with characters that are not zero. *)
Definition stands (root : option (list Z)) (fs : fsys) (attr : file_gen_attr) : Prop :=
  if fa_type attr =? FILE_TYPE_DIR then is_Some (node_at fs (real_path root attr))
  else filled (real_path root attr) (Z.to_nat (fa_size attr)) (Z.to_nat (fa_size attr)) fs.

Definition attr_ok (root : option (list Z)) (attr : file_gen_attr) : Prop :=
  real_path root attr <> [] /\ 0 <= fa_size attr < 2 ^ 42.

Lemma make_or_update_dir_spec fs p : exists fs' ret, make_or_update_dir fs p = (fs', ret) /\ keeps_all fs fs'
  /\ (ret = 0 /\ is_Some (node_at fs' p) \/ ret = -1).
Proof.
  unfold make_or_update_dir. assert (Hk : keeps_all fs (if file_existed fs p then (fs, 0) else mkdirp_all fs p).1).
  { destruct (file_existed fs p); [done|]. apply mkdirp_keeps. }
  destruct (if file_existed fs p then _ else _) as [fs1 ret1]. cbn [fst] in Hk.
  destruct (ret1 =? -1); [by eexists _, _; eauto|]. eexists _, _. split; [done|]. split; [done|].
  unfold set_file_mode. destruct (node_at fs1 p); [left; eauto|by right].
Qed.

Lemma gen_one_file_spec rand fs attr root : attr_ok root attr ->
  exists fs' ret, gen_one_file rand fs attr root = Some (fs', ret) /\ keeps (real_path root attr) fs fs'
    /\ (ret = 0 /\ stands root fs' attr \/ ret = -1).
Proof.
  intros [Hp Hs]. unfold gen_one_file, stands. fold (real_path root attr). cbv zeta.
  destruct (fa_type attr =? FILE_TYPE_DIR).
  { destruct (make_or_update_dir_spec fs (real_path root attr)) as (fs' & ret & -> & Hk & Hr).
    exists fs', ret. split; [done|]. split; [by apply keeps_all_keeps|done]. }
  destruct (real_path root attr) as [|c p] eqn:E; [done|]. rewrite <- E in *.
  unfold get_dirname. pose proof (try_make_dir_keeps fs (dirname (real_path root attr))) as Hk.
  destruct (try_make_dir fs _) as [fs1 ret1]. apply (keeps_all_keeps (real_path root attr)) in Hk. cbn [fst] in Hk.
  destruct (negb (ret1 =? 0)); [by eexists _, _; eauto|].
  destruct (gen_random_file_spec rand fs1 (real_path root attr) (fa_size attr)) as (fs2 & ret & -> & Hk2 & Hr); [by rewrite E|done|].
  exists fs2, ret. split; [done|]. split; [by etransitivity|]. destruct Hr as [Hr|(-> & _)]; auto.
Qed.

Lemma gen_files_spec rands root attrs : forall i fs, Forall (attr_ok root) attrs ->
  NoDup ((fun a => canon (real_path root a)) <$> attrs) ->
  exists fs' ret n, gen_files rands i fs attrs root = Some (fs', ret)
    /\ (ret = 0 /\ n = length attrs \/ ret = -1 /\ (n < length attrs)%nat)
    /\ Forall (stands root fs') (take n attrs)
    /\ forall p nd, canon p ∉ ((fun a => canon (real_path root a)) <$> attrs) -> node_at fs p = Some nd -> node_at fs' p = Some nd.
Proof.
  induction attrs as [|a attrs IH]; intros i fs Hok Hnd; cbn [gen_files].
  { exists fs, 0, 0%nat. split; [done|]. split; [by left|]. split; [constructor|done]. }
  apply Forall_cons in Hok as [Ha Hok]. cbn [fmap list_fmap] in Hnd |- *. apply NoDup_cons in Hnd as [Hn Hnd].
  destruct (gen_one_file_spec (rands i) fs a root Ha) as (fs1 & ret1 & -> & Hk & Hr). cbn [mbind option_bind].
  destruct Hr as [[-> Hst]| ->]; cbn [Z.eqb negb].
  2: { exists fs1, (-1), 0%nat. split; [done|]. split; [right; cbn; lia|]. split; [constructor|].
       intros p nd Hp Hnp. apply Hk; [|done]. rewrite not_elem_of_cons in Hp. tauto. }
  destruct (IH (S i) fs1 Hok Hnd) as (fs2 & ret & n & -> & Hret & Hall & Hk2). exists fs2, ret, (S n).
  split; [done|]. split; [destruct Hret as [[-> ->]|[-> ?]]; [by left|right; cbn; lia]|]. split.
  - cbn [take]. constructor; [|done]. unfold stands, filled in Hst |- *. destruct (fa_type a =? FILE_TYPE_DIR).
    + destruct Hst as [nd Hnp]. exists nd. by apply Hk2.
    + destruct Hst as (d & Hnp & Hd). exists d. split; [by apply Hk2|done].
  - intros p nd Hp Hnp. rewrite not_elem_of_cons in Hp. apply Hk2; [tauto|]. apply Hk; [tauto|done].
Qed.

(** A template is worked off from its start: either everything it asks for
    stands at the end, or what comes before the entry that failed.  Nothing at
    another path is lost. *)
Theorem template_files_stand rands root fs attrs (Hne : attrs <> []) (Hok : Forall (attr_ok root) attrs)
    (Hdistinct : NoDup ((fun a => canon (real_path root a)) <$> attrs)) :
  exists fs' ret n, gen_files_by_template rands fs (Some attrs) root = Some (fs', ret)
    /\ (ret = 0 /\ n = length attrs \/ ret = -1 /\ (n < length attrs)%nat)
    /\ Forall (stands root fs') (take n attrs)
    /\ forall p nd, canon p ∉ ((fun a => canon (real_path root a)) <$> attrs) -> node_at fs p = Some nd -> node_at fs' p = Some nd.
Proof. destruct attrs as [|a attrs]; [done|]. by apply gen_files_spec. Qed.

(** ** The older list against the list of all files *)

Section OlderList.
Context (fs : fsys) (opendir : list Z -> option (list (list Z))) (realpath : list Z -> list Z -> option (list Z)).
Context (chdir : list Z -> list Z -> list Z).

Definition files_of (l : list (list Z)) : list (list Z) := filter (fun p => is_dir fs p = false) l.

Abbreviation older := (get_dir_path_entry_list fs (fun _ => true) realpath (fun _ => opendir) chdir).

Lemma path_fits_spec p : (length p < FILE_NAME_MAX_LEN)%nat -> path_fits p = true.
Proof. by intros ?%Nat.ltb_lt. Qed.

Lemma strip_slashes_last s c : c <> slash -> strip_slashes (s ++ [c]) = s ++ [c].
Proof.
  intros Hc. induction s as [|d s IH]; cbn [app strip_slashes]; [by rewrite (proj2 (Z.eqb_neq _ _) Hc)|].
  rewrite IH. by destruct s.
Qed.

Lemma strrchr_last pre c post : c ∉ post -> strrchr (pre ++ c :: post) c = Some (pre, c :: post).
Proof.
  intros Hc. induction pre as [|d pre IH]; cbn [app strrchr]; [|by rewrite IH].
  assert (strrchr post c = None) as ->; [|by rewrite Z.eqb_refl].
  induction post as [|d post IH]; [done|]. rewrite not_elem_of_cons in Hc. cbn [strrchr].
  rewrite IH by tauto. by rewrite (proj2 (Z.eqb_neq _ _)) by (intros ->; tauto).
Qed.

(** [basename] undoes [path_join]. *)
Lemma basename_join dir name : name <> [] -> slash ∉ name -> basename (path_join dir name) = (path_join dir name, name).
Proof.
  intros Hne Hn. unfold basename, path_join. assert (strip_slashes (dir ++ slash :: name) = dir ++ slash :: name) as ->.
  { destruct name as [|c name _] using rev_ind; [done|]. rewrite app_comm_cons, app_assoc.
    apply strip_slashes_last. intros ->. apply Hn. by apply elem_of_app; right; left. }
  destruct (dir ++ slash :: name) as [|c q] eqn:E; [by destruct dir|]. rewrite <- E. by rewrite strrchr_last.
Qed.

(** A path that leaves [K] characters in its array, and that [realpath] does not
    change when it is a directory. *)
Definition plain_path (K : nat) (p : list Z) : Prop :=
  (K + length p < FILE_NAME_MAX_LEN)%nat /\ (is_dir fs p = true -> forall cwd, realpath cwd p = Some p).

(** The last component is no longer than the path. *)
Lemma length_basename p : (basename p).1 = p -> (length (basename p).2 <= S (length p))%nat.
Proof.
  unfold basename. destruct (strip_slashes p) as [|c q] eqn:E; cbn [fst snd]; [by destruct p; cbn; lia|]. intros Hp. rewrite Hp.
  destruct (strrchr p slash) as [[pre post]|] eqn:Er; [|lia].
  apply strrchr_some in Er as (-> & _). rewrite length_app, length_drop. lia.
Qed.

(** The loop over the names, when the subdirectories are listed alike. *)
Lemma older_loop (sub_old : list Z -> list Z -> list Z -> option (list (list Z * list Z) * list Z))
    (sub_all : list Z -> option (option (list (list Z)))) dir rel K names :
  (length rel <= K + length dir)%nat ->
  (forall name r cwd, name ∈ names -> ~ is_dots name -> is_dir fs (path_join dir name) = true ->
     sub_all (path_join dir name) = Some r -> plain_path K (path_join dir name) -> Forall (plain_path K) (default [] r) ->
     exists es cwd', sub_old cwd (path_join dir name) rel = Some (es, cwd') /\ es.*1 = files_of (default [] r)) ->
  forall l, foldr (fun name rest =>
      let rp := path_join dir name in
      sub ← (if is_dir fs rp then sub_all rp else Some None);
      rest ← rest;
      Some (rp :: default [] sub ++ rest)) (Some []) (filter (fun name => ~ is_dots name) names) = Some l ->
  Forall (plain_path K) l ->
  forall acc cwd, exists es cwd', foldl (fun acc name =>
      '(head, cwd) ← acc;
      if decide (is_dots name) then Some (head, cwd) else
      let tmp_path := path_join dir name in
      if is_dir fs tmp_path then
        '(sub_list, cwd) ← sub_old cwd tmp_path rel;
        Some (head ++ sub_list, cwd)
      else if negb true then Some (head, cwd) else
      let rel_path := path_join rel name in
      if negb (path_fits tmp_path && path_fits rel_path) then None else
      Some (head ++ [(tmp_path, rel_path)], cwd)) (Some (acc, cwd)) names = Some (acc ++ es, cwd')
    /\ es.*1 = files_of l.
Proof.
  intros Hrel. induction names as [|name names IH]; intros Hsub l Hl Hlen acc cwd.
  { injection Hl as <-. exists [], cwd. by rewrite app_nil_r. }
  specialize (IH ltac:(intros n r c Hn; apply Hsub; by right)). cbn [foldl]. cbn [mbind option_bind].
  rewrite filter_cons in Hl. destruct (decide (is_dots name)) as [Hd|Hd].
  { rewrite decide_False in Hl by tauto. by apply IH. }
  rewrite decide_True in Hl by done. cbn [foldr] in Hl. cbv zeta in Hl |- *.
  destruct (is_dir fs (path_join dir name)) eqn:Ed; cbn [negb].
  - destruct (sub_all (path_join dir name)) as [r|] eqn:Er; [|done]. cbn [mbind option_bind] in Hl.
    destruct (foldr _ _ _) as [rest|] eqn:Erest; [|done]. injection Hl as <-.
    apply Forall_cons in Hlen as [Hlen0 Hlen]. apply Forall_app in Hlen as [Hlen1 Hlen2].
    destruct (Hsub name r cwd (list_elem_of_here _ _) Hd Ed Er Hlen0 Hlen1) as (es & cwd1 & -> & Hes). cbn [mbind option_bind].
    destruct (IH rest eq_refl Hlen2 (acc ++ es) cwd1) as (es2 & cwd2 & E2 & Hes2). cbn [mbind option_bind] in E2.
    exists (es ++ es2), cwd2. rewrite app_assoc. split; [exact E2|].
    unfold files_of. rewrite filter_cons, decide_False by congruence. rewrite filter_app, fmap_app. by f_equal.
  - cbn [mbind option_bind] in Hl. destruct (foldr _ _ _) as [rest|] eqn:Erest; [|done]. injection Hl as <-.
    apply Forall_cons in Hlen as [Hlen0 Hlen]. cbn [from_option app id] in Hlen |- *.
    assert (Hj : forall d, length (path_join d name) = (length d + S (length name))%nat) by (intros d; unfold path_join; by rewrite length_app).
    destruct Hlen0 as [Hlen0 _]. rewrite Hj in Hlen0.
    rewrite !path_fits_spec by (rewrite Hj; lia). cbn [negb andb].
    destruct (IH rest eq_refl Hlen (acc ++ [(path_join dir name, path_join rel name)]) cwd) as (es & cwd' & E & Hes).
    exists ((path_join dir name, path_join rel name) :: es), cwd'. rewrite <- app_assoc in E. split; [exact E|].
    unfold files_of. rewrite filter_cons, decide_True by done. cbn [fmap list_fmap]. by f_equal.
Qed.

Lemma older_spec K fuel : (forall path names, opendir path = Some names -> Forall (fun name => name <> [] /\ slash ∉ name) names) ->
  forall dir prefix cwd r, get_all_file_list fs opendir fuel dir = Some r -> is_dir fs dir = true -> dir <> [] ->
  (basename dir).1 = dir ->
  (length (prefix ++ slash :: (basename dir).2) <= K + length dir)%nat ->
  Forall (plain_path K) (dir :: default [] r) ->
  exists es cwd', older fuel cwd dir prefix = Some (es, cwd') /\ es.*1 = files_of (default [] r).
Proof.
  intros Hnames. induction fuel as [|fuel IH]; intros dir prefix cwd r Hr Hdir Hne Hbase Hrel Hlen; [done|].
  cbn [get_all_file_list get_dir_path_entry_list] in *. apply Forall_cons in Hlen as [[Hlen0 Hreal] Hlen].
  rewrite (Hreal Hdir). cbn [mbind option_bind]. rewrite path_fits_spec by lia. cbn [negb].
  destruct (basename dir) as [dir' base] eqn:Eb. cbn [fst snd] in Hbase, Hrel. subst dir'.
  rewrite path_fits_spec by lia. cbn [negb].
  assert (Hex : file_existed fs dir = true).
  { unfold file_existed, is_dir in *. destruct dir; [done|]. apply bool_decide_eq_true. destruct (node_at fs _); [eauto|done]. }
  rewrite Hex, Hdir in Hr. cbn [negb orb] in Hr. unfold entries in Hr.
  destruct (opendir dir) as [names|] eqn:Eo; cbn [mbind option_bind] in Hr; [|injection Hr as <-; by eexists [], _].
  destruct (foldr _ _ _) as [l|] eqn:El in Hr; [|done]. cbn [mbind option_bind] in Hr. injection Hr as <-. cbn [from_option id] in *.
  destruct (older_loop (fun cwd => older fuel cwd) (get_all_file_list fs opendir fuel) dir (prefix ++ slash :: base) K names Hrel)
    with (l := l) (acc := @nil (list Z * list Z)) (cwd := chdir cwd dir) as (es & cwd' & E & Hes); [|exact El|done|by exists es, cwd'].
  intros name r cwd1 Hn Hd Hsub Hall [Hl1 Hr1] Hl2.
  pose proof (proj1 (Forall_forall _ _) (Hnames _ _ Eo) name Hn) as [Hne' Hsl].
  apply IH; try done; [by unfold path_join; destruct dir|by rewrite basename_join| |by constructor].
  rewrite basename_join by done. cbn [snd]. unfold path_join in *. rewrite length_app in Hrel |- *.
  rewrite length_app. cbn [length] in *. rewrite length_app. cbn [length]. lia.
Qed.
End OlderList.

(** The older list is the list of all files without the directories: for a tree
    of finite depth it ends, with the same paths in the same order, when the
    arrays hold all paths with the prefix in front. *)
Theorem older_list_is_files fs opendir realpath chdir fuel dir prefix cwd
    (Hdepth : shallow fs opendir fuel dir) (Hdir : readable_dir fs opendir dir) (Hbase : (basename dir).1 = dir)
    (Hnames : forall path names, opendir path = Some names -> NoDup names /\ Forall (fun name => name <> [] /\ slash ∉ name) names)
    (Hfits : forall p, p = dir \/ under fs opendir dir p -> plain_path fs realpath (length prefix + 2) p) :
  exists es cwd' l, get_dir_path_entry_list fs (fun _ => true) realpath (fun _ => opendir) chdir fuel cwd dir prefix = Some (es, cwd')
    /\ get_all_file_list fs opendir fuel dir = Some (Some l) /\ es.*1 = files_of fs l
    /\ forall p, p ∈ es.*1 <-> under fs opendir dir p /\ is_dir fs p = false.
Proof.
  destruct (get_all_file_list_complete fs opendir fuel dir Hdepth Hdir) as (l & El & Hnd & Hl).
  { intros path names En. unfold entries in En. destruct (opendir path) as [names'|] eqn:Eo; [|done]. injection En as <-.
    destruct (Hnames _ _ Eo) as [Hn Hf]. split; [by apply NoDup_filter|]. apply Forall_forall. intros name [_ Hin]%list_elem_of_filter.
    rewrite Forall_forall in Hf. by apply Hf. }
  destruct Hdir as (Hex & Hd & _).
  destruct (older_spec fs opendir realpath chdir (length prefix + 2) fuel) with (dir := dir) (prefix := prefix) (cwd := cwd) (r := Some l)
    as (es & cwd' & E & Hes); try done.
  - intros path names En. by apply (Hnames _ _ En).
  - by destruct dir.
  - pose proof (length_basename dir Hbase). rewrite length_app. cbn [length]. lia.
  - constructor; [apply Hfits; by left|]. apply Forall_forall. intros p Hp. apply Hfits. right. by apply Hl.
  - exists es, cwd', l. split; [done|]. split; [done|]. split; [done|].
    intros p. rewrite Hes. unfold files_of. cbn [from_option id]. rewrite list_elem_of_filter, Hl. tauto.
Qed.

(** ** Instances *)

Lemma template_files_stand_witness : exists fs',
  gen_files_by_template (fun i k => Z.of_nat (i + k)) (Fsys ∅ ∅)
    (Some [FileGenAttr (ascii_bytes "a/e") 1 3; FileGenAttr (ascii_bytes "b") FILE_TYPE_DIR 0]) (Some (ascii_bytes "/t")) = Some (fs', 0)
  /\ node_at fs' (ascii_bytes "/t/a/e") = Some (Reg [1; 2; 3]).
Proof.
  set (attrs := [FileGenAttr (ascii_bytes "a/e") 1 3; FileGenAttr (ascii_bytes "b") FILE_TYPE_DIR 0]).
  destruct (template_files_stand (fun i k => Z.of_nat (i + k)) (Some (ascii_bytes "/t")) (Fsys ∅ ∅) attrs) as (fs' & ret & n & E & Hr & _).
  - done.
  - repeat constructor; vm_compute; done.
  - apply (bool_decide_unpack _). by vm_compute.
  - exists fs'. destruct Hr as [[-> _]|[-> _]].
    + split; [exact E|]. vm_compute in E. injection E as <-. by vm_compute.
    + exfalso. vm_compute in E. discriminate E.
Defined.

Lemma older_list_is_files_witness : exists es cwd',
  get_dir_path_entry_list demo_fs (fun _ => true) (fun _ p => Some p) (fun _ => demo_opendir) (fun _ p => p) 2 [] (ascii_bytes "/a") (ascii_bytes "x") = Some (es, cwd')
  /\ es = [(ascii_bytes "/a/f", ascii_bytes "x/a/f")].
Proof.
  destruct (older_list_is_files demo_fs demo_opendir (fun _ p => Some p) (fun _ p => p) 2 (ascii_bytes "/a") (ascii_bytes "x") [])
    as (es & cwd' & l & E & _).
  - apply demo_shallow.
  - split; [by vm_compute|]. split; [by vm_compute|by eexists].
  - by vm_compute.
  - intros path names. unfold demo_opendir. repeat case_decide; intros [= <-]; split; by apply (bool_decide_unpack _).
  - destruct (get_all_file_list_complete demo_fs demo_opendir 2 (ascii_bytes "/a")) as (l & E & _ & Hl);
      [apply demo_shallow|split; [by vm_compute|]; split; [by vm_compute|by eexists]|apply demo_entries|].
    assert (Hl' : Some (Some l) = Some (Some [ascii_bytes "/a/f"; ascii_bytes "/a/d"])) by (rewrite <- E; vm_compute; reflexivity).
    injection Hl' as ->. intros p [-> | Hp%Hl]; [by split; [vm_compute; lia|]|].
    repeat (apply elem_of_cons in Hp as [->|Hp]; [by split; [vm_compute; lia|]|]). by apply not_elem_of_nil in Hp.
  - exists es, cwd'. assert (Hr : Some (es, cwd') = Some ([(ascii_bytes "/a/f", ascii_bytes "x/a/f")], ascii_bytes "/a/d"))
      by (rewrite <- E; vm_compute; reflexivity).
    injection Hr as -> ->. split; [exact E|done].
Defined.
