(* ===== verification/Config.v ===== *)
(** * Configuration files (src/config.c)

    A configuration file has a line for each setting.  The two arrays of the
    server's structure are adjacent in memory and are kept as one, because one
    copy writes beyond the first; the compiler adds nothing between arrays of
    characters. *)

From S2P Require Import Prelude CStr FileSystem CmdLine Messages.

Definition CONFIG_LINE_MAX_SIZE : nat := 1024.
Definition CONFIG_NAME_MAX_LEN : nat := 256.
Definition CONFIG_VALUE_MAX_LEN : nat := 512.
Definition STORE_PATH_SIZE : nat := 256.

Definition space : Z := 32.
Definition equals : Z := 61.
Definition newline : Z := 10.

(** The characters up to a space, and the rest. *)
Fixpoint until_space (s : list Z) : list Z * list Z :=
  match s with
  | [] => ([], [])
  | c :: s' => if c =? space then ([], s) else let '(w, rest) := until_space s' in (c :: w, rest)
  end.

(** The part that [deal_server_config_line] and [deal_client_config_line] share;
    [None] is the result -1. *)
Definition config_line (line : list Z) : option (list Z * list Z) :=
  let line := strip line in
  let '(config_name, rest) := until_space line in
  match rest with
  | [] => None
  | _ =>
      if (CONFIG_NAME_MAX_LEN <=? length config_name)%nat then None else
      match strip_left rest with
      | c :: rest =>
          if negb (c =? equals) then None else
          match strip_left rest with
          | [] => None
          | rest =>
              let config_value := (until_space rest).1 in
              if (CONFIG_VALUE_MAX_LEN <=? length config_value)%nat then None
              else Some (config_name, config_value)
          end
      | [] => None
      end
  end.

(** ** The server's settings *)

Record sftt_server_config := ServerConfig { paths : list Z; block_size : Z; update_th : Z }.

Definition store_path (c : sftt_server_config) : list Z := c_str (paths c).
Definition log_dir (c : sftt_server_config) : list Z := c_str (drop STORE_PATH_SIZE (paths c)).

(** [strncpy] fills up with zeros. *)
Definition strncpy (n : nat) (s : list Z) : list Z := take n (s ++ replicate n 0).

(** [write_bytes] at [pos]; both copies stay inside the structure. *)
Definition with_path (pos : nat) (value : list Z) (c : sftt_server_config) : sftt_server_config :=
  let v := strncpy DIR_PATH_MAX_LEN value in
  ServerConfig (take pos (paths c) ++ v ++ drop (pos + length v) (paths c)) (block_size c) (update_th c).

Definition deal_server_config_line (line : list Z) (ssc : sftt_server_config) : sftt_server_config * Z :=
  match config_line line with
  | None => (ssc, -1)
  | Some (name, value) =>
      let named s := bool_decide (name = ascii_bytes s) in
      (if named "store_path"%string then with_path 0 value ssc
       else if named "block_size"%string then ServerConfig (paths ssc) (atoi value) (update_th ssc)
       else if named "update_threshold"%string then ServerConfig (paths ssc) (block_size ssc) (atoi value)
       else if named "log_dir"%string then with_path STORE_PATH_SIZE value ssc
       else ssc, 0)
  end.

(** ** The client's settings *)

Record sftt_client_config := ClientConfig { c_block_size : Z; c_log_dir : list Z }.

Definition deal_client_config_line (line : list Z) (scc : sftt_client_config) : sftt_client_config * Z :=
  match config_line line with
  | None => (scc, -1)
  | Some (name, value) =>
      (if bool_decide (name = ascii_bytes "block_size") then ClientConfig (atoi value) (c_log_dir scc)
       else if bool_decide (name = ascii_bytes "log_dir") then ClientConfig (c_block_size scc) value
       else scc, 0)
  end.

(** ** Files *)

(** The results of [fgets] with room for [n] characters: lines with their
    newline, longer lines in pieces. *)
Fixpoint fgets_lines (n room : nat) (line s : list Z) : list (list Z) :=
  match s with
  | [] => match line with [] => [] | _ => [line] end
  | c :: s =>
      let line := line ++ [c] in
      match room with
      | S (S room') => if c =? newline then line :: fgets_lines n n [] s else fgets_lines n (S room') line s
      | _ => line :: fgets_lines n n [] s
      end
  end.

(** A comment is passed over, the newline is cut off, and what a line's
    treatment returns is not looked at; an empty piece ends the loop. *)
Fixpoint read_config {A} (deal : list Z -> A -> A * Z) (lines : list (list Z)) (config : A) : A :=
  match lines with
  | [] => config
  | line :: lines =>
      let line := c_str line in
      match line with
      | [] => config
      | c :: _ =>
          if c =? 35 then read_config deal lines config else
          let line := if default 0 (last line) =? newline then take (length line - 1) line else line in
          read_config deal lines (deal line config).1
      end
  end.

Definition config_search_pathes : list (list Z) :=
  ascii_bytes <$> ["/etc/sftt"; "./config"; "."; "/root/sftt/config"]%string.

Definition search_config (fs : fsys) (fname : list Z) : option (list Z) :=
  '(_, p) ← list_find (fun p => file_existed fs p = true)
              ((fun dir => take 254 (dir ++ slash :: fname)) <$> config_search_pathes);
  Some p.

Definition get_config {A} (deal : list Z -> A -> A * Z) (fs : fsys) (fname : list Z) (config : A) : A * Z :=
  match search_config fs fname with
  | None => (config, -1)
  | Some path =>
      match fopen_r fs path with
      | None => (config, -1)
      | Some data => (read_config deal (fgets_lines (CONFIG_LINE_MAX_SIZE - 1) (CONFIG_LINE_MAX_SIZE - 1) [] data) config, 0)
      end
  end.

Definition get_sftt_server_config (fs : fsys) (ssc : sftt_server_config) : sftt_server_config * Z :=
  get_config deal_server_config_line fs (ascii_bytes "sftt_server.conf") ssc.

Definition get_sftt_client_config (fs : fsys) (scc : sftt_client_config) : sftt_client_config * Z :=
  get_config deal_client_config_line fs (ascii_bytes "sftt_client.conf") scc.

(** ** The grammar of a line *)

Definition spaces (s : list Z) : Prop := Forall (fun c => c = space) s.
Definition no_space (s : list Z) : Prop := Forall (fun c => c <> space) s.

(** Name and value without spaces, around an equals sign that has a space before it. *)
Record setting_line (line name value : list Z) : Prop := SettingLine {
  setting_text : exists s0 s1 s2 rest, line = s0 ++ name ++ s1 ++ equals :: s2 ++ value ++ rest
    /\ spaces s0 /\ spaces s1 /\ s1 <> [] /\ spaces s2 /\ (rest = [] \/ exists r, rest = space :: r);
  setting_name : no_space name /\ name <> [] /\ (length name < CONFIG_NAME_MAX_LEN)%nat;
  setting_value : no_space value /\ value <> [] /\ (length value < CONFIG_VALUE_MAX_LEN)%nat;
}.

Lemma until_space_split s w rest : until_space s = (w, rest) ->
  s = w ++ rest /\ no_space w /\ (rest = [] \/ exists r, rest = space :: r).
Proof.
  revert w rest. induction s as [|c s IH]; intros w rest; cbn [until_space]; [intros [= <- <-]; split_and!; [done|constructor|by left]|].
  destruct (Z.eqb_spec c space) as [->|Hc].
  - intros [= <- <-]. split_and!; [done|constructor|right; by eexists].
  - destruct (until_space s) as [w' r']. intros [= <- <-]. destruct (IH _ _ eq_refl) as (-> & Hw & Hr).
    split_and!; [done|by constructor|done].
Qed.

Lemma until_space_app w rest : no_space w -> (rest = [] \/ exists r, rest = space :: r) -> until_space (w ++ rest) = (w, rest).
Proof.
  intros Hw Hr. induction Hw as [|c w Hc _ IH]; cbn [app until_space].
  - by destruct Hr as [->|[r ->]].
  - rewrite (proj2 (Z.eqb_neq c space) Hc), IH. done.
Qed.

Lemma strip_left_split s : exists sp, s = sp ++ strip_left s /\ spaces sp
  /\ (strip_left s = [] \/ exists c r, strip_left s = c :: r /\ c <> space).
Proof.
  induction s as [|c s (sp & E & Hsp & Hr)]; [by exists []; split_and!; [|constructor|left]|]. cbn [strip_left].
  destruct (Z.eqb_spec c 32) as [->|Hc].
  - exists (32 :: sp). split; [simpl; by rewrite <- E|]. split; [by constructor|done].
  - exists []. split; [done|]. split; [constructor|]. right. by exists c, s.
Qed.

Lemma strip_left_spaces sp s : spaces sp -> strip_left (sp ++ s) = strip_left s.
Proof. induction 1 as [|c sp -> _ IH]; [done|]. exact IH. Qed.

Lemma strip_left_word c s : c <> space -> strip_left (c :: s) = c :: s.
Proof. intros Hc. cbn. by rewrite (proj2 (Z.eqb_neq c 32) Hc). Qed.

(** Trailing spaces are cut off; up to them the line stays. *)
Lemma strip_right_split s : exists sp, s = strip_right s ++ sp /\ spaces sp.
Proof.
  induction s as [|c s (sp & E & Hsp)]; [by exists []; split; [|constructor]|]. cbn [strip_right].
  destruct (strip_right s) as [|d r] eqn:Er.
  - destruct (Z.eqb_spec c 32) as [->|Hc]; [exists (32 :: sp); split; [simpl in *; by rewrite E|by constructor]|].
    exists sp. split; [simpl in *; by rewrite E|done].
  - exists sp. split; [simpl in *; by rewrite E|done].
Qed.

Lemma strip_right_word s c r : c <> space -> exists r', strip_right (s ++ c :: r) = s ++ c :: r' /\ exists sp, r = r' ++ sp /\ spaces sp.
Proof.
  intros Hc. induction s as [|d s (r' & E & sp & -> & Hsp)].
  - destruct (strip_right_split r) as (sp & E & Hsp). exists (strip_right r). split; [|by exists sp].
    cbn [app strip_right]. destruct (strip_right r); [|done]. by rewrite (proj2 (Z.eqb_neq c 32) Hc).
  - exists r'. split; [|by exists sp]. cbn [app strip_right]. rewrite E. by destruct s.
Qed.

(** Equal up to the association of [++]. *)
Ltac same_text := repeat progress (rewrite <- ?app_assoc; cbn [app]); reflexivity.

Lemma rest_prefix (r' sp rest : list Z) : r' ++ sp = rest -> (rest = [] \/ exists r, rest = space :: r) ->
  r' = [] \/ exists r, r' = space :: r.
Proof.
  destruct r' as [|c r']; [by left|]. intros <- [|[r [= -> _]]]; [done|]. right. by eexists.
Qed.

Lemma no_space_head c w : no_space (c :: w) -> c <> space.
Proof. by intros [? _]%Forall_cons. Qed.

Lemma config_line_sound line name value : config_line line = Some (name, value) -> setting_line line name value.
Proof.
  unfold config_line. destruct (until_space (strip line)) as [w rest] eqn:E1.
  destruct (until_space_split _ _ _ E1) as (Es & Hw & Hr).
  unfold strip in Es. destruct (strip_left_split (strip_right line)) as (s0 & E0 & Hs0 & Hh).
  destruct (strip_right_split line) as (sr & Er & Hsr).
  destruct rest as [|c rest]; [done|]. destruct (Nat.leb_spec CONFIG_NAME_MAX_LEN (length w)) as [|Hlw]; [done|].
  destruct (strip_left_split (c :: rest)) as (s1 & E1' & Hs1 & Hh1).
  destruct (strip_left (c :: rest)) as [|e r1]; [done|].
  destruct (Z.eqb_spec e equals) as [->|]; [|done]. cbn [negb].
  destruct (strip_left_split r1) as (s2 & E2 & Hs2 & Hh2).
  destruct (strip_left r1) as [|v r2] eqn:E3; [done|].
  destruct (until_space (v :: r2)) as [val rest'] eqn:E4. destruct (until_space_split _ _ _ E4) as (Ev & Hv & Hr').
  cbn [fst]. destruct (Nat.leb_spec CONFIG_VALUE_MAX_LEN (length val)) as [|Hlv]; [done|]. intros [= -> ->].
  destruct Hr as [?|[r0 [= -> _]]]; [done|].
  split.
  - exists s0, s1, s2, (rest' ++ sr). split; [|split_and!; try done].
    + rewrite Er, E0, Es, E1', E2, Ev, <- !app_assoc. cbn [app]. by rewrite <- !app_assoc.
    + intros ->. done.
    + destruct Hr' as [->|[r' ->]]; [|right; by eexists]. destruct Hsr as [|? ? ->]; [by left|right; by eexists].
  - split_and!; [done| |done]. intros ->. destruct Hh as [Hh|(c & r & Hh & Hc)].
    + rewrite Hh in Es. done.
    + rewrite Hh in Es. by injection Es as -> _.
  - split_and!; [done| |done]. intros ->. destruct Hh2 as [?|(c & r & [= -> ->] & Hc)]; [done|].
    cbn in E4. rewrite (proj2 (Z.eqb_neq c space) Hc) in E4. by destruct (until_space r).
Qed.

Lemma config_line_complete line name value : setting_line line name value -> config_line line = Some (name, value).
Proof.
  intros [(s0 & s1 & s2 & rest & -> & Hs0 & Hs1 & Hne1 & Hs2 & Hr) (Hn & Hnn & Hln) (Hv & Hvn & Hlv)].
  destruct name as [|n name]; [done|]. pose proof (no_space_head _ _ Hn) as Hn0.
  destruct (exists_last (l := value)) as (v0 & vl & ->); [done|].
  assert (Hvl : vl <> space) by (apply Forall_app in Hv as [_ Hv]; exact (proj1 (Forall_singleton _ _) Hv)).
  destruct (strip_right_word (s0 ++ (n :: name) ++ s1 ++ equals :: s2 ++ v0) vl rest Hvl) as (r' & E & sp & -> & Hsp).
  assert (El : strip (s0 ++ (n :: name) ++ s1 ++ equals :: s2 ++ (v0 ++ [vl]) ++ r' ++ sp)
    = (n :: name) ++ s1 ++ equals :: s2 ++ (v0 ++ [vl]) ++ r').
  { assert (Ea : s0 ++ (n :: name) ++ s1 ++ equals :: s2 ++ (v0 ++ [vl]) ++ r' ++ sp
      = (s0 ++ (n :: name) ++ s1 ++ equals :: s2 ++ v0) ++ vl :: r' ++ sp) by same_text.
    unfold strip. rewrite Ea, E, <- app_assoc, strip_left_spaces by done. cbn [app].
    rewrite strip_left_word by done. same_text. }
  pose proof (rest_prefix r' sp _ eq_refl Hr) as Hr'.
  unfold config_line. rewrite El. destruct s1 as [|x s1]; [done|]. pose proof Hs1 as Hs1'. apply Forall_cons in Hs1' as [-> _].
  rewrite until_space_app; [|done|right; by eexists].
  rewrite (proj2 (Nat.leb_gt _ _)) by done. cbn [app].
  change (space :: s1 ++ ?x) with ((space :: s1) ++ x). rewrite strip_left_spaces by done.
  rewrite strip_left_word by done. rewrite Z.eqb_refl. cbn [negb]. rewrite strip_left_spaces by done.
  destruct v0 as [|v v0]; cbn [app].
  - rewrite strip_left_word by done. change (vl :: r') with ([vl] ++ r'). rewrite until_space_app; [|done|].
    + cbn [fst]. by rewrite (proj2 (Nat.leb_gt _ _)).
    + done.
  - pose proof (no_space_head _ _ Hv). rewrite strip_left_word by done.
    change (v :: (v0 ++ [vl]) ++ r') with ((v :: v0 ++ [vl]) ++ r'). rewrite until_space_app; [|done|].
    + cbn [fst]. by rewrite (proj2 (Nat.leb_gt _ _)).
    + done.
Qed.

(** ** Reading what was written *)

Definition setting (name : string) (value : list Z) : list Z :=
  ascii_bytes name ++ [space; equals; space] ++ value ++ [newline].

(** A value that a line can hold. *)
Record plain_value (v : list Z) : Prop := PlainValue {
  plain_chars : Forall (fun c => c <> space /\ c <> newline /\ c <> 0) v;
  plain_some : v <> [];
  plain_short : (length v < CONFIG_VALUE_MAX_LEN)%nat;
}.

Lemma fgets_whole n line rest : Forall (fun c => c <> newline) line -> forall room acc, (length line + 1 < room)%nat ->
  fgets_lines n room acc (line ++ newline :: rest) = (acc ++ line ++ [newline]) :: fgets_lines n n [] rest.
Proof.
  induction 1 as [|c line Hc _ IH]; intros room acc Hr; cbn [app fgets_lines].
  - destruct room as [|[|room]]; simpl in Hr; try lia. by rewrite Z.eqb_refl.
  - destruct room as [|[|room]]; simpl in Hr; try lia. rewrite (proj2 (Z.eqb_neq c newline) Hc), IH by lia. by rewrite <- app_assoc.
Qed.

Lemma c_str_whole s : Forall (fun c => c <> 0) s -> c_str s = s.
Proof. induction 1 as [|c s Hc _ IH]; [done|]. cbn. by rewrite (proj2 (Z.eqb_neq c 0) Hc), IH. Qed.

Definition known_name (name : string) : Prop :=
  name ∈ ["store_path"; "block_size"; "update_threshold"; "log_dir"]%string.

Lemma known_name_chars name : known_name name ->
  Forall (fun c => c <> space /\ c <> newline /\ c <> 0 /\ c <> 35) (ascii_bytes name)
  /\ ascii_bytes name <> [] /\ (length (ascii_bytes name) < 20)%nat.
Proof.
  unfold known_name. rewrite !elem_of_cons. intros [->|[->|[->|[->|?%not_elem_of_nil]]]]; [..|done];
    (split; [by apply (bool_decide_unpack _)|split; [done|simpl; lia]]).
Qed.

Lemma read_setting {A} (deal : list Z -> A -> A * Z) name value rest config :
  known_name name -> plain_value value ->
  exists line, setting_line line (ascii_bytes name) value
    /\ read_config deal (fgets_lines (CONFIG_LINE_MAX_SIZE - 1) (CONFIG_LINE_MAX_SIZE - 1) [] (setting name value ++ rest)) config
       = read_config deal (fgets_lines (CONFIG_LINE_MAX_SIZE - 1) (CONFIG_LINE_MAX_SIZE - 1) [] rest) (deal line config).1.
Proof.
  intros Hn [Hv Hvn Hvl]. destruct (known_name_chars _ Hn) as (Hc & Hne & Hl).
  set (line := ascii_bytes name ++ [space; equals; space] ++ value).
  exists line. split.
  - split.
    + exists [], [space], [space], []. split; [by rewrite app_nil_r|]. split_and!; [constructor|by repeat constructor|done|by repeat constructor|by left].
    + split_and!; [|done|unfold CONFIG_NAME_MAX_LEN; lia]. eapply Forall_impl; [exact Hc|]. by intros c (? & _).
    + split_and!; [|done|done]. eapply Forall_impl; [exact Hv|]. by intros c (? & _).
  - assert (Hall : Forall (fun c => c <> newline /\ c <> 0) line).
    { unfold line. rewrite !Forall_app. split; [eapply Forall_impl; [exact Hc|naive_solver]|].
      split; [by repeat constructor|]. eapply Forall_impl; [exact Hv|naive_solver]. }
    assert (Hlen : (length line < 1000)%nat).
    { unfold line. rewrite !length_app. unfold CONFIG_VALUE_MAX_LEN in Hvl. simpl. lia. }
    replace (setting name value ++ rest) with (line ++ newline :: rest) by (unfold setting, line; same_text).
    rewrite fgets_whole; [|eapply Forall_impl; [exact Hall|naive_solver]|unfold CONFIG_LINE_MAX_SIZE; lia].
    cbn [app read_config]. rewrite c_str_whole; cycle 1.
    { rewrite Forall_app. split; [eapply Forall_impl; [exact Hall|naive_solver]|by repeat constructor]. }
    assert (exists c l, line = c :: l /\ c <> 35) as (c & l & El & Hc35).
    { unfold line. destruct (ascii_bytes name) as [|c l]; [done|]. apply Forall_cons in Hc as [(_ & _ & _ & ?) _].
      by exists c, (l ++ [space; equals; space] ++ value). }
    rewrite El at 1. cbn [app]. rewrite (proj2 (Z.eqb_neq c 35) Hc35), last_snoc. cbn [default].
    rewrite Z.eqb_refl, length_app, Nat.add_sub. by rewrite take_app_length.
Qed.

Lemma length_strncpy n s : length (strncpy n s) = n.
Proof. unfold strncpy. rewrite length_take, length_app, length_replicate. lia. Qed.

Lemma strncpy_short n s : (length s < n)%nat -> strncpy n s = s ++ replicate (n - length s) 0.
Proof.
  intros Hs. unfold strncpy. rewrite take_app_ge by lia. by rewrite take_replicate, Nat.min_l by lia.
Qed.

Lemma c_str_terminated s n t : Forall (fun c => c <> 0) s -> (0 < n)%nat -> c_str (s ++ replicate n 0 ++ t) = s.
Proof. intros Hs Hn. destruct n; [lia|]. by apply c_str_app. Qed.

Definition PATHS_SIZE : nat := STORE_PATH_SIZE + DIR_PATH_MAX_LEN.

(** The two lines that set paths. *)
Lemma set_store_path c v : (length v < STORE_PATH_SIZE)%nat -> Forall (fun c => c <> 0) v -> length (paths c) = PATHS_SIZE ->
  let c' := with_path 0 v c in
  store_path c' = v /\ length (paths c') = PATHS_SIZE /\ log_dir c' = []
  /\ c_str (take STORE_PATH_SIZE (paths c')) = v /\ (length (c_str (take STORE_PATH_SIZE (paths c'))) < STORE_PATH_SIZE)%nat.
Proof.
  intros Hv Hz Hlen c'. unfold PATHS_SIZE, STORE_PATH_SIZE, DIR_PATH_MAX_LEN in Hv, Hlen |- *.
  assert (Hp : paths c' = v ++ replicate (256 - length v) 0 ++ replicate 768 0 ++ drop 1024 (paths c)).
  { unfold c', with_path, DIR_PATH_MAX_LEN. cbn [paths]. rewrite length_strncpy, strncpy_short, take_0, app_nil_l by lia.
    rewrite <- app_assoc. f_equal. rewrite app_assoc, <- replicate_add. f_equal. f_equal. lia. }
  assert (Ht : take 256 (paths c') = v ++ replicate (256 - length v) 0).
  { rewrite Hp, app_assoc, take_app_le; [rewrite take_ge; [done|]|]; rewrite length_app, length_replicate; lia. }
  split_and!.
  - unfold store_path. rewrite Hp. apply c_str_terminated; [done|lia].
  - rewrite Hp, !length_app, !length_replicate, length_drop. unfold STORE_PATH_SIZE. lia.
  - unfold log_dir, STORE_PATH_SIZE. rewrite Hp, app_assoc, drop_app_ge by (rewrite length_app, length_replicate; lia).
    rewrite length_app, length_replicate. replace (256 - _)%nat with 0%nat by lia. done.
  - rewrite Ht. rewrite <- (app_nil_r (replicate _ _)). apply c_str_terminated; [done|lia].
  - rewrite Ht. rewrite <- (app_nil_r (replicate _ _)), c_str_terminated; [done|done|lia].
Qed.

(** A terminator in the first part ends the string. *)
Lemma c_str_app_short a b : (length (c_str a) < length a)%nat -> c_str (a ++ b) = c_str a.
Proof.
  induction a as [|x a IH]; cbn [c_str app length]; [lia|]. destruct (x =? 0); [done|]. cbn [length].
  intros Hl. f_equal. apply IH. lia.
Qed.

Lemma set_log_dir c v sp : (length v < CONFIG_VALUE_MAX_LEN)%nat -> Forall (fun c => c <> 0) v -> length (paths c) = PATHS_SIZE ->
  c_str (take STORE_PATH_SIZE (paths c)) = sp -> (length sp < STORE_PATH_SIZE)%nat ->
  let c' := with_path STORE_PATH_SIZE v c in store_path c' = sp /\ log_dir c' = v.
Proof.
  intros Hv Hz Hlen Hsp Hls c'. unfold PATHS_SIZE, STORE_PATH_SIZE, DIR_PATH_MAX_LEN, CONFIG_VALUE_MAX_LEN in *.
  assert (Ht : length (take 256 (paths c)) = 256%nat) by (rewrite length_take; unfold STORE_PATH_SIZE in *; lia).
  assert (Hp : paths c' = take 256 (paths c) ++ strncpy 1024 v ++ drop 1280 (paths c)).
  { unfold c', with_path, DIR_PATH_MAX_LEN. cbn [paths]. by rewrite length_strncpy. }
  split.
  - unfold store_path. rewrite Hp, c_str_app_short; [done|]. unfold STORE_PATH_SIZE in *. rewrite Hsp. lia.
  - unfold log_dir, STORE_PATH_SIZE. rewrite Hp, drop_app_ge, Ht, Nat.sub_diag by lia. rewrite drop_0, strncpy_short by lia.
    rewrite <- app_assoc. apply c_str_terminated; [done|lia].
Qed.

(** ** What a file says *)

Definition number (n : Z) : list Z := print_dec 9 n.

Lemma plain_number n : 0 <= n < 10 ^ 9 -> plain_value (number n) /\ atoi (number n) = n.
Proof.
  intros Hn. destruct (print_dec_spec 9 n Hn ltac:(lia)) as (Hd & Hv & Hne). pose proof (length_print_dec 9 n) as Hl.
  split; [|unfold number; by rewrite atoi_digits]. split; [|done|unfold number, CONFIG_VALUE_MAX_LEN; lia].
  eapply Forall_impl; [exact Hd|]. intros c Hc%is_digit_spec. unfold space, newline. lia.
Qed.

Lemma read_server_setting name value rest config : known_name name -> plain_value value ->
  read_config deal_server_config_line (fgets_lines (CONFIG_LINE_MAX_SIZE - 1) (CONFIG_LINE_MAX_SIZE - 1) [] (setting name value ++ rest)) config
  = read_config deal_server_config_line (fgets_lines (CONFIG_LINE_MAX_SIZE - 1) (CONFIG_LINE_MAX_SIZE - 1) [] rest)
      (if decide (name = "store_path"%string) then with_path 0 value config
       else if decide (name = "block_size"%string) then ServerConfig (paths config) (atoi value) (update_th config)
       else if decide (name = "update_threshold"%string) then ServerConfig (paths config) (block_size config) (atoi value)
       else with_path STORE_PATH_SIZE value config).
Proof.
  intros Hn Hv. destruct (read_setting deal_server_config_line name value rest config Hn Hv) as (line & Hl & ->).
  f_equal. unfold deal_server_config_line. rewrite (config_line_complete _ _ _ Hl). cbn [fst].
  unfold known_name in Hn. rewrite !elem_of_cons in Hn.
  by destruct Hn as [->|[->|[->|[->|?%not_elem_of_nil]]]].
Qed.

(** A file with the four settings, in the sample's order. *)
Definition server_conf (sp ld : list Z) (bs th : Z) : list Z :=
  setting "store_path" sp ++ setting "block_size" (number bs) ++ setting "update_threshold" (number th)
  ++ setting "log_dir" ld.

(** [deal_server_config_line] and [deal_client_config_line] take from a line
    exactly a name and a value without spaces, each below its array's size, with
    spaces before an equals sign and any spaces elsewhere. *)
Theorem config_line_grammar line name value :
  config_line line = Some (name, value) <-> setting_line line name value.
Proof. split; [apply config_line_sound|apply config_line_complete]. Qed.

(** What a configuration file with the four settings says is what
    [get_sftt_server_config] leaves in the structure. *)
Theorem server_config_roundtrip fs ssc path sp ld bs th :
  search_config fs (ascii_bytes "sftt_server.conf") = Some path ->
  fopen_r fs path = Some (server_conf sp ld bs th) ->
  plain_value sp -> (length sp < STORE_PATH_SIZE)%nat -> plain_value ld ->
  0 <= bs < 10 ^ 9 -> 0 <= th < 10 ^ 9 -> length (paths ssc) = PATHS_SIZE ->
  let '(c, ret) := get_sftt_server_config fs ssc in
  ret = 0 /\ store_path c = sp /\ log_dir c = ld /\ block_size c = bs /\ update_th c = th.
Proof.
  intros Hs Ho Hsp Hlsp Hld Hbs Hth Hlen. unfold get_sftt_server_config, get_config. rewrite Hs, Ho.
  destruct (plain_number _ Hbs) as [Hpb Hab], (plain_number _ Hth) as [Hpt Hat].
  assert (Hk : Forall known_name ["store_path"; "block_size"; "update_threshold"; "log_dir"]%string)
    by (unfold known_name; repeat constructor; set_solver).
  rewrite !Forall_cons in Hk. destruct Hk as (K1 & K2 & K3 & K4 & _).
  assert (Hnz : forall v, plain_value v -> Forall (fun c => c <> 0) v).
  { intros v [H _ _]. eapply Forall_impl; [exact H|naive_solver]. }
  set (c := ServerConfig (paths (with_path 0 sp ssc)) bs th).
  unfold server_conf. rewrite read_server_setting, decide_True by done.
  rewrite read_server_setting, decide_False, decide_True, Hab by done.
  rewrite read_server_setting, !decide_False, decide_True, Hat by done.
  rewrite <- (app_nil_r (setting "log_dir" ld)), read_server_setting, !decide_False by done.
  destruct (set_store_path ssc sp Hlsp (Hnz _ Hsp) Hlen) as (_ & Hlen' & _ & Ht & Htl).
  rewrite Ht in Htl. change (read_config _ _ ?x) with x. split; [done|].
  destruct (set_log_dir c ld sp (plain_short _ Hld) (Hnz _ Hld) Hlen' Ht Htl) as [H1 H2]. done.
Qed.

(** The lines of a file are taken in order, and a [store_path] line fills 1024
    characters from the array of 256: a [log_dir] that was set before is gone. *)
Lemma store_path_erases_log_dir ssc v w : (length v < STORE_PATH_SIZE)%nat -> Forall (fun c => c <> 0) v ->
  length (paths ssc) = PATHS_SIZE -> log_dir (with_path 0 v (with_path STORE_PATH_SIZE w ssc)) = [].
Proof.
  intros Hv Hz Hlen. apply set_store_path; [done|done|]. unfold with_path. cbn [paths].
  rewrite length_strncpy, !length_app, length_strncpy, length_take, length_drop. unfold PATHS_SIZE in *. lia.
Qed.

Definition demo_conf_fs : fsys :=
  Fsys {[ ascii_bytes "./config/sftt_server.conf" := Reg (server_conf (ascii_bytes "/srv") (ascii_bytes "/var/log") 4096 20) ]} ∅.

Lemma server_config_roundtrip_witness :
  let '(c, ret) := get_sftt_server_config demo_conf_fs (ServerConfig (replicate PATHS_SIZE 0) 0 0) in
  ret = 0 /\ store_path c = ascii_bytes "/srv" /\ log_dir c = ascii_bytes "/var/log" /\ block_size c = 4096 /\ update_th c = 20.
Proof.
  apply (server_config_roundtrip demo_conf_fs (ServerConfig (replicate PATHS_SIZE 0) 0 0) (ascii_bytes "./config/sftt_server.conf")).
  - vm_compute. reflexivity.
  - vm_compute. reflexivity.
  - split; [apply (bool_decide_unpack _); vm_compute; exact I|done|vm_compute; lia].
  - vm_compute; lia.
  - split; [apply (bool_decide_unpack _); vm_compute; exact I|done|vm_compute; lia].
  - lia.
  - lia.
  - reflexivity.
Defined.
