(* ===== verification/Sessions.v ===== *)
(** * Sessions and users (src/server.c, src/include/session.h, src/user.c)

    The server has a table of [MAX_CLIENT_NUM] sessions, one for each
    connection to its second port. *)

From S2P Require Import Prelude CStr UpdateLock Messages.

Record client_sock_conn := Conn {
  c_sock : Z;
  c_port : Z;
  c_type : Z;
  c_id : list Z;
  is_using : Z;
  is_updating : Z;
}.

Inductive client_status := ACTIVE | INACTIVE | DISCONNECTED.

#[export] Instance client_status_eq_dec : EqDecision client_status.
Proof. solve_decision. Defined.

Record user_base_info := UserBase { uid : Z; ub_name : list Z; home_dir : list Z }.

Record client_session := Session {
  ip : list Z;
  main_conn : client_sock_conn;
  task_conns : list client_sock_conn;
  status : client_status;
  s_pwd : list Z;
  s_session_id : list Z;
  s_user : user_base_info;
}.

Definition with_status st s := Session (ip s) (main_conn s) (task_conns s) st (s_pwd s) (s_session_id s) (s_user s).
Definition with_pwd p s := Session (ip s) (main_conn s) (task_conns s) (status s) p (s_session_id s) (s_user s).
Definition with_main_conn c s := Session (ip s) c (task_conns s) (status s) (s_pwd s) (s_session_id s) (s_user s).
Definition with_task_conns l s := Session (ip s) (main_conn s) l (status s) (s_pwd s) (s_session_id s) (s_user s).

(** ** Connections *)

Definition put_sock_conn (c : client_sock_conn) := Conn (c_sock c) (c_port c) (c_type c) (c_id c) 0 (is_updating c).
Definition get_sock_conn (c : client_sock_conn) := Conn (c_sock c) (c_port c) (c_type c) (c_id c) 1 (is_updating c).
Definition clear_conn_updating (c : client_sock_conn) := Conn (c_sock c) (c_port c) (c_type c) (c_id c) (is_using c) 0.
Definition set_conn_updating (c : client_sock_conn) := Conn (c_sock c) (c_port c) (c_type c) (c_id c) (is_using c) 1.
Definition with_sock (n : Z) (c : client_sock_conn) := Conn n (c_port c) (c_type c) (c_id c) (is_using c) (is_updating c).
Definition with_type (t : Z) (c : client_sock_conn) := Conn (c_sock c) (c_port c) t (c_id c) (is_using c) (is_updating c).

(** The first connection that is not in use, with its place; it is then in use. *)
Definition get_peer_task_conn_by_session (s : client_session) : option (nat * client_session) :=
  '(k, c) ← list_find (fun c => is_using c = 0) (task_conns s);
  Some (k, with_task_conns (<[k := get_sock_conn c]> (task_conns s)) s).

(** ** The table *)

(** As the macros have it: an inactive session is one that is active. *)
Definition client_is_active (s : client_session) : bool := bool_decide (status s = ACTIVE).
Definition client_is_inactive (s : client_session) : bool := bool_decide (status s = ACTIVE).
Definition client_connected (s : client_session) : bool := client_is_active s || client_is_inactive s.

Definition zero_conn : client_sock_conn := Conn 0 0 0 [] 0 0.

Definition put_session : client_session :=
  Session [] zero_conn [] DISCONNECTED [] [] (UserBase 0 [] []).

Definition init_client_session : client_session := with_task_conns [] put_session.

Definition init_sessions : list client_session := replicate MAX_CLIENT_NUM init_client_session.

(** The index of the session, which is cleared and made active. *)
Definition get_new_session (sessions : list client_session) : option (nat * list client_session) :=
  '(i, _) ← list_find (fun s => client_connected s = false) sessions;
  Some (i, <[i := with_status ACTIVE init_client_session]> sessions).

Definition find_client_session_by_id (sessions : list client_session) (session_id : list Z)
    : option (nat * client_session) :=
  list_find (fun s => client_connected s = true
    /\ take SESSION_ID_LEN (s_session_id s) = take SESSION_ID_LEN session_id) sessions.

(** [None] for -1; otherwise the user with its address filled in. *)
Definition check_user (sessions : list client_session) (user : logged_in_user) : option logged_in_user :=
  '(_, s) ← list_find (fun s => client_connected s = true /\ s_session_id s = lu_session_id user) sessions;
  Some (LoggedInUser (lu_session_id user) (lu_name user) (take IPV4_MAX_LEN (ip s)) (lu_port user)).

(** The place of the connection: its session and its number there. *)
Definition get_peer_task_conn_by_user (sessions : list client_session) (user : logged_in_user)
    : option (nat * nat * list client_session) :=
  '(i, s) ← find_client_session_by_id sessions (lu_session_id user);
  '(k, s) ← get_peer_task_conn_by_session s;
  Some (i, k, <[i := s]> sessions).

Definition put_peer_task_conn (i k : nat) (sessions : list client_session) : list client_session :=
  alter (fun s => with_task_conns (alter put_sock_conn k (task_conns s)) s) i sessions.

Definition session_user (s : client_session) : logged_in_user :=
  LoggedInUser (take (SESSION_ID_LEN - 1) (s_session_id s)) (take (USER_NAME_MAX_LEN - 1) (ub_name (s_user s)))
    (take (IPV4_MAX_LEN - 1) (ip s)) (c_port (main_conn s)).

Definition get_logged_in_users (sessions : list client_session) : list logged_in_user :=
  session_user <$> filter (fun s => client_connected s = true) sessions.

Definition find_connect_by_id (s : client_session) (connect_id : list Z) : option (option nat) :=
  if decide (c_id (main_conn s) = connect_id) then Some None
  else '(i, _) ← list_find (fun c => c_id c = connect_id) (task_conns s); Some (Some i).

(** ** The database (src/user.c)

    A query delivers rows, which map column names to values; a value may be
    NULL.  [None] is a failed assertion or a null pointer that is read. *)

Definition row : Type := list (list Z * option (list Z)).

Fixpoint column (r : row) (key : list Z) : option (option (list Z)) :=
  match r with
  | [] => None
  | (k, v) :: r => if decide (k = key) then Some v else column r key
  end.

(** The rows are those of [select * from user where name='...'].  A missing
    [uid] is reported with [atoi] of a null pointer. *)
Definition find_user_base_by_name (rows : list row) : option (option user_base_info) :=
  match rows with
  | [] => Some None
  | [r] =>
      match column r (ascii_bytes "uid") with
      | None | Some None => None
      | Some (Some id) =>
          match column r (ascii_bytes "name") with
          | None | Some None => Some (Some (UserBase (atoi id) [] []))
          | Some (Some name) =>
              match column r (ascii_bytes "home_dir") with
              | None | Some None => Some (Some (UserBase (atoi id) name []))
              | Some (Some home) => Some (Some (UserBase (atoi id) name home))
              end
          end
      end
  | _ => None
  end.

(** The stored digest. *)
Definition find_user_auth_by_name (rows : list row) : option (option (list Z)) :=
  match rows with
  | [] => Some None
  | [r] =>
      match column r (ascii_bytes "name") with
      | None | Some None => Some (Some [])
      | Some (Some _) =>
          match column r (ascii_bytes "passwd_md5") with
          | None | Some None => Some (Some [])
          | Some (Some md5) => Some (Some md5)
          end
      end
  | _ => None
  end.
