(* ===== verification/Server.v ===== *)
(** * The request handlers of the server (src/server.c)

    Each handler is a program over the connection of the session that made the
    request.  It changes the server's state: the table of sessions and the file
    system.  Handlers that talk to the connection of another client are in
    Forward.  A send succeeds, and only the structures that are sent again are
    followed through [Sent]; a packet of a kind the code does not expect at a
    place where it casts the object is [Crash]. *)

From S2P Require Import Prelude CStr Version Process FileSystem FilePut FileGet UpdateLock Messages Sessions.

Record server := Server {
  table : list client_session;
  disk : fsys;
}.

Definition with_table (t : list client_session) (s : server) : server := Server t (disk s).
Definition with_disk (d : fsys) (s : server) : server := Server (table s) d.

Abbreviation handler := (prog packet packet).

(** [client->f] for the session [me]. *)
Definition session_at (s : server) (me : nat) : client_session := default init_client_session (table s !! me).
Definition update_session (f : client_session -> client_session) (me : nat) (s : server) : server :=
  with_table (alter f me (table s)) s.

Section Handlers.
Context {T : Sent} {TG : GetTransport}.

(** The rows of the user table are what the database answers. *)
Context (h : host) (select_user : list Z -> list row).
#[local] Abbreviation readdir := (h_readdir h).
#[local] Abbreviation dir_size := (h_dir_size h).
#[local] Abbreviation file_mode := (h_file_mode h).

(** ** Logging in *)

(** The message that [check_version] has left is overwritten. *)
Definition send_validate_resp (code : Z) : handler () :=
  send (ValidateResp code 0 (take (Z.to_nat RESP_MESSAGE_MAX_LEN - 1) (resp_messages code)) [] [] [] []).

(** [new_id] is what [gen_session_id] produces. *)
Definition validate_user_info (me : nat) (new_id : list Z) (s : server) (name passwd_md5 : list Z) (ver : version_info)
    : handler (server * Z) :=
  let client := session_at s me in
  let '(ret, message) := check_version ver (h_version h) [] (RESP_MESSAGE_MAX_LEN - 1) in
  if ret =? -1 then _ ← send_validate_resp RESP_UVS_BAD_VER; mret (s, 0) else
  user_base ← lift (find_user_base_by_name (select_user name));
  user_auth ← lift (find_user_auth_by_name (select_user name));
  match user_base, user_auth with
  | None, _ => _ ← send_validate_resp RESP_UVS_NTFD; mret (s, 0)
  | Some _, None => Crash
  | Some base, Some md5 =>
      if negb (bool_decide (md5 = passwd_md5)) then _ ← send_validate_resp RESP_UVS_INVALID; mret (s, 0)
      else if negb (file_existed (disk s) (home_dir base)) then
        _ ← send_validate_resp RESP_UVS_MISSHOME; mret (s, 0)
      else
        let pwd := take (DIR_PATH_MAX_LEN - 1) (home_dir base) in
        let s := update_session (fun c => Session (ip c) (main_conn c) (task_conns c) ACTIVE pwd
                                            (take (SESSION_ID_LEN - 1) new_id) base) me s in
        _ ← send (ValidateResp RESP_UVS_PASS (u32 (uid base)) message (take (USER_NAME_MAX_LEN - 1) name) pwd
                    (take (SESSION_ID_LEN - 1) new_id) (c_id (main_conn client)));
        mret (s, 0)
  end.

(** ** Directories *)

Definition send_pwd_resp (code : Z) : handler () := send (PwdResp code []).
Definition send_cd_resp (code : Z) : handler () := send (CdResp code []).

Definition handle_pwd_req (me : nat) (s : server) (session_id : list Z) : handler (server * Z) :=
  let client := session_at s me in
  if negb (bool_decide (session_id = s_session_id client)) then
    _ ← send_pwd_resp RESP_SESSION_INVALID; mret (s, 0)
  else
    _ ← send (PwdResp RESP_OK (take DIR_PATH_MAX_LEN (s_pwd client))); mret (s, 0).

Definition handle_cd_req (me : nat) (s : server) (path : list Z) : handler (server * Z) :=
  let client := session_at s me in
  let buf := simplify_path (print_path (2 * DIR_PATH_MAX_LEN) (s_pwd client) path) in
  match h_chdir h (disk s) buf with
  | None => _ ← send_cd_resp RESP_CANNOT_CD; mret (s, 0)
  | Some cwd =>
      if (DIR_PATH_MAX_LEN - 1 <=? length cwd)%nat then _ ← send_cd_resp RESP_CANNOT_CD; mret (s, 0) else
      _ ← send (CdResp RESP_OK cwd); mret (update_session (with_pwd cwd) me s, 0)
  end.

(** [None]: the path fills the array without a terminator. *)
Definition ll_path (pwd path : list Z) : option (list Z) :=
  if is_absolute_path path then
    if (DIR_PATH_MAX_LEN - 1 <=? length path)%nat then None else Some (simplify_path path)
  else Some (simplify_path (print_path (2 * DIR_PATH_MAX_LEN + 1) pwd path)).

Definition send_ll_resp (resp : ll_resp) (code flags : Z) : handler ll_resp :=
  let resp := LlResp code flags (ll_total resp) (ll_this_nr resp) (ll_entries resp) in
  _ ← send (LlResponse resp); mret (left_ll resp).

Definition ll_entry (fs : fsys) (path name : list Z) : file_entry :=
  let tmp := print_path (2 * DIR_PATH_MAX_LEN + 3) path name in
  FileEntry (take (FILE_NAME_MAX_LEN - 1) name)
    (if is_file fs tmp then FILE_TYPE_FILE else if is_dir fs tmp then FILE_TYPE_DIR else FILE_TYPE_UNKNOWN).

(** The loop over the pages of a directory. *)
Fixpoint ll_pages (fuel : nat) (entry : list Z -> file_entry) (names : list (list Z)) (resp : ll_resp) : handler ll_resp :=
  match fuel, names with
  | _, [] => mret resp
  | O, _ => Crash
  | S fuel', _ =>
      let page := entry <$> take FILE_ENTRY_MAX_CNT names in
      let names := drop FILE_ENTRY_MAX_CNT names in
      let resp := LlResp (ll_status resp) (ll_flags resp) (ll_total resp) (Z.of_nat (length page))
                    (page ++ drop (length page) (ll_entries resp)) in
      resp ← send_ll_resp resp RESP_OK (match names with [] => 0 | _ => 1 end);
      ll_pages fuel' entry names resp
  end.

(** [has_more] is false when the loop ends, so nothing follows it. *)
Definition handle_ll_req (me : nat) (s : server) (path : list Z) : handler (server * Z) :=
  let client := session_at s me in
  path ← lift (ll_path (s_pwd client) path);
  let resp := zero_ll_resp in
  let with_total n := LlResp 0 0 n (ll_this_nr resp) (ll_entries resp) in
  if negb (file_existed (disk s) path) then
    _ ← send_ll_resp (with_total (-1)) RESP_FILE_NTFD 0; mret (s, 0)
  else if is_file (disk s) path then
    let resp := with_total 1 in
    let entry := FileEntry (take (FILE_NAME_MAX_LEN - 1) (basename path).2) FILE_TYPE_FILE in
    let resp := LlResp 0 0 (ll_total resp) (ll_this_nr resp) (entry :: drop 1 (ll_entries resp)) in
    _ ← send_ll_resp resp RESP_OK 0; mret (s, 0)
  else if is_dir (disk s) path then
    match get_top_file_list (disk s) (h_opendir h) path with
    | None => _ ← send_ll_resp (with_total (-1)) RESP_INTERNAL_ERR 0; mret (s, -1)
    | Some names =>
        _ ← ll_pages (length names) (ll_entry (disk s) path) names (with_total (Z.of_nat (length names))); mret (s, 0)
    end
  else mret (s, 0).

(** ** Users and statistics *)

Definition send_who_resp (resp : who_resp) (code flags : Z) : handler () :=
  send (WhoResponse (WhoResp code flags (who_total resp) (who_this_nr resp) (who_users resp))).

Fixpoint who_pages (fuel : nat) (users : list logged_in_user) (total count : Z) (resp : who_resp) : handler () :=
  match fuel with
  | O => Crash
  | S fuel' =>
      let num := if Z.of_nat LOGGED_IN_USER_MAX_CNT <=? total - count
                 then Z.of_nat LOGGED_IN_USER_MAX_CNT else total - count in
      let page := take (Z.to_nat num) (drop (Z.to_nat count) users) in
      let count := count + num in
      let resp := WhoResp 0 0 total num (page ++ drop (length page) (who_users resp)) in
      _ ← send_who_resp resp RESP_OK (if count <? total then 1 else 0);
      if count <? total then who_pages fuel' users total count resp else mret tt
  end.

Definition handle_who_req (s : server) : handler (server * Z) :=
  let users := get_logged_in_users (table s) in
  let total := Z.of_nat (length users) in
  if total <=? 0 then _ ← send_who_resp zero_who_resp RESP_INTERNAL_ERR 0; mret (s, 0)
  else _ ← who_pages (length users) users total 0 zero_who_resp; mret (s, 0).

Definition handle_mp_stat_req (s : server) : handler (server * Z) :=
  let '(a, b, c, d) := h_mp_stat h in
  _ ← send (MpStatResp a b c d); mret (s, 0).

Definition send_directcmd_resp (code total_len this_len : Z) (content : list Z) : handler () :=
  send (DirectcmdResp code total_len this_len content).

(** The output of a command, in pieces; [rest] is what [fread] has left, and
    [content] the array of the response, which is shorter than the pieces that are read
    into it and is not cleared between them. *)
Fixpoint directcmd_pieces (fuel : nat) (rest content : list Z) (total_len sent : Z) : handler () :=
  match fuel with
  | O => Crash
  | S fuel' =>
      let piece := take (CMD_RET_BATCH_LEN - 1) rest in
      if (DIRECT_CMD_RESP_MAX_LEN <? length piece)%nat then Crash else
      let content := overwrite content piece in
      let sent := sent + Z.of_nat (length piece) in
      _ ← send_directcmd_resp RESP_OK total_len (Z.of_nat (length piece)) content;
      let total_len := left_len total_len in
      if sent <? total_len then directcmd_pieces fuel' (drop (CMD_RET_BATCH_LEN - 1) rest) content total_len sent
      else mret tt
  end.

Definition handle_directcmd_req (s : server) (cmd : list Z) : handler (server * Z) :=
  match h_run_cmd h cmd with
  | None => _ ← send_directcmd_resp RESP_INTERNAL_ERR 0 0 []; mret (s, 0)
  | Some out =>
      _ ← directcmd_pieces (S (length out)) out (replicate DIRECT_CMD_RESP_MAX_LEN 0) (Z.of_nat (length out)) 0;
      mret (s, 0)
  end.

(** ** Files *)

Definition get_status (p : packet) : option Z := match p with CommonResp st => Some st | _ => None end.
Definition put_request (p : packet) : option put_req := match p with PutRequest _ _ r => Some r | _ => None end.

Definition handle_get_req (fuel : nat) (s : server) (path : list Z) : handler (server * Z) :=
  let resp := GetResp 0 0 0 0 (Entry 0 0 0 0 (replicate CONTENT_BLOCK_SIZE 0)) 0 in
  let path := take FILE_NAME_MAX_LEN path in
  if (FILE_NAME_MAX_LEN <=? length path)%nat then Crash else
  if negb (is_absolute_path path) then
    _ ← embed GetResponse get_status (send_get_resp resp RESP_PATH_NOT_ABS 0); mret (s, 0)
  else if negb (file_existed (disk s) path) then
    _ ← embed GetResponse get_status (send_get_resp resp RESP_FILE_NTFD 0); mret (s, 0)
  else
    ret ← embed GetResponse get_status
      (send_files_by_get_resp (disk s) dir_size file_mode readdir fuel path resp);
    mret (s, ret).

Definition handle_put_req (files fuel : nat) (s : server) (req : put_req) : handler (server * Z) :=
  '(fs, ret) ← embed PutResp put_request (recv_files_from_put_req files fuel (disk s) req);
  mret (with_disk fs s, ret).

(** ** Connections *)

(** The new connection joins the session [req] names; then the thread of this
    session ends. *)
Definition handle_append_conn_req (me : nat) (s : server) (session_id : list Z) (type : Z) : handler (server * Z) :=
  if negb (type =? CONN_TYPE_TASK) then mret (s, -1) else
  match find_client_session_by_id (table s) session_id with
  | None => mret (s, -1)
  | Some (i, _) =>
      let conn := clear_conn_updating (put_sock_conn (with_type CONN_TYPE_TASK (main_conn (session_at s me)))) in
      let s := update_session (fun t => with_task_conns (conn :: task_conns t) t) i s in
      _ ← send (AppendConnResp RESP_OK (take CONNECT_ID_LEN (c_id conn)));
      mret (s, 0)
  end.

Definition handle_reconnect_req (me : nat) (s : server) (session_id connect_id : list Z) : server * Z :=
  match find_client_session_by_id (table s) session_id with
  | None => (s, -1)
  | Some (i, target) =>
      let fix_conn c := clear_conn_updating (with_sock (c_sock (main_conn (session_at s me))) c) in
      match find_connect_by_id target connect_id with
      | None => (s, -1)
      | Some None => (update_session (fun t => with_main_conn (fix_conn (main_conn t)) t) i s, 0)
      | Some (Some k) => (update_session (fun t => with_task_conns (alter fix_conn k (task_conns t)) t) i s, 0)
      end
  end.

Definition respond_channel_info (main_port second_port : Z) : handler () :=
  send (ChannelInfoResp main_port second_port).

(** ** The loop of a session *)

(** What follows a request: the next one, the end of the session with its
    socket closed or kept, or a request for another client. *)
Inductive verdict := Next | Close | KeepSocket | ForPeer.

Definition handle_request (files fuel : nat) (me : nat) (new_id : list Z) (s : server) (req : packet)
    : handler (server * verdict) :=
  match req with
  | ValidateReq name md5 ver =>
      '(s, ret) ← validate_user_info me new_id s name md5 ver;
      mret (s, if ret =? -1 then Close else Next)
  | AppendConnReq id type => '(s, _) ← handle_append_conn_req me s id type; mret (s, KeepSocket)
  | PwdReq id => '(s, _) ← handle_pwd_req me s id; mret (s, Next)
  | CdReq _ path => '(s, _) ← handle_cd_req me s path; mret (s, Next)
  | LlReq _ path to_peer _ =>
      if negb (to_peer =? 0) then mret (s, ForPeer)
      else '(s, _) ← handle_ll_req me s path; mret (s, Next)
  | PutRequest to_peer _ req =>
      if negb (to_peer =? 0) then mret (s, ForPeer)
      else '(s, _) ← handle_put_req files fuel s req; mret (s, Next)
  | GetReq _ path to_peer _ =>
      if negb (to_peer =? 0) then mret (s, ForPeer)
      else '(s, _) ← handle_get_req fuel s path; mret (s, Next)
  | MpStatReq _ => '(s, _) ← handle_mp_stat_req s; mret (s, Next)
  | DirectcmdReq _ cmd => '(s, _) ← handle_directcmd_req s cmd; mret (s, Next)
  | WhoReq _ => '(s, _) ← handle_who_req s; mret (s, Next)
  | WriteReq _ _ => mret (s, ForPeer)
  | ReconnectReq id cid => let '(s, _) := handle_reconnect_req me s id cid in mret (s, KeepSocket)
  | _ => mret (s, Next)
  end.

(** [put_session] at the end. *)
Definition end_session (me : nat) (s : server) : server := update_session (fun _ => put_session) me s.

(** The loop of [handle_client_session], one iteration for each unit of fuel; an
    error of the socket or its end closes the session, and a socket that has
    nothing yet is tried again. *)
Fixpoint handle_client_session (requests files fuel : nat) (me : nat) (new_id : list Z) (s : server)
    : handler (server * verdict) :=
  match requests with
  | O => mret (s, Next)
  | S requests' =>
      r ← recv;
      match r with
      | Got req =>
          '(s, v) ← handle_request files fuel me new_id s req;
          match v with
          | Next => handle_client_session requests' files fuel me new_id s
          | ForPeer => mret (s, v)
          | Close | KeepSocket => mret (end_session me s, v)
          end
      | RecvErr true => handle_client_session requests' files fuel me new_id s
      | _ => mret (end_session me s, Close)
      end
  end.
End Handlers.
