(* ===== verification/Client.v ===== *)
(** * The commands of the client (src/client.c)

    A command is a program over the main connection.  Its result is the client
    afterwards, the return value, and what it shows. *)

From S2P Require Import Prelude CStr Version Md5 Process FileSystem FilePut FileGet CmdLine Messages Sessions.

Record client := Client {
  cl_pwd : list Z;
  cl_session_id : list Z;
  cl_uid : Z;
  cl_connect_id : list Z;
  friends : list logged_in_user;
  directcmd : bool;
  cl_disk : fsys;
}.

Definition with_cl_pwd p c := Client p (cl_session_id c) (cl_uid c) (cl_connect_id c) (friends c) (directcmd c) (cl_disk c).
Definition with_friends l c := Client (cl_pwd c) (cl_session_id c) (cl_uid c) (cl_connect_id c) l (directcmd c) (cl_disk c).
Definition with_directcmd b c := Client (cl_pwd c) (cl_session_id c) (cl_uid c) (cl_connect_id c) (friends c) b (cl_disk c).
Definition with_cl_disk d c := Client (cl_pwd c) (cl_session_id c) (cl_uid c) (cl_connect_id c) (friends c) (directcmd c) d.

(** What is printed. *)
Inductive shown :=
  | Usage | Message | ShowPwd (pwd : list Z) | ShowEntries (l : list file_entry)
  | ShowUsers (l : list (logged_in_user * bool)) | ShowStat (a b c d : Z) | ShowText (l : list (list Z)).

Abbreviation command := (prog packet packet).

(** [ret = -1], [assert(obj != NULL)]: an answer, or the end of the command. *)
Definition receive {A} (k : packet -> command A) (failed : command A) : command A :=
  r ← recv;
  match r with
  | Got p => k p
  | NoData => Crash
  | RecvErr _ => failed
  end.

Section Commands.
Context {T : Transport}.
Context (h : host).
#[local] Abbreviation readdir := (h_readdir h).
#[local] Abbreviation dir_size := (h_dir_size h).
#[local] Abbreviation file_mode := (h_file_mode h).

Definition result : Type := client * Z * list shown.

(** ** Logging in *)

Definition DEFAULT_USER_HOME : list Z := ascii_bytes "/tmp/sftt".

(** The digest of the password; nothing for an empty one. *)
Definition passwd_digest (passwd : list Z) : option (list Z) :=
  match passwd with
  | [] => Some []
  | _ => md5_str (zeroed 64) passwd
  end.

Definition validate_user_base_info (c : client) (user passwd : list Z) : command (client * Z) :=
  md5 ← lift (passwd_digest passwd);
  _ ← send (ValidateReq (take (USER_NAME_MAX_LEN - 1) user) md5 (h_version h));
  receive (fun p =>
    match p with
    | ValidateResp status uid _ _ pwd session_id connect_id =>
        let accept pwd :=
          Client (take (DIR_PATH_MAX_LEN - 1) pwd) (take (SESSION_ID_LEN - 1) session_id) uid
            (take CONNECT_ID_LEN connect_id) (friends c) (directcmd c) (cl_disk c) in
        if status =? RESP_UVS_PASS then mret (accept pwd, 1)
        else if status =? RESP_UVS_MISSHOME then mret (accept DEFAULT_USER_HOME, 0)
        else mret (c, -1)
    | _ => Crash
    end) (mret (c, -1)).

(** ** The list of users *)

(** The loop that collects pages; [total] users have been received. *)
Fixpoint friend_pages (fuel : nat) (resp : who_resp) (list : list logged_in_user) (total : Z)
    : command (option (Datatypes.list logged_in_user)) :=
  match fuel with
  | O => Crash
  | S fuel' =>
      if (0 <? who_total resp) && (0 <? who_this_nr resp) then
        if Z.of_nat LOGGED_IN_USER_MAX_CNT <? who_this_nr resp then Crash else
        page ← lift (mapM (fun i => who_users resp !! i) (seq 0 (Z.to_nat (who_this_nr resp))));
        let list := list ++ page in
        let total := total + who_this_nr resp in
        if total =? who_total resp then mret (Some list) else
        receive (fun p => match p with WhoResponse resp => friend_pages fuel' resp list total | _ => Crash end)
          (mret None)
      else mret (Some list)
  end.

(** [None] for -1. *)
Definition get_friend_list (fuel : nat) (c : client) : command (client * Z) :=
  _ ← send (WhoReq (take (SESSION_ID_LEN - 1) (cl_session_id c)));
  receive (fun p =>
    match p with
    | WhoResponse resp =>
        l ← friend_pages fuel resp (friends c) 0;
        match l with Some l => mret (with_friends l c, 0) | None => mret (c, -1) end
    | _ => Crash
    end) (mret (c, -1)).

Definition find_logged_in_user (fuel : nat) (c : client) (user_no : Z) : command (client * option logged_in_user) :=
  '(c, ret) ← (match friends c with [] => get_friend_list fuel c | _ => mret (c, 0) end);
  if ret =? -1 then mret (c, None)
  else mret (c, if user_no <? 0 then None else friends c !! Z.to_nat user_no).

Definition sftt_client_who_handler (fuel : nat) (c : client) : command result :=
  '(c, ret) ← get_friend_list fuel (with_friends [] c);
  if ret =? -1 then mret (c, -1, []) else
  mret (c, 0, [ShowUsers ((fun u => (u, bool_decide (cl_session_id c = lu_session_id u))) <$> friends c)]).

(** ** Directories *)

Fixpoint ll_collect (fuel : nat) (resp : ll_resp) (fe_list : list file_entry) (total : Z)
    : command (option (list file_entry)) :=
  match fuel with
  | O => Crash
  | S fuel' =>
      if (0 <? ll_total resp) && (0 <? ll_this_nr resp) then
        if Z.of_nat FILE_ENTRY_MAX_CNT <? ll_this_nr resp then Crash else
        page ← lift (mapM (fun i => ll_entries resp !! i) (seq 0 (Z.to_nat (ll_this_nr resp))));
        let fe_list := fe_list ++ page in
        let total := i32 (total + ll_this_nr resp) in
        if total =? ll_total resp then mret (Some fe_list) else
        receive (fun p => match p with LlResponse resp => ll_collect fuel' resp fe_list total | _ => Crash end)
          (mret None)
      else mret (Some fe_list)
  end.

Definition sftt_client_ll_handler (fuel : nat) (c : client) (argv : list (list Z)) : command result :=
  let request c user path :=
    _ ← send (LlReq (take (SESSION_ID_LEN - 1) (cl_session_id c)) (take (DIR_PATH_MAX_LEN - 1) path)
                (match user with Some _ => 1 | None => 0 end) (default no_user user));
    receive (fun p =>
      match p with
      | LlResponse resp =>
          l ← ll_collect fuel resp [] 0;
          match l with
          | Some l => mret (c, 0, [ShowEntries l])
          | None => mret (c, -1, [Message])
          end
      | _ => Crash
      end) (mret (c, -1, [Message])) in
  match argv with
  | [] => request c None (cl_pwd c)
  | [path] => request c None path
  | [no; path] =>
      '(c, user) ← find_logged_in_user fuel c (atoi no);
      match user with
      | None => mret (c, -1, [Message])
      | Some user => request c (Some user) path
      end
  | _ => mret (c, -1, [Usage])
  end.

Definition sftt_client_cd_handler (c : client) (argv : list (list Z)) : command result :=
  match argv with
  | [path] =>
      if bool_decide (path = []) then mret (c, -1, [Usage]) else
      _ ← send (CdReq (take (SESSION_ID_LEN - 1) (cl_session_id c)) (take DIR_PATH_MAX_LEN path));
      receive (fun p =>
        match p with
        | CdResp status pwd =>
            if negb (status =? RESP_OK) then mret (c, -1, [Message])
            else mret (with_cl_pwd (take (DIR_PATH_MAX_LEN - 1) pwd) c, 0, [ShowPwd pwd])
        | _ => Crash
        end) (mret (c, -1, [Message]))
  | _ => mret (c, -1, [Usage])
  end.

Definition sftt_client_pwd_handler (c : client) : command result :=
  _ ← send (PwdReq (take (SESSION_ID_LEN - 1) (cl_session_id c)));
  receive (fun p => match p with PwdResp _ pwd => mret (c, 0, [ShowPwd pwd]) | _ => Crash end)
    (mret (c, -1, [Message])).

(** ** Files *)

Definition get_response (p : packet) : option get_resp := match p with GetResponse r => Some r | _ => None end.
Definition put_status (p : packet) : option Z := match p with PutResp st => Some st | _ => None end.

Definition sftt_client_get_handler (fuel files : nat) (c : client) (argv : list (list Z)) : command result :=
  let transfer c user path target :=
    if negb (is_absolute_path path) then mret (c, -1, [Message]) else
    _ ← send (GetReq (take SESSION_ID_LEN (cl_session_id c)) (take FilePut.FILE_NAME_MAX_LEN path)
                (match user with Some _ => 1 | None => 0 end) (default no_user user));
    '(fs, ret) ← embed CommonResp get_response (recv_files_from_get_resp files fuel (cl_disk c) target);
    mret (with_cl_disk fs c, ret, []) in
  match argv with
  | [path; target] => transfer c None path target
  | [no; path; target] =>
      '(c, user) ← find_logged_in_user fuel c (atoi no);
      match user with
      | None => mret (c, -1, [Message])
      | Some user => transfer c (Some user) path target
      end
  | _ => mret (c, -1, [Usage])
  end.

(** [target] has room for the directory and the name. *)
Definition sftt_client_put_handler (fuel : nat) (c : client) (argv : list (list Z)) : command result :=
  let transfer c user file target :=
    if negb (is_file (cl_disk c) file) && negb (is_dir (cl_disk c) file) then mret (c, -1, [Message]) else
    let req := PutReq 0 0 (Entry 0 0 0 0 (replicate CONTENT_BLOCK_SIZE 0)) 0 0 in
    ret ← embed (PutRequest (match user with Some _ => 1 | None => 0 end) (default no_user user)) put_status
            (send_files_by_put_req (cl_disk c) dir_size file_mode readdir fuel file target req);
    mret (c, ret, []) in
  match argv with
  | [file; target] =>
      transfer c None (take (FilePut.FILE_NAME_MAX_LEN - 1) file)
        (if is_absolute_path target then take (FilePut.FILE_NAME_MAX_LEN - 1) target
         else print_path (DIR_PATH_MAX_LEN + 1) (cl_pwd c) target)
  | [no; file; target] =>
      '(c, user) ← find_logged_in_user fuel c (atoi no);
      match user with
      | None => mret (c, -1, [Message])
      | Some user =>
          if negb (is_absolute_path target) then mret (c, -1, [Message]) else
          transfer c (Some user) (take (FilePut.FILE_NAME_MAX_LEN - 1) file)
            (take (FilePut.FILE_NAME_MAX_LEN - 1) target)
      end
  | _ => mret (c, -1, [Usage])
  end.

(** ** Other commands *)

(** [stat] are the statistics of the client's own pool, shown with [-d]. *)
Definition sftt_client_mps_handler (c : client) (argv : list (list Z)) : command result :=
  match argv with
  | [] =>
      _ ← send (MpStatReq (take (SESSION_ID_LEN - 1) (cl_session_id c)));
      receive (fun p => match p with MpStatResp a b d e => mret (c, 0, [ShowStat a b d e]) | _ => Crash end)
        (mret (c, -1, [Message]))
  | [flag] => if bool_decide (flag = ascii_bytes "-d") then mret (c, 0, [Message]) else mret (c, -1, [Usage])
  | _ => mret (c, -1, [Usage])
  end.

Definition sftt_client_directcmd_handler (c : client) (argv : list (list Z)) : command result :=
  match argv with
  | [a] =>
      if bool_decide (a = ascii_bytes "in") then mret (with_directcmd true c, 0, [Message])
      else if bool_decide (a = ascii_bytes "out") then mret (with_directcmd false c, 0, [Message])
      else mret (c, -1, [Usage])
  | _ => mret (c, -1, [Usage])
  end.

Definition sftt_client_write_handler (fuel : nat) (c : client) (argv : list (list Z)) : command result :=
  match argv with
  | [no; message] =>
      '(c, user) ← find_logged_in_user fuel c (atoi no);
      match user with
      | None => mret (c, -1, [Message])
      | Some user =>
          _ ← send (WriteReq user (take (WRITE_MSG_MAX_LEN - 1) message));
          receive (fun p =>
            match p with
            | WriteResp status => if negb (status =? RESP_OK) then mret (c, 1, [Message]) else mret (c, 0, [])
            | _ => Crash
            end) (mret (c, -1, [Message]))
      end
  | _ => mret (c, -1, [Usage])
  end.

Definition sftt_client_touch_handler (c : client) (argv : list (list Z)) : command result :=
  match argv with
  | [file] => let '(fs, ret) := create_new_file (cl_disk c) file in mret (with_cl_disk fs c, ret, [])
  | _ => mret (c, -1, [Usage])
  end.

Definition sftt_client_sleep_handler (c : client) (argv : list (list Z)) : command result :=
  match argv with
  | [n] => if atoi n <? 0 then mret (c, -1, [Usage]) else mret (c, 0, [])
  | _ => mret (c, -1, [Usage])
  end.

(** ** Commands on the server *)

Definition directcmds : list (list Z) :=
  ascii_bytes <$> ["ls"; "date"; "cat"; "mkdir"; "touch"]%string.

Definition among_directcmds (name : list Z) : bool := bool_decide (name ∈ directcmds).

(** The text of a piece ends at its first zero; without one it is read past the
    array. *)
Fixpoint directcmd_collect (fuel : nat) (total_len recv_len this_len : Z) (content : list Z) (text : list (list Z))
    : command (Z * list (list Z)) :=
  match fuel with
  | O => Crash
  | S fuel' =>
      if (length content <=? length (c_str content))%nat then Crash else
      let text := text ++ [c_str content] in
      let recv_len := recv_len + this_len in
      if recv_len =? total_len then mret (1, text) else
      r ← recv;
      match r with
      | RecvErr _ => mret (-1, text)
      | NoData => Crash
      | Got (DirectcmdResp _ _ this_len content) =>
          if recv_len <? total_len then directcmd_collect fuel' total_len recv_len this_len content text
          else mret (1, text)
      | Got _ => Crash
      end
  end.

Definition execute_directcmd (fuel : nat) (c : client) (buf : list Z) : command result :=
  match buf with
  | [] => mret (c, -1, [])
  | _ =>
      _ ← send (DirectcmdReq (take (SESSION_ID_LEN - 1) (cl_session_id c)) (take (CMD_MAX_LEN - 1) buf));
      receive (fun p =>
        match p with
        | DirectcmdResp _ total_len this_len content =>
            if (total_len <? 0) || (this_len <? 0) then mret (c, -1, [Message]) else
            '(ret, text) ← directcmd_collect fuel total_len 0 this_len content [];
            mret (c, ret, [ShowText text])
        | _ => Crash
        end) (mret (c, -1, [Message]))
  end.

(** ** Dispatch *)

Definition cmd_is (name : list Z) (s : string) : bool := bool_decide (name = ascii_bytes s).

(** The table [sftt_client_cmds]; [help], [his] and [env] print. *)
Definition run_command (fuel files : nat) (c : client) (name : list Z) (argv : list (list Z)) : option (command result) :=
  if cmd_is name "help" then Some (mret (c, 0, [Message]))
  else if cmd_is name "ll" then Some (sftt_client_ll_handler fuel c argv)
  else if cmd_is name "cd" then Some (sftt_client_cd_handler c argv)
  else if cmd_is name "pwd" then Some (sftt_client_pwd_handler c)
  else if cmd_is name "get" then Some (sftt_client_get_handler fuel files c argv)
  else if cmd_is name "put" then Some (sftt_client_put_handler fuel c argv)
  else if cmd_is name "his" then Some (mret (c, 0, [Message]))
  else if cmd_is name "mps" then Some (sftt_client_mps_handler c argv)
  else if cmd_is name "directcmd" then Some (sftt_client_directcmd_handler c argv)
  else if cmd_is name "w" then Some (sftt_client_who_handler fuel c)
  else if cmd_is name "write" then Some (sftt_client_write_handler fuel c argv)
  else if cmd_is name "touch" then Some (sftt_client_touch_handler c argv)
  else if cmd_is name "sleep" then Some (sftt_client_sleep_handler c argv)
  else if cmd_is name "env" then Some (mret (c, 0, [Message]))
  else None.

(** A line without a name has a null pointer for it, which is compared. *)
Definition execute_cmd (fuel files : nat) (c : client) (buf : list Z) : command result :=
  cmd ← lift (parse_command buf);
  match cmd with
  | None => mret (c, -1, [Message])
  | Some cmd =>
      name ← lift (name cmd);
      if directcmd c && among_directcmds name then execute_directcmd fuel c buf else
      match run_command fuel files c name (argv cmd) with
      | Some p => p
      | None => mret (c, 0, [Message])
      end
  end.

(** [strtok] at newlines: the pieces that are not empty. *)
Fixpoint command_lines (line s : list Z) : list (list Z) :=
  let finish rest := match line with [] => rest | _ => line :: rest end in
  match s with
  | [] => finish []
  | c :: s => if c =? 10 then finish (command_lines [] s) else command_lines (line ++ [c]) s
  end.

Fixpoint execute_lines (fuel files : nat) (c : client) (lines : list (list Z)) (out : list shown) : command result :=
  match lines with
  | [] => mret (c, 0, out)
  | line :: lines =>
      '(c, _, out') ← execute_cmd fuel files c (take (CMD_MAX_LEN - 1) line);
      execute_lines fuel files c lines (out ++ out')
  end.

(** The results of the commands are not looked at. *)
Definition execute_multi_cmds (fuel files : nat) (c : client) (buf : list Z) : command result :=
  execute_lines fuel files c (command_lines [] buf) [].

(** [snprintf] into the command line that a transfer is made of. *)
Definition command_line (words : list (list Z)) : list Z := take 1023 (foldr (fun w l => w ++ l) [] words).

Definition do_trans (fuel files : nat) (c : client) (trans : trans_info) : command result :=
  match type trans with
  | TRANS_GET =>
      execute_cmd fuel files c
        (command_line [ascii_bytes "get "; CmdLine.src trans; ascii_bytes " "; dest trans])
  | TRANS_PUT =>
      '(c, ret, out) ← execute_cmd fuel files c (command_line [ascii_bytes "cd "; dest trans]);
      if negb (ret =? 0) then mret (c, ret, out) else
      execute_cmd fuel files c (command_line [ascii_bytes "put "; CmdLine.src trans])
  end.
End Commands.
