(* ===== verification/Connection.v ===== *)
(** * Connections and the change of port (src/client.c, src/server.c)

    A client has a main connection and task connections; the server knows each
    by an identifier.  When the server changes its second port it tells each
    client over the task connections, and the client connects again.  A number
    names a socket at both of its ends.  The programs here run over a
    connection that is new: [connect port] is what [make_connect] returns. *)

From S2P Require Import Prelude CStr Version Process FileSystem FilePut FileGet UpdateLock Messages Sessions Server Client.

Definition CLIENT_MAX_TASK_CONN : nat := 5.
Definition PORT_UPDATE_INTERVAL : Z := 15.

(** A [struct client_sock_conn] as the client uses it. *)
Record own_conn := OwnConn { own : client_sock_conn; last_port : Z }.

Record connections := Connections { main : own_conn; tasks : list own_conn; need_reconnect : bool }.

Definition with_port (n : Z) (c : client_sock_conn) := Conn (c_sock c) n (c_type c) (c_id c) (is_using c) (is_updating c).
Definition on_own (f : client_sock_conn -> client_sock_conn) (c : own_conn) := OwnConn (f (own c)) (last_port c).

(** ** The client *)

Section Client.
Context (connect : Z -> Z) (session_id : list Z).

(** Over the connection to the main port; the result is the main connection. *)
Definition init_sftt_client_ctrl_conn : command (option own_conn) :=
  receive (fun p =>
    match p with
    | ChannelInfoResp _ port =>
        let sock := connect port in
        if sock =? -1 then mret None else mret (Some (OwnConn (Conn sock port CONN_TYPE_CTRL [] 0 0) port))
    | _ => Crash
    end) (mret None).

(** [mp_malloc] clears the structure; [last_port] stays 0. *)
Definition add_task_connect (cs : connections) : command (connections * Z) :=
  let port := c_port (own (main cs)) in
  let sock := connect port in
  if sock =? -1 then mret (cs, -1) else
  _ ← send (AppendConnReq (take (SESSION_ID_LEN - 1) session_id) CONN_TYPE_TASK);
  receive (fun p =>
    match p with
    | AppendConnResp status connect_id =>
        if negb (status =? RESP_OK) then mret (cs, -1) else
        let conn := OwnConn (Conn sock port CONN_TYPE_TASK (take CONNECT_ID_LEN connect_id) 0 0) 0 in
        mret (Connections (main cs) (conn :: tasks cs) (need_reconnect cs), 0)
    | _ => Crash
    end) (mret (cs, -1)).

(** Whether [do_connect_manager] adds a connection in this round. *)
Definition do_connect_manager (cs : connections) : bool :=
  let idle_conns := length (filter (fun c => is_using (own c) <> 1) (tasks cs)) in
  let updating := existsb (fun c => is_updating (own c) =? 1) (tasks cs) in
  negb updating && (length (tasks cs) <? CLIENT_MAX_TASK_CONN)%nat && (idle_conns =? 0)%nat.

(** A send on the socket -1 fails. *)
Definition do_reconnect (c : own_conn) : command (own_conn * Z) :=
  if last_port c =? c_port (own c) then mret (c, 0) else
  let sock := connect (c_port (own c)) in
  let c' := OwnConn (with_sock sock (own c)) (c_port (own c)) in
  if sock =? -1 then mret (c', -1) else
  _ ← send (ReconnectReq (take (SESSION_ID_LEN - 1) session_id) (take CONNECT_ID_LEN (c_id (own c))));
  mret (c', 0).

(** The request for a new port has arrived over the task connection [k]. *)
Definition handle_port_update_req (cs : connections) (k : nat) (port : Z) : command (connections * Z) :=
  conn ← lift (tasks cs !! k);
  let conn := on_own (with_port port) (on_own set_conn_updating conn) in
  let main := on_own (with_port port) (main cs) in
  let need := if negb (last_port main =? port) then true else need_reconnect cs in
  '(conn, ret) ← do_reconnect conn;
  mret (Connections main (<[k:=on_own clear_conn_updating conn]> (tasks cs)) need, ret).

(** What [execute_cmd] does first. *)
Definition reconnect_before_cmd (cs : connections) : command (connections * Z) :=
  if need_reconnect cs then
    '(m, ret) ← do_reconnect (main cs);
    if ret =? -1 then mret (Connections m (tasks cs) true, -1)
    else mret (Connections m (tasks cs) false, 0)
  else mret (cs, 0).
End Client.

(** ** The server *)

(** [second_channel_loop] with a socket that has been accepted; [None] is a full table. *)
Definition accept_client (fd : Z) (addr connect_id : list Z) (port : Z) (s : server) : option (nat * server) :=
  '(i, t) ← get_new_session (table s);
  let new x :=
    Session (take (IPV4_MAX_LEN - 1) addr) (Conn fd port CONN_TYPE_CTRL connect_id 0 0)
      (task_conns x) (status x) (s_pwd x) (s_session_id x) (s_user x) in
  Some (i, update_session new i (with_table t s)).

Definition need_update_port (now last_update_ts : Z) : bool := PORT_UPDATE_INTERVAL <? now - last_update_ts.

Definition client_task_conns_num (s : client_session) : Z := Z.of_nat (length (task_conns s)).

Definition can_update_port (s : server) : bool :=
  forallb (fun t => negb (client_connected t) || negb (client_task_conns_num t <? 1)) (table s).

Definition set_all_conns_updating (s : server) : server :=
  with_table ((fun t => if client_connected t then with_task_conns (set_conn_updating <$> task_conns t) t else t) <$> table s) s.

Section Notify.
Context {T : Sent}.

(** One structure is sent to all: what a send leaves in it goes to the next. *)
Fixpoint notify_conns (socks : list Z) (second_port : Z) : list (Z * packet) :=
  match socks with
  | [] => []
  | sock :: socks => (sock, PortUpdateReq second_port) :: notify_conns socks (left_len second_port)
  end.

Definition notify_client_after_updating (s : server) (second_port : Z) : list (Z * packet) :=
  notify_conns (c_sock <$> (filter (fun t => client_connected t = true) (table s) ≫= task_conns)) second_port.

(** What [port_update_loop] does while it has the lock and right after: the
    second port, its socket, the sessions, and what is sent. *)
Definition update_second_port (main_port second_port second_sock port sock : Z) (s : server)
    : Z * Z * server * list (Z * packet) :=
  if (main_port =? port) || (second_port =? port) then (second_port, second_sock, s, [])
  else if sock =? -1 then (second_port, second_sock, s, [])
  else
    let s := set_all_conns_updating s in
    (port, sock, s, notify_client_after_updating s port).
End Notify.

Section Serve.
Context {T : Sent} {TG : GetTransport}.
Context (h : host) (select_user : list Z -> list row) (files fuel : nat) (new_id : list Z).

(** A connection to the second port: its session, and the loop that serves it. *)
Definition serve_client (requests : nat) (fd : Z) (addr connect_id : list Z) (port : Z) (s : server)
    : handler (server * verdict) :=
  match accept_client fd addr connect_id port s with
  | None => mret (s, Close)
  | Some (me, s) => handle_client_session h select_user requests files fuel me new_id s
  end.
End Serve.

(** ** Sessions in the table *)

Lemma list_find_update {A} (P : A -> Prop) `{!forall x, Decision (P x)} l i x y :
  list_find P l = Some (i, x) -> P y -> list_find P (<[i:=y]> l) = Some (i, y).
Proof.
  intros (Hi & _ & Hb)%list_find_Some Hy. apply list_find_Some. split; [|split; [done|]].
  - apply list_lookup_insert_eq. by eapply lookup_lt_Some.
  - intros j z Hj Hlt. rewrite list_lookup_insert_ne in Hj by lia. by eapply Hb.
Qed.

Lemma list_find_insert_other {A} (P : A -> Prop) `{!forall x, Decision (P x)} l i j x z :
  list_find P l = Some (i, x) -> ~ P z -> i <> j -> list_find P (<[j:=z]> l) = Some (i, x).
Proof.
  intros (Hi & Hx & Hb)%list_find_Some Hz Hne. apply list_find_Some.
  split; [by rewrite list_lookup_insert_ne by done|]. split; [done|].
  intros k y Hk Hlt. destruct (decide (j = k)) as [<-|Hjk]; [|rewrite list_lookup_insert_ne in Hk by done; by eapply Hb].
  assert (j < length l)%nat by (apply lookup_lt_Some in Hi; lia).
  rewrite list_lookup_insert_eq in Hk by done. by injection Hk as <-.
Qed.

Section Pairing.
Context (session_id : list Z).

(** Client and session [i] agree on the connections that they have: the same
    identifiers, all different, and the two ends of the same sockets. *)
Record paired (cs : connections) (s : server) (i : nat) : Prop := Paired {
  pair_session : find_client_session_by_id (table s) session_id = Some (i, session_at s i);
  pair_ids : NoDup (c_id (main_conn (session_at s i)) :: (c_id <$> task_conns (session_at s i)));
  pair_short : Forall (fun c => (length (c_id c) <= CONNECT_ID_LEN)%nat) (task_conns (session_at s i));
  pair_tasks : Forall2 (fun o c => c_id (own o) = c_id c /\ c_sock (own o) = c_sock c) (tasks cs) (task_conns (session_at s i));
  pair_main : c_id (own (main cs)) = c_id (main_conn (session_at s i))
    /\ c_sock (own (main cs)) = c_sock (main_conn (session_at s i))
    /\ (length (c_id (own (main cs))) <= CONNECT_ID_LEN)%nat;
}.
End Pairing.

(** ** A connection that serves one request for another session *)

Definition new_session (fd : Z) (addr connect_id : list Z) (port : Z) : client_session :=
  Session (take (IPV4_MAX_LEN - 1) addr) (Conn fd port CONN_TYPE_CTRL connect_id 0 0) [] ACTIVE [] [] (UserBase 0 [] []).

Lemma accept_spec s fd addr cid port : is_Some (get_new_session (table s)) ->
  exists j, (j < length (table s))%nat /\ client_connected (session_at s j) = false
    /\ accept_client fd addr cid port s = Some (j, with_table (<[j:=new_session fd addr cid port]> (table s)) s).
Proof.
  intros [[j t] E]. unfold accept_client. rewrite E. unfold get_new_session in E.
  destruct (list_find _ (table s)) as [[j' x]|] eqn:Ef; [|done]. cbn in E. injection E as <- <-.
  apply list_find_Some in Ef as (Hj & Hx & _). pose proof (lookup_lt_Some _ _ _ Hj) as Hlt.
  exists j'. split; [done|]. split; [unfold session_at; by rewrite Hj|]. cbn. do 2 f_equal.
  unfold update_session, with_table. cbn [table disk]. f_equal.
  apply list_eq. intros k. destruct (decide (k = j')) as [->|Hne].
  - rewrite list_lookup_alter_eq, !list_lookup_insert_eq by (rewrite ?length_insert; done). reflexivity.
  - by rewrite list_lookup_alter_ne, !list_lookup_insert_ne by done.
Qed.

Lemma session_at_insert s j x : (j < length (table s))%nat -> session_at (with_table (<[j:=x]> (table s)) s) j = x.
Proof. intros Hj. unfold session_at. cbn. by rewrite list_lookup_insert_eq. Qed.

Lemma session_at_insert_ne s j k x : j <> k -> session_at (with_table (<[j:=x]> (table s)) s) k = session_at s k.
Proof. intros Hj. unfold session_at. cbn. by rewrite list_lookup_insert_ne. Qed.

Section OneRequest.
Context (s : server) (session_id : list Z) (i j : nat) (fd port : Z) (addr cid : list Z).
Context (Hfind : find_client_session_by_id (table s) session_id = Some (i, session_at s i)).
Context (Hj : (j < length (table s))%nat) (Hfree : client_connected (session_at s j) = false).
Context (Hid : take SESSION_ID_LEN session_id <> []).
#[local] Abbreviation s1 := (with_table (<[j:=new_session fd addr cid port]> (table s)) s).

Lemma slots_differ : i <> j.
Proof. intros ->. apply list_find_Some in Hfind as (_ & [Hc _] & _). congruence. Qed.

Lemma find_accepted : find_client_session_by_id (table s1) session_id = Some (i, session_at s1 i).
Proof.
  rewrite session_at_insert_ne by (apply not_eq_sym, slots_differ).
  apply list_find_insert_other; [done| |apply slots_differ]. intros [_ H]. by apply Hid.
Qed.

Lemma accepted_main : main_conn (session_at s1 j) = Conn fd port CONN_TYPE_CTRL cid 0 0.
Proof. by rewrite session_at_insert. Qed.

Lemma served f (Hst : forall t, status (f t) = status t) (Hsid : forall t, s_session_id (f t) = s_session_id t) :
  let s' := end_session j (update_session f i s1) in
  session_at s' i = f (session_at s i)
  /\ find_client_session_by_id (table s') session_id = Some (i, session_at s' i)
  /\ is_Some (get_new_session (table s')) /\ disk s' = disk s.
Proof.
  intros s'. pose proof slots_differ as Hne. pose proof Hfind as (Hi & [Hc Hs] & _)%list_find_Some.
  pose proof (lookup_lt_Some _ _ _ Hi) as Hlt.
  assert (Htab : table s' = <[j:=put_session]> (<[i:=f (session_at s i)]> (<[j:=new_session fd addr cid port]> (table s)))).
  { unfold s', end_session, update_session, with_table. cbn [table]. apply list_eq. intros k.
    destruct (decide (k = j)) as [->|Hk].
    - rewrite list_lookup_alter_eq, list_lookup_alter_ne, !list_lookup_insert_eq by (rewrite ?length_insert; done). reflexivity.
    - rewrite list_lookup_alter_ne, list_lookup_insert_ne by done. destruct (decide (k = i)) as [->|Hk'].
      + rewrite list_lookup_alter_eq, list_lookup_insert_eq, list_lookup_insert_ne by (rewrite ?length_insert; done).
        rewrite Hi. unfold session_at. by rewrite Hi.
      + by rewrite list_lookup_alter_ne, !list_lookup_insert_ne by done. }
  assert (Hat : session_at s' i = f (session_at s i)).
  { unfold session_at at 1. rewrite Htab, list_lookup_insert_ne, list_lookup_insert_eq by (rewrite ?length_insert; done). done. }
  split; [done|]. split; [|split; [|done]].
  - rewrite Htab, Hat. apply list_find_insert_other; [|by intros [? _]|done].
    eapply list_find_update; [apply find_accepted|]. unfold client_connected, client_is_active, client_is_inactive in *.
    by rewrite Hst, Hsid.
  - unfold get_new_session. destruct (list_find _ (table s')) as [[k x]|] eqn:E; [by eexists|].
    apply list_find_None in E. rewrite Htab, Forall_forall in E. exfalso. apply (E put_session); [|done].
    apply list_elem_of_lookup. exists j. apply list_lookup_insert_eq. by rewrite !length_insert.
Qed.
End OneRequest.

Section Protocols.
Context {T : Sent} {TG : GetTransport}.
Context (h : host) (select_user : list Z -> list row) (files fuel : nat) (new_id : list Z).
Context (session_id : list Z) (Hid : session_id <> []) (Hlen : (length session_id <= SESSION_ID_LEN - 1)%nat).
#[local] Abbreviation serve := (serve_client h select_user files fuel new_id).

#[local] Ltac head := cbn [mbind prog_bind mret prog_ret Process.send Process.recv lift receive].
#[local] Ltac to_right := eapply rtc_trans; [apply pass_right|]; head.
#[local] Ltac to_left := eapply rtc_trans; [apply pass_left|]; head.

Lemma id_whole : take SESSION_ID_LEN session_id <> [] /\ take (SESSION_ID_LEN - 1) session_id = session_id.
Proof. rewrite !take_ge by (unfold SESSION_ID_LEN in *; lia). done. Qed.

(** What the server does with a connection whose first request is [req]. *)
Lemma serve_accepts n fd addr cid port s : is_Some (get_new_session (table s)) ->
  exists j, (j < length (table s))%nat /\ client_connected (session_at s j) = false
    /\ serve (S n) fd addr cid port s =
       Recv (fun r => match r with
         | Got req =>
             '(s, v) ← handle_request h select_user files fuel j new_id
                         (with_table (<[j:=new_session fd addr cid port]> (table s)) s) req;
             match v with
             | Next => handle_client_session h select_user n files fuel j new_id s
             | ForPeer => mret (s, v)
             | Close | KeepSocket => mret (end_session j s, v)
             end
         | RecvErr true => handle_client_session h select_user n files fuel j new_id
                             (with_table (<[j:=new_session fd addr cid port]> (table s)) s)
         | _ => mret (end_session j (with_table (<[j:=new_session fd addr cid port]> (table s)) s), Close)
         end).
Proof.
  intros Hfree. destruct (accept_spec s fd addr cid port Hfree) as (j & Hj & Hc & E).
  exists j. split; [done|]. split; [done|]. unfold serve_client. by rewrite E.
Qed.

Lemma append_run cs s i connect fd addr cid port n :
  paired session_id cs s i -> is_Some (get_new_session (table s)) ->
  connect (c_port (own (main cs))) = fd -> fd <> -1 ->
  (length cid <= CONNECT_ID_LEN)%nat -> cid ∉ c_id (main_conn (session_at s i)) :: (c_id <$> task_conns (session_at s i)) ->
  let cs' := Connections (main cs) (OwnConn (Conn fd (c_port (own (main cs))) CONN_TYPE_TASK cid 0 0) 0 :: tasks cs) (need_reconnect cs) in
  exists s', paired session_id cs' s' i /\ is_Some (get_new_session (table s')) /\ disk s' = disk s
    /\ task_conns (session_at s' i) = Conn fd port CONN_TYPE_TASK cid 0 0 :: task_conns (session_at s i)
    /\ rtc step (Network (add_task_connect connect session_id cs) (serve (S n) fd addr cid port s) [] [])
                (Network (Ret (cs', 0)) (Ret (s', KeepSocket)) [] []).
Proof.
  intros [Hf Hnd Hshort Ht Hm] Hfree Hfd Hne Hcid Hnew cs'. destruct id_whole as [Hid1 Hid2].
  destruct (serve_accepts n fd addr cid port s Hfree) as (j & Hj & Hc & ->).
  pose proof (find_accepted s session_id i j fd port addr cid Hf Hc Hid1) as Hf1.
  pose (f := fun t => with_task_conns (Conn fd port CONN_TYPE_TASK cid 0 0 :: task_conns t) t).
  destruct (served s session_id i j fd port addr cid Hf Hj Hc Hid1 f) as (Hat & Hfind & Hfree' & Hdisk); [done..|].
  eexists. split; [|split; [exact Hfree'|split; [exact Hdisk|split; [by rewrite Hat|]]]].
  - split; rewrite ?Hat; cbn [f with_task_conns task_conns main_conn tasks main cs']; try done.
    + rewrite <- Hat. exact Hfind.
    + cbn. rewrite !NoDup_cons in *. set_solver.
    + by constructor.
    + constructor; [done|exact Ht].
  - unfold add_task_connect. rewrite Hfd, (proj2 (Z.eqb_neq fd (-1)) Hne). head. to_right.
    cbn [handle_request]. unfold handle_append_conn_req. rewrite Z.eqb_refl, Hid2, Hf1. cbn [negb].
    rewrite (accepted_main s j fd port addr cid Hj). head. to_left.
    change (negb (RESP_OK =? RESP_OK)) with false. cbv iota. head.
    cbn [c_id clear_conn_updating put_sock_conn with_type]. rewrite take_take, Nat.min_id, take_ge by done. reflexivity.
Qed.

(** The connection as [handle_reconnect_req] leaves it. *)
Definition renewed (fd : Z) (c : client_sock_conn) : client_sock_conn := clear_conn_updating (with_sock fd c).

Definition renew_at (fd : Z) (k : option nat) (t : client_session) : client_session :=
  match k with
  | None => with_main_conn (renewed fd (main_conn t)) t
  | Some k => with_task_conns (alter (renewed fd) k (task_conns t)) t
  end.

Lemma find_task t k c : NoDup (c_id (main_conn t) :: (c_id <$> task_conns t)) -> task_conns t !! k = Some c ->
  find_connect_by_id t (c_id c) = Some (Some k).
Proof.
  intros [Hm Hnd]%NoDup_cons Hk. unfold find_connect_by_id.
  assert (Hin : (c_id <$> task_conns t) !! k = Some (c_id c)) by (by rewrite list_lookup_fmap, Hk).
  rewrite decide_False by (intros E; apply Hm; rewrite E; by eapply list_elem_of_lookup_2).
  assert (list_find (fun x => c_id x = c_id c) (task_conns t) = Some (k, c)) as E; [|by rewrite E].
  apply list_find_Some. split; [done|]. split; [done|]. intros j y Hj Hlt Hy.
  assert (j = k); [|lia]. eapply NoDup_lookup; [exact Hnd| |exact Hin]. by rewrite list_lookup_fmap, Hj, <- Hy.
Qed.

Lemma find_main t : find_connect_by_id t (c_id (main_conn t)) = Some None.
Proof. unfold find_connect_by_id. by rewrite decide_True. Qed.

(** A connection is opened again: the new socket replaces the old one at both ends. *)
Lemma reconnect_run c k s i connect fd addr cid port n :
  find_client_session_by_id (table s) session_id = Some (i, session_at s i) -> is_Some (get_new_session (table s)) ->
  find_connect_by_id (session_at s i) (c_id (own c)) = Some k -> (length (c_id (own c)) <= CONNECT_ID_LEN)%nat ->
  last_port c <> c_port (own c) -> connect (c_port (own c)) = fd -> fd <> -1 ->
  exists s', session_at s' i = renew_at fd k (session_at s i)
    /\ find_client_session_by_id (table s') session_id = Some (i, session_at s' i)
    /\ is_Some (get_new_session (table s')) /\ disk s' = disk s
    /\ rtc step (Network (do_reconnect connect session_id c) (serve (S n) fd addr cid port s) [] [])
                (Network (Ret (OwnConn (with_sock fd (own c)) (c_port (own c)), 0)) (Ret (s', KeepSocket)) [] []).
Proof.
  intros Hf Hfree Hk Hshort Hlast Hfd Hne. destruct id_whole as [Hid1 Hid2].
  destruct (serve_accepts n fd addr cid port s Hfree) as (j & Hj & Hc & ->).
  pose proof (find_accepted s session_id i j fd port addr cid Hf Hc Hid1) as Hf1.
  destruct (served s session_id i j fd port addr cid Hf Hj Hc Hid1 (renew_at fd k)) as (Hat & Hfind & Hfree' & Hdisk);
    [by intros; destruct k..|].
  eexists. split; [exact Hat|]. split; [exact Hfind|]. split; [exact Hfree'|]. split; [exact Hdisk|].
  unfold do_reconnect. rewrite (proj2 (Z.eqb_neq _ _) Hlast), Hfd, (proj2 (Z.eqb_neq fd (-1)) Hne). head. to_right.
  cbn [handle_request]. unfold handle_reconnect_req. rewrite Hid2, Hf1, (take_ge (c_id _)) by done.
  rewrite session_at_insert_ne by (apply not_eq_sym, (slots_differ s session_id i j Hf Hc)). rewrite Hk.
  rewrite (accepted_main s j fd port addr cid Hj). destruct k; head; reflexivity.
Qed.

(** One task connection after the notification. *)
Definition updated (port fd : Z) (o : own_conn) : own_conn :=
  OwnConn (renewed fd (with_port port (set_conn_updating (own o)))) port.

Lemma Forall2_alter {A B} (R : A -> B -> Prop) (f : A -> A) (g : B -> B) (l1 : list A) (l2 : list B) (k : nat) :
  Forall2 R l1 l2 -> (forall x y, R x y -> R (f x) (g y)) -> Forall2 R (alter f k l1) (alter g k l2).
Proof. intros H Hfg. revert k. induction H; intros [|k]; constructor; auto; try apply IHForall2. Qed.

Lemma paired_task cs s i k o : paired session_id cs s i -> tasks cs !! k = Some o ->
  exists c, task_conns (session_at s i) !! k = Some c /\ c_id (own o) = c_id c.
Proof. intros HP Hk. destruct (Forall2_lookup_l _ _ _ _ _ (pair_tasks _ _ _ _ HP) Hk) as (c & Hc & ? & _). by exists c. Qed.

Lemma renewed_ids fd (k : nat) (l : list client_sock_conn) : c_id <$> alter (renewed fd) k l = c_id <$> l.
Proof. revert k. induction l as [|c l IH]; intros [|k]; simpl; congruence || (f_equal; apply IH). Qed.

Lemma alter_Forall {A} (P : A -> Prop) f (k : nat) (l : list A) : Forall P l -> (forall x, P x -> P (f x)) -> Forall P (alter f k l).
Proof. intros H Hf. revert k. induction H; intros [|k]; constructor; auto; apply IHForall. Qed.

Lemma alter_insert {A} (f : A -> A) (k : nat) (l : list A) x : l !! k = Some x -> <[k:=f x]> l = alter f k l.
Proof. revert k. induction l as [|y l IH]; intros [|k] H; simpl in *; [done|done|by simplify_eq|by rewrite IH]. Qed.

Lemma port_update_run cs s i k o fd addr cid tport port n :
  paired session_id cs s i -> is_Some (get_new_session (table s)) -> tasks cs !! k = Some o ->
  last_port o <> port -> fd <> -1 ->
  let cs' := Connections (on_own (with_port port) (main cs)) (alter (updated port fd) k (tasks cs))
               (negb (last_port (main cs) =? port) || need_reconnect cs) in
  exists s', paired session_id cs' s' i /\ is_Some (get_new_session (table s')) /\ disk s' = disk s
    /\ task_conns (session_at s' i) = alter (renewed fd) k (task_conns (session_at s i))
    /\ rtc step (Network (handle_port_update_req (fun _ => fd) session_id cs k port) (serve (S n) fd addr cid tport s) [] [])
                (Network (Ret (cs', 0)) (Ret (s', KeepSocket)) [] []).
Proof.
  intros HP Hfree Hk Hlast Hfd cs'. destruct (paired_task _ _ _ _ _ HP Hk) as (c & Hc & Hcid).
  destruct HP as [Hf Hnd Hshort Ht Hm].
  set (o1 := on_own (with_port port) (on_own set_conn_updating o)).
  destruct (reconnect_run o1 (Some k) s i (fun _ => fd) fd addr cid tport n) as (s' & Hat & Hfind & Hfree' & Hdisk & Hrun);
    [done|done| | |done|done|done|].
  { cbn. rewrite Hcid. by apply find_task. }
  { cbn. rewrite Hcid. by apply (proj1 (Forall_lookup _ _) Hshort k c). }
  exists s'. split; [|split; [done|split; [done|split; [by rewrite Hat|]]]].
  - split; [exact Hfind|..]; rewrite Hat; cbn [renew_at with_task_conns task_conns main_conn tasks main cs' on_own own with_port c_id c_sock]; try done.
    + by rewrite renewed_ids.
    + apply alter_Forall; [done|]. by intros [] ?.
    + apply Forall2_alter; [done|]. by intros [[]] [] [? ?].
  - unfold handle_port_update_req. rewrite Hk. head. fold o1.
    eapply rtc_trans; [exact (bind_left_run _ _ _ Hrun)|]. cbn [bind_left]. head.
    unfold cs'. rewrite <- (alter_insert (updated port fd) k (tasks cs) o) by done.
    cbn [on_own last_port]. destruct (last_port (main cs) =? port); constructor.
Qed.

Lemma main_run cs s i fd addr cid tport n :
  paired session_id cs s i -> is_Some (get_new_session (table s)) ->
  need_reconnect cs = true -> last_port (main cs) <> c_port (own (main cs)) -> fd <> -1 ->
  let cs' := Connections (OwnConn (with_sock fd (own (main cs))) (c_port (own (main cs)))) (tasks cs) false in
  exists s', paired session_id cs' s' i /\ disk s' = disk s
    /\ task_conns (session_at s' i) = task_conns (session_at s i)
    /\ rtc step (Network (reconnect_before_cmd (fun _ => fd) session_id cs) (serve (S n) fd addr cid tport s) [] [])
                (Network (Ret (cs', 0)) (Ret (s', KeepSocket)) [] []).
Proof.
  intros HP Hfree Hneed Hlast Hfd cs'. destruct HP as [Hf Hnd Hshort Ht (Hm1 & Hm2 & Hm3)].
  destruct (reconnect_run (main cs) None s i (fun _ => fd) fd addr cid tport n) as (s' & Hat & Hfind & Hfree' & Hdisk & Hrun);
    [done|done|rewrite Hm1; apply find_main|done..|].
  exists s'. split; [|split; [done|split; [by rewrite Hat|]]].
  - split; [exact Hfind|..]; rewrite Hat; done.
  - unfold reconnect_before_cmd. rewrite Hneed. eapply rtc_trans; [exact (bind_left_run _ _ _ Hrun)|]. constructor.
Qed.

(** A task connection that is opened again, in the order in which this happens. *)
Record round := Round { r_conn : nat; r_fd : Z; r_addr : list Z; r_cid : list Z; r_port : Z }.

Inductive port_rounds (port : Z) : list round -> connections * server -> connections * server -> Prop :=
  | no_round p : port_rounds port [] p p
  | next_round r rs cs s cs1 s1 p :
      every_run_ends
        (Network (handle_port_update_req (fun _ => r_fd r) session_id cs (r_conn r) port)
           (serve 1 (r_fd r) (r_addr r) (r_cid r) (r_port r) s) [] [])
        (Network (Ret (cs1, 0)) (Ret (s1, KeepSocket)) [] []) ->
      port_rounds port rs (cs1, s1) p -> port_rounds port (r :: rs) (cs, s) p.

Lemma rounds_run port i rs : forall cs s,
  paired session_id cs s i -> is_Some (get_new_session (table s)) -> NoDup (r_conn <$> rs) ->
  Forall (fun r => r_fd r <> -1 /\ exists o, tasks cs !! r_conn r = Some o /\ last_port o <> port) rs ->
  exists cs' s', port_rounds port rs (cs, s) (cs', s') /\ paired session_id cs' s' i
    /\ is_Some (get_new_session (table s')) /\ disk s' = disk s
    /\ last_port (main cs') = last_port (main cs)
    /\ (rs <> [] -> last_port (main cs) <> port -> need_reconnect cs' = true /\ c_port (own (main cs')) = port)
    /\ (forall k, k ∉ r_conn <$> rs -> tasks cs' !! k = tasks cs !! k
          /\ task_conns (session_at s' i) !! k = task_conns (session_at s i) !! k)
    /\ Forall (fun r => (exists o, tasks cs' !! r_conn r = Some (updated port (r_fd r) o))
                 /\ exists c, task_conns (session_at s' i) !! r_conn r = Some (renewed (r_fd r) c)) rs.
Proof.
  induction rs as [|r rs IH]; intros cs s HP Hfree Hnd Hall.
  { exists cs, s. split; [constructor|]. done. }
  apply Forall_cons in Hall as [[Hfd (o & Ho & Hlast)] Hall]. cbn in Hnd. apply NoDup_cons in Hnd as [Hr Hnd].
  destruct (port_update_run cs s i (r_conn r) o (r_fd r) (r_addr r) (r_cid r) (r_port r) port 0) as
    (s1 & HP1 & Hfree1 & Hdisk1 & Hconns & Hrun); [done..|].
  destruct (paired_task _ _ _ _ _ HP Ho) as (c & Hc & _).
  set (cs1 := Connections _ _ _) in HP1, Hrun.
  destruct (IH cs1 s1) as (cs' & s' & Hrs & HP' & Hfree' & Hdisk' & Hlm & Hneed & Hother & Hdone); [done..| |].
  { eapply Forall_impl; [apply Forall_forall; intros x Hx; exact (conj Hx (proj1 (Forall_forall _ _) Hall x Hx))|].
    intros x (Hx & Hxf & ox & Hox & Hxl). split; [done|]. exists ox. split; [|done]. cbn. rewrite list_lookup_alter_ne; [done|].
    intros E. apply Hr. rewrite E. by apply list_elem_of_fmap_2. }
  exists cs', s'. split; [econstructor; [apply run_ends; [exact Hrun|apply final_done]|exact Hrs]|].
  split; [done|]. split; [done|]. split; [congruence|]. split; [done|]. split; [|split].
  - intros _ Hlm'. destruct rs as [|r2 rs].
    + inversion Hrs; subst. cbn. by rewrite (proj2 (Z.eqb_neq _ _) Hlm').
    + by apply Hneed.
  - intros k [Hk Hks]%not_elem_of_cons. destruct (Hother k Hks) as [-> ->]. rewrite Hconns. cbn.
    by rewrite !list_lookup_alter_ne.
  - constructor; [|done]. destruct (Hother (r_conn r) Hr) as [-> ->]. rewrite Hconns. cbn.
    rewrite !list_lookup_alter_eq, Ho, Hc. split; by eexists.
Qed.

(** *** The properties *)

(** A task connection.  [add_task_connect] of the client against the thread
    that the server starts for the new connection: whatever the schedule, both
    end, each has the new connection as the first in its list, under the same
    identifier and with the two ends of one socket, and all the others are as
    they were. *)
Theorem append_conn_pairs cs s i fd addr cid port n
    (Hpaired : paired session_id cs s i) (Hfree : is_Some (get_new_session (table s))) (Hfd : fd <> -1)
    (Hcid : (length cid <= CONNECT_ID_LEN)%nat)
    (Hnew : cid ∉ c_id (main_conn (session_at s i)) :: (c_id <$> task_conns (session_at s i))) :
  exists o s', let cs' := Connections (main cs) (o :: tasks cs) (need_reconnect cs) in
    every_run_ends (Network (add_task_connect (fun _ => fd) session_id cs) (serve (S n) fd addr cid port s) [] [])
      (Network (Ret (cs', 0)) (Ret (s', KeepSocket)) [] [])
    /\ paired session_id cs' s' i /\ c_sock (own o) = fd /\ c_id (own o) = cid
    /\ tail (task_conns (session_at s' i)) = task_conns (session_at s i).
Proof.
  destruct (append_run cs s i (fun _ => fd) fd addr cid port n) as (s' & HP & _ & _ & Ht & Hrun); [done..|].
  eexists _, s'. split; [apply run_ends; [exact Hrun|apply final_done]|]. split; [exact HP|]. by rewrite Ht.
Qed.

Lemma updating_paired cs s i : paired session_id cs s i -> paired session_id cs (set_all_conns_updating s) i
  /\ session_at (set_all_conns_updating s) i = with_task_conns (set_conn_updating <$> task_conns (session_at s i)) (session_at s i)
  /\ (is_Some (get_new_session (table s)) -> is_Some (get_new_session (table (set_all_conns_updating s)))).
Proof.
  intros [Hf Hnd Hshort Ht Hm]. pose proof Hf as (Hi & [Hc Hs] & Hb)%list_find_Some.
  assert (Hat : session_at (set_all_conns_updating s) i
    = with_task_conns (set_conn_updating <$> task_conns (session_at s i)) (session_at s i)).
  { unfold set_all_conns_updating, with_table. unfold session_at at 1. cbn [table].
    rewrite list_lookup_fmap, Hi. cbn. by rewrite Hc. }
  split; [|split; [done|]].
  - split; rewrite ?Hat; cbn [with_task_conns task_conns main_conn]; try done.
    + apply list_find_Some. cbn [set_all_conns_updating with_table table]. rewrite list_lookup_fmap, Hi. cbn. rewrite Hc.
      split; [done|]. split; [done|]. intros j y Hj Hlt Hy. rewrite list_lookup_fmap in Hj.
      destruct (table s !! j) as [x|] eqn:Ex; [|done]. cbn in Hj. injection Hj as <-.
      eapply Hb; [exact Ex|done|]. destruct (client_connected x) eqn:Ec;
        [by split; [|apply Hy]|destruct Hy; congruence].
    + rewrite <- list_fmap_compose. exact Hnd.
    + by apply Forall_fmap.
    + apply Forall2_fmap_r. eapply Forall2_impl; [exact Ht|]. done.
  - unfold get_new_session. destruct (list_find _ (table s)) as [[k x]|] eqn:E; [|by intros [? ?]]. intros _.
    destruct (list_find _ (table (set_all_conns_updating s))) as [[k' x']|] eqn:E'; [by eexists|].
    apply list_find_Some in E as (Hk & Hx & _). apply list_find_None in E'. rewrite Forall_forall in E'.
    exfalso. apply (E' x); [|done]. apply list_elem_of_lookup. exists k.
    cbn [set_all_conns_updating with_table table]. rewrite list_lookup_fmap, Hk. cbn. by rewrite Hx.
Qed.

(** The sockets of all task connections. *)
Definition task_socks (s : server) : list Z :=
  c_sock <$> (filter (fun t => client_connected t = true) (table s) ≫= task_conns).

(** The notification arrives as it was: sending leaves it alone, or it is sent
    once. *)
Definition told_right (socks : list Z) : Prop := (forall n, left_len n = n) \/ (length socks <= 1)%nat.

Lemma updating_task_socks s : task_socks (set_all_conns_updating s) = task_socks s.
Proof.
  unfold task_socks. cbn [set_all_conns_updating with_table table]. induction (table s) as [|t l IH]; [done|].
  rewrite fmap_cons, !filter_cons. destruct (client_connected t) eqn:E.
  - rewrite !decide_True by done. rewrite !bind_cons, !fmap_app, IH. f_equal.
    cbn [with_task_conns task_conns]. rewrite <- list_fmap_compose. by apply list_fmap_ext.
  - rewrite !decide_False by congruence. exact IH.
Qed.

Lemma notified socks port sock : told_right socks -> sock ∈ socks -> (sock, PortUpdateReq port) ∈ notify_conns socks port.
Proof.
  intros [Hcopy|Hone].
  - clear -Hcopy. induction socks as [|x socks IH]; [by intros ?%not_elem_of_nil|]. cbn. rewrite Hcopy.
    intros [->|Hin]%elem_of_cons; [by left|right; auto].
  - destruct socks as [|x [|y socks]]; [by intros ?%not_elem_of_nil| |simpl in Hone; lia].
    intros ->%list_elem_of_singleton. by left.
Qed.

Lemma updating_notified cs s i port c : told_right (task_socks s) -> paired session_id cs s i ->
  c ∈ task_conns (session_at s i) ->
  (c_sock c, PortUpdateReq port) ∈ notify_client_after_updating (set_all_conns_updating s) port.
Proof.
  intros Hright HP Hc. apply notified; [fold (task_socks (set_all_conns_updating s)); by rewrite updating_task_socks|].
  destruct (updating_paired _ _ _ HP) as ([Hf' _ _ _ _] & Hat & _).
  apply list_find_Some in Hf' as (Hi & [Hconn _] & _).
  apply list_elem_of_fmap. exists (set_conn_updating c). split; [done|].
  apply list_elem_of_bind. exists (session_at (set_all_conns_updating s) i). split.
  - rewrite Hat. by apply list_elem_of_fmap_2.
  - apply list_elem_of_filter. split; [done|]. by eapply list_elem_of_lookup_2.
Qed.

(** C8: The change of port.  When the server has moved its second port, each task
    connection of a client is told the new one; whatever the order in which the
    client's threads answer, and under every schedule of each exchange, every
    task connection is opened again on the new port and, before the next
    command, the main connection as well.  Afterwards client and session agree
    on all connections again, each with its identifier, its new socket and
    nothing marked as updating.  This is so when the server has a single task
    connection, or sending leaves the request that is sent to all of them as it
    was, as it does in the XDR build: the raw serialiser tells every second
    connection another port ([second_notification_swapped]).  The new ports differ from the old ones,
    the new sockets are there, and the client has a task connection. *)
Theorem port_update_restores
    cs s i main_port second_port second_sock port sock rs m
    (Hright : told_right (task_socks s))
    (Hpaired : paired session_id cs s i) (Hfree : is_Some (get_new_session (table s)))
    (Hdue : main_port <> port /\ second_port <> port /\ sock <> -1)
    (Hlast : last_port (main cs) <> port /\ Forall (fun o => last_port o <> port) (tasks cs))
    (Hrounds : r_conn <$> rs ≡ₚ seq 0 (length (tasks cs))) (Htasks : tasks cs <> [])
    (Hfds : Forall (fun r => r_fd r <> -1) rs /\ r_fd m <> -1) :
  exists s0 msgs cs1 s1 cs2 s2,
    update_second_port main_port second_port second_sock port sock s = (port, sock, s0, msgs)
    /\ (forall c, c ∈ task_conns (session_at s i) -> (c_sock c, PortUpdateReq port) ∈ msgs)
    /\ port_rounds port rs (cs, s0) (cs1, s1)
    /\ every_run_ends
         (Network (reconnect_before_cmd (fun _ => r_fd m) session_id cs1)
            (serve 1 (r_fd m) (r_addr m) (r_cid m) (r_port m) s1) [] [])
         (Network (Ret (cs2, 0)) (Ret (s2, KeepSocket)) [] [])
    /\ paired session_id cs2 s2 i
    /\ Forall (fun r => exists o c, tasks cs2 !! r_conn r = Some o /\ task_conns (session_at s2 i) !! r_conn r = Some c
         /\ c_sock (own o) = r_fd r /\ c_port (own o) = port /\ last_port o = port
         /\ is_updating (own o) = 0 /\ is_updating c = 0) rs
    /\ c_sock (own (main cs2)) = r_fd m /\ c_port (own (main cs2)) = port /\ need_reconnect cs2 = false.
Proof.
  destruct Hdue as (Hd1 & Hd2 & Hd3), Hlast as [Hlm Hlt], Hfds as [Hfds Hfm].
  destruct (updating_paired _ _ _ Hpaired) as (HP0 & Hat0 & Hfree0).
  assert (Hrs : rs <> []).
  { intros ->. apply (Permutation_length (l := [])) in Hrounds. rewrite length_seq in Hrounds. by destruct (tasks cs). }
  destruct (rounds_run port i rs cs (set_all_conns_updating s)) as
    (cs1 & s1 & Hrun & HP1 & Hfree1 & _ & Hlm1 & Hneed & _ & Hdone); [done|by apply Hfree0| | |].
  { rewrite Hrounds. apply NoDup_seq. }
  { apply Forall_forall. intros r Hr. split; [by apply (proj1 (Forall_forall _ _) Hfds)|].
    assert (Hk : r_conn r ∈ seq 0 (length (tasks cs))) by (rewrite <- Hrounds; by apply list_elem_of_fmap_2).
    apply elem_of_seq in Hk. destruct (lookup_lt_is_Some_2 (tasks cs) (r_conn r)) as [o Ho]; [lia|].
    exists o. split; [done|]. by apply (proj1 (Forall_lookup _ _) Hlt (r_conn r) o). }
  destruct (Hneed Hrs Hlm) as [Hn1 Hp1].
  destruct (main_run cs1 s1 i (r_fd m) (r_addr m) (r_cid m) (r_port m) 0) as (s2 & HP2 & _ & Ht2 & Hrun2); [done..| |done|].
  { congruence. }
  eexists _, _, cs1, s1, _, s2. split; [|split; [|split; [exact Hrun|split; [apply run_ends; [exact Hrun2|apply final_done]|]]]].
  - unfold update_second_port. by rewrite (proj2 (Z.eqb_neq _ _) Hd1), (proj2 (Z.eqb_neq _ _) Hd2), (proj2 (Z.eqb_neq _ _) Hd3).
  - intros c Hc. by eapply updating_notified.
  - split; [exact HP2|]. split; [|done]. eapply Forall_impl; [exact Hdone|].
    intros r [(o & Ho) (c & Hc)]. exists (updated port (r_fd r) o), (renewed (r_fd r) c). by rewrite Ht2.
Qed.
End Protocols.

(** ** A client with one task connection *)

Definition demo_host : host :=
  Host (fun _ => []) (fun _ => None) (fun _ _ => None) (fun _ => None) 0 (fun _ => 0) (0, 0, 0, 0) (VersionInfo 0 1 0).

Definition demo_server : server :=
  Server [Session (ascii_bytes "10.0.0.2") (Conn 5 4001 CONN_TYPE_CTRL (ascii_bytes "m") 1 0)
            [Conn 6 4002 CONN_TYPE_TASK (ascii_bytes "t") 0 0] ACTIVE [47] (ascii_bytes "s1") (UserBase 1 [97] [47]);
          init_client_session] (Fsys ∅ ∅).

Definition demo_connections : connections :=
  Connections (OwnConn (Conn 5 3100 CONN_TYPE_CTRL (ascii_bytes "m") 0 0) 3100)
    [OwnConn (Conn 6 3100 CONN_TYPE_TASK (ascii_bytes "t") 0 0) 0] false.

Lemma demo_paired : paired (ascii_bytes "s1") demo_connections demo_server 0.
Proof.
  split; [reflexivity| | | |].
  - by apply (bool_decide_unpack _).
  - repeat constructor; simpl; unfold CONNECT_ID_LEN; lia.
  - by repeat constructor.
  - split; [done|]. split; [done|]. simpl. unfold CONNECT_ID_LEN. lia.
Qed.

#[local] Abbreviation demo_serve fd cid s := (serve_client (T := ll_copying) (TG := get_copying)
  demo_host (fun _ => []) 1 1 [] 1 fd (ascii_bytes "10.0.0.2") cid 4003 s).

Lemma append_conn_pairs_witness : exists o s',
  every_run_ends
    (Network (add_task_connect (fun _ => 9) (ascii_bytes "s1") demo_connections) (demo_serve 9 (ascii_bytes "n") demo_server) [] [])
    (Network (Ret (Connections (main demo_connections) (o :: tasks demo_connections) false, 0)) (Ret (s', KeepSocket)) [] [])
  /\ c_sock (own o) = 9.
Proof.
  destruct (append_conn_pairs (T := ll_copying) (TG := get_copying) demo_host (fun _ => []) 1 1 [] (ascii_bytes "s1")
    ltac:(done) ltac:(simpl; unfold SESSION_ID_LEN; lia) demo_connections demo_server 0 9 (ascii_bytes "10.0.0.2") (ascii_bytes "n") 4003 0)
    as (o & s' & Hrun & _ & Ho & _); [apply demo_paired|by eexists|done|simpl; unfold CONNECT_ID_LEN; lia|
      by apply (bool_decide_unpack _)|].
  exists o, s'. split; [exact Hrun|exact Ho].
Defined.

Lemma port_update_restores_witness : exists s0 msgs cs2 s2,
  update_second_port (T := ll_copying) 3009 3100 4 3200 7 demo_server = (3200, 7, s0, msgs)
  /\ (6, PortUpdateReq 3200) ∈ msgs /\ paired (ascii_bytes "s1") cs2 s2 0 /\ c_sock (own (main cs2)) = 11.
Proof.
  destruct (port_update_restores (T := ll_copying) (TG := get_copying) demo_host (fun _ => []) 1 1 [] (ascii_bytes "s1")
    ltac:(done) ltac:(simpl; unfold SESSION_ID_LEN; lia) demo_connections demo_server 0 3009 3100 4 3200 7
    [Round 0 10 (ascii_bytes "10.0.0.2") (ascii_bytes "n") 4003] (Round 0 11 (ascii_bytes "10.0.0.2") (ascii_bytes "o") 4004))
    as (s0 & msgs & cs1 & s1 & cs2 & s2 & Hupd & Hmsgs & _ & _ & HP & _ & Hm & _);
    [by left|apply demo_paired|by eexists|done|by repeat constructor|done|done|by repeat constructor|].
  exists s0, msgs, cs2, s2. split; [exact Hupd|]. split; [|split; [exact HP|exact Hm]].
  apply (Hmsgs (Conn 6 4002 CONN_TYPE_TASK (ascii_bytes "t") 0 0)). by left.
Defined.

(** With the raw serialiser, which reverses the request in place, the second
    connection is told another port. *)
Example second_notification_swapped :
  notify_conns (T := ll_raw) [6; 8] 3200 = [(6, PortUpdateReq 3200); (8, PortUpdateReq (swap_i32 3200))]
  /\ swap_i32 3200 <> 3200.
Proof. split; [reflexivity|by vm_compute]. Qed.
