(* ===== verification/Login.v ===== *)
(** * Logging in (src/client.c, src/server.c)

    A client that has connected to the second port sends its name and the
    digest of its password.  These theorems start the agreement on connections
    that Connection keeps, and say when a login is refused. *)

From S2P Require Import Prelude CStr Version Md5 Process FileSystem FilePut FileGet UpdateLock Messages Sessions Server Client Connection.

Definition with_id (id : list Z) (c : client_sock_conn) := Conn (c_sock c) (c_port c) (c_type c) id (is_using c) (is_updating c).

Section Login.
Context {T : Sent} {TG : GetTransport}.
Context (h my : host) (select_user : list Z -> list row) (files fuel : nat) (new_id : list Z).
#[local] Abbreviation serve := (serve_client h select_user files fuel new_id).

#[local] Ltac head := cbn [mbind prog_bind mret prog_ret Process.send Process.recv lift receive].
#[local] Ltac to_right := eapply rtc_trans; [apply pass_right|]; head.
#[local] Ltac to_left := eapply rtc_trans; [apply pass_left|]; head.

(** Why the login is refused, if it is: the client's version, an unknown name or
    a wrong password. *)
Definition refusal (name md5 : list Z) : option Z :=
  if (check_version (h_version my) (h_version h) [] (RESP_MESSAGE_MAX_LEN - 1)).1 =? -1 then Some RESP_UVS_BAD_VER else
  match find_user_base_by_name (select_user name), find_user_auth_by_name (select_user name) with
  | Some None, Some _ => Some RESP_UVS_NTFD
  | Some (Some _), Some (Some stored) => if decide (stored = md5) then None else Some RESP_UVS_INVALID
  | _, _ => None
  end.

Definition logged_in (c : client) (base : user_base_info) (cid : list Z) : client :=
  Client (take (DIR_PATH_MAX_LEN - 1) (home_dir base)) (take (SESSION_ID_LEN - 1) new_id) (u32 (uid base))
    cid (friends c) (directcmd c) (cl_disk c).

(** The session of someone who has logged in. *)
Definition open_session (fd : Z) (addr cid : list Z) (port : Z) (base : user_base_info) : client_session :=
  Session (take (IPV4_MAX_LEN - 1) addr) (Conn fd port CONN_TYPE_CTRL cid 0 0) [] ACTIVE
    (take (DIR_PATH_MAX_LEN - 1) (home_dir base)) (take (SESSION_ID_LEN - 1) new_id) base.

Lemma alter_insert_eq {A} (f : A -> A) (j : nat) (l : list A) x : alter f j (<[j:=x]> l) = <[j:=f x]> l.
Proof. revert j. induction l as [|y l IH]; intros [|j]; simpl; [done..|]. f_equal. apply IH. Qed.

(** The steps of a login. *)
Lemma login_runs c user passwd md5 base s fd addr cid port n
    (Hmd5 : passwd_digest passwd = Some md5)
    (Hver : compatible (h_version my) (h_version h))
    (Hbase : find_user_base_by_name (select_user (take (USER_NAME_MAX_LEN - 1) user)) = Some (Some base))
    (Hauth : find_user_auth_by_name (select_user (take (USER_NAME_MAX_LEN - 1) user)) = Some (Some md5))
    (Hhome : file_existed (disk s) (home_dir base) = true)
    (Hfree : is_Some (get_new_session (table s))) (Hcid : (length cid <= CONNECT_ID_LEN)%nat) :
  exists j, (j < length (table s))%nat /\ client_connected (session_at s j) = false
    /\ rtc step
      (Network (validate_user_base_info my c user passwd) (serve (S n) fd addr cid port s) [] [])
      (Network (Ret (logged_in c base cid, 1))
         (handle_client_session h select_user n files fuel j new_id (with_table (<[j:=open_session fd addr cid port base]> (table s)) s)) [] []).
Proof.
  destruct (accept_spec s fd addr cid port Hfree) as (j & Hj & Hc & Eacc). exists j. split; [done|]. split; [done|].
  set (s1 := with_table (<[j:=new_session fd addr cid port]> (table s)) s) in *.
  set (s' := with_table (<[j:=open_session fd addr cid port base]> (table s)) s).
  unfold serve_client. rewrite Eacc. unfold validate_user_base_info. rewrite Hmd5.
  cbn [handle_client_session]. head. to_right. cbn [handle_request]. unfold validate_user_info.
  pose proof (check_version_gate (h_version my) (h_version h) [] (RESP_MESSAGE_MAX_LEN - 1) ltac:(done)) as Hgate.
  destruct (check_version _ _ _ _) as [ret message]. case_decide as Hret; [|by destruct Hgate as (_ & ? & _)].
  rewrite Hret. change (0 =? -1) with false. cbv iota.
  rewrite Hbase, Hauth. head. rewrite bool_decide_eq_true_2 by done. cbn [negb].
  change (disk s1) with (disk s). rewrite Hhome. cbn [negb]. head. to_left.
  rewrite Z.eqb_refl. cbv iota.
  rewrite !take_take, !Nat.min_id. unfold s1 at 1 2. rewrite session_at_insert by done. cbn [main_conn new_session c_id].
  rewrite (take_ge cid) by done. unfold logged_in.
  replace (update_session _ j s1) with s'; [destruct n; reflexivity|].
  unfold s', s1, update_session, with_table. cbn [table disk]. f_equal. by rewrite alter_insert_eq.
Qed.

(** C9: Logging in.  With a version that fits, the right password and a home
    directory that exists, client and server agree, whatever the schedule: on
    the session's identifier, on the working directory and on the main
    connection, and the session serves its next request.  From here on
    [append_conn_pairs] and [port_update_restores] apply. *)
Theorem login_pairs c user passwd md5 base s fd addr cid port own_port n
    (Hmd5 : passwd_digest passwd = Some md5)
    (Hver : compatible (h_version my) (h_version h))
    (Hbase : find_user_base_by_name (select_user (take (USER_NAME_MAX_LEN - 1) user)) = Some (Some base))
    (Hauth : find_user_auth_by_name (select_user (take (USER_NAME_MAX_LEN - 1) user)) = Some (Some md5))
    (Hhome : file_existed (disk s) (home_dir base) = true)
    (Hfree : is_Some (get_new_session (table s))) (Hcid : (length cid <= CONNECT_ID_LEN)%nat)
    (Hfresh : forall t, t ∈ table s -> client_connected t = true ->
       take SESSION_ID_LEN (s_session_id t) <> take (SESSION_ID_LEN - 1) new_id)
    (Hnew : take (SESSION_ID_LEN - 1) new_id <> []) :
  exists j s', let c' := logged_in c base cid in
    every_run_ends
      (Network (validate_user_base_info my c user passwd) (serve (S n) fd addr cid port s) [] [])
      (Network (Ret (c', 1)) (handle_client_session h select_user n files fuel j new_id s') [] [])
    /\ session_at s' j = open_session fd addr cid port base
    /\ cl_session_id c' = s_session_id (session_at s' j) /\ cl_pwd c' = s_pwd (session_at s' j)
    /\ paired (cl_session_id c')
         (Connections (OwnConn (Conn fd own_port CONN_TYPE_CTRL (cl_connect_id c') 0 0) own_port) [] false) s' j.
Proof.
  destruct (login_runs c user passwd md5 base s fd addr cid port n Hmd5 Hver Hbase Hauth Hhome Hfree Hcid) as (j & Hj & Hc & Hrun).
  set (s' := with_table (<[j:=open_session fd addr cid port base]> (table s)) s) in *.
  assert (Hat : session_at s' j = open_session fd addr cid port base) by by apply session_at_insert.
  exists j, s'. split; [|split; [done|split; [by rewrite Hat|split; [by rewrite Hat|]]]].
  - apply run_ends; [|destruct n; [apply final_done|apply final_right_waits]].
    exact Hrun.
  - split; rewrite ?Hat.
    + apply list_find_Some. cbn [logged_in cl_session_id]. split; [by apply list_lookup_insert_eq|].
      split; [done|]. intros k t Hk Hlt [Ht1 Ht2]. rewrite take_take in Ht2.
      cbn [s' with_table table] in Hk. rewrite list_lookup_insert_ne in Hk by lia.
      eapply Hfresh; [by eapply list_elem_of_lookup_2|exact Ht1|]. rewrite Ht2. f_equal.
    + cbn. apply NoDup_singleton.
    + constructor.
    + constructor.
    + done.
Qed.

(** A login that is refused.  With another series of versions, an unknown name
    or a wrong password the client gets -1, whatever the schedule, and is as it
    was; the session stays without an identifier, so that no request finds it. *)
Theorem login_refused c user passwd md5 code s fd addr cid port n
    (Hmd5 : passwd_digest passwd = Some md5)
    (Hrefused : refusal (take (USER_NAME_MAX_LEN - 1) user) md5 = Some code)
    (Hfree : is_Some (get_new_session (table s))) :
  exists j s',
    every_run_ends
      (Network (validate_user_base_info my c user passwd) (serve (S n) fd addr cid port s) [] [])
      (Network (Ret (c, -1)) (handle_client_session h select_user n files fuel j new_id s') [] [])
    /\ s_session_id (session_at s' j) = []
    /\ (forall k, k <> j -> session_at s' k = session_at s k) /\ disk s' = disk s.
Proof.
  destruct (accept_spec s fd addr cid port Hfree) as (j & Hj & Hc & Eacc).
  set (s1 := with_table (<[j:=new_session fd addr cid port]> (table s)) s) in *.
  exists j, s1. split; [|split; [unfold s1; by rewrite session_at_insert|split; [|done]]].
  - apply run_ends; [|destruct n; [apply final_done|apply final_right_waits]].
    unfold serve_client. rewrite Eacc. unfold validate_user_base_info. rewrite Hmd5.
    cbn [handle_client_session]. head. to_right. cbn [handle_request]. unfold validate_user_info.
    unfold refusal in Hrefused.
    destruct (check_version _ _ _ _) as [ret message]. cbn [fst] in Hrefused. destruct (ret =? -1).
    { head. to_left. destruct n; reflexivity. }
    destruct (find_user_base_by_name _) as [[base|]|], (find_user_auth_by_name _) as [[stored|]|]; try done.
    + case_decide as Hs; [done|]. head. rewrite bool_decide_eq_false_2 by done. cbn [negb]. head. to_left. destruct n; reflexivity.
    + head. to_left. destruct n; reflexivity.
    + head. to_left. destruct n; reflexivity.
  - intros k Hk. unfold s1. by rewrite session_at_insert_ne.
Qed.
End Login.

Definition demo_rows : list row :=
  [[(ascii_bytes "uid", Some (ascii_bytes "7")); (ascii_bytes "name", Some (ascii_bytes "ann"));
    (ascii_bytes "passwd_md5", Some (ascii_bytes "900150983cd24fb0d6963f7d28e17f72"));
    (ascii_bytes "home_dir", Some (ascii_bytes "/h"))]].

Definition demo_select (name : list Z) : list row := if decide (name = ascii_bytes "ann") then demo_rows else [].

Definition demo_empty : server := Server [init_client_session; init_client_session] (Fsys {[ ascii_bytes "/h" := Dir ]} ∅).

Definition demo_client : client := Client [] [] 0 [] [] false (Fsys ∅ ∅).

#[local] Abbreviation demo_serve := (serve_client (T := ll_copying) (TG := get_copying)
  demo_host demo_select 1 1 (ascii_bytes "sab1700000000cde0000") 1 5 (ascii_bytes "10.0.0.2") (ascii_bytes "1700000000000000") 4001 demo_empty).

Lemma login_pairs_witness : exists j s' q,
  every_run_ends (Network (validate_user_base_info demo_host demo_client (ascii_bytes "ann") (ascii_bytes "abc")) demo_serve [] [])
    (Network (Ret (Client (ascii_bytes "/h") (ascii_bytes "sab1700000000cde0000") 7 (ascii_bytes "1700000000000000") [] false (Fsys ∅ ∅), 1))
       q [] [])
  /\ s_pwd (session_at s' j) = ascii_bytes "/h".
Proof.
  destruct (login_pairs (T := ll_copying) (TG := get_copying) demo_host demo_host demo_select 1 1 (ascii_bytes "sab1700000000cde0000")
    demo_client (ascii_bytes "ann") (ascii_bytes "abc") (ascii_bytes "900150983cd24fb0d6963f7d28e17f72")
    (UserBase 7 (ascii_bytes "ann") (ascii_bytes "/h")) demo_empty 5 (ascii_bytes "10.0.0.2") (ascii_bytes "1700000000000000") 4001 3100 0)
    as (j & s' & Hrun & _ & _ & Hpwd & _).
  - vm_compute. reflexivity.
  - done.
  - vm_compute. reflexivity.
  - vm_compute. reflexivity.
  - vm_compute. reflexivity.
  - by eexists.
  - simpl. unfold CONNECT_ID_LEN. lia.
  - intros t Ht Hc. repeat (apply elem_of_cons in Ht as [->|Ht]; [done|]). by apply not_elem_of_nil in Ht.
  - done.
  - exists j, s'. eexists. split; [exact Hrun|by rewrite <- Hpwd].
Defined.

Lemma login_refused_witness : exists j s' q,
  every_run_ends (Network (validate_user_base_info demo_host demo_client (ascii_bytes "bob") (ascii_bytes "abc")) demo_serve [] [])
    (Network (Ret (demo_client, -1)) q [] [])
  /\ s_session_id (session_at s' j) = [].
Proof.
  destruct (login_refused (T := ll_copying) (TG := get_copying) demo_host demo_host demo_select 1 1 (ascii_bytes "sab1700000000cde0000")
    demo_client (ascii_bytes "bob") (ascii_bytes "abc") (ascii_bytes "900150983cd24fb0d6963f7d28e17f72") RESP_UVS_NTFD
    demo_empty 5 (ascii_bytes "10.0.0.2") (ascii_bytes "1700000000000000") 4001 0) as (j & s' & Hrun & Hid & _).
  - vm_compute. reflexivity.
  - vm_compute. reflexivity.
  - by eexists.
  - exists j, s'. eexists. split; [exact Hrun|exact Hid].
Defined.
