(* ===== verification/UserDb.v ===== *)
(** * The table of users and its shell (src/user.c, src/db.c, src/server.c)

    The database is sqlite: it takes the text of a statement and gives rows or
    an error.  What the statements that the program writes mean is the class
    [SqlLaws]; that a text which a name has turned into another statement
    means something else is a hypothesis where it is used. *)

From S2P Require Import Prelude CStr Version Md5 Process FileSystem FilePut FileGet CmdLine Messages Sessions Server Client Connection Login.

Abbreviation value := (option (list Z)).

(** [sqlite3_exec], with the rows that the callback gets or [None] for an
    error, and the flat array of [sqlite3_get_table]: the names of the columns,
    then the rows. *)
Class Sqlite := {
  db : Type;
  sqlite3_exec : db -> list Z -> db * option (list (list value));
  sqlite3_get_table : db -> list Z -> option (list value * nat * nat);
}.

(** ** Columns *)

Inductive col_type := INTEGER | REAL | TEXT | UNKNOWN_COL_TYPE.

Definition user_cols : list (list Z * col_type) :=
  [(ascii_bytes "uid", INTEGER); (ascii_bytes "name", TEXT); (ascii_bytes "passwd_md5", TEXT);
   (ascii_bytes "home_dir", TEXT); (ascii_bytes "create_time", INTEGER); (ascii_bytes "update_time", INTEGER)].

Fixpoint get_col_type (cols : list (list Z * col_type)) (col_name : list Z) : col_type :=
  match cols with
  | [] => UNKNOWN_COL_TYPE
  | (n, t) :: cols => if decide (n = col_name) then t else get_col_type cols col_name
  end.

(** [printf]'s [%d]. *)
Definition print_int (z : Z) : list Z := if z <? 0 then 45 :: print_dec 10 (- z) else print_dec 10 z.

(** What [col_fmt] prints of [col_value]; an integer read as a [double] has no
    meaning. *)
Definition col_text (t : col_type) (v : list Z) : option (list Z) :=
  match t with
  | INTEGER => Some (print_int (atoi v))
  | REAL => None
  | TEXT => Some v
  | UNKNOWN_COL_TYPE => None
  end.

(** ** Statements *)

Definition quoted (s : list Z) : list Z := 39 :: s ++ [39].

Definition select_text (name : list Z) : list Z := ascii_bytes "select * from user where name=" ++ quoted name.
Definition count_text : list Z := ascii_bytes "select count(*) from user".
Definition insert_text (uid : Z) (name passwd_md5 : list Z) : list Z :=
  ascii_bytes "insert into user values(" ++ print_int uid ++ ascii_bytes ", " ++ quoted name ++ ascii_bytes ", " ++ quoted passwd_md5 ++ ascii_bytes ")".
Definition update_text (key v : list Z) (ts : Z) (name : list Z) : list Z :=
  ascii_bytes "update user set " ++ key ++ ascii_bytes "=" ++ quoted v ++ ascii_bytes ", update_time=" ++ print_int (i32 ts)
    ++ ascii_bytes " where name=" ++ quoted name.

(** [sprintf] into an array of [n] bytes. *)
Definition sprintf (n : nat) (s : list Z) : option (list Z) := if (length s <? n)%nat then Some s else None.

Definition SQL_LEN : nat := 1024.
Definition cut_sql (s : list Z) : list Z := take (SQL_LEN - 2) s.

Section Users.
Context {DB : Sqlite}.

(** ** src/db.c *)

(** [None] is the result -1. *)
Definition db_select (d : db) (sql : list Z) : option (list row) :=
  '(pret, rows, cols) ← sqlite3_get_table d sql;
  if (rows =? 0)%nat || (cols =? 0)%nat then None else
  Some (map (fun i => map (fun j => (default [] (pret !! j ≫= id), pret !! (i * cols + j)%nat ≫= id)) (seq 0 cols)) (seq 1 rows)).

(** The callback of [db_select_count] for the rows in turn. *)
Fixpoint fetch_select_count_from_result (num : Z) (rows : list (list value)) : Z :=
  match rows with
  | [] => num
  | cols_val :: rows =>
      match cols_val with
      | Some v :: _ => fetch_select_count_from_result (atoi v) rows
      | _ => -1
      end
  end.

Definition db_select_count (d : db) (sql : list Z) : Z :=
  match (sqlite3_exec d sql).2 with None => -1 | Some rows => fetch_select_count_from_result (-1) rows end.

(** An error is printed and forgotten. *)
Definition db_insert (d : db) (sql : list Z) : db * Z := ((sqlite3_exec d sql).1, 0).
Definition db_update (d : db) (sql : list Z) : db * Z := ((sqlite3_exec d sql).1, 0).

(** ** src/user.c *)

Definition db_search_pathes : list (list Z) :=
  [ascii_bytes "/etc/sftt"; ascii_bytes "/root/sftt/db"; ascii_bytes "./db"; ascii_bytes "."].

Definition get_user_db_file (fs : fsys) : option (list Z) :=
  snd <$> list_find (fun p => file_existed fs p = true) (map (fun p => p ++ ascii_bytes "/user.db") db_search_pathes).

(** The statement of both [find] functions. *)
Definition user_rows (d : db) (name : list Z) : option (list row) :=
  sql ← sprintf SQL_LEN (select_text name); Some (default [] (db_select d sql)).

Definition find_user_base (d : db) (name : list Z) : option (option user_base_info) :=
  rows ← user_rows d name; find_user_base_by_name rows.

Definition find_user_auth (d : db) (name : list Z) : option (option (list Z)) :=
  rows ← user_rows d name; find_user_auth_by_name rows.

Definition get_user_count (d : db) : Z := db_select_count d count_text.

Definition user_add (d : db) (name passwd_md5 : list Z) : db * Z :=
  let count := get_user_count d in
  if count =? -1 then (d, -1) else
  let '(d, _) := db_insert d (cut_sql (insert_text (i32 (count + 1)) name passwd_md5)) in (d, 0).

Definition update_user_base_info (d : db) (name key v : list Z) (ts : Z) : option (db * Z) :=
  text ← col_text (get_col_type user_cols key) v;
  Some (db_update d (cut_sql (update_text key text ts name))).

(** ** The shell (src/server.c) *)

(** What is printed. *)
Inductive db_line :=
  | BadFormat
  | AlreadyExisted (name : list Z)
  | AddFailed
  | Added (name : list Z)
  | NotExisted (name : list Z)
  | BadKey (key : list Z)
  | NotFound (name : list Z)
  | Info (name : list Z) (uid : Z) (home : list Z) (create_time update_time : Z)
  | CannotParse
  | UnknownCommand (p : list Z).

Definition db_add_user (d : db) (info : list Z) : option (db * list db_line) :=
  match fetch_next_str info with
  | None => Some (d, [BadFormat])
  | Some (name, info) =>
      match fetch_next_str info with
      | None => Some (d, [BadFormat])
      | Some (passwd, info) =>
          base ← find_user_base d name;
          match base with
          | Some _ => Some (d, [AlreadyExisted name])
          | None =>
              passwd_md5 ← md5_str (zeroed 64) passwd;
              let '(d, ret) := user_add d name passwd_md5 in
              if ret =? -1 then Some (d, [AddFailed]) else Some (d, [Added name])
          end
      end
  end.

(** [ts] is the clock. *)
Definition db_update_user (d : db) (info : list Z) (ts : Z) : option (db * list db_line) :=
  match fetch_next_str info with
  | None => Some (d, [BadFormat])
  | Some (name, info) =>
      match fetch_next_str info with
      | None => Some (d, [BadFormat])
      | Some (key_name, info) =>
          match fetch_next_str info with
          | None => Some (d, [BadFormat])
          | Some (v, info) =>
              base ← find_user_base d name;
              match base with
              | None => Some (d, [NotExisted name])
              | Some _ =>
                  if decide (key_name = ascii_bytes "passwd") then
                    passwd_md5 ← md5_str (zeroed 64) v;
                    '(d, _) ← update_user_base_info d name (ascii_bytes "passwd_md5") passwd_md5 ts; Some (d, [])
                  else if decide (key_name = ascii_bytes "home_dir" \/ key_name = ascii_bytes "create_time") then
                    '(d, _) ← update_user_base_info d name key_name v ts; Some (d, [])
                  else Some (d, [BadKey key_name])
              end
          end
      end
  end.

(** The two times of [find_user_base_by_name], which [Sessions] leaves out. *)
Definition time_of (rows : list row) (key : list Z) : Z :=
  match rows with
  | [r] => match column r key with Some (Some v) => atoi v | _ => 0 end
  | _ => 0
  end.

Definition db_user_info (d : db) (cmd : list Z) : option (db * list db_line) :=
  match fetch_next_str cmd with
  | None => Some (d, [BadFormat])
  | Some (name, cmd) =>
      rows ← user_rows d name;
      base ← find_user_base_by_name rows;
      match base with
      | None => Some (d, [NotFound name])
      | Some b =>
          Some (d, [Info (ub_name b) (uid b) (home_dir b) (time_of rows (ascii_bytes "create_time")) (time_of rows (ascii_bytes "update_time"))])
      end
  end.

Definition execute_db_cmd (d : db) (cmd : list Z) (ts : Z) : option (db * list db_line) :=
  match fetch_next_str cmd with
  | None => Some (d, [CannotParse])
  | Some (p, cmd) =>
      if decide (p = ascii_bytes "adduser") then db_add_user d cmd
      else if decide (p = ascii_bytes "update") then db_update_user d cmd ts
      else if decide (p = ascii_bytes "info") then db_user_info d cmd
      else Some (d, [UnknownCommand p])
  end.

(** What is left of the line in the array: [fetch_next_str] ends its first
    word with a zero. *)
Definition kept (cmd : list Z) : list Z :=
  match skip_blanks cmd with
  | [] => cmd
  | p => take (length cmd - length (until_blank p).2) cmd
  end.

(** At the end of the input [fgets] leaves [cmd] as it is, and the loop takes
    one more character off it each time; [None] writes before the array. *)
Fixpoint db_loop_eof (fuel : nat) (d : db) (cmd : list Z) (ts : Z) (out : list db_line) : option (db * list db_line) :=
  match fuel with
  | O => None
  | S fuel =>
      match cmd with
      | [] => None
      | _ =>
          let cmd := removelast cmd in
          if decide (cmd = ascii_bytes "quit") then Some (d, out) else
          '(d, printed) ← execute_db_cmd d cmd ts; db_loop_eof fuel d (kept cmd) ts (out ++ printed)
      end
  end.

(** The loop of [sftt_server_db] for the lines that are typed, each shorter
    than the array; [cmd] is what is in it. *)
Fixpoint sftt_server_db (d : db) (cmd : list Z) (lines : list (list Z)) (ts : Z) (out : list db_line) : option (db * list db_line) :=
  match lines with
  | [] => db_loop_eof (S (length cmd)) d cmd ts out
  | cmd :: lines =>
      if decide (cmd = ascii_bytes "quit") then Some (d, out) else
      '(d, printed) ← execute_db_cmd d cmd ts; sftt_server_db d (kept cmd) lines ts (out ++ printed)
  end.
End Users.

(** ** What the statements mean *)

Definition quote_free (s : list Z) : Prop := 39 ∉ s.
Definition col_names : list (list Z) := user_cols.*1.

(** The array for some rows of the table: nothing when there are none. *)
Definition table_of (rows : list (list value)) : list value * nat * nat :=
  match rows with [] => ([], 0%nat, 0%nat) | _ => (map Some col_names ++ concat rows, length rows, length col_names) end.

Definition col (key : list Z) (r : list value) : value := column (combine col_names r) key ≫= id.

(** A row with the value [v] in the column [key]. *)
Definition set_col (key v : list Z) (r : list value) : list value :=
  zip_with (fun n x => if decide (n = key) then Some v else x) col_names r.

Definition updated (key v : list Z) (ts : Z) (name : list Z) (r : list value) : list value :=
  if decide (col (ascii_bytes "name") r = Some name) then set_col (ascii_bytes "update_time") (print_int (i32 ts)) (set_col key v r) else r.

Definition named (name : list Z) (rows : list (list value)) : list (list value) :=
  filter (fun r => col (ascii_bytes "name") r = Some name) rows.

(** The statements of the program on a table of six columns, as sqlite
    documents them: a quoted string ends at the next quote, and an insertion
    supplies one value for each column or fails. *)
Class SqlLaws (DB : Sqlite) := {
  users : db -> list (list value);
  users_wide d : Forall (fun r => length r = 6%nat) (users d);
  select_law d name : quote_free name -> sqlite3_get_table d (select_text name) = Some (table_of (named name (users d)));
  count_law d : exists d', sqlite3_exec d count_text = (d', Some [[Some (print_int (Z.of_nat (length (users d))))]]) /\ users d' = users d;
  insert_law d uid name md5 : quote_free name -> quote_free md5 ->
    exists d', sqlite3_exec d (insert_text uid name md5) = (d', None) /\ users d' = users d;
  update_law d key v ts name : key ∈ [ascii_bytes "passwd_md5"; ascii_bytes "home_dir"; ascii_bytes "create_time"] ->
    quote_free v -> quote_free name ->
    exists d', sqlite3_exec d (update_text key v ts name) = (d', Some []) /\ users d' = map (updated key v ts name) (users d);
}.

(** ** Rows of six columns *)

Section Proofs.
Context {DB : Sqlite} {SL : SqlLaws DB}.

Lemma wide_row (r : list value) : length r = 6%nat -> exists a b c d e f, r = [a; b; c; d; e; f].
Proof. intros H. do 6 (destruct r as [|? r]; [done|]). destruct r; [|done]. repeat eexists. Qed.

Lemma concat_lookup {A} (k : nat) (rows : list (list A)) : Forall (fun r => length r = k) rows ->
  forall i j, (j < k)%nat -> concat rows !! (i * k + j)%nat = rows !! i ≫= fun r => r !! j.
Proof.
  induction 1 as [|r rows Hr _ IH]; intros i j Hj; [done|]. cbn [concat]. destruct i as [|i].
  - cbn [Nat.mul Nat.add]. by rewrite lookup_app_l by lia.
  - rewrite lookup_app_r by lia. replace (S i * k + j - length r)%nat with (i * k + j)%nat by lia. by apply IH.
Qed.

Lemma map_seq_lookup {A B} (f : nat -> B) (g : A -> B) l : forall k, (forall i x, l !! i = Some x -> f (k + i)%nat = g x) ->
  map f (seq k (length l)) = map g l.
Proof.
  induction l as [|y l IH]; intros k Hf; [done|]. cbn [length seq map]. f_equal.
  - rewrite <- (Nat.add_0_r k). by apply Hf.
  - apply IH. intros i x Hi. rewrite <- (Hf (S i) x Hi). f_equal. lia.
Qed.

Lemma row_of_table rows i r : Forall (fun r => length r = 6%nat) rows -> rows !! i = Some r ->
  map (fun j => (default [] ((map Some col_names ++ concat rows) !! j ≫= id), (map Some col_names ++ concat rows) !! (S i * 6 + j)%nat ≫= id)) (seq 0 6)
  = combine col_names r.
Proof.
  intros Hw Hi. assert (Hr : length r = 6%nat) by exact (Forall_lookup_1 _ _ _ _ Hw Hi).
  assert (Hj : forall j, (j < 6)%nat -> (map Some col_names ++ concat rows) !! (S i * 6 + j)%nat = r !! j).
  { intros j Hj. rewrite lookup_app_r by (cbn; lia). change (length (map Some col_names)) with 6%nat.
    replace (S i * 6 + j - 6)%nat with (i * 6 + j)%nat by lia. rewrite (concat_lookup 6) by done. by rewrite Hi. }
  change (seq 0 6) with [0; 1; 2; 3; 4; 5]%nat. cbn [map]. rewrite !Hj by lia.
  destruct (wide_row r Hr) as (a & b & c & d & e & f & ->). reflexivity.
Qed.

Lemma db_select_table d sql rows : Forall (fun r => length r = 6%nat) rows -> sqlite3_get_table d sql = Some (table_of rows) ->
  default [] (db_select d sql) = map (combine col_names) rows.
Proof.
  intros Hw E. unfold db_select. rewrite E. cbn [mbind option_bind]. destruct rows as [|r0 rows']; [done|]. unfold table_of.
  set (rows := r0 :: rows') in *. change ((length rows =? 0)%nat || (length col_names =? 0)%nat) with false. cbv iota. cbn [default].
  apply map_seq_lookup. intros i r Ei. by apply row_of_table.
Qed.

Lemma named_wide d name : Forall (fun r => length r = 6%nat) (named name (users d)).
Proof. apply Forall_forall. intros r [_ Hin]%list_elem_of_filter. pose proof (users_wide d) as H. rewrite Forall_forall in H. by apply H. Qed.

Lemma user_rows_spec d name : quote_free name ->
  user_rows d name = (_ ← sprintf SQL_LEN (select_text name); Some (map (combine col_names) (named name (users d)))).
Proof.
  intros Hq. unfold user_rows, sprintf. destruct (_ <? _)%nat; [|done]. cbn [mbind option_bind]. f_equal.
  apply db_select_table; [apply named_wide|by apply select_law].
Qed.

Lemma select_fits name : (length name < 980)%nat -> sprintf SQL_LEN (select_text name) = Some (select_text name).
Proof.
  intros Hl. unfold sprintf, select_text, quoted. rewrite length_app, length_cons, length_app. cbn [length].
  change (length (ascii_bytes "select * from user where name=")) with 30%nat.
  rewrite (proj2 (Nat.ltb_lt _ _)) by (unfold SQL_LEN; lia). done.
Qed.

Lemma user_rows_short d name : quote_free name -> (length name < 980)%nat ->
  user_rows d name = Some (map (combine col_names) (named name (users d))).
Proof. intros Hq Hl. rewrite user_rows_spec, select_fits by done. done. Qed.

Lemma col_name_row a b c d e f : col (ascii_bytes "name") [a; b; c; d; e; f] = b.
Proof. reflexivity. Qed.

Lemma updated_name key v ts name r : key <> ascii_bytes "name" -> length r = 6%nat ->
  col (ascii_bytes "name") (updated key v ts name r) = col (ascii_bytes "name") r.
Proof.
  intros Hk Hr. destruct (wide_row r Hr) as (a & b & c & d & e & f & ->). unfold updated. rewrite col_name_row. case_decide as Hb; [|done].
  unfold set_col. unfold col_names, user_cols. cbn [fmap list_fmap fst zip_with].
  rewrite (decide_False (P := ascii_bytes "name" = key)) by congruence. reflexivity.
Qed.

(** Another user's rows are the same after an update. *)
Lemma named_updated key v ts name other rows : key <> ascii_bytes "name" -> Forall (fun r => length r = 6%nat) rows -> other <> name ->
  named other (map (updated key v ts name) rows) = named other rows.
Proof.
  intros Hk Hw Hne. induction Hw as [|r rows Hr _ IH]; [done|]. cbn [map named]. unfold named in *. rewrite !filter_cons, updated_name, IH by done.
  case_decide as Hn; [|done]. f_equal. unfold updated. rewrite decide_False; [done|]. congruence.
Qed.

Lemma named_updated_same key v ts name rows : key <> ascii_bytes "name" -> Forall (fun r => length r = 6%nat) rows ->
  named name (map (updated key v ts name) rows)
  = map (fun r => set_col (ascii_bytes "update_time") (print_int (i32 ts)) (set_col key v r)) (named name rows).
Proof.
  intros Hk Hw. induction Hw as [|r rows Hr _ IH]; [done|]. cbn [map]. unfold named in *. rewrite !filter_cons, updated_name, IH by done.
  case_decide as Hn; [|done]. cbn [map]. f_equal. unfold updated. by rewrite decide_True.
Qed.

Lemma column_row a b c d e f : let r := combine col_names [a; b; c; d; e; f] in
  column r (ascii_bytes "uid") = Some a /\ column r (ascii_bytes "name") = Some b /\ column r (ascii_bytes "passwd_md5") = Some c
  /\ column r (ascii_bytes "home_dir") = Some d.
Proof. repeat split. Qed.

(** ** Words of a line *)

Definition word (s : list Z) : Prop := s <> [] /\ Forall (fun c => is_blank c = false) s.

Lemma until_blank_word w rest : Forall (fun c => is_blank c = false) w -> until_blank (w ++ 32 :: rest) = (w, 32 :: rest) /\ until_blank w = (w, []).
Proof. induction 1 as [|c w Hc _ [IH1 IH2]]; [done|]. cbn [app until_blank]. rewrite Hc, IH1, IH2. done. Qed.

Lemma fetch_user_word w rest : word w -> fetch_next_str (w ++ 32 :: rest) = Some (w, rest) /\ fetch_next_str w = Some (w, []).
Proof.
  intros [Hne Hw]. destruct w as [|c w]; [done|]. apply Forall_cons in Hw as [Hc Hw]. unfold fetch_next_str. cbn [app skip_blanks].
  rewrite Hc. cbn [until_blank]. rewrite Hc. by destruct (until_blank_word w rest Hw) as [-> ->].
Qed.

(** The digest of a word: 32 hexadecimal characters. *)
Lemma word_md5 p : p <> [] -> (length p < 1024)%nat ->
  exists md5, md5_str (zeroed 64) p = Some md5 /\ length md5 = 32%nat /\ quote_free md5.
Proof.
  intros Hne Hl. destruct (md5_str_file (zeroed 64) [] p) as (md5 & E & _ & Hlen & Hc & _); [done|constructor|unfold BLOCK_SIZE; lia|].
  exists md5. split; [done|]. split; [done|]. intros Hin. rewrite Forall_forall in Hc. apply Hc in Hin. unfold charset in Hin.
  repeat (apply elem_of_cons in Hin as [Hin|Hin]; [discriminate|]). by apply not_elem_of_nil in Hin.
Qed.

Lemma length_print_int z : (length (print_int z) <= 11)%nat.
Proof. unfold print_int. destruct (z <? 0); cbn [length]; [pose proof (length_print_dec 10 (- z))|pose proof (length_print_dec 10 z)]; lia. Qed.

Lemma cut_update key v ts name : (length key + length v + length name < 900)%nat -> cut_sql (update_text key v ts name) = update_text key v ts name.
Proof.
  intros Hl. apply take_ge. unfold update_text, quoted. rewrite !length_app, !length_cons, !length_app. cbn [length].
  pose proof (length_print_int (i32 ts)).
  change (length (ascii_bytes "update user set ")) with 16%nat. change (length (ascii_bytes "=")) with 1%nat.
  change (length (ascii_bytes ", update_time=")) with 14%nat. change (length (ascii_bytes " where name=")) with 12%nat.
  unfold SQL_LEN. lia.
Qed.

Lemma atoi_print_int z : 0 <= z -> in_i32 z -> atoi (print_int z) = z.
Proof.
  intros Hz Hi. unfold print_int. rewrite (proj2 (Z.ltb_ge _ _)) by done.
  destruct (print_dec_spec 10 z) as (Hd & Hv & Hne); [unfold in_i32 in Hi; lia|lia|].
  rewrite atoi_value, Hv by (done || by rewrite Hv). done.
Qed.

(** A user who has one row, with a number. *)
Definition one_user (d : db) (name : list Z) : Prop :=
  exists a c e f g, named name (users d) = [[Some a; Some name; c; e; f; g]].

Lemma passwd_update d name p ts : word name -> quote_free name -> (length name < 800)%nat -> word p -> (length p < 1024)%nat -> one_user d name ->
  exists d' md5, execute_db_cmd d (ascii_bytes "update" ++ 32 :: name ++ 32 :: ascii_bytes "passwd" ++ 32 :: p) ts = Some (d', [])
    /\ md5_str (zeroed 64) p = Some md5 /\ quote_free md5
    /\ users d' = map (updated (ascii_bytes "passwd_md5") md5 ts name) (users d).
Proof.
  intros Hw Hq Hl Hp Hlp (a & c & e & f & g & E). destruct (word_md5 p (proj1 Hp) Hlp) as (md5 & Em & Hl5 & Hq5).
  assert (W1 : word (ascii_bytes "update")) by (split; [done|repeat constructor]).
  assert (W2 : word (ascii_bytes "passwd")) by (split; [done|repeat constructor]).
  unfold execute_db_cmd. rewrite (proj1 (fetch_user_word _ _ W1)). rewrite decide_False, decide_True by done.
  unfold db_update_user. rewrite (proj1 (fetch_user_word _ _ Hw)), (proj1 (fetch_user_word _ _ W2)), (proj2 (fetch_user_word _ [] Hp)).
  unfold find_user_base. rewrite user_rows_short, E by (done || lia). cbn [map mbind option_bind]. unfold find_user_base_by_name.
  destruct (column_row (Some a) (Some name) c e f g) as (-> & -> & _ & ->).
  assert (Hrow : exists b, match e with None => Some (Some (UserBase (atoi a) name [])) | Some home => Some (Some (UserBase (atoi a) name home)) end = Some (Some b))
    by (destruct e; eauto). destruct Hrow as [b ->]. cbn [mbind option_bind].
  rewrite decide_True, Em by done. cbn [mbind option_bind]. unfold update_user_base_info.
  change (get_col_type user_cols (ascii_bytes "passwd_md5")) with TEXT. cbn [col_text mbind option_bind].
  rewrite cut_update by (change (length (ascii_bytes "passwd_md5")) with 10%nat; lia). unfold db_update.
  destruct (update_law d (ascii_bytes "passwd_md5") md5 ts name) as (d' & -> & Hd'); [by left|done|done|].
  cbn [fst]. exists d', md5. done.
Qed.

(** The check of a login with the table [d] and the row of the new password. *)
Lemma new_row_checks d name md5 a e f g (h my : host) :
  quote_free name -> (length name < 32)%nat -> compatible (h_version my) (h_version h) ->
  named name (users d) = [[Some a; Some name; Some md5; e; f; g]] ->
  let select_user n := default [] (user_rows d n) in
  find_user_base_by_name (select_user name) = Some (Some (UserBase (atoi a) name (default [] e)))
  /\ find_user_auth_by_name (select_user name) = Some (Some md5)
  /\ find_user_base d name = Some (Some (UserBase (atoi a) name (default [] e)))
  /\ forall other_md5, other_md5 <> md5 -> refusal h my select_user name other_md5 = Some RESP_UVS_INVALID.
Proof.
  intros Hq Hl Hver En select_user.
  assert (Hrow : user_rows d name = Some (map (combine col_names) (named name (users d)))) by (rewrite user_rows_short; [done|done|lia]).
  assert (Hbase : find_user_base_by_name (select_user name) = Some (Some (UserBase (atoi a) name (default [] e)))).
  { unfold select_user. rewrite Hrow, En. cbn [from_option id map]. unfold find_user_base_by_name.
    destruct (column_row (Some a) (Some name) (Some md5) e f g) as (-> & -> & _ & ->). by destruct e. }
  assert (Hauth : find_user_auth_by_name (select_user name) = Some (Some md5)).
  { unfold select_user. rewrite Hrow, En. cbn [from_option id map]. unfold find_user_auth_by_name.
    destruct (column_row (Some a) (Some name) (Some md5) e f g) as (_ & -> & -> & _). done. }
  split; [done|]. split; [done|]. split; [unfold find_user_base; by unfold select_user in Hbase; rewrite Hrow in *|].
  intros other Hne. unfold refusal. rewrite Hbase, Hauth.
  pose proof (check_version_gate (h_version my) (h_version h) [] (RESP_MESSAGE_MAX_LEN - 1) ltac:(done)) as Hgate.
  destruct (check_version _ _ _ _) as [ret message]. case_decide as Hret; [|by destruct Hgate as (_ & ? & _)].
  cbn [fst]. rewrite Hret. by rewrite decide_False.
Qed.

(** C21: A password changed in the shell is the one with which the user logs in.
    The table has one row for the name, which has less than 32 characters and no
    quotes; the client's version fits.  Then the update of the shell succeeds;
    in the row of the name the digest and the time of the update change, number,
    name, home directory and time of creation are kept, and so are the rows of
    all other names.  On a server with that table and a free session, and with
    the home directory there, a login with the new password ends under every
    schedule with the client logged in as that user and the session open, and a
    login with a password of another digest ends with -1 and the session not
    open. *)
Theorem new_password_logs_in {T : Sent} {TG : GetTransport} (h my : host) (files fuel : nat) (new_id : list Z)
    d name p ts c s fd addr cid port n
    (Hname : word name) (Hq : quote_free name) (Hl : (length name < 32)%nat)
    (Hp : word p) (Hlp : (length p < 1000)%nat) (Hone : one_user d name) (Hver : compatible (h_version my) (h_version h))
    (Hfree : is_Some (get_new_session (table s))) (Hcid : (length cid <= CONNECT_ID_LEN)%nat) :
  exists d' md5 base, execute_db_cmd d (ascii_bytes "update" ++ 32 :: name ++ 32 :: ascii_bytes "passwd" ++ 32 :: p) ts = Some (d', [])
    /\ passwd_digest p = Some md5
    /\ (exists uid old home created updated_before,
         named name (users d) = [[Some uid; Some name; old; home; created; updated_before]]
         /\ named name (users d') = [[Some uid; Some name; Some md5; home; created; Some (print_int (i32 ts))]])
    /\ (forall other, other <> name -> named other (users d') = named other (users d))
    /\ (forall other, quote_free other -> other <> name -> user_rows d' other = user_rows d other)
    /\ find_user_base d' name = Some (Some base) /\ find_user_base d name = Some (Some base)
    /\ let select_user n := default [] (user_rows d' n) in
       let login passwd := Network (validate_user_base_info my c name passwd)
                             (serve_client h select_user files fuel new_id (S n) fd addr cid port s) [] [] in
       (file_existed (disk s) (home_dir base) = true -> exists j s',
          every_run_ends (login p)
            (Network (Ret (logged_in new_id c base cid, 1)) (handle_client_session h select_user n files fuel j new_id s') [] [])
          /\ session_at s' j = open_session new_id fd addr cid port base)
       /\ forall other other_md5, passwd_digest other = Some other_md5 -> other_md5 <> md5 -> exists j s',
          every_run_ends (login other)
            (Network (Ret (c, -1)) (handle_client_session h select_user n files fuel j new_id s') [] [])
          /\ s_session_id (session_at s' j) = [] /\ forall k, k <> j -> session_at s' k = session_at s k.
Proof.
  destruct (passwd_update d name p ts Hname Hq ltac:(lia) Hp ltac:(lia) Hone) as (d' & md5 & E & Em & Hq5 & Hd').
  pose proof (users_wide d) as Hw. destruct Hone as (a & old & e & f & g & En).
  assert (Hk : ascii_bytes "passwd_md5" <> ascii_bytes "name") by done.
  assert (En' : named name (users d') = [[Some a; Some name; Some md5; e; f; Some (print_int (i32 ts))]]).
  { rewrite Hd', named_updated_same, En by done. reflexivity. }
  destruct (new_row_checks d' name md5 a e f _ h my Hq Hl Hver En') as (Hbase & Hauth & Hfind & Href).
  assert (Em' : passwd_digest p = Some md5) by (unfold passwd_digest; destruct p; [exfalso; by apply (proj1 Hp)|exact Em]).
  assert (Hcut : take (USER_NAME_MAX_LEN - 1) name = name) by (apply take_ge; unfold USER_NAME_MAX_LEN; lia).
  exists d', md5, (UserBase (atoi a) name (default [] e)). split; [done|]. split; [done|]. split; [by exists a, old, e, f, g|].
  split; [intros other Hne; by rewrite Hd', named_updated|].
  split; [intros other Ho Hne; rewrite !user_rows_spec by done; by rewrite Hd', named_updated|]. split; [done|]. split.
  { unfold find_user_base. rewrite user_rows_short, En by (done || lia). cbn [map mbind option_bind]. unfold find_user_base_by_name.
    destruct (column_row (Some a) (Some name) old e f g) as (-> & -> & _ & ->). by destruct e. }
  cbv zeta. split.
  - intros Hhome. destruct (login_runs h my (fun n => default [] (user_rows d' n)) files fuel new_id c name p md5 _ s fd addr cid port n
      Em' Hver ltac:(by rewrite Hcut) ltac:(by rewrite Hcut) Hhome Hfree Hcid) as (j & Hj & _ & Hrun).
    eexists j, _. split; [apply run_ends; [exact Hrun|destruct n; [apply final_done|apply final_right_waits]]|]. by apply session_at_insert.
  - intros other other_md5 Eo Hne. destruct (login_refused h my (fun n => default [] (user_rows d' n)) files fuel new_id c name other
      other_md5 RESP_UVS_INVALID s fd addr cid port n Eo ltac:(rewrite Hcut; by apply Href) Hfree) as (j & s' & Hrun & Hs & Hk' & _).
    by exists j, s'.
Qed.

(** No user can be added: the statement has three values for six columns, its
    error is ignored, and the shell reports success. *)
Theorem user_never_added d name p ts : word name -> quote_free name -> (length name < 800)%nat -> word p -> (length p < 1024)%nat ->
  named name (users d) = [] -> Z.of_nat (length (users d)) < 2 ^ 31 - 1 ->
  exists d', execute_db_cmd d (ascii_bytes "adduser" ++ 32 :: name ++ 32 :: p) ts = Some (d', [Added name]) /\ users d' = users d.
Proof.
  intros Hw Hq Hl Hp Hlp En Hn. destruct (word_md5 p (proj1 Hp) Hlp) as (md5 & Em & Hl5 & Hq5).
  assert (W1 : word (ascii_bytes "adduser")) by (split; [done|repeat constructor]).
  unfold execute_db_cmd. rewrite (proj1 (fetch_user_word _ _ W1)), decide_True by done.
  unfold db_add_user. rewrite (proj1 (fetch_user_word _ _ Hw)), (proj2 (fetch_user_word _ [] Hp)). unfold find_user_base.
  rewrite user_rows_short, En by (done || lia). cbn [map mbind option_bind find_user_base_by_name]. rewrite Em. cbn [mbind option_bind].
  unfold user_add, get_user_count, db_select_count. destruct (count_law d) as (d1 & -> & Hd1). cbn [snd fetch_select_count_from_result].
  assert (Hc : (atoi (print_int (Z.of_nat (length (users d)))) =? -1) = false).
  { apply Z.eqb_neq. rewrite atoi_print_int by (unfold in_i32; lia). lia. }
  rewrite Hc. unfold db_insert. set (uid := i32 _).
  assert (Hcut : cut_sql (insert_text uid name md5) = insert_text uid name md5).
  { apply take_ge. unfold insert_text, quoted. rewrite !length_app, !length_cons, !length_app. cbn [length]. pose proof (length_print_int uid).
    change (length (ascii_bytes "insert into user values(")) with 24%nat. change (length (ascii_bytes ", ")) with 2%nat.
    change (length (ascii_bytes ")")) with 1%nat. unfold SQL_LEN. lia. }
  rewrite Hcut. destruct (insert_law d uid name md5 Hq Hq5) as (d2 & -> & Hd2). cbn [fst]. exists d2. done.
Qed.

(** A name that ends the string of the statement asks for all rows; more than
    one of them fail the assertion, in the server as well, which runs the same
    statement before it knows who is there. *)
Theorem injected_name_crashes d : sqlite3_get_table d (select_text (ascii_bytes "' or '1'='1")) = Some (table_of (users d)) ->
  (1 < length (users d))%nat ->
  find_user_base d (ascii_bytes "' or '1'='1") = None /\ find_user_auth d (ascii_bytes "' or '1'='1") = None.
Proof.
  intros E Hn. assert (Hr : user_rows d (ascii_bytes "' or '1'='1") = Some (map (combine col_names) (users d))).
  { unfold user_rows. rewrite select_fits by (apply Nat.ltb_lt; reflexivity). cbn [mbind option_bind]. f_equal.
    apply db_select_table; [apply users_wide|done]. }
  unfold find_user_base, find_user_auth. rewrite Hr. cbn [mbind option_bind].
  destruct (users d) as [|r1 [|r2 l]]; [simpl in Hn; lia..|]. done.
Qed.
End Proofs.

(** A name that does not fit into the statement is written behind its array. *)
Theorem long_name_overflows `{Sqlite} d name rest : word name -> (991 < length name)%nat ->
  db_user_info d (name ++ 32 :: rest) = None /\ db_add_user d (name ++ 32 :: ascii_bytes "x") = None.
Proof.
  intros Hw Hl. unfold db_user_info, db_add_user. rewrite !(proj1 (fetch_user_word _ _ Hw)).
  assert (Hs : user_rows d name = None).
  { unfold user_rows, sprintf, select_text, quoted. rewrite length_app, length_cons, length_app. cbn [length].
    change (length (ascii_bytes "select * from user where name=")) with 30%nat.
    rewrite (proj2 (Nat.ltb_ge _ _)) by (unfold SQL_LEN; lia). done. }
  rewrite Hs. split; [done|]. change (fetch_next_str (ascii_bytes "x")) with (Some (ascii_bytes "x", @nil Z)). cbv iota. unfold find_user_base. by rewrite Hs.
Qed.

(** ** The end of the input *)

Lemma kept_prefix cmd : kept cmd `prefix_of` cmd.
Proof. unfold kept. destruct (skip_blanks cmd); [done|]. apply prefix_take. Qed.

Lemma removelast_prefix {A} (l : list A) : removelast l `prefix_of` l.
Proof. destruct l as [|x l] using rev_ind; [done|]. rewrite removelast_last. by apply prefix_app_r. Qed.

Lemma eof_crashes `{Sqlite} fuel ts : forall d cmd out, ~ ascii_bytes "quit" `prefix_of` cmd -> db_loop_eof fuel d cmd ts out = None.
Proof.
  induction fuel as [|fuel IH]; intros d cmd out Hq; [done|]. cbn [db_loop_eof]. destruct cmd as [|c cmd]; [done|].
  set (cmd' := removelast (c :: cmd)). assert (Hp : cmd' `prefix_of` c :: cmd) by apply removelast_prefix.
  rewrite decide_False by (intros E; apply Hq; by rewrite <- E). destruct (execute_db_cmd d cmd' ts) as [[d' printed]|]; [|done].
  cbn [mbind option_bind]. apply IH. intros Hk. apply Hq. etrans; [exact Hk|]. etrans; [apply kept_prefix|done].
Qed.

(** Without the command [quit] the shell ends by writing before its array: the
    end of the input is not looked at. *)
Theorem shell_eof_crashes `{Sqlite} d cmd lines ts out : ~ ascii_bytes "quit" `prefix_of` cmd ->
  Forall (fun l => ~ ascii_bytes "quit" `prefix_of` l) lines -> sftt_server_db d cmd lines ts out = None.
Proof.
  intros Hc Hl. revert d cmd out Hc. induction Hl as [|l lines Hl _ IH]; intros d cmd out Hc; cbn [sftt_server_db]; [by apply eof_crashes|].
  rewrite decide_False by (intros ->; by apply Hl). destruct (execute_db_cmd d l ts) as [[d' printed]|]; [|done]. cbn [mbind option_bind].
  apply IH. intros Hk. apply Hl. etrans; [exact Hk|apply kept_prefix].
Qed.

(** ** A database for the statements of the program *)

Module Demo.

Fixpoint strip_prefix (p s : list Z) : option (list Z) :=
  match p, s with
  | [], _ => Some s
  | x :: p, y :: s => if x =? y then strip_prefix p s else None
  | _, [] => None
  end.

Fixpoint break (c : Z) (s : list Z) : list Z * list Z :=
  match s with
  | [] => ([], [])
  | x :: s => if x =? c then ([], s) else let '(a, b) := break c s in (x :: a, b)
  end.

Lemma strip_app p s : strip_prefix p (p ++ s) = Some s.
Proof. induction p as [|x p IH]; [done|]. cbn. by rewrite Z.eqb_refl. Qed.

Lemma break_app c a b : c ∉ a -> break c (a ++ c :: b) = (a, b).
Proof.
  induction a as [|x a IH]; cbn [app break]; [by rewrite Z.eqb_refl|]. rewrite not_elem_of_cons. intros [Hx Ha].
  rewrite (proj2 (Z.eqb_neq _ _)) by congruence. by rewrite IH.
Qed.

Definition rows (d : list (list value)) : list (list value) := filter (fun r => length r = 6%nat) d.

Definition set_row (key v t n : list Z) (r : list value) : list value :=
  if decide (col (ascii_bytes "name") r = Some n) then set_col (ascii_bytes "update_time") t (set_col key v r) else r.

Definition parse_update (sql : list Z) : option (list Z * list Z * list Z * list Z) :=
  r ← strip_prefix (ascii_bytes "update user set ") sql;
  let '(key, r) := break 61 r in
  r ← strip_prefix [39] r;
  let '(v, r) := break 39 r in
  r ← strip_prefix (ascii_bytes ", update_time=") r;
  let '(t, r) := break 32 r in
  r ← strip_prefix (ascii_bytes "where name='") r;
  Some (key, v, t, (break 39 r).1).

Definition exec (d : list (list value)) (sql : list Z) : list (list value) * option (list (list value)) :=
  if decide (sql = count_text) then (d, Some [[Some (print_int (Z.of_nat (length (rows d))))]]) else
  match parse_update sql with
  | Some (key, v, t, n) => (map (set_row key v t n) (rows d), Some [])
  | None => (d, None)
  end.

Definition get_table (d : list (list value)) (sql : list Z) : option (list value * nat * nat) :=
  r ← strip_prefix (ascii_bytes "select * from user where name='") sql;
  let '(n, rest) := break 39 r in
  Some (table_of (if decide (rest = []) then named n (rows d) else rows d)).

#[local] Instance demo_db : Sqlite := {| db := list (list value); sqlite3_exec := exec; sqlite3_get_table := get_table |}.

Lemma set_row_wide key v t n r : length r = 6%nat -> length (set_row key v t n r) = 6%nat.
Proof. intros H. destruct (wide_row r H) as (a & b & c & d & e & f & ->). unfold set_row. by case_decide. Qed.

Lemma rows_wide d : Forall (fun r => length r = 6%nat) (rows d).
Proof. apply Forall_forall. by intros r [? _]%list_elem_of_filter. Qed.

Lemma rows_all d : Forall (fun r => length r = 6%nat) d -> rows d = d.
Proof. induction 1 as [|r d Hr _ IH]; [done|]. unfold rows in *. rewrite filter_cons, decide_True by done. by f_equal. Qed.

Lemma no_space z : in_i32 z -> 32 ∉ print_int z.
Proof.
  intros Hz. unfold in_i32 in Hz. assert (H : forall n, 0 <= n < 10 ^ 10 -> 32 ∉ print_dec 10 n).
  { intros n Hn. destruct (print_dec_spec 10 n) as (Hd & _); [done|lia|]. intros Hin. unfold digits in Hd. rewrite Forall_forall in Hd.
    apply Hd in Hin. done. }
  unfold print_int. destruct (Z.ltb_spec z 0); [|by apply H; lia]. apply not_elem_of_cons. split; [done|apply H; lia].
Qed.

Lemma parse_update_text key v ts name : 61 ∉ key -> quote_free v -> quote_free name ->
  parse_update (update_text key v ts name) = Some (key, v, print_int (i32 ts), name).
Proof.
  intros Hk Hv Hn. unfold parse_update, update_text, quoted. rewrite strip_app. cbn [mbind option_bind].
  change (ascii_bytes "=") with [61]. cbn [app]. rewrite break_app by done.
  cbn [strip_prefix]. change (39 =? 39) with true. cbv iota. cbn [mbind option_bind]. rewrite <- app_assoc. cbn [app]. rewrite break_app by done.
  rewrite strip_app. cbn [mbind option_bind]. change (ascii_bytes " where name=") with (32 :: ascii_bytes "where name="). cbn [app].
  rewrite break_app by (apply no_space, i32_range).
  change (ascii_bytes "where name='") with (ascii_bytes "where name=" ++ [39]).
  replace (ascii_bytes "where name=" ++ 39 :: name ++ [39]) with ((ascii_bytes "where name=" ++ [39]) ++ name ++ [39]) by (by rewrite <- app_assoc).
  rewrite strip_app. cbn [mbind option_bind]. by rewrite break_app.
Qed.

#[local] Instance demo_laws : SqlLaws demo_db.
Proof.
  refine {| users := rows : @db demo_db -> _ |}.
  - apply rows_wide.
  - intros d name Hq. change (get_table d (select_text name) = Some (table_of (named name (rows d)))). unfold get_table, select_text, quoted.
    change (ascii_bytes "select * from user where name='") with (ascii_bytes "select * from user where name=" ++ [39]).
    replace (ascii_bytes "select * from user where name=" ++ 39 :: name ++ [39])
      with ((ascii_bytes "select * from user where name=" ++ [39]) ++ name ++ [39]) by (by rewrite <- app_assoc).
    rewrite strip_app. cbn [mbind option_bind]. by rewrite break_app.
  - intros d. exists d. by split.
  - intros d uid name md5 _ _. exists d. split; [|done]. change (exec d (insert_text uid name md5) = (d, None)). unfold exec.
    rewrite decide_False by (intros E; apply (f_equal head) in E; by vm_compute in E). reflexivity.
  - intros d key v ts name Hk Hv Hn. change (sqlite3_exec d (update_text key v ts name)) with (exec d (update_text key v ts name)). unfold exec.
    rewrite decide_False by (intros E; apply (f_equal head) in E; by vm_compute in E).
    assert (H61 : 61 ∉ key).
    { rewrite !elem_of_cons in Hk. destruct Hk as [->|[->|[->|Hk]]]; [| | |by apply not_elem_of_nil in Hk]; apply (bool_decide_unpack _); vm_compute; exact Logic.I. }
    rewrite parse_update_text by done.
    eexists. split; [done|]. apply rows_all. apply Forall_map. eapply Forall_impl; [apply rows_wide|]. intros r. apply set_row_wide.
Defined.

Definition alice : list value := [Some [49]; Some (ascii_bytes "alice"); Some [48]; Some (ascii_bytes "/home/alice"); Some [48]; Some [48]].
Definition bob : list value := [Some [50]; Some (ascii_bytes "bob"); Some [48]; None; Some [48]; Some [48]].

Definition alice_server : server := Server [init_client_session; init_client_session] (Fsys {[ ascii_bytes "/home/alice" := Dir ]} ∅).

Lemma new_password_logs_in_witness (h := Host (fun _ => []) (fun _ => None) (fun _ _ => None) (fun _ => None) 0 (fun _ => 0) (0, 0, 0, 0) (VersionInfo 1 0 0)) :
  exists d' base, execute_db_cmd (DB := demo_db) [alice; bob] (ascii_bytes "update alice passwd secret") 7 = Some (d', [])
    /\ find_user_base (DB := demo_db) d' (ascii_bytes "alice") = Some (Some base)
    /\ exists j s' q, every_run_ends
         (Network (validate_user_base_info h demo_client (ascii_bytes "alice") (ascii_bytes "secret"))
            (serve_client (T := ll_copying) (TG := get_copying) h (fun n => default [] (user_rows (DB := demo_db) d' n)) 1 1 (ascii_bytes "s1") 1 5
               (ascii_bytes "10.0.0.2") (ascii_bytes "c1") 4001 alice_server) [] [])
         (Network (Ret (logged_in (ascii_bytes "s1") demo_client base (ascii_bytes "c1"), 1)) q [] [])
       /\ session_at s' j = open_session (ascii_bytes "s1") 5 (ascii_bytes "10.0.0.2") (ascii_bytes "c1") 4001 base.
Proof.
  destruct (new_password_logs_in (DB := demo_db) (T := ll_copying) (TG := get_copying) h h 1 1 (ascii_bytes "s1")
    [alice; bob] (ascii_bytes "alice") (ascii_bytes "secret") 7 demo_client alice_server 5 (ascii_bytes "10.0.0.2") (ascii_bytes "c1") 4001 0)
    as (d' & md5 & base & E & Em & _ & _ & _ & Hb & Hb0 & Hlogin & _).
  1,4: split; [done|by repeat constructor].
  1: apply (bool_decide_unpack _); vm_compute; exact Logic.I.
  1,2: cbn; lia.
  1: do 5 eexists; vm_compute; reflexivity.
  1: unfold compatible; cbn; by rewrite decide_False by (intros [? _]; done).
  1: by eexists.
  1: simpl; unfold CONNECT_ID_LEN; lia.
  assert (base = UserBase 1 (ascii_bytes "alice") (ascii_bytes "/home/alice")) as -> by (vm_compute in Hb0; by injection Hb0).
  destruct (Hlogin eq_refl) as (j & s' & Hrun & Hs).
  eexists d', _. split; [exact E|]. split; [exact Hb|]. eexists j, s', _. split; [exact Hrun|exact Hs].
Defined.

Lemma user_never_added_witness :
  exists d', execute_db_cmd (DB := demo_db) [alice; bob] (ascii_bytes "adduser carol secret") 7 = Some (d', [Added (ascii_bytes "carol")])
    /\ rows d' = [alice; bob].
Proof.
  destruct (user_never_added (DB := demo_db) [alice; bob] (ascii_bytes "carol") (ascii_bytes "secret") 7) as (d' & E & H).
  1,4: split; [done|by repeat constructor].
  1: apply (bool_decide_unpack _); vm_compute; exact Logic.I.
  1,2: cbn; lia.
  1: vm_compute; reflexivity.
  1: vm_compute; reflexivity.
  exists d'. split; [exact E|exact H].
Defined.

Lemma injected_name_crashes_witness : find_user_auth (DB := demo_db) [alice; bob] (ascii_bytes "' or '1'='1") = None.
Proof. apply (injected_name_crashes (DB := demo_db) [alice; bob]); [vm_compute; reflexivity|vm_compute; lia]. Defined.
End Demo.
