(* ===== verification/LineEdit.v ===== *)
(** * Reading a password and a line from the keyboard (src/cmdline.c)

    A function gets the keys that are typed; behind them [getchar] reports the
    end of the input, which is stored as the character 255.  What is echoed is
    left out. *)

From S2P Require Import Prelude.

Definition is_delete (ch : Z) : bool := (ch =? 8) || (ch =? 127).
Definition ENTER : Z := 13.
Definition EOF_CHAR : Z := 255.

(** One character for or off the line; [removelast] of nothing is nothing. *)
Definition edit_key (line : list Z) (ch : Z) : list Z := if is_delete ch then removelast line else line ++ [ch].

(** ** get_pass *)

(** The loop, with [passwd[0..i)]. *)
Fixpoint get_pass_loop (max_len : nat) (keys passwd : list Z) : list Z :=
  if (max_len <=? length passwd)%nat then passwd else
  match keys with
  | [] => passwd ++ replicate (max_len - length passwd) EOF_CHAR
  | ch :: keys => if ch =? ENTER then passwd else get_pass_loop max_len keys (edit_key passwd ch)
  end.

(** [size] is that of the array; the terminating zero goes behind the last
    character. *)
Definition get_pass (size max_len : nat) (keys : list Z) : option (list Z) :=
  let passwd := get_pass_loop max_len keys [] in
  if (length passwd <? size)%nat then Some passwd else None.

(** ** get_user_command *)

Definition CMD_MAX_LEN : nat := 1024.
Inductive cmd_type := CMD_LINE_ARROW | CMD_LINE_NORMAL.

Record cmd_line := CmdLine { buf : list Z; type : cmd_type }.

(** The keys that an escape sequence takes: what [ch] is afterwards, whether
    the loop ends here or goes on with the next key, and the rest. *)
Inductive escape := Arrow (ch : Z) | Ignored | Key (ch : Z).

Definition read_escape (keys : list Z) : escape * list Z :=
  match keys with
  | _ :: ch :: keys =>
      (if (ch =? 65) || (ch =? 66) then Arrow ch else if (ch =? 67) || (ch =? 68) then Ignored else Key ch, keys)
  | _ => (Key EOF_CHAR, [])
  end.

(** The line is [line], which begins with the [start] characters that were
    there; [fuel] is the number of keys. *)
Fixpoint command_loop (fuel : nat) (limit : nat) (keys line : list Z) : list Z * cmd_type :=
  if (limit <=? length line)%nat then (line, CMD_LINE_NORMAL) else
  match fuel, keys with
  | O, _ | _, [] => (line ++ replicate (limit - length line) EOF_CHAR, CMD_LINE_NORMAL)
  | S fuel, ch :: keys =>
      let '(k, keys) := if ch =? 27 then read_escape keys else (Key ch, keys) in
      match k with
      | Arrow ch => (ch :: drop 1 line, CMD_LINE_ARROW)
      | Ignored => command_loop fuel limit keys line
      | Key ch => if ch =? ENTER then (line, CMD_LINE_NORMAL) else command_loop fuel limit keys (edit_key line ch)
      end
  end.

Definition get_user_command (cmd : list Z) (start : nat) (keys : list Z) : Z * cmd_line :=
  let '(line, t) := command_loop (length keys) (CMD_MAX_LEN - start - 1) keys (take start cmd) in
  match t with
  | CMD_LINE_ARROW => (1, CmdLine line t)
  | CMD_LINE_NORMAL => (Z.of_nat (length line), CmdLine line t)
  end.

(** ** What is read *)

Definition edited (line keys : list Z) : list Z := foldl edit_key line keys.

(** The keys before the next: nothing on the way is as long as the limit. *)
Definition stays_below (limit : nat) (line keys : list Z) : Prop :=
  forall n, (length (edited line (take n keys)) < limit)%nat.

Lemma stays_below_cons limit line ch keys : stays_below limit line (ch :: keys) ->
  (length line < limit)%nat /\ stays_below limit (edit_key line ch) keys.
Proof. intros H. split; [exact (H 0%nat)|]. intros n. exact (H (S n)). Qed.

Lemma edit_key_length line ch : (length (edit_key line ch) <= S (length line))%nat.
Proof.
  unfold edit_key. destruct (is_delete ch); [|rewrite length_app; simpl; lia].
  destruct line as [|x l] using rev_ind; [simpl; lia|]. rewrite removelast_last, length_app. simpl. lia.
Qed.

Lemma get_pass_loop_spec limit keys rest : ENTER ∉ keys -> forall line, stays_below limit line keys ->
  get_pass_loop limit (keys ++ ENTER :: rest) line = edited line keys.
Proof.
  induction keys as [|ch keys IH]; intros He line Hb; cbn [app get_pass_loop].
  - rewrite (proj2 (Nat.leb_gt _ _)) by exact (Hb 0%nat). done.
  - apply not_elem_of_cons in He as [Hc He]. apply stays_below_cons in Hb as [Hl Hb].
    rewrite (proj2 (Nat.leb_gt _ _)), (proj2 (Z.eqb_neq _ _)) by (done || congruence). by apply IH.
Qed.

(** [get_pass] returns what the keys before the first Enter make of an empty
    line, as long as that stays below its limit. *)
Theorem get_pass_edits size limit keys rest : ENTER ∉ keys -> stays_below limit [] keys -> (limit <= size)%nat ->
  get_pass size limit (keys ++ ENTER :: rest) = Some (edited [] keys).
Proof.
  intros He Hb Hs. unfold get_pass. rewrite get_pass_loop_spec by done.
  pose proof (Hb (length keys)) as Hl. rewrite firstn_all in Hl. by rewrite (proj2 (Nat.ltb_lt _ _)) by lia.
Qed.

Lemma get_pass_loop_fills limit keys : forall line, Forall (fun ch => ch <> ENTER /\ is_delete ch = false) keys ->
  (length line <= limit <= length line + length keys)%nat -> length (get_pass_loop limit keys line) = limit.
Proof.
  induction keys as [|ch keys IH]; intros line Hk Hl; cbn [get_pass_loop]; simpl in Hl.
  - rewrite (proj2 (Nat.leb_le _ _)) by lia. lia.
  - apply Forall_cons in Hk as [[Hc Hd] Hk]. destruct (Nat.leb_spec limit (length line)); [lia|].
    rewrite (proj2 (Z.eqb_neq _ _)) by done. apply IH; [done|]. unfold edit_key. rewrite Hd, length_app. simpl. lia.
Qed.

(** With the size of the array as limit, as [main] passes it, a password of
    that many characters is terminated behind the array. *)
Theorem get_pass_overflow size keys : Forall (fun ch => ch <> ENTER /\ is_delete ch = false) keys -> (size <= length keys)%nat ->
  get_pass size size keys = None.
Proof.
  intros Hk Hl. unfold get_pass. rewrite get_pass_loop_fills by (done || simpl; lia). by rewrite Nat.ltb_irrefl.
Qed.

Lemma command_loop_keys limit keys rest : forall fuel line, Forall (fun ch => ch <> ENTER /\ ch <> 27) keys ->
  stays_below limit line keys -> (length keys < fuel)%nat ->
  command_loop fuel limit (keys ++ ENTER :: rest) line = (edited line keys, CMD_LINE_NORMAL).
Proof.
  induction keys as [|ch keys IH]; intros fuel line Hk Hb Hf; (destruct fuel as [|fuel]; [simpl in Hf; lia|]); cbn [app command_loop].
  - rewrite (proj2 (Nat.leb_gt _ _)) by exact (Hb 0%nat). done.
  - apply Forall_cons in Hk as [[Hc He] Hk]. apply stays_below_cons in Hb as [Hl Hb].
    rewrite (proj2 (Nat.leb_gt _ _)), !(proj2 (Z.eqb_neq _ _)) by done. apply IH; [done|done|simpl in Hf; lia].
Qed.

(** The line is edited behind the [start] characters that are kept ... *)
Theorem user_command_edits cmd start keys rest : Forall (fun ch => ch <> ENTER /\ ch <> 27) keys ->
  stays_below (CMD_MAX_LEN - start - 1) (take start cmd) keys ->
  get_user_command cmd start (keys ++ ENTER :: rest)
  = (Z.of_nat (length (edited (take start cmd) keys)), CmdLine (edited (take start cmd) keys) CMD_LINE_NORMAL).
Proof.
  intros Hk Hb. unfold get_user_command. rewrite command_loop_keys; [done..|]. rewrite length_app. simpl. lia.
Qed.

(** ... but half a line of them leaves no room: [start] is taken off the limit
    of an index that begins at [start], and no key is read. *)
Theorem user_command_deaf cmd start keys : (CMD_MAX_LEN - 1 <= 2 * start)%nat -> (start <= length cmd)%nat ->
  get_user_command cmd start keys = (Z.of_nat start, CmdLine (take start cmd) CMD_LINE_NORMAL).
Proof.
  intros Hs Hl. unfold get_user_command. assert (E : length (take start cmd) = start) by (rewrite length_take; lia).
  destruct (length keys); cbn [command_loop]; rewrite (proj2 (Nat.leb_le _ _)) by lia; by rewrite E.
Qed.

(** An arrow replaces the first character of the line by its letter. *)
Theorem user_command_arrow cmd start x ch keys : (length (take start cmd) < CMD_MAX_LEN - start - 1)%nat -> ch = 65 \/ ch = 66 ->
  get_user_command cmd start (27 :: x :: ch :: keys) = (1, CmdLine (ch :: drop 1 (take start cmd)) CMD_LINE_ARROW).
Proof.
  intros Hl Hc. unfold get_user_command. cbn [length command_loop]. rewrite (proj2 (Nat.leb_gt _ _)) by done.
  change (27 =? 27) with true. cbv iota. cbn [read_escape]. by destruct Hc as [->| ->].
Qed.

(** ** What is typed *)

Lemma get_pass_edits_witness : get_pass 33 33 [97; 98; 127; 99; 13] = Some [97; 99].
Proof.
  apply (get_pass_edits 33 33 [97; 98; 127; 99] []); [apply (bool_decide_unpack _); vm_compute; exact I| |lia].
  intros n. destruct n as [|[|[|[|n]]]]; [cbn; lia..|]. cbn [take]. destruct n; cbn; lia.
Defined.

Lemma get_pass_overflow_witness : get_pass 33 33 (replicate 33 97) = None.
Proof. apply get_pass_overflow; [by repeat constructor|done]. Defined.

Lemma user_command_edits_witness : get_user_command [108; 115] 2 [97; 8; 32; 13] = (3, CmdLine [108; 115; 32] CMD_LINE_NORMAL).
Proof.
  apply (user_command_edits [108; 115] 2 [97; 8; 32] []); [by repeat constructor|].
  intros n. destruct n as [|[|[|n]]]; [vm_compute; lia..|]. cbn [take]. destruct n; vm_compute; lia.
Defined.

Lemma user_command_deaf_witness : (get_user_command (replicate 600 97) 512 [98; 13]).1 = 512.
Proof. rewrite (user_command_deaf (replicate 600 97) 512 [98; 13]); [done|vm_compute; lia|vm_compute; lia]. Defined.

Lemma user_command_arrow_witness : get_user_command [108; 115] 2 [27; 91; 65] = (1, CmdLine [65; 115] CMD_LINE_ARROW).
Proof. apply (user_command_arrow [108; 115] 2 91 65 []); [vm_compute; lia|by left]. Defined.
