(* ===== verification/ClientMain.v ===== *)
(** * The client from its command line on (client/main.c, src/client.c)

    What the options ask for, and the four ways in which commands reach
    [execute_cmd]: typed one after the other, from a file, from a built-in
    script, or made of the two operands of a transfer. *)

From Stdlib Require Import FunctionalExtensionality.
From S2P Require Import Prelude CStr Process FileSystem FilePut CmdLine Messages Client LineEdit.

(** ** The log of a command *)

Definition CMD_LOG_LEN : nat := 1024.

Fixpoint join (sep : list Z) (l : list (list Z)) : list Z :=
  match l with [] => [] | [x] => x | x :: l => x ++ sep ++ join sep l end.

(** The text in the static array of [add_cmd_log]; [None] is written behind it. *)
Definition add_cmd_log (name : list Z) (argv : list (list Z)) : option (list Z) :=
  let head := ascii_bytes "exec name: " ++ name ++ ascii_bytes ", argc: " ++ print_dec 10 (Z.of_nat (length argv)) in
  let text := match argv with [] => head | _ => head ++ ascii_bytes ", argv: " ++ join (ascii_bytes ", ") argv end in
  if (length text <? CMD_LOG_LEN)%nat then Some text else None.

(** ** Scripts *)

Definition newline : Z := 10.

(** [fgets] for at most [n] characters: what it reads, what is left, and
    whether it met the end. *)
Fixpoint fgets (n : nat) (s : list Z) : list Z * list Z * bool :=
  match n, s with
  | O, _ => ([], s, false)
  | S _, [] => ([], [], true)
  | S n, c :: s => if c =? newline then ([c], s, false) else let '(piece, rest, eof) := fgets n s in (c :: piece, rest, eof)
  end.

(** The line without its newline. *)
Definition chomp (cmd : list Z) : list Z := if bool_decide (last cmd = Some newline) then removelast cmd else cmd.

(** A stream that [fopen] gave: the bytes of a file, or a directory, from which
    nothing can be read and whose end is never met. *)
Inductive stream := File (rest : list Z) | Directory.

Definition fopen_script (fs : fsys) (p : list Z) : option stream :=
  match node_at fs p with None => None | Some Dir => Some Directory | Some (Reg d) => Some (File d) end.

Definition read_line (s : stream) : list Z * stream * bool :=
  match s with
  | File rest => let '(piece, rest, eof) := fgets (CMD_MAX_LEN - 2) rest in (c_str piece, File rest, eof)
  | Directory => ([], Directory, false)
  end.

(** The commands of [do_cmd_file] after [n] turns of its loop; [None] when it
    has not ended. *)
Fixpoint script_lines (n : nat) (s : stream) : option (list (list Z)) :=
  match n with
  | O => None
  | S n =>
      let '(cmd, s, eof) := read_line s in
      let first := match cmd with [] => [] | _ => [chomp cmd] end in
      if eof : bool then Some first else lines ← script_lines n s; Some (first ++ lines)
  end.

Section Commands.
Context {T : Transport}.
Context (h : host) (fuel files : nat).
#[local] Abbreviation execute := (execute_cmd h fuel files).

Fixpoint run_lines (c : client) (lines : list (list Z)) (out : list shown) : command result :=
  match lines with
  | [] => mret (c, 0, out)
  | line :: lines => '(c, _, printed) ← execute c line; run_lines c lines (out ++ printed)
  end.

Definition do_cmd_file (n : nat) (c : client) (cmd_file : list Z) : option (command result) :=
  match fopen_script (cl_disk c) cmd_file with
  | None => Some (mret (c, -1, [Message]))
  | Some s => lines ← script_lines n s; Some (run_lines c lines [])
  end.

Definition builtin_scripts : list (list Z * list Z) := [(ascii_bytes "mps", ascii_bytes "mps" ++ newline :: ascii_bytes "mps -d" ++ [newline])].

Fixpoint find_script (scripts : list (list Z * list Z)) (name : list Z) : option (list Z) :=
  match scripts with
  | [] => None
  | (n, script) :: scripts => if decide (name = n) then Some script else find_script scripts name
  end.

Definition do_builtin (c : client) (builtin : list Z) : command result :=
  match find_script builtin_scripts builtin with
  | Some script => execute_multi_cmds h fuel files c (take (10 * CMD_MAX_LEN - 1) script)
  | None => mret (c, -1, [Message])
  end.

(** ** At the terminal *)

(** [pos] is the base name of the working directory. *)
Definition get_prompt (name host_name pwd : list Z) (len : nat) : list Z :=
  let pos := (basename pwd).2 in
  take (len - 1) (ascii_bytes "[" ++ name ++ ascii_bytes "@" ++ host_name ++ ascii_bytes " " ++ pos ++ ascii_bytes "]$ ").

(** What [his] prints, of the commands that were typed, oldest first. *)
Definition sftt_client_his_handler (history : list (list Z)) (argv : list (list Z)) : list (list Z) :=
  take (Z.to_nat (match argv with n :: _ => atoi n | [] => 10 end)) history.

(** The lines that [readline] returns, and the history; it ends with them or
    with [quit]. *)
Fixpoint reader_loop (c : client) (input history : list (list Z)) (out : list shown) : command (client * list (list Z) * list shown) :=
  match input with
  | [] => mret (c, history, out)
  | line :: input =>
      match line with
      | [] => reader_loop c input history out
      | _ =>
          if decide (line = ascii_bytes "quit") then mret (c, history, out) else
          '(c, _, printed) ← execute c line; reader_loop c input (history ++ [line]) (out ++ printed)
      end
  end.

End Commands.

(** ** Options (client/main.c) *)

Definition HOST_MAX_LEN : nat := 32.
Definition FILE_PATH_MAX_LEN : nat := 1024.
Definition PASSWD_MD5_LEN : nat := 33.
Definition USER_NAME_MAX_LEN : nat := 32.

Inductive run_mode := RUN_MODE_LOGIN | RUN_MODE_TRANS | RUN_MODE_BUILTIN | RUN_MODE_CMD_FILE.

Record settings := Settings {
  user_name : list Z; password : list Z; host_name : list Z; builtin : list Z; cmd_file : list Z;
  state_file : option (list Z); port : Z; mode : run_mode; verbose_level : Z; trans : option trans_info;
}.

Definition no_settings : settings := Settings [] [] [] [] [] None (-1) RUN_MODE_LOGIN 0 None.

(** One result of [getopt]: [None] is the usage and the end of the program. *)
Definition set_option (o : settings) (opt : Z * list Z) : option settings :=
  let '(ch, optarg) := opt in
  let '(Settings u p h b f s n m v t) := o in
  if ch =? 98 (* b *) then Some (Settings u p h (take 31 optarg) f s n RUN_MODE_BUILTIN v t)
  else if ch =? 102 (* f *) then Some (Settings u p h b (take (FILE_PATH_MAX_LEN - 1) optarg) s n RUN_MODE_CMD_FILE v t)
  else if ch =? 117 (* u *) then Some (Settings (take (USER_NAME_MAX_LEN - 1) optarg) p h b f s n m v t)
  else if ch =? 112 (* p *) then Some (Settings u p h b f s (atoi optarg) m v t)
  else if ch =? 80 (* P *) then Some (Settings u (take (PASSWD_MD5_LEN - 1) optarg) h b f s n m v t)
  else if ch =? 115 (* s *) then Some (Settings u p h b f (Some optarg) n m v t)
  else if ch =? 104 (* h *) then Some (Settings u p (take (HOST_MAX_LEN - 1) optarg) b f s n m v t)
  else if ch =? 118 (* v *) then Some (Settings u p h b f s n m (v + 1) t)
  else None.

Fixpoint set_options (o : settings) (opts : list (Z * list Z)) : option settings :=
  match opts with [] => Some o | opt :: opts => o ← set_option o opt; set_options o opts end.

(** The operands; [left] are those behind the options, [existed] whether the
    first names a file. *)
Definition operands (o : settings) (opts : list (Z * list Z)) (left : list (list Z)) (existed : bool) : option settings :=
  let '(Settings _ p _ b f s n m v t) := o in
  match opts with
  | _ :: _ => match left with [] => Some o | _ => None end
  | [] =>
      match left with
      | [arg] => '(u, h) ← try_fetch_login_info arg; Some (Settings u p h b f s n m v t)
      | [arg1; arg2] => '(u, h, t) ← try_fetch_trans_info existed arg1 arg2; Some (Settings u p h b f s n RUN_MODE_TRANS v (Some t))
      | _ => Some o
      end
  end.

Inductive startup :=
  | UsageExit
  | NoCmdFile
  | Overflow
  | Start (o : settings).

(** Everything of [main] before the client is connected; [keys] is what is typed
    when no password is given.  Operands are copied into arrays without looking
    at their length. *)
Definition prepare (fs : fsys) (opts : list (Z * list Z)) (left : list (list Z)) (keys : list Z) : startup :=
  match o ← set_options no_settings opts; operands o opts left (file_existed fs (default [] (left !! 0%nat))) with
  | None => UsageExit
  | Some o =>
      let '(Settings u p h b f s n m v t) := o in
      if negb ((length u <? USER_NAME_MAX_LEN) && (length h <? HOST_MAX_LEN))%nat then Overflow else
      if bool_decide (u = []) || bool_decide (h = []) then UsageExit else
      if match m with RUN_MODE_CMD_FILE => negb (file_existed fs f) | _ => false end then NoCmdFile else
      if match m with RUN_MODE_BUILTIN => bool_decide (b = []) | _ => false end then UsageExit else
      match p with
      | _ :: _ => Start o
      | [] =>
          match get_pass PASSWD_MD5_LEN PASSWD_MD5_LEN keys with
          | None => Overflow
          | Some [] => UsageExit
          | Some p => Start (Settings u p h b f s n m v t)
          end
      end
  end.

(** The rest of [main] for the client that [init_sftt_client] connected. *)
Definition run_client {T : Transport} (h : Messages.host) (fuel files n : nat) (c : client) (o : settings) (input : list (list Z)) : option (command result) :=
  match mode o with
  | RUN_MODE_LOGIN => Some ('(c, _, out) ← reader_loop h fuel files c input [] []; mret (c, 0, out))
  | RUN_MODE_BUILTIN => Some (do_builtin h fuel files c (builtin o))
  | RUN_MODE_TRANS => t ← trans o; Some (do_trans h fuel files c t)
  | RUN_MODE_CMD_FILE => do_cmd_file h fuel files n c (cmd_file o)
  end.

(** ** Scripts are read line by line *)

(** A line of a script that fits into the array with its newline. *)
Definition script_line (l : list Z) : Prop :=
  l <> [] /\ Forall (fun c => c <> newline /\ c <> 0) l /\ (length l <= CMD_MAX_LEN - 3)%nat.

Lemma fgets_line n l rest : Forall (fun c => c <> newline /\ c <> 0) l -> (length l < n)%nat ->
  fgets n (l ++ newline :: rest) = (l ++ [newline], rest, false).
Proof.
  intros Hl. revert n. induction Hl as [|c l [Hc _] _ IH]; intros n Hn; (destruct n as [|n]; [simpl in Hn; lia|]); cbn [app fgets]; [done|].
  rewrite (proj2 (Z.eqb_neq _ _)) by done. rewrite IH by (simpl in Hn; lia). done.
Qed.

Lemma fgets_last n l : Forall (fun c => c <> newline /\ c <> 0) l -> (length l < n)%nat -> fgets n l = (l, [], true).
Proof.
  intros Hl. revert n. induction Hl as [|c l [Hc _] _ IH]; intros n Hn; (destruct n as [|n]; [simpl in Hn; lia|]); cbn [fgets]; [done|].
  rewrite (proj2 (Z.eqb_neq _ _)) by done. rewrite IH by (simpl in Hn; lia). done.
Qed.

Lemma c_str_all l : Forall (fun c => c <> 0) l -> c_str l = l.
Proof. induction 1 as [|c l Hc _ IH]; [done|]. cbn [c_str]. by rewrite (proj2 (Z.eqb_neq _ _)), IH. Qed.

Lemma chomp_line l : chomp (l ++ [newline]) = l.
Proof. unfold chomp. rewrite last_snoc, bool_decide_eq_true_2, removelast_last by done. done. Qed.

Lemma chomp_none l : Forall (fun c => c <> newline /\ c <> 0) l -> chomp l = l.
Proof.
  intros Hl. unfold chomp. rewrite bool_decide_eq_false_2; [done|]. intros E. rewrite Forall_forall in Hl.
  by apply last_Some_elem_of, Hl in E as [? _].
Qed.

Lemma read_script_line l rest : script_line l ->
  read_line (File (l ++ newline :: rest)) = (l ++ [newline], File rest, false).
Proof.
  intros (Hne & Hl & Hlen). unfold read_line. rewrite fgets_line by (done || unfold CMD_MAX_LEN in *; lia).
  rewrite c_str_all; [done|]. apply Forall_app. split; [|by repeat constructor]. eapply Forall_impl; [exact Hl|]. by intros c [_ ?].
Qed.

Lemma script_lines_spec lines : Forall script_line lines -> forall n l, l = [] \/ script_line l -> (length lines < n)%nat ->
  script_lines n (File (concat (map (fun l => l ++ [newline]) lines) ++ l)) = Some (lines ++ match l with [] => [] | _ => [l] end).
Proof.
  induction 1 as [|l0 lines H0 _ IH]; intros n l Hl Hn; (destruct n as [|n]; [simpl in Hn; lia|]); cbn [script_lines map concat app].
  - assert (Hf : Forall (fun c => c <> newline /\ c <> 0) l /\ (length l < CMD_MAX_LEN - 2)%nat).
    { destruct Hl as [->|(_ & ? & ?)]; [split; [done|apply Nat.ltb_lt; reflexivity]|split; [done|unfold CMD_MAX_LEN in *; lia]]. }
    unfold read_line. rewrite fgets_last by apply Hf. rewrite c_str_all by (eapply Forall_impl; [apply Hf|]; by intros c [_ ?]).
    destruct l as [|c l]; [done|]. by rewrite chomp_none by apply Hf.
  - rewrite <- !app_assoc. cbn [app]. rewrite read_script_line by done. rewrite IH by (done || simpl in Hn; lia). cbn [mbind option_bind].
    destruct (l0 ++ [newline]) as [|c cmd] eqn:E; [by destruct l0|]. by rewrite <- E, chomp_line.
Qed.

Lemma command_lines_spec lines : Forall script_line lines -> forall l, l = [] \/ script_line l ->
  command_lines [] (concat (map (fun l => l ++ [newline]) lines) ++ l) = lines ++ match l with [] => [] | _ => [l] end.
Proof.
  assert (Hline : forall l pre rest, Forall (fun c => c <> newline /\ c <> 0) l ->
    command_lines pre (l ++ rest) = command_lines (pre ++ l) rest).
  { intros l. induction l as [|c l IHl]; intros pre rest Hl; [by rewrite app_nil_r|]. apply Forall_cons in Hl as [[Hc _] Hl].
    cbn [app command_lines]. rewrite (proj2 (Z.eqb_neq _ _)) by done. rewrite IHl by done. by rewrite <- app_assoc. }
  induction 1 as [|l0 lines (Hne & Hl0 & _) _ IH]; intros l Hl; cbn [map concat app].
  - destruct Hl as [->|(Hne & Hl & _)]; [done|]. rewrite <- (app_nil_r l) at 1. rewrite Hline by done. cbn [app command_lines]. by destruct l.
  - rewrite <- !app_assoc. rewrite Hline by done. cbn [app command_lines]. change (newline =? 10) with true. cbv iota.
    rewrite IH by done. by destruct l0.
Qed.

Section Scripts.
Context {T : Transport}.
Context (h : host) (fuel files : nat).

Lemma execute_lines_run lines : Forall script_line lines -> forall c out,
  execute_lines h fuel files c lines out = run_lines h fuel files c lines out.
Proof.
  induction 1 as [|l lines (_ & _ & Hl) _ IH]; intros c out; [done|]. cbn [execute_lines run_lines].
  change (Messages.CMD_MAX_LEN) with 1024%nat. rewrite take_ge by (unfold CMD_MAX_LEN in Hl; lia).
  f_equal. apply functional_extensionality. intros [[c' ret] printed]. apply IH.
Qed.

(** A command file does what the same text does as a built-in script: its lines
    in turn, whether the last one has its newline or not.  The loop has ended
    after one turn more than there are lines. *)
Theorem cmd_file_runs_lines n c file lines l : Forall script_line lines -> l = [] \/ script_line l -> (length lines < n)%nat ->
  node_at (cl_disk c) file = Some (Reg (concat (map (fun l => l ++ [newline]) lines) ++ l)) ->
  do_cmd_file h fuel files n c file
  = Some (execute_multi_cmds h fuel files c (concat (map (fun l => l ++ [newline]) lines) ++ l)).
Proof.
  intros Hls Hl Hn Hf. unfold do_cmd_file, fopen_script. rewrite Hf, script_lines_spec by done. cbn [mbind option_bind]. f_equal.
  unfold execute_multi_cmds. rewrite command_lines_spec by done. symmetry. apply execute_lines_run.
  apply Forall_app. split; [done|]. destruct l; [done|]. destruct Hl as [?|?]; [done|]. by apply Forall_singleton.
Qed.

(** A directory opens like a file, but its end is never met: the loop does not
    end. *)
Theorem cmd_directory_never_ends n c file : node_at (cl_disk c) file = Some Dir -> do_cmd_file h fuel files n c file = None.
Proof.
  intros Hf. unfold do_cmd_file, fopen_script. rewrite Hf. assert (H : script_lines n Directory = None); [|by rewrite H].
  induction n as [|n IH]; [done|]. cbn [script_lines read_line]. by rewrite IH.
Qed.

(** An empty line of a command file is executed: the comparison of its name
    reads a null pointer. *)
Theorem blank_line_crashes n c file rest lines : node_at (cl_disk c) file = Some (Reg (newline :: rest)) ->
  script_lines n (File rest) = Some lines -> do_cmd_file h fuel files (S n) c file = Some Crash.
Proof.
  intros Hf Hl. unfold do_cmd_file, fopen_script. rewrite Hf. cbn [script_lines].
  change (read_line (File (newline :: rest))) with ([newline], File rest, false). cbv iota beta. rewrite Hl. reflexivity.
Qed.

(** What is typed before [quit] is executed line by line, and is the history
    afterwards. *)
Theorem reader_loop_runs lines more : Forall (fun l => l <> [] /\ l <> ascii_bytes "quit") lines -> forall c history out,
  reader_loop h fuel files c (lines ++ ascii_bytes "quit" :: more) history out
  = ('(c, _, out) ← run_lines h fuel files c lines out; mret (c, history ++ lines, out)).
Proof.
  induction 1 as [|l lines [Hne Hq] _ IH]; intros c history out; cbn [app reader_loop run_lines]; [by rewrite app_nil_r|].
  destruct l as [|ch l]; [done|]. rewrite decide_False by done. rewrite bind_assoc. f_equal. apply functional_extensionality.
  intros [[c' ret] printed]. rewrite IH. by rewrite <- app_assoc.
Qed.
End Scripts.

(** One long word is enough to write the log behind its array. *)
Theorem cmd_log_overflow name w : (1000 <= length w)%nat -> add_cmd_log name [w] = None.
Proof.
  intros Hw. unfold add_cmd_log. rewrite (proj2 (Nat.ltb_ge _ _)); [done|]. rewrite !length_app. cbn [join].
  change (length (ascii_bytes "exec name: ")) with 11%nat. change (length (ascii_bytes ", argc: ")) with 8%nat.
  change (length (ascii_bytes ", argv: ")) with 8%nat. unfold CMD_LOG_LEN. lia.
Qed.

(** ** What the client is started with *)

Record settings_ok (fs : fsys) (o : settings) : Prop := SettingsOk {
  so_user : user_name o <> [] /\ (length (user_name o) < USER_NAME_MAX_LEN)%nat;
  so_host : host_name o <> [] /\ (length (host_name o) < HOST_MAX_LEN)%nat;
  so_password : password o <> [] /\ (length (password o) < PASSWD_MD5_LEN)%nat;
  so_mode : match mode o with
            | RUN_MODE_LOGIN => trans o = None
            | RUN_MODE_TRANS => is_Some (trans o)
            | RUN_MODE_BUILTIN => builtin o <> [] /\ trans o = None
            | RUN_MODE_CMD_FILE => file_existed fs (cmd_file o) = true /\ trans o = None
            end;
}.

Definition options_ok (o : settings) : Prop :=
  (length (password o) < PASSWD_MD5_LEN)%nat /\ trans o = None /\ mode o <> RUN_MODE_TRANS.

Lemma set_option_ok o opt o' : options_ok o -> set_option o opt = Some o' -> options_ok o'.
Proof.
  destruct o as [u p h b f s n m v t], opt as [ch optarg]. unfold options_ok. cbn. intros (Hp & Ht & Hm).
  repeat (case_match; [intros [= <-]; cbn; rewrite ?length_take; split_and!; (done || unfold PASSWD_MD5_LEN in *; lia)|]). done.
Qed.

Lemma set_options_ok opts : forall o o', options_ok o -> set_options o opts = Some o' -> options_ok o'.
Proof.
  induction opts as [|opt opts IH]; intros o o' Ho; cbn [set_options]; [by intros [= <-]|].
  intros (o1 & E1 & E)%bind_Some. eapply IH; [|exact E]. by eapply set_option_ok.
Qed.

Lemma operands_ok o opts left existed o' : options_ok o -> operands o opts left existed = Some o' ->
  (length (password o') < PASSWD_MD5_LEN)%nat /\ (mode o' = RUN_MODE_TRANS <-> is_Some (trans o')).
Proof.
  destruct o as [u p h b f s n m v t]. unfold options_ok, operands. cbn. intros (Hp & -> & Hm).
  assert (H0 : mode (Settings u p h b f s n m v None) = RUN_MODE_TRANS <-> is_Some (@None trans_info)) by (cbn; split; [done|by intros []]).
  destruct opts as [|? ?]; [|destruct left; [|done]; intros [= <-]; by split].
  destruct left as [|a1 [|a2 [|]]]; try (intros [= <-]; by split).
  - intros ([u' h'] & _ & [= <-])%bind_Some. split; [done|exact H0].
  - intros ([[u' h'] t'] & _ & [= <-])%bind_Some. split; [done|]. cbn. split; [by eexists|done].
Qed.

(** The client is started only with a user, a host and a password that fit
    their arrays, and with what its mode needs. *)
Theorem prepare_ok fs opts left keys o : prepare fs opts left keys = Start o -> settings_ok fs o.
Proof.
  unfold prepare. destruct (set_options no_settings opts) as [o1|] eqn:E1; [|done]. cbn [mbind option_bind].
  apply set_options_ok in E1; [|unfold options_ok; cbn; split_and!; [apply Nat.ltb_lt; reflexivity|done|done]].
  destruct (operands _ _ _ _) as [o2|] eqn:E2; [|done]. apply operands_ok in E2 as [Hp Hm]; [|done].
  destruct o2 as [u p h b f s n m v t]. cbn [password mode trans] in *.
  destruct (_ && _) eqn:El; [|done]. apply andb_true_iff in El as [Hu%Nat.ltb_lt Hh%Nat.ltb_lt]. cbn [negb].
  destruct (bool_decide (u = []) || bool_decide (h = [])) eqn:Ee; [done|]. apply orb_false_iff in Ee as [Eu%bool_decide_eq_false Eh%bool_decide_eq_false].
  destruct (match m with RUN_MODE_CMD_FILE => _ | _ => false end) eqn:Ef; [done|].
  destruct (match m with RUN_MODE_BUILTIN => _ | _ => false end) eqn:Eb; [done|].
  assert (Hmode : forall p, match m with
            | RUN_MODE_LOGIN => t = None
            | RUN_MODE_TRANS => is_Some t
            | RUN_MODE_BUILTIN => b <> [] /\ t = None
            | RUN_MODE_CMD_FILE => file_existed fs f = true /\ t = None
            end -> p <> [] -> (length p < PASSWD_MD5_LEN)%nat -> settings_ok fs (Settings u p h b f s n m v t)) by (intros; by split).
  assert (Hm' : match m with
            | RUN_MODE_LOGIN => t = None
            | RUN_MODE_TRANS => is_Some t
            | RUN_MODE_BUILTIN => b <> [] /\ t = None
            | RUN_MODE_CMD_FILE => file_existed fs f = true /\ t = None
            end).
  { assert (Ht : m <> RUN_MODE_TRANS -> t = None) by (intros Hne; destruct t; [exfalso; apply Hne, Hm; by eexists|done]).
    destruct m; [by apply Ht|by apply Hm|split; [by apply bool_decide_eq_false in Eb|by apply Ht]|split; [by apply negb_false_iff in Ef|by apply Ht]]. }
  destruct p as [|c p]; [|intros [= <-]; by apply Hmode].
  destruct (get_pass _ _ keys) as [[|c p]|] eqn:Eg; [done| |done]. intros [= <-]. apply Hmode; [done|done|].
  unfold get_pass in Eg. destruct (Nat.ltb_spec (length (get_pass_loop PASSWD_MD5_LEN keys [])) PASSWD_MD5_LEN); [|done]. by injection Eg as <-.
Qed.

(** ** A script and an option *)

Definition script_client (text : list Z) : client :=
  Client [] [] 0 [] [] false (put_node (Fsys ∅ ∅) (ascii_bytes "s") (Reg text)).

Definition script_host : host := Host (fun _ => []) (fun _ => None) (fun _ _ => None) (fun _ => None) 0 (fun _ => 0) (0, 0, 0, 0) (Version.VersionInfo 1 0 0).

Lemma cmd_file_runs_lines_witness (text := ascii_bytes "pwd" ++ newline :: ascii_bytes "w") :
  do_cmd_file (T := copying) script_host 1 1 2 (script_client text) (ascii_bytes "s")
  = Some (execute_multi_cmds (T := copying) script_host 1 1 (script_client text) text).
Proof.
  apply (cmd_file_runs_lines (T := copying) script_host 1 1 2 (script_client text) (ascii_bytes "s") [ascii_bytes "pwd"] (ascii_bytes "w"));
    [|right| |vm_compute; reflexivity].
  - apply Forall_singleton. split; [done|]. split; [by repeat constructor|]. apply Nat.leb_le. reflexivity.
  - split; [done|]. split; [by repeat constructor|]. apply Nat.leb_le. reflexivity.
  - cbn. lia.
Defined.

Lemma blank_line_crashes_witness :
  do_cmd_file (T := copying) script_host 1 1 2 (script_client [newline]) (ascii_bytes "s") = Some Crash.
Proof. apply (blank_line_crashes (T := copying) script_host 1 1 1 _ _ [] []); vm_compute; reflexivity. Defined.

Lemma prepare_ok_witness :
  exists o, prepare (Fsys ∅ ∅) [] [ascii_bytes "root@localhost"] (ascii_bytes "secret" ++ [ENTER]) = Start o /\ settings_ok (Fsys ∅ ∅) o.
Proof.
  eexists. split; [vm_compute; reflexivity|]. eapply (prepare_ok (Fsys ∅ ∅) [] [ascii_bytes "root@localhost"] (ascii_bytes "secret" ++ [ENTER])).
  vm_compute. reflexivity.
Defined.
