(* ===== verification/TestRun.v ===== *)
(** * The runner of the tests of whole programs (src/test_common.c)

    A test makes a directory, describes the programs to start, writes the file
    of commands that a client will read and the file that names what to
    compare, starts the programs by priority, waits for a file that marks the
    end, and compares two directories.  Memory of the pool is clear when it is
    handed out and there is enough of it; a program that was found is run. *)

From Stdlib Require Import Sorted.
From S2P Require Import Prelude CStr FileSystem FilePut FilePutRun FileGet CmdLine Messages FileTree FileMisc Client LineEdit ClientMain Display.

Definition TEST_CONTEXT_MAX_DIRS_NUM : Z := 16.
Definition TEST_PROCESS_MAX_NAME_LEN : nat := 32.
Definition TEST_PROCESS_MAX_ARGS_NUM : nat := 32.
Definition TYPE_INT_BITS : nat := 32.
Definition TEST_PROCESS_START_TIMEOUT : Z := 10.
Definition TEST_COMPLETE_TIMEOUT : Z := 1800.
Definition ETIME : Z := 62.

(** [argv] is the whole array, with [None] for NULL. *)
Record test_process := TestProcess {
  tp_name : list Z; tp_exec_file : list Z; tp_cmd_file : option (list Z); tp_state_file : list Z;
  tp_argv : list (option (list Z)); tp_priority : Z; tp_pid : Z; tp_valid : bool; tp_need_kill : bool }.

(** [proc_list] is in the order of the list. *)
Record test_context := TestContext {
  name : list Z; root_dir : list Z; dir_list : list (list Z); dir_num : Z; proc_list : list test_process;
  need_compare : bool; cmp_file : option (list Z); finish_file : option (list Z); success : bool; test_error : Z }.

(** Strings to the first NULL. *)
Record test_cmd := TestCmd { cmd : list Z; args : list (list Z); chroot_flags : Z }.
Record test_cmp_file_list := TestCmp { cmp_files : list (list Z); cmp_chroot_flags : Z }.

(** ** Making a test *)

Definition test_context_create (fs : fsys) (test_name : list Z) (pid : Z) : fsys * option test_context :=
  let buf := take (DIR_PATH_MAX_LEN - 1) (ascii_bytes "/tmp/sftt_test_" ++ test_name ++ ascii_bytes "_" ++ print_d pid) in
  let '(fs, ret) := make_or_update_dir fs buf in
  if ret =? -1 then (fs, None) else
  (fs, Some (TestContext test_name buf [] 0 [] false None None false 0)).

Definition test_context_get_root_dir (ctx : test_context) : list Z := root_dir ctx.

(** The loop over the directories: the list grows also by one that fails. *)
Fixpoint add_dirs (fs : fsys) (ctx : test_context) (dirs : list (list Z)) (l : list (list Z)) : fsys * list (list Z) * Z :=
  match dirs with
  | [] => (fs, l, 0)
  | d :: dirs =>
      let '(fs, ret) := make_or_update_dir fs (path_join (root_dir ctx) d) in
      if ret =? -1 then (fs, l ++ [d], -1) else add_dirs fs ctx dirs (l ++ [d])
  end.

Definition with_dirs (l : list (list Z)) (n : Z) (ctx : test_context) : test_context :=
  TestContext (name ctx) (root_dir ctx) l n (proc_list ctx) (need_compare ctx) (cmp_file ctx) (finish_file ctx) (success ctx) (test_error ctx).

(** The next list begins at [dir_num]: what a call that failed has entered is
    overwritten. *)
Definition test_context_add_dirs (fs : fsys) (ctx : test_context) (dirs : list (list Z)) : fsys * test_context * Z :=
  let num := Z.of_nat (length dirs) in
  if TEST_CONTEXT_MAX_DIRS_NUM <? dir_num ctx + num then (fs, ctx, -1) else
  let '(fs, l, ret) := add_dirs fs ctx dirs (take (Z.to_nat (dir_num ctx)) (dir_list ctx)) in
  let l := l ++ drop (length l) (dir_list ctx) in
  if ret =? -1 then (fs, with_dirs l (dir_num ctx) ctx, -1) else (fs, with_dirs l (dir_num ctx + num) ctx, 0).

Definition test_context_gen_random_files (rands : nat -> nat -> Z) (fs : fsys) (ctx : test_context) (dir : list Z)
    (attrs : list file_gen_attr) : option (fsys * Z) :=
  gen_files_by_template rands fs (Some attrs) (Some (path_join (root_dir ctx) dir)).

(** [argv[i] = v]; [None] is beyond the array. *)
Definition set_arg (argv : list (option (list Z))) (i : nat) (v : option (list Z)) : option (list (option (list Z))) :=
  if (i <? length argv)%nat then Some (<[i := v]> argv) else None.

Fixpoint set_args (argv : list (option (list Z))) (i : nat) (vs : list (option (list Z))) : option (list (option (list Z))) :=
  match vs with [] => Some argv | v :: vs => argv ← set_arg argv i v; set_args argv (S i) vs end.

(** [priority_list_add]: before the first process of a greater priority. *)
Fixpoint add_process (p : test_process) (l : list test_process) : list test_process :=
  match l with
  | [] => [p]
  | q :: l' => if tp_priority p <? tp_priority q then p :: l else q :: add_process p l'
  end.

Definition with_procs (l : list test_process) (ctx : test_context) : test_context :=
  TestContext (name ctx) (root_dir ctx) (dir_list ctx) (dir_num ctx) l (need_compare ctx) (cmp_file ctx) (finish_file ctx) (success ctx) (test_error ctx).

(** An argument that is empty becomes NULL. *)
Definition test_context_add_process (ctx : test_context) (process_name exec_file : list Z) (priority : Z) (state_file : list Z)
    (need_kill : bool) (argv : list (list Z)) : option (test_context * Z) :=
  if (TEST_PROCESS_MAX_NAME_LEN <=? length process_name)%nat then Some (ctx, -1) else
  if (TEST_PROCESS_MAX_ARGS_NUM - 2 <? length argv)%nat then Some (ctx, -1) else
  let state := path_join (root_dir ctx) state_file in
  slots ← set_args (replicate (TEST_PROCESS_MAX_ARGS_NUM + 2) None) 0
    (map (fun a => __strdup (Some a)) ((basename exec_file).2 :: argv ++ [ascii_bytes "-s"; state]) ++ [None]);
  Some (with_procs (add_process (TestProcess process_name exec_file None state slots priority 0 false need_kill) (proc_list ctx)) ctx, 0).

Definition test_context_get_process (ctx : test_context) (process_name : list Z) : option (nat * test_process) :=
  list_find (fun p => tp_name p = process_name) (proc_list ctx).

(** ** The file of commands *)

(** What the calls of [snprintf] have made so far; behind the end of the buffer
    the room that is left is taken to be huge. *)
Fixpoint print_args (root : list Z) (flags : Z) (i : nat) (args : list (list Z)) (len : nat) (text : list Z) : option (list Z) :=
  match args with
  | [] => Some text
  | a :: args =>
      if (len <? length text)%nat then None else
      print_args root flags (S i) args len
        (text ++ (if Z.testbit flags (Z.of_nat i) then root ++ slash :: a else a) ++ [32])
  end.

(** [None]: no NULL ends the arguments, or something is written outside the
    buffer. *)
Definition generate_one_cmd (root : list Z) (c : test_cmd) (len : nat) : option (list Z) :=
  if (TYPE_INT_BITS <=? length (args c))%nat then None else
  text ← print_args root (chroot_flags c) 0 (args c) len (cmd c ++ [32]);
  match take (len - 1) text with [] => None | buf => Some (removelast buf) end.

Fixpoint write_cmds (fs : fsys) (root path : list Z) (cmds : list test_cmd) : option fsys :=
  match cmds with
  | [] => Some fs
  | c :: cmds => buf ← generate_one_cmd root c CMD_MAX_LEN; write_cmds (fappend (fappend fs path buf) path [10]) root path cmds
  end.

Definition with_cmd_file (file : list Z) (argv : list (option (list Z))) (p : test_process) : test_process :=
  TestProcess (tp_name p) (tp_exec_file p) (Some file) (tp_state_file p) argv (tp_priority p) (tp_pid p) true (tp_need_kill p).

(** Without a process the last loop goes through NULL. *)
Definition test_context_generate_cmd_file (fs : fsys) (ctx : test_context) (process_name : option (list Z)) (fname : list Z)
    (cmds : list test_cmd) : option (fsys * test_context * Z) :=
  let path := path_join (root_dir ctx) fname in
  match process_name with
  | None => match fopen_w fs path with None => Some (fs, ctx, -1) | Some _ => None end
  | Some process_name =>
      match test_context_get_process ctx process_name with
      | None => Some (fs, ctx, -1)
      | Some (k, p) =>
          match tp_cmd_file p with
          | Some _ => Some (fs, ctx, -1)
          | None =>
              match fopen_w fs path with
              | None => Some (fs, ctx, -1)
              | Some fs =>
                  fs ← write_cmds fs (root_dir ctx) path cmds;
                  '(n, _) ← list_find (fun a => a = None) (tp_argv p);
                  argv ← set_args (tp_argv p) n [Some (ascii_bytes "-f"); Some path; None];
                  Some (fs, with_procs (<[k := with_cmd_file path argv p]> (proc_list ctx)) ctx, 0)
              end
          end
      end
  end.

(** ** The file of what is compared *)

Fixpoint write_paths (fs : fsys) (root path : list Z) (flags : Z) (i : nat) (l : list (list Z)) : fsys :=
  match l with
  | [] => fs
  | f :: l =>
      let p := if Z.testbit flags (Z.of_nat i) then path_join root f else f in
      write_paths (fappend (fappend fs path p) path [10]) root path flags (S i) l
  end.

Definition with_compare (file : list Z) (ctx : test_context) : test_context :=
  TestContext (name ctx) (root_dir ctx) (dir_list ctx) (dir_num ctx) (proc_list ctx) true (Some file) (finish_file ctx) (success ctx) (test_error ctx).

Definition test_context_generate_cmp_file (fs : fsys) (ctx : test_context) (fname : list Z) (l : test_cmp_file_list)
    : option (fsys * test_context * Z) :=
  match cmp_file ctx with
  | Some _ => Some (fs, ctx, -1)
  | None =>
      let path := path_join (root_dir ctx) fname in
      let ctx := with_compare path ctx in
      match fopen_w fs path with
      | None => Some (fs, ctx, -1)
      | Some fs =>
          if (TYPE_INT_BITS <=? length (cmp_files l))%nat then None else
          Some (write_paths fs (root_dir ctx) path (cmp_chroot_flags l) 0 (cmp_files l), ctx, 0)
      end
  end.

Definition test_context_add_finish_file (ctx : test_context) (file : list Z) : test_context * Z :=
  match finish_file ctx with
  | Some _ => (ctx, -1)
  | None =>
      (TestContext (name ctx) (root_dir ctx) (dir_list ctx) (dir_num ctx) (proc_list ctx) (need_compare ctx) (cmp_file ctx)
         (Some (path_join (root_dir ctx) file)) (success ctx) (test_error ctx), 0)
  end.

(** ** Running *)

(** Looking for a file once a second: [exists_at k] is the answer to the [k]th
    look and [elapsed k] the time that has passed when it is over.  The result
    is whether it was found, with the number of looks. *)
Fixpoint wait_for (fuel : nat) (exists_at : nat -> bool) (elapsed : nat -> Z) (limit : Z) (k : nat) : option (bool * nat) :=
  match fuel with
  | O => None
  | S fuel =>
      if exists_at k then Some (true, S k) else
      if limit <? elapsed k then Some (false, S k) else wait_for fuel exists_at elapsed limit (S k)
  end.

Definition is_started_default (fuel : nat) (exists_at : nat -> bool) (elapsed : nat -> Z) : option bool :=
  '(found, _) ← wait_for fuel exists_at elapsed TEST_PROCESS_START_TIMEOUT 0; Some found.

Inductive event := Started (pid : Z) (argv : list (list Z)) | Killed (pid : Z).

(** The strings up to the first NULL. *)
Fixpoint arg_strings (argv : list (option (list Z))) : list (list Z) :=
  match argv with Some a :: argv => a :: arg_strings argv | _ => [] end.

(** What the system does with the [k]th process: its identifier, or the error
    of [fork], and what [is_started] says. *)
Record starting := Starting { forked : Z + Z; is_started : bool }.

Definition with_pid (pid : Z) (ok : bool) (p : test_process) : test_process :=
  TestProcess (tp_name p) (tp_exec_file p) (tp_cmd_file p) (tp_state_file p) (tp_argv p) (tp_priority p) pid ok (tp_need_kill p).

Definition start_one_test_process (s : starting) (p : test_process) : test_process * list event * Z :=
  match forked s with
  | inr _ => (p, [], -1)
  | inl pid =>
      let ev := [Started pid (arg_strings (tp_argv p))] in
      if is_started s then (with_pid pid true p, ev, 0) else (with_pid pid false p, ev, -1)
  end.

(** The loop: a process that does not start is the last one. *)
Fixpoint start_all (sys : nat -> starting) (k : nat) (l : list test_process) : list test_process * list event :=
  match l with
  | [] => ([], [])
  | p :: l =>
      let '(p, ev, ret) := start_one_test_process (sys k) p in
      if ret =? -1 then (p :: l, ev) else
      let '(l, evs) := start_all sys (S k) l in (p :: l, ev ++ evs)
  end.

Definition kill_all (l : list test_process) : list event :=
  concat (map (fun p => if tp_need_kill p then [Killed (tp_pid p)] else []) l).

(** [seen k] is whether the file that marks the end is there at the [k]th look;
    the processes are destroyed at the end, but the list goes on to hold them. *)
Definition test_context_run_test (fuel : nat) (sys : nat -> starting) (seen : list Z -> nat -> bool) (elapsed : nat -> Z)
    (ctx : test_context) : option (test_context * list event * Z) :=
  let '(procs, evs) := start_all sys 0 (proc_list ctx) in
  let seen := match finish_file ctx with Some f => seen f | None => fun _ => false end in
  '(_, k) ← wait_for fuel seen elapsed TEST_COMPLETE_TIMEOUT 0;
  let ok := seen k in
  Some (TestContext (name ctx) (root_dir ctx) (dir_list ctx) (dir_num ctx) procs (need_compare ctx) (cmp_file ctx) (finish_file ctx)
          ok (if ok then 0 else ETIME), evs ++ kill_all procs, 0).

(** ** The result *)

Section Result.
Context (fs : fsys) (opendir : list Z -> option (list (list Z))) (file_mode : list Z -> Z) (dir_size : Z) (strerror : Z -> list Z).

(** A line without its end, and what follows; no line at the end of the file.
    [None]: the line begins with a zero. *)
Definition get_path (rest : list Z) : option (option (list Z * list Z)) :=
  let '(piece, rest, _) := fgets 255 rest in
  match piece with
  | [] => Some None
  | _ => match c_str piece with [] => None | path => Some (Some (chomp path, rest)) end
  end.

(** [*result] and the message when they are set, and what is returned. *)
Definition test_context_get_result (fuel : nat) (ctx : test_context) (len : Z) : option (option (bool * list Z) * Z) :=
  if negb (success ctx) then Some (Some (false, Version.snprintf len (strerror (test_error ctx))), 0) else
  if negb (need_compare ctx) then Some (Some (true, Version.snprintf len (ascii_bytes "test successfully!")), 0) else
  match cmp_file ctx with
  | None => Some (None, -1)
  | Some file =>
      match fopen_r fs file with
      | None => Some (None, -1)
      | Some data =>
          l1 ← get_path data;
          match l1 with
          | None => Some (None, -1)
          | Some (path1, rest) =>
              l2 ← get_path rest;
              match l2 with
              | None => Some (None, -1)
              | Some (path2, _) =>
                  r ← dir_compare fs opendir file_mode dir_size fuel path1 path2;
                  Some (Some (if r =? 0 then (true, Version.snprintf len (ascii_bytes "test successfully!"))
                              else (false, Version.snprintf len (ascii_bytes "dir compare failed: " ++ path1 ++ ascii_bytes ", " ++ path2 ++ [10]))), 0)
              end
          end
      end
  end.
End Result.

(** ** The arguments fit, or do not *)

Lemma set_args_spec vs : forall argv i, (i + length vs <= length argv)%nat ->
  set_args argv i vs = Some (take i argv ++ vs ++ drop (i + length vs) argv).
Proof.
  induction vs as [|v vs IH]; intros argv i Hl; cbn [set_args length app] in *; [by rewrite Nat.add_0_r, take_drop|].
  unfold set_arg. rewrite (proj2 (Nat.ltb_lt _ _)) by lia. cbn [mbind option_bind].
  rewrite IH by (rewrite length_insert; lia). rewrite insert_take_drop by lia. f_equal.
  assert (Ht : length (take i argv) = i) by (rewrite length_take; lia).
  rewrite take_app_ge, Ht by (rewrite Ht; lia). replace (S i - i)%nat with 1%nat by lia. cbn [take]. rewrite take_0, <- app_assoc. cbn [app].
  do 2 f_equal. f_equal. rewrite drop_app_ge, Ht by (rewrite Ht; lia). replace (S i + length vs - i)%nat with (S (length vs)) by lia.
  cbn [drop]. rewrite drop_drop. f_equal. lia.
Qed.

Lemma set_args_over vs : forall argv i, (length argv < i + length vs)%nat -> vs <> [] -> set_args argv i vs = None.
Proof.
  induction vs as [|v vs IH]; intros argv i Hl Hne; [done|]. cbn [set_args length] in *. unfold set_arg.
  destruct (Nat.ltb_spec i (length argv)); [|done]. cbn [mbind option_bind]. apply IH; [rewrite length_insert; lia|]. intros ->. cbn in Hl. lia.
Qed.

(** ** A line of the file of commands is read as the command it was made of *)

(** A word without quotes, white space and zeros. *)
Definition plain_word (w : list Z) : Prop := w <> [] /\ Forall (fun c => plain c /\ c <> 0) w.

Definition real_args (root : list Z) (flags : Z) (i : nat) (l : list (list Z)) : list (list Z) :=
  imap (fun k a => if Z.testbit flags (Z.of_nat (i + k)) then path_join root a else a) l.

Definition line_of (root : list Z) (c : test_cmd) : list Z :=
  cmd c ++ concat (map (fun a => 32 :: a) (real_args root (chroot_flags c) 0 (args c))).

Definition blanked (l : list (list Z)) : list Z := concat (map (fun a => a ++ [32]) l).

Lemma print_args_spec root flags l : forall i len text,
  (length (text ++ blanked (real_args root flags i l)) <= len)%nat ->
  print_args root flags i l len text = Some (text ++ blanked (real_args root flags i l)).
Proof.
  induction l as [|a l IH]; intros i len text Hl; cbn [print_args real_args imap map concat]; [by rewrite app_nil_r|].
  unfold real_args, blanked in *. cbn [imap map concat] in Hl |- *. rewrite Nat.add_0_r in *.
  assert (E : imap ((fun k a => if Z.testbit flags (Z.of_nat (i + k)) then path_join root a else a) ∘ S) l
    = imap (fun k a => if Z.testbit flags (Z.of_nat (S i + k)) then path_join root a else a) l).
  { apply imap_ext. intros k x _. unfold compose. by rewrite Nat.add_succ_r. }
  rewrite E in *. rewrite (proj2 (Nat.ltb_ge _ _)) by (rewrite length_app in Hl; lia).
  unfold path_join in *. rewrite app_assoc in Hl. rewrite IH by exact Hl. by rewrite <- app_assoc.
Qed.

Definition cmd_ok (root : list Z) (c : test_cmd) : Prop :=
  plain_word (cmd c) /\ (length (cmd c) < EXEC_NAME_MAX_LEN)%nat
  /\ Forall (fun c => plain c /\ c <> 0) root /\ Forall plain_word (args c) /\ (length (args c) < TYPE_INT_BITS)%nat
  /\ (length (line_of root c) <= CMD_MAX_LEN - 3)%nat.

Lemma blanked_shift l a : a ++ [32] ++ blanked l = (a ++ concat (map (fun a => 32 :: a) l)) ++ [32].
Proof.
  unfold blanked. revert a. induction l as [|b l IH]; intros a; cbn [map concat app]; [by rewrite app_nil_r|].
  specialize (IH (a ++ 32 :: b)). cbn [app] in IH.
  trans ((a ++ 32 :: b) ++ 32 :: concat (map (fun a => a ++ [32]) l)); [by rewrite <- !app_assoc|].
  rewrite IH. rewrite <- !app_assoc. cbn [app]. by rewrite <- !app_assoc.
Qed.

Lemma generate_one_cmd_spec root c : cmd_ok root c -> generate_one_cmd root c CMD_MAX_LEN = Some (line_of root c).
Proof.
  intros (_ & _ & _ & _ & Hn & Hl). unfold generate_one_cmd. rewrite (proj2 (Nat.leb_gt _ _)) by done.
  pose proof (blanked_shift (real_args root (chroot_flags c) 0 (args c)) (cmd c)) as E. fold (line_of root c) in E. rewrite app_assoc in E.
  assert (Hlen : (length (line_of root c ++ [32%Z]) <= CMD_MAX_LEN - 2)%nat) by (rewrite length_app; cbn [length]; unfold CMD_MAX_LEN in *; lia).
  rewrite print_args_spec by (rewrite E; lia). rewrite E. cbn [mbind option_bind]. rewrite take_ge by lia.
  destruct (line_of root c ++ [32]) as [|x l] eqn:El; [by destruct (line_of root c)|]. by rewrite <- El, removelast_last.
Qed.

Lemma real_args_plain root flags l : Forall (fun c => plain c /\ c <> 0) root -> Forall plain_word l -> forall i, Forall plain_word (real_args root flags i l).
Proof.
  intros Hr Hl i. unfold real_args. apply Forall_lookup. intros k a Hk. rewrite list_lookup_imap in Hk.
  destruct (l !! k) as [b|] eqn:E; [|done]. injection Hk as <-. destruct (proj1 (Forall_lookup _ _) Hl _ _ E) as [Hne Hb].
  destruct (Z.testbit _ _); [|done]. unfold path_join. split; [by destruct root|]. apply Forall_app. split; [done|]. by constructor.
Qed.

Lemma spells_word w : Forall (fun c => plain c /\ c <> 0) w -> spells w w.
Proof.
  induction w as [|c w IH] using rev_ind; [constructor|]. intros [Hw Hc]%Forall_app. apply Forall_singleton in Hc as [Hc _].
  by apply spells_plain; [apply IH|].
Qed.

Lemma words_of l : Forall plain_word l -> Forall (fun a => (length a < CMD_ARG_MAX_LEN)%nat) l ->
  words (concat (map (fun a => 32 :: a) l) ++ [32]) l.
Proof.
  induction l as [|a l IH] using rev_ind; intros Hl Hs.
  - by apply (words_word [] [] [] [] 32); [constructor|constructor|apply Nat.ltb_lt|].
  - apply Forall_app in Hl as [Hl [Hne Ha]%Forall_singleton], Hs as [Hs [Hsa _]%Forall_cons].
    rewrite map_app, concat_app. cbn [map concat]. rewrite app_nil_r, <- app_assoc. cbn [app].
    replace (concat (map (fun a => 32 :: a) l) ++ 32 :: a ++ [32]) with ((concat (map (fun a => 32 :: a) l) ++ [32]) ++ a ++ [32]) by (by rewrite <- app_assoc).
    assert (Ew : [a] = word a) by (by destruct a). rewrite Ew. by apply words_word; [apply IH|apply spells_word| |].
Qed.

Lemma args_line_of l : Forall plain_word l -> Forall (fun a => (length a < CMD_ARG_MAX_LEN)%nat) l -> args_line (concat (map (fun a => 32 :: a) l)) l.
Proof.
  intros Hl Hs. destruct l as [|a l _] using rev_ind; [by exists [], [], [], []; split_and!; [| |constructor|apply (last_closed [] []); [constructor|apply Nat.ltb_lt]]|].
  apply Forall_app in Hl as [Hl [Hne Ha]%Forall_singleton], Hs as [Hs [Hsa _]%Forall_cons].
  exists (concat (map (fun a => 32 :: a) l) ++ [32]), l, a, [a]. rewrite map_app, concat_app. cbn [map concat]. rewrite app_nil_r, <- app_assoc.
  split_and!; [done|done|by apply words_of|]. assert (Ew : [a] = word a) by (by destruct a). rewrite Ew. by apply last_closed; [apply spells_word|].
Qed.

Lemma take_word_plain w rest n : Forall (fun c => plain c /\ c <> 0) w -> (length w <= n)%nat -> rest = [] \/ (exists r, rest = 32 :: r) ->
  take_word n (w ++ rest) = (w, rest).
Proof.
  intros Hw Hn Hr. revert n Hn. induction Hw as [|c w [[Hc _] _] _ IH]; intros n Hn; cbn [length app] in *.
  - destruct Hr as [->|[r ->]]; destruct n; done.
  - destruct n as [|n]; [lia|]. cbn [take_word]. rewrite Hc. by rewrite IH by lia.
Qed.

Lemma line_parsed root c : cmd_ok root c ->
  parse_command (line_of root c) = Some (Some (UserCmd (Some (cmd c)) (real_args root (chroot_flags c) 0 (args c)))).
Proof.
  intros ([Hne Hc] & Hn & Hr & Ha & _ & Hl). pose proof (real_args_plain root (chroot_flags c) (args c) Hr Ha 0) as Hp.
  unfold line_of in *. set (l := real_args _ _ _ _) in *.
  assert (Hs : Forall (fun a => (length a < CMD_ARG_MAX_LEN)%nat) l).
  { apply Forall_lookup. intros k a Hk. rewrite length_app in Hl. assert (length a <= length (concat (map (fun a => 32%Z :: a) l)))%nat.
    { clear -Hk. clearbody l. revert k Hk. induction l as [|b l IH]; intros k Hk; [done|]. cbn [map concat]. rewrite length_app.
      destruct k as [|k]; [injection Hk as ->; cbn [length]; lia|]. specialize (IH _ Hk). cbn [length]. lia. }
    unfold CMD_ARG_MAX_LEN, CMD_MAX_LEN in *. lia. }
  unfold parse_command, parse_exec_name.
  assert (Hsk : skip_spaces (cmd c ++ concat (map (fun a => 32 :: a) l)) = cmd c ++ concat (map (fun a => 32 :: a) l)).
  { destruct (cmd c) as [|x w]; [done|]. apply Forall_cons in Hc as [[[Hx _] _] _]. cbn [app skip_spaces]. by rewrite Hx. }
  rewrite Hsk, take_word_plain; [|done|unfold EXEC_NAME_MAX_LEN in *; lia|destruct l; [by left|right; by eexists]].
  rewrite (parse_args_complete _ _ (args_line_of l Hp Hs)). cbn [mbind option_bind]. by destruct (cmd c).
Qed.

(** ** The whole file *)

Lemma write_cmds_spec root path cmds : Forall (cmd_ok root) cmds -> forall fs d, node_at fs path = Some (Reg d) ->
  exists fs', write_cmds fs root path cmds = Some fs' /\ keeps path fs fs'
    /\ node_at fs' path = Some (Reg (d ++ concat (map (fun l => l ++ [newline]) (map (line_of root) cmds)))).
Proof.
  induction 1 as [|c cmds Hc _ IH]; intros fs d Hd; cbn [write_cmds map concat]; [exists fs; by rewrite app_nil_r|].
  rewrite (generate_one_cmd_spec _ _ Hc). cbn [mbind option_bind]. rewrite fappend_app.
  assert (Hd1 : node_at (fappend fs path (line_of root c ++ [10])) path = Some (Reg (d ++ line_of root c ++ [10]))).
  { unfold fappend. rewrite Hd. apply node_put. eapply node_reg. by rewrite Hd. }
  destruct (IH _ _ Hd1) as (fs' & E & Hk & Hn). exists fs'. split; [exact E|]. split; [etransitivity; [apply fappend_keeps|exact Hk]|].
  rewrite Hn. by rewrite <- !app_assoc.
Qed.

Lemma line_is_script root c : cmd_ok root c -> script_line (line_of root c).
Proof.
  intros ([Hne Hc] & _ & Hr & Ha & _ & Hl). pose proof (real_args_plain root (chroot_flags c) (args c) Hr Ha 0) as Hp. unfold line_of in *.
  assert (Hch : forall x, plain x /\ x <> 0 -> x <> newline /\ x <> 0) by (intros x [[Hs _] H0]; split; [by intros ->|done]).
  split; [by destruct (cmd c)|]. split; [|exact Hl]. apply Forall_app. split; [eapply Forall_impl; [exact Hc|exact Hch]|].
  clear Hl. induction Hp as [|a l [_ Ha'] _ IH]; [constructor|]. cbn [map concat app]. constructor; [done|]. apply Forall_app.
  split; [eapply Forall_impl; [exact Ha'|exact Hch]|exact IH].
Qed.

(** The arguments of a process with room for three entries. *)
Definition has_room (p : test_process) (strs : list (list Z)) (k : nat) : Prop := tp_argv p = map Some strs ++ replicate k None.

Lemma find_null strs k : (0 < k)%nat -> list_find (fun a : option (list Z) => a = None) (map Some strs ++ replicate k None) = Some (length strs, None).
Proof.
  intros Hk. apply list_find_Some. split_and!.
  - rewrite lookup_app_r, length_map, Nat.sub_diag by (by rewrite length_map). by destruct k; [lia|].
  - done.
  - intros j y Hj Hlt. rewrite lookup_app_l in Hj by (rewrite length_map; lia). rewrite list_lookup_fmap in Hj. by destruct (strs !! j); naive_solver.
Qed.

Lemma arg_strings_spec strs more rest : arg_strings (map Some strs ++ (map Some more ++ [None]) ++ rest) = strs ++ more.
Proof.
  assert (H : arg_strings ((map Some more ++ [None]) ++ rest) = more) by (induction more as [|a more IH]; [done|cbn [map app arg_strings]; by rewrite IH]).
  induction strs as [|s strs IH]; cbn [map app arg_strings]; [exact H|by rewrite IH].
Qed.

(** C36: The commands of a test are the commands of its client, when they have no
    white space, quotes or zeros in their words and directory, fewer than 32
    arguments, and lines of at most [CMD_MAX_LEN - 3] characters ([cmd_ok]), and
    when the process has no such file yet and room for three arguments more.
    The file is written and handed to the process behind [-f]; read as the
    client reads it, it gives one line for each command, and each line is parsed
    as the command with its arguments, those that the flags name below the
    directory of the test. *)
Theorem test_commands_reach_client fs fs1 ctx process_name fname cmds k p strs room :
  Forall (cmd_ok (root_dir ctx)) cmds -> test_context_get_process ctx process_name = Some (k, p) -> tp_cmd_file p = None ->
  has_room p strs room -> (3 <= room)%nat ->
  let path := path_join (root_dir ctx) fname in
  fopen_w fs path = Some fs1 ->
  exists fs' ctx' p' data, test_context_generate_cmd_file fs ctx (Some process_name) fname cmds = Some (fs', ctx', 0)
    /\ keeps path fs fs' /\ node_at fs' path = Some (Reg data)
    /\ script_lines (S (length cmds)) (File data) = Some (map (line_of (root_dir ctx)) cmds)
    /\ Forall (fun c => parse_command (line_of (root_dir ctx) c)
         = Some (Some (UserCmd (Some (cmd c)) (real_args (root_dir ctx) (chroot_flags c) 0 (args c))))) cmds
    /\ proc_list ctx' !! k = Some p' /\ arg_strings (tp_argv p') = strs ++ [ascii_bytes "-f"; path].
Proof.
  intros Hc Hp Hno Hroom Hk path Ho. pose proof (fopen_w_empty _ _ _ Ho) as Hn.
  destruct (write_cmds_spec (root_dir ctx) path cmds Hc fs1 [] Hn) as (fs' & Ew & Hkeep & Hdata). cbn [app] in Hdata.
  unfold test_context_generate_cmd_file. rewrite Hp, Hno. fold path. rewrite Ho. cbn [mbind option_bind]. rewrite Ew. cbn [mbind option_bind].
  unfold has_room in Hroom. rewrite Hroom, find_null by lia. cbn [mbind option_bind].
  rewrite set_args_spec by (rewrite length_app, length_map, length_replicate; cbn [length]; lia). cbn [mbind option_bind].
  rewrite take_app_le, take_ge by (rewrite length_map; lia).
  eexists fs', _, _, _. split; [done|]. split; [etransitivity; [by apply fopen_w_keeps|exact Hkeep]|]. split; [exact Hdata|]. split; [|split; [|split]].
  - rewrite <- (app_nil_r (concat _)), script_lines_spec; [by rewrite app_nil_r| |by left|rewrite length_map; lia].
    apply Forall_map. eapply Forall_impl; [exact Hc|apply line_is_script].
  - eapply Forall_impl; [exact Hc|]. intros c. apply line_parsed.
  - cbn [proc_list with_procs]. apply list_lookup_insert_eq. unfold test_context_get_process in Hp. apply list_find_Some in Hp as (Hp & _).
    by eapply lookup_lt_Some.
  - exact (arg_strings_spec strs [ascii_bytes "-f"; path] _).
Qed.

(** ** The processes *)

Lemma strdup_all l : Forall (fun a => a <> []) l -> map (fun a => __strdup (Some a)) l = map Some l.
Proof. induction 1 as [|a l Ha _ IH]; [done|]. cbn [map]. rewrite IH. by destruct a. Qed.

Lemma add_process_perm p l : add_process p l ≡ₚ p :: l.
Proof.
  induction l as [|q l IH]; [done|]. cbn [add_process]. destruct (_ <? _); [done|]. rewrite IH. by apply perm_swap.
Qed.

Definition by_priority (l : list test_process) : Prop := StronglySorted (fun p q => tp_priority p <= tp_priority q) l.

Lemma add_process_sorted p l : by_priority l -> by_priority (add_process p l).
Proof.
  unfold by_priority. induction 1 as [|q l Hl IH Hq]; cbn [add_process]; [by repeat constructor|].
  destruct (Z.ltb_spec (tp_priority p) (tp_priority q)) as [Hlt|Hge].
  - constructor; [by constructor|]. constructor; [lia|]. eapply Forall_impl; [exact Hq|]. cbn. intros; lia.
  - constructor; [done|]. rewrite add_process_perm. by constructor.
Qed.

(** A process that was described goes to its place in the list, not yet started,
    with its name, its arguments and the file that tells it has started. *)
Theorem process_added ctx process_name exec_file priority state_file need_kill argv :
  (length process_name < TEST_PROCESS_MAX_NAME_LEN)%nat -> (length argv <= TEST_PROCESS_MAX_ARGS_NUM - 2)%nat ->
  Forall (fun a => a <> []) argv -> (basename exec_file).2 <> [] -> by_priority (proc_list ctx) ->
  exists ctx' p, test_context_add_process ctx process_name exec_file priority state_file need_kill argv = Some (ctx', 0)
    /\ proc_list ctx' ≡ₚ p :: proc_list ctx /\ by_priority (proc_list ctx')
    /\ tp_name p = process_name /\ tp_priority p = priority /\ tp_pid p = 0 /\ tp_need_kill p = need_kill /\ tp_cmd_file p = None
    /\ has_room p ((basename exec_file).2 :: argv ++ [ascii_bytes "-s"; path_join (root_dir ctx) state_file]) (31 - length argv).
Proof.
  intros Hn Ha Hne Hb Hs. unfold test_context_add_process.
  rewrite (proj2 (Nat.leb_gt _ _)), (proj2 (Nat.ltb_ge _ _)) by lia. set (strs := _ :: argv ++ _).
  assert (Hstrs : Forall (fun a => a <> []) strs).
  { unfold strs, path_join. constructor; [done|]. apply Forall_app. split; [done|]. constructor; [done|]. constructor; [|done]. by destruct (root_dir ctx). }
  assert (Hlen : length strs = (length argv + 3)%nat) by (unfold strs; cbn [length]; rewrite length_app; cbn [length]; lia).
  unfold TEST_PROCESS_MAX_ARGS_NUM in Ha. rewrite strdup_all by done.
  rewrite set_args_spec by (rewrite length_app, length_map, length_replicate, Hlen; cbn [length]; unfold TEST_PROCESS_MAX_ARGS_NUM; lia).
  cbn [mbind option_bind take app]. eexists _, _. split; [done|]. cbn [proc_list with_procs].
  split; [apply add_process_perm|]. split; [by apply add_process_sorted|]. do 5 (split; [done|]).
  unfold has_room. cbn [tp_argv]. rewrite take_0, <- app_assoc. cbn [app]. f_equal. rewrite length_app, length_map, Hlen, drop_replicate. cbn [length app].
  change (None :: ?l) with (replicate 1 (@None (list Z)) ++ l). rewrite <- replicate_add. f_equal. unfold TEST_PROCESS_MAX_ARGS_NUM. lia.
Qed.

(** With more than 28 arguments of its own, the option for the file of commands
    is written behind the array. *)
Theorem too_many_arguments fs fs1 ctx process_name fname cmds k p strs room :
  Forall (cmd_ok (root_dir ctx)) cmds -> test_context_get_process ctx process_name = Some (k, p) -> tp_cmd_file p = None ->
  has_room p strs room -> (room < 3)%nat -> fopen_w fs (path_join (root_dir ctx) fname) = Some fs1 ->
  test_context_generate_cmd_file fs ctx (Some process_name) fname cmds = None.
Proof.
  intros Hc Hp Hno Hroom Hk Ho. pose proof (fopen_w_empty _ _ _ Ho) as Hn.
  destruct (write_cmds_spec (root_dir ctx) _ cmds Hc fs1 [] Hn) as (fs' & Ew & _).
  unfold test_context_generate_cmd_file. rewrite Hp, Hno, Ho. cbn [mbind option_bind]. rewrite Ew. cbn [mbind option_bind].
  unfold has_room in Hroom. rewrite Hroom. destruct room as [|room].
  - rewrite app_nil_r. assert (E : list_find (fun a : option (list Z) => a = None) (map Some strs) = None); [|by rewrite E].
    apply list_find_None, Forall_map, Forall_true. done.
  - rewrite find_null by lia. cbn [mbind option_bind].
    rewrite set_args_over; [done|rewrite length_app, length_map, length_replicate; cbn [length]; lia|done].
Qed.

(** ** Starting and killing *)

(** The wait ends: a look every second is at most one more than the seconds of
    the limit, and one. *)
Theorem wait_ends exists_at elapsed limit : 0 <= limit -> (forall k, Z.of_nat k <= elapsed k) ->
  forall fuel k, limit + 1 < Z.of_nat (fuel + k) -> (0 < fuel)%nat -> exists found n, wait_for fuel exists_at elapsed limit k = Some (found, n)
    /\ (found = true -> exists_at (Nat.pred n) = true).
Proof.
  intros Hl He. induction fuel as [|fuel IH]; intros k Hf Hpos; [lia|]. cbn [wait_for].
  destruct (exists_at k) eqn:Ek; [by exists true, (S k)|]. destruct (Z.ltb_spec limit (elapsed k)) as [|Hle]; [by exists false, (S k)|].
  specialize (He k). apply IH; [rewrite Nat.add_succ_r; exact Hf|lia].
Qed.

Definition all_start (sys : nat -> starting) (pids : nat -> Z) : Prop := forall k, forked (sys k) = inl (pids k) /\ is_started (sys k) = true.

Lemma start_all_ok sys pids l : all_start sys pids -> forall k,
  start_all sys k l = (imap (fun i p => with_pid (pids (k + i)%nat) true p) l, imap (fun i p => Started (pids (k + i)%nat) (arg_strings (tp_argv p))) l).
Proof.
  intros Hall. induction l as [|p l IH]; intros k; [done|]. cbn [start_all imap]. destruct (Hall k) as [Hf Hs].
  unfold start_one_test_process. rewrite Hf, Hs. cbn [Z.eqb]. rewrite IH, Nat.add_0_r. cbn [app]. f_equal; f_equal; apply imap_ext; intros i x _;
    unfold compose; by rewrite Nat.add_succ_r.
Qed.

(** When every process starts, they start in the order of their priorities, and
    at the end each that is to be killed gets its own signal. *)
Theorem test_runs fuel sys pids seen elapsed ctx ctx' evs : all_start sys pids ->
  test_context_run_test fuel sys seen elapsed ctx = Some (ctx', evs, 0) ->
  evs = imap (fun i p => Started (pids i) (arg_strings (tp_argv p))) (proc_list ctx)
        ++ concat (imap (fun i p => if tp_need_kill p then [Killed (pids i)] else []) (proc_list ctx))
  /\ (success ctx' = true -> exists f n, finish_file ctx = Some f /\ seen f n = true).
Proof.
  intros Hall. unfold test_context_run_test. rewrite (start_all_ok sys pids _ Hall). cbn [Nat.add].
  destruct (wait_for _ _ _ _ _) as [[found n]|]; [|done]. cbn [mbind option_bind]. intros [= <- <-]. split.
  - f_equal. unfold kill_all. f_equal. apply list_eq. intros i. rewrite list_lookup_fmap, !list_lookup_imap. by destruct (proc_list ctx !! i).
  - cbn [success]. destruct (finish_file ctx) as [f|]; [|done]. intros Hs. by exists f, n.
Qed.

(** A process that does not get as far as [fork] keeps the identifier 0, and the
    signal for it goes to every process of the group, the runner among them. *)
Theorem unstarted_kills_group fuel sys seen elapsed ctx ctx' evs l1 p l2 q err :
  proc_list ctx = l1 ++ p :: l2 -> (forall k, (k < length l1)%nat -> exists pid, forked (sys k) = inl pid /\ is_started (sys k) = true) ->
  forked (sys (length l1)) = inr err -> q ∈ p :: l2 -> tp_need_kill q = true -> tp_pid q = 0 ->
  test_context_run_test fuel sys seen elapsed ctx = Some (ctx', evs, 0) -> Killed 0 ∈ evs.
Proof.
  intros Hl Hok Herr Hq Hkill Hpid. unfold test_context_run_test. rewrite Hl.
  assert (H : forall k, (forall j, (j < length l1)%nat -> exists pid, forked (sys (k + j)%nat) = inl pid /\ is_started (sys (k + j)%nat) = true) ->
    forked (sys (k + length l1)%nat) = inr err -> exists l1' ev, start_all sys k (l1 ++ p :: l2) = (l1' ++ p :: l2, ev)).
  { clear Hl Hok Herr. induction l1 as [|a l1 IH]; intros k Hok Herr; cbn [app start_all length] in *.
    - rewrite Nat.add_0_r in Herr. unfold start_one_test_process. rewrite Herr. by exists [], [].
    - destruct (Hok 0%nat ltac:(lia)) as (pid & Hf & Hs). rewrite Nat.add_0_r in Hf, Hs. unfold start_one_test_process. rewrite Hf, Hs. cbn [Z.eqb].
      destruct (IH (S k)) as (l1' & ev & ->); [|by rewrite Nat.add_succ_r in Herr|].
      { intros j Hj. specialize (Hok (S j) ltac:(lia)). by rewrite Nat.add_succ_r in Hok. }
      by exists (with_pid pid true a :: l1'), (Started pid (arg_strings (tp_argv a)) :: ev). }
  destruct (H 0%nat Hok Herr) as (l1' & ev & ->). destruct (wait_for _ _ _ _ _) as [[found n]|]; [|done]. cbn [mbind option_bind]. intros [= _ <-].
  apply elem_of_app. right. unfold kill_all. apply list_elem_of_In, in_concat. exists [Killed 0]. split; [|by left].
  apply in_map_iff. exists q. rewrite Hkill, Hpid. split; [done|]. apply in_app_iff. right. by apply list_elem_of_In.
Qed.

(** ** What is compared *)

Definition path_line (p : list Z) : Prop := p <> [] /\ Forall (fun c => c <> newline /\ c <> 0) p /\ (length p < 255)%nat.

Lemma get_path_line p rest : path_line p -> get_path (p ++ newline :: rest) = Some (Some (p, rest)).
Proof.
  intros (Hne & Hp & Hl). unfold get_path. rewrite fgets_line by done.
  rewrite c_str_all by (apply Forall_app; split; [eapply Forall_impl; [exact Hp|naive_solver]|by repeat constructor]).
  destruct (p ++ [newline]) as [|c s] eqn:E; [by destruct p|]. by rewrite <- E, chomp_line.
Qed.

(** The two paths of a test, each below its directory when the flags say so, are
    the two whose trees decide the result. *)
Theorem test_compares fs fs1 ctx fname p1 p2 flags opendir file_mode dir_size strerror fuel len r :
  let real i p := if Z.testbit flags i then path_join (root_dir ctx) p else p in
  cmp_file ctx = None -> fopen_w fs (path_join (root_dir ctx) fname) = Some fs1 -> path_line (real 0 p1) -> path_line (real 1 p2) ->
  exists fs' ctx', test_context_generate_cmp_file fs ctx fname (TestCmp [p1; p2] flags) = Some (fs', ctx', 0)
    /\ keeps (path_join (root_dir ctx) fname) fs fs'
    /\ forall ctx2, success ctx2 = true -> need_compare ctx2 = need_compare ctx' -> cmp_file ctx2 = cmp_file ctx' ->
       dir_compare fs' opendir file_mode dir_size fuel (real 0 p1) (real 1 p2) = Some r ->
       exists message, test_context_get_result fs' opendir file_mode dir_size strerror fuel ctx2 len = Some (Some (r =? 0, message), 0).
Proof.
  intros real Hno Ho H1 H2. unfold test_context_generate_cmp_file. rewrite Hno, Ho. cbn [cmp_files length Nat.leb TYPE_INT_BITS cmp_chroot_flags write_paths].
  change (root_dir (with_compare _ ctx)) with (root_dir ctx). change (Z.of_nat 0) with 0. change (Z.of_nat 1) with 1. fold (real 0 p1) (real 1 p2).
  rewrite !fappend_app. set (path := path_join (root_dir ctx) fname) in *. set (data := ((real 0 p1 ++ [10]) ++ real 1 p2) ++ [10]).
  eexists _, _. split; [done|]. split; [etransitivity; [by apply fopen_w_keeps|apply fappend_keeps]|].
  intros ctx2 Hs Hn Hf Hr. cbn [need_compare cmp_file with_compare] in Hn, Hf.
  unfold test_context_get_result. rewrite Hs, Hn, Hf. cbn [negb].
  assert (Hd : fopen_r (fappend fs1 path data) path = Some data).
  { pose proof (fopen_w_empty _ _ _ Ho) as He. unfold fappend, fopen_r. rewrite He, node_put; [done|]. eapply node_reg. by rewrite He. }
  unfold data in *. rewrite <- !app_assoc in *. cbn [app] in *. rewrite Hd. rewrite (get_path_line (real 0 p1)) by done. cbn [mbind option_bind].
  rewrite (get_path_line (real 1 p2)) by done. cbn [mbind option_bind]. rewrite Hr. cbn [mbind option_bind].
  destruct (r =? 0); by eexists.
Qed.

(** ** Instances *)

Definition demo_test : test_context :=
  TestContext (ascii_bytes "put") (ascii_bytes "/t") [] 0 [] false None None false 0.

Lemma test_commands_reach_client_witness :
  let argv := [ascii_bytes "-u"; ascii_bytes "root"] in
  exists ctx fs' ctx' p' data,
    test_context_add_process demo_test (ascii_bytes "client") (ascii_bytes "/bin/sftt") 2 (ascii_bytes "state") false argv = Some (ctx, 0)
    /\ test_context_generate_cmd_file (Fsys {[ ascii_bytes "/t" := Dir ]} ∅) ctx (Some (ascii_bytes "client")) (ascii_bytes "cmds")
         [TestCmd (ascii_bytes "put") [ascii_bytes "a"; ascii_bytes "b"] 1] = Some (fs', ctx', 0)
    /\ script_lines 2 (File data) = Some [ascii_bytes "put /t/a b"]
    /\ proc_list ctx' !! 0%nat = Some p'
    /\ arg_strings (tp_argv p') = [ascii_bytes "sftt"; ascii_bytes "-u"; ascii_bytes "root"; ascii_bytes "-s"; ascii_bytes "/t/state"; ascii_bytes "-f"; ascii_bytes "/t/cmds"].
Proof.
  intros argv. eexists.
  destruct (test_commands_reach_client (Fsys {[ ascii_bytes "/t" := Dir ]} ∅) (put_node (Fsys {[ ascii_bytes "/t" := Dir ]} ∅) (ascii_bytes "/t/cmds") (Reg []))
    (with_procs [TestProcess (ascii_bytes "client") (ascii_bytes "/bin/sftt") None (ascii_bytes "/t/state")
       (map Some [ascii_bytes "sftt"; ascii_bytes "-u"; ascii_bytes "root"; ascii_bytes "-s"; ascii_bytes "/t/state"] ++ replicate 29 None) 2 0 false false] demo_test)
    (ascii_bytes "client") (ascii_bytes "cmds") [TestCmd (ascii_bytes "put") [ascii_bytes "a"; ascii_bytes "b"] 1] 0
    (TestProcess (ascii_bytes "client") (ascii_bytes "/bin/sftt") None (ascii_bytes "/t/state")
       (map Some [ascii_bytes "sftt"; ascii_bytes "-u"; ascii_bytes "root"; ascii_bytes "-s"; ascii_bytes "/t/state"] ++ replicate 29 None) 2 0 false false)
    [ascii_bytes "sftt"; ascii_bytes "-u"; ascii_bytes "root"; ascii_bytes "-s"; ascii_bytes "/t/state"] 29) as (fs' & ctx' & p' & data & E1 & _ & _ & E2 & _ & E3 & E4).
  - constructor; [|constructor]. unfold cmd_ok, plain_word. split_and!; repeat constructor; vm_compute; done || lia.
  - reflexivity.
  - reflexivity.
  - reflexivity.
  - lia.
  - vm_compute. reflexivity.
  - exists fs', ctx', p', data. split; [vm_compute; reflexivity|]. split; [exact E1|]. split; [exact E2|]. split; [exact E3|exact E4].
Defined.
