(* ===== verification/Lifecycle.v ===== *)
(** * Starting, stopping and restarting the server (src/server.c, src/log.c)

    The commands [start], [stop] and [restart] are programs of their own.  They
    meet in what the system keeps under fixed keys: a segment of shared memory
    with the status of the server, the queue of the log, the ports, and the
    signal that [stop] sends.  A process is a program counter, a step is a
    system call, and the processes run under every interleaving. *)

From stdpp Require Import relations.
From S2P Require Import Prelude CStr Messages Display.

(** ** What is shared *)

Inductive sftt_server_status := READY | SERVERING | STOPED.

Record sftt_server_stat := ServerStat { main_pid : positive; status : sftt_server_status; main_port : Z; last_update_ts : Z }.

(** [again] is set when [sftt_server_stop] runs in a restart.  A server has its
    second port from the moment it listens on it, and its own status. *)
Inductive pc :=
  | StartRunning | StartMainSock | StartSecondSock | StartLogServer (port : Z) | StartStat (port : Z)
  | StartReady (port : Z) | StartLoop (own : sftt_server_status) (port : Z)
  | Serving (own : sftt_server_status) (second_port : Z)
  | StopRunning (again : bool) | StopStat (again : bool) | StopLogger (pid : positive) (again : bool)
  | StopKill (pid : positive) (again : bool) | StopFree (again : bool)
  | ExitChannels | ExitFree | ExitLogger.

Record system := System {
  shm : option sftt_server_stat;
  log_queue : bool;
  bound : gmap Z positive;
  procs : gmap positive pc;
}.

Definition with_shm s o := System s (log_queue o) (bound o) (procs o).
Definition with_queue b o := System (shm o) b (bound o) (procs o).
Definition with_bound b o := System (shm o) (log_queue o) b (procs o).
Definition with_procs p o := System (shm o) (log_queue o) (bound o) p.

Definition goto (pid : positive) (c : pc) (o : system) : system := with_procs (<[pid := c]> (procs o)) o.

(** [close]: the ports on which the process listens. *)
Definition release (pid : positive) (o : system) : system := with_bound (filter (fun e => e.2 <> pid) (bound o)) o.

Definition exit_process (pid : positive) (o : system) : system := with_procs (delete pid (procs o)) (release pid o).

(** ** The operations *)

Definition sftt_server_is_running (o : system) : bool :=
  match shm o with Some s => match status s with SERVERING => true | _ => false end | None => false end.

(** [init_sftt_server_stat]: a segment that is there already is taken as it is. *)
Definition init_sftt_server_stat (pid : positive) (o : system) : system :=
  with_shm (Some match shm o with
    | Some s => ServerStat pid (status s) (main_port s) (last_update_ts s)
    | None => ServerStat pid READY 0 0
    end) o.

(** Without a segment nothing is written. *)
Definition sync_server_stat (own : sftt_server_status) (port ts : Z) (o : system) : system :=
  match shm o with
  | None => o
  | Some s => with_shm (Some (ServerStat (main_pid s) own port ts)) o
  end.

Definition free_sftt_server_stat (o : system) : system := with_shm None o.
Definition logger_exit (o : system) : system := with_queue false o.

(** SIGINT: a server that has installed its handler begins to exit, any other
    process ends.  While the handler runs the signal is held back. *)
Definition kill_int (pid : positive) (o : system) : system :=
  match procs o !! pid with
  | None => o
  | Some (Serving _ _) => goto pid ExitChannels o
  | Some (ExitChannels | ExitFree | ExitLogger) => o
  | Some _ => exit_process pid o
  end.

Section Server.
Context (MAIN_PORT : Z).

(** [create_non_block_sock]: [None] when another process listens on the port. *)
Definition create_non_block_sock (pid : positive) (port : Z) (o : system) : option system :=
  match bound o !! port with None => Some (with_bound (<[port := pid]> (bound o)) o) | Some _ => None end.

(** The calls of [init_sftt_server]; [port] is what [get_real_random_port]
    draws.  A failure ends the process. *)
Definition init_sftt_server (pid : positive) (port : Z) (c : pc) (o : system) : system :=
  match c with
  | StartMainSock =>
      match create_non_block_sock pid MAIN_PORT o with
      | None => exit_process pid o
      | Some o => goto pid StartSecondSock o
      end
  | StartSecondSock =>
      if port =? MAIN_PORT then exit_process pid o else
      match create_non_block_sock pid port o with
      | None => exit_process pid o
      | Some o => goto pid (StartLogServer port) o
      end
  | StartLogServer second => goto pid (StartStat second) (with_queue true o)
  | StartStat second => goto pid (StartReady second) (init_sftt_server_stat pid o)
  | StartReady second => goto pid (StartLoop READY second) o
  | _ => o
  end.

Definition sftt_server_start (pid : positive) (port : Z) (c : pc) (o : system) : system :=
  match c with
  | StartRunning => if sftt_server_is_running o then exit_process pid o else goto pid StartMainSock o
  | StartLoop _ second => goto pid (Serving SERVERING second) o
  | _ => init_sftt_server pid port c o
  end.

(** In a restart [sftt_server_start] follows. *)
Definition sftt_server_stop (pid : positive) (c : pc) (o : system) : system :=
  match c with
  | StopRunning again => if sftt_server_is_running o then goto pid (StopStat again) o else exit_process pid o
  | StopStat again =>
      match shm o with
      | None => if again then goto pid StartRunning o else exit_process pid o
      | Some s => goto pid (StopLogger (main_pid s) again) o
      end
  | StopLogger target again => goto pid (StopKill target again) (logger_exit o)
  | StopKill target again => goto pid (StopFree again) (kill_int target o)
  | StopFree again => let o := free_sftt_server_stat o in if again then goto pid StartRunning o else exit_process pid o
  | _ => o
  end.

Definition sftt_server_exit (pid : positive) (c : pc) (o : system) : system :=
  match c with
  | ExitChannels => goto pid ExitFree (release pid o)
  | ExitFree => goto pid ExitLogger (free_sftt_server_stat o)
  | ExitLogger => exit_process pid (logger_exit o)
  | _ => o
  end.

(** The next call of a process. *)
Definition call (pid : positive) (port : Z) (c : pc) (o : system) : system :=
  match c with
  | StopRunning _ | StopStat _ | StopLogger _ _ | StopKill _ _ | StopFree _ => sftt_server_stop pid c o
  | ExitChannels | ExitFree | ExitLogger => sftt_server_exit pid c o
  | _ => sftt_server_start pid port c o
  end.

(** A turn of [port_update_loop] that gets a new port; the old one is closed. *)
Definition update_port (pid : positive) (port : Z) (o : system) : system :=
  match procs o !! pid with
  | Some (Serving own second) =>
      if (port =? MAIN_PORT) || (port =? second) then o else
      match create_non_block_sock pid port o with
      | None => o
      | Some o => goto pid (Serving own port) (with_bound (delete second (bound o)) o)
      end
  | _ => o
  end.

(** The end of such a turn. *)
Definition sync_after_update (pid : positive) (ts : Z) (o : system) : system :=
  match procs o !! pid with Some (Serving own _) => sync_server_stat own MAIN_PORT ts o | _ => o end.

(** Somebody types a command; a process makes its next call; a server changes
    its port and notes it; a process is killed by the system.  While a process
    is in its handler its other threads are taken to rest. *)
Inductive event :=
  | Launch (pid : positive) (c : pc) | Call (pid : positive) (port : Z)
  | Update (pid : positive) (port : Z) | Sync (pid : positive) (ts : Z) | Crash (pid : positive).

Definition command (c : pc) : Prop := c = StartRunning \/ c = StopRunning false \/ c = StopRunning true.

#[global] Instance command_dec c : Decision (command c).
Proof. unfold command. destruct c as [| | | | | | | |[]| | | | | | | ]; (left; auto; fail) || (right; intuition congruence). Defined.

Definition happens (e : event) (o : system) : option system :=
  match e with
  | Launch pid c => if decide (procs o !! pid = None /\ command c) then Some (goto pid c o) else None
  | Call pid port => c ← procs o !! pid; Some (call pid port c o)
  | Update pid port => _ ← procs o !! pid; Some (update_port pid port o)
  | Sync pid ts => _ ← procs o !! pid; Some (sync_after_update pid ts o)
  | Crash pid => _ ← procs o !! pid; Some (exit_process pid o)
  end.

Fixpoint happen (es : list event) (o : system) : option system :=
  match es with [] => Some o | e :: es => o ← happens e o; happen es o end.

End Server.

(** A machine on which nothing of this runs; a segment may be left over. *)
Definition idle (s : option sftt_server_stat) (q : bool) : system := System s q ∅ ∅.

(** ** The command line of the server (server/main.c) *)

(** What [getopt] delivers for "r:s:dv", and the operands. *)
Inductive server_opt := OptStore (arg : list Z) | OptState (arg : list Z) | OptDaemon | OptVerbose | OptUnknown.

Record server_args := ServerArgs { store_path : list Z; state_file : option (list Z); background : bool; verbose_level : Z }.

(** [None]: the program ends with the help. *)
Fixpoint server_options (l : list server_opt) (a : server_args) : option server_args :=
  match l with
  | [] => Some a
  | OptStore arg :: l => server_options l (ServerArgs (take (DIR_PATH_MAX_LEN - 1) arg) (state_file a) (background a) (verbose_level a))
  | OptState arg :: l => server_options l (ServerArgs (store_path a) (__strdup (Some arg)) (background a) (verbose_level a))
  | OptDaemon :: l => server_options l (ServerArgs (store_path a) (state_file a) true (verbose_level a))
  | OptVerbose :: l => server_options l (ServerArgs (store_path a) (state_file a) (background a) (verbose_level a + 1))
  | OptUnknown :: _ => None
  end.

Inductive server_action :=
  | ServerStart (a : server_args) | ServerRestart (a : server_args) | ServerStop | ServerStatus | ServerDb | ServerUsage.

(** What is done, and the level of messages at which it is done; autoconf.h
    gives "warn". *)
Definition server_main (opts : list server_opt) (operands : list (list Z)) : server_action * Z :=
  match server_options opts (ServerArgs [] None false 0), operands with
  | Some a, [command] =>
      let level := (set_server_debug_level DEBUG_WARN (verbose_level a) (Some "warn"%string)).1 in
      (if decide (command = ascii_bytes "start") then ServerStart a
       else if decide (command = ascii_bytes "restart") then ServerRestart a
       else if decide (command = ascii_bytes "stop") then ServerStop
       else if decide (command = ascii_bytes "status") then ServerStatus
       else if decide (command = ascii_bytes "db") then ServerDb
       else ServerUsage, level)
  | _, _ => (ServerUsage, DEBUG_WARN)
  end.

(** [writable] is [access] with W_OK.  [sftt_server_restart] looks at a store
    path that is given before anything else, [sftt_server_start] when no server
    runs: where it is not writable nothing is changed. *)
Definition launched (writable : list Z -> bool) (a : server_action) : option pc :=
  let allowed o c := if decide (store_path o = []) then Some c else if writable (store_path o) then Some c else None in
  match a with
  | ServerStart o => allowed o StartRunning
  | ServerRestart o => allowed o (StopRunning true)
  | ServerStop => Some (StopRunning false)
  | _ => None
  end.

Definition parse_store_path (optarg : option (list Z)) (buf : list Z) (max_len : nat) : list Z * bool :=
  match optarg with None => (buf, false) | Some arg => (take max_len arg ++ replicate (max_len - length arg) 0 ++ drop max_len buf, true) end.

Definition status_desc (s : sftt_server_status) : list Z :=
  match s with SERVERING => ascii_bytes "running" | STOPED => ascii_bytes "not running" | READY => ascii_bytes "unknown" end.

(** What [status] prints; the socket and the configuration are in the segment. *)
Definition show_status (strftime : string -> Z -> Z -> list Z) (main_sock : Z) (conf_store_path log_dir : list Z) (o : system) : list Z :=
  if negb (sftt_server_is_running o) then ascii_bytes "sfttd is not running." ++ [10] else
  match shm o with
  | None => ascii_bytes "cannot get sfttd status!" ++ [10]
  | Some s =>
      ascii_bytes "sfttd status:" ++ [10; 9] ++ ascii_bytes "process status: " ++ status_desc (status s) ++ [10; 9]
      ++ ascii_bytes "store path: " ++ conf_store_path ++ [10; 9] ++ ascii_bytes "main pid: " ++ print_d (Z.pos (main_pid s)) ++ [10; 9]
      ++ ascii_bytes "main port: " ++ print_d (main_port s) ++ [10; 9] ++ ascii_bytes "main sock: " ++ print_d main_sock ++ [10; 9]
      ++ ascii_bytes "log path: " ++ log_dir ++ [10; 9] ++ ascii_bytes "last update time: " ++ (ts_to_str strftime (last_update_ts s) 63).1 ++ [10]
  end.

(** ** At most one server *)

(** The process listens on the main port. *)
Definition holds_main (c : pc) : bool :=
  match c with
  | StartSecondSock | StartLogServer _ | StartStat _ | StartReady _ | StartLoop _ _ | Serving _ _ | ExitChannels => true
  | _ => false
  end.

Definition second_of (c : pc) : option Z :=
  match c with
  | StartLogServer p | StartStat p | StartReady p | StartLoop _ p | Serving _ p => Some p
  | _ => None
  end.

Section Exclusion.
Context (MAIN_PORT : Z).

Record exclusive (o : system) : Prop := Exclusive {
  ex_main : forall pid c, procs o !! pid = Some c -> holds_main c = true -> bound o !! MAIN_PORT = Some pid;
  ex_second : forall pid c p, procs o !! pid = Some c -> second_of c = Some p -> bound o !! p = Some pid /\ p <> MAIN_PORT;
}.

Lemma exclusive_idle s q : exclusive (idle s q).
Proof. split; intros; simplify_map_eq. Qed.

(** The segment and the queue do not matter. *)
Lemma exclusive_shared o o' : bound o' = bound o -> procs o' = procs o -> exclusive o -> exclusive o'.
Proof. intros Eb Ep [Hm Hs]. split; rewrite Eb, Ep; done. Qed.

(** A process that goes to a place where it has no more ports than before. *)
Lemma exclusive_goto o pid c c' : exclusive o -> procs o !! pid = Some c -> (holds_main c' = true -> holds_main c = true) ->
  (forall p, second_of c' = Some p -> second_of c = Some p) -> exclusive (goto pid c' o).
Proof.
  intros [Hm Hs] Hc H1 H2. split; cbn [goto with_procs procs bound]; intros pid' d.
  - intros [[<- <-]|[Hne Hd]]%lookup_insert_Some Hh; [by eapply Hm; [exact Hc|apply H1]|by eapply Hm].
  - intros p [[<- <-]|[Hne Hd]]%lookup_insert_Some Hp; [by eapply Hs; [exact Hc|apply H2]|by eapply Hs].
Qed.

Lemma release_lookup pid o p q : bound (release pid o) !! p = Some q <-> bound o !! p = Some q /\ q <> pid.
Proof. cbn. by rewrite map_lookup_filter_Some. Qed.

Lemma exclusive_exit o pid : exclusive o -> exclusive (exit_process pid o).
Proof.
  intros [Hm Hs]. split; cbn [exit_process with_procs procs].
  - intros pid' d [Hne Hd]%lookup_delete_Some Hh. apply release_lookup. split; [by eapply Hm|done].
  - intros pid' d p [Hne Hd]%lookup_delete_Some Hp. destruct (Hs _ _ _ Hd Hp) as [Hb Hp']. split; [|done]. by apply release_lookup.
Qed.

Lemma exclusive_release o pid c' : exclusive o -> holds_main c' = false -> second_of c' = None -> exclusive (goto pid c' (release pid o)).
Proof.
  intros [Hm Hs] H1 H2. split; cbn [goto with_procs procs].
  - intros pid' d [[<- <-]|[Hne Hd]]%lookup_insert_Some Hh; [congruence|]. apply release_lookup. split; [by eapply Hm|done].
  - intros pid' d p [[<- <-]|[Hne Hd]]%lookup_insert_Some Hp; [congruence|].
    destruct (Hs _ _ _ Hd Hp) as [Hb Hp']. split; [|done]. by apply release_lookup.
Qed.

(** A process that goes to a place without ports. *)
Lemma exclusive_goto_any o pid c' : exclusive o -> holds_main c' = false -> second_of c' = None -> exclusive (goto pid c' o).
Proof.
  intros [Hm Hs] H1 H2. split; cbn [goto with_procs procs bound]; intros pid' d.
  - intros [[<- <-]|[Hne Hd]]%lookup_insert_Some Hh; [congruence|by eapply Hm].
  - intros p [[<- <-]|[Hne Hd]]%lookup_insert_Some Hp; [congruence|by eapply Hs].
Qed.

Lemma exclusive_kill o pid : exclusive o -> exclusive (kill_int pid o).
Proof.
  intros Ho. unfold kill_int. destruct (procs o !! pid) as [c|] eqn:Hc; [|done].
  destruct c; try done; try (by apply exclusive_exit). by eapply exclusive_goto.
Qed.

(** A new port that nobody listens on. *)
Lemma exclusive_bind o pid port o1 c c' : exclusive o -> procs o !! pid = Some c -> create_non_block_sock pid port o = Some o1 ->
  (holds_main c' = true -> holds_main c = true \/ port = MAIN_PORT) ->
  (forall p, second_of c' = Some p -> second_of c = Some p \/ (p = port /\ port <> MAIN_PORT)) -> exclusive (goto pid c' o1).
Proof.
  intros [Hm Hs] Hc. unfold create_non_block_sock. destruct (bound o !! port) as [q|] eqn:Hb; [done|]. intros [= <-] H1 H2.
  assert (Hkeep : forall p q, bound o !! p = Some q -> <[port:=pid]> (bound o) !! p = Some q).
  { intros p q Hp. rewrite lookup_insert_ne; [done|]. intros ->. congruence. }
  split; cbn [goto with_procs with_bound procs bound].
  - intros pid' d [[<- <-]|[Hne Hd]]%lookup_insert_Some Hh; [|by eapply Hkeep, Hm].
    destruct (H1 Hh) as [Hh'|Hp]; [by eapply Hkeep, Hm|rewrite Hp; apply lookup_insert_eq].
  - intros pid' d p [[<- <-]|[Hne Hd]]%lookup_insert_Some Hp; [|destruct (Hs _ _ _ Hd Hp) as [? ?]; split; [by apply Hkeep|done]].
    destruct (H2 p Hp) as [Hp'|[-> Hp']]; [destruct (Hs _ _ _ Hc Hp') as [? ?]; split; [by apply Hkeep|done]|].
    split; [apply lookup_insert_eq|done].
Qed.

(** A port of the process is closed that it does not need any more. *)
Lemma exclusive_close o pid port c : exclusive o -> procs o !! pid = Some c -> bound o !! port = Some pid -> port <> MAIN_PORT ->
  second_of c <> Some port -> exclusive (with_bound (delete port (bound o)) o).
Proof.
  intros [Hm Hs] Hc Hb Hp Hn. split; cbn [with_bound procs bound]; intros pid' d.
  - intros Hd Hh. rewrite lookup_delete_ne by done. by eapply Hm.
  - intros p Hd Hp'. destruct (Hs _ _ _ Hd Hp') as [Hbp Hpm]. split; [|done]. rewrite lookup_delete_ne; [done|].
    intros ->. rewrite Hb in Hbp. injection Hbp as ->. congruence.
Qed.

Lemma exclusive_update o pid port : exclusive o -> exclusive (update_port MAIN_PORT pid port o).
Proof.
  intros Ho. unfold update_port. destruct (procs o !! pid) as [[]|] eqn:Hc; try done.
  destruct (Z.eqb_spec port MAIN_PORT) as [?|Hpm]; [done|]. destruct (Z.eqb_spec port second_port) as [?|Hps]; [done|]. cbn [orb].
  destruct (create_non_block_sock pid port o) as [o1|] eqn:E; [|done].
  pose proof (exclusive_bind o pid port o1 _ (Serving own port) Ho Hc E) as H1.
  assert (Hex : exclusive (goto pid (Serving own port) o1)).
  { apply H1; [by left|]. intros p [= <-]. by right. }
  destruct (ex_second _ Ho _ _ _ Hc eq_refl) as [Hb Hsm].
  assert (Hb1 : bound o1 = <[port := pid]> (bound o) /\ procs o1 = procs o).
  { unfold create_non_block_sock in E. destruct (bound o !! port); [done|]. by injection E as <-. }
  destruct Hb1 as [Hb1 Hp1].
  apply (exclusive_close _ pid second_port (Serving own port)) in Hex.
  - exact Hex.
  - apply lookup_insert_eq.
  - cbn [goto with_procs bound]. rewrite Hb1. by rewrite lookup_insert_ne.
  - done.
  - intros [= ->]. done.
Qed.

Lemma exclusive_happens e o o' : exclusive o -> happens MAIN_PORT e o = Some o' -> exclusive o'.
Proof.
  intros Ho. destruct e as [pid c|pid port|pid port|pid ts|pid]; cbn [happens].
  - case_decide as Hl; [|done]. destruct Hl as [Hf Hc]. intros [= <-]. by apply exclusive_goto_any; [|destruct Hc as [->|[->| ->]]|destruct Hc as [->|[->| ->]]].
  - destruct (procs o !! pid) as [c|] eqn:Hc; [|done]. cbn [mbind option_bind]. intros [= <-].
    pose proof (exclusive_exit o pid Ho) as Hexit.
    assert (Hgoto : forall c', (holds_main c' = true -> holds_main c = true) -> (forall p, second_of c' = Some p -> second_of c = Some p) ->
      exclusive (goto pid c' o)) by (intros; by eapply exclusive_goto).
    destruct c; cbn [call sftt_server_start init_sftt_server sftt_server_stop sftt_server_exit].
    + destruct (sftt_server_is_running o); [done|by apply Hgoto].
    + destruct (create_non_block_sock pid MAIN_PORT o) as [o1|] eqn:E; [|done]. eapply exclusive_bind; [exact Ho|exact Hc|exact E|by right|done].
    + destruct (Z.eqb_spec port MAIN_PORT) as [?|Hp]; [done|]. destruct (create_non_block_sock pid port o) as [o1|] eqn:E; [|done].
      eapply exclusive_bind; [exact Ho|exact Hc|exact E|by left|]. intros p [= <-]. by right.
    + eapply exclusive_shared; [| |apply (Hgoto (StartStat port0)); done]; done.
    + eapply exclusive_shared; [| |apply (Hgoto (StartReady port0)); done]; done.
    + by apply Hgoto.
    + by apply Hgoto.
    + done.
    + destruct (sftt_server_is_running o); [by apply Hgoto|done].
    + destruct (shm o); [by apply Hgoto|]. destruct again; [by apply Hgoto|done].
    + eapply exclusive_shared; [| |apply (Hgoto (StopKill pid0 again)); done]; done.
    + apply (exclusive_kill _ pid0) in Ho as Hk. by apply exclusive_goto_any.
    + destruct again; [eapply exclusive_shared; [| |apply (Hgoto StartRunning); done]; done|]. by eapply exclusive_shared; [| |exact Hexit].
    + by apply exclusive_release.
    + eapply exclusive_shared; [| |apply (Hgoto ExitLogger); done]; done.
    + by eapply exclusive_shared; [| |exact Hexit].
  - destruct (procs o !! pid); [|done]. intros [= <-]. by apply exclusive_update.
  - destruct (procs o !! pid) as [c|] eqn:Hc; [|done]. intros [= <-]. unfold sync_after_update. rewrite Hc. destruct c; try done.
    unfold sync_server_stat. destruct (shm o); [|done]. by eapply exclusive_shared; [| |exact Ho].
  - destruct (procs o !! pid); [|done]. intros [= <-]. by apply exclusive_exit.
Qed.
End Exclusion.

(** ** What the commands do *)

Section Commands.
Context (MAIN_PORT : Z).

Lemma exclusive_reachable es : forall o o', exclusive MAIN_PORT o -> happen MAIN_PORT es o = Some o' -> exclusive MAIN_PORT o'.
Proof.
  induction es as [|e es IH]; intros o o' Ho; cbn [happen]; [by intros [= <-]|]. intros (o1 & E & H)%bind_Some.
  eapply IH; [|exact H]. by eapply exclusive_happens.
Qed.

Lemma happen_app es1 : forall es2 o, happen MAIN_PORT (es1 ++ es2) o = (o ← happen MAIN_PORT es1 o; happen MAIN_PORT es2 o).
Proof. induction es1 as [|e es1 IH]; intros es2 o; [done|]. cbn [app happen]. destruct (happens MAIN_PORT e o); [|done]. cbn [mbind option_bind]. apply IH. Qed.

Definition start (pid : positive) (port : Z) : list event := Launch pid StartRunning :: repeat (Call pid port) 7.
Definition stop (pid server : positive) : list event :=
  Launch pid (StopRunning false) :: repeat (Call pid 0) 5 ++ repeat (Call server 0) 3.

Lemma happen_call pid port c es o : procs o !! pid = Some c -> happen MAIN_PORT (Call pid port :: es) o = happen MAIN_PORT es (call MAIN_PORT pid port c o).
Proof. intros E. cbn [happen happens]. by rewrite E. Qed.

Lemma happen_launch pid c es o : procs o !! pid = None -> command c -> happen MAIN_PORT (Launch pid c :: es) o = happen MAIN_PORT es (goto pid c o).
Proof. intros E Hc. cbn [happen happens]. by rewrite decide_True. Qed.

(** One call of a process whose place is known. *)
#[local] Ltac run :=
  cbv beta iota delta [call sftt_server_start init_sftt_server sftt_server_stop sftt_server_exit goto with_procs with_bound with_queue with_shm procs bound shm log_queue create_non_block_sock
       init_sftt_server_stat exit_process release free_sftt_server_stat logger_exit kill_int].
#[local] Ltac next c tac := rewrite (happen_call _ _ c) by (cbn [procs]; tac; done); run; rewrite ?insert_insert_eq.
#[local] Ltac here := rewrite ?lookup_insert_eq.

Lemma lookup_goto pid c o : procs (goto pid c o) !! pid = Some c.
Proof. apply lookup_insert_eq. Qed.

Lemma goto_goto pid c c' o : goto pid c (goto pid c' o) = goto pid c o.
Proof. unfold goto, with_procs. cbn. by rewrite insert_insert_eq. Qed.

(** [start] on a machine where both ports are free and no server is noted. *)
Theorem start_serves o pid port : sftt_server_is_running o = false -> bound o !! MAIN_PORT = None -> bound o !! port = None ->
  port <> MAIN_PORT -> procs o !! pid = None ->
  happen MAIN_PORT (start pid port) o
  = Some (goto pid (Serving SERVERING port) (init_sftt_server_stat pid
      (System (shm o) true (<[port := pid]> (<[MAIN_PORT := pid]> (bound o))) (procs o)))).
Proof.
  destruct o as [sh q b P]. cbn [bound procs shm log_queue]. intros Hr Hm Hp Hne Hpid.
  assert (Hr' : forall b P, sftt_server_is_running (System sh q b P) = false) by (intros; exact Hr).
  unfold start. cbn [repeat]. rewrite happen_launch by (done || by left). run.
  next StartRunning here. rewrite Hr'. next StartMainSock here. rewrite Hm. next StartSecondSock here.
  rewrite (proj2 (Z.eqb_neq _ _)), lookup_insert_ne, Hp by done. next (StartLogServer port) here. next (StartStat port) here.
  next (StartReady port) here. next (StartLoop READY port) here. done.
Qed.

(** [stop] on a server that is noted: it has released its ports and is gone,
    and so are segment and queue. *)
Theorem stop_stops o pid server s second own : shm o = Some s -> status s = SERVERING -> main_pid s = server ->
  procs o !! server = Some (Serving own second) -> procs o !! pid = None ->
  exists o', happen MAIN_PORT (stop pid server) o = Some o' /\ shm o' = None /\ log_queue o' = false
    /\ procs o' = delete server (procs o)
    /\ forall port q, bound o' !! port = Some q <-> bound o !! port = Some q /\ q <> server /\ q <> pid.
Proof.
  destruct o as [sh q b P]. cbn [bound procs shm log_queue]. intros -> Hst Hmp Hserver Hpid. assert (Hne : pid <> server) by congruence.
  assert (Hr : forall b P, sftt_server_is_running (System (Some s) q b P) = true) by (intros; unfold sftt_server_is_running; cbn; by rewrite Hst).
  unfold stop. cbn [repeat app]. rewrite happen_launch by (done || by right; left). run.
  next (StopRunning false) here. rewrite Hr. next (StopStat false) here. rewrite Hmp. next (StopLogger server false) here.
  next (StopKill server false) here. rewrite lookup_insert_ne, Hserver by done.
  next (StopFree false) here.
  next ExitChannels ltac:(rewrite lookup_delete_ne, lookup_insert_ne by done; here). next ExitFree here. next ExitLogger here. cbn [happen].
  eexists. split; [reflexivity|]. cbn [shm log_queue procs bound]. split; [done|]. split; [done|]. split.
  - apply map_eq. intros r. destruct (decide (r = server)) as [->|H1]; [by rewrite !lookup_delete_eq|].
    rewrite !lookup_delete_ne, !lookup_insert_ne by done. destruct (decide (r = pid)) as [->|H2]; [by rewrite lookup_delete_eq|].
    by rewrite lookup_delete_ne, !lookup_insert_ne by done.
  - intros port r. rewrite !map_lookup_filter_Some. cbn. intuition congruence.
Qed.

(** A server that serves but is not noted. *)
Record unnoted (o : system) (server : positive) : Prop := Unnoted {
  un_serving : exists own second, procs o !! server = Some (Serving own second) /\ second <> MAIN_PORT;
  un_main : bound o !! MAIN_PORT = Some server;
  un_running : sftt_server_is_running o = false;
  un_others : forall pid c, procs o !! pid = Some c -> pid <> server -> c = StartMainSock \/ command c;
}.

Definition quiet (server : positive) (e : event) : Prop := match e with Crash pid => pid <> server | Sync _ _ => False | _ => True end.

Lemma unnoted_goto o server pid c : unnoted o server -> pid <> server -> c = StartMainSock \/ command c -> unnoted (goto pid c o) server.
Proof.
  intros [Hs Hm Hr Ho] Hne Hc. split; cbn [goto with_procs procs bound]; [by rewrite lookup_insert_ne|done|done|].
  intros pid' d [[<- <-]|[_ Hd]]%lookup_insert_Some Hne'; [done|by eapply Ho].
Qed.

Lemma unnoted_exit o server pid : unnoted o server -> pid <> server -> unnoted (exit_process pid o) server.
Proof.
  intros [Hs Hm Hr Ho] Hne. split; cbn [exit_process with_procs procs]; [by rewrite lookup_delete_ne| |done|].
  - apply release_lookup. split; [done|]. congruence.
  - intros pid' d [_ Hd]%lookup_delete_Some Hne'. by eapply Ho.
Qed.

Lemma unnoted_happens e o o' server : unnoted o server -> quiet server e -> happens MAIN_PORT e o = Some o' -> unnoted o' server.
Proof.
  intros Hu Hq. pose proof Hu as [(own & second & Hs & Hsm) Hm Hr Ho]. destruct e as [pid c|pid port|pid port|pid ts|pid]; cbn [happens quiet] in *.
  - case_decide as Hl; [|done]. destruct Hl as [Hf Hc]. intros [= <-]. apply unnoted_goto; [done|congruence|by right].
  - destruct (procs o !! pid) as [c|] eqn:Hc; [|done]. cbn [mbind option_bind]. intros [= <-].
    destruct (decide (pid = server)) as [->|Hne]; [rewrite Hs in Hc; by injection Hc as <-|].
    pose proof (unnoted_exit _ _ pid Hu Hne) as Hexit.
    destruct (Ho pid c Hc Hne) as [->|[->|[->| ->]]]; cbn [call sftt_server_start init_sftt_server sftt_server_stop sftt_server_exit].
    + unfold create_non_block_sock. by rewrite Hm.
    + rewrite Hr. apply unnoted_goto; [done|done|by left].
    + by rewrite Hr.
    + by rewrite Hr.
  - destruct (procs o !! pid) as [c|] eqn:Hc; [|done]. intros [= <-]. unfold update_port. rewrite Hc.
    destruct c as [| | | | | | |own' second'| | | | | | | |]; try done.
    assert (pid = server) as ->.
    { destruct (decide (pid = server)) as [|Hne]; [done|]. by destruct (Ho _ _ Hc Hne) as [?|[?|[?|?]]]. }
    rewrite Hs in Hc. injection Hc as <- <-.
    destruct (Z.eqb_spec port MAIN_PORT) as [?|Hp1]; [done|]. destruct (Z.eqb_spec port second) as [?|Hp2]; [done|]. cbn [orb].
    unfold create_non_block_sock. destruct (bound o !! port); [done|]. split; cbn [goto with_procs with_bound procs bound].
    + rewrite lookup_insert_eq. eauto.
    + rewrite lookup_delete_ne, lookup_insert_ne by done. done.
    + done.
    + intros pid' d [[<- <-]|[_ Hd]]%lookup_insert_Some Hne'; [done|by eapply Ho].
  - done.
  - destruct (procs o !! pid) as [c|] eqn:Hc; [|done]. intros [= <-]. by apply unnoted_exit.
Qed.
End Commands.

(** ** The properties *)

Section Properties.
Context (MAIN_PORT : Z).

(** C33: However starts, stops, restarts, changes of port and crashes of any
    number of processes interleave, and whatever segment was left over before,
    at most one server serves; it alone listens on the main port, and on a
    second port that is another. *)
Theorem one_server s q es o p1 p2 own1 own2 port1 port2 (Hrun : happen MAIN_PORT es (idle s q) = Some o)
    (H1 : procs o !! p1 = Some (Serving own1 port1)) (H2 : procs o !! p2 = Some (Serving own2 port2)) :
  p1 = p2 /\ bound o !! MAIN_PORT = Some p1 /\ bound o !! port1 = Some p1 /\ port1 <> MAIN_PORT.
Proof.
  apply exclusive_reachable in Hrun as [Hm Hs]; [|apply exclusive_idle].
  pose proof (Hm _ _ H1 eq_refl) as E1. pose proof (Hm _ _ H2 eq_refl) as E2. destruct (Hs _ _ _ H1 eq_refl) as [E3 E4].
  split; [congruence|done].
Qed.

(** A server that is not noted as running cannot be stopped, restarted or
    joined by another one, whatever is typed: it serves until it crashes, unless
    it changes its port and notes itself. *)
Theorem unnoted_cannot_be_stopped es : forall o o' server, unnoted MAIN_PORT o server -> Forall (quiet server) es ->
  happen MAIN_PORT es o = Some o' -> unnoted MAIN_PORT o' server.
Proof.
  induction es as [|e es IH]; intros o o' server Hu Hq; cbn [happen]; [by intros [= <-]|]. intros (o1 & E & H)%bind_Some.
  apply Forall_cons in Hq as [He Hq]. eapply IH; [|exact Hq|exact H]. by eapply unnoted_happens.
Qed.

(** Every server is in that state until its first change of port: it is noted
    only there. *)
Theorem fresh_server_unnoted q pid port : port <> MAIN_PORT ->
  exists o, happen MAIN_PORT (start pid port) (idle None q) = Some o /\ unnoted MAIN_PORT o pid.
Proof.
  intros Hp. rewrite start_serves by done. eexists. split; [done|]. split; cbn [goto with_procs procs bound init_sftt_server_stat with_shm].
  - exists SERVERING, port. split; [apply lookup_insert_eq|done].
  - cbn. rewrite lookup_insert_ne by done. apply lookup_insert_eq.
  - done.
  - intros r c [[<- <-]|[_ Hr]]%lookup_insert_Some Hne; [done|]. cbn in Hr. by rewrite lookup_empty in Hr.
Qed.

(** A server that crashed after it was noted leaves its segment: every start
    finds it and gives up. *)
Theorem crash_blocks_start q pid port port' ts pid' any : port <> MAIN_PORT -> port' <> MAIN_PORT -> port' <> port ->
  exists o, happen MAIN_PORT (start pid port ++ [Update pid port'; Sync pid ts; Crash pid]) (idle None q) = Some o
    /\ procs o = ∅ /\ bound o = ∅
    /\ happen MAIN_PORT [Launch pid' StartRunning; Call pid' any] o = Some o.
Proof.
  intros Hp Hp' Hne. rewrite happen_app, start_serves by done. cbn [mbind option_bind idle shm procs bound].
  set (b := <[port := pid]> (<[MAIN_PORT := pid]> ∅)).
  assert (Hb : b !! port' = None) by (unfold b; by rewrite !lookup_insert_ne, lookup_empty).
  set (st := ServerStat pid SERVERING MAIN_PORT ts).
  assert (E : happen MAIN_PORT [Update pid port'; Sync pid ts; Crash pid] (goto pid (Serving SERVERING port) (init_sftt_server_stat pid (System None true b ∅)))
    = Some (System (Some st) true (filter (fun e => e.2 <> pid) (delete port (<[port' := pid]> b))) ∅)).
  { cbn [happen happens]. rewrite lookup_goto. cbn [mbind option_bind]. unfold update_port. rewrite lookup_goto, !(proj2 (Z.eqb_neq _ _)) by done.
    cbn [orb]. unfold create_non_block_sock. change (bound (goto pid (Serving SERVERING port) _)) with b. rewrite Hb.
    rewrite lookup_goto. cbn [mbind option_bind]. unfold sync_after_update. rewrite lookup_goto.
    unfold sync_server_stat, init_sftt_server_stat, exit_process, release, goto, with_procs, with_bound, with_shm.
    cbn [shm procs bound log_queue main_pid]. rewrite insert_insert_eq, lookup_insert_eq. cbn [mbind option_bind]. by rewrite delete_insert_eq. }
  rewrite E. eexists. split; [reflexivity|]. split; [done|].
  assert (E2 : filter (fun e => e.2 <> pid) (delete port (<[port' := pid]> b)) = (∅ : gmap Z positive)).
  { apply map_eq. intros k. rewrite lookup_empty. apply map_lookup_filter_None. right. intros x Hx. unfold b in Hx. cbn.
    rewrite lookup_delete_Some, !lookup_insert_Some, lookup_empty in Hx. intuition (subst; done). }
  rewrite E2. split; [done|]. rewrite happen_launch by (done || by left).
  rewrite (happen_call _ _ _ StartRunning) by apply lookup_goto. cbn [call sftt_server_start init_sftt_server sftt_server_stop sftt_server_exit]. cbn [sftt_server_is_running shm goto with_procs status happen st].
  unfold exit_process, release, goto. cbn [with_procs with_bound procs bound log_queue shm]. by rewrite delete_insert_eq.
Qed.

(** A restart does not start a server that is not running. *)
Theorem restart_needs_running o pid port : sftt_server_is_running o = false -> procs o !! pid = None ->
  happen MAIN_PORT [Launch pid (StopRunning true); Call pid port] o = Some (exit_process pid (goto pid (StopRunning true) o)).
Proof.
  intros Hr Hp. rewrite happen_launch by (done || by right; right). rewrite (happen_call _ _ _ (StopRunning true)) by apply lookup_goto.
  cbn [call sftt_server_start init_sftt_server sftt_server_stop sftt_server_exit happen]. change (sftt_server_is_running (goto pid _ o)) with (sftt_server_is_running o). by rewrite Hr.
Qed.
End Properties.

(** ** A restart that loses its server *)

(** Server 1 runs and is noted.  The restart 2 signals it, removes the segment
    and starts again; the old server closes its ports, the new one makes its
    segment and its queue, and then the handler of the old one removes both. *)
Definition restart_run : list event :=
  start 1 9001 ++ [Update 1 9002; Sync 1 7; Launch 2 (StopRunning true)] ++ repeat (Call 2 0) 5 ++ [Call 2 0; Call 1 0]
    ++ [Call 2 0; Call 2 9003; Call 2 0; Call 2 0] ++ [Call 1 0; Call 1 0] ++ [Call 2 0; Call 2 0].

Theorem restart_loses_server : exists o, happen 8001 restart_run (idle None false) = Some o
  /\ procs o = {[2%positive := Serving SERVERING 9003]} /\ shm o = None /\ log_queue o = false
  /\ forall es o', Forall (fun e => e <> Crash 2) es -> happen 8001 es o = Some o' -> sftt_server_is_running o' = false /\ is_Some (procs o' !! 2%positive).
Proof.
  eexists. split; [vm_compute; reflexivity|]. split; [reflexivity|]. split; [reflexivity|]. split; [reflexivity|].
  set (o := System _ _ _ _).
  assert (Hu : unnoted 8001 o 2 /\ shm o = None).
  { split; [|done]. split; [exists SERVERING, 9003; done|done|done|].
    intros pid c H Hne. change (procs o) with ({[2%positive := Serving SERVERING 9003]} : gmap positive pc) in H.
    by apply lookup_singleton_Some in H as [<- _]. }
  clearbody o. intros es. revert o Hu. induction es as [|e es IH]; intros o [Hu Hs] o' Hq; cbn [happen].
  - intros [= <-]. split; [apply Hu|]. destruct (un_serving _ _ _ Hu) as (own & p & -> & _). by eexists.
  - intros (o1 & E & H)%bind_Some. apply Forall_cons in Hq as [He Hq]. eapply (IH o1); [|exact Hq|exact H].
    destruct e as [pid c|pid port|pid port|pid ts|pid]; try (split; [eapply unnoted_happens; [exact Hu| |exact E]; exact I|]).
    + cbn [happens] in E. case_decide; [|done]. injection E as <-. exact Hs.
    + cbn [happens] in E. destruct (procs o !! pid) as [c|] eqn:Hc; [|done]. injection E as <-.
      destruct (decide (pid = 2%positive)) as [->|Hne].
      * destruct (un_serving _ _ _ Hu) as (own & p & Hc' & _). rewrite Hc' in Hc. injection Hc as <-. exact Hs.
      * destruct (un_others _ _ _ Hu pid c Hc Hne) as [->|[->|[->| ->]]]; cbn [call sftt_server_start init_sftt_server sftt_server_stop sftt_server_exit]; unfold create_non_block_sock;
          rewrite ?(un_main _ _ _ Hu), ?(un_running _ _ _ Hu); exact Hs.
    + cbn [happens] in E. destruct (procs o !! pid); [|done]. injection E as <-. unfold update_port.
      destruct (procs o !! pid) as [[]|]; try exact Hs. destruct (_ || _); [exact Hs|]. unfold create_non_block_sock. by destruct (bound o !! port).
    + cbn [happens] in E. destruct (procs o !! pid) as [c|] eqn:Hc; [|done]. injection E as <-. unfold sync_after_update. rewrite Hc.
      destruct c; try done. unfold sync_server_stat. by rewrite Hs.
    + split; [|cbn [happens] in E; destruct (procs o !! pid); [|done]; injection E as <-; exact Hs].
      eapply unnoted_happens; [exact Hu| |exact E]. cbn. congruence.
Qed.

Lemma one_server_witness : exists o, happen 8001 (start 1 9001) (idle None false) = Some o
  /\ forall p own port, procs o !! p = Some (Serving own port) -> 1%positive = p.
Proof.
  eexists. split; [vm_compute; reflexivity|]. intros p own port Hp.
  eapply (one_server 8001 None false (start 1 9001) _ 1 p SERVERING own 9001 port); [vm_compute; reflexivity|reflexivity|exact Hp].
Defined.

(** ** The command line *)

Definition opt_unknown (o : server_opt) : bool := match o with OptUnknown => true | _ => false end.
Definition opt_daemon (o : server_opt) : bool := match o with OptDaemon => true | _ => false end.
Definition opt_verbose (o : server_opt) : bool := match o with OptVerbose => true | _ => false end.

(** The options are independent of each other: [-d] and [-v] count wherever they
    stand, and an unknown one spoils the line. *)
Lemma server_options_spec l a : match server_options l a with
  | None => existsb opt_unknown l = true
  | Some b => existsb opt_unknown l = false /\ background b = background a || existsb opt_daemon l
      /\ verbose_level b = verbose_level a + Z.of_nat (length (List.filter opt_verbose l))
  end.
Proof.
  revert a. induction l as [|x l IH]; intros a; cbn [server_options].
  - cbn. rewrite orb_false_r, Z.add_0_r. done.
  - destruct x; cbn [existsb opt_unknown opt_daemon opt_verbose List.filter orb]; [| | | |done];
      (match goal with |- context [server_options l ?b] => specialize (IH b) end;
       destruct (server_options l _) as [b|]; [|exact IH]; destruct IH as (H1 & H2 & H3); cbn [background verbose_level length] in *;
       split; [exact H1|]; rewrite H2, H3; split; [by rewrite ?orb_true_r|lia]).
Qed.

(** What the command line of the server starts is one of the commands whose
    interleavings are studied above. *)
Lemma launched_command writable opts operands c : launched writable (server_main opts operands).1 = Some c -> command c.
Proof.
  unfold server_main. destruct (server_options _ _) as [a|]; [|done]. destruct operands as [|x [|]]; [done| |done].
  cbn [fst]. unfold launched, command. repeat case_decide; try done; repeat case_match; intros [= <-]; tauto.
Qed.

(** Two letters [v] are enough for all messages. *)
Lemma server_verbose opts operands : existsb opt_unknown opts = false -> length operands = 1%nat ->
  (2 <= length (List.filter opt_verbose opts))%nat -> (server_main opts operands).2 = DEBUG_DEBUG.
Proof.
  intros Hu Ho Hv. unfold server_main. pose proof (server_options_spec opts (ServerArgs [] None false 0)) as H.
  destruct (server_options _ _) as [a|]; [|congruence]. destruct operands as [|x [|]]; try done. cbn [snd].
  destruct H as (_ & _ & H). cbn [verbose_level] in H. unfold set_server_debug_level.
  destruct (Z.eqb_spec (verbose_level a) 0); [lia|]. destruct (Z.eqb_spec (verbose_level a) 1); [lia|].
  destruct (Z.ltb_spec 1 (verbose_level a)); [done|lia].
Qed.

(** Only a segment that says SERVERING gives a report; it tells the port. *)
Lemma status_needs_server strftime sock path log o : sftt_server_is_running o = false ->
  show_status strftime sock path log o = ascii_bytes "sfttd is not running." ++ [10].
Proof. intros H. unfold show_status. by rewrite H. Qed.
