(* ===== verification/ShmSpace.v ===== *)
(** * Sections of shared memory (src/shm_space.c)

    An attached segment has a header with up to eight named sections and should
    have room for them behind it.  Addresses are integers; an access outside
    the segment is [None].  Nothing in the program calls these functions, and
    the theorems say why nothing could. *)

From S2P Require Import Prelude.

Definition SHM_MAX_SECTION_NR : nat := 8.
Definition SHM_KEY_NAME_LEN : nat := 128.
Definition SHM_SECTION_NAME_LEN : nat := 32.

(** [sizeof(struct shm_space)]: 128 bytes of name, [nr], two pointers and eight
    sections of 56 bytes. *)
Definition SPACE_SIZE : Z := 600.

Record shm_section := ShmSection { sec_name : list Z; valid : bool; sec_start : Z; sec_size : Z }.

(** [base] is the address and [mem] the bytes of the attached segment. *)
Record shm_space := ShmSpace { nr : nat; start : Z; end_ : Z; sections : list shm_section; base : Z; mem : list Z }.

Definition with_sections n l p := ShmSpace n (start p) (end_ p) l (base p) (mem p).

Definition in_range (value start end_ : Z) : bool := (start <=? value) && (end_ <=? value).

(** [attached] is what [ftok], [shmget] and [shmat] give: an address and the
    bytes there, or nothing.  [None] is NULL.  The sum
    [ptr + sizeof(struct shm_space)] counts in structures. *)
Definition shm_space_construct (attached : option (Z * list Z)) (name : list Z) (size : Z) : option shm_space :=
  if size <=? 1024 then None else
  if (SHM_KEY_NAME_LEN - 1 <? length name)%nat then None else
  '(base, mem) ← attached;
  let start := base + SPACE_SIZE * SPACE_SIZE in
  Some (ShmSpace 0 start (start + size) (replicate SHM_MAX_SECTION_NR (ShmSection [] false 0 0)) base mem).

Definition shm_space_try_this_range (p : shm_space) (start end_ : Z) : bool :=
  forallb (fun s => negb (valid s) || negb (in_range (sec_start s) start end_ || in_range (sec_start s + sec_size s - 1) start end_)) (sections p).

(** The loop of [shm_space_create_section] over the sections. *)
Fixpoint find_place (p : shm_space) (size : Z) (l : list shm_section) : option Z :=
  match l with
  | [] => None
  | s :: l =>
      let start := if negb (valid s) then sec_start s else sec_start s + size in
      if shm_space_try_this_range p start (start + size) then Some start else find_place p size l
  end.

Definition shm_space_create_section (p : shm_space) (name : list Z) (size : Z) : shm_space * Z :=
  if size <=? 0 then (p, -1) else
  if (SHM_SECTION_NAME_LEN <=? length name)%nat then (p, -1) else
  if (SHM_MAX_SECTION_NR <=? nr p)%nat then (p, -1) else
  match find_place p size (sections p) with
  | Some start => (with_sections (S (nr p)) (<[nr p := ShmSection name true start size]> (sections p)) p, 0)
  | None => (p, -1)
  end.

Definition shm_space_get_section (p : shm_space) (name : list Z) : option (nat * shm_section) :=
  list_find (fun s => valid s = true /\ sec_name s = name) (sections p).

(** The access of [memcpy] to a section. *)
Definition inside (p : shm_space) (s : shm_section) : bool :=
  (base p <=? sec_start s) && (sec_start s + sec_size s <=? base p + Z.of_nat (length (mem p))).

Definition shm_space_dump_section (p : shm_space) (name data : list Z) : option (shm_space * Z) :=
  match shm_space_get_section p name with
  | None => Some (p, -1)
  | Some (_, s) =>
      if negb (inside p s) then None else
      bytes ← read_bytes data 0 (Z.to_nat (sec_size s));
      mem ← write_bytes (mem p) (Z.to_nat (sec_start s - base p)) bytes;
      Some (ShmSpace (nr p) (start p) (end_ p) (sections p) (base p) mem, 0)
  end.

Definition shm_space_get_section_content (p : shm_space) (name : list Z) : option (option (list Z)) :=
  match shm_space_get_section p name with
  | None => Some None
  | Some (_, s) =>
      if negb (inside p s) then None else
      bytes ← read_bytes (mem p) (Z.to_nat (sec_start s - base p)) (Z.to_nat (sec_size s)); Some (Some bytes)
  end.

Definition shm_space_delete_section (p : shm_space) (name : list Z) : shm_space * Z :=
  match shm_space_get_section p name with
  | None => (p, -1)
  | Some (i, s) => (with_sections (nr p) (<[i := ShmSection (sec_name s) false (sec_start s) (sec_size s)]> (sections p)) p, 0)
  end.

(** ** Sections are made at the wrong end of the address space *)

Inductive shm_op := Create (name : list Z) (size : Z) | Delete (name : list Z).

Definition shm_run (p : shm_space) (op : shm_op) : shm_space :=
  match op with Create name size => (shm_space_create_section p name size).1 | Delete name => (shm_space_delete_section p name).1 end.

Definition asked (op : shm_op) : Z := match op with Create _ size => Z.max 0 size | Delete _ => 0 end.

(** No section begins above the sum of what was asked for. *)
Definition low (bound : Z) (p : shm_space) : Prop := Forall (fun s => 0 <= sec_start s <= bound) (sections p).

Lemma low_weaken b b' p : b <= b' -> low b p -> low b' p.
Proof. intros Hb Hl. eapply Forall_impl; [exact Hl|]. cbn. intros s ?. lia. Qed.

Lemma find_place_low p size b l start : 0 <= size -> Forall (fun s => 0 <= sec_start s <= b) l -> find_place p size l = Some start -> 0 <= start <= b + size.
Proof.
  intros Hs. induction 1 as [|s l Hl _ IH]; cbn [find_place]; [done|].
  destruct (shm_space_try_this_range _ _ _); [|exact IH]. intros [= <-]. destruct (valid s); cbn [negb]; lia.
Qed.

Lemma shm_run_low p op b : low b p -> low (b + asked op) (shm_run p op) /\ base (shm_run p op) = base p.
Proof.
  intros Hl. destruct op as [name size|name]; cbn [shm_run asked].
  - unfold shm_space_create_section. destruct (Z.leb_spec size 0) as [?|Hs]; [split; [eapply low_weaken; [|exact Hl]; lia|done]|].
    assert (Hw : low (b + Z.max 0 size) p) by (eapply low_weaken; [|exact Hl]; lia).
    destruct (_ <=? _)%nat; [done|]. destruct (_ <=? _)%nat; [done|].
    destruct (find_place _ _ _) as [st|] eqn:E; [|done]. split; [|done]. unfold low. cbn [fst with_sections sections].
    apply Forall_insert; [exact Hw|]. cbn [sec_start]. apply (find_place_low _ _ b) in E; [lia|lia|exact Hl].
  - rewrite Z.add_0_r. unfold shm_space_delete_section. destruct (shm_space_get_section p name) as [[i s]|] eqn:E; [|done]. split; [|done].
    apply list_find_Some in E as (Hi & _). unfold low. cbn [fst with_sections sections]. apply Forall_insert; [exact Hl|].
    cbn [sec_start]. exact (Forall_lookup_1 _ _ _ _ Hl Hi).
Qed.

Lemma shm_runs_low ops : forall p b, low b p ->
  low (b + foldr (fun op s => asked op + s) 0 ops) (foldl shm_run p ops) /\ base (foldl shm_run p ops) = base p.
Proof.
  induction ops as [|op ops IH]; intros p b Hl; cbn [foldl foldr]; [by rewrite Z.add_0_r|].
  destruct (shm_run_low p op b Hl) as [H1 H2]. destruct (IH _ _ H1) as [H3 H4]. rewrite Z.add_assoc, H4, H2. done.
Qed.

(** Every section that is ever made lies below the segment as long as less is
    asked for than its address: writing or reading one is an access outside. *)
Theorem sections_outside name size base mem p ops : shm_space_construct (Some (base, mem)) name size = Some p ->
  foldr (fun op s => asked op + s) 0 ops < base ->
  forall n data, let p' := foldl shm_run p ops in
  is_Some (shm_space_get_section p' n) -> shm_space_dump_section p' n data = None /\ shm_space_get_section_content p' n = None.
Proof.
  intros Hp Hsum n data p' [[i s] E].
  assert (Hl : low 0 p /\ ShmSpace.base p = base).
  { unfold shm_space_construct in Hp. destruct (_ <=? _); [done|]. destruct (_ <? _)%nat; [done|]. injection Hp as <-.
    split; [|done]. unfold low. cbn [sections]. by repeat constructor. }
  destruct Hl as [Hl Hb]. destruct (shm_runs_low ops p 0 Hl) as [Hlow Hbase].
  pose proof E as (Hi & _)%list_find_Some. pose proof (Forall_lookup_1 _ _ _ _ Hlow Hi) as Hs. cbn beta in Hs.
  unfold shm_space_dump_section, shm_space_get_section_content. rewrite E.
  assert (Hin : inside p' s = false); [|by rewrite Hin].
  unfold inside. apply andb_false_iff. left. apply Z.leb_gt. unfold p'. rewrite Hbase, Hb. lia.
Qed.

(** A deleted section is not used again: after eight no more can be made. *)
Theorem sections_used_up p name size : (SHM_MAX_SECTION_NR <= nr p)%nat -> shm_space_create_section p name size = (p, -1).
Proof. intros Hn. unfold shm_space_create_section. destruct (_ <=? _); [done|]. destruct (_ <=? _)%nat; [done|]. by rewrite (proj2 (Nat.leb_le _ _)). Qed.

Theorem delete_keeps_count p name : nr (shm_space_delete_section p name).1 = nr p.
Proof. unfold shm_space_delete_section. by destruct (shm_space_get_section p name) as [[i s]|]. Qed.

(** The area that the header announces begins 360000 bytes behind it, outside
    every segment that is not larger. *)
Theorem area_outside name size base mem p : shm_space_construct (Some (base, mem)) name size = Some p ->
  Z.of_nat (length mem) = size + SPACE_SIZE -> size <= 359400 -> base + Z.of_nat (length (ShmSpace.mem p)) <= start p.
Proof.
  unfold shm_space_construct. destruct (Z.leb_spec size 1024); [done|]. destruct (_ <? _)%nat; [done|]. intros [= <-] Hm Hs.
  cbn [ShmSpace.mem start]. unfold SPACE_SIZE in *. lia.
Qed.

Definition segment : Z * list Z := (100000, zeroed 2648).

Lemma sections_outside_witness : exists p, shm_space_construct (Some segment) [107] 2048 = Some p
  /\ shm_space_dump_section (shm_run p (Create [97] 16)) [97] (zeroed 16) = None.
Proof.
  destruct (shm_space_construct (Some segment) [107] 2048) as [p|] eqn:E; [|by vm_compute in E]. exists p. split; [done|].
  apply (sections_outside [107] 2048 100000 (zeroed 2648) p [Create [97] 16] E ltac:(vm_compute; reflexivity) [97] (zeroed 16)).
  unfold shm_space_construct, segment in E. change (2048 <=? 1024) with false in E. change (SHM_KEY_NAME_LEN - 1 <? length [107])%nat with false in E.
  cbv iota zeta in E. injection E as <-. vm_compute. by eexists.
Defined.
