(* ===== verification/CommandList.v ===== *)
(** * Listings: a command of the client against the server's handler

    [ll] and [w] collect pages.  The theorems run the whole command, from the
    line that is typed to what is shown, against the loop of the session. *)

From stdpp Require Import relations.
From S2P Require Import Prelude CStr Version Process FileSystem FilePut FileGet CmdLine Messages Sessions Server Client.

(** Runs the two programs to their next exchange. *)
Ltac head := cbn [mbind prog_bind mret prog_ret Process.send Process.recv lift receive].
Ltac to_right := eapply rtc_trans; [apply pass_right|]; head.
Ltac to_left := eapply rtc_trans; [apply pass_left|]; head.

Lemma rtc_exists {A T} {R : relation A} (f : T -> A) x y :
  rtc R x y -> (exists t, rtc R y (f t)) -> exists t, rtc R x (f t).
Proof. intros H [t Ht]. exists t. by etransitivity. Qed.

(** The fields of an array that a loop copies. *)
Lemma mapM_lookup_seq {A} (l : list A) n : (n <= length l)%nat ->
  mapM (fun i => l !! i) (seq 0 n) = Some (take n l).
Proof.
  intros Hn. apply mapM_Some, Forall2_same_length_lookup_2; [rewrite length_seq, length_take; lia|].
  intros i x y [-> Hi]%lookup_seq Hy. rewrite lookup_take_lt in Hy by lia. exact Hy.
Qed.

(** The command that a line names. *)
Definition types (buf : list Z) (name : string) (argv : list (list Z)) : Prop :=
  parse_command buf = Some (Some (UserCmd (Some (ascii_bytes name)) argv)).

Lemma execute_types {T : Transport} h fuel files c buf name argv p :
  types buf name argv -> among_directcmds (ascii_bytes name) = false ->
  run_command h fuel files c (ascii_bytes name) argv = Some p ->
  execute_cmd h fuel files c buf = p.
Proof.
  unfold types, execute_cmd. intros -> Hd Hr. cbn [lift mbind prog_bind CmdLine.name CmdLine.argv].
  by rewrite Hd, andb_false_r, Hr.
Qed.

(** ** Directories *)

Section Pages.
Context {RA RB : Type} (entry : list Z -> file_entry).

(** The response that carries the next page. *)
Definition ll_page (names : list (list Z)) (resp : ll_resp) : ll_resp :=
  let page := entry <$> take FILE_ENTRY_MAX_CNT names in
  LlResp RESP_OK (match drop FILE_ENTRY_MAX_CNT names with [] => 0 | _ => 1 end) (ll_total resp)
    (Z.of_nat (length page)) (page ++ drop (length page) (ll_entries resp)).

Lemma ll_page_sent {T : Sent} (kS : ll_resp -> handler RB) fuel names resp (kk : received packet -> command RA) :
  names <> [] ->
  rtc step (Network (Recv kk) (ll_pages (S fuel) entry names resp ≫= kS) [] [])
    (Network (kk (Got (LlResponse (ll_page names resp))))
       (ll_pages fuel entry (drop FILE_ENTRY_MAX_CNT names) (left_ll (ll_page names resp)) ≫= kS) [] []).
Proof. intros Hne. destruct names as [|name names]; [done|]. apply pass_left. Qed.

(** The page as the client takes it. *)
Lemma ll_page_taken fuel names resp acc tot :
  names <> [] -> 0 < ll_total resp -> (FILE_ENTRY_MAX_CNT <= length (ll_entries resp))%nat ->
  0 <= tot -> tot + Z.of_nat (length names) < 2 ^ 31 ->
  let page := take FILE_ENTRY_MAX_CNT names in
  ll_collect (S fuel) (ll_page names resp) acc tot =
    (let total := tot + Z.of_nat (length page) in
     if total =? ll_total resp then mret (Some (acc ++ (entry <$> page))) else
     receive (fun p => match p with
         | LlResponse resp => ll_collect fuel resp (acc ++ (entry <$> page)) total
         | _ => Crash
         end) (mret None)).
Proof.
  intros Hne Htot Hent H0 Hmax page. unfold ll_page. fold page.
  assert (Hpage : length (entry <$> page) = length page) by apply length_fmap.
  assert (Hlen : length page = Nat.min FILE_ENTRY_MAX_CNT (length names)) by apply length_take.
  assert (0 < length names)%nat by (destruct names; [done|simpl; lia]).
  assert (HE : FILE_ENTRY_MAX_CNT = 16%nat) by done.
  cbn [ll_collect ll_total ll_this_nr ll_entries]. rewrite Hpage.
  rewrite (proj2 (Z.ltb_lt 0 (ll_total resp))), (proj2 (Z.ltb_lt 0 (Z.of_nat _))), (proj2 (Z.ltb_ge _ _)) by lia.
  cbn [andb]. rewrite Nat2Z.id, mapM_lookup_seq, <- Hpage, take_app_length by (rewrite length_app, Hpage; lia).
  rewrite i32_small by (unfold in_i32; lia). done.
Qed.

Lemma ll_pages_run (kC : option (list file_entry) -> command RA) (kS : ll_resp -> handler RB) fuelS :
  forall names resp acc tot fuelC kk, names <> [] -> (length names <= fuelS)%nat -> (length names <= fuelC)%nat ->
  length (ll_entries resp) = FILE_ENTRY_MAX_CNT -> 0 <= tot ->
  ll_total resp = tot + Z.of_nat (length names) -> ll_total resp < 2 ^ 31 ->
  (forall r, kk (Got (LlResponse r)) = ll_collect fuelC r acc tot ≫= kC) ->
  exists resp', rtc step
    (Network (Recv kk) (ll_pages (T := ll_copying) fuelS entry names resp ≫= kS) [] [])
    (Network (kC (Some (acc ++ (entry <$> names)))) (kS resp') [] []).
Proof.
  induction fuelS as [|fuelS IH]; intros names resp acc tot fuelC kk Hne HS HC Hent H0 Htot Hmax Hkk;
    assert (0 < length names)%nat by (destruct names; [done|simpl; lia]); [lia|].
  destruct fuelC as [|fuelC]; [lia|].
  eapply rtc_exists; [by apply ll_page_sent|]. rewrite Hkk, ll_page_taken by (done || lia). cbv zeta.
  assert (Hrest := length_drop names FILE_ENTRY_MAX_CNT). assert (Hpage := length_take names FILE_ENTRY_MAX_CNT).
  assert (HE : FILE_ENTRY_MAX_CNT = 16%nat) by done.
  assert (Hsplit : entry <$> names = (entry <$> take FILE_ENTRY_MAX_CNT names)
    ++ (entry <$> drop FILE_ENTRY_MAX_CNT names)) by (by rewrite <- fmap_app, take_drop).
  rewrite Hsplit, app_assoc.
  destruct (drop FILE_ENTRY_MAX_CNT names) as [|n1 rest] eqn:Ed; cbn [length] in Hrest.
  - rewrite (proj2 (Z.eqb_eq _ _)), fmap_nil, app_nil_r by lia.
    eexists. destruct fuelS; constructor.
  - rewrite (proj2 (Z.eqb_neq _ _)) by lia.
    eapply (IH (n1 :: rest) _ _ (tot + Z.of_nat (length (take FILE_ENTRY_MAX_CNT names))) fuelC);
      cbn [left_ll ll_copying ll_page ll_total ll_entries]; [done|cbn [length]; lia..| | | | |].
    + rewrite length_app, length_drop, length_fmap. lia.
    + lia.
    + cbn [length]. lia.
    + done.
    + intros r. reflexivity.
Qed.

(** A single page is the same whatever sending leaves of the response. *)
Lemma ll_one_page_run {T : Sent} (kC : option (list file_entry) -> command RA) (kS : ll_resp -> handler RB) fuelS names resp fuelC kk :
  (0 < length names <= FILE_ENTRY_MAX_CNT)%nat -> (length names <= fuelS)%nat -> (length names <= fuelC)%nat ->
  length (ll_entries resp) = FILE_ENTRY_MAX_CNT -> ll_total resp = Z.of_nat (length names) ->
  (forall r, kk (Got (LlResponse r)) = ll_collect fuelC r [] 0 ≫= kC) ->
  exists resp', rtc step
    (Network (Recv kk) (ll_pages fuelS entry names resp ≫= kS) [] [])
    (Network (kC (Some (entry <$> names))) (kS resp') [] []).
Proof.
  intros Hlen HS HC Hent Htot Hkk. assert (names <> []) by (intros ->; simpl in Hlen; lia).
  assert (HE : FILE_ENTRY_MAX_CNT = 16%nat) by done. destruct fuelS as [|fuelS], fuelC as [|fuelC]; [lia..|].
  eapply rtc_exists; [by apply ll_page_sent|]. rewrite Hkk, ll_page_taken by (done || lia). cbv zeta.
  rewrite take_ge, drop_ge by lia. rewrite (proj2 (Z.eqb_eq _ _)) by lia.
  eexists. destruct fuelS; constructor.
Qed.
End Pages.

(** ** Users *)

Section Users.
Context {RA RB : Type}.

Lemma who_pages_run (kC : option (list logged_in_user) -> command RA) (kS : () -> handler RB) users fuelS :
  forall count resp acc fuelC kk,
  0 <= count < Z.of_nat (length users) -> Z.of_nat (length users) - count <= Z.of_nat fuelS ->
  Z.of_nat (length users) - count <= Z.of_nat fuelC ->
  (forall r, kk (Got (WhoResponse r)) = friend_pages fuelC r acc count ≫= kC) ->
  rtc step
    (Network (Recv kk) (who_pages fuelS users (Z.of_nat (length users)) count resp ≫= kS) [] [])
    (Network (kC (Some (acc ++ drop (Z.to_nat count) users))) (kS tt) [] []).
Proof.
  induction fuelS as [|fuelS IH]; intros count resp acc fuelC kk Hc HS HC Hkk; [lia|].
  destruct fuelC as [|fuelC]; [lia|]. cbn [who_pages]. unfold send_who_resp.
  set (total := Z.of_nat (length users)) in *.
  set (num := if Z.of_nat LOGGED_IN_USER_MAX_CNT <=? total - count then _ else _).
  set (page := take (Z.to_nat num) (drop (Z.to_nat count) users)).
  assert (HM : Z.of_nat LOGGED_IN_USER_MAX_CNT = 32) by done.
  assert (Hnum : 0 < num <= 32 /\ num <= total - count)
    by (unfold num; destruct (Z.leb_spec (Z.of_nat LOGGED_IN_USER_MAX_CNT) (total - count)); lia).
  clearbody num. assert (Hpage : length page = Z.to_nat num)
    by (unfold page; rewrite length_take, length_drop; lia).
  assert (Hsplit : drop (Z.to_nat count) users = page ++ drop (Z.to_nat (count + num)) users).
  { rewrite Z2Nat.inj_add, <- drop_drop by lia. unfold page. by rewrite take_drop. }
  rewrite Hsplit, app_assoc. head. eapply rtc_trans; [apply pass_left|].
  rewrite Hkk. cbn [friend_pages who_total who_this_nr who_users].
  rewrite (proj2 (Z.ltb_lt 0 total)), (proj2 (Z.ltb_lt 0 num)), (proj2 (Z.ltb_ge _ num)) by lia. cbn [andb].
  rewrite mapM_lookup_seq, <- Hpage, take_app_length by (rewrite length_app; lia). cbn [lift mbind prog_bind].
  destruct (Z.ltb_spec (count + num) total) as [Hlt|Hge].
  - rewrite (proj2 (Z.eqb_neq _ _)) by lia. apply (IH (count + num) _ (acc ++ page) fuelC); [lia..|].
    intros r. reflexivity.
  - rewrite (proj2 (Z.eqb_eq _ _)), drop_ge, app_nil_r by lia. reflexivity.
Qed.
End Users.

(** ** The server and its surroundings *)

Section Listing.
Context {TG : GetTransport} {TP : Transport}.
Context (h my : host) (select_user : list Z -> list row).
Context (sfiles sfuel me : nat) (new_id : list Z) (files : nat).

#[local] Abbreviation execute := (execute_cmd my).
#[local] Abbreviation session T requests := (handle_client_session (T := T) h select_user requests sfiles sfuel
  me new_id).

(** What the user typed as a path, for a directory that can be listed. *)
Definition listable (s : server) (path dir : list Z) (names : list (list Z)) : Prop :=
  ll_path (s_pwd (session_at s me)) (take (DIR_PATH_MAX_LEN - 1) path) = Some dir
  /\ file_existed (disk s) dir = true /\ is_dir (disk s) dir = true /\ h_opendir h dir = Some names.

Lemma is_dir_not_file fs dir : is_dir fs dir = true -> is_file fs dir = false.
Proof. unfold is_dir, is_file. by destruct (node_at fs dir) as [[]|]. Qed.

(** What the command makes of the entries it collected. *)
Definition show_entries (c : client) (l : option (list file_entry)) : command result :=
  match l with Some l => mret (c, 0, [ShowEntries l]) | None => mret (c, -1, [Message]) end.

Lemma listing_starts T n c s buf path dir names fuel :
  types buf "ll" [path] -> listable s path dir names ->
  exists kk, (forall r, kk (Got (LlResponse r)) = ll_collect fuel r [] 0 ≫= show_entries c) /\
  rtc step (Network (execute fuel files c buf) (session T (S n) s) [] [])
    (Network (Recv kk)
       (ll_pages (T := T) (length names) (ll_entry (disk s) dir) names
          (LlResp 0 0 (Z.of_nat (length names)) 0 (ll_entries zero_ll_resp))
        ≫= (fun _ => session T n s)) [] []).
Proof.
  intros Hbuf [Hpath (He & Hdir & Hnames)]. eexists. split; cycle 1.
  { rewrite (execute_types _ _ _ _ _ _ _ _ Hbuf eq_refl eq_refl).
    cbn [handle_client_session sftt_client_ll_handler]. head. to_right.
    cbn [handle_request Z.eqb negb]. unfold handle_ll_req. rewrite Hpath. head.
    rewrite He, (is_dir_not_file _ _ Hdir), Hdir. cbn [negb].
    unfold get_top_file_list. rewrite He, Hdir, Hnames. cbn [negb orb]. rewrite !bind_assoc. head. reflexivity. }
  intros r. reflexivity.
Qed.

(** C11: [ll] of a directory with entries, fewer than 2^31, shows them, all of
    them and in the order in which the system delivers them, each with its kind,
    however many pages they take; then the session is ready for the next
    request.  This is so under every schedule in which receives wait, for any
    serialiser when the entries fit into one page of 16, and for a longer
    directory when the serialiser leaves the response as it was, as the one of
    the XDR build does; with the raw one a second page hangs
    ([ll_second_page_hangs]). *)
Theorem ll_delivers T n c s buf path dir names fuel
    (Hbuf : types buf "ll" [path]) (Hdir : listable s path dir names)
    (Hsome : (0 < length names)%nat) (Hmax : Z.of_nat (length names) < 2 ^ 31)
    (Hfuel : (length names <= fuel)%nat)
    (Hsent : T = ll_copying \/ (length names <= FILE_ENTRY_MAX_CNT)%nat) :
  every_run_ends (Network (execute fuel files c buf) (session T (S (S n)) s) [] [])
    (Network (Ret (c, 0, [ShowEntries (ll_entry (disk s) dir <$> names)]))
       (session T (S n) s) [] []).
Proof.
  apply run_ends; [|apply final_right_waits].
  destruct (listing_starts T (S n) c s buf path dir names fuel Hbuf Hdir) as (kk & Hkk & Hrun).
  etransitivity; [exact Hrun|].
  destruct Hsent as [->|Hone]; cycle 1.
  { destruct (ll_one_page_run (T := T) (ll_entry (disk s) dir) (show_entries c) (fun _ => session T (S n) s) (length names)
      names (LlResp 0 0 (Z.of_nat (length names)) 0 (ll_entries zero_ll_resp)) fuel kk)
      as (resp' & Hp); [lia|done|done|done|done|exact Hkk|exact Hp]. }
  destruct (ll_pages_run (ll_entry (disk s) dir) (show_entries c) (fun _ => session ll_copying (S n) s) (length names)
    names (LlResp 0 0 (Z.of_nat (length names)) 0 (ll_entries zero_ll_resp)) [] 0 fuel kk)
    as (resp' & Hp); cbn [ll_total ll_entries]; [by intros ->; simpl in Hsome; lia|done..|exact Hkk|exact Hp].
Qed.

Lemma swapped_pages n : 16 < n <= 32 -> n < swap_i32 n.
Proof.
  intros Hn. assert (n = 17 \/ n = 18 \/ n = 19 \/ n = 20 \/ n = 21 \/ n = 22 \/ n = 23 \/ n = 24 \/ n = 25
    \/ n = 26 \/ n = 27 \/ n = 28 \/ n = 29 \/ n = 30 \/ n = 31 \/ n = 32) as H by lia.
  by repeat (destruct H as [->|H]; [vm_compute|]); subst.
Qed.

(** With the serialiser that swaps the bytes of its argument the second page
    carries a swapped total: a directory of 17 to 32 entries leaves the client
    waiting for a third page, whatever the schedule, while the server waits for
    the next request. *)
Theorem ll_second_page_hangs n c s buf path dir names fuel
    (Hbuf : types buf "ll" [path]) (Hdir : listable s path dir names)
    (Hpages : (16 < length names <= 32)%nat) (Hfuel : (2 <= fuel)%nat) :
  exists k, every_run_ends (Network (execute fuel files c buf) (session ll_raw (S (S n)) s) [] [])
    (Network (Recv k) (session ll_raw (S n) s) [] []).
Proof.
  destruct (listing_starts ll_raw (S n) c s buf path dir names fuel Hbuf Hdir) as (kk & Hkk & Hrun).
  assert (Hne : names <> []) by (intros ->; simpl in Hpages; lia).
  assert (HE : FILE_ENTRY_MAX_CNT = 16%nat) by done.
  assert (Htake := length_take names FILE_ENTRY_MAX_CNT). assert (Hdrop := length_drop names FILE_ENTRY_MAX_CNT).
  assert (Hne' : drop FILE_ENTRY_MAX_CNT names <> []) by (intros E; rewrite E in Hdrop; cbn [length] in Hdrop; lia).
  assert (Hnil : drop FILE_ENTRY_MAX_CNT (drop FILE_ENTRY_MAX_CNT names) = [])
    by (apply nil_length_inv; rewrite length_drop; lia).
  pose proof (swapped_pages (Z.of_nat (length names))) as Hswap.
  destruct fuel as [|[|fuel]]; [lia..|]. destruct (length names) as [|[|l]] eqn:El; [lia..|].
  eexists. apply run_ends; [|apply final_both_wait].
  etransitivity; [exact Hrun|]. etransitivity; [by apply ll_page_sent|].
  rewrite Hkk, ll_page_taken by (done || cbn [ll_total ll_entries length]; lia). cbv zeta.
  cbn [ll_total]. rewrite (proj2 (Z.eqb_neq _ _)) by lia. head.
  etransitivity; [by apply ll_page_sent|]. head.
  assert (Hz : length (ll_entries zero_ll_resp) = 16%nat) by done.
  rewrite ll_page_taken; cbn [left_ll ll_raw ll_page ll_total ll_entries]; [|done|lia| |lia|lia];
    [|rewrite length_fmap, length_app, length_drop, length_fmap; lia].
  cbv zeta. rewrite (proj2 (Z.eqb_neq _ _)) by (rewrite !length_take; lia). head.
  rewrite Hnil. destruct l; reflexivity.
Qed.

(** The steps of asking for the users. *)
Lemma friend_list_runs T n c s fuel (users := get_logged_in_users (table s)) :
  users <> [] -> (length users <= fuel)%nat ->
  rtc step (Network (get_friend_list fuel (with_friends [] c)) (session T (S n) s) [] [])
    (Network (Ret (with_friends users c, 0)) (session T n s) [] []).
Proof.
  intros Hsome Hfuel. assert (0 < length users)%nat by (destruct users; [done|simpl; lia]).
  unfold get_friend_list. cbn [handle_client_session friends with_friends]. head.
  to_right. cbn [handle_request]. unfold handle_who_req. fold users.
  rewrite (proj2 (Z.leb_gt _ 0)) by lia. rewrite ?bind_assoc. head.
  eapply rtc_trans; [eapply (who_pages_run _ _ users (length users) 0 _ [] fuel); [lia..|]|].
  - intros r. rewrite ?bind_assoc. reflexivity.
  - reflexivity.
Qed.

(** [w] shows every session that is connected, in the order of the table and
    with its own one marked, and remembers them for the commands that name a
    user by its number; whatever the schedule, the session is then ready for
    the next request. *)
Theorem who_delivers T n c s buf argv fuel
    (Hbuf : types buf "w" argv) (Hsome : get_logged_in_users (table s) <> [])
    (Hfuel : (length (get_logged_in_users (table s)) <= fuel)%nat) :
  let users := get_logged_in_users (table s) in
  every_run_ends (Network (execute fuel files c buf) (session T (S (S n)) s) [] [])
    (Network (Ret (with_friends users c, 0,
                [ShowUsers ((fun u => (u, bool_decide (cl_session_id c = lu_session_id u))) <$> users)]))
       (session T (S n) s) [] []).
Proof.
  intros users. apply run_ends; [|apply final_right_waits].
  rewrite (execute_types _ _ _ _ _ _ _ _ Hbuf eq_refl eq_refl). unfold sftt_client_who_handler.
  etransitivity; [apply (bind_left_run _ (Network _ _ _ _) _ (friend_list_runs T (S n) c s fuel Hsome Hfuel))|]. reflexivity.
Qed.
End Listing.


(** ** A server with one session *)

Definition demo_session : client_session :=
  Session (ascii_bytes "10.0.0.7") (Conn 5 4242 CONN_TYPE_CTRL (ascii_bytes "c1") 0 0) [] ACTIVE
    (ascii_bytes "/home") (ascii_bytes "s1") (UserBase 7 (ascii_bytes "ann") (ascii_bytes "/home")).
Definition demo_server : server :=
  Server [demo_session; init_client_session] (Fsys {[ ascii_bytes "/home" := Dir; ascii_bytes "/home/d" := Dir ]} ∅).
Definition demo_names (n : nat) : list (list Z) := (fun i => [97; 48 + Z.of_nat i]) <$> seq 0 n.
Definition demo_client : client :=
  Client (ascii_bytes "/home") (ascii_bytes "s1") 7 (ascii_bytes "c1") [] false (Fsys ∅ ∅).

Definition demo_host (names : list (list Z)) : host :=
  Host (fun _ => names) (fun _ => Some names) (fun _ p => Some p) (fun _ => None) 4096 (fun _ => 420) (0, 0, 0, 0)
    (VersionInfo 0 1 3).

#[local] Abbreviation demo_execute := (execute_cmd (T := copying) (demo_host []) 40 1 demo_client).
#[local] Abbreviation demo_serve T k requests := (handle_client_session (T := T) (TG := get_copying)
  (demo_host (demo_names k)) (fun _ => []) requests 1 1 0 [] demo_server).

(** Forty entries take three pages. *)
Lemma ll_delivers_witness :
  every_run_ends (Network (demo_execute (ascii_bytes "ll d")) (demo_serve ll_copying 40 2) [] [])
    (Network (Ret (demo_client, 0, [ShowEntries (ll_entry (disk demo_server) (ascii_bytes "/home/d") <$> demo_names 40)]))
       (demo_serve ll_copying 40 1) [] []).
Proof.
  apply (ll_delivers (TG := get_copying) (TP := copying) (demo_host (demo_names 40)) (demo_host []) (fun _ => [])
    1 1 0 [] 1 ll_copying 0 demo_client demo_server (ascii_bytes "ll d") (ascii_bytes "d") (ascii_bytes "/home/d") (demo_names 40) 40).
  - vm_compute. reflexivity.
  - repeat split; vm_compute; reflexivity.
  - vm_compute. lia.
  - vm_compute. reflexivity.
  - vm_compute. lia.
  - by left.
Defined.

Lemma ll_second_page_hangs_witness :
  exists k, every_run_ends (Network (demo_execute (ascii_bytes "ll /home/d")) (demo_serve ll_raw 17 2) [] [])
    (Network (Recv k) (demo_serve ll_raw 17 1) [] []).
Proof.
  apply (ll_second_page_hangs (TG := get_copying) (TP := copying) (demo_host (demo_names 17)) (demo_host []) (fun _ => [])
    1 1 0 [] 1 0 demo_client demo_server (ascii_bytes "ll /home/d") (ascii_bytes "/home/d")
    (ascii_bytes "/home/d") (demo_names 17) 40).
  - vm_compute. reflexivity.
  - repeat split; vm_compute; reflexivity.
  - vm_compute. lia.
  - lia.
Defined.

Lemma who_delivers_witness :
  every_run_ends (Network (demo_execute (ascii_bytes "w")) (demo_serve ll_raw 1 2) [] [])
    (Network (Ret (with_friends [session_user demo_session] demo_client, 0,
                [ShowUsers [(session_user demo_session, true)]]))
       (demo_serve ll_raw 1 1) [] []).
Proof.
  apply (who_delivers (TG := get_copying) (TP := copying) (demo_host (demo_names 1)) (demo_host []) (fun _ => [])
    1 1 0 [] 1 ll_raw 0 demo_client demo_server (ascii_bytes "w") [] 40).
  - vm_compute. reflexivity.
  - vm_compute. done.
  - vm_compute. lia.
Defined.
