(* ===== verification/CommandFile.v ===== *)
(** * Transfers, the working directory and other commands

    The commands [put] and [get] from the line that is typed to the files that
    are installed, on the theorems of FilePutRun and FileGetRun; the working
    directory that client and session share; commands that cannot succeed. *)

From stdpp Require Import relations.
From Stdlib Require Import FunctionalExtensionality.
From S2P Require Import Prelude CStr Version Process FileSystem FilePut FilePutRun FileTransfer FileGet FileGetRun FileGetTransfer UpdateLock CmdLine Messages Sessions Server Client CommandList.

Section Commands.
Context (h my : host) (select_user : list Z -> list row).
Context (sfiles sfuel me : nat) (new_id : list Z) (fuel files : nat).

#[local] Abbreviation execute TP := (execute_cmd (T := TP) my fuel files).
#[local] Abbreviation session T TG requests := (handle_client_session (T := T) (TG := TG) h select_user requests
  sfiles sfuel me new_id).

(** A session waits for its next request. *)
Lemma session_waits T TG n s :
  session T TG (S n) s = Recv (fun r =>
    match r with
    | Got req =>
        '(s, v) ← handle_request (T := T) (TG := TG) h select_user sfiles sfuel me new_id s req;
        match v with
        | Next => session T TG n s
        | ForPeer => mret (s, v)
        | Close | KeepSocket => mret (end_session me s, v)
        end
    | RecvErr true => session T TG n s
    | _ => mret (end_session me s, Close)
    end).
Proof. reflexivity. Qed.

(** Where a put goes. *)
Definition put_target (c : client) (target : list Z) : list Z :=
  if is_absolute_path target then take (FilePut.FILE_NAME_MAX_LEN - 1) target
  else print_path (DIR_PATH_MAX_LEN + 1) (cl_pwd c) target.

(** C6: [put] copies a file or a directory tree to the server, under these
    conditions.  The serialiser leaves its argument alone, as the one of the XDR
    build does; every receive waits for its packet, while the socket of a
    session is non-blocking ([put_race_loses_file]); every file is empty or not
    a multiple of the 2048 bytes of a block, its name fits, and it can be
    installed.  Then whatever the schedule the command ends without error, the
    server's file system is the one that installing the files one after the
    other gives, and the session is ready for the next request. *)
Theorem put_command_installs T TG n c s buf file target fs' items
    (Hbuf : types buf "put" [file; target])
    (Hitems : transfer_items (cl_disk c) (h_readdir my) fuel (take (FilePut.FILE_NAME_MAX_LEN - 1) file)
                (put_target c target) = Some items)
    (Hthere : is_file (cl_disk c) (take (FilePut.FILE_NAME_MAX_LEN - 1) file) = true
              \/ is_dir (cl_disk c) (take (FilePut.FILE_NAME_MAX_LEN - 1) file) = true)
    (Hok : Forall (item_ok (cl_disk c) sfuel) items)
    (Hcount : Z.of_nat (length items) < 2 ^ 31) (Hn : (length items <= sfiles)%nat)
    (Hinstall : install_all (disk s) ((fun x => (x.1.2, x.2)) <$> items) = Some fs') :
  exists ret, 0 <= ret /\
    every_run_ends (Network (execute copying c buf) (session T TG (S (S n)) s) [] [])
      (Network (Ret (c, ret, [])) (session T TG (S n) (with_disk fs' s)) [] []).
Proof.
  set (req := PutReq 0 0 (Entry 0 0 0 0 (replicate CONTENT_BLOCK_SIZE 0)) 0 0).
  destruct (transfer_run (cl_disk c) (h_dir_size my) (h_file_mode my) (h_readdir my) fuel
    (take (FilePut.FILE_NAME_MAX_LEN - 1) file) (put_target c target) req (disk s) fs' sfiles sfuel items)
    as (r1 & r2 & H1 & H2 & Hrun); [done..|].
  exists r1. split; [done|]. apply run_ends; [|apply final_right_waits].
  rewrite (execute_types _ _ _ _ _ _ _ _ Hbuf eq_refl eq_refl).
  unfold sftt_client_put_handler. fold (put_target c target).
  replace (negb _ && negb _) with false by (destruct Hthere as [->| ->]; by rewrite ?andb_false_r).
  rewrite (session_waits T TG (S n)). change (default no_user None) with no_user.
  eapply (embed_serve (PutRequest 0 no_user) put_request PutResp put_status (fun _ => eq_refl) (fun _ => eq_refl)
    (fun ret => mret (c, ret, [])) (fun '(fs, _) => session T TG (S n) (with_disk fs s))) with (a := r1) (b := (fs', r2));
    [|exact Hrun].
  intros m. cbn [handle_request Z.eqb negb]. head. unfold handle_put_req. rewrite !bind_assoc.
  f_equal. apply functional_extensionality. by intros [fs ret].
Qed.

(** C30: [get] copies a file or a directory tree from the server, under these
    conditions.  The serialiser leaves its argument alone, as the one of the XDR
    build does; every receive waits for its packet, while the socket of a
    session is non-blocking; the path at the server is absolute, fits and is
    there; every file has a name that fits, less than 2^31 bytes and can be
    installed; for a directory the target is a directory, and the listing begins
    with a directory.  Then the command ends without error, whatever the
    schedule, with the files installed on the client's side; the server's file
    system is as it was, and the session is ready for the next request. *)
Theorem get_command_installs T TP n c s buf path target fs' items
    (Hbuf : types buf "get" [path; target])
    (Habs : is_absolute_path path = true) (Hlen : (length path < FilePut.FILE_NAME_MAX_LEN)%nat)
    (Hthere : file_existed (disk s) path = true)
    (Hitems : get_items (disk s) (h_readdir h) sfuel (cl_disk c) path target = Some items)
    (Hok : Forall (get_item_ok (disk s) fuel) items)
    (Hcount : Z.of_nat (length items) < 2 ^ 31) (Hn : (length items <= files)%nat)
    (Hinstall : install_get_all (cl_disk c) items = Some fs')
    (Hroot : is_file (disk s) path = false ->
       is_dir (cl_disk c) target = true /\ exists x l, items = x :: l /\ gi_data x = None) :
  exists ret, 0 <= ret /\
    every_run_ends (Network (execute TP c buf) (session T get_copying (S (S n)) s) [] [])
      (Network (Ret (with_cl_disk fs' c, ret, [])) (session T get_copying (S n) s) [] []).
Proof.
  set (resp := GetResp 0 0 0 0 (Entry 0 0 0 0 (replicate CONTENT_BLOCK_SIZE 0)) 0).
  destruct (get_run (disk s) (h_dir_size h) (h_file_mode h) (h_readdir h) fuel sfuel files path target resp
    (cl_disk c) fs' items) as (ret & Hret & Hrun); [done..|].
  exists ret. split; [done|]. apply run_ends; [|apply final_right_waits].
  rewrite (execute_types _ _ _ _ _ _ _ _ Hbuf eq_refl eq_refl).
  unfold sftt_client_get_handler. rewrite Habs, (session_waits T get_copying (S n)). cbn [negb]. head.
  to_right. cbn [handle_request Z.eqb negb]. unfold handle_get_req.
  rewrite take_take, Nat.min_id, (take_ge path) by lia. cbv zeta.
  rewrite (proj2 (Nat.leb_gt _ _)), Habs, Hthere by done. cbn [negb]. fold resp. rewrite !bind_assoc.
  eapply rtc_trans; [eapply (embed_run CommonResp get_status GetResponse get_response) with (a := (fs', ret))|].
  - done.
  - done.
  - apply flip_run in Hrun. exact Hrun.
  - head. reflexivity.
Qed.

(** *** The server's socket does not block

    [handle_client_session] makes the socket of the session non-blocking, and
    [handle_put_req] receives the rest of the transfer from it as it is. *)

Lemma create_for_put_new fs p fs' : file_existed fs p = false -> create_for_put fs p = (fs', 0) ->
  node_at fs' p = Some (Reg []).
Proof.
  unfold create_for_put, create_new_file_with_parent, create_new_file. intros ->.
  destruct (if file_existed fs (dirname p) then _ else _) as [fs1 r1]. destruct (r1 =? -1); [done|].
  destruct (try_make_dir fs1 (dirname p)) as [fs2 r2]. destruct (negb (r2 =? 0)); [done|].
  destruct (fopen_w fs2 p) as [fs3|] eqn:E; [|done]. intros [= <- _]. by eapply fopen_w_empty.
Qed.

(** The sender, when everything is accepted. *)
Lemma send_file_accepted src dir_size file_mode file target req data md5 :
  node_at src file = Some (Reg data) -> md5_of data = Some md5 ->
  exists k1 k2 last, let q := name_req src dir_size file_mode file target req in
    send_file_by_put_req (T := copying) src dir_size file_mode file target req = Send q (Recv k1)
    /\ k1 (Got RESP_OK) = Send (md5_req md5 q) (Recv k2) /\ k2 (Got RESP_OK) = Ret (last, 0).
Proof.
  intros Hn Hm. unfold send_file_by_put_req, send_file_name_by_put_req, send_trans_entry_by_put_req.
  head. fold (name_req src dir_size file_mode file target req). unfold left_put, copying.
  assert (Hd : is_dir src file = false) by (unfold is_dir; by rewrite Hn).
  generalize (name_req src dir_size file_mode file target req) as q. intros q.
  eexists _, _, _. cbv zeta. split; [reflexivity|]. split.
  - cbv beta iota. change (negb (RESP_OK =? RESP_OK)) with false. cbv iota. rewrite Hd.
    unfold send_file_md5_by_put_req, send_trans_entry_by_put_req, fopen_r. rewrite Hd, Hn. cbn [lift mbind prog_bind]. rewrite Hm.
    head. change (0 =? -1) with false. cbv iota. reflexivity.
  - cbv beta iota. change (RESP_OK =? RESP_OK) with true. reflexivity.
Qed.

(** What the session does with a name for which no digest has arrived yet. *)
Lemma put_polled {RA} T TG n s req fs1 (k : received packet -> command RA) :
  (0 < sfiles)%nat -> e_type (entry req) = FILE_TYPE_FILE -> name_ok (c_str (content (entry req))) ->
  create_for_put (disk s) (c_str (content (entry req))) = (fs1, 0) ->
  rtc poll_step (Network (Send (PutRequest 0 no_user req) (Recv k)) (session T TG (S n) s) [] [])
    (Network (k (Got (PutResp RESP_OK))) (session T TG n (with_disk fs1 s)) [] []).
Proof.
  intros Hf Ht [Hn1 Hn2] Hc. assert (exists sf, sfiles = S sf) as [sf Hsf] by (destruct sfiles; [lia|by eexists]).
  rewrite session_waits.
  eapply rtc_l; [apply poll_moves, left_sends|]. cbn [app].
  eapply rtc_l; [apply poll_moves, right_receives|]. cbn [handle_request Z.eqb negb]. head.
  unfold handle_put_req. rewrite Hsf. cbn [recv_files_from_put_req]. unfold recv_file_from_put_req.
  rewrite Ht, Hc, (proj2 (Nat.leb_gt _ _)) by (unfold FilePut.FILE_NAME_MAX_LEN; lia).
  change (FILE_TYPE_FILE =? FILE_TYPE_DIR) with false. change (0 =? -1) with false. cbv iota. head. cbn [embed]. head.
  eapply rtc_l; [apply poll_moves, right_sends|]. cbn [app].
  eapply rtc_l; [apply right_polls|]. cbn [embed]. head.
  eapply rtc_l; [apply poll_moves, left_receives|]. head. reflexivity.
Qed.

(** C38: With the socket as the session leaves it, a put of a new file can report
    success although no byte of the file was sent: when the server looks for
    the digest before it has arrived, it drops the transfer, and then takes the
    digest for the name of another file to put and accepts it, which the client
    takes for the answer that the server has the file already.  The server is
    left with an empty file and with one named after the digest. *)
Theorem put_race_loses_file T TG n c s buf file target data md5 fs1 fs2
    (Hbuf : types buf "put" [file; target])
    (Hfile : node_at (cl_disk c) (take (FilePut.FILE_NAME_MAX_LEN - 1) file) = Some (Reg data))
    (Hname : name_ok (put_target c target)) (Hmd5 : md5_of data = Some md5) (Hfiles : (0 < sfiles)%nat)
    (Hnew : file_existed (disk s) (put_target c target) = false)
    (Hcreate : create_for_put (disk s) (put_target c target) = (fs1, 0))
    (Hcreate2 : create_for_put fs1 md5 = (fs2, 0)) (Hother : canon (put_target c target) <> canon md5) :
  fopen_r fs2 (put_target c target) = Some [] /\
  rtc poll_step (Network (execute copying c buf) (session T TG (S (S n)) s) [] [])
    (Network (Ret (c, 0, [])) (session T TG n (with_disk fs2 s)) [] []).
Proof.
  destruct (md5_of_spec data) as (md5' & Hm & Hlen & Hnz). rewrite Hmd5 in Hm. injection Hm as <-.
  split.
  { pose proof (create_for_put_keeps fs1 md5) as Hk. rewrite Hcreate2 in Hk. cbn [fst] in Hk.
    unfold fopen_r. by rewrite (Hk _ _ Hother (create_for_put_new _ _ _ Hnew Hcreate)). }
  set (req := PutReq 0 0 (Entry 0 0 0 0 (replicate CONTENT_BLOCK_SIZE 0)) 0 0).
  set (path := take (FilePut.FILE_NAME_MAX_LEN - 1) file) in *.
  destruct (send_file_accepted (cl_disk c) (h_dir_size my) (h_file_mode my) path (put_target c target)
    (with_files 1 0 req) data md5 Hfile Hmd5) as (k1 & k2 & last & E1 & E2 & E3). cbv zeta in E1, E2.
  assert (Hf : is_file (cl_disk c) path = true) by (unfold is_file; by rewrite Hfile).
  assert (Hd : is_dir (cl_disk c) path = false) by (unfold is_dir; by rewrite Hfile).
  rewrite (execute_types _ _ _ _ _ _ _ _ Hbuf eq_refl eq_refl).
  unfold sftt_client_put_handler. fold (put_target c target). fold path req. rewrite Hf. cbn [negb andb].
  unfold send_files_by_put_req. rewrite Hf, E1. head. cbn [embed]. head.
  pose proof (name_req_path (cl_disk c) (h_dir_size my) (h_file_mode my) path (put_target c target)
    (with_files 1 0 req) Hname) as Hrp.
  eapply rtc_trans; [apply (put_polled T TG (S n) s _ fs1)|]; [done| |by rewrite Hrp|by rewrite Hrp|].
  { unfold name_req. by rewrite Hd. }
  cbn [put_status]. rewrite E2. head. cbn [embed]. head.
  eapply rtc_trans; [apply (put_polled T TG n (with_disk fs1 s) _ fs2)|]; [done| | | |].
  { unfold name_req. by rewrite Hd. }
  { cbn [md5_req with_reply with_entry entry with_content content]. rewrite c_str_strcpy by done. split; [done|lia]. }
  { cbn [md5_req with_reply with_entry entry with_content content]. by rewrite c_str_strcpy. }
  cbn [put_status]. rewrite E3. head. cbn [embed]. head. reflexivity.
Qed.
(** *** The working directory *)

(** The steps of [pwd]. *)
Lemma pwd_runs T TP TG n c s buf argv (Hpwd : types buf "pwd" argv)
    (Hid : take (SESSION_ID_LEN - 1) (cl_session_id c) = s_session_id (session_at s me))
    (Hlen : (length (s_pwd (session_at s me)) <= DIR_PATH_MAX_LEN)%nat) :
  rtc step (Network (execute TP c buf) (session T TG (S n) s) [] [])
    (Network (Ret (c, 0, [ShowPwd (s_pwd (session_at s me))])) (session T TG n s) [] []).
Proof.
  rewrite (execute_types _ _ _ _ _ _ _ _ Hpwd eq_refl eq_refl). unfold sftt_client_pwd_handler. rewrite (session_waits T TG n). head. to_right.
  cbn [handle_request]. unfold handle_pwd_req. rewrite Hid, bool_decide_eq_true_2 by done. cbn [negb]. head. to_left. rewrite take_ge by lia. reflexivity.
Qed.

(** [cd] moves the client and its session to the same directory, the one
    the system reports, and [pwd] shows it: two commands one after the other,
    under every schedule. *)
Theorem cd_then_pwd T TP TG n c s buf1 buf2 path argv cwd
    (Hcd : types buf1 "cd" [path]) (Hpwd : types buf2 "pwd" argv)
    (Hpath : path <> []) (Hme : (me < length (table s))%nat)
    (Hid : take (SESSION_ID_LEN - 1) (cl_session_id c) = s_session_id (session_at s me))
    (Hchdir : h_chdir h (disk s) (simplify_path (print_path (2 * DIR_PATH_MAX_LEN) (s_pwd (session_at s me))
                (take DIR_PATH_MAX_LEN path))) = Some cwd)
    (Hlen : (length cwd < DIR_PATH_MAX_LEN - 1)%nat) :
  let s' := update_session (with_pwd cwd) me s in
  s_pwd (session_at s' me) = cwd /\
  every_run_ends
    (Network ('(c, _, _) ← execute TP c buf1; execute TP c buf2) (session T TG (S (S (S n))) s) [] [])
    (Network (Ret (with_cl_pwd cwd c, 0, [ShowPwd cwd])) (session T TG (S n) s') [] []).
Proof.
  intros s'. destruct (lookup_lt_is_Some_2 _ _ Hme) as [x Hx].
  assert (Hs' : session_at s' me = with_pwd cwd (session_at s me)).
  { unfold session_at, s', update_session, with_table. cbn [table]. by rewrite list_lookup_alter_eq, Hx. }
  split; [by rewrite Hs'|]. apply run_ends; [|apply final_right_waits].
  rewrite (execute_types _ _ _ _ _ _ _ _ Hcd eq_refl eq_refl).
  unfold sftt_client_cd_handler. rewrite bool_decide_eq_false_2, (session_waits T TG (S (S n))) by done. head.
  to_right. cbn [handle_request]. unfold handle_cd_req. rewrite Hchdir, (proj2 (Nat.leb_gt _ _)) by done. head.
  to_left. change (negb (RESP_OK =? RESP_OK)) with false. cbv iota. head. fold s'.
  rewrite take_ge by lia. assert (Hp : s_pwd (session_at s' me) = cwd) by by rewrite Hs'.
  pose proof (pwd_runs T TP TG (S n) (with_cl_pwd cwd c) s' buf2 argv Hpwd ltac:(by rewrite Hs') ltac:(rewrite Hp; lia)) as Hrun.
  rewrite Hp in Hrun. exact Hrun.
Qed.

(** *** Commands that cannot succeed *)

Lemma plain_word_spells w : Forall plain w -> spells w w.
Proof.
  induction w as [|c w IH] using rev_ind; [constructor|]. intros [Hw Hc]%Forall_app.
  apply Forall_cons in Hc as [Hc _]. apply spells_plain; [by apply IH|done].
Qed.

(** [do_trans] with a local source changes the directory and then gives up
    with the usage of [put], whatever the source: the command line it builds
    has one argument and [put] takes two or three. *)
Theorem trans_put_always_fails TP c trans
    (Hput : type trans = TRANS_PUT) (Hplain : Forall plain (CmdLine.src trans))
    (Hsome : CmdLine.src trans <> []) (Hlen : (length (CmdLine.src trans) < FILE_NAME_MAX_LEN)%nat) :
  do_trans (T := TP) my fuel files c trans =
    ('(c, ret, out) ← execute TP c (command_line [ascii_bytes "cd "; dest trans]);
     if negb (ret =? 0) then mret (c, ret, out) else mret (c, -1, [Usage])).
Proof.
  unfold do_trans. rewrite Hput. f_equal. apply functional_extensionality. intros [[c' ret] out].
  destruct (negb (ret =? 0)); [done|].
  rewrite (execute_types my fuel files c' _ "put" [CmdLine.src trans] (mret (c', -1, [Usage]))); [done| |done|done].
  assert (HF : FILE_NAME_MAX_LEN = 256%nat) by done.
  unfold types, command_line. cbn [foldr]. rewrite app_nil_r, take_ge
    by (rewrite length_app; change (length (ascii_bytes "put ")) with 4%nat; lia).
  change (parse_command (ascii_bytes "put " ++ CmdLine.src trans)) with
    (args ← parse_args (32 :: CmdLine.src trans); Some (args ← args; Some (UserCmd (Some (ascii_bytes "put")) args))).
  rewrite (parse_args_complete (32 :: CmdLine.src trans) [CmdLine.src trans]); [done|].
  exists [32], [], (CmdLine.src trans), (word (CmdLine.src trans)). repeat split.
  - unfold word. by destruct (CmdLine.src trans).
  - apply (words_word [] [] [] [] 32); [constructor..| |done]. unfold CMD_ARG_MAX_LEN. simpl. lia.
  - apply last_closed; [by apply plain_word_spells|]. unfold CMD_ARG_MAX_LEN. lia.
Qed.

(** A line of spaces has no name, and the comparison reads a null pointer. *)
Lemma blank_line_reads_null TP c : execute TP c (ascii_bytes "  ") = Crash.
Proof. reflexivity. Qed.
End Commands.

(** ** Concrete runs *)

Definition listing_host : host := demo_host [[46]; [46; 46]; [102]].
Definition client_with (d : fsys) : client := with_cl_disk d demo_client.
Definition server_with (d : fsys) : server := with_disk d demo_server.

Lemma put_command_installs_witness : exists ret, 0 <= ret /\
  every_run_ends
    (Network (execute_cmd (T := copying) listing_host 3 1 (client_with demo_src) (ascii_bytes "put /d /t"))
       (handle_client_session (T := ll_raw) (TG := get_copying) listing_host (fun _ => []) 2 2 10 0 [] (server_with demo_dst)) [] [])
    (Network (Ret (client_with demo_src, ret, []))
       (handle_client_session (T := ll_raw) (TG := get_copying) listing_host (fun _ => []) 1 2 10 0 [] (server_with demo_result)) [] []).
Proof.
  apply (put_command_installs listing_host listing_host (fun _ => []) 2 10 0 [] 3 1 ll_raw get_copying 0 (client_with demo_src)
    (server_with demo_dst) (ascii_bytes "put /d /t") [47; 100] [47; 116] demo_result demo_items).
  - vm_compute. reflexivity.
  - vm_compute. reflexivity.
  - right. vm_compute. reflexivity.
  - exact demo_items_ok.
  - simpl. lia.
  - simpl. lia.
  - vm_compute. reflexivity.
Defined.

Lemma get_command_installs_witness : exists ret, 0 <= ret /\
  every_run_ends
    (Network (execute_cmd (T := raw) listing_host 10 2 (client_with demo_dst) (ascii_bytes "get /d /t"))
       (handle_client_session (T := ll_raw) (TG := get_copying) listing_host (fun _ => []) 2 1 3 0 [] (server_with demo_src)) [] [])
    (Network (Ret (client_with demo_get_result, ret, []))
       (handle_client_session (T := ll_raw) (TG := get_copying) listing_host (fun _ => []) 1 1 3 0 [] (server_with demo_src)) [] []).
Proof.
  apply (get_command_installs listing_host listing_host (fun _ => []) 1 3 0 [] 10 2 ll_raw raw 0 (client_with demo_dst)
    (server_with demo_src) (ascii_bytes "get /d /t") [47; 100] [47; 116] demo_get_result demo_get_items).
  - vm_compute. reflexivity.
  - vm_compute. reflexivity.
  - vm_compute. lia.
  - vm_compute. reflexivity.
  - vm_compute. reflexivity.
  - exact demo_get_items_ok.
  - simpl. lia.
  - simpl. lia.
  - vm_compute. reflexivity.
  - intros _. split; [vm_compute; reflexivity|]. eexists _, _. by split.
Defined.

Definition hi_md5 : list Z := default [] (md5_of [104; 105]).
Definition raced : fsys := (create_for_put (create_for_put demo_dst one_target).1 hi_md5).1.

Lemma put_race_loses_file_witness :
  fopen_r raced one_target = Some [] /\
  rtc poll_step
    (Network (execute_cmd (T := copying) listing_host 3 1 (client_with (one_file [104; 105])) (ascii_bytes "put /f /t/f"))
       (handle_client_session (T := ll_raw) (TG := get_copying) listing_host (fun _ => []) 2 1 10 0 [] (server_with demo_dst)) [] [])
    (Network (Ret (client_with (one_file [104; 105]), 0, []))
       (handle_client_session (T := ll_raw) (TG := get_copying) listing_host (fun _ => []) 0 1 10 0 [] (server_with raced)) [] []).
Proof.
  apply (put_race_loses_file listing_host listing_host (fun _ => []) 1 10 0 [] 3 1 ll_raw get_copying 0
    (client_with (one_file [104; 105])) (server_with demo_dst) (ascii_bytes "put /f /t/f") [47; 102] one_target [104; 105]
    hi_md5 (create_for_put demo_dst one_target).1 raced).
  - vm_compute. reflexivity.
  - vm_compute. reflexivity.
  - split; [apply (bool_decide_unpack _); vm_compute; reflexivity|simpl; lia].
  - vm_compute. reflexivity.
  - lia.
  - vm_compute. reflexivity.
  - vm_compute. reflexivity.
  - vm_compute. reflexivity.
  - vm_compute. done.
Defined.

Lemma cd_then_pwd_witness :
  every_run_ends
    (Network ('(c, _, _) ← execute_cmd (T := copying) listing_host 3 1 demo_client (ascii_bytes "cd d");
              execute_cmd (T := copying) listing_host 3 1 c (ascii_bytes "pwd"))
       (handle_client_session (T := ll_raw) (TG := get_copying) listing_host (fun _ => []) 3 1 10 0 [] demo_server) [] [])
    (Network (Ret (with_cl_pwd (ascii_bytes "/home/d") demo_client, 0, [ShowPwd (ascii_bytes "/home/d")]))
       (handle_client_session (T := ll_raw) (TG := get_copying) listing_host (fun _ => []) 1 1 10 0 []
          (update_session (with_pwd (ascii_bytes "/home/d")) 0 demo_server)) [] []).
Proof.
  apply (cd_then_pwd listing_host listing_host (fun _ => []) 1 10 0 [] 3 1 ll_raw copying get_copying 0 demo_client demo_server
    (ascii_bytes "cd d") (ascii_bytes "pwd") (ascii_bytes "d") [] (ascii_bytes "/home/d")).
  - vm_compute. reflexivity.
  - vm_compute. reflexivity.
  - done.
  - vm_compute. lia.
  - vm_compute. reflexivity.
  - vm_compute. reflexivity.
  - vm_compute. lia.
Defined.

Lemma trans_put_always_fails_witness :
  do_trans (T := copying) listing_host 3 1 demo_client (TransInfo TRANS_PUT [102] [47; 116]) =
    ('(c, ret, out) ← execute_cmd (T := copying) listing_host 3 1 demo_client (ascii_bytes "cd /t");
     if negb (ret =? 0) then mret (c, ret, out) else mret (c, -1, [Usage])).
Proof.
  apply (trans_put_always_fails listing_host 3 1 copying demo_client (TransInfo TRANS_PUT [102] [47; 116])).
  - reflexivity.
  - repeat constructor.
  - done.
  - vm_compute. lia.
Defined.
