(* ===== verification/StartUp.v ===== *)
(** * The client from its start to its first command (src/client.c, client/main.c)

    [init_sftt_client] reads the version and the configuration, makes the
    thread pool, asks the main channel for the second port, logs in there and
    fetches the list of users.  The theorems run it, and a command behind it,
    against the loop that serves a new connection. *)

From stdpp Require Import relations.
From S2P Require Import Prelude CStr Version Process FileSystem FilePut FileGet CmdLine Config Messages Sessions Server Client Connection Login ClientMain CommandList CommandFile.

(** What is done before a connection is opened; [threads_ok] is whether there is
    a thread pool. *)
Definition init_locally (threads_ok : bool) (fs : fsys) (conf : sftt_client_config) : Z :=
  match get_version_info VERSION with
  | None => -1
  | Some _ => if (get_sftt_client_config fs conf).2 =? -1 then -1 else if threads_ok then 0 else -1
  end.

Definition create_state_file (fs : fsys) (state_file : option (list Z)) : fsys * Z :=
  match state_file with None => (fs, 0) | Some f => create_new_file fs f end.

Section Start.
Context {TP : Transport}.
Context (my : host) (fuel files : nat).

(** [conn] is the result of [init_sftt_client_ctrl_conn]; the rest runs over its
    socket.  Without the manager of task connections the client goes on. *)
Definition init_sftt_client (threads_ok : bool) (fs : fsys) (conf : sftt_client_config) (conn : option own_conn)
    (c : client) (user passwd : list Z) (state_file : option (list Z)) : command (client * Z) :=
  if init_locally threads_ok fs conf =? -1 then mret (c, -1) else
  match conn with
  | None => mret (c, -1)
  | Some _ =>
      '(c, ret) ← validate_user_base_info my c user passwd;
      if ret =? -1 then mret (c, -1) else
      '(c, ret) ← get_friend_list fuel (with_friends [] c);
      if ret =? -1 then mret (c, -1) else
      let '(fs, ret) := create_state_file (cl_disk c) state_file in
      mret (with_cl_disk fs c, if ret =? -1 then -1 else 0)
  end.

(** The program in a terminal: the lines that are typed, and what is printed. *)
Definition sftt (threads_ok : bool) (fs : fsys) (conf : sftt_client_config) (conn : option own_conn)
    (c : client) (user passwd : list Z) (state_file : option (list Z)) (input : list (list Z)) : command result :=
  '(c, ret) ← init_sftt_client threads_ok fs conf conn c user passwd state_file;
  if ret =? -1 then mret (c, -1, [Message]) else
  '(c, _, out) ← reader_loop my fuel files c input [] []; mret (c, 0, out).
End Start.

(** ** What does not depend on the server *)

Lemma init_locally_ok fs conf : (get_sftt_client_config fs conf).2 <> -1 -> init_locally true fs conf = 0.
Proof. intros Hc. unfold init_locally. by rewrite (proj2 (Z.eqb_neq _ _) Hc). Qed.

(** Without a configuration, threads or a connection nothing is sent. *)
Theorem start_fails_locally my fuel threads_ok fs conf conn c user passwd state_file :
  (get_sftt_client_config fs conf).2 = -1 \/ threads_ok = false \/ conn = None ->
  init_sftt_client my fuel threads_ok fs conf conn c user passwd state_file = Ret (c, -1).
Proof.
  intros H. unfold init_sftt_client. destruct (init_locally threads_ok fs conf =? -1) eqn:E; [done|].
  destruct H as [H|[-> | ->]]; [| |done]; unfold init_locally in E; change (get_version_info VERSION) with (Some (VersionInfo 0 1 3)) in E.
  - by rewrite H in E.
  - cbv iota in E. by destruct ((get_sftt_client_config fs conf).2 =? -1).
Qed.

Section Server.
Context {T : Sent} {TG : GetTransport} {TP : Transport}.
Context (h my : host) (select_user : list Z -> list row) (sfiles sfuel fuel files : nat) (new_id : list Z).

#[local] Abbreviation serve := (serve_client (T := T) (TG := TG) h select_user sfiles sfuel new_id).
#[local] Abbreviation session me n s := (handle_client_session (T := T) (TG := TG) h select_user n sfiles sfuel me new_id s).

(** The client's state after its start. *)
Definition started (c : client) (base : user_base_info) (cid : list Z) (users : list logged_in_user) (state_file : option (list Z)) : client :=
  let c := with_friends users (logged_in new_id c base cid) in with_cl_disk (create_state_file (cl_disk c) state_file).1 c.

Context (fs : fsys) (conf : sftt_client_config) (conn : own_conn) (c : client) (user passwd md5 cid : list Z) (base : user_base_info)
  (state_file : option (list Z)) (s : server) (fd : Z) (addr : list Z) (port : Z).

(** A login that can succeed. *)
Record can_log_in : Prop := CanLogIn {
  can_conf : (get_sftt_client_config fs conf).2 <> -1;
  can_md5 : passwd_digest passwd = Some md5;
  can_version : compatible (h_version my) (h_version h);
  can_base : find_user_base_by_name (select_user (take (USER_NAME_MAX_LEN - 1) user)) = Some (Some base);
  can_auth : find_user_auth_by_name (select_user (take (USER_NAME_MAX_LEN - 1) user)) = Some (Some md5);
  can_home : file_existed (disk s) (home_dir base) = true;
  can_session : is_Some (get_new_session (table s));
  can_id : (length cid <= CONNECT_ID_LEN)%nat;
  can_state : (create_state_file (cl_disk c) state_file).2 <> -1;
  can_users : (length (table s) <= fuel)%nat;
}.

Lemma start_runs n : can_log_in -> exists j, (j < length (table s))%nat /\ client_connected (session_at s j) = false /\
  let s' := with_table (<[j:=open_session new_id fd addr cid port base]> (table s)) s in
  let users := get_logged_in_users (table s') in
  session_user (open_session new_id fd addr cid port base) ∈ users
  /\ rtc step (Network (init_sftt_client my fuel true fs conf (Some conn) c user passwd state_file) (serve (S (S n)) fd addr cid port s) [] [])
       (Network (Ret (started c base cid users state_file, 0)) (session j n s') [] []).
Proof.
  intros [Hconf Hmd5 Hver Hbase Hauth Hhome Hfree Hcid Hstate Hfuel].
  destruct (login_runs (T := T) (TG := TG) h my select_user sfiles sfuel new_id c user passwd md5 base s fd addr cid port (S n)
    Hmd5 Hver Hbase Hauth Hhome Hfree Hcid) as (j & Hj & Hc & Hrun).
  exists j. split; [done|]. split; [done|]. cbv zeta. set (s' := with_table _ s) in *. set (users := get_logged_in_users (table s')).
  assert (Hin : session_user (open_session new_id fd addr cid port base) ∈ users).
  { unfold users, get_logged_in_users. apply list_elem_of_fmap_2, list_elem_of_filter. split; [done|].
    apply (list_elem_of_lookup_2 _ j). by apply list_lookup_insert_eq. }
  split; [exact Hin|]. assert (Hlen : (length users <= fuel)%nat).
  { unfold users, get_logged_in_users. rewrite length_fmap. etransitivity; [apply length_filter|]. cbn [s' with_table table]. by rewrite length_insert. }
  unfold init_sftt_client. rewrite init_locally_ok by done. change (0 =? -1) with false. cbv iota.
  etransitivity; [apply (bind_left_run _ (Network _ _ _ _) _ Hrun)|]. cbn [bind_left mbind prog_bind]. change (1 =? -1) with false. cbv iota.
  etransitivity; [apply (bind_left_run _ (Network _ _ _ _) _ (friend_list_runs (TG := TG) h select_user sfiles sfuel j new_id T n _ s' fuel
    ltac:(fold users; intros E; rewrite E in Hin; by apply elem_of_nil in Hin) Hlen))|].
  cbn [bind_left mbind prog_bind]. change (0 =? -1) with false. cbv iota. unfold started. fold users. cbn [cl_disk with_friends logged_in].
  destruct (create_state_file (cl_disk c) state_file) as [fs' ret]. cbn [fst snd] in *. rewrite (proj2 (Z.eqb_neq _ _) Hstate). reflexivity.
Qed.

(** C22: From the command line to the first answer.  Whatever the schedule, a
    client that is started with the right password is logged in, its state file
    is made, it knows all users that are logged in, itself among them, and when
    [pwd] is typed it shows the home directory that the data base has for it;
    then the session waits for more. *)
Theorem started_client_answers n buf argv (Hlog : can_log_in) (Hbuf : types buf "pwd" argv) (Hne : buf <> [] /\ buf <> ascii_bytes "quit") :
  exists j, (j < length (table s))%nat /\ client_connected (session_at s j) = false /\
    let s' := with_table (<[j:=open_session new_id fd addr cid port base]> (table s)) s in
    let users := get_logged_in_users (table s') in
    every_run_ends
      (Network (sftt my fuel files true fs conf (Some conn) c user passwd state_file [buf; ascii_bytes "quit"]) (serve (S (S (S n))) fd addr cid port s) [] [])
      (Network (Ret (started c base cid users state_file, 0, [ShowPwd (take (DIR_PATH_MAX_LEN - 1) (home_dir base))])) (session j n s') [] [])
    /\ session_user (open_session new_id fd addr cid port base) ∈ users.
Proof.
  destruct (start_runs (S n) Hlog) as (j & Hj & Hc & Hin & Hrun). exists j. split; [done|]. split; [done|]. cbv zeta. set (s' := with_table _ s) in *.
  assert (Hat : session_at s' j = open_session new_id fd addr cid port base) by by apply session_at_insert.
  split; [|exact Hin].
  apply run_ends; [|destruct n; [apply final_done|apply final_right_waits]]. unfold sftt.
  etransitivity; [apply (bind_left_run _ (Network _ _ _ _) _ Hrun)|]. cbn [bind_left mbind prog_bind]. change (0 =? -1) with false. cbv iota.
  cbn [reader_loop]. destruct Hne as [Hne Hq]. destruct buf as [|ch buf']; [done|]. rewrite decide_False by done. rewrite bind_assoc.
  set (c' := started _ _ _ _ _) in *.
  pose proof (pwd_runs h my select_user sfiles sfuel j new_id fuel files T TP TG n c' s' (ch :: buf') argv Hbuf
    ltac:(rewrite Hat; unfold c', started; cbn [s_session_id open_session cl_session_id with_cl_disk with_friends logged_in]; by rewrite take_take, Nat.min_id) ltac:(rewrite Hat; cbn [s_pwd open_session]; rewrite length_take; lia)) as Hpwd.
  etransitivity; [apply (bind_left_run _ (Network _ _ _ _) _ Hpwd)|]. cbn [bind_left mbind prog_bind]. rewrite Hat. reflexivity.
Qed.
End Server.

(** ** A first client of a server *)

Definition start_fs : fsys := Fsys {[ ascii_bytes "./config/sftt_client.conf" := Reg (ascii_bytes "block_size = 1024") ]} ∅.

Definition start_conn : own_conn := OwnConn (Conn 4 4001 CONN_TYPE_CTRL [] 0 0) 4001.

Definition start_base : user_base_info := UserBase 7 (ascii_bytes "ann") (ascii_bytes "/h").

Lemma started_client_answers_witness : exists q c',
  every_run_ends
    (Network (sftt (TP := copying) Connection.demo_host 2 1 true start_fs (ClientConfig 0 []) (Some start_conn) Login.demo_client (ascii_bytes "ann") (ascii_bytes "abc")
        (Some (ascii_bytes "/state")) [ascii_bytes "pwd"; ascii_bytes "quit"])
      (serve_client (T := ll_copying) (TG := get_copying) Connection.demo_host Login.demo_select 1 1 (ascii_bytes "sab1700000000cde0000") 3
        5 (ascii_bytes "10.0.0.2") (ascii_bytes "1700000000000000") 4001 Login.demo_empty) [] [])
    (Network (Ret (c', 0, [ShowPwd (ascii_bytes "/h")])) q [] [])
  /\ map lu_name (friends c') = [ascii_bytes "ann"] /\ cl_disk c' = Fsys {[ ascii_bytes "/state" := Reg [] ]} ∅.
Proof.
  destruct (started_client_answers (T := ll_copying) (TG := get_copying) (TP := copying) Connection.demo_host Connection.demo_host Login.demo_select 1 1 2 1
    (ascii_bytes "sab1700000000cde0000") start_fs (ClientConfig 0 []) start_conn Login.demo_client (ascii_bytes "ann") (ascii_bytes "abc")
    (ascii_bytes "900150983cd24fb0d6963f7d28e17f72") (ascii_bytes "1700000000000000") start_base (Some (ascii_bytes "/state")) Login.demo_empty 5
    (ascii_bytes "10.0.0.2") 4001 0 (ascii_bytes "pwd") []) as (j & Hj & _ & Hrun & _).
  - constructor; try (vm_compute; (reflexivity || discriminate || lia || by eexists)).
  - vm_compute. reflexivity.
  - split; discriminate.
  - eexists _, _. split; [exact Hrun|]. destruct j as [|[|j]]; [split; vm_compute; reflexivity..|exfalso; cbn in Hj; lia].
Defined.
