(* ===== verification/Forward.v ===== *)
(** * A program between two others

    The server forwards requests of one client to another: a relay is a program
    over two connections.  It runs with the programs at both ends under every
    interleaving.  [pump_run]: a relay that passes requests of the client on,
    and a reply back where a request asks for one, does to both ends what a
    direct connection does, when the client keeps to the protocol. *)

From stdpp Require Import relations.
From S2P Require Import Prelude CStr Process FileSystem FilePut FileGet Messages Sessions Server Client.

Inductive side := AtClient | AtPeer.

Inductive relay (M R : Type) :=
  | RRet (r : R)
  | RSend (s : side) (o : M) (k : relay M R)
  | RRecv (s : side) (k : received M -> relay M R)
  | RCrash.
Arguments RRet {M R} r.
Arguments RSend {M R} s o k.
Arguments RRecv {M R} s k.
Arguments RCrash {M R}.

#[export] Instance relay_ret M : MRet (relay M) := fun R r => RRet r.

#[export] Instance relay_bind M : MBind (relay M) := fun R S f =>
  fix go p :=
    match p with
    | RRet r => f r
    | RSend s o k => RSend s o (go k)
    | RRecv s k => RRecv s (fun r => go (k r))
    | RCrash => RCrash
    end.

Definition send_at {M} (s : side) (o : M) : relay M () := RSend s o (RRet tt).
Definition recv_at {M} (s : side) : relay M (received M) := RRecv s RRet.

(** ** Running three programs *)

Section Trio.
Context {M RA RB RC : Type}.

Record trio := Trio {
  client_end : prog M M RA;
  relay_end : relay M RB;
  peer_end : prog M M RC;
  from_client : list M;
  for_client : list M;
  from_peer : list M;
  for_peer : list M;
}.

Inductive trio_step : trio -> trio -> Prop :=
  | client_sends o p r q c2s s2c p2s s2p :
      trio_step (Trio (Send o p) r q c2s s2c p2s s2p) (Trio p r q (c2s ++ [o]) s2c p2s s2p)
  | client_receives m k r q c2s s2c p2s s2p :
      trio_step (Trio (Recv k) r q c2s (m :: s2c) p2s s2p) (Trio (k (Got m)) r q c2s s2c p2s s2p)
  | peer_sends o p r q c2s s2c p2s s2p :
      trio_step (Trio p r (Send o q) c2s s2c p2s s2p) (Trio p r q c2s s2c (p2s ++ [o]) s2p)
  | peer_receives m k r p c2s s2c p2s s2p :
      trio_step (Trio p r (Recv k) c2s s2c p2s (m :: s2p)) (Trio p r (k (Got m)) c2s s2c p2s s2p)
  | relay_sends_client o r p q c2s s2c p2s s2p :
      trio_step (Trio p (RSend AtClient o r) q c2s s2c p2s s2p) (Trio p r q c2s (s2c ++ [o]) p2s s2p)
  | relay_sends_peer o r p q c2s s2c p2s s2p :
      trio_step (Trio p (RSend AtPeer o r) q c2s s2c p2s s2p) (Trio p r q c2s s2c p2s (s2p ++ [o]))
  | relay_hears_client m k p q c2s s2c p2s s2p :
      trio_step (Trio p (RRecv AtClient k) q (m :: c2s) s2c p2s s2p) (Trio p (k (Got m)) q c2s s2c p2s s2p)
  | relay_hears_peer m k p q c2s s2c p2s s2p :
      trio_step (Trio p (RRecv AtPeer k) q c2s s2c (m :: p2s) s2p) (Trio p (k (Got m)) q c2s s2c p2s s2p).

Lemma trio_diamond c c1 c2 :
  trio_step c c1 -> trio_step c c2 -> c1 = c2 \/ exists c3, trio_step c1 c3 /\ trio_step c2 c3.
Proof. intros H1 H2. destruct H1; inversion H2; subst; eauto using trio_step. Qed.

Definition every_trio_run_ends : trio -> trio -> Prop := always_ends trio_step.

Lemma trio_run_ends c f : rtc trio_step c f -> nf trio_step f -> every_trio_run_ends c f.
Proof. apply diamond_ends, trio_diamond. Qed.

Lemma trio_final_waits a sd k k' : nf trio_step (Trio (Ret a) (RRecv sd k) (Recv k') [] [] [] []).
Proof. intros [c Hc]. inversion Hc. Qed.

Lemma trio_final_all_wait k0 sd k k' : nf trio_step (Trio (Recv k0) (RRecv sd k) (Recv k') [] [] [] []).
Proof. intros [c Hc]. inversion Hc. Qed.
End Trio.
Arguments trio : clear implicits.

(** The two ends can be exchanged. *)
Definition other_side (s : side) : side := match s with AtClient => AtPeer | AtPeer => AtClient end.

Fixpoint flip_relay {M R} (r : relay M R) : relay M R :=
  match r with
  | RRet x => RRet x
  | RSend s o k => RSend (other_side s) o (flip_relay k)
  | RRecv s k => RRecv (other_side s) (fun m => flip_relay (k m))
  | RCrash => RCrash
  end.

Definition flip_trio {M RA RB RC} (c : trio M RA RB RC) : trio M RC RB RA :=
  let 'Trio p r q c2s s2c p2s s2p := c in Trio q (flip_relay r) p p2s s2p c2s s2c.

Lemma flip_trio_run {M RA RB RC} (c c' : trio M RA RB RC) :
  rtc trio_step c c' -> rtc trio_step (flip_trio c) (flip_trio c').
Proof.
  induction 1 as [c|c1 c2 c3 H12 _ IH]; [constructor|]. eapply rtc_l; [|exact IH].
  destruct H12; cbn [flip_trio flip_relay other_side]; constructor.
Qed.

(** ** Requests and replies *)

(** What the one who forwards knows of the exchange: it waits for a request, or
    for the reply to one which may be the last, or the last request is done. *)
Inductive mode := Listening | Waiting (last : bool) | Finished.

Section Protocol.
Context {O I : Type} (wants stops : O -> bool) (fine : O -> Prop) (reply : I -> Prop).

Definition after (stop : bool) : mode := if stop then Finished else Listening.
Definition next_mode (o : O) : mode := if wants o then Waiting (stops o) else after (stops o).

(** A program that receives exactly the replies it asked for, sends nothing
    after its last request, and ends as [post] says. *)
Fixpoint conforms {R} (p : prog O I R) (m : mode) (post : mode -> R -> Prop) : Prop :=
  match p with
  | Ret r => post m r
  | Send o k => m = Listening /\ fine o /\ conforms k (next_mode o) post
  | Recv k => exists last, m = Waiting last /\ forall i, reply i -> conforms (k (Got i)) (after last) post
  | Crash => True
  end.

Lemma conforms_weaken {R} (p : prog O I R) m (P Q : mode -> R -> Prop) :
  (forall m r, P m r -> Q m r) -> conforms p m P -> conforms p m Q.
Proof.
  intros H. revert m. induction p as [r|o k IH|k IH|]; intros m; cbn [conforms]; [apply H| | |done].
  - intros (? & ? & ?). auto.
  - intros (l & -> & Hk). exists l. split; [done|]. intros i Hi. auto.
Qed.

Lemma conforms_bind {R S} (p : prog O I R) (f : R -> prog O I S) m (P : mode -> R -> Prop) Q :
  conforms p m P -> (forall m r, P m r -> conforms (f r) m Q) -> conforms (p ≫= f) m Q.
Proof.
  intros Hp Hf. revert m Hp. induction p as [r|o k IH|k IH|]; intros m; cbn [conforms]; [apply Hf| | |done].
  - rewrite bind_send. intros (? & ? & ?). cbn [conforms]. auto.
  - rewrite bind_recv. intros (l & -> & Hk). exists l. split; [done|]. intros i Hi. auto.
Qed.

(** A program that answers requests with replies only. *)
Fixpoint answers {R} (q : prog I O R) : Prop :=
  match q with
  | Ret _ | Crash => True
  | Send i k => reply i /\ answers k
  | Recv k => forall o, fine o -> answers (k (Got o))
  end.

Lemma answers_bind {R S} (q : prog I O R) (f : R -> prog I O S) :
  answers q -> (forall r, answers (f r)) -> answers (q ≫= f).
Proof.
  intros Hq Hf. induction q as [r|o k IH|k IH|]; cbn [answers] in Hq |- *; [apply Hf| | |done].
  - rewrite bind_send. destruct Hq. cbn [answers]. auto.
  - rewrite bind_recv. cbn [answers]. auto.
Qed.
End Protocol.

(** The same inside a larger set of messages. *)
Section Embedded.
Context {O I O' I' : Type} (fO : O -> O') (fI : I' -> option I).
Context (wants stops : O -> bool) (fine : O -> Prop) (wants' stops' : O' -> bool) (fine' : O' -> Prop).
Context (reply' : I' -> Prop).
Context (Hw : forall o, wants' (fO o) = wants o) (Hs : forall o, stops' (fO o) = stops o).
Context (Hf : forall o, fine o -> fine' (fO o)) (Hr : forall i, reply' i -> is_Some (fI i)).

Lemma conforms_embed {R} (p : prog O I R) m P :
  conforms wants stops fine (fun _ => True) p m P -> conforms wants' stops' fine' reply' (embed fO fI p) m P.
Proof.
  revert m. induction p as [r|o k IH|k IH|]; intros m; cbn [conforms embed]; [done| | |done].
  - intros (-> & Hfo & Hk). split; [done|]. split; [auto|]. unfold next_mode. rewrite Hw, Hs. by apply IH.
  - intros (l & -> & Hk). exists l. split; [done|]. intros i [j Hj]%Hr. rewrite Hj. auto.
Qed.

Lemma answers_embed {R} (fR : I -> I') (gO : O' -> option O) (q : prog I O R) :
  (forall i, reply' (fR i)) -> answers fine' reply' (embed fR gO q).
Proof.
  intros H. induction q as [r|o k IH|k IH|]; cbn [answers embed]; [done|auto| |done].
  intros o _. destruct (gO o) as [j|]; [apply IH|done].
Qed.
End Embedded.

(** ** A relay that passes messages on *)

Section Pump.
Context {M RA RB RC : Type} (wants stops : M -> bool) (fine reply : M -> Prop).
Context (listen : nat -> relay M RB) (fin : relay M RB).

Definition respond (stop : bool) (n : nat) : relay M RB := if stop then fin else listen n.
Definition await (stop : bool) (n : nat) (r : received M) : relay M RB :=
  match r with Got a => RSend AtClient a (respond stop n) | _ => RCrash end.

(** After a request it is forwarded, then its reply, if it wants one. *)
Context (Hlisten : forall n, exists k, listen (S n) = RRecv AtClient k /\ forall o, fine o ->
  exists k', k (Got o) = RSend AtPeer o (if wants o then RRecv AtPeer k' else respond (stops o) n)
    /\ forall a, reply a -> k' (Got a) = await (stops o) n (Got a)).

(** The relay in each mode. *)
Definition relays (m : mode) (n : nat) (r : relay M RB) : Prop :=
  match m with
  | Listening => r = listen n
  | Waiting stop => exists k, r = RRecv AtPeer k /\ forall a, reply a -> k (Got a) = await stop n (Got a)
  | Finished => r = fin
  end.

Lemma relays_after stop n : relays (after stop) n (respond stop n).
Proof. by destruct stop. Qed.

Lemma pump_run (post : mode -> RA -> Prop) (a : RA) (qf : prog M M RC) k :
  forall p q ab ba m n r,
  nsteps step k (Network p q ab ba) (Network (Ret a) qf [] []) ->
  conforms wants stops fine reply p m post -> answers fine reply q -> Forall fine ab -> Forall reply ba ->
  (k <= n)%nat -> relays m n r ->
  exists m' n' r', post m' a /\ relays m' n' r' /\ (n' <= n)%nat /\ (n <= n' + k)%nat /\
    rtc trio_step (Trio p r q [] [] ba ab) (Trio (Ret a) r' qf [] [] [] []).
Proof.
  induction k as [|k IH]; intros p q ab ba m n r Hrun Hp Hq Hab Hba Hn Hr.
  { inversion Hrun; subst. exists m, n, r. split_and!; [done..|lia|lia|done]. }
  inversion Hrun as [|? ? c ? Hs Hrun']; subst. destruct n as [|n]; [lia|].
  inversion Hs; subst; cbn [conforms answers] in Hp, Hq.
  - destruct Hp as (-> & Hfo & Hp). cbn [relays] in Hr. subst.
    destruct (Hlisten n) as (f & El & Hl). destruct (Hl o Hfo) as (k' & Ef & Hk').
    destruct (IH k0 q (ab ++ [o]) ba (next_mode wants stops o) n
      (if wants o then RRecv AtPeer k' else respond (stops o) n)) as (m' & n' & r' & H1 & H2 & Hn1 & Hn2 & H3);
      [done..|by apply Forall_app; auto|done|lia| |].
    { unfold next_mode. destruct (wants o); [by exists k'|apply relays_after]. }
    exists m', n', r'. split_and!; [done|done|lia|lia|]. rewrite El.
    eapply rtc_l; [apply client_sends|]. eapply rtc_l; [apply relay_hears_client|]. rewrite Ef.
    eapply rtc_l; [apply relay_sends_peer|]. exact H3.
  - destruct Hq as [Ho Hq].
    destruct (IH p k0 ab (ba ++ [o]) m (S n) r) as (m' & n' & r' & H1 & H2 & Hn1 & Hn2 & H3); [done..| |lia|done|].
    { apply Forall_app. auto. }
    exists m', n', r'. split_and!; [done|done|lia|lia|]. eapply rtc_l; [apply peer_sends|]. exact H3.
  - destruct Hp as (l & -> & Hp). apply Forall_cons in Hba as [Hm0 Hba]. destruct Hr as (f & -> & Hf).
    destruct (IH (k0 (Got m0)) q ab ba0 (after l) (S n) (respond l (S n)))
      as (m' & n' & r' & H1 & H2 & Hn1 & Hn2 & H3); [done|by apply Hp|done..|lia|apply relays_after|].
    exists m', n', r'. split_and!; [done|done|lia|lia|].
    eapply rtc_l; [apply relay_hears_peer|]. rewrite Hf by done. cbn [await].
    eapply rtc_l; [apply relay_sends_client|]. eapply rtc_l; [apply client_receives|]. exact H3.
  - apply Forall_cons in Hab as [Hm0 Hab].
    destruct (IH p (k0 (Got m0)) ab0 ba m (S n) r) as (m' & n' & r' & H1 & H2 & Hn1 & Hn2 & H3);
      [done|done|by apply Hq|done|done|lia|done|].
    exists m', n', r'. split_and!; [done|done|lia|lia|]. eapply rtc_l; [apply peer_receives|]. exact H3.
Qed.
End Pump.

(** * The client as a peer (src/client.c)

    A client serves requests that the server forwards to it over its task
    connections: [do_task_handler] and the handlers it calls. *)

Section Peer.
Context {T : Sent} {TG : GetTransport} (h : host) (files fuel : nat).

Definition handle_peer_write_req (message : list Z) : list shown := [ShowText [message]].

(** As the server lists a directory, but only for paths that fit a file name, and
    with the path of an entry simplified. *)
Definition peer_ll_path (path : list Z) : option (list Z) :=
  if (FilePut.FILE_NAME_MAX_LEN - 1 <=? length path)%nat then None else Some (simplify_path path).

Definition peer_ll_entry (fs : fsys) (path name : list Z) : file_entry :=
  let tmp := simplify_path (print_path (2 * DIR_PATH_MAX_LEN + 3) path name) in
  FileEntry (take (FilePut.FILE_NAME_MAX_LEN - 1) name)
    (if is_file fs tmp then FILE_TYPE_FILE else if is_dir fs tmp then FILE_TYPE_DIR else FILE_TYPE_UNKNOWN).

Definition handle_peer_ll_req (fs : fsys) (path : list Z) : handler () :=
  path ← lift (peer_ll_path path);
  let with_total n := LlResp 0 0 n 0 (ll_entries zero_ll_resp) in
  if negb (file_existed fs path) then
    _ ← send_ll_resp (with_total (-1)) RESP_FILE_NTFD 0; mret tt
  else if is_file fs path then
    let entry := FileEntry (take (FilePut.FILE_NAME_MAX_LEN - 1) (basename path).2) FILE_TYPE_FILE in
    _ ← send_ll_resp (LlResp 0 0 1 0 (entry :: drop 1 (ll_entries zero_ll_resp))) RESP_OK 0; mret tt
  else if is_dir fs path then
    match get_top_file_list fs (h_opendir h) path with
    | None => _ ← send_ll_resp (with_total (-1)) RESP_INTERNAL_ERR 0; mret tt
    | Some names =>
        _ ← ll_pages (length names) (peer_ll_entry fs path) names (with_total (Z.of_nat (length names))); mret tt
    end
  else mret tt.

(** An error tells the other side to stop. *)
Definition handle_peer_get_req (fs : fsys) (path : list Z) : handler Z :=
  let resp := GetResp 0 0 0 0 (Entry 0 0 0 0 (replicate CONTENT_BLOCK_SIZE 0)) 0 in
  let path := take FilePut.FILE_NAME_MAX_LEN path in
  if (FilePut.FILE_NAME_MAX_LEN <=? length path)%nat then Crash else
  if negb (is_absolute_path path) then
    _ ← embed GetResponse get_status (send_get_resp resp RESP_PATH_NOT_ABS REQ_RESP_FLAG_STOP); mret (-1)
  else if negb (file_existed fs path) then
    _ ← embed GetResponse get_status (send_get_resp resp RESP_FILE_NTFD REQ_RESP_FLAG_STOP); mret (-1)
  else
    embed GetResponse get_status (send_files_by_get_resp fs (h_dir_size h) (h_file_mode h) (h_readdir h) fuel path resp).

Definition handle_peer_put_req (fs : fsys) (req : put_req) : handler (fsys * Z) :=
  embed PutResp put_request (recv_files_from_put_req files fuel fs req).

(** Why the loop of a task connection was left: its socket was closed or failed,
    the server announced another port, or [requests] have been served. *)
Inductive task_end := Closed | SocketError | NewPort (port : Z) | Served.

(** [do_task_handler]; [out] is what it has printed. *)
Fixpoint do_task_handler (requests : nat) (fs : fsys) (out : list shown) : handler (fsys * list shown * task_end) :=
  match requests with
  | O => mret (fs, out, Served)
  | S requests' =>
      r ← recv;
      match r with
      | NoData => mret (fs, out, Closed)
      | RecvErr true => do_task_handler requests' fs out
      | RecvErr false => mret (fs, out, SocketError)
      | Got req =>
          match req with
          | WriteReq _ message => do_task_handler requests' fs (out ++ handle_peer_write_req message)
          | LlReq _ path _ _ => _ ← handle_peer_ll_req fs path; do_task_handler requests' fs out
          | GetReq _ path _ _ => _ ← handle_peer_get_req fs path; do_task_handler requests' fs out
          | PutRequest _ _ req => '(fs, _) ← handle_peer_put_req fs req; do_task_handler requests' fs out
          | PortUpdateReq port => mret (fs, out, NewPort port)
          | _ => do_task_handler requests' fs out
          end
      end
  end.
End Peer.

(** * Requests for another client (src/server.c)

    A request that names a user is forwarded to a task connection of that
    user's session: the handlers are relays between the two connections. *)

Abbreviation forwarder := (relay packet).

(** The flags of a response that a relay tests. *)
Definition has_stop (flags : Z) : bool := negb (Z.land flags REQ_RESP_FLAG_STOP =? 0).

Section Forward.
Context {T : Transport} {TG : GetTransport} {TL : Sent}.

(** [check_user], and a task connection that is not in use, which is returned
    in the end; [refuse] answers with a status. *)
Definition with_peer (refuse : Z -> forwarder ()) (no_conn : Z) (s : server) (user : logged_in_user)
    (k : logged_in_user -> forwarder Z) : forwarder (server * Z) :=
  match check_user (table s) user with
  | None => _ ← refuse RESP_CNT_CHECK_USER; mret (s, 0)
  | Some user =>
      match get_peer_task_conn_by_user (table s) user with
      | None => _ ← refuse no_conn; mret (s, 0)
      | Some (i, c, t) =>
          ret ← k user;
          mret (with_table (put_peer_task_conn i c t) s, ret)
      end
  end.

(** ** ll *)

Definition send_ll_resp_once (resp : ll_resp) : forwarder () := send_at AtClient (LlResponse resp).

Fixpoint fwd_ll_loop (fuel : nat) : forwarder Z :=
  match fuel with
  | O => RCrash
  | S fuel' =>
      r ← recv_at AtPeer;
      match r with
      | RecvErr _ => mret (-1)
      | Got (LlResponse resp) =>
          _ ← send_ll_resp_once resp;
          if has_stop (ll_flags (left_ll resp)) then mret 1 else fwd_ll_loop fuel'
      | _ => RCrash
      end
  end.

Definition handle_fwd_ll_req (fuel : nat) (s : server) (session_id path : list Z) (to_peer : Z) (user : logged_in_user)
    : forwarder (server * Z) :=
  let refuse code := send_at AtClient (LlResponse (LlResp code 0 0 0 (ll_entries zero_ll_resp))) in
  with_peer refuse RESP_CNT_GET_PEER s user (fun user =>
    _ ← send_at AtPeer (LlReq session_id path to_peer user);
    fwd_ll_loop fuel).

(** ** get *)

Definition zero_get_resp : get_resp := GetResp 0 0 0 0 (Entry 0 0 0 0 (replicate CONTENT_BLOCK_SIZE 0)) 0.

Definition send_common_resp (status : Z) : forwarder () := send_at AtPeer (CommonResp status).

(** The status of the peer's packet is replaced. *)
Fixpoint fwd_get_loop (fuel : nat) : forwarder Z :=
  match fuel with
  | O => RCrash
  | S fuel' =>
      r ← recv_at AtPeer;
      match r with
      | RecvErr _ => mret (-1)
      | Got (GetResponse resp) =>
          let resp := gr_with_status RESP_OK (gr_flags resp) resp in
          _ ← send_at AtClient (GetResponse resp);
          let resp := left_get resp in
          if negb (gr_need_reply resp =? 0) then
            r ← recv_at AtClient;
            match r with
            | RecvErr _ => mret (-1)
            | Got (CommonResp status) =>
                _ ← send_common_resp status;
                if has_stop (gr_flags resp) then mret 0 else fwd_get_loop fuel'
            | _ => RCrash
            end
          else if has_stop (gr_flags resp) then mret 0 else fwd_get_loop fuel'
      | _ => RCrash
      end
  end.

Definition handle_fwd_get_req (fuel : nat) (s : server) (session_id path : list Z) (to_peer : Z) (user : logged_in_user)
    : forwarder (server * Z) :=
  let refuse code := send_at AtClient (GetResponse (gr_with_status code 0 zero_get_resp)) in
  with_peer refuse RESP_PEER_BUSYING s user (fun user =>
    _ ← send_at AtPeer (GetReq session_id path to_peer user);
    fwd_get_loop fuel).

(** ** put *)

Definition send_put_resp (code : Z) : forwarder () := send_at AtClient (PutResp code).

(** The test at the end of the loop looks at the request that has been dealt
    with, which did not stop. *)
Fixpoint fwd_put_loop (fuel : nat) (to_peer : Z) (user : logged_in_user) (req : put_req) : forwarder Z :=
  match fuel with
  | O => RCrash
  | S fuel' =>
      _ ← send_at AtPeer (PutRequest to_peer user req);
      let req := left_put req in
      let proceed : forwarder Z :=
        if has_stop (flags req) then mret 0 else
        r ← recv_at AtClient;
        match r with
        | RecvErr _ => mret (-1)
        | Got (PutRequest to_peer user req) => fwd_put_loop fuel' to_peer user req
        | _ => RCrash
        end in
      if negb (need_reply req =? 0) then
        r ← recv_at AtPeer;
        match r with
        | RecvErr _ => mret (-1)
        | Got (PutResp status) => _ ← send_put_resp status; proceed
        | _ => RCrash
        end
      else proceed
  end.

Definition handle_fwd_put_req (fuel : nat) (s : server) (to_peer : Z) (user : logged_in_user) (req : put_req)
    : forwarder (server * Z) :=
  with_peer send_put_resp RESP_PEER_BUSYING s user (fun user => fwd_put_loop fuel to_peer user req).

(** ** write *)

(** The client is told nothing. *)
Definition handle_write_req (s : server) (user : logged_in_user) (message : list Z) : forwarder (server * Z) :=
  match check_user (table s) user with
  | None => mret (s, -1)
  | Some user =>
      match get_peer_task_conn_by_user (table s) user with
      | None => mret (s, -1)
      | Some (i, c, t) =>
          _ ← send_at AtPeer (WriteReq user message);
          mret (with_table (put_peer_task_conn i c t) s, 0)
      end
  end.

(** The cases that [handle_request] leaves out. *)
Definition forward_request (fuel : nat) (s : server) (req : packet) : forwarder (server * Z) :=
  match req with
  | LlReq session_id path to_peer user => handle_fwd_ll_req fuel s session_id path to_peer user
  | GetReq session_id path to_peer user => handle_fwd_get_req fuel s session_id path to_peer user
  | PutRequest to_peer user req => handle_fwd_put_req fuel s to_peer user req
  | WriteReq user message => handle_write_req s user message
  | _ => mret (s, 0)
  end.

(** The loop of the session, for requests of this kind. *)
Fixpoint forward_session (requests fuel : nat) (s : server) : forwarder server :=
  match requests with
  | O => mret s
  | S requests' =>
      r ← recv_at AtClient;
      match r with
      | Got req => '(s, _) ← forward_request fuel s req; forward_session requests' fuel s
      | RecvErr true => forward_session requests' fuel s
      | _ => mret s
      end
  end.
End Forward.
