(* ===== verification/ForwardRun.v ===== *)
(** * Forwarded requests: the properties

    Three programs run together: the command of a client, the server's session
    of that client, which forwards, and the task handler of another client.
    Sockets wait here; no schedule is left out otherwise. *)

From stdpp Require Import relations.
From Stdlib Require Import FunctionalExtensionality.
From S2P Require Import Prelude CStr Process FileSystem FilePut FilePutRun FileTransfer FileGet UpdateLock CmdLine Messages Sessions Server Client CommandList CommandFile Forward.

Ltac head := cbn [mbind prog_bind mret prog_ret relay_bind relay_ret Process.send Process.recv lift receive embed
                  send_at recv_at send_put_resp send_ll_resp_once].

(** ** The connection to the peer *)

(** Returning the connection restores the table. *)
Lemma peer_conn_returned sessions user i k t :
  get_peer_task_conn_by_user sessions user = Some (i, k, t) -> put_peer_task_conn i k t = sessions.
Proof.
  unfold get_peer_task_conn_by_user, find_client_session_by_id, get_peer_task_conn_by_session.
  destruct (list_find _ sessions) as [[j s]|] eqn:E1; [|done]. cbn [mbind option_bind].
  destruct (list_find _ (task_conns s)) as [[l c]|] eqn:E2; [|done]. cbn [mbind option_bind].
  intros [= <- <- <-]. apply list_find_Some in E1 as (Hj & _ & _). apply list_find_Some in E2 as (Hl & Hc & _).
  unfold put_peer_task_conn. apply list_eq. intros m. destruct (decide (m = j)) as [->|Hm].
  - rewrite list_lookup_alter_eq, list_lookup_insert_eq, Hj by (eapply lookup_lt_Some; exact Hj). cbn. f_equal.
    destruct s as [a mc tc st p id u]. cbn in *. unfold with_task_conns. cbn. f_equal.
    apply list_eq. intros x. destruct (decide (x = l)) as [->|Hx].
    + rewrite list_lookup_alter_eq, list_lookup_insert_eq, Hl by (eapply lookup_lt_Some; exact Hl). cbn.
      destruct c. cbn in Hc. by subst.
    + by rewrite list_lookup_alter_ne, list_lookup_insert_ne.
  - by rewrite list_lookup_alter_ne, list_lookup_insert_ne.
Qed.

(** ** The sender of a put keeps to the protocol *)

Section Sender.
Context (src : fsys) (dir_size : Z) (file_mode : list Z -> Z) (readdir : list Z -> list (list Z)).

Definition put_wants (req : put_req) : bool := negb (need_reply req =? 0).
Definition put_stops (req : put_req) : bool := has_stop (FilePut.flags req).

#[local] Abbreviation put_conforms := (conforms put_wants put_stops (fun _ => True) (fun _ : Z => True)).

Lemma send_blocks_conforms (is_last : bool) fuel : forall req rest (eof : bool) ret m,
  (if eof then m = after is_last /\ ret = (if is_last then 1 else 0) else m = Listening) ->
  put_conforms (send_blocks (T := copying) fuel is_last req rest eof ret) m
    (fun m' (x : put_req * Z * bool) => x.2 = true /\ m' = after is_last /\ x.1.2 = (if is_last then 1 else 0)).
Proof.
  induction fuel as [|fuel IH]; intros req rest [|] ret m Hm; cbn [send_blocks]; head; [by destruct Hm|done|by destruct Hm|].
  subst m. unfold send_file_content_by_put_req, send_trans_entry_by_put_req. head. cbv zeta.
  set (block := take CONTENT_BLOCK_SIZE rest). cbn [conforms]. split; [done|]. split; [done|].
  unfold left_put, copying, next_mode, put_wants, put_stops. cbn [need_reply with_reply FilePut.flags with_flags].
  destruct (Nat.ltb_spec (length block) CONTENT_BLOCK_SIZE) as [Hlt|Hge]; destruct is_last; cbn [andb];
    change (negb (1 =? 0)) with true; change (negb (0 =? 0)) with false; cbv iota.
  - cbn [conforms]. exists true. split; [done|]. intros st _. destruct (negb (st =? RESP_OK)); [done|]. by apply IH.
  - by apply (IH _ _ true).
  - by apply (IH _ _ false).
  - by apply (IH _ _ false).
Qed.

(** One regular file: it ends after the last request exactly when it sent the
    contents. *)
Lemma send_file_conforms path target req data :
  node_at src path = Some (Reg data) -> last_file req = true ->
  put_conforms (send_file_by_put_req (T := copying) src dir_size file_mode path target req) Listening
    (fun m (x : put_req * Z) => m = after (x.2 =? 1)).
Proof.
  intros Hn Hl. assert (Hd : is_dir src path = false) by (unfold is_dir; by rewrite Hn).
  unfold send_file_by_put_req, send_file_name_by_put_req, send_file_md5_by_put_req, send_trans_entry_by_put_req, fopen_r.
  rewrite Hd, Hn. change (file_idx req =? _) with (last_file req). rewrite Hl. cbn [andb]. head.
  cbn [conforms]. split; [done|]. split; [done|]. unfold left_put, copying. exists false. split; [done|]. intros st _.
  destruct (negb (st =? RESP_OK)); [done|]. destruct (md5_of data) as [md5|]; [|done]. head.
  cbn [conforms]. split; [done|]. split; [done|]. change (0 =? -1) with false. cbv iota.
  exists false. split; [done|]. intros st' _. destruct (st' =? RESP_OK); [done|].
  eapply conforms_bind; [by apply send_blocks_conforms|]. intros m [[q ret] eof] (He & -> & Hr). cbn in He, Hr.
  rewrite He, Hr. done.
Qed.
End Sender.

(** ** put *)

Definition is_put (p : packet) : Prop := exists to_peer user req, p = PutRequest to_peer user req.
Definition is_status (p : packet) : Prop := exists st, p = PutResp st.
Definition packet_wants (p : packet) : bool := match p with PutRequest _ _ r => put_wants r | _ => false end.
Definition packet_stops (p : packet) : bool := match p with PutRequest _ _ r => put_stops r | _ => false end.

Section Runs.
Context {TL : Sent} {TG : GetTransport} (h my : host) (files fuel pfiles pfuel : nat).

#[local] Abbreviation execute := (execute_cmd (T := copying) my fuel files).
#[local] Abbreviation task := (do_task_handler (T := TL) (TG := TG) h pfiles pfuel).
#[local] Abbreviation session := (forward_session (T := copying) (TG := TG) (TL := TL)).

Lemma task_answers_puts requests : forall d out, answers is_put is_status (task requests d out).
Proof.
  induction requests as [|requests IH]; intros d out; [done|]. cbn [do_task_handler]. head. cbn [answers].
  intros o (tp & u & r & ->). apply answers_bind; [|intros [fs ret]; apply IH].
  apply answers_embed. intros st. by exists st.
Qed.

(** The command of the client, the user known by a number. *)
Record names_peer (c : client) (no : list Z) (user : logged_in_user) : Prop := NamesPeer {
  np_pos : 0 <= atoi no;
  np_user : friends c !! Z.to_nat (atoi no) = Some user;
}.

Lemma find_known c no user : names_peer c no user ->
  find_logged_in_user fuel c (atoi no) = Ret (c, Some user).
Proof.
  intros [H0 Hu]. unfold find_logged_in_user. destruct (friends c) as [|f l] eqn:E; [done|]. head.
  change (0 =? -1) with false. cbv iota. by rewrite (proj2 (Z.ltb_ge _ 0)), E, Hu by lia.
Qed.

Definition put_to_peer (c : client) (user : logged_in_user) (path target : list Z) : command result :=
  ret ← embed (PutRequest 1 user) put_status
    (send_files_by_put_req (T := copying) (cl_disk c) (h_dir_size my) (h_file_mode my) (h_readdir my) fuel path target
       (PutReq 0 0 (Entry 0 0 0 0 (replicate CONTENT_BLOCK_SIZE 0)) 0 0));
  mret (c, ret, []).

Lemma put_to_peer_command c buf no file target user data :
  types buf "put" [no; file; target] -> names_peer c no user -> is_absolute_path target = true ->
  node_at (cl_disk c) (take (FilePut.FILE_NAME_MAX_LEN - 1) file) = Some (Reg data) ->
  execute c buf = put_to_peer c user (take (FilePut.FILE_NAME_MAX_LEN - 1) file) (take (FilePut.FILE_NAME_MAX_LEN - 1) target).
Proof.
  intros Hbuf Hnp Habs Hn. rewrite (execute_types _ _ _ _ _ _ _ _ Hbuf eq_refl eq_refl).
  unfold sftt_client_put_handler. rewrite (find_known _ _ _ Hnp). head. rewrite Habs. cbn [negb].
  unfold is_file at 1. rewrite Hn. cbn [negb andb]. reflexivity.
Qed.

(** The transfer over a direct connection. *)
Lemma put_to_peer_direct c user path target data d d' m out :
  carries (cl_disk c) path target (Some data) -> install d target (Some data) = Some d' ->
  (length data < pfuel)%nat -> (0 < pfiles)%nat ->
  rtc step (Network (put_to_peer c user path target) (task (S m) d out) [] [])
    (Network (Ret (c, if already_there d target data then 0 else 1, [])) (task m d' out) [] []).
Proof.
  intros Hc Hi Hl Hf. destruct pfiles as [|pf] eqn:Epf; [lia|].
  set (req := PutReq 0 0 (Entry 0 0 0 0 (replicate CONTENT_BLOCK_SIZE 0)) 0 0).
  destruct (file_run (cl_disk c) (h_dir_size my) (h_file_mode my) path target data (with_files 1 0 req) d d' pfuel
    sender_end (receiver_end pf pfuel)
    (fun r => match r with Got req => recv_files_from_put_req (S pf) pfuel d req | _ => mret (d, -1) end) Hc Hi Hl)
    as (req' & r1 & r2 & _ & _ & -> & Hr2 & Hrun); [done|].
  change (last_file (with_files 1 0 req)) with true in Hrun. cbn [andb negb] in Hrun.
  unfold receiver_end in Hrun. rewrite orb_true_r in Hrun.
  assert (Hdirect : rtc step
    (Network (send_files_by_put_req (T := copying) (cl_disk c) (h_dir_size my) (h_file_mode my) (h_readdir my) fuel path
                target req) (serve_put (S pf) pfuel d) [] [])
    (Network (Ret (if negb (already_there d target data) then 1 else 0)) (Ret (d', r2)) [] [])).
  { unfold send_files_by_put_req, is_file. rewrite (car_node _ _ _ _ Hc). exact Hrun. }
  unfold put_to_peer. fold req. cbn [do_task_handler]. head.
  eapply rtc_trans.
  - eapply (embed_serve (PutRequest 1 user) put_request PutResp put_status (fun _ => eq_refl) (fun _ => eq_refl)
      (fun ret => mret (c, ret, [])) (fun '(fs, _) => do_task_handler h (S pf) pfuel m fs out)) with
      (a := if negb (already_there d target data) then 1 else 0) (b := (d', r2)); [|exact Hdirect].
    intros q. reflexivity.
  - destruct (already_there d target data); reflexivity.
Qed.

Lemma put_to_peer_conforms c user path target data :
  node_at (cl_disk c) path = Some (Reg data) ->
  conforms packet_wants packet_stops is_put is_status (put_to_peer c user path target) Listening
    (fun m (x : result) => m = after (x.1.2 =? 1)).
Proof.
  intros Hn. unfold put_to_peer, send_files_by_put_req, is_file. rewrite Hn.
  eapply conforms_bind; [|intros m r Hm; exact Hm].
  apply (conforms_embed (PutRequest 1 user) put_status put_wants put_stops (fun _ => True)).
  - done.
  - done.
  - intros o _. by exists 1, user, o.
  - intros i [st ->]. by exists st.
  - eapply conforms_bind; [by eapply send_file_conforms|]. intros m [q r] Hm. exact Hm.
Qed.
(** The relay after the first request of a put; [A] and [B] are what follows. *)
Definition put_listen (n : nat) : forwarder Z :=
  r ← recv_at AtClient;
  match r with
  | RecvErr _ => mret (-1)
  | Got (PutRequest to_peer user req) => fwd_put_loop (T := copying) n to_peer user req
  | _ => RCrash
  end.

Section Relayed.
Context {RB : Type} (A : Z -> forwarder (server * Z)) (B : server * Z -> forwarder RB).

Definition put_relay (n : nat) : forwarder RB := (put_listen n ≫= A) ≫= B.

Lemma fwd_put_step n to_peer user req : exists k',
  ((fwd_put_loop (T := copying) (S n) to_peer user req ≫= A) ≫= B) =
    RSend AtPeer (PutRequest to_peer user req)
      (if put_wants req then RRecv AtPeer k' else respond put_relay (A 0 ≫= B) (put_stops req) n)
  /\ forall a, is_status a -> k' (Got a) = await put_relay (A 0 ≫= B) (put_stops req) n (Got a).
Proof.
  cbn [fwd_put_loop]. head. unfold left_put, copying. fold (put_wants req) (put_stops req).
  destruct (put_wants req); head.
  - eexists. split; [reflexivity|]. intros a [st ->]. cbv beta iota. cbn [await]. head. f_equal.
    unfold respond. destruct (put_stops req); reflexivity.
  - exists (await put_relay (A 0 ≫= B) (put_stops req) n). split; [|done].
    f_equal. unfold respond. destruct (put_stops req); reflexivity.
Qed.

Lemma put_relay_listens n : exists k, put_relay (S n) = RRecv AtClient k /\ forall o, is_put o ->
  exists k', k (Got o) = RSend AtPeer o (if packet_wants o then RRecv AtPeer k' else
      respond put_relay (A 0 ≫= B) (packet_stops o) n)
    /\ forall a, is_status a -> k' (Got a) = await put_relay (A 0 ≫= B) (packet_stops o) n (Got a).
Proof.
  eexists. split; [reflexivity|]. intros o (tp & u & r & ->).
  destruct (fwd_put_step n tp u r) as (k' & E & H). exists k'. split; [exact E|exact H].
Qed.

(** A put that goes through the relay, from its first request. *)
Lemma put_relayed {RA RC} (post : mode -> RA -> Prop) (a : RA) (qf : prog packet packet RC) to_peer user req p1 q n k :
  nsteps step (S k) (Network (Send (PutRequest to_peer user req) p1) (Recv q) [] []) (Network (Ret a) qf [] []) ->
  conforms packet_wants packet_stops is_put is_status (Send (PutRequest to_peer user req) p1) Listening post ->
  answers is_put is_status (Recv q) -> (k <= n)%nat ->
  exists m' n' r', post m' a /\ relays is_status put_relay (A 0 ≫= B) m' n' r' /\ (n - k <= n')%nat /\
    rtc trio_step
      (Trio p1 ((fwd_put_loop (T := copying) (S n) to_peer user req ≫= A) ≫= B) (Recv q) [] [] [] [])
      (Trio (Ret a) r' qf [] [] [] []).
Proof.
  intros Hrun Hp Hq Hn. inversion Hrun as [|? ? c ? Hs Hrun']; subst. inversion Hs; subst.
  cbn [conforms] in Hp. destruct Hp as (_ & Hf & Hp).
  destruct (fwd_put_step n to_peer user req) as (k' & -> & Hk').
  destruct (pump_run packet_wants packet_stops is_put is_status put_relay (A 0 ≫= B) put_relay_listens post a qf k
    p1 (Recv q) [PutRequest to_peer user req] [] (next_mode packet_wants packet_stops (PutRequest to_peer user req)) n
    (if put_wants req then RRecv AtPeer k' else respond put_relay (A 0 ≫= B) (put_stops req) n))
    as (m' & n' & r' & H1 & H2 & H3 & H4 & H5); [done|done|done|by repeat constructor|constructor|done| |].
  { unfold next_mode. cbn [packet_wants packet_stops]. destruct (put_wants req); [by exists k'|apply relays_after]. }
  exists m', n', r'. split_and!; [done|done|lia|]. eapply rtc_l; [apply relay_sends_peer|]. exact H5.
Qed.
End Relayed.

(** Where the request can go. *)
Definition reaches (s : server) (user : logged_in_user) : Prop :=
  check_user (table s) user = Some user /\ is_Some (get_peer_task_conn_by_user (table s) user).

Lemma put_reaches s user : reaches s user -> exists A : Z -> forwarder (server * Z),
  (forall ret, A ret = RRet (s, ret)) /\
  forall fuel to_peer req, forward_request (T := copying) (TG := TG) (TL := TL) fuel s (PutRequest to_peer user req) =
    (fwd_put_loop (T := copying) fuel to_peer user req ≫= A).
Proof.
  intros [Hu [[[i k] t] Hc]]. exists (fun ret => mret (with_table (put_peer_task_conn i k t) s, ret)). split.
  - intros ret. rewrite (peer_conn_returned _ _ _ _ _ Hc). by destruct s.
  - intros fl tp req. cbn [forward_request]. unfold handle_fwd_put_req, with_peer. by rewrite Hu, Hc.
Qed.

(** A forwarded put up to its end: the state of the relay is the one the last
    request left it in. *)
Lemma forward_put_run c s user path target data d d' out m :
  reaches s user -> carries (cl_disk c) path target (Some data) -> install d target (Some data) = Some d' ->
  (length data < pfuel)%nat -> (0 < pfiles)%nat ->
  exists k A, (forall ret, A ret = RRet (s, ret)) /\ forall requests rfuel, (k < rfuel)%nat ->
    exists n' r', relays is_status (put_relay A (fun '(s, _) => session requests rfuel s)) (session requests rfuel s)
                    (after (negb (already_there d target data))) (S n') r' /\
    rtc trio_step
      (Trio (put_to_peer c user path target) (session (S requests) rfuel s) (task (S m) d out) [] [] [] [])
      (Trio (Ret (c, if already_there d target data then 0 else 1, [])) r' (task m d' out) [] [] [] []).
Proof.
  intros Hreach Hc Hi Hl Hf. destruct (put_reaches s user Hreach) as (A & HA & Hfwd).
  destruct (rtc_nsteps_1 _ _ (put_to_peer_direct c user path target data d d' m out Hc Hi Hl Hf)) as [k Hk].
  exists k, A. split; [exact HA|]. intros requests rfuel Hn.
  pose proof (put_to_peer_conforms c user path target data (car_node _ _ _ _ Hc)) as Hconf.
  pose proof (task_answers_puts (S m) d out) as Hans.
  assert (exists req p1, put_to_peer c user path target = Send (PutRequest 1 user req) p1) as (req & p1 & E).
  { unfold put_to_peer, send_files_by_put_req, is_file. rewrite (car_node _ _ _ _ Hc).
    unfold send_file_by_put_req, send_file_name_by_put_req, send_trans_entry_by_put_req. head. eexists _, _. reflexivity. }
  rewrite E in Hk, Hconf |- *. cbn [do_task_handler] in Hk, Hans. head. cbn [mbind prog_bind Process.recv] in Hk, Hans.
  destruct k as [|k]; [inversion Hk|]. destruct rfuel as [|rfuel]; [lia|].
  destruct (put_relayed A (fun '(s, _) => session requests (S rfuel) s) _ _ _ 1 user req p1 _ rfuel k Hk Hconf Hans)
    as (m' & n' & r' & Hm & Hr & Hn' & Hrun); [lia|]. cbn in Hm.
  assert (Hm' : m' = after (negb (already_there d target data)))
    by (rewrite Hm; by destruct (already_there d target data)).
  rewrite Hm', (HA 0) in Hr. destruct n' as [|n']; [lia|]. exists n', r'. split; [exact Hr|].
  eapply rtc_l; [apply client_sends|]. cbn [forward_session app]. head.
  eapply rtc_l; [apply relay_hears_client|]. head. rewrite Hfwd. exact Hrun.
Qed.

(** C7: A put of one regular file to another client does what a direct transfer
    of the file does, under these conditions.  That client does not have the
    file yet, with this content ([forward_put_unchanged_wedges] is about the
    other case); the file is empty or not a multiple of the 2048 bytes of a
    block, its path at the peer is absolute and fits, and it can be installed;
    the serialiser leaves its argument alone, as the one of the XDR build does;
    receives wait for their packets.  Then whatever the schedule the command
    ends, the file is installed there, and the server's session and the peer's
    task wait for their next requests. *)
Theorem forward_put_delivers c s buf no file target user data d d' out m requests
    (Hbuf : types buf "put" [no; file; target]) (Hnp : names_peer c no user) (Habs : is_absolute_path target = true)
    (Hreach : reaches s user)
    (Hcarries : carries (cl_disk c) (take (FilePut.FILE_NAME_MAX_LEN - 1) file)
                  (take (FilePut.FILE_NAME_MAX_LEN - 1) target) (Some data))
    (Hinstall : install d (take (FilePut.FILE_NAME_MAX_LEN - 1) target) (Some data) = Some d')
    (Hfuel : (length data < pfuel)%nat) (Hfiles : (0 < pfiles)%nat)
    (Hnew : already_there d (take (FilePut.FILE_NAME_MAX_LEN - 1) target) data = false) :
  exists k, forall rfuel, (k < rfuel)%nat ->
    every_trio_run_ends
      (Trio (execute c buf) (session (S (S requests)) rfuel s) (task (S (S m)) d out) [] [] [] [])
      (Trio (Ret (c, 1, [])) (session (S requests) rfuel s) (task (S m) d' out) [] [] [] []).
Proof.
  rewrite (put_to_peer_command c buf no file target user data Hbuf Hnp Habs (car_node _ _ _ _ Hcarries)).
  destruct (forward_put_run c s user _ _ data d d' out (S m) Hreach Hcarries Hinstall Hfuel Hfiles)
    as (k & A & HA & Hrun). rewrite Hnew in Hrun.
  exists k. intros rfuel Hk. destruct (Hrun (S requests) rfuel Hk) as (n' & r' & -> & Hr).
  apply trio_run_ends; [exact Hr|apply trio_final_waits].
Qed.

(** When the other client has the file already, it says so and the command
    ends with success, but no request said that it was the last: the relay goes
    on waiting for one, the connection to the peer stays in use, and whatever
    the first client asks next, unless it is a put, is taken for one. *)
Theorem forward_put_unchanged_wedges c s buf no file target user data d d' out m requests
    (Hbuf : types buf "put" [no; file; target]) (Hnp : names_peer c no user) (Habs : is_absolute_path target = true)
    (Hreach : reaches s user)
    (Hcarries : carries (cl_disk c) (take (FilePut.FILE_NAME_MAX_LEN - 1) file)
                  (take (FilePut.FILE_NAME_MAX_LEN - 1) target) (Some data))
    (Hinstall : install d (take (FilePut.FILE_NAME_MAX_LEN - 1) target) (Some data) = Some d')
    (Hfuel : (length data < pfuel)%nat) (Hfiles : (0 < pfiles)%nat)
    (Hthere : already_there d (take (FilePut.FILE_NAME_MAX_LEN - 1) target) data = true) :
  exists k, forall rfuel, (k < rfuel)%nat -> exists relay,
    (forall p, ~ is_put p -> relay (Got p) = RCrash) /\
    every_trio_run_ends
      (Trio (execute c buf) (session (S requests) rfuel s) (task (S (S m)) d out) [] [] [] [])
      (Trio (Ret (c, 0, [])) (RRecv AtClient relay) (task (S m) d' out) [] [] [] []).
Proof.
  rewrite (put_to_peer_command c buf no file target user data Hbuf Hnp Habs (car_node _ _ _ _ Hcarries)).
  destruct (forward_put_run c s user _ _ data d d' out (S m) Hreach Hcarries Hinstall Hfuel Hfiles)
    as (k & A & HA & Hrun). rewrite Hthere in Hrun.
  exists k. intros rfuel Hk. destruct (Hrun requests rfuel Hk) as (n' & r' & Hr' & Hr). cbn in Hr'. subst r'.
  eexists. split; [|apply trio_run_ends; [exact Hr|apply trio_final_waits]].
  intros p Hp. cbv beta. destruct p; try reflexivity. exfalso. apply Hp. by eexists _, _, _.
Qed.

(** ** ll *)

Section Listing.
Context {RA RB RC : Type} (entry : list Z -> file_entry).
Context (kC : option (list file_entry) -> command RA) (kP : ll_resp -> command RC).
Context (A : Z -> forwarder (server * Z)) (B : server * Z -> forwarder RB).

Definition ll_relay (n : nat) : forwarder RB := (fwd_ll_loop (TL := ll_copying) n ≫= A) ≫= B.

(** One page passes through the relay, which sees no end in it. *)
Lemma fwd_ll_page names resp fuelP n (kk : received packet -> command RA) :
  names <> [] ->
  rtc trio_step
    (Trio (Recv kk) (ll_relay (S n)) (ll_pages (T := ll_copying) (S fuelP) entry names resp ≫= kP) [] [] [] [])
    (Trio (kk (Got (LlResponse (ll_page entry names resp)))) (ll_relay n)
       (ll_pages (T := ll_copying) fuelP entry (drop FILE_ENTRY_MAX_CNT names) (ll_page entry names resp) ≫= kP) [] [] [] []).
Proof.
  intros Hne. destruct names as [|name names]; [done|].
  eapply rtc_l; [apply peer_sends|]. eapply rtc_l; [apply relay_hears_peer|]. head.
  eapply rtc_l; [apply relay_sends_client|]. eapply rtc_l; [apply client_receives|].
  match goal with |- context [has_stop ?f] => replace (has_stop f) with false end; [reflexivity|].
  cbn [left_ll ll_copying ll_flags]. by destruct (drop FILE_ENTRY_MAX_CNT (name :: names)).
Qed.

Lemma fwd_ll_pages fuelP : forall names resp acc tot fuelC kk n,
  names <> [] -> (length names <= fuelP)%nat -> (length names <= fuelC)%nat -> (length names < n)%nat ->
  length (ll_entries resp) = FILE_ENTRY_MAX_CNT -> 0 <= tot ->
  ll_total resp = tot + Z.of_nat (length names) -> ll_total resp < 2 ^ 31 ->
  (forall r, kk (Got (LlResponse r)) = ll_collect fuelC r acc tot ≫= kC) ->
  exists resp' n', rtc trio_step
    (Trio (Recv kk) (ll_relay n) (ll_pages (T := ll_copying) fuelP entry names resp ≫= kP) [] [] [] [])
    (Trio (kC (Some (acc ++ (entry <$> names)))) (ll_relay (S n')) (kP resp') [] [] [] []).
Proof.
  induction fuelP as [|fuelP IH]; intros names resp acc tot fuelC kk n Hne HP HC Hn Hent H0 Htot Hmax Hkk;
    assert (0 < length names)%nat by (destruct names; [done|simpl; lia]); [lia|].
  destruct fuelC as [|fuelC]; [lia|]. destruct n as [|n]; [lia|].
  assert (Hrest := length_drop names FILE_ENTRY_MAX_CNT). assert (Hpage := length_take names FILE_ENTRY_MAX_CNT).
  assert (HE : FILE_ENTRY_MAX_CNT = 16%nat) by done.
  assert (Hsplit : entry <$> names = (entry <$> take FILE_ENTRY_MAX_CNT names)
    ++ (entry <$> drop FILE_ENTRY_MAX_CNT names)) by (by rewrite <- fmap_app, take_drop).
  pose proof (fwd_ll_page names resp fuelP n kk Hne) as Hp.
  rewrite Hkk, ll_page_taken in Hp by (done || lia). cbv zeta in Hp. rewrite Hsplit, app_assoc.
  destruct (drop FILE_ENTRY_MAX_CNT names) as [|n1 rest] eqn:Ed; cbn [length] in Hrest.
  - rewrite (proj2 (Z.eqb_eq _ _)) in Hp by lia. rewrite fmap_nil, app_nil_r.
    destruct n as [|n]; [lia|]. eexists _, n. etransitivity; [exact Hp|]. destruct fuelP; constructor.
  - rewrite (proj2 (Z.eqb_neq _ _)) in Hp by lia.
    cbn [receive mbind prog_bind Process.recv] in Hp.
    match type of Hp with rtc _ _ (Trio (Recv ?f) _ _ _ _ _ _) => set (kk' := f) in Hp end.
    edestruct (IH (n1 :: rest) (ll_page entry names resp) (acc ++ (entry <$> take FILE_ENTRY_MAX_CNT names))
      (tot + Z.of_nat (length (take FILE_ENTRY_MAX_CNT names))) fuelC kk' n) as (resp' & n' & Hrun); [done|cbn [length]; lia..| | | | | |].
    6: { exists resp', n'. etransitivity; [exact Hp|exact Hrun]. }
    + cbn [ll_page ll_entries]. rewrite length_app, length_drop, length_fmap. lia.
    + lia.
    + cbn [ll_page ll_total length]. lia.
    + done.
    + intros r. reflexivity.
Qed.
End Listing.

(** [ll] of a directory of another client shows its entries, but the relay
    never ends: it waits for a response with the flag STOP, and the peer marks
    none.  Whatever the schedule, the server is left waiting for the peer, and
    the peer for a request; nothing that the client asks afterwards is read. *)
Theorem forward_ll_never_ends c s buf no path user dir names d out m requests rfuel
    (Hbuf : types buf "ll" [no; path]) (Hnp : names_peer c no user) (Hreach : reaches s user)
    (Hpath : peer_ll_path (take (DIR_PATH_MAX_LEN - 1) path) = Some dir)
    (Hthere : file_existed d dir = true) (Hdir : is_dir d dir = true) (Hnames : h_opendir h dir = Some names)
    (Hsome : (0 < length names)%nat) (Hmax : Z.of_nat (length names) < 2 ^ 31)
    (Hfuel : (length names <= fuel)%nat) (Hrfuel : (length names < rfuel)%nat) :
  exists relay, every_trio_run_ends
    (Trio (execute c buf) (forward_session (T := copying) (TG := TG) (TL := ll_copying) (S requests) rfuel s)
       (do_task_handler (T := ll_copying) (TG := TG) h pfiles pfuel (S (S m)) d out) [] [] [] [])
    (Trio (Ret (c, 0, [ShowEntries (peer_ll_entry d dir <$> names)])) (RRecv AtPeer relay)
       (do_task_handler (T := ll_copying) (TG := TG) h pfiles pfuel (S m) d out) [] [] [] []).
Proof.
  set (A := fun ret : Z => mret (with_table (table s) s, ret) : forwarder (server * Z)).
  set (B := fun x : server * Z => let '(s, _) := x in
    forward_session (T := copying) (TG := TG) (TL := ll_copying) requests rfuel s).
  set (kP := fun _ : ll_resp => do_task_handler (T := ll_copying) (TG := TG) h pfiles pfuel (S m) d out).
  assert (exists kk, (forall r, kk (Got (LlResponse r)) = ll_collect fuel r [] 0 ≫= show_entries c) /\
    rtc trio_step
      (Trio (execute c buf) (forward_session (T := copying) (TG := TG) (TL := ll_copying) (S requests) rfuel s)
         (do_task_handler (T := ll_copying) (TG := TG) h pfiles pfuel (S (S m)) d out) [] [] [] [])
      (Trio (Recv kk) (ll_relay A B rfuel)
         (ll_pages (T := ll_copying) (length names) (peer_ll_entry d dir) names
            (LlResp 0 0 (Z.of_nat (length names)) 0 (ll_entries zero_ll_resp)) ≫= kP) [] [] [] [])) as (kk & Hkk & Hpre).
  { eexists. split; cycle 1.
    { rewrite (execute_types _ _ _ _ _ _ _ _ Hbuf eq_refl eq_refl). unfold sftt_client_ll_handler.
      rewrite (find_known _ _ _ Hnp). head. destruct Hreach as [Hu [[[i k] t] Hc]].
      eapply rtc_l; [apply client_sends|]. eapply rtc_l; [apply relay_hears_client|]. head.
      cbn [forward_request]. unfold handle_fwd_ll_req, with_peer.
      change (default no_user (Some user)) with user. rewrite Hu, Hc. head.
      rewrite (peer_conn_returned _ _ _ _ _ Hc).
      eapply rtc_l; [apply relay_sends_peer|]. eapply rtc_l; [apply peer_receives|]. head.
      unfold handle_peer_ll_req. rewrite Hpath. head. rewrite Hthere, (is_dir_not_file _ _ Hdir), Hdir. cbn [negb].
      unfold get_top_file_list. rewrite Hthere, Hdir, Hnames. cbn [negb orb]. rewrite !bind_assoc. head. reflexivity. }
    intros r. reflexivity. }
  destruct (fwd_ll_pages (peer_ll_entry d dir) (show_entries c) kP A B (length names) names
    (LlResp 0 0 (Z.of_nat (length names)) 0 (ll_entries zero_ll_resp)) [] 0 fuel kk rfuel)
    as (resp' & n' & Hrun); [intros ->; simpl in Hsome; lia|done..|].
  eexists. apply trio_run_ends; [etransitivity; [exact Hpre|exact Hrun]|apply trio_final_waits].
Qed.

(** ** write *)

(** A message to another client is shown there, and the command that sent it
    waits for an answer that nobody sends, for ever and whatever the schedule. *)
Theorem write_never_answered c s buf no message user d out m requests rfuel
    (Hbuf : types buf "write" [no; message]) (Hnp : names_peer c no user) (Hreach : reaches s user) :
  exists k, every_trio_run_ends
    (Trio (execute c buf) (session (S (S requests)) rfuel s) (task (S (S m)) d out) [] [] [] [])
    (Trio (Recv k) (session (S requests) rfuel s)
       (task (S m) d (out ++ [ShowText [take (WRITE_MSG_MAX_LEN - 1) message]])) [] [] [] []).
Proof.
  rewrite (execute_types _ _ _ _ _ _ _ _ Hbuf eq_refl eq_refl). unfold sftt_client_write_handler.
  rewrite (find_known _ _ _ Hnp). head. destruct Hreach as [Hu [[[i l] t] Hc]].
  eexists. apply trio_run_ends; [|apply trio_final_all_wait].
  eapply rtc_l; [apply client_sends|]. eapply rtc_l; [apply relay_hears_client|]. head.
  cbn [forward_request]. unfold handle_write_req. rewrite Hu, Hc. head.
  eapply rtc_l; [apply relay_sends_peer|]. eapply rtc_l; [apply peer_receives|]. head.
  rewrite (peer_conn_returned _ _ _ _ _ Hc). destruct s as [tb dk]. reflexivity.
Qed.
End Runs.

(** ** Two clients *)

Definition bob : logged_in_user := LoggedInUser (ascii_bytes "s2") (ascii_bytes "bob") (ascii_bytes "10.0.0.8") 4343.
Definition bob_session : client_session :=
  Session (lu_ip bob) (Conn 6 4343 CONN_TYPE_CTRL (ascii_bytes "c2") 0 0)
    [Conn 7 4344 CONN_TYPE_TASK (ascii_bytes "c3") 1 0; Conn 8 4345 CONN_TYPE_TASK (ascii_bytes "c4") 0 0] ACTIVE
    (ascii_bytes "/home") (lu_session_id bob) (UserBase 8 (lu_name bob) (ascii_bytes "/home")).
Definition two_clients : server := Server [demo_session; bob_session] demo_dst.
Definition ann (d : fsys) : client := with_friends [bob] (with_cl_disk d demo_client).

Lemma ann_names_bob d : names_peer (ann d) (ascii_bytes "0") bob.
Proof. split; [vm_compute; done|reflexivity]. Qed.

Lemma bob_reached : reaches two_clients bob.
Proof. split; [vm_compute; reflexivity|eexists; vm_compute; reflexivity]. Qed.

#[local] Abbreviation demo_command d line := (execute_cmd (T := copying) listing_host 3 1 (ann d) (ascii_bytes line)).
#[local] Abbreviation demo_session_loop n rfuel :=
  (forward_session (T := copying) (TG := get_copying) (TL := ll_copying) n rfuel two_clients).
#[local] Abbreviation demo_task n d out := (do_task_handler (T := ll_copying) (TG := get_copying) listing_host 1 10 n d out).

Definition hi_file : fsys := one_file [104; 105].
Definition hi_delivered : fsys := Fsys {[ [47; 116] := Dir; one_target := Reg [104; 105] ]} ∅.

Lemma hi_carries : carries (cl_disk (ann hi_file)) [47; 102] one_target (Some [104; 105]).
Proof.
  split; [|reflexivity|].
  - split; [apply (bool_decide_unpack _); vm_compute; reflexivity|simpl; lia].
  - intros data [= <-]. split; [simpl; lia|]. right. pose proof block_size_val. rewrite Nat.mod_small; simpl; [done|].
    unfold CONTENT_BLOCK_SIZE. lia.
Qed.

Lemma forward_put_delivers_witness : exists k, forall rfuel, (k < rfuel)%nat ->
  every_trio_run_ends
    (Trio (demo_command hi_file "put 0 /f /t/f") (demo_session_loop 2 rfuel) (demo_task 2 demo_dst []) [] [] [] [])
    (Trio (Ret (ann hi_file, 1, [])) (demo_session_loop 1 rfuel) (demo_task 1 hi_delivered []) [] [] [] []).
Proof.
  apply (forward_put_delivers (TL := ll_copying) (TG := get_copying) listing_host listing_host 1 3 1 10 (ann hi_file) two_clients
    (ascii_bytes "put 0 /f /t/f") (ascii_bytes "0") [47; 102] one_target bob [104; 105] demo_dst hi_delivered [] 0 0).
  - vm_compute. reflexivity.
  - apply ann_names_bob.
  - vm_compute. reflexivity.
  - apply bob_reached.
  - exact hi_carries.
  - vm_compute. reflexivity.
  - simpl. lia.
  - lia.
  - vm_compute. reflexivity.
Defined.

(** The same file once more. *)
Lemma forward_put_unchanged_wedges_witness : exists k, forall rfuel, (k < rfuel)%nat -> exists relay,
  (forall p, ~ is_put p -> relay (Got p) = RCrash) /\
  every_trio_run_ends
    (Trio (demo_command hi_file "put 0 /f /t/f") (demo_session_loop 2 rfuel) (demo_task 2 hi_delivered []) [] [] [] [])
    (Trio (Ret (ann hi_file, 0, [])) (RRecv AtClient relay) (demo_task 1 hi_delivered []) [] [] [] []).
Proof.
  apply (forward_put_unchanged_wedges (TL := ll_copying) (TG := get_copying) listing_host listing_host 1 3 1 10 (ann hi_file)
    two_clients (ascii_bytes "put 0 /f /t/f") (ascii_bytes "0") [47; 102] one_target bob [104; 105] hi_delivered hi_delivered
    [] 0 1).
  - vm_compute. reflexivity.
  - apply ann_names_bob.
  - vm_compute. reflexivity.
  - apply bob_reached.
  - exact hi_carries.
  - vm_compute. reflexivity.
  - simpl. lia.
  - lia.
  - vm_compute. reflexivity.
Defined.

Lemma forward_ll_never_ends_witness : exists relay, every_trio_run_ends
  (Trio (demo_command hi_file "ll 0 /t") (demo_session_loop 2 9) (demo_task 2 hi_delivered []) [] [] [] [])
  (Trio (Ret (ann hi_file, 0, [ShowEntries (peer_ll_entry hi_delivered [47; 116] <$> [[46]; [46; 46]; [102]])]))
     (RRecv AtPeer relay) (demo_task 1 hi_delivered []) [] [] [] []).
Proof.
  apply (forward_ll_never_ends (TG := get_copying) listing_host listing_host 1 3 1 10 (ann hi_file) two_clients
    (ascii_bytes "ll 0 /t") (ascii_bytes "0") [47; 116] bob [47; 116] [[46]; [46; 46]; [102]] hi_delivered [] 0 1 9).
  - vm_compute. reflexivity.
  - apply ann_names_bob.
  - apply bob_reached.
  - vm_compute. reflexivity.
  - vm_compute. reflexivity.
  - vm_compute. reflexivity.
  - reflexivity.
  - simpl. lia.
  - simpl. lia.
  - simpl. lia.
  - simpl. lia.
Defined.

Lemma write_never_answered_witness : exists k, every_trio_run_ends
  (Trio (demo_command hi_file "write 0 hello") (demo_session_loop 2 9) (demo_task 2 hi_delivered []) [] [] [] [])
  (Trio (Recv k) (demo_session_loop 1 9) (demo_task 1 hi_delivered [ShowText [ascii_bytes "hello"]]) [] [] [] []).
Proof.
  apply (write_never_answered (TL := ll_copying) (TG := get_copying) listing_host listing_host 1 3 1 10 (ann hi_file) two_clients
    (ascii_bytes "write 0 hello") (ascii_bytes "0") (ascii_bytes "hello") bob hi_delivered [] 0 0 9).
  - vm_compute. reflexivity.
  - apply ann_names_bob.
  - apply bob_reached.
Defined.
